(* ===== verification/_CoqProject ===== *)
-Q . S2P
Prelude.v
Bytes.v
Regs.v
Types.v
Osdep.v
Trace.v
Mbx.v
MbxProps.v
MbxSafe.v
Dcb.v
DcbProps.v
Dcb82598.v
Dcb82599.v
DcbApi.v
DcbHwProps.v
Plain.v
Filters.v
FilterProps.v
VlanProps.v
Semaphore.v
SemProps.v
Eeprom.v
EepromProps.v
NvmProps.v
FlowControl.v
FcProps.v
HostIf.v
HostIfProps.v
X540.v
X540Props.v
Packing.v
PackingProps.v
Fdir.v
FdirProps.v
FdirHwProps.v
Queues.v
QueueProps.v
RingProps.v
VectorProps.v
SchemeProps.v
PfState.v
Adapter.v
X550.v
Sriov.v
SriovCfg.v
SriovCore.v
SriovFrame.v
SriovSafe.v
SriovMsg.v
SriovAdmin.v
SriovProps.v
RegsE610.v
Aci.v
AciSafe.v
AciDev.v
AciRpc.v
AciUnit.v
AciNvm.v
AciNvmFw.v
AciProps.v
Status.v
Pldm.v
PldmParse.v
PldmEngine.v
PldmProps.v
AciCaps.v
AciSession.v
CapsProps.v
FwUpdate.v
FwTalk.v
FwSession.v
FwProps.v
I2c.v
I2cBus.v
I2cProps.v
Phy.v
Mdio.v
PhyProps.v
SfpProps.v
