(* ===== verification/Prelude.v ===== *)
(** * A verification library for the ixgbe shared code

    The program is the Intel ixgbe Ethernet driver.  Its core is the "shared
    code" under src/src/: routines that drive the adapter through 32-bit
    registers, poll it, share it with the firmware and with the drivers of the
    other ports by hardware semaphores, and keep a software image of it in
    [struct ixgbe_hw].  This library models that code function by function and
    proves what makes it correct.

    ** How C code is modelled

    - A [w]-bit unsigned value is a [Z] in [0, 2^w); truncations are written
      out ([u8], [u16], [u32], [bnot]).  Bit operations are those of [Z].
    - A routine is a computation [comp S A] on a state ([M A] of Osdep.v for
      code that touches the adapter): it ends with a value and a state, or in a
      [Fault] (use of a NULL pointer, array access out of bounds, exhausted
      fuel).  [wp m Q s] says that [m] ends without a fault in a state that
      satisfies [Q].
    - Loops with a constant or computed bound are [for_loop], [for_acc],
      [for_collect] and [for_break] ([break], [return] and [goto] leave it).
    - The adapter is not in the sources.  It is the class [Mmio] of Osdep.v,
      any state machine that answers reads, takes writes and sees time pass.
      Theorems hold for every device, or for those whose registers of interest
      are plain storage (class [PlainRegs]), or that implement EERD/EEWR (class
      [EerdDevice] of NvmProps.v).
    - Function pointers whose targets are outside the modelled MACs are
      arguments of the definitions that call them; their laws are classes.

    ** The files

    - Prelude.v: integers, computations, loops, weakest preconditions, tactics.
      Bytes.v: byte buffers as words, little endian.  Status.v: sequences of
      calls that stop at the first error code.
    - Regs.v: register offsets, masks, opcodes and error codes of ixgbe_type.h,
      ixgbe_mbx.h, ixgbe_dcb*.h, ixgbe_phy.h.  Types.v: [struct ixgbe_hw] and its parts.
    - Osdep.v: register access of ixgbe_osdep.h, ixgbe_osdep2.h and
      ixgbe_main.c ([ixgbe_read_reg], removal detection).
    - Trace.v: [traces st c m T], what a computation puts on the bus of any
      device, as a list of accesses.  Plain.v: [plain h s m Q], Hoare triples
      over register contents [s].
    - Mbx.v (ixgbe_mbx.c) with MbxProps.v and MbxSafe.v: PF/VF mailbox.
    - Dcb.v, Dcb82598.v, Dcb82599.v, DcbApi.v (ixgbe_dcb*.c) with DcbProps.v and
      DcbHwProps.v: bandwidth credits, rule check, arbiters, priority flow
      control, statistics.
    - Filters.v (ixgbe_common.c, ixgbe_82598.c, wrappers of ixgbe_api.c) with
      FilterProps.v and VlanProps.v: receive addresses, pools, multicast table,
      VLAN filter.
    - Semaphore.v with SemProps.v: SWSM and GSSR locks, and the interface
      [SwFwSync] through which the other components know a lock.
    - Eeprom.v with EepromProps.v and NvmProps.v: SPI bit-banging, EERD/EEWR,
      checksum; the interface [NvmOps] states what word access promises.
    - FlowControl.v with FcProps.v: 802.3x flow control.
    - HostIf.v with HostIfProps.v: commands to the manageability firmware.
      The last four model ixgbe_common.c.
    - X540.v (ixgbe_x540.c) with X540Props.v: EEPROM access under the lock, the
      checksum, the flash update and the SW_FW_SYNC semaphore.
    - Fdir.v (ixgbe_82599.c) with FdirProps.v (hashes) and FdirHwProps.v
      (commands, masks): the Flow Director.
    - Packing.v (kcompat_packing.c) with PackingProps.v: the back-ported packing
      library.
    - Queues.v (ixgbe_lib.c): queue counts, rings, interrupt vectors, with
      QueueProps.v (counts), RingProps.v (ring to hardware queue), VectorProps.v
      (allocation and release) and SchemeProps.v (the whole bring-up).
    - PfState.v: the state of the physical function (PF) that the next files
      share.  Adapter.v (ixgbe_main.c): the software table of receive addresses,
      the VLAN filter of the PF, [ixgbe_set_rx_mode].  X550.v (ixgbe_x550.c):
      malicious driver detection, anti-spoofing.  Sriov.v (ixgbe_sriov.c): the
      messages and resets of the virtual functions (VFs) and the operations of
      the administrator.  SriovCfg.v: enabling and disabling SR-IOV.
    - SriovCore.v (what the shared code leaves alone), SriovFrame.v (the
      invariant [wf], the isolation relation [iso], rules), SriovSafe.v,
      SriovMsg.v and SriovAdmin.v (every routine run by the rules) carry
      SriovProps.v.
    - RegsE610.v: registers, opcodes and flash offsets of ixgbe_type_e610.h.
      Aci.v (ixgbe_e610.c): the admin command interface (ACI) of E610, a command
      sent through registers to the firmware, and the resource locks built on
      it.  AciNvm.v (ixgbe_e610.c): the flash and the Shadow RAM behind it.
      AciSafe.v runs the interface on any device; AciDev.v states what a
      firmware behind the registers does ([AciDevice]); AciRpc.v shows that a
      command is then a call of a function of the firmware; AciNvmFw.v states
      what the flash commands of that function do.  AciUnit.v has concrete
      devices.  AciProps.v has the theorems.
    - Pldm.v (kcompat_pldmfw.c): the PLDM firmware package parser and the
      update engine.  PldmParse.v (what the parser accepts) and PldmEngine.v (what
      the engine calls) carry PldmProps.v, which has a writer of packages too.
    - AciCaps.v (ixgbe_e610.c): device and function capabilities, with
      CapsProps.v.  FwUpdate.v (ixgbe_fw_update.c): the firmware update.
    - AciSession.v: a logic of sessions, [speaks], which lists the commands a
      routine gave the firmware with their answers, and the sessions of the
      flash commands.  FwTalk.v and FwSession.v run the update in it and
      carry FwProps.v.
    - I2c.v (ixgbe_phy.c): the bit-banged I2C master.  I2cBus.v: an adapter with a
      bus ([I2cBus]) and a device on it ([I2cSlave]), the protocol as a function on
      that device, and that the master speaks it.  I2cProps.v: the EEPROM of an
      SFP module as such a device, and the theorems.
    - Phy.v (ixgbe_phy.c): MDIO, PHYs and pluggable modules.  Mdio.v: what PHY
      access promises ([PhyRegs]) and what an adapter that runs clause 45 cycles
      does ([MdioDevice]); the MDIO functions implement the first on the second.
      PhyProps.v: MDIO round trip, advertised speeds.  SfpProps.v: identification
      of modules against [SfpModule], which I2c.v implements on the module of
      I2cProps.v, and the PHY initialisation sequence against [NvmOps].

    ** What the theorems show

    - Register access: reads end after a bounded number of bus events on any
      device; they return what the register holds on a healthy one; a removed
      adapter is detected by the first read, once, and never accessed again.
    - Mailbox: the lock, write, signal and acknowledge protocol of the PF path
      on any device; a message written by the PF is what the VF reads; the
      read-to-clear VF bits are never lost; no NULL call and no access out of
      bounds after initialisation, in any order of requests.
    - DCB: credits are proportional and cover a frame; the rule check decides
      the documented rules up to its 8-bit sums (and a configuration the wrap
      lets through); arbiters are programmed only while disabled; the priority
      map read back is the one programmed; PFC thresholds per class.
    - Filters: address round trip; the recursion between [clear_vmdq] and
      [clear_rar] ends; the multicast table has exactly the bits of the list;
      for every history of calls the VLAN filter refines a set of pairs of VLAN
      and pool ([vlan_ops]), which fixes each return code, the acceptance bit of
      every VLAN in VFTA and its pools in VLVFB.
    - Semaphores: the acquire protocol on any device, with its time bound.  The
      users of a lock (bit-bang EEPROM access, host interface) are proved against
      [SwFwSync], never to hold it at their end; GSSR implements it for any mask.
    - EEPROM: bits on the wire in order, most significant first; the checksum
      computed is the reference one for any contents; update makes validation
      succeed, unless a section covers the checksum word; what is written through EEWR is read through EERD.  The checksum
      is proved against [NvmOps]; EERD/EEWR implement it.
    - Flow control: the registers programmed for each mode; two ports that
      negotiate agree on who sends and who honours pause frames.
    - Host interface: the buffer is never overrun if it has three words, and is
      otherwise for a suitable answer; the window is used only under the lock;
      the driver-information command carries a valid checksum.
    - X540: the acquire protocol of SW_FW_SYNC on any device and its time bound;
      the path that takes a resource another driver holds.
    - Packing: fields that pass the compile-time checks survive packing and
      unpacking in a buffer whose length suits the quirks ([good_layout], which
      the code does not check); the byte permutation is one to one exactly for the layouts
      that the quirks allow.
    - Flow Director: both optimised hashes equal the bit-serial hash with the
      documented keys; the mask check accepts what the hardware can apply; a
      filter is complete before its command is issued; commands complete on a
      device that stays present and finishes in time.
    - Queues: every layout gives well-formed counts; if these fit the ring arrays
      and FCoE is off, bring-up gives each ring one vector and its own hardware queue, or frees everything and reports
      the error; tear-down leaves nothing; two configurations in which the
      ring mapping collides or the ring arrays are too small.
    - SR-IOV: whatever the VFs put into their mailboxes, and in any order with
      the administrator's requests, the PF ends every routine, stays inside its
      arrays and keeps its invariant, unless the hardware reports a malicious
      event of a pool without VF; serving one VF leaves the data and filters
      of the others and the administrator's settings alone (but for an address
      that a full address table clears), and gives an
      untrusted VF neither a foreign address nor a promiscuous mode; enabling
      establishes the invariant.  Two faults: a failed allocation that a comment
      calls harmless, and malicious events of pools without VF.
    - E610: on any device a command ends, leaves the mutex free and its
      registers are used only under it, in the order of the protocol; on a
      device whose firmware answers, a command is one call of the firmware,
      whatever the number of polls; a flat read returns the bytes of the flash
      although it is cut at the sectors; the bisection finds the size of the
      flash; the Shadow RAM checksum is that of the words outside
      the two modules left out; the search of the
      Preserved Field Area finds the first module of the type and ends, for
      well-formed areas, and never ends for some others.
    - Firmware packages: the parser accepts exactly the files that [package_at]
      describes, reads nothing outside the file, and recovers what the encoder
      wrote but for the device update flags ([forget_flags]); the engine gives the operations the data of the first matching
      record and of its components, in order, and stops at the first error.
      Files with more components than bits in the bitmap read behind it.
    - Capabilities: the structures hold what the elements of the firmware's
      lists say; a count above the buffer is read beyond it.
    - Firmware update, for every answer of the firmware and every file but for the
      two unchecked counts above: it ends;
      the NVM is used only while it is granted and always released; a failed
      update activates nothing; a successful one wrote every block of every
      component of the record and activated exactly those banks.
    - I2C: on every MAC and for every device on the bus, a byte read does to the
      device what the protocol says, with recovery and a bounded number of
      retries; a byte written to a module is read back; an absent module is an
      error; the checksum of a combined read is dropped.
    - PHY: what is written by MDIO is read back, however long the cycles take; link
      set-up advertises 10G, 1G and 100M (2.5G and 5G where the MAC has them)
      exactly if requested and supported, and leaves the other bits alone.
    - Modules: the type of a module is the one the bits of SFF-8472 say; it is
      accepted only for one of the listed reasons (one of them a type left over
      from the module before), whatever its EEPROM says; the
      search for its initialisation sequence and the sequence itself end for any
      EEPROM, and a sequence that encodes a list of commands performs exactly
      their register writes.

    ** Bounds and fuel

    Retry and poll loops carry the source's counts.  [ixgbe_clear_vmdq_generic]
    has two units of fuel: a second nested call finds the pool words zero
    ([clear_vmdq_terminates]).  The burst loops of a bit-bang write have [words]
    plus one iterations, enough because each step advances an index below
    [words]; a transfer of more than 65280 words is excluded, since there the
    16-bit chunk index wraps.  A checksum section has 65536 units, as many as
    there are 16-bit offsets; reads beyond the part fail and end it.  A flat read
    of [n] bytes has [n / 4096 + 2] steps, since all but the first and the last
    are a whole sector; the bisection of the flash size has 25, since it halves
    [2^24]; polling for a resource has one per ten milliseconds of the time the
    firmware gave.  The search of the Preserved Field Area has no bound in the
    code: its fuel is an argument of the model.  The loop over the components
    of a package has as many rounds as the file has bytes, plus one: all but the
    last move the offset in the file.  Writing [n] bytes to the flash has
    [n / 4096 + 1] rounds of 4096 bytes.  The list of modules has 32768 steps, one
    per two 16-bit offsets, and the PHY initialisation sequence 65536, one per
    offset ([reset_phy_nl_ends]).

    ** What is not modelled

    The data path, netdev, ethtool, devlink, debugfs and procfs code (kernel
    objects), the kernel compatibility layer but for the packing and PLDM libraries, the
    rest of ixgbe_x550.c and of ixgbe_e610.c (link, PHY, firmware log),
    reset and link set-up of 82598, 82599 and X540, the start-up helpers of
    ixgbe_common.c, module parameters, PTP, FCoE, AF_XDP and the FreeBSD layer.
    Debug output and delays that only sleep longer are dropped; accesses by other
    agents between two accesses of a routine are covered where the device is
    arbitrary. *)
From Stdlib Require Import ZArith Lia Btauto.
From stdpp Require Export base tactics numbers list option.
#[export] Set Default Goal Selector "!".
#[global] Open Scope Z_scope.

(** ** C integers

    A [w]-bit unsigned C value is a [Z] in [0, 2^w); every operation that can
    leave the range is followed by an explicit truncation. *)
Definition trunc (w x : Z) : Z := x mod 2 ^ w.
Abbreviation u8 := (trunc 8).
Abbreviation u16 := (trunc 16).
Abbreviation u32 := (trunc 32).
Abbreviation u64 := (trunc 64).

(** [~x] on [w] bits *)
Definition bnot (w x : Z) : Z := trunc w (Z.lnot x).

(** [1 << n] *)
Definition bit (n : Z) : Z := Z.shiftl 1 n.

(** the C condition [x & m] *)
Definition has (x m : Z) : bool := negb (Z.land x m =? 0).

(** conversion of a [w]-bit pattern to the signed value (u32 returned as s32) *)
Definition sext (w x : Z) : Z :=
  let y := trunc w x in if y <? 2 ^ (w - 1) then y else y - 2 ^ w.

Definition in_range (w x : Z) : Prop := 0 <= x < 2 ^ w.

(** ** Computations with a state and faults

    [Fault] is what the C code must never reach: a call through a NULL
    function pointer, an access outside an array, a mutex its holder waits for,
    or (for loops that are not bounded by a constant) exhausted fuel. *)
Inductive fault := FNullCall | FOutOfBounds | FDeadlock | FOutOfFuel.

Inductive outcome (S A : Type) :=
| Done (a : A) (s : S)
| Fault (f : fault).
Arguments Done {S A} a s.
Arguments Fault {S A} f.

Definition comp (S A : Type) : Type := S -> outcome S A.

#[export] Instance comp_ret {S} : MRet (comp S) := fun A a s => Done a s.
#[export] Instance comp_bind {S} : MBind (comp S) := fun A B f m s =>
  match m s with
  | Done a s' => f a s'
  | Fault e => Fault e
  end.

Definition get {S} : comp S S := fun s => Done s s.
Definition gets {S A} (f : S -> A) : comp S A := fun s => Done (f s) s.
Definition modify {S} (f : S -> S) : comp S unit := fun s => Done tt (f s).
Definition crash {S A} (e : fault) : comp S A := fun _ => Fault e.

(** array read [l[i]]: outside the array is a fault, not a default *)
Definition nth_c {S A} (l : list A) (i : Z) : comp S A :=
  if i <? 0 then crash FOutOfBounds
  else match l !! Z.to_nat i with
       | Some a => mret a
       | None => crash FOutOfBounds
       end.

(** array write [l[i] = x] on a pure list *)
Definition upd_c {S A} (l : list A) (i : Z) (x : A) : comp S (list A) :=
  if (i <? 0) || (Z.of_nat (length l) <=? i) then crash FOutOfBounds
  else mret (<[Z.to_nat i := x]> l).

(** ** Loops *)

(** [for (k = i; n times; k++) body(k)] *)
Fixpoint for_loop {S} (n : nat) (i : Z) (body : Z -> comp S unit) : comp S unit :=
  match n with
  | O => mret tt
  | Datatypes.S n' => body i ;; for_loop n' (i + 1) body
  end.

(** the same, collecting one value per iteration *)
Fixpoint for_collect {S A} (n : nat) (i : Z) (body : Z -> comp S A) : comp S (list A) :=
  match n with
  | O => mret []
  | Datatypes.S n' => a ← body i; l ← for_collect n' (i + 1) body; mret (a :: l)
  end.

(** the same, threading an accumulator *)
Fixpoint for_acc {S A} (n : nat) (i : Z) (a : A) (body : Z -> A -> comp S A) : comp S A :=
  match n with
  | O => mret a
  | Datatypes.S n' => a' ← body i a; for_acc n' (i + 1) a' body
  end.

(** a loop the body can leave: [inl] carries the accumulator of the next
    iteration, [inr] is [break], [return] or [goto out] *)
Fixpoint for_break {S A B} (n : nat) (i : Z) (a : A)
    (body : Z -> A -> comp S (A + B)) : comp S (A + B) :=
  match n with
  | O => mret (inl a)
  | Datatypes.S n' =>
      r ← body i a;
      match r with
      | inl a' => for_break n' (i + 1) a' body
      | inr b => mret (inr b)
      end
  end.

(** ** Weakest precondition: [m] started in [s] ends without a fault, in a
    state and with a value that satisfy [Q]. *)
Definition wp {S A} (m : comp S A) (Q : A -> S -> Prop) (s : S) : Prop :=
  match m s with
  | Done a s' => Q a s'
  | Fault _ => False
  end.

(** sum of a list *)
Definition zsum (l : list Z) : Z := foldr Z.add 0 l.
Lemma zsum_app l l' : zsum (l ++ l') = zsum l + zsum l'.
Proof. induction l; simpl; lia. Qed.

Create HintDb ixgbe.
Create Rewrite HintDb zbits.

Section Integers.
Implicit Types w x y i : Z.

Lemma trunc_range w x : 0 <= w -> in_range w (trunc w x).
Proof. intros. apply Z.mod_pos_bound, Z.pow_pos_nonneg; lia. Qed.

Lemma trunc_small w x : in_range w x -> trunc w x = x.
Proof. apply Z.mod_small. Qed.

Lemma trunc_idem w x : 0 <= w -> trunc w (trunc w x) = trunc w x.
Proof. intros. by apply trunc_small, trunc_range. Qed.

Lemma trunc_add_l w x y : 0 <= w -> trunc w (trunc w x + y) = trunc w (x + y).
Proof. intros. apply Z.add_mod_idemp_l. apply Z.pow_nonzero; lia. Qed.

Lemma testbit_trunc w x i :
  0 <= w -> Z.testbit (trunc w x) i = (i <? w) && Z.testbit x i.
Proof.
  intros Hw. unfold trunc.
  destruct (Z.ltb_spec i w) as [Hi|Hi]; simpl.
  - destruct (Z.le_gt_cases 0 i) as [H0|H0].
    + by rewrite Z.mod_pow2_bits_low by lia.
    + by rewrite !Z.testbit_neg_r by lia.
  - by rewrite Z.mod_pow2_bits_high by lia.
Qed.

Lemma testbit_bnot w x i :
  0 <= w -> 0 <= i -> Z.testbit (bnot w x) i = (i <? w) && negb (Z.testbit x i).
Proof. intros. unfold bnot. rewrite testbit_trunc, Z.lnot_spec by lia. done. Qed.

Lemma testbit_bit n i : 0 <= n -> Z.testbit (bit n) i = (i =? n).
Proof.
  intros Hn. unfold bit. rewrite Z.shiftl_1_l.
  destruct (Z.eqb_spec i n) as [->|Hne].
  - by rewrite Z.pow2_bits_true.
  - by rewrite Z.pow2_bits_false by lia.
Qed.

Lemma testbit_range w x i : in_range w x -> w <= i -> Z.testbit x i = false.
Proof.
  intros Hx Hi. rewrite <- (trunc_small w x Hx).
  destruct (Z.le_gt_cases 0 w) as [H0|H0].
  - rewrite testbit_trunc by done. by destruct (Z.ltb_spec i w); [lia|].
  - unfold in_range in Hx. rewrite (Z.pow_neg_r 2 w) in Hx by lia. lia.
Qed.

Lemma range_of_testbit w x :
  0 <= w -> 0 <= x -> (forall i, w <= i -> Z.testbit x i = false) -> in_range w x.
Proof.
  intros Hw Hx Hb. enough (trunc w x = x) as <- by by apply trunc_range.
  apply Z.bits_inj'. intros i Hi. rewrite testbit_trunc by done.
  destruct (Z.ltb_spec i w); simpl; [done|]. symmetry. by apply Hb.
Qed.

Lemma has_bit x n : 0 <= n -> has x (bit n) = Z.testbit x n.
Proof.
  intros Hn. unfold has. destruct (Z.testbit x n) eqn:E.
  - apply negb_true_iff, Z.eqb_neq. intros H0.
    apply (f_equal (fun z => Z.testbit z n)) in H0.
    rewrite Z.land_spec, E, testbit_bit, Z.eqb_refl, Z.bits_0 in H0 by done. done.
  - apply negb_false_iff, Z.eqb_eq, Z.bits_inj'. intros i Hi.
    rewrite Z.land_spec, testbit_bit, Z.bits_0 by done.
    destruct (Z.eqb_spec i n) as [->|]; [by rewrite E|by rewrite andb_false_r].
Qed.

Lemma bit_range w n : 0 <= n < w -> in_range w (bit n).
Proof.
  intros. unfold bit, in_range. rewrite Z.shiftl_1_l.
  split; [by apply Z.pow_nonneg|]. apply Z.pow_lt_mono_r; lia.
Qed.

Lemma land_range w x y : 0 <= w -> in_range w x -> 0 <= y -> in_range w (Z.land x y).
Proof.
  intros Hw Hx Hy. apply range_of_testbit; [done| |].
  - apply Z.land_nonneg. unfold in_range in Hx. lia.
  - intros i Hi. by rewrite Z.land_spec, (testbit_range w).
Qed.

Lemma lor_range w x y : 0 <= w -> in_range w x -> in_range w y -> in_range w (Z.lor x y).
Proof.
  intros Hw Hx Hy. apply range_of_testbit; [done| |].
  - apply Z.lor_nonneg. unfold in_range in *. lia.
  - intros i Hi. by rewrite Z.lor_spec, !(testbit_range w).
Qed.
Lemma lxor_range w x y : 0 <= w -> in_range w x -> in_range w y -> in_range w (Z.lxor x y).
Proof.
  intros Hw Hx Hy. apply range_of_testbit; [done| |].
  - apply Z.lxor_nonneg. unfold in_range in *. lia.
  - intros i Hi. rewrite Z.lxor_spec, !(testbit_range w) by done. done.
Qed.

Lemma bnot_range w x : 0 <= w -> in_range w (bnot w x).
Proof. apply trunc_range. Qed.
End Integers.

#[export] Hint Rewrite testbit_trunc testbit_bnot testbit_bit Z.land_spec Z.lor_spec
  Z.lxor_spec Z.lnot_spec Z.shiftl_spec Z.shiftr_spec Z.bits_0 using lia : zbits.
#[export] Hint Resolve trunc_range bit_range land_range lor_range bnot_range : ixgbe.

(** [lia] with division and modulo by constants. *)
Ltac zlia := Z.to_euclidean_division_equations; lia.

(** Equality of two integers bit by bit. *)
Ltac bitwise i :=
  apply Z.bits_inj'; intros i ?; autorewrite with zbits;
  repeat match goal with
  | |- context [?a <? ?b] => destruct (Z.ltb_spec a b)
  | |- context [?a =? ?b] => destruct (Z.eqb_spec a b)
  end; subst; simpl; autorewrite with zbits; try btauto.

Section WP.
Context {S : Type}.
Implicit Types s : S.

Lemma wp_ret {A} (a : A) (Q : A -> S -> Prop) s : Q a s -> wp (mret a) Q s.
Proof. done. Qed.

Lemma wp_bind {A B} (m : comp S A) (f : A -> comp S B) Q s :
  wp m (fun a s' => wp (f a) Q s') s -> wp (m ≫= f) Q s.
Proof. unfold wp, mbind, comp_bind. by destruct (m s). Qed.

Lemma wp_mono {A} (m : comp S A) (P Q : A -> S -> Prop) s :
  wp m P s -> (forall a s', P a s' -> Q a s') -> wp m Q s.
Proof. unfold wp. destruct (m s); naive_solver. Qed.

Lemma wp_get (Q : S -> S -> Prop) s : Q s s -> wp get Q s.
Proof. done. Qed.

Lemma wp_gets {A} (f : S -> A) (Q : A -> S -> Prop) s : Q (f s) s -> wp (gets f) Q s.
Proof. done. Qed.

Lemma wp_modify (f : S -> S) (Q : unit -> S -> Prop) s : Q tt (f s) -> wp (modify f) Q s.
Proof. done. Qed.

Lemma wp_done {A} (m : comp S A) Q s :
  wp m Q s <-> exists a s', m s = Done a s' /\ Q a s'.
Proof. unfold wp. destruct (m s); naive_solver. Qed.

Lemma wp_conj {A} (m : comp S A) (P Q : A -> S -> Prop) s :
  wp m P s -> wp m Q s -> wp m (fun a s' => P a s' /\ Q a s') s.
Proof. unfold wp. destruct (m s); naive_solver. Qed.

Lemma wp_nth_c {A} (l : list A) i a (Q : A -> S -> Prop) s :
  0 <= i -> l !! Z.to_nat i = Some a -> Q a s -> wp (nth_c l i) Q s.
Proof.
  intros Hi Hl HQ. unfold nth_c, wp.
  destruct (Z.ltb_spec i 0); [lia|]. by rewrite Hl.
Qed.

Lemma wp_upd_c {A} (l : list A) i x (Q : list A -> S -> Prop) s :
  0 <= i < Z.of_nat (length l) -> Q (<[Z.to_nat i := x]> l) s -> wp (upd_c l i x) Q s.
Proof.
  intros Hi HQ. unfold upd_c, wp.
  destruct (Z.ltb_spec i 0); [lia|]. destruct (Z.leb_spec (Z.of_nat (length l)) i); [lia|].
  done.
Qed.

(** Loop rules: an invariant indexed by the loop counter. *)
Lemma wp_for_loop n i (body : Z -> comp S unit) (Inv : Z -> S -> Prop) s :
  Inv i s ->
  (forall k s', i <= k < i + Z.of_nat n -> Inv k s' ->
     wp (body k) (fun _ s'' => Inv (k + 1) s'') s') ->
  wp (for_loop n i body) (fun _ s' => Inv (i + Z.of_nat n) s') s.
Proof.
  revert i s. induction n as [|n IH]; intros i s H0 Hb; simpl.
  - apply wp_ret. by replace (i + Z.of_nat 0) with i by lia.
  - apply wp_bind. eapply wp_mono; [apply Hb; [lia|done]|].
    simpl. intros _ s' H1.
    eapply wp_mono; [apply IH; [done|]|].
    + intros k s'' Hk. apply Hb. lia.
    + simpl. intros _ s''. by replace (i + 1 + Z.of_nat n) with (i + Z.of_nat (Datatypes.S n)) by lia.
Qed.

Lemma wp_for_acc {A} n i (a : A) (body : Z -> A -> comp S A) (Inv : Z -> A -> S -> Prop) s :
  Inv i a s ->
  (forall k b s', i <= k < i + Z.of_nat n -> Inv k b s' ->
     wp (body k b) (fun b' s'' => Inv (k + 1) b' s'') s') ->
  wp (for_acc n i a body) (fun b s' => Inv (i + Z.of_nat n) b s') s.
Proof.
  revert i a s. induction n as [|n IH]; intros i a s H0 Hb; simpl.
  - apply wp_ret. by replace (i + Z.of_nat 0) with i by lia.
  - apply wp_bind. eapply wp_mono; [apply Hb; [lia|done]|].
    simpl. intros a' s' H1.
    eapply wp_mono; [apply IH; [done|]|].
    + intros k b s'' Hk. apply Hb. lia.
    + simpl. intros b s''. by replace (i + 1 + Z.of_nat n) with (i + Z.of_nat (Datatypes.S n)) by lia.
Qed.

Lemma wp_for_collect {A} n i (body : Z -> comp S A) (Inv : Z -> list A -> S -> Prop) s :
  Inv i [] s ->
  (forall k l s', i <= k < i + Z.of_nat n -> Inv k l s' ->
     wp (body k) (fun a s'' => Inv (k + 1) (l ++ [a]) s'') s') ->
  wp (for_collect n i body) (fun l s' => Inv (i + Z.of_nat n) l s') s.
Proof.
  intros H0 Hb.
  enough (forall n' k l s', i <= k -> k + Z.of_nat n' = i + Z.of_nat n -> Inv k l s' ->
    wp (for_collect n' k body) (fun l' s'' => Inv (i + Z.of_nat n) (l ++ l') s'') s') as Hg.
  { specialize (Hg n i [] s). simpl in Hg. apply Hg; [lia|lia|done]. }
  induction n' as [|n' IH]; intros k l s' Hk He Hi; simpl.
  - apply wp_ret. rewrite app_nil_r. by replace (i + Z.of_nat n) with k by lia.
  - apply wp_bind. eapply wp_mono; [apply Hb; [lia|done]|]. simpl. intros a s1 H1.
    apply wp_bind. eapply wp_mono; [apply (IH (k + 1)); [lia|lia|done]|].
    simpl. intros l' s2 H2. apply wp_ret. by rewrite <- app_assoc in H2.
Qed.

Lemma for_break_S {A B} n i (a : A) (body : Z -> A -> comp S (A + B)) :
  for_break (Datatypes.S n) i a body =
    (r ← body i a;
     match r with inl a' => for_break n (i + 1) a' body | inr b => mret (inr b) end).
Proof. done. Qed.

Lemma wp_for_break {A B} n i (a : A) (body : Z -> A -> comp S (A + B))
    (Inv : Z -> A -> S -> Prop) (Q : A + B -> S -> Prop) s :
  Inv i a s ->
  (forall k b s', i <= k < i + Z.of_nat n -> Inv k b s' ->
     wp (body k b) (fun r s'' => match r with
                                 | inl b' => Inv (k + 1) b' s''
                                 | inr c => Q (inr c) s''
                                 end) s') ->
  (forall b s', Inv (i + Z.of_nat n) b s' -> Q (inl b) s') ->
  wp (for_break n i a body) Q s.
Proof.
  revert i a s. induction n as [|n IH]; intros i a s H0 Hb He; simpl.
  - apply wp_ret, He. by replace (i + Z.of_nat 0) with i by lia.
  - apply wp_bind. eapply wp_mono; [apply Hb; [lia|done]|].
    simpl. intros [b|c] s' H1; [|by apply wp_ret].
    apply IH; [done| |].
    + intros k b' s'' Hk. apply Hb. lia.
    + intros b' s'' H2. apply He.
      by replace (i + Z.of_nat (Datatypes.S n)) with (i + 1 + Z.of_nat n) by lia.
Qed.
End WP.

#[global] Arguments for_loop : simpl never.
#[global] Arguments for_acc : simpl never.
#[global] Arguments for_collect : simpl never.
#[global] Arguments for_break : simpl never.
#[global] Arguments trunc : simpl never.
#[global] Arguments bnot : simpl never.
#[global] Arguments bit : simpl never.
#[global] Arguments has : simpl never.
#[global] Arguments wp : simpl never.

#[export] Hint Resolve wp_ret wp_get wp_gets wp_modify : ixgbe.

(** One step of symbolic execution of a computation under [wp]. *)
Ltac wp_step :=
  lazymatch goal with
  | |- wp (mbind _ _) _ _ => apply wp_bind
  | |- wp (mret _) _ _ => apply wp_ret
  | |- wp get _ _ => apply wp_get
  | |- wp (gets _) _ _ => apply wp_gets
  | |- wp (modify _) _ _ => apply wp_modify
  | |- wp (if ?b then _ else _) _ _ => destruct b eqn:?
  | |- wp (let '(_, _) := ?p in _) _ _ => destruct p eqn:?
  end; cbv beta.
Ltac wp_steps := repeat wp_step.
