(* ===== verification/Bytes.v ===== *)
(** * Byte buffers

    The C code views the same memory as bytes, as little-endian 16- and 32-bit
    integers and as packed structs.  A memory area is the list of its bytes; the
    struct members of [__le16] and [__le32] type are read and written at their
    byte offset. *)
From S2P Require Import Prelude.

Definition byte (x : Z) : Prop := in_range 8 x.

(** ** Words of four bytes *)
Definition le32_of (a b c d : Z) : Z :=
  Z.lor (Z.lor (Z.lor a (Z.shiftl b 8)) (Z.shiftl c 16)) (Z.shiftl d 24).

Fixpoint words_of (l : list Z) : list Z :=
  match l with
  | a :: b :: c :: d :: l' => le32_of a b c d :: words_of l'
  | _ => []
  end.

Definition bytes_of_word (w : Z) : list Z :=
  [u8 w; u8 (Z.shiftr w 8); u8 (Z.shiftr w 16); u8 (Z.shiftr w 24)].
Definition bytes_of (l : list Z) : list Z := l ≫= bytes_of_word.

(** ** Struct members *)

(** the member at byte offset [i] of a struct with that layout *)
Definition get8 (l : list Z) (i : nat) : Z := nth i l 0.
Definition get16 (l : list Z) (i : nat) : Z := Z.lor (get8 l i) (Z.shiftl (get8 l (i + 1)) 8).
Definition get32 (l : list Z) (i : nat) : Z :=
  le32_of (get8 l i) (get8 l (i + 1)) (get8 l (i + 2)) (get8 l (i + 3)).

Definition put8 (i : nat) (x : Z) (l : list Z) : list Z := <[i := u8 x]> l.
Definition put16 (i : nat) (x : Z) (l : list Z) : list Z :=
  put8 (i + 1) (Z.shiftr x 8) (put8 i x l).
Definition put32 (i : nat) (x : Z) (l : list Z) : list Z :=
  put16 (i + 2) (Z.shiftr x 16) (put16 i x l).

(** ** [memcpy] between areas: reading or writing past the end is a fault *)
Section Copy.
Context {S : Type}.

(** the first [n] bytes of [src] *)
Definition copy_from (src : list Z) (n : Z) : comp S (list Z) :=
  if Z.of_nat (length src) <? n then crash FOutOfBounds else mret (take (Z.to_nat n) src).

(** [src] over the first bytes of [dst] *)
Definition copy_to (dst src : list Z) : comp S (list Z) :=
  if Z.of_nat (length dst) <? Z.of_nat (length src) then crash FOutOfBounds
  else mret (src ++ drop (length src) dst).
End Copy.

#[global] Arguments le32_of : simpl never.
#[global] Arguments bytes_of : simpl never.

(** ** Lemmas *)
Lemma le32_of_range a b c d : byte a -> byte b -> byte c -> byte d -> in_range 32 (le32_of a b c d).
Proof.
  intros Ha Hb Hc Hd. apply range_of_testbit; [lia| |].
  - unfold le32_of. rewrite !Z.lor_nonneg, !Z.shiftl_nonneg. unfold byte, in_range in *. lia.
  - intros i Hi. unfold le32_of. rewrite !Z.lor_spec, !Z.shiftl_spec by lia.
    rewrite (testbit_range 8 a), (testbit_range 8 b), (testbit_range 8 c), (testbit_range 8 d);
      try done; lia.
Qed.

Lemma bytes_of_le32 a b c d : byte a -> byte b -> byte c -> byte d ->
  bytes_of_word (le32_of a b c d) = [a; b; c; d].
Proof.
  intros Ha Hb Hc Hd.
  assert (Hout : forall x i, byte x -> 8 <= i -> Z.testbit x i = false)
    by (intros x i Hx Hi; by apply (testbit_range 8)).
  unfold bytes_of_word, le32_of. f_equal; [|f_equal; [|f_equal; [|f_equal]]];
    apply Z.bits_inj'; intros i Hi; autorewrite with zbits;
    (destruct (Z.ltb_spec i 8) as [H|H]; simpl; [|symmetry; by apply Hout]);
    repeat match goal with
    | |- context [Z.testbit ?x ?j] =>
        first [rewrite (Z.testbit_neg_r x j) by lia | rewrite (Hout x j) by (done || lia)]
    end; rewrite ?orb_false_l, ?orb_false_r; f_equal; lia.
Qed.

Lemma word_of_bytes w : in_range 32 w ->
  le32_of (u8 w) (u8 (Z.shiftr w 8)) (u8 (Z.shiftr w 16)) (u8 (Z.shiftr w 24)) = w.
Proof.
  intros Hw. unfold le32_of. apply Z.bits_inj'. intros i Hi. rewrite !Z.lor_spec, !Z.shiftl_spec by lia.
  assert (H8 : forall x j, Z.testbit (u8 x) j = (j <? 8) && Z.testbit x j)
    by (intros; by apply testbit_trunc).
  rewrite !H8.
  destruct (Z.lt_ge_cases i 8); [|destruct (Z.lt_ge_cases i 16); [|destruct (Z.lt_ge_cases i 24);
    [|destruct (Z.lt_ge_cases i 32)]]];
  repeat match goal with
  | |- context [?a <? ?b] => destruct (Z.ltb_spec a b); [|try lia]; try lia
  end; rewrite ?Z.shiftr_spec by lia; simpl;
  repeat match goal with
  | |- context [Z.testbit ?x (i - ?k)] => rewrite (Z.testbit_neg_r x (i - k)) by lia
  end; rewrite ?orb_false_r, ?orb_false_l; try (f_equal; lia).
  symmetry. by apply (testbit_range 32).
Qed.

Lemma bytes_of_cons w l : bytes_of (w :: l) = bytes_of_word w ++ bytes_of l.
Proof. done. Qed.
Lemma bytes_of_app l l' : bytes_of (l ++ l') = bytes_of l ++ bytes_of l'.
Proof. unfold bytes_of. apply bind_app. Qed.
Lemma length_bytes_of l : length (bytes_of l) = (4 * length l)%nat.
Proof. induction l as [|w l IH]; [done|]. rewrite bytes_of_cons, length_app, IH. simpl. lia. Qed.
Lemma bytes_of_bytes l : Forall byte (bytes_of l).
Proof.
  induction l as [|w l IH]; [constructor|]. rewrite bytes_of_cons. apply Forall_app. split; [|done].
  repeat constructor; by apply trunc_range.
Qed.

(** the two views of an area whose size is a multiple of four *)
Lemma words_of_ind (P : list Z -> Prop) :
  P [] -> (forall a b c d l, P l -> P (a :: b :: c :: d :: l)) ->
  forall n l, length l = (4 * n)%nat -> P l.
Proof.
  intros H0 H1. induction n as [|n IH]; intros l Hl.
  - destruct l; [done|simpl in Hl; lia].
  - do 4 (destruct l as [|? l]; [simpl in Hl; lia|]). apply H1, IH. simpl in Hl. lia.
Qed.

Lemma bytes_words n l : length l = (4 * n)%nat -> Forall byte l -> bytes_of (words_of l) = l.
Proof.
  revert l. refine (words_of_ind (fun l => Forall byte l -> _) _ _ n); [done|].
  intros a b c d l IH Hb. simpl. rewrite bytes_of_cons.
  inversion_clear Hb as [|?? Ha Hb1]. inversion_clear Hb1 as [|?? Hb' Hb2].
  inversion_clear Hb2 as [|?? Hc Hb3]. inversion_clear Hb3 as [|?? Hd Hl].
  rewrite bytes_of_le32 by done. simpl. by rewrite IH.
Qed.

Lemma words_bytes l : Forall (in_range 32) l -> words_of (bytes_of l) = l.
Proof.
  induction 1 as [|w l Hw _ IH]; [done|]. rewrite bytes_of_cons. simpl. by rewrite word_of_bytes, IH.
Qed.

Lemma length_words_of n l : length l = (4 * n)%nat -> length (words_of l) = n.
Proof.
  revert l. induction n as [|n IH]; intros l Hl.
  - destruct l; [done|simpl in Hl; lia].
  - do 4 (destruct l as [|? l]; [simpl in Hl; lia|]). simpl. f_equal. apply IH. simpl in Hl. lia.
Qed.

Lemma words_of_range n l : length l = (4 * n)%nat -> Forall byte l -> Forall (in_range 32) (words_of l).
Proof.
  revert l. refine (words_of_ind (fun l => Forall byte l -> _) _ _ n); [constructor|].
  intros a b c d l IH Hb. simpl.
  inversion_clear Hb as [|?? Ha Hb1]. inversion_clear Hb1 as [|?? Hb' Hb2].
  inversion_clear Hb2 as [|?? Hc Hb3]. inversion_clear Hb3 as [|?? Hd Hl].
  constructor; [by apply le32_of_range|by apply IH].
Qed.

Lemma wp_copy_from {S} src n (Q : list Z -> S -> Prop) s :
  n <= Z.of_nat (length src) -> Q (take (Z.to_nat n) src) s -> wp (copy_from src n) Q s.
Proof. intros Hn HQ. unfold copy_from. by destruct (Z.ltb_spec (Z.of_nat (length src)) n); [lia|]. Qed.

Lemma wp_copy_to {S} dst src (Q : list Z -> S -> Prop) s :
  (length src <= length dst)%nat -> Q (src ++ drop (length src) dst) s -> wp (copy_to dst src) Q s.
Proof.
  intros Hn HQ. unfold copy_to.
  by destruct (Z.ltb_spec (Z.of_nat (length dst)) (Z.of_nat (length src))); [lia|].
Qed.
