(* ===== verification/Regs.v ===== *)
(** * Register addresses, bit masks and limits

    One definition per [#define] of the driver headers that the modelled code
    uses, under the name it has there. *)
From S2P Require Import Prelude.

(** ** Error codes (ixgbe_type.h) *)
Definition IXGBE_SUCCESS : Z := 0.
Definition IXGBE_ERR_EEPROM : Z := -1.
Definition IXGBE_ERR_EEPROM_CHECKSUM : Z := -2.
Definition IXGBE_ERR_CONFIG : Z := -4.
Definition IXGBE_ERR_PARAM : Z := -5.
Definition IXGBE_ERR_INVALID_MAC_ADDR : Z := -10.
Definition IXGBE_ERR_INVALID_LINK_SETTINGS : Z := -13.
Definition IXGBE_ERR_PRIMARY_REQUESTS_PENDING : Z := -12.
Definition IXGBE_ERR_SWFW_SYNC : Z := -16.
Definition IXGBE_ERR_NO_SPACE : Z := -25.
Definition IXGBE_ERR_FC_NOT_NEGOTIATED : Z := -27.
Definition IXGBE_ERR_INVALID_ARGUMENT : Z := -32.
Definition IXGBE_ERR_HOST_INTERFACE_COMMAND : Z := -33.
Definition IXGBE_ERR_MBX : Z := -41.
Definition IXGBE_ERR_MBX_NOMSG : Z := -42.
Definition IXGBE_ERR_TIMEOUT : Z := -43.
Definition IXGBE_ERR_OUT_OF_MEM : Z := -34.
Definition IXGBE_ERR_NVM : Z := -50.
Definition IXGBE_ERR_NVM_CHECKSUM : Z := -51.
Definition IXGBE_ERR_NVM_BLANK_MODE : Z := -53.
Definition IXGBE_ERR_INVAL_SIZE : Z := -54.
Definition IXGBE_ERR_DOES_NOT_EXIST : Z := -55.
Definition IXGBE_ERR_NOT_SUPPORTED : Z := -45.
Definition IXGBE_ERR_ACI_ERROR : Z := -100.
Definition IXGBE_ERR_ACI_DISABLED : Z := -101.
Definition IXGBE_ERR_ACI_TIMEOUT : Z := -102.
Definition IXGBE_ERR_ACI_BUSY : Z := -103.
Definition IXGBE_ERR_ACI_NO_WORK : Z := -104.
Definition IXGBE_ERR_ACI_NO_EVENTS : Z := -105.
Definition IXGBE_NOT_IMPLEMENTED : Z := 0x7FFFFFFF.

(** ** Register access (ixgbe_osdep.h, ixgbe_type.h) *)
Definition IXGBE_DEAD_READ_RETRIES : Z := 10.
Definition IXGBE_DEAD_READ_REG : Z := 0xdeadbeef.
Definition IXGBE_FAILED_READ_REG : Z := 0xffffffff.
Definition IXGBE_FAILED_READ_RETRIES : Z := 5.
Definition IXGBE_STATUS : Z := 0x00008.
Definition IXGBE_MAC_SGMII_BUSY : Z := 0x04298.
Definition IXGBE_NW_MNG_IF_SEL_SGMII_ENABLE : Z := bit 25.

(** ** Mailbox (ixgbe_mbx.h, ixgbe_type.h) *)
Definition IXGBE_VFMAILBOX_SIZE : Z := 16.
Definition IXGBE_VFMAILBOX : Z := 0x002FC.
Definition IXGBE_VFMBMEM : Z := 0x00200.
Definition IXGBE_VFMAILBOX_REQ : Z := 0x00000001.
Definition IXGBE_VFMAILBOX_ACK : Z := 0x00000002.
Definition IXGBE_VFMAILBOX_VFU : Z := 0x00000004.
Definition IXGBE_VFMAILBOX_PFU : Z := 0x00000008.
Definition IXGBE_VFMAILBOX_PFSTS : Z := 0x00000010.
Definition IXGBE_VFMAILBOX_PFACK : Z := 0x00000020.
Definition IXGBE_VFMAILBOX_RSTI : Z := 0x00000040.
Definition IXGBE_VFMAILBOX_RSTD : Z := 0x00000080.
Definition IXGBE_VFMAILBOX_R2C_BITS : Z := 0x000000B0.
Definition IXGBE_PFMAILBOX_STS : Z := 0x00000001.
Definition IXGBE_PFMAILBOX_ACK : Z := 0x00000002.
Definition IXGBE_PFMAILBOX_VFU : Z := 0x00000004.
Definition IXGBE_PFMAILBOX_PFU : Z := 0x00000008.
Definition IXGBE_PFMBICR_VFREQ_VF1 : Z := 0x00000001.
Definition IXGBE_PFMBICR_VFACK_VF1 : Z := 0x00010000.
Definition IXGBE_VT_MSGTYPE_CTS : Z := 0x20000000.
Definition IXGBE_VF_MBX_INIT_TIMEOUT : Z := 2000.
Definition IXGBE_VF_MBX_INIT_DELAY : Z := 500.
Definition IXGBE_PFMAILBOX (i : Z) : Z := 0x04B00 + (4 * i).
Definition IXGBE_PFMBMEM (i : Z) : Z := 0x13000 + (64 * i).
Definition IXGBE_PFMBICR_INDEX (i : Z) : Z := Z.shiftr i 4.
Definition IXGBE_PFMBICR_SHIFT (i : Z) : Z := i mod 16.
Definition IXGBE_PFMBICR (i : Z) : Z := 0x00710 + (4 * i).
Definition IXGBE_PFVFLRE (i : Z) : Z := if Z.odd i then 0x001C0 else 0x00600.
Definition IXGBE_PFVFLREC (i : Z) : Z := 0x00700 + (i * 4).
Definition IXGBE_PFVFLRE_INDEX (i : Z) : Z := Z.shiftr i 5.
Definition IXGBE_PFVFLRE_SHIFT (i : Z) : Z := i mod 32.

(** ** Data center bridging (ixgbe_dcb.h, ixgbe_dcb_82598.h, ixgbe_dcb_82599.h, ixgbe_type.h) *)
Definition IXGBE_DCB_MAX_TRAFFIC_CLASS : Z := 8.
Definition IXGBE_DCB_CREDIT_QUANTUM : Z := 64.
Definition IXGBE_DCB_MAX_CREDIT_REFILL : Z := 511.
Definition IXGBE_DCB_MAX_TSO_SIZE : Z := 32 * 1024.
Definition IXGBE_DCB_MAX_CREDIT : Z := 4095.
Definition IXGBE_DCB_MIN_TSO_CREDIT : Z := (IXGBE_DCB_MAX_TSO_SIZE / IXGBE_DCB_CREDIT_QUANTUM) + 1.
Definition IXGBE_DCB_MAX_USER_PRIORITY : Z := 8.
Definition IXGBE_DCB_MAX_BW_GROUP : Z := 8.
Definition IXGBE_DCB_BW_PERCENT : Z := 100.
Definition IXGBE_DCB_TX_CONFIG : Z := 0.
Definition IXGBE_DCB_RX_CONFIG : Z := 1.
Definition IXGBE_QPRC (i : Z) : Z := 0x01030 + (i * 0x40).
Definition IXGBE_QPTC (i : Z) : Z := 0x06030 + (i * 0x40).
Definition IXGBE_QBRC (i : Z) : Z := 0x01034 + (i * 0x40).
Definition IXGBE_QBTC (i : Z) : Z := 0x06034 + (i * 0x40).
Definition IXGBE_QBRC_L (i : Z) : Z := 0x01034 + (i * 0x40).
Definition IXGBE_QBRC_H (i : Z) : Z := 0x01038 + (i * 0x40).
Definition IXGBE_QPRDC (i : Z) : Z := 0x01430 + (i * 0x40).
Definition IXGBE_QBTC_L (i : Z) : Z := 0x08700 + (i * 0x8).
Definition IXGBE_QBTC_H (i : Z) : Z := 0x08704 + (i * 0x8).
Definition IXGBE_PXOFFTXC (i : Z) : Z := 0x03F20 + (i * 4).
Definition IXGBE_PXOFFRXC (i : Z) : Z := 0x0CF20 + (i * 4).
Definition IXGBE_PXOFFRXCNT (i : Z) : Z := 0x04160 + (i * 4).
Definition IXGBE_RUPPBMR : Z := 0x050A0.
Definition IXGBE_RUPPBMR_MQA : Z := 0x80000000.
Definition IXGBE_RMCS : Z := 0x03D00.
Definition IXGBE_RMCS_ARBDIS : Z := 0x00000040.
Definition IXGBE_RMCS_RRM : Z := 0x00000002.
Definition IXGBE_RMCS_RAC : Z := 0x00000004.
Definition IXGBE_RMCS_DFP : Z := IXGBE_RMCS_RAC.
Definition IXGBE_RMCS_TFCE_802_3X : Z := 0x00000008.
Definition IXGBE_RMCS_TFCE_PRIORITY : Z := 0x00000010.
Definition IXGBE_RT2CR (i : Z) : Z := 0x03C20 + (i * 4).
Definition IXGBE_RT2CR_MCL_SHIFT : Z := 12.
Definition IXGBE_RT2CR_LSP : Z := 0x80000000.
Definition IXGBE_RDRXCTL : Z := 0x02F00.
Definition IXGBE_RDRXCTL_RDMTS_1_2 : Z := 0x00000000.
Definition IXGBE_RDRXCTL_MPBEN : Z := 0x00000010.
Definition IXGBE_RDRXCTL_MCEN : Z := 0x00000040.
Definition IXGBE_RXCTRL : Z := 0x03000.
Definition IXGBE_RXCTRL_DMBYPS : Z := 0x00000002.
Definition IXGBE_DPMCS : Z := 0x07F40.
Definition IXGBE_DPMCS_ARBDIS : Z := 0x00000040.
Definition IXGBE_DPMCS_TSOEF : Z := 0x00080000.
Definition IXGBE_DPMCS_MTSOS_SHIFT : Z := 16.
Definition IXGBE_TDTQ2TCCR (i : Z) : Z := 0x0602C + (i * 0x40).
Definition IXGBE_TDTQ2TCCR_MCL_SHIFT : Z := 12.
Definition IXGBE_TDTQ2TCCR_BWG_SHIFT : Z := 9.
Definition IXGBE_TDTQ2TCCR_GSP : Z := 0x40000000.
Definition IXGBE_TDTQ2TCCR_LSP : Z := 0x80000000.
Definition IXGBE_PDPMCS : Z := 0x0CD00.
Definition IXGBE_PDPMCS_ARBDIS : Z := 0x00000040.
Definition IXGBE_PDPMCS_TPPAC : Z := 0x00000020.
Definition IXGBE_PDPMCS_TRM : Z := 0x00000100.
Definition IXGBE_TDPT2TCCR (i : Z) : Z := 0x0CD20 + (i * 4).
Definition IXGBE_TDPT2TCCR_MCL_SHIFT : Z := 12.
Definition IXGBE_TDPT2TCCR_BWG_SHIFT : Z := 9.
Definition IXGBE_TDPT2TCCR_GSP : Z := 0x40000000.
Definition IXGBE_TDPT2TCCR_LSP : Z := 0x80000000.
Definition IXGBE_DTXCTL : Z := 0x07E00.
Definition IXGBE_DTXCTL_ENDBUBD : Z := 0x00000004.
Definition IXGBE_FCTRL : Z := 0x05080.
Definition IXGBE_FCTRL_RPFCE : Z := 0x00004000.
Definition IXGBE_FCTRL_RFCE : Z := 0x00008000.
Definition IXGBE_FCTRL_UPE : Z := 0x00000200.
Definition IXGBE_FCRTL (i : Z) : Z := 0x03220 + (i * 8).
Definition IXGBE_FCRTH (i : Z) : Z := 0x03260 + (i * 8).
Definition IXGBE_FCRTL_XONE : Z := 0x80000000.
Definition IXGBE_FCRTH_FCEN : Z := 0x80000000.
Definition IXGBE_FCTTV (i : Z) : Z := 0x03200 + (i * 4).
Definition IXGBE_FCRTV : Z := 0x032A0.
Definition IXGBE_RQSMR (i : Z) : Z := 0x02300 + (i * 4).
Definition IXGBE_TQSMR (i : Z) : Z := if i <=? 7 then 0x07300 + i * 4 else 0x08600 + i * 4.
Definition IXGBE_TQSM (i : Z) : Z := 0x08600 + (i * 4).
Definition IXGBE_RTRPCS : Z := 0x02430.
Definition IXGBE_RTRPCS_RRM : Z := 0x00000002.
Definition IXGBE_RTRPCS_RAC : Z := 0x00000004.
Definition IXGBE_RTRPCS_ARBDIS : Z := 0x00000040.
Definition IXGBE_RTRUP2TC : Z := 0x03020.
Definition IXGBE_RTRUP2TC_UP_SHIFT : Z := 3.
Definition IXGBE_RTRUP2TC_UP_MASK : Z := 7.
Definition IXGBE_RTRPT4C (i : Z) : Z := 0x02140 + (i * 4).
Definition IXGBE_RTRPT4C_MCL_SHIFT : Z := 12.
Definition IXGBE_RTRPT4C_BWG_SHIFT : Z := 9.
Definition IXGBE_RTRPT4C_LSP : Z := 0x80000000.
Definition IXGBE_RTTDQSEL : Z := 0x04904.
Definition IXGBE_RTTDT1C : Z := 0x04908.
Definition IXGBE_RTTDT2C (i : Z) : Z := 0x04910 + (i * 4).
Definition IXGBE_RTTDT2C_MCL_SHIFT : Z := 12.
Definition IXGBE_RTTDT2C_BWG_SHIFT : Z := 9.
Definition IXGBE_RTTDT2C_GSP : Z := 0x40000000.
Definition IXGBE_RTTDT2C_LSP : Z := 0x80000000.
Definition IXGBE_RTTDCS : Z := 0x04900.
Definition IXGBE_RTTDCS_ARBDIS : Z := 0x00000040.
Definition IXGBE_RTTDCS_TDPAC : Z := 0x00000001.
Definition IXGBE_RTTDCS_TDRM : Z := 0x00000010.
Definition IXGBE_RTTPCS : Z := 0x0CD00.
Definition IXGBE_RTTPCS_TPPAC : Z := 0x00000020.
Definition IXGBE_RTTPCS_TPRM : Z := 0x00000100.
Definition IXGBE_RTTPCS_ARBDIS : Z := 0x00000040.
Definition IXGBE_RTTPCS_ARBD_SHIFT : Z := 22.
Definition IXGBE_RTTPCS_ARBD_DCB : Z := 0x4.
Definition IXGBE_RTTUP2TC : Z := 0x0C800.
Definition IXGBE_RTTUP2TC_UP_SHIFT : Z := 3.
Definition IXGBE_RTTPT2C (i : Z) : Z := 0x0CD20 + (i * 4).
Definition IXGBE_RTTPT2C_MCL_SHIFT : Z := 12.
Definition IXGBE_RTTPT2C_BWG_SHIFT : Z := 9.
Definition IXGBE_RTTPT2C_GSP : Z := 0x40000000.
Definition IXGBE_RTTPT2C_LSP : Z := 0x80000000.
Definition IXGBE_FCCFG : Z := 0x03D00.
Definition IXGBE_FCCFG_TFCE_PRIORITY : Z := 0x00000010.
Definition IXGBE_FCCFG_TFCE_802_3X : Z := 0x00000008.
Definition IXGBE_MFLCN : Z := 0x04294.
Definition IXGBE_MFLCN_DPF : Z := 0x00000002.
Definition IXGBE_MFLCN_RPFCE_MASK : Z := 0x00000FF4.
Definition IXGBE_MFLCN_RFCE : Z := 0x00000008.
Definition IXGBE_MFLCN_RPFCE : Z := 0x00000004.
Definition IXGBE_MFLCN_RPFCE_SHIFT : Z := 4.
Definition IXGBE_FCRTL_82599 (i : Z) : Z := 0x03220 + (i * 4).
Definition IXGBE_FCRTH_82599 (i : Z) : Z := 0x03260 + (i * 4).
Definition IXGBE_RXPBSIZE (i : Z) : Z := 0x03C00 + (i * 4).
Definition IXGBE_MRQC : Z := 0x05818.
Definition IXGBE_MRQC_MRQE_MASK : Z := 0xF.
Definition IXGBE_MRQC_RT4TCEN : Z := 0x00000003.
Definition IXGBE_MRQC_RT8TCEN : Z := 0x00000002.
Definition IXGBE_MRQC_RSSEN : Z := 0x00000001.
Definition IXGBE_MRQC_RTRSS4TCEN : Z := 0x00000005.
Definition IXGBE_MRQC_RTRSS8TCEN : Z := 0x00000004.
Definition IXGBE_MRQC_VMDQRT4TCEN : Z := 0x0000000D.
Definition IXGBE_MTQC : Z := 0x08120.
Definition IXGBE_MTQC_RT_ENA : Z := 0x1.
Definition IXGBE_MTQC_8TC_8TQ : Z := 0xC.
Definition IXGBE_MTQC_4TC_4TQ : Z := 0x8.
Definition IXGBE_MTQC_VT_ENA : Z := 0x2.
Definition IXGBE_QDE : Z := 0x2F04.
Definition IXGBE_QDE_WRITE : Z := 0x00010000.
Definition IXGBE_QDE_IDX_SHIFT : Z := 8.
Definition IXGBE_SECTXMINIFG : Z := 0x08810.
Definition IXGBE_SECTX_DCB : Z := 0x00001F00.

(** ** Receive filters (ixgbe_type.h) *)
Definition IXGBE_MTA (i : Z) : Z := 0x05200 + (i * 4).
Definition IXGBE_RAL (i : Z) : Z := if i <=? 15 then 0x05400 + i * 8 else 0x0A200 + i * 8.
Definition IXGBE_RAH (i : Z) : Z := if i <=? 15 then 0x05404 + i * 8 else 0x0A204 + i * 8.
Definition IXGBE_RAH_AV : Z := 0x80000000.
Definition IXGBE_RAH_VIND_MASK : Z := 0x003C0000.
Definition IXGBE_RAH_VIND_SHIFT : Z := 18.
Definition IXGBE_PFVFSPOOF (i : Z) : Z := 0x08200 + (i * 4).
Definition IXGBE_SPOOF_VLANAS_SHIFT : Z := 8.
Definition IXGBE_MPSAR_LO (i : Z) : Z := 0x0A600 + (i * 8).
Definition IXGBE_MPSAR_HI (i : Z) : Z := 0x0A604 + (i * 8).
Definition IXGBE_CLEAR_VMDQ_ALL : Z := 0xFFFFFFFF.
Definition IXGBE_MCSTCTRL : Z := 0x05090.
Definition IXGBE_MCSTCTRL_MFE : Z := 0x4.
Definition IXGBE_UTA (i : Z) : Z := 0x0F400 + (i * 4).
Definition IXGBE_VFTA (i : Z) : Z := 0x0A000 + (i * 4).
Definition IXGBE_VLVF (i : Z) : Z := 0x0F100 + (i * 4).
Definition IXGBE_VLVFB (i : Z) : Z := 0x0F200 + (i * 4).
Definition IXGBE_VLVF_ENTRIES : Z := 64.
Definition IXGBE_VLVF_VIEN : Z := 0x80000000.
Definition IXGBE_VT_CTL : Z := 0x051B0.
Definition IXGBE_VT_CTL_VT_ENABLE : Z := 0x00000001.

(** ** NVM and semaphores (ixgbe_type.h) *)
Definition IXGBE_EEC : Z := 0x10010.
Definition IXGBE_EEC_X550EM_a : Z := 0x15FF8.
Definition IXGBE_EERD : Z := 0x10014.
Definition IXGBE_EEWR : Z := 0x10018.
Definition IXGBE_SWSM : Z := 0x10140.
Definition IXGBE_SWSM_X550EM_a : Z := 0x15F70.
Definition IXGBE_GSSR : Z := 0x10160.
Definition IXGBE_SWSM_SMBI : Z := 0x00000001.
Definition IXGBE_SWSM_SWESMBI : Z := 0x00000002.
Definition IXGBE_GSSR_EEP_SM : Z := 0x0001.
Definition IXGBE_GSSR_SW_MNG_SM : Z := 0x0400.
Definition IXGBE_EEC_SK : Z := 0x00000001.
Definition IXGBE_EEC_CS : Z := 0x00000002.
Definition IXGBE_EEC_DI : Z := 0x00000004.
Definition IXGBE_EEC_DO : Z := 0x00000008.
Definition IXGBE_EEC_REQ : Z := 0x00000040.
Definition IXGBE_EEC_GNT : Z := 0x00000080.
Definition IXGBE_EEC_PRES : Z := 0x00000100.
Definition IXGBE_EEC_ADDR_SIZE : Z := 0x00000400.
Definition IXGBE_EEC_SIZE : Z := 0x00007800.
Definition IXGBE_EEC_SIZE_SHIFT : Z := 11.
Definition IXGBE_EEPROM_WORD_SIZE_SHIFT : Z := 6.
Definition IXGBE_EEPROM_OPCODE_BITS : Z := 8.
Definition IXGBE_EEPROM_CHECKSUM : Z := 0x3F.
Definition IXGBE_EEPROM_SUM : Z := 0xBABA.
Definition IXGBE_PCIE_ANALOG_PTR : Z := 0x03.
Definition IXGBE_FW_PTR : Z := 0x0F.
Definition IXGBE_EEPROM_MAX_RETRY_SPI : Z := 5000.
Definition IXGBE_EEPROM_STATUS_RDY_SPI : Z := 0x01.
Definition IXGBE_EEPROM_READ_OPCODE_SPI : Z := 0x03.
Definition IXGBE_EEPROM_WRITE_OPCODE_SPI : Z := 0x02.
Definition IXGBE_EEPROM_A8_OPCODE_SPI : Z := 0x08.
Definition IXGBE_EEPROM_WREN_OPCODE_SPI : Z := 0x06.
Definition IXGBE_EEPROM_RDSR_OPCODE_SPI : Z := 0x05.
Definition IXGBE_EEPROM_RW_REG_DATA : Z := 16.
Definition IXGBE_EEPROM_RW_REG_DONE : Z := 2.
Definition IXGBE_EEPROM_RW_REG_START : Z := 1.
Definition IXGBE_EEPROM_RW_ADDR_SHIFT : Z := 2.
Definition IXGBE_NVM_POLL_WRITE : Z := 1.
Definition IXGBE_NVM_POLL_READ : Z := 0.
Definition IXGBE_EEPROM_PAGE_SIZE_MAX : Z := 128.
Definition IXGBE_EEPROM_RD_BUFFER_MAX_COUNT : Z := 256.
Definition IXGBE_EEPROM_GRANT_ATTEMPTS : Z := 1000.
Definition IXGBE_EERD_EEWR_ATTEMPTS : Z := 100000.
Definition IXGBE_SWFW_SYNC : Z := IXGBE_GSSR.
Definition IXGBE_SWFW_SYNC_X550EM_a : Z := 0x15F78.
Definition IXGBE_SWFW_REGSMP : Z := 0x80000000.
Definition IXGBE_GSSR_PHY0_SM : Z := 0x0002.
Definition IXGBE_GSSR_PHY1_SM : Z := 0x0004.
Definition IXGBE_GSSR_MAC_CSR_SM : Z := 0x0008.
Definition IXGBE_GSSR_FLASH_SM : Z := 0x0010.
Definition IXGBE_GSSR_I2C_MASK : Z := 0x1800.
Definition IXGBE_GSSR_NVM_PHY_MASK : Z := 0xF.
Definition IXGBE_EEC_FLUP : Z := 0x00800000.
Definition IXGBE_EEC_SEC1VAL : Z := 0x02000000.
Definition IXGBE_EEC_FLUDONE : Z := 0x04000000.
Definition IXGBE_FLUDONE_ATTEMPTS : Z := 20000.
Definition IXGBE_PHY_PTR : Z := 0x04.
Definition IXGBE_OPTION_ROM_PTR : Z := 0x05.

(** ** Flow control (ixgbe_type.h, ixgbe_phy.h) *)
Definition IXGBE_PCS1GLSTA : Z := 0x0420C.
Definition IXGBE_PCS1GLSTA_AN_COMPLETE : Z := 0x10000.
Definition IXGBE_PCS1GLSTA_AN_TIMED_OUT : Z := 0x40000.
Definition IXGBE_PCS1GANA : Z := 0x04218.
Definition IXGBE_PCS1GANLP : Z := 0x0421C.
Definition IXGBE_PCS1GANA_SYM_PAUSE : Z := 0x80.
Definition IXGBE_PCS1GANA_ASM_PAUSE : Z := 0x100.
Definition IXGBE_LINKS : Z := 0x042A4.
Definition IXGBE_LINKS_KX_AN_COMP : Z := 0x80000000.
Definition IXGBE_LINKS2 : Z := 0x04324.
Definition IXGBE_LINKS2_AN_SUPPORTED : Z := 0x00000040.
Definition IXGBE_AUTOC : Z := 0x042A0.
Definition IXGBE_ANLP1 : Z := 0x042B0.
Definition IXGBE_AUTOC_SYM_PAUSE : Z := 0x10000000.
Definition IXGBE_AUTOC_ASM_PAUSE : Z := 0x20000000.
Definition IXGBE_ANLP1_SYM_PAUSE : Z := 0x0400.
Definition IXGBE_ANLP1_ASM_PAUSE : Z := 0x0800.
Definition IXGBE_TAF_SYM_PAUSE : Z := 0x400.
Definition IXGBE_TAF_ASM_PAUSE : Z := 0x800.
Definition IXGBE_PCS1GLCTL : Z := 0x04208.
Definition IXGBE_PCS1GLCTL_AN_1G_TIMEOUT_EN : Z := 0x00040000.
Definition IXGBE_AUTOC_AN_RESTART : Z := 0x00001000.
Definition IXGBE_LINK_SPEED_1GB_FULL : Z := 0x0020.
Definition IXGBE_MDIO_AUTO_NEG_ADVT : Z := 0x10.
Definition IXGBE_MDIO_AUTO_NEG_LP : Z := 0x13.
Definition IXGBE_MDIO_AUTO_NEG_DEV_TYPE : Z := 0x7.

(** ** Manageability host interface (ixgbe_type.h) *)
Definition IXGBE_HI_MAX_BLOCK_BYTE_LENGTH : Z := 1792.
Definition IXGBE_FWSTS : Z := 0x15F0C.
Definition IXGBE_FWSTS_FWRI : Z := 0x00000200.
Definition IXGBE_HICR : Z := 0x15F00.
Definition IXGBE_HICR_EN : Z := 0x01.
Definition IXGBE_HICR_C : Z := 0x02.
Definition IXGBE_HICR_SV : Z := 0x04.
Definition IXGBE_FLEX_MNG : Z := 0x15800.
Definition IXGBE_HOST_INTERFACE_MASK_CMD : Z := 0x000000FF.
Definition IXGBE_HOST_INTERFACE_APPLY_UPDATE_CMD : Z := 0x38.
Definition IXGBE_HI_COMMAND_TIMEOUT : Z := 500.
Definition FW_CEM_HDR_LEN : Z := 0x4.
Definition FW_CEM_CMD_DRIVER_INFO : Z := 0xDD.
Definition FW_CEM_CMD_DRIVER_INFO_LEN : Z := 0x5.
Definition FW_CEM_CMD_RESERVED : Z := 0X0.
Definition FW_CEM_MAX_RETRIES : Z := 3.
Definition FW_CEM_RESP_STATUS_SUCCESS : Z := 0x1.

(** ** Packet buffers (ixgbe_type.h) *)
Definition IXGBE_RXPBSIZE_SHIFT : Z := 10.
Definition IXGBE_TXPBSIZE (i : Z) : Z := 0x0CC00 + (i * 4).
Definition IXGBE_TXPBTHRESH (i : Z) : Z := 0x04950 + (i * 4).
Definition IXGBE_TXPBSIZE_MAX : Z := 0x00028000.
Definition IXGBE_TXPKT_SIZE_MAX : Z := 0xA.
Definition IXGBE_MAX_PB : Z := 8.

(** ** Flow Director (ixgbe_type.h) *)
Definition IXGBE_ERR_FDIR_REINIT_FAILED : Z := -23.
Definition IXGBE_ERR_FDIR_CMD_INCOMPLETE : Z := -38.
Definition IXGBE_FDIRCTRL : Z := 0x0EE00.
Definition IXGBE_FDIRHKEY : Z := 0x0EE68.
Definition IXGBE_FDIRSKEY : Z := 0x0EE6C.
Definition IXGBE_FDIRDIP4M : Z := 0x0EE3C.
Definition IXGBE_FDIRSIP4M : Z := 0x0EE40.
Definition IXGBE_FDIRTCPM : Z := 0x0EE44.
Definition IXGBE_FDIRUDPM : Z := 0x0EE48.
Definition IXGBE_FDIRSCTPM : Z := 0x0EE78.
Definition IXGBE_FDIRIP6M : Z := 0x0EE74.
Definition IXGBE_FDIRM : Z := 0x0EE70.
Definition IXGBE_FDIRFREE : Z := 0x0EE38.
Definition IXGBE_FDIRLEN : Z := 0x0EE4C.
Definition IXGBE_FDIRUSTAT : Z := 0x0EE50.
Definition IXGBE_FDIRFSTAT : Z := 0x0EE54.
Definition IXGBE_FDIRMATCH : Z := 0x0EE58.
Definition IXGBE_FDIRMISS : Z := 0x0EE5C.
Definition IXGBE_FDIRSIPv6 (i : Z) : Z := 0x0EE0C + (i * 4).
Definition IXGBE_FDIRIPSA : Z := 0x0EE18.
Definition IXGBE_FDIRIPDA : Z := 0x0EE1C.
Definition IXGBE_FDIRPORT : Z := 0x0EE20.
Definition IXGBE_FDIRVLAN : Z := 0x0EE24.
Definition IXGBE_FDIRHASH : Z := 0x0EE28.
Definition IXGBE_FDIRCMD : Z := 0x0EE2C.
Definition IXGBE_FDIRCTRL_INIT_DONE : Z := 0x00000008.
Definition IXGBE_FDIRCTRL_PERFECT_MATCH : Z := 0x00000010.
Definition IXGBE_FDIRCTRL_REPORT_STATUS : Z := 0x00000020.
Definition IXGBE_FDIRCTRL_DROP_Q_SHIFT : Z := 8.
Definition IXGBE_FDIRCTRL_DROP_Q_MASK : Z := 0x00007F00.
Definition IXGBE_FDIRCTRL_FLEX_SHIFT : Z := 16.
Definition IXGBE_FDIRCTRL_DROP_NO_MATCH : Z := 0x00008000.
Definition IXGBE_FDIRCTRL_FILTERMODE_SHIFT : Z := 21.
Definition IXGBE_FDIRCTRL_FILTERMODE_CLOUD : Z := 0x0002.
Definition IXGBE_FDIRCTRL_MAX_LENGTH_SHIFT : Z := 24.
Definition IXGBE_FDIRCTRL_FULL_THRESH_SHIFT : Z := 28.
Definition IXGBE_FDIRTCPM_DPORTM_SHIFT : Z := 16.
Definition IXGBE_FDIRIP6M_DIPM_SHIFT : Z := 16.
Definition IXGBE_FDIRM_VLANID : Z := 0x00000001.
Definition IXGBE_FDIRM_VLANP : Z := 0x00000002.
Definition IXGBE_FDIRM_POOL : Z := 0x00000004.
Definition IXGBE_FDIRM_L4P : Z := 0x00000008.
Definition IXGBE_FDIRM_FLEX : Z := 0x00000010.
Definition IXGBE_FDIRM_DIPv6 : Z := 0x00000020.
Definition IXGBE_FDIRM_L3P : Z := 0x00000040.
Definition IXGBE_FDIRIP6M_INNER_MAC : Z := 0x03F0.
Definition IXGBE_FDIRIP6M_TUNNEL_TYPE : Z := 0x0800.
Definition IXGBE_FDIRIP6M_TNI_VNI : Z := 0xF000.
Definition IXGBE_FDIRIP6M_TNI_VNI_24 : Z := 0x1000.
Definition IXGBE_FDIRIP6M_ALWAYS_MASK : Z := 0x040F.
Definition IXGBE_FDIRPORT_DESTINATION_SHIFT : Z := 16.
Definition IXGBE_FDIRVLAN_FLEX_SHIFT : Z := 16.
Definition IXGBE_FDIRHASH_SIG_SW_INDEX_SHIFT : Z := 16.
Definition IXGBE_FDIRCMD_CMD_MASK : Z := 0x00000003.
Definition IXGBE_FDIRCMD_CMD_ADD_FLOW : Z := 0x00000001.
Definition IXGBE_FDIRCMD_CMD_REMOVE_FLOW : Z := 0x00000002.
Definition IXGBE_FDIRCMD_CMD_QUERY_REM_FILT : Z := 0x00000003.
Definition IXGBE_FDIRCMD_FILTER_VALID : Z := 0x00000004.
Definition IXGBE_FDIRCMD_FILTER_UPDATE : Z := 0x00000008.
Definition IXGBE_FDIRCMD_CLEARHT : Z := 0x00000100.
Definition IXGBE_FDIRCMD_DROP : Z := 0x00000200.
Definition IXGBE_FDIRCMD_LAST : Z := 0x00000800.
Definition IXGBE_FDIRCMD_QUEUE_EN : Z := 0x00008000.
Definition IXGBE_FDIRCMD_FLOW_TYPE_SHIFT : Z := 5.
Definition IXGBE_FDIRCMD_RX_QUEUE_SHIFT : Z := 16.
Definition IXGBE_FDIRCMD_VT_POOL_SHIFT : Z := 24.
Definition IXGBE_FDIR_INIT_DONE_POLL : Z := 10.
Definition IXGBE_FDIRCMD_CMD_POLL : Z := 10.
Definition IXGBE_FDIRCMD_TUNNEL_FILTER : Z := 0x00800000.
Definition IXGBE_FDIR_DROP_QUEUE : Z := 127.
Definition IXGBE_ATR_BUCKET_HASH_KEY : Z := 0x3DAD14E2.
Definition IXGBE_ATR_SIGNATURE_HASH_KEY : Z := 0x174D3614.
Definition IXGBE_ATR_HASH_MASK : Z := 0x7fff.
Definition IXGBE_ATR_L4TYPE_MASK : Z := 0x3.
Definition IXGBE_ATR_L4TYPE_TUNNEL_MASK : Z := 0x10.

(** ** Device ids (ixgbe_type.h) *)
Definition IXGBE_DEV_ID_82599_T3_LOM : Z := 0x151C.
Definition IXGBE_DEV_ID_X540T : Z := 0x1528.
Definition IXGBE_DEV_ID_X540T1 : Z := 0x1560.
Definition IXGBE_DEV_ID_X550T : Z := 0x1563.
Definition IXGBE_DEV_ID_X550T1 : Z := 0x15D1.
Definition IXGBE_DEV_ID_X550EM_A_SFP_N : Z := 0x15C4.
Definition IXGBE_DEV_ID_X550EM_A_10G_T : Z := 0x15C8.
Definition IXGBE_DEV_ID_X550EM_A_QSFP : Z := 0x15CA.
Definition IXGBE_DEV_ID_X550EM_A_QSFP_N : Z := 0x15CC.
Definition IXGBE_DEV_ID_X550EM_A_SFP : Z := 0x15CE.
Definition IXGBE_DEV_ID_X550EM_A_1G_T : Z := 0x15E4.
Definition IXGBE_DEV_ID_X550EM_A_1G_T_L : Z := 0x15E5.
Definition IXGBE_DEV_ID_X550EM_X_10G_T : Z := 0x15AD.
Definition IXGBE_DEV_ID_X550EM_X_XFI : Z := 0x15B0.
Definition IXGBE_DEV_ID_E610_SFP : Z := 0x57AF.
Definition IXGBE_DEV_ID_E610_10G_T : Z := 0x57B0.
Definition IXGBE_DEV_ID_E610_2_5G_T : Z := 0x57B1.

(** ** SR-IOV (ixgbe_type.h, ixgbe_mbx.h, ixgbe.h, ixgbe_sriov.h) *)
Definition IXGBE_VMOLR (i : Z) : Z := 0x0F000 + (i * 4).
Definition IXGBE_VMOLR_BAM : Z := 0x08000000.
Definition IXGBE_VMOLR_ROMPE : Z := 0x02000000.
Definition IXGBE_VMOLR_MPE : Z := 0x10000000.
Definition IXGBE_VMOLR_UPE : Z := 0x00400000.
Definition IXGBE_VMOLR_VPE : Z := 0x00800000.
Definition IXGBE_VMOLR_AUPE : Z := 0x01000000.
Definition IXGBE_VMOLR_ROPE : Z := 0x04000000.
Definition IXGBE_VMVIR (i : Z) : Z := 0x08000 + (i * 4).
Definition IXGBE_VMVIR_VLANA_DEFAULT : Z := 0x40000000.
Definition IXGBE_VFRE (i : Z) : Z := 0x051E0 + (i * 4).
Definition IXGBE_VFTE (i : Z) : Z := 0x08110 + (i * 4).
Definition IXGBE_VMECM (i : Z) : Z := 0x08790 + (i * 4).
Definition IXGBE_MAXFRS : Z := 0x04268.
Definition IXGBE_MHADD_MFS_MASK : Z := 0xFFFF0000.
Definition IXGBE_MHADD_MFS_SHIFT : Z := 16.
Definition IXGBE_PFDTXGSWC : Z := 0x08220.
Definition IXGBE_PFDTXGSWC_VT_LBEN : Z := 0x1.
Definition IXGBE_GCR_EXT : Z := 0x11050.
Definition IXGBE_GPIE : Z := 0x00898.
Definition IXGBE_GPIE_VTMODE_MASK : Z := 0x0000C000.
Definition IXGBE_VT_CTL_POOL_SHIFT : Z := 7.
Definition IXGBE_VT_CTL_POOL_MASK : Z := Z.shiftl 0x3F IXGBE_VT_CTL_POOL_SHIFT.
Definition IXGBE_QDE_ENABLE : Z := 0x00000001.
Definition IXGBE_QDE_HIDE_VLAN : Z := 0x00000002.
Definition IXGBE_PVFTXDCTL (i : Z) : Z := 0x06028 + 0x40 * i.
Definition IXGBE_TXDCTL_ENABLE : Z := 0x02000000.
Definition IXGBE_PVFTDWBAL (i : Z) : Z := 0x06038 + 0x40 * i.
Definition IXGBE_PVFTDWBAH (i : Z) : Z := 0x0603C + 0x40 * i.
Definition IXGBE_RTTBCNRM : Z := 0x04980.
Definition IXGBE_RTTBCNRC : Z := 0x04984.
Definition IXGBE_RTTBCNRC_RF_INT_SHIFT : Z := 14.
Definition IXGBE_RTTBCNRC_RF_DEC_MASK : Z := 0x00003FFF.
Definition IXGBE_RTTBCNRC_RF_INT_MASK : Z := Z.shiftl IXGBE_RTTBCNRC_RF_DEC_MASK IXGBE_RTTBCNRC_RF_INT_SHIFT.
Definition IXGBE_RTTBCNRC_RS_ENA : Z := 0x80000000.
Definition IXGBE_ETQF (i : Z) : Z := 0x05128 + (i * 4).
Definition IXGBE_ETQF_FILTER_EN : Z := 0x80000000.
Definition IXGBE_ETQF_TX_ANTISPOOF : Z := 0x20000000.
Definition IXGBE_ETQF_FILTER_LLDP : Z := 5.
Definition IXGBE_ETQF_FILTER_FC : Z := 7.
Definition IXGBE_ETH_P_LLDP : Z := 0x88CC.
Definition IXGBE_FCTRL_BAM : Z := 0x00000400.
Definition IXGBE_FCTRL_DPF : Z := 0x00002000.
Definition IXGBE_FCTRL_PMCF : Z := 0x00001000.
Definition IXGBE_FCTRL_MPE : Z := 0x00000100.
Definition IXGBE_VLNCTRL : Z := 0x05088.
Definition IXGBE_VLNCTRL_VFE : Z := 0x40000000.
Definition IXGBE_VLNCTRL_VME : Z := 0x80000000.
Definition IXGBE_RXDCTL (i : Z) : Z := if i <? 64 then 0x01028 + i * 0x40 else 0x0D028 + (i - 64) * 0x40.
Definition IXGBE_RXDCTL_VME : Z := 0x40000000.
Definition IXGBE_MRQC_VMDQRT8TCEN : Z := 0x0000000C.
Definition IXGBE_MRQC_VMDQRSS32EN : Z := 0x0000000A.
Definition IXGBE_WQBR_TX (i : Z) : Z := 0x8130 + (i * 4).
Definition IXGBE_WQBR_RX (i : Z) : Z := 0x2FB0 + (i * 4).
Definition IXGBE_LVMMC_TX : Z := 0x8108.
Definition IXGBE_LVMMC_RX : Z := 0x2FA8.
Definition IXGBE_DMATXCTL : Z := 0x04A80.
Definition IXGBE_DMATXCTL_MDP_EN : Z := 0x20.
Definition IXGBE_DMATXCTL_MBINTEN : Z := 0x40.
Definition IXGBE_RDRXCTL_MDP_EN : Z := 0x20000000.
Definition IXGBE_RDRXCTL_MBINTEN : Z := 0x10000000.
Definition IXGBE_PFFLPL : Z := 0x050B0.
Definition IXGBE_PFFLPH : Z := 0x050B4.
Definition IXGBE_SPOOF_ETHERTYPEAS_SHIFT : Z := 16.
Definition IXGBE_VT_MSGTYPE_SUCCESS : Z := 0x80000000.
Definition IXGBE_VT_MSGTYPE_FAILURE : Z := 0x40000000.
Definition IXGBE_VT_MSGINFO_SHIFT : Z := 16.
Definition IXGBE_VT_MSGINFO_MASK : Z := Z.shiftl 0xFF IXGBE_VT_MSGINFO_SHIFT.
Definition IXGBE_VF_RESET : Z := 0x01.
Definition IXGBE_VF_SET_MAC_ADDR : Z := 0x02.
Definition IXGBE_VF_SET_MULTICAST : Z := 0x03.
Definition IXGBE_VF_SET_VLAN : Z := 0x04.
Definition IXGBE_VF_SET_LPE : Z := 0x05.
Definition IXGBE_VF_SET_MACVLAN : Z := 0x06.
Definition IXGBE_VF_API_NEGOTIATE : Z := 0x08.
Definition IXGBE_VF_GET_QUEUES : Z := 0x09.
Definition IXGBE_VF_GET_RETA : Z := 0x0a.
Definition IXGBE_VF_GET_RSS_KEY : Z := 0x0b.
Definition IXGBE_VF_UPDATE_XCAST_MODE : Z := 0x0c.
Definition IXGBE_VF_GET_LINK_STATE : Z := 0x10.
Definition IXGBE_VF_GET_PF_LINK_STATE : Z := 0x11.
Definition IXGBE_VF_FEATURES_NEGOTIATE : Z := 0x12.
Definition IXGBE_VF_TX_QUEUES : Z := 1.
Definition IXGBE_VF_RX_QUEUES : Z := 2.
Definition IXGBE_VF_TRANS_VLAN : Z := 3.
Definition IXGBE_VF_DEF_QUEUE : Z := 4.
Definition IXGBE_VF_PERMADDR_MSG_LEN : Z := 4.
Definition IXGBE_PF_CONTROL_MSG : Z := 0x0100.
Definition IXGBE_SUPPORTED_FEATURES : Z := 0.
Definition IXGBE_MAX_JUMBO_FRAME_SIZE : Z := 9728.
Definition IXGBE_LINK_SPEED_100_FULL : Z := 0x0008.
Definition IXGBE_LINK_SPEED_10GB_FULL : Z := 0x0080.
Definition IXGBE_FCOE_JUMBO_FRAME_SIZE : Z := 3072.
Definition IXGBE_VLVF_VLANID_MASK : Z := 0x00000FFF.
Definition IXGBE_MAX_VF_MC_ENTRIES : Z := 30.
Definition IXGBE_MAX_VF_FUNCTIONS : Z := 64.
Definition IXGBE_MAX_PF_MACVLANS : Z := 15.
Definition IXGBE_MAX_VFS_DRV_LIMIT : Z := IXGBE_MAX_VF_FUNCTIONS - 1.
Definition IXGBE_MAX_VFS_1TC : Z := IXGBE_MAX_VFS_DRV_LIMIT.
Definition IXGBE_MAX_VFS_4TC : Z := 31.
Definition IXGBE_MAX_VFS_8TC : Z := 15.
Definition IXGBE_MAX_RETA_ENTRIES : Z := 512.
Definition IXGBE_RSS_KEY_SIZE : Z := 40.
Definition IXGBE_MAC_STATE_DEFAULT : Z := 0x1.
Definition IXGBE_MAC_STATE_MODIFIED : Z := 0x2.
Definition IXGBE_MAC_STATE_IN_USE : Z := 0x4.

(** ** I2C (ixgbe_type.h, ixgbe_phy.h) *)
Definition IXGBE_ERR_I2C : Z := -18.
Definition IXGBE_I2CCTL_82599 : Z := 0x00028.
Definition IXGBE_I2CCTL : Z := IXGBE_I2CCTL_82599.
Definition IXGBE_I2CCTL_X540 : Z := IXGBE_I2CCTL_82599.
Definition IXGBE_I2CCTL_X550 : Z := 0x15F5C.
Definition IXGBE_I2CCTL_X550EM_x : Z := IXGBE_I2CCTL_X550.
Definition IXGBE_I2CCTL_X550EM_a : Z := IXGBE_I2CCTL_X550.
Definition IXGBE_I2C_CLK_IN : Z := 0x00000001.
Definition IXGBE_I2C_CLK_IN_X540 : Z := IXGBE_I2C_CLK_IN.
Definition IXGBE_I2C_CLK_IN_X550 : Z := 0x00004000.
Definition IXGBE_I2C_CLK_IN_X550EM_x : Z := IXGBE_I2C_CLK_IN_X550.
Definition IXGBE_I2C_CLK_IN_X550EM_a : Z := IXGBE_I2C_CLK_IN_X550.
Definition IXGBE_I2C_CLK_OUT : Z := 0x00000002.
Definition IXGBE_I2C_CLK_OUT_X540 : Z := IXGBE_I2C_CLK_OUT.
Definition IXGBE_I2C_CLK_OUT_X550 : Z := 0x00000200.
Definition IXGBE_I2C_CLK_OUT_X550EM_x : Z := IXGBE_I2C_CLK_OUT_X550.
Definition IXGBE_I2C_CLK_OUT_X550EM_a : Z := IXGBE_I2C_CLK_OUT_X550.
Definition IXGBE_I2C_DATA_IN : Z := 0x00000004.
Definition IXGBE_I2C_DATA_IN_X540 : Z := IXGBE_I2C_DATA_IN.
Definition IXGBE_I2C_DATA_IN_X550 : Z := 0x00001000.
Definition IXGBE_I2C_DATA_IN_X550EM_x : Z := IXGBE_I2C_DATA_IN_X550.
Definition IXGBE_I2C_DATA_IN_X550EM_a : Z := IXGBE_I2C_DATA_IN_X550.
Definition IXGBE_I2C_DATA_OUT : Z := 0x00000008.
Definition IXGBE_I2C_DATA_OUT_X540 : Z := IXGBE_I2C_DATA_OUT.
Definition IXGBE_I2C_DATA_OUT_X550 : Z := 0x00000400.
Definition IXGBE_I2C_DATA_OUT_X550EM_x : Z := IXGBE_I2C_DATA_OUT_X550.
Definition IXGBE_I2C_DATA_OUT_X550EM_a : Z := IXGBE_I2C_DATA_OUT_X550.
Definition IXGBE_I2C_DATA_OE_N_EN : Z := 0.
Definition IXGBE_I2C_DATA_OE_N_EN_X540 : Z := IXGBE_I2C_DATA_OE_N_EN.
Definition IXGBE_I2C_DATA_OE_N_EN_X550 : Z := 0x00000800.
Definition IXGBE_I2C_DATA_OE_N_EN_X550EM_x : Z := IXGBE_I2C_DATA_OE_N_EN_X550.
Definition IXGBE_I2C_DATA_OE_N_EN_X550EM_a : Z := IXGBE_I2C_DATA_OE_N_EN_X550.
Definition IXGBE_I2C_BB_EN : Z := 0.
Definition IXGBE_I2C_BB_EN_X540 : Z := IXGBE_I2C_BB_EN.
Definition IXGBE_I2C_BB_EN_X550 : Z := 0x00000100.
Definition IXGBE_I2C_BB_EN_X550EM_x : Z := IXGBE_I2C_BB_EN_X550.
Definition IXGBE_I2C_BB_EN_X550EM_a : Z := IXGBE_I2C_BB_EN_X550.
Definition IXGBE_I2C_CLK_OE_N_EN : Z := 0.
Definition IXGBE_I2C_CLK_OE_N_EN_X540 : Z := IXGBE_I2C_CLK_OE_N_EN.
Definition IXGBE_I2C_CLK_OE_N_EN_X550 : Z := 0x00002000.
Definition IXGBE_I2C_CLK_OE_N_EN_X550EM_x : Z := IXGBE_I2C_CLK_OE_N_EN_X550.
Definition IXGBE_I2C_CLK_OE_N_EN_X550EM_a : Z := IXGBE_I2C_CLK_OE_N_EN_X550.
Definition IXGBE_I2C_CLOCK_STRETCHING_TIMEOUT : Z := 500.
Definition IXGBE_I2C_T_HD_STA : Z := 4.
Definition IXGBE_I2C_T_LOW : Z := 5.
Definition IXGBE_I2C_T_HIGH : Z := 4.
Definition IXGBE_I2C_T_SU_STA : Z := 5.
Definition IXGBE_I2C_T_SU_DATA : Z := 1.
Definition IXGBE_I2C_T_RISE : Z := 1.
Definition IXGBE_I2C_T_FALL : Z := 1.
Definition IXGBE_I2C_T_SU_STO : Z := 4.
Definition IXGBE_I2C_T_BUF : Z := 5.
Definition IXGBE_I2C_EEPROM_DEV_ADDR : Z := 0xA0.
Definition IXGBE_I2C_EEPROM_DEV_ADDR2 : Z := 0xA2.
Definition IXGBE_SFP_DETECT_RETRIES : Z := 2.
Definition IXGBE_SFF_IDENTIFIER : Z := 0x0.

(** ** PHY access and set-up (ixgbe_type.h, ixgbe_phy.h) *)
Definition IXGBE_NW_MNG_IF_SEL_MDIO_PHY_ADD_SHIFT : Z := 3.
Definition IXGBE_NW_MNG_IF_SEL_MDIO_PHY_ADD : Z := Z.shiftl 0x1F IXGBE_NW_MNG_IF_SEL_MDIO_PHY_ADD_SHIFT.
Definition IXGBE_MDIO_PHY_EXT_ABILITY : Z := 0xB.
Definition IXGBE_MDIO_PMA_PMD_DEV_TYPE : Z := 0x1.
Definition IXGBE_MDIO_PHY_10GBASET_ABILITY : Z := 0x0004.
Definition IXGBE_MDIO_PHY_1000BASET_ABILITY : Z := 0x0020.
Definition IXGBE_ERR_PHY_ADDR_INVALID : Z := -17.
Definition IXGBE_MAX_PHY_ADDR : Z := 32.
Definition IXGBE_MMNGC : Z := 0x042D0.
Definition IXGBE_MMNGC_MNG_VETO : Z := 0x00000001.
Definition IXGBE_MDIO_PHY_ID_HIGH : Z := 0x2.
Definition IXGBE_MDIO_PHY_ID_LOW : Z := 0x3.
Definition IXGBE_PHY_REVISION_MASK : Z := 0xFFFFFFF0.
Definition TN1010_PHY_ID : Z := 0x00A19410.
Definition X550_PHY_ID : Z := 0x01540220.
Definition X540_PHY_ID : Z := 0x01540200.
Definition QT2022_PHY_ID : Z := 0x0043A400.
Definition ATH_PHY_ID : Z := 0x03429050.
Definition X557_PHY_ID : Z := 0x01540240.
Definition X557_PHY_ID2 : Z := 0x01540250.
Definition IXGBE_M88E1500_E_PHY_ID : Z := 0x01410DD0.
Definition IXGBE_M88E1543_E_PHY_ID : Z := 0x01410EA0.
Definition IXGBE_ERR_OVERTEMP : Z := -26.
Definition IXGBE_MDIO_PHY_XS_CONTROL : Z := 0x0.
Definition IXGBE_MDIO_PHY_XS_DEV_TYPE : Z := 0x4.
Definition IXGBE_MDIO_PHY_XS_RESET : Z := 0x8000.
Definition IXGBE_MDIO_TX_VENDOR_ALARMS_3 : Z := 0xCC02.
Definition IXGBE_MDIO_TX_VENDOR_ALARMS_3_RST_MASK : Z := 0x3.
Definition IXGBE_ERR_RESET_FAILED : Z := -15.
Definition IXGBE_MDIO_AUTO_NEG_CONTROL : Z := 0x0.
Definition IXGBE_MII_RESTART : Z := 0x200.
Definition IXGBE_MSCA_NP_ADDR_SHIFT : Z := 0.
Definition IXGBE_MSCA_DEV_TYPE_SHIFT : Z := 16.
Definition IXGBE_MSCA_PHY_ADDR_SHIFT : Z := 21.
Definition IXGBE_MSCA_ADDR_CYCLE : Z := 0x00000000.
Definition IXGBE_MSCA_MDI_COMMAND : Z := 0x40000000.
Definition IXGBE_MSCA : Z := 0x0425C.
Definition IXGBE_MDIO_COMMAND_TIMEOUT : Z := 100.
Definition IXGBE_ERR_PHY : Z := -3.
Definition IXGBE_MSCA_READ : Z := 0x0C000000.
Definition IXGBE_MSRWD : Z := 0x04260.
Definition IXGBE_MSRWD_READ_DATA_SHIFT : Z := 16.
Definition IXGBE_MSCA_WRITE : Z := 0x04000000.
Definition IXGBE_MII_AUTONEG_REG : Z := 0x0.
Definition IXGBE_MII_10GBASE_T_AUTONEG_CTRL_REG : Z := 0x20.
Definition IXGBE_MII_10GBASE_T_ADVERTISE : Z := 0x1000.
Definition IXGBE_MII_AUTONEG_VENDOR_PROVISION_1_REG : Z := 0xC400.
Definition IXGBE_MII_5GBASE_T_ADVERTISE : Z := 0x0800.
Definition IXGBE_LINK_SPEED_5GB_FULL : Z := 0x0800.
Definition IXGBE_MII_2_5GBASE_T_ADVERTISE : Z := 0x0400.
Definition IXGBE_LINK_SPEED_2_5GB_FULL : Z := 0x0400.
Definition IXGBE_MII_1GBASE_T_ADVERTISE : Z := 0x8000.
Definition IXGBE_MII_AUTONEG_ADVERTISE_REG : Z := 0x10.
Definition IXGBE_MII_100BASE_T_ADVERTISE : Z := 0x0100.
Definition IXGBE_MII_100BASE_T_ADVERTISE_HALF : Z := 0x0080.
Definition IXGBE_LINK_SPEED_10_FULL : Z := 0x0002.
Definition IXGBE_MDIO_PHY_SPEED_ABILITY : Z := 0x4.
Definition IXGBE_MDIO_PHY_SPEED_10G : Z := 0x0001.
Definition IXGBE_MDIO_PHY_SPEED_1G : Z := 0x0010.
Definition IXGBE_MDIO_PHY_SPEED_100M : Z := 0x0020.
Definition IXGBE_MDIO_VENDOR_SPECIFIC_1_STATUS : Z := 0x1.
Definition IXGBE_MDIO_VENDOR_SPECIFIC_1_DEV_TYPE : Z := 0x1E.
Definition IXGBE_MDIO_VENDOR_SPECIFIC_1_LINK_STATUS : Z := 0x0008.
Definition IXGBE_MDIO_VENDOR_SPECIFIC_1_SPEED_STATUS : Z := 0x0010.
Definition IXGBE_MII_AUTONEG_XNP_TX_REG : Z := 0x17.
Definition IXGBE_MII_1GBASE_T_ADVERTISE_XNP_TX : Z := 0x4000.
Definition TNX_FW_REV : Z := 0xB.
Definition AQ_FW_REV : Z := 0x20.
Definition IXGBE_TWINAX_DEV : Z := 1.
Definition IXGBE_DEV_ID_82598_SR_DUAL_PORT_EM : Z := 0x10E1.
Definition IXGBE_TN_LASI_STATUS_REG : Z := 0x9005.
Definition IXGBE_TN_LASI_STATUS_TEMP_ALARM : Z := 0x0008.
Definition IXGBE_MDIO_VENDOR_SPECIFIC_1_CONTROL : Z := 0x0.
Definition IXGBE_MDIO_PHY_SET_LOW_POWER_MODE : Z := 0x0800.

(** ** Modules (ixgbe_type.h, ixgbe_phy.h) *)
Definition IXGBE_CONTROL_MASK_NL : Z := 0xF000.
Definition IXGBE_CONTROL_SHIFT_NL : Z := 12.
Definition IXGBE_DATA_MASK_NL : Z := 0x0FFF.
Definition IXGBE_DELAY_NL : Z := 0.
Definition IXGBE_DATA_NL : Z := 1.
Definition IXGBE_CONTROL_NL : Z := 0x000F.
Definition IXGBE_CONTROL_EOL_NL : Z := 0x0FFF.
Definition IXGBE_CONTROL_SOL_NL : Z := 0x0000.
Definition IXGBE_ERR_SFP_NOT_PRESENT : Z := -20.
Definition IXGBE_SFF_IDENTIFIER_SFP : Z := 0x3.
Definition IXGBE_ERR_SFP_NOT_SUPPORTED : Z := -19.
Definition IXGBE_SFF_1GBE_COMP_CODES : Z := 0x6.
Definition IXGBE_SFF_10GBE_COMP_CODES : Z := 0x3.
Definition IXGBE_SFF_CABLE_TECHNOLOGY : Z := 0x8.
Definition IXGBE_SFF_DA_PASSIVE_CABLE : Z := 0x4.
Definition IXGBE_SFF_10GBASESR_CAPABLE : Z := 0x10.
Definition IXGBE_SFF_10GBASELR_CAPABLE : Z := 0x20.
Definition IXGBE_SFF_DA_ACTIVE_CABLE : Z := 0x8.
Definition IXGBE_SFF_CABLE_SPEC_COMP : Z := 0x3C.
Definition IXGBE_SFF_DA_SPEC_ACTIVE_LIMITING : Z := 0x4.
Definition IXGBE_SFF_1GBASET_CAPABLE : Z := 0x8.
Definition IXGBE_SFF_1GBASESX_CAPABLE : Z := 0x1.
Definition IXGBE_SFF_1GBASELX_CAPABLE : Z := 0x2.
Definition IXGBE_SFF_VENDOR_OUI_BYTE0 : Z := 0x25.
Definition IXGBE_SFF_VENDOR_OUI_BYTE1 : Z := 0x26.
Definition IXGBE_SFF_VENDOR_OUI_BYTE2 : Z := 0x27.
Definition IXGBE_SFF_VENDOR_OUI_BYTE0_SHIFT : Z := 24.
Definition IXGBE_SFF_VENDOR_OUI_BYTE1_SHIFT : Z := 16.
Definition IXGBE_SFF_VENDOR_OUI_BYTE2_SHIFT : Z := 8.
Definition IXGBE_SFF_VENDOR_OUI_TYCO : Z := 0x00407600.
Definition IXGBE_SFF_VENDOR_OUI_FTL : Z := 0x00906500.
Definition IXGBE_SFF_VENDOR_OUI_AVAGO : Z := 0x00176A00.
Definition IXGBE_SFF_VENDOR_OUI_INTEL : Z := 0x001B2100.
Definition IXGBE_DEVICE_CAPS_ALLOW_ANY_SFP : Z := 0x1.
Definition IXGBE_PHYSICAL_LAYER_UNKNOWN : Z := 0.
Definition IXGBE_PHYSICAL_LAYER_SFP_PLUS_CU : Z := 0x00008.
Definition IXGBE_PHYSICAL_LAYER_SFP_ACTIVE_DA : Z := 0x02000.
Definition IXGBE_PHYSICAL_LAYER_10GBASE_SR : Z := 0x00040.
Definition IXGBE_PHYSICAL_LAYER_10GBASE_LR : Z := 0x00010.
Definition IXGBE_PHYSICAL_LAYER_1000BASE_T : Z := 0x00002.
Definition IXGBE_PHYSICAL_LAYER_1000BASE_SX : Z := 0x04000.
Definition IXGBE_SFF_QSFP_10GBE_COMP : Z := 0x83.
Definition IXGBE_SFF_IDENTIFIER_QSFP_PLUS : Z := 0xD.
Definition IXGBE_SFF_QSFP_1GBE_COMP : Z := 0x86.
Definition IXGBE_SFF_QSFP_DA_PASSIVE_CABLE : Z := 0x8.
Definition IXGBE_SFF_QSFP_DA_ACTIVE_CABLE : Z := 0x1.
Definition IXGBE_SFF_QSFP_CONNECTOR : Z := 0x82.
Definition IXGBE_SFF_QSFP_CABLE_LENGTH : Z := 0x92.
Definition IXGBE_SFF_QSFP_DEVICE_TECH : Z := 0x93.
Definition IXGBE_SFF_QSFP_CONNECTOR_NOT_SEPARABLE : Z := 0x23.
Definition IXGBE_SFF_QSFP_TRANSMITER_850NM_VCSEL : Z := 0x0.
Definition IXGBE_SFF_QSFP_VENDOR_OUI_BYTE0 : Z := 0xA5.
Definition IXGBE_SFF_QSFP_VENDOR_OUI_BYTE1 : Z := 0xA6.
Definition IXGBE_SFF_QSFP_VENDOR_OUI_BYTE2 : Z := 0xA7.
Definition IXGBE_PHY_INIT_OFFSET_NL : Z := 0x002B.
Definition IXGBE_ERR_SFP_NO_INIT_SEQ_PRESENT : Z := -21.
Definition IXGBE_PHY_INIT_END_NL : Z := 0xFFFF.
