(* ===== verification/Types.v ===== *)
(** * Data types of the shared code

    The enums and structs of [ixgbe_type.h] and [ixgbe_mbx.h].  A struct is a
    record with the source's field names (prefixed where Rocq needs distinct
    names); [upd_f] rewrites field [f].  Function pointers are values of an
    enumeration of the functions the driver stores in them. *)
From S2P Require Import Prelude Regs.

(** enum ixgbe_mac_type *)
Inductive ixgbe_mac_type :=
| ixgbe_mac_unknown | ixgbe_mac_82598EB | ixgbe_mac_82599EB | ixgbe_mac_X540
| ixgbe_mac_X550 | ixgbe_mac_X550EM_x | ixgbe_mac_X550EM_a | ixgbe_mac_E610.

(** the value of the enumerator, for the code's [>=] comparisons *)
Definition mac_type_val (t : ixgbe_mac_type) : Z :=
  match t with
  | ixgbe_mac_unknown => 0 | ixgbe_mac_82598EB => 1 | ixgbe_mac_82599EB => 2
  | ixgbe_mac_X540 => 3 | ixgbe_mac_X550 => 4 | ixgbe_mac_X550EM_x => 5
  | ixgbe_mac_X550EM_a => 6 | ixgbe_mac_E610 => 7
  end.

(** enum ixgbe_fc_mode *)
Inductive ixgbe_fc_mode :=
| ixgbe_fc_none | ixgbe_fc_rx_pause | ixgbe_fc_tx_pause | ixgbe_fc_full
| ixgbe_fc_pfc | ixgbe_fc_default.

Definition fc_mode_val (m : ixgbe_fc_mode) : Z :=
  match m with
  | ixgbe_fc_none => 0 | ixgbe_fc_rx_pause => 1 | ixgbe_fc_tx_pause => 2
  | ixgbe_fc_full => 3 | ixgbe_fc_pfc => 4 | ixgbe_fc_default => 5
  end.

(** enum ixgbe_media_type *)
Inductive ixgbe_media_type :=
| ixgbe_media_type_unknown | ixgbe_media_type_fiber | ixgbe_media_type_fiber_qsfp
| ixgbe_media_type_copper | ixgbe_media_type_backplane | ixgbe_media_type_cx4
| ixgbe_media_type_virtual | ixgbe_media_type_da | ixgbe_media_type_aui.

(** enum ixgbe_phy_type *)
Inductive ixgbe_phy_type :=
| ixgbe_phy_unknown | ixgbe_phy_none | ixgbe_phy_tn | ixgbe_phy_aq | ixgbe_phy_x550em_kr
| ixgbe_phy_x550em_kx4 | ixgbe_phy_x550em_xfi | ixgbe_phy_x550em_ext_t | ixgbe_phy_ext_1g_t
| ixgbe_phy_cu_unknown | ixgbe_phy_qt | ixgbe_phy_xaui | ixgbe_phy_nl
| ixgbe_phy_sfp_passive_tyco | ixgbe_phy_sfp_passive_unknown | ixgbe_phy_sfp_active_unknown
| ixgbe_phy_sfp_avago | ixgbe_phy_sfp_ftl | ixgbe_phy_sfp_ftl_active | ixgbe_phy_sfp_unknown
| ixgbe_phy_sfp_intel | ixgbe_phy_qsfp_passive_unknown | ixgbe_phy_qsfp_active_unknown
| ixgbe_phy_qsfp_intel | ixgbe_phy_qsfp_unknown | ixgbe_phy_sfp_unsupported | ixgbe_phy_sgmii
| ixgbe_phy_fw | ixgbe_phy_generic.

(** enum ixgbe_sfp_type *)
Inductive ixgbe_sfp_type :=
| ixgbe_sfp_type_da_cu | ixgbe_sfp_type_sr | ixgbe_sfp_type_lr | ixgbe_sfp_type_da_cu_core0
| ixgbe_sfp_type_da_cu_core1 | ixgbe_sfp_type_srlr_core0 | ixgbe_sfp_type_srlr_core1
| ixgbe_sfp_type_da_act_lmt_core0 | ixgbe_sfp_type_da_act_lmt_core1
| ixgbe_sfp_type_1g_cu_core0 | ixgbe_sfp_type_1g_cu_core1 | ixgbe_sfp_type_1g_sx_core0
| ixgbe_sfp_type_1g_sx_core1 | ixgbe_sfp_type_1g_lx_core0 | ixgbe_sfp_type_1g_lx_core1
| ixgbe_sfp_type_not_present | ixgbe_sfp_type_unknown.

(** the values of its enumerators *)
Definition sfp_type_val (t : ixgbe_sfp_type) : Z :=
  match t with
  | ixgbe_sfp_type_da_cu => 0 | ixgbe_sfp_type_sr => 1 | ixgbe_sfp_type_lr => 2
  | ixgbe_sfp_type_da_cu_core0 => 3 | ixgbe_sfp_type_da_cu_core1 => 4
  | ixgbe_sfp_type_srlr_core0 => 5 | ixgbe_sfp_type_srlr_core1 => 6
  | ixgbe_sfp_type_da_act_lmt_core0 => 7 | ixgbe_sfp_type_da_act_lmt_core1 => 8
  | ixgbe_sfp_type_1g_cu_core0 => 9 | ixgbe_sfp_type_1g_cu_core1 => 10
  | ixgbe_sfp_type_1g_sx_core0 => 11 | ixgbe_sfp_type_1g_sx_core1 => 12
  | ixgbe_sfp_type_1g_lx_core0 => 13 | ixgbe_sfp_type_1g_lx_core1 => 14
  | ixgbe_sfp_type_not_present => 0xFFFE | ixgbe_sfp_type_unknown => 0xFFFF
  end.

(** enum ixgbe_eeprom_type *)
Inductive ixgbe_eeprom_type :=
| ixgbe_eeprom_uninitialized | ixgbe_eeprom_spi | ixgbe_flash | ixgbe_eeprom_none.

(** the tables [hw->mvals] can point to (ixgbe_api.c) *)
Inductive ixgbe_mvals_table :=
| ixgbe_mvals_base | ixgbe_mvals_X540 | ixgbe_mvals_X550
| ixgbe_mvals_X550EM_x | ixgbe_mvals_X550EM_a.

(** the functions stored in [hw->mbx.ops[i]] *)
Inductive mbx_release_fn :=
| fn_ixgbe_release_mbx_lock_dummy | fn_ixgbe_release_mbx_lock_vf | fn_ixgbe_release_mbx_lock_pf.
Inductive mbx_read_fn :=
| fn_ixgbe_read_mbx_vf_legacy | fn_ixgbe_read_mbx_vf
| fn_ixgbe_read_mbx_pf_legacy | fn_ixgbe_read_mbx_pf.
Inductive mbx_write_fn :=
| fn_ixgbe_write_mbx_vf_legacy | fn_ixgbe_write_mbx_vf
| fn_ixgbe_write_mbx_pf_legacy | fn_ixgbe_write_mbx_pf.
Inductive mbx_check_for_msg_fn := fn_ixgbe_check_for_msg_vf | fn_ixgbe_check_for_msg_pf.
Inductive mbx_check_for_ack_fn := fn_ixgbe_check_for_ack_vf | fn_ixgbe_check_for_ack_pf.
Inductive mbx_check_for_rst_fn := fn_ixgbe_check_for_rst_vf | fn_ixgbe_check_for_rst_pf.
Inductive mbx_clear_fn := fn_ixgbe_clear_mbx_pf.

(** enum ixgbe_flash_bank *)
Inductive ixgbe_flash_bank :=
| IXGBE_INVALID_FLASH_BANK | IXGBE_1ST_FLASH_BANK | IXGBE_2ND_FLASH_BANK.

(** enum ixgbe_bank_select *)
Inductive ixgbe_bank_select := IXGBE_ACTIVE_FLASH_BANK | IXGBE_INACTIVE_FLASH_BANK.

(** struct ixgbe_adapter: the state bits that the register layer touches, and how often [service_task] was queued on [ixgbe_wq] *)
Record ixgbe_adapter_state := mk_adapter {
  __IXGBE_DOWN : bool;
  __IXGBE_REMOVING : bool;
  __IXGBE_SERVICE_SCHED : bool;
  __IXGBE_SERVICE_INITED : bool;
  service_task_queued : Z }.

Definition upd_IXGBE_DOWN (x : bool) (s : ixgbe_adapter_state) : ixgbe_adapter_state :=
  mk_adapter x (__IXGBE_REMOVING s) (__IXGBE_SERVICE_SCHED s) (__IXGBE_SERVICE_INITED s) (service_task_queued s).
Definition upd_IXGBE_REMOVING (x : bool) (s : ixgbe_adapter_state) : ixgbe_adapter_state :=
  mk_adapter (__IXGBE_DOWN s) x (__IXGBE_SERVICE_SCHED s) (__IXGBE_SERVICE_INITED s) (service_task_queued s).
Definition upd_IXGBE_SERVICE_SCHED (x : bool) (s : ixgbe_adapter_state) : ixgbe_adapter_state :=
  mk_adapter (__IXGBE_DOWN s) (__IXGBE_REMOVING s) x (__IXGBE_SERVICE_INITED s) (service_task_queued s).
Definition upd_IXGBE_SERVICE_INITED (x : bool) (s : ixgbe_adapter_state) : ixgbe_adapter_state :=
  mk_adapter (__IXGBE_DOWN s) (__IXGBE_REMOVING s) (__IXGBE_SERVICE_SCHED s) x (service_task_queued s).
Definition upd_service_task_queued (x : Z) (s : ixgbe_adapter_state) : ixgbe_adapter_state :=
  mk_adapter (__IXGBE_DOWN s) (__IXGBE_REMOVING s) (__IXGBE_SERVICE_SCHED s) (__IXGBE_SERVICE_INITED s) x.

(** struct ixgbe_mac_info (the fields read or written by the modelled code) *)
Record ixgbe_mac_info := mk_mac {
  mac_type : ixgbe_mac_type;
  mac_addr : list Z;
  mta_shadow : list Z;
  mc_filter_type : Z;
  mcft_size : Z;
  vft_size : Z;
  num_rar_entries : Z;
  rar_highwater : Z;
  san_mac_rar_index : Z }.

Definition upd_mac_type (x : ixgbe_mac_type) (s : ixgbe_mac_info) : ixgbe_mac_info :=
  mk_mac x (mac_addr s) (mta_shadow s) (mc_filter_type s) (mcft_size s) (vft_size s) (num_rar_entries s) (rar_highwater s) (san_mac_rar_index s).
Definition upd_mac_addr (x : list Z) (s : ixgbe_mac_info) : ixgbe_mac_info :=
  mk_mac (mac_type s) x (mta_shadow s) (mc_filter_type s) (mcft_size s) (vft_size s) (num_rar_entries s) (rar_highwater s) (san_mac_rar_index s).
Definition upd_mta_shadow (x : list Z) (s : ixgbe_mac_info) : ixgbe_mac_info :=
  mk_mac (mac_type s) (mac_addr s) x (mc_filter_type s) (mcft_size s) (vft_size s) (num_rar_entries s) (rar_highwater s) (san_mac_rar_index s).
Definition upd_mc_filter_type (x : Z) (s : ixgbe_mac_info) : ixgbe_mac_info :=
  mk_mac (mac_type s) (mac_addr s) (mta_shadow s) x (mcft_size s) (vft_size s) (num_rar_entries s) (rar_highwater s) (san_mac_rar_index s).
Definition upd_mcft_size (x : Z) (s : ixgbe_mac_info) : ixgbe_mac_info :=
  mk_mac (mac_type s) (mac_addr s) (mta_shadow s) (mc_filter_type s) x (vft_size s) (num_rar_entries s) (rar_highwater s) (san_mac_rar_index s).
Definition upd_vft_size (x : Z) (s : ixgbe_mac_info) : ixgbe_mac_info :=
  mk_mac (mac_type s) (mac_addr s) (mta_shadow s) (mc_filter_type s) (mcft_size s) x (num_rar_entries s) (rar_highwater s) (san_mac_rar_index s).
Definition upd_num_rar_entries (x : Z) (s : ixgbe_mac_info) : ixgbe_mac_info :=
  mk_mac (mac_type s) (mac_addr s) (mta_shadow s) (mc_filter_type s) (mcft_size s) (vft_size s) x (rar_highwater s) (san_mac_rar_index s).
Definition upd_rar_highwater (x : Z) (s : ixgbe_mac_info) : ixgbe_mac_info :=
  mk_mac (mac_type s) (mac_addr s) (mta_shadow s) (mc_filter_type s) (mcft_size s) (vft_size s) (num_rar_entries s) x (san_mac_rar_index s).
Definition upd_san_mac_rar_index (x : Z) (s : ixgbe_mac_info) : ixgbe_mac_info :=
  mk_mac (mac_type s) (mac_addr s) (mta_shadow s) (mc_filter_type s) (mcft_size s) (vft_size s) (num_rar_entries s) (rar_highwater s) x.

(** struct ixgbe_addr_filter_info *)
Record ixgbe_addr_filter_info := mk_addr_ctrl {
  num_mc_addrs : Z;
  rar_used_count : Z;
  mta_in_use : Z;
  overflow_promisc : Z;
  user_set_promisc : bool }.

Definition upd_num_mc_addrs (x : Z) (s : ixgbe_addr_filter_info) : ixgbe_addr_filter_info :=
  mk_addr_ctrl x (rar_used_count s) (mta_in_use s) (overflow_promisc s) (user_set_promisc s).
Definition upd_rar_used_count (x : Z) (s : ixgbe_addr_filter_info) : ixgbe_addr_filter_info :=
  mk_addr_ctrl (num_mc_addrs s) x (mta_in_use s) (overflow_promisc s) (user_set_promisc s).
Definition upd_mta_in_use (x : Z) (s : ixgbe_addr_filter_info) : ixgbe_addr_filter_info :=
  mk_addr_ctrl (num_mc_addrs s) (rar_used_count s) x (overflow_promisc s) (user_set_promisc s).
Definition upd_overflow_promisc (x : Z) (s : ixgbe_addr_filter_info) : ixgbe_addr_filter_info :=
  mk_addr_ctrl (num_mc_addrs s) (rar_used_count s) (mta_in_use s) x (user_set_promisc s).
Definition upd_user_set_promisc (x : bool) (s : ixgbe_addr_filter_info) : ixgbe_addr_filter_info :=
  mk_addr_ctrl (num_mc_addrs s) (rar_used_count s) (mta_in_use s) (overflow_promisc s) x.

(** struct ixgbe_fc_info *)
Record ixgbe_fc_info := mk_fc {
  high_water : list Z;
  low_water : list Z;
  pause_time : Z;
  send_xon : bool;
  strict_ieee : bool;
  disable_fc_autoneg : bool;
  fc_was_autonegged : bool;
  current_mode : ixgbe_fc_mode;
  requested_mode : ixgbe_fc_mode }.

Definition upd_high_water (x : list Z) (s : ixgbe_fc_info) : ixgbe_fc_info :=
  mk_fc x (low_water s) (pause_time s) (send_xon s) (strict_ieee s) (disable_fc_autoneg s) (fc_was_autonegged s) (current_mode s) (requested_mode s).
Definition upd_low_water (x : list Z) (s : ixgbe_fc_info) : ixgbe_fc_info :=
  mk_fc (high_water s) x (pause_time s) (send_xon s) (strict_ieee s) (disable_fc_autoneg s) (fc_was_autonegged s) (current_mode s) (requested_mode s).
Definition upd_pause_time (x : Z) (s : ixgbe_fc_info) : ixgbe_fc_info :=
  mk_fc (high_water s) (low_water s) x (send_xon s) (strict_ieee s) (disable_fc_autoneg s) (fc_was_autonegged s) (current_mode s) (requested_mode s).
Definition upd_send_xon (x : bool) (s : ixgbe_fc_info) : ixgbe_fc_info :=
  mk_fc (high_water s) (low_water s) (pause_time s) x (strict_ieee s) (disable_fc_autoneg s) (fc_was_autonegged s) (current_mode s) (requested_mode s).
Definition upd_strict_ieee (x : bool) (s : ixgbe_fc_info) : ixgbe_fc_info :=
  mk_fc (high_water s) (low_water s) (pause_time s) (send_xon s) x (disable_fc_autoneg s) (fc_was_autonegged s) (current_mode s) (requested_mode s).
Definition upd_disable_fc_autoneg (x : bool) (s : ixgbe_fc_info) : ixgbe_fc_info :=
  mk_fc (high_water s) (low_water s) (pause_time s) (send_xon s) (strict_ieee s) x (fc_was_autonegged s) (current_mode s) (requested_mode s).
Definition upd_fc_was_autonegged (x : bool) (s : ixgbe_fc_info) : ixgbe_fc_info :=
  mk_fc (high_water s) (low_water s) (pause_time s) (send_xon s) (strict_ieee s) (disable_fc_autoneg s) x (current_mode s) (requested_mode s).
Definition upd_current_mode (x : ixgbe_fc_mode) (s : ixgbe_fc_info) : ixgbe_fc_info :=
  mk_fc (high_water s) (low_water s) (pause_time s) (send_xon s) (strict_ieee s) (disable_fc_autoneg s) (fc_was_autonegged s) x (requested_mode s).
Definition upd_requested_mode (x : ixgbe_fc_mode) (s : ixgbe_fc_info) : ixgbe_fc_info :=
  mk_fc (high_water s) (low_water s) (pause_time s) (send_xon s) (strict_ieee s) (disable_fc_autoneg s) (fc_was_autonegged s) (current_mode s) x.

(** struct ixgbe_phy_info (the fields read or written by the modelled code) *)
Record ixgbe_phy_info := mk_phy {
  phy_type : ixgbe_phy_type;
  phy_addr : Z;
  phy_id : Z;
  sfp_type : ixgbe_sfp_type;
  sfp_setup_needed : bool;
  phy_revision : Z;
  media_type : ixgbe_media_type;
  phy_semaphore_mask : Z;
  autoneg_advertised : Z;
  speeds_supported : Z;
  multispeed_fiber : bool;
  reset_if_overtemp : bool;
  nw_mng_if_sel : Z }.

Definition upd_phy_type (x : ixgbe_phy_type) (s : ixgbe_phy_info) : ixgbe_phy_info :=
  mk_phy x (phy_addr s) (phy_id s) (sfp_type s) (sfp_setup_needed s) (phy_revision s) (media_type s) (phy_semaphore_mask s) (autoneg_advertised s) (speeds_supported s) (multispeed_fiber s) (reset_if_overtemp s) (nw_mng_if_sel s).
Definition upd_phy_addr (x : Z) (s : ixgbe_phy_info) : ixgbe_phy_info :=
  mk_phy (phy_type s) x (phy_id s) (sfp_type s) (sfp_setup_needed s) (phy_revision s) (media_type s) (phy_semaphore_mask s) (autoneg_advertised s) (speeds_supported s) (multispeed_fiber s) (reset_if_overtemp s) (nw_mng_if_sel s).
Definition upd_phy_id (x : Z) (s : ixgbe_phy_info) : ixgbe_phy_info :=
  mk_phy (phy_type s) (phy_addr s) x (sfp_type s) (sfp_setup_needed s) (phy_revision s) (media_type s) (phy_semaphore_mask s) (autoneg_advertised s) (speeds_supported s) (multispeed_fiber s) (reset_if_overtemp s) (nw_mng_if_sel s).
Definition upd_sfp_type (x : ixgbe_sfp_type) (s : ixgbe_phy_info) : ixgbe_phy_info :=
  mk_phy (phy_type s) (phy_addr s) (phy_id s) x (sfp_setup_needed s) (phy_revision s) (media_type s) (phy_semaphore_mask s) (autoneg_advertised s) (speeds_supported s) (multispeed_fiber s) (reset_if_overtemp s) (nw_mng_if_sel s).
Definition upd_sfp_setup_needed (x : bool) (s : ixgbe_phy_info) : ixgbe_phy_info :=
  mk_phy (phy_type s) (phy_addr s) (phy_id s) (sfp_type s) x (phy_revision s) (media_type s) (phy_semaphore_mask s) (autoneg_advertised s) (speeds_supported s) (multispeed_fiber s) (reset_if_overtemp s) (nw_mng_if_sel s).
Definition upd_phy_revision (x : Z) (s : ixgbe_phy_info) : ixgbe_phy_info :=
  mk_phy (phy_type s) (phy_addr s) (phy_id s) (sfp_type s) (sfp_setup_needed s) x (media_type s) (phy_semaphore_mask s) (autoneg_advertised s) (speeds_supported s) (multispeed_fiber s) (reset_if_overtemp s) (nw_mng_if_sel s).
Definition upd_media_type (x : ixgbe_media_type) (s : ixgbe_phy_info) : ixgbe_phy_info :=
  mk_phy (phy_type s) (phy_addr s) (phy_id s) (sfp_type s) (sfp_setup_needed s) (phy_revision s) x (phy_semaphore_mask s) (autoneg_advertised s) (speeds_supported s) (multispeed_fiber s) (reset_if_overtemp s) (nw_mng_if_sel s).
Definition upd_phy_semaphore_mask (x : Z) (s : ixgbe_phy_info) : ixgbe_phy_info :=
  mk_phy (phy_type s) (phy_addr s) (phy_id s) (sfp_type s) (sfp_setup_needed s) (phy_revision s) (media_type s) x (autoneg_advertised s) (speeds_supported s) (multispeed_fiber s) (reset_if_overtemp s) (nw_mng_if_sel s).
Definition upd_autoneg_advertised (x : Z) (s : ixgbe_phy_info) : ixgbe_phy_info :=
  mk_phy (phy_type s) (phy_addr s) (phy_id s) (sfp_type s) (sfp_setup_needed s) (phy_revision s) (media_type s) (phy_semaphore_mask s) x (speeds_supported s) (multispeed_fiber s) (reset_if_overtemp s) (nw_mng_if_sel s).
Definition upd_speeds_supported (x : Z) (s : ixgbe_phy_info) : ixgbe_phy_info :=
  mk_phy (phy_type s) (phy_addr s) (phy_id s) (sfp_type s) (sfp_setup_needed s) (phy_revision s) (media_type s) (phy_semaphore_mask s) (autoneg_advertised s) x (multispeed_fiber s) (reset_if_overtemp s) (nw_mng_if_sel s).
Definition upd_multispeed_fiber (x : bool) (s : ixgbe_phy_info) : ixgbe_phy_info :=
  mk_phy (phy_type s) (phy_addr s) (phy_id s) (sfp_type s) (sfp_setup_needed s) (phy_revision s) (media_type s) (phy_semaphore_mask s) (autoneg_advertised s) (speeds_supported s) x (reset_if_overtemp s) (nw_mng_if_sel s).
Definition upd_reset_if_overtemp (x : bool) (s : ixgbe_phy_info) : ixgbe_phy_info :=
  mk_phy (phy_type s) (phy_addr s) (phy_id s) (sfp_type s) (sfp_setup_needed s) (phy_revision s) (media_type s) (phy_semaphore_mask s) (autoneg_advertised s) (speeds_supported s) (multispeed_fiber s) x (nw_mng_if_sel s).
Definition upd_nw_mng_if_sel (x : Z) (s : ixgbe_phy_info) : ixgbe_phy_info :=
  mk_phy (phy_type s) (phy_addr s) (phy_id s) (sfp_type s) (sfp_setup_needed s) (phy_revision s) (media_type s) (phy_semaphore_mask s) (autoneg_advertised s) (speeds_supported s) (multispeed_fiber s) (reset_if_overtemp s) x.

(** struct ixgbe_eeprom_info *)
Record ixgbe_eeprom_info := mk_eeprom {
  eeprom_type : ixgbe_eeprom_type;
  semaphore_delay : Z;
  word_size : Z;
  address_bits : Z;
  word_page_size : Z;
  ctrl_word_3 : Z }.

Definition upd_eeprom_type (x : ixgbe_eeprom_type) (s : ixgbe_eeprom_info) : ixgbe_eeprom_info :=
  mk_eeprom x (semaphore_delay s) (word_size s) (address_bits s) (word_page_size s) (ctrl_word_3 s).
Definition upd_semaphore_delay (x : Z) (s : ixgbe_eeprom_info) : ixgbe_eeprom_info :=
  mk_eeprom (eeprom_type s) x (word_size s) (address_bits s) (word_page_size s) (ctrl_word_3 s).
Definition upd_word_size (x : Z) (s : ixgbe_eeprom_info) : ixgbe_eeprom_info :=
  mk_eeprom (eeprom_type s) (semaphore_delay s) x (address_bits s) (word_page_size s) (ctrl_word_3 s).
Definition upd_address_bits (x : Z) (s : ixgbe_eeprom_info) : ixgbe_eeprom_info :=
  mk_eeprom (eeprom_type s) (semaphore_delay s) (word_size s) x (word_page_size s) (ctrl_word_3 s).
Definition upd_word_page_size (x : Z) (s : ixgbe_eeprom_info) : ixgbe_eeprom_info :=
  mk_eeprom (eeprom_type s) (semaphore_delay s) (word_size s) (address_bits s) x (ctrl_word_3 s).
Definition upd_ctrl_word_3 (x : Z) (s : ixgbe_eeprom_info) : ixgbe_eeprom_info :=
  mk_eeprom (eeprom_type s) (semaphore_delay s) (word_size s) (address_bits s) (word_page_size s) x.

(** struct ixgbe_mbx_operations; [None] is a NULL function pointer *)
Record ixgbe_mbx_operations := mk_mbx_operations {
  op_release : option mbx_release_fn;
  op_read : option mbx_read_fn;
  op_write : option mbx_write_fn;
  op_check_for_msg : option mbx_check_for_msg_fn;
  op_check_for_ack : option mbx_check_for_ack_fn;
  op_check_for_rst : option mbx_check_for_rst_fn;
  op_clear : option mbx_clear_fn }.

Definition upd_op_release (x : option mbx_release_fn) (s : ixgbe_mbx_operations) : ixgbe_mbx_operations :=
  mk_mbx_operations x (op_read s) (op_write s) (op_check_for_msg s) (op_check_for_ack s) (op_check_for_rst s) (op_clear s).
Definition upd_op_read (x : option mbx_read_fn) (s : ixgbe_mbx_operations) : ixgbe_mbx_operations :=
  mk_mbx_operations (op_release s) x (op_write s) (op_check_for_msg s) (op_check_for_ack s) (op_check_for_rst s) (op_clear s).
Definition upd_op_write (x : option mbx_write_fn) (s : ixgbe_mbx_operations) : ixgbe_mbx_operations :=
  mk_mbx_operations (op_release s) (op_read s) x (op_check_for_msg s) (op_check_for_ack s) (op_check_for_rst s) (op_clear s).
Definition upd_op_check_for_msg (x : option mbx_check_for_msg_fn) (s : ixgbe_mbx_operations) : ixgbe_mbx_operations :=
  mk_mbx_operations (op_release s) (op_read s) (op_write s) x (op_check_for_ack s) (op_check_for_rst s) (op_clear s).
Definition upd_op_check_for_ack (x : option mbx_check_for_ack_fn) (s : ixgbe_mbx_operations) : ixgbe_mbx_operations :=
  mk_mbx_operations (op_release s) (op_read s) (op_write s) (op_check_for_msg s) x (op_check_for_rst s) (op_clear s).
Definition upd_op_check_for_rst (x : option mbx_check_for_rst_fn) (s : ixgbe_mbx_operations) : ixgbe_mbx_operations :=
  mk_mbx_operations (op_release s) (op_read s) (op_write s) (op_check_for_msg s) (op_check_for_ack s) x (op_clear s).
Definition upd_op_clear (x : option mbx_clear_fn) (s : ixgbe_mbx_operations) : ixgbe_mbx_operations :=
  mk_mbx_operations (op_release s) (op_read s) (op_write s) (op_check_for_msg s) (op_check_for_ack s) (op_check_for_rst s) x.

(** struct ixgbe_mbx_stats *)
Record ixgbe_mbx_stats := mk_mbx_stats {
  msgs_tx : Z;
  msgs_rx : Z;
  acks : Z;
  reqs : Z;
  rsts : Z }.

Definition upd_msgs_tx (x : Z) (s : ixgbe_mbx_stats) : ixgbe_mbx_stats :=
  mk_mbx_stats x (msgs_rx s) (acks s) (reqs s) (rsts s).
Definition upd_msgs_rx (x : Z) (s : ixgbe_mbx_stats) : ixgbe_mbx_stats :=
  mk_mbx_stats (msgs_tx s) x (acks s) (reqs s) (rsts s).
Definition upd_acks (x : Z) (s : ixgbe_mbx_stats) : ixgbe_mbx_stats :=
  mk_mbx_stats (msgs_tx s) (msgs_rx s) x (reqs s) (rsts s).
Definition upd_reqs (x : Z) (s : ixgbe_mbx_stats) : ixgbe_mbx_stats :=
  mk_mbx_stats (msgs_tx s) (msgs_rx s) (acks s) x (rsts s).
Definition upd_rsts (x : Z) (s : ixgbe_mbx_stats) : ixgbe_mbx_stats :=
  mk_mbx_stats (msgs_tx s) (msgs_rx s) (acks s) (reqs s) x.

(** struct ixgbe_mbx_info *)
Record ixgbe_mbx_info := mk_mbx {
  mbx_ops : list ixgbe_mbx_operations;
  mbx_stats : ixgbe_mbx_stats;
  mbx_timeout : Z;
  mbx_usec_delay : Z;
  mbx_vf_mailbox : Z;
  mbx_size : Z }.

Definition upd_mbx_ops (x : list ixgbe_mbx_operations) (s : ixgbe_mbx_info) : ixgbe_mbx_info :=
  mk_mbx x (mbx_stats s) (mbx_timeout s) (mbx_usec_delay s) (mbx_vf_mailbox s) (mbx_size s).
Definition upd_mbx_stats (x : ixgbe_mbx_stats) (s : ixgbe_mbx_info) : ixgbe_mbx_info :=
  mk_mbx (mbx_ops s) x (mbx_timeout s) (mbx_usec_delay s) (mbx_vf_mailbox s) (mbx_size s).
Definition upd_mbx_timeout (x : Z) (s : ixgbe_mbx_info) : ixgbe_mbx_info :=
  mk_mbx (mbx_ops s) (mbx_stats s) x (mbx_usec_delay s) (mbx_vf_mailbox s) (mbx_size s).
Definition upd_mbx_usec_delay (x : Z) (s : ixgbe_mbx_info) : ixgbe_mbx_info :=
  mk_mbx (mbx_ops s) (mbx_stats s) (mbx_timeout s) x (mbx_vf_mailbox s) (mbx_size s).
Definition upd_mbx_vf_mailbox (x : Z) (s : ixgbe_mbx_info) : ixgbe_mbx_info :=
  mk_mbx (mbx_ops s) (mbx_stats s) (mbx_timeout s) (mbx_usec_delay s) x (mbx_size s).
Definition upd_mbx_size (x : Z) (s : ixgbe_mbx_info) : ixgbe_mbx_info :=
  mk_mbx (mbx_ops s) (mbx_stats s) (mbx_timeout s) (mbx_usec_delay s) (mbx_vf_mailbox s) x.

(** struct ixgbe_aci_info; [aci_lock] is whether the mutex [lock] is taken *)
Record ixgbe_aci_info := mk_aci {
  aci_last_status : Z;
  aci_lock : bool }.

Definition upd_aci_last_status (x : Z) (s : ixgbe_aci_info) : ixgbe_aci_info :=
  mk_aci x (aci_lock s).
Definition upd_aci_lock (x : bool) (s : ixgbe_aci_info) : ixgbe_aci_info :=
  mk_aci (aci_last_status s) x.

(** struct ixgbe_orom_info *)
Record ixgbe_orom_info := mk_orom_info {
  orom_major : Z;
  orom_patch : Z;
  orom_build : Z;
  orom_srev : Z }.

Definition upd_orom_major (x : Z) (s : ixgbe_orom_info) : ixgbe_orom_info :=
  mk_orom_info x (orom_patch s) (orom_build s) (orom_srev s).
Definition upd_orom_patch (x : Z) (s : ixgbe_orom_info) : ixgbe_orom_info :=
  mk_orom_info (orom_major s) x (orom_build s) (orom_srev s).
Definition upd_orom_build (x : Z) (s : ixgbe_orom_info) : ixgbe_orom_info :=
  mk_orom_info (orom_major s) (orom_patch s) x (orom_srev s).
Definition upd_orom_srev (x : Z) (s : ixgbe_orom_info) : ixgbe_orom_info :=
  mk_orom_info (orom_major s) (orom_patch s) (orom_build s) x.

(** struct ixgbe_nvm_info *)
Record ixgbe_nvm_info := mk_nvm_info {
  nvm_eetrack : Z;
  nvm_srev : Z;
  nvm_major : Z;
  nvm_minor : Z }.

Definition upd_nvm_eetrack (x : Z) (s : ixgbe_nvm_info) : ixgbe_nvm_info :=
  mk_nvm_info x (nvm_srev s) (nvm_major s) (nvm_minor s).
Definition upd_nvm_srev (x : Z) (s : ixgbe_nvm_info) : ixgbe_nvm_info :=
  mk_nvm_info (nvm_eetrack s) x (nvm_major s) (nvm_minor s).
Definition upd_nvm_major (x : Z) (s : ixgbe_nvm_info) : ixgbe_nvm_info :=
  mk_nvm_info (nvm_eetrack s) (nvm_srev s) x (nvm_minor s).
Definition upd_nvm_minor (x : Z) (s : ixgbe_nvm_info) : ixgbe_nvm_info :=
  mk_nvm_info (nvm_eetrack s) (nvm_srev s) (nvm_major s) x.

(** struct ixgbe_netlist_info *)
Record ixgbe_netlist_info := mk_netlist_info {
  nl_major : Z;
  nl_minor : Z;
  nl_type : Z;
  nl_rev : Z;
  nl_hash : Z;
  nl_cust_ver : Z }.

Definition upd_nl_major (x : Z) (s : ixgbe_netlist_info) : ixgbe_netlist_info :=
  mk_netlist_info x (nl_minor s) (nl_type s) (nl_rev s) (nl_hash s) (nl_cust_ver s).
Definition upd_nl_minor (x : Z) (s : ixgbe_netlist_info) : ixgbe_netlist_info :=
  mk_netlist_info (nl_major s) x (nl_type s) (nl_rev s) (nl_hash s) (nl_cust_ver s).
Definition upd_nl_type (x : Z) (s : ixgbe_netlist_info) : ixgbe_netlist_info :=
  mk_netlist_info (nl_major s) (nl_minor s) x (nl_rev s) (nl_hash s) (nl_cust_ver s).
Definition upd_nl_rev (x : Z) (s : ixgbe_netlist_info) : ixgbe_netlist_info :=
  mk_netlist_info (nl_major s) (nl_minor s) (nl_type s) x (nl_hash s) (nl_cust_ver s).
Definition upd_nl_hash (x : Z) (s : ixgbe_netlist_info) : ixgbe_netlist_info :=
  mk_netlist_info (nl_major s) (nl_minor s) (nl_type s) (nl_rev s) x (nl_cust_ver s).
Definition upd_nl_cust_ver (x : Z) (s : ixgbe_netlist_info) : ixgbe_netlist_info :=
  mk_netlist_info (nl_major s) (nl_minor s) (nl_type s) (nl_rev s) (nl_hash s) x.

(** struct ixgbe_bank_info *)
Record ixgbe_bank_info := mk_bank_info {
  nvm_ptr : Z;
  nvm_size : Z;
  orom_ptr : Z;
  orom_size : Z;
  netlist_ptr : Z;
  netlist_size : Z;
  nvm_bank : ixgbe_flash_bank;
  orom_bank : ixgbe_flash_bank;
  netlist_bank : ixgbe_flash_bank }.

Definition upd_nvm_ptr (x : Z) (s : ixgbe_bank_info) : ixgbe_bank_info :=
  mk_bank_info x (nvm_size s) (orom_ptr s) (orom_size s) (netlist_ptr s) (netlist_size s) (nvm_bank s) (orom_bank s) (netlist_bank s).
Definition upd_nvm_size (x : Z) (s : ixgbe_bank_info) : ixgbe_bank_info :=
  mk_bank_info (nvm_ptr s) x (orom_ptr s) (orom_size s) (netlist_ptr s) (netlist_size s) (nvm_bank s) (orom_bank s) (netlist_bank s).
Definition upd_orom_ptr (x : Z) (s : ixgbe_bank_info) : ixgbe_bank_info :=
  mk_bank_info (nvm_ptr s) (nvm_size s) x (orom_size s) (netlist_ptr s) (netlist_size s) (nvm_bank s) (orom_bank s) (netlist_bank s).
Definition upd_orom_size (x : Z) (s : ixgbe_bank_info) : ixgbe_bank_info :=
  mk_bank_info (nvm_ptr s) (nvm_size s) (orom_ptr s) x (netlist_ptr s) (netlist_size s) (nvm_bank s) (orom_bank s) (netlist_bank s).
Definition upd_netlist_ptr (x : Z) (s : ixgbe_bank_info) : ixgbe_bank_info :=
  mk_bank_info (nvm_ptr s) (nvm_size s) (orom_ptr s) (orom_size s) x (netlist_size s) (nvm_bank s) (orom_bank s) (netlist_bank s).
Definition upd_netlist_size (x : Z) (s : ixgbe_bank_info) : ixgbe_bank_info :=
  mk_bank_info (nvm_ptr s) (nvm_size s) (orom_ptr s) (orom_size s) (netlist_ptr s) x (nvm_bank s) (orom_bank s) (netlist_bank s).
Definition upd_nvm_bank (x : ixgbe_flash_bank) (s : ixgbe_bank_info) : ixgbe_bank_info :=
  mk_bank_info (nvm_ptr s) (nvm_size s) (orom_ptr s) (orom_size s) (netlist_ptr s) (netlist_size s) x (orom_bank s) (netlist_bank s).
Definition upd_orom_bank (x : ixgbe_flash_bank) (s : ixgbe_bank_info) : ixgbe_bank_info :=
  mk_bank_info (nvm_ptr s) (nvm_size s) (orom_ptr s) (orom_size s) (netlist_ptr s) (netlist_size s) (nvm_bank s) x (netlist_bank s).
Definition upd_netlist_bank (x : ixgbe_flash_bank) (s : ixgbe_bank_info) : ixgbe_bank_info :=
  mk_bank_info (nvm_ptr s) (nvm_size s) (orom_ptr s) (orom_size s) (netlist_ptr s) (netlist_size s) (nvm_bank s) (orom_bank s) x.

(** struct ixgbe_flash_info *)
Record ixgbe_flash_info := mk_flash_info {
  fl_orom : ixgbe_orom_info;
  fl_nvm : ixgbe_nvm_info;
  fl_netlist : ixgbe_netlist_info;
  banks : ixgbe_bank_info;
  sr_words : Z;
  flash_size : Z;
  blank_nvm_mode : bool }.

Definition upd_fl_orom (x : ixgbe_orom_info) (s : ixgbe_flash_info) : ixgbe_flash_info :=
  mk_flash_info x (fl_nvm s) (fl_netlist s) (banks s) (sr_words s) (flash_size s) (blank_nvm_mode s).
Definition upd_fl_nvm (x : ixgbe_nvm_info) (s : ixgbe_flash_info) : ixgbe_flash_info :=
  mk_flash_info (fl_orom s) x (fl_netlist s) (banks s) (sr_words s) (flash_size s) (blank_nvm_mode s).
Definition upd_fl_netlist (x : ixgbe_netlist_info) (s : ixgbe_flash_info) : ixgbe_flash_info :=
  mk_flash_info (fl_orom s) (fl_nvm s) x (banks s) (sr_words s) (flash_size s) (blank_nvm_mode s).
Definition upd_banks (x : ixgbe_bank_info) (s : ixgbe_flash_info) : ixgbe_flash_info :=
  mk_flash_info (fl_orom s) (fl_nvm s) (fl_netlist s) x (sr_words s) (flash_size s) (blank_nvm_mode s).
Definition upd_sr_words (x : Z) (s : ixgbe_flash_info) : ixgbe_flash_info :=
  mk_flash_info (fl_orom s) (fl_nvm s) (fl_netlist s) (banks s) x (flash_size s) (blank_nvm_mode s).
Definition upd_flash_size (x : Z) (s : ixgbe_flash_info) : ixgbe_flash_info :=
  mk_flash_info (fl_orom s) (fl_nvm s) (fl_netlist s) (banks s) (sr_words s) x (blank_nvm_mode s).
Definition upd_blank_nvm_mode (x : bool) (s : ixgbe_flash_info) : ixgbe_flash_info :=
  mk_flash_info (fl_orom s) (fl_nvm s) (fl_netlist s) (banks s) (sr_words s) (flash_size s) x.

(** the firmware and interface versions in struct ixgbe_hw *)
Record ixgbe_fw_version := mk_fw_version {
  api_branch : Z;
  api_maj_ver : Z;
  api_min_ver : Z;
  api_patch : Z;
  fw_branch : Z;
  fw_maj_ver : Z;
  fw_min_ver : Z;
  fw_patch : Z;
  fw_build : Z }.

Definition upd_api_branch (x : Z) (s : ixgbe_fw_version) : ixgbe_fw_version :=
  mk_fw_version x (api_maj_ver s) (api_min_ver s) (api_patch s) (fw_branch s) (fw_maj_ver s) (fw_min_ver s) (fw_patch s) (fw_build s).
Definition upd_api_maj_ver (x : Z) (s : ixgbe_fw_version) : ixgbe_fw_version :=
  mk_fw_version (api_branch s) x (api_min_ver s) (api_patch s) (fw_branch s) (fw_maj_ver s) (fw_min_ver s) (fw_patch s) (fw_build s).
Definition upd_api_min_ver (x : Z) (s : ixgbe_fw_version) : ixgbe_fw_version :=
  mk_fw_version (api_branch s) (api_maj_ver s) x (api_patch s) (fw_branch s) (fw_maj_ver s) (fw_min_ver s) (fw_patch s) (fw_build s).
Definition upd_api_patch (x : Z) (s : ixgbe_fw_version) : ixgbe_fw_version :=
  mk_fw_version (api_branch s) (api_maj_ver s) (api_min_ver s) x (fw_branch s) (fw_maj_ver s) (fw_min_ver s) (fw_patch s) (fw_build s).
Definition upd_fw_branch (x : Z) (s : ixgbe_fw_version) : ixgbe_fw_version :=
  mk_fw_version (api_branch s) (api_maj_ver s) (api_min_ver s) (api_patch s) x (fw_maj_ver s) (fw_min_ver s) (fw_patch s) (fw_build s).
Definition upd_fw_maj_ver (x : Z) (s : ixgbe_fw_version) : ixgbe_fw_version :=
  mk_fw_version (api_branch s) (api_maj_ver s) (api_min_ver s) (api_patch s) (fw_branch s) x (fw_min_ver s) (fw_patch s) (fw_build s).
Definition upd_fw_min_ver (x : Z) (s : ixgbe_fw_version) : ixgbe_fw_version :=
  mk_fw_version (api_branch s) (api_maj_ver s) (api_min_ver s) (api_patch s) (fw_branch s) (fw_maj_ver s) x (fw_patch s) (fw_build s).
Definition upd_fw_patch (x : Z) (s : ixgbe_fw_version) : ixgbe_fw_version :=
  mk_fw_version (api_branch s) (api_maj_ver s) (api_min_ver s) (api_patch s) (fw_branch s) (fw_maj_ver s) (fw_min_ver s) x (fw_build s).
Definition upd_fw_build (x : Z) (s : ixgbe_fw_version) : ixgbe_fw_version :=
  mk_fw_version (api_branch s) (api_maj_ver s) (api_min_ver s) (api_patch s) (fw_branch s) (fw_maj_ver s) (fw_min_ver s) (fw_patch s) x.

(** struct ixgbe_hw_common_caps (the fields the parser of the capabilities writes) *)
Record ixgbe_hw_common_caps := mk_common_caps {
  cc_valid_functions : Z;
  cc_vmdq : Z;
  cc_dcb : Z;
  cc_active_tc_bitmap : Z;
  cc_maxtc : Z;
  cc_rss_table_size : Z;
  cc_rss_table_entry_width : Z;
  cc_num_rxq : Z;
  cc_rxq_first_id : Z;
  cc_num_txq : Z;
  cc_txq_first_id : Z;
  cc_num_msix_vectors : Z;
  cc_msix_vector_first_id : Z;
  cc_nvm_update_pending_nvm : bool;
  cc_nvm_update_pending_orom : bool;
  cc_nvm_update_pending_netlist : bool;
  cc_sec_rev_disabled : bool;
  cc_update_disabled : bool;
  cc_nvm_unified_update : bool;
  cc_netlist_auth : bool;
  cc_max_mtu : Z;
  cc_pcie_reset_avoidance : bool;
  cc_reset_restrict_support : bool;
  cc_topo_ver_high : list Z;
  cc_topo_ver_low : list Z;
  cc_topo_part_num : list Z;
  cc_topo_load_en : list bool;
  cc_topo_prog_en : list bool;
  cc_orom_recovery_update : bool;
  cc_next_cluster_id_support : bool;
  cc_ptp_by_phy_support : bool;
  cc_ptp_by_phy_ll : bool;
  cc_eee_support : Z;
  cc_ieee_1588 : Z }.

Definition upd_cc_valid_functions (x : Z) (s : ixgbe_hw_common_caps) : ixgbe_hw_common_caps :=
  mk_common_caps x (cc_vmdq s) (cc_dcb s) (cc_active_tc_bitmap s) (cc_maxtc s) (cc_rss_table_size s) (cc_rss_table_entry_width s) (cc_num_rxq s) (cc_rxq_first_id s) (cc_num_txq s) (cc_txq_first_id s) (cc_num_msix_vectors s) (cc_msix_vector_first_id s) (cc_nvm_update_pending_nvm s) (cc_nvm_update_pending_orom s) (cc_nvm_update_pending_netlist s) (cc_sec_rev_disabled s) (cc_update_disabled s) (cc_nvm_unified_update s) (cc_netlist_auth s) (cc_max_mtu s) (cc_pcie_reset_avoidance s) (cc_reset_restrict_support s) (cc_topo_ver_high s) (cc_topo_ver_low s) (cc_topo_part_num s) (cc_topo_load_en s) (cc_topo_prog_en s) (cc_orom_recovery_update s) (cc_next_cluster_id_support s) (cc_ptp_by_phy_support s) (cc_ptp_by_phy_ll s) (cc_eee_support s) (cc_ieee_1588 s).
Definition upd_cc_vmdq (x : Z) (s : ixgbe_hw_common_caps) : ixgbe_hw_common_caps :=
  mk_common_caps (cc_valid_functions s) x (cc_dcb s) (cc_active_tc_bitmap s) (cc_maxtc s) (cc_rss_table_size s) (cc_rss_table_entry_width s) (cc_num_rxq s) (cc_rxq_first_id s) (cc_num_txq s) (cc_txq_first_id s) (cc_num_msix_vectors s) (cc_msix_vector_first_id s) (cc_nvm_update_pending_nvm s) (cc_nvm_update_pending_orom s) (cc_nvm_update_pending_netlist s) (cc_sec_rev_disabled s) (cc_update_disabled s) (cc_nvm_unified_update s) (cc_netlist_auth s) (cc_max_mtu s) (cc_pcie_reset_avoidance s) (cc_reset_restrict_support s) (cc_topo_ver_high s) (cc_topo_ver_low s) (cc_topo_part_num s) (cc_topo_load_en s) (cc_topo_prog_en s) (cc_orom_recovery_update s) (cc_next_cluster_id_support s) (cc_ptp_by_phy_support s) (cc_ptp_by_phy_ll s) (cc_eee_support s) (cc_ieee_1588 s).
Definition upd_cc_dcb (x : Z) (s : ixgbe_hw_common_caps) : ixgbe_hw_common_caps :=
  mk_common_caps (cc_valid_functions s) (cc_vmdq s) x (cc_active_tc_bitmap s) (cc_maxtc s) (cc_rss_table_size s) (cc_rss_table_entry_width s) (cc_num_rxq s) (cc_rxq_first_id s) (cc_num_txq s) (cc_txq_first_id s) (cc_num_msix_vectors s) (cc_msix_vector_first_id s) (cc_nvm_update_pending_nvm s) (cc_nvm_update_pending_orom s) (cc_nvm_update_pending_netlist s) (cc_sec_rev_disabled s) (cc_update_disabled s) (cc_nvm_unified_update s) (cc_netlist_auth s) (cc_max_mtu s) (cc_pcie_reset_avoidance s) (cc_reset_restrict_support s) (cc_topo_ver_high s) (cc_topo_ver_low s) (cc_topo_part_num s) (cc_topo_load_en s) (cc_topo_prog_en s) (cc_orom_recovery_update s) (cc_next_cluster_id_support s) (cc_ptp_by_phy_support s) (cc_ptp_by_phy_ll s) (cc_eee_support s) (cc_ieee_1588 s).
Definition upd_cc_active_tc_bitmap (x : Z) (s : ixgbe_hw_common_caps) : ixgbe_hw_common_caps :=
  mk_common_caps (cc_valid_functions s) (cc_vmdq s) (cc_dcb s) x (cc_maxtc s) (cc_rss_table_size s) (cc_rss_table_entry_width s) (cc_num_rxq s) (cc_rxq_first_id s) (cc_num_txq s) (cc_txq_first_id s) (cc_num_msix_vectors s) (cc_msix_vector_first_id s) (cc_nvm_update_pending_nvm s) (cc_nvm_update_pending_orom s) (cc_nvm_update_pending_netlist s) (cc_sec_rev_disabled s) (cc_update_disabled s) (cc_nvm_unified_update s) (cc_netlist_auth s) (cc_max_mtu s) (cc_pcie_reset_avoidance s) (cc_reset_restrict_support s) (cc_topo_ver_high s) (cc_topo_ver_low s) (cc_topo_part_num s) (cc_topo_load_en s) (cc_topo_prog_en s) (cc_orom_recovery_update s) (cc_next_cluster_id_support s) (cc_ptp_by_phy_support s) (cc_ptp_by_phy_ll s) (cc_eee_support s) (cc_ieee_1588 s).
Definition upd_cc_maxtc (x : Z) (s : ixgbe_hw_common_caps) : ixgbe_hw_common_caps :=
  mk_common_caps (cc_valid_functions s) (cc_vmdq s) (cc_dcb s) (cc_active_tc_bitmap s) x (cc_rss_table_size s) (cc_rss_table_entry_width s) (cc_num_rxq s) (cc_rxq_first_id s) (cc_num_txq s) (cc_txq_first_id s) (cc_num_msix_vectors s) (cc_msix_vector_first_id s) (cc_nvm_update_pending_nvm s) (cc_nvm_update_pending_orom s) (cc_nvm_update_pending_netlist s) (cc_sec_rev_disabled s) (cc_update_disabled s) (cc_nvm_unified_update s) (cc_netlist_auth s) (cc_max_mtu s) (cc_pcie_reset_avoidance s) (cc_reset_restrict_support s) (cc_topo_ver_high s) (cc_topo_ver_low s) (cc_topo_part_num s) (cc_topo_load_en s) (cc_topo_prog_en s) (cc_orom_recovery_update s) (cc_next_cluster_id_support s) (cc_ptp_by_phy_support s) (cc_ptp_by_phy_ll s) (cc_eee_support s) (cc_ieee_1588 s).
Definition upd_cc_rss_table_size (x : Z) (s : ixgbe_hw_common_caps) : ixgbe_hw_common_caps :=
  mk_common_caps (cc_valid_functions s) (cc_vmdq s) (cc_dcb s) (cc_active_tc_bitmap s) (cc_maxtc s) x (cc_rss_table_entry_width s) (cc_num_rxq s) (cc_rxq_first_id s) (cc_num_txq s) (cc_txq_first_id s) (cc_num_msix_vectors s) (cc_msix_vector_first_id s) (cc_nvm_update_pending_nvm s) (cc_nvm_update_pending_orom s) (cc_nvm_update_pending_netlist s) (cc_sec_rev_disabled s) (cc_update_disabled s) (cc_nvm_unified_update s) (cc_netlist_auth s) (cc_max_mtu s) (cc_pcie_reset_avoidance s) (cc_reset_restrict_support s) (cc_topo_ver_high s) (cc_topo_ver_low s) (cc_topo_part_num s) (cc_topo_load_en s) (cc_topo_prog_en s) (cc_orom_recovery_update s) (cc_next_cluster_id_support s) (cc_ptp_by_phy_support s) (cc_ptp_by_phy_ll s) (cc_eee_support s) (cc_ieee_1588 s).
Definition upd_cc_rss_table_entry_width (x : Z) (s : ixgbe_hw_common_caps) : ixgbe_hw_common_caps :=
  mk_common_caps (cc_valid_functions s) (cc_vmdq s) (cc_dcb s) (cc_active_tc_bitmap s) (cc_maxtc s) (cc_rss_table_size s) x (cc_num_rxq s) (cc_rxq_first_id s) (cc_num_txq s) (cc_txq_first_id s) (cc_num_msix_vectors s) (cc_msix_vector_first_id s) (cc_nvm_update_pending_nvm s) (cc_nvm_update_pending_orom s) (cc_nvm_update_pending_netlist s) (cc_sec_rev_disabled s) (cc_update_disabled s) (cc_nvm_unified_update s) (cc_netlist_auth s) (cc_max_mtu s) (cc_pcie_reset_avoidance s) (cc_reset_restrict_support s) (cc_topo_ver_high s) (cc_topo_ver_low s) (cc_topo_part_num s) (cc_topo_load_en s) (cc_topo_prog_en s) (cc_orom_recovery_update s) (cc_next_cluster_id_support s) (cc_ptp_by_phy_support s) (cc_ptp_by_phy_ll s) (cc_eee_support s) (cc_ieee_1588 s).
Definition upd_cc_num_rxq (x : Z) (s : ixgbe_hw_common_caps) : ixgbe_hw_common_caps :=
  mk_common_caps (cc_valid_functions s) (cc_vmdq s) (cc_dcb s) (cc_active_tc_bitmap s) (cc_maxtc s) (cc_rss_table_size s) (cc_rss_table_entry_width s) x (cc_rxq_first_id s) (cc_num_txq s) (cc_txq_first_id s) (cc_num_msix_vectors s) (cc_msix_vector_first_id s) (cc_nvm_update_pending_nvm s) (cc_nvm_update_pending_orom s) (cc_nvm_update_pending_netlist s) (cc_sec_rev_disabled s) (cc_update_disabled s) (cc_nvm_unified_update s) (cc_netlist_auth s) (cc_max_mtu s) (cc_pcie_reset_avoidance s) (cc_reset_restrict_support s) (cc_topo_ver_high s) (cc_topo_ver_low s) (cc_topo_part_num s) (cc_topo_load_en s) (cc_topo_prog_en s) (cc_orom_recovery_update s) (cc_next_cluster_id_support s) (cc_ptp_by_phy_support s) (cc_ptp_by_phy_ll s) (cc_eee_support s) (cc_ieee_1588 s).
Definition upd_cc_rxq_first_id (x : Z) (s : ixgbe_hw_common_caps) : ixgbe_hw_common_caps :=
  mk_common_caps (cc_valid_functions s) (cc_vmdq s) (cc_dcb s) (cc_active_tc_bitmap s) (cc_maxtc s) (cc_rss_table_size s) (cc_rss_table_entry_width s) (cc_num_rxq s) x (cc_num_txq s) (cc_txq_first_id s) (cc_num_msix_vectors s) (cc_msix_vector_first_id s) (cc_nvm_update_pending_nvm s) (cc_nvm_update_pending_orom s) (cc_nvm_update_pending_netlist s) (cc_sec_rev_disabled s) (cc_update_disabled s) (cc_nvm_unified_update s) (cc_netlist_auth s) (cc_max_mtu s) (cc_pcie_reset_avoidance s) (cc_reset_restrict_support s) (cc_topo_ver_high s) (cc_topo_ver_low s) (cc_topo_part_num s) (cc_topo_load_en s) (cc_topo_prog_en s) (cc_orom_recovery_update s) (cc_next_cluster_id_support s) (cc_ptp_by_phy_support s) (cc_ptp_by_phy_ll s) (cc_eee_support s) (cc_ieee_1588 s).
Definition upd_cc_num_txq (x : Z) (s : ixgbe_hw_common_caps) : ixgbe_hw_common_caps :=
  mk_common_caps (cc_valid_functions s) (cc_vmdq s) (cc_dcb s) (cc_active_tc_bitmap s) (cc_maxtc s) (cc_rss_table_size s) (cc_rss_table_entry_width s) (cc_num_rxq s) (cc_rxq_first_id s) x (cc_txq_first_id s) (cc_num_msix_vectors s) (cc_msix_vector_first_id s) (cc_nvm_update_pending_nvm s) (cc_nvm_update_pending_orom s) (cc_nvm_update_pending_netlist s) (cc_sec_rev_disabled s) (cc_update_disabled s) (cc_nvm_unified_update s) (cc_netlist_auth s) (cc_max_mtu s) (cc_pcie_reset_avoidance s) (cc_reset_restrict_support s) (cc_topo_ver_high s) (cc_topo_ver_low s) (cc_topo_part_num s) (cc_topo_load_en s) (cc_topo_prog_en s) (cc_orom_recovery_update s) (cc_next_cluster_id_support s) (cc_ptp_by_phy_support s) (cc_ptp_by_phy_ll s) (cc_eee_support s) (cc_ieee_1588 s).
Definition upd_cc_txq_first_id (x : Z) (s : ixgbe_hw_common_caps) : ixgbe_hw_common_caps :=
  mk_common_caps (cc_valid_functions s) (cc_vmdq s) (cc_dcb s) (cc_active_tc_bitmap s) (cc_maxtc s) (cc_rss_table_size s) (cc_rss_table_entry_width s) (cc_num_rxq s) (cc_rxq_first_id s) (cc_num_txq s) x (cc_num_msix_vectors s) (cc_msix_vector_first_id s) (cc_nvm_update_pending_nvm s) (cc_nvm_update_pending_orom s) (cc_nvm_update_pending_netlist s) (cc_sec_rev_disabled s) (cc_update_disabled s) (cc_nvm_unified_update s) (cc_netlist_auth s) (cc_max_mtu s) (cc_pcie_reset_avoidance s) (cc_reset_restrict_support s) (cc_topo_ver_high s) (cc_topo_ver_low s) (cc_topo_part_num s) (cc_topo_load_en s) (cc_topo_prog_en s) (cc_orom_recovery_update s) (cc_next_cluster_id_support s) (cc_ptp_by_phy_support s) (cc_ptp_by_phy_ll s) (cc_eee_support s) (cc_ieee_1588 s).
Definition upd_cc_num_msix_vectors (x : Z) (s : ixgbe_hw_common_caps) : ixgbe_hw_common_caps :=
  mk_common_caps (cc_valid_functions s) (cc_vmdq s) (cc_dcb s) (cc_active_tc_bitmap s) (cc_maxtc s) (cc_rss_table_size s) (cc_rss_table_entry_width s) (cc_num_rxq s) (cc_rxq_first_id s) (cc_num_txq s) (cc_txq_first_id s) x (cc_msix_vector_first_id s) (cc_nvm_update_pending_nvm s) (cc_nvm_update_pending_orom s) (cc_nvm_update_pending_netlist s) (cc_sec_rev_disabled s) (cc_update_disabled s) (cc_nvm_unified_update s) (cc_netlist_auth s) (cc_max_mtu s) (cc_pcie_reset_avoidance s) (cc_reset_restrict_support s) (cc_topo_ver_high s) (cc_topo_ver_low s) (cc_topo_part_num s) (cc_topo_load_en s) (cc_topo_prog_en s) (cc_orom_recovery_update s) (cc_next_cluster_id_support s) (cc_ptp_by_phy_support s) (cc_ptp_by_phy_ll s) (cc_eee_support s) (cc_ieee_1588 s).
Definition upd_cc_msix_vector_first_id (x : Z) (s : ixgbe_hw_common_caps) : ixgbe_hw_common_caps :=
  mk_common_caps (cc_valid_functions s) (cc_vmdq s) (cc_dcb s) (cc_active_tc_bitmap s) (cc_maxtc s) (cc_rss_table_size s) (cc_rss_table_entry_width s) (cc_num_rxq s) (cc_rxq_first_id s) (cc_num_txq s) (cc_txq_first_id s) (cc_num_msix_vectors s) x (cc_nvm_update_pending_nvm s) (cc_nvm_update_pending_orom s) (cc_nvm_update_pending_netlist s) (cc_sec_rev_disabled s) (cc_update_disabled s) (cc_nvm_unified_update s) (cc_netlist_auth s) (cc_max_mtu s) (cc_pcie_reset_avoidance s) (cc_reset_restrict_support s) (cc_topo_ver_high s) (cc_topo_ver_low s) (cc_topo_part_num s) (cc_topo_load_en s) (cc_topo_prog_en s) (cc_orom_recovery_update s) (cc_next_cluster_id_support s) (cc_ptp_by_phy_support s) (cc_ptp_by_phy_ll s) (cc_eee_support s) (cc_ieee_1588 s).
Definition upd_cc_nvm_update_pending_nvm (x : bool) (s : ixgbe_hw_common_caps) : ixgbe_hw_common_caps :=
  mk_common_caps (cc_valid_functions s) (cc_vmdq s) (cc_dcb s) (cc_active_tc_bitmap s) (cc_maxtc s) (cc_rss_table_size s) (cc_rss_table_entry_width s) (cc_num_rxq s) (cc_rxq_first_id s) (cc_num_txq s) (cc_txq_first_id s) (cc_num_msix_vectors s) (cc_msix_vector_first_id s) x (cc_nvm_update_pending_orom s) (cc_nvm_update_pending_netlist s) (cc_sec_rev_disabled s) (cc_update_disabled s) (cc_nvm_unified_update s) (cc_netlist_auth s) (cc_max_mtu s) (cc_pcie_reset_avoidance s) (cc_reset_restrict_support s) (cc_topo_ver_high s) (cc_topo_ver_low s) (cc_topo_part_num s) (cc_topo_load_en s) (cc_topo_prog_en s) (cc_orom_recovery_update s) (cc_next_cluster_id_support s) (cc_ptp_by_phy_support s) (cc_ptp_by_phy_ll s) (cc_eee_support s) (cc_ieee_1588 s).
Definition upd_cc_nvm_update_pending_orom (x : bool) (s : ixgbe_hw_common_caps) : ixgbe_hw_common_caps :=
  mk_common_caps (cc_valid_functions s) (cc_vmdq s) (cc_dcb s) (cc_active_tc_bitmap s) (cc_maxtc s) (cc_rss_table_size s) (cc_rss_table_entry_width s) (cc_num_rxq s) (cc_rxq_first_id s) (cc_num_txq s) (cc_txq_first_id s) (cc_num_msix_vectors s) (cc_msix_vector_first_id s) (cc_nvm_update_pending_nvm s) x (cc_nvm_update_pending_netlist s) (cc_sec_rev_disabled s) (cc_update_disabled s) (cc_nvm_unified_update s) (cc_netlist_auth s) (cc_max_mtu s) (cc_pcie_reset_avoidance s) (cc_reset_restrict_support s) (cc_topo_ver_high s) (cc_topo_ver_low s) (cc_topo_part_num s) (cc_topo_load_en s) (cc_topo_prog_en s) (cc_orom_recovery_update s) (cc_next_cluster_id_support s) (cc_ptp_by_phy_support s) (cc_ptp_by_phy_ll s) (cc_eee_support s) (cc_ieee_1588 s).
Definition upd_cc_nvm_update_pending_netlist (x : bool) (s : ixgbe_hw_common_caps) : ixgbe_hw_common_caps :=
  mk_common_caps (cc_valid_functions s) (cc_vmdq s) (cc_dcb s) (cc_active_tc_bitmap s) (cc_maxtc s) (cc_rss_table_size s) (cc_rss_table_entry_width s) (cc_num_rxq s) (cc_rxq_first_id s) (cc_num_txq s) (cc_txq_first_id s) (cc_num_msix_vectors s) (cc_msix_vector_first_id s) (cc_nvm_update_pending_nvm s) (cc_nvm_update_pending_orom s) x (cc_sec_rev_disabled s) (cc_update_disabled s) (cc_nvm_unified_update s) (cc_netlist_auth s) (cc_max_mtu s) (cc_pcie_reset_avoidance s) (cc_reset_restrict_support s) (cc_topo_ver_high s) (cc_topo_ver_low s) (cc_topo_part_num s) (cc_topo_load_en s) (cc_topo_prog_en s) (cc_orom_recovery_update s) (cc_next_cluster_id_support s) (cc_ptp_by_phy_support s) (cc_ptp_by_phy_ll s) (cc_eee_support s) (cc_ieee_1588 s).
Definition upd_cc_sec_rev_disabled (x : bool) (s : ixgbe_hw_common_caps) : ixgbe_hw_common_caps :=
  mk_common_caps (cc_valid_functions s) (cc_vmdq s) (cc_dcb s) (cc_active_tc_bitmap s) (cc_maxtc s) (cc_rss_table_size s) (cc_rss_table_entry_width s) (cc_num_rxq s) (cc_rxq_first_id s) (cc_num_txq s) (cc_txq_first_id s) (cc_num_msix_vectors s) (cc_msix_vector_first_id s) (cc_nvm_update_pending_nvm s) (cc_nvm_update_pending_orom s) (cc_nvm_update_pending_netlist s) x (cc_update_disabled s) (cc_nvm_unified_update s) (cc_netlist_auth s) (cc_max_mtu s) (cc_pcie_reset_avoidance s) (cc_reset_restrict_support s) (cc_topo_ver_high s) (cc_topo_ver_low s) (cc_topo_part_num s) (cc_topo_load_en s) (cc_topo_prog_en s) (cc_orom_recovery_update s) (cc_next_cluster_id_support s) (cc_ptp_by_phy_support s) (cc_ptp_by_phy_ll s) (cc_eee_support s) (cc_ieee_1588 s).
Definition upd_cc_update_disabled (x : bool) (s : ixgbe_hw_common_caps) : ixgbe_hw_common_caps :=
  mk_common_caps (cc_valid_functions s) (cc_vmdq s) (cc_dcb s) (cc_active_tc_bitmap s) (cc_maxtc s) (cc_rss_table_size s) (cc_rss_table_entry_width s) (cc_num_rxq s) (cc_rxq_first_id s) (cc_num_txq s) (cc_txq_first_id s) (cc_num_msix_vectors s) (cc_msix_vector_first_id s) (cc_nvm_update_pending_nvm s) (cc_nvm_update_pending_orom s) (cc_nvm_update_pending_netlist s) (cc_sec_rev_disabled s) x (cc_nvm_unified_update s) (cc_netlist_auth s) (cc_max_mtu s) (cc_pcie_reset_avoidance s) (cc_reset_restrict_support s) (cc_topo_ver_high s) (cc_topo_ver_low s) (cc_topo_part_num s) (cc_topo_load_en s) (cc_topo_prog_en s) (cc_orom_recovery_update s) (cc_next_cluster_id_support s) (cc_ptp_by_phy_support s) (cc_ptp_by_phy_ll s) (cc_eee_support s) (cc_ieee_1588 s).
Definition upd_cc_nvm_unified_update (x : bool) (s : ixgbe_hw_common_caps) : ixgbe_hw_common_caps :=
  mk_common_caps (cc_valid_functions s) (cc_vmdq s) (cc_dcb s) (cc_active_tc_bitmap s) (cc_maxtc s) (cc_rss_table_size s) (cc_rss_table_entry_width s) (cc_num_rxq s) (cc_rxq_first_id s) (cc_num_txq s) (cc_txq_first_id s) (cc_num_msix_vectors s) (cc_msix_vector_first_id s) (cc_nvm_update_pending_nvm s) (cc_nvm_update_pending_orom s) (cc_nvm_update_pending_netlist s) (cc_sec_rev_disabled s) (cc_update_disabled s) x (cc_netlist_auth s) (cc_max_mtu s) (cc_pcie_reset_avoidance s) (cc_reset_restrict_support s) (cc_topo_ver_high s) (cc_topo_ver_low s) (cc_topo_part_num s) (cc_topo_load_en s) (cc_topo_prog_en s) (cc_orom_recovery_update s) (cc_next_cluster_id_support s) (cc_ptp_by_phy_support s) (cc_ptp_by_phy_ll s) (cc_eee_support s) (cc_ieee_1588 s).
Definition upd_cc_netlist_auth (x : bool) (s : ixgbe_hw_common_caps) : ixgbe_hw_common_caps :=
  mk_common_caps (cc_valid_functions s) (cc_vmdq s) (cc_dcb s) (cc_active_tc_bitmap s) (cc_maxtc s) (cc_rss_table_size s) (cc_rss_table_entry_width s) (cc_num_rxq s) (cc_rxq_first_id s) (cc_num_txq s) (cc_txq_first_id s) (cc_num_msix_vectors s) (cc_msix_vector_first_id s) (cc_nvm_update_pending_nvm s) (cc_nvm_update_pending_orom s) (cc_nvm_update_pending_netlist s) (cc_sec_rev_disabled s) (cc_update_disabled s) (cc_nvm_unified_update s) x (cc_max_mtu s) (cc_pcie_reset_avoidance s) (cc_reset_restrict_support s) (cc_topo_ver_high s) (cc_topo_ver_low s) (cc_topo_part_num s) (cc_topo_load_en s) (cc_topo_prog_en s) (cc_orom_recovery_update s) (cc_next_cluster_id_support s) (cc_ptp_by_phy_support s) (cc_ptp_by_phy_ll s) (cc_eee_support s) (cc_ieee_1588 s).
Definition upd_cc_max_mtu (x : Z) (s : ixgbe_hw_common_caps) : ixgbe_hw_common_caps :=
  mk_common_caps (cc_valid_functions s) (cc_vmdq s) (cc_dcb s) (cc_active_tc_bitmap s) (cc_maxtc s) (cc_rss_table_size s) (cc_rss_table_entry_width s) (cc_num_rxq s) (cc_rxq_first_id s) (cc_num_txq s) (cc_txq_first_id s) (cc_num_msix_vectors s) (cc_msix_vector_first_id s) (cc_nvm_update_pending_nvm s) (cc_nvm_update_pending_orom s) (cc_nvm_update_pending_netlist s) (cc_sec_rev_disabled s) (cc_update_disabled s) (cc_nvm_unified_update s) (cc_netlist_auth s) x (cc_pcie_reset_avoidance s) (cc_reset_restrict_support s) (cc_topo_ver_high s) (cc_topo_ver_low s) (cc_topo_part_num s) (cc_topo_load_en s) (cc_topo_prog_en s) (cc_orom_recovery_update s) (cc_next_cluster_id_support s) (cc_ptp_by_phy_support s) (cc_ptp_by_phy_ll s) (cc_eee_support s) (cc_ieee_1588 s).
Definition upd_cc_pcie_reset_avoidance (x : bool) (s : ixgbe_hw_common_caps) : ixgbe_hw_common_caps :=
  mk_common_caps (cc_valid_functions s) (cc_vmdq s) (cc_dcb s) (cc_active_tc_bitmap s) (cc_maxtc s) (cc_rss_table_size s) (cc_rss_table_entry_width s) (cc_num_rxq s) (cc_rxq_first_id s) (cc_num_txq s) (cc_txq_first_id s) (cc_num_msix_vectors s) (cc_msix_vector_first_id s) (cc_nvm_update_pending_nvm s) (cc_nvm_update_pending_orom s) (cc_nvm_update_pending_netlist s) (cc_sec_rev_disabled s) (cc_update_disabled s) (cc_nvm_unified_update s) (cc_netlist_auth s) (cc_max_mtu s) x (cc_reset_restrict_support s) (cc_topo_ver_high s) (cc_topo_ver_low s) (cc_topo_part_num s) (cc_topo_load_en s) (cc_topo_prog_en s) (cc_orom_recovery_update s) (cc_next_cluster_id_support s) (cc_ptp_by_phy_support s) (cc_ptp_by_phy_ll s) (cc_eee_support s) (cc_ieee_1588 s).
Definition upd_cc_reset_restrict_support (x : bool) (s : ixgbe_hw_common_caps) : ixgbe_hw_common_caps :=
  mk_common_caps (cc_valid_functions s) (cc_vmdq s) (cc_dcb s) (cc_active_tc_bitmap s) (cc_maxtc s) (cc_rss_table_size s) (cc_rss_table_entry_width s) (cc_num_rxq s) (cc_rxq_first_id s) (cc_num_txq s) (cc_txq_first_id s) (cc_num_msix_vectors s) (cc_msix_vector_first_id s) (cc_nvm_update_pending_nvm s) (cc_nvm_update_pending_orom s) (cc_nvm_update_pending_netlist s) (cc_sec_rev_disabled s) (cc_update_disabled s) (cc_nvm_unified_update s) (cc_netlist_auth s) (cc_max_mtu s) (cc_pcie_reset_avoidance s) x (cc_topo_ver_high s) (cc_topo_ver_low s) (cc_topo_part_num s) (cc_topo_load_en s) (cc_topo_prog_en s) (cc_orom_recovery_update s) (cc_next_cluster_id_support s) (cc_ptp_by_phy_support s) (cc_ptp_by_phy_ll s) (cc_eee_support s) (cc_ieee_1588 s).
Definition upd_cc_topo_ver_high (x : list Z) (s : ixgbe_hw_common_caps) : ixgbe_hw_common_caps :=
  mk_common_caps (cc_valid_functions s) (cc_vmdq s) (cc_dcb s) (cc_active_tc_bitmap s) (cc_maxtc s) (cc_rss_table_size s) (cc_rss_table_entry_width s) (cc_num_rxq s) (cc_rxq_first_id s) (cc_num_txq s) (cc_txq_first_id s) (cc_num_msix_vectors s) (cc_msix_vector_first_id s) (cc_nvm_update_pending_nvm s) (cc_nvm_update_pending_orom s) (cc_nvm_update_pending_netlist s) (cc_sec_rev_disabled s) (cc_update_disabled s) (cc_nvm_unified_update s) (cc_netlist_auth s) (cc_max_mtu s) (cc_pcie_reset_avoidance s) (cc_reset_restrict_support s) x (cc_topo_ver_low s) (cc_topo_part_num s) (cc_topo_load_en s) (cc_topo_prog_en s) (cc_orom_recovery_update s) (cc_next_cluster_id_support s) (cc_ptp_by_phy_support s) (cc_ptp_by_phy_ll s) (cc_eee_support s) (cc_ieee_1588 s).
Definition upd_cc_topo_ver_low (x : list Z) (s : ixgbe_hw_common_caps) : ixgbe_hw_common_caps :=
  mk_common_caps (cc_valid_functions s) (cc_vmdq s) (cc_dcb s) (cc_active_tc_bitmap s) (cc_maxtc s) (cc_rss_table_size s) (cc_rss_table_entry_width s) (cc_num_rxq s) (cc_rxq_first_id s) (cc_num_txq s) (cc_txq_first_id s) (cc_num_msix_vectors s) (cc_msix_vector_first_id s) (cc_nvm_update_pending_nvm s) (cc_nvm_update_pending_orom s) (cc_nvm_update_pending_netlist s) (cc_sec_rev_disabled s) (cc_update_disabled s) (cc_nvm_unified_update s) (cc_netlist_auth s) (cc_max_mtu s) (cc_pcie_reset_avoidance s) (cc_reset_restrict_support s) (cc_topo_ver_high s) x (cc_topo_part_num s) (cc_topo_load_en s) (cc_topo_prog_en s) (cc_orom_recovery_update s) (cc_next_cluster_id_support s) (cc_ptp_by_phy_support s) (cc_ptp_by_phy_ll s) (cc_eee_support s) (cc_ieee_1588 s).
Definition upd_cc_topo_part_num (x : list Z) (s : ixgbe_hw_common_caps) : ixgbe_hw_common_caps :=
  mk_common_caps (cc_valid_functions s) (cc_vmdq s) (cc_dcb s) (cc_active_tc_bitmap s) (cc_maxtc s) (cc_rss_table_size s) (cc_rss_table_entry_width s) (cc_num_rxq s) (cc_rxq_first_id s) (cc_num_txq s) (cc_txq_first_id s) (cc_num_msix_vectors s) (cc_msix_vector_first_id s) (cc_nvm_update_pending_nvm s) (cc_nvm_update_pending_orom s) (cc_nvm_update_pending_netlist s) (cc_sec_rev_disabled s) (cc_update_disabled s) (cc_nvm_unified_update s) (cc_netlist_auth s) (cc_max_mtu s) (cc_pcie_reset_avoidance s) (cc_reset_restrict_support s) (cc_topo_ver_high s) (cc_topo_ver_low s) x (cc_topo_load_en s) (cc_topo_prog_en s) (cc_orom_recovery_update s) (cc_next_cluster_id_support s) (cc_ptp_by_phy_support s) (cc_ptp_by_phy_ll s) (cc_eee_support s) (cc_ieee_1588 s).
Definition upd_cc_topo_load_en (x : list bool) (s : ixgbe_hw_common_caps) : ixgbe_hw_common_caps :=
  mk_common_caps (cc_valid_functions s) (cc_vmdq s) (cc_dcb s) (cc_active_tc_bitmap s) (cc_maxtc s) (cc_rss_table_size s) (cc_rss_table_entry_width s) (cc_num_rxq s) (cc_rxq_first_id s) (cc_num_txq s) (cc_txq_first_id s) (cc_num_msix_vectors s) (cc_msix_vector_first_id s) (cc_nvm_update_pending_nvm s) (cc_nvm_update_pending_orom s) (cc_nvm_update_pending_netlist s) (cc_sec_rev_disabled s) (cc_update_disabled s) (cc_nvm_unified_update s) (cc_netlist_auth s) (cc_max_mtu s) (cc_pcie_reset_avoidance s) (cc_reset_restrict_support s) (cc_topo_ver_high s) (cc_topo_ver_low s) (cc_topo_part_num s) x (cc_topo_prog_en s) (cc_orom_recovery_update s) (cc_next_cluster_id_support s) (cc_ptp_by_phy_support s) (cc_ptp_by_phy_ll s) (cc_eee_support s) (cc_ieee_1588 s).
Definition upd_cc_topo_prog_en (x : list bool) (s : ixgbe_hw_common_caps) : ixgbe_hw_common_caps :=
  mk_common_caps (cc_valid_functions s) (cc_vmdq s) (cc_dcb s) (cc_active_tc_bitmap s) (cc_maxtc s) (cc_rss_table_size s) (cc_rss_table_entry_width s) (cc_num_rxq s) (cc_rxq_first_id s) (cc_num_txq s) (cc_txq_first_id s) (cc_num_msix_vectors s) (cc_msix_vector_first_id s) (cc_nvm_update_pending_nvm s) (cc_nvm_update_pending_orom s) (cc_nvm_update_pending_netlist s) (cc_sec_rev_disabled s) (cc_update_disabled s) (cc_nvm_unified_update s) (cc_netlist_auth s) (cc_max_mtu s) (cc_pcie_reset_avoidance s) (cc_reset_restrict_support s) (cc_topo_ver_high s) (cc_topo_ver_low s) (cc_topo_part_num s) (cc_topo_load_en s) x (cc_orom_recovery_update s) (cc_next_cluster_id_support s) (cc_ptp_by_phy_support s) (cc_ptp_by_phy_ll s) (cc_eee_support s) (cc_ieee_1588 s).
Definition upd_cc_orom_recovery_update (x : bool) (s : ixgbe_hw_common_caps) : ixgbe_hw_common_caps :=
  mk_common_caps (cc_valid_functions s) (cc_vmdq s) (cc_dcb s) (cc_active_tc_bitmap s) (cc_maxtc s) (cc_rss_table_size s) (cc_rss_table_entry_width s) (cc_num_rxq s) (cc_rxq_first_id s) (cc_num_txq s) (cc_txq_first_id s) (cc_num_msix_vectors s) (cc_msix_vector_first_id s) (cc_nvm_update_pending_nvm s) (cc_nvm_update_pending_orom s) (cc_nvm_update_pending_netlist s) (cc_sec_rev_disabled s) (cc_update_disabled s) (cc_nvm_unified_update s) (cc_netlist_auth s) (cc_max_mtu s) (cc_pcie_reset_avoidance s) (cc_reset_restrict_support s) (cc_topo_ver_high s) (cc_topo_ver_low s) (cc_topo_part_num s) (cc_topo_load_en s) (cc_topo_prog_en s) x (cc_next_cluster_id_support s) (cc_ptp_by_phy_support s) (cc_ptp_by_phy_ll s) (cc_eee_support s) (cc_ieee_1588 s).
Definition upd_cc_next_cluster_id_support (x : bool) (s : ixgbe_hw_common_caps) : ixgbe_hw_common_caps :=
  mk_common_caps (cc_valid_functions s) (cc_vmdq s) (cc_dcb s) (cc_active_tc_bitmap s) (cc_maxtc s) (cc_rss_table_size s) (cc_rss_table_entry_width s) (cc_num_rxq s) (cc_rxq_first_id s) (cc_num_txq s) (cc_txq_first_id s) (cc_num_msix_vectors s) (cc_msix_vector_first_id s) (cc_nvm_update_pending_nvm s) (cc_nvm_update_pending_orom s) (cc_nvm_update_pending_netlist s) (cc_sec_rev_disabled s) (cc_update_disabled s) (cc_nvm_unified_update s) (cc_netlist_auth s) (cc_max_mtu s) (cc_pcie_reset_avoidance s) (cc_reset_restrict_support s) (cc_topo_ver_high s) (cc_topo_ver_low s) (cc_topo_part_num s) (cc_topo_load_en s) (cc_topo_prog_en s) (cc_orom_recovery_update s) x (cc_ptp_by_phy_support s) (cc_ptp_by_phy_ll s) (cc_eee_support s) (cc_ieee_1588 s).
Definition upd_cc_ptp_by_phy_support (x : bool) (s : ixgbe_hw_common_caps) : ixgbe_hw_common_caps :=
  mk_common_caps (cc_valid_functions s) (cc_vmdq s) (cc_dcb s) (cc_active_tc_bitmap s) (cc_maxtc s) (cc_rss_table_size s) (cc_rss_table_entry_width s) (cc_num_rxq s) (cc_rxq_first_id s) (cc_num_txq s) (cc_txq_first_id s) (cc_num_msix_vectors s) (cc_msix_vector_first_id s) (cc_nvm_update_pending_nvm s) (cc_nvm_update_pending_orom s) (cc_nvm_update_pending_netlist s) (cc_sec_rev_disabled s) (cc_update_disabled s) (cc_nvm_unified_update s) (cc_netlist_auth s) (cc_max_mtu s) (cc_pcie_reset_avoidance s) (cc_reset_restrict_support s) (cc_topo_ver_high s) (cc_topo_ver_low s) (cc_topo_part_num s) (cc_topo_load_en s) (cc_topo_prog_en s) (cc_orom_recovery_update s) (cc_next_cluster_id_support s) x (cc_ptp_by_phy_ll s) (cc_eee_support s) (cc_ieee_1588 s).
Definition upd_cc_ptp_by_phy_ll (x : bool) (s : ixgbe_hw_common_caps) : ixgbe_hw_common_caps :=
  mk_common_caps (cc_valid_functions s) (cc_vmdq s) (cc_dcb s) (cc_active_tc_bitmap s) (cc_maxtc s) (cc_rss_table_size s) (cc_rss_table_entry_width s) (cc_num_rxq s) (cc_rxq_first_id s) (cc_num_txq s) (cc_txq_first_id s) (cc_num_msix_vectors s) (cc_msix_vector_first_id s) (cc_nvm_update_pending_nvm s) (cc_nvm_update_pending_orom s) (cc_nvm_update_pending_netlist s) (cc_sec_rev_disabled s) (cc_update_disabled s) (cc_nvm_unified_update s) (cc_netlist_auth s) (cc_max_mtu s) (cc_pcie_reset_avoidance s) (cc_reset_restrict_support s) (cc_topo_ver_high s) (cc_topo_ver_low s) (cc_topo_part_num s) (cc_topo_load_en s) (cc_topo_prog_en s) (cc_orom_recovery_update s) (cc_next_cluster_id_support s) (cc_ptp_by_phy_support s) x (cc_eee_support s) (cc_ieee_1588 s).
Definition upd_cc_eee_support (x : Z) (s : ixgbe_hw_common_caps) : ixgbe_hw_common_caps :=
  mk_common_caps (cc_valid_functions s) (cc_vmdq s) (cc_dcb s) (cc_active_tc_bitmap s) (cc_maxtc s) (cc_rss_table_size s) (cc_rss_table_entry_width s) (cc_num_rxq s) (cc_rxq_first_id s) (cc_num_txq s) (cc_txq_first_id s) (cc_num_msix_vectors s) (cc_msix_vector_first_id s) (cc_nvm_update_pending_nvm s) (cc_nvm_update_pending_orom s) (cc_nvm_update_pending_netlist s) (cc_sec_rev_disabled s) (cc_update_disabled s) (cc_nvm_unified_update s) (cc_netlist_auth s) (cc_max_mtu s) (cc_pcie_reset_avoidance s) (cc_reset_restrict_support s) (cc_topo_ver_high s) (cc_topo_ver_low s) (cc_topo_part_num s) (cc_topo_load_en s) (cc_topo_prog_en s) (cc_orom_recovery_update s) (cc_next_cluster_id_support s) (cc_ptp_by_phy_support s) (cc_ptp_by_phy_ll s) x (cc_ieee_1588 s).
Definition upd_cc_ieee_1588 (x : Z) (s : ixgbe_hw_common_caps) : ixgbe_hw_common_caps :=
  mk_common_caps (cc_valid_functions s) (cc_vmdq s) (cc_dcb s) (cc_active_tc_bitmap s) (cc_maxtc s) (cc_rss_table_size s) (cc_rss_table_entry_width s) (cc_num_rxq s) (cc_rxq_first_id s) (cc_num_txq s) (cc_txq_first_id s) (cc_num_msix_vectors s) (cc_msix_vector_first_id s) (cc_nvm_update_pending_nvm s) (cc_nvm_update_pending_orom s) (cc_nvm_update_pending_netlist s) (cc_sec_rev_disabled s) (cc_update_disabled s) (cc_nvm_unified_update s) (cc_netlist_auth s) (cc_max_mtu s) (cc_pcie_reset_avoidance s) (cc_reset_restrict_support s) (cc_topo_ver_high s) (cc_topo_ver_low s) (cc_topo_part_num s) (cc_topo_load_en s) (cc_topo_prog_en s) (cc_orom_recovery_update s) (cc_next_cluster_id_support s) (cc_ptp_by_phy_support s) (cc_ptp_by_phy_ll s) (cc_eee_support s) x.

(** struct ixgbe_ts_func_info *)
Record ixgbe_ts_func_info := mk_ts_func_info {
  tsf_time_ref : Z;
  tsf_clk_freq : Z;
  tsf_clk_src : Z;
  tsf_tmr_index_assoc : Z;
  tsf_ena : Z;
  tsf_tmr_index_owned : Z;
  tsf_src_tmr_owned : Z;
  tsf_tmr_ena : Z }.

Definition upd_tsf_time_ref (x : Z) (s : ixgbe_ts_func_info) : ixgbe_ts_func_info :=
  mk_ts_func_info x (tsf_clk_freq s) (tsf_clk_src s) (tsf_tmr_index_assoc s) (tsf_ena s) (tsf_tmr_index_owned s) (tsf_src_tmr_owned s) (tsf_tmr_ena s).
Definition upd_tsf_clk_freq (x : Z) (s : ixgbe_ts_func_info) : ixgbe_ts_func_info :=
  mk_ts_func_info (tsf_time_ref s) x (tsf_clk_src s) (tsf_tmr_index_assoc s) (tsf_ena s) (tsf_tmr_index_owned s) (tsf_src_tmr_owned s) (tsf_tmr_ena s).
Definition upd_tsf_clk_src (x : Z) (s : ixgbe_ts_func_info) : ixgbe_ts_func_info :=
  mk_ts_func_info (tsf_time_ref s) (tsf_clk_freq s) x (tsf_tmr_index_assoc s) (tsf_ena s) (tsf_tmr_index_owned s) (tsf_src_tmr_owned s) (tsf_tmr_ena s).
Definition upd_tsf_tmr_index_assoc (x : Z) (s : ixgbe_ts_func_info) : ixgbe_ts_func_info :=
  mk_ts_func_info (tsf_time_ref s) (tsf_clk_freq s) (tsf_clk_src s) x (tsf_ena s) (tsf_tmr_index_owned s) (tsf_src_tmr_owned s) (tsf_tmr_ena s).
Definition upd_tsf_ena (x : Z) (s : ixgbe_ts_func_info) : ixgbe_ts_func_info :=
  mk_ts_func_info (tsf_time_ref s) (tsf_clk_freq s) (tsf_clk_src s) (tsf_tmr_index_assoc s) x (tsf_tmr_index_owned s) (tsf_src_tmr_owned s) (tsf_tmr_ena s).
Definition upd_tsf_tmr_index_owned (x : Z) (s : ixgbe_ts_func_info) : ixgbe_ts_func_info :=
  mk_ts_func_info (tsf_time_ref s) (tsf_clk_freq s) (tsf_clk_src s) (tsf_tmr_index_assoc s) (tsf_ena s) x (tsf_src_tmr_owned s) (tsf_tmr_ena s).
Definition upd_tsf_src_tmr_owned (x : Z) (s : ixgbe_ts_func_info) : ixgbe_ts_func_info :=
  mk_ts_func_info (tsf_time_ref s) (tsf_clk_freq s) (tsf_clk_src s) (tsf_tmr_index_assoc s) (tsf_ena s) (tsf_tmr_index_owned s) x (tsf_tmr_ena s).
Definition upd_tsf_tmr_ena (x : Z) (s : ixgbe_ts_func_info) : ixgbe_ts_func_info :=
  mk_ts_func_info (tsf_time_ref s) (tsf_clk_freq s) (tsf_clk_src s) (tsf_tmr_index_assoc s) (tsf_ena s) (tsf_tmr_index_owned s) (tsf_src_tmr_owned s) x.

(** struct ixgbe_ts_dev_info *)
Record ixgbe_ts_dev_info := mk_ts_dev_info {
  tsd_ena_ports : Z;
  tsd_tmr_own_map : Z;
  tsd_tmr0_owner : Z;
  tsd_tmr1_owner : Z;
  tsd_tmr0_owned : Z;
  tsd_tmr1_owned : Z;
  tsd_ena : Z;
  tsd_tmr0_ena : Z;
  tsd_tmr1_ena : Z }.

Definition upd_tsd_ena_ports (x : Z) (s : ixgbe_ts_dev_info) : ixgbe_ts_dev_info :=
  mk_ts_dev_info x (tsd_tmr_own_map s) (tsd_tmr0_owner s) (tsd_tmr1_owner s) (tsd_tmr0_owned s) (tsd_tmr1_owned s) (tsd_ena s) (tsd_tmr0_ena s) (tsd_tmr1_ena s).
Definition upd_tsd_tmr_own_map (x : Z) (s : ixgbe_ts_dev_info) : ixgbe_ts_dev_info :=
  mk_ts_dev_info (tsd_ena_ports s) x (tsd_tmr0_owner s) (tsd_tmr1_owner s) (tsd_tmr0_owned s) (tsd_tmr1_owned s) (tsd_ena s) (tsd_tmr0_ena s) (tsd_tmr1_ena s).
Definition upd_tsd_tmr0_owner (x : Z) (s : ixgbe_ts_dev_info) : ixgbe_ts_dev_info :=
  mk_ts_dev_info (tsd_ena_ports s) (tsd_tmr_own_map s) x (tsd_tmr1_owner s) (tsd_tmr0_owned s) (tsd_tmr1_owned s) (tsd_ena s) (tsd_tmr0_ena s) (tsd_tmr1_ena s).
Definition upd_tsd_tmr1_owner (x : Z) (s : ixgbe_ts_dev_info) : ixgbe_ts_dev_info :=
  mk_ts_dev_info (tsd_ena_ports s) (tsd_tmr_own_map s) (tsd_tmr0_owner s) x (tsd_tmr0_owned s) (tsd_tmr1_owned s) (tsd_ena s) (tsd_tmr0_ena s) (tsd_tmr1_ena s).
Definition upd_tsd_tmr0_owned (x : Z) (s : ixgbe_ts_dev_info) : ixgbe_ts_dev_info :=
  mk_ts_dev_info (tsd_ena_ports s) (tsd_tmr_own_map s) (tsd_tmr0_owner s) (tsd_tmr1_owner s) x (tsd_tmr1_owned s) (tsd_ena s) (tsd_tmr0_ena s) (tsd_tmr1_ena s).
Definition upd_tsd_tmr1_owned (x : Z) (s : ixgbe_ts_dev_info) : ixgbe_ts_dev_info :=
  mk_ts_dev_info (tsd_ena_ports s) (tsd_tmr_own_map s) (tsd_tmr0_owner s) (tsd_tmr1_owner s) (tsd_tmr0_owned s) x (tsd_ena s) (tsd_tmr0_ena s) (tsd_tmr1_ena s).
Definition upd_tsd_ena (x : Z) (s : ixgbe_ts_dev_info) : ixgbe_ts_dev_info :=
  mk_ts_dev_info (tsd_ena_ports s) (tsd_tmr_own_map s) (tsd_tmr0_owner s) (tsd_tmr1_owner s) (tsd_tmr0_owned s) (tsd_tmr1_owned s) x (tsd_tmr0_ena s) (tsd_tmr1_ena s).
Definition upd_tsd_tmr0_ena (x : Z) (s : ixgbe_ts_dev_info) : ixgbe_ts_dev_info :=
  mk_ts_dev_info (tsd_ena_ports s) (tsd_tmr_own_map s) (tsd_tmr0_owner s) (tsd_tmr1_owner s) (tsd_tmr0_owned s) (tsd_tmr1_owned s) (tsd_ena s) x (tsd_tmr1_ena s).
Definition upd_tsd_tmr1_ena (x : Z) (s : ixgbe_ts_dev_info) : ixgbe_ts_dev_info :=
  mk_ts_dev_info (tsd_ena_ports s) (tsd_tmr_own_map s) (tsd_tmr0_owner s) (tsd_tmr1_owner s) (tsd_tmr0_owned s) (tsd_tmr1_owned s) (tsd_ena s) (tsd_tmr0_ena s) x.

(** struct ixgbe_hw_func_caps *)
Record ixgbe_hw_func_caps := mk_func_caps {
  fcap_common : ixgbe_hw_common_caps;
  guar_num_vsi : Z;
  ts_func : ixgbe_ts_func_info }.

Definition upd_fcap_common (x : ixgbe_hw_common_caps) (s : ixgbe_hw_func_caps) : ixgbe_hw_func_caps :=
  mk_func_caps x (guar_num_vsi s) (ts_func s).
Definition upd_guar_num_vsi (x : Z) (s : ixgbe_hw_func_caps) : ixgbe_hw_func_caps :=
  mk_func_caps (fcap_common s) x (ts_func s).
Definition upd_ts_func (x : ixgbe_ts_func_info) (s : ixgbe_hw_func_caps) : ixgbe_hw_func_caps :=
  mk_func_caps (fcap_common s) (guar_num_vsi s) x.

(** struct ixgbe_hw_dev_caps *)
Record ixgbe_hw_dev_caps := mk_dev_caps {
  dcap_common : ixgbe_hw_common_caps;
  num_vsi_allocd_to_host : Z;
  num_flow_director_fltr : Z;
  ts_dev : ixgbe_ts_dev_info;
  num_funcs : Z }.

Definition upd_dcap_common (x : ixgbe_hw_common_caps) (s : ixgbe_hw_dev_caps) : ixgbe_hw_dev_caps :=
  mk_dev_caps x (num_vsi_allocd_to_host s) (num_flow_director_fltr s) (ts_dev s) (num_funcs s).
Definition upd_num_vsi_allocd_to_host (x : Z) (s : ixgbe_hw_dev_caps) : ixgbe_hw_dev_caps :=
  mk_dev_caps (dcap_common s) x (num_flow_director_fltr s) (ts_dev s) (num_funcs s).
Definition upd_num_flow_director_fltr (x : Z) (s : ixgbe_hw_dev_caps) : ixgbe_hw_dev_caps :=
  mk_dev_caps (dcap_common s) (num_vsi_allocd_to_host s) x (ts_dev s) (num_funcs s).
Definition upd_ts_dev (x : ixgbe_ts_dev_info) (s : ixgbe_hw_dev_caps) : ixgbe_hw_dev_caps :=
  mk_dev_caps (dcap_common s) (num_vsi_allocd_to_host s) (num_flow_director_fltr s) x (num_funcs s).
Definition upd_num_funcs (x : Z) (s : ixgbe_hw_dev_caps) : ixgbe_hw_dev_caps :=
  mk_dev_caps (dcap_common s) (num_vsi_allocd_to_host s) (num_flow_director_fltr s) (ts_dev s) x.

(** struct ixgbe_hw; [hw_addr] is whether the pointer is non-NULL, [back] the adapter it points to, [bus_func] is [bus.func] and [bus_lan_id] is [bus.lan_id] *)
Record ixgbe_hw := mk_hw {
  hw_addr : bool;
  back : ixgbe_adapter_state;
  mac : ixgbe_mac_info;
  addr_ctrl : ixgbe_addr_filter_info;
  fc : ixgbe_fc_info;
  phy : ixgbe_phy_info;
  eeprom : ixgbe_eeprom_info;
  mbx : ixgbe_mbx_info;
  mvals : ixgbe_mvals_table;
  device_id : Z;
  bus_func : Z;
  bus_lan_id : Z;
  revision_id : Z;
  allow_unsupported_sfp : bool;
  fw_version : ixgbe_fw_version;
  aci : ixgbe_aci_info;
  flash : ixgbe_flash_info;
  dev_caps : ixgbe_hw_dev_caps;
  func_caps : ixgbe_hw_func_caps }.

Definition upd_hw_addr (x : bool) (s : ixgbe_hw) : ixgbe_hw :=
  mk_hw x (back s) (mac s) (addr_ctrl s) (fc s) (phy s) (eeprom s) (mbx s) (mvals s) (device_id s) (bus_func s) (bus_lan_id s) (revision_id s) (allow_unsupported_sfp s) (fw_version s) (aci s) (flash s) (dev_caps s) (func_caps s).
Definition upd_back (x : ixgbe_adapter_state) (s : ixgbe_hw) : ixgbe_hw :=
  mk_hw (hw_addr s) x (mac s) (addr_ctrl s) (fc s) (phy s) (eeprom s) (mbx s) (mvals s) (device_id s) (bus_func s) (bus_lan_id s) (revision_id s) (allow_unsupported_sfp s) (fw_version s) (aci s) (flash s) (dev_caps s) (func_caps s).
Definition upd_mac (x : ixgbe_mac_info) (s : ixgbe_hw) : ixgbe_hw :=
  mk_hw (hw_addr s) (back s) x (addr_ctrl s) (fc s) (phy s) (eeprom s) (mbx s) (mvals s) (device_id s) (bus_func s) (bus_lan_id s) (revision_id s) (allow_unsupported_sfp s) (fw_version s) (aci s) (flash s) (dev_caps s) (func_caps s).
Definition upd_addr_ctrl (x : ixgbe_addr_filter_info) (s : ixgbe_hw) : ixgbe_hw :=
  mk_hw (hw_addr s) (back s) (mac s) x (fc s) (phy s) (eeprom s) (mbx s) (mvals s) (device_id s) (bus_func s) (bus_lan_id s) (revision_id s) (allow_unsupported_sfp s) (fw_version s) (aci s) (flash s) (dev_caps s) (func_caps s).
Definition upd_fc (x : ixgbe_fc_info) (s : ixgbe_hw) : ixgbe_hw :=
  mk_hw (hw_addr s) (back s) (mac s) (addr_ctrl s) x (phy s) (eeprom s) (mbx s) (mvals s) (device_id s) (bus_func s) (bus_lan_id s) (revision_id s) (allow_unsupported_sfp s) (fw_version s) (aci s) (flash s) (dev_caps s) (func_caps s).
Definition upd_phy (x : ixgbe_phy_info) (s : ixgbe_hw) : ixgbe_hw :=
  mk_hw (hw_addr s) (back s) (mac s) (addr_ctrl s) (fc s) x (eeprom s) (mbx s) (mvals s) (device_id s) (bus_func s) (bus_lan_id s) (revision_id s) (allow_unsupported_sfp s) (fw_version s) (aci s) (flash s) (dev_caps s) (func_caps s).
Definition upd_eeprom (x : ixgbe_eeprom_info) (s : ixgbe_hw) : ixgbe_hw :=
  mk_hw (hw_addr s) (back s) (mac s) (addr_ctrl s) (fc s) (phy s) x (mbx s) (mvals s) (device_id s) (bus_func s) (bus_lan_id s) (revision_id s) (allow_unsupported_sfp s) (fw_version s) (aci s) (flash s) (dev_caps s) (func_caps s).
Definition upd_mbx (x : ixgbe_mbx_info) (s : ixgbe_hw) : ixgbe_hw :=
  mk_hw (hw_addr s) (back s) (mac s) (addr_ctrl s) (fc s) (phy s) (eeprom s) x (mvals s) (device_id s) (bus_func s) (bus_lan_id s) (revision_id s) (allow_unsupported_sfp s) (fw_version s) (aci s) (flash s) (dev_caps s) (func_caps s).
Definition upd_mvals (x : ixgbe_mvals_table) (s : ixgbe_hw) : ixgbe_hw :=
  mk_hw (hw_addr s) (back s) (mac s) (addr_ctrl s) (fc s) (phy s) (eeprom s) (mbx s) x (device_id s) (bus_func s) (bus_lan_id s) (revision_id s) (allow_unsupported_sfp s) (fw_version s) (aci s) (flash s) (dev_caps s) (func_caps s).
Definition upd_device_id (x : Z) (s : ixgbe_hw) : ixgbe_hw :=
  mk_hw (hw_addr s) (back s) (mac s) (addr_ctrl s) (fc s) (phy s) (eeprom s) (mbx s) (mvals s) x (bus_func s) (bus_lan_id s) (revision_id s) (allow_unsupported_sfp s) (fw_version s) (aci s) (flash s) (dev_caps s) (func_caps s).
Definition upd_bus_func (x : Z) (s : ixgbe_hw) : ixgbe_hw :=
  mk_hw (hw_addr s) (back s) (mac s) (addr_ctrl s) (fc s) (phy s) (eeprom s) (mbx s) (mvals s) (device_id s) x (bus_lan_id s) (revision_id s) (allow_unsupported_sfp s) (fw_version s) (aci s) (flash s) (dev_caps s) (func_caps s).
Definition upd_bus_lan_id (x : Z) (s : ixgbe_hw) : ixgbe_hw :=
  mk_hw (hw_addr s) (back s) (mac s) (addr_ctrl s) (fc s) (phy s) (eeprom s) (mbx s) (mvals s) (device_id s) (bus_func s) x (revision_id s) (allow_unsupported_sfp s) (fw_version s) (aci s) (flash s) (dev_caps s) (func_caps s).
Definition upd_revision_id (x : Z) (s : ixgbe_hw) : ixgbe_hw :=
  mk_hw (hw_addr s) (back s) (mac s) (addr_ctrl s) (fc s) (phy s) (eeprom s) (mbx s) (mvals s) (device_id s) (bus_func s) (bus_lan_id s) x (allow_unsupported_sfp s) (fw_version s) (aci s) (flash s) (dev_caps s) (func_caps s).
Definition upd_allow_unsupported_sfp (x : bool) (s : ixgbe_hw) : ixgbe_hw :=
  mk_hw (hw_addr s) (back s) (mac s) (addr_ctrl s) (fc s) (phy s) (eeprom s) (mbx s) (mvals s) (device_id s) (bus_func s) (bus_lan_id s) (revision_id s) x (fw_version s) (aci s) (flash s) (dev_caps s) (func_caps s).
Definition upd_fw_version (x : ixgbe_fw_version) (s : ixgbe_hw) : ixgbe_hw :=
  mk_hw (hw_addr s) (back s) (mac s) (addr_ctrl s) (fc s) (phy s) (eeprom s) (mbx s) (mvals s) (device_id s) (bus_func s) (bus_lan_id s) (revision_id s) (allow_unsupported_sfp s) x (aci s) (flash s) (dev_caps s) (func_caps s).
Definition upd_aci (x : ixgbe_aci_info) (s : ixgbe_hw) : ixgbe_hw :=
  mk_hw (hw_addr s) (back s) (mac s) (addr_ctrl s) (fc s) (phy s) (eeprom s) (mbx s) (mvals s) (device_id s) (bus_func s) (bus_lan_id s) (revision_id s) (allow_unsupported_sfp s) (fw_version s) x (flash s) (dev_caps s) (func_caps s).
Definition upd_flash (x : ixgbe_flash_info) (s : ixgbe_hw) : ixgbe_hw :=
  mk_hw (hw_addr s) (back s) (mac s) (addr_ctrl s) (fc s) (phy s) (eeprom s) (mbx s) (mvals s) (device_id s) (bus_func s) (bus_lan_id s) (revision_id s) (allow_unsupported_sfp s) (fw_version s) (aci s) x (dev_caps s) (func_caps s).
Definition upd_dev_caps (x : ixgbe_hw_dev_caps) (s : ixgbe_hw) : ixgbe_hw :=
  mk_hw (hw_addr s) (back s) (mac s) (addr_ctrl s) (fc s) (phy s) (eeprom s) (mbx s) (mvals s) (device_id s) (bus_func s) (bus_lan_id s) (revision_id s) (allow_unsupported_sfp s) (fw_version s) (aci s) (flash s) x (func_caps s).
Definition upd_func_caps (x : ixgbe_hw_func_caps) (s : ixgbe_hw) : ixgbe_hw :=
  mk_hw (hw_addr s) (back s) (mac s) (addr_ctrl s) (fc s) (phy s) (eeprom s) (mbx s) (mvals s) (device_id s) (bus_func s) (bus_lan_id s) (revision_id s) (allow_unsupported_sfp s) (fw_version s) (aci s) (flash s) (dev_caps s) x.

(** struct ixgbe_hw_stats (the counters kept per traffic class, of type u64) *)
Record ixgbe_hw_stats := mk_hw_stats {
  pxofftxc : list Z;
  pxoffrxc : list Z;
  qprc : list Z;
  qptc : list Z;
  qbrc : list Z;
  qbtc : list Z;
  qprdc : list Z }.

Definition upd_pxofftxc (x : list Z) (s : ixgbe_hw_stats) : ixgbe_hw_stats :=
  mk_hw_stats x (pxoffrxc s) (qprc s) (qptc s) (qbrc s) (qbtc s) (qprdc s).
Definition upd_pxoffrxc (x : list Z) (s : ixgbe_hw_stats) : ixgbe_hw_stats :=
  mk_hw_stats (pxofftxc s) x (qprc s) (qptc s) (qbrc s) (qbtc s) (qprdc s).
Definition upd_qprc (x : list Z) (s : ixgbe_hw_stats) : ixgbe_hw_stats :=
  mk_hw_stats (pxofftxc s) (pxoffrxc s) x (qptc s) (qbrc s) (qbtc s) (qprdc s).
Definition upd_qptc (x : list Z) (s : ixgbe_hw_stats) : ixgbe_hw_stats :=
  mk_hw_stats (pxofftxc s) (pxoffrxc s) (qprc s) x (qbrc s) (qbtc s) (qprdc s).
Definition upd_qbrc (x : list Z) (s : ixgbe_hw_stats) : ixgbe_hw_stats :=
  mk_hw_stats (pxofftxc s) (pxoffrxc s) (qprc s) (qptc s) x (qbtc s) (qprdc s).
Definition upd_qbtc (x : list Z) (s : ixgbe_hw_stats) : ixgbe_hw_stats :=
  mk_hw_stats (pxofftxc s) (pxoffrxc s) (qprc s) (qptc s) (qbrc s) x (qprdc s).
Definition upd_qprdc (x : list Z) (s : ixgbe_hw_stats) : ixgbe_hw_stats :=
  mk_hw_stats (pxofftxc s) (pxoffrxc s) (qprc s) (qptc s) (qbrc s) (qbtc s) x.

#[export] Instance mac_type_eq_dec : EqDecision ixgbe_mac_type.
Proof. solve_decision. Defined.
#[export] Instance mbx_release_fn_eq_dec : EqDecision mbx_release_fn.
Proof. solve_decision. Defined.
#[export] Instance mbx_read_fn_eq_dec : EqDecision mbx_read_fn.
Proof. solve_decision. Defined.
#[export] Instance mbx_write_fn_eq_dec : EqDecision mbx_write_fn.
Proof. solve_decision. Defined.
#[export] Instance mbx_check_for_msg_fn_eq_dec : EqDecision mbx_check_for_msg_fn.
Proof. solve_decision. Defined.
#[export] Instance mbx_check_for_ack_fn_eq_dec : EqDecision mbx_check_for_ack_fn.
Proof. solve_decision. Defined.
#[export] Instance fc_mode_eq_dec : EqDecision ixgbe_fc_mode.
Proof. solve_decision. Defined.
#[export] Instance media_type_eq_dec : EqDecision ixgbe_media_type.
Proof. solve_decision. Defined.
#[export] Instance phy_type_eq_dec : EqDecision ixgbe_phy_type.
Proof. solve_decision. Defined.
#[export] Instance sfp_type_eq_dec : EqDecision ixgbe_sfp_type.
Proof. solve_decision. Defined.
#[export] Instance eeprom_type_eq_dec : EqDecision ixgbe_eeprom_type.
Proof. solve_decision. Defined.

(** [IXGBE_BY_MAC(hw, EEC)], [IXGBE_BY_MAC(hw, SWSM)] and
    [IXGBE_BY_MAC(hw, SWFW_SYNC)]: the tables of ixgbe_api.c differ only for the
    X550EM_a family in these entries. *)
Definition IXGBE_EEC_BY_MAC (h : ixgbe_hw) : Z :=
  match mvals h with ixgbe_mvals_X550EM_a => IXGBE_EEC_X550EM_a | _ => IXGBE_EEC end.
Definition IXGBE_SWSM_BY_MAC (h : ixgbe_hw) : Z :=
  match mvals h with ixgbe_mvals_X550EM_a => IXGBE_SWSM_X550EM_a | _ => IXGBE_SWSM end.
Definition IXGBE_SWFW_SYNC_BY_MAC (h : ixgbe_hw) : Z :=
  match mvals h with ixgbe_mvals_X550EM_a => IXGBE_SWFW_SYNC_X550EM_a | _ => IXGBE_SWFW_SYNC end.

(** capabilities after [memset(..., 0, ...)] *)
Definition common_caps0 : ixgbe_hw_common_caps :=
  mk_common_caps 0 0 0 0 0 0 0 0 0 0 0 0 0 false false false false false false false 0 false false
    (replicate 4 0) (replicate 4 0) (replicate 4 0) (replicate 4 false) (replicate 4 false)
    false false false false 0 0.
Definition dev_caps0 : ixgbe_hw_dev_caps := mk_dev_caps common_caps0 0 0 (mk_ts_dev_info 0 0 0 0 0 0 0 0 0) 0.
Definition func_caps0 : ixgbe_hw_func_caps := mk_func_caps common_caps0 0 (mk_ts_func_info 0 0 0 0 0 0 0 0).

(** [ixgbe_is_mac_E6xx] *)
Definition ixgbe_is_mac_E6xx (t : ixgbe_mac_type) : bool := bool_decide (t = ixgbe_mac_E610).
