(* ===== verification/Osdep.v ===== *)
(** * Register access

    The device, the world a computation runs in, and the register accessors of
    [ixgbe_osdep.h], [ixgbe_osdep2.h] and [ixgbe_main.c] (surprise-removal
    detection, retries of dead reads, the SGMII busy wait).

    The adapter itself is not part of the sources: it is the class [Mmio], any
    state machine that answers 32-bit reads, takes writes and sees time pass.
    Theorems quantify over every such device, or over those whose registers of
    interest are plain storage (class [PlainRegs]). *)
From stdpp Require Import gmap.
From S2P Require Import Prelude Regs Types.

(** ** The device *)
Class Mmio := {
  dev : Type;
  dev_read : dev -> Z -> Z * dev;
  dev_write : dev -> Z -> Z -> dev;
  dev_delay : dev -> Z -> dev;
}.

(** what crosses the bus, in order; delays are in microseconds *)
Inductive event := ERead (r v : Z) | EWrite (r v : Z) | EDelay (us : Z).

Record world `{Mmio} := mk_world {
  w_hw : ixgbe_hw;
  w_dev : dev;
  w_log : list event;
}.

(** the register writes of a log, in order *)
Fixpoint writes (l : list event) : list (Z * Z) :=
  match l with
  | [] => []
  | EWrite r v :: l' => (r, v) :: writes l'
  | _ :: l' => writes l'
  end.

(** A device whose registers in [P] are plain storage: reads have no effect and
    return the value last written; accesses to other registers and the passing
    of time do not change them. *)
Class PlainRegs (D : Mmio) (P : Z -> Prop) := {
  peek : dev -> Z -> Z;
  peek_range d r : in_range 32 (peek d r);
  peek_read d r : P r -> dev_read d r = (peek d r, d);
  peek_read_other d r r' : P r' -> peek (dev_read d r).2 r' = peek d r';
  peek_write d r v r' : P r' -> in_range 32 v ->
    peek (dev_write d r v) r' = if decide (r = r') then v else peek d r';
  peek_delay d us r : P r -> peek (dev_delay d us) r = peek d r;
}.

Section Osdep.
  Context `{D : Mmio}.

Definition M (A : Type) : Type := comp world A.

(** [readl], [writel], [udelay]: the machine's own primitives *)
Definition readl (r : Z) : M Z := fun w =>
  let '(v, d) := dev_read (w_dev w) r in
  Done (u32 v) (mk_world _ (w_hw w) d (w_log w ++ [ERead r (u32 v)])).
Definition writel (v r : Z) : M unit := fun w =>
  Done tt (mk_world _ (w_hw w) (dev_write (w_dev w) r (u32 v)) (w_log w ++ [EWrite r (u32 v)])).
Definition udelay (us : Z) : M unit := fun w =>
  Done tt (mk_world _ (w_hw w) (dev_delay (w_dev w) us) (w_log w ++ [EDelay us])).
Definition mdelay (ms : Z) : M unit := udelay (1000 * ms).
Definition msec_delay (ms : Z) : M unit := udelay (1000 * ms).

Definition get_hw : M ixgbe_hw := gets w_hw.
Definition upd_hw (f : ixgbe_hw -> ixgbe_hw) : M unit :=
  modify (fun w => mk_world _ (f (w_hw w)) (w_dev w) (w_log w)).

(** [ixgbe_service_event_schedule] *)
Definition ixgbe_service_event_schedule (a : ixgbe_adapter_state) : ixgbe_adapter_state :=
  if negb (__IXGBE_DOWN a) && negb (__IXGBE_REMOVING a) && negb (__IXGBE_SERVICE_SCHED a)
  then upd_service_task_queued (service_task_queued a + 1) (upd_IXGBE_SERVICE_SCHED true a)
  else a.

(** [ixgbe_remove_adapter] *)
Definition ixgbe_remove_adapter (h : ixgbe_hw) : ixgbe_hw :=
  if negb (hw_addr h) then h
  else
    let h := upd_hw_addr false h in
    if __IXGBE_SERVICE_INITED (back h)
    then upd_back (ixgbe_service_event_schedule (back h)) h else h.

(** [IXGBE_REMOVED] *)
Definition IXGBE_REMOVED (addr : bool) : bool := negb addr.

(** [ixgbe_check_remove] *)
Definition ixgbe_check_remove (reg : Z) : M Z :=
  h ← get_hw;
  if IXGBE_REMOVED (hw_addr h) then mret IXGBE_FAILED_READ_REG
  else
    r ← for_break (Z.to_nat IXGBE_FAILED_READ_RETRIES) 0 0 (fun _ _ =>
          value ← readl IXGBE_STATUS;
          if negb (value =? IXGBE_FAILED_READ_REG) then mret (inr value)
          else mdelay 3 ;; mret (inl value));
    let value := match r with inl v => v | inr v => v end in
    if value =? IXGBE_FAILED_READ_REG
    then upd_hw ixgbe_remove_adapter ;; mret value
    else readl reg.

(** [ixgbe_validate_register_read] ([quiet] only selects the messages) *)
Definition ixgbe_validate_register_read (reg : Z) : M Z :=
  h ← get_hw;
  if IXGBE_REMOVED (hw_addr h) then mret IXGBE_FAILED_READ_REG
  else
    r ← for_break (Z.to_nat IXGBE_DEAD_READ_RETRIES) 0 0 (fun _ _ =>
          value ← readl reg;
          if negb (value =? IXGBE_DEAD_READ_REG) then mret (inr value)
          else mret (inl value));
    mret (match r with inl v => v | inr v => v end).

(** the part of [ixgbe_read_reg] behind the label [writes_completed] *)
Definition ixgbe_read_reg_writes_completed (reg : Z) : M Z :=
  value ← readl reg;
  value ← (if value =? IXGBE_FAILED_READ_REG then ixgbe_check_remove reg else mret value);
  if value =? IXGBE_DEAD_READ_REG then ixgbe_validate_register_read reg else mret value.

(** [ixgbe_read_reg]; in the SGMII loop [inr true] is [goto writes_completed]
    and [inr false] the early return *)
Definition ixgbe_read_reg (reg : Z) : M Z :=
  h ← get_hw;
  if IXGBE_REMOVED (hw_addr h) then mret IXGBE_FAILED_READ_REG
  else
    if has (nw_mng_if_sel (phy h)) IXGBE_NW_MNG_IF_SEL_SGMII_ENABLE then
      r ← for_break 200 0 tt (fun _ _ =>
            value ← readl IXGBE_MAC_SGMII_BUSY;
            if value =? 0 then mret (inr true)
            else if value =? IXGBE_FAILED_READ_REG
            then upd_hw ixgbe_remove_adapter ;; mret (inr false)
            else udelay 5 ;; mret (inl tt));
      match r with
      | inr false => mret IXGBE_FAILED_READ_REG
      | _ => ixgbe_read_reg_writes_completed reg
      end
    else ixgbe_read_reg_writes_completed reg.

(** [IXGBE_READ_REG], [IXGBE_WRITE_REG], the array forms and the flush *)
Definition IXGBE_READ_REG (reg : Z) : M Z := ixgbe_read_reg reg.
Definition IXGBE_WRITE_REG (reg value : Z) : M unit :=
  h ← get_hw;
  if IXGBE_REMOVED (hw_addr h) then mret tt else writel value reg.
Definition IXGBE_WRITE_REG_ARRAY (reg offset value : Z) : M unit :=
  IXGBE_WRITE_REG (reg + Z.shiftl offset 2) value.
Definition IXGBE_READ_REG_ARRAY (reg offset : Z) : M Z :=
  IXGBE_READ_REG (reg + Z.shiftl offset 2).
Definition IXGBE_WRITE_FLUSH : M unit := IXGBE_READ_REG IXGBE_STATUS ;; mret tt.
Definition usec_delay (us : Z) : M unit := udelay us.

End Osdep.

(** ** Facts that hold for every device *)
Section AnyDevice.
Context `{D : Mmio}.

Lemma writes_app l l' : writes (l ++ l') = writes l ++ writes l'.
Proof. induction l as [|[] l IH]; simpl; rewrite ?IH; done. Qed.

Lemma wp_readl r (Q : Z -> world -> Prop) w :
  (forall v d, dev_read (w_dev w) r = (v, d) ->
     Q (u32 v) (mk_world _ (w_hw w) d (w_log w ++ [ERead r (u32 v)]))) ->
  wp (readl r) Q w.
Proof. unfold wp, readl. destruct (dev_read (w_dev w) r) as [v d]. eauto. Qed.

Lemma wp_writel r v (Q : unit -> world -> Prop) w :
  Q tt (mk_world _ (w_hw w) (dev_write (w_dev w) r (u32 v)) (w_log w ++ [EWrite r (u32 v)])) ->
  wp (writel v r) Q w.
Proof. done. Qed.

Lemma wp_udelay us (Q : unit -> world -> Prop) w :
  Q tt (mk_world _ (w_hw w) (dev_delay (w_dev w) us) (w_log w ++ [EDelay us])) ->
  wp (udelay us) Q w.
Proof. done. Qed.

Lemma wp_get_hw (Q : ixgbe_hw -> world -> Prop) w : Q (w_hw w) w -> wp get_hw Q w.
Proof. done. Qed.

Lemma wp_upd_hw f (Q : unit -> world -> Prop) w :
  Q tt (mk_world _ (f (w_hw w)) (w_dev w) (w_log w)) -> wp (upd_hw f) Q w.
Proof. done. Qed.

(** What a sequence of reads and delays can do to the world: no register is
    written, at most [n] bus events happen, and the software state is either
    untouched or has recorded the removal of the adapter. *)
Record reads_only (n : Z) (w w' : world) : Prop := {
  ro_writes : writes (w_log w') = writes (w_log w);
  ro_count : Z.of_nat (length (w_log w')) <= Z.of_nat (length (w_log w)) + n;
  ro_hw : w_hw w' = w_hw w \/
          (hw_addr (w_hw w) = true /\ w_hw w' = ixgbe_remove_adapter (w_hw w));
}.

Lemma remove_adapter_addr h : hw_addr (ixgbe_remove_adapter h) = false.
Proof.
  unfold ixgbe_remove_adapter. destruct (hw_addr h) eqn:E; simpl; [|done].
  by destruct (__IXGBE_SERVICE_INITED (back h)).
Qed.

Lemma reads_only_refl n w : 0 <= n -> reads_only n w w.
Proof. intros. split; [done|lia|by left]. Qed.

Lemma reads_only_trans n m w1 w2 w3 :
  reads_only n w1 w2 -> reads_only m w2 w3 -> reads_only (n + m) w1 w3.
Proof.
  intros [? ? H1] [? ? H2]. split; [congruence|lia|].
  destruct H1 as [E1|[A1 E1]], H2 as [E2|[A2 E2]]; rewrite E1 in *; [by left|by right|by right|].
  by rewrite remove_adapter_addr in A2.
Qed.

Lemma reads_only_mono n m w w' : reads_only n w w' -> n <= m -> reads_only m w w'.
Proof. intros [? ? ?] ?. split; [done|lia|done]. Qed.

(** if the adapter is still there at the end, nothing was recorded *)
Lemma reads_only_alive n w w' :
  reads_only n w w' -> hw_addr (w_hw w') = true -> w_hw w' = w_hw w.
Proof.
  intros [_ _ [E|[_ E]]] Ha; [done|]. rewrite E, remove_adapter_addr in Ha. done.
Qed.

Lemma readl_reads_only r w : wp (readl r) (fun v w' => in_range 32 v /\
  w_hw w' = w_hw w /\ reads_only 1 w w') w.
Proof.
  apply wp_readl. intros v d _. split; [by apply trunc_range|]. split; [done|].
  split; simpl; [|rewrite length_app; simpl; lia|by left].
  rewrite writes_app. simpl. by rewrite app_nil_r.
Qed.

Lemma udelay_reads_only us w : wp (udelay us) (fun _ w' =>
  w_hw w' = w_hw w /\ reads_only 1 w w') w.
Proof.
  apply wp_udelay. split; [done|].
  split; simpl; [|rewrite length_app; simpl; lia|by left].
  rewrite writes_app. simpl. by rewrite app_nil_r.
Qed.

Lemma remove_reads_only w :
  reads_only 0 w (mk_world _ (ixgbe_remove_adapter (w_hw w)) (w_dev w) (w_log w)).
Proof.
  split; simpl; [done|lia|]. destruct (hw_addr (w_hw w)) eqn:E; [by right|left].
  unfold ixgbe_remove_adapter. by rewrite E.
Qed.

Lemma check_remove_reads_only r w :
  wp (ixgbe_check_remove r) (fun v w' => in_range 32 v /\ reads_only 11 w w') w.
Proof.
  unfold ixgbe_check_remove. wp_step. apply wp_get_hw.
  wp_step; [apply wp_ret; split; [done|by apply reads_only_refl]|].
  wp_step. eapply wp_mono.
  { apply wp_for_break with
      (Inv := fun k v w' => in_range 32 v /\ w_hw w' = w_hw w /\ reads_only (2 * k) w w')
      (Q := fun r w' => in_range 32 (match r with inl v => v | inr v => v end) /\
              w_hw w' = w_hw w /\ reads_only 10 w w').
    - split; [done|]. split; [done|by apply reads_only_refl].
    - intros k _ w1 Hk (_ & Hh & Hr). change (Z.of_nat _) with 5 in Hk.
      wp_step. eapply wp_mono; [apply readl_reads_only|]. intros v w2 (Hv & Hh2 & Hr2).
      pose proof (reads_only_trans _ _ _ _ _ Hr Hr2) as Hr'.
      wp_step; wp_steps; [split; [done|]; split; [congruence|]; eapply reads_only_mono; [done|lia]|].
      eapply wp_mono; [apply udelay_reads_only|]. intros [] w3 [Hh3 Hr3].
      wp_steps. split; [done|]. split; [congruence|].
      eapply reads_only_mono; [eapply reads_only_trans; done|lia].
    - intros v w1 (Hv & Hh & Hr). split; [done|]. split; [done|].
      eapply reads_only_mono; [done|by vm_compute]. }
  intros b w1 (Hv & Hh & Hr). cbv beta zeta.
  wp_step; wp_steps.
  - apply wp_upd_hw, wp_ret. split; [done|].
    eapply reads_only_mono; [eapply reads_only_trans; [exact Hr|apply remove_reads_only]|lia].
  - eapply wp_mono; [apply readl_reads_only|]. intros v w2 (? & ? & Hr2). split; [done|].
    eapply reads_only_mono; [eapply reads_only_trans; done|lia].
Qed.

Lemma validate_reads_only r w :
  wp (ixgbe_validate_register_read r) (fun v w' => in_range 32 v /\ reads_only 10 w w') w.
Proof.
  unfold ixgbe_validate_register_read. wp_step. apply wp_get_hw.
  wp_step; [apply wp_ret; split; [done|by apply reads_only_refl]|].
  wp_step. eapply wp_mono.
  { apply wp_for_break with
      (Inv := fun k v w' => in_range 32 v /\ reads_only k w w')
      (Q := fun r w' => in_range 32 (match r with inl v => v | inr v => v end) /\
              reads_only 10 w w').
    - split; [done|by apply reads_only_refl].
    - intros k _ w1 Hk (_ & Hr). change (Z.of_nat _) with 10 in Hk.
      wp_step. eapply wp_mono; [apply readl_reads_only|]. intros v w2 (Hv & _ & Hr2).
      pose proof (reads_only_trans _ _ _ _ _ Hr Hr2) as Hr'.
      wp_step; wp_steps; (split; [done|]); [eapply reads_only_mono; [done|lia]|done].
    - intros v w1 (Hv & Hr). split; [done|]. eapply reads_only_mono; [done|by vm_compute]. }
  intros b w1 ?. by wp_steps.
Qed.

(** The number of bus events of one [IXGBE_READ_REG] on any device. *)
Definition read_reg_bound : Z := 422.

Lemma writes_completed_reads_only r w :
  wp (ixgbe_read_reg_writes_completed r) (fun v w' => in_range 32 v /\ reads_only 22 w w') w.
Proof.
  unfold ixgbe_read_reg_writes_completed.
  wp_step. eapply wp_mono; [apply readl_reads_only|].
  intros v w2 (Hv & _ & Hr2). wp_step.
  eapply wp_mono with (P := fun v w' => in_range 32 v /\ reads_only 11 w2 w').
  { wp_step; [apply check_remove_reads_only|]. apply wp_ret.
    split; [done|by apply reads_only_refl]. }
  intros v3 w3 (Hv3 & Hr3).
  pose proof (reads_only_trans _ _ _ _ _ Hr2 Hr3) as Hr.
  wp_step.
  - eapply wp_mono; [apply validate_reads_only|]. intros v4 w4 [? Hr4]. split; [done|].
    eapply reads_only_mono; [eapply reads_only_trans; done|lia].
  - apply wp_ret. split; [done|]. eapply reads_only_mono; [done|lia].
Qed.

Lemma read_reg_reads_only r w :
  wp (ixgbe_read_reg r) (fun v w' => in_range 32 v /\ reads_only read_reg_bound w w') w.
Proof.
  unfold ixgbe_read_reg. wp_step. apply wp_get_hw.
  wp_step; [apply wp_ret; split; [done|by apply reads_only_refl]|].
  assert (Hcont : forall w1, reads_only 400 w w1 ->
    wp (ixgbe_read_reg_writes_completed r)
       (fun v w' => in_range 32 v /\ reads_only read_reg_bound w w') w1).
  { intros w1 Hr1. eapply wp_mono; [apply writes_completed_reads_only|].
    intros v w2 [? Hr2]. split; [done|]. exact (reads_only_trans _ _ _ _ _ Hr1 Hr2). }
  wp_step; [|apply Hcont; by apply reads_only_refl].
  wp_step. eapply wp_mono.
  { apply wp_for_break with
      (Inv := fun k _ w' => reads_only (2 * k) w w')
      (Q := fun _ w' => reads_only 400 w w').
    - by apply reads_only_refl.
    - intros k _ w1 Hk Hr. change (Z.of_nat _) with 200 in Hk.
      wp_step. eapply wp_mono; [apply readl_reads_only|]. intros v w2 (Hv & _ & Hr2).
      pose proof (reads_only_trans _ _ _ _ _ Hr Hr2) as Hr'.
      wp_step; [wp_steps; eapply reads_only_mono; [done|lia]|].
      wp_step; wp_steps.
      + apply wp_upd_hw, wp_ret.
        eapply reads_only_mono; [eapply reads_only_trans; [done|apply remove_reads_only]|lia].
      + eapply wp_mono; [apply udelay_reads_only|]. intros [] w3 [_ Hr3]. wp_steps.
        eapply reads_only_mono; [eapply reads_only_trans; done|lia].
    - intros _ w1 Hr. eapply reads_only_mono; [done|by vm_compute]. }
  intros [u|[]] w1 Hr; [by apply Hcont|by apply Hcont|].
  apply wp_ret. split; [done|]. eapply reads_only_mono; [done|]. unfold read_reg_bound. lia.
Qed.
End AnyDevice.

(** ** Devices whose registers are plain storage *)
Section Plain.
Context `{D : Mmio} {P : Z -> Prop} `{!PlainRegs D P}.
Context (HS : P IXGBE_STATUS).

(** the adapter is mapped, needs no SGMII wait and its status reads fine *)
Record ready (w : world) : Prop := {
  rd_addr : hw_addr (w_hw w) = true;
  rd_sgmii : has (nw_mng_if_sel (phy (w_hw w))) IXGBE_NW_MNG_IF_SEL_SGMII_ENABLE = false;
  rd_status : peek (w_dev w) IXGBE_STATUS <> IXGBE_FAILED_READ_REG;
}.

Lemma ready_same w w' :
  ready w -> w_hw w' = w_hw w -> w_dev w' = w_dev w -> ready w'.
Proof. intros [] E1 E2. split; rewrite ?E1, ?E2; done. Qed.

Definition same (w w' : world) : Prop :=
  w_hw w' = w_hw w /\ w_dev w' = w_dev w /\ writes (w_log w') = writes (w_log w).

Lemma same_ready w w' : ready w -> same w w' -> ready w'.
Proof. intros ? (?&?&?). by eapply ready_same. Qed.

Lemma same_refl w : same w w.
Proof. done. Qed.
Lemma same_trans w1 w2 w3 : same w1 w2 -> same w2 w3 -> same w1 w3.
Proof. intros (?&?&?) (?&?&?). repeat split; congruence. Qed.

Lemma wp_readl_plain r w : P r ->
  wp (readl r) (fun v w' => v = peek (w_dev w) r /\ same w w') w.
Proof.
  intros Hr. apply wp_readl. intros v d E. rewrite peek_read in E by done.
  injection E as <- <-. split.
  - apply trunc_small, peek_range.
  - repeat split; simpl. rewrite writes_app. simpl. by rewrite app_nil_r.
Qed.

Lemma check_remove_plain r w : P r -> ready w ->
  wp (ixgbe_check_remove r) (fun v w' => v = peek (w_dev w) r /\ same w w') w.
Proof.
  intros Hr [Ha _ Hs]. unfold ixgbe_check_remove. wp_step. apply wp_get_hw. rewrite Ha.
  change (Z.to_nat IXGBE_FAILED_READ_RETRIES) with 5%nat. cbn [negb IXGBE_REMOVED].
  rewrite for_break_S. do 3 wp_step. eapply wp_mono; [by apply wp_readl_plain|]. intros v w1 [-> Hs1].
  assert ((peek (w_dev w) IXGBE_STATUS =? IXGBE_FAILED_READ_REG) = false) as E.
  { by apply Z.eqb_neq. }
  rewrite E. cbn [negb]. do 2 wp_step. rewrite E.
  eapply wp_mono; [by apply wp_readl_plain|]. intros v w2 [-> Hs2].
  destruct Hs1 as (?&Ed&?). split; [by rewrite Ed|]. by eapply same_trans.
Qed.

Lemma validate_plain r w : P r -> ready w ->
  wp (ixgbe_validate_register_read r) (fun v w' => v = peek (w_dev w) r /\ same w w') w.
Proof.
  intros Hr [Ha _ _]. unfold ixgbe_validate_register_read. wp_step. apply wp_get_hw.
  rewrite Ha. simpl. wp_step. eapply wp_mono.
  { apply wp_for_break with
      (Inv := fun k v w' => (k = 0 \/ v = peek (w_dev w) r) /\ same w w')
      (Q := fun x w' => match x with inl v => v | inr v => v end = peek (w_dev w) r /\ same w w').
    - split; [by left|apply same_refl].
    - intros k _ w1 _ [_ Hs1]. wp_step. eapply wp_mono; [by apply wp_readl_plain|].
      intros v w2 [-> Hs2]. pose proof (same_trans _ _ _ Hs1 Hs2) as Hs.
      destruct Hs1 as (?&->&?). wp_step; wp_steps; (split; [|done]); [done|by right].
    - intros v w1 [[Hk|Hv] Hs1]; [by vm_compute in Hk|by subst v]. }
  intros b w1 [Hb ?]. apply wp_ret. split; [by destruct b|done].
Qed.

Lemma read_reg_plain r w : P r -> ready w ->
  wp (IXGBE_READ_REG r) (fun v w' => v = peek (w_dev w) r /\ same w w') w.
Proof.
  intros Hr Hw. pose proof Hw as [Ha Hg _]. unfold IXGBE_READ_REG, ixgbe_read_reg.
  wp_step. apply wp_get_hw. rewrite Ha, Hg. simpl.
  unfold ixgbe_read_reg_writes_completed.
  wp_step. eapply wp_mono; [by apply wp_readl_plain|]. intros v w1 [-> Hs1].
  assert (ready w1) as Hw1 by by apply (same_ready w).
  wp_step.
  eapply wp_mono with (P := fun v w' => v = peek (w_dev w) r /\ same w w').
  { wp_step; [|by apply wp_ret].
    eapply wp_mono; [by apply check_remove_plain|]. intros v w2 [-> Hs2]. split.
    - by destruct Hs1 as (_&->&_).
    - by eapply same_trans. }
  intros v w2 [-> Hs2]. wp_step; [|by apply wp_ret].
  assert (ready w2) as Hw2 by by apply (same_ready w).
  eapply wp_mono; [by apply validate_plain|]. intros v w3 [-> Hs3]. split.
  - by destruct Hs2 as (_&->&_).
  - by eapply same_trans.
Qed.

(** the form the component proofs use: continue with any world that only
    differs in its log of reads *)
Lemma wp_READ_REG r (Q : Z -> world -> Prop) w :
  P r -> ready w ->
  (forall w', ready w' -> same w w' -> Q (peek (w_dev w) r) w') ->
  wp (IXGBE_READ_REG r) Q w.
Proof.
  intros Hr Hw HQ. eapply wp_mono; [by apply read_reg_plain|].
  intros v w' [-> Hs]. apply HQ; [|done]. by apply (same_ready w).
Qed.

(** a write changes that register and no other plain one *)
Definition wrote (r v : Z) (w w' : world) : Prop :=
  w_hw w' = w_hw w /\
  (forall r', P r' -> peek (w_dev w') r' = if decide (r = r') then u32 v else peek (w_dev w) r') /\
  writes (w_log w') = writes (w_log w) ++ [(r, u32 v)].

Lemma wp_WRITE_REG r v (Q : unit -> world -> Prop) w :
  r <> IXGBE_STATUS -> ready w ->
  (forall w', ready w' -> wrote r v w w' -> Q tt w') ->
  wp (IXGBE_WRITE_REG r v) Q w.
Proof.
  intros Hne [Ha Hg Hs] HQ. unfold IXGBE_WRITE_REG. wp_step. apply wp_get_hw.
  rewrite Ha. simpl. apply wp_writel, HQ.
  - split; simpl; [done|done|]. rewrite peek_write by (done || by apply trunc_range).
    by rewrite decide_False by done.
  - repeat split; simpl.
    + intros r' Hr'. rewrite peek_write by (done || by apply trunc_range). done.
    + by rewrite writes_app.
Qed.

Lemma wp_WRITE_FLUSH (Q : unit -> world -> Prop) w :
  ready w -> (forall w', ready w' -> same w w' -> Q tt w') -> wp IXGBE_WRITE_FLUSH Q w.
Proof.
  intros Hw HQ. unfold IXGBE_WRITE_FLUSH. wp_step. apply wp_READ_REG; [done|done|].
  intros w' ??. apply wp_ret. auto.
Qed.
End Plain.

(** ** Concrete devices, for evaluation and as witnesses *)

(** a register file: everything is plain storage, initially zero *)
#[local] Instance ram : Mmio := {|
  dev := gmap Z Z;
  dev_read d r := (u32 (default 0 (d !! r)), d);
  dev_write d r v := <[r := v]> d;
  dev_delay d _ := d;
|}.

#[local] Instance ram_plain (P : Z -> Prop) : PlainRegs ram P.
Proof.
  refine {| peek := fun (d : @dev ram) r => u32 (default 0 ((d : gmap Z Z) !! r)) |}.
  - intros d r. by apply trunc_range.
  - done.
  - done.
  - intros d r v r' _ Hv. simpl. rewrite lookup_insert.
    case_decide; [|done]. simpl. by apply trunc_small.
  - done.
Defined.

(** an adapter that has left the bus: every read is all ones *)
#[local] Instance unplugged : Mmio := {|
  dev := unit;
  dev_read _ _ := (IXGBE_FAILED_READ_REG, tt);
  dev_write _ _ _ := tt;
  dev_delay _ _ := tt;
|}.

(** a device that answers reads from a script and then with zero *)
#[local] Instance scripted : Mmio := {|
  dev := list Z;
  dev_read d _ := match d with [] => (0, []) | v :: d' => (v, d') end;
  dev_write d _ _ := d;
  dev_delay d _ := d;
|}.

(** ** Properties of the register layer *)
Section Properties.
Context `{D : Mmio}.

Lemma readl_all_ones r w :
  (forall d r, u32 (dev_read d r).1 = IXGBE_FAILED_READ_REG) ->
  wp (readl r) (fun v w' => v = IXGBE_FAILED_READ_REG /\ w_hw w' = w_hw w) w.
Proof.
  intros Hones. apply wp_readl. intros v d E. specialize (Hones (w_dev w) r).
  by rewrite E in Hones.
Qed.

Lemma check_remove_all_ones r w :
  (forall d r, u32 (dev_read d r).1 = IXGBE_FAILED_READ_REG) -> hw_addr (w_hw w) = true ->
  wp (ixgbe_check_remove r) (fun v w' => v = IXGBE_FAILED_READ_REG /\
    w_hw w' = ixgbe_remove_adapter (w_hw w)) w.
Proof.
  intros Hones Ha. unfold ixgbe_check_remove. wp_step. apply wp_get_hw. rewrite Ha.
  cbn [IXGBE_REMOVED negb]. wp_step. eapply wp_mono.
  { apply wp_for_break with
      (Inv := fun k v w' => (k = 0 \/ v = IXGBE_FAILED_READ_REG) /\ w_hw w' = w_hw w)
      (Q := fun r w' => r = inl IXGBE_FAILED_READ_REG /\ w_hw w' = w_hw w).
    - split; [by left|done].
    - intros k _ w1 _ [_ Hh]. wp_step. eapply wp_mono; [by apply readl_all_ones|].
      intros v w2 [-> Hh2]. rewrite Z.eqb_refl. cbn [negb]. wp_step.
      eapply wp_mono; [apply udelay_reads_only|]. intros [] w3 [Hh3 _].
      wp_step. split; [by right|congruence].
    - intros v w1 [[Hk|Hv] Hh]; [by vm_compute in Hk|by subst v]. }
  intros b w1 [-> Hh]. rewrite Z.eqb_refl. wp_step. apply wp_upd_hw, wp_ret.
  simpl. by rewrite Hh.
Qed.

(** On a device whose registers are plain storage, [IXGBE_READ_REG]
    returns exactly the stored value, for every value (the two values that
    trigger the removal check and the dead-read retry included), and changes
    neither the software state nor the device. *)
Theorem read_reg_transparent {P : Z -> Prop} `{!PlainRegs D P} r w :
  P IXGBE_STATUS -> P r -> ready w ->
  wp (IXGBE_READ_REG r) (fun v w' => v = peek (w_dev w) r /\ same w w') w.
Proof. intros. by apply read_reg_plain. Qed.

(** Once [hw_addr] is NULL no access reaches the device: reads return all
    ones, writes are dropped, and nothing at all changes. *)
Theorem removed_no_access w : hw_addr (w_hw w) = false ->
  forall r v, IXGBE_READ_REG r w = Done IXGBE_FAILED_READ_REG w /\
              IXGBE_WRITE_REG r v w = Done tt w.
Proof.
  intros Ha r v. unfold IXGBE_READ_REG, ixgbe_read_reg, IXGBE_WRITE_REG.
  unfold mbind, comp_bind, get_hw, gets. by rewrite Ha.
Qed.

(** On any device a register read ends, after at most 422 bus events,
    without a write, with a 32-bit value, and with the software state either
    untouched or recording the removal of the adapter. *)
Theorem read_reg_bounded r w :
  wp (IXGBE_READ_REG r) (fun v w' => in_range 32 v /\ reads_only read_reg_bound w w') w.
Proof. apply read_reg_reads_only. Qed.

(** When the adapter has left the bus (every read is all ones), the first
    register read notices: it returns all ones, clears [hw_addr], and queues
    the service task exactly once, if and only if the service is initialised
    and neither down, nor removing, nor already scheduled. *)
Theorem surprise_removal_detected r w :
  (forall d r, u32 (dev_read d r).1 = IXGBE_FAILED_READ_REG) -> hw_addr (w_hw w) = true ->
  wp (IXGBE_READ_REG r) (fun v w' =>
    let a := back (w_hw w) in
    v = IXGBE_FAILED_READ_REG /\ hw_addr (w_hw w') = false /\
    service_task_queued (back (w_hw w')) = service_task_queued a +
      (if __IXGBE_SERVICE_INITED a && negb (__IXGBE_DOWN a) && negb (__IXGBE_REMOVING a)
          && negb (__IXGBE_SERVICE_SCHED a) then 1 else 0)) w.
Proof.
  intros Hones Ha.
  eapply wp_mono with (P := fun v w' => v = IXGBE_FAILED_READ_REG /\
    w_hw w' = ixgbe_remove_adapter (w_hw w)).
  - unfold IXGBE_READ_REG, ixgbe_read_reg. wp_step. apply wp_get_hw. rewrite Ha.
    cbn [IXGBE_REMOVED negb]. wp_step.
    + wp_step. change 200%nat with (S 199). rewrite for_break_S. do 2 wp_step.
      eapply wp_mono; [by apply readl_all_ones|]. intros v w1 [-> Hh]. simpl. wp_step.
      apply wp_upd_hw. do 3 wp_step. simpl. by rewrite Hh.
    + unfold ixgbe_read_reg_writes_completed. wp_step.
      eapply wp_mono; [by apply readl_all_ones|]. intros v w1 [-> Hh].
      rewrite Z.eqb_refl. wp_step.
      eapply wp_mono; [apply check_remove_all_ones; [done|congruence]|].
      intros v w2 [-> Hh2]. simpl. apply wp_ret. by rewrite Hh2, Hh.
  - intros v w' [-> Hh]. rewrite Hh. split; [done|]. split; [apply remove_adapter_addr|].
    unfold ixgbe_remove_adapter. rewrite Ha. simpl.
    destruct (__IXGBE_SERVICE_INITED (back (w_hw w))) eqn:E; simpl; [|lia].
    unfold ixgbe_service_event_schedule.
    destruct (__IXGBE_DOWN _), (__IXGBE_REMOVING _), (__IXGBE_SERVICE_SCHED _); simpl; lia.
Qed.
End Properties.

(** *** Witnesses *)

(** an adapter state for the evaluations below *)
Definition hw0 : ixgbe_hw :=
  mk_hw true (mk_adapter false false false true 0)
    (mk_mac ixgbe_mac_82599EB [0xA0; 0x36; 0x9F; 1; 2; 3] (replicate 128 0) 0 128 128 128 1 255)
    (mk_addr_ctrl 0 1 0 0 false)
    (mk_fc (replicate 8 0x80) (replicate 8 0x40) 0xFFFF true false false false
       ixgbe_fc_none ixgbe_fc_full)
    (mk_phy ixgbe_phy_unknown 0 0 ixgbe_sfp_type_unknown false 0 ixgbe_media_type_backplane 0 0 0 false false 0)
    (mk_eeprom ixgbe_eeprom_uninitialized 0 0 0 0 0)
    (mk_mbx [] (mk_mbx_stats 0 0 0 0 0) 0 0 0 0) ixgbe_mvals_base 0x10FB 0 0 1 false
    (mk_fw_version 0 0 0 0 0 0 0 0 0) (mk_aci 0 false)
    (mk_flash_info (mk_orom_info 0 0 0 0) (mk_nvm_info 0 0 0 0) (mk_netlist_info 0 0 0 0 0 0)
       (mk_bank_info 0 0 0 0 0 0 IXGBE_INVALID_FLASH_BANK IXGBE_INVALID_FLASH_BANK
          IXGBE_INVALID_FLASH_BANK) 0 0 false) dev_caps0 func_caps0.

Lemma read_reg_transparent_witness :
  ready (D := ram) (P := fun _ => True)
        (mk_world ram hw0 (<[0x5400 := 0xdeadbeef]> (∅ : gmap Z Z)) []) /\
  wp (IXGBE_READ_REG (D := ram) 0x5400) (fun v _ => v = 0xdeadbeef)
     (mk_world ram hw0 (<[0x5400 := 0xdeadbeef]> (∅ : gmap Z Z)) []).
Proof.
  assert (H : ready (D := ram) (P := fun _ => True)
    (mk_world ram hw0 (<[0x5400 := 0xdeadbeef]> (∅ : gmap Z Z)) [])) by (by split; vm_compute).
  split; [exact H|].
  eapply wp_mono; [exact (read_reg_transparent (D := ram) (P := fun _ => True) 0x5400 _ I I H)|].
  intros v w [-> _]. vm_compute. reflexivity.
Defined.

Lemma removed_no_access_witness :
  hw_addr (upd_hw_addr false hw0) = false /\
  IXGBE_READ_REG (D := ram) 8 (mk_world ram (upd_hw_addr false hw0) (∅ : gmap Z Z) []) =
    Done 0xffffffff (mk_world ram (upd_hw_addr false hw0) (∅ : gmap Z Z) []).
Proof.
  split; [reflexivity|].
  exact (proj1 (removed_no_access (D := ram)
    (mk_world ram (upd_hw_addr false hw0) (∅ : gmap Z Z) []) eq_refl 8 0)).
Defined.

Lemma surprise_removal_detected_witness :
  wp (IXGBE_READ_REG (D := unplugged) 0x5400) (fun v w' =>
    v = 0xffffffff /\ hw_addr (w_hw w') = false /\ service_task_queued (back (w_hw w')) = 1)
    (mk_world unplugged hw0 tt []).
Proof.
  exact (surprise_removal_detected (D := unplugged) 0x5400 (mk_world unplugged hw0 tt [])
    (fun _ _ => eq_refl) eq_refl).
Defined.
