(* ===== verification/Trace.v ===== *)
(** * What the driver does on the bus, on every device

    A small logic for statements of the form: whatever the device answers, the
    computation performs these register accesses, in this order.  [traces c m T]
    says that [m], started with static configuration [c], ends without a fault,
    keeps the configuration, and that its result and its accesses satisfy [T].
    When the adapter is lost half-way the accesses after that point never reach
    the bus; hence the condition that it is still there at the end. *)
From S2P Require Import Prelude Regs Types Osdep.

(** register accesses at the level of [IXGBE_READ_REG]/[IXGBE_WRITE_REG] *)
Inductive access := Rd (r v : Z) | Wr (r v : Z) | Dly (us : Z).

(** the bus events of one [IXGBE_READ_REG r] before its last one: reads of [r],
    of [STATUS] and of the SGMII busy register, and the waits in between; the
    last one is the read of [r] whose value the driver gets *)
Definition read_event (r : Z) (e : event) : Prop :=
  match e with
  | ERead r' _ => r' = r \/ r' = IXGBE_STATUS \/ r' = IXGBE_MAC_SGMII_BUSY
  | EWrite _ _ => False
  | EDelay us => us <= 3000
  end.

Inductive realizes : list access -> list event -> Prop :=
| rz_nil : realizes [] []
| rz_rd r v a l l' :
    Forall (read_event r) l -> realizes a l' -> realizes (Rd r v :: a) (l ++ ERead r v :: l')
| rz_wr r v a l :
    in_range 32 v -> realizes a l -> realizes (Wr r v :: a) (EWrite r v :: l)
| rz_dly us a l : realizes a l -> realizes (Dly us :: a) (EDelay us :: l).

(** the registers a list of accesses writes, with the values *)
Fixpoint wrs (l : list access) : list (Z * Z) :=
  match l with
  | [] => []
  | Wr r v :: l' => (r, v) :: wrs l'
  | _ :: l' => wrs l'
  end.

(** the time the driver itself waits, in microseconds *)
Fixpoint waits (l : list access) : Z :=
  match l with
  | [] => 0
  | Dly us :: l' => us + waits l'
  | _ :: l' => waits l'
  end.

Lemma realizes_app a b l l' :
  realizes a l -> realizes b l' -> realizes (a ++ b) (l ++ l').
Proof.
  intros Ha Hb. induction Ha; simpl; rewrite <- ?app_assoc; try constructor; done.
Qed.

Lemma realizes_writes a l : realizes a l -> writes l = wrs a.
Proof.
  induction 1 as [|r v a l l' Hl _ IH| |]; simpl; rewrite ?writes_app; try congruence.
  simpl. rewrite IH. replace (writes l) with (@nil (Z * Z)); [done|].
  induction Hl as [|[] l Hx _ IHl]; simpl in *; done.
Qed.

Lemma wrs_app a b : wrs (a ++ b) = wrs a ++ wrs b.
Proof. induction a as [|[] a IH]; simpl; rewrite ?IH; done. Qed.

Lemma waits_app a b : waits (a ++ b) = waits a + waits b.
Proof. induction a as [|[] a IH]; simpl; rewrite ?IH; lia. Qed.

Section Trace.
Context `{D : Mmio}.
(** the part of [struct ixgbe_hw] that the computation does not change *)
Context {X : Type} (st : ixgbe_hw -> X).
Context (st_remove : forall h, st (ixgbe_remove_adapter h) = st h).

Definition alive (w : world) : Prop := hw_addr (w_hw w) = true.

(** the device went through exactly these events *)
Fixpoint run (d : dev) (l : list event) (d' : dev) : Prop :=
  match l with
  | [] => d' = d
  | ERead r v :: l => u32 (dev_read d r).1 = v /\ run (dev_read d r).2 l d'
  | EWrite r v :: l => run (dev_write d r v) l d'
  | EDelay us :: l => run (dev_delay d us) l d'
  end.

Lemma run_app d1 d2 d3 l l' : run d1 l d2 -> run d2 l' d3 -> run d1 (l ++ l') d3.
Proof.
  revert d1. induction l as [|[] l IH]; simpl; intros d1.
  - by intros ->.
  - intros [? ?] ?. split; [done|]. by apply IH.
  - by apply IH.
  - by apply IH.
Qed.

Definition did (acc : list access) (w w' : world) : Prop :=
  alive w' -> alive w /\ exists l,
    w_log w' = w_log w ++ l /\ realizes acc l /\ run (w_dev w) l (w_dev w').

Definition traces {A} (c : X) (m : M A) (T : A -> list access -> Prop) : Prop :=
  forall w, st (w_hw w) = c ->
    wp m (fun a w' => st (w_hw w') = c /\ exists acc, T a acc /\ did acc w w') w.

Lemma did_nil w : did [] w w.
Proof.
  intros Ha. split; [done|]. exists []. rewrite app_nil_r.
  split; [done|]. split; [constructor|done].
Qed.

Lemma did_app a b w1 w2 w3 : did a w1 w2 -> did b w2 w3 -> did (a ++ b) w1 w3.
Proof.
  intros H1 H2 Ha. destruct (H2 Ha) as (Ha2 & l2 & E2 & R2 & X2).
  destruct (H1 Ha2) as (Ha1 & l1 & E1 & R1 & X1). split; [done|].
  exists (l1 ++ l2). rewrite E2, E1, app_assoc. split; [done|].
  split; [by apply realizes_app|by eapply run_app].
Qed.

Lemma did_writes acc w w' :
  did acc w w' -> alive w' -> writes (w_log w') = writes (w_log w) ++ wrs acc.
Proof.
  intros Hd Ha. destruct (Hd Ha) as (_ & l & -> & R & _).
  by rewrite writes_app, (realizes_writes _ _ R).
Qed.

Lemma tr_ret {A} c (a : A) (T : A -> list access -> Prop) : T a [] -> traces c (mret a) T.
Proof. intros HT w Hc. apply wp_ret. split; [done|]. exists []. split; [done|apply did_nil]. Qed.

Lemma tr_bind {A B} c (m : M A) (f : A -> M B) T1 (T : B -> list access -> Prop) :
  traces c m T1 ->
  (forall a l1, T1 a l1 -> traces c (f a) (fun b l2 => T b (l1 ++ l2))) ->
  traces c (m ≫= f) T.
Proof.
  intros Hm Hf w Hc. apply wp_bind. eapply wp_mono; [by apply Hm|].
  intros a w1 (Hc1 & l1 & HT1 & Hd1). eapply wp_mono; [by apply (Hf a l1)|].
  intros b w2 (Hc2 & l2 & HT2 & Hd2). split; [done|]. exists (l1 ++ l2).
  split; [done|by eapply did_app].
Qed.

Lemma tr_mono {A} c (m : M A) (T T' : A -> list access -> Prop) :
  traces c m T -> (forall a l, T a l -> T' a l) -> traces c m T'.
Proof.
  intros Hm HT w Hc. eapply wp_mono; [by apply Hm|].
  intros a w' (? & l & ? & ?). split; [done|]. exists l. auto.
Qed.

(** sequencing when the first part's accesses are known *)
Lemma tr_seq {A B} c (m : M A) (f : A -> M B) T1 (T : B -> list access -> Prop) :
  traces c m T1 ->
  (forall a l1, T1 a l1 -> traces c (f a) (fun b l2 => T b (l1 ++ l2))) ->
  traces c (m ≫= f) T.
Proof. apply tr_bind. Qed.

Lemma tr_get_hw c (T : ixgbe_hw -> list access -> Prop) :
  (forall h, st h = c -> T h []) -> traces c get_hw T.
Proof.
  intros HT w Hc. apply wp_get_hw. split; [done|]. exists []. split; [by apply HT|apply did_nil].
Qed.

Lemma tr_upd_hw c f (T : unit -> list access -> Prop) :
  (forall h, st (f h) = st h) -> (forall h, hw_addr (f h) = hw_addr h) ->
  T tt [] -> traces c (upd_hw f) T.
Proof.
  intros Hst Ha HT w Hc. apply wp_upd_hw. simpl. split; [by rewrite Hst|].
  exists []. split; [done|]. intros H. unfold alive in H. simpl in H. rewrite Ha in H.
  split; [done|]. exists []. rewrite app_nil_r. split; [done|]. split; [constructor|done].
Qed.

Lemma tr_if {A} c (b : bool) (m1 m2 : M A) T :
  (b = true -> traces c m1 T) -> (b = false -> traces c m2 T) ->
  traces c (if b then m1 else m2) T.
Proof. destruct b; auto. Qed.

Lemma tr_nth_c {A} c (l : list A) i a (T : A -> list access -> Prop) :
  0 <= i -> l !! Z.to_nat i = Some a -> T a [] -> traces c (nth_c l i) T.
Proof.
  intros Hi Hl HT w Hc. apply (wp_nth_c _ _ a); [done|done|]. split; [done|].
  exists []. split; [done|apply did_nil].
Qed.

Lemma tr_upd_c {A} c (l : list A) i x (T : list A -> list access -> Prop) :
  0 <= i < Z.of_nat (length l) -> T (<[Z.to_nat i := x]> l) [] -> traces c (upd_c l i x) T.
Proof.
  intros Hi HT w Hc. apply wp_upd_c; [done|]. split; [done|].
  exists []. split; [done|apply did_nil].
Qed.

(** *** The primitive accesses *)
Lemma tr_udelay c us (T : unit -> list access -> Prop) :
  T tt [Dly us] -> traces c (udelay us) T.
Proof.
  intros HT w Hc. apply wp_udelay. split; [done|]. exists [Dly us]. split; [done|].
  intros Ha. split; [done|]. exists [EDelay us]. split; [done|]. split; [repeat constructor|done].
Qed.

Lemma tr_WRITE_REG c r v (T : unit -> list access -> Prop) :
  T tt [Wr r (u32 v)] -> traces c (IXGBE_WRITE_REG r v) T.
Proof.
  intros HT w Hc. unfold IXGBE_WRITE_REG. wp_step. apply wp_get_hw. unfold IXGBE_REMOVED.
  destruct (hw_addr (w_hw w)) eqn:E; simpl.
  - apply wp_writel. split; [done|]. exists [Wr r (u32 v)]. split; [done|].
    intros _. split; [done|]. exists [EWrite r (u32 v)]. split; [done|].
    split; [|done]. constructor; [by apply trunc_range|constructor].
  - apply wp_ret. split; [done|]. exists [Wr r (u32 v)]. split; [done|].
    intros Ha. unfold alive in Ha. congruence.
Qed.

(** events that can stand for a read of [r] *)
Definition read_log (r : Z) (w w' : world) : Prop :=
  w_hw w' = w_hw w /\ exists l, w_log w' = w_log w ++ l /\ Forall (read_event r) l /\
                                run (w_dev w) l (w_dev w').

Lemma read_log_refl r w : read_log r w w.
Proof. split; [done|]. exists []. rewrite app_nil_r. done. Qed.

Lemma read_log_trans r w1 w2 w3 : read_log r w1 w2 -> read_log r w2 w3 -> read_log r w1 w3.
Proof.
  intros [E1 (l1 & L1 & F1 & R1)] [E2 (l2 & L2 & F2 & R2)]. split; [congruence|].
  exists (l1 ++ l2). rewrite L2, L1, app_assoc. split; [done|].
  split; [by apply Forall_app|by eapply run_app].
Qed.

Lemma wp_readl_log r r' w : read_event r (ERead r' 0) ->
  wp (readl r') (fun v w' => in_range 32 v /\ read_log r w w') w.
Proof.
  intros Hr. apply wp_readl. intros v d E. split; [by apply trunc_range|].
  split; [done|]. eexists. split; [done|]. split; [by apply Forall_singleton|].
  simpl. by rewrite E.
Qed.

Lemma wp_udelay_log r us w : us <= 3000 ->
  wp (udelay us) (fun _ w' => read_log r w w') w.
Proof.
  intros Hr. apply wp_udelay. split; [done|]. eexists. split; [done|].
  split; [by apply Forall_singleton|done].
Qed.

(** [r] was read, with result [v], as the last of such events *)
Definition last_read (r v : Z) (w w' : world) : Prop :=
  w_hw w' = w_hw w /\ exists l, w_log w' = w_log w ++ l ++ [ERead r v] /\
    Forall (read_event r) l /\ run (w_dev w) (l ++ [ERead r v]) (w_dev w').

Lemma last_read_later r v w1 w2 w3 : read_log r w1 w2 -> last_read r v w2 w3 -> last_read r v w1 w3.
Proof.
  intros [E1 (l1 & L1 & F1 & R1)] [E2 (l2 & L2 & F2 & R2)]. split; [congruence|].
  exists (l1 ++ l2). rewrite L2, L1, <- !app_assoc. split; [done|].
  split; [by apply Forall_app|by eapply run_app].
Qed.

Lemma last_read_log r v w w' : last_read r v w w' -> read_log r w w'.
Proof.
  intros [E (l & L & F & R)]. split; [done|]. exists (l ++ [ERead r v]). split; [done|].
  split; [|done]. apply Forall_app. split; [done|]. apply Forall_singleton. by left.
Qed.

Lemma wp_readl_last r w : wp (readl r) (fun v w' => in_range 32 v /\ last_read r v w w') w.
Proof.
  apply wp_readl. intros v d E. split; [by apply trunc_range|]. split; [done|].
  exists []. split; [done|]. split; [done|]. simpl. by rewrite E.
Qed.

(** the outcome of a read: its events, unless the removal was recorded *)
Definition read_done (r : Z) (v : Z) (w w' : world) : Prop :=
  in_range 32 v /\
  (last_read r v w w' \/ hw_addr (w_hw w) = false /\ w_hw w' = w_hw w \/
   w_hw w' = ixgbe_remove_adapter (w_hw w)).

Lemma read_done_later r v w1 w2 w3 : read_log r w1 w2 -> read_done r v w2 w3 -> read_done r v w1 w3.
Proof.
  intros H1 [Hv [H2|H2]]; split; [done| |done|].
  - left. by eapply last_read_later.
  - right. destruct H1 as [E _]. by rewrite E in H2.
Qed.

Lemma read_done_removed r v w : in_range 32 v -> hw_addr (w_hw w) = false -> read_done r v w w.
Proof. intros. split; [done|]. right. by left. Qed.

Lemma check_remove_log r w :
  wp (ixgbe_check_remove r) (fun v w' => read_done r v w w') w.
Proof.
  unfold ixgbe_check_remove. wp_step. apply wp_get_hw. unfold IXGBE_REMOVED.
  destruct (hw_addr (w_hw w)) eqn:E; cbn [negb]; [|by apply wp_ret, read_done_removed].
  wp_step. eapply wp_mono.
  { apply wp_for_break with
      (Inv := fun k v w' => in_range 32 v /\ read_log r w w')
      (Q := fun x w' => in_range 32 (match x with inl v => v | inr v => v end) /\
                        read_log r w w').
    - split; [done|apply read_log_refl].
    - intros k _ w1 _ [_ Hr]. wp_step.
      eapply wp_mono; [apply (wp_readl_log r); simpl; auto|]. intros v w2 [Hv Hr2].
      pose proof (read_log_trans _ _ _ _ Hr Hr2) as Hr'. wp_step; wp_steps; [done|].
      eapply wp_mono; [by apply (wp_udelay_log r)|]. intros [] w3 Hr3. wp_steps.
      split; [done|by eapply read_log_trans].
    - done. }
  intros b w1 [Hv Hr]. cbv zeta. wp_step; wp_steps.
  - apply wp_upd_hw, wp_ret. split; [done|]. right. right. simpl. by destruct Hr as [-> _].
  - eapply wp_mono; [apply wp_readl_last|]. intros v w2 [Hv2 Hr2].
    split; [done|]. left. by eapply last_read_later.
Qed.

Lemma validate_log r w :
  wp (ixgbe_validate_register_read r) (fun v w' => read_done r v w w') w.
Proof.
  unfold ixgbe_validate_register_read. wp_step. apply wp_get_hw. unfold IXGBE_REMOVED.
  destruct (hw_addr (w_hw w)) eqn:E; cbn [negb]; [|by apply wp_ret, read_done_removed].
  wp_step. eapply wp_mono.
  { apply wp_for_break with
      (Inv := fun k v w' => (k = 0 /\ w' = w) \/ (in_range 32 v /\ last_read r v w w'))
      (Q := fun x w' => let v := match x with inl v => v | inr v => v end in
                        in_range 32 v /\ last_read r v w w').
    - by left.
    - intros k v0 w1 _ Hi. wp_step.
      eapply wp_mono; [apply wp_readl_last|]. intros v w2 [Hv Hr2].
      assert (last_read r v w w2) as Hr.
      { destruct Hi as [[_ ->]|[_ Hi]]; [done|].
        eapply last_read_later; [by eapply last_read_log|done]. }
      wp_step; wp_steps; [done|by right].
    - intros v w1 [[Hk _]|H]; [by vm_compute in Hk|done]. }
  intros b w1 [Hv Hr]. apply wp_ret. split; [by destruct b|left; by destruct b].
Qed.

Lemma writes_completed_log r w :
  wp (ixgbe_read_reg_writes_completed r) (fun v w' => read_done r v w w') w.
Proof.
  unfold ixgbe_read_reg_writes_completed. wp_step.
  eapply wp_mono; [apply wp_readl_last|]. intros v w1 [Hv Hr1].
  wp_step. eapply wp_mono with (P := fun v w' => read_done r v w w').
  { wp_step; [|by apply wp_ret; split; [|left]].
    eapply wp_mono; [apply check_remove_log|]. intros ? ? ?.
    eapply read_done_later; [by eapply last_read_log|done]. }
  intros v2 w2 [Hv2 Hr2]. wp_step; [|by apply wp_ret].
  eapply wp_mono; [apply validate_log|]. intros v3 w3 Hr3.
  destruct Hr2 as [Hr2|Hr2].
  - eapply read_done_later; [by eapply last_read_log|done].
  - destruct Hr3 as [Hv3 Hr3]. split; [done|]. right.
    assert (hw_addr (w_hw w2) = false) as Ha.
    { destruct Hr2 as [[? ->]| ->]; [done|apply remove_adapter_addr]. }
    assert (w_hw w3 = w_hw w2) as E3; [|by rewrite E3].
    destruct Hr3 as [[-> _]|[[_ Hr3]|Hr3]]; rewrite ?Hr3; [done|done|].
    unfold ixgbe_remove_adapter. by rewrite Ha.
Qed.

Lemma read_reg_log r w :
  wp (IXGBE_READ_REG r) (fun v w' => read_done r v w w') w.
Proof.
  unfold IXGBE_READ_REG, ixgbe_read_reg. wp_step. apply wp_get_hw. unfold IXGBE_REMOVED.
  destruct (hw_addr (w_hw w)) eqn:E; cbn [negb]; [|by apply wp_ret, read_done_removed].
  wp_step; [|apply writes_completed_log].
  wp_step. eapply wp_mono.
  { apply wp_for_break with
      (Inv := fun k _ w' => read_log r w w')
      (Q := fun x w' => match x with
                        | inr false => w_hw w' = ixgbe_remove_adapter (w_hw w)
                        | _ => read_log r w w' end).
    - apply read_log_refl.
    - intros k _ w1 _ Hr. wp_step.
      eapply wp_mono; [apply (wp_readl_log r); simpl; auto|]. intros v w2 [Hv Hr2].
      pose proof (read_log_trans _ _ _ _ Hr Hr2) as Hr'. wp_step; [by wp_steps|].
      wp_step; wp_steps.
      + apply wp_upd_hw, wp_ret. simpl. by destruct Hr' as [-> _].
      + eapply wp_mono; [by apply (wp_udelay_log r)|]. intros [] w3 Hr3. wp_steps.
        by eapply read_log_trans.
    - done. }
  intros [u|[]] w1 Hr.
  - eapply wp_mono; [apply writes_completed_log|]. intros ? ? ?. by eapply read_done_later.
  - eapply wp_mono; [apply writes_completed_log|]. intros ? ? ?. by eapply read_done_later.
  - apply wp_ret. split; [done|]. right. by right.
Qed.

(** a register read: one [Rd], of an arbitrary 32-bit value *)
Lemma tr_READ_REG c r (T : Z -> list access -> Prop) :
  (forall v, in_range 32 v -> T v [Rd r v]) -> traces c (IXGBE_READ_REG r) T.
Proof using st_remove.
  intros HT w Hc. eapply wp_mono; [apply read_reg_log|].
  intros v w' [Hv [[Eh (l & El & Fl & Rl)]|[[Ed Eh]|Eh]]].
  - split; [by rewrite Eh|]. exists [Rd r v]. split; [auto|]. intros Ha.
    split; [unfold alive in *; congruence|]. exists (l ++ [ERead r v]). split; [done|].
    split; [|done]. by repeat constructor.
  - split; [by rewrite Eh|]. exists [Rd r v]. split; [auto|].
    intros Ha. unfold alive in Ha. congruence.
  - split; [by rewrite Eh, st_remove|]. exists [Rd r v]. split; [auto|].
    intros Ha. unfold alive in Ha. by rewrite Eh, remove_adapter_addr in Ha.
Qed.

(** *** Loops *)
Lemma tr_for_loop c n i (body : Z -> M unit) (I : Z -> list access -> Prop) :
  I i [] ->
  (forall k l, i <= k < i + Z.of_nat n -> I k l ->
     traces c (body k) (fun _ l' => I (k + 1) (l ++ l'))) ->
  traces c (for_loop n i body) (fun _ l => I (i + Z.of_nat n) l).
Proof using.
  intros H0 Hb w Hc. eapply wp_mono.
  { apply wp_for_loop with (Inv := fun k w' =>
      st (w_hw w') = c /\ exists l, I k l /\ did l w w').
    - split; [done|]. exists []. split; [done|apply did_nil].
    - intros k w1 Hk (Hc1 & l & HI & Hd). eapply wp_mono; [by apply (Hb k l)|].
      intros _ w2 (Hc2 & l' & HI' & Hd'). split; [done|]. exists (l ++ l').
      split; [done|by eapply did_app]. }
  by intros [] w'.
Qed.

Lemma tr_for_acc {A} c n i (a : A) (body : Z -> A -> M A) (I : Z -> A -> list access -> Prop) :
  I i a [] ->
  (forall k b l, i <= k < i + Z.of_nat n -> I k b l ->
     traces c (body k b) (fun b' l' => I (k + 1) b' (l ++ l'))) ->
  traces c (for_acc n i a body) (fun b l => I (i + Z.of_nat n) b l).
Proof using.
  intros H0 Hb w Hc. eapply wp_mono.
  { apply wp_for_acc with (Inv := fun k b w' =>
      st (w_hw w') = c /\ exists l, I k b l /\ did l w w').
    - split; [done|]. exists []. split; [done|apply did_nil].
    - intros k b w1 Hk (Hc1 & l & HI & Hd). eapply wp_mono; [by apply (Hb k b l)|].
      intros b' w2 (Hc2 & l' & HI' & Hd'). split; [done|]. exists (l ++ l').
      split; [done|by eapply did_app]. }
  by intros b w'.
Qed.

Lemma tr_for_break {A B} c n i (a : A) (body : Z -> A -> M (A + B))
    (I : Z -> A -> list access -> Prop) (T : A + B -> list access -> Prop) :
  I i a [] ->
  (forall k b l, i <= k < i + Z.of_nat n -> I k b l ->
     traces c (body k b) (fun x l' => match x with
                                      | inl b' => I (k + 1) b' (l ++ l')
                                      | inr y => T (inr y) (l ++ l')
                                      end)) ->
  (forall b l, I (i + Z.of_nat n) b l -> T (inl b) l) ->
  traces c (for_break n i a body) T.
Proof using.
  intros H0 Hb He w Hc.
  apply wp_for_break with (Inv := fun k b w' =>
      st (w_hw w') = c /\ exists l, I k b l /\ did l w w').
  - split; [done|]. exists []. split; [done|apply did_nil].
  - intros k b w1 Hk (Hc1 & l & HI & Hd). eapply wp_mono; [by apply (Hb k b l)|].
    intros x w2 (Hc2 & l' & HI' & Hd').
    destruct x; (split; [done|]); exists (l ++ l'); (split; [done|by eapply did_app]).
  - intros b w1 (Hc1 & l & HI & Hd). split; [done|]. exists l. auto.
Qed.

(** *** Forward execution: one rule per kind of first command *)
Lemma tr_bind_read {B} c r (f : Z -> M B) (T : B -> list access -> Prop) :
  (forall v, in_range 32 v -> traces c (f v) (fun b l => T b (Rd r v :: l))) ->
  traces c (IXGBE_READ_REG r ≫= f) T.
Proof using st_remove.
  intros Hf. eapply tr_bind.
  - apply (tr_READ_REG _ _ (fun v l => in_range 32 v /\ l = [Rd r v])). by intros.
  - intros v l [Hv ->]. by apply Hf.
Qed.

Lemma tr_bind_write {B} c r v (f : unit -> M B) (T : B -> list access -> Prop) :
  traces c (f tt) (fun b l => T b (Wr r (u32 v) :: l)) ->
  traces c (IXGBE_WRITE_REG r v ≫= f) T.
Proof using.
  intros Hf. eapply tr_bind.
  - by apply (tr_WRITE_REG _ _ _ (fun _ l => l = [Wr r (u32 v)])).
  - intros [] l ->. apply Hf.
Qed.

Lemma tr_bind_delay {B} c us (f : unit -> M B) (T : B -> list access -> Prop) :
  traces c (f tt) (fun b l => T b (Dly us :: l)) -> traces c (udelay us ≫= f) T.
Proof using.
  intros Hf. eapply tr_bind.
  - by apply (tr_udelay _ _ (fun _ l => l = [Dly us])).
  - intros [] l ->. apply Hf.
Qed.

Lemma tr_bind_ret {A B} c (a : A) (f : A -> M B) T : traces c (f a) T -> traces c (mret a ≫= f) T.
Proof using. done. Qed.

Lemma tr_bind_get_hw {B} c (f : ixgbe_hw -> M B) T :
  (forall h, st h = c -> traces c (f h) T) -> traces c (get_hw ≫= f) T.
Proof using. intros Hf w Hc. apply wp_bind, wp_get_hw. by apply Hf. Qed.

Lemma tr_bind_upd_hw {B} c g (f : unit -> M B) T :
  (forall h, st (g h) = st h) -> (forall h, hw_addr (g h) = hw_addr h) ->
  traces c (f tt) T -> traces c (upd_hw g ≫= f) T.
Proof using.
  intros Hst Ha Hf. eapply tr_bind.
  - by apply (tr_upd_hw _ _ (fun _ l => l = [])).
  - intros [] l ->. apply Hf.
Qed.

Lemma tr_bind_assoc {A B E} c (m : M A) (g : A -> M B) (f : B -> M E) T :
  traces c (m ≫= (fun x => g x ≫= f)) T -> traces c ((m ≫= g) ≫= f) T.
Proof using.
  intros Hm w Hc. specialize (Hm w Hc). unfold wp, mbind, comp_bind in *. by destruct (m w).
Qed.
End Trace.

(** Runs the leading register accesses, returns and state updates of a
    computation. *)
Ltac tr_step :=
  lazymatch goal with
  | |- traces _ _ (mbind _ (mbind _ _)) _ => apply tr_bind_assoc
  | |- traces _ _ (mbind _ (IXGBE_READ_REG _)) _ => apply tr_bind_read; [done|intros ? ?]
  | |- traces _ _ (mbind _ (IXGBE_WRITE_REG _ _)) _ => apply tr_bind_write
  | |- traces _ _ (mbind _ (udelay _)) _ => apply tr_bind_delay
  | |- traces _ _ (mbind _ (usec_delay _)) _ => apply tr_bind_delay
  | |- traces _ _ (mbind _ (mret _)) _ => apply tr_bind_ret
  | |- traces _ _ (mbind _ (upd_hw _)) _ => apply tr_bind_upd_hw; [done|done|]
  | |- traces _ _ (mbind _ get_hw) _ => apply tr_bind_get_hw; intros ? ?
  | |- traces _ _ (mret _) _ => apply tr_ret
  | |- traces _ _ (IXGBE_READ_REG _) _ => apply tr_READ_REG; [done|intros ? ?]
  | |- traces _ _ (IXGBE_WRITE_REG _ _) _ => apply tr_WRITE_REG
  | |- traces _ _ (udelay _) _ => apply tr_udelay
  | |- traces _ _ (upd_hw _) _ => apply tr_upd_hw; [done|done|]
  end; cbv beta.

(** ** Plain registers next to arbitrary ones

    Only the registers in [P] need be plain storage; the others, [STATUS]
    included, may answer anything.  What such a register holds, and what reads
    of it return, then follows from the accesses alone. *)
Fixpoint last_wr (r : Z) (l : list access) (x : Z) : Z :=
  match l with
  | [] => x
  | Wr r' v :: l' => last_wr r l' (if decide (r' = r) then v else x)
  | _ :: l' => last_wr r l' x
  end.

Lemma last_wr_app r a b x : last_wr r (a ++ b) x = last_wr r b (last_wr r a x).
Proof. revert x. induction a as [|[] a IH]; simpl; done. Qed.

Lemma last_wr_other r l x :
  Forall (fun a => match a with Wr r' _ => r' <> r | _ => True end) l -> last_wr r l x = x.
Proof.
  induction 1 as [|[] l Ha _ IH]; simpl; [done|done| |done]. by rewrite decide_False.
Qed.

Section PartlyPlain.
Context `{D : Mmio} {P : Z -> Prop} `{!PlainRegs D P}.

Lemma run_split d l l' d'' : run d (l ++ l') d'' -> exists d', run d l d' /\ run d' l' d''.
Proof.
  revert d. induction l as [|[] l IH]; simpl; intros d.
  - by exists d.
  - intros [? (d' & ? & ?)%IH]. by exists d'.
  - intros (d' & ? & ?)%IH. by exists d'.
  - intros (d' & ? & ?)%IH. by exists d'.
Qed.

Lemma run_reads_peek r0 d l d' r : Forall (read_event r0) l -> run d l d' -> P r ->
  peek d' r = peek d r.
Proof.
  intros HF HR Hr. revert d HR. induction HF as [|[] l Hx _ IH]; simpl; intros d.
  - by intros ->.
  - intros [_ HR]. rewrite (IH _ HR). by apply peek_read_other.
  - done.
  - intros HR. rewrite (IH _ HR). by apply peek_delay.
Qed.

Lemma run_peek acc l d d' r : realizes acc l -> run d l d' -> P r ->
  peek d' r = last_wr r acc (peek d r).
Proof.
  intros HZ HR Hr. revert d HR.
  induction HZ as [|r' v a l l' HF _ IH|r' v a l Hv _ IH|us a l _ IH]; simpl; intros d.
  - by intros ->.
  - intros (d1 & R1 & _ & R2)%run_split. rewrite (IH _ R2).
    rewrite peek_read_other by done. by rewrite (run_reads_peek _ _ _ _ _ HF R1).
  - intros HR. rewrite (IH _ HR). by rewrite peek_write.
  - intros HR. rewrite (IH _ HR). by rewrite peek_delay.
Qed.

(** every read of [r] in the list returns what [r] holds at that point *)
Definition reads_stored (r : Z) (l : list access) (x : Z) : Prop :=
  forall a v b, l = a ++ Rd r v :: b -> v = last_wr r a x.

Lemma run_reads_stored acc l d d' r : realizes acc l -> run d l d' -> P r ->
  reads_stored r acc (peek d r).
Proof.
  intros HZ HR Hr a v b. revert d l acc HZ HR.
  induction a as [|x a IH]; intros d l acc HZ HR ->; inversion HZ; subst; simpl in *.
  - apply run_split in HR as (d1 & R1 & HE & _).
    rewrite peek_read in HE by done. simpl in HE. subst v.
    rewrite trunc_small by apply peek_range. by eapply run_reads_peek.
  - apply run_split in HR as (d1 & R1 & _ & R2).
    erewrite IH; [|eassumption|exact R2|reflexivity]. f_equal.
    rewrite peek_read_other by done. by eapply run_reads_peek.
  - erewrite IH; [|eassumption|exact HR|reflexivity]. by rewrite peek_write.
  - erewrite IH; [|eassumption|exact HR|reflexivity]. by rewrite peek_delay.
Qed.

Lemma did_peek acc w w' r : did acc w w' -> alive w' -> P r ->
  peek (w_dev w') r = last_wr r acc (peek (w_dev w) r) /\
  reads_stored r acc (peek (w_dev w) r).
Proof.
  intros Hd Ha Hr. destruct (Hd Ha) as (_ & l & _ & HZ & HR).
  split; [by eapply run_peek|by eapply run_reads_stored].
Qed.
End PartlyPlain.
