(* ===== verification/Mbx.v ===== *)
(** * PF/VF mailbox (ixgbe_mbx.c)

    The whole file: the generic entry points, the VF side and the PF side, each
    with its legacy and its upgraded protocol, and the functions that fill
    [hw->mbx].  A message buffer is a list; an access past its end, past
    [ops[63]] or through a NULL operation is a fault. *)
From S2P Require Import Prelude Regs Types Osdep.

Section Mbx.
  Context `{D : Mmio}.

(** ** State helpers *)
Definition mod_mbx (f : ixgbe_mbx_info -> ixgbe_mbx_info) : M unit :=
  upd_hw (fun h => upd_mbx (f (mbx h)) h).
Definition mod_stats (f : ixgbe_mbx_stats -> ixgbe_mbx_stats) : M unit :=
  mod_mbx (fun m => upd_mbx_stats (f (mbx_stats m)) m).
Definition get_mbx : M ixgbe_mbx_info := h ← get_hw; mret (mbx h).
(** [hw->mbx.ops[mbx_id]] *)
Definition get_ops (mbx_id : Z) : M ixgbe_mbx_operations :=
  m ← get_mbx; nth_c (mbx_ops m) mbx_id.

Definition inc_reqs : M unit := mod_stats (fun s => upd_reqs (u32 (reqs s + 1)) s).
Definition inc_acks : M unit := mod_stats (fun s => upd_acks (u32 (acks s + 1)) s).
Definition inc_rsts : M unit := mod_stats (fun s => upd_rsts (u32 (rsts s + 1)) s).
Definition inc_msgs_tx : M unit := mod_stats (fun s => upd_msgs_tx (u32 (msgs_tx s + 1)) s).
Definition inc_msgs_rx : M unit := mod_stats (fun s => upd_msgs_rx (u32 (msgs_rx s + 1)) s).

(** [for (i = 0; i < size; i++) IXGBE_WRITE_REG_ARRAY(hw, mem, i, msg[i])] *)
Definition copy_to_mem (mem : Z) (msg : list Z) (size : Z) : M unit :=
  for_loop (Z.to_nat size) 0 (fun i =>
    v ← nth_c msg i; IXGBE_WRITE_REG_ARRAY mem i v).
(** [for (i = 0; i < size; i++) msg[i] = IXGBE_READ_REG_ARRAY(hw, mem, i)] *)
Definition copy_from_mem (mem : Z) (msg : list Z) (size : Z) : M (list Z) :=
  for_acc (Z.to_nat size) 0 msg (fun i m =>
    v ← IXGBE_READ_REG_ARRAY mem i; upd_c m i v).

(** ** VF side *)
Definition ixgbe_read_mailbox_vf : M Z :=
  v ← IXGBE_READ_REG IXGBE_VFMAILBOX;
  m ← get_mbx;
  let vf_mailbox := Z.lor v (mbx_vf_mailbox m) in
  mod_mbx (fun m => upd_mbx_vf_mailbox
    (Z.lor (mbx_vf_mailbox m) (Z.land vf_mailbox IXGBE_VFMAILBOX_R2C_BITS)) m) ;;
  mret vf_mailbox.

Definition ixgbe_clear_msg_vf : M unit :=
  vf_mailbox ← ixgbe_read_mailbox_vf;
  if has vf_mailbox IXGBE_VFMAILBOX_PFSTS then
    inc_reqs ;;
    mod_mbx (fun m => upd_mbx_vf_mailbox
      (Z.land (mbx_vf_mailbox m) (bnot 32 IXGBE_VFMAILBOX_PFSTS)) m)
  else mret tt.

Definition ixgbe_clear_ack_vf : M unit :=
  vf_mailbox ← ixgbe_read_mailbox_vf;
  if has vf_mailbox IXGBE_VFMAILBOX_PFACK then
    inc_acks ;;
    mod_mbx (fun m => upd_mbx_vf_mailbox
      (Z.land (mbx_vf_mailbox m) (bnot 32 IXGBE_VFMAILBOX_PFACK)) m)
  else mret tt.

Definition ixgbe_clear_rst_vf : M unit :=
  vf_mailbox ← ixgbe_read_mailbox_vf;
  if has vf_mailbox (Z.lor IXGBE_VFMAILBOX_RSTI IXGBE_VFMAILBOX_RSTD) then
    inc_rsts ;;
    mod_mbx (fun m => upd_mbx_vf_mailbox
      (Z.land (mbx_vf_mailbox m)
        (bnot 32 (Z.lor IXGBE_VFMAILBOX_RSTI IXGBE_VFMAILBOX_RSTD))) m)
  else mret tt.

Definition ixgbe_check_for_bit_vf (mask : Z) : M Z :=
  vf_mailbox ← ixgbe_read_mailbox_vf;
  mret (if has vf_mailbox mask then IXGBE_SUCCESS else IXGBE_ERR_MBX).

Definition ixgbe_check_for_msg_vf (mbx_id : Z) : M Z :=
  r ← ixgbe_check_for_bit_vf IXGBE_VFMAILBOX_PFSTS;
  mret (if r =? 0 then IXGBE_SUCCESS else IXGBE_ERR_MBX).

Definition ixgbe_check_for_ack_vf (mbx_id : Z) : M Z :=
  r ← ixgbe_check_for_bit_vf IXGBE_VFMAILBOX_PFACK;
  if r =? 0 then ixgbe_clear_ack_vf ;; mret IXGBE_SUCCESS
  else mret IXGBE_ERR_MBX.

Definition ixgbe_check_for_rst_vf (mbx_id : Z) : M Z :=
  r ← ixgbe_check_for_bit_vf (Z.lor IXGBE_VFMAILBOX_RSTI IXGBE_VFMAILBOX_RSTD);
  if r =? 0 then ixgbe_clear_rst_vf ;; mret IXGBE_SUCCESS
  else mret IXGBE_ERR_MBX.

(** the body of [while (countdown--)] leaves with [inr] when the lock is ours *)
Definition ixgbe_obtain_mbx_lock_vf : M Z :=
  m ← get_mbx;
  if mbx_timeout m =? 0 then mret IXGBE_ERR_CONFIG
  else
    r ← for_break (Z.to_nat (mbx_timeout m)) 0 tt (fun _ _ =>
          vf_mailbox ← ixgbe_read_mailbox_vf;
          IXGBE_WRITE_REG IXGBE_VFMAILBOX (Z.lor vf_mailbox IXGBE_VFMAILBOX_VFU) ;;
          vf_mailbox ← ixgbe_read_mailbox_vf;
          if has vf_mailbox IXGBE_VFMAILBOX_VFU then mret (inr tt)
          else m ← get_mbx; usec_delay (mbx_usec_delay m) ;; mret (inl tt));
    mret (match r with inr _ => IXGBE_SUCCESS | inl _ => IXGBE_ERR_TIMEOUT end).

Definition ixgbe_release_mbx_lock_dummy (mbx_id : Z) : M unit := mret tt.

Definition ixgbe_release_mbx_lock_vf (mbx_id : Z) : M unit :=
  vf_mailbox ← ixgbe_read_mailbox_vf;
  IXGBE_WRITE_REG IXGBE_VFMAILBOX (Z.land vf_mailbox (bnot 32 IXGBE_VFMAILBOX_VFU)).

(** ** PF side *)
Definition ixgbe_clear_msg_pf (vf_id : Z) : M unit :=
  let vf_shift := IXGBE_PFMBICR_SHIFT vf_id in
  let index := IXGBE_PFMBICR_INDEX vf_id in
  pfmbicr ← IXGBE_READ_REG (IXGBE_PFMBICR index);
  (if has pfmbicr (u32 (Z.shiftl IXGBE_PFMBICR_VFREQ_VF1 vf_shift))
   then inc_reqs else mret tt) ;;
  IXGBE_WRITE_REG (IXGBE_PFMBICR index) (u32 (Z.shiftl IXGBE_PFMBICR_VFREQ_VF1 vf_shift)).

Definition ixgbe_clear_ack_pf (vf_id : Z) : M unit :=
  let vf_shift := IXGBE_PFMBICR_SHIFT vf_id in
  let index := IXGBE_PFMBICR_INDEX vf_id in
  pfmbicr ← IXGBE_READ_REG (IXGBE_PFMBICR index);
  (if has pfmbicr (u32 (Z.shiftl IXGBE_PFMBICR_VFACK_VF1 vf_shift))
   then inc_acks else mret tt) ;;
  IXGBE_WRITE_REG (IXGBE_PFMBICR index) (u32 (Z.shiftl IXGBE_PFMBICR_VFACK_VF1 vf_shift)).

Definition ixgbe_check_for_bit_pf (mask index : Z) : M Z :=
  pfmbicr ← IXGBE_READ_REG (IXGBE_PFMBICR index);
  mret (if has pfmbicr mask then IXGBE_SUCCESS else IXGBE_ERR_MBX).

Definition ixgbe_check_for_msg_pf (vf_id : Z) : M Z :=
  let vf_shift := IXGBE_PFMBICR_SHIFT vf_id in
  let index := IXGBE_PFMBICR_INDEX vf_id in
  r ← ixgbe_check_for_bit_pf (u32 (Z.shiftl IXGBE_PFMBICR_VFREQ_VF1 vf_shift)) index;
  mret (if r =? 0 then IXGBE_SUCCESS else IXGBE_ERR_MBX).

Definition ixgbe_check_for_ack_pf (vf_id : Z) : M Z :=
  let vf_shift := IXGBE_PFMBICR_SHIFT vf_id in
  let index := IXGBE_PFMBICR_INDEX vf_id in
  r ← ixgbe_check_for_bit_pf (u32 (Z.shiftl IXGBE_PFMBICR_VFACK_VF1 vf_shift)) index;
  if r =? 0 then ixgbe_clear_ack_pf vf_id ;; mret IXGBE_SUCCESS
  else mret IXGBE_ERR_MBX.

Definition ixgbe_check_for_rst_pf (vf_id : Z) : M Z :=
  let vf_shift := IXGBE_PFVFLRE_SHIFT vf_id in
  let index := IXGBE_PFVFLRE_INDEX vf_id in
  h ← get_hw;
  vflre ← (match mac_type (mac h) with
           | ixgbe_mac_82599EB => IXGBE_READ_REG (IXGBE_PFVFLRE index)
           | ixgbe_mac_X550 | ixgbe_mac_X550EM_x | ixgbe_mac_X550EM_a
           | ixgbe_mac_X540 | ixgbe_mac_E610 => IXGBE_READ_REG (IXGBE_PFVFLREC index)
           | _ => mret 0
           end);
  if has vflre (bit vf_shift) then
    IXGBE_WRITE_REG (IXGBE_PFVFLREC index) (bit vf_shift) ;;
    inc_rsts ;;
    mret IXGBE_SUCCESS
  else mret IXGBE_ERR_MBX.

(** the body of [while (countdown--)]; falling through is [retry:] *)
Definition ixgbe_obtain_mbx_lock_pf (vf_id : Z) : M Z :=
  m ← get_mbx;
  if mbx_timeout m =? 0 then mret IXGBE_ERR_CONFIG
  else
    r ← for_break (Z.to_nat (mbx_timeout m)) 0 tt (fun _ _ =>
          let retry : M (unit + unit) :=
            m ← get_mbx; usec_delay (mbx_usec_delay m) ;; mret (inl tt) in
          pf_mailbox ← IXGBE_READ_REG (IXGBE_PFMAILBOX vf_id);
          if has pf_mailbox IXGBE_PFMAILBOX_PFU then retry
          else
            IXGBE_WRITE_REG (IXGBE_PFMAILBOX vf_id) (Z.lor pf_mailbox IXGBE_PFMAILBOX_PFU) ;;
            pf_mailbox ← IXGBE_READ_REG (IXGBE_PFMAILBOX vf_id);
            if has pf_mailbox IXGBE_PFMAILBOX_PFU then mret (inr tt) else retry);
    mret (match r with inr _ => IXGBE_SUCCESS | inl _ => IXGBE_ERR_TIMEOUT end).

Definition ixgbe_release_mbx_lock_pf (vf_id : Z) : M unit :=
  pf_mailbox ← IXGBE_READ_REG (IXGBE_PFMAILBOX vf_id);
  IXGBE_WRITE_REG (IXGBE_PFMAILBOX vf_id) (Z.land pf_mailbox (bnot 32 IXGBE_PFMAILBOX_PFU)).

(** ** Calls through [hw->mbx.ops[mbx_id]] that the read and write paths make *)
Definition call_check_for_msg (f : option mbx_check_for_msg_fn) (mbx_id : Z) : M Z :=
  match f with
  | None => crash FNullCall
  | Some fn_ixgbe_check_for_msg_vf => ixgbe_check_for_msg_vf mbx_id
  | Some fn_ixgbe_check_for_msg_pf => ixgbe_check_for_msg_pf mbx_id
  end.
Definition call_check_for_ack (f : option mbx_check_for_ack_fn) (mbx_id : Z) : M Z :=
  match f with
  | None => crash FNullCall
  | Some fn_ixgbe_check_for_ack_vf => ixgbe_check_for_ack_vf mbx_id
  | Some fn_ixgbe_check_for_ack_pf => ixgbe_check_for_ack_pf mbx_id
  end.
Definition call_check_for_rst (f : option mbx_check_for_rst_fn) (mbx_id : Z) : M Z :=
  match f with
  | None => crash FNullCall
  | Some fn_ixgbe_check_for_rst_vf => ixgbe_check_for_rst_vf mbx_id
  | Some fn_ixgbe_check_for_rst_pf => ixgbe_check_for_rst_pf mbx_id
  end.
Definition call_release (f : option mbx_release_fn) (mbx_id : Z) : M unit :=
  match f with
  | None => crash FNullCall
  | Some fn_ixgbe_release_mbx_lock_dummy => ixgbe_release_mbx_lock_dummy mbx_id
  | Some fn_ixgbe_release_mbx_lock_vf => ixgbe_release_mbx_lock_vf mbx_id
  | Some fn_ixgbe_release_mbx_lock_pf => ixgbe_release_mbx_lock_pf mbx_id
  end.

(** the loop of [ixgbe_poll_for_msg] and [ixgbe_poll_for_ack]: the value is the
    final [countdown] *)
Fixpoint poll_countdown (countdown : nat) (check : M Z) : M nat :=
  match countdown with
  | O => mret O
  | S c =>
      r ← check;
      if r =? 0 then mret (S c)
      else match c with
           | O => mret O
           | _ => m ← get_mbx; usec_delay (mbx_usec_delay m) ;; poll_countdown c check
           end
  end.

Definition ixgbe_poll_for_msg (mbx_id : Z) : M Z :=
  m ← get_mbx;
  if mbx_timeout m =? 0 then mret IXGBE_ERR_CONFIG
  else
  o ← get_ops mbx_id;
  if bool_decide (op_check_for_msg o = None) then mret IXGBE_ERR_CONFIG
  else
    c ← poll_countdown (Z.to_nat (mbx_timeout m))
          (o ← get_ops mbx_id; call_check_for_msg (op_check_for_msg o) mbx_id);
    mret (match c with O => IXGBE_ERR_TIMEOUT | _ => IXGBE_SUCCESS end).

Definition ixgbe_poll_for_ack (mbx_id : Z) : M Z :=
  m ← get_mbx;
  if mbx_timeout m =? 0 then mret IXGBE_ERR_CONFIG
  else
  o ← get_ops mbx_id;
  if bool_decide (op_check_for_ack o = None) then mret IXGBE_ERR_CONFIG
  else
    c ← poll_countdown (Z.to_nat (mbx_timeout m))
          (o ← get_ops mbx_id; call_check_for_ack (op_check_for_ack o) mbx_id);
    mret (match c with O => IXGBE_ERR_TIMEOUT | _ => IXGBE_SUCCESS end).

(** ** VF reads and writes *)
Definition ixgbe_write_mbx_vf_legacy (msg : list Z) (size mbx_id : Z) : M Z :=
  ret_val ← ixgbe_obtain_mbx_lock_vf;
  if negb (ret_val =? 0) then mret ret_val
  else
    ixgbe_check_for_msg_vf 0 ;;
    ixgbe_clear_msg_vf ;;
    ixgbe_check_for_ack_vf 0 ;;
    ixgbe_clear_ack_vf ;;
    copy_to_mem IXGBE_VFMBMEM msg size ;;
    inc_msgs_tx ;;
    IXGBE_WRITE_REG IXGBE_VFMAILBOX IXGBE_VFMAILBOX_REQ ;;
    mret IXGBE_SUCCESS.

Definition ixgbe_write_mbx_vf (msg : list Z) (size mbx_id : Z) : M Z :=
  ret_val ← ixgbe_obtain_mbx_lock_vf;
  (if negb (ret_val =? 0) then mret tt
   else
     ixgbe_clear_msg_vf ;;
     ixgbe_clear_ack_vf ;;
     copy_to_mem IXGBE_VFMBMEM msg size ;;
     inc_msgs_tx ;;
     vf_mailbox ← ixgbe_read_mailbox_vf;
     IXGBE_WRITE_REG IXGBE_VFMAILBOX (Z.lor vf_mailbox IXGBE_VFMAILBOX_REQ) ;;
     ixgbe_poll_for_ack mbx_id ;;
     mret tt) ;;
  o ← get_ops mbx_id;
  call_release (op_release o) mbx_id ;;
  mret ret_val.

Definition ixgbe_read_mbx_vf_legacy (msg : list Z) (size mbx_id : Z) : M (Z * list Z) :=
  ret_val ← ixgbe_obtain_mbx_lock_vf;
  if negb (ret_val =? 0) then mret (ret_val, msg)
  else
    msg ← copy_from_mem IXGBE_VFMBMEM msg size;
    IXGBE_WRITE_REG IXGBE_VFMAILBOX IXGBE_VFMAILBOX_ACK ;;
    inc_msgs_rx ;;
    mret (IXGBE_SUCCESS, msg).

Definition ixgbe_read_mbx_vf (msg : list Z) (size mbx_id : Z) : M (Z * list Z) :=
  ret_val ← ixgbe_check_for_msg_vf 0;
  if negb (ret_val =? IXGBE_SUCCESS) then mret (IXGBE_ERR_MBX_NOMSG, msg)
  else
    ixgbe_clear_msg_vf ;;
    msg ← copy_from_mem IXGBE_VFMBMEM msg size;
    vf_mailbox ← ixgbe_read_mailbox_vf;
    IXGBE_WRITE_REG IXGBE_VFMAILBOX (Z.lor vf_mailbox IXGBE_VFMAILBOX_ACK) ;;
    inc_msgs_rx ;;
    mret (IXGBE_SUCCESS, msg).

(** ** PF reads and writes *)
Definition ixgbe_write_mbx_pf_legacy (msg : list Z) (size vf_id : Z) : M Z :=
  ret_val ← ixgbe_obtain_mbx_lock_pf vf_id;
  if negb (ret_val =? 0) then mret ret_val
  else
    ixgbe_check_for_msg_pf vf_id ;;
    ixgbe_clear_msg_pf vf_id ;;
    ixgbe_check_for_ack_pf vf_id ;;
    ixgbe_clear_ack_pf vf_id ;;
    copy_to_mem (IXGBE_PFMBMEM vf_id) msg size ;;
    IXGBE_WRITE_REG (IXGBE_PFMAILBOX vf_id) IXGBE_PFMAILBOX_STS ;;
    inc_msgs_tx ;;
    mret IXGBE_SUCCESS.

Definition ixgbe_write_mbx_pf (msg : list Z) (size vf_id : Z) : M Z :=
  ret_val ← ixgbe_obtain_mbx_lock_pf vf_id;
  (if negb (ret_val =? 0) then mret tt
   else
     ixgbe_clear_msg_pf vf_id ;;
     ixgbe_clear_ack_pf vf_id ;;
     copy_to_mem (IXGBE_PFMBMEM vf_id) msg size ;;
     pf_mailbox ← IXGBE_READ_REG (IXGBE_PFMAILBOX vf_id);
     IXGBE_WRITE_REG (IXGBE_PFMAILBOX vf_id) (Z.lor pf_mailbox IXGBE_PFMAILBOX_STS) ;;
     msg0 ← nth_c msg 0;
     (if has msg0 IXGBE_VT_MSGTYPE_CTS then ixgbe_poll_for_ack vf_id ;; mret tt else mret tt) ;;
     inc_msgs_tx) ;;
  o ← get_ops vf_id;
  call_release (op_release o) vf_id ;;
  mret ret_val.

Definition ixgbe_read_mbx_pf_legacy (msg : list Z) (size vf_id : Z) : M (Z * list Z) :=
  ret_val ← ixgbe_obtain_mbx_lock_pf vf_id;
  if negb (ret_val =? IXGBE_SUCCESS) then mret (ret_val, msg)
  else
    msg ← copy_from_mem (IXGBE_PFMBMEM vf_id) msg size;
    IXGBE_WRITE_REG (IXGBE_PFMAILBOX vf_id) IXGBE_PFMAILBOX_ACK ;;
    inc_msgs_rx ;;
    mret (IXGBE_SUCCESS, msg).

Definition ixgbe_read_mbx_pf (msg : list Z) (size vf_id : Z) : M (Z * list Z) :=
  ret_val ← ixgbe_check_for_msg_pf vf_id;
  if negb (ret_val =? IXGBE_SUCCESS) then mret (IXGBE_ERR_MBX_NOMSG, msg)
  else
    ixgbe_clear_msg_pf vf_id ;;
    msg ← copy_from_mem (IXGBE_PFMBMEM vf_id) msg size;
    pf_mailbox ← IXGBE_READ_REG (IXGBE_PFMAILBOX vf_id);
    IXGBE_WRITE_REG (IXGBE_PFMAILBOX vf_id) (Z.lor pf_mailbox IXGBE_PFMAILBOX_ACK) ;;
    inc_msgs_rx ;;
    mret (IXGBE_SUCCESS, msg).

Definition ixgbe_clear_mbx_pf (vf_id : Z) : M Z :=
  m ← get_mbx;
  if 63 <? vf_id then mret IXGBE_ERR_PARAM
  else
    for_loop (Z.to_nat (mbx_size m)) 0 (fun i =>
      IXGBE_WRITE_REG_ARRAY (IXGBE_PFMBMEM vf_id) i 0) ;;
    mret IXGBE_SUCCESS.

(** ** Calls through the read, write and clear pointers *)
Definition call_read (f : option mbx_read_fn) (msg : list Z) (size mbx_id : Z) : M (Z * list Z) :=
  match f with
  | None => crash FNullCall
  | Some fn_ixgbe_read_mbx_vf_legacy => ixgbe_read_mbx_vf_legacy msg size mbx_id
  | Some fn_ixgbe_read_mbx_vf => ixgbe_read_mbx_vf msg size mbx_id
  | Some fn_ixgbe_read_mbx_pf_legacy => ixgbe_read_mbx_pf_legacy msg size mbx_id
  | Some fn_ixgbe_read_mbx_pf => ixgbe_read_mbx_pf msg size mbx_id
  end.
Definition call_write (f : option mbx_write_fn) (msg : list Z) (size mbx_id : Z) : M Z :=
  match f with
  | None => crash FNullCall
  | Some fn_ixgbe_write_mbx_vf_legacy => ixgbe_write_mbx_vf_legacy msg size mbx_id
  | Some fn_ixgbe_write_mbx_vf => ixgbe_write_mbx_vf msg size mbx_id
  | Some fn_ixgbe_write_mbx_pf_legacy => ixgbe_write_mbx_pf_legacy msg size mbx_id
  | Some fn_ixgbe_write_mbx_pf => ixgbe_write_mbx_pf msg size mbx_id
  end.
Definition call_clear (f : option mbx_clear_fn) (mbx_id : Z) : M Z :=
  match f with
  | None => crash FNullCall
  | Some fn_ixgbe_clear_mbx_pf => ixgbe_clear_mbx_pf mbx_id
  end.

(** ** Entry points *)
Definition ixgbe_read_mbx (msg : list Z) (size mbx_id : Z) : M (Z * list Z) :=
  m ← get_mbx;
  let size := if mbx_size m <? size then mbx_size m else size in
  o ← get_ops mbx_id;
  match op_read o with
  | Some f => call_read (Some f) msg size mbx_id
  | None => mret (IXGBE_ERR_CONFIG, msg)
  end.

Definition ixgbe_poll_mbx (msg : list Z) (size mbx_id : Z) : M (Z * list Z) :=
  m ← get_mbx; o ← get_ops mbx_id;
  if bool_decide (op_read o = None) || bool_decide (op_check_for_msg o = None) ||
     (mbx_timeout m =? 0)
  then mret (IXGBE_ERR_CONFIG, msg)
  else
    let size := if mbx_size m <? size then mbx_size m else size in
    ret_val ← ixgbe_poll_for_msg mbx_id;
    if ret_val =? 0 then o ← get_ops mbx_id; call_read (op_read o) msg size mbx_id
    else mret (ret_val, msg).

Definition ixgbe_write_mbx (msg : list Z) (size mbx_id : Z) : M Z :=
  m ← get_mbx; o ← get_ops mbx_id;
  if bool_decide (op_write o = None) || bool_decide (op_check_for_ack o = None) ||
     bool_decide (op_release o = None) || (mbx_timeout m =? 0)
  then mret IXGBE_ERR_CONFIG
  else if mbx_size m <? size then mret IXGBE_ERR_PARAM
  else call_write (op_write o) msg size mbx_id.

Definition ixgbe_check_for_msg (mbx_id : Z) : M Z :=
  o ← get_ops mbx_id;
  match op_check_for_msg o with
  | Some f => call_check_for_msg (Some f) mbx_id
  | None => mret IXGBE_ERR_CONFIG
  end.

Definition ixgbe_check_for_ack (mbx_id : Z) : M Z :=
  o ← get_ops mbx_id;
  match op_check_for_ack o with
  | Some f => call_check_for_ack (Some f) mbx_id
  | None => mret IXGBE_ERR_CONFIG
  end.

Definition ixgbe_check_for_rst (mbx_id : Z) : M Z :=
  o ← get_ops mbx_id;
  match op_check_for_rst o with
  | Some f => call_check_for_rst (Some f) mbx_id
  | None => mret IXGBE_ERR_CONFIG
  end.

Definition ixgbe_clear_mbx (mbx_id : Z) : M Z :=
  o ← get_ops mbx_id;
  match op_clear o with
  | Some f => call_clear (Some f) mbx_id
  | None => mret IXGBE_ERR_CONFIG
  end.

(** ** Initialisation *)
Definition set_ops (i : Z) (o : ixgbe_mbx_operations) : M unit :=
  m ← get_mbx;
  l ← upd_c (mbx_ops m) i o;
  mod_mbx (upd_mbx_ops l).
Definition set_params : M unit :=
  mod_mbx (fun m => upd_mbx_timeout IXGBE_VF_MBX_INIT_TIMEOUT
    (upd_mbx_usec_delay IXGBE_VF_MBX_INIT_DELAY (upd_mbx_size IXGBE_VFMAILBOX_SIZE m))).
Definition zero_stats : M unit := mod_stats (fun _ => mk_mbx_stats 0 0 0 0 0).

(** the operation sets the four initialisers store *)
Definition ops_vf_legacy : ixgbe_mbx_operations :=
  mk_mbx_operations (Some fn_ixgbe_release_mbx_lock_dummy) (Some fn_ixgbe_read_mbx_vf_legacy)
    (Some fn_ixgbe_write_mbx_vf_legacy) (Some fn_ixgbe_check_for_msg_vf)
    (Some fn_ixgbe_check_for_ack_vf) (Some fn_ixgbe_check_for_rst_vf) None.
Definition ops_vf : ixgbe_mbx_operations :=
  mk_mbx_operations (Some fn_ixgbe_release_mbx_lock_vf) (Some fn_ixgbe_read_mbx_vf)
    (Some fn_ixgbe_write_mbx_vf) (Some fn_ixgbe_check_for_msg_vf)
    (Some fn_ixgbe_check_for_ack_vf) (Some fn_ixgbe_check_for_rst_vf) None.
Definition ops_pf_legacy : ixgbe_mbx_operations :=
  mk_mbx_operations (Some fn_ixgbe_release_mbx_lock_dummy) (Some fn_ixgbe_read_mbx_pf_legacy)
    (Some fn_ixgbe_write_mbx_pf_legacy) (Some fn_ixgbe_check_for_msg_pf)
    (Some fn_ixgbe_check_for_ack_pf) (Some fn_ixgbe_check_for_rst_pf)
    (Some fn_ixgbe_clear_mbx_pf).
Definition ops_pf : ixgbe_mbx_operations :=
  mk_mbx_operations (Some fn_ixgbe_release_mbx_lock_pf) (Some fn_ixgbe_read_mbx_pf)
    (Some fn_ixgbe_write_mbx_pf) (Some fn_ixgbe_check_for_msg_pf)
    (Some fn_ixgbe_check_for_ack_pf) (Some fn_ixgbe_check_for_rst_pf)
    (Some fn_ixgbe_clear_mbx_pf).

Definition ixgbe_init_mbx_params_vf : M unit :=
  set_params ;; set_ops 0 ops_vf_legacy ;; zero_stats.
Definition ixgbe_upgrade_mbx_params_vf : M unit :=
  set_params ;; set_ops 0 ops_vf ;; zero_stats.

Definition ixgbe_init_mbx_params_pf_id (vf_id : Z) : M unit := set_ops vf_id ops_pf_legacy.

(** the guard shared by the two PF initialisers *)
Definition is_pf_mac (t : ixgbe_mac_type) : bool :=
  match t with
  | ixgbe_mac_82599EB | ixgbe_mac_X550 | ixgbe_mac_X550EM_x
  | ixgbe_mac_X550EM_a | ixgbe_mac_X540 => true
  | _ => ixgbe_is_mac_E6xx t
  end.

Definition ixgbe_init_mbx_params_pf : M unit :=
  h ← get_hw;
  if negb (is_pf_mac (mac_type (mac h))) then mret tt
  else
    set_params ;;
    zero_stats ;;
    for_loop 64 0 ixgbe_init_mbx_params_pf_id.

Definition ixgbe_upgrade_mbx_params_pf (vf_id : Z) : M unit :=
  h ← get_hw;
  if negb (is_pf_mac (mac_type (mac h))) then mret tt
  else
    set_params ;;
    set_ops vf_id ops_pf ;;
    zero_stats.

End Mbx.
