(* ===== verification/MbxProps.v ===== *)
(** * Properties of the mailbox

    What the PF and VF paths put on the bus whatever the device answers, the
    absence of faults for an initialised [hw->mbx], and the contents that a
    reader gets. *)
From S2P Require Import Prelude Regs Types Osdep Trace Mbx.

(** the part of [hw] that mailbox traffic leaves alone *)
Record mbx_cfg := mk_mbx_cfg {
  c_mac : ixgbe_mac_type;
  c_ops : list ixgbe_mbx_operations;
  c_timeout : Z;
  c_delay : Z;
  c_size : Z;
}.

Definition mbx_static (h : ixgbe_hw) : mbx_cfg :=
  mk_mbx_cfg (mac_type (mac h)) (mbx_ops (mbx h)) (mbx_timeout (mbx h))
    (mbx_usec_delay (mbx h)) (mbx_size (mbx h)).

(** the writes of a message into the mailbox memory, word by word *)
Definition mem_writes (mem : Z) (msg : list Z) : list access :=
  imap (fun i v => Wr (mem + 4 * Z.of_nat i) (u32 v)) msg.

(** what waiting for the PF lock may do: read [PFMAILBOX], ask for the lock, wait *)
Definition pf_lock_access (vf_id delay : Z) (a : access) : Prop :=
  match a with
  | Rd r _ => r = IXGBE_PFMAILBOX vf_id
  | Wr r v => r = IXGBE_PFMAILBOX vf_id /\ has v IXGBE_PFMAILBOX_PFU = true
  | Dly us => us = delay
  end.

(** the bits of [PFMBICR] that belong to a VF's request and acknowledgement *)
Definition pf_req_mask (vf_id : Z) : Z :=
  u32 (Z.shiftl IXGBE_PFMBICR_VFREQ_VF1 (IXGBE_PFMBICR_SHIFT vf_id)).
Definition pf_ack_mask (vf_id : Z) : Z :=
  u32 (Z.shiftl IXGBE_PFMBICR_VFACK_VF1 (IXGBE_PFMBICR_SHIFT vf_id)).

(** what polling for an acknowledgement may do on the PF side *)
Definition pf_ack_access (vf_id delay : Z) (a : access) : Prop :=
  let reg := IXGBE_PFMBICR (IXGBE_PFMBICR_INDEX vf_id) in
  match a with
  | Rd r _ => r = reg
  | Wr r v => r = reg /\ v = pf_ack_mask vf_id
  | Dly us => us = delay
  end.

(** a pending bit is read and cleared by writing it back as one *)
Definition pf_clear (vf_id : Z) (mask : Z -> Z) (l : list access) : Prop :=
  let reg := IXGBE_PFMBICR (IXGBE_PFMBICR_INDEX vf_id) in
  exists v, in_range 32 v /\ l = [Rd reg v; Wr reg (u32 (mask vf_id))].

(** a poll of at most [n] looks for the acknowledgement of a VF: each look reads
    PFMBICR; a look that finds the bit clears it and is the last one, as is the
    [n]th; after every other one the driver waits *)
Inductive pf_ack_poll (vf_id delay : Z) : nat -> list access -> Prop :=
| ap_acked n v clr : has v (pf_ack_mask vf_id) = true -> pf_clear vf_id pf_ack_mask clr ->
    pf_ack_poll vf_id delay (S n) (Rd (IXGBE_PFMBICR (IXGBE_PFMBICR_INDEX vf_id)) v :: clr)
| ap_given_up v : has v (pf_ack_mask vf_id) = false ->
    pf_ack_poll vf_id delay 1 [Rd (IXGBE_PFMBICR (IXGBE_PFMBICR_INDEX vf_id)) v]
| ap_again n v l : has v (pf_ack_mask vf_id) = false -> pf_ack_poll vf_id delay (S n) l ->
    pf_ack_poll vf_id delay (S (S n)) (Rd (IXGBE_PFMBICR (IXGBE_PFMBICR_INDEX vf_id)) v :: Dly delay :: l).

(** [PFMAILBOX] is read and written back with the [STS] bit set *)
Definition pf_doorbell (vf_id : Z) (l : list access) : Prop :=
  let reg := IXGBE_PFMAILBOX vf_id in
  exists v, in_range 32 v /\ l = [Rd reg v; Wr reg (u32 (Z.lor v IXGBE_PFMAILBOX_STS))].

(** [PFMAILBOX] is read and written back with the [PFU] bit cleared *)
Definition pf_release (vf_id : Z) (l : list access) : Prop :=
  let reg := IXGBE_PFMAILBOX vf_id in
  exists v, in_range 32 v /\ l = [Rd reg v; Wr reg (u32 (Z.land v (bnot 32 IXGBE_PFMAILBOX_PFU)))].

(** the last accesses of a successful lock: seen free, requested, seen taken *)
Definition pf_lock_taken (vf_id : Z) (l : list access) : Prop :=
  exists v v', l = [Rd (IXGBE_PFMAILBOX vf_id) v;
                    Wr (IXGBE_PFMAILBOX vf_id) (u32 (Z.lor v IXGBE_PFMAILBOX_PFU));
                    Rd (IXGBE_PFMAILBOX vf_id) v'] /\
    has v IXGBE_PFMAILBOX_PFU = false /\ has v' IXGBE_PFMAILBOX_PFU = true.

Lemma pfu_requested v : has (u32 (Z.lor v IXGBE_PFMAILBOX_PFU)) IXGBE_PFMAILBOX_PFU = true.
Proof.
  change IXGBE_PFMAILBOX_PFU with (bit 3). rewrite has_bit by lia.
  autorewrite with zbits. by rewrite orb_true_r.
Qed.

(** [tr_step] with the mailbox counters seen as updates of [hw] *)
Ltac mbx_steps :=
  repeat first [ tr_step
               | progress unfold inc_reqs, inc_acks, inc_rsts, inc_msgs_tx, inc_msgs_rx,
                   mod_stats, mod_mbx ].

Section PfTraces.
Context `{D : Mmio}.
Abbreviation tr := (traces mbx_static).

Lemma mbx_static_remove h : mbx_static (ixgbe_remove_adapter h) = mbx_static h.
Proof.
  unfold ixgbe_remove_adapter. destruct (hw_addr h); simpl; [|done].
  by destruct (__IXGBE_SERVICE_INITED (back h)).
Qed.
Hint Resolve mbx_static_remove : core.

Lemma tr_bind_get_mbx {B} c (f : ixgbe_mbx_info -> M B) T :
  (forall m, mbx_ops m = c_ops c -> mbx_timeout m = c_timeout c ->
     mbx_usec_delay m = c_delay c -> mbx_size m = c_size c -> tr c (f m) T) ->
  tr c (get_mbx ≫= f) T.
Proof.
  intros Hf. unfold get_mbx. repeat tr_step. subst c. by apply Hf.
Qed.

Lemma tr_bind_get_ops {B} c i o (f : ixgbe_mbx_operations -> M B) T :
  0 <= i -> c_ops c !! Z.to_nat i = Some o -> tr c (f o) T -> tr c (get_ops i ≫= f) T.
Proof.
  intros Hi Ho Hf. unfold get_ops. tr_step. apply tr_bind_get_mbx. intros m Hm _ _ _.
  eapply tr_bind.
  - apply (tr_nth_c _ _ _ _ o (fun a l => a = o /\ l = [])); [done|by rewrite Hm|done].
  - by intros a l [-> ->].
Qed.

Lemma tr_copy_to_mem c mem msg size :
  0 <= size <= Z.of_nat (length msg) ->
  tr c (copy_to_mem mem msg size) (fun _ l => l = mem_writes mem (take (Z.to_nat size) msg)).
Proof.
  intros Hs. unfold copy_to_mem. eapply tr_mono.
  { apply tr_for_loop with
      (I := fun k l => l = mem_writes mem (take (Z.to_nat k) msg)); [done|].
    intros k l Hk ->.
    destruct (lookup_lt_is_Some_2 msg (Z.to_nat k)) as [v Hv]; [lia|].
    eapply tr_bind.
    - by apply (tr_nth_c _ _ _ _ v (fun a l => a = v /\ l = [])); [lia| |].
    - intros a l [-> ->]. unfold IXGBE_WRITE_REG_ARRAY. tr_step.
      replace (Z.to_nat (k + 1)) with (S (Z.to_nat k)) by lia.
      rewrite (take_S_r _ _ v) by done. unfold mem_writes. rewrite imap_app. simpl.
      rewrite length_take_le by (apply lookup_lt_Some in Hv; lia).
      rewrite Z.shiftl_mul_pow2 by lia. do 4 f_equal. lia. }
  intros [] l ->. by rewrite Z.add_0_l, Z2Nat.id by lia.
Qed.

Lemma tr_clear_msg_pf c vf : tr c (ixgbe_clear_msg_pf vf) (fun _ => pf_clear vf pf_req_mask).
Proof.
  unfold ixgbe_clear_msg_pf. tr_step.
  destruct (has v _); mbx_steps; by exists v.
Qed.

Lemma tr_clear_ack_pf c vf : tr c (ixgbe_clear_ack_pf vf) (fun _ => pf_clear vf pf_ack_mask).
Proof.
  unfold ixgbe_clear_ack_pf. tr_step.
  destruct (has v _); mbx_steps; by exists v.
Qed.

Lemma tr_lock_pf c vf : 0 < c_timeout c ->
  tr c (ixgbe_obtain_mbx_lock_pf vf) (fun r l => exists wait last,
    l = wait ++ last /\ Forall (pf_lock_access vf (c_delay c)) wait /\
    waits wait <= c_timeout c * Z.max 0 (c_delay c) /\
    (r = IXGBE_SUCCESS /\ pf_lock_taken vf last \/ r = IXGBE_ERR_TIMEOUT /\ last = [])).
Proof.
  intros Ht. unfold ixgbe_obtain_mbx_lock_pf. apply tr_bind_get_mbx.
  intros m _ Hm _ _. rewrite Hm. destruct (Z.eqb_spec (c_timeout c) 0); [lia|].
  eapply tr_bind with (T1 := fun x l => exists wait last,
    l = wait ++ last /\ Forall (pf_lock_access vf (c_delay c)) wait /\
    waits wait <= c_timeout c * Z.max 0 (c_delay c) /\
    match x with inl _ => last = [] | inr _ => pf_lock_taken vf last end).
  - apply tr_for_break with (I := fun k _ l =>
      Forall (pf_lock_access vf (c_delay c)) l /\ waits l <= k * Z.max 0 (c_delay c)).
    + split; [done|simpl; lia].
    + intros k _ l Hk [HF HW]. tr_step.
      destruct (has v IXGBE_PFMAILBOX_PFU) eqn:E1; [|tr_step; tr_step;
        destruct (has v0 IXGBE_PFMAILBOX_PFU) eqn:E2].
      * apply tr_bind_get_mbx. intros m' _ _ Hd _. repeat tr_step. rewrite Hd.
        split; [repeat (done || constructor || apply Forall_app)|].
        rewrite waits_app. simpl. lia.
      * tr_step. exists l. eexists. split; [done|]. split; [done|].
        split; [|by exists v, v0]. etrans; [exact HW|]. apply Z.mul_le_mono_nonneg_r; lia.
      * apply tr_bind_get_mbx. intros m' _ _ Hd _. repeat tr_step. rewrite Hd.
        split; [|rewrite waits_app; simpl; lia].
        apply Forall_app. split; [done|]. repeat constructor. by apply pfu_requested.
    + intros _ l [HF HW]. exists l, []. rewrite app_nil_r. repeat split; [done|].
      rewrite Z.add_0_l, Z2Nat.id in HW by lia. done.
  - intros x l (wait & last & -> & HF & HW & Hx). tr_step. exists wait, last.
    rewrite app_nil_r. repeat split; [done|done|]. destruct x; [right|left]; done.
Qed.

Lemma tr_release_lock_pf c vf :
  tr c (ixgbe_release_mbx_lock_pf vf) (fun _ => pf_release vf).
Proof. unfold ixgbe_release_mbx_lock_pf. repeat tr_step. by exists v. Qed.

Lemma tr_check_for_ack_pf c vf :
  tr c (ixgbe_check_for_ack_pf vf) (fun r l => exists v l',
    l = Rd (IXGBE_PFMBICR (IXGBE_PFMBICR_INDEX vf)) v :: l' /\
    if has v (pf_ack_mask vf) then r = 0 /\ pf_clear vf pf_ack_mask l' else r <> 0 /\ l' = []).
Proof.
  unfold ixgbe_check_for_ack_pf, ixgbe_check_for_bit_pf. fold (pf_ack_mask vf). repeat tr_step.
  destruct (has v (pf_ack_mask vf)) eqn:E; simpl; [|tr_step; exists v, []; by rewrite E].
  eapply tr_bind; [apply tr_clear_ack_pf|]. intros [] l1 Hc. tr_step. exists v, l1.
  by rewrite app_nil_r, E.
Qed.

Lemma pf_ack_poll_access vf delay n l : pf_ack_poll vf delay n l ->
  Forall (pf_ack_access vf delay) l /\ waits l <= Z.of_nat (n - 1) * Z.max 0 delay.
Proof.
  induction 1 as [n v clr _ (v' & _ & ->)|v _|n v l _ _ [IH1 IH2]].
  - split; [|simpl; lia]. repeat constructor. by apply trunc_idem.
  - split; [by repeat constructor|simpl; lia].
  - split; [by repeat constructor|]. simpl in *. lia.
Qed.

Lemma tr_poll_countdown_ack c n vf (check : M Z) :
  tr c check (fun r l => exists v l', l = Rd (IXGBE_PFMBICR (IXGBE_PFMBICR_INDEX vf)) v :: l' /\
    if has v (pf_ack_mask vf) then r = 0 /\ pf_clear vf pf_ack_mask l' else r <> 0 /\ l' = []) ->
  tr c (poll_countdown (S n) check) (fun _ l => pf_ack_poll vf (c_delay c) (S n) l).
Proof.
  intros Hc. induction n as [|n IH]; (eapply tr_bind; [exact Hc|]); intros r l (v & l' & -> & Hr);
    destruct (has v _) eqn:E; destruct Hr as [Hr Hl].
  1, 3: subst r; simpl; tr_step; rewrite app_nil_r; by constructor.
  - subst l'. destruct (Z.eqb_spec r 0); [done|]. tr_step. by constructor.
  - subst l'. destruct (Z.eqb_spec r 0); [done|]. apply tr_bind_get_mbx. intros m _ _ Hd _. tr_step. rewrite Hd.
    eapply tr_mono; [exact IH|]. simpl. intros _ l2 Hl2. by constructor.
Qed.

Lemma tr_poll_for_ack_pf c vf : 0 < c_timeout c -> 0 <= vf ->
  c_ops c !! Z.to_nat vf = Some ops_pf ->
  tr c (ixgbe_poll_for_ack vf) (fun _ l => pf_ack_poll vf (c_delay c) (Z.to_nat (c_timeout c)) l).
Proof.
  intros Ht Hv Ho. unfold ixgbe_poll_for_ack. apply tr_bind_get_mbx.
  intros m _ Hm _ _. rewrite Hm. destruct (Z.eqb_spec (c_timeout c) 0); [lia|].
  eapply tr_bind_get_ops; [done|done|]. simpl.
  replace (Z.to_nat (c_timeout c)) with (S (Z.to_nat (c_timeout c) - 1)) by lia.
  eapply tr_bind; [apply (tr_poll_countdown_ack c _ vf)|].
  - eapply tr_bind_get_ops; [done|done|]. apply tr_check_for_ack_pf.
  - intros left l Hl. tr_step. by rewrite app_nil_r.
Qed.

Lemma waits_mem_writes mem msg : waits (mem_writes mem msg) = 0.
Proof.
  unfold mem_writes.
  enough (forall f : nat -> Z -> Z, waits (imap (fun i v => Wr (f i v) (u32 v)) msg) = 0) as H
    by apply (H (fun i v => mem + 4 * Z.of_nat i)).
  induction msg as [|v msg IH]; intros f; [done|]. rewrite imap_cons. simpl.
  apply (IH (fun i v => f (S i) v)).
Qed.

Lemma pf_lock_taken_waits vf l : pf_lock_taken vf l -> waits l = 0.
Proof. by intros (? & ? & -> & _). Qed.
Lemma pf_release_waits vf l : pf_release vf l -> waits l = 0.
Proof. by intros (? & _ & ->). Qed.

(** the driver polls for the acknowledgement exactly when the message has CTS *)
Definition pf_poll_asked (c : mbx_cfg) (msg : list Z) (vf : Z) (poll : list access) : Prop :=
  if has (default 0 (msg !! 0%nat)) IXGBE_VT_MSGTYPE_CTS
  then pf_ack_poll vf (c_delay c) (Z.to_nat (c_timeout c)) poll else poll = [].
Lemma pf_poll_asked_access c msg vf poll : pf_poll_asked c msg vf poll -> Forall (pf_ack_access vf (c_delay c)) poll.
Proof. unfold pf_poll_asked. destruct (has _ _); [by intros []%pf_ack_poll_access|by intros ->]. Qed.

(** what follows a successful lock, up to the release *)
Lemma tr_pf_send c msg size vf : 0 < c_timeout c -> 0 <= vf ->
  c_ops c !! Z.to_nat vf = Some ops_pf -> 0 < size <= Z.of_nat (length msg) ->
  tr c (ixgbe_clear_msg_pf vf ;; ixgbe_clear_ack_pf vf ;;
        copy_to_mem (IXGBE_PFMBMEM vf) msg size ;;
        pf_mailbox ← IXGBE_READ_REG (IXGBE_PFMAILBOX vf);
        IXGBE_WRITE_REG (IXGBE_PFMAILBOX vf) (Z.lor pf_mailbox IXGBE_PFMAILBOX_STS) ;;
        msg0 ← nth_c msg 0;
        (if has msg0 IXGBE_VT_MSGTYPE_CTS then ixgbe_poll_for_ack vf ;; mret tt else mret tt) ;;
        inc_msgs_tx)
    (fun _ l => exists req ack bell poll,
       l = req ++ ack ++ mem_writes (IXGBE_PFMBMEM vf) (take (Z.to_nat size) msg) ++ bell ++ poll /\
       pf_clear vf pf_req_mask req /\ pf_clear vf pf_ack_mask ack /\ pf_doorbell vf bell /\
       pf_poll_asked c msg vf poll /\
       waits l <= (c_timeout c - 1) * Z.max 0 (c_delay c)).
Proof.
  intros Ht Hv Ho Hs.
  eapply tr_bind; [apply tr_clear_msg_pf|]. intros [] req Hreq.
  eapply tr_bind; [apply tr_clear_ack_pf|]. intros [] ack Hack.
  eapply tr_bind; [apply tr_copy_to_mem; lia|]. intros [] ? ->.
  do 2 tr_step.
  destruct (lookup_lt_is_Some_2 msg 0) as [m0 Hm0]; [lia|].
  eapply tr_bind.
  { by apply (tr_nth_c _ _ _ _ m0 (fun a l => a = m0 /\ l = [])). }
  intros ? ? [-> ->]. simpl.
  eapply tr_bind with (T1 := fun _ l => (if has m0 IXGBE_VT_MSGTYPE_CTS
      then pf_ack_poll vf (c_delay c) (Z.to_nat (c_timeout c)) l else l = []) /\
    waits l <= (c_timeout c - 1) * Z.max 0 (c_delay c)).
  - destruct (has m0 _).
    + eapply tr_bind; [by apply tr_poll_for_ack_pf|]. intros ? l Hl. tr_step. rewrite app_nil_r. split; [done|].
      apply pf_ack_poll_access in Hl as [_ Hw].
      by replace (Z.of_nat (Z.to_nat (c_timeout c) - 1)) with (c_timeout c - 1) in Hw by lia.
    + tr_step. split; [done|]. apply Z.mul_nonneg_nonneg; lia.
  - intros [] poll (HC & HW). mbx_steps.
    exists req, ack, [Rd (IXGBE_PFMAILBOX vf) v; Wr (IXGBE_PFMAILBOX vf)
      (u32 (Z.lor v IXGBE_PFMAILBOX_STS))], poll.
    rewrite app_nil_r. split; [done|]. split; [done|]. split; [done|]. split; [by exists v|].
    split; [unfold pf_poll_asked; by rewrite Hm0|].
    destruct Hreq as (? & _ & ->), Hack as (? & _ & ->).
    rewrite !waits_app, waits_mem_writes. simpl. lia.
Qed.

(** the accesses of a PF write that got the lock, in order *)
Definition pf_write_sent (c : mbx_cfg) (msg : list Z) (size vf : Z) (l : list access) : Prop :=
  exists wait lock req ack bell poll rel,
    l = wait ++ lock ++ req ++ ack ++
        mem_writes (IXGBE_PFMBMEM vf) (take (Z.to_nat size) msg) ++ bell ++ poll ++ rel /\
    Forall (pf_lock_access vf (c_delay c)) wait /\ pf_lock_taken vf lock /\
    pf_clear vf pf_req_mask req /\ pf_clear vf pf_ack_mask ack /\ pf_doorbell vf bell /\
    pf_poll_asked c msg vf poll /\ pf_release vf rel.

(** and of one that did not *)
Definition pf_write_timed_out (c : mbx_cfg) (vf : Z) (l : list access) : Prop :=
  exists wait rel, l = wait ++ rel /\
    Forall (pf_lock_access vf (c_delay c)) wait /\ pf_release vf rel.

Lemma tr_write_mbx_pf c msg size vf :
  0 < c_timeout c -> 0 <= vf -> c_ops c !! Z.to_nat vf = Some ops_pf ->
  0 < size <= Z.of_nat (length msg) ->
  tr c (ixgbe_write_mbx_pf msg size vf) (fun ret l =>
    waits l <= (2 * c_timeout c - 1) * Z.max 0 (c_delay c) /\
    (ret = IXGBE_SUCCESS /\ pf_write_sent c msg size vf l \/
     ret = IXGBE_ERR_TIMEOUT /\ pf_write_timed_out c vf l)).
Proof.
  intros Ht Hv Ho Hs. unfold ixgbe_write_mbx_pf.
  eapply tr_bind; [by apply tr_lock_pf|].
  intros r l1 (wait & lock & -> & HF & HW & [[-> Hl]|[-> ->]]); simpl.
  - eapply tr_bind; [by apply tr_pf_send|].
    intros [] l2 (req & ack & bell & poll & -> & Hq & Hk & Hb & Hp & HW2).
    eapply tr_bind_get_ops; [done|done|]. simpl.
    eapply tr_bind; [apply tr_release_lock_pf|]. intros [] rel Hr. tr_step.
    rewrite app_nil_r. split; [|left; split; [done|]].
    + rewrite !waits_app, (pf_lock_taken_waits _ _ Hl), (pf_release_waits _ _ Hr).
      rewrite !waits_app in HW2. lia.
    + exists wait, lock, req, ack, bell, poll, rel.
      rewrite <- !app_assoc. by repeat split.
  - tr_step. eapply tr_bind_get_ops; [done|done|]. simpl.
    eapply tr_bind; [apply tr_release_lock_pf|]. intros [] rel Hr. tr_step.
    rewrite !app_nil_r. split; [|right; split; [done|by exists wait, rel]].
    rewrite waits_app, (pf_release_waits _ _ Hr). nia.
Qed.
(** C6: on every device, [ixgbe_write_mbx_pf] ends and does one of two
    things.  Either it takes the lock (mailbox seen free, [PFU] requested and
    seen set), clears the VF's stale request and acknowledgement bits, writes
    the message words into the mailbox memory in order, only then rings the
    [STS] doorbell; exactly when the message has CTS it then polls for the
    acknowledgement, looking at PFMBICR until a look shows the VF's bit, which
    it clears, or [timeout] looks have not, with a delay between two looks; and
    it releases the lock last.  Or it gives up on the lock with
    IXGBE_ERR_TIMEOUT, and its last write still clears [PFU].  In both cases it
    waits at most [2 * timeout - 1] delays. *)
Theorem write_mbx_pf_protocol c msg size vf :
  0 < c_timeout c -> 0 <= vf -> c_ops c !! Z.to_nat vf = Some ops_pf ->
  0 < size <= Z.of_nat (length msg) ->
  tr c (ixgbe_write_mbx_pf msg size vf) (fun ret l =>
    waits l <= (2 * c_timeout c - 1) * Z.max 0 (c_delay c) /\
    (ret = IXGBE_SUCCESS /\ pf_write_sent c msg size vf l \/
     ret = IXGBE_ERR_TIMEOUT /\ pf_write_timed_out c vf l)).
Proof. apply tr_write_mbx_pf. Qed.
End PfTraces.

(** ** The VF's read *)

(** the reads of [length vs] words from the mailbox memory, with the values seen *)
Definition mem_reads (mem : Z) (vs : list Z) : list access :=
  imap (fun i v => Rd (mem + 4 * Z.of_nat i) v) vs.

(** the words that [size] entries of a buffer stand for on the 32-bit bus *)
Definition message_words (msg : list Z) (size : Z) : list Z :=
  map (trunc 32) (take (Z.to_nat size) msg).

(** the sixteen words of a mailbox *)
Definition mem_regs (mem : Z) (r : Z) : Prop := exists i, 0 <= i < 16 /\ r = mem + 4 * i.

(** accesses that leave the registers in [P] alone *)
Definition no_write (P : Z -> Prop) (l : list access) : Prop :=
  Forall (fun a => match a with Wr r _ => ~ P r | _ => True end) l.

Lemma last_wr_no_write (P : Z -> Prop) r l x : no_write P l -> P r -> last_wr r l x = x.
Proof.
  intros H Hr. apply last_wr_other. eapply Forall_impl; [|exact H].
  intros [] Ha; try done. by intros ->.
Qed.

Lemma no_write_app P l l' : no_write P (l ++ l') <-> no_write P l /\ no_write P l'.
Proof. apply Forall_app. Qed.

Lemma last_wr_mem_writes mem msg i v x :
  msg !! i = Some v -> last_wr (mem + 4 * Z.of_nat i) (mem_writes mem msg) x = u32 v.
Proof.
  unfold mem_writes. revert mem i x.
  induction msg as [|y msg IH] using rev_ind; intros mem i x Hi; [done|].
  rewrite imap_app, last_wr_app. simpl.
  apply lookup_app_Some in Hi as [Hi|[Hi Hi']].
  - rewrite decide_False; [by apply IH|]. apply lookup_lt_Some in Hi. lia.
  - apply list_lookup_singleton_Some in Hi' as [Hi' <-].
    rewrite decide_True; [done|]. lia.
Qed.

Lemma mem_reads_stored mem vs i v (a b : list access) x : vs !! i = Some v ->
  (forall l, reads_stored (mem + 4 * Z.of_nat i) (a ++ mem_reads mem vs ++ b) x ->
     l = a ++ take i (mem_reads mem vs) -> v = last_wr (mem + 4 * Z.of_nat i) l x).
Proof.
  intros Hi l Hs ->. assert (mem_reads mem vs !! i = Some (Rd (mem + 4 * Z.of_nat i) v)) as Hm.
  { unfold mem_reads. by rewrite list_lookup_imap, Hi. }
  apply (Hs _ _ (drop (S i) (mem_reads mem vs) ++ b)).
  rewrite <- app_assoc. f_equal. rewrite <- (take_drop_middle _ _ _ Hm) at 1.
  by rewrite <- app_assoc.
Qed.

Section VfTraces.
Context `{D : Mmio}.
Abbreviation tr := (traces mbx_static).
Hint Resolve mbx_static_remove : core.

Lemma tr_copy_from_mem c mem msg size :
  0 <= size <= Z.of_nat (length msg) ->
  tr c (copy_from_mem mem msg size) (fun msg' l => exists vs,
    Z.of_nat (length vs) = size /\ l = mem_reads mem vs /\ msg' = vs ++ drop (Z.to_nat size) msg).
Proof.
  intros Hs. unfold copy_from_mem. eapply tr_mono.
  { apply tr_for_acc with (I := fun k m l => exists vs,
      Z.of_nat (length vs) = k /\ l = mem_reads mem vs /\ m = vs ++ drop (Z.to_nat k) msg).
    - exists []. by rewrite drop_0.
    - intros k m l Hk (vs & Hl & -> & ->). unfold IXGBE_READ_REG_ARRAY. tr_step.
      destruct (lookup_lt_is_Some_2 msg (Z.to_nat k)) as [y Hy]; [lia|].
      apply tr_upd_c.
      { rewrite length_app, length_drop. lia. }
      exists (vs ++ [v]). rewrite length_app. simpl. split; [lia|]. split.
      + unfold mem_reads. rewrite imap_app. simpl. do 4 f_equal.
        rewrite Z.shiftl_mul_pow2 by lia. lia.
      + rewrite (drop_S _ y) by done. rewrite insert_app_r_alt by lia.
        replace (Z.to_nat k - length vs)%nat with 0%nat by lia. simpl.
        rewrite <- app_assoc. simpl. by replace (Z.to_nat (k + 1)) with (S (Z.to_nat k)) by lia. }
  intros m l (vs & Hl & -> & ->). exists vs. split; [lia|]. split; [done|].
  by rewrite Z.add_0_l, Nat2Z.id.
Qed.

Lemma tr_read_mailbox_vf c :
  tr c ixgbe_read_mailbox_vf (fun _ l => no_write (mem_regs IXGBE_VFMBMEM) l).
Proof.
  unfold ixgbe_read_mailbox_vf. tr_step. apply tr_bind_get_mbx. intros. mbx_steps.
  by repeat constructor.
Qed.

Lemma tr_clear_msg_vf c :
  tr c ixgbe_clear_msg_vf (fun _ l => no_write (mem_regs IXGBE_VFMBMEM) l).
Proof.
  unfold ixgbe_clear_msg_vf. eapply tr_bind; [apply tr_read_mailbox_vf|]. intros v l Hl.
  destruct (has v _); mbx_steps; by rewrite app_nil_r.
Qed.

(** a VF read that reports success has read the words, and written none *)
Lemma tr_read_mbx_vf c msg size id : 0 <= size <= Z.of_nat (length msg) ->
  tr c (ixgbe_read_mbx_vf msg size id) (fun '(ret, msg') l =>
    ret = IXGBE_SUCCESS /\ (exists before vs after,
      l = before ++ mem_reads IXGBE_VFMBMEM vs ++ after /\
      no_write (mem_regs IXGBE_VFMBMEM) before /\
      Z.of_nat (length vs) = size /\ msg' = vs ++ drop (Z.to_nat size) msg) \/
    ret = IXGBE_ERR_MBX_NOMSG /\ msg' = msg).
Proof.
  intros Hs. unfold ixgbe_read_mbx_vf, ixgbe_check_for_msg_vf, ixgbe_check_for_bit_vf.
  do 2 tr_step. eapply tr_bind; [apply tr_read_mailbox_vf|]. intros v l1 H1. do 2 tr_step.
  destruct (has v _); simpl; [|tr_step; by right].
  eapply tr_bind; [apply tr_clear_msg_vf|]. intros [] l2 H2.
  eapply tr_bind; [by apply tr_copy_from_mem|]. intros m l3 (vs & Hl & -> & ->).
  eapply tr_bind; [apply tr_read_mailbox_vf|]. intros v2 l4 H4. mbx_steps.
  left. split; [done|]. exists (l1 ++ l2), vs. eexists. split; [by rewrite <- !app_assoc|].
  split; [by apply no_write_app|]. done.
Qed.
End VfTraces.

Section Roundtrip.
Context {DPF DVF : Mmio} (view : @dev DPF -> @dev DVF) (vf : Z).
Context `{!PlainRegs DPF (mem_regs (IXGBE_PFMBMEM vf))}.
Context `{!PlainRegs DVF (mem_regs IXGBE_VFMBMEM)}.
Context (shared : forall d i, 0 <= i < 16 ->
  peek (view d) (IXGBE_VFMBMEM + 4 * i) = peek d (IXGBE_PFMBMEM vf + 4 * i)).

Lemma pf_regs_not_mem : 0 <= vf < 64 -> forall r,
  r = IXGBE_PFMAILBOX vf \/ r = IXGBE_PFMBICR (IXGBE_PFMBICR_INDEX vf) ->
  ~ mem_regs (IXGBE_PFMBMEM vf) r.
Proof.
  intros Hv r Hr (i & Hi & ->). unfold IXGBE_PFMBMEM, IXGBE_PFMAILBOX, IXGBE_PFMBICR,
    IXGBE_PFMBICR_INDEX in Hr. rewrite Z.shiftr_div_pow2 in Hr by lia.
  change (2 ^ 4) with 16 in Hr.
  assert (0 <= vf / 16 < 4) by (split; [apply Z.div_pos|apply Z.div_lt_upper_bound]; lia). lia.
Qed.

Lemma pf_sent_stored c msg size l x i v : 0 <= vf < 64 -> size <= 16 ->
  pf_write_sent c msg size vf l -> Z.of_nat i < size -> msg !! i = Some v ->
  last_wr (IXGBE_PFMBMEM vf + 4 * Z.of_nat i) l x = u32 v.
Proof.
  intros Hv Hs (wait & lock & req & ack & bell & poll & rel & -> & HF & Hlk & Hq & Hk & Hb & Hp%pf_poll_asked_access & Hr)
    Hi Hm.
  pose proof (pf_regs_not_mem Hv) as Hn.
  assert (mem_regs (IXGBE_PFMBMEM vf) (IXGBE_PFMBMEM vf + 4 * Z.of_nat i)) as Hmem
    by (exists (Z.of_nat i); lia).
  rewrite !last_wr_app.
  destruct Hb as (? & _ & ->), Hr as (? & _ & ->). cbn [last_wr].
  rewrite decide_False by (intros E; apply (Hn _ (or_introl eq_refl)); by rewrite E).
  rewrite (last_wr_no_write _ _ poll _) by
    first [exact Hmem | eapply Forall_impl; [|exact Hp]; intros [] Ha; try done;
           destruct Ha as [-> _]; auto].
  rewrite decide_False by (intros E; apply (Hn _ (or_introl eq_refl)); by rewrite E).
  apply last_wr_mem_writes. rewrite lookup_take_lt by lia. done.
Qed.

(** C26: a message written by the PF is the message the VF reads.  The two
    functions run on the PF's and the VF's view of one device, of which only
    the sixteen words of mailbox memory are known to be shared storage: every
    other register may answer anything.  When the PF's write and then the VF's
    read both report success (and neither sees the adapter vanish), the VF's
    buffer starts with the words that were sent. *)
Theorem pf_to_vf_roundtrip msg size buf id wpf :
  0 <= vf < 64 -> 0 < size <= 16 -> size <= Z.of_nat (length msg) ->
  size <= Z.of_nat (length buf) ->
  mbx_ops (mbx (w_hw wpf)) !! Z.to_nat vf = Some ops_pf -> 0 < mbx_timeout (mbx (w_hw wpf)) ->
  wp (ixgbe_write_mbx_pf msg size vf) (fun ret wpf' =>
    ret = IXGBE_SUCCESS -> alive wpf' ->
    forall wvf : world, w_dev wvf = view (w_dev wpf') ->
      wp (ixgbe_read_mbx_vf buf size id) (fun '(ret', buf') wvf' =>
        ret' = IXGBE_SUCCESS -> alive wvf' ->
        take (Z.to_nat size) buf' = message_words msg size) wvf) wpf.
Proof using shared.
  intros Hv Hs Hm Hb Ho Ht.
  eapply wp_mono; [apply (tr_write_mbx_pf (mbx_static (w_hw wpf)) msg size vf); try done; lia|].
  intros ret wpf' (_ & l & (_ & [[_ Hsent]|[-> _]]) & Hd); [|by intros].
  intros _ Ha wvf Hdev.
  eapply wp_mono; [apply (tr_read_mbx_vf (mbx_static (w_hw wvf)) buf size id); [lia|done]|].
  intros [ret' buf'] wvf' (_ & l' & Hread & Hd') Hok Ha'.
  destruct Hread as [[_ (before & vs & after & -> & Hnw & Hl & ->)]|[-> _]]; [|done].
  unfold message_words. rewrite take_app_length' by lia.
  apply list_eq_same_length with (n := length vs); [|done|].
  { rewrite length_map, length_take. lia. }
  intros i x y Hi Hx Hy. rewrite list_lookup_fmap_Some in Hy.
  destruct Hy as (v & -> & Hv'). rewrite lookup_take_lt in Hv' by lia.
  assert (mem_regs IXGBE_VFMBMEM (IXGBE_VFMBMEM + 4 * Z.of_nat i)) as Hmem
    by (exists (Z.of_nat i); lia).
  destruct (did_peek _ _ _ _ Hd' Ha' Hmem) as [_ Hst].
  rewrite (mem_reads_stored _ _ _ _ _ _ _ Hx _ Hst eq_refl).
  rewrite (last_wr_no_write (mem_regs IXGBE_VFMBMEM)); [|apply no_write_app; split; [done|]|done].
  - rewrite Hdev, shared by lia.
    assert (mem_regs (IXGBE_PFMBMEM vf) (IXGBE_PFMBMEM vf + 4 * Z.of_nat i)) as Hpf
      by (exists (Z.of_nat i); lia).
    rewrite (proj1 (did_peek _ _ _ _ Hd Ha Hpf)).
    apply (pf_sent_stored (mbx_static (w_hw wpf)) msg size); [done|lia|done|lia|done].
  - apply Forall_take, Forall_lookup_2. intros j a. unfold mem_reads.
    rewrite list_lookup_imap. intros (? & _ & ->)%fmap_Some. done.
Qed.
End Roundtrip.

(** ** Events that a read of [VFMAILBOX] consumes are not lost *)

(** what a VF does between two looks at the message bit *)
Inductive vf_call := VfCheckMsg | VfCheckAck | VfCheckRst | VfLock | VfRelease.

Section Sticky.
Context `{D : Mmio}.

Definition vf_exec (v : vf_call) : M unit :=
  match v with
  | VfCheckMsg => ixgbe_check_for_msg_vf 0 ;; mret tt
  | VfCheckAck => ixgbe_check_for_ack_vf 0 ;; mret tt
  | VfCheckRst => ixgbe_check_for_rst_vf 0 ;; mret tt
  | VfLock => ixgbe_obtain_mbx_lock_vf ;; mret tt
  | VfRelease => ixgbe_release_mbx_lock_vf 0
  end.
Fixpoint vf_exec_all (vs : list vf_call) : M unit :=
  match vs with
  | [] => mret tt
  | v :: vs' => vf_exec v ;; vf_exec_all vs'
  end.

(** the message bit is among those accumulated in [hw->mbx.vf_mailbox] *)
Definition sts_pending (w : world) : Prop :=
  has (mbx_vf_mailbox (mbx (w_hw w))) IXGBE_VFMAILBOX_PFSTS = true.

Definition keeps_sts {A} (m : M A) : Prop :=
  forall w, sts_pending w -> wp m (fun _ w' => sts_pending w') w.

Lemma ks_bind {A B} (m : M A) (f : A -> M B) :
  keeps_sts m -> (forall a, keeps_sts (f a)) -> keeps_sts (m ≫= f).
Proof.
  intros Hm Hf w Hw. apply wp_bind. eapply wp_mono; [by apply Hm|]. intros a w'. apply Hf.
Qed.
Lemma ks_ret {A} (a : A) : keeps_sts (mret a).
Proof. intros w Hw. by apply wp_ret. Qed.
Lemma ks_write r v : keeps_sts (IXGBE_WRITE_REG r v).
Proof.
  intros w Hw. unfold IXGBE_WRITE_REG. wp_step. apply wp_get_hw.
  wp_step; [by apply wp_ret|by apply wp_writel].
Qed.
Lemma ks_delay us : keeps_sts (udelay us).
Proof. intros w Hw. by apply wp_udelay. Qed.
Lemma ks_stats f : keeps_sts (mod_stats f).
Proof. intros w Hw. by apply wp_upd_hw. Qed.
Lemma ks_get_mbx : keeps_sts get_mbx.
Proof. intros w Hw. unfold get_mbx. wp_step. apply wp_get_hw. by wp_steps. Qed.
Lemma ks_clear_others mask :
  has (bnot 32 mask) IXGBE_VFMAILBOX_PFSTS = true ->
  keeps_sts (mod_mbx (fun m => upd_mbx_vf_mailbox (Z.land (mbx_vf_mailbox m) (bnot 32 mask)) m)).
Proof.
  intros Hm w Hw. apply wp_upd_hw. unfold sts_pending in *. cbn.
  change IXGBE_VFMAILBOX_PFSTS with (bit 4) in *. rewrite has_bit in * by lia.
  by rewrite Z.land_spec, Hw, Hm.
Qed.

Lemma read_reg_keeps_mbx r w :
  wp (IXGBE_READ_REG r) (fun _ w' => mbx (w_hw w') = mbx (w_hw w)) w.
Proof.
  eapply wp_mono; [apply read_reg_reads_only|]. intros v w' [_ [_ _ H]].
  destruct H as [->|[_ ->]]; [done|]. unfold ixgbe_remove_adapter.
  destruct (hw_addr (w_hw w)); simpl; [|done]. by destruct (__IXGBE_SERVICE_INITED _).
Qed.

(** a read reports the accumulated message bit, and accumulates what it reports *)
Lemma read_mailbox_vf_sts w :
  wp ixgbe_read_mailbox_vf (fun v w' =>
    (sts_pending w -> has v IXGBE_VFMAILBOX_PFSTS = true) /\
    (has v IXGBE_VFMAILBOX_PFSTS = true -> sts_pending w')) w.
Proof.
  unfold ixgbe_read_mailbox_vf. wp_step.
  eapply wp_mono; [apply read_reg_keeps_mbx|]. intros v w1 E. wp_step.
  unfold get_mbx. wp_step. apply wp_get_hw. do 2 wp_step.
  apply wp_upd_hw, wp_ret. unfold sts_pending. cbn. rewrite E.
  change IXGBE_VFMAILBOX_PFSTS with (bit 4). rewrite !has_bit by lia.
  autorewrite with zbits. change (Z.testbit IXGBE_VFMAILBOX_R2C_BITS 4) with true.
  destruct (Z.testbit v 4), (Z.testbit (mbx_vf_mailbox (mbx (w_hw w))) 4); done.
Qed.

Lemma ks_read_mailbox_vf : keeps_sts ixgbe_read_mailbox_vf.
Proof.
  intros w Hw. eapply wp_mono; [apply read_mailbox_vf_sts|]. intros v w' [H1 H2]. auto.
Qed.

Lemma ks_for_break {A B} n i (a : A) (body : Z -> A -> M (A + B)) :
  (forall k b, keeps_sts (body k b)) -> keeps_sts (for_break n i a body).
Proof.
  intros Hb w Hw. apply wp_for_break with (Inv := fun _ _ w' => sts_pending w'); [done| |done].
  intros k b w' _ Hw'. eapply wp_mono; [by apply Hb|]. by intros [].
Qed.

Lemma ks_vf_exec v : keeps_sts (vf_exec v).
Proof.
  pose proof ks_read_mailbox_vf as HR.
  destruct v; cbn [vf_exec]; unfold ixgbe_check_for_msg_vf, ixgbe_check_for_ack_vf,
    ixgbe_check_for_rst_vf, ixgbe_check_for_bit_vf, ixgbe_obtain_mbx_lock_vf,
    ixgbe_release_mbx_lock_vf, ixgbe_clear_ack_vf, ixgbe_clear_rst_vf, inc_acks, inc_rsts, usec_delay.
  all: repeat first
    [ exact HR | apply ks_ret | apply ks_write | apply ks_delay | apply ks_stats
    | apply ks_get_mbx | by apply ks_clear_others | apply ks_for_break; intros ? ?
    | apply ks_bind; [|intros ?]
    | match goal with |- keeps_sts (if ?b then _ else _) => destruct b end ].
Qed.

(** [VFMAILBOX] clears its event bits when it is read.  Whatever the
    device answers, once some read of it has reported the message bit, a later
    [ixgbe_check_for_msg_vf] reports the message, through any sequence of
    checks for acknowledgements and resets, and of taking and releasing the
    lock, in between. *)
Theorem vf_message_bit_not_lost vs w :
  wp ixgbe_read_mailbox_vf (fun v w' =>
    has v IXGBE_VFMAILBOX_PFSTS = true ->
    wp (vf_exec_all vs ;; ixgbe_check_for_msg_vf 0) (fun r _ => r = IXGBE_SUCCESS) w') w.
Proof.
  eapply wp_mono; [apply read_mailbox_vf_sts|]. intros v w1 [_ Hv] Hsts.
  assert (Hvs : keeps_sts (vf_exec_all vs)).
  { clear. induction vs as [|v vs IH]; cbn; [apply ks_ret|].
    apply ks_bind; [apply ks_vf_exec|done]. }
  wp_step. eapply wp_mono; [by apply Hvs, Hv|]. intros [] w2 H2.
  unfold ixgbe_check_for_msg_vf, ixgbe_check_for_bit_vf. do 2 wp_step.
  eapply wp_mono; [apply read_mailbox_vf_sts|]. intros v' w3 [H3 _].
  rewrite (H3 H2). by repeat wp_step.
Qed.
End Sticky.

(** ** Witnesses *)

(** a register file as a function, and the VF's window into a PF's *)
#[local] Instance fun_ram : Mmio := {|
  dev := Z -> Z;
  dev_read d r := (u32 (d r), d);
  dev_write d r v := fun r' => if decide (r = r') then v else d r';
  dev_delay d _ := d;
|}.

#[local] Instance fun_ram_plain (P : Z -> Prop) : PlainRegs fun_ram P.
Proof.
  refine {| peek := fun (d : @dev fun_ram) r => u32 (d r) |}.
  - intros d r. by apply trunc_range.
  - done.
  - done.
  - intros d r v r' _ Hv. simpl. case_decide; [by apply trunc_small|done].
  - done.
Defined.

Definition vf_window (vf : Z) (d : @dev fun_ram) : @dev fun_ram := fun r =>
  if (IXGBE_VFMBMEM <=? r) && (r <? IXGBE_VFMBMEM + 64)
  then d (IXGBE_PFMBMEM vf + (r - IXGBE_VFMBMEM))
  else if r =? IXGBE_VFMAILBOX then IXGBE_VFMAILBOX_PFSTS else 0.

Lemma vf_window_shared vf (d : @dev fun_ram) i : 0 <= i < 16 ->
  peek (P := mem_regs IXGBE_VFMBMEM) (vf_window vf d) (IXGBE_VFMBMEM + 4 * i) =
  peek (P := mem_regs (IXGBE_PFMBMEM vf)) d (IXGBE_PFMBMEM vf + 4 * i).
Proof.
  intros Hi. cbn -[IXGBE_VFMBMEM IXGBE_PFMBMEM]. unfold vf_window.
  destruct (Z.leb_spec IXGBE_VFMBMEM (IXGBE_VFMBMEM + 4 * i)); [|lia].
  destruct (Z.ltb_spec (IXGBE_VFMBMEM + 4 * i) (IXGBE_VFMBMEM + 64)); [|lia].
  cbn [andb]. do 2 f_equal. lia.
Qed.

(** an upgraded mailbox, as [ixgbe_upgrade_mbx_params_pf] leaves it *)
Definition hw_mbx : ixgbe_hw :=
  upd_mbx (mk_mbx (replicate 64 ops_pf) (mk_mbx_stats 0 0 0 0 0) 2000 500 0 16) hw0.
Definition wpf0 : world (H := fun_ram) := mk_world fun_ram hw_mbx (fun _ => 0) [].

Lemma write_mbx_pf_protocol_witness :
  traces (D := fun_ram) mbx_static (mbx_static hw_mbx) (ixgbe_write_mbx_pf [7; 8; 9] 3 5)
    (fun ret l => waits l <= 3999 * 500 /\
       (ret = IXGBE_SUCCESS /\ pf_write_sent (mbx_static hw_mbx) [7; 8; 9] 3 5 l \/
        ret = IXGBE_ERR_TIMEOUT /\ pf_write_timed_out (mbx_static hw_mbx) 5 l)).
Proof.
  apply (write_mbx_pf_protocol (D := fun_ram) (mbx_static hw_mbx) [7; 8; 9] 3 5);
    [reflexivity|discriminate|reflexivity|split; [reflexivity|discriminate]].
Defined.

Lemma pf_to_vf_roundtrip_witness :
  wp (ixgbe_write_mbx_pf [7; 8; 9] 3 5) (fun ret wpf' =>
    ret = IXGBE_SUCCESS /\ alive wpf' /\
    let wvf := mk_world fun_ram hw_mbx (vf_window 5 (w_dev wpf')) [] in
    wp (ixgbe_read_mbx_vf [0; 0; 0; 0] 3 0)
       (fun '(ret', buf') wvf' => ret' = IXGBE_SUCCESS /\ alive wvf' /\ take 3 buf' = [7; 8; 9]) wvf)
    wpf0.
Proof.
  assert (wp (ixgbe_write_mbx_pf [7; 8; 9] 3 5) (fun ret wpf' =>
    ret = IXGBE_SUCCESS /\ alive wpf' /\
    let wvf := mk_world fun_ram hw_mbx (vf_window 5 (w_dev wpf')) [] in
    wp (ixgbe_read_mbx_vf [0; 0; 0; 0] 3 0)
       (fun '(ret', buf') wvf' => ret' = IXGBE_SUCCESS /\ alive wvf') wvf) wpf0) as Hrun
    by (vm_compute; tauto).
  pose proof (pf_to_vf_roundtrip (vf_window 5) 5 (vf_window_shared 5) [7; 8; 9] 3 [0; 0; 0; 0] 0 wpf0)
    as H.
  eapply wp_mono; [apply wp_conj; [exact Hrun|apply H; first [reflexivity|lia|simpl; lia]]|].
  intros ret w [(Hr & Ha & Hv) Hrt]. split; [exact Hr|]. split; [exact Ha|]. cbv zeta in *.
  eapply wp_mono; [apply wp_conj; [exact Hv|by apply Hrt]|].
  intros [ret' buf'] w' [[Hr' Ha'] Hb]. split; [exact Hr'|]. split; [exact Ha'|].
  exact (Hb Hr' Ha').
Defined.

(** The timed-out branch of [write_mbx_pf_protocol] is real: while another
    thread holds the mailbox ([PFU] set, and never released during the wait),
    the write gives up with IXGBE_ERR_TIMEOUT, and its [goto out] has cleared
    the other thread's [PFU] bit. *)
Example write_mbx_pf_timeout_clears_pfu :
  let h := upd_mbx (mk_mbx (replicate 64 ops_pf) (mk_mbx_stats 0 0 0 0 0) 3 500 0 16) hw0 in
  let d : @dev fun_ram := fun r => if r =? IXGBE_PFMAILBOX 5 then IXGBE_PFMAILBOX_PFU else 0 in
  wp (ixgbe_write_mbx_pf [7; 8; 9] 3 5) (fun ret w' =>
    ret = IXGBE_ERR_TIMEOUT /\ has (w_dev w' (IXGBE_PFMAILBOX 5)) IXGBE_PFMAILBOX_PFU = false)
    (mk_world fun_ram h d []).
Proof. vm_compute. done. Qed.
