(* ===== verification/MbxSafe.v ===== *)
(** * Mailbox: absence of faults

    The configuration that the initialisers build, and the theorem that no
    sequence of requests to an initialised mailbox calls through a NULL
    operation or leaves a buffer or [hw->mbx.ops]. *)
From stdpp Require Import gmap.
From S2P Require Import Prelude Regs Types Osdep Trace Mbx MbxProps.

(** the operation sets a slot of [hw->mbx.ops] can hold *)
Definition ops_none : ixgbe_mbx_operations := mk_mbx_operations None None None None None None None.
Definition mbx_wf (c : mbx_cfg) : Prop :=
  length (c_ops c) = 64%nat /\
  Forall (fun o => o = ops_none \/ o = ops_pf_legacy \/ o = ops_pf \/
                   o = ops_vf_legacy \/ o = ops_vf) (c_ops c) /\
  0 <= c_size c.

(** everything the rest of the driver asks of the mailbox *)
Inductive mbx_request :=
| RqInitPf | RqUpgradePf (vf_id : Z) | RqInitVf | RqUpgradeVf
| RqRead (msg : list Z) (size id : Z) | RqPoll (msg : list Z) (size id : Z)
| RqWrite (msg : list Z) (size id : Z)
| RqCheckMsg (id : Z) | RqCheckAck (id : Z) | RqCheckRst (id : Z) | RqClear (id : Z).

(** the caller's side: an index of a VF, and a buffer that holds [size] words *)
Definition valid_request (r : mbx_request) : Prop :=
  match r with
  | RqInitPf | RqInitVf | RqUpgradeVf => True
  | RqUpgradePf id | RqCheckMsg id | RqCheckAck id | RqCheckRst id | RqClear id => 0 <= id < 64
  | RqRead msg size id | RqPoll msg size id => 0 <= id < 64 /\ 0 <= size <= Z.of_nat (length msg)
  | RqWrite msg size id => 0 <= id < 64 /\ 0 < size <= Z.of_nat (length msg)
  end.

Section NoFault.
Context `{D : Mmio}.
Hint Resolve mbx_static_remove : core.

Definition mbx_exec (r : mbx_request) : M unit :=
  match r with
  | RqInitPf => ixgbe_init_mbx_params_pf
  | RqUpgradePf id => ixgbe_upgrade_mbx_params_pf id
  | RqInitVf => ixgbe_init_mbx_params_vf
  | RqUpgradeVf => ixgbe_upgrade_mbx_params_vf
  | RqRead msg size id => ixgbe_read_mbx msg size id ;; mret tt
  | RqPoll msg size id => ixgbe_poll_mbx msg size id ;; mret tt
  | RqWrite msg size id => ixgbe_write_mbx msg size id ;; mret tt
  | RqCheckMsg id => ixgbe_check_for_msg id ;; mret tt
  | RqCheckAck id => ixgbe_check_for_ack id ;; mret tt
  | RqCheckRst id => ixgbe_check_for_rst id ;; mret tt
  | RqClear id => ixgbe_clear_mbx id ;; mret tt
  end.

(** [m] never faults and leaves the mailbox configuration alone *)
Definition safe {A} (c : mbx_cfg) (m : M A) : Prop := traces mbx_static c m (fun _ _ => True).

Lemma safe_bind {A B} c (m : M A) (f : A -> M B) :
  safe c m -> (forall a, safe c (f a)) -> safe c (m ≫= f).
Proof. intros Hm Hf. eapply tr_bind; [exact Hm|]. intros. apply Hf. Qed.

Lemma safe_of {A} c (m : M A) T : traces mbx_static c m T -> safe c m.
Proof. intros H. by eapply tr_mono. Qed.

Lemma safe_ret {A} c (a : A) : safe c (mret a).
Proof. by apply tr_ret. Qed.

Lemma safe_read c r : safe c (IXGBE_READ_REG r).
Proof. by apply tr_READ_REG. Qed.
Lemma safe_write c r v : safe c (IXGBE_WRITE_REG r v).
Proof. by apply tr_WRITE_REG. Qed.
Lemma safe_delay c us : safe c (udelay us).
Proof. by apply tr_udelay. Qed.
Lemma safe_stats c f : safe c (mod_stats f).
Proof. by apply tr_upd_hw. Qed.
Lemma safe_vf_mailbox c f : safe c (mod_mbx (fun m => upd_mbx_vf_mailbox (f m) m)).
Proof. by apply tr_upd_hw. Qed.
Lemma safe_for_loop c n i (body : Z -> M unit) : (forall k, safe c (body k)) -> safe c (for_loop n i body).
Proof. intros Hb. apply (tr_for_loop _ _ _ _ _ (fun _ _ => True)); [done|]. intros. apply Hb. Qed.
Lemma safe_for_break {A B} c n i (a : A) (body : Z -> A -> M (A + B)) :
  (forall k b, safe c (body k b)) -> safe c (for_break n i a body).
Proof.
  intros Hb. apply (tr_for_break _ _ _ _ _ _ (fun _ _ _ => True)); [done| |done].
  intros k b l _ _. eapply tr_mono; [apply Hb|]. by intros [].
Qed.

Lemma safe_get_mbx {B} c (f : ixgbe_mbx_info -> M B) :
  (forall m, mbx_size m = c_size c -> safe c (f m)) -> safe c (get_mbx ≫= f).
Proof. intros Hf. apply tr_bind_get_mbx. intros. by apply Hf. Qed.
Lemma safe_get_hw {B} c (f : ixgbe_hw -> M B) :
  (forall h, safe c (f h)) -> safe c (get_hw ≫= f).
Proof. intros Hf. apply tr_bind_get_hw. intros. by apply Hf. Qed.
Lemma safe_get_ops {B} c id o (f : ixgbe_mbx_operations -> M B) :
  0 <= id -> c_ops c !! Z.to_nat id = Some o -> safe c (f o) -> safe c (get_ops id ≫= f).
Proof. apply tr_bind_get_ops. Qed.
Lemma safe_nth {A} c (l : list A) i :
  0 <= i < Z.of_nat (length l) -> safe c (nth_c l i).
Proof.
  intros Hi. destruct (lookup_lt_is_Some_2 l (Z.to_nat i)) as [a Ha]; [lia|].
  by apply (tr_nth_c _ _ _ _ a); [lia| |].
Qed.
End NoFault.

#[export] Hint Resolve safe_ret safe_read safe_write safe_delay safe_stats safe_vf_mailbox
  safe_for_loop safe_for_break : mbx_safe.

(** runs a computation that only needs the rules above and the database *)
Ltac safe_steps :=
  repeat first
    [ progress cbn beta iota
    | solve [auto with mbx_safe]
    | apply safe_get_mbx; intros ? ?
    | apply safe_get_hw; intros ?
    | eapply safe_get_ops; [eassumption|eassumption|]
    | apply safe_bind; [|intros ?]
    | lazymatch goal with
      | |- safe _ (for_break _ _ _ _) => apply safe_for_break; intros ? ?
      | |- safe _ (for_loop _ _ _) => apply safe_for_loop; intros ?
      | |- safe _ (usec_delay _) => apply safe_delay
      | |- safe _ (if ?b then _ else _) => destruct b eqn:?
      | |- safe _ (match ?b with _ => _ end) => destruct b eqn:?
      | |- safe _ (let _ := _ in _) => cbv zeta
      end ].

Section Functions.
Context `{D : Mmio}.
Implicit Types c : mbx_cfg.

Lemma safe_read_mailbox_vf c : safe c ixgbe_read_mailbox_vf.
Proof. unfold ixgbe_read_mailbox_vf. safe_steps. Qed.
Hint Resolve safe_read_mailbox_vf : mbx_safe.

Lemma safe_clear_msg_vf c : safe c ixgbe_clear_msg_vf.
Proof. unfold ixgbe_clear_msg_vf, inc_reqs. safe_steps. Qed.
Lemma safe_clear_ack_vf c : safe c ixgbe_clear_ack_vf.
Proof. unfold ixgbe_clear_ack_vf, inc_acks. safe_steps. Qed.
Lemma safe_clear_rst_vf c : safe c ixgbe_clear_rst_vf.
Proof. unfold ixgbe_clear_rst_vf, inc_rsts. safe_steps. Qed.
Hint Resolve safe_clear_msg_vf safe_clear_ack_vf safe_clear_rst_vf : mbx_safe.

Lemma safe_check_for_msg_vf c id : safe c (ixgbe_check_for_msg_vf id).
Proof. unfold ixgbe_check_for_msg_vf, ixgbe_check_for_bit_vf. safe_steps. Qed.
Lemma safe_check_for_ack_vf c id : safe c (ixgbe_check_for_ack_vf id).
Proof. unfold ixgbe_check_for_ack_vf, ixgbe_check_for_bit_vf. safe_steps. Qed.
Lemma safe_check_for_rst_vf c id : safe c (ixgbe_check_for_rst_vf id).
Proof. unfold ixgbe_check_for_rst_vf, ixgbe_check_for_bit_vf. safe_steps. Qed.
Lemma safe_lock_vf c : safe c ixgbe_obtain_mbx_lock_vf.
Proof. unfold ixgbe_obtain_mbx_lock_vf. safe_steps. Qed.
Lemma safe_release_vf c id : safe c (ixgbe_release_mbx_lock_vf id).
Proof. unfold ixgbe_release_mbx_lock_vf. safe_steps. Qed.
Lemma safe_release_dummy c id : safe c (ixgbe_release_mbx_lock_dummy id).
Proof. unfold ixgbe_release_mbx_lock_dummy. safe_steps. Qed.
Hint Resolve safe_check_for_msg_vf safe_check_for_ack_vf safe_check_for_rst_vf safe_lock_vf
  safe_release_vf safe_release_dummy : mbx_safe.

Lemma safe_clear_msg_pf c id : safe c (ixgbe_clear_msg_pf id).
Proof. unfold ixgbe_clear_msg_pf, inc_reqs. safe_steps. Qed.
Lemma safe_clear_ack_pf c id : safe c (ixgbe_clear_ack_pf id).
Proof. unfold ixgbe_clear_ack_pf, inc_acks. safe_steps. Qed.
Hint Resolve safe_clear_msg_pf safe_clear_ack_pf : mbx_safe.
Lemma safe_check_for_msg_pf c id : safe c (ixgbe_check_for_msg_pf id).
Proof. unfold ixgbe_check_for_msg_pf, ixgbe_check_for_bit_pf. safe_steps. Qed.
Lemma safe_check_for_ack_pf c id : safe c (ixgbe_check_for_ack_pf id).
Proof. unfold ixgbe_check_for_ack_pf, ixgbe_check_for_bit_pf. safe_steps. Qed.
Lemma safe_check_for_rst_pf c id : safe c (ixgbe_check_for_rst_pf id).
Proof. unfold ixgbe_check_for_rst_pf, inc_rsts. safe_steps. Qed.
Lemma safe_lock_pf c id : safe c (ixgbe_obtain_mbx_lock_pf id).
Proof. unfold ixgbe_obtain_mbx_lock_pf. safe_steps. Qed.
Lemma safe_release_pf c id : safe c (ixgbe_release_mbx_lock_pf id).
Proof. unfold ixgbe_release_mbx_lock_pf. safe_steps. Qed.
Lemma safe_clear_mbx_pf c id : safe c (ixgbe_clear_mbx_pf id).
Proof. unfold ixgbe_clear_mbx_pf, IXGBE_WRITE_REG_ARRAY. safe_steps. Qed.
Hint Resolve safe_check_for_msg_pf safe_check_for_ack_pf safe_check_for_rst_pf safe_lock_pf
  safe_release_pf safe_clear_mbx_pf : mbx_safe.

Lemma safe_copy_to_mem c mem msg size :
  0 <= size <= Z.of_nat (length msg) -> safe c (copy_to_mem mem msg size).
Proof. intros H. eapply safe_of, tr_copy_to_mem, H. Qed.
Lemma safe_copy_from_mem c mem msg size :
  0 <= size <= Z.of_nat (length msg) -> safe c (copy_from_mem mem msg size).
Proof. intros H. eapply safe_of, tr_copy_from_mem, H. Qed.
Hint Resolve safe_copy_to_mem safe_copy_from_mem : mbx_safe.

Lemma safe_call_check_for_msg c f id : safe c (call_check_for_msg (Some f) id).
Proof. destruct f; simpl; safe_steps. Qed.
Lemma safe_call_check_for_ack c f id : safe c (call_check_for_ack (Some f) id).
Proof. destruct f; simpl; safe_steps. Qed.
Lemma safe_call_check_for_rst c f id : safe c (call_check_for_rst (Some f) id).
Proof. destruct f; simpl; safe_steps. Qed.
Lemma safe_call_release c f id : safe c (call_release (Some f) id).
Proof. destruct f; simpl; safe_steps. Qed.
Lemma safe_call_clear c f id : safe c (call_clear (Some f) id).
Proof. destruct f; simpl; safe_steps. Qed.
Hint Resolve safe_call_check_for_msg safe_call_check_for_ack safe_call_check_for_rst
  safe_call_release safe_call_clear : mbx_safe.

Lemma safe_poll c n (check : M Z) : safe c check -> safe c (poll_countdown n check).
Proof.
  intros H. induction n as [|n IH]; cbn [poll_countdown]; [safe_steps|].
  apply safe_bind; [done|]. intros r. destruct n; safe_steps.
Qed.

Section Slot.
Context (c : mbx_cfg) (id : Z) (o : ixgbe_mbx_operations).
Context (Hid : 0 <= id) (Ho : c_ops c !! Z.to_nat id = Some o).

Lemma safe_poll_for_msg : safe c (ixgbe_poll_for_msg id).
Proof using Hid Ho.
  unfold ixgbe_poll_for_msg. safe_steps. apply safe_poll. safe_steps.
  destruct (op_check_for_msg o); [safe_steps|by rewrite bool_decide_eq_false in Heqb0].
Qed.
Lemma safe_poll_for_ack : safe c (ixgbe_poll_for_ack id).
Proof using Hid Ho.
  unfold ixgbe_poll_for_ack. safe_steps. apply safe_poll. safe_steps.
  destruct (op_check_for_ack o); [safe_steps|by rewrite bool_decide_eq_false in Heqb0].
Qed.
Hint Resolve safe_poll_for_msg safe_poll_for_ack : mbx_safe.

(** a read through any read pointer *)
Lemma safe_call_read f msg size : 0 <= size <= Z.of_nat (length msg) ->
  safe c (call_read (Some f) msg size id).
Proof using.
  intros Hs. destruct f; simpl; unfold ixgbe_read_mbx_vf_legacy, ixgbe_read_mbx_vf,
    ixgbe_read_mbx_pf_legacy, ixgbe_read_mbx_pf, inc_msgs_rx; safe_steps.
Qed.

(** a write through any write pointer, when the release pointer is set *)
Lemma safe_call_write f msg size : 0 < size <= Z.of_nat (length msg) ->
  op_release o <> None -> safe c (call_write (Some f) msg size id).
Proof using Hid Ho.
  intros Hs Hr. assert (0 <= size <= Z.of_nat (length msg)) as Hs' by lia.
  destruct (op_release o) as [rl|] eqn:E; [|done].
  destruct f; simpl; unfold ixgbe_write_mbx_vf_legacy, ixgbe_write_mbx_vf,
    ixgbe_write_mbx_pf_legacy, ixgbe_write_mbx_pf, inc_msgs_tx.
  - safe_steps.
  - safe_steps. all: rewrite E; safe_steps.
  - safe_steps.
  - apply safe_bind; [safe_steps|]. intros r. apply safe_bind.
    + destruct (negb (r =? 0)); safe_steps. apply safe_nth. lia.
    + intros ?. safe_steps. rewrite E. safe_steps.
Qed.
End Slot.

Lemma wf_slot c id : mbx_wf c -> 0 <= id < 64 -> exists o, c_ops c !! Z.to_nat id = Some o /\
  (op_write o <> None -> op_release o <> None).
Proof.
  intros (Hl & Ho & _) Hi. destruct (lookup_lt_is_Some_2 (c_ops c) (Z.to_nat id)) as [o E]; [lia|].
  exists o. split; [done|]. pose proof (Forall_lookup_1 _ _ _ _ Ho E) as H.
  by destruct H as [->|[->|[->|[->| ->]]]].
Qed.

(** every request but the initialisers, run from a well-formed configuration *)
Definition is_init (r : mbx_request) : bool :=
  match r with RqInitPf | RqUpgradePf _ | RqInitVf | RqUpgradeVf => true | _ => false end.

Lemma safe_exec c r : mbx_wf c -> valid_request r -> is_init r = false -> safe c (mbx_exec r).
Proof.
  intros Hw Hv Hi. pose proof Hw as (_ & _ & Hs). assert (H0 : c_size c <= c_size c) by lia.
  destruct r as [|?| | |msg size id|msg size id|msg size id|id|id|id|id]; try done; simpl in Hv.
  all: destruct (wf_slot c id Hw ltac:(tauto)) as (o & Ho & Hrel).
  all: assert (0 <= id) as Hid by lia.
  all: cbn [mbx_exec]; apply safe_bind; [|intros; apply safe_ret].
  - unfold ixgbe_read_mbx. apply safe_get_mbx. intros m Hm. rewrite Hm. safe_steps.
    apply safe_call_read. destruct (Z.ltb_spec (c_size c) size); lia.
  - unfold ixgbe_poll_mbx. apply safe_get_mbx. intros m Hm. rewrite Hm.
    eapply safe_get_ops; [done|done|].
    destruct (op_read o) as [rd|] eqn:E; [|apply safe_ret].
    destruct (_ || _); [apply safe_ret|].
    apply safe_bind; [by eapply safe_poll_for_msg|]. intros r.
    destruct (r =? 0); [|apply safe_ret]. eapply safe_get_ops; [done|done|].
    rewrite E. apply safe_call_read. destruct (Z.ltb_spec (c_size c) size); lia.
  - unfold ixgbe_write_mbx. apply safe_get_mbx. intros m Hm.
    eapply safe_get_ops; [done|done|].
    destruct (op_write o) as [wr|] eqn:E; [|apply safe_ret].
    destruct (_ || _); [apply safe_ret|]. destruct (mbx_size m <? size); [apply safe_ret|].
    eapply safe_call_write; [done|done|lia|by apply Hrel].
  - unfold ixgbe_check_for_msg. safe_steps.
  - unfold ixgbe_check_for_ack. safe_steps.
  - unfold ixgbe_check_for_rst. safe_steps.
  - unfold ixgbe_clear_mbx. safe_steps.
Qed.

(** *** The initialisers *)
Lemma wp_set_params (Q : unit -> world -> Prop) w :
  (forall w', mbx_ops (mbx (w_hw w')) = mbx_ops (mbx (w_hw w)) ->
     mac_type (mac (w_hw w')) = mac_type (mac (w_hw w)) ->
     mbx_size (mbx (w_hw w')) = IXGBE_VFMAILBOX_SIZE -> Q tt w') ->
  wp set_params Q w.
Proof. intros HQ. by apply wp_upd_hw, HQ. Qed.

Lemma wp_zero_stats (Q : unit -> world -> Prop) w :
  (forall w', mbx_static (w_hw w') = mbx_static (w_hw w) -> Q tt w') -> wp zero_stats Q w.
Proof. intros HQ. by apply wp_upd_hw, HQ. Qed.

Lemma wp_set_ops i o (Q : unit -> world -> Prop) w :
  0 <= i < 64 -> o = ops_pf_legacy \/ o = ops_pf \/ o = ops_vf_legacy \/ o = ops_vf ->
  mbx_wf (mbx_static (w_hw w)) ->
  (forall w', mbx_wf (mbx_static (w_hw w')) -> Q tt w') ->
  wp (set_ops i o) Q w.
Proof.
  intros Hi Ho (Hl & Hops & Hs) HQ. unfold set_ops. simpl in *.
  wp_step. unfold get_mbx. wp_step. apply wp_get_hw. do 2 wp_step.
  apply wp_upd_c; [lia|]. apply wp_upd_hw, HQ. split; [|split]; simpl.
  - by rewrite length_insert.
  - apply Forall_insert; [done|naive_solver].
  - done.
Qed.

Lemma wp_init_exec r w : mbx_wf (mbx_static (w_hw w)) -> valid_request r -> is_init r = true ->
  wp (mbx_exec r) (fun _ w' => mbx_wf (mbx_static (w_hw w'))) w.
Proof.
  intros Hw Hv Hi.
  assert (Hp : forall w', mbx_ops (mbx (w_hw w')) = mbx_ops (mbx (w_hw w)) ->
    mbx_size (mbx (w_hw w')) = IXGBE_VFMAILBOX_SIZE -> mbx_wf (mbx_static (w_hw w'))).
  { intros w' E1 E2. destruct Hw as (Hl & Ho & _). split; [|split]; simpl.
    - by rewrite E1.
    - by rewrite E1.
    - by rewrite E2. }
  destruct r; try done; simpl in Hv; cbn [mbx_exec].
  - unfold ixgbe_init_mbx_params_pf. wp_step. apply wp_get_hw. wp_step; [by apply wp_ret|].
    wp_step. apply wp_set_params. intros w1 E1 _ E2. wp_step. apply wp_zero_stats. intros w2 E3.
    eapply wp_mono; [apply (wp_for_loop _ _ _ (fun _ w' => mbx_wf (mbx_static (w_hw w'))))|].
    + rewrite E3. by apply Hp.
    + intros k w3 Hk Hw3. change (Z.of_nat 64) with 64 in Hk.
      apply wp_set_ops; [lia|by left|done|done].
    + done.
  - unfold ixgbe_upgrade_mbx_params_pf. wp_step. apply wp_get_hw. wp_step; [by apply wp_ret|].
    wp_step. apply wp_set_params. intros w1 E1 _ E2.
    wp_step. apply wp_set_ops; [done|naive_solver|by apply Hp|]. intros w2 Hw2.
    apply wp_zero_stats. intros w3 ->. done.
  - unfold ixgbe_init_mbx_params_vf. wp_step. apply wp_set_params. intros w1 E1 _ E2.
    wp_step. apply wp_set_ops; [done|naive_solver|by apply Hp|]. intros w2 Hw2.
    apply wp_zero_stats. intros w3 ->. done.
  - unfold ixgbe_upgrade_mbx_params_vf. wp_step. apply wp_set_params. intros w1 E1 _ E2.
    wp_step. apply wp_set_ops; [done|naive_solver|by apply Hp|]. intros w2 Hw2.
    apply wp_zero_stats. intros w3 ->. done.
Qed.

Fixpoint mbx_exec_all (rs : list mbx_request) : M unit :=
  match rs with
  | [] => mret tt
  | r :: rs' => mbx_exec r ;; mbx_exec_all rs'
  end.

(** C39: from any well-formed [hw->mbx] (64 slots, each empty or filled by one
    of the initialisers) every sequence of valid requests, initialisations and
    upgrades included, runs on every device without calling through a NULL
    operation, without leaving [ops[64]] or the caller's buffer, and ends in a
    well-formed [hw->mbx] again. *)
Theorem mbx_requests_never_fault rs w :
  mbx_wf (mbx_static (w_hw w)) -> Forall valid_request rs ->
  wp (mbx_exec_all rs) (fun _ w' => mbx_wf (mbx_static (w_hw w'))) w.
Proof.
  intros Hw Hrs. revert w Hw.
  induction Hrs as [|r rs Hr _ IH]; intros w Hw; cbn [mbx_exec_all]; [by apply wp_ret|].
  wp_step. eapply wp_mono with (P := fun _ w' => mbx_wf (mbx_static (w_hw w'))).
  - destruct (is_init r) eqn:E; [by apply wp_init_exec|].
    eapply wp_mono; [by apply (safe_exec _ r Hw Hr E)|]. intros [] w' [-> _]. done.
  - intros [] w' Hw'. by apply IH.
Qed.
End Functions.

Lemma mbx_requests_never_fault_witness :
  let h := upd_mbx (mk_mbx (replicate 64 ops_none) (mk_mbx_stats 0 0 0 0 0) 0 0 0 0) hw0 in
  wp (mbx_exec_all (D := ram)
       [RqInitPf; RqUpgradePf 5; RqWrite [0x20000001; 7] 2 5; RqPoll [0; 0; 0] 3 9; RqClear 63])
     (fun _ w' => mbx_wf (mbx_static (w_hw w'))) (mk_world ram h (∅ : gmap Z Z) []).
Proof.
  apply (mbx_requests_never_fault (D := ram)).
  - split; [reflexivity|]. split; [|vm_compute; discriminate]. simpl.
    repeat (constructor; [left; reflexivity|]). constructor.
  - repeat constructor; simpl; lia.
Defined.
