(* ===== verification/Dcb.v ===== *)
(** * Data center bridging: configuration, credits, rule checking (ixgbe_dcb.c)

    The hardware-independent half of ixgbe_dcb.c, on the structs of ixgbe_dcb.h.
    The functions touch no register; they run in [comp S] for any state, so that
    an index outside an array is a fault here as well. *)
From S2P Require Import Prelude Regs Types.

(** ** Data (ixgbe_dcb.h) *)
Inductive ixgbe_dcb_tsa :=
| ixgbe_dcb_tsa_ets | ixgbe_dcb_tsa_group_strict_cee | ixgbe_dcb_tsa_strict.

(** the value stored when a [tsa] is copied into a [u8] array *)
Definition tsa_val (t : ixgbe_dcb_tsa) : Z :=
  match t with
  | ixgbe_dcb_tsa_ets => 0 | ixgbe_dcb_tsa_group_strict_cee => 1 | ixgbe_dcb_tsa_strict => 2
  end.

Inductive ixgbe_dcb_pfc :=
| ixgbe_dcb_pfc_disabled | ixgbe_dcb_pfc_enabled
| ixgbe_dcb_pfc_enabled_txonly | ixgbe_dcb_pfc_enabled_rxonly.

#[export] Instance dcb_tsa_eq_dec : EqDecision ixgbe_dcb_tsa.
Proof. solve_decision. Defined.
#[export] Instance dcb_pfc_eq_dec : EqDecision ixgbe_dcb_pfc.
Proof. solve_decision. Defined.

Record ixgbe_dcb_tc_path := mk_tc_path {
  bwg_id : Z;
  bwg_percent : Z;
  link_percent : Z;
  up_to_tc_bitmap : Z;
  data_credits_refill : Z;
  data_credits_max : Z;
  tsa : ixgbe_dcb_tsa;
}.

Record ixgbe_dcb_tc_config := mk_tc_config {
  path : list ixgbe_dcb_tc_path;
  pfc : ixgbe_dcb_pfc;
  desc_credits_max : Z;
  tc : Z;
}.

Record ixgbe_dcb_num_tcs := mk_num_tcs { pg_tcs : Z; pfc_tcs : Z }.

(** without [support], [rx_pba_cfg] and [dcb_cfg_version], which no function of
    the component reads *)
Record ixgbe_dcb_config := mk_dcb_config {
  tc_config : list ixgbe_dcb_tc_config;
  num_tcs : ixgbe_dcb_num_tcs;
  bw_percentage : list (list Z);
  pfc_mode_enable : bool;
  round_robin_enable : bool;
  link_speed : Z;
  vt_mode : bool;
}.

Definition upd_tc_config (l : list ixgbe_dcb_tc_config) (c : ixgbe_dcb_config) : ixgbe_dcb_config :=
  mk_dcb_config l (num_tcs c) (bw_percentage c) (pfc_mode_enable c) (round_robin_enable c)
    (link_speed c) (vt_mode c).

Section Dcb.
Context {S : Type}.

(** [&cfg->tc_config[i].path[direction]] *)
Definition get_path (c : ixgbe_dcb_config) (i direction : Z) : comp S ixgbe_dcb_tc_path :=
  t ← nth_c (tc_config c) i; nth_c (path t) direction.

(** ** Credits *)
Definition ixgbe_dcb_calculate_tc_credits (bw refill max : list Z) (max_frame_size : Z)
    : comp S (Z * list Z * list Z) :=
  let min_credit := Z.quot (Z.quot max_frame_size 2 + IXGBE_DCB_CREDIT_QUANTUM - 1)
                           IXGBE_DCB_CREDIT_QUANTUM in
  min_percent ← for_acc (Z.to_nat IXGBE_DCB_MAX_TRAFFIC_CLASS) 0 100 (fun i min_percent =>
    b ← nth_c bw i;
    mret (if (b <? min_percent) && negb (b =? 0) then b else min_percent));
  let multiplier := Z.quot min_credit min_percent + 1 in
  r ← for_acc (Z.to_nat IXGBE_DCB_MAX_TRAFFIC_CLASS) 0 (refill, max) (fun i '(refill, max) =>
    b ← nth_c bw i;
    let val := Z.min (b * multiplier) IXGBE_DCB_MAX_CREDIT_REFILL in
    let val := if val <? min_credit then min_credit else val in
    refill ← upd_c refill i (u16 val);
    max ← upd_c max i (u16 (if negb (b =? 0) then Z.quot (b * IXGBE_DCB_MAX_CREDIT) 100
                            else min_credit));
    mret (refill, max));
  mret (0, fst r, snd r).

(** what the second loop of [ixgbe_dcb_calculate_tc_credits_cee] stores for one
    traffic class: the updated path and, for Tx, [desc_credits_max] *)
Definition cee_path_credits (mac : ixgbe_mac_type) (direction min_credit min_multiplier bw_percent : Z)
    (p : ixgbe_dcb_tc_path) : ixgbe_dcb_tc_path * option Z :=
  let link_percentage := u16 (Z.quot (bwg_percent p * bw_percent) 100) in
  let link_percentage :=
    if (0 <? bwg_percent p) && (link_percentage =? 0) then 1 else link_percentage in
  let credit_refill := Z.min (u32 (link_percentage * min_multiplier)) IXGBE_DCB_MAX_CREDIT_REFILL in
  let credit_refill := if credit_refill <? min_credit then min_credit else credit_refill in
  let credit_max := u32 (Z.quot (link_percentage * IXGBE_DCB_MAX_CREDIT) 100) in
  let credit_max := if credit_max <? min_credit then min_credit else credit_max in
  let credit_max :=
    if direction =? IXGBE_DCB_TX_CONFIG then
      if negb (credit_max =? 0) && (credit_max <? IXGBE_DCB_MIN_TSO_CREDIT) &&
         bool_decide (mac = ixgbe_mac_82598EB)
      then IXGBE_DCB_MIN_TSO_CREDIT else credit_max
    else credit_max in
  (mk_tc_path (bwg_id p) (bwg_percent p) (u8 link_percentage) (up_to_tc_bitmap p)
     (u16 credit_refill) (u16 credit_max) (tsa p),
   if direction =? IXGBE_DCB_TX_CONFIG then Some (u16 credit_max) else None).

Definition ixgbe_dcb_calculate_tc_credits_cee (mac : ixgbe_mac_type)
    (dcb_config : option ixgbe_dcb_config) (max_frame_size direction : Z)
    : comp S (Z * option ixgbe_dcb_config) :=
  match dcb_config with
  | None => mret (IXGBE_ERR_CONFIG, None)
  | Some cfg =>
    let min_credit := (max_frame_size / 2 + IXGBE_DCB_CREDIT_QUANTUM - 1)
                      / IXGBE_DCB_CREDIT_QUANTUM in
    let bw_of p := row ← nth_c (bw_percentage cfg) direction; nth_c row (bwg_id p) in
    min_percent ← for_acc (Z.to_nat IXGBE_DCB_MAX_TRAFFIC_CLASS) 0 100 (fun i min_percent =>
      p ← get_path cfg i direction;
      bw_percent ← bw_of p;
      let link_percentage := u16 (Z.quot (bwg_percent p * bw_percent) 100) in
      mret (if negb (link_percentage =? 0) && (link_percentage <? min_percent)
            then link_percentage else min_percent));
    let min_multiplier := u32 (min_credit / min_percent + 1) in
    cfg ← for_acc (Z.to_nat IXGBE_DCB_MAX_TRAFFIC_CLASS) 0 cfg (fun i cfg =>
      t ← nth_c (tc_config cfg) i;
      p ← nth_c (path t) direction;
      bw_percent ← bw_of p;
      let '(p, desc) := cee_path_credits mac direction min_credit min_multiplier bw_percent p in
      ps ← upd_c (path t) direction p;
      let t := mk_tc_config ps (pfc t)
                 (match desc with Some d => d | None => desc_credits_max t end) (tc t) in
      l ← upd_c (tc_config cfg) i t;
      mret (upd_tc_config l cfg));
    mret (IXGBE_SUCCESS, Some cfg)
  end.

(** ** Unpacking *)
Definition ixgbe_dcb_unpack_pfc_cee (cfg : ixgbe_dcb_config) (map : list Z) : comp S Z :=
  for_acc (Z.to_nat IXGBE_DCB_MAX_USER_PRIORITY) 0 0 (fun up pfc_up =>
    m ← nth_c map up;
    t ← nth_c (tc_config cfg) m;
    mret (if bool_decide (pfc t = ixgbe_dcb_pfc_disabled) then pfc_up
          else u8 (Z.lor pfc_up (bit up)))).

(** [for (tc = 0; tc < MAX_TRAFFIC_CLASS; tc++) a[tc] = f(tc_config[tc])] *)
Definition unpack_loop (cfg : ixgbe_dcb_config) (a : list Z)
    (f : ixgbe_dcb_tc_config -> comp S Z) : comp S (list Z) :=
  for_acc (Z.to_nat IXGBE_DCB_MAX_TRAFFIC_CLASS) 0 a (fun tc a =>
    t ← nth_c (tc_config cfg) tc; v ← f t; upd_c a tc v).

Definition ixgbe_dcb_unpack_refill_cee (cfg : ixgbe_dcb_config) (direction : Z) (refill : list Z) :=
  unpack_loop cfg refill (fun t => p ← nth_c (path t) direction; mret (data_credits_refill p)).
Definition ixgbe_dcb_unpack_max_cee (cfg : ixgbe_dcb_config) (max : list Z) :=
  unpack_loop cfg max (fun t => mret (desc_credits_max t)).
Definition ixgbe_dcb_unpack_bwgid_cee (cfg : ixgbe_dcb_config) (direction : Z) (bwgid : list Z) :=
  unpack_loop cfg bwgid (fun t => p ← nth_c (path t) direction; mret (bwg_id p)).
Definition ixgbe_dcb_unpack_tsa_cee (cfg : ixgbe_dcb_config) (direction : Z) (tsas : list Z) :=
  unpack_loop cfg tsas (fun t => p ← nth_c (path t) direction; mret (tsa_val (tsa p))).

(** [for (; tc; tc--) if (prio_mask & ...) break;] with [tc] as the counter *)
Fixpoint tc_search (cfg : ixgbe_dcb_config) (direction prio_mask : Z) (tc : nat) : comp S Z :=
  match tc with
  | O => mret 0
  | Datatypes.S n =>
      p ← get_path cfg (Z.of_nat tc) direction;
      if has prio_mask (up_to_tc_bitmap p) then mret (Z.of_nat tc)
      else tc_search cfg direction prio_mask n
  end.

Definition ixgbe_dcb_get_tc_from_up (cfg : ixgbe_dcb_config) (direction up : Z) : comp S Z :=
  let prio_mask := u8 (bit up) in
  let tc := pg_tcs (num_tcs cfg) in
  if tc =? 0 then mret 0
  else tc_search cfg direction prio_mask (Z.to_nat (tc - 1)).

Definition ixgbe_dcb_unpack_map_cee (cfg : ixgbe_dcb_config) (direction : Z) (map : list Z)
    : comp S (list Z) :=
  for_acc (Z.to_nat IXGBE_DCB_MAX_USER_PRIORITY) 0 map (fun up map =>
    tc ← ixgbe_dcb_get_tc_from_up cfg direction up; upd_c map up tc).

(** ** Rule checking

    Row [i] of [bw_sum] and [link_strict] is only used in iteration [i]; the two
    rows are the accumulators of the inner loops. *)
Definition check_tc (cfg : ixgbe_dcb_config) (i j : Z) (bw_sum : list Z) (link_strict : list bool)
    : comp S ((list Z * list bool) + Z) :=
  p ← get_path cfg j i;
  let bw := bwg_percent p in
  let bw_id := bwg_id p in
  if IXGBE_DCB_MAX_BW_GROUP <=? bw_id then mret (inr IXGBE_ERR_CONFIG)
  else
    let add link_strict :=
      s ← nth_c bw_sum bw_id;
      bw_sum ← upd_c bw_sum bw_id (u8 (s + bw));
      mret (inl (bw_sum, link_strict)) in
    if bool_decide (tsa p = ixgbe_dcb_tsa_strict) then
      link_strict ← upd_c link_strict bw_id true;
      if negb (bw =? 0) then mret (inr IXGBE_ERR_CONFIG) else add link_strict
    else if bw =? 0 then mret (inr IXGBE_ERR_CONFIG)
    else add link_strict.

Definition check_bwg (cfg : ixgbe_dcb_config) (i j : Z) (bw_sum : list Z) (link_strict : list bool)
    (bw : Z) : comp S (Z + Z) :=
  row ← nth_c (bw_percentage cfg) i;
  b ← nth_c row j;
  let bw := u8 (bw + b) in
  strict ← nth_c link_strict j;
  s ← nth_c bw_sum j;
  if strict : bool then
    if negb (s =? 0) then mret (inr IXGBE_ERR_CONFIG) else mret (inl bw)
  else if negb (s =? IXGBE_DCB_BW_PERCENT) && negb (s =? 0) then mret (inr IXGBE_ERR_CONFIG)
  else mret (inl bw).

Definition check_direction (cfg : ixgbe_dcb_config) (i : Z) : comp S (unit + Z) :=
  r ← for_break (Z.to_nat IXGBE_DCB_MAX_TRAFFIC_CLASS) 0 (replicate 8 0, replicate 8 false)
        (fun j '(bw_sum, link_strict) => check_tc cfg i j bw_sum link_strict);
  match r with
  | inr e => mret (inr e)
  | inl (bw_sum, link_strict) =>
      r ← for_break (Z.to_nat IXGBE_DCB_MAX_BW_GROUP) 0 0
            (fun j bw => check_bwg cfg i j bw_sum link_strict bw);
      match r with
      | inr e => mret (inr e)
      | inl bw => if negb (bw =? IXGBE_DCB_BW_PERCENT) then mret (inr IXGBE_ERR_CONFIG)
                  else mret (inl tt)
      end
  end.

Definition ixgbe_dcb_check_config_cee (cfg : ixgbe_dcb_config) : comp S Z :=
  r ← for_break 2 0 tt (fun i _ => check_direction cfg i);
  mret (match r with inl _ => IXGBE_SUCCESS | inr e => e end).

End Dcb.
