(* ===== verification/DcbProps.v ===== *)
(** * Properties of the DCB computations

    Credits, the rule check as an equivalence with the rules it enforces, and
    the lookups that turn a CEE configuration into what the hardware needs. *)
From S2P Require Import Prelude Regs Types Dcb.

(** ** IEEE credits *)

(** half a frame in units of 64 bytes, rounded up *)
Definition min_credits (max_frame_size : Z) : Z := (max_frame_size / 2 + 63) / 64.

Definition share_step (m b : Z) : Z := if (b <? m) && negb (b =? 0) then b else m.

(** the smallest non-zero percentage, at most 100 *)
Definition smallest_share (bw : list Z) : Z :=
  foldl share_step 100 bw.

Definition refill_credits (mfs : Z) (bw : list Z) (b : Z) : Z :=
  Z.max (Z.min (b * (min_credits mfs / smallest_share bw + 1)) IXGBE_DCB_MAX_CREDIT_REFILL)
        (min_credits mfs).
Definition max_credits (mfs b : Z) : Z :=
  if b =? 0 then min_credits mfs else b * IXGBE_DCB_MAX_CREDIT / 100.

Lemma smallest_share_bounds bw : Forall (in_range 8) bw -> 1 <= smallest_share bw <= 100.
Proof.
  unfold smallest_share. intros H.
  enough (forall m, 1 <= m <= 100 ->
    1 <= foldl share_step m bw <= 100) as Hm
    by (apply Hm; lia).
  induction H as [|b bw Hb _ IH]; intros m Hm; [done|]. simpl. apply IH.
  unfold in_range in Hb. unfold share_step.
  destruct (Z.ltb_spec b m), (Z.eqb_spec b 0); simpl; lia.
Qed.

Lemma share_foldl_le l m : foldl share_step m l <= m.
Proof.
  revert m. induction l as [|x l IH]; intros m; simpl; [lia|]. etrans; [apply IH|].
  unfold share_step. destruct (Z.ltb_spec x m); simpl; [|lia]. destruct (x =? 0); simpl; lia.
Qed.

Lemma smallest_share_le bw b : b ∈ bw -> b <> 0 -> smallest_share bw <= b.
Proof.
  unfold smallest_share. intros Hb H0. generalize 100.
  induction bw as [|x bw IH]; intros m; [by apply not_elem_of_nil in Hb|]. simpl.
  apply elem_of_cons in Hb as [->|Hb]; [|by apply IH].
  etrans; [apply share_foldl_le|]. unfold share_step.
  destruct (Z.ltb_spec x m), (Z.eqb_spec x 0); simpl; lia.
Qed.

Section Credits.
Context {S : Type}.
Implicit Types s : S.

Lemma wp_min_percent (bw : list Z) s : length bw = 8%nat ->
  wp (for_acc (Z.to_nat IXGBE_DCB_MAX_TRAFFIC_CLASS) 0 100 (fun i min_percent =>
        b ← nth_c bw i;
        mret (if (b <? min_percent) && negb (b =? 0) then b else min_percent)))
     (fun m s' => m = smallest_share bw /\ s' = s) s.
Proof.
  intros Hl. eapply wp_mono.
  { apply wp_for_acc with (Inv := fun k m s' =>
      m = foldl share_step 100 (take (Z.to_nat k) bw) /\ s' = s); [done|].
    intros k m s' Hk [-> ->]. change (Z.of_nat _) with 8 in Hk.
    destruct (lookup_lt_is_Some_2 bw (Z.to_nat k)) as [b Hb]; [lia|].
    wp_step. apply (wp_nth_c _ _ b); [lia|done|]. wp_step. split; [|done].
    replace (Z.to_nat (k + 1)) with (Datatypes.S (Z.to_nat k)) by lia.
    by rewrite (take_S_r _ _ b), foldl_app by done. }
  intros m s' [-> ->]. split; [|done]. change (Z.to_nat (0 + _)) with 8%nat.
  by rewrite take_ge by lia.
Qed.

Lemma tc_credits_value (bw refill max : list Z) mfs s :
  length bw = 8%nat -> length refill = 8%nat -> length max = 8%nat ->
  Forall (in_range 8) bw -> 0 <= mfs < 2 ^ 16 ->
  wp (ixgbe_dcb_calculate_tc_credits bw refill max mfs)
     (fun '(ret, refill', max') s' => s' = s /\ ret = 0 /\
        refill' = refill_credits mfs bw <$> bw /\ max' = max_credits mfs <$> bw) s.
Proof.
  intros Hb Hr Hm HF Hmfs. unfold ixgbe_dcb_calculate_tc_credits.
  pose proof (smallest_share_bounds _ HF) as Hs.
  wp_step. eapply wp_mono; [by apply wp_min_percent|]. intros mp s' [-> ->].
  replace (Z.quot (Z.quot mfs 2 + IXGBE_DCB_CREDIT_QUANTUM - 1) IXGBE_DCB_CREDIT_QUANTUM)
    with (min_credits mfs).
  2:{ unfold min_credits, IXGBE_DCB_CREDIT_QUANTUM. rewrite (Z.quot_div_nonneg mfs) by lia.
      rewrite Z.quot_div_nonneg by (pose proof (Z.div_pos mfs 2); lia). f_equal. lia. }
  assert (0 <= min_credits mfs <= 512) as Hmc.
  { unfold min_credits. zlia. }
  rewrite Z.quot_div_nonneg by lia.
  wp_step. eapply wp_mono.
  { apply wp_for_acc with (Inv := fun k '(rf, mx) s' => s' = s /\
      rf = (refill_credits mfs bw <$> take (Z.to_nat k) bw) ++ drop (Z.to_nat k) refill /\
      mx = (max_credits mfs <$> take (Z.to_nat k) bw) ++ drop (Z.to_nat k) max); [done|].
    intros k [rf mx] s' Hk (-> & -> & ->). change (Z.of_nat _) with 8 in Hk.
    destruct (lookup_lt_is_Some_2 bw (Z.to_nat k)) as [b Eb]; [lia|].
    assert (in_range 8 b) as Hrb by by eapply Forall_lookup_1.
    wp_step. apply (wp_nth_c _ _ b); [lia|done|].
    assert (forall (f : Z -> Z) (l : list Z) v, length l = 8%nat -> u16 v = f b ->
      <[Z.to_nat k := u16 v]> ((f <$> take (Z.to_nat k) bw) ++ drop (Z.to_nat k) l) =
      (f <$> take (Z.to_nat (k + 1)) bw) ++ drop (Z.to_nat (k + 1)) l) as Hupd.
    { intros f l v Hl Hv. destruct (lookup_lt_is_Some_2 l (Z.to_nat k)) as [y Hy]; [lia|].
      rewrite Hv. replace (Z.to_nat (k + 1)) with (Datatypes.S (Z.to_nat k)) by lia.
      rewrite (take_S_r _ _ b), fmap_app by done. rewrite (drop_S _ y) by done.
      rewrite insert_app_r_alt by (rewrite length_fmap, length_take; lia).
      rewrite length_fmap, length_take_le by lia. rewrite Nat.sub_diag. simpl.
      by rewrite <- app_assoc. }
    unfold in_range in Hrb.
    wp_step. apply wp_upd_c.
    { rewrite length_app, length_fmap, length_take, length_drop. lia. }
    wp_step. apply wp_upd_c.
    { rewrite length_app, length_fmap, length_take, length_drop. lia. }
    wp_step. split; [done|]. split; apply Hupd; [done| |done|].
    - unfold refill_credits.
      set (x := Z.min (b * (min_credits mfs / smallest_share bw + 1)) IXGBE_DCB_MAX_CREDIT_REFILL).
      assert (0 <= x <= 511).
      { subst x. unfold IXGBE_DCB_MAX_CREDIT_REFILL.
        pose proof (Z.div_pos (min_credits mfs) (smallest_share bw)). nia. }
      rewrite trunc_small; [destruct (Z.ltb_spec x (min_credits mfs)); lia|].
      unfold in_range. destruct (x <? min_credits mfs); lia.
    - unfold max_credits, IXGBE_DCB_MAX_CREDIT. destruct (Z.eqb_spec b 0); simpl.
      + apply trunc_small. unfold in_range. lia.
      + rewrite Z.quot_div_nonneg by lia. apply trunc_small. unfold in_range.
        split; [apply Z.div_pos; lia|]. apply Z.div_lt_upper_bound; lia. }
  intros [rf mx] s' (-> & -> & ->). apply wp_ret. split; [done|]. split; [done|].
  change (Z.to_nat (0 + _)) with 8%nat. cbn [fst snd].
  by rewrite !take_ge, !drop_ge, !app_nil_r by lia.
Qed.

(** C27: the IEEE credits.  For a frame size of 16 bits and percentages of 8 bits
    the function ends and, class by class: the refill is enough for half a
    frame ([64 * refill >= max_frame_size / 2]) and fits the 9-bit field unless the
    frame itself needs more; the maximum of a class with a share is that percentage
    of 4095; a class without share gets exactly the minimum as refill and maximum.
    A larger share never gets a smaller refill; among the classes with a share a
    larger one never gets a smaller maximum (a class without share may get a larger
    one), and below the cap of 511 their refills are in the exact ratio of the
    percentages. *)
Theorem tc_credits_fair (bw refill max : list Z) mfs s :
  length bw = 8%nat -> length refill = 8%nat -> length max = 8%nat ->
  Forall (in_range 8) bw -> 0 <= mfs < 2 ^ 16 ->
  wp (ixgbe_dcb_calculate_tc_credits bw refill max mfs)
     (fun '(ret, refill', max') s' => ret = 0 /\ length refill' = 8%nat /\ length max' = 8%nat /\
        (forall i b r m, bw !! i = Some b -> refill' !! i = Some r -> max' !! i = Some m ->
           mfs / 2 <= 64 * r /\ r <= Z.max 511 (min_credits mfs) /\ 0 <= m < 2 ^ 16 /\
           m = (if b =? 0 then min_credits mfs else b * 4095 / 100) /\
           (b = 0 -> r = min_credits mfs)) /\
        (forall i j bi bj ri rj mi mj, bw !! i = Some bi -> bw !! j = Some bj ->
           refill' !! i = Some ri -> refill' !! j = Some rj ->
           max' !! i = Some mi -> max' !! j = Some mj -> bi <= bj ->
           ri <= rj /\ (0 < bi -> mi <= mj /\ (rj < 511 -> ri * bj = rj * bi)))) s.
Proof.
  intros Hb Hr Hm HF Hmfs. eapply wp_mono; [by apply tc_credits_value|].
  intros [[ret rf] mx] s' (_ & -> & -> & ->). split; [done|].
  rewrite !length_fmap. split; [done|]. split; [done|].
  pose proof (smallest_share_bounds _ HF) as Hs.
  assert (0 <= min_credits mfs <= 512 /\ mfs / 2 <= 64 * min_credits mfs) as [Hmc Hfr].
  { unfold min_credits. zlia. }
  pose proof (Z.div_pos (min_credits mfs) (smallest_share bw)) as Hq.
  split.
  - intros i b r m Hi (? & -> & E1)%list_lookup_fmap_Some (? & -> & E2)%list_lookup_fmap_Some.
    rewrite Hi in E1, E2. injection E1 as <-. injection E2 as <-.
    assert (in_range 8 b) as Hrb by by eapply Forall_lookup_1. unfold in_range in Hrb.
    unfold refill_credits, max_credits, IXGBE_DCB_MAX_CREDIT_REFILL, IXGBE_DCB_MAX_CREDIT.
    split; [lia|]. split; [lia|]. split; [|split; [done|intros ->; simpl; lia]].
    destruct (b =? 0); [lia|]. split; [apply Z.div_pos; lia|apply Z.div_lt_upper_bound; lia].
  - intros i j bi bj ri rj mi mj Hi Hj (? & -> & E1)%list_lookup_fmap_Some
      (? & -> & E2)%list_lookup_fmap_Some (? & -> & E3)%list_lookup_fmap_Some
      (? & -> & E4)%list_lookup_fmap_Some Hij.
    rewrite Hi in E1, E3. rewrite Hj in E2, E4.
    injection E1 as <-. injection E2 as <-. injection E3 as <-. injection E4 as <-.
    unfold refill_credits, max_credits, IXGBE_DCB_MAX_CREDIT_REFILL, IXGBE_DCB_MAX_CREDIT.
    set (q := min_credits mfs / smallest_share bw) in *.
    assert (in_range 8 bi) as Hrb by by eapply Forall_lookup_1. unfold in_range in Hrb.
    assert (0 <= q) by (apply Hq; lia). assert (bi * (q + 1) <= bj * (q + 1)) by nia.
    split; [lia|]. intros Hpos. split.
    + destruct (Z.eqb_spec bi 0), (Z.eqb_spec bj 0); try lia. apply Z.div_le_mono; lia.
    + intros Hcap. assert (smallest_share bw <= bi) as Hle.
      { apply smallest_share_le; [by eapply list_elem_of_lookup_2|lia]. }
      assert (min_credits mfs < bi * (q + 1)).
      { pose proof (Z.div_mod (min_credits mfs) (smallest_share bw)).
        pose proof (Z.mod_pos_bound (min_credits mfs) (smallest_share bw)). subst q. nia. }
      rewrite !Z.min_l, !Z.max_l by lia. lia.
Qed.
End Credits.

(** With jumbo frames a class of 1% gets a maximum of 40 credits, less than its
    refill of 77 and than half a frame; a class without share gets 76. *)
Example ieee_small_maximum :
  ixgbe_dcb_calculate_tc_credits [1; 0; 33; 33; 33; 0; 0; 0] (replicate 8 0) (replicate 8 0) 9728 tt =
    Done (0, [77; 76; 511; 511; 511; 76; 76; 76], [40; 76; 1351; 1351; 1351; 76; 76; 76]) tt.
Proof. reflexivity. Qed.

Lemma tc_credits_fair_witness :
  wp (ixgbe_dcb_calculate_tc_credits [10; 20; 0; 0; 30; 0; 0; 40] (replicate 8 0) (replicate 8 0) 1522)
     (fun '(ret, refill', max') _ => refill' = [20; 40; 12; 12; 60; 12; 12; 80] /\
        length max' = 8%nat) tt.
Proof.
  eapply wp_mono; [apply wp_conj; [apply (tc_credits_fair (S := unit) [10; 20; 0; 0; 30; 0; 0; 40]
    (replicate 8 0) (replicate 8 0) 1522 tt); [reflexivity|reflexivity|reflexivity| |]|]|].
  - repeat constructor; unfold in_range; simpl; lia.
  - lia.
  - instantiate (1 := fun x _ => x.1.2 = [20; 40; 12; 12; 60; 12; 12; 80]). vm_compute. reflexivity.
  - intros [[ret rf] mx] s' [(_ & _ & Hl & _) Hv]. exact (conj Hv Hl).
Defined.

(** ** The CEE rules *)

(** what the C types guarantee of a [struct ixgbe_dcb_config] *)
Record dcb_shape (cfg : ixgbe_dcb_config) : Prop := {
  sh_tcs : length (tc_config cfg) = 8%nat;
  sh_paths : Forall (fun t => length (path t) = 2%nat /\
    Forall (fun p => in_range 8 (bwg_id p) /\ in_range 8 (bwg_percent p)) (path t)) (tc_config cfg);
  sh_rows : length (bw_percentage cfg) = 2%nat;
  sh_row : Forall (fun r => length r = 8%nat /\ Forall (in_range 8) r) (bw_percentage cfg);
  sh_pg : in_range 8 (pg_tcs (num_tcs cfg));
}.

(** the paths of one direction, and its row of group percentages *)
Definition dir_paths (cfg : ixgbe_dcb_config) (i : nat) : list ixgbe_dcb_tc_path :=
  omap (fun t => path t !! i) (tc_config cfg).
Definition dir_row (cfg : ixgbe_dcb_config) (i : nat) : list Z := default [] (bw_percentage cfg !! i).

Definition group_sum (ps : list ixgbe_dcb_tc_path) (g : Z) : Z :=
  zsum ((fun p => if bwg_id p =? g then bwg_percent p else 0) <$> ps).
Definition group_strict (ps : list ixgbe_dcb_tc_path) (g : Z) : bool :=
  existsb (fun p => (bwg_id p =? g) && bool_decide (tsa p = ixgbe_dcb_tsa_strict)) ps.

Definition tc_rule (p : ixgbe_dcb_tc_path) : Prop :=
  bwg_id p < 8 /\ (tsa p = ixgbe_dcb_tsa_strict <-> bwg_percent p = 0).
Definition bwg_rule (ps : list ixgbe_dcb_tc_path) (g : Z) : Prop :=
  u8 (group_sum ps g) = 0 \/ (group_strict ps g = false /\ u8 (group_sum ps g) = 100).

(** the rules as the code applies them: sums are of type [u8] *)
Definition dcb_rules (cfg : ixgbe_dcb_config) (i : nat) : Prop :=
  Forall tc_rule (dir_paths cfg i) /\
  (forall g, 0 <= g < 8 -> bwg_rule (dir_paths cfg i) g) /\
  u8 (zsum (dir_row cfg i)) = 100.

Lemma group_sum_snoc ps p g :
  group_sum (ps ++ [p]) g = group_sum ps g + (if bwg_id p =? g then bwg_percent p else 0).
Proof. unfold group_sum. rewrite fmap_app, zsum_app. simpl. lia. Qed.

Lemma group_strict_snoc ps p g :
  group_strict (ps ++ [p]) g =
    group_strict ps g || ((bwg_id p =? g) && bool_decide (tsa p = ixgbe_dcb_tsa_strict)).
Proof. unfold group_strict. rewrite existsb_app. simpl. by rewrite orb_false_r. Qed.

(** a table indexed by bandwidth group *)
Definition table {A} (f : Z -> A) : list A := f <$> seqZ 0 8.
#[global] Arguments table : simpl never.

Lemma table_lookup {A} (f : Z -> A) g : 0 <= g < 8 -> table f !! Z.to_nat g = Some (f g).
Proof.
  intros Hg. unfold table. rewrite list_lookup_fmap, lookup_seqZ_lt by lia. simpl. do 2 f_equal. lia.
Qed.

Lemma table_length {A} (f : Z -> A) : length (table f) = 8%nat.
Proof. unfold table. by rewrite length_fmap, length_seqZ. Qed.

Lemma table_insert {A} (f f' : Z -> A) g : 0 <= g < 8 ->
  (forall x, 0 <= x < 8 -> x <> g -> f' x = f x) -> <[Z.to_nat g := f' g]> (table f) = table f'.
Proof.
  intros Hg Hf. apply list_eq_same_length with (n := 8%nat).
  - apply table_length.
  - by rewrite length_insert, table_length.
  - intros i x y Hi. replace i with (Z.to_nat (Z.of_nat i)) at 1 by lia.
    destruct (decide (Z.of_nat i = g)) as [<-|Hne].
    + rewrite list_lookup_insert_eq by (rewrite table_length; lia).
      rewrite <- (Nat2Z.id i) at 2. rewrite table_lookup by lia. congruence.
    + rewrite list_lookup_insert_ne by lia. rewrite <- (Nat2Z.id i) at 2.
      rewrite !table_lookup by lia. intros [= <-] [= <-]. symmetry. apply Hf; lia.
Qed.

Lemma table_ext {A} (f f' : Z -> A) : (forall x, 0 <= x < 8 -> f x = f' x) -> table f = table f'.
Proof.
  intros H. unfold table. apply list_fmap_ext. intros i x Hx.
  apply lookup_seqZ in Hx as [-> ?]. apply H. lia.
Qed.

Section Rules.
Context {S : Type} (cfg : ixgbe_dcb_config) (Hsh : dcb_shape cfg).
Implicit Types s : S.

Lemma dir_paths_lookup i j t : (i < 2)%nat -> tc_config cfg !! j = Some t ->
  exists p, path t !! i = Some p /\ dir_paths cfg i !! j = Some p /\
    in_range 8 (bwg_id p) /\ in_range 8 (bwg_percent p).
Proof.
  intros Hi Hj. destruct Hsh as [_ Hp _ _ _]. unfold dir_paths.
  assert (forall l, Forall (fun t => length (path t) = 2%nat) l ->
    omap (fun t => path t !! i) l = (fun t => default (mk_tc_path 0 0 0 0 0 0 ixgbe_dcb_tsa_ets)
      (path t !! i)) <$> l) as Hmap.
  { induction 1 as [|u l Hu _ IH]; [done|]. simpl.
    destruct (lookup_lt_is_Some_2 (path u) i) as [q ->]; [lia|]. simpl. by f_equal. }
  pose proof (Forall_lookup_1 _ _ _ _ Hp Hj) as [Hl Hq].
  destruct (lookup_lt_is_Some_2 (path t) i) as [p E]; [lia|]. exists p. split; [done|]. split.
  - rewrite Hmap by (eapply Forall_impl; [|exact Hp]; naive_solver).
    rewrite list_lookup_fmap, Hj. simpl. by rewrite E.
  - by apply (Forall_lookup_1 _ _ _ _ Hq E).
Qed.

Lemma dir_paths_length i : (i < 2)%nat -> length (dir_paths cfg i) = 8%nat.
Proof.
  intros Hi. destruct Hsh as [Hl Hp _ _ _]. rewrite <- Hl. clear Hl. unfold dir_paths.
  induction Hp as [|t l [Ht _] _ IH]; [done|]. simpl.
  destruct (lookup_lt_is_Some_2 (path t) i) as [q ->]; [lia|]. simpl. by f_equal.
Qed.

Lemma wp_get_path i j (Q : ixgbe_dcb_tc_path -> S -> Prop) s : 0 <= i < 2 -> 0 <= j < 8 ->
  (forall p, dir_paths cfg (Z.to_nat i) !! Z.to_nat j = Some p ->
     in_range 8 (bwg_id p) -> in_range 8 (bwg_percent p) -> Q p s) ->
  wp (get_path cfg j i) Q s.
Proof.
  intros Hi Hj HQ. unfold get_path.
  destruct (lookup_lt_is_Some_2 (tc_config cfg) (Z.to_nat j)) as [t Ht];
    [rewrite (sh_tcs _ Hsh); lia|].
  destruct (dir_paths_lookup (Z.to_nat i) (Z.to_nat j) t) as (p & E & Hp & H1 & H2); [lia|done|].
  wp_step. apply (wp_nth_c _ _ t); [lia|done|]. apply (wp_nth_c _ _ p); [lia|done|]. auto.
Qed.

(** the accumulators after the first [k] traffic classes *)
Definition sums_after (ps : list ixgbe_dcb_tc_path) : list Z * list bool :=
  (table (fun g => u8 (group_sum ps g)), table (group_strict ps)).

Lemma check_tc_spec i j s : 0 <= i < 2 -> 0 <= j < 8 ->
  let ps := take (Z.to_nat j) (dir_paths cfg (Z.to_nat i)) in
  wp (check_tc cfg i j (sums_after ps).1 (sums_after ps).2)
     (fun r s' => s' = s /\ exists p, dir_paths cfg (Z.to_nat i) !! Z.to_nat j = Some p /\
        match r with
        | inl a => tc_rule p /\ a = sums_after (ps ++ [p])
        | inr e => e = IXGBE_ERR_CONFIG /\ ~ tc_rule p
        end) s.
Proof.
  intros Hi Hj ps. unfold check_tc. wp_step. apply wp_get_path; [done|done|].
  intros p Hp Hid Hpc. unfold in_range in Hid, Hpc. unfold tc_rule, IXGBE_DCB_MAX_BW_GROUP.
  destruct (Z.leb_spec 8 (bwg_id p)).
  { apply wp_ret. split; [done|]. exists p. split; [done|]. split; [done|lia]. }
  assert (Hadd : forall st, st = table (group_strict (ps ++ [p])) ->
    wp (s0 ← nth_c (sums_after ps).1 (bwg_id p);
        b ← upd_c (sums_after ps).1 (bwg_id p) (u8 (s0 + bwg_percent p));
        mret (inl (b, st))) (fun r s' => s' = s /\ r = inl (B := Z) (sums_after (ps ++ [p]))) s).
  { intros st ->. wp_step. apply (wp_nth_c _ _ (u8 (group_sum ps (bwg_id p)))); [lia| |].
    { apply (table_lookup (fun g => u8 (group_sum ps g))). lia. }
    wp_step. apply wp_upd_c; [unfold sums_after; cbn [fst snd]; rewrite table_length; lia|]. wp_step. split; [done|].
    unfold sums_after. do 2 f_equal. cbn [fst].
    rewrite trunc_add_l by lia.
    replace (group_sum ps (bwg_id p) + bwg_percent p) with (group_sum (ps ++ [p]) (bwg_id p))
      by (rewrite group_sum_snoc, Z.eqb_refl; done).
    erewrite (table_insert _ (fun g => u8 (group_sum (ps ++ [p]) g))); [done|lia|].
    intros x _ Hne. rewrite group_sum_snoc. destruct (Z.eqb_spec (bwg_id p) x); [done|].
    by rewrite Z.add_0_r. }
  case_bool_decide as Hst.
  - wp_step. apply wp_upd_c; [unfold sums_after; cbn [fst snd]; rewrite table_length; lia|].
    destruct (Z.eqb_spec (bwg_percent p) 0) as [E|E]; simpl.
    + eapply wp_mono; [apply Hadd|].
      * rewrite <- (table_insert (group_strict ps) (group_strict (ps ++ [p])) (bwg_id p));
          [|lia|].
        -- rewrite group_strict_snoc, Z.eqb_refl, bool_decide_true by done. by rewrite orb_true_r.
        -- intros x _ Hne. rewrite group_strict_snoc. destruct (Z.eqb_spec (bwg_id p) x); [done|].
           by rewrite orb_false_r.
      * intros r s' [-> ->]. split; [done|]. exists p. split; [done|]. by split.
    + apply wp_ret. split; [done|]. exists p. split; [done|]. split; [done|]. tauto.
  - destruct (Z.eqb_spec (bwg_percent p) 0) as [E|E]; simpl.
    + apply wp_ret. split; [done|]. exists p. split; [done|]. split; [done|]. tauto.
    + eapply wp_mono; [apply Hadd|].
      * apply table_ext. intros x _. rewrite group_strict_snoc, bool_decide_false by done.
        by rewrite andb_false_r, orb_false_r.
      * intros r s' [-> ->]. split; [done|]. exists p. split; [done|]. by split.
Qed.

Lemma dir_row_shape i : 0 <= i < 2 ->
  bw_percentage cfg !! Z.to_nat i = Some (dir_row cfg (Z.to_nat i)) /\
  length (dir_row cfg (Z.to_nat i)) = 8%nat.
Proof using Hsh.
  intros Hi. destruct Hsh as [_ _ Hl Hr _]. unfold dir_row.
  destruct (lookup_lt_is_Some_2 (bw_percentage cfg) (Z.to_nat i)) as [r E]; [lia|].
  rewrite E. split; [done|]. apply (Forall_lookup_1 _ _ _ _ Hr E).
Qed.

Lemma check_bwg_spec i g bw s : 0 <= i < 2 -> 0 <= g < 8 ->
  let ps := dir_paths cfg (Z.to_nat i) in
  wp (check_bwg cfg i g (sums_after ps).1 (sums_after ps).2 bw)
     (fun r s' => s' = s /\ exists b, dir_row cfg (Z.to_nat i) !! Z.to_nat g = Some b /\
        match r with
        | inl bw' => bwg_rule ps g /\ bw' = u8 (bw + b)
        | inr e => e = IXGBE_ERR_CONFIG /\ ~ bwg_rule ps g
        end) s.
Proof using Hsh.
  intros Hi Hg ps. unfold check_bwg. destruct (dir_row_shape i Hi) as [Er Hlr].
  destruct (lookup_lt_is_Some_2 (dir_row cfg (Z.to_nat i)) (Z.to_nat g)) as [b Eb]; [lia|].
  wp_step. apply (wp_nth_c _ _ (dir_row cfg (Z.to_nat i))); [lia|done|].
  wp_step. apply (wp_nth_c _ _ b); [lia|done|].
  wp_step. apply (wp_nth_c _ _ (group_strict ps g)); [lia|by apply (table_lookup (group_strict ps))|].
  wp_step. apply (wp_nth_c _ _ (u8 (group_sum ps g)));
    [lia|by apply (table_lookup (fun g => u8 (group_sum ps g)))|].
  unfold bwg_rule, IXGBE_DCB_BW_PERCENT.
  destruct (group_strict ps g), (Z.eqb_spec (u8 (group_sum ps g)) 0) as [E0|E0],
    (Z.eqb_spec (u8 (group_sum ps g)) 100) as [E1|E1]; simpl; apply wp_ret;
    (split; [done|]); exists b; (split; [done|]); (split; [auto|]); try done;
    naive_solver congruence.
Qed.

Lemma check_direction_spec i s : 0 <= i < 2 ->
  wp (check_direction cfg i) (fun r s' => s' = s /\
    match r with
    | inl _ => dcb_rules cfg (Z.to_nat i)
    | inr e => e = IXGBE_ERR_CONFIG /\ ~ dcb_rules cfg (Z.to_nat i)
    end) s.
Proof using Hsh.
  intros Hi. unfold check_direction. set (ps := dir_paths cfg (Z.to_nat i)).
  assert (length ps = 8%nat) as Hps by (apply dir_paths_length; lia).
  wp_step. eapply wp_mono.
  { apply wp_for_break with (Inv := fun k a s' => s' = s /\
      Forall tc_rule (take (Z.to_nat k) ps) /\ a = sums_after (take (Z.to_nat k) ps))
      (Q := fun r s' => s' = s /\
         match r with
         | inl a => Forall tc_rule ps /\ a = sums_after ps
         | inr e => e = IXGBE_ERR_CONFIG /\ ~ Forall tc_rule ps
         end).
    - done.
    - intros k [bs ls] s' Hk (-> & HF & Ha). change (Z.of_nat _) with 8 in Hk.
      pose proof (check_tc_spec i k s Hi Hk) as H. cbv zeta in H. fold ps in H.
      rewrite <- Ha in H. eapply wp_mono; [exact H|]. clear H.
      intros [a|e] s' (-> & p & Hp & Hr); (split; [done|]).
      + destruct Hr as [Hr ->]. replace (Z.to_nat (k + 1)) with (Datatypes.S (Z.to_nat k)) by lia.
        rewrite (take_S_r _ _ p) by done. split; [|done]. apply Forall_app. split; [done|by apply Forall_singleton].
      + destruct Hr as [-> Hr]. split; [done|]. intros HF'. apply Hr.
        by apply (Forall_lookup_1 _ _ _ _ HF' Hp).
    - intros a s' (-> & HF & ->). change (Z.to_nat (0 + _)) with 8%nat in *.
      rewrite take_ge in * by lia. done. }
  intros [[bs ls]|e] s' [-> Hr].
  2:{ apply wp_ret. destruct Hr as [-> Hr]. split; [done|]. split; [done|]. by intros [? _]. }
  destruct Hr as [HF Ha]. wp_step. destruct (dir_row_shape i Hi) as [_ Hlr].
  eapply wp_mono.
  { apply wp_for_break with (Inv := fun k bw s' => s' = s /\
      (forall g, 0 <= g < k -> bwg_rule ps g) /\
      bw = u8 (zsum (take (Z.to_nat k) (dir_row cfg (Z.to_nat i)))))
      (Q := fun r s' => s' = s /\
         match r with
         | inl bw => (forall g, 0 <= g < 8 -> bwg_rule ps g) /\
                     bw = u8 (zsum (dir_row cfg (Z.to_nat i)))
         | inr e => e = IXGBE_ERR_CONFIG /\ ~ (forall g, 0 <= g < 8 -> bwg_rule ps g)
         end).
    - split; [done|]. split; [lia|done].
    - intros k bw s' Hk (-> & Hg & ->). change (Z.of_nat _) with 8 in Hk.
      pose proof (check_bwg_spec i k (u8 (zsum (take (Z.to_nat k) (dir_row cfg (Z.to_nat i))))) s Hi Hk) as H.
      cbv zeta in H. fold ps in H. rewrite <- Ha in H. eapply wp_mono; [exact H|]. clear H.
      intros [a|e] s' (-> & b & Hb & Hr); (split; [done|]).
      + destruct Hr as [Hr ->]. split.
        * intros g Hg'. destruct (decide (g = k)) as [->|]; [done|]. apply Hg. lia.
        * replace (Z.to_nat (k + 1)) with (Datatypes.S (Z.to_nat k)) by lia.
          rewrite (take_S_r _ _ b), zsum_app by done. rewrite trunc_add_l by lia. simpl.
          by rewrite Z.add_0_r.
      + destruct Hr as [-> Hr]. split; [done|]. intros Hall. apply Hr, Hall. lia.
    - intros bw s' (-> & Hg & ->). change (0 + Z.of_nat _) with 8 in *.
      rewrite take_ge by lia. done. }
  intros [bw|e] s' [-> Hr]; [destruct Hr as [Hg ->]|destruct Hr as [-> Hr]].
  - unfold IXGBE_DCB_BW_PERCENT. destruct (Z.eqb_spec (u8 (zsum (dir_row cfg (Z.to_nat i)))) 100) as [E|E];
      apply wp_ret; (split; [done|]); [done|]. split; [done|]. by intros (_ & _ & ?).
  - apply wp_ret. split; [done|]. split; [done|]. by intros (_ & ? & _).
Qed.

(** [ixgbe_dcb_check_config_cee] decides the CEE rules: it accepts a
    configuration exactly when, for Tx and for Rx, every traffic class names an
    existing bandwidth group and has zero bandwidth if and only if it is link
    strict, every group's classes add up to 100 (or to 0, and always to 0 in a
    group with a link strict class), and the groups add up to 100, all sums
    being taken modulo 256.  Otherwise it returns IXGBE_ERR_CONFIG; it never
    leaves an array. *)
Theorem check_config_decides_rules s :
  wp (ixgbe_dcb_check_config_cee cfg) (fun r s' => s' = s /\
    (r = IXGBE_SUCCESS <-> dcb_rules cfg 0 /\ dcb_rules cfg 1) /\
    (r = IXGBE_SUCCESS \/ r = IXGBE_ERR_CONFIG)) s.
Proof using Hsh.
  unfold ixgbe_dcb_check_config_cee. wp_step. change 2%nat with (Datatypes.S 1).
  rewrite for_break_S. wp_step. eapply wp_mono; [apply (check_direction_spec 0); lia|].
  intros [[]|e] s1 [-> H0].
  - rewrite for_break_S. wp_step. eapply wp_mono; [apply (check_direction_spec 1); lia|].
    intros [[]|e] s2 [-> H1].
    + apply (wp_ret (inl tt)), wp_ret. split; [done|]. split; [|by left].
      split; [by split|done].
    + destruct H1 as [-> H1]. apply wp_ret, wp_ret. split; [done|]. split; [|by right].
      split; [done|]. by intros [_ ?].
  - destruct H0 as [-> H0]. apply wp_ret, wp_ret. split; [done|]. split; [|by right].
    split; [done|]. by intros [? _].
Qed.
End Rules.

(** three groups of 100 percent and one of 56: 356 percent of the link *)
Definition overcommitted : ixgbe_dcb_config :=
  let p b := mk_tc_path 0 b 0 0 0 0 ixgbe_dcb_tsa_ets in
  let t b := mk_tc_config [p b; p b] ixgbe_dcb_pfc_disabled 0 0 in
  mk_dcb_config [t 13; t 13; t 13; t 13; t 12; t 12; t 12; t 12] (mk_num_tcs 8 8)
    [[100; 100; 100; 56; 0; 0; 0; 0]; [100; 100; 100; 56; 0; 0; 0; 0]] false false 0 false.

(** The rule "the bandwidth percentages of all groups must total 100" is not
    enforced: the sums are kept in a [u8], and a configuration that hands out 356
    percent of the link in both directions is accepted. *)
Theorem check_config_accepts_overcommitted :
  wp (S := unit) (ixgbe_dcb_check_config_cee overcommitted) (fun r _ => r = IXGBE_SUCCESS) tt /\
  zsum (dir_row overcommitted 0) = 356 /\ zsum (dir_row overcommitted 1) = 356.
Proof. vm_compute. done. Qed.

Lemma check_config_decides_rules_witness :
  wp (ixgbe_dcb_check_config_cee overcommitted) (fun r s' => s' = tt /\
    (r = IXGBE_SUCCESS <-> dcb_rules overcommitted 0 /\ dcb_rules overcommitted 1) /\
    (r = IXGBE_SUCCESS \/ r = IXGBE_ERR_CONFIG)) tt.
Proof.
  apply check_config_decides_rules. split; [reflexivity| |reflexivity| |].
  - repeat constructor; unfold in_range; simpl; lia.
  - repeat constructor; unfold in_range; simpl; lia.
  - unfold in_range. simpl. lia.
Defined.

(** ** User priorities to traffic classes *)

(** class [t] of direction [i] lists priority [up] in its bitmap *)
Definition owns (cfg : ixgbe_dcb_config) (i : nat) (t up : Z) : Prop :=
  exists p, dir_paths cfg i !! Z.to_nat t = Some p /\ Z.testbit (up_to_tc_bitmap p) up = true.

Section Priorities.
Context {S : Type} (cfg : ixgbe_dcb_config) (Hsh : dcb_shape cfg) (i : Z) (Hi : 0 <= i < 2).
Implicit Types s : S.

Lemma has_comm x y : has x y = has y x.
Proof. unfold has. by rewrite Z.land_comm. Qed.

(** [ixgbe_dcb_get_tc_from_up] returns the highest class below
    [pg_tcs] that lists the priority, and 0 when none does (class 0 needs no
    entry) or when DCB is off; the result is always a valid class. *)
Theorem tc_from_up_is_highest up s : 0 <= up < 8 -> pg_tcs (num_tcs cfg) <= 8 ->
  wp (ixgbe_dcb_get_tc_from_up cfg i up) (fun t s' => s' = s /\
    0 <= t < Z.max 1 (pg_tcs (num_tcs cfg)) /\
    (0 < t -> owns cfg (Z.to_nat i) t up) /\
    (forall t', t < t' < pg_tcs (num_tcs cfg) -> ~ owns cfg (Z.to_nat i) t' up)) s.
Proof using Hsh Hi.
  intros Hup Hpg. pose proof (sh_pg _ Hsh) as Hr. unfold in_range in Hr.
  unfold ixgbe_dcb_get_tc_from_up.
  destruct (Z.eqb_spec (pg_tcs (num_tcs cfg)) 0) as [E|E].
  { apply wp_ret. rewrite E. repeat split; lia. }
  rewrite (trunc_small 8 (bit up)) by (apply bit_range; lia).
  assert (forall n, (n < 8)%nat -> Z.of_nat n < pg_tcs (num_tcs cfg) ->
    wp (tc_search cfg i (bit up) n) (fun t s' => s' = s /\ 0 <= t <= Z.of_nat n /\
      (0 < t -> owns cfg (Z.to_nat i) t up) /\
      (forall t', t < t' <= Z.of_nat n -> ~ owns cfg (Z.to_nat i) t' up)) s) as Hs.
  { induction n as [|n IH]; intros Hn Hlt; cbn [tc_search].
    { apply wp_ret. repeat split; lia. }
    wp_step. apply wp_get_path; [done|lia|lia|]. intros p Hp _ _.
    rewrite has_comm, has_bit by lia.
    destruct (Z.testbit (up_to_tc_bitmap p) up) eqn:Eb.
    - apply wp_ret. split; [done|]. split; [lia|]. split; [|lia]. intros _. by exists p.
    - eapply wp_mono; [apply IH; lia|]. intros t s' (-> & Ht & Ho & Hno). split; [done|].
      split; [lia|]. split; [done|]. intros t' Ht'.
      destruct (decide (t' = Z.of_nat (Datatypes.S n))) as [->|Hne]; [|apply Hno; lia].
      intros (p' & Hp' & Hb'). congruence. }
  eapply wp_mono; [apply Hs; lia|]. intros t s' (-> & Ht & Ho & Hno). split; [done|].
  split; [lia|]. split; [done|]. intros t' Ht'. apply Hno. lia.
Qed.
End Priorities.

Lemma tc_from_up_is_highest_witness :
  let p b := mk_tc_path 0 12 0 b 0 0 ixgbe_dcb_tsa_ets in
  let t b := mk_tc_config [p b; p b] ixgbe_dcb_pfc_enabled 0 0 in
  let cfg := mk_dcb_config [t 0x0F; t 0x30; t 0x20; t 0xC0; t 0; t 0; t 0; t 0] (mk_num_tcs 4 4)
    (replicate 2 (replicate 8 12)) false false 0 false in
  wp (ixgbe_dcb_get_tc_from_up cfg 0 5) (fun t s' => owns cfg 0 t 5 \/ t = 0) tt.
Proof.
  eapply wp_mono.
  - apply (tc_from_up_is_highest (S := unit)); [|lia|lia|vm_compute; discriminate].
    split; [reflexivity| |reflexivity| |].
    + repeat constructor; unfold in_range; simpl; lia.
    + repeat constructor; unfold in_range; simpl; lia.
    + unfold in_range. simpl. lia.
  - intros t s' (_ & Ht & Ho & _). destruct (decide (t = 0)) as [->|Hne]; [by right|left].
    apply Ho. lia.
Defined.

(** ** CEE credits *)
Section CeeCredits.
Context {S : Type} (mac : ixgbe_mac_type) (mfs dir : Z) (Hmfs : 0 <= mfs < 2 ^ 16).
Implicit Types s : S.

(** what a class's credits promise once they are computed *)
Definition credits_ok (p : ixgbe_dcb_tc_path) : Prop :=
  min_credits mfs <= data_credits_refill p <= Z.max 511 (min_credits mfs) /\
  min_credits mfs <= data_credits_max p < 2 ^ 16 /\
  (dir = IXGBE_DCB_TX_CONFIG -> mac = ixgbe_mac_82598EB -> data_credits_max p <> 0 ->
     IXGBE_DCB_MIN_TSO_CREDIT <= data_credits_max p).

Lemma min_credits_bound : 0 <= min_credits mfs <= 512.
Proof using Hmfs. unfold min_credits. zlia. Qed.

Lemma cee_path_credits_ok mult bw p :
  0 <= mult <= 513 -> in_range 8 bw -> in_range 8 (bwg_percent p) ->
  let '(p', desc) := cee_path_credits mac dir (min_credits mfs) mult bw p in
  credits_ok p' /\ bwg_id p' = bwg_id p /\ bwg_percent p' = bwg_percent p /\ tsa p' = tsa p /\
  up_to_tc_bitmap p' = up_to_tc_bitmap p /\
  desc = if dir =? IXGBE_DCB_TX_CONFIG then Some (data_credits_max p') else None.
Proof using Hmfs.
  intros Hm Hbw Hp. unfold in_range in *. pose proof min_credits_bound as Hmc.
  unfold cee_path_credits, credits_ok.
  assert (0 <= Z.quot (bwg_percent p * bw) 100 <= 650) as Hl.
  { rewrite Z.quot_div_nonneg by lia. split; [apply Z.div_pos; nia|].
    apply Z.lt_succ_r, Z.div_lt_upper_bound; nia. }
  rewrite (trunc_small 16 (Z.quot _ 100)) by (unfold in_range; lia).
  set (lp := if _ && _ then 1 else _).
  assert (0 <= lp <= 650) as Hlp by (subst lp; destruct (_ && _); lia).
  rewrite (trunc_small 32 (lp * mult)) by (unfold in_range; nia).
  assert (0 <= Z.quot (lp * IXGBE_DCB_MAX_CREDIT) 100 <= 26617) as Hc.
  { unfold IXGBE_DCB_MAX_CREDIT. rewrite Z.quot_div_nonneg by lia. zlia. }
  rewrite (trunc_small 32 (Z.quot _ 100)) by (unfold in_range; lia).
  set (cm := Z.quot (lp * IXGBE_DCB_MAX_CREDIT) 100) in *.
  assert (0 <= lp * mult) as Hpos by nia.
  set (rf := Z.min (lp * mult) IXGBE_DCB_MAX_CREDIT_REFILL).
  assert (0 <= rf <= 511) as Hrf by (subst rf; unfold IXGBE_DCB_MAX_CREDIT_REFILL; lia).
  set (cm1 := if cm <? min_credits mfs then min_credits mfs else cm).
  assert (min_credits mfs <= cm1 <= 26617) as Hcm1
    by (subst cm1; destruct (Z.ltb_spec cm (min_credits mfs)); lia).
  change IXGBE_DCB_MIN_TSO_CREDIT with 513.
  set (cm2 := if dir =? IXGBE_DCB_TX_CONFIG then _ else cm1).
  assert (min_credits mfs <= cm2 <= 26617 /\ (dir = IXGBE_DCB_TX_CONFIG -> mac = ixgbe_mac_82598EB ->
    cm2 <> 0 -> 513 <= cm2)) as [Hcm2 Htso].
  { subst cm2. destruct (Z.eqb_spec dir IXGBE_DCB_TX_CONFIG); [|split; [lia|done]].
    case_bool_decide; [|rewrite andb_false_r; split; [lia|done]]. rewrite andb_true_r.
    destruct (Z.eqb_spec cm1 0), (Z.ltb_spec cm1 513); simpl; (split; [lia|]); lia. }
  cbn [data_credits_refill data_credits_max bwg_id bwg_percent tsa up_to_tc_bitmap].
  rewrite (trunc_small 16 cm2) by (unfold in_range; lia).
  rewrite (trunc_small 16 (if rf <? min_credits mfs then min_credits mfs else rf))
    by (unfold in_range; destruct (rf <? min_credits mfs); lia).
  repeat split; try lia; try done.
  - destruct (Z.ltb_spec rf (min_credits mfs)); lia.
  - destruct (Z.ltb_spec rf (min_credits mfs)); lia.
Qed.

(** the entry of one class after the second loop *)
Definition cee_tc (mult : Z) (row : list Z) (t : ixgbe_dcb_tc_config) : ixgbe_dcb_tc_config :=
  match path t !! Z.to_nat dir with
  | Some p =>
      let r := cee_path_credits mac dir (min_credits mfs) mult (nth (Z.to_nat (bwg_id p)) row 0) p in
      mk_tc_config (<[Z.to_nat dir := r.1]> (path t)) (pfc t)
        (match r.2 with Some d => d | None => desc_credits_max t end) (tc t)
  | None => t
  end.

Context (cfg : ixgbe_dcb_config) (Hsh : dcb_shape cfg) (Hd : 0 <= dir < 2).
Context (Hids : Forall (fun p => bwg_id p < 8) (dir_paths cfg (Z.to_nat dir))).

Lemma wp_bw_of p (Q : Z -> S -> Prop) s : in_range 8 (bwg_id p) -> bwg_id p < 8 ->
  (in_range 8 (nth (Z.to_nat (bwg_id p)) (dir_row cfg (Z.to_nat dir)) 0) ->
   Q (nth (Z.to_nat (bwg_id p)) (dir_row cfg (Z.to_nat dir)) 0) s) ->
  wp (row ← nth_c (bw_percentage cfg) dir; nth_c row (bwg_id p)) Q s.
Proof using Hsh Hd.
  intros [Hp0 _] Hp HQ. destruct (dir_row_shape cfg Hsh dir Hd) as [Er Hl].
  wp_step. apply (wp_nth_c _ _ (dir_row cfg (Z.to_nat dir))); [lia|done|].
  destruct (lookup_lt_is_Some_2 (dir_row cfg (Z.to_nat dir)) (Z.to_nat (bwg_id p))) as [b Eb]; [lia|].
  rewrite (nth_lookup_Some _ _ 0 _ Eb) in HQ. apply (wp_nth_c _ _ b); [lia|done|]. apply HQ.
  pose proof (Forall_lookup_1 _ _ _ _ (sh_row _ Hsh) Er) as [_ HF].
  apply (Forall_lookup_1 _ _ _ _ HF Eb).
Qed.

Lemma cee_config s :
  wp (ixgbe_dcb_calculate_tc_credits_cee mac (Some cfg) mfs dir)
     (fun '(ret, c) s' => s' = s /\ ret = IXGBE_SUCCESS /\ exists mult, 0 <= mult <= 513 /\
        c = Some (upd_tc_config (cee_tc mult (dir_row cfg (Z.to_nat dir)) <$> tc_config cfg) cfg)) s.
Proof using Hmfs Hsh Hd Hids.
  pose proof min_credits_bound as Hmc.
  unfold ixgbe_dcb_calculate_tc_credits_cee. cbv zeta.
  assert ((mfs / 2 + IXGBE_DCB_CREDIT_QUANTUM - 1) / IXGBE_DCB_CREDIT_QUANTUM = min_credits mfs) as ->.
  { unfold min_credits, IXGBE_DCB_CREDIT_QUANTUM. f_equal. lia. }
  wp_step. eapply wp_mono with (P := fun m s' => s' = s /\ 1 <= m <= 100).
  { apply (wp_for_acc _ _ _ _ (fun _ m s' => s' = s /\ 1 <= m <= 100)); [done|].
    intros k m s' Hk [-> Hm]. change (Z.of_nat _) with 8 in Hk.
    wp_step. apply (wp_get_path cfg Hsh); [lia|lia|]. intros p Hp Hid Hpc.
    wp_step. apply wp_bw_of; [done|by apply (Forall_lookup_1 _ _ _ _ Hids Hp)|]. intros _.
    wp_step. split; [done|]. set (x := u16 _).
    assert (in_range 16 x) by by apply trunc_range. unfold in_range in *.
    destruct (Z.eqb_spec x 0), (Z.ltb_spec x m); simpl; lia. }
  intros mp s' [-> Hmp].
  assert (0 <= min_credits mfs / mp + 1 <= 513) as Hmult.
  { split; [pose proof (Z.div_pos (min_credits mfs) mp); lia|].
    pose proof (Z.div_le_upper_bound (min_credits mfs) mp 512). nia. }
  rewrite (trunc_small 32 (min_credits mfs / mp + 1)) by (unfold in_range; lia).
  set (mult := min_credits mfs / mp + 1) in *. set (row := dir_row cfg (Z.to_nat dir)).
  pose proof (sh_tcs _ Hsh) as Hlt.
  wp_step. eapply wp_mono.
  { apply wp_for_acc with (Inv := fun k c s' => s' = s /\
      c = upd_tc_config ((cee_tc mult row <$> take (Z.to_nat k) (tc_config cfg)) ++
                         drop (Z.to_nat k) (tc_config cfg)) cfg).
    - split; [done|]. by destruct cfg.
    - intros k c s' Hk [-> ->]. change (Z.of_nat _) with 8 in Hk.
      destruct (lookup_lt_is_Some_2 (tc_config cfg) (Z.to_nat k)) as [t Ht]; [lia|].
      destruct (dir_paths_lookup cfg Hsh (Z.to_nat dir) (Z.to_nat k) t) as (p & E & Hp & H1 & H2);
        [lia|done|].
      wp_step. apply (wp_nth_c _ _ t); [lia| |].
      { cbn [tc_config upd_tc_config]. rewrite lookup_app_r by (rewrite length_fmap, length_take; lia).
        rewrite length_fmap, length_take_le, lookup_drop, Nat.sub_diag, Nat.add_0_r by lia. done. }
      wp_step. apply (wp_nth_c _ _ p); [lia|done|].
      wp_step. apply wp_bw_of; [done|by apply (Forall_lookup_1 _ _ _ _ Hids Hp)|]. intros _.
      destruct (cee_path_credits _ _ _ _ _ _) as [p' d] eqn:Ep.
      wp_step. apply wp_upd_c; [apply lookup_lt_Some in E; lia|].
      wp_step. apply wp_upd_c.
      { cbn [tc_config upd_tc_config]. rewrite length_app, length_fmap, length_take, length_drop. lia. }
      wp_step. split; [done|]. cbn [tc_config upd_tc_config].
      replace (Z.to_nat (k + 1)) with (Datatypes.S (Z.to_nat k)) by lia.
      rewrite (take_S_r _ _ t), fmap_app, (drop_S _ t) by done.
      rewrite insert_app_r_alt by (rewrite length_fmap, length_take; lia).
      rewrite length_fmap, length_take_le, Nat.sub_diag by lia. simpl.
      rewrite <- app_assoc. simpl.
      assert (cee_tc mult row t = mk_tc_config (<[Z.to_nat dir := p']> (path t)) (pfc t)
        (match d with Some d => d | None => desc_credits_max t end) (tc t)) as ->; [|done].
      unfold cee_tc. rewrite E. fold row in Ep. by rewrite Ep. }
  intros c s' [-> ->]. change (Z.to_nat (0 + _)) with 8%nat. apply wp_ret.
  split; [done|]. split; [done|]. exists mult. split; [done|].
  by rewrite take_ge, drop_ge, app_nil_r by lia.
Qed.

Lemma cee_tc_path mult row t p : path t !! Z.to_nat dir = Some p ->
  path (cee_tc mult row t) !! Z.to_nat dir =
    Some (cee_path_credits mac dir (min_credits mfs) mult (nth (Z.to_nat (bwg_id p)) row 0) p).1.
Proof.
  intros E. unfold cee_tc. rewrite E. simpl. rewrite list_lookup_insert_eq; [done|].
  by eapply lookup_lt_Some.
Qed.

(** C40: once the bandwidth groups exist (the first rule the check enforces) and for
    a frame size of 16 bits,
    [ixgbe_dcb_calculate_tc_credits_cee] never leaves an array and succeeds; in
    the direction it was asked for every class then has a refill and a maximum
    of at least half a frame, within their 16-bit fields (the refill within 511
    unless the frame needs more), on the 82598 a Tx maximum that is not zero
    covers a 32 KB TSO packet, and the descriptor credits equal the Tx maximum.
    Group, percentage, strictness and priorities of the class, and the other
    direction, are left as they were. *)
Theorem cee_credits_cover_frame s :
  wp (ixgbe_dcb_calculate_tc_credits_cee mac (Some cfg) mfs dir)
     (fun '(ret, c) s' => s' = s /\ ret = IXGBE_SUCCESS /\ exists cfg', c = Some cfg' /\
        bw_percentage cfg' = bw_percentage cfg /\ length (tc_config cfg') = 8%nat /\
        forall j t t', tc_config cfg !! j = Some t -> tc_config cfg' !! j = Some t' ->
          (exists p p', path t !! Z.to_nat dir = Some p /\ path t' !! Z.to_nat dir = Some p' /\
             credits_ok p' /\ bwg_id p' = bwg_id p /\ bwg_percent p' = bwg_percent p /\
             tsa p' = tsa p /\ up_to_tc_bitmap p' = up_to_tc_bitmap p /\
             (dir = IXGBE_DCB_TX_CONFIG -> desc_credits_max t' = data_credits_max p')) /\
          (forall d, d <> Z.to_nat dir -> path t' !! d = path t !! d)) s.
Proof using Hmfs Hsh Hd Hids.
  eapply wp_mono; [apply cee_config|].
  intros [ret c] s' (-> & -> & mult & Hm & ->). split; [done|]. split; [done|].
  eexists. split; [done|]. cbn [bw_percentage tc_config upd_tc_config].
  rewrite length_fmap. split; [done|]. split; [apply (sh_tcs _ Hsh)|].
  intros j t t' Ht (t0 & -> & Ht0)%list_lookup_fmap_Some. rewrite Ht in Ht0. injection Ht0 as <-.
  destruct (dir_paths_lookup cfg Hsh (Z.to_nat dir) j t) as (p & E & Hp & H1 & H2); [lia|done|].
  split.
  - exists p. eexists. split; [done|]. split; [by apply cee_tc_path|].
    assert (in_range 8 (nth (Z.to_nat (bwg_id p)) (dir_row cfg (Z.to_nat dir)) 0)) as Hbw.
    { destruct (dir_row_shape cfg Hsh dir Hd) as [Er Hl].
      pose proof (Forall_lookup_1 _ _ _ _ (sh_row _ Hsh) Er) as [_ HF].
      apply Forall_nth; [done|]. pose proof (Forall_lookup_1 _ _ _ _ Hids Hp).
      unfold in_range in H1. simpl in *. lia. }
    pose proof (cee_path_credits_ok mult _ p Hm Hbw H2) as Hok. unfold cee_tc. rewrite E.
    destruct (cee_path_credits _ _ _ _ _ _) as [p' d]. cbn [fst snd].
    destruct Hok as (Hc & -> & -> & -> & -> & ->). split; [exact Hc|].
    do 4 (split; [done|]). intros Htx. cbn [desc_credits_max].
    by rewrite (proj2 (Z.eqb_eq _ _) Htx).
  - intros d Hne. unfold cee_tc. rewrite E. simpl. by rewrite list_lookup_insert_ne.
Qed.
End CeeCredits.

Lemma cee_credits_cover_frame_witness :
  wp (ixgbe_dcb_calculate_tc_credits_cee ixgbe_mac_82599EB (Some overcommitted) 9728 0)
     (fun '(ret, c) s' => ret = IXGBE_SUCCESS) tt.
Proof.
  eapply wp_mono.
  - apply (cee_credits_cover_frame (S := unit)); [lia| |lia|].
    + split; [reflexivity| |reflexivity| |].
      * repeat constructor; unfold in_range; simpl; lia.
      * repeat constructor; unfold in_range; simpl; lia.
      * unfold in_range. simpl. lia.
    + vm_compute. repeat constructor.
  - intros [ret c] s' (_ & Hr & _). exact Hr.
Defined.
