(* ===== verification/Dcb82598.v ===== *)
(** * DCB on the 82598 (ixgbe_dcb_82598.c) *)
From S2P Require Import Prelude Regs Types Osdep Dcb.

Section Dcb82598.
Context `{D : Mmio}.

(** [stats->f[tc] += delta], a [u64] counter *)
Definition add_stat (l : list Z) (tc delta : Z) : M (list Z) :=
  x ← nth_c l tc; upd_c l tc (u64 (x + delta)).

Definition ixgbe_dcb_get_tc_stats_82598 (stats : ixgbe_hw_stats) (tc_count : Z)
    : M (Z * ixgbe_hw_stats) :=
  if IXGBE_DCB_MAX_TRAFFIC_CLASS <? tc_count then mret (IXGBE_ERR_PARAM, stats)
  else
    stats ← for_acc (Z.to_nat tc_count) 0 stats (fun tc stats =>
      v ← IXGBE_READ_REG (IXGBE_QPTC tc);
      l ← add_stat (qptc stats) tc v;
      let stats := upd_qptc l stats in
      v ← IXGBE_READ_REG (IXGBE_QBTC tc);
      l ← add_stat (qbtc stats) tc v;
      let stats := upd_qbtc l stats in
      v ← IXGBE_READ_REG (IXGBE_QPRC tc);
      l ← add_stat (qprc stats) tc v;
      let stats := upd_qprc l stats in
      v ← IXGBE_READ_REG (IXGBE_QBRC tc);
      l ← add_stat (qbrc stats) tc v;
      mret (upd_qbrc l stats));
    mret (IXGBE_SUCCESS, stats).

Definition ixgbe_dcb_get_pfc_stats_82598 (stats : ixgbe_hw_stats) (tc_count : Z)
    : M (Z * ixgbe_hw_stats) :=
  if IXGBE_DCB_MAX_TRAFFIC_CLASS <? tc_count then mret (IXGBE_ERR_PARAM, stats)
  else
    stats ← for_acc (Z.to_nat tc_count) 0 stats (fun tc stats =>
      v ← IXGBE_READ_REG (IXGBE_PXOFFTXC tc);
      l ← add_stat (pxofftxc stats) tc v;
      let stats := upd_pxofftxc l stats in
      v ← IXGBE_READ_REG (IXGBE_PXOFFRXC tc);
      l ← add_stat (pxoffrxc stats) tc v;
      mret (upd_pxoffrxc l stats));
    mret (IXGBE_SUCCESS, stats).

(** one traffic class's credit word: refill, maximum and group, and the strict
    priority bits that the arbiter knows ([None] where the code does not look at
    the group or at group strictness) *)
Definition credit_word (refill max mcl_shift : Z) (bwg : option (Z * Z)) (t : Z)
    (gsp : option Z) (lsp : Z) : Z :=
  let reg := Z.lor refill (u32 (Z.shiftl max mcl_shift)) in
  let reg := match bwg with Some (id, sh) => Z.lor reg (u32 (Z.shiftl id sh)) | None => reg end in
  let reg := match gsp with
             | Some b => if t =? tsa_val ixgbe_dcb_tsa_group_strict_cee then Z.lor reg b else reg
             | None => reg
             end in
  if t =? tsa_val ixgbe_dcb_tsa_strict then Z.lor reg lsp else reg.

Definition ixgbe_dcb_config_rx_arbiter_82598 (refill max tsa : list Z) : M Z :=
  v ← IXGBE_READ_REG IXGBE_RUPPBMR;
  IXGBE_WRITE_REG IXGBE_RUPPBMR (Z.lor v IXGBE_RUPPBMR_MQA) ;;
  reg ← IXGBE_READ_REG IXGBE_RMCS;
  let reg := Z.land reg (bnot 32 IXGBE_RMCS_ARBDIS) in
  let reg := Z.lor reg IXGBE_RMCS_RRM in
  let reg := Z.lor reg IXGBE_RMCS_DFP in
  IXGBE_WRITE_REG IXGBE_RMCS reg ;;
  for_loop (Z.to_nat IXGBE_DCB_MAX_TRAFFIC_CLASS) 0 (fun i =>
    r ← nth_c refill i; m ← nth_c max i; t ← nth_c tsa i;
    IXGBE_WRITE_REG (IXGBE_RT2CR i)
      (credit_word r m IXGBE_RT2CR_MCL_SHIFT None t None IXGBE_RT2CR_LSP)) ;;
  reg ← IXGBE_READ_REG IXGBE_RDRXCTL;
  let reg := Z.lor reg IXGBE_RDRXCTL_RDMTS_1_2 in
  let reg := Z.lor reg IXGBE_RDRXCTL_MPBEN in
  let reg := Z.lor reg IXGBE_RDRXCTL_MCEN in
  IXGBE_WRITE_REG IXGBE_RDRXCTL reg ;;
  reg ← IXGBE_READ_REG IXGBE_RXCTRL;
  IXGBE_WRITE_REG IXGBE_RXCTRL (Z.land reg (bnot 32 IXGBE_RXCTRL_DMBYPS)) ;;
  mret IXGBE_SUCCESS.

Definition ixgbe_dcb_config_tx_desc_arbiter_82598 (refill max bwg_id tsa : list Z) : M Z :=
  reg ← IXGBE_READ_REG IXGBE_DPMCS;
  let reg := Z.land reg (bnot 32 IXGBE_DPMCS_ARBDIS) in
  let reg := Z.lor reg IXGBE_DPMCS_TSOEF in
  let reg := Z.lor reg (Z.shiftl 0x4 IXGBE_DPMCS_MTSOS_SHIFT) in
  IXGBE_WRITE_REG IXGBE_DPMCS reg ;;
  for_loop (Z.to_nat IXGBE_DCB_MAX_TRAFFIC_CLASS) 0 (fun i =>
    m ← nth_c max i; r ← nth_c refill i; b ← nth_c bwg_id i; t ← nth_c tsa i;
    IXGBE_WRITE_REG (IXGBE_TDTQ2TCCR i)
      (credit_word r m IXGBE_TDTQ2TCCR_MCL_SHIFT (Some (b, IXGBE_TDTQ2TCCR_BWG_SHIFT)) t
         (Some IXGBE_TDTQ2TCCR_GSP) IXGBE_TDTQ2TCCR_LSP)) ;;
  mret IXGBE_SUCCESS.

Definition ixgbe_dcb_config_tx_data_arbiter_82598 (refill max bwg_id tsa : list Z) : M Z :=
  reg ← IXGBE_READ_REG IXGBE_PDPMCS;
  let reg := Z.land reg (bnot 32 IXGBE_PDPMCS_ARBDIS) in
  let reg := Z.lor reg (Z.lor IXGBE_PDPMCS_TPPAC IXGBE_PDPMCS_TRM) in
  IXGBE_WRITE_REG IXGBE_PDPMCS reg ;;
  for_loop (Z.to_nat IXGBE_DCB_MAX_TRAFFIC_CLASS) 0 (fun i =>
    r ← nth_c refill i; m ← nth_c max i; b ← nth_c bwg_id i; t ← nth_c tsa i;
    IXGBE_WRITE_REG (IXGBE_TDPT2TCCR i)
      (credit_word r m IXGBE_TDPT2TCCR_MCL_SHIFT (Some (b, IXGBE_TDPT2TCCR_BWG_SHIFT)) t
         (Some IXGBE_TDPT2TCCR_GSP) IXGBE_TDPT2TCCR_LSP)) ;;
  reg ← IXGBE_READ_REG IXGBE_DTXCTL;
  IXGBE_WRITE_REG IXGBE_DTXCTL (Z.lor reg IXGBE_DTXCTL_ENDBUBD) ;;
  mret IXGBE_SUCCESS.

(** the end of both PFC functions: pause time for pairs of classes, and half of
    it as the refresh threshold *)
Definition pfc_pause_time : M unit :=
  h ← get_hw;
  let pt := pause_time (fc h) in
  let reg := Z.lor pt (u32 (Z.shiftl pt 16)) in
  for_loop (Z.to_nat (IXGBE_DCB_MAX_TRAFFIC_CLASS / 2)) 0 (fun i =>
    IXGBE_WRITE_REG (IXGBE_FCTTV i) reg) ;;
  IXGBE_WRITE_REG IXGBE_FCRTV (pt / 2).

Definition ixgbe_dcb_config_pfc_82598 (pfc_en : Z) : M Z :=
  reg ← IXGBE_READ_REG IXGBE_RMCS;
  let reg := Z.land reg (bnot 32 IXGBE_RMCS_TFCE_802_3X) in
  IXGBE_WRITE_REG IXGBE_RMCS (Z.lor reg IXGBE_RMCS_TFCE_PRIORITY) ;;
  reg ← IXGBE_READ_REG IXGBE_FCTRL;
  let reg := Z.land reg (bnot 32 (Z.lor IXGBE_FCTRL_RPFCE IXGBE_FCTRL_RFCE)) in
  IXGBE_WRITE_REG IXGBE_FCTRL (if negb (pfc_en =? 0) then Z.lor reg IXGBE_FCTRL_RPFCE else reg) ;;
  for_loop (Z.to_nat IXGBE_DCB_MAX_TRAFFIC_CLASS) 0 (fun i =>
    if negb (has pfc_en (bit i)) then
      IXGBE_WRITE_REG (IXGBE_FCRTL i) 0 ;;
      IXGBE_WRITE_REG (IXGBE_FCRTH i) 0
    else
      h ← get_hw;
      lw ← nth_c (low_water (fc h)) i;
      hi ← nth_c (high_water (fc h)) i;
      let fcrtl := Z.lor (u32 (Z.shiftl lw 10)) IXGBE_FCRTL_XONE in
      let reg := Z.lor (u32 (Z.shiftl hi 10)) IXGBE_FCRTH_FCEN in
      IXGBE_WRITE_REG (IXGBE_FCRTL i) fcrtl ;;
      IXGBE_WRITE_REG (IXGBE_FCRTH i) reg) ;;
  pfc_pause_time ;;
  mret IXGBE_SUCCESS.

(** in the first loop [i = 2 * j] throughout, and [j < 8] is the exit that is
    taken *)
Definition ixgbe_dcb_config_tc_stats_82598 : M Z :=
  for_loop 8 0 (fun j =>
    let i := 2 * j in
    reg ← IXGBE_READ_REG (IXGBE_RQSMR i);
    IXGBE_WRITE_REG (IXGBE_RQSMR i) (Z.lor reg (0x1010101 * j)) ;;
    reg ← IXGBE_READ_REG (IXGBE_RQSMR (i + 1));
    IXGBE_WRITE_REG (IXGBE_RQSMR (i + 1)) (Z.lor reg (0x1010101 * j))) ;;
  for_loop 8 0 (fun i =>
    reg ← IXGBE_READ_REG (IXGBE_TQSMR i);
    IXGBE_WRITE_REG (IXGBE_TQSMR i) (Z.lor reg (0x1010101 * i))) ;;
  mret IXGBE_SUCCESS.

Definition ixgbe_dcb_hw_config_82598 (link_speed : Z) (refill max bwg_id tsa : list Z) : M Z :=
  ixgbe_dcb_config_rx_arbiter_82598 refill max tsa ;;
  ixgbe_dcb_config_tx_desc_arbiter_82598 refill max bwg_id tsa ;;
  ixgbe_dcb_config_tx_data_arbiter_82598 refill max bwg_id tsa ;;
  ixgbe_dcb_config_tc_stats_82598 ;;
  mret IXGBE_SUCCESS.

End Dcb82598.
