(* ===== verification/Dcb82599.v ===== *)
(** * DCB on the 82599 and its successors (ixgbe_dcb_82599.c), and the read-back
    of the priority map (ixgbe_common.c) *)
From S2P Require Import Prelude Regs Types Osdep Dcb Dcb82598.

Section Dcb82599.
Context `{D : Mmio}.

Definition ixgbe_dcb_get_tc_stats_82599 (stats : ixgbe_hw_stats) (tc_count : Z)
    : M (Z * ixgbe_hw_stats) :=
  if IXGBE_DCB_MAX_TRAFFIC_CLASS <? tc_count then mret (IXGBE_ERR_PARAM, stats)
  else
    stats ← for_acc (Z.to_nat tc_count) 0 stats (fun tc stats =>
      v ← IXGBE_READ_REG (IXGBE_QPTC tc);
      l ← add_stat (qptc stats) tc v;
      let stats := upd_qptc l stats in
      v ← IXGBE_READ_REG (IXGBE_QBTC_L tc);
      l ← add_stat (qbtc stats) tc v;
      let stats := upd_qbtc l stats in
      v ← IXGBE_READ_REG (IXGBE_QBTC_H tc);
      l ← add_stat (qbtc stats) tc (Z.shiftl v 32);
      let stats := upd_qbtc l stats in
      v ← IXGBE_READ_REG (IXGBE_QPRC tc);
      l ← add_stat (qprc stats) tc v;
      let stats := upd_qprc l stats in
      v ← IXGBE_READ_REG (IXGBE_QBRC_L tc);
      l ← add_stat (qbrc stats) tc v;
      let stats := upd_qbrc l stats in
      v ← IXGBE_READ_REG (IXGBE_QBRC_H tc);
      l ← add_stat (qbrc stats) tc (Z.shiftl v 32);
      let stats := upd_qbrc l stats in
      v ← IXGBE_READ_REG (IXGBE_QPRDC tc);
      l ← add_stat (qprdc stats) tc v;
      mret (upd_qprdc l stats));
    mret (IXGBE_SUCCESS, stats).

Definition ixgbe_dcb_get_pfc_stats_82599 (stats : ixgbe_hw_stats) (tc_count : Z)
    : M (Z * ixgbe_hw_stats) :=
  if IXGBE_DCB_MAX_TRAFFIC_CLASS <? tc_count then mret (IXGBE_ERR_PARAM, stats)
  else
    stats ← for_acc (Z.to_nat tc_count) 0 stats (fun tc stats =>
      v ← IXGBE_READ_REG (IXGBE_PXOFFTXC tc);
      l ← add_stat (pxofftxc stats) tc v;
      let stats := upd_pxofftxc l stats in
      v ← IXGBE_READ_REG (IXGBE_PXOFFRXCNT tc);
      l ← add_stat (pxoffrxc stats) tc v;
      mret (upd_pxoffrxc l stats));
    mret (IXGBE_SUCCESS, stats).

(** [reg = 0; for (i = 0; i < 8; i++) reg |= (map[i] << (i * shift))] *)
Definition map_word (map : list Z) (shift : Z) : M Z :=
  for_acc (Z.to_nat IXGBE_DCB_MAX_USER_PRIORITY) 0 0 (fun i reg =>
    m ← nth_c map i; mret (u32 (Z.lor reg (Z.shiftl m (i * shift))))).

Definition ixgbe_dcb_config_rx_arbiter_82599 (refill max bwg_id tsa map : list Z) : M Z :=
  IXGBE_WRITE_REG IXGBE_RTRPCS
    (Z.lor (Z.lor IXGBE_RTRPCS_RRM IXGBE_RTRPCS_RAC) IXGBE_RTRPCS_ARBDIS) ;;
  reg ← map_word map IXGBE_RTRUP2TC_UP_SHIFT;
  IXGBE_WRITE_REG IXGBE_RTRUP2TC reg ;;
  for_loop (Z.to_nat IXGBE_DCB_MAX_TRAFFIC_CLASS) 0 (fun i =>
    r ← nth_c refill i; m ← nth_c max i; b ← nth_c bwg_id i; t ← nth_c tsa i;
    IXGBE_WRITE_REG (IXGBE_RTRPT4C i)
      (credit_word r m IXGBE_RTRPT4C_MCL_SHIFT (Some (b, IXGBE_RTRPT4C_BWG_SHIFT)) t
         None IXGBE_RTRPT4C_LSP)) ;;
  IXGBE_WRITE_REG IXGBE_RTRPCS (Z.lor IXGBE_RTRPCS_RRM IXGBE_RTRPCS_RAC) ;;
  mret IXGBE_SUCCESS.

Definition ixgbe_dcb_config_tx_desc_arbiter_82599 (refill max bwg_id tsa : list Z) : M Z :=
  for_loop 128 0 (fun i =>
    IXGBE_WRITE_REG IXGBE_RTTDQSEL i ;;
    IXGBE_WRITE_REG IXGBE_RTTDT1C 0) ;;
  for_loop (Z.to_nat IXGBE_DCB_MAX_TRAFFIC_CLASS) 0 (fun i =>
    m ← nth_c max i; r ← nth_c refill i; b ← nth_c bwg_id i; t ← nth_c tsa i;
    IXGBE_WRITE_REG (IXGBE_RTTDT2C i)
      (credit_word r m IXGBE_RTTDT2C_MCL_SHIFT (Some (b, IXGBE_RTTDT2C_BWG_SHIFT)) t
         (Some IXGBE_RTTDT2C_GSP) IXGBE_RTTDT2C_LSP)) ;;
  IXGBE_WRITE_REG IXGBE_RTTDCS (Z.lor IXGBE_RTTDCS_TDPAC IXGBE_RTTDCS_TDRM) ;;
  mret IXGBE_SUCCESS.

Definition ixgbe_dcb_config_tx_data_arbiter_82599 (refill max bwg_id tsa map : list Z) : M Z :=
  let on := Z.lor (Z.lor IXGBE_RTTPCS_TPPAC IXGBE_RTTPCS_TPRM)
                  (Z.shiftl IXGBE_RTTPCS_ARBD_DCB IXGBE_RTTPCS_ARBD_SHIFT) in
  IXGBE_WRITE_REG IXGBE_RTTPCS (Z.lor on IXGBE_RTTPCS_ARBDIS) ;;
  reg ← map_word map IXGBE_RTTUP2TC_UP_SHIFT;
  IXGBE_WRITE_REG IXGBE_RTTUP2TC reg ;;
  for_loop (Z.to_nat IXGBE_DCB_MAX_TRAFFIC_CLASS) 0 (fun i =>
    r ← nth_c refill i; m ← nth_c max i; b ← nth_c bwg_id i; t ← nth_c tsa i;
    IXGBE_WRITE_REG (IXGBE_RTTPT2C i)
      (credit_word r m IXGBE_RTTPT2C_MCL_SHIFT (Some (b, IXGBE_RTTPT2C_BWG_SHIFT)) t
         (Some IXGBE_RTTPT2C_GSP) IXGBE_RTTPT2C_LSP)) ;;
  IXGBE_WRITE_REG IXGBE_RTTPCS on ;;
  mret IXGBE_SUCCESS.

(** the largest class a priority is mapped to *)
Definition map_max_tc (map : list Z) : M Z :=
  for_acc (Z.to_nat IXGBE_DCB_MAX_USER_PRIORITY) 0 0 (fun i max_tc =>
    m ← nth_c map i; mret (if max_tc <? m then m else max_tc)).

(** whether some priority of class [i] has PFC on *)
Definition pfc_enabled_tc (map : list Z) (pfc_en i : Z) : M bool :=
  r ← for_break (Z.to_nat IXGBE_DCB_MAX_USER_PRIORITY) 0 tt (fun j _ =>
    m ← nth_c map j;
    if (m =? i) && has pfc_en (bit j) then mret (inr tt) else mret (inl tt));
  mret (match r with inr _ => true | inl _ => false end).

Definition pfc_thresholds (map : list Z) (pfc_en i : Z) : M unit :=
  enabled ← pfc_enabled_tc map pfc_en i;
  if enabled : bool then
    h ← get_hw;
    hi ← nth_c (high_water (fc h)) i;
    lw ← nth_c (low_water (fc h)) i;
    let reg := Z.lor (u32 (Z.shiftl hi 10)) IXGBE_FCRTH_FCEN in
    let fcrtl := Z.lor (u32 (Z.shiftl lw 10)) IXGBE_FCRTL_XONE in
    IXGBE_WRITE_REG (IXGBE_FCRTL_82599 i) fcrtl ;;
    IXGBE_WRITE_REG (IXGBE_FCRTH_82599 i) reg
  else
    v ← IXGBE_READ_REG (IXGBE_RXPBSIZE i);
    IXGBE_WRITE_REG (IXGBE_FCRTL_82599 i) 0 ;;
    IXGBE_WRITE_REG (IXGBE_FCRTH_82599 i) (u32 (v - 24576)).

Definition ixgbe_dcb_config_pfc_82599 (pfc_en : Z) (map : list Z) : M Z :=
  IXGBE_WRITE_REG IXGBE_FCCFG IXGBE_FCCFG_TFCE_PRIORITY ;;
  reg ← IXGBE_READ_REG IXGBE_MFLCN;
  let reg := Z.lor reg IXGBE_MFLCN_DPF in
  let reg := Z.land reg (bnot 32 (Z.lor IXGBE_MFLCN_RPFCE_MASK IXGBE_MFLCN_RFCE)) in
  h ← get_hw;
  let reg := if mac_type_val ixgbe_mac_X540 <=? mac_type_val (mac_type (mac h))
             then Z.lor reg (Z.shiftl pfc_en IXGBE_MFLCN_RPFCE_SHIFT) else reg in
  let reg := if negb (pfc_en =? 0) then Z.lor reg IXGBE_MFLCN_RPFCE else reg in
  IXGBE_WRITE_REG IXGBE_MFLCN reg ;;
  max_tc ← map_max_tc map;
  for_loop (Z.to_nat (max_tc + 1)) 0 (fun i => pfc_thresholds map pfc_en i) ;;
  for_loop (Z.to_nat (IXGBE_DCB_MAX_TRAFFIC_CLASS - (max_tc + 1))) (max_tc + 1) (fun i =>
    IXGBE_WRITE_REG (IXGBE_FCRTL_82599 i) 0 ;;
    IXGBE_WRITE_REG (IXGBE_FCRTH_82599 i) 0) ;;
  pfc_pause_time ;;
  mret IXGBE_SUCCESS.

(** the values of the three statistics layouts *)
Definition tqsm_8tc (i : Z) : Z :=
  if i <? 8 then 0x00000000 else if i <? 16 then 0x01010101
  else if i <? 20 then 0x02020202 else if i <? 24 then 0x03030303
  else if i <? 26 then 0x04040404 else if i <? 28 then 0x05050505
  else if i <? 30 then 0x06060606 else 0x07070707.
Definition tqsm_4tc (i : Z) : Z :=
  if i <? 16 then 0x00000000 else if i <? 24 then 0x01010101
  else if i <? 28 then 0x02020202 else 0x03030303.

Definition ixgbe_dcb_config_tc_stats_82599 (dcb_config : option ixgbe_dcb_config) : M Z :=
  let tc_count := match dcb_config with Some c => pg_tcs (num_tcs c) | None => 8 end in
  let vt := match dcb_config with Some c => vt_mode c | None => false end in
  if negb (((tc_count =? 8) && negb vt) || (tc_count =? 4)) then mret IXGBE_ERR_PARAM
  else
    (if (tc_count =? 8) && negb vt then
       for_loop 32 0 (fun i => IXGBE_WRITE_REG (IXGBE_RQSMR i) (0x01010101 * (i / 4))) ;;
       for_loop 32 0 (fun i => IXGBE_WRITE_REG (IXGBE_TQSM i) (tqsm_8tc i))
     else if (tc_count =? 4) && negb vt then
       for_loop 32 0 (fun i =>
         if 3 <? i mod 8 then mret tt
         else IXGBE_WRITE_REG (IXGBE_RQSMR i) (0x01010101 * (i / 8))) ;;
       for_loop 32 0 (fun i => IXGBE_WRITE_REG (IXGBE_TQSM i) (tqsm_4tc i))
     else if (tc_count =? 4) && vt then
       for_loop 32 0 (fun i => IXGBE_WRITE_REG (IXGBE_RQSMR i) 0x03020100) ;;
       for_loop 32 0 (fun i => IXGBE_WRITE_REG (IXGBE_TQSM i) 0x03020100)
     else mret tt) ;;
    mret IXGBE_SUCCESS.

(** [(reg & ~IXGBE_MRQC_MRQE_MASK) | mode] *)
Definition set_mrqe (reg mode : Z) : Z :=
  Z.lor (Z.land reg (bnot 32 IXGBE_MRQC_MRQE_MASK)) mode.

(** [ASSERT] is empty in a build without DBG *)
Definition ixgbe_dcb_config_82599 (cfg : ixgbe_dcb_config) : M Z :=
  reg ← IXGBE_READ_REG IXGBE_RTTDCS;
  IXGBE_WRITE_REG IXGBE_RTTDCS (Z.lor reg IXGBE_RTTDCS_ARBDIS) ;;
  reg ← IXGBE_READ_REG IXGBE_MRQC;
  let reg :=
    if pg_tcs (num_tcs cfg) =? 8 then
      let mrqe := Z.land reg IXGBE_MRQC_MRQE_MASK in
      if (mrqe =? 0) || (mrqe =? IXGBE_MRQC_RT4TCEN) then set_mrqe reg IXGBE_MRQC_RT8TCEN
      else if (mrqe =? IXGBE_MRQC_RSSEN) || (mrqe =? IXGBE_MRQC_RTRSS4TCEN)
      then set_mrqe reg IXGBE_MRQC_RTRSS8TCEN
      else set_mrqe reg IXGBE_MRQC_RT8TCEN
    else reg in
  let reg :=
    if pg_tcs (num_tcs cfg) =? 4 then
      if vt_mode cfg then set_mrqe reg IXGBE_MRQC_VMDQRT4TCEN
      else set_mrqe reg IXGBE_MRQC_RTRSS4TCEN
    else reg in
  IXGBE_WRITE_REG IXGBE_MRQC reg ;;
  let reg :=
    if pg_tcs (num_tcs cfg) =? 8 then Z.lor IXGBE_MTQC_RT_ENA IXGBE_MTQC_8TC_8TQ
    else
      let reg := Z.lor IXGBE_MTQC_RT_ENA IXGBE_MTQC_4TC_4TQ in
      if vt_mode cfg then Z.lor reg IXGBE_MTQC_VT_ENA else reg in
  IXGBE_WRITE_REG IXGBE_MTQC reg ;;
  for_loop 128 0 (fun q =>
    IXGBE_WRITE_REG IXGBE_QDE (Z.lor IXGBE_QDE_WRITE (Z.shiftl q IXGBE_QDE_IDX_SHIFT))) ;;
  reg ← IXGBE_READ_REG IXGBE_RTTDCS;
  IXGBE_WRITE_REG IXGBE_RTTDCS (Z.land reg (bnot 32 IXGBE_RTTDCS_ARBDIS)) ;;
  reg ← IXGBE_READ_REG IXGBE_SECTXMINIFG;
  IXGBE_WRITE_REG IXGBE_SECTXMINIFG (Z.lor reg IXGBE_SECTX_DCB) ;;
  mret IXGBE_SUCCESS.

Definition ixgbe_dcb_hw_config_82599 (link_speed : Z) (refill max bwg_id tsa map : list Z) : M Z :=
  ixgbe_dcb_config_rx_arbiter_82599 refill max bwg_id tsa map ;;
  ixgbe_dcb_config_tx_desc_arbiter_82599 refill max bwg_id tsa ;;
  ixgbe_dcb_config_tx_data_arbiter_82599 refill max bwg_id tsa map ;;
  mret IXGBE_SUCCESS.

(** [ixgbe_dcb_get_rtrup2tc_generic] (ixgbe_common.c) *)
Definition ixgbe_dcb_get_rtrup2tc_generic (map : list Z) : M (list Z) :=
  reg ← IXGBE_READ_REG IXGBE_RTRUP2TC;
  for_acc (Z.to_nat IXGBE_DCB_MAX_USER_PRIORITY) 0 map (fun i map =>
    upd_c map i (Z.land IXGBE_RTRUP2TC_UP_MASK (Z.shiftr reg (i * IXGBE_RTRUP2TC_UP_SHIFT)))).

End Dcb82599.
