(* ===== verification/DcbApi.v ===== *)
(** * DCB entry points: dispatch on the MAC type (second half of ixgbe_dcb.c) *)
From S2P Require Import Prelude Regs Types Osdep Dcb Dcb82598 Dcb82599.

Section DcbApi.
Context `{D : Mmio}.

(** the three arms of every [switch (hw->mac.type)] of the file *)
Definition by_mac {A} (m98 m99 other : M A) : M A :=
  h ← get_hw;
  match mac_type (mac h) with
  | ixgbe_mac_82598EB => m98
  | ixgbe_mac_82599EB | ixgbe_mac_X540 | ixgbe_mac_X550
  | ixgbe_mac_X550EM_x | ixgbe_mac_X550EM_a => m99
  | _ => other
  end.

Definition ixgbe_dcb_get_tc_stats (stats : ixgbe_hw_stats) (tc_count : Z) : M (Z * ixgbe_hw_stats) :=
  by_mac (ixgbe_dcb_get_tc_stats_82598 stats tc_count)
         (ixgbe_dcb_get_tc_stats_82599 stats tc_count)
         (mret (IXGBE_NOT_IMPLEMENTED, stats)).

Definition ixgbe_dcb_get_pfc_stats (stats : ixgbe_hw_stats) (tc_count : Z) : M (Z * ixgbe_hw_stats) :=
  by_mac (ixgbe_dcb_get_pfc_stats_82598 stats tc_count)
         (ixgbe_dcb_get_pfc_stats_82599 stats tc_count)
         (mret (IXGBE_NOT_IMPLEMENTED, stats)).

(** a local array of the C code before it is filled *)
Definition array8 : list Z := replicate 8 0.

Definition ixgbe_dcb_config_rx_arbiter_cee (cfg : ixgbe_dcb_config) : M Z :=
  refill ← ixgbe_dcb_unpack_refill_cee cfg IXGBE_DCB_TX_CONFIG array8;
  max ← ixgbe_dcb_unpack_max_cee cfg array8;
  bwgid ← ixgbe_dcb_unpack_bwgid_cee cfg IXGBE_DCB_TX_CONFIG array8;
  tsa ← ixgbe_dcb_unpack_tsa_cee cfg IXGBE_DCB_TX_CONFIG array8;
  map ← ixgbe_dcb_unpack_map_cee cfg IXGBE_DCB_TX_CONFIG array8;
  by_mac (ixgbe_dcb_config_rx_arbiter_82598 refill max tsa)
         (ixgbe_dcb_config_rx_arbiter_82599 refill max bwgid tsa map)
         (mret IXGBE_NOT_IMPLEMENTED).

Definition ixgbe_dcb_config_tx_desc_arbiter_cee (cfg : ixgbe_dcb_config) : M Z :=
  refill ← ixgbe_dcb_unpack_refill_cee cfg IXGBE_DCB_TX_CONFIG array8;
  max ← ixgbe_dcb_unpack_max_cee cfg array8;
  bwgid ← ixgbe_dcb_unpack_bwgid_cee cfg IXGBE_DCB_TX_CONFIG array8;
  tsa ← ixgbe_dcb_unpack_tsa_cee cfg IXGBE_DCB_TX_CONFIG array8;
  by_mac (ixgbe_dcb_config_tx_desc_arbiter_82598 refill max bwgid tsa)
         (ixgbe_dcb_config_tx_desc_arbiter_82599 refill max bwgid tsa)
         (mret IXGBE_NOT_IMPLEMENTED).

Definition ixgbe_dcb_config_tx_data_arbiter_cee (cfg : ixgbe_dcb_config) : M Z :=
  refill ← ixgbe_dcb_unpack_refill_cee cfg IXGBE_DCB_TX_CONFIG array8;
  max ← ixgbe_dcb_unpack_max_cee cfg array8;
  bwgid ← ixgbe_dcb_unpack_bwgid_cee cfg IXGBE_DCB_TX_CONFIG array8;
  tsa ← ixgbe_dcb_unpack_tsa_cee cfg IXGBE_DCB_TX_CONFIG array8;
  map ← ixgbe_dcb_unpack_map_cee cfg IXGBE_DCB_TX_CONFIG array8;
  by_mac (ixgbe_dcb_config_tx_data_arbiter_82598 refill max bwgid tsa)
         (ixgbe_dcb_config_tx_data_arbiter_82599 refill max bwgid tsa map)
         (mret IXGBE_NOT_IMPLEMENTED).

Definition ixgbe_dcb_config_pfc_cee (cfg : ixgbe_dcb_config) : M Z :=
  map ← ixgbe_dcb_unpack_map_cee cfg IXGBE_DCB_TX_CONFIG array8;
  pfc_en ← ixgbe_dcb_unpack_pfc_cee cfg map;
  by_mac (ixgbe_dcb_config_pfc_82598 pfc_en)
         (ixgbe_dcb_config_pfc_82599 pfc_en map)
         (mret IXGBE_NOT_IMPLEMENTED).

Definition ixgbe_dcb_config_tc_stats : M Z :=
  by_mac ixgbe_dcb_config_tc_stats_82598 (ixgbe_dcb_config_tc_stats_82599 None)
         (mret IXGBE_NOT_IMPLEMENTED).

Definition ixgbe_dcb_config_pfc (pfc_en : Z) (map : list Z) : M Z :=
  by_mac (ixgbe_dcb_config_pfc_82598 pfc_en) (ixgbe_dcb_config_pfc_82599 pfc_en map)
         (mret IXGBE_ERR_PARAM).

Definition ixgbe_dcb_hw_config_cee (cfg : ixgbe_dcb_config) : M Z :=
  refill ← ixgbe_dcb_unpack_refill_cee cfg IXGBE_DCB_TX_CONFIG array8;
  max ← ixgbe_dcb_unpack_max_cee cfg array8;
  bwgid ← ixgbe_dcb_unpack_bwgid_cee cfg IXGBE_DCB_TX_CONFIG array8;
  tsa ← ixgbe_dcb_unpack_tsa_cee cfg IXGBE_DCB_TX_CONFIG array8;
  map ← ixgbe_dcb_unpack_map_cee cfg IXGBE_DCB_TX_CONFIG array8;
  ret ← by_mac
    (ixgbe_dcb_hw_config_82598 (link_speed cfg) refill max bwgid tsa)
    (ixgbe_dcb_config_82599 cfg ;;
     ret ← ixgbe_dcb_hw_config_82599 (link_speed cfg) refill max bwgid tsa map;
     ixgbe_dcb_config_tc_stats_82599 (Some cfg) ;;
     mret ret)
    (mret IXGBE_NOT_IMPLEMENTED);
  if (ret =? 0) && pfc_mode_enable cfg then
    pfc_en ← ixgbe_dcb_unpack_pfc_cee cfg map;
    ixgbe_dcb_config_pfc pfc_en map
  else mret ret.

Definition ixgbe_dcb_hw_config (refill max bwg_id tsa map : list Z) : M Z :=
  by_mac
    (ixgbe_dcb_config_rx_arbiter_82598 refill max tsa ;;
     ixgbe_dcb_config_tx_desc_arbiter_82598 refill max bwg_id tsa ;;
     ixgbe_dcb_config_tx_data_arbiter_82598 refill max bwg_id tsa ;;
     mret tt)
    (ixgbe_dcb_config_rx_arbiter_82599 refill max bwg_id tsa map ;;
     ixgbe_dcb_config_tx_desc_arbiter_82599 refill max bwg_id tsa ;;
     ixgbe_dcb_config_tx_data_arbiter_82599 refill max bwg_id tsa map ;;
     mret tt)
    (mret tt) ;;
  mret 0.

End DcbApi.
