(* ===== verification/DcbHwProps.v ===== *)
(** * What the DCB functions program into the 82599 family

    Exact register sequences of the arbiters on every device, the priority map
    and its read-back, the statistics layout and the PFC thresholds. *)
From stdpp Require Import gmap.
From S2P Require Import Prelude Regs Types Osdep Trace Dcb Dcb82598 Dcb82599.

(** ** The priority map word *)

(** field [i] of three bits holds [map[i]], and nothing else is set *)
Definition up_fields (map : list Z) (reg : Z) : Prop :=
  in_range 24 reg /\
  forall i m, map !! i = Some m ->
    Z.land IXGBE_RTRUP2TC_UP_MASK (Z.shiftr reg (3 * Z.of_nat i)) = m.

(** bit [b] of the word after the first [k] priorities *)
Definition up_bit (map : list Z) (k b : Z) : bool :=
  (b <? 3 * k) && Z.testbit (nth (Z.to_nat (b / 3)) map 0) (b mod 3).

Lemma up_bit_step map k m b : 0 <= k -> map !! Z.to_nat k = Some m -> in_range 3 m -> 0 <= b ->
  up_bit map k b || Z.testbit (Z.shiftl m (k * 3)) b = up_bit map (k + 1) b.
Proof.
  intros Hk Hm Hr Hb. unfold up_bit. rewrite Z.shiftl_spec by lia.
  destruct (Z.ltb_spec b (3 * k)), (Z.ltb_spec b (3 * (k + 1))); simpl; try lia.
  - rewrite (Z.testbit_neg_r m) by lia. by rewrite orb_false_r.
  - replace (b / 3) with k by zlia. replace (b mod 3) with (b - k * 3) by zlia.
    by rewrite (nth_lookup_Some _ _ 0 _ Hm).
  - apply (testbit_range 3); [done|lia].
Qed.

Lemma up_fields_of_bits map reg : length map = 8%nat -> Forall (in_range 3) map -> 0 <= reg ->
  (forall b, 0 <= b -> Z.testbit reg b = up_bit map 8 b) -> up_fields map reg.
Proof.
  intros Hl HF H0 Hb. split.
  - apply range_of_testbit; [lia|done|]. intros b Hb24. rewrite Hb by lia. unfold up_bit.
    by destruct (Z.ltb_spec b (3 * 8)); [lia|].
  - intros i m Hm. apply Z.bits_inj'. intros b Hb0. rewrite Z.land_spec.
    change IXGBE_RTRUP2TC_UP_MASK with (Z.ones 3).
    pose proof (lookup_lt_Some _ _ _ Hm). pose proof (Forall_lookup_1 _ _ _ _ HF Hm) as Hr.
    destruct (Z.ltb_spec b 3) as [Hlt|Hge].
    + rewrite Z.ones_spec_low, Z.shiftr_spec by lia. simpl. rewrite Hb by lia. unfold up_bit.
      destruct (Z.ltb_spec (b + 3 * Z.of_nat i) (3 * 8)); [|lia]. simpl.
      replace ((b + 3 * Z.of_nat i) / 3) with (Z.of_nat i) by zlia.
      replace ((b + 3 * Z.of_nat i) mod 3) with b by zlia.
      by rewrite Nat2Z.id, (nth_lookup_Some _ _ 0 _ Hm).
    + rewrite Z.ones_spec_high by lia. simpl. symmetry. apply (testbit_range 3); [done|lia].
Qed.

(** the software state the DCB functions only read *)
Definition dcb_static (h : ixgbe_hw) : ixgbe_mac_info * ixgbe_fc_info := (mac h, fc h).

Lemma dcb_static_remove h : dcb_static (ixgbe_remove_adapter h) = dcb_static h.
Proof.
  unfold ixgbe_remove_adapter. destruct (hw_addr h); simpl; [|done].
  by destruct (__IXGBE_SERVICE_INITED (back h)).
Qed.
#[export] Hint Resolve dcb_static_remove : core.

(** the credit writes of one arbiter, class by class *)
Definition credit_writes (reg : Z -> Z) (word : Z -> Z -> Z -> Z -> Z)
    (refill max bwg_id tsa : list Z) : list access :=
  (fun i : nat => Wr (reg (Z.of_nat i))
     (u32 (word (nth i refill 0) (nth i max 0) (nth i bwg_id 0) (nth i tsa 0)))) <$> seq 0 8.

Section Arbiters.
Context `{D : Mmio}.
Abbreviation tr := (traces dcb_static).

Lemma tr_bind_nth {A B} c (l : list A) i d (f : A -> M B) T :
  0 <= i < Z.of_nat (length l) -> tr c (f (nth (Z.to_nat i) l d)) T -> tr c (nth_c l i ≫= f) T.
Proof.
  intros Hi Hf. destruct (lookup_lt_is_Some_2 l (Z.to_nat i)) as [a Ha]; [lia|].
  rewrite (nth_lookup_Some _ _ d _ Ha) in Hf. eapply tr_bind.
  - by apply (tr_nth_c _ _ _ _ a (fun x l => x = a /\ l = [])); [lia| |].
  - by intros x l' [-> ->].
Qed.

Lemma tr_map_word c map : length map = 8%nat -> Forall (in_range 3) map ->
  tr c (map_word map 3) (fun v l => l = [] /\ up_fields map v).
Proof.
  intros Hl HF. unfold map_word. eapply tr_mono.
  { apply tr_for_acc with (I := fun k reg l => l = [] /\ 0 <= reg /\
      forall b, 0 <= b -> Z.testbit reg b = up_bit map k b).
    - split; [done|]. split; [lia|]. intros b Hb. unfold up_bit.
      destruct (Z.ltb_spec b (3 * 0)); [lia|]. by rewrite Z.bits_0.
    - intros k reg l Hk (-> & H0 & Hb). change (Z.of_nat _) with 8 in Hk.
      destruct (lookup_lt_is_Some_2 map (Z.to_nat k)) as [m Hm]; [lia|].
      apply (tr_bind_nth _ _ _ 0); [lia|]. rewrite (nth_lookup_Some _ _ 0 _ Hm). tr_step.
      split; [done|]. split; [apply (trunc_range 32); lia|]. intros b Hb0.
      rewrite testbit_trunc, Z.lor_spec, Hb by lia.
      rewrite (up_bit_step map k m) by (try apply (Forall_lookup_1 _ _ _ _ HF Hm); lia || done).
      destruct (Z.ltb_spec b 32); [done|]. unfold up_bit.
      by destruct (Z.ltb_spec b (3 * (k + 1))); [lia|]. }
  intros v l (-> & H0 & Hb). split; [done|]. by apply up_fields_of_bits.
Qed.

(** a loop of credit writes *)
Lemma tr_credit_loop c (reg : Z -> Z) (word : Z -> Z -> Z -> Z -> Z) (body : Z -> M unit)
    (refill max bwg_id tsa : list Z) :
  (forall k (T : unit -> list access -> Prop), 0 <= k < 8 ->
     T tt [Wr (reg k) (u32 (word (nth (Z.to_nat k) refill 0) (nth (Z.to_nat k) max 0)
                              (nth (Z.to_nat k) bwg_id 0) (nth (Z.to_nat k) tsa 0)))] ->
     tr c (body k) T) ->
  tr c (for_loop (Z.to_nat IXGBE_DCB_MAX_TRAFFIC_CLASS) 0 body)
     (fun _ l => l = credit_writes reg word refill max bwg_id tsa).
Proof.
  intros Hb. eapply tr_mono.
  { apply tr_for_loop with (I := fun k l => l = (fun i : nat => Wr (reg (Z.of_nat i))
      (u32 (word (nth i refill 0) (nth i max 0) (nth i bwg_id 0) (nth i tsa 0)))) <$> seq 0 (Z.to_nat k)).
    - done.
    - intros k l Hk ->. change (Z.of_nat _) with 8 in Hk. apply Hb; [lia|].
      replace (Z.to_nat (k + 1)) with (Z.to_nat k + 1)%nat by lia.
      rewrite seq_app, fmap_app. simpl. by rewrite Z2Nat.id by lia. }
  done.
Qed.

(** the four arrays that describe the classes *)
Definition arrays8 (refill max bwg_id tsa : list Z) : Prop :=
  length refill = 8%nat /\ length max = 8%nat /\ length bwg_id = 8%nat /\ length tsa = 8%nat.

Definition rx_word (r m b t : Z) : Z :=
  credit_word r m IXGBE_RTRPT4C_MCL_SHIFT (Some (b, IXGBE_RTRPT4C_BWG_SHIFT)) t None IXGBE_RTRPT4C_LSP.
Definition tx_data_word (r m b t : Z) : Z :=
  credit_word r m IXGBE_RTTPT2C_MCL_SHIFT (Some (b, IXGBE_RTTPT2C_BWG_SHIFT)) t
    (Some IXGBE_RTTPT2C_GSP) IXGBE_RTTPT2C_LSP.

(** On every device [ixgbe_dcb_config_rx_arbiter_82599] makes exactly these
    accesses: it disables the receive arbiter, writes the map word whose 3-bit
    field [i] is [map[i]], writes the credits of the eight classes in order, and
    only then enables the arbiter again. *)
Theorem rx_arbiter_82599_sequence c refill max bwg_id tsa map :
  arrays8 refill max bwg_id tsa -> length map = 8%nat -> Forall (in_range 3) map ->
  tr c (ixgbe_dcb_config_rx_arbiter_82599 refill max bwg_id tsa map) (fun ret l =>
    ret = IXGBE_SUCCESS /\ exists word, up_fields map word /\
    l = Wr IXGBE_RTRPCS 0x46 :: Wr IXGBE_RTRUP2TC (u32 word) ::
        credit_writes IXGBE_RTRPT4C rx_word refill max bwg_id tsa ++ [Wr IXGBE_RTRPCS 0x06]).
Proof.
  intros (H1 & H2 & H3 & H4) Hl HF. unfold ixgbe_dcb_config_rx_arbiter_82599.
  tr_step. eapply tr_bind; [by apply tr_map_word|]. intros v ? [-> Hv]. tr_step.
  eapply tr_bind.
  { apply (tr_credit_loop _ IXGBE_RTRPT4C rx_word _ refill max bwg_id tsa).
    intros k T Hk HT. do 4 (apply (tr_bind_nth _ _ _ 0); [lia|]). by tr_step. }
  intros [] ? ->. repeat tr_step. split; [done|]. exists v. by split.
Qed.

(** The same for the transmit data arbiter: disabled, map word, credits with
    both kinds of strict priority, enabled. *)
Theorem tx_data_arbiter_82599_sequence c refill max bwg_id tsa map :
  arrays8 refill max bwg_id tsa -> length map = 8%nat -> Forall (in_range 3) map ->
  tr c (ixgbe_dcb_config_tx_data_arbiter_82599 refill max bwg_id tsa map) (fun ret l =>
    ret = IXGBE_SUCCESS /\ exists word, up_fields map word /\
    l = Wr IXGBE_RTTPCS 0x1000160 :: Wr IXGBE_RTTUP2TC (u32 word) ::
        credit_writes IXGBE_RTTPT2C tx_data_word refill max bwg_id tsa ++ [Wr IXGBE_RTTPCS 0x1000120]).
Proof.
  intros (H1 & H2 & H3 & H4) Hl HF. unfold ixgbe_dcb_config_tx_data_arbiter_82599. cbv zeta.
  tr_step. eapply tr_bind; [by apply tr_map_word|]. intros v ? [-> Hv]. tr_step.
  eapply tr_bind.
  { apply (tr_credit_loop _ IXGBE_RTTPT2C tx_data_word _ refill max bwg_id tsa).
    intros k T Hk HT. do 4 (apply (tr_bind_nth _ _ _ 0); [lia|]). by tr_step. }
  intros [] ? ->. repeat tr_step. split; [done|]. exists v. by split.
Qed.
End Arbiters.

(** ** Read-back of the priority map *)
Section MapRoundtrip.
Context `{D : Mmio} `{!PlainRegs D (fun r => r = IXGBE_RTRUP2TC)}.
Abbreviation tr := (traces dcb_static).

(** the classes that the register's fields name *)
Definition decoded (reg : Z) (map : list Z) : Prop :=
  length map = 8%nat /\ forall i m, map !! i = Some m ->
    m = Z.land IXGBE_RTRUP2TC_UP_MASK (Z.shiftr reg (3 * Z.of_nat i)).

Lemma tr_get_rtrup2tc c buf : length buf = 8%nat ->
  tr c (ixgbe_dcb_get_rtrup2tc_generic buf) (fun map l =>
    exists v, l = [Rd IXGBE_RTRUP2TC v] /\ decoded v map).
Proof.
  intros Hl. unfold ixgbe_dcb_get_rtrup2tc_generic. tr_step.
  eapply tr_mono.
  { apply tr_for_acc with (I := fun k (map : list Z) l => l = [] /\ length map = 8%nat /\
      forall i m, Z.of_nat i < k -> map !! i = Some m ->
        m = Z.land IXGBE_RTRUP2TC_UP_MASK (Z.shiftr v (3 * Z.of_nat i))).
    - split; [done|]. split; [done|]. lia.
    - intros k map l Hk (-> & Hm & Hi). change (Z.of_nat _) with 8 in Hk.
      apply tr_upd_c; [lia|]. split; [done|]. rewrite length_insert. split; [done|].
      intros i m Hik. destruct (decide (i = Z.to_nat k)) as [->|Hne].
      + rewrite list_lookup_insert_eq by lia. intros [= <-]. do 2 f_equal.
        unfold IXGBE_RTRUP2TC_UP_SHIFT. lia.
      + rewrite list_lookup_insert_ne by lia. apply Hi. lia. }
  intros map l (-> & Hm & Hi). exists v. split; [done|]. split; [done|].
  intros i m Him. apply Hi; [|done]. apply lookup_lt_Some in Him.
  change (Z.of_nat (Z.to_nat IXGBE_DCB_MAX_USER_PRIORITY)) with 8. lia.
Qed.

(** The priority map survives the hardware.  On a device where only
    [RTRUP2TC] is known to be plain storage, the map that
    [ixgbe_dcb_get_rtrup2tc_generic] decodes after
    [ixgbe_dcb_config_rx_arbiter_82599] is the map that was programmed. *)
Theorem up_map_roundtrip refill max bwg_id tsa map buf w :
  arrays8 refill max bwg_id tsa -> length map = 8%nat -> Forall (in_range 3) map ->
  length buf = 8%nat ->
  wp (ixgbe_dcb_config_rx_arbiter_82599 refill max bwg_id tsa map ;;
      ixgbe_dcb_get_rtrup2tc_generic buf)
     (fun map' w' => alive w' -> map' = map) w.
Proof.
  intros Ha Hl HF Hb. wp_step.
  eapply wp_mono; [apply (rx_arbiter_82599_sequence (dcb_static (w_hw w)) refill max bwg_id tsa map); done|].
  intros _ w1 (_ & l1 & (_ & word & Hw & ->) & Hd1).
  eapply wp_mono; [apply (tr_get_rtrup2tc (dcb_static (w_hw w1)) buf); done|].
  intros map' w2 (_ & l2 & (v & -> & Hm & Hi) & Hd2) Ha2.
  assert (alive w1) as Ha1 by apply (Hd2 Ha2).
  destruct (did_peek (P := fun r => r = IXGBE_RTRUP2TC) _ _ _ IXGBE_RTRUP2TC Hd2 Ha2 eq_refl) as [_ Hv].
  specialize (Hv [] v [] eq_refl). simpl in Hv.
  rewrite (proj1 (did_peek (P := fun r => r = IXGBE_RTRUP2TC) _ _ _ IXGBE_RTRUP2TC Hd1 Ha1 eq_refl)) in Hv. cbn [last_wr] in Hv.
  rewrite last_wr_app in Hv. cbn [last_wr] in Hv.
  rewrite decide_False, last_wr_other, decide_True in Hv; [|done| |done].
  2:{ unfold credit_writes. apply Forall_fmap, Forall_seq. intros i Hin. simpl.
      unfold IXGBE_RTRPT4C, IXGBE_RTRUP2TC. lia. }
  destruct Hw as [Hr Hf]. rewrite trunc_small in Hv by (unfold in_range in *; lia). subst v.
  apply list_eq_same_length with (n := 8%nat); [done|done|].
  intros i x y Hi8 Hx Hy. rewrite (Hi _ _ Hx). by apply Hf.
Qed.
End MapRoundtrip.

(** ** Statistics layout *)

(** the counter set that queue [q] uses, from the registers after [l] *)
Definition stat_of (reg : Z -> Z) (l : list access) (q : Z) : Z :=
  Z.land (Z.shiftr (last_wr (reg (q / 4)) l 0) (8 * (q mod 4))) 0xff.
Definition queues_of (reg : Z -> Z) (l : list access) (tc : Z) : Z :=
  Z.of_nat (length (filter (fun q => stat_of reg l q = tc) (seqZ 0 128))).

Section Stats.
Context `{D : Mmio}.
Abbreviation tr := (traces dcb_static).

Lemma tr_write_loop c n (reg val : Z -> Z) :
  tr c (for_loop n 0 (fun i => IXGBE_WRITE_REG (reg i) (val i)))
     (fun _ l => l = (fun i => Wr (reg i) (u32 (val i))) <$> seqZ 0 (Z.of_nat n)).
Proof.
  eapply tr_mono.
  { apply tr_for_loop with (I := fun k l => 0 <= k /\ l = (fun i => Wr (reg i) (u32 (val i))) <$> seqZ 0 k).
    - done.
    - intros k l Hk [H0 ->]. apply tr_WRITE_REG. split; [lia|].
      rewrite <- (Z.add_0_l k) at 3. rewrite seqZ_app, fmap_app by lia. simpl.
      change (seqZ (0 + k) 1) with [Z.of_nat 0 + (0 + k)]. simpl. by rewrite Z.add_0_l. }
  intros [] l [_ ->]. by rewrite Z.add_0_l.
Qed.

(** Without a DCB configuration (eight classes, no VT) the 82599 statistics
    layout assigns receive queue [q] to counter set [q / 16], and the 128
    transmit queues 32, 32, 16, 16, 8, 8, 8, 8 to the eight sets, on every
    device. *)
Theorem tc_stats_82599_layout c :
  tr c (ixgbe_dcb_config_tc_stats_82599 None) (fun ret l => ret = IXGBE_SUCCESS /\
    (forall q, 0 <= q < 128 -> stat_of IXGBE_RQSMR l q = q / 16) /\
    queues_of IXGBE_TQSM l <$> seqZ 0 8 = [32; 32; 16; 16; 8; 8; 8; 8]).
Proof.
  unfold ixgbe_dcb_config_tc_stats_82599. cbv zeta. cbn [Z.eqb negb andb orb Pos.eqb].
  tr_step. eapply tr_bind; [apply (tr_write_loop _ 32 IXGBE_RQSMR)|]. intros [] ? ->.
  eapply tr_bind; [apply (tr_write_loop _ 32 IXGBE_TQSM)|]. intros [] ? ->. tr_step.
  split; [done|]. split; [|vm_compute; done]. intros q Hq.
  set (l := _ ++ _).
  assert (forallb (fun q => stat_of IXGBE_RQSMR l q =? q / 16) (seqZ 0 128) = true) as HF
    by (vm_compute; done).
  apply Z.eqb_eq. refine (proj1 (forallb_forall _ _) HF q _).
  apply list_elem_of_In, elem_of_seqZ. lia.
Qed.
End Stats.

(** ** Priority flow control thresholds *)

(** some priority of class [tc] has PFC on *)
Definition pfc_on (map : list Z) (pfc_en tc : Z) : Prop :=
  exists up, 0 <= up < 8 /\ map !! Z.to_nat up = Some tc /\ Z.testbit pfc_en up = true.
(** some priority of class [tc] or of a higher one exists *)
Definition tc_used (map : list Z) (tc : Z) : Prop := exists m, m ∈ map /\ tc <= m.

(** accesses that do not write the threshold registers *)
Definition fc_regs (r : Z) : Prop :=
  exists tc, 0 <= tc < 8 /\ (r = IXGBE_FCRTL_82599 tc \/ r = IXGBE_FCRTH_82599 tc).

(** what is programmed for class [tc], [x] and [y] being what was there *)
Definition thresholds (f : ixgbe_fc_info) (map : list Z) (pfc_en tc : Z) (l : list access) : Prop :=
  forall x, let low := last_wr (IXGBE_FCRTL_82599 tc) l x in
            let high := last_wr (IXGBE_FCRTH_82599 tc) l x in
  (pfc_on map pfc_en tc ->
     low = u32 (Z.lor (u32 (Z.shiftl (nth (Z.to_nat tc) (low_water f) 0) 10)) IXGBE_FCRTL_XONE) /\
     high = u32 (Z.lor (u32 (Z.shiftl (nth (Z.to_nat tc) (high_water f) 0) 10)) IXGBE_FCRTH_FCEN)) /\
  (~ pfc_on map pfc_en tc -> tc_used map tc ->
     low = 0 /\ exists v, Rd (IXGBE_RXPBSIZE tc) v ∈ l /\ high = u32 (v - 24576)) /\
  (~ tc_used map tc -> low = 0 /\ high = 0).

Lemma thresholds_later f map pfc_en tc l l' : 0 <= tc < 8 ->
  Forall (fun a => match a with Wr r _ => r <> IXGBE_FCRTL_82599 tc /\ r <> IXGBE_FCRTH_82599 tc
                              | _ => True end) l' ->
  thresholds f map pfc_en tc l -> thresholds f map pfc_en tc (l ++ l').
Proof.
  intros Htc HF HT x. cbv zeta. rewrite !last_wr_app.
  rewrite (last_wr_other (IXGBE_FCRTL_82599 tc)), (last_wr_other (IXGBE_FCRTH_82599 tc)).
  - destruct (HT x) as (H1 & H2 & H3). split; [done|]. split; [|done]. intros Hn Hu.
    destruct (H2 Hn Hu) as (? & v & ? & ?). split; [done|]. exists v. split; [|done].
    apply elem_of_app. by left.
  - eapply Forall_impl; [|exact HF]. intros []; naive_solver.
  - eapply Forall_impl; [|exact HF]. intros []; naive_solver.
Qed.

(** a pair of writes for class [tc] after anything *)
Lemma last_wr_pair tc l a b x : 0 <= tc < 8 ->
  last_wr (IXGBE_FCRTL_82599 tc) (l ++ [Wr (IXGBE_FCRTL_82599 tc) a; Wr (IXGBE_FCRTH_82599 tc) b]) x = a /\
  last_wr (IXGBE_FCRTH_82599 tc) (l ++ [Wr (IXGBE_FCRTL_82599 tc) a; Wr (IXGBE_FCRTH_82599 tc) b]) x = b.
Proof.
  intros Htc. rewrite !last_wr_app. simpl. unfold IXGBE_FCRTL_82599, IXGBE_FCRTH_82599.
  repeat case_decide; lia.
Qed.

Section Pfc.
Context `{D : Mmio}.
Abbreviation tr := (traces dcb_static).
Context (map : list Z) (pfc_en : Z) (Hl : length map = 8%nat) (HF : Forall (in_range 3) map).

Lemma tr_pfc_enabled_tc c tc :
  tr c (pfc_enabled_tc map pfc_en tc) (fun b l => l = [] /\ if b then pfc_on map pfc_en tc
                                                           else ~ pfc_on map pfc_en tc).
Proof using Hl.
  unfold pfc_enabled_tc. eapply tr_bind.
  { apply tr_for_break with (I := fun k _ l => l = [] /\
      forall up, 0 <= up < k -> map !! Z.to_nat up = Some tc -> Z.testbit pfc_en up = false)
      (T := fun r l => l = [] /\ match r with inr _ => pfc_on map pfc_en tc
                                            | inl _ => ~ pfc_on map pfc_en tc end).
    - split; [done|lia].
    - intros k [] l Hk [-> HI]. change (Z.of_nat _) with 8 in Hk.
      destruct (lookup_lt_is_Some_2 map (Z.to_nat k)) as [m Hm]; [lia|].
      apply (tr_bind_nth _ _ _ 0); [lia|]. rewrite (nth_lookup_Some _ _ 0 _ Hm).
      rewrite has_bit by lia. destruct (Z.eqb_spec m tc) as [->|Hne]; simpl.
      + destruct (Z.testbit pfc_en k) eqn:E; tr_step; (split; [done|]).
        * exists k. split; [lia|done].
        * intros up Hup Hmap. destruct (decide (up = k)) as [->|]; [done|]. apply HI; [lia|done].
      + tr_step. split; [done|]. intros up Hup Hmap.
        destruct (decide (up = k)) as [->|]; [congruence|]. apply HI; [lia|done].
    - intros [] l [-> HI]. split; [done|]. intros (up & Hup & Hm & Hb).
      rewrite (HI up) in Hb; [done|exact Hup|done]. }
  intros [[]|[]] l [-> H]; tr_step; by split.
Qed.

Lemma tr_map_max_tc c : tr c (map_max_tc map) (fun m l => l = [] /\ 0 <= m < 8 /\
  forall tc, 0 <= tc -> (tc <= m <-> tc_used map tc)).
Proof using Hl HF.
  unfold map_max_tc. eapply tr_mono.
  { apply tr_for_acc with (I := fun k m l => l = [] /\ 0 <= m < 8 /\
      (m = 0 \/ m ∈ map) /\ forall j x, (Z.of_nat j < k) -> map !! j = Some x -> x <= m).
    - split; [done|]. split; [lia|]. split; [by left|]. intros j x Hj. lia.
    - intros k m l Hk (-> & Hm & Hin & Hle). change (Z.of_nat _) with 8 in Hk.
      destruct (lookup_lt_is_Some_2 map (Z.to_nat k)) as [x Hx]; [lia|].
      pose proof (Forall_lookup_1 _ _ _ _ HF Hx) as Hr. unfold in_range in Hr.
      apply (tr_bind_nth _ _ _ 0); [lia|]. rewrite (nth_lookup_Some _ _ 0 _ Hx). tr_step.
      split; [done|]. destruct (Z.ltb_spec m x); (split; [lia|]).
      + split; [right; by eapply list_elem_of_lookup_2|]. intros j y Hj Hy.
        destruct (decide (j = Z.to_nat k)) as [->|]; [simplify_eq; lia|].
        etrans; [apply (Hle j); [lia|done]|lia].
      + split; [done|]. intros j y Hj Hy.
        destruct (decide (j = Z.to_nat k)) as [->|]; [simplify_eq; lia|]. apply (Hle j); [lia|done]. }
  intros m l (-> & Hm & Hin & Hle). split; [done|]. split; [done|]. intros tc Htc. split.
  - intros Hle'. destruct Hin as [->|Hin]; [|by exists m].
    destruct (lookup_lt_is_Some_2 map 0) as [x Hx]; [lia|]. exists x.
    split; [by eapply list_elem_of_lookup_2|].
    pose proof (Forall_lookup_1 _ _ _ _ HF Hx) as Hr. unfold in_range in Hr. lia.
  - intros (x & Hx & Hle'). apply list_elem_of_lookup in Hx as [j Hj].
    etrans; [exact Hle'|]. apply (Hle j); [|done]. apply lookup_lt_Some in Hj.
    change (Z.of_nat (Z.to_nat IXGBE_DCB_MAX_USER_PRIORITY)) with 8. lia.
Qed.

Lemma tr_pfc_thresholds c tc (before : list access) : 0 <= tc < 8 -> tc_used map tc ->
  length (high_water c.2) = 8%nat -> length (low_water c.2) = 8%nat ->
  tr c (pfc_thresholds map pfc_en tc) (fun _ l =>
    Forall (fun a => match a with Wr r _ => r = IXGBE_FCRTL_82599 tc \/ r = IXGBE_FCRTH_82599 tc
                                | _ => True end) l /\
    thresholds c.2 map pfc_en tc (before ++ l)).
Proof using Hl.
  intros Htc Hu Hh Hw. unfold pfc_thresholds.
  eapply tr_bind; [by apply tr_pfc_enabled_tc|]. intros [] ? [-> Hon]; cbn [app].
  - apply tr_bind_get_hw. intros h <-. cbn [dcb_static snd] in *.
    do 2 (apply (tr_bind_nth _ _ _ 0); [lia|]). repeat tr_step.
    split; [constructor; [by left|constructor; [by right|constructor]]|]. intros x. cbv zeta.
    destruct (last_wr_pair tc before
      (u32 (Z.lor (u32 (Z.shiftl (nth (Z.to_nat tc) (low_water (fc h)) 0) 10)) IXGBE_FCRTL_XONE))
      (u32 (Z.lor (u32 (Z.shiftl (nth (Z.to_nat tc) (high_water (fc h)) 0) 10)) IXGBE_FCRTH_FCEN)) x Htc)
      as [E1 E2]. rewrite E1, E2. split; [done|]. split; [done|]. tauto.
  - repeat tr_step.
    split; [constructor; [done|constructor; [by left|constructor; [by right|constructor]]]|].
    intros x. cbv zeta.
    destruct (last_wr_pair tc (before ++ [Rd (IXGBE_RXPBSIZE tc) v]) (u32 0) (u32 (u32 (v - 24576))) x Htc)
      as [E1 E2]. rewrite <- app_assoc in E1, E2. simpl in E1, E2. rewrite E1, E2.
    split; [done|]. split; [|tauto]. intros _ _. split; [done|]. exists v.
    split; [|by rewrite trunc_idem]. apply elem_of_app. right. apply elem_of_cons. by left.
Qed.

Lemma tr_pfc_pause_time c : tr c pfc_pause_time (fun _ l => forall tc, 0 <= tc < 8 ->
  Forall (fun a => match a with Wr r _ => r <> IXGBE_FCRTL_82599 tc /\ r <> IXGBE_FCRTH_82599 tc
                              | _ => True end) l).
Proof.
  unfold pfc_pause_time. tr_step.
  eapply tr_bind; [apply (tr_write_loop _ _ IXGBE_FCTTV)|]. intros [] ? ->. tr_step.
  intros tc Htc. apply Forall_app. split.
  - apply Forall_fmap, Forall_seqZ. intros i Hi. simpl.
    unfold IXGBE_FCTTV, IXGBE_FCRTL_82599, IXGBE_FCRTH_82599.
    change (Z.of_nat _) with 4 in Hi. lia.
  - repeat constructor; unfold IXGBE_FCRTV, IXGBE_FCRTL_82599, IXGBE_FCRTH_82599; lia.
Qed.

Lemma tr_pfc_all_thresholds c (pre : list access) :
  length (high_water c.2) = 8%nat -> length (low_water c.2) = 8%nat ->
  tr c (max_tc ← map_max_tc map;
        for_loop (Z.to_nat (max_tc + 1)) 0 (fun i => pfc_thresholds map pfc_en i) ;;
        for_loop (Z.to_nat (IXGBE_DCB_MAX_TRAFFIC_CLASS - (max_tc + 1))) (max_tc + 1) (fun i =>
          IXGBE_WRITE_REG (IXGBE_FCRTL_82599 i) 0 ;;
          IXGBE_WRITE_REG (IXGBE_FCRTH_82599 i) 0) ;;
        pfc_pause_time ;;
        mret IXGBE_SUCCESS)
     (fun ret l => ret = IXGBE_SUCCESS /\
        forall tc, 0 <= tc < 8 -> thresholds c.2 map pfc_en tc (pre ++ l)).
Proof using Hl HF.
  intros Hh Hw.
  eapply tr_bind; [by apply tr_map_max_tc|]. intros m ? (-> & Hm & Hused).
  eapply tr_bind.
  { apply tr_for_loop with (I := fun k l =>
      forall tc, 0 <= tc < k -> thresholds c.2 map pfc_en tc (pre ++ l)); [lia|].
    intros k l Hk HI. eapply tr_mono.
    - apply (tr_pfc_thresholds c k (pre ++ l)); [lia|apply Hused; lia|done|done].
    - intros [] l' [HW HT] tc Htc. rewrite app_assoc.
      destruct (decide (tc = k)) as [->|Hne]; [done|].
      apply thresholds_later; [lia| |apply HI; lia]. eapply Forall_impl; [|exact HW].
      intros []; try done. unfold IXGBE_FCRTL_82599, IXGBE_FCRTH_82599. lia. }
  intros [] l1 H1. replace (0 + Z.of_nat (Z.to_nat (m + 1))) with (m + 1) in H1 by lia.
  eapply tr_bind.
  { apply tr_for_loop with (I := fun k l =>
      forall tc, 0 <= tc < k -> thresholds c.2 map pfc_en tc (pre ++ l1 ++ l)).
    - by rewrite app_nil_r.
    - intros k l Hk HI. change IXGBE_DCB_MAX_TRAFFIC_CLASS with 8 in Hk. repeat tr_step.
      intros tc Htc. destruct (decide (tc = k)) as [->|Hne].
      + intros x. cbv zeta. rewrite !app_assoc.
        destruct (last_wr_pair k ((pre ++ l1) ++ l) (u32 0) (u32 0) x) as [-> ->]; [lia|].
        assert (~ tc_used map k) as Hnu by (rewrite <- Hused; lia).
        split; [|split; [tauto|done]]. intros (up & Hup & Hmap & _). destruct Hnu.
        exists k. split; [by eapply list_elem_of_lookup_2|lia].
      + rewrite app_assoc, app_assoc, <- (app_assoc pre). apply thresholds_later; [lia| |apply HI; lia].
        repeat constructor; unfold IXGBE_FCRTL_82599, IXGBE_FCRTH_82599; lia. }
  intros [] l2 H2. change IXGBE_DCB_MAX_TRAFFIC_CLASS with 8 in H2.
  replace (m + 1 + Z.of_nat (Z.to_nat (8 - (m + 1)))) with 8 in H2 by lia.
  eapply tr_bind; [apply tr_pfc_pause_time|]. intros [] l3 H3. tr_step. split; [done|].
  intros tc Htc.
  replace (pre ++ _) with ((pre ++ l1 ++ l2) ++ l3) by (by rewrite app_nil_r, <- !app_assoc).
  apply thresholds_later; [done|by apply H3|by apply H2].
Qed.

(** After [ixgbe_dcb_config_pfc_82599], on every device and for every
    traffic class: if some priority mapped to the class has PFC enabled, the
    class's low and high water marks are programmed with XON and flow control
    enabled; if it is in use (its number is at most the largest mapped class) but
    without PFC, flow control is off and the high mark is the class's packet
    buffer size minus 24 KB; classes above the largest mapped one are zeroed. *)
Theorem pfc_82599_thresholds c :
  length (high_water c.2) = 8%nat -> length (low_water c.2) = 8%nat ->
  tr c (ixgbe_dcb_config_pfc_82599 pfc_en map) (fun ret l => ret = IXGBE_SUCCESS /\
    forall tc, 0 <= tc < 8 -> thresholds c.2 map pfc_en tc l).
Proof using Hl HF.
  intros Hh Hw. unfold ixgbe_dcb_config_pfc_82599.
  do 2 tr_step. apply tr_bind_get_hw. intros h Hc. tr_step.
  by apply (tr_pfc_all_thresholds c (_ :: _ :: _ :: [])).
Qed.
End Pfc.

(** ** Witnesses *)
Definition ex_refill : list Z := [20; 40; 12; 12; 60; 12; 12; 80].
Definition ex_max : list Z := [409; 819; 12; 12; 1228; 12; 12; 1638].
Definition ex_bwg : list Z := [0; 1; 2; 3; 4; 5; 6; 7].
Definition ex_tsa : list Z := [0; 0; 0; 1; 0; 0; 0; 2].
Definition ex_map : list Z := [0; 0; 1; 1; 2; 2; 3; 4].

Lemma ex_map_range : Forall (in_range 3) ex_map.
Proof. repeat constructor; unfold in_range; simpl; lia. Qed.

Lemma rx_arbiter_82599_sequence_witness :
  traces (D := ram) dcb_static (dcb_static hw0)
    (ixgbe_dcb_config_rx_arbiter_82599 ex_refill ex_max ex_bwg ex_tsa ex_map)
    (fun ret l => ret = 0 /\ exists l', l = l' ++ [Wr IXGBE_RTRPCS 0x06]).
Proof.
  eapply tr_mono; [apply (rx_arbiter_82599_sequence (D := ram) _ ex_refill ex_max ex_bwg ex_tsa ex_map);
    [by repeat split|reflexivity|exact ex_map_range]|].
  intros ret l (Hr & word & _ & ->). split; [exact Hr|]. by eexists (_ :: _ :: _).
Defined.

Lemma tx_data_arbiter_82599_sequence_witness :
  traces (D := ram) dcb_static (dcb_static hw0)
    (ixgbe_dcb_config_tx_data_arbiter_82599 ex_refill ex_max ex_bwg ex_tsa ex_map)
    (fun ret l => ret = 0 /\ exists l', l = l' ++ [Wr IXGBE_RTTPCS 0x1000120]).
Proof.
  eapply tr_mono; [apply (tx_data_arbiter_82599_sequence (D := ram) _ ex_refill ex_max ex_bwg ex_tsa ex_map);
    [by repeat split|reflexivity|exact ex_map_range]|].
  intros ret l (Hr & word & _ & ->). split; [exact Hr|]. by eexists (_ :: _ :: _).
Defined.

Lemma up_map_roundtrip_witness :
  let w := mk_world ram hw0 (∅ : gmap Z Z) [] in
  wp (ixgbe_dcb_config_rx_arbiter_82599 (D := ram) ex_refill ex_max ex_bwg ex_tsa ex_map ;;
      ixgbe_dcb_get_rtrup2tc_generic (replicate 8 0)) (fun map' _ => map' = ex_map) w.
Proof.
  intros w. eapply wp_mono.
  - apply wp_conj.
    + apply (up_map_roundtrip (D := ram) (PlainRegs0 := ram_plain _) ex_refill ex_max ex_bwg ex_tsa
        ex_map (replicate 8 0) w); [by repeat split|reflexivity|exact ex_map_range|reflexivity].
    + instantiate (1 := fun _ w' => hw_addr (w_hw w') = true). vm_compute. reflexivity.
  - intros m w' [H Ha]. exact (H Ha).
Defined.

Lemma pfc_82599_thresholds_witness :
  traces (D := ram) dcb_static (dcb_static hw0) (ixgbe_dcb_config_pfc_82599 0x0C ex_map)
    (fun ret l => ret = 0 /\ last_wr (IXGBE_FCRTH_82599 1) l 0 = 0x80020000).
Proof.
  eapply tr_mono; [apply (pfc_82599_thresholds (D := ram) ex_map 0x0C eq_refl ex_map_range
    (dcb_static hw0)); reflexivity|].
  intros ret l (Hr & Ht). split; [exact Hr|].
  destruct (Ht 1 ltac:(lia) 0) as [Hon _]. apply Hon. exists 2. split; [lia|]. done.
Defined.
