(* ===== verification/Plain.v ===== *)
(** * Computations on devices whose registers are storage

    For the registers that only hold what the driver puts there (filters, DMA
    configuration) a computation is a function of the software state [h] and of
    the register contents [s].  [plain h s m Q]: on every device whose registers
    in [P] are plain storage, [m] started with state [h] and contents [s] ends
    without a fault, and its result, state and contents satisfy [Q]. *)
From stdpp Require Import gmap.
From S2P Require Import Prelude Regs Types Osdep.

(** one register changed *)
Definition set_reg (r v : Z) (s : Z -> Z) : Z -> Z := fun r' => if decide (r = r') then v else s r'.

Lemma set_reg_eq r v s : set_reg r v s r = v.
Proof. unfold set_reg. by rewrite decide_True. Qed.
Lemma set_reg_ne r v s r' : r <> r' -> set_reg r v s r' = s r'.
Proof. intros. unfold set_reg. by rewrite decide_False. Qed.

Section PlainRun.
Context `{D : Mmio} {P : Z -> Prop} `{!PlainRegs D P}.
Context (HS : P IXGBE_STATUS).

(** the world has software state [h] and register contents [s] *)
Record holds (h : ixgbe_hw) (s : Z -> Z) (w : world) : Prop := {
  ho_ready : ready w;
  ho_hw : w_hw w = h;
  ho_regs : forall r, P r -> peek (w_dev w) r = s r;
}.

Definition plain {A} (h : ixgbe_hw) (s : Z -> Z) (m : M A)
    (Q : A -> ixgbe_hw -> (Z -> Z) -> Prop) : Prop :=
  forall w, holds h s w -> wp m (fun a w' => exists h' s', holds h' s' w' /\ Q a h' s') w.

Lemma holds_same h s w w' : holds h s w -> ready w' -> same w w' -> holds h s w'.
Proof. intros [] ? (E1 & E2 & _). split; [done|congruence|by rewrite E2]. Qed.

Lemma pl_ret {A} h s (a : A) (Q : A -> _ -> _ -> Prop) : Q a h s -> plain h s (mret a) Q.
Proof using. intros HQ w Hw. apply wp_ret. eauto. Qed.

Lemma pl_bind {A B} h s (m : M A) (f : A -> M B) (Q : B -> _ -> _ -> Prop) :
  plain h s m (fun a h' s' => plain h' s' (f a) Q) -> plain h s (m ≫= f) Q.
Proof using.
  intros Hm w Hw. apply wp_bind. eapply wp_mono; [by apply Hm|].
  intros a w' (h' & s' & Hw' & HQ). by apply HQ.
Qed.

Lemma pl_mono {A} h s (m : M A) (Q Q' : A -> _ -> _ -> Prop) :
  plain h s m Q -> (forall a h' s', Q a h' s' -> Q' a h' s') -> plain h s m Q'.
Proof using.
  intros Hm HQ w Hw. eapply wp_mono; [by apply Hm|]. intros a w' (h' & s' & ? & ?).
  exists h', s'. auto.
Qed.

Lemma pl_read h s r (Q : Z -> _ -> _ -> Prop) :
  P r -> (in_range 32 (s r) -> Q (s r) h s) -> plain h s (IXGBE_READ_REG r) Q.
Proof using HS.
  intros Hr HQ w Hw. apply wp_READ_REG; [done|done|apply Hw|]. intros w' H1 H2.
  exists h, s. split; [by eapply holds_same|]. rewrite (ho_regs _ _ _ Hw r Hr). apply HQ.
  rewrite <- (ho_regs _ _ _ Hw r Hr). apply peek_range.
Qed.

Lemma pl_write h s r v (Q : unit -> _ -> _ -> Prop) :
  r <> IXGBE_STATUS -> Q tt h (set_reg r (u32 v) s) -> plain h s (IXGBE_WRITE_REG r v) Q.
Proof using HS.
  intros Hr HQ w Hw. apply wp_WRITE_REG; [done|done|apply Hw|]. intros w' H1 (E1 & E2 & _).
  exists h, (set_reg r (u32 v) s). split; [|done]. split; [done|rewrite E1; apply Hw|].
  intros r' Hr'. rewrite E2 by done. unfold set_reg. case_decide; [done|].
  by apply (ho_regs _ _ _ Hw).
Qed.

Lemma pl_flush h s (Q : unit -> _ -> _ -> Prop) : Q tt h s -> plain h s IXGBE_WRITE_FLUSH Q.
Proof using HS.
  intros HQ. unfold IXGBE_WRITE_FLUSH. apply pl_bind, pl_read; [done|intros _]. by apply pl_ret.
Qed.

Lemma pl_get_hw h s (Q : ixgbe_hw -> _ -> _ -> Prop) :
  (hw_addr h = true -> Q h h s) -> plain h s get_hw Q.
Proof using.
  intros HQ w Hw. apply wp_get_hw. pose proof Hw as [[Ha _ _] E _]. rewrite E in *. eauto.
Qed.

Lemma pl_upd_hw h s f (Q : unit -> _ -> _ -> Prop) :
  hw_addr (f h) = hw_addr h -> nw_mng_if_sel (phy (f h)) = nw_mng_if_sel (phy h) ->
  Q tt (f h) s -> plain h s (upd_hw f) Q.
Proof using.
  intros H1 H2 HQ w [[Ha Hg Hs] E Hr]. apply wp_upd_hw. exists (f h), s. split; [|done].
  split; simpl; [|congruence|done]. split; simpl; rewrite E in *; congruence.
Qed.

Lemma pl_nth_c {A} h s (l : list A) i a (Q : A -> _ -> _ -> Prop) :
  0 <= i -> l !! Z.to_nat i = Some a -> Q a h s -> plain h s (nth_c l i) Q.
Proof using. intros Hi Hl HQ w Hw. eapply wp_nth_c; eauto. Qed.

Lemma pl_upd_c {A} h s (l : list A) i x (Q : list A -> _ -> _ -> Prop) :
  0 <= i < Z.of_nat (length l) -> Q (<[Z.to_nat i := x]> l) h s -> plain h s (upd_c l i x) Q.
Proof using. intros Hi HQ w Hw. apply wp_upd_c; [done|]. eauto. Qed.

Lemma pl_for_loop n i (body : Z -> M unit) (Inv : Z -> ixgbe_hw -> (Z -> Z) -> Prop) h s :
  Inv i h s ->
  (forall k h' s', i <= k < i + Z.of_nat n -> Inv k h' s' ->
     plain h' s' (body k) (fun _ => Inv (k + 1))) ->
  plain h s (for_loop n i body) (fun _ => Inv (i + Z.of_nat n)).
Proof using.
  intros H0 Hb w Hw.
  eapply wp_mono; [apply wp_for_loop with
    (Inv := fun k w' => exists h' s', holds h' s' w' /\ Inv k h' s')|].
  - eauto.
  - intros k w1 Hk (h1 & s1 & Hw1 & HI). exact (Hb k h1 s1 Hk HI w1 Hw1).
  - done.
Qed.

Lemma pl_for_acc {A} n i (a : A) (body : Z -> A -> M A)
    (Inv : Z -> A -> ixgbe_hw -> (Z -> Z) -> Prop) h s :
  Inv i a h s ->
  (forall k b h' s', i <= k < i + Z.of_nat n -> Inv k b h' s' ->
     plain h' s' (body k b) (Inv (k + 1))) ->
  plain h s (for_acc n i a body) (Inv (i + Z.of_nat n)).
Proof using.
  intros H0 Hb w Hw.
  eapply wp_mono; [apply wp_for_acc with
    (Inv := fun k b w' => exists h' s', holds h' s' w' /\ Inv k b h' s')|].
  - eauto.
  - intros k b w1 Hk (h1 & s1 & Hw1 & HI). exact (Hb k b h1 s1 Hk HI w1 Hw1).
  - done.
Qed.

Lemma pl_for_break {A B} n i (a : A) (body : Z -> A -> M (A + B))
    (Inv : Z -> A -> ixgbe_hw -> (Z -> Z) -> Prop) (Q : A + B -> _ -> _ -> Prop) h s :
  Inv i a h s ->
  (forall k b h' s', i <= k < i + Z.of_nat n -> Inv k b h' s' ->
     plain h' s' (body k b) (fun x h'' s'' => match x with
                                              | inl b' => Inv (k + 1) b' h'' s''
                                              | inr c => Q (inr c) h'' s''
                                              end)) ->
  (forall b h' s', Inv (i + Z.of_nat n) b h' s' -> Q (inl b) h' s') ->
  plain h s (for_break n i a body) Q.
Proof using.
  intros H0 Hb He w Hw.
  apply wp_for_break with (Inv := fun k b w' => exists h' s', holds h' s' w' /\ Inv k b h' s').
  - eauto.
  - intros k b w1 Hk (h1 & s1 & Hw1 & HI). eapply wp_mono; [exact (Hb k b h1 s1 Hk HI w1 Hw1)|].
    intros [b'|c] w2 (h2 & s2 & Hw2 & HI2); eauto.
  - intros b w1 (h1 & s1 & Hw1 & HI). eauto.
Qed.
End PlainRun.

#[global] Arguments plain : simpl never.
#[global] Arguments set_reg : simpl never.

(** One step of execution; register side conditions go to [side]. *)
Ltac pl_step_with side :=
  lazymatch goal with
  | |- plain _ _ (mbind _ _) _ => apply pl_bind
  | |- plain _ _ (mret _) _ => apply pl_ret
  | |- plain _ _ get_hw _ => apply pl_get_hw; intros ?
  | |- plain _ _ (upd_hw _) _ => apply pl_upd_hw; [done|done|]
  | |- plain _ _ (IXGBE_READ_REG _) _ => apply pl_read; [side|side|intros ?]
  | |- plain _ _ (IXGBE_WRITE_REG _ _) _ => apply pl_write; [side|side|]
  | |- plain _ _ IXGBE_WRITE_FLUSH _ => apply pl_flush; [side|]
  | |- plain _ _ (if ?b then _ else _) _ => destruct b eqn:?
  | |- plain _ _ (nth_c _ _) _ => eapply pl_nth_c; [try lia|try done|]
  end; cbv beta zeta.

(** ** A register file as an instance *)
#[local] Existing Instance ram_plain.
Definition wram (s : gmap Z Z) : world (H := ram) := mk_world ram hw0 s [].

(** the contents of a register file *)
Definition ram_regs (m : gmap Z Z) : Z -> Z := fun r => u32 (default 0 (m !! r)).

Lemma ram_holds (P : Z -> Prop) m : m !! IXGBE_STATUS = None ->
  holds (D := ram) (P := P) hw0 (ram_regs m) (wram m).
Proof. intros Hm. split; [|done|done]. split; [done|done|]. simpl. by rewrite Hm. Qed.
