(* ===== verification/Filters.v ===== *)
(** * Receive filters (ixgbe_common.c, ixgbe_82598.c)

    Receive address registers and their pools (RAR, MPSAR), the multicast table
    (MTA), the VLAN table (VFTA) and the VLAN pool filter (VLVF).

    The operations that differ between MACs are called through [hw->mac.ops];
    the initialisers bind them by MAC type ([ixgbe_init_ops_82598],
    [ixgbe_init_ops_82599], [ixgbe_init_ops_X540]), which is how [call_set_vmdq]
    and its siblings resolve them.  [ixgbe_clear_vmdq_generic] and
    [ixgbe_clear_rar_generic] call each other: the cycle carries fuel. *)
From S2P Require Import Prelude Regs Types Osdep.

Section Filters.
Context `{D : Mmio}.

Definition mod_mac (f : ixgbe_mac_info -> ixgbe_mac_info) : M unit :=
  upd_hw (fun h => upd_mac (f (mac h)) h).
Definition mod_addr_ctrl (f : ixgbe_addr_filter_info -> ixgbe_addr_filter_info) : M unit :=
  upd_hw (fun h => upd_addr_ctrl (f (addr_ctrl h)) h).

(** [1 << n] converted to [u32] *)
Definition bit32 (n : Z) : Z := u32 (bit n).

(** ** MAC addresses *)
Definition IXGBE_IS_MULTICAST (a : list Z) : M bool := x ← nth_c a 0; mret (has x 0x01).
Definition IXGBE_IS_BROADCAST (a : list Z) : M bool :=
  x ← nth_c a 0;
  if x =? 0xff then y ← nth_c a 1; mret (y =? 0xff) else mret false.

Definition ixgbe_validate_mac_addr (mac_addr : list Z) : M Z :=
  mc ← IXGBE_IS_MULTICAST mac_addr;
  if mc : bool then mret IXGBE_ERR_INVALID_MAC_ADDR
  else
    bc ← IXGBE_IS_BROADCAST mac_addr;
    if bc : bool then mret IXGBE_ERR_INVALID_MAC_ADDR
    else
      r ← for_break 6 0 tt (fun i _ =>
        x ← nth_c mac_addr i; if x =? 0 then mret (inl tt) else mret (inr tt));
      mret (match r with inl _ => IXGBE_ERR_INVALID_MAC_ADDR | inr _ => IXGBE_SUCCESS end).

Definition ixgbe_get_mac_addr_generic (mac_addr : list Z) : M (Z * list Z) :=
  rar_high ← IXGBE_READ_REG (IXGBE_RAH 0);
  rar_low ← IXGBE_READ_REG (IXGBE_RAL 0);
  mac_addr ← for_acc 4 0 mac_addr (fun i a => upd_c a i (u8 (Z.shiftr rar_low (i * 8))));
  mac_addr ← for_acc 2 0 mac_addr (fun i a => upd_c a (i + 4) (u8 (Z.shiftr rar_high (i * 8))));
  mret (IXGBE_SUCCESS, mac_addr).

(** the two register halves of an address *)
Definition rar_low_of (addr : list Z) : M Z :=
  a0 ← nth_c addr 0; a1 ← nth_c addr 1; a2 ← nth_c addr 2; a3 ← nth_c addr 3;
  mret (Z.lor (Z.lor (Z.lor a0 (u32 (Z.shiftl a1 8))) (u32 (Z.shiftl a2 16))) (u32 (Z.shiftl a3 24))).
Definition rar_high_of (addr : list Z) : M Z :=
  a4 ← nth_c addr 4; a5 ← nth_c addr 5;
  mret (Z.lor a4 (u32 (Z.shiftl a5 8))).

(** ** Pools of an address *)
Definition ixgbe_set_vmdq_generic (rar vmdq : Z) : M Z :=
  h ← get_hw;
  if num_rar_entries (mac h) <=? rar then mret IXGBE_ERR_INVALID_ARGUMENT
  else
    (if vmdq <? 32 then
       mpsar ← IXGBE_READ_REG (IXGBE_MPSAR_LO rar);
       IXGBE_WRITE_REG (IXGBE_MPSAR_LO rar) (Z.lor mpsar (bit32 vmdq))
     else
       mpsar ← IXGBE_READ_REG (IXGBE_MPSAR_HI rar);
       IXGBE_WRITE_REG (IXGBE_MPSAR_HI rar) (Z.lor mpsar (bit32 (vmdq - 32)))) ;;
    mret IXGBE_SUCCESS.

Definition ixgbe_set_vmdq_82598 (rar vmdq : Z) : M Z :=
  h ← get_hw;
  if num_rar_entries (mac h) <=? rar then mret IXGBE_ERR_INVALID_ARGUMENT
  else
    rar_high ← IXGBE_READ_REG (IXGBE_RAH rar);
    let rar_high := Z.land rar_high (bnot 32 IXGBE_RAH_VIND_MASK) in
    let rar_high := Z.lor rar_high
      (Z.land (u32 (Z.shiftl vmdq IXGBE_RAH_VIND_SHIFT)) IXGBE_RAH_VIND_MASK) in
    IXGBE_WRITE_REG (IXGBE_RAH rar) rar_high ;;
    mret IXGBE_SUCCESS.

Definition ixgbe_clear_vmdq_82598 (rar vmdq : Z) : M Z :=
  h ← get_hw;
  if num_rar_entries (mac h) <=? rar then mret IXGBE_ERR_INVALID_ARGUMENT
  else
    rar_high ← IXGBE_READ_REG (IXGBE_RAH rar);
    (if has rar_high IXGBE_RAH_VIND_MASK then
       IXGBE_WRITE_REG (IXGBE_RAH rar) (Z.land rar_high (bnot 32 IXGBE_RAH_VIND_MASK))
     else mret tt) ;;
    mret IXGBE_SUCCESS.

(** the binding of the pointer [hw->mac.ops.set_vmdq] by MAC;
    [null] is what the caller does when the pointer is NULL *)
Definition call_set_vmdq (null : M Z) (rar vmdq : Z) : M Z :=
  h ← get_hw;
  match mac_type (mac h) with
  | ixgbe_mac_unknown => null
  | ixgbe_mac_82598EB => ixgbe_set_vmdq_82598 rar vmdq
  | _ => ixgbe_set_vmdq_generic rar vmdq
  end.

(** [ixgbe_clear_rar_generic] with the function behind [ops.clear_vmdq] *)
Definition clear_rar_with (clear_vmdq : Z -> Z -> M Z) (index : Z) : M Z :=
  h ← get_hw;
  if num_rar_entries (mac h) <=? index then mret IXGBE_ERR_INVALID_ARGUMENT
  else
    rar_high ← IXGBE_READ_REG (IXGBE_RAH index);
    let rar_high := Z.land rar_high (bnot 32 (Z.lor 0x0000FFFF IXGBE_RAH_AV)) in
    IXGBE_WRITE_REG (IXGBE_RAL index) 0 ;;
    IXGBE_WRITE_REG (IXGBE_RAH index) rar_high ;;
    clear_vmdq index IXGBE_CLEAR_VMDQ_ALL ;;
    mret IXGBE_SUCCESS.

(** [ixgbe_clear_vmdq_generic] with the function behind [ops.clear_rar] *)
Definition clear_vmdq_with (clear_rar : Z -> M Z) (rar vmdq : Z) : M Z :=
  h ← get_hw;
  if num_rar_entries (mac h) <=? rar then mret IXGBE_ERR_INVALID_ARGUMENT
  else
    mpsar_lo ← IXGBE_READ_REG (IXGBE_MPSAR_LO rar);
    mpsar_hi ← IXGBE_READ_REG (IXGBE_MPSAR_HI rar);
    h ← get_hw;
    if IXGBE_REMOVED (hw_addr h) then mret IXGBE_SUCCESS
    else if (mpsar_lo =? 0) && (mpsar_hi =? 0) then mret IXGBE_SUCCESS
    else
      r ← (if vmdq =? IXGBE_CLEAR_VMDQ_ALL then
             lo ← (if negb (mpsar_lo =? 0) then
                     IXGBE_WRITE_REG (IXGBE_MPSAR_LO rar) 0 ;;
                     IXGBE_READ_REG (IXGBE_MPSAR_LO rar)
                   else mret mpsar_lo);
             hi ← (if negb (mpsar_hi =? 0) then
                     IXGBE_WRITE_REG (IXGBE_MPSAR_HI rar) 0 ;;
                     IXGBE_READ_REG (IXGBE_MPSAR_HI rar)
                   else mret mpsar_hi);
             mret (lo, hi)
           else if vmdq <? 32 then
             let lo := Z.land mpsar_lo (bnot 32 (bit vmdq)) in
             IXGBE_WRITE_REG (IXGBE_MPSAR_LO rar) lo ;;
             mret (lo, mpsar_hi)
           else
             let hi := Z.land mpsar_hi (bnot 32 (bit (vmdq - 32))) in
             IXGBE_WRITE_REG (IXGBE_MPSAR_HI rar) hi ;;
             mret (mpsar_lo, hi));
      h ← get_hw;
      (if (fst r =? 0) && (snd r =? 0) && negb (rar =? 0) &&
          negb (rar =? san_mac_rar_index (mac h))
       then clear_rar rar ;; mret tt
       else mret tt) ;;
      mret IXGBE_SUCCESS.

(** the cycle: each [clear_vmdq] that calls [clear_rar] spends one unit *)
Fixpoint clear_vmdq_fuel (fuel : nat) (rar vmdq : Z) : M Z :=
  match fuel with
  | O => crash FOutOfFuel
  | S n => clear_vmdq_with (clear_rar_with (clear_vmdq_fuel n)) rar vmdq
  end.

(** on storage that keeps what is written two levels are enough (the second
    call finds both pool words clear); see [clear_vmdq_terminates] *)
Definition ixgbe_clear_vmdq_generic (rar vmdq : Z) : M Z := clear_vmdq_fuel 2 rar vmdq.

Definition call_clear_vmdq (null : M Z) (rar vmdq : Z) : M Z :=
  h ← get_hw;
  match mac_type (mac h) with
  | ixgbe_mac_unknown => null
  | ixgbe_mac_82598EB => ixgbe_clear_vmdq_82598 rar vmdq
  | _ => ixgbe_clear_vmdq_generic rar vmdq
  end.

Definition ixgbe_clear_rar_generic (index : Z) : M Z :=
  clear_rar_with (call_clear_vmdq (crash FNullCall)) index.

(** [ixgbe_set_vmdq], [ixgbe_clear_vmdq] (ixgbe_api.c): a NULL pointer is
    reported, not called *)
Definition ixgbe_set_vmdq (rar vmdq : Z) : M Z :=
  call_set_vmdq (mret IXGBE_NOT_IMPLEMENTED) rar vmdq.
Definition ixgbe_clear_vmdq (rar vmdq : Z) : M Z :=
  call_clear_vmdq (mret IXGBE_NOT_IMPLEMENTED) rar vmdq.

Definition ixgbe_set_vmdq_san_mac_generic (vmdq : Z) : M Z :=
  h ← get_hw;
  let rar := san_mac_rar_index (mac h) in
  (if vmdq <? 32 then
     IXGBE_WRITE_REG (IXGBE_MPSAR_LO rar) (bit32 vmdq) ;;
     IXGBE_WRITE_REG (IXGBE_MPSAR_HI rar) 0
   else
     IXGBE_WRITE_REG (IXGBE_MPSAR_LO rar) 0 ;;
     IXGBE_WRITE_REG (IXGBE_MPSAR_HI rar) (bit32 (vmdq - 32))) ;;
  mret IXGBE_SUCCESS.

(** ** Receive addresses *)
Definition ixgbe_set_rar_generic (index : Z) (addr : list Z) (vmdq enable_addr : Z) : M Z :=
  h ← get_hw;
  if num_rar_entries (mac h) <=? index then mret IXGBE_ERR_INVALID_ARGUMENT
  else
    call_set_vmdq (crash FNullCall) index vmdq ;;
    rar_low ← rar_low_of addr;
    rar_high ← IXGBE_READ_REG (IXGBE_RAH index);
    let rar_high := Z.land rar_high (bnot 32 (Z.lor 0x0000FFFF IXGBE_RAH_AV)) in
    a ← rar_high_of addr;
    let rar_high := Z.lor rar_high a in
    let rar_high := if negb (enable_addr =? 0) then Z.lor rar_high IXGBE_RAH_AV else rar_high in
    IXGBE_WRITE_REG (IXGBE_RAL index) rar_low ;;
    IXGBE_WRITE_REG (IXGBE_RAH index) rar_high ;;
    mret IXGBE_SUCCESS.

(** [ixgbe_set_rar] (ixgbe_api.c); [ops.set_rar] is the generic function on
    every MAC *)
Definition ixgbe_set_rar (index : Z) (addr : list Z) (vmdq enable_addr : Z) : M Z :=
  ixgbe_set_rar_generic index addr vmdq enable_addr.

Definition ixgbe_init_uta_tables_generic : M Z :=
  for_loop 128 0 (fun i => IXGBE_WRITE_REG (IXGBE_UTA i) 0) ;;
  mret IXGBE_SUCCESS.

(** [ixgbe_init_uta_tables] (ixgbe_api.c): the pointer is NULL on the 82598 *)
Definition ixgbe_init_uta_tables : M Z :=
  h ← get_hw;
  match mac_type (mac h) with
  | ixgbe_mac_unknown | ixgbe_mac_82598EB => mret IXGBE_NOT_IMPLEMENTED
  | _ => ixgbe_init_uta_tables_generic
  end.

Definition ixgbe_init_rx_addrs_generic : M Z :=
  h ← get_hw;
  let rar_entries := num_rar_entries (mac h) in
  v ← ixgbe_validate_mac_addr (mac_addr (mac h));
  (if v =? IXGBE_ERR_INVALID_MAC_ADDR then
     r ← ixgbe_get_mac_addr_generic (mac_addr (mac h));
     mod_mac (upd_mac_addr (snd r))
   else
     ixgbe_set_rar_generic 0 (mac_addr (mac h)) 0 IXGBE_RAH_AV ;; mret tt) ;;
  call_clear_vmdq (crash FNullCall) 0 IXGBE_CLEAR_VMDQ_ALL ;;
  mod_addr_ctrl (upd_overflow_promisc 0) ;;
  mod_addr_ctrl (upd_rar_used_count 1) ;;
  for_loop (Z.to_nat (rar_entries - 1)) 1 (fun i =>
    IXGBE_WRITE_REG (IXGBE_RAL i) 0 ;;
    IXGBE_WRITE_REG (IXGBE_RAH i) 0) ;;
  mod_addr_ctrl (upd_mta_in_use 0) ;;
  h ← get_hw;
  IXGBE_WRITE_REG IXGBE_MCSTCTRL (mc_filter_type (mac h)) ;;
  for_loop (Z.to_nat (mcft_size (mac h))) 0 (fun i => IXGBE_WRITE_REG (IXGBE_MTA i) 0) ;;
  ixgbe_init_uta_tables ;;
  mret IXGBE_SUCCESS.

Definition ixgbe_add_uc_addr (addr : list Z) (vmdq : Z) : M unit :=
  h ← get_hw;
  if rar_used_count (addr_ctrl h) <? num_rar_entries (mac h) then
    let rar := rar_used_count (addr_ctrl h) in
    ixgbe_set_rar_generic rar addr vmdq IXGBE_RAH_AV ;;
    mod_addr_ctrl (fun a => upd_rar_used_count (u32 (rar_used_count a + 1)) a)
  else
    mod_addr_ctrl (fun a => upd_overflow_promisc (u32 (overflow_promisc a + 1)) a).

(** [next] is the caller's iterator over its address list, of type
    [ixgbe_mc_addr_itr]: from a cursor it gives an address, its pool and the
    next cursor *)
Definition ixgbe_update_uc_addr_list_generic {X} (next : X -> list Z * Z * X)
    (addr_list : X) (addr_count : Z) : M Z :=
  h ← get_hw;
  let old_promisc_setting := overflow_promisc (addr_ctrl h) in
  let uc_addr_in_use := u32 (rar_used_count (addr_ctrl h) - 1) in
  mod_addr_ctrl (fun a => upd_rar_used_count (u32 (rar_used_count a - uc_addr_in_use)) a) ;;
  mod_addr_ctrl (upd_overflow_promisc 0) ;;
  for_loop (Z.to_nat uc_addr_in_use) 0 (fun i =>
    IXGBE_WRITE_REG (IXGBE_RAL (1 + i)) 0 ;;
    IXGBE_WRITE_REG (IXGBE_RAH (1 + i)) 0) ;;
  for_acc (Z.to_nat addr_count) 0 addr_list (fun _ l =>
    let '(addr, vmdq, l) := next l in
    ixgbe_add_uc_addr addr vmdq ;; mret l) ;;
  h ← get_hw;
  (if negb (overflow_promisc (addr_ctrl h) =? 0) then
     if (old_promisc_setting =? 0) && negb (user_set_promisc (addr_ctrl h)) then
       fctrl ← IXGBE_READ_REG IXGBE_FCTRL;
       IXGBE_WRITE_REG IXGBE_FCTRL (Z.lor fctrl IXGBE_FCTRL_UPE)
     else mret tt
   else
     if negb (old_promisc_setting =? 0) && negb (user_set_promisc (addr_ctrl h)) then
       fctrl ← IXGBE_READ_REG IXGBE_FCTRL;
       IXGBE_WRITE_REG IXGBE_FCTRL (Z.land fctrl (bnot 32 IXGBE_FCTRL_UPE))
     else mret tt) ;;
  mret IXGBE_SUCCESS.

(** the search loop of [ixgbe_insert_mac_addr_generic]: [inr rar] is the
    [break] on a match, the accumulator is [first_empty_rar] *)
Definition NO_EMPTY_RAR_FOUND : Z := 0xFFFFFFFF.
Definition insert_search (addr_low addr_high highwater : Z) : M (Z + Z * Z) :=
  for_break (Z.to_nat highwater) 0 NO_EMPTY_RAR_FOUND (fun rar first_empty_rar =>
    rar_high ← IXGBE_READ_REG (IXGBE_RAH rar);
    if negb (has IXGBE_RAH_AV rar_high) && (first_empty_rar =? NO_EMPTY_RAR_FOUND)
    then mret (inl rar)
    else if Z.land rar_high 0xFFFF =? addr_high then
      rar_low ← IXGBE_READ_REG (IXGBE_RAL rar);
      if rar_low =? addr_low then mret (inr (rar, first_empty_rar)) else mret (inl first_empty_rar)
    else mret (inl first_empty_rar)).

Definition ixgbe_insert_mac_addr_generic (addr : list Z) (vmdq : Z) : M Z :=
  addr_low ← rar_low_of addr;
  addr_high ← rar_high_of addr;
  h ← get_hw;
  r ← insert_search addr_low addr_high (rar_highwater (mac h));
  let '(rar, first_empty_rar) :=
    match r with
    | inr (rar, e) => (rar, e)
    | inl e => (rar_highwater (mac h), e)
    end in
  h ← get_hw;
  r ← (if rar <? rar_highwater (mac h) then
         ixgbe_set_vmdq rar vmdq ;; mret (inl rar)
       else if negb (first_empty_rar =? NO_EMPTY_RAR_FOUND) then
         let rar := first_empty_rar in
         ixgbe_set_rar rar addr vmdq IXGBE_RAH_AV ;; mret (inl rar)
       else if rar =? rar_highwater (mac h) then
         ixgbe_set_rar rar addr vmdq IXGBE_RAH_AV ;;
         mod_mac (fun m => upd_rar_highwater (u32 (rar_highwater m + 1)) m) ;;
         mret (inl rar)
       else if num_rar_entries (mac h) <=? rar then mret (inr IXGBE_ERR_INVALID_MAC_ADDR)
       else mret (inl rar));
  match r with
  | inr e => mret e
  | inl rar =>
      (if rar =? 0 then ixgbe_clear_vmdq rar 0 ;; mret tt else mret tt) ;;
      mret (sext 32 rar)
  end.

(** ** Multicast table *)
Definition ixgbe_mta_vector (mc_addr : list Z) : M Z :=
  h ← get_hw;
  a4 ← nth_c mc_addr 4;
  a5 ← nth_c mc_addr 5;
  let vector :=
    match mc_filter_type (mac h) with
    | 0 => Z.lor (Z.shiftr a4 4) (Z.shiftl a5 4)
    | 1 => Z.lor (Z.shiftr a4 3) (Z.shiftl a5 5)
    | 2 => Z.lor (Z.shiftr a4 2) (Z.shiftl a5 6)
    | 3 => Z.lor a4 (Z.shiftl a5 8)
    | _ => 0
    end in
  mret (Z.land vector 0xFFF).

Definition ixgbe_set_mta (mc_addr : list Z) : M unit :=
  mod_addr_ctrl (fun a => upd_mta_in_use (u32 (mta_in_use a + 1)) a) ;;
  vector ← ixgbe_mta_vector mc_addr;
  let vector_reg := Z.land (Z.shiftr vector 5) 0x7F in
  let vector_bit := Z.land vector 0x1F in
  h ← get_hw;
  x ← nth_c (mta_shadow (mac h)) vector_reg;
  l ← upd_c (mta_shadow (mac h)) vector_reg (Z.lor x (bit32 vector_bit));
  mod_mac (upd_mta_shadow l).

Definition ixgbe_update_mc_addr_list_generic {X} (next : X -> list Z * Z * X)
    (mc_addr_list : X) (mc_addr_count : Z) (clear : bool) : M Z :=
  mod_addr_ctrl (upd_num_mc_addrs mc_addr_count) ;;
  mod_addr_ctrl (upd_mta_in_use 0) ;;
  (if clear then mod_mac (fun m => upd_mta_shadow (replicate (length (mta_shadow m)) 0) m)
   else mret tt) ;;
  for_acc (Z.to_nat mc_addr_count) 0 mc_addr_list (fun _ l =>
    let '(addr, _, l) := next l in
    ixgbe_set_mta addr ;; mret l) ;;
  h ← get_hw;
  for_loop (Z.to_nat (mcft_size (mac h))) 0 (fun i =>
    h ← get_hw;
    x ← nth_c (mta_shadow (mac h)) i;
    IXGBE_WRITE_REG_ARRAY (IXGBE_MTA 0) i x) ;;
  h ← get_hw;
  (if 0 <? mta_in_use (addr_ctrl h) then
     IXGBE_WRITE_REG IXGBE_MCSTCTRL (Z.lor IXGBE_MCSTCTRL_MFE (mc_filter_type (mac h)))
   else mret tt) ;;
  mret IXGBE_SUCCESS.

Definition ixgbe_enable_mc_generic : M Z :=
  h ← get_hw;
  (if 0 <? mta_in_use (addr_ctrl h) then
     IXGBE_WRITE_REG IXGBE_MCSTCTRL (Z.lor IXGBE_MCSTCTRL_MFE (mc_filter_type (mac h)))
   else mret tt) ;;
  mret IXGBE_SUCCESS.

Definition ixgbe_disable_mc_generic : M Z :=
  h ← get_hw;
  (if 0 <? mta_in_use (addr_ctrl h) then
     IXGBE_WRITE_REG IXGBE_MCSTCTRL (mc_filter_type (mac h))
   else mret tt) ;;
  mret IXGBE_SUCCESS.

(** ** VLAN filters *)

(** [for (regindex = IXGBE_VLVF_ENTRIES; --regindex;)]: [n] is the entry looked
    at, counting down to 1; the accumulator is [first_empty_slot] *)
Fixpoint vlvf_search (vlan first_empty_slot : Z) (n : nat) : M (Z + Z) :=
  match n with
  | O => mret (inl first_empty_slot)
  | S n' =>
      bits ← IXGBE_READ_REG (IXGBE_VLVF (Z.of_nat n));
      if bits =? vlan then mret (inr (Z.of_nat n))
      else vlvf_search vlan
             (if (first_empty_slot =? 0) && (bits =? 0) then Z.of_nat n else first_empty_slot) n'
  end.

Definition ixgbe_find_vlvf_slot (vlan : Z) (vlvf_bypass : bool) : M Z :=
  if vlan =? 0 then mret 0
  else
    let first_empty_slot := if vlvf_bypass then IXGBE_ERR_NO_SPACE else 0 in
    let vlan := Z.lor vlan IXGBE_VLVF_VIEN in
    r ← vlvf_search vlan first_empty_slot (Z.to_nat (IXGBE_VLVF_ENTRIES - 1));
    mret (match r with
          | inr regindex => regindex
          | inl e => if negb (e =? 0) then e else IXGBE_ERR_NO_SPACE
          end).

(** returns also [*vfta_delta] *)
Definition ixgbe_set_vlvf_generic (vlan vind : Z) (vlan_on : bool) (vfta_delta vfta : Z)
    (vlvf_bypass : bool) : M (Z * Z) :=
  if (4095 <? vlan) || (63 <? vind) then mret (IXGBE_ERR_PARAM, vfta_delta)
  else
    vt ← IXGBE_READ_REG IXGBE_VT_CTL;
    if negb (has vt IXGBE_VT_CTL_VT_ENABLE) then mret (IXGBE_SUCCESS, vfta_delta)
    else
      vlvf_index ← ixgbe_find_vlvf_slot vlan vlvf_bypass;
      if vlvf_index <? 0 then mret (vlvf_index, vfta_delta)
      else
        let breg := IXGBE_VLVFB (vlvf_index * 2 + vind / 32) in
        bits ← IXGBE_READ_REG breg;
        let bits := Z.lor bits (bit32 (vind mod 32)) in
        let vlvf_update bits delta :=
          IXGBE_WRITE_REG breg bits ;;
          IXGBE_WRITE_REG (IXGBE_VLVF vlvf_index) (Z.lor IXGBE_VLVF_VIEN vlan) ;;
          mret (IXGBE_SUCCESS, delta) in
        if vlan_on then vlvf_update bits vfta_delta
        else
          let bits := Z.lxor bits (bit32 (vind mod 32)) in
          empty ← (if bits =? 0 then
                     other ← IXGBE_READ_REG (IXGBE_VLVFB (vlvf_index * 2 + 1 - vind / 32));
                     mret (other =? 0)
                   else mret false);
          if empty : bool then
            (if negb (vfta_delta =? 0) then IXGBE_WRITE_REG (IXGBE_VFTA (vlan / 32)) vfta
             else mret tt) ;;
            IXGBE_WRITE_REG (IXGBE_VLVF vlvf_index) 0 ;;
            IXGBE_WRITE_REG breg 0 ;;
            mret (IXGBE_SUCCESS, vfta_delta)
          else vlvf_update bits 0.

Definition ixgbe_set_vfta_generic (vlan vind : Z) (vlan_on vlvf_bypass : bool) : M Z :=
  if (4095 <? vlan) || (63 <? vind) then mret IXGBE_ERR_PARAM
  else
    let regidx := vlan / 32 in
    let vfta_delta := bit32 (vlan mod 32) in
    vfta ← IXGBE_READ_REG (IXGBE_VFTA regidx);
    let vfta_delta := Z.land vfta_delta (if vlan_on then bnot 32 vfta else vfta) in
    let vfta := Z.lxor vfta vfta_delta in
    r ← ixgbe_set_vlvf_generic vlan vind vlan_on vfta_delta vfta vlvf_bypass;
    let '(ret_val, vfta_delta) := r in
    if negb (ret_val =? IXGBE_SUCCESS) && negb vlvf_bypass then mret ret_val
    else
      (if negb (vfta_delta =? 0) then IXGBE_WRITE_REG (IXGBE_VFTA regidx) vfta else mret tt) ;;
      mret IXGBE_SUCCESS.

Definition ixgbe_clear_vfta_generic : M Z :=
  h ← get_hw;
  for_loop (Z.to_nat (vft_size (mac h))) 0 (fun offset => IXGBE_WRITE_REG (IXGBE_VFTA offset) 0) ;;
  for_loop (Z.to_nat IXGBE_VLVF_ENTRIES) 0 (fun offset =>
    IXGBE_WRITE_REG (IXGBE_VLVF offset) 0 ;;
    IXGBE_WRITE_REG (IXGBE_VLVFB (offset * 2)) 0 ;;
    IXGBE_WRITE_REG (IXGBE_VLVFB (offset * 2 + 1)) 0) ;;
  mret IXGBE_SUCCESS.

(** *** The 82598's VLAN table has a pool nibble per VLAN *)
Definition IXGBE_VFTAVIND (j i : Z) : Z := 0x0A200 + j * 0x200 + i * 4.

Definition ixgbe_set_vfta_82598 (vlan vind : Z) (vlan_on vlvf_bypass : bool) : M Z :=
  if 4095 <? vlan then mret IXGBE_ERR_PARAM
  else
    let regindex := Z.land (Z.shiftr vlan 5) 0x7F in
    let vftabyte := Z.land (Z.shiftr vlan 3) 0x03 in
    let bitindex := Z.shiftl (Z.land vlan 0x7) 2 in
    bits ← IXGBE_READ_REG (IXGBE_VFTAVIND vftabyte regindex);
    let bits := Z.land bits (bnot 32 (Z.shiftl 0x0F bitindex)) in
    let bits := Z.lor bits (u32 (Z.shiftl vind bitindex)) in
    IXGBE_WRITE_REG (IXGBE_VFTAVIND vftabyte regindex) bits ;;
    let bitindex := Z.land vlan 0x1F in
    bits ← IXGBE_READ_REG (IXGBE_VFTA regindex);
    IXGBE_WRITE_REG (IXGBE_VFTA regindex)
      (if vlan_on then Z.lor bits (bit32 bitindex) else Z.land bits (bnot 32 (bit bitindex))) ;;
    mret IXGBE_SUCCESS.

Definition ixgbe_clear_vfta_82598 : M Z :=
  h ← get_hw;
  for_loop (Z.to_nat (vft_size (mac h))) 0 (fun offset => IXGBE_WRITE_REG (IXGBE_VFTA offset) 0) ;;
  for_loop 4 0 (fun vlanbyte =>
    for_loop (Z.to_nat (vft_size (mac h))) 0 (fun offset =>
      IXGBE_WRITE_REG (IXGBE_VFTAVIND vlanbyte offset) 0)) ;;
  mret IXGBE_SUCCESS.

(** ** Anti-spoofing *)
Definition ixgbe_set_mac_anti_spoofing (enable : bool) (vf : Z) : M unit :=
  let vf_target_reg := Z.shiftr vf 3 in
  let vf_target_shift := Z.rem vf 8 in
  h ← get_hw;
  match mac_type (mac h) with
  | ixgbe_mac_82598EB => mret tt
  | _ =>
    pfvfspoof ← IXGBE_READ_REG (IXGBE_PFVFSPOOF vf_target_reg);
    IXGBE_WRITE_REG (IXGBE_PFVFSPOOF vf_target_reg)
      (if enable then Z.lor pfvfspoof (bit32 vf_target_shift)
       else Z.land pfvfspoof (bnot 32 (bit vf_target_shift)))
  end.

Definition ixgbe_set_vlan_anti_spoofing (enable : bool) (vf : Z) : M unit :=
  let vf_target_reg := Z.shiftr vf 3 in
  let vf_target_shift := Z.rem vf 8 + IXGBE_SPOOF_VLANAS_SHIFT in
  h ← get_hw;
  match mac_type (mac h) with
  | ixgbe_mac_82598EB => mret tt
  | _ =>
    pfvfspoof ← IXGBE_READ_REG (IXGBE_PFVFSPOOF vf_target_reg);
    IXGBE_WRITE_REG (IXGBE_PFVFSPOOF vf_target_reg)
      (if enable then Z.lor pfvfspoof (bit32 vf_target_shift)
       else Z.land pfvfspoof (bnot 32 (bit vf_target_shift)))
  end.

End Filters.
