(* ===== verification/FilterProps.v ===== *)
(** * Properties of the receive address and VLAN filters

    What the operations of [Filters] leave in the registers of an adapter whose
    filter registers are storage: addresses and their pools, the multicast hash
    table, and the VLAN pool filter as an implementation of a relation between
    VLANs and pools. *)
From stdpp Require Import gmap.
From S2P Require Import Prelude Regs Types Osdep Plain Filters.

(** ** Receive addresses *)

(** the registers of the receive addresses and of their pools *)
Definition rar_regs (r : Z) : Prop :=
  r = IXGBE_STATUS \/ 0x5400 <= r < 0x5480 \/ 0xA280 <= r < 0xAA00.

(** six bytes *)
Record addr_ok (addr : list Z) : Prop := {
  ao_length : length addr = 6%nat;
  ao_bytes : Forall (in_range 8) addr;
}.

(** byte [k] of a register *)
Definition byte_of (x k : Z) : Z := u8 (Z.shiftr x (8 * k)).

(** the address a pair of registers holds *)
Definition rar_addr (s : Z -> Z) (i : Z) : list Z :=
  [byte_of (s (IXGBE_RAL i)) 0; byte_of (s (IXGBE_RAL i)) 1; byte_of (s (IXGBE_RAL i)) 2;
   byte_of (s (IXGBE_RAL i)) 3; byte_of (s (IXGBE_RAH i)) 0; byte_of (s (IXGBE_RAH i)) 1].
Definition rar_valid (s : Z -> Z) (i : Z) : bool := Z.testbit (s (IXGBE_RAH i)) 31.

(** pool [p] receives the frames for address [i] *)
Definition rar_pool (s : Z -> Z) (i p : Z) : bool :=
  Z.testbit (s (if p <? 32 then IXGBE_MPSAR_LO i else IXGBE_MPSAR_HI i)) (p mod 32).

(** the MACs that use the generic pool registers *)
Definition generic_pools (h : ixgbe_hw) : Prop :=
  mac_type (mac h) <> ixgbe_mac_unknown /\ mac_type (mac h) <> ixgbe_mac_82598EB.

Ltac rar_side :=
  unfold rar_regs, IXGBE_RAL, IXGBE_RAH, IXGBE_MPSAR_LO, IXGBE_MPSAR_HI, IXGBE_STATUS in *;
  repeat match goal with |- context [?a <=? ?b] => destruct (Z.leb_spec a b) end; lia.
Ltac rar_ne := rewrite set_reg_ne by rar_side.
Ltac rar_regs_simpl := repeat first [rewrite set_reg_eq | rar_ne].

Lemma addr_ok_inv addr : addr_ok addr -> exists a0 a1 a2 a3 a4 a5,
  addr = [a0; a1; a2; a3; a4; a5] /\ in_range 8 a0 /\ in_range 8 a1 /\ in_range 8 a2 /\
  in_range 8 a3 /\ in_range 8 a4 /\ in_range 8 a5.
Proof.
  intros [Hl Hb]. do 6 (destruct addr as [|? addr]; [done|]). destruct addr; [|done].
  repeat match goal with H : Forall _ (_ :: _) |- _ => inversion_clear H end. eauto 20.
Qed.

(** bits of a byte *)
Lemma testbit_byte a i : in_range 8 a -> Z.testbit a i = (i <? 8) && Z.testbit a i.
Proof.
  intros Ha. destruct (Z.ltb_spec i 8); [done|]. by rewrite (testbit_range 8).
Qed.

Lemma testbit_byte_of x k i : 0 <= k -> 0 <= i ->
  Z.testbit (byte_of x k) i = (i <? 8) && Z.testbit x (i + 8 * k).
Proof. intros. unfold byte_of. rewrite testbit_trunc, Z.shiftr_spec by lia. done. Qed.

Lemma shl_byte_range a n : in_range 8 a -> 0 <= n <= 24 -> u32 (Z.shiftl a n) = Z.shiftl a n.
Proof.
  intros Ha Hn. apply trunc_small. unfold in_range in *. rewrite Z.shiftl_mul_pow2 by lia.
  split; [nia|]. assert (2 ^ n <= 2 ^ 24) by (apply Z.pow_le_mono_r; lia).
  change (2 ^ 32) with (2 ^ 8 * 2 ^ 24). nia.
Qed.

Lemma shl_byte_range32 a n : in_range 8 a -> 0 <= n <= 24 -> in_range 32 (Z.shiftl a n).
Proof. intros. rewrite <- shl_byte_range by done. by apply trunc_range. Qed.

(** the bytes of a word assembled from bytes *)
Lemma byte_of_word a b c d k :
  in_range 8 a -> in_range 8 b -> in_range 8 c -> in_range 8 d -> 0 <= k < 4 ->
  byte_of (Z.lor (Z.lor (Z.lor a (Z.shiftl b 8)) (Z.shiftl c 16)) (Z.shiftl d 24)) k =
  nth (Z.to_nat k) [a; b; c; d] 0.
Proof.
  intros Ha Hb Hc Hd Hk. apply Z.bits_inj'. intros i Hi.
  rewrite testbit_byte_of, !Z.lor_spec, !Z.shiftl_spec by lia.
  assert (k = 0 \/ k = 1 \/ k = 2 \/ k = 3) as [-> |[-> |[-> | ->]]] by lia; simpl;
    destruct (Z.ltb_spec i 8); simpl;
    repeat match goal with
    | |- context [Z.testbit ?x ?j] =>
        first [rewrite (testbit_range 8 x j) by (done || lia)
              |rewrite (Z.testbit_neg_r x j) by lia
              |progress replace j with i by lia]
    end; try done.
  all: rewrite ?orb_false_r; f_equal; lia.
Qed.

Section Rar.
Context `{D : Mmio} `{!PlainRegs D rar_regs}.

Ltac pl_step := pl_step_with rar_side.

(** every register of [rar_regs] but those of entry [i] is as before *)
Definition rar_frame (i : Z) (s s' : Z -> Z) : Prop := forall r, rar_regs r ->
  r <> IXGBE_RAL i -> r <> IXGBE_RAH i -> r <> IXGBE_MPSAR_LO i -> r <> IXGBE_MPSAR_HI i ->
  s' r = s r.

Lemma call_set_vmdq_effect h s i p : generic_pools h ->
  0 <= i < num_rar_entries (mac h) -> num_rar_entries (mac h) <= 128 -> 0 <= p < 64 ->
  plain h s (call_set_vmdq (crash FNullCall) i p) (fun _ h' s' => h' = h /\
    (forall q, 0 <= q < 64 -> rar_pool s' i q = (q =? p) || rar_pool s i q) /\
    (forall r, rar_regs r -> r <> IXGBE_MPSAR_LO i -> r <> IXGBE_MPSAR_HI i -> s' r = s r)).
Proof using PlainRegs0.
  intros [Hm1 Hm2] Hi Hn Hp. unfold call_set_vmdq. pl_step. pl_step.
  assert (plain h s (ixgbe_set_vmdq_generic i p) (fun _ h' s' => h' = h /\
    (forall q, 0 <= q < 64 -> rar_pool s' i q = (q =? p) || rar_pool s i q) /\
    (forall r, rar_regs r -> r <> IXGBE_MPSAR_LO i -> r <> IXGBE_MPSAR_HI i -> s' r = s r)))
    as HG; [|by destruct (mac_type (mac h))].
  unfold ixgbe_set_vmdq_generic. pl_step. pl_step.
  destruct (Z.leb_spec (num_rar_entries (mac h)) i); [lia|]. pl_step.
  destruct (Z.ltb_spec p 32) as [Hp2|Hp2];
    do 3 pl_step; pl_step; (split; [done|]); split;
    [|intros r _ N1 N2; by rewrite set_reg_ne by done
     | |intros r _ N1 N2; by rewrite set_reg_ne by done].
  - intros q Hq. unfold rar_pool. destruct (Z.ltb_spec q 32).
    + rewrite set_reg_eq, !(Z.mod_small q 32) by lia. unfold bit32.
      autorewrite with zbits. destruct (Z.ltb_spec q 32); [|lia]. simpl. apply orb_comm.
    + rar_ne. destruct (Z.eqb_spec q p); [lia|done].
  - intros q Hq. unfold rar_pool. destruct (Z.ltb_spec q 32).
    + rar_ne. destruct (Z.eqb_spec q p); [lia|done].
    + rewrite set_reg_eq. replace (q mod 32) with (q - 32) by zlia. unfold bit32.
      autorewrite with zbits. destruct (Z.ltb_spec (q - 32) 32); [|lia]. simpl.
      rewrite orb_comm. f_equal. destruct (Z.eqb_spec q p), (Z.eqb_spec (q - 32) (p - 32)); lia.
Qed.

Lemma pl_rar_low h s addr a0 a1 a2 a3 a4 a5 (Q : Z -> _ -> _ -> Prop) :
  addr = [a0; a1; a2; a3; a4; a5] ->
  in_range 8 a0 -> in_range 8 a1 -> in_range 8 a2 -> in_range 8 a3 ->
  Q (Z.lor (Z.lor (Z.lor a0 (Z.shiftl a1 8)) (Z.shiftl a2 16)) (Z.shiftl a3 24)) h s ->
  plain h s (rar_low_of addr) Q.
Proof using.
  intros -> H0 H1 H2 H3 HQ. unfold rar_low_of. do 4 (pl_step; pl_step). pl_step.
  by rewrite !shl_byte_range by (done || lia).
Qed.

Lemma pl_rar_high h s addr a0 a1 a2 a3 a4 a5 (Q : Z -> _ -> _ -> Prop) :
  addr = [a0; a1; a2; a3; a4; a5] -> in_range 8 a5 ->
  Q (Z.lor a4 (Z.shiftl a5 8)) h s -> plain h s (rar_high_of addr) Q.
Proof using.
  intros -> H5 HQ. unfold rar_high_of. do 2 (pl_step; pl_step). pl_step.
  by rewrite !shl_byte_range by (done || lia).
Qed.

(** bits of the high half [set_rar] assembles *)
Lemma rar_high_bits x a4 a5 en i :
  in_range 32 x -> in_range 8 a4 -> in_range 8 a5 -> 0 <= i ->
  let y := u32 (if negb (en =? 0)
    then Z.lor (Z.lor (Z.land x (bnot 32 (Z.lor 0x0000FFFF IXGBE_RAH_AV)))
                 (Z.lor a4 (Z.shiftl a5 8))) IXGBE_RAH_AV
    else Z.lor (Z.land x (bnot 32 (Z.lor 0x0000FFFF IXGBE_RAH_AV)))
           (Z.lor a4 (Z.shiftl a5 8))) in
  Z.testbit y i =
    if i <? 16 then Z.testbit (Z.lor a4 (Z.shiftl a5 8)) i
    else if i =? 31 then negb (en =? 0) else Z.testbit x i.
Proof using.
  intros Hx H4 H5 Hi y.
  assert (Hlow : 16 <= i -> Z.testbit (Z.lor a4 (Z.shiftl a5 8)) i = false).
  { intros. rewrite Z.lor_spec, Z.shiftl_spec, !(testbit_range 8) by (done || lia). done. }
  assert (Z.testbit IXGBE_RAH_AV i = (i =? 31)) as Hav.
  { change IXGBE_RAH_AV with (bit 31). by apply testbit_bit. }
  assert (Z.testbit 0x0000FFFF i = (i <? 16)) as Hff.
  { change 0x0000FFFF with (Z.ones 16). rewrite Z.testbit_ones by done.
    destruct (Z.leb_spec 0 i); [done|lia]. }
  unfold y. rewrite testbit_trunc by done.
  destruct (negb (en =? 0)).
  - rewrite (Z.lor_spec (Z.lor (Z.land x _) _)), (Z.lor_spec (Z.land x _)), (Z.land_spec x),
      testbit_bnot, (Z.lor_spec 0x0000FFFF), Hav, Hff by done.
    destruct (Z.ltb_spec i 32), (Z.ltb_spec i 16), (Z.eqb_spec i 31); try lia; simpl;
      rewrite ?Hlow, ?andb_true_r, ?andb_false_r, ?orb_false_r, ?orb_true_r by lia; try done.
    by rewrite (testbit_range 32).
  - rewrite (Z.lor_spec (Z.land x _)), (Z.land_spec x),
      testbit_bnot, (Z.lor_spec 0x0000FFFF), Hav, Hff by done.
    destruct (Z.ltb_spec i 32), (Z.ltb_spec i 16), (Z.eqb_spec i 31); try lia; simpl;
      rewrite ?Hlow, ?andb_true_r, ?andb_false_r, ?orb_false_r, ?orb_true_r by lia; try done.
    by rewrite (testbit_range 32).
Qed.

(** what [set_rar] leaves: the address, the valid bit, one more pool, and
    nothing else changed *)
Lemma set_rar_effect h s i addr p en : generic_pools h ->
  0 <= i < num_rar_entries (mac h) -> num_rar_entries (mac h) <= 128 ->
  addr_ok addr -> 0 <= p < 64 ->
  plain h s (ixgbe_set_rar_generic i addr p en) (fun ret h' s' =>
    ret = IXGBE_SUCCESS /\ h' = h /\ rar_addr s' i = addr /\ rar_valid s' i = negb (en =? 0) /\
    (forall b, 16 <= b < 31 ->
       Z.testbit (s' (IXGBE_RAH i)) b = Z.testbit (s (IXGBE_RAH i)) b) /\
    (forall q, 0 <= q < 64 -> rar_pool s' i q = (q =? p) || rar_pool s i q) /\
    rar_frame i s s').
Proof using PlainRegs0.
  intros Hg Hi Hn Ha Hp.
  destruct (addr_ok_inv _ Ha) as (a0&a1&a2&a3&a4&a5&E&R0&R1&R2&R3&R4&R5).
  unfold ixgbe_set_rar_generic. pl_step. pl_step.
  destruct (Z.leb_spec (num_rar_entries (mac h)) i); [lia|].
  pl_step. eapply pl_mono; [by apply call_set_vmdq_effect|].
  intros _ h' s1 (-> & Hpool & Hfr). pl_step.
  eapply pl_rar_low; [exact E|done..|]. pl_step. pl_step. pl_step.
  eapply pl_rar_high; [exact E|done|]. pl_step. pl_step. pl_step. pl_step. pl_step.
  assert (s1 (IXGBE_RAH i) = s (IXGBE_RAH i)) as Eh by (apply Hfr; rar_side).
  assert (Hbits := fun b => rar_high_bits (s1 (IXGBE_RAH i)) a4 a5 en b H1 R4 R5).
  cbv zeta in Hbits.
  assert (Hl : u32 (Z.lor (Z.lor (Z.lor a0 (Z.shiftl a1 8)) (Z.shiftl a2 16)) (Z.shiftl a3 24)) =
    Z.lor (Z.lor (Z.lor a0 (Z.shiftl a1 8)) (Z.shiftl a2 16)) (Z.shiftl a3 24)).
  { apply trunc_small. repeat apply lor_range; try done; try by apply shl_byte_range32.
    unfold in_range in *. lia. }
  assert (Hw : forall k, 0 <= k < 2 -> forall x,
    (forall b, 0 <= b -> Z.testbit x b =
       if b <? 16 then Z.testbit (Z.lor a4 (Z.shiftl a5 8)) b
       else if b =? 31 then negb (en =? 0) else Z.testbit (s1 (IXGBE_RAH i)) b) ->
    byte_of x k = nth (Z.to_nat k) [a4; a5] 0).
  { intros k Hk x Hx. pose proof (byte_of_word a4 a5 0 0 k R4 R5) as Hb.
    rewrite !Z.shiftl_0_l, !Z.lor_0_r in Hb.
    replace (nth (Z.to_nat k) [a4; a5] 0) with (nth (Z.to_nat k) [a4; a5; 0; 0] 0)
      by (assert (k = 0 \/ k = 1) as [-> | ->] by lia; done).
    rewrite <- Hb by (unfold in_range; lia).
    apply Z.bits_inj'. intros b Hb0. rewrite !testbit_byte_of, Hx by lia.
    destruct (Z.ltb_spec b 8), (Z.ltb_spec (b + 8 * k) 16); try done; lia. }
  split; [done|]. split; [done|]. split; [|split; [|split; [|split]]].
  - unfold rar_addr. rar_regs_simpl. rewrite Hl, !byte_of_word by (done || lia).
    rewrite !Hw by (lia || done). by rewrite E.
  - unfold rar_valid. rar_regs_simpl. by rewrite Hbits.
  - intros b Hb. rar_regs_simpl. rewrite Hbits by lia.
    destruct (Z.ltb_spec b 16), (Z.eqb_spec b 31); try lia. by rewrite Eh.
  - intros q Hq. rewrite <- (Hpool q Hq). unfold rar_pool.
    destruct (q <? 32); by rar_regs_simpl.
  - intros r Hr N1 N2 N3 N4. rewrite !set_reg_ne by done. by apply Hfr.
Qed.

Lemma get_mac_addr_effect h s buf : length buf = 6%nat ->
  plain h s (ixgbe_get_mac_addr_generic buf) (fun r h' s' =>
    r = (IXGBE_SUCCESS, rar_addr s 0) /\ h' = h /\ s' = s).
Proof using PlainRegs0.
  intros Hl. do 6 (destruct buf as [|? buf]; [done|]). destruct buf; [|done].
  unfold ixgbe_get_mac_addr_generic. do 4 pl_step. cbv [for_acc].
  repeat first [pl_step | apply pl_upd_c; [simpl; lia|]]. done.
Qed.

(** C20: storing an address in entry 0 and reading it back gives the address:
    [ixgbe_set_rar_generic] returns success and [ixgbe_get_mac_addr_generic]
    fills its buffer with the same six bytes, whatever the buffer held. *)
Theorem rar_roundtrip h s addr p buf : generic_pools h ->
  0 < num_rar_entries (mac h) <= 128 -> addr_ok addr -> 0 <= p < 64 -> length buf = 6%nat ->
  plain h s (ret ← ixgbe_set_rar_generic 0 addr p IXGBE_RAH_AV;
             r ← ixgbe_get_mac_addr_generic buf; mret (ret, r))
    (fun x _ _ => x = (IXGBE_SUCCESS, (IXGBE_SUCCESS, addr))).
Proof using PlainRegs0.
  intros Hg Hn Ha Hp Hb. pl_step.
  eapply pl_mono; [apply set_rar_effect; try done; lia|].
  intros ret h' s' (-> & -> & Hra & _). pl_step.
  eapply pl_mono; [by apply get_mac_addr_effect|]. intros r h' s'' (-> & _ & _). pl_step.
  by rewrite Hra.
Qed.

(** *** Removing pools *)

Definition pools_empty (s : Z -> Z) (i : Z) : bool :=
  (s (IXGBE_MPSAR_LO i) =? 0) && (s (IXGBE_MPSAR_HI i) =? 0).

(** clearing pool [p] (all of them for [IXGBE_CLEAR_VMDQ_ALL]) of a word *)
Lemma clear_bit_word x p q : in_range 32 x -> 0 <= p < 32 -> 0 <= q < 32 ->
  Z.testbit (u32 (Z.land x (bnot 32 (bit p)))) q = Z.testbit x q && negb (q =? p).
Proof using.
  intros Hx Hp Hq. autorewrite with zbits. destruct (Z.ltb_spec q 32); [|lia]. done.
Qed.

(** the entry after its last pool is gone: address and valid bit cleared *)
Definition rar_cleared (i : Z) (s s' : Z -> Z) : Prop :=
  s' (IXGBE_RAL i) = 0 /\
  s' (IXGBE_RAH i) = Z.land (s (IXGBE_RAH i)) (bnot 32 (Z.lor 0x0000FFFF IXGBE_RAH_AV)).

Definition rar_kept (i : Z) (s s' : Z -> Z) : Prop :=
  s' (IXGBE_RAL i) = s (IXGBE_RAL i) /\ s' (IXGBE_RAH i) = s (IXGBE_RAH i).

(** the second call of the cycle finds no pools and ends it *)
Lemma clear_vmdq_fuel_empty n h s i p : 0 <= i < num_rar_entries (mac h) ->
  num_rar_entries (mac h) <= 128 -> pools_empty s i = true ->
  plain h s (clear_vmdq_fuel (S n) i p) (fun _ h' s' => h' = h /\ s' = s).
Proof using PlainRegs0.
  intros Hi Hn He. cbn [clear_vmdq_fuel]. unfold clear_vmdq_with. pl_step. pl_step.
  destruct (Z.leb_spec (num_rar_entries (mac h)) i); [lia|].
  pl_step. pl_step. pl_step. pl_step. pl_step. pl_step.
  match goal with H : hw_addr h = true |- _ => rewrite H end. cbn [IXGBE_REMOVED negb].
  unfold pools_empty in He. rewrite He. by pl_step.
Qed.

Lemma clear_rar_fuel_effect n h s i : 0 <= i < num_rar_entries (mac h) ->
  num_rar_entries (mac h) <= 128 -> pools_empty s i = true ->
  plain h s (clear_rar_with (clear_vmdq_fuel (S n)) i) (fun _ h' s' => h' = h /\
    rar_cleared i s s' /\ (forall r, r <> IXGBE_RAL i -> r <> IXGBE_RAH i -> s' r = s r)).
Proof using PlainRegs0.
  intros Hi Hn He. unfold clear_rar_with. pl_step. pl_step.
  destruct (Z.leb_spec (num_rar_entries (mac h)) i); [lia|].
  do 7 pl_step.
  eapply pl_mono; [apply clear_vmdq_fuel_empty; [done|done|]|].
  { unfold pools_empty in *. by rar_regs_simpl. }
  intros _ h' s' [-> ->]. pl_step. split; [done|]. split.
  - unfold rar_cleared. rar_regs_simpl. split; [done|].
    apply trunc_small, land_range; [done|done|]. by vm_compute.
  - intros r N1 N2. by rewrite !set_reg_ne by done.
Qed.

(** the pools of an entry after clearing [p] *)
Definition pools_cleared (i p : Z) (s s' : Z -> Z) : Prop := forall q, 0 <= q < 64 ->
  rar_pool s' i q = rar_pool s i q && negb ((p =? IXGBE_CLEAR_VMDQ_ALL) || (q =? p)).

Lemma pools_cleared_lo i p s : 0 <= p < 32 -> in_range 32 (s (IXGBE_MPSAR_LO i)) ->
  pools_cleared i p s (set_reg (IXGBE_MPSAR_LO i)
    (u32 (Z.land (s (IXGBE_MPSAR_LO i)) (bnot 32 (bit p)))) s).
Proof using.
  intros Hp Hr q Hq. unfold rar_pool.
  destruct (Z.eqb_spec p IXGBE_CLEAR_VMDQ_ALL); [unfold IXGBE_CLEAR_VMDQ_ALL in *; lia|].
  destruct (Z.ltb_spec q 32); simpl.
  - rewrite set_reg_eq, clear_bit_word by (done || zlia). by rewrite Z.mod_small by lia.
  - rar_ne. destruct (Z.eqb_spec q p); [lia|]. by rewrite andb_true_r.
Qed.

Lemma pools_cleared_hi i p s : 32 <= p < 64 -> in_range 32 (s (IXGBE_MPSAR_HI i)) ->
  pools_cleared i p s (set_reg (IXGBE_MPSAR_HI i)
    (u32 (Z.land (s (IXGBE_MPSAR_HI i)) (bnot 32 (bit (p - 32))))) s).
Proof using.
  intros Hp Hr q Hq. unfold rar_pool.
  destruct (Z.eqb_spec p IXGBE_CLEAR_VMDQ_ALL); [unfold IXGBE_CLEAR_VMDQ_ALL in *; lia|].
  destruct (Z.ltb_spec q 32); simpl.
  - rar_ne. destruct (Z.eqb_spec q p); [lia|]. by rewrite andb_true_r.
  - rewrite set_reg_eq, clear_bit_word by (done || zlia).
    replace (q mod 32) with (q - 32) by zlia.
    do 2 f_equal. destruct (Z.eqb_spec (q - 32) (p - 32)), (Z.eqb_spec q p); lia.
Qed.

Lemma pools_cleared_all i s s' : pools_empty s' i = true ->
  pools_cleared i IXGBE_CLEAR_VMDQ_ALL s s'.
Proof using.
  intros [E1%Z.eqb_eq E2%Z.eqb_eq]%andb_true_iff q Hq. rewrite Z.eqb_refl. simpl.
  rewrite andb_false_r. unfold rar_pool. by destruct (q <? 32); rewrite ?E1, ?E2, Z.bits_0.
Qed.

Lemma pools_cleared_none i p s : pools_empty s i = true -> pools_cleared i p s s.
Proof using.
  intros [E1%Z.eqb_eq E2%Z.eqb_eq]%andb_true_iff q Hq. unfold rar_pool.
  by destruct (q <? 32); rewrite ?E1, ?E2, Z.bits_0.
Qed.

(** the pool words [clear_vmdq] writes, and the copies it keeps of them *)
Lemma clear_pool_words h s i p : 0 <= i < 128 -> p = IXGBE_CLEAR_VMDQ_ALL \/ 0 <= p < 64 ->
  in_range 32 (s (IXGBE_MPSAR_LO i)) -> in_range 32 (s (IXGBE_MPSAR_HI i)) ->
  let mpsar_lo := s (IXGBE_MPSAR_LO i) in let mpsar_hi := s (IXGBE_MPSAR_HI i) in
  plain h s (if p =? IXGBE_CLEAR_VMDQ_ALL then
             lo ← (if negb (mpsar_lo =? 0) then
                     IXGBE_WRITE_REG (IXGBE_MPSAR_LO i) 0 ;;
                     IXGBE_READ_REG (IXGBE_MPSAR_LO i)
                   else mret mpsar_lo);
             hi ← (if negb (mpsar_hi =? 0) then
                     IXGBE_WRITE_REG (IXGBE_MPSAR_HI i) 0 ;;
                     IXGBE_READ_REG (IXGBE_MPSAR_HI i)
                   else mret mpsar_hi);
             mret (lo, hi)
           else if p <? 32 then
             let lo := Z.land mpsar_lo (bnot 32 (bit p)) in
             IXGBE_WRITE_REG (IXGBE_MPSAR_LO i) lo ;;
             mret (lo, mpsar_hi)
           else
             let hi := Z.land mpsar_hi (bnot 32 (bit (p - 32))) in
             IXGBE_WRITE_REG (IXGBE_MPSAR_HI i) hi ;;
             mret (mpsar_lo, hi))
    (fun r h' s' => h' = h /\ r = (s' (IXGBE_MPSAR_LO i), s' (IXGBE_MPSAR_HI i)) /\
       pools_cleared i p s s' /\
       (forall r, r <> IXGBE_MPSAR_LO i -> r <> IXGBE_MPSAR_HI i -> s' r = s r)).
Proof using PlainRegs0.
  intros Hi Hp Hlo Hhi mpsar_lo mpsar_hi.
  assert (Hn : forall x k, in_range 32 x -> u32 (Z.land x (bnot 32 (bit k))) =
    Z.land x (bnot 32 (bit k))).
  { intros x k Hx. apply trunc_small, land_range; [done|done|]. by apply bnot_range. }
  pl_step.
  - assert (p = IXGBE_CLEAR_VMDQ_ALL) as -> by (by apply Z.eqb_eq).
    assert (Hgoal : forall s', s' (IXGBE_MPSAR_LO i) = 0 -> s' (IXGBE_MPSAR_HI i) = 0 ->
      pools_cleared i IXGBE_CLEAR_VMDQ_ALL s s').
    { intros s' E1 E2. apply pools_cleared_all. unfold pools_empty. by rewrite E1, E2. }
    pl_step. destruct (Z.eqb_spec mpsar_lo 0) as [E1|E1]; cbn [negb];
      repeat pl_step; (destruct (Z.eqb_spec mpsar_hi 0) as [E2|E2]; cbn [negb]);
      repeat pl_step;
      (split; [done|]); (split; [by rar_regs_simpl|]);
      (split; [apply Hgoal; by rar_regs_simpl|intros r N1 N2; by rewrite ?set_reg_ne by done]).
  - destruct (Z.eqb_spec p IXGBE_CLEAR_VMDQ_ALL); [done|]. destruct Hp as [|Hp]; [done|].
    destruct (Z.ltb_spec p 32).
    + repeat pl_step. split; [done|]. split; [rar_regs_simpl; by rewrite Hn|].
      split; [apply pools_cleared_lo; [lia|done]|intros r N1 N2; by rewrite ?set_reg_ne by done].
    + repeat pl_step. split; [done|]. split; [rar_regs_simpl; by rewrite Hn|].
      split; [apply pools_cleared_hi; [lia|done]|intros r N1 N2; by rewrite ?set_reg_ne by done].
Qed.

(** [ixgbe_clear_vmdq_generic] and [ixgbe_clear_rar_generic] call each
    other, and the cycle ends: clearing a pool (or all) of an address removes
    exactly these pools from it; when that was its last pool the address itself
    is invalidated, except for entry 0 and the SAN address; no other entry
    changes. *)
Theorem clear_vmdq_terminates h s i p :
  0 <= i < num_rar_entries (mac h) -> num_rar_entries (mac h) <= 128 ->
  p = IXGBE_CLEAR_VMDQ_ALL \/ 0 <= p < 64 ->
  plain h s (ixgbe_clear_vmdq_generic i p) (fun ret h' s' =>
    ret = IXGBE_SUCCESS /\ h' = h /\ pools_cleared i p s s' /\
    (if negb (pools_empty s i) && pools_empty s' i && negb (i =? 0) &&
        negb (i =? san_mac_rar_index (mac h))
     then rar_cleared i s s' else rar_kept i s s') /\
    rar_frame i s s').
Proof using PlainRegs0.
  intros Hi Hn Hp. unfold ixgbe_clear_vmdq_generic.
  change (clear_vmdq_fuel 2) with (clear_vmdq_with (clear_rar_with (clear_vmdq_fuel 1))).
  unfold clear_vmdq_with. pl_step. pl_step.
  destruct (Z.leb_spec (num_rar_entries (mac h)) i); [lia|].
  do 6 pl_step. match goal with H : hw_addr h = true |- _ => rewrite H end.
  cbn [IXGBE_REMOVED negb]. fold (pools_empty s i).
  destruct (pools_empty s i) eqn:He.
  { pl_step. split; [done|]. split; [done|]. split; [by apply pools_cleared_none|].
    by split. }
  pl_step. eapply pl_mono; [apply clear_pool_words; [lia|done..]|].
  intros r h' s' (-> & -> & Hc & Hf). cbn [fst snd]. pl_step. pl_step.
  fold (pools_empty s' i). cbn [negb andb].
  assert (Hk : rar_kept i s s') by (split; apply Hf; rar_side).
  assert (Hfr : rar_frame i s s') by (intros r' _ _ _ N3 N4; by apply Hf).
  pl_step. pl_step.
  - pl_step. eapply pl_mono; [apply clear_rar_fuel_effect; [done|done|]|].
    { destruct (pools_empty s' i); [done|]. by simpl in *. }
    intros _ h' s2 (-> & [Hl Hh] & Hf2). pl_step. pl_step.
    split; [done|]. split; [done|]. split; [|split].
    + intros q Hq. rewrite <- (Hc q Hq). unfold rar_pool.
      destruct (q <? 32); (rewrite Hf2 by rar_side); done.
    + assert (pools_empty s2 i = pools_empty s' i) as ->
        by (unfold pools_empty; by rewrite !Hf2 by rar_side).
      match goal with H : _ = true |- _ => rewrite H end.
      split; [done|]. rewrite Hh. f_equal. apply Hk.
    + intros r' Hr' N1 N2 N3 N4. rewrite Hf2 by done. by apply Hfr.
  - pl_step. pl_step. match goal with H : _ && _ = false |- _ => rewrite H end. done.
Qed.

(** *** Adding an address to a pool *)

(** registers with the words of an address hold the address *)
Lemma rar_addr_of_words s i a0 a1 a2 a3 a4 a5 :
  in_range 8 a0 -> in_range 8 a1 -> in_range 8 a2 -> in_range 8 a3 -> in_range 8 a4 -> in_range 8 a5 ->
  s (IXGBE_RAL i) = Z.lor (Z.lor (Z.lor a0 (Z.shiftl a1 8)) (Z.shiftl a2 16)) (Z.shiftl a3 24) ->
  Z.land (s (IXGBE_RAH i)) 0xFFFF = Z.lor a4 (Z.shiftl a5 8) ->
  rar_addr s i = [a0; a1; a2; a3; a4; a5].
Proof using.
  intros R0 R1 R2 R3 R4 R5 El Eh. unfold rar_addr. rewrite El, !byte_of_word by (done || lia).
  assert (Hb : forall k, 0 <= k < 2 -> byte_of (s (IXGBE_RAH i)) k = nth (Z.to_nat k) [a4; a5; 0; 0] 0).
  { intros k Hk. pose proof (byte_of_word a4 a5 0 0 k R4 R5) as Hb.
    rewrite !Z.shiftl_0_l, !Z.lor_0_r in Hb.
    rewrite <- Hb, <- Eh by (unfold in_range; lia). apply Z.bits_inj'. intros b Hb0.
    rewrite !testbit_byte_of, Z.land_spec by lia. change 0xFFFF with (Z.ones 16).
    rewrite Z.testbit_ones by lia.
    destruct (Z.ltb_spec b 8), (Z.leb_spec 0 (b + 8 * k)), (Z.ltb_spec (b + 8 * k) 16);
      try lia; simpl; by rewrite ?andb_true_r. }
  by rewrite !Hb by lia.
Qed.

(** every entry below the high water mark is valid and holds another address *)
Definition table_full (s : Z -> Z) (addr : list Z) (n : Z) : Prop := forall i, 0 <= i < n ->
  rar_valid s i = true /\ rar_addr s i <> addr.

Lemma insert_search_full h s addr lo hi n : 0 <= n <= 128 -> table_full s addr n ->
  (forall i, s (IXGBE_RAL i) = lo -> Z.land (s (IXGBE_RAH i)) 0xFFFF = hi -> rar_addr s i = addr) ->
  plain h s (insert_search lo hi n) (fun r h' s' => r = inl NO_EMPTY_RAR_FOUND /\ h' = h /\ s' = s).
Proof using PlainRegs0.
  intros Hn Hf Hw. unfold insert_search.
  apply pl_for_break with (Inv := fun k e h' s' => e = NO_EMPTY_RAR_FOUND /\ h' = h /\ s' = s).
  - done.
  - intros k e h' s' Hk (-> & -> & ->). pl_step. pl_step.
    destruct (Hf k) as [Hv Hne]; [lia|].
    assert (has IXGBE_RAH_AV (s (IXGBE_RAH k)) = true) as Ev.
    { unfold has. rewrite Z.land_comm. change (has (s (IXGBE_RAH k)) (bit 31) = true).
      by rewrite has_bit. }
    rewrite Ev. cbn [negb andb].
    destruct (Z.eqb_spec (Z.land (s (IXGBE_RAH k)) 0xFFFF) hi) as [E1|E1]; [|by pl_step].
    pl_step. pl_step. destruct (Z.eqb_spec (s (IXGBE_RAL k)) lo) as [E2|E2]; [|by pl_step].
    by destruct (Hne (Hw k E2 E1)).
  - by intros b h' s' (-> & -> & ->).
Qed.

(** On a full table [ixgbe_insert_mac_addr_generic] does not report an
    error: no register changes, the address is in no entry, yet the result is
    the (non-existent) entry number [num_rar_entries] and the high water mark
    moves past the table. *)
Theorem insert_mac_addr_full_table h s addr p : generic_pools h -> addr_ok addr ->
  0 < num_rar_entries (mac h) <= 128 -> rar_highwater (mac h) = num_rar_entries (mac h) ->
  table_full s addr (num_rar_entries (mac h)) ->
  plain h s (ixgbe_insert_mac_addr_generic addr p) (fun ret h' s' =>
    ret = num_rar_entries (mac h) /\ s' = s /\
    rar_highwater (mac h') = num_rar_entries (mac h) + 1).
Proof using PlainRegs0.
  intros Hg Ha Hn Hh Hf.
  destruct (addr_ok_inv _ Ha) as (a0&a1&a2&a3&a4&a5&E&R0&R1&R2&R3&R4&R5).
  unfold ixgbe_insert_mac_addr_generic. pl_step. eapply pl_rar_low; [exact E|done..|]. pl_step.
  eapply pl_rar_high; [exact E|done|]. pl_step. pl_step. pl_step.
  eapply pl_mono; [apply (insert_search_full h s addr); [lia|by rewrite Hh|]|].
  { intros i E1 E2. rewrite E. by apply rar_addr_of_words. }
  intros r h' s' (-> & -> & ->). cbv zeta. pl_step. pl_step. pl_step.
  rewrite !Hh, Z.ltb_irrefl, !Z.eqb_refl. cbn [negb].
  pl_step. unfold ixgbe_set_rar, ixgbe_set_rar_generic. pl_step. pl_step. rewrite Z.leb_refl.
  pl_step. unfold mod_mac. pl_step. pl_step. pl_step.
  destruct (Z.eqb_spec (num_rar_entries (mac h)) 0); [lia|]. pl_step. pl_step. pl_step.
  split; [|split; [done|]].
  - unfold sext. rewrite trunc_small by (unfold in_range; lia).
    destruct (Z.ltb_spec (num_rar_entries (mac h)) (2 ^ (32 - 1))); [done|lia].
  - cbn. rewrite Hh. apply trunc_small. unfold in_range. lia.
Qed.
End Rar.

(** ** The multicast table *)

(** reference definition of the hash: 12 bits of the last two bytes, read as one
    number, from a position that [mc_filter_type] selects *)
Definition mta_hash (filter_type : Z) (addr : list Z) : Z :=
  let hi16 := nth 4 addr 0 + 256 * nth 5 addr 0 in
  trunc 12 (Z.shiftr hi16 (match filter_type with 0 => 4 | 1 => 3 | 2 => 2 | _ => 0 end)).

(** the addresses an iterator yields *)
Fixpoint itr_addrs {X} (next : X -> list Z * Z * X) (l : X) (n : nat) : list (list Z) :=
  match n with
  | O => []
  | S n' => let '(addr, _, l') := next l in addr :: itr_addrs next l' n'
  end.
Definition itr_rest {X} (next : X -> list Z * Z * X) (l : X) (n : nat) : X :=
  Nat.iter n (fun l => snd (next l)) l.

Definition mta_regs (r : Z) : Prop := r = IXGBE_STATUS \/ 0x5200 <= r < 0x5400.

(** entry [v] of the hash table *)
Definition mta_bit (table : Z -> Z) (v : Z) : bool := Z.testbit (table (v / 32)) (v mod 32).

Lemma itr_rest_S {X} (next : X -> list Z * Z * X) l n :
  itr_rest next l (S n) = snd (next (itr_rest next l n)).
Proof. done. Qed.

Lemma itr_addrs_S {X} (next : X -> list Z * Z * X) l n :
  itr_addrs next l (S n) = itr_addrs next l n ++ [(next (itr_rest next l n)).1.1].
Proof.
  revert l. induction n as [|n IH]; intros l.
  - unfold itr_rest. simpl. by destruct (next l) as [[??]?].
  - cbn [itr_addrs]. cbn [itr_addrs] in IH. destruct (next l) as [[a p] l'] eqn:E.
    assert (itr_rest next l (S n) = itr_rest next l' n) as ->
      by (unfold itr_rest; rewrite Nat.iter_succ_r; by rewrite E).
    simpl app. f_equal. exact (IH l').
Qed.

Lemma length_itr_addrs {X} (next : X -> list Z * Z * X) l n : length (itr_addrs next l n) = n.
Proof. revert l. induction n as [|n IH]; intros l; simpl; [done|]. destruct (next l) as [[??]?]. simpl. by rewrite IH. Qed.

Lemma mta_hash_range ft addr : 0 <= mta_hash ft addr < 4096.
Proof. apply (trunc_range 12). done. Qed.

(** [(a4 >> (8 - n)) | (a5 << n)] is a shift of the 16-bit number *)
Lemma hash_shift a4 a5 n : in_range 8 a4 -> in_range 8 a5 -> 0 <= n <= 8 ->
  Z.lor (Z.shiftr a4 (8 - n)) (Z.shiftl a5 n) = Z.shiftr (a4 + 256 * a5) (8 - n).
Proof.
  intros H4 H5 Hn.
  assert (a4 + 256 * a5 = Z.lor a4 (Z.shiftl a5 8)) as ->.
  { pose proof (Z.add_lor_land a4 (Z.shiftl a5 8)) as E.
    assert (Z.shiftl a5 8 = 256 * a5) as E2
      by (rewrite Z.shiftl_mul_pow2 by lia; change (2 ^ 8) with 256; lia).
    enough (Z.land a4 (Z.shiftl a5 8) = 0) by lia.
    apply Z.bits_inj'. intros i Hi.
    rewrite Z.land_spec, Z.bits_0, Z.shiftl_spec by lia.
    destruct (Z.ltb_spec i 8); [rewrite (Z.testbit_neg_r a5) by lia; apply andb_false_r|].
    by rewrite (testbit_range 8 a4). }
  apply Z.bits_inj'. intros i Hi.
  rewrite Z.lor_spec, Z.shiftl_spec, !Z.shiftr_spec, Z.lor_spec, Z.shiftl_spec by lia.
  do 2 f_equal. lia.
Qed.

Section Mta.
Context `{D : Mmio} `{!PlainRegs D mta_regs}.

Ltac mta_side := unfold mta_regs, IXGBE_MTA, IXGBE_STATUS, IXGBE_MCSTCTRL in *; lia.
Ltac pl_step := pl_step_with mta_side.

Lemma mta_vector_effect h s addr : addr_ok addr -> 0 <= mc_filter_type (mac h) <= 3 ->
  plain h s (ixgbe_mta_vector addr) (fun v h' s' =>
    v = mta_hash (mc_filter_type (mac h)) addr /\ h' = h /\ s' = s).
Proof using PlainRegs0.
  intros Ha Hf. destruct (addr_ok_inv _ Ha) as (a0&a1&a2&a3&a4&a5&->&_&_&_&_&R4&R5).
  unfold ixgbe_mta_vector. repeat pl_step.
  split; [|done]. unfold mta_hash. simpl nth.
  assert (Hm : forall x, Z.land x 0xFFF = trunc 12 x).
  { intros x. change 0xFFF with (Z.ones 12). by rewrite Z.land_ones. }
  rewrite Hm. f_equal.
  assert (mc_filter_type (mac h) = 0 \/ mc_filter_type (mac h) = 1 \/
          mc_filter_type (mac h) = 2 \/ mc_filter_type (mac h) = 3) as [-> |[-> |[-> | ->]]] by lia.
  - by apply (hash_shift _ _ 4).
  - by apply (hash_shift _ _ 5).
  - by apply (hash_shift _ _ 6).
  - exact (hash_shift a4 a5 8 R4 R5 ltac:(lia)).
Qed.

(** the software copy of the table after the addresses [l] *)
Record mta_inv (h0 : ixgbe_hw) (l : list (list Z)) (h : ixgbe_hw) : Prop := {
  mi_length : length (mta_shadow (mac h)) = 128%nat;
  mi_bits : forall v, 0 <= v < 4096 ->
    mta_bit (fun k => nth (Z.to_nat k) (mta_shadow (mac h)) 0) v =
    existsb (fun a => mta_hash (mc_filter_type (mac h)) a =? v) l;
  mi_range : Forall (in_range 32) (mta_shadow (mac h));
  mi_use : mta_in_use (addr_ctrl h) = Z.of_nat (length l);
  mi_num : num_mc_addrs (addr_ctrl h) = num_mc_addrs (addr_ctrl h0);
  mi_mac : upd_mta_shadow [] (mac h) = upd_mta_shadow [] (mac h0);
}.

Lemma mi_filter h0 l h : mta_inv h0 l h -> mc_filter_type (mac h) = mc_filter_type (mac h0).
Proof using. intros [_ _ _ _ _ E]. by injection E. Qed.
Lemma mi_size h0 l h : mta_inv h0 l h -> mcft_size (mac h) = mcft_size (mac h0).
Proof using. intros [_ _ _ _ _ E]. by injection E. Qed.

(** setting the bit of vector [v] in the shadow table *)
Lemma mta_shadow_set (t : list Z) v u : length t = 128%nat -> Forall (in_range 32) t ->
  0 <= v < 4096 -> 0 <= u < 4096 ->
  mta_bit (fun k => nth (Z.to_nat k)
    (<[Z.to_nat (v / 32) := Z.lor (nth (Z.to_nat (v / 32)) t 0) (bit32 (v mod 32))]> t) 0) u =
  (v =? u) || mta_bit (fun k => nth (Z.to_nat k) t 0) u.
Proof using.
  intros Hl Ht Hv Hu. unfold mta_bit.
  assert (Z.to_nat (v / 32) < length t)%nat by (rewrite Hl; zlia).
  destruct (Z.eqb_spec (u / 32) (v / 32)) as [E|E].
  - rewrite E. rewrite (nth_lookup_Some _ _ _ _ (list_lookup_insert_eq _ _ _ H)).
    unfold bit32. autorewrite with zbits.
    assert (Z.testbit (bit (v mod 32)) (u mod 32) = (u mod 32 =? v mod 32)) as ->
      by (apply testbit_bit; zlia).
    destruct (Z.ltb_spec (u mod 32) 32); [simpl|zlia]. rewrite orb_comm. f_equal.
    destruct (Z.eqb_spec (u mod 32) (v mod 32)), (Z.eqb_spec v u); try done; zlia.
  - destruct (Z.eqb_spec v u); [subst; done|]. simpl. f_equal.
    rewrite !nth_lookup, list_lookup_insert_ne by zlia. done.
Qed.

Lemma set_mta_effect h0 l h s addr : addr_ok addr -> 0 <= mc_filter_type (mac h) <= 3 ->
  mta_inv h0 l h -> Z.of_nat (length l) < 2 ^ 32 - 1 ->
  plain h s (ixgbe_set_mta addr) (fun _ h' s' => mta_inv h0 (l ++ [addr]) h' /\ s' = s).
Proof using PlainRegs0.
  intros Ha Hf [Hl Hb Hr Hu Hn Hm] Hlen. unfold ixgbe_set_mta, mod_addr_ctrl, mod_mac.
  pl_step. pl_step. pl_step. eapply pl_mono; [by apply mta_vector_effect|].
  intros v h' s' (-> & -> & ->). cbv zeta. cbn [mac upd_addr_ctrl].
  set (v := mta_hash (mc_filter_type (mac h)) addr).
  pose proof (mta_hash_range (mc_filter_type (mac h)) addr) as Hv. fold v in Hv.
  assert (Z.land (Z.shiftr v 5) 0x7F = v / 32) as ->.
  { change 0x7F with (Z.ones 7). rewrite Z.land_ones, Z.shiftr_div_pow2 by lia.
    change (2 ^ 5) with 32. change (2 ^ 7) with 128. apply Z.mod_small. zlia. }
  assert (Z.land v 0x1F = v mod 32) as -> by (change 0x1F with (Z.ones 5); by rewrite Z.land_ones).
  pl_step. pl_step. cbn [mac upd_addr_ctrl].
  assert (exists x, mta_shadow (mac h) !! Z.to_nat (v / 32) = Some x) as [x Hx].
  { apply lookup_lt_is_Some_2. rewrite Hl. zlia. }
  pl_step. eapply pl_nth_c; [zlia|exact Hx|]. pl_step. apply pl_upd_c; [rewrite Hl; zlia|].
  pl_step. split; [|done]. rewrite <- (nth_lookup_Some _ _ 0 _ Hx).
  split; cbn [mac addr_ctrl upd_mac upd_addr_ctrl upd_mta_shadow mta_shadow mc_filter_type
    mta_in_use num_mc_addrs upd_mta_in_use].
  - by rewrite length_insert.
  - intros u Hu'. rewrite mta_shadow_set, Hb, existsb_app by done. simpl.
    rewrite orb_false_r. apply orb_comm.
  - apply Forall_insert; [done|]. apply lor_range; [done| |by apply trunc_range].
    rewrite (nth_lookup_Some _ _ 0 _ Hx). by eapply Forall_lookup_1.
  - rewrite Hu, length_app. simpl. rewrite trunc_small by (unfold in_range; lia). lia.
  - done.
  - exact Hm.
Qed.

(** copying the shadow table to the registers *)
Lemma mta_copy_effect h s n : mcft_size (mac h) = n -> length (mta_shadow (mac h)) = Z.to_nat n ->
  0 <= n <= 128 -> Forall (in_range 32) (mta_shadow (mac h)) ->
  plain h s (for_loop (Z.to_nat n) 0 (fun i =>
    h ← get_hw; x ← nth_c (mta_shadow (mac h)) i; IXGBE_WRITE_REG_ARRAY (IXGBE_MTA 0) i x))
    (fun _ h' s' => h' = h /\ forall k, 0 <= k < n ->
       s' (IXGBE_MTA k) = nth (Z.to_nat k) (mta_shadow (mac h)) 0).
Proof using PlainRegs0.
  intros Hs Hl Hn Hr. eapply pl_mono.
  { apply pl_for_loop with (Inv := fun k h' s' => h' = h /\ forall j, 0 <= j < k ->
       s' (IXGBE_MTA j) = nth (Z.to_nat j) (mta_shadow (mac h)) 0).
    - split; [done|lia].
    - intros k h' s' Hk [-> Hi]. pl_step. pl_step. pl_step.
      assert (exists x, mta_shadow (mac h) !! Z.to_nat k = Some x) as [x Hx].
      { apply lookup_lt_is_Some_2. rewrite Hl. lia. }
      eapply pl_nth_c; [lia|exact Hx|]. unfold IXGBE_WRITE_REG_ARRAY.
      rewrite Z.shiftl_mul_pow2 by lia.
      replace (IXGBE_MTA 0 + k * 2 ^ 2) with (IXGBE_MTA k) by mta_side.
      pl_step. split; [done|]. intros j Hj. destruct (decide (j = k)) as [-> |].
      + rewrite set_reg_eq, trunc_small; [symmetry; by apply nth_lookup_Some|].
        by eapply Forall_lookup_1.
      + rewrite set_reg_ne by mta_side. apply Hi. lia. }
  intros _ h' s' [-> Hi]. split; [done|]. intros k Hk. apply Hi. lia.
Qed.

Lemma mta_inv_cleared h c : length (mta_shadow (mac h)) = 128%nat ->
  mta_inv (upd_addr_ctrl (upd_num_mc_addrs c (addr_ctrl h)) h) []
    (upd_mac (upd_mta_shadow (replicate (length (mta_shadow (mac h))) 0) (mac h))
       (upd_addr_ctrl (upd_mta_in_use 0 (upd_num_mc_addrs c (addr_ctrl h))) h)).
Proof using.
  intros Hl. split; cbn [mac addr_ctrl upd_mac upd_addr_ctrl upd_mta_shadow mta_shadow
    mc_filter_type mta_in_use num_mc_addrs upd_mta_in_use upd_num_mc_addrs]; try done.
  - by rewrite length_replicate.
  - intros v Hv. unfold mta_bit. rewrite nth_lookup.
    destruct (replicate _ 0 !! _) as [x|] eqn:E; simpl; [|apply Z.bits_0].
    apply lookup_replicate in E as [-> _]. apply Z.bits_0.
  - apply Forall_replicate. done.
Qed.

Lemma set_mta_list_effect {X} (next : X -> list Z * Z * X) (l : X) n h0 h s :
  mta_inv h0 [] h -> 0 <= mc_filter_type (mac h0) <= 3 -> Z.of_nat n < 2 ^ 32 ->
  Forall addr_ok (itr_addrs next l n) ->
  plain h s (for_acc n 0 l (fun _ l =>
    let '(addr, _, l) := next l in ixgbe_set_mta addr ;; mret l))
    (fun _ h' s' => mta_inv h0 (itr_addrs next l n) h' /\ s' = s).
Proof using PlainRegs0.
  intros Hi Hf Hn Ha. eapply pl_mono.
  { apply pl_for_acc with (Inv := fun k l' h' s' => l' = itr_rest next l (Z.to_nat k) /\
      mta_inv h0 (itr_addrs next l (Z.to_nat k)) h' /\ s' = s); [done|].
    intros k l' h' s' Hk (-> & Hk2 & ->).
    destruct (next (itr_rest next l (Z.to_nat k))) as [[addr p] l2] eqn:E.
    pl_step. eapply pl_mono; [eapply (set_mta_effect h0)|].
    - assert (In addr (itr_addrs next l n)) as Hin; [|by apply (proj1 (Forall_forall _ _) Ha)].
      clear -E Hk. assert (exists m, n = S (Z.to_nat k) + m)%nat as [m ->]
        by (exists (n - S (Z.to_nat k))%nat; lia).
      clear Hk. revert E. generalize (Z.to_nat k). intros j E. induction m as [|m IH].
      + rewrite Nat.add_0_r, itr_addrs_S, E. apply in_or_app. right. by left.
      + rewrite Nat.add_succ_r, itr_addrs_S. apply in_or_app. by left.
    - by rewrite (mi_filter _ _ _ Hk2).
    - exact Hk2.
    - rewrite length_itr_addrs. lia.
    - intros _ h2 s2 [Hi2 ->]. pl_step. replace (Z.to_nat (k + 1)) with (S (Z.to_nat k)) by lia.
      split; [by rewrite itr_rest_S, E|]. split; [|done]. by rewrite itr_addrs_S, E. }
  intros _ h' s' (_ & Hi' & ->). replace (Z.to_nat (0 + Z.of_nat n)) with n in Hi' by lia. done.
Qed.

(** After [ixgbe_update_mc_addr_list_generic] with [clear], bit [v] of the
    hardware hash table is set exactly when one of the given addresses hashes to
    [v] (so every listed address passes the filter, and nothing is left over
    from earlier lists), the counters agree with the list, and the hash filter
    is enabled when the list is not empty. *)
Theorem update_mc_addr_list_exact {X} (next : X -> list Z * Z * X) (l : X) n h s :
  length (mta_shadow (mac h)) = 128%nat -> mcft_size (mac h) = 128 ->
  0 <= mc_filter_type (mac h) <= 3 -> 0 <= n < 2 ^ 32 ->
  Forall addr_ok (itr_addrs next l (Z.to_nat n)) ->
  plain h s (ixgbe_update_mc_addr_list_generic next l n true) (fun ret h' s' =>
    ret = IXGBE_SUCCESS /\
    (forall v, 0 <= v < 4096 -> mta_bit (fun k => s' (IXGBE_MTA k)) v =
       existsb (fun a => mta_hash (mc_filter_type (mac h)) a =? v)
         (itr_addrs next l (Z.to_nat n))) /\
    mta_in_use (addr_ctrl h') = n /\ num_mc_addrs (addr_ctrl h') = n /\
    (0 < n -> s' IXGBE_MCSTCTRL = Z.lor IXGBE_MCSTCTRL_MFE (mc_filter_type (mac h)))).
Proof using PlainRegs0.
  intros Hl Hsz Hf Hn Ha. unfold ixgbe_update_mc_addr_list_generic, mod_addr_ctrl, mod_mac.
  do 6 pl_step. pl_step. eapply pl_mono.
  { eapply set_mta_list_effect; [by apply (mta_inv_cleared h n)|done|lia|done]. }
  intros _ h1 s1 [Hi ->]. pl_step. pl_step. pl_step.
  assert (mcft_size (mac h1) = 128) as Hsz1 by (rewrite (mi_size _ _ _ Hi); done).
  rewrite Hsz1. eapply pl_mono.
  { by apply mta_copy_effect; [|apply (mi_length _ _ _ Hi)| |apply (mi_range _ _ _ Hi)]. }
  intros _ h' s1 [-> Hc]. pl_step. pl_step.
  assert (Hu : mta_in_use (addr_ctrl h1) = n)
    by (rewrite (mi_use _ _ _ Hi), length_itr_addrs; lia).
  pose proof (mi_filter _ _ _ Hi) as Hft. cbn [mac upd_addr_ctrl] in Hft.
  assert (Hbits : forall s2, (forall k, 0 <= k < 128 -> s2 (IXGBE_MTA k) = s1 (IXGBE_MTA k)) ->
    forall v, 0 <= v < 4096 -> mta_bit (fun k => s2 (IXGBE_MTA k)) v =
       existsb (fun a => mta_hash (mc_filter_type (mac h)) a =? v) (itr_addrs next l (Z.to_nat n))).
  { intros s2 E v Hv. rewrite <- Hft, <- (mi_bits _ _ _ Hi v Hv). unfold mta_bit.
    rewrite E, Hc by zlia. done. }
  pl_step. rewrite Hu. destruct (Z.ltb_spec 0 n).
  - pl_step. pl_step. split; [done|]. split; [|split; [done|split; [apply (mi_num _ _ _ Hi)|]]].
    + apply Hbits. intros k Hk. by rewrite set_reg_ne by mta_side.
    + intros _. rewrite set_reg_eq, Hft.
      assert (mc_filter_type (mac h) = 0 \/ mc_filter_type (mac h) = 1 \/
          mc_filter_type (mac h) = 2 \/ mc_filter_type (mac h) = 3) as [-> |[-> |[-> | ->]]] by lia;
        done.
  - pl_step. pl_step. split; [done|]. split; [by apply Hbits|].
    split; [done|]. split; [apply (mi_num _ _ _ Hi)|lia].
Qed.
End Mta.

(** ** Witnesses *)
#[local] Existing Instance ram_plain.

Lemma rar_roundtrip_witness :
  wp (ret ← ixgbe_set_rar_generic (D := ram) 0 [0xA0; 0x36; 0x9F; 1; 2; 3] 5 IXGBE_RAH_AV;
      r ← ixgbe_get_mac_addr_generic [0; 0; 0; 0; 0; 0]; mret (ret, r))
    (fun x _ => x = (IXGBE_SUCCESS, (IXGBE_SUCCESS, [0xA0; 0x36; 0x9F; 1; 2; 3]))) (wram ∅).
Proof.
  eapply wp_mono.
  - apply (rar_roundtrip (D := ram) hw0 (ram_regs ∅) [0xA0; 0x36; 0x9F; 1; 2; 3] 5 [0; 0; 0; 0; 0; 0]).
    + split; discriminate.
    + split; reflexivity || discriminate.
    + split; [reflexivity|]. repeat constructor; (discriminate || reflexivity).
    + split; [discriminate|reflexivity].
    + reflexivity.
    + by apply ram_holds.
  - intros x w' (h' & s' & _ & E). exact E.
Defined.

Lemma clear_vmdq_terminates_witness :
  wp (ixgbe_clear_vmdq_generic (D := ram) 3 5)
    (fun ret w' => ret = IXGBE_SUCCESS /\ w_hw w' = hw0)
    (wram {[IXGBE_MPSAR_LO 3 := bit 5; IXGBE_RAL 3 := 0x12345678]}).
Proof.
  eapply wp_mono.
  - apply (clear_vmdq_terminates (D := ram) hw0 (ram_regs {[IXGBE_MPSAR_LO 3 := bit 5; IXGBE_RAL 3 := 0x12345678]}) 3 5).
    + split; [discriminate|reflexivity].
    + discriminate.
    + right. split; [discriminate|reflexivity].
    + by apply ram_holds.
  - intros ret w' (h' & s' & Hh & -> & -> & _). split; [reflexivity|apply Hh].
Defined.

Lemma update_mc_addr_list_exact_witness :
  wp (ixgbe_update_mc_addr_list_generic (D := ram)
        (fun l => (nth 0 l [], 0, tl l)) [[1; 0; 0x5E; 0; 0; 1]; [0x33; 0x33; 0; 0; 0x10; 0x20]] 2 true)
    (fun ret w' => ret = IXGBE_SUCCESS /\ mta_in_use (addr_ctrl (w_hw w')) = 2) (wram ∅).
Proof.
  pose proof (update_mc_addr_list_exact (D := ram) (fun l => (nth 0 l [], 0, tl l))
      [[1; 0; 0x5E; 0; 0; 1]; [0x33; 0x33; 0; 0; 0x10; 0x20]] 2 hw0 (ram_regs ∅)
      eq_refl eq_refl ltac:(split; discriminate) ltac:(split; [discriminate|reflexivity])
      ltac:(repeat constructor; (discriminate || reflexivity))
      (wram ∅) (ram_holds _ ∅ eq_refl)) as H.
  eapply wp_mono; [exact H|].
  intros ret w' (h' & s' & Hh & -> & _ & E & _). split; [reflexivity|].
  rewrite (ho_hw _ _ _ Hh). exact E.
Defined.

(** a two-entry table, full *)
Definition hw_two : ixgbe_hw :=
  upd_mac (upd_rar_highwater 2 (upd_num_rar_entries 2 (mac hw0))) hw0.
Definition full_two : gmap Z Z :=
  {[IXGBE_RAH 0 := 0x80000001; IXGBE_RAH 1 := 0x80000002]}.

Lemma insert_mac_addr_full_table_witness :
  wp (ixgbe_insert_mac_addr_generic (D := ram) [0xA0; 0x36; 0x9F; 1; 2; 3] 1)
    (fun ret w' => ret = 2 /\ rar_highwater (mac (w_hw w')) = 3) (mk_world ram hw_two full_two []).
Proof.
  pose proof (insert_mac_addr_full_table (D := ram) hw_two (ram_regs full_two)
    [0xA0; 0x36; 0x9F; 1; 2; 3] 1) as H.
  eapply wp_mono; [apply H|].
  - split; discriminate.
  - split; [reflexivity|]. repeat constructor; (discriminate || reflexivity).
  - split; reflexivity || discriminate.
  - reflexivity.
  - intros i Hi. assert (i = 0 \/ i = 1) as [-> | ->] by (cbn in Hi; lia); vm_compute;
      (split; [reflexivity|discriminate]).
  - split; [by split; vm_compute|reflexivity|reflexivity].
  - intros ret w' (h' & s' & Hh & -> & _ & E). split; [reflexivity|].
    rewrite (ho_hw _ _ _ Hh). exact E.
Defined.
