(* ===== verification/VlanProps.v ===== *)
(** * The VLAN pool filter implements a relation

    With virtualization enabled [ixgbe_set_vfta_generic] keeps three register
    arrays in step: VLVF (which VLAN a slot stands for), VLVFB (its pools) and
    VFTA (one bit per VLAN).  Abstractly it maintains a relation between VLANs
    and pools; this file states the representation invariant and proves the
    refinement. *)
From stdpp Require Import gmap.
From S2P Require Import Prelude Regs Types Osdep Plain Filters.

Definition vlan_regs (r : Z) : Prop :=
  r = IXGBE_STATUS \/ r = IXGBE_VT_CTL \/ 0xA000 <= r < 0xA200 \/ 0xF100 <= r < 0xF400.

(** the word of a slot that stands for VLAN [v] *)
Definition vlan_word (v : Z) : Z := Z.lor IXGBE_VLVF_VIEN v.
Definition pool_bit (s : Z -> Z) (k p : Z) : bool :=
  Z.testbit (s (IXGBE_VLVFB (k * 2 + p / 32))) (p mod 32).
Definition vlan_bit (s : Z -> Z) (v : Z) : bool :=
  Z.testbit (s (IXGBE_VFTA (v / 32))) (v mod 32).
Definition no_pools (s : Z -> Z) (k : Z) : Prop :=
  s (IXGBE_VLVFB (k * 2)) = 0 /\ s (IXGBE_VLVFB (k * 2 + 1)) = 0.

(** the words of slot [k] that pool [vind] uses and does not use *)
Definition breg (k vind : Z) : Z := IXGBE_VLVFB (k * 2 + vind / 32).
Definition oreg (k vind : Z) : Z := IXGBE_VLVFB (k * 2 + 1 - vind / 32).

(** ** The abstract relation *)
Definition member (s : Z -> Z) (v p : Z) : Prop :=
  exists k, 0 <= k < 64 /\ s (IXGBE_VLVF k) = vlan_word v /\ pool_bit s k p = true.

(** ** The representation invariant *)
Record vlan_inv (s : Z -> Z) : Prop := {
  vi_slot k : 0 <= k < 64 -> s (IXGBE_VLVF k) = 0 \/
    exists v, 0 <= v < 4096 /\ (v = 0 <-> k = 0) /\ s (IXGBE_VLVF k) = vlan_word v;
  vi_unique k j v : 0 <= k < 64 -> 0 <= j < 64 -> 0 <= v < 4096 ->
    s (IXGBE_VLVF k) = vlan_word v -> s (IXGBE_VLVF j) = vlan_word v -> k = j;
  vi_pools k : 0 <= k < 64 -> s (IXGBE_VLVF k) = 0 <-> no_pools s k;
  vi_vfta v : 0 <= v < 4096 ->
    vlan_bit s v = true <-> exists k, 0 <= k < 64 /\ s (IXGBE_VLVF k) = vlan_word v;
}.

Lemma vlan_word_add v : 0 <= v < 4096 -> vlan_word v = 0x80000000 + v.
Proof.
  intros Hv. unfold vlan_word. pose proof (Z.add_lor_land IXGBE_VLVF_VIEN v) as E.
  enough (Z.land IXGBE_VLVF_VIEN v = 0) by (unfold IXGBE_VLVF_VIEN in *; lia).
  apply Z.bits_inj'. intros i Hi. rewrite Z.land_spec, Z.bits_0.
  change IXGBE_VLVF_VIEN with (bit 31). rewrite testbit_bit by lia.
  destruct (Z.eqb_spec i 31) as [-> |]; [|done].
  by rewrite (testbit_range 12) by (done || lia).
Qed.

Lemma vlan_word_inj v u : 0 <= v < 4096 -> 0 <= u < 4096 -> vlan_word v = vlan_word u -> v = u.
Proof. intros Hv Hu. rewrite !vlan_word_add by done. lia. Qed.
Lemma vlan_word_nz v : 0 <= v < 4096 -> vlan_word v <> 0.
Proof. intros. rewrite vlan_word_add by done. lia. Qed.

Ltac vlan_side :=
  unfold breg, oreg, vlan_regs, IXGBE_VLVF, IXGBE_VLVFB, IXGBE_VFTA, IXGBE_VT_CTL, IXGBE_STATUS in *; zlia.
Ltac vlan_regs_simpl := repeat first [rewrite set_reg_eq | rewrite set_reg_ne by vlan_side].

(** ** One slot changes *)

(** slot [k] is the one for [vlan]: it has it, or is free and no slot has it *)
Definition slot_for (s : Z -> Z) (vlan k : Z) : Prop :=
  0 <= k < 64 /\ (vlan = 0 <-> k = 0) /\
  (s (IXGBE_VLVF k) = vlan_word vlan \/
   s (IXGBE_VLVF k) = 0 /\ forall j, 0 <= j < 64 -> s (IXGBE_VLVF j) <> vlan_word vlan).

Record slot_result (s s' : Z -> Z) (k vlan vind : Z) (on used : bool) : Prop := {
  sr_word : s' (IXGBE_VLVF k) = if used then vlan_word vlan else 0;
  sr_pools p : 0 <= p < 64 -> pool_bit s' k p = if decide (p = vind) then on else pool_bit s k p;
  sr_used : used = false <-> no_pools s' k;
  sr_vfta v : 0 <= v < 4096 -> vlan_bit s' v = if decide (v = vlan) then used else vlan_bit s v;
  sr_slots j : 0 <= j < 64 -> j <> k -> s' (IXGBE_VLVF j) = s (IXGBE_VLVF j);
  sr_bits j : 0 <= j < 128 -> j / 2 <> k -> s' (IXGBE_VLVFB j) = s (IXGBE_VLVFB j);
}.

Lemma no_pools_bit s k p : 0 <= p < 64 -> no_pools s k -> pool_bit s k p = false.
Proof.
  intros Hp [E1 E2]. unfold pool_bit.
  assert (p / 32 = 0 \/ p / 32 = 1) as [-> | ->] by zlia;
    rewrite ?Z.add_0_r, ?E1, ?E2; apply Z.bits_0.
Qed.

Lemma slot_for_other s vlan k j : vlan_inv s -> slot_for s vlan k -> 0 <= vlan < 4096 ->
  0 <= j < 64 -> s (IXGBE_VLVF j) = vlan_word vlan -> j = k.
Proof.
  intros Hi (Hk & _ & [E|[_ Hn]]) Hv Hj E'; [by eapply (vi_unique s Hi)|].
  by destruct (Hn j Hj).
Qed.

Lemma slot_result_pool_ne s s' k vlan vind on used j p :
  slot_result s s' k vlan vind on used -> 0 <= j < 64 -> 0 <= p < 64 -> j <> k ->
  pool_bit s' j p = pool_bit s j p.
Proof. intros Hr Hj Hp Hne. unfold pool_bit. by rewrite (sr_bits _ _ _ _ _ _ _ Hr) by zlia. Qed.

Lemma slot_result_inv s s' k vlan vind on used : vlan_inv s -> slot_for s vlan k ->
  0 <= vlan < 4096 -> slot_result s s' k vlan vind on used -> vlan_inv s'.
Proof.
  intros Hi Hf Hv Hr. pose proof Hf as (Hk & Hk0 & _).
  assert (Hw : forall j v, 0 <= j < 64 -> 0 <= v < 4096 -> s' (IXGBE_VLVF j) = vlan_word v <->
    if decide (j = k) then used = true /\ v = vlan else s (IXGBE_VLVF j) = vlan_word v).
  { intros j v Hj Hv'. case_decide as E; [subst j|by rewrite (sr_slots _ _ _ _ _ _ _ Hr)].
    rewrite (sr_word _ _ _ _ _ _ _ Hr). destruct used; split.
    - by intros E%vlan_word_inj.
    - by intros [_ ->].
    - intros E. by destruct (vlan_word_nz v Hv').
    - by intros [? _]. }
  split.
  - intros j Hj. destruct (decide (j = k)) as [-> |Hne].
    + rewrite (sr_word _ _ _ _ _ _ _ Hr). destruct used; [right; by exists vlan; auto|by left].
    + rewrite (sr_slots _ _ _ _ _ _ _ Hr) by done. by apply (vi_slot s Hi).
  - intros j1 j2 v H1 H2 Hv' E1%Hw E2%Hw; try done.
    destruct (decide (j1 = k)) as [-> |], (decide (j2 = k)) as [-> |]; [done|..].
    + destruct E1 as [_ ->]. symmetry. by apply (slot_for_other s vlan _ _ Hi Hf Hv).
    + destruct E2 as [_ ->]. by apply (slot_for_other s vlan _ _ Hi Hf Hv).
    + by eapply (vi_unique s Hi).
  - intros j Hj. destruct (decide (j = k)) as [-> |Hne].
    + rewrite <- (sr_used _ _ _ _ _ _ _ Hr), (sr_word _ _ _ _ _ _ _ Hr).
      pose proof (vlan_word_nz vlan Hv). by destruct used.
    + rewrite (sr_slots _ _ _ _ _ _ _ Hr) by done. unfold no_pools.
      rewrite !(sr_bits _ _ _ _ _ _ _ Hr) by zlia. by apply (vi_pools s Hi).
  - intros v Hv'. rewrite (sr_vfta _ _ _ _ _ _ _ Hr) by done. case_decide as E.
    + subst v. split; [intros ->; exists k; split; [done|]; by apply Hw; rewrite ?decide_True|].
      intros (j & Hj & Ej). apply Hw in Ej; [|done|done].
      case_decide; [by destruct Ej|]. by destruct (slot_for_other s vlan k j).
    + rewrite (vi_vfta s Hi) by done. split; intros (j & Hj & Ej); exists j; (split; [done|]).
      * apply Hw; [done|done|]. case_decide; [|done]. subst j.
        destruct Hf as (_ & _ & [E'|[E' _]]); rewrite Ej in E'.
        -- by apply vlan_word_inj in E'.
        -- by destruct (vlan_word_nz v Hv').
      * apply Hw in Ej; [|done|done]. case_decide; [|done]. by destruct Ej.
Qed.

Lemma slot_result_member s s' k vlan vind on used v p : vlan_inv s -> slot_for s vlan k ->
  0 <= vlan < 4096 -> slot_result s s' k vlan vind on used ->
  0 <= v < 4096 -> 0 <= p < 64 ->
  member s' v p <-> if decide (v = vlan /\ p = vind) then on = true else member s v p.
Proof.
  intros Hi Hf Hv Hr Hv' Hp. pose proof Hf as (Hk & _ & Hslot).
  assert (Hother : forall t j, j <> k -> 0 <= j < 64 ->
    (t = s \/ t = s') -> t (IXGBE_VLVF j) = vlan_word v -> v <> vlan).
  { intros t j Hne Hj Ht E ->. apply Hne. eapply (slot_for_other s); try done.
    destruct Ht as [-> | ->]; [done|]. by rewrite (sr_slots _ _ _ _ _ _ _ Hr) in E. }
  assert (Hk' : pool_bit s' k p = true -> s' (IXGBE_VLVF k) = vlan_word vlan).
  { intros Hb. rewrite (sr_word _ _ _ _ _ _ _ Hr). destruct used eqn:Eu; [done|].
    rewrite (no_pools_bit s' k p Hp) in Hb; [done|]. by apply (sr_used _ _ _ _ _ _ _ Hr). }
  assert (Hk2 : pool_bit s k p = true -> s (IXGBE_VLVF k) = vlan_word vlan).
  { intros Hb. destruct Hslot as [E|[E _]]; [done|]. apply (vi_pools s Hi k Hk) in E.
    by rewrite (no_pools_bit s k p Hp E) in Hb. }
  pose proof (sr_pools _ _ _ _ _ _ _ Hr p Hp) as Hpk.
  split.
  - intros (j & Hj & Ej & Hb). destruct (decide (j = k)) as [-> |Hne].
    + rewrite (Hk' Hb) in Ej. apply vlan_word_inj in Ej as <-; [|done|done].
      rewrite Hpk in Hb. destruct (decide (p = vind)) as [-> |Hpv].
      * by rewrite decide_True.
      * rewrite decide_False by naive_solver. exists k. auto.
    + rewrite decide_False by (intros [? _]; by destruct (Hother s' j Hne Hj (or_intror eq_refl) Ej)).
      rewrite (sr_slots _ _ _ _ _ _ _ Hr) in Ej by done.
      rewrite (slot_result_pool_ne _ _ _ _ _ _ _ _ _ Hr) in Hb by done. by exists j.
  - destruct (decide (v = vlan /\ p = vind)) as [E|E].
    + destruct E as [-> ->]. intros ->. rewrite decide_True in Hpk by done. exists k. auto.
    + intros (j & Hj & Ej & Hb). destruct (decide (j = k)) as [-> |Hne].
      * assert (v = vlan) as -> by (rewrite (Hk2 Hb) in Ej; by apply vlan_word_inj in Ej).
        rewrite decide_False in Hpk by naive_solver. rewrite Hb in Hpk. exists k. auto.
      * exists j. split; [done|]. rewrite (sr_slots _ _ _ _ _ _ _ Hr) by done. split; [done|].
        by rewrite (slot_result_pool_ne _ _ _ _ _ _ _ _ _ Hr) by done.
Qed.

(** ** The operations *)

(** the new VFTA word: [vfta_delta] toggles the VLAN's bit exactly when it must *)
Definition vfta_delta_of (x b : Z) (on : bool) : Z :=
  Z.land (bit32 b) (if on then bnot 32 x else x).
Definition vfta_new (x b : Z) (on : bool) : Z := Z.lxor x (vfta_delta_of x b on).

Lemma vfta_new_bit x b on i : 0 <= b < 32 -> 0 <= i < 32 ->
  Z.testbit (vfta_new x b on) i = if decide (i = b) then on else Z.testbit x i.
Proof.
  intros Hb Hi. unfold vfta_new, vfta_delta_of, bit32. rewrite Z.lxor_spec, Z.land_spec.
  rewrite testbit_trunc, testbit_bit by lia. destruct (Z.ltb_spec i 32); [|lia]. simpl.
  destruct (Z.eqb_spec i b), (decide (i = b)); try done; simpl; [|by rewrite xorb_false_r].
  destruct on; [rewrite testbit_bnot by lia; destruct (Z.ltb_spec i 32); [simpl|lia]|];
    by destruct (Z.testbit x i).
Qed.

Lemma vfta_new_same x b on : vfta_delta_of x b on = 0 -> vfta_new x b on = x.
Proof. intros E. unfold vfta_new. by rewrite E, Z.lxor_0_r. Qed.

Lemma vfta_new_range x b on : in_range 32 x -> in_range 32 (vfta_new x b on).
Proof.
  intros Hx. assert (in_range 32 (vfta_delta_of x b on)) as Hd.
  { apply land_range; [done|by apply trunc_range|]. destruct on; [by apply bnot_range|apply Hx]. }
  apply range_of_testbit; [done| |].
  - apply Z.lxor_nonneg. destruct Hx, Hd. lia.
  - intros i Hi. unfold vfta_new. by rewrite Z.lxor_spec, !(testbit_range 32).
Qed.

(** VFTA agrees with [s] but for the bit of [vlan] *)
Lemma vlan_bit_new s s' vlan on v : 0 <= vlan < 4096 -> 0 <= v < 4096 ->
  s' (IXGBE_VFTA (vlan / 32)) = vfta_new (s (IXGBE_VFTA (vlan / 32))) (vlan mod 32) on ->
  (forall j, 0 <= j < 128 -> j <> vlan / 32 -> s' (IXGBE_VFTA j) = s (IXGBE_VFTA j)) ->
  vlan_bit s' v = if decide (v = vlan) then on else vlan_bit s v.
Proof.
  intros Hv Hv' E1 E2. unfold vlan_bit. destruct (decide (v / 32 = vlan / 32)) as [E|E].
  - rewrite E, E1, vfta_new_bit by zlia.
    destruct (decide (v mod 32 = vlan mod 32)), (decide (v = vlan)); subst; try done; zlia.
  - rewrite E2 by zlia. rewrite decide_False by (intros ->; done). done.
Qed.

(** pools agree with [s] but for pool [vind] of slot [k] *)
Lemma pool_bit_new s s' k vind on p : 0 <= vind < 64 -> 0 <= p < 64 ->
  (forall i, 0 <= i < 32 -> Z.testbit (s' (IXGBE_VLVFB (k * 2 + vind / 32))) i =
     if decide (i = vind mod 32) then on else
     Z.testbit (s (IXGBE_VLVFB (k * 2 + vind / 32))) i) ->
  s' (IXGBE_VLVFB (k * 2 + 1 - vind / 32)) = s (IXGBE_VLVFB (k * 2 + 1 - vind / 32)) ->
  pool_bit s' k p = if decide (p = vind) then on else pool_bit s k p.
Proof.
  intros Hv Hp E1 E2. unfold pool_bit. destruct (decide (p / 32 = vind / 32)) as [E|E].
  - rewrite E, E1 by zlia.
    destruct (decide (p mod 32 = vind mod 32)), (decide (p = vind)); subst; try done; zlia.
  - rewrite decide_False by (intros ->; done).
    replace (k * 2 + p / 32) with (k * 2 + 1 - vind / 32) by zlia. by rewrite E2.
Qed.

Lemma add_pool_bit x b i : in_range 32 x -> 0 <= b < 32 -> 0 <= i < 32 ->
  Z.testbit (u32 (Z.lor x (bit32 b))) i = if decide (i = b) then true else Z.testbit x i.
Proof.
  intros Hx Hb Hi. unfold bit32. rewrite testbit_trunc, Z.lor_spec, testbit_trunc, testbit_bit by lia.
  destruct (Z.ltb_spec i 32); [simpl|lia].
  destruct (Z.eqb_spec i b), (decide (i = b)); try done; [apply orb_true_r|apply orb_false_r].
Qed.

Lemma del_pool_bit x b i : in_range 32 x -> 0 <= b < 32 -> 0 <= i ->
  Z.testbit (Z.lxor (Z.lor x (bit32 b)) (bit32 b)) i =
  if decide (i = b) then false else Z.testbit x i.
Proof.
  intros Hx Hb Hi. unfold bit32.
  rewrite Z.lxor_spec, Z.lor_spec, testbit_trunc, testbit_bit by lia.
  destruct (Z.ltb_spec i 32); simpl.
  - destruct (Z.eqb_spec i b), (decide (i = b)); try done; destruct (Z.testbit x i); done.
  - rewrite (testbit_range 32 x) by done. by case_decide.
Qed.

Lemma del_pool_range x b : in_range 32 x -> 0 <= b < 32 ->
  in_range 32 (Z.lxor (Z.lor x (bit32 b)) (bit32 b)).
Proof.
  intros Hx Hb. apply range_of_testbit; [done| |].
  - apply Z.lxor_nonneg. rewrite Z.lor_nonneg. unfold bit32.
    pose proof (trunc_range 32 (bit b)). unfold in_range in *. lia.
  - intros i Hi. rewrite del_pool_bit by (done || lia). case_decide; [done|].
    by apply (testbit_range 32).
Qed.

Section Vlan.
Context `{D : Mmio} `{!PlainRegs D vlan_regs}.

Ltac pl_step := pl_step_with vlan_side.
Ltac pl_run := repeat lazymatch goal with
  | |- plain _ _ (if _ then _ else _) _ => fail
  | _ => pl_step
  end.

Lemma vlvf_search_effect h s w n e : (n < 64)%nat ->
  (e = 0 \/ Z.of_nat n < e < 64 /\ s (IXGBE_VLVF e) = 0) ->
  (forall k, Z.of_nat n < k < 64 -> s (IXGBE_VLVF k) <> w /\ (e = 0 -> s (IXGBE_VLVF k) <> 0)) ->
  plain h s (vlvf_search w e n) (fun r h' s' => h' = h /\ s' = s /\
    match r with
    | inr k => 1 <= k < 64 /\ s (IXGBE_VLVF k) = w
    | inl e' => (forall k, 1 <= k < 64 -> s (IXGBE_VLVF k) <> w /\ (e' = 0 -> s (IXGBE_VLVF k) <> 0)) /\
                (e' = 0 \/ 1 <= e' < 64 /\ s (IXGBE_VLVF e') = 0)
    end).
Proof using PlainRegs0.
  revert e. induction n as [|n IH]; intros e Hn He Hk; cbn [vlvf_search].
  - pl_step. split; [done|]. split; [done|]. split; [intros k Hk'; apply Hk; lia|]. naive_solver lia.
  - pl_step. pl_step. destruct (Z.eqb_spec (s (IXGBE_VLVF (Z.of_nat (S n)))) w) as [E|E].
    { pl_step. split; [done|]. split; [done|]. split; [lia|done]. }
    apply IH; [lia| |].
    + destruct (Z.eqb_spec e 0), (Z.eqb_spec (s (IXGBE_VLVF (Z.of_nat (S n)))) 0); simpl;
        [right; split; [lia|done]|naive_solver lia|naive_solver lia|naive_solver lia].
    + intros k Hk'. destruct (decide (k = Z.of_nat (S n))) as [-> |Hne].
      * split; [done|].
        destruct (Z.eqb_spec e 0), (Z.eqb_spec (s (IXGBE_VLVF (Z.of_nat (S n)))) 0); simpl;
          [lia|done|done|lia].
      * destruct (Hk k) as [H1 H2]; [lia|]. split; [done|].
        destruct (Z.eqb_spec e 0); [|by simpl]. simpl.
        destruct (s (IXGBE_VLVF (Z.of_nat (S n))) =? 0); [lia|]. auto.
Qed.

(** [ixgbe_find_vlvf_slot]: the VLAN's slot, a free one, or no space *)
Lemma find_vlvf_slot_effect h s vlan : vlan_inv s -> 0 <= vlan < 4096 ->
  plain h s (ixgbe_find_vlvf_slot vlan false) (fun r h' s' => h' = h /\ s' = s /\
    (slot_for s vlan r \/ r = IXGBE_ERR_NO_SPACE /\ vlan <> 0 /\
       forall k, 1 <= k < 64 -> s (IXGBE_VLVF k) <> 0 /\ s (IXGBE_VLVF k) <> vlan_word vlan)).
Proof using PlainRegs0.
  intros Hi Hv. unfold ixgbe_find_vlvf_slot. destruct (Z.eqb_spec vlan 0) as [-> |Hne].
  - pl_step. split; [done|]. split; [done|]. left. split; [lia|]. split; [done|].
    destruct (vi_slot s Hi 0) as [E|(v & Hv' & Hz & E)]; [lia| |].
    + right. split; [done|]. intros j Hj Ej.
      destruct (vi_slot s Hi j Hj) as [E'|(v & Hv' & Hz & E')]; rewrite Ej in E'.
      * by apply (vlan_word_nz 0).
      * apply vlan_word_inj in E'; [|lia|done]. subst v. assert (j = 0) by lia. subst j.
        rewrite E in Ej. by apply (vlan_word_nz 0).
    + left. assert (v = 0) by lia. by subst v.
  - pl_step. rewrite Z.lor_comm. fold (vlan_word vlan).
    change (Z.to_nat (IXGBE_VLVF_ENTRIES - 1)) with 63%nat.
    eapply pl_mono; [apply vlvf_search_effect; [lia|by left|lia]|].
    intros [e|k] h' s' (-> & -> & Hr); pl_step; (split; [done|]); (split; [done|]).
    + destruct Hr as [Hn He]. destruct (Z.eqb_spec e 0) as [-> |Hne']; cbn [negb].
      * right. split; [done|]. split; [done|]. intros k Hk. destruct (Hn k Hk). auto.
      * left. destruct He as [|[He Ee]]; [done|]. split; [lia|]. split; [lia|]. right.
        split; [done|]. intros j Hj Ej. destruct (decide (j = 0)) as [-> |].
        -- destruct (vi_slot s Hi 0) as [E'|(v & Hv' & Hz & E')]; [lia|..]; rewrite Ej in E'.
           ++ by apply (vlan_word_nz vlan).
           ++ apply vlan_word_inj in E'; [|done|done]. lia.
        -- destruct (Hn j); [lia|done].
    + left. destruct Hr as [Hk E]. split; [lia|]. split; [lia|]. by left.
Qed.

Lemma no_pools_words s k vind : 0 <= vind < 64 ->
  no_pools s k <-> s (breg k vind) = 0 /\ s (oreg k vind) = 0.
Proof using.
  intros Hv. unfold no_pools, breg, oreg.
  assert (vind / 32 = 0 \/ vind / 32 = 1) as [-> | ->] by zlia.
  - by rewrite Z.add_0_r, Z.sub_0_r.
  - replace (k * 2 + 1 - 1) with (k * 2) by lia. naive_solver.
Qed.

(** registers outside slot [k] and the VFTA *)
Definition slot_frame (s s' : Z -> Z) (k vind : Z) : Prop :=
  (forall j, 0 <= j < 64 -> j <> k -> s' (IXGBE_VLVF j) = s (IXGBE_VLVF j)) /\
  (forall j, 0 <= j < 128 -> j / 2 <> k -> s' (IXGBE_VLVFB j) = s (IXGBE_VLVFB j)) /\
  s' (oreg k vind) = s (oreg k vind).

Definition vfta_is (s s' : Z -> Z) (vlan : Z) (on : bool) : Prop :=
  s' (IXGBE_VFTA (vlan / 32)) = vfta_new (s (IXGBE_VFTA (vlan / 32))) (vlan mod 32) on /\
  (forall j, 0 <= j < 128 -> j <> vlan / 32 -> s' (IXGBE_VFTA j) = s (IXGBE_VFTA j)).

Lemma result_on s s' k vlan vind : 0 <= vlan < 4096 -> 0 <= vind < 64 ->
  in_range 32 (s (breg k vind)) ->
  s' (IXGBE_VLVF k) = vlan_word vlan ->
  s' (breg k vind) = u32 (Z.lor (s (breg k vind)) (bit32 (vind mod 32))) ->
  slot_frame s s' k vind -> vfta_is s s' vlan true ->
  slot_result s s' k vlan vind true true.
Proof using.
  intros Hv Hp Hr E1 E2 (F1 & F2 & F3) [V1 V2].
  assert (Hb : forall p, 0 <= p < 64 ->
    pool_bit s' k p = if decide (p = vind) then true else pool_bit s k p).
  { intros p Hp'. apply pool_bit_new; [done|done| |done].
    intros i Hi. fold (breg k vind). rewrite E2, add_pool_bit by (done || zlia). done. }
  split; try done.
  - split; [done|]. intros Hn. pose proof (no_pools_bit s' k vind Hp Hn) as E.
    rewrite Hb, decide_True in E by done. done.
  - intros v Hv'. by apply vlan_bit_new.
Qed.

Lemma result_off s s' k vlan vind (used : bool) : 0 <= vlan < 4096 -> 0 <= vind < 64 ->
  in_range 32 (s (breg k vind)) ->
  s' (IXGBE_VLVF k) = (if used then vlan_word vlan else 0) ->
  s' (breg k vind) = Z.lxor (Z.lor (s (breg k vind)) (bit32 (vind mod 32))) (bit32 (vind mod 32)) ->
  (used = false <-> no_pools s' k) ->
  slot_frame s s' k vind ->
  (vfta_is s s' vlan false /\ used = false \/
   used = true /\ vlan_bit s vlan = true /\ forall j, 0 <= j < 128 -> s' (IXGBE_VFTA j) = s (IXGBE_VFTA j)) ->
  slot_result s s' k vlan vind false used.
Proof using.
  intros Hv Hp Hr E1 E2 Hu (F1 & F2 & F3) HV.
  split; try done.
  - intros p Hp'. apply pool_bit_new; [done|done| |done].
    intros i Hi. fold (breg k vind). rewrite E2, del_pool_bit by (done || zlia). done.
  - intros v Hv'. destruct HV as [[[V1 V2] ->]|(-> & Hb & V)]; [by apply vlan_bit_new|].
    case_decide; [subst v|]; (unfold vlan_bit in *; rewrite V by zlia; done).
Qed.

Lemma vlan_word_u32 v : 0 <= v < 4096 -> u32 (vlan_word v) = vlan_word v.
Proof using. intros. apply trunc_small. rewrite vlan_word_add by done. unfold in_range. lia. Qed.

Ltac vlan_frames :=
  unfold slot_frame, vfta_is, breg, oreg in *;
  repeat match goal with
  | |- _ /\ _ => split
  | |- forall _, _ => intros ?
  end; vlan_regs_simpl.

(** what [ixgbe_set_vfta_generic] does once the slot is known *)
Definition set_result (s : Z -> Z) (vlan vind : Z) (on : bool) (s' : Z -> Z) : Prop :=
  exists k used, slot_for s vlan k /\ slot_result s s' k vlan vind on used.

Definition no_slot (s : Z -> Z) (vlan : Z) : Prop := vlan <> 0 /\
  forall k, 1 <= k < 64 -> s (IXGBE_VLVF k) <> 0 /\ s (IXGBE_VLVF k) <> vlan_word vlan.

Lemma set_vfta_effect h s vlan vind on : vlan_inv s ->
  has (s IXGBE_VT_CTL) IXGBE_VT_CTL_VT_ENABLE = true -> 0 <= vlan < 4096 -> 0 <= vind < 64 ->
  plain h s (ixgbe_set_vfta_generic vlan vind on false) (fun ret h' s' => h' = h /\
    s' IXGBE_VT_CTL = s IXGBE_VT_CTL /\
    (ret = IXGBE_SUCCESS /\ set_result s vlan vind on s' \/
     ret = IXGBE_ERR_NO_SPACE /\ s' = s /\ no_slot s vlan)).
Proof using PlainRegs0.
  intros Hi Hvt Hv Hp. unfold ixgbe_set_vfta_generic, ixgbe_set_vlvf_generic.
  destruct (Z.ltb_spec 4095 vlan); [lia|]. destruct (Z.ltb_spec 63 vind); [lia|]. cbn [orb].
  pl_step. pl_step. cbv zeta.
  fold (vfta_delta_of (s (IXGBE_VFTA (vlan / 32))) (vlan mod 32) on).
  fold (vfta_new (s (IXGBE_VFTA (vlan / 32))) (vlan mod 32) on).
  set (x := s (IXGBE_VFTA (vlan / 32))) in *.
  set (delta := vfta_delta_of x (vlan mod 32) on).
  assert (Hx' : u32 (vfta_new x (vlan mod 32) on) = vfta_new x (vlan mod 32) on)
    by (by apply trunc_small, vfta_new_range).
  pl_step. pl_step. pl_step. rewrite Hvt. cbn [negb]. pl_step.
  eapply pl_mono; [by apply find_vlvf_slot_effect|].
  intros k h' s' (-> & -> & [Hk|(-> & Hn)]).
  2: { cbn. pl_step. cbn. pl_step. split; [done|]. split; [done|]. by right. }
  pose proof Hk as (Hk64 & Hk0 & Hks).
  destruct (Z.ltb_spec k 0); [lia|]. pl_step. pl_step. fold (breg k vind) in *.
  set (b := s (breg k vind)) in *.
  assert (Hdel : in_range 32 (Z.lxor (Z.lor b (bit32 (vind mod 32))) (bit32 (vind mod 32))))
    by (apply del_pool_range; [done|zlia]).
  destruct on.
  - pl_step. pl_step. pl_step. pl_step. pl_step. cbn [negb Z.eqb andb]. fold (vlan_word vlan).
    rewrite Z.eqb_refl. cbn [negb andb].
    pl_step. destruct (Z.eqb_spec delta 0) as [Ed|Ed]; cbn [negb]; repeat pl_step;
      (split; [done|]); (split; [by vlan_regs_simpl|]); left; (split; [done|]); exists k, true; (split; [done|]);
      apply result_on; try done; vlan_frames; rewrite ?vlan_word_u32 by done; try done.
    by rewrite vfta_new_same.
  - pl_step. eapply pl_mono with (Q := fun e h' s' => h' = h /\ s' = s /\
      (e = true <-> Z.lxor (Z.lor b (bit32 (vind mod 32))) (bit32 (vind mod 32)) = 0 /\
                    s (oreg k vind) = 0)).
    { destruct (Z.eqb_spec (Z.lxor (Z.lor b (bit32 (vind mod 32))) (bit32 (vind mod 32))) 0) as [E0|E0];
        repeat pl_step; (split; [done|]); (split; [done|]).
      - fold (oreg k vind). rewrite Z.eqb_eq. naive_solver.
      - naive_solver. }
    intros e h' s' (-> & -> & He). destruct e.
    + destruct (proj1 He eq_refl) as [Eb Eo].
      assert (Ez : (IXGBE_SUCCESS =? IXGBE_SUCCESS) = true) by done.
      destruct (delta =? 0) eqn:Ed.
      * pl_run. cbn [negb]. pl_run. rewrite Ez. cbn [negb andb]. pl_run. rewrite Ed. cbn [negb]. pl_run. split; [done|]. split; [by vlan_regs_simpl|]. left. split; [done|].
        exists k, false. split; [done|]. apply Z.eqb_eq in Ed.
        apply result_off; try done; [vlan_frames; done|by vlan_frames| | |left; split; [|done]].
        -- rewrite (no_pools_words _ k vind) by exact Hp. split; [intros _|done]. by vlan_frames.
        -- by vlan_frames.
        -- vlan_frames; [by rewrite vfta_new_same|done].
      * pl_run. cbn [negb]. pl_run. rewrite Ez. cbn [negb andb]. pl_run. rewrite Ed. cbn [negb]. pl_run. split; [done|]. split; [by vlan_regs_simpl|]. left. split; [done|].
        exists k, false. split; [done|].
        apply result_off; try done; [vlan_frames; done|by vlan_frames| | |left; split; [|done]].
        -- rewrite (no_pools_words _ k vind) by exact Hp. split; [intros _|done]. by vlan_frames.
        -- by vlan_frames.
        -- by vlan_frames.
    + assert (Hnz : ~ (Z.lxor (Z.lor b (bit32 (vind mod 32))) (bit32 (vind mod 32)) = 0 /\
                    s (oreg k vind) = 0)) by (intros Hz; by apply He in Hz).
      pl_run. rewrite Z.eqb_refl. cbn [negb andb]. pl_run. cbn. pl_run.
      split; [done|]. split; [by vlan_regs_simpl|]. left. split; [done|]. exists k, true. split; [done|].
      apply result_off; try done.
      * vlan_frames. fold (vlan_word vlan). by apply vlan_word_u32.
      * vlan_frames. by apply trunc_small.
      * split; [done|]. rewrite (no_pools_words _ k vind) by exact Hp. intros [E1 E2].
        destruct Hnz. unfold breg, oreg in *. split.
        -- revert E1. vlan_regs_simpl. by rewrite trunc_small.
        -- revert E2. by vlan_regs_simpl.
      * vlan_frames; done.
      * right. split; [done|]. split; [|intros j Hj; by vlan_regs_simpl].
        apply (vi_vfta s Hi vlan Hv). exists k. split; [done|].
        destruct Hks as [E|[E _]]; [done|]. destruct Hnz.
        apply (vi_pools s Hi k Hk64), (no_pools_words _ k vind Hp) in E as [E1 E2].
        split; [|done]. subst b. rewrite E1. rewrite Z.lor_0_l. apply Z.lxor_nilpotent.
Qed.

(** ** Refinement *)

(** what one call promises about the relation *)
Definition vlan_step (s : Z -> Z) (vlan vind : Z) (on : bool) (ret : Z) (s' : Z -> Z) : Prop :=
  vlan_inv s' /\ s' IXGBE_VT_CTL = s IXGBE_VT_CTL /\
  (ret = IXGBE_SUCCESS \/ ret = IXGBE_ERR_NO_SPACE /\ no_slot s vlan) /\
  forall v p, 0 <= v < 4096 -> 0 <= p < 64 ->
    member s' v p <->
    if decide (ret = IXGBE_SUCCESS /\ v = vlan /\ p = vind) then on = true else member s v p.

Lemma vlan_step_intro s s' vlan vind on ret : vlan_inv s -> 0 <= vlan < 4096 ->
  s' IXGBE_VT_CTL = s IXGBE_VT_CTL ->
  (ret = IXGBE_SUCCESS /\ set_result s vlan vind on s' \/
   ret = IXGBE_ERR_NO_SPACE /\ s' = s /\ no_slot s vlan) ->
  vlan_step s vlan vind on ret s'.
Proof using.
  intros Hi Hv Hc [[-> (k & used & Hk & Hr)]|(-> & -> & Hn)].
  - split; [by eapply slot_result_inv|]. split; [done|]. split; [by left|]. intros v p Hv' Hp.
    rewrite (slot_result_member s s' k vlan vind on used v p) by done.
    destruct (decide (v = vlan /\ p = vind)), (decide (IXGBE_SUCCESS = IXGBE_SUCCESS /\ v = vlan /\ p = vind));
      naive_solver.
  - split; [done|]. split; [done|]. split; [by right|]. intros v p _ _.
    by rewrite decide_False by (intros [? _]; done).
Qed.

(** With virtualization enabled and the representation invariant holding,
    [ixgbe_set_vfta_generic] adds or removes exactly the pair (VLAN, pool) from
    the filter's relation, keeps the invariant (VFTA bit set exactly for VLANs
    with a slot, one slot per VLAN, no slot without pools), and fails only with
    [IXGBE_ERR_NO_SPACE], when every slot holds another VLAN, changing nothing. *)
Theorem set_vfta_refines h s vlan vind on : vlan_inv s ->
  has (s IXGBE_VT_CTL) IXGBE_VT_CTL_VT_ENABLE = true -> 0 <= vlan < 4096 -> 0 <= vind < 64 ->
  plain h s (ixgbe_set_vfta_generic vlan vind on false) (fun ret h' s' =>
    h' = h /\ vlan_step s vlan vind on ret s').
Proof using PlainRegs0.
  intros Hi Hvt Hv Hp. eapply pl_mono; [by apply set_vfta_effect|].
  intros ret h' s' (-> & Hc & Hr). split; [done|]. by apply vlan_step_intro.
Qed.

(** *** The abstract filter

    A set of (VLAN, pool) pairs in which at most 63 VLANs other than VLAN 0 have
    a pool: the filter has 64 slots, the first of them for VLAN 0. *)
Definition vlans (R : gset (Z * Z)) : gset Z := set_map fst R.
Definition vlan_full (R : gset (Z * Z)) (vlan : Z) : bool :=
  bool_decide (vlan <> 0 /\ vlan ∉ vlans R /\ (63 <= size (vlans R ∖ {[0%Z]}))%nat).
Definition vlan_op (R : gset (Z * Z)) (o : Z * Z * bool) : Z * gset (Z * Z) :=
  let '(vlan, vind, on) := o in
  if vlan_full R vlan then (IXGBE_ERR_NO_SPACE, R)
  else (IXGBE_SUCCESS, if on then {[(vlan, vind)]} ∪ R else R ∖ {[(vlan, vind)]}).
Fixpoint vlan_ops (R : gset (Z * Z)) (ops : list (Z * Z * bool)) : list Z * gset (Z * Z) :=
  match ops with
  | [] => ([], R)
  | o :: ops' => let '(ret, R1) := vlan_op R o in
                 let '(rets, R2) := vlan_ops R1 ops' in (ret :: rets, R2)
  end.

(** the slots hold the set: a pool receives a VLAN when a slot of the VLAN names
    the pool (that VFTA lets the VLAN pass is part of [vlan_inv]) *)
Record vlan_repr (s : Z -> Z) (R : gset (Z * Z)) : Prop := {
  vr_range v p : (v, p) ∈ R -> 0 <= v < 4096 /\ 0 <= p < 64;
  vr_member v p : 0 <= v < 4096 -> 0 <= p < 64 -> member s v p <-> (v, p) ∈ R;
}.

Lemma elem_of_vlans R v : v ∈ vlans R <-> exists p, (v, p) ∈ R.
Proof using. unfold vlans. rewrite elem_of_map. split; [intros ([] & -> & ?); eauto|intros [p ?]; by exists (v, p)]. Qed.

Lemma some_pool s k : in_range 32 (s (IXGBE_VLVFB (k * 2))) -> in_range 32 (s (IXGBE_VLVFB (k * 2 + 1))) ->
  ~ no_pools s k -> exists p, 0 <= p < 64 /\ pool_bit s k p = true.
Proof using.
  intros H1 H2 Hn. assert (exists j i, 0 <= j < 2 /\ 0 <= i < 32 /\ Z.testbit (s (IXGBE_VLVFB (k * 2 + j))) i = true) as (j & i & Hj & Hi & Hb).
  { assert (Hnz : forall x, in_range 32 x -> x <> 0 -> exists i, 0 <= i < 32 /\ Z.testbit x i = true).
    { intros x Hx Hx0. exists (Z.log2 x). unfold in_range in Hx. split; [|apply Z.bit_log2; lia].
      split; [apply Z.log2_nonneg|]. apply Z.log2_lt_pow2; lia. }
    destruct (decide (s (IXGBE_VLVFB (k * 2)) = 0)) as [E|E].
    - destruct (Hnz _ H2) as (i & Hi & Hb); [by intros E2; destruct Hn|]. exists 1, i. split; [lia|done].
    - destruct (Hnz _ H1 E) as (i & Hi & Hb). exists 0, i. rewrite Z.add_0_r. split; [lia|done]. }
  exists (32 * j + i). split; [lia|]. unfold pool_bit.
  replace ((32 * j + i) / 32) with j by zlia. by replace ((32 * j + i) mod 32) with i by zlia.
Qed.

Definition regs32 (s : Z -> Z) : Prop := forall r, vlan_regs r -> in_range 32 (s r).

(** VLANs with a pool are those with a slot *)
Lemma vlans_slots s R v : regs32 s -> vlan_inv s -> vlan_repr s R -> 0 <= v < 4096 ->
  v ∈ vlans R <-> exists k, 0 <= k < 64 /\ s (IXGBE_VLVF k) = vlan_word v.
Proof using.
  intros H32 Hi Hr Hv. rewrite elem_of_vlans. split.
  - intros [p Hp]. destruct (vr_range _ _ Hr _ _ Hp) as [_ Hp'].
    apply (vr_member _ _ Hr) in Hp as (k & Hk & E & _); [|done..]. eauto.
  - intros (k & Hk & E). destruct (some_pool s k) as (p & Hp & Hb).
    { apply H32. vlan_side. } { apply H32. vlan_side. }
    { intros Hn. apply (vi_pools s Hi k Hk) in Hn. rewrite Hn in E. symmetry in E. by apply vlan_word_nz in E. }
    exists p. apply (vr_member _ _ Hr); [done|done|]. by exists k.
Qed.

Lemma vlans_range s R v : vlan_repr s R -> v ∈ vlans R -> 0 <= v < 4096.
Proof using. intros Hr [p Hp]%elem_of_vlans. by apply (vr_range _ _ Hr) in Hp as []. Qed.

Lemma size_list_to_set_le (l : list Z) : (size (list_to_set (C := gset Z) l) <= length l)%nat.
Proof using.
  induction l as [|x l IH]; [done|]. rewrite list_to_set_cons, size_union_alt, size_singleton. cbn [length].
  assert (size (list_to_set (C := gset Z) l ∖ {[x]}) <= size (list_to_set (C := gset Z) l))%nat
    by (apply subseteq_size; set_solver). lia.
Qed.

(** every slot but the first taken by another VLAN: the set has 63 VLANs *)
Lemma no_slot_full s R vlan : regs32 s -> vlan_inv s -> vlan_repr s R -> 0 <= vlan < 4096 ->
  no_slot s vlan -> vlan_full R vlan = true.
Proof using.
  intros H32 Hi Hr Hv [Hz Hn]. apply bool_decide_eq_true_2. split; [done|].
  set (vl := fun k => s (IXGBE_VLVF k) - 0x80000000).
  assert (Hvl : forall k, 1 <= k < 64 -> 0 < vl k < 4096 /\ s (IXGBE_VLVF k) = vlan_word (vl k)).
  { intros k Hk. destruct (vi_slot s Hi k) as [E|(v & Hv' & H0 & E)]; [lia|by destruct (Hn k Hk)|].
    subst vl. cbv beta. rewrite E, vlan_word_add by done. replace (_ + v - _) with v by lia.
    split; [|by rewrite vlan_word_add]. enough (v <> 0) by lia. naive_solver lia. }
  split.
  - intros (k & Hk & E)%(vlans_slots s); try done. destruct (decide (k = 0)) as [->|Hk0].
    + destruct (vi_slot s Hi 0) as [E'|(v & Hv' & H0 & E')]; [lia|..]; rewrite E in E'.
      * by apply vlan_word_nz in E'.
      * apply vlan_word_inj in E'; [|done|done]. naive_solver.
    + by destruct (Hn k ltac:(lia)).
  - assert (Hnd : NoDup (map vl (seqZ 1 63))).
    { apply (NoDup_fmap_2_strong vl); [|apply NoDup_seqZ]. intros x y Hx%elem_of_seqZ Hy%elem_of_seqZ E.
      destruct (Hvl x) as [H1 Ex]; [lia|]. destruct (Hvl y) as [_ Ey]; [lia|].
      apply (vi_unique s Hi x y (vl x)); [lia|lia|lia|done|]. rewrite Ey. by rewrite E. }
    replace 63%nat with (size (list_to_set (C := gset Z) (map vl (seqZ 1 63)))).
    + apply subseteq_size. intros v Hv'. apply elem_of_list_to_set, list_elem_of_fmap in Hv' as (k & -> & Hk%elem_of_seqZ).
      destruct (Hvl k) as [H1 E]; [lia|]. apply elem_of_difference. split; [|apply not_elem_of_singleton; lia].
      apply (vlans_slots s); [done|done|done|lia|]. exists k. split; [lia|done].
    + rewrite size_list_to_set by done. by rewrite length_map, length_seqZ.
Qed.

(** a slot for the VLAN: it has one, or the set has at most 62 VLANs *)
Lemma slot_for_not_full s R vlan k : regs32 s -> vlan_inv s -> vlan_repr s R -> 0 <= vlan < 4096 ->
  slot_for s vlan k -> vlan_full R vlan = false.
Proof using.
  intros H32 Hi Hr Hv (Hk & Hk0 & Hw). apply bool_decide_eq_false_2. intros (Hz & Hn & Hs).
  assert (s (IXGBE_VLVF k) = 0) as E0.
  { destruct Hw as [E|[E _]]; [|done]. destruct Hn. apply (vlans_slots s); [done..|eauto]. }
  set (vl := fun k => s (IXGBE_VLVF k) - 0x80000000).
  assert (vlans R ∖ {[0]} ⊆ list_to_set (map vl (filter (fun j => j <> k) (seqZ 1 63)))) as Hsub.
  { intros v [Hv' Hv0%not_elem_of_singleton]%elem_of_difference. pose proof (vlans_range _ _ _ Hr Hv') as Hvr.
    apply (vlans_slots s) in Hv' as (j & Hj & E); [|done..]. apply elem_of_list_to_set, list_elem_of_fmap.
    exists j. subst vl. cbv beta. rewrite E, vlan_word_add by done. split; [lia|]. apply list_elem_of_filter.
    split; [intros ->; rewrite E0 in E; symmetry in E; by apply vlan_word_nz in E|].
    apply elem_of_seqZ. enough (j <> 0) by lia. intros ->.
    destruct (vi_slot s Hi 0) as [E'|(u & Hu & H0 & E')]; [lia|..]; rewrite E in E'.
    - by apply vlan_word_nz in E'.
    - apply vlan_word_inj in E'; [|done|done]. naive_solver. }
  apply subseteq_size in Hsub.
  assert (length (filter (fun j => j <> k) (seqZ 1 63)) < length (seqZ 1 63))%nat as Hlt.
  { apply length_filter_lt with k; [apply elem_of_seqZ; naive_solver lia|naive_solver]. }
  rewrite length_seqZ in Hlt. pose proof (size_list_to_set_le (map vl (filter (fun j => j <> k) (seqZ 1 63)))) as Hle.
  rewrite length_map in Hle. lia.
Qed.

(** one call of [ixgbe_set_vfta_generic] does what one operation on the set does *)
Lemma vlan_op_refines s s' R vlan vind on ret : regs32 s -> vlan_inv s -> vlan_repr s R ->
  0 <= vlan < 4096 -> 0 <= vind < 64 ->
  (ret = IXGBE_SUCCESS /\ set_result s vlan vind on s' \/
   ret = IXGBE_ERR_NO_SPACE /\ s' = s /\ no_slot s vlan) ->
  ret = (vlan_op R (vlan, vind, on)).1 /\ vlan_repr s' (vlan_op R (vlan, vind, on)).2.
Proof using.
  intros H32 Hi Hr Hv Hp [[-> (k & used & Hk & Hres)]|(-> & -> & Hn)]; unfold vlan_op.
  - rewrite (slot_for_not_full s R vlan k) by done. split; [done|]. split.
    + intros v p H. destruct on; simpl in H.
      * apply elem_of_union in H as [[= -> ->]%elem_of_singleton|H]; [done|by apply (vr_range _ _ Hr)].
      * apply elem_of_difference in H as [H _]. by apply (vr_range _ _ Hr).
    + intros v p Hv' Hp'. rewrite (slot_result_member s s' k vlan vind on used v p) by done.
      destruct (decide (v = vlan /\ p = vind)) as [[-> ->]|Hne].
      * destruct on; set_solver.
      * rewrite (vr_member _ _ Hr) by done. assert ((v, p) <> (vlan, vind)) by naive_solver. destruct on; set_solver.
  - by rewrite (no_slot_full s R vlan).
Qed.

(** *** Histories *)
Fixpoint set_vftas (ops : list (Z * Z * bool)) : M (list Z) :=
  match ops with
  | [] => mret []
  | (vlan, vind, on) :: ops' =>
      ret ← ixgbe_set_vfta_generic vlan vind on false;
      rets ← set_vftas ops'; mret (ret :: rets)
  end.

Definition op_ok (o : Z * Z * bool) : Prop := 0 <= o.1.1 < 4096 /\ 0 <= o.1.2 < 64.

Lemma pl_in_range {A} h s (m : M A) Q : (regs32 s -> plain h s m Q) -> plain h s m Q.
Proof using.
  intros Hm w Hw. apply Hm; [|done]. intros r Hr. rewrite <- (ho_regs _ _ _ Hw r Hr). apply peek_range.
Qed.

Lemma set_vftas_effect h s R ops : vlan_inv s -> vlan_repr s R ->
  has (s IXGBE_VT_CTL) IXGBE_VT_CTL_VT_ENABLE = true -> Forall op_ok ops ->
  plain h s (set_vftas ops) (fun rets h' s' => regs32 s' /\ vlan_inv s' /\
    rets = (vlan_ops R ops).1 /\ vlan_repr s' (vlan_ops R ops).2).
Proof using PlainRegs0.
  intros Hi Hr Hvt Ho. revert h s R Hi Hr Hvt. induction Ho as [|[[vlan vind] on] ops [Hv Hp] _ IH];
    intros h s R Hi Hr Hvt; cbn [set_vftas]; apply pl_in_range; intros H32.
  { by pl_step. }
  pl_step. eapply pl_mono; [by apply set_vfta_effect|]. intros ret h' s1 (-> & Hc & Hres).
  destruct (vlan_op_refines s s1 R vlan vind on ret) as [-> Hr1]; try done.
  apply vlan_step_intro in Hres as (Hi1 & Hvt1 & _); [|done..].
  pl_step. eapply pl_mono; [apply (IH h s1 (vlan_op R (vlan, vind, on)).2); [done|done|by rewrite Hvt1]|].
  intros rets h' s' (H32' & Hi' & -> & Hr'). pl_step. split; [done|]. split; [done|]. cbn [vlan_ops].
  destruct (vlan_op R (vlan, vind, on)) as [ret1 R1]. simpl in *. by destruct (vlan_ops R1 ops).
Qed.

(** clearing the tables establishes the invariant with the empty relation *)
Lemma clear_vfta_effect h s : vft_size (mac h) = 128 ->
  plain h s ixgbe_clear_vfta_generic (fun ret h' s' => ret = IXGBE_SUCCESS /\ h' = h /\
    s' IXGBE_VT_CTL = s IXGBE_VT_CTL /\
    (forall j, 0 <= j < 128 -> s' (IXGBE_VFTA j) = 0) /\
    (forall j, 0 <= j < 64 -> s' (IXGBE_VLVF j) = 0 /\ no_pools s' j)).
Proof using PlainRegs0.
  intros Hs. unfold ixgbe_clear_vfta_generic. pl_step. pl_step. rewrite Hs. pl_step.
  eapply pl_mono.
  { apply pl_for_loop with (Inv := fun k h' s' => h' = h /\ s' IXGBE_VT_CTL = s IXGBE_VT_CTL /\
      forall j, 0 <= j < k -> s' (IXGBE_VFTA j) = 0); [split; [done|split; [done|lia]]|].
    intros k h' s' Hk (-> & Hc & Hi). change (Z.of_nat _) with 128 in Hk. pl_step. split; [done|].
    split; [by vlan_regs_simpl|].
    intros j Hj. destruct (decide (j = k)) as [-> |]; [by rewrite set_reg_eq|].
    vlan_regs_simpl. apply Hi. lia. }
  intros _ h' s1 (-> & Hc & Hi). change (0 + Z.of_nat _) with 128 in Hi. pl_step.
  eapply pl_mono.
  { apply pl_for_loop with (Inv := fun k h' s' => h' = h /\ s' IXGBE_VT_CTL = s IXGBE_VT_CTL /\
      (forall j, 0 <= j < 128 -> s' (IXGBE_VFTA j) = 0) /\
      forall j, 0 <= j < k -> s' (IXGBE_VLVF j) = 0 /\ no_pools s' j).
    { split; [done|]. split; [done|]. split; [done|lia]. }
    intros k h' s' Hk (-> & Hc' & Hi' & Hj'). change (Z.of_nat _) with 64 in Hk. pl_run.
    split; [done|]. split; [by vlan_regs_simpl|]. split.
    - intros j Hj. vlan_regs_simpl. by apply Hi'.
    - intros j Hj. unfold no_pools. destruct (decide (j = k)) as [-> |].
      + by vlan_regs_simpl.
      + vlan_regs_simpl. apply Hj'. lia. }
  intros _ h' s2 (-> & Hc2 & Hi2 & Hj2). pl_step. done.
Qed.

Lemma cleared_inv s : (forall j, 0 <= j < 128 -> s (IXGBE_VFTA j) = 0) ->
  (forall j, 0 <= j < 64 -> s (IXGBE_VLVF j) = 0 /\ no_pools s j) -> vlan_inv s.
Proof using.
  intros Hf Hs. assert (Hn : forall k v, 0 <= k < 64 -> 0 <= v < 4096 -> s (IXGBE_VLVF k) <> vlan_word v).
  { intros k v Hk Hv E. destruct (Hs k Hk) as [E' _]. rewrite E' in E.
    symmetry in E. by apply vlan_word_nz in E. }
  split.
  - intros k Hk. left. by apply Hs.
  - intros k j v Hk _ Hv E. by destruct (Hn k v Hk Hv).
  - intros k Hk. destruct (Hs k Hk). done.
  - intros v Hv. unfold vlan_bit. rewrite Hf, Z.bits_0 by zlia. split; [done|].
    intros (k & Hk & E). by destruct (Hn k v Hk Hv).
Qed.

(** C1: The VLAN filter with virtualization on is a set with 64 places.  On a
    device whose VLVF, VLVFB, VFTA and VT_CTL registers are plain storage, with
    VT_CTL.VT_ENABLE set, from [ixgbe_clear_vfta_generic] on and through any
    history of [ixgbe_set_vfta_generic] calls with valid VLANs and pools (and
    [vlvf_bypass] false), each call returns what the abstract set returns:
    IXGBE_ERR_NO_SPACE exactly when the VLAN is not VLAN 0, has no pool yet and
    63 other VLANs have one, and success otherwise.  At the end a pool is on the
    list of a VLAN's slot exactly for the pairs in the set, and the VLAN's VFTA
    bit is set exactly for the VLANs with a pool. *)
Theorem vlan_history_refines h s ops : vft_size (mac h) = 128 ->
  has (s IXGBE_VT_CTL) IXGBE_VT_CTL_VT_ENABLE = true -> Forall op_ok ops ->
  plain h s (ixgbe_clear_vfta_generic ;; set_vftas ops) (fun rets h' s' =>
    rets = (vlan_ops ∅ ops).1 /\
    (forall v, 0 <= v < 4096 -> vlan_bit s' v = true <-> v ∈ vlans (vlan_ops ∅ ops).2) /\
    forall v p, 0 <= v < 4096 -> 0 <= p < 64 -> member s' v p <-> (v, p) ∈ (vlan_ops ∅ ops).2).
Proof using PlainRegs0.
  intros Hs Hvt Ho. pl_step. eapply pl_mono; [by apply clear_vfta_effect|].
  intros _ h' s1 (_ & -> & Hc & Hf & Hk). pose proof (cleared_inv s1 Hf Hk) as Hi.
  assert (vlan_repr s1 ∅) as Hr.
  { split; [by intros|]. intros v p Hv Hp. split; [|by intros ?%elem_of_empty]. intros (k & Hk' & _ & Hb).
    destruct (Hk k Hk') as [_ Hn]. by rewrite (no_pools_bit _ _ _ Hp Hn) in Hb. }
  eapply pl_mono; [apply set_vftas_effect; [done|exact Hr|by rewrite Hc|done]|].
  intros rets h' s' (H32 & Hi' & -> & Hr'). split; [done|]. split; [|by intros; apply (vr_member _ _ Hr')].
  intros v Hv. rewrite (vi_vfta s' Hi') by done. by rewrite (vlans_slots s').
Qed.
End Vlan.

(** ** Witnesses *)
#[local] Existing Instance ram_plain.

(** virtualization on, tables clear *)
Definition vt_on : gmap Z Z := {[IXGBE_VT_CTL := 1]}.

Lemma vt_on_zero r : r <> IXGBE_VT_CTL -> ram_regs vt_on r = 0.
Proof. intros Hr. unfold ram_regs, vt_on. by rewrite lookup_singleton_ne. Qed.

Lemma vt_on_inv : vlan_inv (ram_regs vt_on).
Proof.
  apply cleared_inv.
  - intros j Hj. apply vt_on_zero. vlan_side.
  - intros j Hj. unfold no_pools. rewrite !vt_on_zero by vlan_side. done.
Qed.

Lemma set_vfta_refines_witness :
  wp (ixgbe_set_vfta_generic (D := ram) 100 40 true false)
    (fun ret w' => ret = IXGBE_SUCCESS /\
       member (fun r => peek (P := vlan_regs) (w_dev w') r) 100 40) (wram vt_on).
Proof.
  pose proof (set_vfta_refines (D := ram) hw0 (ram_regs vt_on) 100 40 true vt_on_inv eq_refl
    ltac:(split; [discriminate|reflexivity]) ltac:(split; [discriminate|reflexivity])
    (wram vt_on) (ram_holds _ vt_on eq_refl)) as H.
  eapply wp_mono; [exact H|]. intros ret w' (h' & s' & Hh & _ & _ & _ & Hret & Hm).
  assert (ret = IXGBE_SUCCESS) as ->.
  { destruct Hret as [|[_ [_ Hn]]]; [done|]. destruct (Hn 1 ltac:(lia)) as [H1 _].
    destruct H1. by apply vt_on_zero. }
  split; [done|]. destruct (proj2 (Hm 100 40 ltac:(lia) ltac:(lia)) eq_refl) as (k & Hk & E1 & E2).
  exists k. split; [done|]. unfold pool_bit in *.
  rewrite !(ho_regs _ _ _ Hh) by (clear -Hk; vlan_side). exact (conj E1 E2).
Defined.

Lemma vlan_bit_ext s s' v : (forall r, vlan_regs r -> s r = s' r) -> 0 <= v < 4096 -> vlan_bit s v = vlan_bit s' v.
Proof. intros He Hv. unfold vlan_bit. rewrite He; [done|]. clear He. vlan_side. Qed.
Lemma member_ext s s' v p : (forall r, vlan_regs r -> s r = s' r) -> 0 <= p < 64 -> member s v p <-> member s' v p.
Proof.
  intros He Hp. unfold member. apply exist_proper. intros k. split; intros (Hk & E1 & E2); (split; [done|]); revert E1 E2;
    unfold pool_bit; rewrite !He by (clear He; vlan_side); done.
Qed.

(** the second pool of VLAN 100 stays, VLAN 7 loses its only one *)
Definition some_ops : list (Z * Z * bool) :=
  [(100, 40, true); (7, 1, true); (100, 3, true); (7, 1, false); (100, 40, false)].

Lemma some_set : vlan_ops ∅ some_ops = ([0; 0; 0; 0; 0], {[(100, 3)]}).
Proof. vm_compute. reflexivity. Qed.

Lemma vlan_history_refines_witness :
  wp (ixgbe_clear_vfta_generic (D := ram) ;; set_vftas some_ops) (fun rets w' =>
    rets = [0; 0; 0; 0; 0] /\
    let s := peek (P := vlan_regs) (w_dev w') in
    vlan_bit s 100 = true /\ member s 100 3 /\ ~ member s 100 40 /\ vlan_bit s 7 <> true) (wram vt_on).
Proof.
  pose proof (vlan_history_refines (D := ram) hw0 (ram_regs vt_on) some_ops eq_refl eq_refl
    ltac:(repeat constructor; discriminate) (wram vt_on) (ram_holds _ vt_on eq_refl)) as H.
  eapply wp_mono; [exact H|]. intros rets w' (h' & s' & Hh & -> & Hb & Hm).
  split; [by rewrite some_set|]. cbv zeta.
  pose proof (ho_regs _ _ _ Hh) as He.
  assert (H100 : 0 <= 100 < 4096) by (clear; lia). assert (H7 : 0 <= 7 < 4096) by (clear; lia).
  assert (H3 : 0 <= 3 < 64) by (clear; lia). assert (H40 : 0 <= 40 < 64) by (clear; lia).
  rewrite (vlan_bit_ext _ _ 100 He H100), (vlan_bit_ext _ _ 7 He H7), (member_ext _ _ 100 3 He H3),
    (member_ext _ _ 100 40 He H40), (Hb 100 H100), (Hb 7 H7), (Hm 100 3 H100 H3), (Hm 100 40 H100 H40).
  clear. rewrite some_set. cbn [snd]. rewrite !elem_of_vlans. set_solver.
Defined.
