(* ===== verification/Semaphore.v ===== *)
(** * Hardware semaphores (ixgbe_common.c)

    The SMBI/SWESMBI bits of SWSM serialise access to GSSR, whose bits are the
    resource locks shared by the drivers of the ports and the firmware. *)
From S2P Require Import Prelude Regs Types Osdep.

Section Semaphore.
Context `{D : Mmio}.

Definition ixgbe_release_eeprom_semaphore : M unit :=
  swsm ← IXGBE_READ_REG IXGBE_SWSM;
  let swsm := Z.land swsm (bnot 32 (Z.lor IXGBE_SWSM_SWESMBI IXGBE_SWSM_SMBI)) in
  IXGBE_WRITE_REG IXGBE_SWSM swsm ;;
  IXGBE_WRITE_FLUSH.

(** first loop of [ixgbe_get_eeprom_semaphore]; [inr] is [break] *)
Definition get_smbi : M (unit + unit) :=
  for_break 2000 0 tt (fun _ _ =>
    h ← get_hw;
    swsm ← IXGBE_READ_REG (IXGBE_SWSM_BY_MAC h);
    if negb (has swsm IXGBE_SWSM_SMBI) then mret (inr tt)
    else usec_delay 50 ;; mret (inl tt)).

(** its second loop *)
Definition get_swesmbi : M (unit + unit) :=
  for_break 2000 0 tt (fun _ _ =>
    h ← get_hw;
    swsm ← IXGBE_READ_REG (IXGBE_SWSM_BY_MAC h);
    IXGBE_WRITE_REG (IXGBE_SWSM_BY_MAC h) (Z.lor swsm IXGBE_SWSM_SWESMBI) ;;
    swsm ← IXGBE_READ_REG (IXGBE_SWSM_BY_MAC h);
    if has swsm IXGBE_SWSM_SWESMBI then mret (inr tt)
    else usec_delay 50 ;; mret (inl tt)).

Definition ixgbe_get_eeprom_semaphore : M Z :=
  r ← get_smbi;
  status ← (match r with
            | inr _ => mret IXGBE_SUCCESS
            | inl _ =>
                ixgbe_release_eeprom_semaphore ;;
                usec_delay 50 ;;
                h ← get_hw;
                swsm ← IXGBE_READ_REG (IXGBE_SWSM_BY_MAC h);
                mret (if negb (has swsm IXGBE_SWSM_SMBI) then IXGBE_SUCCESS else IXGBE_ERR_EEPROM)
            end);
  if status =? IXGBE_SUCCESS then
    r ← get_swesmbi;
    match r with
    | inr _ => mret status
    | inl _ => ixgbe_release_eeprom_semaphore ;; mret IXGBE_ERR_EEPROM
    end
  else mret status.

Definition ixgbe_release_swfw_sync (mask : Z) : M unit :=
  ixgbe_get_eeprom_semaphore ;;
  gssr ← IXGBE_READ_REG IXGBE_GSSR;
  IXGBE_WRITE_REG IXGBE_GSSR (Z.land gssr (bnot 32 mask)) ;;
  ixgbe_release_eeprom_semaphore.

(** the accumulator of the loop is [gssr], [inr] the returned status *)
Definition ixgbe_acquire_swfw_sync (mask : Z) : M Z :=
  let swmask := mask in
  let fwmask := u32 (Z.shiftl mask 5) in
  r ← for_break 200 0 0 (fun _ gssr =>
        s ← ixgbe_get_eeprom_semaphore;
        if negb (s =? 0) then mret (inr IXGBE_ERR_SWFW_SYNC)
        else
          gssr ← IXGBE_READ_REG IXGBE_GSSR;
          if negb (has gssr (Z.lor fwmask swmask)) then
            IXGBE_WRITE_REG IXGBE_GSSR (Z.lor gssr swmask) ;;
            ixgbe_release_eeprom_semaphore ;;
            mret (inr IXGBE_SUCCESS)
          else
            ixgbe_release_eeprom_semaphore ;;
            msec_delay 5 ;;
            mret (inl gssr));
  match r with
  | inr ret => mret ret
  | inl gssr =>
      (if has gssr (Z.lor fwmask swmask)
       then ixgbe_release_swfw_sync (Z.land gssr (Z.lor fwmask swmask)) else mret tt) ;;
      msec_delay 5 ;;
      mret IXGBE_ERR_SWFW_SYNC
  end.
End Semaphore.
