(* ===== verification/SemProps.v ===== *)
(** * Properties of the hardware semaphores

    The access protocol of [ixgbe_acquire_swfw_sync] on an arbitrary device, and
    the interface [SwFwSync] that the users of the resource locks rely on. *)
From S2P Require Import Prelude Regs Types Osdep Trace Semaphore.

(** the part of [struct ixgbe_hw] that selects the registers *)
Definition sem_static (h : ixgbe_hw) : ixgbe_mvals_table := mvals h.

Lemma sem_static_remove h : sem_static (ixgbe_remove_adapter h) = sem_static h.
Proof.
  unfold ixgbe_remove_adapter. destruct (negb (hw_addr h)); [done|].
  by destruct (__IXGBE_SERVICE_INITED _).
Qed.

Definition swsm_of (c : ixgbe_mvals_table) : Z :=
  match c with ixgbe_mvals_X550EM_a => IXGBE_SWSM_X550EM_a | _ => IXGBE_SWSM end.

(** accesses of the semaphore code itself *)
Definition sem_access (c : ixgbe_mvals_table) (a : access) : Prop :=
  match a with
  | Rd r _ => r = IXGBE_SWSM \/ r = swsm_of c \/ r = IXGBE_STATUS
  | Wr r _ => r = IXGBE_SWSM \/ r = swsm_of c
  | Dly _ => True
  end.

(** releasing: both bits written as zero, then flushed *)
Definition sem_released (l : list access) : Prop := exists x y,
  l = [Rd IXGBE_SWSM x;
       Wr IXGBE_SWSM (u32 (Z.land x (bnot 32 (Z.lor IXGBE_SWSM_SWESMBI IXGBE_SWSM_SMBI))));
       Rd IXGBE_STATUS y].

(** taking: SMBI read as zero, then SWESMBI requested until it reads back *)
Definition sem_taken (c : ixgbe_mvals_table) (l : list access) : Prop := exists a v b v',
  l = a ++ [Rd (swsm_of c) v] ++ b ++ [Rd (swsm_of c) v'] /\
  has v IXGBE_SWSM_SMBI = false /\ has v' IXGBE_SWSM_SWESMBI = true /\
  Forall (fun x => match x with Wr _ y => has y IXGBE_SWSM_SWESMBI = true | _ => True end) b.

(** not taken: SMBI is somebody else's, or everything was released again *)
Definition sem_failed (c : ixgbe_mvals_table) (l : list access) : Prop :=
  (exists a v, l = a ++ [Rd (swsm_of c) v] /\ has v IXGBE_SWSM_SMBI = true) \/
  (exists a b, l = a ++ b /\ sem_released b).

Lemma has_lor_r x m : m <> 0 -> has (Z.lor x m) m = true.
Proof.
  intros Hm. unfold has. apply negb_true_iff, Z.eqb_neq. intros E.
  apply Hm. rewrite Z.land_comm, Z.land_lor_distr_r, Z.land_diag in E.
  by apply Z.lor_eq_0_iff in E as [_ ?].
Qed.

(** [Forall] over an explicit list *)
Ltac fa := repeat first [apply List.Forall_nil | apply List.Forall_cons]; simpl; auto.

Section SemTrace.
Context `{D : Mmio}.

Lemma sem_release_tr c : traces sem_static c ixgbe_release_eeprom_semaphore
  (fun _ l => sem_released l).
Proof using.
  unfold ixgbe_release_eeprom_semaphore, IXGBE_WRITE_FLUSH.
  apply tr_bind_read; [exact sem_static_remove|intros x Hx]. apply tr_bind_write.
  apply tr_bind_read; [exact sem_static_remove|intros y Hy]. apply tr_ret. by exists x, y.
Qed.

Lemma sem_released_access c l : sem_released l -> Forall (sem_access c) l /\ waits l = 0.
Proof using. intros (x & y & ->). split; [fa|done]. Qed.

Lemma swsm_by_mac h c : sem_static h = c -> IXGBE_SWSM_BY_MAC h = swsm_of c.
Proof using. by intros <-. Qed.

Lemma get_smbi_tr c : traces sem_static c get_smbi (fun r l =>
  Forall (sem_access c) l /\ waits l <= 100000 /\
  match r with
  | inr _ => exists a v, l = a ++ [Rd (swsm_of c) v] /\ has v IXGBE_SWSM_SMBI = false
  | inl _ => True
  end).
Proof using.
  unfold get_smbi. apply tr_for_break with
    (I := fun k _ l => Forall (sem_access c) l /\ waits l <= 50 * k).
  - split; [done|]. simpl. lia.
  - intros k _ l Hk [Hf Hw]. change (Z.of_nat _) with 2000 in Hk.
    apply tr_bind_get_hw. intros h Hh. rewrite (swsm_by_mac h c Hh).
    apply tr_bind_read; [exact sem_static_remove|intros v Hv].
    assert (Hf' : Forall (sem_access c) (l ++ [Rd (swsm_of c) v])).
    { apply Forall_app. split; [done|]. apply Forall_singleton. simpl. auto. }
    apply tr_if; intros Hb.
    + apply tr_ret. split; [done|]. rewrite waits_app. simpl. split; [lia|].
      apply negb_true_iff in Hb. eauto.
    + apply tr_bind_delay, tr_ret. rewrite waits_app. simpl. split; [|lia].
      change (l ++ [Rd (swsm_of c) v; Dly 50]) with (l ++ [Rd (swsm_of c) v] ++ [Dly 50]).
      rewrite app_assoc. apply Forall_app. split; [done|]. by apply Forall_singleton.
  - intros _ l [Hf Hw]. split; [done|]. change (0 + Z.of_nat 2000) with 2000 in Hw. lia.
Qed.

Lemma get_swesmbi_tr c : traces sem_static c get_swesmbi (fun r l =>
  Forall (sem_access c) l /\ waits l <= 100000 /\
  Forall (fun x => match x with Wr _ y => has y IXGBE_SWSM_SWESMBI = true | _ => True end) l /\
  match r with
  | inr _ => exists a v, l = a ++ [Rd (swsm_of c) v] /\ has v IXGBE_SWSM_SWESMBI = true
  | inl _ => True
  end).
Proof using.
  unfold get_swesmbi. apply tr_for_break with
    (I := fun k _ l => Forall (sem_access c) l /\ waits l <= 50 * k /\
       Forall (fun x => match x with Wr _ y => has y IXGBE_SWSM_SWESMBI = true | _ => True end) l).
  - split; [done|]. simpl. split; [lia|done].
  - intros k _ l Hk (Hf & Hw & Hs). change (Z.of_nat _) with 2000 in Hk.
    apply tr_bind_get_hw. intros h Hh. rewrite (swsm_by_mac h c Hh).
    apply tr_bind_read; [exact sem_static_remove|intros v Hv]. apply tr_bind_write.
    apply tr_bind_read; [exact sem_static_remove|intros v' Hv'].
    assert (Hset : has (u32 (Z.lor v IXGBE_SWSM_SWESMBI)) IXGBE_SWSM_SWESMBI = true).
    { rewrite trunc_small by (apply lor_range; done). by apply has_lor_r. }
    apply tr_if; intros Hb.
    + apply tr_ret. rewrite waits_app. simpl.
      split; [apply Forall_app; split; [done|fa]|]. split; [lia|].
      split; [apply Forall_app; split; [done|fa]|].
      eexists (l ++ [_; _]), v'. rewrite <- app_assoc. done.
    + apply tr_bind_delay, tr_ret. rewrite waits_app. simpl.
      split; [apply Forall_app; split; [done|fa]|]. split; [lia|].
      apply Forall_app. split; [done|fa].
  - intros _ l (Hf & Hw & Hs). change (0 + Z.of_nat 2000) with 2000 in Hw. auto with lia.
Qed.

(** [ixgbe_get_eeprom_semaphore] on any device *)
Lemma get_sem_tr c : traces sem_static c ixgbe_get_eeprom_semaphore (fun ret l =>
  Forall (sem_access c) l /\ waits l <= 200050 /\
  (ret = IXGBE_SUCCESS /\ sem_taken c l \/ ret = IXGBE_ERR_EEPROM /\ sem_failed c l)).
Proof using.
  unfold ixgbe_get_eeprom_semaphore. eapply tr_bind; [apply get_smbi_tr|].
  intros r l1 (Hf1 & Hw1 & Hr). eapply tr_bind with (T1 := fun s l =>
    Forall (sem_access c) l /\ waits l <= 50 /\
    (s = IXGBE_SUCCESS /\ (exists a v, l1 ++ l = a ++ [Rd (swsm_of c) v] /\ has v IXGBE_SWSM_SMBI = false) \/
     s = IXGBE_ERR_EEPROM /\ exists a v, l1 ++ l = a ++ [Rd (swsm_of c) v] /\ has v IXGBE_SWSM_SMBI = true)).
  { destruct r as [u|u].
    - eapply tr_bind; [apply sem_release_tr|]. intros [] l2 Hrel.
      apply tr_bind_delay, tr_bind_get_hw. intros h Hh. rewrite (swsm_by_mac h c Hh).
      apply tr_bind_read; [exact sem_static_remove|intros v Hv]. apply tr_ret.
      destruct (sem_released_access c _ Hrel) as [Hf2 Hw2]. rewrite waits_app, Hw2. simpl.
      split; [apply Forall_app; split; [done|fa]|]. split; [lia|].
      destruct (has v IXGBE_SWSM_SMBI) eqn:E; [right|left]; (split; [done|]);
        eexists (l1 ++ l2 ++ [_]), v; rewrite <- !app_assoc; done.
    - apply tr_ret. split; [done|]. split; [simpl; lia|]. left. split; [done|].
      by rewrite app_nil_r. }
  intros s l2 (Hf2 & Hw2 & [[-> Hs]|[-> Hs]]).
  - cbn [Z.eqb IXGBE_SUCCESS]. eapply tr_bind; [apply get_swesmbi_tr|].
    intros r2 l3 (Hf3 & Hw3 & Hset & Hr3). destruct Hs as (a & v & E & Hv).
    destruct r2 as [u|u].
    + eapply tr_bind; [apply sem_release_tr|]. intros [] l4 Hrel. apply tr_ret.
      destruct (sem_released_access c _ Hrel) as [Hf4 Hw4].
      rewrite app_nil_r, !waits_app, Hw4. split; [rewrite !Forall_app; auto|]. split; [lia|].
      right. split; [done|]. right. exists (l1 ++ l2 ++ l3), l4. rewrite <- !app_assoc. auto.
    + apply tr_ret. rewrite app_nil_r, !waits_app. split; [rewrite !Forall_app; auto|].
      split; [lia|]. left. split; [done|]. destruct Hr3 as (b & v' & -> & Hv').
      exists a, v, b, v'. split; [by rewrite app_assoc, E, <- !app_assoc|].
      split; [done|]. split; [done|]. by apply Forall_app in Hset as [? _].
  - cbn. apply tr_ret. rewrite app_nil_r, waits_app. split; [by apply Forall_app|].
    split; [lia|]. right. split; [done|]. by left.
Qed.

(** no access writes GSSR *)
Definition no_gssr_write (a : access) : Prop :=
  match a with Wr r _ => r <> IXGBE_GSSR | _ => True end.

Lemma sem_access_no_gssr c l : Forall (sem_access c) l -> Forall no_gssr_write l.
Proof using.
  intros H. eapply Forall_impl; [|exact H]. intros [] Ha; simpl in *; [done| |done].
  destruct c; destruct Ha as [-> | ->]; done.
Qed.

(** GSSR is changed by one read and one write of what was read *)
Definition gssr_update (f : Z -> Z) (l : list access) : Prop := exists pre g post,
  l = pre ++ [Rd IXGBE_GSSR g; Wr IXGBE_GSSR (u32 (f g))] ++ post /\ in_range 32 g /\
  Forall no_gssr_write pre /\ Forall no_gssr_write post.

Lemma release_swfw_tr c mask : traces sem_static c (ixgbe_release_swfw_sync mask)
  (fun _ l => waits l <= 200050 /\ gssr_update (fun g => Z.land g (bnot 32 mask)) l).
Proof using.
  unfold ixgbe_release_swfw_sync. eapply tr_bind; [apply get_sem_tr|].
  intros s l1 (Hf & Hw & _). apply tr_bind_read; [exact sem_static_remove|intros g Hg].
  apply tr_bind_write. eapply tr_mono; [apply sem_release_tr|]. intros [] l2 Hrel.
  destruct (sem_released_access c _ Hrel) as [Hf2 Hw2].
  rewrite waits_app. simpl. split; [lia|]. exists l1, g, l2. split; [done|]. split; [done|].
  split; by eapply sem_access_no_gssr.
Qed.

(** the lock was taken: GSSR read under the semaphore without a conflicting
    bit, written back with ours, and the semaphore released *)
Definition gssr_taken (c : ixgbe_mvals_table) (mask : Z) (l : list access) : Prop :=
  exists pre s g rel,
    l = pre ++ s ++ [Rd IXGBE_GSSR g; Wr IXGBE_GSSR (u32 (Z.lor g mask))] ++ rel /\
    in_range 32 g /\ sem_taken c s /\ Forall no_gssr_write (pre ++ s) /\ sem_released rel /\
    Z.land g (Z.lor (u32 (Z.shiftl mask 5)) mask) = 0.

(** the lock was not taken: GSSR untouched, or bits only cleared *)
Definition gssr_not_taken (mask : Z) (l : list access) : Prop :=
  Forall no_gssr_write l \/
  exists m, gssr_update (fun g => Z.land g (bnot 32 m)) l /\
            Z.land m (Z.lor (u32 (Z.shiftl mask 5)) mask) = m.

Lemma acquire_swfw_tr c mask :
  traces sem_static c (ixgbe_acquire_swfw_sync mask) (fun ret l =>
    waits l <= 41215050 /\
    (ret = IXGBE_SUCCESS /\ gssr_taken c mask l \/
     ret = IXGBE_ERR_SWFW_SYNC /\ gssr_not_taken mask l)).
Proof using.
  unfold ixgbe_acquire_swfw_sync.
  set (both := Z.lor (u32 (Z.shiftl mask 5)) mask).
  eapply tr_bind with (T1 := fun r l => waits l <= 41010000 /\ match r with
    | inl gssr => Forall no_gssr_write l
    | inr ret => ret = IXGBE_SUCCESS /\ gssr_taken c mask l \/
                 ret = IXGBE_ERR_SWFW_SYNC /\ Forall no_gssr_write l
    end).
  { apply tr_for_break with (I := fun k _ l => waits l <= 205050 * k /\ Forall no_gssr_write l).
    - split; [simpl; lia|done].
    - intros k g0 l Hk [Hw Hf]. change (Z.of_nat _) with 200 in Hk.
      eapply tr_bind; [apply get_sem_tr|]. intros s l1 (Hf1 & Hw1 & Hs).
      pose proof (sem_access_no_gssr _ _ Hf1) as Hn1.
      apply tr_if; intros Es.
      + apply tr_ret. rewrite app_nil_r, waits_app. split; [lia|]. right. split; [done|].
        by apply Forall_app.
      + apply negb_false_iff, Z.eqb_eq in Es. destruct Hs as [[_ Ht]|[-> _]]; [|done].
        apply tr_bind_read; [exact sem_static_remove|intros g Hg]. apply tr_if; intros Eb.
        * apply tr_bind_write. eapply tr_bind; [apply sem_release_tr|]. intros [] l2 Hrel.
          apply tr_ret. destruct (sem_released_access c _ Hrel) as [Hf2 Hw2].
          rewrite !waits_app. simpl. rewrite app_nil_r, Hw2. split; [lia|]. left. split; [done|].
          exists l, l1, g, l2. split; [done|]. split; [done|]. split; [done|].
          split; [by apply Forall_app|]. split; [done|].
          apply negb_true_iff in Eb. unfold has in Eb. by apply negb_false_iff, Z.eqb_eq in Eb.
        * eapply tr_bind; [apply sem_release_tr|]. intros [] l2 Hrel.
          apply tr_bind_delay, tr_ret. destruct (sem_released_access c _ Hrel) as [Hf2 Hw2].
          rewrite !waits_app. cbn [waits]. rewrite waits_app. cbn [waits]. rewrite Hw2. split; [lia|].
          apply Forall_app. split; [done|]. apply Forall_app. split; [done|].
          apply List.Forall_cons; [done|]. apply Forall_app.
          split; [by eapply sem_access_no_gssr|fa].
    - intros g l [Hw Hf]. change (0 + Z.of_nat 200) with 200 in Hw. split; [lia|done]. }
  intros [g|ret] l (Hw & Hr).
  - eapply tr_bind with (T1 := fun _ l => waits l <= 200050 /\ (l = [] \/
      gssr_update (fun x => Z.land x (bnot 32 (Z.land g both))) l)).
    { apply tr_if; intros _.
      - eapply tr_mono; [apply release_swfw_tr|]. intros [] l' [? ?]. auto.
      - apply tr_ret. split; [simpl; lia|by left]. }
    intros [] l2 (Hw2 & Hl2). apply tr_bind_delay, tr_ret. rewrite !waits_app. cbn [waits].
    split; [lia|]. right. split; [done|]. destruct Hl2 as [-> |(pre & g' & post & -> & Hg' & Hp & Hq)].
    + left. apply Forall_app. split; [done|]. fa.
    + right. exists (Z.land g both). split.
      * exists (l ++ pre), g', (post ++ [Dly (1000 * 5)]). split; [by rewrite <- !app_assoc|].
        split; [done|]. split; apply Forall_app; (split; [done|]); [done|fa].
      * fold both. by rewrite <- Z.land_assoc, Z.land_diag.
  - apply tr_ret. rewrite app_nil_r. split; [lia|].
    destruct Hr as [?|[? ?]]; [by left|]. right. split; [done|]. by left.
Qed.

(** C7: on any device, [ixgbe_acquire_swfw_sync] waits at most 41.3 s and either
    takes the lock (GSSR is read while the SMBI/SWESMBI semaphore is held,
    neither the software nor the firmware bit is set, exactly our bit is added,
    and the semaphore is released) or reports [IXGBE_ERR_SWFW_SYNC] having set
    no bit of GSSR (at the end of the wait it may clear stale bits of the mask). *)
Theorem swfw_acquire_protocol c mask :
  traces sem_static c (ixgbe_acquire_swfw_sync mask) (fun ret l =>
    waits l <= 41215050 /\
    (ret = IXGBE_SUCCESS /\ gssr_taken c mask l \/
     ret = IXGBE_ERR_SWFW_SYNC /\ gssr_not_taken mask l)).
Proof using. apply acquire_swfw_tr. Qed.
End SemTrace.

(** ** The interface of the resource locks

    The users of a lock know it only through this class: [sf_run] follows the
    accesses of a driver and tells whether it holds the lock [mask]. *)
Definition touches (r : Z) (a : access) : Prop :=
  match a with Rd r' _ | Wr r' _ => r' = r | Dly _ => False end.

Class SwFwSync `{D : Mmio} (mask : Z) := {
  sf_acquire : Z -> M Z;
  sf_release : Z -> M unit;
  sf_ghost : Type;
  sf_step : access -> sf_ghost -> sf_ghost;
  sf_held : sf_ghost -> bool;
  sf_reg : Z;
  sf_reg_other : sf_reg <> IXGBE_EEC /\ sf_reg <> IXGBE_EEC_X550EM_a /\ sf_reg <> IXGBE_STATUS /\
    ~ 0x15800 <= sf_reg < 0x15F10;
  sf_other a g : ~ touches sf_reg a -> sf_held (sf_step a g) = sf_held g;
  sf_acquire_spec c : traces sem_static c (sf_acquire mask) (fun ret l =>
    (ret = IXGBE_SUCCESS \/ ret = IXGBE_ERR_SWFW_SYNC) /\
    forall g, sf_held g = false ->
      sf_held (foldl (fun g a => sf_step a g) g l) = (ret =? IXGBE_SUCCESS));
  sf_release_spec c : traces sem_static c (sf_release mask) (fun _ l =>
    forall g, sf_held (foldl (fun g a => sf_step a g) g l) = false);
}.

(** *** Reasoning with it *)
Section LockRun.
Context `{D : Mmio} {mask : Z} `{!SwFwSync mask}.

Abbreviation lock_run := (foldl (fun g a => sf_step a g)).

(** an access that does not concern the lock *)
Definition lock_neutral (a : access) : Prop := ~ touches sf_reg a.
(** the driver does not hold the lock after [l] if it did not before *)
Definition unlocked (l : list access) : Prop :=
  forall g, sf_held g = false -> sf_held (lock_run g l) = false.
(** it does not hold the lock after [l], whatever the state before *)
Definition unlocks (l : list access) : Prop := forall g, sf_held (lock_run g l) = false.

Lemma neutral_keeps l g : Forall lock_neutral l -> sf_held (lock_run g l) = sf_held g.
Proof using.
  intros H. revert g. induction H as [|a l Ha _ IH]; intros g; simpl; [done|].
  rewrite IH. by apply sf_other.
Qed.
Lemma neutral_unlocked l : Forall lock_neutral l -> unlocked l.
Proof using. intros H g Hg. by rewrite neutral_keeps. Qed.
Lemma unlocked_nil : unlocked [].
Proof using. by intros g Hg. Qed.
Lemma unlocked_app a b : unlocked a -> unlocked b -> unlocked (a ++ b).
Proof using. intros Ha Hb g Hg. rewrite foldl_app. apply Hb. by apply Ha. Qed.
Lemma unlocked_unlocks a b : unlocks b -> unlocked (a ++ b).
Proof using. intros Hb g _. rewrite foldl_app. apply Hb. Qed.
Lemma unlocks_neutral a b : unlocks a -> Forall lock_neutral b -> unlocks (a ++ b).
Proof using. intros Ha Hb g. rewrite foldl_app, neutral_keeps by done. apply Ha. Qed.
Lemma unlocks_app_r a b : unlocks b -> unlocks (a ++ b).
Proof using. intros Hb g. rewrite foldl_app. apply Hb. Qed.
End LockRun.

(** *** GSSR implements it *)
Section Gssr.
Context `{D : Mmio}.

(** the last value read, and whether our bit is set by us *)
Definition gssr_step (mask : Z) (a : access) (g : Z * bool) : Z * bool :=
  match a with
  | Rd r v => if r =? IXGBE_GSSR then (v, snd g) else g
  | Wr r v => if r =? IXGBE_GSSR
              then (fst g, if has v mask then (if has (fst g) mask then snd g else true) else false)
              else g
  | Dly _ => g
  end.

Abbreviation gssr_run mask := (foldl (fun g a => gssr_step mask a g)).

Lemma gssr_run_no_write mask l g : Forall no_gssr_write l -> snd (gssr_run mask g l) = snd g.
Proof using.
  intros H. revert g. induction H as [|a l Ha _ IH]; intros g; simpl; [done|].
  rewrite IH. destruct a; simpl in *; [by destruct (_ =? _)| |done].
  by destruct (Z.eqb_spec r IXGBE_GSSR).
Qed.

Lemma has_land_bnot x m m' : in_range 32 x -> 0 <= m' -> has x m' = false ->
  has (u32 (Z.land x (bnot 32 m))) m' = false.
Proof using.
  intros Hx Hm H. unfold has in *. apply negb_false_iff, Z.eqb_eq in H.
  apply negb_false_iff, Z.eqb_eq. rewrite trunc_small
    by (apply land_range; [done|done|by apply bnot_range]).
  rewrite <- Z.land_assoc, (Z.land_comm (bnot 32 m)), Z.land_assoc, H. apply Z.land_0_l.
Qed.

Lemma has_land_self x m : 0 <= m < 2 ^ 32 -> in_range 32 x ->
  has (u32 (Z.land x (bnot 32 m))) m = false.
Proof using.
  intros Hm Hx. unfold has. apply negb_false_iff, Z.eqb_eq. apply Z.bits_inj'. intros i Hi.
  autorewrite with zbits. destruct (Z.ltb_spec i 32); simpl.
  - by destruct (Z.testbit x i), (Z.testbit m i).
  - done.
Qed.

Lemma land_lor_0 g a b : Z.land g (Z.lor a b) = 0 -> Z.land g b = 0.
Proof using. rewrite Z.land_lor_distr_r. by intros [_ ?]%Z.lor_eq_0_iff. Qed.

Lemma gssr_run_taken c mask l g : 0 < mask < 2 ^ 32 -> gssr_taken c mask l -> snd g = false ->
  snd (gssr_run mask g l) = true.
Proof using.
  intros Hm (pre & s & x & rel & -> & Hx & _ & Hn & Hrel & E%land_lor_0) Hg.
  rewrite app_assoc, foldl_app, foldl_app. rewrite (gssr_run_no_write mask rel).
  2: { destruct (sem_released_access c _ Hrel). by eapply sem_access_no_gssr. }
  simpl. rewrite trunc_small by (apply lor_range; [done|done|unfold in_range; lia]).
  rewrite has_lor_r by lia. unfold has. by rewrite E.
Qed.

Lemma gssr_run_not_taken mask l g : 0 < mask < 2 ^ 32 -> gssr_not_taken mask l -> snd g = false ->
  snd (gssr_run mask g l) = false.
Proof using.
  intros Hm [Hn|(m & (pre & x & post & -> & Hx & Hp & Hq) & _)] Hg.
  - by rewrite gssr_run_no_write.
  - rewrite !foldl_app, (gssr_run_no_write mask post) by done. simpl.
    rewrite (gssr_run_no_write mask pre), Hg by done.
    destruct (has x mask) eqn:E; [by destruct (has (u32 _) mask)|]. by rewrite has_land_bnot by (done || lia).
Qed.

Lemma gssr_run_released mask l g : 0 < mask < 2 ^ 32 ->
  gssr_update (fun x => Z.land x (bnot 32 mask)) l -> snd (gssr_run mask g l) = false.
Proof using.
  intros Hm (pre & x & post & -> & Hx & Hp & Hq).
  rewrite !foldl_app, (gssr_run_no_write mask post) by done. simpl.
  by rewrite has_land_self by (done || lia).
Qed.

(** the GSSR locks satisfy the interface, on every device and for every mask *)
#[export] Instance swfw_gssr (mask : Z) (Hm : 0 < mask < 2 ^ 32) : SwFwSync mask.
Proof using.
  refine {| sf_acquire := ixgbe_acquire_swfw_sync; sf_release := ixgbe_release_swfw_sync;
            sf_step := gssr_step mask; sf_held := snd; sf_reg := IXGBE_GSSR |}.
  - unfold IXGBE_GSSR. split; [done|]. split; [done|]. split; [done|lia].
  - intros [r v|r v|us] g Ht; simpl in *; [|..]; try done; by destruct (Z.eqb_spec r IXGBE_GSSR).
  - intros c. eapply tr_mono; [apply acquire_swfw_tr|].
    intros ret l (_ & [[-> Hl]|[-> Hl]]); (split; [auto|]); intros g Hg.
    + by eapply gssr_run_taken.
    + by apply gssr_run_not_taken.
  - intros c. eapply tr_mono; [apply release_swfw_tr|]. intros [] l (_ & Hl) g.
    by apply gssr_run_released.
Defined.
End Gssr.
