(* ===== verification/Eeprom.v ===== *)
(** * EEPROM access (ixgbe_common.c)

    The SPI part behind the EEC register (bit-bang), the EERD/EEWR registers,
    and the checksum.  The functions the code reaches through [hw->eeprom.ops]
    and [hw->mac.ops] are variables of the sections below. *)
From S2P Require Import Prelude Regs Types Osdep.

Section Params.
Context `{D : Mmio}.

Definition mod_eeprom (f : ixgbe_eeprom_info -> ixgbe_eeprom_info) : M unit :=
  upd_hw (fun h => upd_eeprom (f (eeprom h)) h).

Definition ixgbe_init_eeprom_params_generic : M Z :=
  h ← get_hw;
  (if bool_decide (eeprom_type (eeprom h) = ixgbe_eeprom_uninitialized) then
     mod_eeprom (upd_eeprom_type ixgbe_eeprom_none) ;;
     mod_eeprom (upd_semaphore_delay 10) ;;
     mod_eeprom (upd_word_page_size 0) ;;
     eec ← IXGBE_READ_REG (IXGBE_EEC_BY_MAC h);
     (if has eec IXGBE_EEC_PRES then
        mod_eeprom (upd_eeprom_type ixgbe_eeprom_spi) ;;
        let eeprom_size := u16 (Z.shiftr (Z.land eec IXGBE_EEC_SIZE) IXGBE_EEC_SIZE_SHIFT) in
        mod_eeprom (upd_word_size (u16 (bit (eeprom_size + IXGBE_EEPROM_WORD_SIZE_SHIFT))))
      else mret tt) ;;
     mod_eeprom (upd_address_bits (if has eec IXGBE_EEC_ADDR_SIZE then 16 else 8))
   else mret tt) ;;
  mret IXGBE_SUCCESS.
End Params.

(** ** The SPI wires *)
Section Spi.
Context `{D : Mmio}.

Definition READ_EEC : M Z := h ← get_hw; IXGBE_READ_REG (IXGBE_EEC_BY_MAC h).
Definition WRITE_EEC (v : Z) : M unit := h ← get_hw; IXGBE_WRITE_REG (IXGBE_EEC_BY_MAC h) v.

(** both return the new value of [*eec] *)
Definition ixgbe_raise_eeprom_clk (eec : Z) : M Z :=
  let eec := Z.lor eec IXGBE_EEC_SK in
  WRITE_EEC eec ;;
  IXGBE_WRITE_FLUSH ;;
  usec_delay 1 ;;
  mret eec.

Definition ixgbe_lower_eeprom_clk (eec : Z) : M Z :=
  let eec := Z.land eec (bnot 32 IXGBE_EEC_SK) in
  WRITE_EEC eec ;;
  IXGBE_WRITE_FLUSH ;;
  usec_delay 1 ;;
  mret eec.

Definition ixgbe_standby_eeprom : M unit :=
  eec ← READ_EEC;
  let eec := Z.lor eec IXGBE_EEC_CS in
  WRITE_EEC eec ;;
  IXGBE_WRITE_FLUSH ;;
  usec_delay 1 ;;
  let eec := Z.land eec (bnot 32 IXGBE_EEC_CS) in
  WRITE_EEC eec ;;
  IXGBE_WRITE_FLUSH ;;
  usec_delay 1.

(** the loop state is ([eec], [mask]) *)
Definition ixgbe_shift_out_eeprom_bits (data count : Z) : M unit :=
  eec ← READ_EEC;
  r ← for_acc (Z.to_nat count) 0 (eec, u32 (bit (count - 1))) (fun _ '(eec, mask) =>
        let eec := if has data mask then Z.lor eec IXGBE_EEC_DI
                   else Z.land eec (bnot 32 IXGBE_EEC_DI) in
        WRITE_EEC eec ;;
        IXGBE_WRITE_FLUSH ;;
        usec_delay 1 ;;
        eec ← ixgbe_raise_eeprom_clk eec;
        eec ← ixgbe_lower_eeprom_clk eec;
        mret (eec, Z.shiftr mask 1));
  let eec := Z.land (fst r) (bnot 32 IXGBE_EEC_DI) in
  WRITE_EEC eec ;;
  IXGBE_WRITE_FLUSH.

(** the loop state is ([eec], [data]) *)
Definition ixgbe_shift_in_eeprom_bits (count : Z) : M Z :=
  eec ← READ_EEC;
  let eec := Z.land eec (bnot 32 (Z.lor IXGBE_EEC_DO IXGBE_EEC_DI)) in
  r ← for_acc (Z.to_nat count) 0 (eec, 0) (fun _ '(eec, data) =>
        let data := u16 (Z.shiftl data 1) in
        ixgbe_raise_eeprom_clk eec ;;
        eec ← READ_EEC;
        let eec := Z.land eec (bnot 32 IXGBE_EEC_DI) in
        let data := if has eec IXGBE_EEC_DO then Z.lor data 1 else data in
        eec ← ixgbe_lower_eeprom_clk eec;
        mret (eec, data));
  mret (snd r).

(** polls for 5 ms in steps of 5 us; [inr] is [break] *)
Definition ixgbe_ready_eeprom : M Z :=
  r ← for_break (Z.to_nat (IXGBE_EEPROM_MAX_RETRY_SPI / 5)) 0 tt (fun _ _ =>
        ixgbe_shift_out_eeprom_bits IXGBE_EEPROM_RDSR_OPCODE_SPI IXGBE_EEPROM_OPCODE_BITS ;;
        x ← ixgbe_shift_in_eeprom_bits 8;
        let spi_stat_reg := u8 x in
        if negb (has spi_stat_reg IXGBE_EEPROM_STATUS_RDY_SPI) then mret (inr tt)
        else
          usec_delay 5 ;;
          ixgbe_standby_eeprom ;;
          mret (inl tt));
  mret (match r with inr _ => IXGBE_SUCCESS | inl _ => IXGBE_ERR_EEPROM end).
End Spi.

(** ** Bit-bang transfers *)
Section BitBang.
Context `{D : Mmio}.
(** [hw->mac.ops.acquire_swfw_sync], [hw->mac.ops.release_swfw_sync] and
    [hw->eeprom.ops.init_params] *)
Context (acquire_swfw_sync : Z -> M Z) (release_swfw_sync : Z -> M unit) (init_params : M Z).

Definition ixgbe_acquire_eeprom : M Z :=
  s ← acquire_swfw_sync IXGBE_GSSR_EEP_SM;
  if negb (s =? IXGBE_SUCCESS) then mret IXGBE_ERR_SWFW_SYNC
  else
    eec ← READ_EEC;
    WRITE_EEC (Z.lor eec IXGBE_EEC_REQ) ;;
    r ← for_break (Z.to_nat IXGBE_EEPROM_GRANT_ATTEMPTS) 0 0 (fun _ _ =>
          eec ← READ_EEC;
          if has eec IXGBE_EEC_GNT then mret (inr eec)
          else usec_delay 5 ;; mret (inl eec));
    let eec := match r with inl e => e | inr e => e end in
    if negb (has eec IXGBE_EEC_GNT) then
      WRITE_EEC (Z.land eec (bnot 32 IXGBE_EEC_REQ)) ;;
      release_swfw_sync IXGBE_GSSR_EEP_SM ;;
      mret IXGBE_ERR_EEPROM
    else
      WRITE_EEC (Z.land eec (bnot 32 (Z.lor IXGBE_EEC_CS IXGBE_EEC_SK))) ;;
      IXGBE_WRITE_FLUSH ;;
      usec_delay 1 ;;
      mret IXGBE_SUCCESS.

Definition ixgbe_release_eeprom : M unit :=
  eec ← READ_EEC;
  let eec := Z.lor eec IXGBE_EEC_CS in
  let eec := Z.land eec (bnot 32 IXGBE_EEC_SK) in
  WRITE_EEC eec ;;
  IXGBE_WRITE_FLUSH ;;
  usec_delay 1 ;;
  WRITE_EEC (Z.land eec (bnot 32 IXGBE_EEC_REQ)) ;;
  release_swfw_sync IXGBE_GSSR_EEP_SM ;;
  h ← get_hw;
  msec_delay (semaphore_delay (eeprom h)).

(** the common prologue of the two transfers *)
Definition start_eeprom : M Z :=
  status ← ixgbe_acquire_eeprom;
  if status =? IXGBE_SUCCESS then
    r ← ixgbe_ready_eeprom;
    if negb (r =? IXGBE_SUCCESS) then ixgbe_release_eeprom ;; mret IXGBE_ERR_EEPROM
    else mret status
  else mret status.

(** [(word >> 8) | (word << 8)] *)
Definition swap16 (word : Z) : Z := u16 (Z.lor (Z.shiftr word 8) (Z.shiftl word 8)).

(** the 8th address bit embedded in the opcode *)
Definition a8_opcode (h : ixgbe_hw) (opcode addr : Z) : Z :=
  if (address_bits (eeprom h) =? 8) && (128 <=? addr)
  then Z.lor opcode IXGBE_EEPROM_A8_OPCODE_SPI else opcode.

(** the [do ... while (++i < words)] burst; returns [i] at its end *)
Fixpoint write_burst (fuel : nat) (offset words : Z) (data : list Z) (page_size i : Z) : M Z :=
  match fuel with
  | O => crash FOutOfFuel
  | S fuel' =>
      word ← nth_c data i;
      ixgbe_shift_out_eeprom_bits (swap16 word) 16 ;;
      if page_size =? 0 then mret i
      else if Z.land (offset + i) (page_size - 1) =? page_size - 1 then mret i
      else
        let i := u16 (i + 1) in
        if i <? words then write_burst fuel' offset words data page_size i else mret i
  end.

(** [for (i = 0; i < words; i++)] around it *)
Fixpoint write_words (fuel : nat) (offset words : Z) (data : list Z) (write_opcode i : Z) : M unit :=
  match fuel with
  | O => crash FOutOfFuel
  | S fuel' =>
      if i <? words then
        ixgbe_standby_eeprom ;;
        ixgbe_shift_out_eeprom_bits IXGBE_EEPROM_WREN_OPCODE_SPI IXGBE_EEPROM_OPCODE_BITS ;;
        ixgbe_standby_eeprom ;;
        h ← get_hw;
        let write_opcode := a8_opcode h write_opcode (offset + i) in
        ixgbe_shift_out_eeprom_bits write_opcode IXGBE_EEPROM_OPCODE_BITS ;;
        ixgbe_shift_out_eeprom_bits (u16 ((offset + i) * 2)) (address_bits (eeprom h)) ;;
        h ← get_hw;
        i ← write_burst (Z.to_nat words) offset words data (word_page_size (eeprom h)) i;
        ixgbe_standby_eeprom ;;
        msec_delay 10 ;;
        write_words fuel' offset words data write_opcode (u16 (i + 1))
      else mret tt
  end.

Definition ixgbe_write_eeprom_buffer_bit_bang (offset words : Z) (data : list Z) : M Z :=
  status ← start_eeprom;
  if status =? IXGBE_SUCCESS then
    write_words (S (Z.to_nat words)) offset words data IXGBE_EEPROM_WRITE_OPCODE_SPI 0 ;;
    ixgbe_release_eeprom ;;
    mret status
  else mret status.

(** returns also the buffer; the loop state is ([read_opcode], [data]) *)
Definition ixgbe_read_eeprom_buffer_bit_bang (offset words : Z) (data : list Z) : M (Z * list Z) :=
  status ← start_eeprom;
  if status =? IXGBE_SUCCESS then
    r ← for_acc (Z.to_nat words) 0 (IXGBE_EEPROM_READ_OPCODE_SPI, data)
          (fun i '(read_opcode, data) =>
             ixgbe_standby_eeprom ;;
             h ← get_hw;
             let read_opcode := a8_opcode h read_opcode (offset + i) in
             ixgbe_shift_out_eeprom_bits read_opcode IXGBE_EEPROM_OPCODE_BITS ;;
             ixgbe_shift_out_eeprom_bits (u16 ((offset + i) * 2)) (address_bits (eeprom h)) ;;
             word_in ← ixgbe_shift_in_eeprom_bits 16;
             data ← upd_c data i (swap16 word_in);
             mret (read_opcode, data));
    ixgbe_release_eeprom ;;
    mret (status, snd r)
  else mret (status, data).

Definition ixgbe_detect_eeprom_page_size_generic (offset : Z) : M Z :=
  let data := seqZ 0 IXGBE_EEPROM_PAGE_SIZE_MAX in
  mod_eeprom (upd_word_page_size IXGBE_EEPROM_PAGE_SIZE_MAX) ;;
  status ← ixgbe_write_eeprom_buffer_bit_bang offset IXGBE_EEPROM_PAGE_SIZE_MAX data;
  mod_eeprom (upd_word_page_size 0) ;;
  if negb (status =? IXGBE_SUCCESS) then mret status
  else
    r ← ixgbe_read_eeprom_buffer_bit_bang offset 1 data;
    let '(status, data) := r in
    if negb (status =? IXGBE_SUCCESS) then mret status
    else
      d0 ← nth_c data 0;
      mod_eeprom (upd_word_page_size (u16 (IXGBE_EEPROM_PAGE_SIZE_MAX - d0))) ;;
      mret status.

(** the size of the next chunk, and the check of the range: [word_size - offset]
    is computed in [u32] *)
Definition chunk_count (words i : Z) : Z :=
  if 0 <? (words - i) / IXGBE_EEPROM_RD_BUFFER_MAX_COUNT
  then IXGBE_EEPROM_RD_BUFFER_MAX_COUNT else words - i.
Definition range_rejected (h : ixgbe_hw) (offset words : Z) : bool :=
  u32 (word_size (eeprom h) - offset) <? words.

(** [for (i = 0; i < words; i += 256)] with [i] a [u16]; [n] bounds the rounds *)
Fixpoint write_chunks (n : nat) (offset words : Z) (data : list Z) (status i : Z) : M Z :=
  match n with
  | O => crash FOutOfFuel
  | S n' =>
      if i <? words then
        let count := chunk_count words i in
        status ← ixgbe_write_eeprom_buffer_bit_bang (u16 (offset + i)) count (drop (Z.to_nat i) data);
        if negb (status =? IXGBE_SUCCESS) then mret status
        else write_chunks n' offset words data status (u16 (i + IXGBE_EEPROM_RD_BUFFER_MAX_COUNT))
      else mret status
  end.

Definition ixgbe_write_eeprom_buffer_bit_bang_generic (offset words : Z) (data : list Z) : M Z :=
  init_params ;;
  if words =? 0 then mret IXGBE_ERR_INVALID_ARGUMENT
  else
    h ← get_hw;
    if range_rejected h offset words then mret IXGBE_ERR_EEPROM
    else
      (if (word_page_size (eeprom h) =? 0) && (IXGBE_EEPROM_PAGE_SIZE_MAX <? words)
       then ixgbe_detect_eeprom_page_size_generic offset ;; mret tt else mret tt) ;;
      write_chunks 257 offset words data IXGBE_SUCCESS 0.

Definition ixgbe_write_eeprom_generic (offset data : Z) : M Z :=
  init_params ;;
  h ← get_hw;
  if word_size (eeprom h) <=? offset then mret IXGBE_ERR_EEPROM
  else ixgbe_write_eeprom_buffer_bit_bang offset 1 [data].

Fixpoint read_chunks (n : nat) (offset words : Z) (data : list Z) (status i : Z) : M (Z * list Z) :=
  match n with
  | O => crash FOutOfFuel
  | S n' =>
      if i <? words then
        let count := chunk_count words i in
        r ← ixgbe_read_eeprom_buffer_bit_bang (u16 (offset + i)) count (drop (Z.to_nat i) data);
        let '(status, d) := r in
        let data := take (Z.to_nat i) data ++ d in
        if negb (status =? IXGBE_SUCCESS) then mret (status, data)
        else read_chunks n' offset words data status (u16 (i + IXGBE_EEPROM_RD_BUFFER_MAX_COUNT))
      else mret (status, data)
  end.

Definition ixgbe_read_eeprom_buffer_bit_bang_generic (offset words : Z) (data : list Z) :
    M (Z * list Z) :=
  init_params ;;
  if words =? 0 then mret (IXGBE_ERR_INVALID_ARGUMENT, data)
  else
    h ← get_hw;
    if range_rejected h offset words then mret (IXGBE_ERR_EEPROM, data)
    else read_chunks 257 offset words data IXGBE_SUCCESS 0.

Definition ixgbe_read_eeprom_bit_bang_generic (offset : Z) (data : list Z) : M (Z * list Z) :=
  init_params ;;
  h ← get_hw;
  if word_size (eeprom h) <=? offset then mret (IXGBE_ERR_EEPROM, data)
  else ixgbe_read_eeprom_buffer_bit_bang offset 1 data.
End BitBang.

(** ** EERD and EEWR *)
Section Eerd.
Context `{D : Mmio} (init_params : M Z).

Definition ixgbe_poll_eerd_eewr_done (ee_reg : Z) : M Z :=
  r ← for_break (Z.to_nat IXGBE_EERD_EEWR_ATTEMPTS) 0 tt (fun _ _ =>
        reg ← (if ee_reg =? IXGBE_NVM_POLL_READ then IXGBE_READ_REG IXGBE_EERD
               else IXGBE_READ_REG IXGBE_EEWR);
        if has reg IXGBE_EEPROM_RW_REG_DONE then mret (inr tt)
        else usec_delay 5 ;; mret (inl tt));
  mret (match r with inr _ => IXGBE_SUCCESS | inl _ => IXGBE_ERR_EEPROM end).

Definition ixgbe_read_eerd_buffer_generic (offset words : Z) (data : list Z) : M (Z * list Z) :=
  init_params ;;
  if words =? 0 then mret (IXGBE_ERR_INVALID_ARGUMENT, data)
  else
    h ← get_hw;
    if word_size (eeprom h) <=? offset then mret (IXGBE_ERR_EEPROM, data)
    else
      r ← for_break (Z.to_nat words) 0 data (fun i data =>
            let eerd := Z.lor (u32 (Z.shiftl (offset + i) IXGBE_EEPROM_RW_ADDR_SHIFT))
                          IXGBE_EEPROM_RW_REG_START in
            IXGBE_WRITE_REG IXGBE_EERD eerd ;;
            status ← ixgbe_poll_eerd_eewr_done IXGBE_NVM_POLL_READ;
            if status =? IXGBE_SUCCESS then
              x ← IXGBE_READ_REG IXGBE_EERD;
              data ← upd_c data i (u16 (Z.shiftr x IXGBE_EEPROM_RW_REG_DATA));
              mret (inl data)
            else mret (inr (status, data)));
      mret (match r with inl data => (IXGBE_SUCCESS, data) | inr r => r end).

Definition ixgbe_read_eerd_generic (offset : Z) (data : list Z) : M (Z * list Z) :=
  ixgbe_read_eerd_buffer_generic offset 1 data.

(** [ixgbe_read_eerd_generic(hw, offset, &word)] on a local variable *)
Definition read_word (offset : Z) : M (Z * Z) :=
  r ← ixgbe_read_eerd_generic offset [0];
  x ← nth_c (snd r) 0;
  mret (fst r, x).

Definition ixgbe_write_eewr_buffer_generic (offset words : Z) (data : list Z) : M Z :=
  init_params ;;
  if words =? 0 then mret IXGBE_ERR_INVALID_ARGUMENT
  else
    h ← get_hw;
    if word_size (eeprom h) <=? offset then mret IXGBE_ERR_EEPROM
    else
      r ← for_break (Z.to_nat words) 0 tt (fun i _ =>
            d ← nth_c data i;
            let eewr := Z.lor (Z.lor (u32 (Z.shiftl (offset + i) IXGBE_EEPROM_RW_ADDR_SHIFT))
                                     (u32 (Z.shiftl d IXGBE_EEPROM_RW_REG_DATA)))
                              IXGBE_EEPROM_RW_REG_START in
            status ← ixgbe_poll_eerd_eewr_done IXGBE_NVM_POLL_WRITE;
            if negb (status =? IXGBE_SUCCESS) then mret (inr status)
            else
              IXGBE_WRITE_REG IXGBE_EEWR eewr ;;
              status ← ixgbe_poll_eerd_eewr_done IXGBE_NVM_POLL_WRITE;
              if negb (status =? IXGBE_SUCCESS) then mret (inr status)
              else mret (inl tt));
      mret (match r with inl _ => IXGBE_SUCCESS | inr s => s end).

Definition ixgbe_write_eewr_generic (offset data : Z) : M Z :=
  ixgbe_write_eewr_buffer_generic offset 1 [data].
End Eerd.

(** ** Checksum *)
Section Checksum.
Context `{D : Mmio}.
(** [hw->eeprom.ops.read] (status and word) and [hw->eeprom.ops.write] *)
Context (read : Z -> M (Z * Z)) (write : Z -> Z -> M Z).

(** [for (j = pointer + 1; j <= pointer + length; j++)], with [j] a [u16] and the
    bound an [int]; [None] is the error return *)
Fixpoint checksum_section (fuel : nat) (last j checksum : Z) : M (option Z) :=
  match fuel with
  | O => crash FOutOfFuel
  | S fuel' =>
      if j <=? last then
        r ← read j;
        if negb (fst r =? 0) then mret None
        else checksum_section fuel' last (u16 (j + 1)) (u16 (checksum + snd r))
      else mret (Some checksum)
  end.

(** the loop over the pointers; [inr] is the error return *)
Definition checksum_pointers (fuel : nat) (checksum : Z) : M (Z + unit) :=
  for_break (Z.to_nat (IXGBE_FW_PTR - IXGBE_PCIE_ANALOG_PTR)) IXGBE_PCIE_ANALOG_PTR checksum
    (fun i checksum =>
       r ← read i;
       if negb (fst r =? 0) then mret (inr tt)
       else
         let pointer := snd r in
         if (pointer =? 0xFFFF) || (pointer =? 0) then mret (inl checksum)
         else
           r ← read pointer;
           if negb (fst r =? 0) then mret (inr tt)
           else
             let length := snd r in
             if (length =? 0xFFFF) || (length =? 0) then mret (inl checksum)
             else
               c ← checksum_section fuel (pointer + length) (u16 (pointer + 1)) checksum;
               mret (match c with Some c => inl c | None => inr tt end)).

(** with [fuel] bounding the sections *)
Definition calc_eeprom_checksum (fuel : nat) : M Z :=
  r ← for_break (Z.to_nat IXGBE_EEPROM_CHECKSUM) 0 0 (fun i checksum =>
        r ← read i;
        if negb (fst r =? 0) then mret (inr tt) else mret (inl (u16 (checksum + snd r))));
  match r with
  | inr _ => mret IXGBE_ERR_EEPROM
  | inl checksum =>
      r ← checksum_pointers fuel checksum;
      mret (match r with
            | inr _ => IXGBE_ERR_EEPROM
            | inl checksum => u16 (IXGBE_EEPROM_SUM - checksum)
            end)
  end.

(** a section has fewer than 65536 words, so this is enough whenever the C loop
    ends at all *)
Definition ixgbe_calc_eeprom_checksum_generic : M Z := calc_eeprom_checksum (Z.to_nat 65536).

(** [hw->eeprom.ops.calc_checksum] *)
Context (calc_checksum : M Z).

(** returns also what [*checksum_val] is set to *)
Definition ixgbe_validate_eeprom_checksum_generic : M (Z * option Z) :=
  r ← read 0;
  if negb (fst r =? 0) then mret (fst r, None)
  else
    status ← calc_checksum;
    if status <? 0 then mret (status, None)
    else
      let checksum := u16 (Z.land status 0xffff) in
      r ← read IXGBE_EEPROM_CHECKSUM;
      if negb (fst r =? 0) then mret (fst r, None)
      else
        mret (if negb (snd r =? checksum) then IXGBE_ERR_EEPROM_CHECKSUM else fst r, Some checksum).

Definition ixgbe_update_eeprom_checksum_generic : M Z :=
  r ← read 0;
  if negb (fst r =? 0) then mret (fst r)
  else
    status ← calc_checksum;
    if status <? 0 then mret status
    else write IXGBE_EEPROM_CHECKSUM (u16 (Z.land status 0xffff)).
End Checksum.
