(* ===== verification/EepromProps.v ===== *)
(** * Properties of the EEPROM code

    The serial protocol on the wires, the resource lock around every transfer
    (against the interface [SwFwSync]), and the checksum (against an interface
    of the word operations, which the EERD/EEWR registers implement). *)
From S2P Require Import Prelude Regs Types Osdep Trace Semaphore SemProps Eeprom.

Definition eec_of (c : ixgbe_mvals_table) : Z :=
  match c with ixgbe_mvals_X550EM_a => IXGBE_EEC_X550EM_a | _ => IXGBE_EEC end.

(** accesses of the serial code *)
Definition eec_access (c : ixgbe_mvals_table) (a : access) : Prop :=
  match a with
  | Rd r _ => r = eec_of c \/ r = IXGBE_STATUS
  | Wr r _ => r = eec_of c
  | Dly _ => True
  end.

(** ** What the wires carry *)

(** The part samples DI at every rising edge of SK: the state is the level of SK
    and what was sampled so far. *)
Definition spi_step (c : ixgbe_mvals_table) (s : bool * list bool) (a : access) : bool * list bool :=
  match a with
  | Wr r v =>
      if r =? eec_of c then
        (has v IXGBE_EEC_SK,
         if has v IXGBE_EEC_SK && negb (fst s) then snd s ++ [has v IXGBE_EEC_DI] else snd s)
      else s
  | _ => s
  end.
Definition spi_run c := foldl (spi_step c).

(** the [n] low bits of [x], most significant first *)
Definition msb_bits (x : Z) (n : nat) : list bool :=
  (fun k => Z.testbit x (Z.of_nat n - 1 - Z.of_nat k)) <$> seq 0 n.

(** the number a list of bits denotes *)
Definition bits_value (l : list bool) : Z := foldl (fun (a : Z) (b : bool) => 2 * a + Z.b2z b) 0 l.

(** the values the driver read from EEC *)
Fixpoint eec_reads (c : ixgbe_mvals_table) (l : list access) : list Z :=
  match l with
  | [] => []
  | Rd r v :: l' => if r =? eec_of c then v :: eec_reads c l' else eec_reads c l'
  | _ :: l' => eec_reads c l'
  end.

Lemma eec_reads_app c a b : eec_reads c (a ++ b) = eec_reads c a ++ eec_reads c b.
Proof. induction a as [|[] a IH]; simpl; rewrite ?IH; [done| |done|done]. by destruct (_ =? _). Qed.

Lemma eec_not_status c : (IXGBE_STATUS =? eec_of c) = false.
Proof. by destruct c. Qed.

Section SpiTrace.
Context `{D : Mmio}.

Lemma eec_by_mac h c : sem_static h = c -> IXGBE_EEC_BY_MAC h = eec_of c.
Proof using. by intros <-. Qed.

Lemma tr_bind_read_eec {B} c (f : Z -> M B) (T : B -> list access -> Prop) :
  (forall v, in_range 32 v -> traces sem_static c (f v) (fun b l => T b (Rd (eec_of c) v :: l))) ->
  traces sem_static c (READ_EEC ≫= f) T.
Proof using.
  intros Hf. apply tr_bind_assoc, tr_bind_get_hw. intros h Hh. rewrite (eec_by_mac h c Hh).
  apply tr_bind_read; [exact sem_static_remove|done].
Qed.

Lemma tr_bind_write_eec {B} c v (f : unit -> M B) (T : B -> list access -> Prop) :
  traces sem_static c (f tt) (fun b l => T b (Wr (eec_of c) (u32 v) :: l)) ->
  traces sem_static c (WRITE_EEC v ≫= f) T.
Proof using.
  intros Hf. apply tr_bind_assoc, tr_bind_get_hw. intros h Hh. rewrite (eec_by_mac h c Hh).
  by apply tr_bind_write.
Qed.

Lemma tr_bind_flush {B} c (f : unit -> M B) (T : B -> list access -> Prop) :
  (forall v, traces sem_static c (f tt) (fun b l => T b (Rd IXGBE_STATUS v :: l))) ->
  traces sem_static c (IXGBE_WRITE_FLUSH ≫= f) T.
Proof using.
  intros Hf. unfold IXGBE_WRITE_FLUSH. apply tr_bind_assoc, tr_bind_read; [exact sem_static_remove|].
  intros v _. apply tr_bind_ret, Hf.
Qed.

Lemma tr_flush c (T : unit -> list access -> Prop) :
  (forall v, T tt [Rd IXGBE_STATUS v]) -> traces sem_static c IXGBE_WRITE_FLUSH T.
Proof using.
  intros HT. unfold IXGBE_WRITE_FLUSH. apply tr_bind_read; [exact sem_static_remove|].
  intros v _. apply tr_ret, HT.
Qed.

(** one half clock: a write, a flush and a delay *)
Definition half (c : ixgbe_mvals_table) (v y : Z) : list access :=
  [Wr (eec_of c) v; Rd IXGBE_STATUS y; Dly 1].

Lemma raise_tr c eec : in_range 32 eec ->
  traces sem_static c (ixgbe_raise_eeprom_clk eec) (fun e l =>
    e = Z.lor eec IXGBE_EEC_SK /\ exists y, l = half c e y).
Proof using.
  intros He. unfold ixgbe_raise_eeprom_clk. apply tr_bind_write_eec, tr_bind_flush. intros y.
  apply tr_bind_delay, tr_ret. split; [done|]. exists y.
  by rewrite trunc_small by (apply lor_range; done).
Qed.

Lemma lower_tr c eec : in_range 32 eec ->
  traces sem_static c (ixgbe_lower_eeprom_clk eec) (fun e l =>
    e = Z.land eec (bnot 32 IXGBE_EEC_SK) /\ exists y, l = half c e y).
Proof using.
  intros He. unfold ixgbe_lower_eeprom_clk. apply tr_bind_write_eec, tr_bind_flush. intros y.
  apply tr_bind_delay, tr_ret. split; [done|]. exists y.
  by rewrite trunc_small by (apply land_range; done).
Qed.

(** the bits of EEC after each kind of update *)
Lemma has_sk v : has v IXGBE_EEC_SK = Z.testbit v 0.
Proof using. exact (has_bit v 0 ltac:(lia)). Qed.
Lemma has_di v : has v IXGBE_EEC_DI = Z.testbit v 2.
Proof using. exact (has_bit v 2 ltac:(lia)). Qed.

Lemma testbit_sk i : 0 <= i -> Z.testbit IXGBE_EEC_SK i = (i =? 0).
Proof using. intros. change IXGBE_EEC_SK with (bit 0). by apply testbit_bit. Qed.
Lemma testbit_di i : 0 <= i -> Z.testbit IXGBE_EEC_DI i = (i =? 2).
Proof using. intros. change IXGBE_EEC_DI with (bit 2). by apply testbit_bit. Qed.

(** EEC with DI set to [b] *)
Definition with_di (eec : Z) (b : bool) : Z :=
  if b then Z.lor eec IXGBE_EEC_DI else Z.land eec (bnot 32 IXGBE_EEC_DI).

Lemma with_di_range eec b : in_range 32 eec -> in_range 32 (with_di eec b).
Proof using. intros. destruct b; [by apply lor_range|by apply land_range]. Qed.

Lemma with_di_bits eec b : 
  has (with_di eec b) IXGBE_EEC_SK = has eec IXGBE_EEC_SK /\ has (with_di eec b) IXGBE_EEC_DI = b.
Proof using.
  rewrite !has_sk, has_di. unfold with_di.
  destruct b; rewrite ?Z.lor_spec, ?Z.land_spec, ?testbit_bnot, !testbit_di by lia; simpl;
    rewrite ?andb_true_r, ?andb_false_r, ?orb_false_r, ?orb_true_r; done.
Qed.

Lemma raised_bits eec : has (Z.lor eec IXGBE_EEC_SK) IXGBE_EEC_SK = true /\
  has (Z.lor eec IXGBE_EEC_SK) IXGBE_EEC_DI = has eec IXGBE_EEC_DI.
Proof using.
  rewrite has_sk, !has_di, !Z.lor_spec, !testbit_sk by lia. simpl.
  by rewrite orb_true_r, orb_false_r.
Qed.

Lemma lowered_bits eec : has (Z.land eec (bnot 32 IXGBE_EEC_SK)) IXGBE_EEC_SK = false.
Proof using.
  rewrite has_sk, Z.land_spec, testbit_bnot, testbit_sk by lia. simpl. apply andb_false_r.
Qed.

(** one bit: DI set, clock raised and lowered *)
Lemma spi_run_bit c out v1 v2 v3 y1 y2 y3 :
  has v1 IXGBE_EEC_SK = false -> has v2 IXGBE_EEC_SK = true -> has v3 IXGBE_EEC_SK = false ->
  spi_run c (false, out) (half c v1 y1 ++ half c v2 y2 ++ half c v3 y3) =
  (false, out ++ [has v2 IXGBE_EEC_DI]).
Proof using.
  intros H1 H2 H3. unfold spi_run, half. cbn. rewrite Z.eqb_refl. by rewrite H1, H2, H3.
Qed.

Lemma spi_run_app c s a b : spi_run c s (a ++ b) = spi_run c (spi_run c s a) b.
Proof using. apply foldl_app. Qed.

Lemma eec_reads_half c v y : eec_reads c (half c v y) = [].
Proof using. unfold half. cbn [eec_reads]. by rewrite eec_not_status. Qed.

Lemma half_access c v y : Forall (eec_access c) (half c v y).
Proof using. unfold half. fa. Qed.

Lemma msb_bits_S x n k : (k < n)%nat ->
  take (S k) (msb_bits x n) = take k (msb_bits x n) ++ [Z.testbit x (Z.of_nat n - 1 - Z.of_nat k)].
Proof using.
  intros Hk. apply take_S_r. unfold msb_bits. rewrite list_lookup_fmap, lookup_seq_lt by done. done.
Qed.

(** [mask] after [k] rounds selects bit [count - 1 - k] *)
Lemma has_mask data count k : 0 < count <= 16 -> 0 <= k < count ->
  has data (Z.shiftr (u32 (bit (count - 1))) k) = Z.testbit data (count - 1 - k).
Proof using.
  intros Hc Hk. rewrite trunc_small by (apply bit_range; lia).
  replace (Z.shiftr (bit (count - 1)) k) with (bit (count - 1 - k)).
  - apply has_bit. lia.
  - unfold bit. rewrite !Z.shiftl_1_l, Z.shiftr_div_pow2 by lia.
    rewrite <- Z.pow_sub_r by lia. f_equal.
Qed.

Lemma shift_out_tr c data count : 0 < count <= 16 ->
  traces sem_static c (ixgbe_shift_out_eeprom_bits data count) (fun _ l =>
    Forall (eec_access c) l /\ exists v0, eec_reads c l = [v0] /\
    (has v0 IXGBE_EEC_SK = false ->
     spi_run c (false, []) l = (false, msb_bits data (Z.to_nat count)))).
Proof using.
  intros Hc. unfold ixgbe_shift_out_eeprom_bits. apply tr_bind_read_eec. intros v0 Hv0.
  eapply tr_bind.
  { apply tr_for_acc with (I := fun k '(eec, mask) l =>
      Forall (eec_access c) l /\ eec_reads c l = [] /\ in_range 32 eec /\
      mask = Z.shiftr (u32 (bit (count - 1))) k /\
      (has v0 IXGBE_EEC_SK = false -> has eec IXGBE_EEC_SK = false /\
       spi_run c (false, []) l = (false, take (Z.to_nat k) (msb_bits data (Z.to_nat count))))).
    - split; [done|]. split; [done|]. split; [done|]. by rewrite Z.shiftr_0_r.
    - intros k [eec mask] l Hk (Hf & Hr & He & -> & Hs).
      rewrite Z2Nat.id in Hk by lia. rewrite has_mask by lia.
      set (b := Z.testbit data (count - 1 - k)). fold (with_di eec b).
      pose proof (with_di_range eec b He) as He1. pose proof (with_di_bits eec b) as [Hb1 Hb2].
      apply tr_bind_write_eec, tr_bind_flush. intros y1. apply tr_bind_delay.
      eapply tr_bind; [by apply raise_tr|]. intros e l1 (-> & y2 & ->).
      eapply tr_bind; [apply lower_tr; by apply lor_range|]. intros e l2 (-> & y3 & ->).
      apply tr_ret. rewrite app_nil_r, trunc_small by done.
      match goal with |- context [l ++ _ :: _ :: _ :: ?t] =>
        change (l ++ _ :: _ :: _ :: t) with (l ++ half c (with_di eec b) y1 ++ t) end.
      split; [rewrite !Forall_app; auto using half_access|]. split.
      { by rewrite !eec_reads_app, Hr, !eec_reads_half. }
      split; [apply land_range; [done|by apply lor_range|done]|].
      split; [by rewrite Z.shiftr_shiftr by lia|].
      intros Hsk. destruct (Hs Hsk) as [Hsk' Hrun]. split; [apply lowered_bits|].
      rewrite spi_run_app, Hrun, spi_run_bit;
        [|by rewrite Hb1|apply raised_bits|apply lowered_bits].
      rewrite (proj2 (raised_bits _)), Hb2. replace (Z.to_nat (k + 1)) with (S (Z.to_nat k)) by lia.
      rewrite msb_bits_S by lia. do 3 f_equal. unfold b. f_equal. lia. }
  intros [eec mask] l (Hf & Hr & He & _ & Hs). cbn [fst].
  rewrite Z2Nat.id in Hs by lia. rewrite Z.add_0_l in Hs.
  apply tr_bind_write_eec, tr_flush. intros y. split; [|exists v0; split].
  - apply List.Forall_cons; [simpl; auto|]. apply Forall_app. split; [done|fa].
  - cbn [eec_reads]. rewrite Z.eqb_refl, eec_reads_app, Hr. cbn [eec_reads app].
    by rewrite eec_not_status.
  - intros Hsk. destruct (Hs Hsk) as [Hsk' Hrun].
    match goal with |- spi_run c ?s (_ :: ?t) = _ => change (spi_run c s t = (false, msb_bits data (Z.to_nat count))) end.
    rewrite spi_run_app, Hrun. unfold spi_run. simpl. rewrite Z.eqb_refl.
    pose proof (with_di_bits eec false) as [Hb1 _]. unfold with_di in Hb1.
    rewrite trunc_small by (apply land_range; done). rewrite Hb1, Hsk'. simpl.
    f_equal. apply take_ge. unfold msb_bits. by rewrite length_fmap, length_seq.
Qed.

Lemma bits_value_snoc l b : bits_value (l ++ [b]) = 2 * bits_value l + Z.b2z b.
Proof using. unfold bits_value. by rewrite foldl_app. Qed.

Lemma bits_value_range l : 0 <= bits_value l < 2 ^ Z.of_nat (length l).
Proof using.
  induction l as [|b l IH] using rev_ind; [done|]. rewrite bits_value_snoc, length_app. simpl.
  replace (Z.of_nat (length l + 1)) with (Z.succ (Z.of_nat (length l))) by lia.
  rewrite Z.pow_succ_r by lia. destruct b; simpl; lia.
Qed.

(** appending a bit as [shift_in] does *)
Lemma shift_in_bit l (b : bool) : (length l < 16)%nat ->
  (if b then Z.lor (u16 (Z.shiftl (bits_value l) 1)) 1 else u16 (Z.shiftl (bits_value l) 1)) =
  bits_value (l ++ [b]).
Proof using.
  intros Hl. rewrite bits_value_snoc. pose proof (bits_value_range l) as Hr.
  assert (2 ^ Z.of_nat (length l) <= 2 ^ 15) by (apply Z.pow_le_mono_r; lia).
  rewrite Z.shiftl_mul_pow2 by lia. rewrite trunc_small by (unfold in_range; lia).
  destruct b; simpl Z.b2z; [|lia].
  pose proof (Z.add_lor_land (bits_value l * 2 ^ 1) 1) as E.
  assert (Z.land (bits_value l * 2 ^ 1) 1 = 0) as E0.
  { change 1 with (Z.ones 1) at 2. rewrite Z.land_ones by lia. zlia. }
  lia.
Qed.

Definition do_bit (v : Z) : bool := has v IXGBE_EEC_DO.

Lemma do_bit_di v : has (Z.land v (bnot 32 IXGBE_EEC_DI)) IXGBE_EEC_DO = do_bit v.
Proof using.
  unfold do_bit. change IXGBE_EEC_DO with (bit 3). rewrite !has_bit by lia.
  rewrite Z.land_spec, testbit_bnot, testbit_di by lia. simpl. apply andb_true_r.
Qed.

Lemma shift_in_tr c count : 0 <= count <= 16 ->
  traces sem_static c (ixgbe_shift_in_eeprom_bits count) (fun data l =>
    Forall (eec_access c) l /\ exists v0 vs, eec_reads c l = v0 :: vs /\
    Z.of_nat (length vs) = count /\ data = bits_value (do_bit <$> vs)).
Proof using.
  intros Hc. unfold ixgbe_shift_in_eeprom_bits. apply tr_bind_read_eec. intros v0 Hv0.
  eapply tr_bind.
  { apply tr_for_acc with (I := fun k '(eec, data) l => Forall (eec_access c) l /\
      in_range 32 eec /\ exists vs, eec_reads c l = vs /\ Z.of_nat (length vs) = k /\
      data = bits_value (do_bit <$> vs)).
    - split; [done|]. split; [apply land_range; done|]. by exists [].
    - intros k [eec data] l Hk (Hf & He & vs & Hr & Hl & ->).
      rewrite Z2Nat.id in Hk by lia.
      eapply tr_bind; [by apply raise_tr|]. intros e l1 (-> & y1 & ->).
      apply tr_bind_read_eec. intros v Hv. rewrite do_bit_di.
      rewrite shift_in_bit by (rewrite length_fmap; lia).
      eapply tr_bind; [apply lower_tr; apply land_range; done|]. intros e l2 (-> & y2 & ->).
      apply tr_ret. rewrite app_nil_r. split; [|split].
      + rewrite !Forall_app. split; [done|]. split; [apply half_access|].
        apply List.Forall_cons; [simpl; auto|]. apply half_access.
      + apply land_range; [done|apply land_range; done|done].
      + exists (vs ++ [v]). rewrite !eec_reads_app, Hr, eec_reads_half. cbn [eec_reads].
        rewrite Z.eqb_refl, eec_reads_half. split; [done|]. rewrite length_app. simpl.
        split; [lia|]. by rewrite fmap_app. }
  intros [eec data] l (Hf & _ & vs & Hr & Hl & ->). apply tr_ret. rewrite app_nil_r. cbn [snd].
  split; [apply List.Forall_cons; [simpl; auto|done]|]. exists v0, vs. cbn [eec_reads].
  rewrite Z.eqb_refl, Hr. split; [done|]. split; [lia|done].
Qed.

(** Bit-banging is most significant bit first and clocked correctly, on
    any device: if the clock is low when [ixgbe_shift_out_eeprom_bits] starts,
    the values of DI at the rising edges of SK are exactly the [count] bits of
    [data], and the clock is low again at the end. *)
Theorem shift_out_on_the_wire c data count : 0 < count <= 16 ->
  traces sem_static c (ixgbe_shift_out_eeprom_bits data count) (fun _ l =>
    exists v0, eec_reads c l = [v0] /\
    (has v0 IXGBE_EEC_SK = false ->
     spi_run c (false, []) l = (false, msb_bits data (Z.to_nat count)))).
Proof using. intros Hc. eapply tr_mono; [by apply shift_out_tr|]. intros [] l [_ ?]. done. Qed.

(** [ixgbe_shift_in_eeprom_bits] returns the [count] values of DO it samples,
    most significant first, whatever the device answers. *)
Theorem shift_in_from_the_wire c count : 0 <= count <= 16 ->
  traces sem_static c (ixgbe_shift_in_eeprom_bits count) (fun data l =>
    exists v0 vs, eec_reads c l = v0 :: vs /\ Z.of_nat (length vs) = count /\
    data = bits_value (do_bit <$> vs)).
Proof using. intros Hc. eapply tr_mono; [by apply shift_in_tr|]. intros d l [_ ?]. done. Qed.

(** ** The accesses of the serial code, for every argument *)
Abbreviation eec_only c m := (traces sem_static c m (fun _ l => Forall (eec_access c) l)).

Lemma raise_access c eec : traces sem_static c (ixgbe_raise_eeprom_clk eec)
  (fun _ l => Forall (eec_access c) l).
Proof using.
  unfold ixgbe_raise_eeprom_clk. apply tr_bind_write_eec, tr_bind_flush. intros y.
  apply tr_bind_delay, tr_ret. fa.
Qed.
Lemma lower_access c eec : traces sem_static c (ixgbe_lower_eeprom_clk eec)
  (fun _ l => Forall (eec_access c) l).
Proof using.
  unfold ixgbe_lower_eeprom_clk. apply tr_bind_write_eec, tr_bind_flush. intros y.
  apply tr_bind_delay, tr_ret. fa.
Qed.

Lemma shift_out_access c data count : eec_only c (ixgbe_shift_out_eeprom_bits data count).
Proof using.
  unfold ixgbe_shift_out_eeprom_bits. apply tr_bind_read_eec. intros v0 Hv0. eapply tr_bind.
  { apply tr_for_acc with (I := fun k _ l => Forall (eec_access c) l); [done|].
    intros k [eec mask] l _ Hf. apply tr_bind_write_eec, tr_bind_flush. intros y.
    apply tr_bind_delay. eapply tr_bind; [apply raise_access|]. intros e l1 H1.
    eapply tr_bind; [apply lower_access|]. intros e2 l2 H2. apply tr_ret. rewrite app_nil_r.
    apply Forall_app. split; [done|]. do 3 (apply List.Forall_cons; [simpl; auto|]).
    by apply Forall_app. }
  intros r l Hf. cbv beta in Hf. apply tr_bind_write_eec, tr_flush. intros y.
  apply List.Forall_cons; [simpl; auto|]. apply Forall_app. split; [done|fa].
Qed.

Lemma standby_access c : eec_only c ixgbe_standby_eeprom.
Proof using.
  unfold ixgbe_standby_eeprom. apply tr_bind_read_eec. intros v0 Hv0.
  apply tr_bind_write_eec, tr_bind_flush. intros y. apply tr_bind_delay, tr_bind_write_eec, tr_bind_flush.
  intros y2. apply tr_udelay. fa.
Qed.

Lemma shift_in_access c count : 0 <= count <= 16 ->
  traces sem_static c (ixgbe_shift_in_eeprom_bits count) (fun _ l => Forall (eec_access c) l).
Proof using. intros. eapply tr_mono; [by apply shift_in_tr|]. by intros d l [? _]. Qed.

Lemma ready_access c : traces sem_static c ixgbe_ready_eeprom (fun _ l => Forall (eec_access c) l).
Proof using.
  unfold ixgbe_ready_eeprom. eapply tr_bind.
  { apply tr_for_break with (I := fun _ _ l => Forall (eec_access c) l)
      (T := fun _ l => Forall (eec_access c) l); [done| |done].
    intros k _ l _ Hf. eapply tr_bind; [apply shift_out_access|]. intros [] l1 H1.
    eapply tr_bind; [by apply shift_in_access|]. intros x l2 H2. cbv beta in *.
    apply tr_if; intros _.
    - apply tr_ret. rewrite app_nil_r, !Forall_app. auto.
    - apply tr_bind_delay. eapply tr_bind; [apply standby_access|]. intros [] l3 H3. apply tr_ret.
      rewrite app_nil_r, !Forall_app. split; [done|]. split; [done|]. split; [done|].
      apply List.Forall_cons; [done|done]. }
  intros r l Hf. cbv beta in Hf. apply tr_ret. by rewrite app_nil_r.
Qed.

Lemma write_burst_access c fuel offset words data page i :
  0 <= i < words -> words <= Z.of_nat (length data) -> words < 65536 -> words - i <= Z.of_nat fuel ->
  traces sem_static c (write_burst fuel offset words data page i)
    (fun j l => Forall (eec_access c) l /\ i <= j <= words).
Proof using.
  revert i. induction fuel as [|fuel IH]; intros i Hi Hd Hw Hf; [lia|]. cbn [write_burst].
  assert (exists x, data !! Z.to_nat i = Some x) as [x Hx] by (apply lookup_lt_is_Some_2; lia).
  eapply tr_bind; [eapply (tr_nth_c _ _ _ _ x (fun _ l => l = [])); [lia|exact Hx|done]|].
  intros a l0 ->. eapply tr_bind; [apply shift_out_access|]. intros [] l1 H1. cbv beta in *.
  apply tr_if; intros _; [apply tr_ret; rewrite !app_nil_r; split; [done|lia]|].
  apply tr_if; intros _; [apply tr_ret; rewrite !app_nil_r; split; [done|lia]|].
  cbv zeta. rewrite trunc_small by (unfold in_range; lia).
  apply tr_if; intros Hlt.
  - apply Z.ltb_lt in Hlt. eapply tr_mono; [apply IH; lia|]. intros j l2 [H2 Hj]. simpl.
    split; [by apply Forall_app|lia].
  - apply Z.ltb_ge in Hlt. apply tr_ret. rewrite !app_nil_r. split; [done|lia].
Qed.

Lemma write_words_access c fuel offset words data op i :
  0 <= i -> words <= Z.of_nat (length data) -> words < 65535 -> i <= words + 1 ->
  (words - i + 1 <= Z.of_nat fuel) -> (0 < fuel)%nat ->
  eec_only c (write_words fuel offset words data op i).
Proof using.
  revert op i. induction fuel as [|fuel IH]; intros op i Hi Hd Hw Hiw Hf H0; [lia|].
  cbn [write_words]. apply tr_if; intros Hlt; [|apply tr_ret; done].
  apply Z.ltb_lt in Hlt.
  eapply tr_bind; [apply standby_access|]. intros [] l1 H1.
  eapply tr_bind; [apply shift_out_access|]. intros [] l2 H2.
  eapply tr_bind; [apply standby_access|]. intros [] l3 H3.
  apply tr_bind_get_hw. intros h Hh.
  eapply tr_bind; [apply shift_out_access|]. intros [] l4 H4.
  eapply tr_bind; [apply shift_out_access|]. intros [] l5 H5.
  apply tr_bind_get_hw. intros h2 Hh2.
  eapply tr_bind; [apply write_burst_access; lia|]. intros j l6 [H6 Hj].
  eapply tr_bind; [apply standby_access|]. intros [] l7 H7.
  apply tr_bind_delay. rewrite trunc_small by (unfold in_range; lia).
  eapply tr_mono; [apply IH; lia|]. intros [] l8 H8. cbv beta in *.
  rewrite !Forall_app. do 7 (split; [done|]). by apply List.Forall_cons.
Qed.
End SpiTrace.

(** ** The resource lock around transfers

    Against the interface: whoever implements [acquire_swfw_sync] and
    [release_swfw_sync] as [SwFwSync] promises, no transfer keeps the lock. *)
Section Lock.
Context `{D : Mmio} `{!SwFwSync IXGBE_GSSR_EEP_SM}.

Lemma eec_keeps c l : Forall (eec_access c) l -> Forall lock_neutral l.
Proof using.
  intros H. eapply Forall_impl; [|exact H]. intros a Ha Ht.
  pose proof sf_reg_other as (N1 & N2 & N3 & _).
  destruct a as [r v|r v|us]; simpl in *; [| |done]; rewrite Ht in Ha.
  - destruct Ha as [Ha|Ha]; [destruct c; simpl in Ha; congruence|congruence].
  - destruct c; simpl in Ha; congruence.
Qed.

Lemma eec_unlocked c l : Forall (eec_access c) l -> unlocked l.
Proof using. intros H. by eapply neutral_unlocked, eec_keeps. Qed.
Lemma unlocks_eec c a b : unlocks a -> Forall (eec_access c) b -> unlocks (a ++ b).
Proof using. intros Ha Hb. apply unlocks_neutral; [done|by eapply eec_keeps]. Qed.

Lemma release_eeprom_unlocks c :
  traces sem_static c (ixgbe_release_eeprom sf_release) (fun _ l => unlocks l).
Proof using.
  unfold ixgbe_release_eeprom. apply tr_bind_read_eec. intros v0 _.
  apply tr_bind_write_eec, tr_bind_flush. intros y. apply tr_bind_delay, tr_bind_write_eec.
  eapply tr_bind; [apply sf_release_spec|]. intros [] l Hl. apply tr_bind_get_hw. intros h _.
  apply tr_udelay. match goal with |- unlocks (?a :: ?b :: ?c :: ?d :: ?e :: ?t) =>
    change (a :: b :: c :: d :: e :: t) with ([a; b; c; d; e] ++ t) end.
  apply unlocks_app_r, (unlocks_eec c); [done|fa].
Qed.

Lemma acquire_eeprom_lock c :
  traces sem_static c (ixgbe_acquire_eeprom sf_acquire sf_release) (fun ret l =>
    ret = IXGBE_SUCCESS \/ ret <> IXGBE_SUCCESS /\ unlocked l).
Proof using.
  unfold ixgbe_acquire_eeprom. eapply tr_bind; [apply sf_acquire_spec|].
  intros s l [Hs Hl]. apply tr_if; intros E.
  - apply tr_ret. right. split; [done|]. rewrite app_nil_r. intros g Hg.
    rewrite Hl by done. by apply negb_true_iff in E.
  - apply tr_bind_read_eec. intros v0 _. apply tr_bind_write_eec. eapply tr_bind.
    { apply tr_for_break with (I := fun _ _ _ => True) (T := fun _ _ => True); [done| |done].
      intros k b l' _ _. apply tr_bind_read_eec. intros v _.
      apply tr_if; intros _; [by apply tr_ret|]. by apply tr_bind_delay, tr_ret. }
    intros r l2 _. apply tr_if; intros _.
    + apply tr_bind_write_eec. eapply tr_bind; [apply sf_release_spec|]. intros [] l3 H3.
      apply tr_ret. right. split; [done|]. rewrite app_nil_r.
      match goal with |- unlocked (l ++ ?a :: ?b :: l2 ++ ?d :: l3) =>
        change (l ++ a :: b :: l2 ++ d :: l3) with (l ++ ([a; b] ++ l2 ++ [d] ++ l3)) end.
      apply unlocked_unlocks. do 3 apply unlocks_app_r. exact H3.
    + apply tr_bind_write_eec, tr_bind_flush. intros y. apply tr_bind_delay, tr_ret. by left.
Qed.

Lemma start_eeprom_lock c :
  traces sem_static c (start_eeprom sf_acquire sf_release) (fun ret l =>
    ret = IXGBE_SUCCESS \/ ret <> IXGBE_SUCCESS /\ unlocked l).
Proof using.
  unfold start_eeprom. eapply tr_bind; [apply acquire_eeprom_lock|].
  intros s l Hs. apply tr_if; intros E.
  - apply Z.eqb_eq in E as ->. eapply tr_bind; [apply ready_access|]. intros r l2 H2.
    apply tr_if; intros _; [|apply tr_ret; by left].
    eapply tr_bind; [apply release_eeprom_unlocks|]. intros [] l3 H3. apply tr_ret.
    right. split; [done|]. rewrite app_nil_r, app_assoc. by apply unlocked_unlocks.
  - apply tr_ret. apply Z.eqb_neq in E. rewrite app_nil_r. naive_solver.
Qed.

Lemma write_buffer_lock c offset words data :
  0 <= words <= Z.of_nat (length data) -> words < 65535 ->
  traces sem_static c (ixgbe_write_eeprom_buffer_bit_bang sf_acquire sf_release offset words data)
    (fun _ l => unlocked l).
Proof using.
  intros Hd Hw. unfold ixgbe_write_eeprom_buffer_bit_bang.
  eapply tr_bind; [apply start_eeprom_lock|]. intros s l Hs. apply tr_if; intros E.
  - eapply tr_bind; [apply write_words_access; lia|]. intros [] l2 _.
    eapply tr_bind; [apply release_eeprom_unlocks|]. intros [] l3 H3. apply tr_ret.
    rewrite app_nil_r, app_assoc. by apply unlocked_unlocks.
  - apply tr_ret. rewrite app_nil_r. apply Z.eqb_neq in E. naive_solver.
Qed.

Lemma read_buffer_lock c offset words data : words <= Z.of_nat (length data) ->
  traces sem_static c (ixgbe_read_eeprom_buffer_bit_bang sf_acquire sf_release offset words data)
    (fun r l => unlocked l /\ length (snd r) = length data).
Proof using.
  intros Hd. unfold ixgbe_read_eeprom_buffer_bit_bang.
  eapply tr_bind; [apply start_eeprom_lock|]. intros s l Hs. apply tr_if; intros E.
  - eapply tr_bind.
    { apply tr_for_acc with (I := fun _ '(_, d) _ => length d = length data); [done|].
      intros k [op d] l1 Hk Hl. cbv beta in Hl.
      eapply tr_bind; [apply standby_access|]. intros [] l2 _. apply tr_bind_get_hw. intros h _.
      eapply tr_bind; [apply shift_out_access|]. intros [] l3 _.
      eapply tr_bind; [apply shift_out_access|]. intros [] l4 _.
      eapply tr_bind; [by apply shift_in_access|]. intros w l5 _.
      eapply tr_bind; [apply (tr_upd_c _ _ _ _ _ (fun d' _ => length d' = length data))|].
      - rewrite Hl. lia.
      - by rewrite length_insert.
      - intros d' l6 Hl6. by apply tr_ret. }
    intros [op d] l2 Hl2. cbn in Hl2.
    eapply tr_bind; [apply release_eeprom_unlocks|]. intros [] l3 H3. apply tr_ret.
    rewrite app_nil_r, app_assoc. split; [by apply unlocked_unlocks|done].
  - apply tr_ret. rewrite app_nil_r. apply Z.eqb_neq in E. split; [naive_solver|done].
Qed.

Lemma chunk_count_bounds words i : 0 <= i < words ->
  0 < chunk_count words i <= 256 /\ chunk_count words i <= words - i.
Proof using.
  intros Hi. unfold chunk_count, IXGBE_EEPROM_RD_BUFFER_MAX_COUNT.
  destruct (Z.ltb_spec 0 ((words - i) / 256)); zlia.
Qed.

Lemma write_chunks_lock c n offset words data status i :
  0 <= i -> words <= Z.of_nat (length data) -> words <= 65280 ->
  (0 < n)%nat -> words - i <= 256 * (Z.of_nat n - 1) ->
  traces sem_static c (write_chunks sf_acquire sf_release n offset words data status i)
    (fun _ l => unlocked l).
Proof using.
  revert status i. induction n as [|n IH]; intros status i Hi Hd Hw H0 Hn; [lia|].
  cbn [write_chunks]. apply tr_if; intros Hlt; [|apply tr_ret, unlocked_nil].
  apply Z.ltb_lt in Hlt. destruct (chunk_count_bounds words i) as [H1 H2]; [lia|].
  eapply tr_bind; [apply write_buffer_lock; [rewrite length_drop|]; lia|]. intros s l Hl.
  cbv beta in Hl. apply tr_if; intros _; [apply tr_ret; by rewrite app_nil_r|].
  unfold IXGBE_EEPROM_RD_BUFFER_MAX_COUNT. rewrite trunc_small by (unfold in_range; lia).
  eapply tr_mono; [apply IH; lia|]. intros s2 l2 H3. by apply unlocked_app.
Qed.

Lemma read_chunks_lock c n offset words data status i :
  0 <= i -> words <= Z.of_nat (length data) -> words <= 65280 ->
  (0 < n)%nat -> words - i <= 256 * (Z.of_nat n - 1) ->
  traces sem_static c (read_chunks sf_acquire sf_release n offset words data status i)
    (fun _ l => unlocked l).
Proof using.
  revert data status i. induction n as [|n IH]; intros data status i Hi Hd Hw H0 Hn; [lia|].
  cbn [read_chunks]. apply tr_if; intros Hlt; [|apply tr_ret, unlocked_nil].
  apply Z.ltb_lt in Hlt. destruct (chunk_count_bounds words i) as [H1 H2]; [lia|].
  eapply tr_bind; [apply read_buffer_lock; rewrite length_drop; lia|]. intros [s d] l [Hl Hd'].
  cbn [snd] in Hd'. apply tr_if; intros _; [apply tr_ret; by rewrite app_nil_r|].
  unfold IXGBE_EEPROM_RD_BUFFER_MAX_COUNT. rewrite trunc_small by (unfold in_range; lia).
  eapply tr_mono; [apply IH; try lia|].
  - rewrite length_app, Hd', length_take, length_drop. lia.
  - intros s2 l2 H3. by apply unlocked_app.
Qed.

Lemma detect_page_lock c offset :
  traces sem_static c (ixgbe_detect_eeprom_page_size_generic sf_acquire sf_release offset)
    (fun _ l => unlocked l).
Proof using.
  unfold ixgbe_detect_eeprom_page_size_generic, mod_eeprom. apply tr_bind_upd_hw; [done|done|].
  assert (length (seqZ 0 IXGBE_EEPROM_PAGE_SIZE_MAX) = 128%nat) as Hl by done.
  eapply tr_bind; [apply write_buffer_lock; [rewrite Hl; done|done]|]. intros s l1 H1.
  cbv beta in H1. apply tr_bind_upd_hw; [done|done|].
  apply tr_if; intros _; [apply tr_ret; by rewrite app_nil_r|].
  eapply tr_bind; [apply read_buffer_lock; rewrite Hl; done|]. intros [s2 d] l2 [H2 Hd].
  cbn [snd] in Hd. apply tr_if; intros _; [apply tr_ret; rewrite app_nil_r; by apply unlocked_app|].
  assert (exists x, d !! 0%nat = Some x) as [x Hx] by (apply lookup_lt_is_Some_2; lia).
  eapply tr_bind; [eapply (tr_nth_c _ _ _ _ x (fun _ l => l = [])); [lia|exact Hx|done]|].
  intros y l3 ->. apply tr_bind_upd_hw; [done|done|]. apply tr_ret.
  rewrite app_nil_r. by apply unlocked_app.
Qed.

(** [hw->eeprom.ops.init_params] only looks at EEC *)
Context (init_params : M Z).
Context (init_access : forall c, traces sem_static c init_params (fun _ l => Forall (eec_access c) l)).

(** C25: whatever the device answers and whichever error occurs, a bit-bang
    transfer of up to 65280 words ends, and at its end the driver does not hold
    the EEPROM lock it took: every path through acquiring, waiting for the
    grant, polling and transferring releases it. *)
Theorem bit_bang_releases_lock c offset words data :
  0 <= words <= 65280 -> words <= Z.of_nat (length data) ->
  traces sem_static c (ixgbe_write_eeprom_buffer_bit_bang_generic sf_acquire sf_release init_params
    offset words data) (fun _ l => unlocked l) /\
  traces sem_static c (ixgbe_read_eeprom_buffer_bit_bang_generic sf_acquire sf_release init_params
    offset words data) (fun _ l => unlocked l).
Proof using init_access.
  intros Hw Hd. split.
  - unfold ixgbe_write_eeprom_buffer_bit_bang_generic.
    eapply tr_bind; [apply init_access|]. intros s l H. apply eec_unlocked in H.
    apply tr_if; intros _; [apply tr_ret; by rewrite app_nil_r|].
    apply tr_bind_get_hw. intros h Hh. apply tr_if; intros _; [apply tr_ret; by rewrite app_nil_r|].
    eapply tr_bind with (T1 := fun _ l => unlocked l).
    { apply tr_if; intros _; [|apply tr_ret, unlocked_nil].
      eapply tr_bind; [apply detect_page_lock|]. intros ? l2 H2. cbv beta in H2. apply tr_ret.
      by rewrite app_nil_r. }
    intros [] l2 H2. eapply tr_mono; [apply write_chunks_lock; lia|]. intros s3 l3 H3.
    apply unlocked_app; [done|by apply unlocked_app].
  - unfold ixgbe_read_eeprom_buffer_bit_bang_generic.
    eapply tr_bind; [apply init_access|]. intros s l H. apply eec_unlocked in H.
    apply tr_if; intros _; [apply tr_ret; by rewrite app_nil_r|].
    apply tr_bind_get_hw. intros h Hh. apply tr_if; intros _; [apply tr_ret; by rewrite app_nil_r|].
    eapply tr_mono; [apply read_chunks_lock; lia|]. intros s3 l3 H3. by apply unlocked_app.
Qed.
End Lock.

Lemma init_generic_access `{D : Mmio} c :
  traces sem_static c ixgbe_init_eeprom_params_generic (fun _ l => Forall (eec_access c) l).
Proof.
  unfold ixgbe_init_eeprom_params_generic, mod_eeprom. apply tr_bind_get_hw. intros h Hh.
  eapply tr_bind with (T1 := fun _ l => Forall (eec_access c) l).
  { apply tr_if; intros _; [|by apply tr_ret].
    do 3 (apply tr_bind_upd_hw; [done|done|]). rewrite (eec_by_mac h c Hh).
    apply tr_bind_read; [exact sem_static_remove|]. intros v _.
    eapply tr_bind with (T1 := fun _ l => l = []).
    - apply tr_if; intros _; [|by apply tr_ret].
      apply tr_bind_upd_hw; [done|done|]. by apply tr_upd_hw.
    - intros [] l ->. apply tr_upd_hw; [done|done|]. fa. }
  intros [] l Hl. apply tr_ret. by rewrite app_nil_r.
Qed.

(** ** Witnesses *)
Lemma shift_out_on_the_wire_witness :
  traces (D := ram) sem_static ixgbe_mvals_base (ixgbe_shift_out_eeprom_bits 0x05 8) (fun _ l =>
    exists v0, eec_reads ixgbe_mvals_base l = [v0] /\
    (has v0 IXGBE_EEC_SK = false ->
     spi_run ixgbe_mvals_base (false, []) l =
       (false, [false; false; false; false; false; true; false; true]))).
Proof.
  apply (shift_out_on_the_wire (D := ram) ixgbe_mvals_base 0x05 8).
  split; [reflexivity|discriminate].
Defined.

Lemma shift_in_from_the_wire_witness :
  traces (D := ram) sem_static ixgbe_mvals_base (ixgbe_shift_in_eeprom_bits 16) (fun data l =>
    exists v0 vs, eec_reads ixgbe_mvals_base l = v0 :: vs /\ Z.of_nat (length vs) = 16 /\
    data = bits_value (do_bit <$> vs)).
Proof.
  apply (shift_in_from_the_wire (D := ram) ixgbe_mvals_base 16).
  split; discriminate.
Defined.

(** the GSSR locks as the implementation of the interface *)
#[local] Instance eep_lock : SwFwSync (D := ram) IXGBE_GSSR_EEP_SM :=
  swfw_gssr IXGBE_GSSR_EEP_SM (conj eq_refl eq_refl).

Lemma bit_bang_releases_lock_witness :
  traces (D := ram) sem_static ixgbe_mvals_base
    (ixgbe_write_eeprom_buffer_bit_bang_generic ixgbe_acquire_swfw_sync ixgbe_release_swfw_sync
       ixgbe_init_eeprom_params_generic 0x10 2 [0xCAFE; 0xBEEF]) (fun _ l => unlocked (D := ram) l) /\
  traces (D := ram) sem_static ixgbe_mvals_base
    (ixgbe_read_eeprom_buffer_bit_bang_generic ixgbe_acquire_swfw_sync ixgbe_release_swfw_sync
       ixgbe_init_eeprom_params_generic 0x10 2 [0xCAFE; 0xBEEF]) (fun _ l => unlocked (D := ram) l).
Proof.
  exact (bit_bang_releases_lock (D := ram) ixgbe_init_eeprom_params_generic init_generic_access
    ixgbe_mvals_base 0x10 2 [0xCAFE; 0xBEEF]
    ltac:(split; discriminate) ltac:(discriminate)).
Defined.
