(* ===== verification/NvmProps.v ===== *)
(** * The EEPROM checksum, and the word operations it relies on

    The checksum code calls [hw->eeprom.ops.read] and [.write]; the class
    [NvmOps] states what they must promise.  The checksum theorems are proved
    against it; the EERD/EEWR functions are then shown to implement it on every
    adapter whose two registers behave as [EerdDevice] describes. *)
From stdpp Require Import gmap.
From S2P Require Import Prelude Regs Types Osdep Trace Semaphore SemProps Eeprom.

(** ** The interface *)
Class NvmOps `{D : Mmio} := {
  nv_read : Z -> M (Z * Z);
  nv_write : Z -> Z -> M Z;
  nv_ok : world -> Prop;
  nv_size : world -> Z;
  nv_word : world -> Z -> Z;
  nv_size_range w : nv_ok w -> nv_size w < 65536;
  nv_word_range w o : nv_ok w -> in_range 16 (nv_word w o);
  nv_read_in w o : nv_ok w -> 0 <= o < nv_size w ->
    wp (nv_read o) (fun r w' => r = (IXGBE_SUCCESS, nv_word w o) /\
      nv_ok w' /\ nv_size w' = nv_size w /\ forall a, nv_word w' a = nv_word w a) w;
  nv_read_out w o : nv_ok w -> nv_size w <= o < 65536 ->
    wp (nv_read o) (fun r w' => fst r = IXGBE_ERR_EEPROM /\
      nv_ok w' /\ nv_size w' = nv_size w /\ forall a, nv_word w' a = nv_word w a) w;
  nv_write_in w o v : nv_ok w -> 0 <= o < nv_size w -> in_range 16 v ->
    wp (nv_write o v) (fun r w' => r = IXGBE_SUCCESS /\
      nv_ok w' /\ nv_size w' = nv_size w /\
      forall a, nv_word w' a = if decide (a = o) then v else nv_word w a) w;
}.

(** ** Reference definition of the checksum *)
Section Reference.
Context (size : Z) (word : Z -> Z).

(** the words of the section at pointer [p]; [None] when it leaves the part *)
Definition section_words (p : Z) : option (list Z) :=
  if (p =? 0xFFFF) || (p =? 0) then Some []
  else if size <=? p then None
  else if (word p =? 0xFFFF) || (word p =? 0) then Some []
  else if size <=? p + word p then None
  else Some (word <$> seqZ (p + 1) (word p)).

(** the words behind all pointers; [f] gives those behind one of them *)
Definition all_words (f : Z -> option (list Z)) (l : list Z) : option (list Z) :=
  foldr (fun i acc => match f i, acc with
                      | Some a, Some b => Some (a ++ b)
                      | _, _ => None
                      end) (Some []) l.
Definition pointer_words (l : list Z) : option (list Z) :=
  all_words (fun i => section_words (word i)) l.

(** the checksum makes the sum of all covered words 0xBABA *)
Definition nvm_checksum : option Z :=
  if size <=? 0x3E then None
  else match pointer_words (seqZ 3 12) with
       | Some l => Some (u16 (0xBABA - (zsum (word <$> seqZ 0 63) + zsum l)))
       | None => None
       end.
End Reference.

Lemma seqZ_snoc m n : 0 <= n -> seqZ m (n + 1) = seqZ m n ++ [m + n].
Proof. intros. by rewrite (seqZ_app m n 1) by lia. Qed.

Lemma all_words_snoc f l i : all_words f (l ++ [i]) =
  match all_words f l, f i with
  | Some a, Some b => Some (a ++ b)
  | _, _ => None
  end.
Proof.
  unfold all_words. induction l as [|x l IH]; simpl.
  - destruct (f i); simpl; [by rewrite app_nil_r|done].
  - rewrite IH. destruct (f x); [|by destruct (foldr _ _ l)].
    destruct (foldr _ _ l); [|done]. destruct (f i); [|done]. by rewrite app_assoc.
Qed.

Lemma all_words_None f l i : In i l -> f i = None -> all_words f l = None.
Proof.
  intros Hi E. induction l as [|x l IH]; [done|]. simpl. destruct Hi as [-> |Hi].
  - by rewrite E.
  - rewrite (IH Hi). by destruct (f x).
Qed.

Section Checksum.
Context `{D : Mmio} `{!NvmOps}.
Context (w0 : world).

(** the EEPROM is as in [w0] *)
Definition as_before (w : world) : Prop :=
  nv_ok w /\ nv_size w = nv_size w0 /\ forall a, nv_word w a = nv_word w0 a.

Lemma read_as_before w o : as_before w -> 0 <= o < 65536 ->
  wp (nv_read o) (fun r w' => as_before w' /\
    if o <? nv_size w0 then r = (IXGBE_SUCCESS, nv_word w0 o) else fst r = IXGBE_ERR_EEPROM) w.
Proof using.
  intros (Hok & Hs & Hw) Ho. destruct (Z.ltb_spec o (nv_size w0)).
  - eapply wp_mono; [apply nv_read_in; [done|lia]|]. intros r w' (-> & H1 & H2 & H3).
    rewrite Hw. split; [|done]. split; [done|]. split; [congruence|]. intros a. by rewrite H3.
  - eapply wp_mono; [apply nv_read_out; [done|lia]|]. intros r w' (E & H1 & H2 & H3).
    split; [|done]. split; [done|]. split; [congruence|]. intros a. by rewrite H3.
Qed.

(** the loop over one section; [n] words are left *)
Lemma checksum_section_effect fuel j n checksum w : as_before w -> nv_size w0 < 65536 ->
  0 <= j <= 65535 -> 0 <= n -> (65536 - j < Z.of_nat fuel \/ n < Z.of_nat fuel) ->
  wp (checksum_section nv_read fuel (j + n - 1) j (u16 checksum)) (fun r w' => as_before w' /\
    r = if n =? 0 then Some (u16 checksum)
        else if nv_size w0 <=? j + n - 1 then None
        else Some (u16 (checksum + zsum (nv_word w0 <$> seqZ j n)))) w.
Proof using.
  intros Hw Hs. revert j n checksum w Hw.
  induction fuel as [|fuel IH]; intros j n checksum w Hw Hj Hn Hf; [lia|].
  cbn [checksum_section]. destruct (Z.leb_spec j (j + n - 1)) as [Hle|Hle].
  2: { apply wp_ret. by destruct (Z.eqb_spec n 0); [|lia]. }
  destruct (Z.eqb_spec n 0); [lia|]. wp_step.
  eapply wp_mono; [apply read_as_before; [done|lia]|]. intros r w' [Hw' Hr].
  destruct (Z.ltb_spec j (nv_size w0)) as [Hlt|Hge].
  - rewrite Hr. cbn [fst snd]. change (negb (IXGBE_SUCCESS =? 0)) with false. cbv iota.
    rewrite trunc_add_l by done.
    rewrite (trunc_small 16 (j + 1)) by (unfold in_range; lia).
    replace (j + n - 1) with ((j + 1) + (n - 1) - 1) by lia.
    eapply wp_mono; [apply IH; [done|lia|lia|lia]|]. intros r2 w2 [Hw2 ->]. split; [done|].
    replace (seqZ j n) with (j :: seqZ (j + 1) (n - 1))
      by (rewrite (seqZ_cons j n) by lia; f_equal; f_equal; lia).
    cbn [fmap list_fmap zsum foldr].
    destruct (Z.eqb_spec (n - 1) 0) as [E|E].
    + assert (n = 1) as -> by lia. destruct (Z.leb_spec (nv_size w0) (j + 1 + (1 - 1) - 1)); [lia|].
      simpl. by rewrite Z.add_0_r.
    + destruct (Z.leb_spec (nv_size w0) (j + 1 + (n - 1) - 1)); [done|].
      unfold zsum. by rewrite Z.add_assoc.
  - rewrite Hr. change (negb (IXGBE_ERR_EEPROM =? 0)) with true. cbv iota. apply wp_ret.
    split; [done|]. by destruct (Z.leb_spec (nv_size w0) (j + n - 1)); [|lia].
Qed.

Abbreviation size0 := (nv_size w0).
Abbreviation word0 := (nv_word w0).

(** one round of the loop over the pointers *)
Lemma checksum_pointer_effect i checksum w : as_before w -> 0x3E < size0 < 65536 -> 0 <= i < 0x3F ->
  wp (r ← nv_read i;
       if negb (fst r =? 0) then mret (inr tt)
       else
         let pointer := snd r in
         if (pointer =? 0xFFFF) || (pointer =? 0) then mret (inl (u16 checksum))
         else
           r ← nv_read pointer;
           if negb (fst r =? 0) then mret (inr tt)
           else
             let length := snd r in
             if (length =? 0xFFFF) || (length =? 0) then mret (inl (u16 checksum))
             else
               c ← checksum_section nv_read (Z.to_nat 65536) (pointer + length) (u16 (pointer + 1))
                     (u16 checksum);
               mret (match c with Some c => inl c | None => inr tt end))
    (fun r w' => as_before w' /\ r = match section_words size0 word0 (word0 i) with
                                     | Some l => inl (u16 (checksum + zsum l))
                                     | None => inr tt
                                     end) w.
Proof using.
  intros Hw Hs Hi. destruct Hw as [Hok Hw]. pose proof (conj Hok Hw) as Hw0.
  assert (Hr16 : forall a, in_range 16 (word0 a)).
  { intros a. destruct Hw as [_ <-]. by apply nv_word_range. }
  wp_step. eapply wp_mono; [apply read_as_before; [done|lia]|]. intros r w1 [Hw1 Hr].
  destruct (Z.ltb_spec i size0); [|lia]. rewrite Hr. cbn [fst snd].
  change (negb (IXGBE_SUCCESS =? 0)) with false. cbv iota zeta. unfold section_words.
  set (p := word0 i) in *. assert (Hp : in_range 16 p) by apply Hr16. unfold in_range in Hp.
  destruct ((p =? 0xFFFF) || (p =? 0)) eqn:E1.
  { apply wp_ret. split; [done|]. simpl. by rewrite Z.add_0_r. }
  wp_step. eapply wp_mono; [apply read_as_before; [done|lia]|]. intros r2 w2 [Hw2 Hr2].
  destruct (Z.ltb_spec p size0) as [Hlt|Hge].
  2: { rewrite Hr2. change (negb (IXGBE_ERR_EEPROM =? 0)) with true. cbv iota. apply wp_ret.
       split; [done|]. by destruct (Z.leb_spec size0 p); [|lia]. }
  rewrite Hr2. cbn [fst snd]. change (negb (IXGBE_SUCCESS =? 0)) with false. cbv iota.
  destruct (Z.leb_spec size0 p); [lia|]. set (n := word0 p) in *.
  assert (Hn : in_range 16 n) by apply Hr16. unfold in_range in Hn.
  destruct ((n =? 0xFFFF) || (n =? 0)) eqn:E2.
  { apply wp_ret. split; [done|]. simpl. by rewrite Z.add_0_r. }
  apply orb_false_iff in E2 as [_ E2%Z.eqb_neq].
  rewrite (trunc_small 16 (p + 1)) by (unfold in_range; lia). wp_step.
  replace (p + n) with ((p + 1) + n - 1) by lia.
  eapply wp_mono; [apply checksum_section_effect; [done|lia|lia|lia|lia]|].
  intros c w3 [Hw3 ->]. apply wp_ret. split; [done|].
  destruct (Z.eqb_spec n 0); [lia|]. by destruct (size0 <=? p + 1 + n - 1).
Qed.

(** a loop over pointers whose rounds add up the words [f] gives *)
Lemma pointer_loop_effect (f : Z -> option (list Z)) n a (body : Z -> Z -> M (Z + unit)) checksum w :
  as_before w ->
  (forall i x w', as_before w' -> a <= i < a + Z.of_nat n ->
     wp (body i (u16 x)) (fun r w'' => as_before w'' /\
       r = match f i with Some l => inl (u16 (x + zsum l)) | None => inr tt end) w') ->
  wp (for_break n a (u16 checksum) body) (fun r w' => as_before w' /\
    r = match all_words f (seqZ a (Z.of_nat n)) with
        | Some l => inl (u16 (checksum + zsum l))
        | None => inr tt
        end) w.
Proof using.
  intros Hw Hb. apply wp_for_break with (Inv := fun k c w' => as_before w' /\
    exists l, all_words f (seqZ a (k - a)) = Some l /\ c = u16 (checksum + zsum l)).
  - split; [done|]. exists []. rewrite Z.sub_diag. split; [done|]. simpl. by rewrite Z.add_0_r.
  - intros k c w1 Hk (Hw1 & l & El & ->).
    eapply wp_mono; [by apply Hb|]. intros r w2 [Hw2 ->]. destruct (f k) as [l2|] eqn:E2.
    + split; [done|]. exists (l ++ l2). replace (k + 1 - a) with ((k - a) + 1) by lia.
      rewrite seqZ_snoc, all_words_snoc, El by lia. replace (a + (k - a)) with k by lia.
      rewrite E2. split; [done|]. rewrite zsum_app. by rewrite Z.add_assoc.
    + split; [done|]. rewrite (all_words_None _ _ k); [done| |done].
      apply list_elem_of_In, elem_of_seqZ. lia.
  - intros c w1 (Hw1 & l & El & ->). replace (a + Z.of_nat n - a) with (Z.of_nat n) in El by lia.
    by rewrite El.
Qed.

Lemma checksum_pointers_effect checksum w : as_before w -> 0x3E < size0 < 65536 ->
  wp (checksum_pointers nv_read (Z.to_nat 65536) (u16 checksum)) (fun r w' => as_before w' /\
    r = match pointer_words size0 word0 (seqZ 3 12) with
        | Some l => inl (u16 (checksum + zsum l))
        | None => inr tt
        end) w.
Proof using.
  intros Hw Hs. unfold checksum_pointers.
  change (Z.to_nat (IXGBE_FW_PTR - IXGBE_PCIE_ANALOG_PTR)) with 12%nat.
  change IXGBE_PCIE_ANALOG_PTR with 3. apply pointer_loop_effect; [done|].
  intros i x w' Hw' Hi. apply checksum_pointer_effect; [done|lia|lia].
Qed.

(** the loop over the fixed words *)
Lemma checksum_words_effect w : as_before w -> size0 < 65536 ->
  wp (for_break (Z.to_nat IXGBE_EEPROM_CHECKSUM) 0 0 (fun i checksum =>
        r ← nv_read i;
        if negb (fst r =? 0) then mret (inr tt) else mret (inl (u16 (checksum + snd r)))))
    (fun r w' => as_before w' /\
       r = if size0 <=? 0x3E then inr tt else inl (u16 (zsum (word0 <$> seqZ 0 63)))) w.
Proof using.
  intros Hw Hs. change (Z.to_nat IXGBE_EEPROM_CHECKSUM) with 63%nat.
  apply wp_for_break with (Inv := fun k c w' => as_before w' /\ (k = 0 \/ k <= size0) /\
    c = u16 (zsum (word0 <$> seqZ 0 k))).
  - split; [done|]. split; [by left|done].
  - intros k c w1 Hk (Hw1 & Hks & ->). change (Z.of_nat 63) with 63 in Hk. wp_step.
    eapply wp_mono; [apply read_as_before; [done|lia]|]. intros r w2 [Hw2 Hr].
    destruct (Z.ltb_spec k size0).
    + rewrite Hr. cbn [fst snd]. change (negb (IXGBE_SUCCESS =? 0)) with false. cbv iota.
      apply wp_ret. split; [done|]. split; [right; lia|].
      rewrite trunc_add_l, seqZ_snoc, fmap_app, zsum_app by lia. simpl.
      by rewrite Z.add_0_r.
    + rewrite Hr. change (negb (IXGBE_ERR_EEPROM =? 0)) with true. cbv iota. apply wp_ret.
      split; [done|]. by destruct (Z.leb_spec size0 0x3E); [|lia].
  - intros c w1 (Hw1 & Hks & ->). split; [done|]. change (0 + Z.of_nat 63) with 63 in *.
    by destruct (Z.leb_spec size0 0x3E); [lia|].
Qed.

Lemma calc_checksum_effect w : as_before w ->
  wp (ixgbe_calc_eeprom_checksum_generic nv_read) (fun ret w' => as_before w' /\ ret = match nvm_checksum size0 word0 with Some c => c | None => IXGBE_ERR_EEPROM end) w.
Proof using.
  intros Hw. assert (size0 < 65536) as Hs.
  { destruct Hw as (Hok & <- & _). by apply nv_size_range. }
  unfold ixgbe_calc_eeprom_checksum_generic, calc_eeprom_checksum. wp_step.
  eapply wp_mono; [by apply checksum_words_effect|]. intros r w1 [Hw1 ->]. unfold nvm_checksum.
  destruct (Z.leb_spec size0 0x3E); [by apply wp_ret|]. wp_step.
  eapply wp_mono; [apply checksum_pointers_effect; [done|lia]|]. intros r w2 [Hw2 ->].
  apply wp_ret. split; [done|].
  destruct (pointer_words size0 word0 (seqZ 3 12)) as [l|]; [|done].
  unfold trunc, IXGBE_EEPROM_SUM. by rewrite Zminus_mod_idemp_r.
Qed.
End Checksum.

Section ChecksumTheorems.
Context `{D : Mmio} `{!NvmOps}.

Lemma as_before_refl w : nv_ok w -> as_before w w.
Proof using. done. Qed.

Lemma nvm_checksum_range size word c : nvm_checksum size word = Some c -> in_range 16 c.
Proof using.
  unfold nvm_checksum. destruct (size <=? 0x3E); [done|].
  destruct (pointer_words _ _ _); [|done]. intros [= <-]. by apply trunc_range.
Qed.

Lemma land_ffff c : in_range 16 c -> u16 (Z.land c 0xffff) = c.
Proof using.
  intros Hc. change 0xffff with (Z.ones 16). rewrite Z.land_ones by lia.
  change (c mod 2 ^ 16) with (u16 c). by rewrite !trunc_small by (rewrite ?trunc_small; done).
Qed.

(** [ixgbe_calc_eeprom_checksum_generic] ends for every EEPROM content, also
    for pointers and lengths that leave the part, and computes the reference
    checksum: the value that makes the 16-bit sum of words 0..0x3E and of all
    sections 0xBABA; it reports [IXGBE_ERR_EEPROM] exactly when a covered word
    lies outside the part. *)
Theorem calc_checksum_spec w : nv_ok w ->
  wp (ixgbe_calc_eeprom_checksum_generic nv_read) (fun ret w' => as_before w w' /\
    ret = match nvm_checksum (nv_size w) (nv_word w) with
          | Some c => c | None => IXGBE_ERR_EEPROM end) w.
Proof using. intros Hok. by apply calc_checksum_effect. Qed.

Lemma validate_effect w : nv_ok w ->
  wp (ixgbe_validate_eeprom_checksum_generic nv_read (ixgbe_calc_eeprom_checksum_generic nv_read))
    (fun r w' => as_before w w' /\
      match nvm_checksum (nv_size w) (nv_word w) with
      | Some c => 0x3F < nv_size w ->
          r = (if nv_word w 0x3F =? c then IXGBE_SUCCESS else IXGBE_ERR_EEPROM_CHECKSUM, Some c)
      | None => r = (IXGBE_ERR_EEPROM, None)
      end) w.
Proof using.
  intros Hok. pose proof (as_before_refl w Hok) as Hw. unfold ixgbe_validate_eeprom_checksum_generic.
  wp_step. eapply wp_mono; [apply (read_as_before w); [done|lia]|]. intros r w1 [Hw1 Hr].
  destruct (Z.ltb_spec 0 (nv_size w)).
  2: { rewrite Hr. change (negb (IXGBE_ERR_EEPROM =? 0)) with true. cbv iota. apply wp_ret.
       split; [done|]. unfold nvm_checksum. by destruct (Z.leb_spec (nv_size w) 0x3E); [|lia]. }
  rewrite Hr. cbn [fst]. change (negb (IXGBE_SUCCESS =? 0)) with false. cbv iota. wp_step.
  eapply wp_mono; [by apply calc_checksum_effect|]. intros ret w2 [Hw2 ->].
  destruct (nvm_checksum (nv_size w) (nv_word w)) as [c|] eqn:Ec; [|by apply wp_ret].
  pose proof (nvm_checksum_range _ _ _ Ec) as Hc.
  destruct (Z.ltb_spec c 0); [unfold in_range in Hc; lia|]. cbv zeta. rewrite land_ffff by done.
  wp_step. eapply wp_mono; [apply (read_as_before w); [done|done]|]. intros r2 w3 [Hw3 Hr2].
  change IXGBE_EEPROM_CHECKSUM with 0x3F in Hr2.
  destruct (Z.ltb_spec 0x3F (nv_size w)).
  - rewrite Hr2. cbn [fst snd]. change (negb (IXGBE_SUCCESS =? 0)) with false. cbv iota.
    apply wp_ret. split; [done|]. intros _. by destruct (nv_word w 0x3F =? c).
  - destruct (negb (fst r2 =? 0)); apply wp_ret; (split; [done|lia]).
Qed.

(** sections that neither start at nor contain the checksum word *)
Definition checksum_apart (word : Z -> Z) : Prop := forall i, 3 <= i < 15 ->
  let p := word i in p <> 0x3F /\ (p < 0x3F -> p + word p < 0x3F).

Lemma nvm_checksum_ext size f g : (forall a, a <> 0x3F -> f a = g a) -> checksum_apart f ->
  nvm_checksum size f = nvm_checksum size g.
Proof using.
  intros E Ha. unfold nvm_checksum. destruct (size <=? 0x3E); [done|].
  assert (forall l, (forall i, In i l -> 3 <= i < 15) ->
    pointer_words size f l = pointer_words size g l) as Hp.
  { intros l Hl. induction l as [|i l IH]; [done|]. simpl.
    rewrite IH by (intros j Hj; apply Hl; by right).
    destruct (Ha i) as [H1 H2]; [apply Hl; by left|]. cbv zeta in *.
    assert (Hi : 3 <= i < 15) by (apply Hl; by left).
    rewrite <- (E i) by lia. set (p := f i) in *. unfold section_words.
    rewrite <- (E p) by done.
    destruct ((p =? 0xFFFF) || (p =? 0)); [done|]. destruct (size <=? p); [done|].
    destruct ((f p =? 0xFFFF) || (f p =? 0)); [done|]. destruct (size <=? p + f p); [done|].
    enough (f <$> seqZ (p + 1) (f p) = g <$> seqZ (p + 1) (f p)) as -> by done.
    apply list_fmap_ext. intros k x Hx. apply E.
    apply lookup_seqZ in Hx. lia. }
  rewrite Hp by (intros i Hi; apply list_elem_of_In, elem_of_seqZ in Hi; lia).
  assert (f <$> seqZ 0 63 = g <$> seqZ 0 63) as ->; [|done].
  apply list_fmap_ext. intros k x Hx. apply E. apply lookup_seqZ in Hx. lia.
Qed.

Lemma nvm_checksum_same size f g : (forall a, f a = g a) -> nvm_checksum size f = nvm_checksum size g.
Proof using.
  intros E. unfold nvm_checksum. destruct (size <=? 0x3E); [done|].
  assert (Hm : forall l : list Z, f <$> l = g <$> l) by (intros l; apply list_fmap_ext; intros; apply E).
  assert (Hp : forall l, pointer_words size f l = pointer_words size g l).
  { intros l. induction l as [|i l IH]; [done|]. simpl. rewrite IH, <- (E i). unfold section_words.
    by rewrite <- (E (f i)), Hm. }
  by rewrite Hp, Hm.
Qed.

(** C19: when every section lies inside the part,
    [ixgbe_update_eeprom_checksum_generic] succeeds: it stores the checksum of the
    contents in word 0x3F and changes no other word.
    [ixgbe_validate_eeprom_checksum_generic] then compares that word with the
    checksum of the new contents and reports the latter.  If no section starts at
    or covers word 0x3F the two are the same and it accepts; a section that does
    cover it may change the sum, and then the check rejects what the update wrote
    ([covered_checksum_rejected]). *)
Theorem update_then_validate w c : nv_ok w -> 0x3F < nv_size w ->
  nvm_checksum (nv_size w) (nv_word w) = Some c ->
  wp (ret ← ixgbe_update_eeprom_checksum_generic nv_read nv_write
              (ixgbe_calc_eeprom_checksum_generic nv_read);
      r ← ixgbe_validate_eeprom_checksum_generic nv_read (ixgbe_calc_eeprom_checksum_generic nv_read);
      mret (ret, r))
    (fun x w' => x.1 = IXGBE_SUCCESS /\
       nv_word w' 0x3F = c /\ (forall a, a <> 0x3F -> nv_word w' a = nv_word w a) /\
       x.2 = match nvm_checksum (nv_size w) (nv_word w') with
             | Some c' => (if c =? c' then IXGBE_SUCCESS else IXGBE_ERR_EEPROM_CHECKSUM, Some c')
             | None => (IXGBE_ERR_EEPROM, None)
             end /\
       (checksum_apart (nv_word w) -> x.2 = (IXGBE_SUCCESS, Some c))) w.
Proof using.
  intros Hok Hs Ec. pose proof (as_before_refl w Hok) as Hw.
  pose proof (nvm_checksum_range _ _ _ Ec) as Hc.
  wp_step. unfold ixgbe_update_eeprom_checksum_generic.
  wp_step. eapply wp_mono; [apply (read_as_before w); [done|lia]|]. intros r w1 [Hw1 Hr].
  destruct (Z.ltb_spec 0 (nv_size w)); [|lia].
  rewrite Hr. cbn [fst]. change (negb (IXGBE_SUCCESS =? 0)) with false. cbv iota. wp_step.
  eapply wp_mono; [by apply (calc_checksum_effect w)|]. intros ret w2 [(Hok2 & Hs2 & Hw2) ->].
  rewrite Ec. destruct (Z.ltb_spec c 0); [unfold in_range in Hc; lia|]. rewrite land_ffff by done.
  change IXGBE_EEPROM_CHECKSUM with 0x3F.
  eapply wp_mono; [apply nv_write_in; [done|rewrite Hs2; lia|done]|].
  intros ret w3 (-> & Hok3 & Hs3 & Hw3). wp_step.
  assert (H3F : nv_word w3 0x3F = c) by by rewrite Hw3, decide_True.
  assert (Hne : forall a, a <> 0x3F -> nv_word w3 a = nv_word w a)
    by (intros a Ha'; by rewrite Hw3, decide_False, Hw2 by done).
  assert (Hap : checksum_apart (nv_word w) -> nvm_checksum (nv_size w) (nv_word w3) = Some c).
  { intros Ha. rewrite <- Ec. symmetry. apply nvm_checksum_ext; [|done]. intros a Ha'. by rewrite Hne. }
  eapply wp_mono; [by apply validate_effect|]. intros x w4 [(_ & _ & Hw4) Hx]. rewrite Hs3, Hs2 in Hx.
  apply wp_ret. cbn [fst snd]. split; [done|]. split; [by rewrite Hw4|]. split; [intros a Ha'; by rewrite Hw4, Hne|].
  assert (Ex : nvm_checksum (nv_size w) (nv_word w4) = nvm_checksum (nv_size w) (nv_word w3)).
  { by apply nvm_checksum_same. }
  rewrite Ex. assert (Hv : x = match nvm_checksum (nv_size w) (nv_word w3) with
             | Some c' => (if c =? c' then IXGBE_SUCCESS else IXGBE_ERR_EEPROM_CHECKSUM, Some c')
             | None => (IXGBE_ERR_EEPROM, None) end).
  { destruct (nvm_checksum (nv_size w) (nv_word w3)) as [c'|]; [|done]. rewrite Hx by done. by rewrite H3F. }
  split; [done|]. intros Ha. rewrite Hv, (Hap Ha). by rewrite Z.eqb_refl.
Qed.
End ChecksumTheorems.

(** ** EERD and EEWR implement the interface

    What the code relies on: a read command is answered, after at most
    [ee_latency] polls, with the done bit and the word; a write command is
    complete after as many; the address field has 14 bits. *)
Definition ee_latency : Z := 1000.

Class EerdDevice (D : Mmio) := {
  ee_word : dev -> Z -> Z;
  ee_addr : dev -> Z;
  ee_left : dev -> Z;
  ew_left : dev -> Z;
  ee_word_range d a : in_range 16 (ee_word d a);
  ee_left_range d : 0 <= ee_left d <= ee_latency;
  ew_left_range d : 0 <= ew_left d <= ee_latency;
  ee_start d a : 0 <= a < 2 ^ 14 ->
    let d' := dev_write d IXGBE_EERD (Z.lor (Z.shiftl a 2) IXGBE_EEPROM_RW_REG_START) in
    ee_addr d' = a /\ forall b, ee_word d' b = ee_word d b;
  ee_poll d :
    let '(v, d') := dev_read d IXGBE_EERD in
    ee_addr d' = ee_addr d /\ (forall b, ee_word d' b = ee_word d b) /\ in_range 32 v /\
    if decide (ee_left d = 0)
    then v = Z.lor (Z.lor (Z.shiftl (ee_word d (ee_addr d)) 16) (Z.shiftl (ee_addr d) 2))
                   IXGBE_EEPROM_RW_REG_DONE /\ ee_left d' = 0
    else has v IXGBE_EEPROM_RW_REG_DONE = false /\ ee_left d' < ee_left d;
  ew_start d a x : 0 <= a < 2 ^ 14 -> in_range 16 x ->
    let d' := dev_write d IXGBE_EEWR (Z.lor (Z.lor (Z.shiftl a 2) (Z.shiftl x 16))
                                            IXGBE_EEPROM_RW_REG_START) in
    forall b, ee_word d' b = if decide (b = a) then x else ee_word d b;
  ew_poll d :
    let '(v, d') := dev_read d IXGBE_EEWR in
    (forall b, ee_word d' b = ee_word d b) /\ in_range 32 v /\ Z.testbit v 0 = false /\
    if decide (ew_left d = 0)
    then has v IXGBE_EEPROM_RW_REG_DONE = true /\ ew_left d' = 0
    else has v IXGBE_EEPROM_RW_REG_DONE = false /\ ew_left d' < ew_left d;
  ee_delay d us : ee_addr (dev_delay d us) = ee_addr d /\
    (forall b, ee_word (dev_delay d us) b = ee_word d b) /\
    ee_left (dev_delay d us) <= ee_left d /\ ew_left (dev_delay d us) <= ew_left d;
}.

Section Eerd.
Context `{D : Mmio} `{!EerdDevice D}.

(** the adapter is there and its EEPROM parameters are known *)
Record eerd_ok (w : world) : Prop := {
  eo_addr : hw_addr (w_hw w) = true;
  eo_sgmii : has (nw_mng_if_sel (phy (w_hw w))) IXGBE_NW_MNG_IF_SEL_SGMII_ENABLE = false;
  eo_init : eeprom_type (eeprom (w_hw w)) <> ixgbe_eeprom_uninitialized;
  eo_size : word_size (eeprom (w_hw w)) <= 2 ^ 14;
}.

(** a read whose value is neither of the two suspicious ones is one access *)
Lemma wp_read_value r (Q : Z -> world -> Prop) w : eerd_ok w ->
  (let '(v, d) := dev_read (w_dev w) r in
   in_range 32 v /\ v <> IXGBE_FAILED_READ_REG /\ v <> IXGBE_DEAD_READ_REG /\
   forall log, Q v (mk_world _ (w_hw w) d log)) ->
  wp (IXGBE_READ_REG r) Q w.
Proof using.
  intros [Ha Hg _ _] H. unfold IXGBE_READ_REG, ixgbe_read_reg. wp_step. apply wp_get_hw.
  rewrite Ha, Hg. cbn [IXGBE_REMOVED negb]. unfold ixgbe_read_reg_writes_completed.
  wp_step. apply wp_readl. intros v d E. rewrite E in H. destruct H as (Hv & N1 & N2 & HQ).
  rewrite trunc_small by done. apply Z.eqb_neq in N1, N2. rewrite N1. do 2 wp_step.
  rewrite N2. apply wp_ret. apply HQ.
Qed.

Lemma wp_write_value r v (Q : unit -> world -> Prop) w : eerd_ok w ->
  (forall log, Q tt (mk_world _ (w_hw w) (dev_write (w_dev w) r (u32 v)) log)) ->
  wp (IXGBE_WRITE_REG r v) Q w.
Proof using.
  intros [Ha _ _ _] HQ. unfold IXGBE_WRITE_REG. wp_step. apply wp_get_hw. rewrite Ha.
  apply wp_writel, HQ.
Qed.

(** values without the done bit or with bit 0 clear are not suspicious *)
Lemma not_suspicious v : Z.testbit v 0 = false \/ has v IXGBE_EEPROM_RW_REG_DONE = false ->
  v <> IXGBE_FAILED_READ_REG /\ v <> IXGBE_DEAD_READ_REG.
Proof using. intros H. split; intros ->; by destruct H. Qed.

(** what the access functions need of [hw->eeprom.ops.init_params]: nothing
    happens once the parameters are known *)
Class EepInit (init_params : M Z) : Prop :=
  init_params_done w : eerd_ok w -> init_params w = Done IXGBE_SUCCESS w.

#[export] Instance init_generic_done : EepInit ixgbe_init_eeprom_params_generic.
Proof using.
  intros w [_ _ Hi _]. unfold ixgbe_init_eeprom_params_generic, mbind, comp_bind, get_hw, gets.
  rewrite bool_decide_eq_false_2 by done. done.
Qed.

Context (init_params : M Z) `{!EepInit init_params}.

(** same software state and same words *)
Definition ee_same (w w' : world) : Prop :=
  w_hw w' = w_hw w /\ forall a, ee_word (w_dev w') a = ee_word (w_dev w) a.

Lemma ee_same_ok w w' : eerd_ok w -> ee_same w w' -> eerd_ok w'.
Proof using. intros [] [E _]. split; by rewrite E. Qed.
Lemma ee_same_trans w1 w2 w3 : ee_same w1 w2 -> ee_same w2 w3 -> ee_same w1 w3.
Proof using. intros [E1 H1] [E2 H2]. split; [congruence|]. intros a. by rewrite H2. Qed.

Lemma poll_read_effect w : eerd_ok w ->
  wp (ixgbe_poll_eerd_eewr_done IXGBE_NVM_POLL_READ) (fun ret w' => ret = IXGBE_SUCCESS /\
    ee_same w w' /\ ee_addr (w_dev w') = ee_addr (w_dev w) /\ ee_left (w_dev w') = 0) w.
Proof using.
  intros Hok. unfold ixgbe_poll_eerd_eewr_done. wp_step. eapply wp_mono.
  { apply wp_for_break with
      (Inv := fun k _ w' => ee_same w w' /\ ee_addr (w_dev w') = ee_addr (w_dev w) /\
                            ee_left (w_dev w') + k <= ee_latency)
      (Q := fun r w' => r = inr tt /\ ee_same w w' /\ ee_addr (w_dev w') = ee_addr (w_dev w) /\
                        ee_left (w_dev w') = 0).
    - split; [done|]. split; [done|]. pose proof (ee_left_range (w_dev w)). lia.
    - intros k _ w1 Hk (Hs & Ha & Hl). wp_step. cbn [Z.eqb IXGBE_NVM_POLL_READ].
      apply wp_read_value; [by eapply ee_same_ok|].
      pose proof (ee_poll (w_dev w1)) as Hp. destruct (dev_read (w_dev w1) IXGBE_EERD) as [v d].
      destruct Hp as (Hpa & Hpw & Hv & Hp). split; [done|].
      assert (Hs1 : forall log, ee_same w (mk_world _ (w_hw w1) d log)).
      { intros log. eapply ee_same_trans; [exact Hs|]. split; done. }
      destruct (decide (ee_left (w_dev w1) = 0)) as [E|E].
      + destruct Hp as [-> Hd]. split; [|split].
        1,2: apply not_suspicious; left; rewrite !Z.lor_spec, !Z.shiftl_spec by lia;
             rewrite !Z.testbit_neg_r by lia; done.
        intros log. rewrite has_lor_r by done. apply wp_ret. split; [done|]. split; [apply Hs1|].
        simpl. split; [congruence|done].
      + destruct Hp as [Hn Hd]. apply and_assoc. split; [apply not_suspicious; by right|].
        intros log. rewrite Hn. wp_step. apply wp_udelay, wp_ret. simpl.
        pose proof (ee_delay d 5) as (D1 & D2 & D3 & _). split; [|split; [congruence|lia]].
        split; [apply Hs|]. intros a. simpl. rewrite D2, Hpw. apply Hs.
    - intros u w1 (_ & _ & Hl). change (0 + Z.of_nat _) with 100000 in Hl.
      pose proof (ee_left_range (w_dev w1)). unfold ee_latency in *. lia. }
  intros r w1 (-> & H). by apply wp_ret.
Qed.

Lemma poll_write_effect w : eerd_ok w ->
  wp (ixgbe_poll_eerd_eewr_done IXGBE_NVM_POLL_WRITE) (fun ret w' => ret = IXGBE_SUCCESS /\
    ee_same w w') w.
Proof using.
  intros Hok. unfold ixgbe_poll_eerd_eewr_done. wp_step. eapply wp_mono.
  { apply wp_for_break with
      (Inv := fun k _ w' => ee_same w w' /\ ew_left (w_dev w') + k <= ee_latency)
      (Q := fun r w' => r = inr tt /\ ee_same w w').
    - split; [done|]. pose proof (ew_left_range (w_dev w)). lia.
    - intros k _ w1 Hk (Hs & Hl). wp_step. cbn [Z.eqb IXGBE_NVM_POLL_WRITE IXGBE_NVM_POLL_READ].
      apply wp_read_value; [by eapply ee_same_ok|].
      pose proof (ew_poll (w_dev w1)) as Hp. destruct (dev_read (w_dev w1) IXGBE_EEWR) as [v d].
      destruct Hp as (Hpw & Hv & H0 & Hp). split; [done|].
      apply and_assoc. split; [apply not_suspicious; by left|]. intros log.
      assert (Hs1 : ee_same w (mk_world _ (w_hw w1) d log)).
      { eapply ee_same_trans; [exact Hs|]. split; done. }
      destruct (decide (ew_left (w_dev w1) = 0)) as [E|E].
      + destruct Hp as [-> Hd]. by apply wp_ret.
      + destruct Hp as [-> Hd]. wp_step. apply wp_udelay, wp_ret. simpl.
        pose proof (ee_delay d 5) as (_ & D2 & _ & D3). split; [|lia].
        split; [apply Hs|]. intros a. simpl. rewrite D2, Hpw. apply Hs.
    - intros u w1 (_ & Hl). change (0 + Z.of_nat _) with 100000 in Hl.
      pose proof (ew_left_range (w_dev w1)). unfold ee_latency in *. lia. }
  intros r w1 (-> & H). by apply wp_ret.
Qed.

Lemma shl_range x n w : in_range w x -> 0 <= n -> 0 <= w -> in_range (w + n) (Z.shiftl x n).
Proof using.
  intros [H0 H1] Hn Hw. unfold in_range. rewrite Z.shiftl_mul_pow2, Z.pow_add_r by lia.
  assert (0 < 2 ^ n) by (apply Z.pow_pos_nonneg; lia). nia.
Qed.
Lemma range_weaken x w w' : in_range w x -> 0 <= w <= w' -> in_range w' x.
Proof using.
  intros [H0 H1] Hw. split; [done|]. eapply Z.lt_le_trans; [exact H1|]. apply Z.pow_le_mono_r; lia.
Qed.
Lemma shl_range32 x n w : in_range w x -> 0 <= n -> 0 <= w -> w + n <= 32 ->
  in_range 32 (Z.shiftl x n).
Proof using. intros. eapply range_weaken; [by apply (shl_range x n w)|lia]. Qed.

Lemma eerd_data word a : in_range 16 word -> in_range 14 a ->
  u16 (Z.shiftr (Z.lor (Z.lor (Z.shiftl word 16) (Z.shiftl a 2)) IXGBE_EEPROM_RW_REG_DONE)
         IXGBE_EEPROM_RW_REG_DATA) = word.
Proof using.
  intros Hw Ha. apply Z.bits_inj'. intros i Hi. unfold IXGBE_EEPROM_RW_REG_DATA.
  rewrite testbit_trunc, Z.shiftr_spec, !Z.lor_spec, !Z.shiftl_spec by lia.
  rewrite (testbit_range 14 a) by (done || lia).
  change IXGBE_EEPROM_RW_REG_DONE with (bit 1). rewrite testbit_bit by lia.
  destruct (Z.eqb_spec (i + 16) 1); [lia|]. rewrite !orb_false_r.
  replace (i + 16 - 16) with i by lia.
  destruct (Z.ltb_spec i 16); [done|]. by rewrite (testbit_range 16).
Qed.

Definition eewr_write (o v : Z) : M Z :=
  ixgbe_write_eewr_generic init_params o v.

Lemma wp_init {A} (f : Z -> M A) Q w : eerd_ok w ->
  wp (f IXGBE_SUCCESS) Q w -> wp (init_params ≫= f) Q w.
Proof using EepInit0.
  intros Hok H. unfold wp, mbind, comp_bind in *. by rewrite init_params_done.
Qed.

Lemma eerd_read_in w o : eerd_ok w -> 0 <= o < word_size (eeprom (w_hw w)) ->
  wp (read_word init_params o) (fun r w' => r = (IXGBE_SUCCESS, ee_word (w_dev w) o) /\ ee_same w w') w.
Proof using EepInit0.
  intros Hok Ho. pose proof (eo_size w Hok) as Hsz.
  unfold read_word, ixgbe_read_eerd_generic, ixgbe_read_eerd_buffer_generic. wp_step.
  apply wp_init; [done|]. cbn [Z.eqb]. wp_step. apply wp_get_hw.
  destruct (Z.leb_spec (word_size (eeprom (w_hw w))) o); [lia|]. wp_step.
  change (Z.to_nat 1) with 1%nat. rewrite for_break_S. wp_step. wp_step. rewrite Z.add_0_r.
  change IXGBE_EEPROM_RW_ADDR_SHIFT with 2.
  assert (R1 : in_range 32 (Z.shiftl o 2)) by (apply (shl_range32 _ _ 14); unfold in_range; lia).
  apply wp_write_value; [done|]. intros log.
  rewrite (trunc_small 32 (Z.shiftl o 2)), (trunc_small 32 (Z.lor _ _)) by (try apply lor_range; done).
  destruct (ee_start (w_dev w) o) as [Sa Sw]; [lia|].
  set (d1 := dev_write (w_dev w) IXGBE_EERD _) in *. wp_step.
  assert (Hok1 : eerd_ok (mk_world _ (w_hw w) d1 log)) by (by apply (ee_same_ok w)).
  eapply wp_mono; [by apply poll_read_effect|]. intros ret w2 (-> & [Hh2 Hw2] & Ha2 & Hl2).
  cbn in Hh2, Hw2, Ha2. cbn [Z.eqb IXGBE_SUCCESS]. wp_step.
  assert (Hok2 : eerd_ok w2) by (apply (ee_same_ok w); [done|]; split; [done|]; intros a; by rewrite Hw2).
  apply wp_read_value; [done|].
  pose proof (ee_poll (w_dev w2)) as Hp. destruct (dev_read (w_dev w2) IXGBE_EERD) as [v d].
  destruct Hp as (_ & Hpw & Hv & Hp). rewrite decide_True in Hp by done. destruct Hp as [-> _].
  rewrite Ha2, Sa, Hw2, Sw in *. split; [done|]. apply and_assoc. split.
  { apply not_suspicious. left. rewrite !Z.lor_spec, !Z.shiftl_spec by lia.
    by rewrite !Z.testbit_neg_r by lia. }
  intros log2. rewrite eerd_data by (apply ee_word_range || (unfold in_range; lia)).
  wp_step. apply wp_upd_c; [simpl; lia|]. cbn [Z.to_nat insert list_insert].
  apply wp_ret. cbv [for_break]. do 2 apply wp_ret. wp_step. cbn [snd fst].
  eapply wp_nth_c; [done|done|]. apply wp_ret. split; [done|]. split; [done|]. intros a.
  cbn [w_dev]. by rewrite Hpw, Hw2.
Qed.

Lemma eerd_read_out w o : eerd_ok w -> word_size (eeprom (w_hw w)) <= o ->
  wp (read_word init_params o) (fun r w' => fst r = IXGBE_ERR_EEPROM /\ ee_same w w') w.
Proof using EepInit0.
  intros Hok Ho. unfold read_word, ixgbe_read_eerd_generic, ixgbe_read_eerd_buffer_generic. wp_step.
  apply wp_init; [done|]. cbn [Z.eqb]. wp_step. apply wp_get_hw.
  destruct (Z.leb_spec (word_size (eeprom (w_hw w))) o); [|lia]. by wp_step.
Qed.

Lemma eewr_write_in w o v : eerd_ok w -> 0 <= o < word_size (eeprom (w_hw w)) -> in_range 16 v ->
  wp (eewr_write o v) (fun r w' => r = IXGBE_SUCCESS /\ w_hw w' = w_hw w /\
    forall a, ee_word (w_dev w') a = if decide (a = o) then v else ee_word (w_dev w) a) w.
Proof using EepInit0.
  intros Hok Ho Hv. pose proof (eo_size w Hok) as Hsz.
  unfold eewr_write, ixgbe_write_eewr_generic, ixgbe_write_eewr_buffer_generic.
  apply wp_init; [done|]. cbn [Z.eqb]. wp_step. apply wp_get_hw.
  destruct (Z.leb_spec (word_size (eeprom (w_hw w))) o); [lia|]. wp_step.
  change (Z.to_nat 1) with 1%nat. rewrite for_break_S. wp_step. wp_step.
  apply (wp_nth_c _ _ v); [done|done|]. rewrite Z.add_0_r.
  change IXGBE_EEPROM_RW_ADDR_SHIFT with 2. change IXGBE_EEPROM_RW_REG_DATA with 16.
  assert (R1 : in_range 32 (Z.shiftl o 2)) by (apply (shl_range32 _ _ 14); unfold in_range; lia).
  assert (R2 : in_range 32 (Z.shiftl v 16)) by (apply (shl_range32 _ _ 16); done || lia).
  rewrite (trunc_small 32 (Z.shiftl o 2)), (trunc_small 32 (Z.shiftl v 16)) by done.
  wp_step. eapply wp_mono; [by apply poll_write_effect|]. intros ret w1 (-> & Hs1).
  cbn [Z.eqb IXGBE_SUCCESS negb]. pose proof (ee_same_ok _ _ Hok Hs1) as Hok1.
  wp_step. apply wp_write_value; [done|]. intros log.
  rewrite trunc_small by (repeat apply lor_range; done).
  pose proof (ew_start (w_dev w1) o v ltac:(lia) Hv) as Hw. cbv zeta in Hw.
  set (d1 := dev_write (w_dev w1) IXGBE_EEWR _) in *. destruct Hs1 as [Hh1 Hw1].
  assert (Hok2 : eerd_ok (mk_world _ (w_hw w1) d1 log)) by (destruct Hok1; by split).
  wp_step. eapply wp_mono; [by apply poll_write_effect|]. intros ret w2 (-> & [Hh2 Hw2]).
  cbn in Hh2, Hw2. cbn [Z.eqb IXGBE_SUCCESS negb].
  apply wp_ret. cbv [for_break]. do 2 apply wp_ret.
  split; [done|]. split; [congruence|]. intros a. by rewrite Hw2, Hw, Hw1.
Qed.

(** the EERD/EEWR functions discharge the checksum code's interface *)
#[export] Instance eerd_nvm : NvmOps.
Proof using EerdDevice0 EepInit0.
  refine {| nv_read := read_word init_params; nv_write := eewr_write; nv_ok := eerd_ok;
            nv_size w := word_size (eeprom (w_hw w)); nv_word w := ee_word (w_dev w) |}.
  - intros w [_ _ _ H]. lia.
  - intros w o _. apply ee_word_range.
  - intros w o Hok Ho. eapply wp_mono; [by apply eerd_read_in|]. intros r w' (-> & Hs).
    split; [done|]. split; [exact (ee_same_ok _ _ Hok Hs)|]. destruct Hs as [-> ?]. done.
  - intros w o Hok Ho. eapply wp_mono; [apply eerd_read_out; [done|lia]|]. intros r w' (E & Hs).
    split; [done|]. split; [exact (ee_same_ok _ _ Hok Hs)|]. destruct Hs as [-> ?]. done.
  - intros w o v Hok Ho Hv. eapply wp_mono; [by apply eewr_write_in|]. intros r w' (-> & Hh & Hw).
    split; [done|]. split; [destruct Hok; split; by rewrite Hh|]. by rewrite Hh.
Defined.

End Eerd.

Section RoundTrip.
Context `{D : Mmio} `{!EerdDevice D}.

(** A word written with [ixgbe_write_eewr_generic] is read back by
    [ixgbe_read_eerd_generic], and no other word changes. *)
Theorem eewr_eerd_roundtrip w o v : eerd_ok w -> 0 <= o < word_size (eeprom (w_hw w)) ->
  in_range 16 v ->
  wp (s ← ixgbe_write_eewr_generic ixgbe_init_eeprom_params_generic o v;
      r ← ixgbe_read_eerd_generic ixgbe_init_eeprom_params_generic o [0];
      x ← nth_c (snd r) 0; mret (s, fst r, x))
    (fun x w' => x = (IXGBE_SUCCESS, IXGBE_SUCCESS, v) /\
       forall a, a <> o -> ee_word (w_dev w') a = ee_word (w_dev w) a) w.
Proof using.
  intros Hok Ho Hv. wp_step. eapply wp_mono; [by apply (eewr_write_in _)|].
  intros s w1 (-> & Hh & Hw).
  assert (Hok1 : eerd_ok w1) by (destruct Hok; split; by rewrite Hh).
  pose proof (eerd_read_in ixgbe_init_eeprom_params_generic w1 o Hok1 ltac:(by rewrite Hh)) as H. unfold read_word in H.
  unfold wp, mbind, comp_bind in *.
  destruct (ixgbe_read_eerd_generic _ o [0] w1) as [r w2|]; [|done].
  destruct (nth_c (snd r) 0 w2) as [x w3|]; [|done]. cbn in *. destruct H as [[= E1 E2] [_ Hs]].
  rewrite E1, E2, Hw, decide_True by done. split; [done|]. intros a Ha.
  by rewrite Hs, Hw, decide_False.
Qed.
End RoundTrip.

(** ** Witnesses: a part that answers after three polls *)
Record nvm_dev := mk_nvm { nd_words : Z -> Z; nd_addr : Z; nd_left : nat }.
Definition nd_count (d : nvm_dev) : nat := (nd_left d mod 4)%nat.
Definition nd_a (d : nvm_dev) : Z := trunc 14 (nd_addr d).

#[local] Instance nvm_part : Mmio := {|
  dev := nvm_dev;
  dev_read d r :=
    if r =? IXGBE_EERD then
      match nd_count d with
      | O => (Z.lor (Z.lor (Z.shiftl (u16 (nd_words d (nd_a d))) 16) (Z.shiftl (nd_a d) 2))
                IXGBE_EEPROM_RW_REG_DONE, mk_nvm (nd_words d) (nd_addr d) O)
      | S n => (0, mk_nvm (nd_words d) (nd_addr d) n)
      end
    else if r =? IXGBE_EEWR then (IXGBE_EEPROM_RW_REG_DONE, d) else (0, d);
  dev_write d r v :=
    if r =? IXGBE_EERD then mk_nvm (nd_words d) (Z.shiftr v 2) 3
    else if r =? IXGBE_EEWR then
      mk_nvm (fun b => if decide (b = trunc 14 (Z.shiftr v 2)) then u16 (Z.shiftr v 16)
                       else nd_words d b) (nd_addr d) (nd_left d)
    else d;
  dev_delay d _ := d;
|}.

Lemma cmd_addr a x : in_range 14 a -> trunc 14 (Z.shiftr (Z.lor (Z.lor (Z.shiftl a 2) (Z.shiftl x 16))
  IXGBE_EEPROM_RW_REG_START) 2) = a.
Proof.
  intros Ha. apply Z.bits_inj'. intros i Hi.
  rewrite testbit_trunc, Z.shiftr_spec, !Z.lor_spec, !Z.shiftl_spec by lia.
  change IXGBE_EEPROM_RW_REG_START with (bit 0). rewrite testbit_bit by lia.
  destruct (Z.eqb_spec (i + 2) 0); [lia|]. replace (i + 2 - 2) with i by lia.
  destruct (Z.ltb_spec i 14); [|by rewrite (testbit_range 14)].
  rewrite (Z.testbit_neg_r x) by lia. by rewrite !orb_false_r.
Qed.

Lemma cmd_data a x : in_range 14 a -> in_range 16 x -> u16 (Z.shiftr (Z.lor (Z.lor (Z.shiftl a 2)
  (Z.shiftl x 16)) IXGBE_EEPROM_RW_REG_START) 16) = x.
Proof.
  intros Ha Hx. apply Z.bits_inj'. intros i Hi.
  rewrite testbit_trunc, Z.shiftr_spec, !Z.lor_spec, !Z.shiftl_spec by lia.
  change IXGBE_EEPROM_RW_REG_START with (bit 0). rewrite testbit_bit by lia.
  destruct (Z.eqb_spec (i + 16) 0); [lia|]. rewrite (testbit_range 14 a) by (done || lia).
  replace (i + 16 - 16) with i by lia. rewrite orb_false_r.
  destruct (Z.ltb_spec i 16); [done|]. by rewrite (testbit_range 16).
Qed.

#[local] Instance nvm_part_eerd : EerdDevice nvm_part.
Proof.
  refine {| ee_word := fun (d : @dev nvm_part) a => u16 (nd_words d a);
            ee_addr := fun (d : @dev nvm_part) => nd_a d;
            ee_left := fun (d : @dev nvm_part) => Z.of_nat (nd_count d);
            ew_left := fun (d : @dev nvm_part) => 0 |}.
  - intros d a. by apply trunc_range.
  - intros d. pose proof (Nat.mod_upper_bound (nd_left d) 4). unfold nd_count, ee_latency. lia.
  - done.
  - intros d a Ha. split; [|done]. unfold nd_a. cbn -[trunc Z.lor Z.shiftl Z.shiftr].
    pose proof (cmd_addr a 0 Ha) as E. by rewrite Z.shiftl_0_l, Z.lor_0_r in E.
  - intros d. cbn -[trunc Z.lor Z.shiftl Z.shiftr nd_count Nat.modulo].
    assert (Hc : (nd_count d < 4)%nat) by (apply Nat.mod_upper_bound; lia).
    assert (Ha : in_range 14 (nd_a d)) by (by apply trunc_range).
    destruct (nd_count d) as [|n] eqn:E; split; [done| |done|].
    + split; [done|]. split; [|by rewrite decide_True].
      repeat apply lor_range; try done.
      * apply (shl_range32 _ _ 16); [by apply trunc_range|lia..].
      * apply (shl_range32 _ _ 14); done || lia.
    + split; [done|]. split; [done|]. rewrite decide_False by lia. split; [done|].
      unfold nd_count. cbn [nd_left]. rewrite Nat.mod_small by lia. lia.
  - intros d a x Ha Hx b. cbn -[trunc Z.lor Z.shiftl Z.shiftr decide decide_rel].
    rewrite cmd_addr, cmd_data by done. intros c. case_decide; [|done]. by apply trunc_small.
  - intros d. cbn -[trunc Z.lor Z.shiftl Z.shiftr decide decide_rel]. by rewrite decide_True.
  - done.
Defined.

Definition hw_nvm : ixgbe_hw := upd_eeprom (mk_eeprom ixgbe_eeprom_spi 10 128 16 0 0) hw0.

(** a part with one section: two words behind the pointer at 3 *)
Definition nvm_words (a : Z) : Z :=
  match a with 3 => 0x50 | 0x50 => 2 | 0x51 => 0x1111 | 0x52 => 0x2222 | _ => 0 end.
Definition wnvm : world (H := nvm_part) := mk_world nvm_part hw_nvm (mk_nvm nvm_words 0 0) [].

Lemma wnvm_ok : eerd_ok wnvm.
Proof. by split. Qed.

#[local] Instance wnvm_ops : NvmOps (D := nvm_part) := eerd_nvm ixgbe_init_eeprom_params_generic.

Lemma calc_checksum_spec_witness :
  wp (ixgbe_calc_eeprom_checksum_generic nv_read)
    (fun ret _ => ret = 0x8737) wnvm.
Proof.
  eapply wp_mono; [exact (calc_checksum_spec wnvm wnvm_ok)|].
  intros ret w' [_ ->]. vm_compute. reflexivity.
Defined.

Lemma update_then_validate_witness :
  wp (ret ← ixgbe_update_eeprom_checksum_generic nv_read nv_write
              (ixgbe_calc_eeprom_checksum_generic nv_read);
      r ← ixgbe_validate_eeprom_checksum_generic nv_read (ixgbe_calc_eeprom_checksum_generic nv_read);
      mret (ret, r))
    (fun x _ => x = (IXGBE_SUCCESS, (IXGBE_SUCCESS, Some 0x8737))) wnvm.
Proof.
  eapply wp_mono; [apply (@update_then_validate nvm_part wnvm_ops wnvm 0x8737 wnvm_ok)|].
  - reflexivity.
  - vm_compute. reflexivity.
  - intros [r1 r2] w' (E1 & _ & _ & _ & E2). cbn [fst snd] in *. rewrite E1, E2; [reflexivity|]. intros i Hi.
    assert (i = 3 \/ 4 <= i < 15) as [-> |Hi'] by lia; [vm_compute; split; [discriminate|discriminate]|].
    assert (E : nv_word wnvm i = 0).
    { assert (HF : Forall (fun j => nv_word wnvm j = 0) (seqZ 4 11)) by (repeat constructor).
      apply (proj1 (List.Forall_forall _ _) HF), list_elem_of_In, elem_of_seqZ. lia. }
    cbv zeta. rewrite E. vm_compute. split; [discriminate|reflexivity].
Defined.

(** a section of one word, the checksum word itself: word 3 points to 0x3E, whose
    length is 1.  The update succeeds and the check then fails. *)
Definition covered_words (a : Z) : Z := match a with 3 => 0x3E | 0x3E => 1 | _ => 0 end.
Example covered_checksum_rejected :
  match (ret ← ixgbe_update_eeprom_checksum_generic nv_read nv_write
              (ixgbe_calc_eeprom_checksum_generic nv_read);
         r ← ixgbe_validate_eeprom_checksum_generic nv_read (ixgbe_calc_eeprom_checksum_generic nv_read);
         mret (ret, fst r)) (mk_world nvm_part hw_nvm (mk_nvm covered_words 0 0) []) with
  | Done x _ => x = (IXGBE_SUCCESS, IXGBE_ERR_EEPROM_CHECKSUM)
  | Fault _ => False
  end.
Proof. by vm_compute. Qed.

Lemma eewr_eerd_roundtrip_witness :
  wp (s ← ixgbe_write_eewr_generic (D := nvm_part) ixgbe_init_eeprom_params_generic 0x20 0xCAFE;
      r ← ixgbe_read_eerd_generic ixgbe_init_eeprom_params_generic 0x20 [0];
      x ← nth_c (snd r) 0; mret (s, fst r, x))
    (fun x _ => x = (IXGBE_SUCCESS, IXGBE_SUCCESS, 0xCAFE)) wnvm.
Proof.
  eapply wp_mono; [apply (eewr_eerd_roundtrip wnvm 0x20 0xCAFE wnvm_ok)|].
  - split; [discriminate|reflexivity].
  - split; [discriminate|reflexivity].
  - intros x w' [-> _]. reflexivity.
Defined.
