(* ===== verification/FlowControl.v ===== *)
(** * Flow control (ixgbe_common.c)

    Advertising, negotiating and enabling 802.3x pause frames.  The functions
    reached through [hw->mac.ops] and [hw->phy.ops] are section variables. *)
From S2P Require Import Prelude Regs Types Osdep.

Section FlowControl.
Context `{D : Mmio}.

(** [hw->mac.ops.check_link(hw, &speed, &link_up, false)] *)
Context (check_link : M (Z * bool)).
(** [hw->phy.ops.read_reg]: register, device, content of the variable before;
    its content after *)
Context (phy_read_reg : Z -> Z -> Z -> M Z).
(** [hw->phy.ops.write_reg]: register, device, value *)
Context (phy_write_reg : Z -> Z -> Z -> M unit).
(** [hw->mac.ops.prot_autoc_read]: status, [locked], AUTOC *)
Context (prot_autoc_read : M (Z * bool * Z)).
(** [hw->mac.ops.prot_autoc_write]: AUTOC, [locked] *)
Context (prot_autoc_write : Z -> bool -> M Z).

Definition mod_fc (f : ixgbe_fc_info -> ixgbe_fc_info) : M unit :=
  upd_hw (fun h => upd_fc (f (fc h)) h).

(** the condition [hw->fc.current_mode & ixgbe_fc_tx_pause] *)
Definition sends_pause (m : ixgbe_fc_mode) : bool := has (fc_mode_val m) (fc_mode_val ixgbe_fc_tx_pause).

Definition ixgbe_device_supports_autoneg_fc : M bool :=
  h ← get_hw;
  match media_type (phy h) with
  | ixgbe_media_type_fiber_qsfp | ixgbe_media_type_fiber =>
      if existsb (Z.eqb (device_id h))
           [IXGBE_DEV_ID_X550EM_A_SFP; IXGBE_DEV_ID_X550EM_A_SFP_N; IXGBE_DEV_ID_X550EM_A_QSFP;
            IXGBE_DEV_ID_X550EM_A_QSFP_N; IXGBE_DEV_ID_E610_SFP]
      then mret false
      else
        r ← check_link;
        let '(speed, link_up) := r in
        mret (if link_up : bool then speed =? IXGBE_LINK_SPEED_1GB_FULL else true)
  | ixgbe_media_type_backplane =>
      mret (negb (device_id h =? IXGBE_DEV_ID_X550EM_X_XFI))
  | ixgbe_media_type_copper =>
      mret (existsb (Z.eqb (device_id h))
              [IXGBE_DEV_ID_82599_T3_LOM; IXGBE_DEV_ID_X540T; IXGBE_DEV_ID_X540T1;
               IXGBE_DEV_ID_X550T; IXGBE_DEV_ID_X550T1; IXGBE_DEV_ID_X550EM_X_10G_T;
               IXGBE_DEV_ID_X550EM_A_10G_T; IXGBE_DEV_ID_X550EM_A_1G_T;
               IXGBE_DEV_ID_X550EM_A_1G_T_L; IXGBE_DEV_ID_E610_10G_T; IXGBE_DEV_ID_E610_2_5G_T])
  | _ => mret false
  end.

(** the pause bits [sym], [asm] of a [w]-bit advertisement for a mode; [None] is
    the [default] case *)
Definition advertise (w : Z) (mode : ixgbe_fc_mode) (sym asm reg : Z) : option Z :=
  match mode with
  | ixgbe_fc_none => Some (Z.land reg (bnot w (Z.lor sym asm)))
  | ixgbe_fc_tx_pause => Some (Z.land (Z.lor reg asm) (bnot w sym))
  | ixgbe_fc_rx_pause | ixgbe_fc_full => Some (Z.lor reg (Z.lor sym asm))
  | _ => None
  end.

Definition ixgbe_setup_fc_generic : M Z :=
  h ← get_hw;
  if strict_ieee (fc h) && bool_decide (requested_mode (fc h) = ixgbe_fc_rx_pause)
  then mret IXGBE_ERR_INVALID_LINK_SETTINGS
  else
    (if bool_decide (requested_mode (fc h) = ixgbe_fc_default)
     then mod_fc (upd_requested_mode ixgbe_fc_full) else mret tt) ;;
    h ← get_hw;
    let media := media_type (phy h) in
    (* reg, reg_bp, reg_cu, locked; inr is goto out *)
    r ← (match media with
         | ixgbe_media_type_backplane =>
             x ← prot_autoc_read;
             let '(ret_val, locked, reg_bp) := x in
             if negb (ret_val =? IXGBE_SUCCESS) then mret (inr ret_val)
             else
               reg ← IXGBE_READ_REG IXGBE_PCS1GANA;
               mret (inl (reg, reg_bp, 0, locked))
         | ixgbe_media_type_fiber_qsfp | ixgbe_media_type_fiber =>
             reg ← IXGBE_READ_REG IXGBE_PCS1GANA;
             mret (inl (reg, 0, 0, false))
         | ixgbe_media_type_copper =>
             reg_cu ← phy_read_reg IXGBE_MDIO_AUTO_NEG_ADVT IXGBE_MDIO_AUTO_NEG_DEV_TYPE 0;
             mret (inl (0, 0, reg_cu, false))
         | _ => mret (inl (0, 0, 0, false))
         end);
    match r with
    | inr ret_val => mret ret_val
    | inl (reg, reg_bp, reg_cu, locked) =>
        h ← get_hw;
        let mode := requested_mode (fc h) in
        match advertise 32 mode IXGBE_PCS1GANA_SYM_PAUSE IXGBE_PCS1GANA_ASM_PAUSE reg,
              advertise 32 mode IXGBE_AUTOC_SYM_PAUSE IXGBE_AUTOC_ASM_PAUSE reg_bp,
              advertise 16 mode IXGBE_TAF_SYM_PAUSE IXGBE_TAF_ASM_PAUSE reg_cu with
        | Some reg, Some reg_bp, Some reg_cu =>
            (if mac_type_val (mac_type (mac h)) <? mac_type_val ixgbe_mac_X540 then
               IXGBE_WRITE_REG IXGBE_PCS1GANA reg ;;
               reg ← IXGBE_READ_REG IXGBE_PCS1GLCTL;
               let reg := if strict_ieee (fc h)
                          then Z.land reg (bnot 32 IXGBE_PCS1GLCTL_AN_1G_TIMEOUT_EN) else reg in
               IXGBE_WRITE_REG IXGBE_PCS1GLCTL reg
             else mret tt) ;;
            match media with
            | ixgbe_media_type_backplane =>
                prot_autoc_write (Z.lor reg_bp IXGBE_AUTOC_AN_RESTART) locked
            | ixgbe_media_type_copper =>
                sup ← ixgbe_device_supports_autoneg_fc;
                (if sup : bool
                 then phy_write_reg IXGBE_MDIO_AUTO_NEG_ADVT IXGBE_MDIO_AUTO_NEG_DEV_TYPE reg_cu
                 else mret tt) ;;
                mret IXGBE_SUCCESS
            | _ => mret IXGBE_SUCCESS
            end
        | _, _, _ => mret IXGBE_ERR_CONFIG
        end
    end.

Definition ixgbe_negotiate_fc (adv_reg lp_reg adv_sym adv_asm lp_sym lp_asm : Z) : M Z :=
  if (adv_reg =? 0) || (lp_reg =? 0) then mret IXGBE_ERR_FC_NOT_NEGOTIATED
  else
    h ← get_hw;
    (if has adv_reg adv_sym && has lp_reg lp_sym then
       if bool_decide (requested_mode (fc h) = ixgbe_fc_full)
       then mod_fc (upd_current_mode ixgbe_fc_full)
       else mod_fc (upd_current_mode ixgbe_fc_rx_pause)
     else if negb (has adv_reg adv_sym) && has adv_reg adv_asm && has lp_reg lp_sym
             && has lp_reg lp_asm
     then mod_fc (upd_current_mode ixgbe_fc_tx_pause)
     else if has adv_reg adv_sym && has adv_reg adv_asm && negb (has lp_reg lp_sym)
             && has lp_reg lp_asm
     then mod_fc (upd_current_mode ixgbe_fc_rx_pause)
     else mod_fc (upd_current_mode ixgbe_fc_none)) ;;
    mret IXGBE_SUCCESS.

Definition ixgbe_fc_autoneg_fiber : M Z :=
  linkstat ← IXGBE_READ_REG IXGBE_PCS1GLSTA;
  if negb (has linkstat IXGBE_PCS1GLSTA_AN_COMPLETE) || has linkstat IXGBE_PCS1GLSTA_AN_TIMED_OUT
  then mret IXGBE_ERR_FC_NOT_NEGOTIATED
  else
    pcs_anadv_reg ← IXGBE_READ_REG IXGBE_PCS1GANA;
    pcs_lpab_reg ← IXGBE_READ_REG IXGBE_PCS1GANLP;
    ixgbe_negotiate_fc pcs_anadv_reg pcs_lpab_reg IXGBE_PCS1GANA_SYM_PAUSE
      IXGBE_PCS1GANA_ASM_PAUSE IXGBE_PCS1GANA_SYM_PAUSE IXGBE_PCS1GANA_ASM_PAUSE.

Definition ixgbe_fc_autoneg_backplane : M Z :=
  links ← IXGBE_READ_REG IXGBE_LINKS;
  if Z.land links IXGBE_LINKS_KX_AN_COMP =? 0 then mret IXGBE_ERR_FC_NOT_NEGOTIATED
  else
    h ← get_hw;
    ok ← (if bool_decide (mac_type (mac h) = ixgbe_mac_82599EB) then
            links2 ← IXGBE_READ_REG IXGBE_LINKS2;
            mret (negb (Z.land links2 IXGBE_LINKS2_AN_SUPPORTED =? 0))
          else mret true);
    if negb ok then mret IXGBE_ERR_FC_NOT_NEGOTIATED
    else
      autoc_reg ← IXGBE_READ_REG IXGBE_AUTOC;
      anlp1_reg ← IXGBE_READ_REG IXGBE_ANLP1;
      ixgbe_negotiate_fc autoc_reg anlp1_reg IXGBE_AUTOC_SYM_PAUSE IXGBE_AUTOC_ASM_PAUSE
        IXGBE_ANLP1_SYM_PAUSE IXGBE_ANLP1_ASM_PAUSE.

Definition ixgbe_fc_autoneg_copper : M Z :=
  technology_ability_reg ← phy_read_reg IXGBE_MDIO_AUTO_NEG_ADVT IXGBE_MDIO_AUTO_NEG_DEV_TYPE 0;
  lp_technology_ability_reg ← phy_read_reg IXGBE_MDIO_AUTO_NEG_LP IXGBE_MDIO_AUTO_NEG_DEV_TYPE 0;
  ixgbe_negotiate_fc technology_ability_reg lp_technology_ability_reg IXGBE_TAF_SYM_PAUSE
    IXGBE_TAF_ASM_PAUSE IXGBE_TAF_SYM_PAUSE IXGBE_TAF_ASM_PAUSE.

Definition ixgbe_fc_autoneg : M unit :=
  h ← get_hw;
  ret_val ←
    (if disable_fc_autoneg (fc h) then mret IXGBE_ERR_FC_NOT_NEGOTIATED
     else
       r ← check_link;
       let '(speed, link_up) := r in
       if negb link_up then mret IXGBE_ERR_FC_NOT_NEGOTIATED
       else
         match media_type (phy h) with
         | ixgbe_media_type_fiber_qsfp | ixgbe_media_type_fiber =>
             if speed =? IXGBE_LINK_SPEED_1GB_FULL then ixgbe_fc_autoneg_fiber
             else mret IXGBE_ERR_FC_NOT_NEGOTIATED
         | ixgbe_media_type_backplane => ixgbe_fc_autoneg_backplane
         | ixgbe_media_type_copper =>
             sup ← ixgbe_device_supports_autoneg_fc;
             if sup : bool then ixgbe_fc_autoneg_copper else mret IXGBE_ERR_FC_NOT_NEGOTIATED
         | _ => mret IXGBE_ERR_FC_NOT_NEGOTIATED
         end);
  if ret_val =? IXGBE_SUCCESS then mod_fc (upd_fc_was_autonegged true)
  else
    mod_fc (upd_fc_was_autonegged false) ;;
    mod_fc (fun f => upd_current_mode (requested_mode f) f).

(** the water mark check; [inr] is the error exit *)
Definition check_water_marks (h : ixgbe_hw) : M (unit + unit) :=
  for_break (Z.to_nat IXGBE_DCB_MAX_TRAFFIC_CLASS) 0 tt (fun i _ =>
    hi ← nth_c (high_water (fc h)) i;
    if sends_pause (current_mode (fc h)) && negb (hi =? 0) then
      lo ← nth_c (low_water (fc h)) i;
      if (lo =? 0) || (hi <=? lo) then mret (inr tt) else mret (inl tt)
    else mret (inl tt)).

(** [fc_autoneg] is [hw->mac.ops.fc_autoneg] *)
Definition ixgbe_fc_enable_generic (fc_autoneg : M unit) : M Z :=
  h ← get_hw;
  if pause_time (fc h) =? 0 then mret IXGBE_ERR_INVALID_LINK_SETTINGS
  else
    r ← check_water_marks h;
    match r with
    | inr _ => mret IXGBE_ERR_INVALID_LINK_SETTINGS
    | inl _ =>
      fc_autoneg ;;
      mflcn_reg ← IXGBE_READ_REG IXGBE_MFLCN;
      let mflcn_reg := Z.land mflcn_reg (bnot 32 (Z.lor IXGBE_MFLCN_RPFCE_MASK IXGBE_MFLCN_RFCE)) in
      fccfg_reg ← IXGBE_READ_REG IXGBE_FCCFG;
      let fccfg_reg := Z.land fccfg_reg
        (bnot 32 (Z.lor IXGBE_FCCFG_TFCE_802_3X IXGBE_FCCFG_TFCE_PRIORITY)) in
      h ← get_hw;
      match (match current_mode (fc h) with
             | ixgbe_fc_none => Some (mflcn_reg, fccfg_reg)
             | ixgbe_fc_rx_pause => Some (Z.lor mflcn_reg IXGBE_MFLCN_RFCE, fccfg_reg)
             | ixgbe_fc_tx_pause => Some (mflcn_reg, Z.lor fccfg_reg IXGBE_FCCFG_TFCE_802_3X)
             | ixgbe_fc_full => Some (Z.lor mflcn_reg IXGBE_MFLCN_RFCE,
                                      Z.lor fccfg_reg IXGBE_FCCFG_TFCE_802_3X)
             | _ => None
             end) with
      | None => mret IXGBE_ERR_CONFIG
      | Some (mflcn_reg, fccfg_reg) =>
          IXGBE_WRITE_REG IXGBE_MFLCN (Z.lor mflcn_reg IXGBE_MFLCN_DPF) ;;
          IXGBE_WRITE_REG IXGBE_FCCFG fccfg_reg ;;
          for_loop (Z.to_nat IXGBE_DCB_MAX_TRAFFIC_CLASS) 0 (fun i =>
            hi ← nth_c (high_water (fc h)) i;
            fcrth ← (if sends_pause (current_mode (fc h)) && negb (hi =? 0) then
                       lo ← nth_c (low_water (fc h)) i;
                       IXGBE_WRITE_REG (IXGBE_FCRTL_82599 i)
                         (Z.lor (u32 (Z.shiftl lo 10)) IXGBE_FCRTL_XONE) ;;
                       mret (Z.lor (u32 (Z.shiftl hi 10)) IXGBE_FCRTH_FCEN)
                     else
                       IXGBE_WRITE_REG (IXGBE_FCRTL_82599 i) 0 ;;
                       x ← IXGBE_READ_REG (IXGBE_RXPBSIZE i);
                       mret (u32 (x - 24576)));
            IXGBE_WRITE_REG (IXGBE_FCRTH_82599 i) fcrth) ;;
          for_loop (Z.to_nat (IXGBE_DCB_MAX_TRAFFIC_CLASS / 2)) 0 (fun i =>
            IXGBE_WRITE_REG (IXGBE_FCTTV i) (u32 (pause_time (fc h) * 0x00010001))) ;;
          IXGBE_WRITE_REG IXGBE_FCRTV (pause_time (fc h) / 2) ;;
          mret IXGBE_SUCCESS
      end
    end.
End FlowControl.
