(* ===== verification/FcProps.v ===== *)
(** * Properties of flow control

    What [ixgbe_fc_enable_generic] programs, and that two adapters which
    advertise and negotiate with this code agree on who may send pause frames. *)
From stdpp Require Import gmap.
From S2P Require Import Prelude Regs Types Osdep Plain FlowControl.

Definition fc_regs (r : Z) : Prop :=
  r = IXGBE_STATUS \/ 0x3200 <= r < 0x32A4 \/ 0x3C00 <= r < 0x3C20 \/ r = IXGBE_FCCFG \/
  r = IXGBE_MFLCN \/ 0x4200 <= r < 0x4220.

(** honours received pause frames *)
Definition receives_pause (m : ixgbe_fc_mode) : bool :=
  has (fc_mode_val m) (fc_mode_val ixgbe_fc_rx_pause).
Definition fc_valid (m : ixgbe_fc_mode) : bool :=
  match m with ixgbe_fc_pfc | ixgbe_fc_default => false | _ => true end.

Ltac fc_side :=
  unfold fc_regs, IXGBE_FCRTL_82599, IXGBE_FCRTH_82599, IXGBE_RXPBSIZE, IXGBE_FCTTV, IXGBE_FCRTV,
    IXGBE_FCCFG, IXGBE_MFLCN, IXGBE_PCS1GANA, IXGBE_PCS1GANLP, IXGBE_PCS1GLSTA, IXGBE_PCS1GLCTL,
    IXGBE_STATUS in *; lia.
Ltac fc_simpl := repeat first [rewrite set_reg_eq | rewrite set_reg_ne by fc_side].

Section Enable.
Context `{D : Mmio} `{!PlainRegs D fc_regs}.

Ltac pl_step := pl_step_with fc_side.

(** the thresholds of traffic class [i] *)
Definition tc_thresholds (f : ixgbe_fc_info) (s s' : Z -> Z) (i : Z) : Prop :=
  let hi := nth (Z.to_nat i) (high_water f) 0 in
  let lo := nth (Z.to_nat i) (low_water f) 0 in
  if sends_pause (current_mode f) && negb (hi =? 0)
  then s' (IXGBE_FCRTL_82599 i) = Z.lor (u32 (Z.shiftl lo 10)) IXGBE_FCRTL_XONE /\
       s' (IXGBE_FCRTH_82599 i) = Z.lor (u32 (Z.shiftl hi 10)) IXGBE_FCRTH_FCEN
  else s' (IXGBE_FCRTL_82599 i) = 0 /\
       s' (IXGBE_FCRTH_82599 i) = u32 (s (IXGBE_RXPBSIZE i) - 24576).

(** valid water marks of class [i] *)
Definition marks_ok (f : ixgbe_fc_info) (i : Z) : Prop :=
  let hi := nth (Z.to_nat i) (high_water f) 0 in
  let lo := nth (Z.to_nat i) (low_water f) 0 in
  sends_pause (current_mode f) = true -> hi <> 0 -> lo <> 0 /\ lo < hi.

Lemma check_water_marks_effect h s :
  length (high_water (fc h)) = 8%nat -> length (low_water (fc h)) = 8%nat ->
  plain h s (check_water_marks h) (fun r h' s' => h' = h /\ s' = s /\
    match r with
    | inl _ => forall i, 0 <= i < 8 -> marks_ok (fc h) i
    | inr _ => exists i, 0 <= i < 8 /\ ~ marks_ok (fc h) i
    end).
Proof using PlainRegs0.
  intros Hh Hl. unfold check_water_marks. apply pl_for_break with (Inv := fun k _ h' s' =>
    h' = h /\ s' = s /\ forall i, 0 <= i < k -> marks_ok (fc h) i).
  - split; [done|]. split; [done|]. lia.
  - intros k u h' s' Hk (-> & -> & Hi). change (Z.of_nat _) with 8 in Hk.
    assert (exists hi, high_water (fc h) !! Z.to_nat k = Some hi) as [hi Eh]
      by (apply lookup_lt_is_Some_2; rewrite Hh; lia).
    assert (exists lo, low_water (fc h) !! Z.to_nat k = Some lo) as [lo El]
      by (apply lookup_lt_is_Some_2; rewrite Hl; lia).
    assert (Hm : marks_ok (fc h) k <-> (sends_pause (current_mode (fc h)) = true -> hi <> 0 ->
      lo <> 0 /\ lo < hi)).
    { unfold marks_ok. by rewrite (nth_lookup_Some _ _ _ _ Eh), (nth_lookup_Some _ _ _ _ El). }
    assert (Hnext : marks_ok (fc h) k -> h = h /\ s = s /\ forall i, 0 <= i < k + 1 -> marks_ok (fc h) i).
    { intros H. split; [done|]. split; [done|]. intros i Hi'.
      destruct (decide (i = k)) as [-> |]; [done|]. apply Hi. lia. }
    pl_step. eapply pl_nth_c; [lia|exact Eh|].
    destruct (sends_pause (current_mode (fc h))) eqn:Es; cbn [andb];
      [|pl_step; apply Hnext; rewrite Hm; done].
    destruct (Z.eqb_spec hi 0) as [-> |Hne]; cbn [negb]; [pl_step; apply Hnext; rewrite Hm; done|].
    pl_step. eapply pl_nth_c; [lia|exact El|].
    destruct (Z.eqb_spec lo 0) as [-> |Hne2]; cbn [orb].
    + pl_step. split; [done|]. split; [done|]. exists k. split; [lia|]. rewrite Hm. naive_solver.
    + destruct (Z.leb_spec hi lo); pl_step.
      * split; [done|]. split; [done|]. exists k. split; [lia|]. rewrite Hm. intros H'.
        destruct (H' eq_refl Hne). lia.
      * apply Hnext. rewrite Hm. done.
  - intros u h' s' (-> & -> & Hi). change (0 + Z.of_nat _) with 8 in Hi. done.
Qed.

Lemma threshold_loop_effect h s :
  length (high_water (fc h)) = 8%nat -> length (low_water (fc h)) = 8%nat ->
  plain h s (for_loop (Z.to_nat IXGBE_DCB_MAX_TRAFFIC_CLASS) 0 (fun i =>
            hi ← nth_c (high_water (fc h)) i;
            fcrth ← (if sends_pause (current_mode (fc h)) && negb (hi =? 0) then
                       lo ← nth_c (low_water (fc h)) i;
                       IXGBE_WRITE_REG (IXGBE_FCRTL_82599 i)
                         (Z.lor (u32 (Z.shiftl lo 10)) IXGBE_FCRTL_XONE) ;;
                       mret (Z.lor (u32 (Z.shiftl hi 10)) IXGBE_FCRTH_FCEN)
                     else
                       IXGBE_WRITE_REG (IXGBE_FCRTL_82599 i) 0 ;;
                       x ← IXGBE_READ_REG (IXGBE_RXPBSIZE i);
                       mret (u32 (x - 24576)));
            IXGBE_WRITE_REG (IXGBE_FCRTH_82599 i) fcrth))
    (fun _ h' s' => h' = h /\ (forall i, 0 <= i < 8 -> tc_thresholds (fc h) s s' i) /\
       s' IXGBE_MFLCN = s IXGBE_MFLCN /\ s' IXGBE_FCCFG = s IXGBE_FCCFG).
Proof using PlainRegs0.
  intros Hh Hl. eapply pl_mono.
  { apply pl_for_loop with (Inv := fun k h' s' => h' = h /\
      (forall i, 0 <= i < k -> tc_thresholds (fc h) s s' i) /\
      (forall i, s' (IXGBE_RXPBSIZE i) = s (IXGBE_RXPBSIZE i) \/ ~ 0 <= i < 8) /\
      s' IXGBE_MFLCN = s IXGBE_MFLCN /\ s' IXGBE_FCCFG = s IXGBE_FCCFG).
    - split; [done|]. split; [lia|]. split; [by left|done].
    - intros k h' s' Hk (-> & Ht & Hp & Hm & Hf). change (Z.of_nat _) with 8 in Hk.
      assert (exists hi, high_water (fc h) !! Z.to_nat k = Some hi) as [hi Eh]
        by (apply lookup_lt_is_Some_2; rewrite Hh; lia).
      assert (exists lo, low_water (fc h) !! Z.to_nat k = Some lo) as [lo El]
        by (apply lookup_lt_is_Some_2; rewrite Hl; lia).
      pl_step. eapply pl_nth_c; [lia|exact Eh|].
      assert (Hu : forall x, u32 (Z.lor (u32 x) 0x80000000) = Z.lor (u32 x) 0x80000000).
      { intros x. apply trunc_small, lor_range; [done|by apply trunc_range|done]. }
      assert (Hold : forall r1 r2 v1 v2 i, r1 = IXGBE_FCRTL_82599 k -> r2 = IXGBE_FCRTH_82599 k ->
        0 <= i < 8 -> i <> k ->
        tc_thresholds (fc h) s s' i -> tc_thresholds (fc h) s (set_reg r2 v2 (set_reg r1 v1 s')) i).
      { intros r1 r2 v1 v2 i -> -> Hi Hne H. unfold tc_thresholds in *. by fc_simpl. }
      assert (Hframe : forall v1 v2 i,
        set_reg (IXGBE_FCRTH_82599 k) v2 (set_reg (IXGBE_FCRTL_82599 k) v1 s') (IXGBE_RXPBSIZE i) =
          s (IXGBE_RXPBSIZE i) \/ ~ 0 <= i < 8).
      { intros v1 v2 i. destruct (Hp i) as [E|E]; [|by right].
        destruct (decide (0 <= i < 8)); [left; by fc_simpl|by right]. }
      destruct (sends_pause (current_mode (fc h)) && negb (hi =? 0)) eqn:Eb.
      + pl_step. pl_step. eapply pl_nth_c; [lia|exact El|]. pl_step. pl_step. pl_step. pl_step.
        split; [done|]. split; [|split; [done|by fc_simpl]]. intros i Hi.
        destruct (decide (i = k)) as [-> |]; [|apply Hold; [done|done|lia|done|apply Ht; lia]].
        unfold tc_thresholds. rewrite (nth_lookup_Some _ _ _ _ Eh), (nth_lookup_Some _ _ _ _ El), Eb.
        fc_simpl. split; apply Hu.
      + pl_step. pl_step. pl_step. pl_step. pl_step. pl_step. pl_step.
        split; [done|]. split; [|split; [done|by fc_simpl]]. intros i Hi.
        destruct (decide (i = k)) as [-> |]; [|apply Hold; [done|done|lia|done|apply Ht; lia]].
        unfold tc_thresholds. rewrite (nth_lookup_Some _ _ _ _ Eh), Eb.
        fc_simpl. split; [done|]. rewrite trunc_idem by done. destruct (Hp k) as [-> |]; [done|lia]. }
  intros _ h' s' (-> & Ht & _ & H). change (0 + Z.of_nat _) with 8 in Ht. done.
Qed.

Lemma pause_time_loop_effect h s v :
  plain h s (for_loop (Z.to_nat (IXGBE_DCB_MAX_TRAFFIC_CLASS / 2)) 0 (fun i =>
    IXGBE_WRITE_REG (IXGBE_FCTTV i) v))
    (fun _ h' s' => h' = h /\ (forall i, 0 <= i < 4 -> s' (IXGBE_FCTTV i) = u32 v) /\
       forall r, (forall i, 0 <= i < 4 -> r <> IXGBE_FCTTV i) -> s' r = s r).
Proof using PlainRegs0.
  eapply pl_mono.
  { apply pl_for_loop with (Inv := fun k h' s' => h' = h /\
      (forall i, 0 <= i < k -> s' (IXGBE_FCTTV i) = u32 v) /\
      forall r, (forall i, 0 <= i < 4 -> r <> IXGBE_FCTTV i) -> s' r = s r).
    - split; [done|]. split; [lia|done].
    - intros k h' s' Hk (-> & Ht & Hf). change (Z.of_nat _) with 4 in Hk. pl_step.
      split; [done|]. split.
      + intros i Hi. destruct (decide (i = k)) as [-> |]; [by rewrite set_reg_eq|].
        fc_simpl. apply Ht. lia.
      + intros r Hr. rewrite set_reg_ne by (intros <-; by apply (Hr k)). by apply Hf. }
  intros _ h' s' (-> & Ht & Hf). change (0 + Z.of_nat _) with 4 in Ht. done.
Qed.

(** without negotiation [fc_autoneg] takes over the requested mode *)
Definition not_negotiated (h : ixgbe_hw) : ixgbe_hw :=
  upd_fc (upd_current_mode (requested_mode (fc h)) (upd_fc_was_autonegged false (fc h))) h.

Lemma fc_autoneg_disabled_effect h s cl pr : disable_fc_autoneg (fc h) = true ->
  plain h s (ixgbe_fc_autoneg cl pr) (fun _ h' s' => h' = not_negotiated h /\ s' = s).
Proof using PlainRegs0.
  intros Hd. unfold ixgbe_fc_autoneg, mod_fc. pl_step. pl_step. rewrite Hd. by repeat pl_step.
Qed.

(** the mode bits [fc_enable] writes *)
Definition mode_regs (m : ixgbe_fc_mode) (mflcn fccfg : Z) : option (Z * Z) :=
  match m with
  | ixgbe_fc_none => Some (mflcn, fccfg)
  | ixgbe_fc_rx_pause => Some (Z.lor mflcn IXGBE_MFLCN_RFCE, fccfg)
  | ixgbe_fc_tx_pause => Some (mflcn, Z.lor fccfg IXGBE_FCCFG_TFCE_802_3X)
  | ixgbe_fc_full => Some (Z.lor mflcn IXGBE_MFLCN_RFCE, Z.lor fccfg IXGBE_FCCFG_TFCE_802_3X)
  | _ => None
  end.

(** the mode the registers say *)
Definition mode_programmed (m : ixgbe_fc_mode) (s : Z -> Z) : Prop :=
  has (s IXGBE_MFLCN) IXGBE_MFLCN_RFCE = receives_pause m /\
  has (s IXGBE_FCCFG) IXGBE_FCCFG_TFCE_802_3X = sends_pause m /\
  has (s IXGBE_FCCFG) IXGBE_FCCFG_TFCE_PRIORITY = false.

Lemma mode_regs_bits m x y a b : in_range 32 x -> in_range 32 y ->
  mode_regs m (Z.land x (bnot 32 (Z.lor IXGBE_MFLCN_RPFCE_MASK IXGBE_MFLCN_RFCE)))
    (Z.land y (bnot 32 (Z.lor IXGBE_FCCFG_TFCE_802_3X IXGBE_FCCFG_TFCE_PRIORITY))) = Some (a, b) ->
  has (u32 (Z.lor a IXGBE_MFLCN_DPF)) IXGBE_MFLCN_RFCE = receives_pause m /\
  has (u32 b) IXGBE_FCCFG_TFCE_802_3X = sends_pause m /\
  has (u32 b) IXGBE_FCCFG_TFCE_PRIORITY = false.
Proof using.
  intros Hx Hy E.
  change IXGBE_MFLCN_RFCE with (bit 3) in *. change IXGBE_FCCFG_TFCE_802_3X with (bit 3) in *.
  change IXGBE_FCCFG_TFCE_PRIORITY with (bit 4) in *. change IXGBE_MFLCN_DPF with (bit 1) in *.
  destruct m; simpl in E; try done; injection E as <- <-;
    rewrite !has_bit by lia; autorewrite with zbits; simpl;
    rewrite ?andb_false_r; done.
Qed.

Lemma not_negotiated_same h : current_mode (fc h) = requested_mode (fc h) ->
  (forall s s' i, tc_thresholds (fc (not_negotiated h)) s s' i <-> tc_thresholds (fc h) s s' i) /\
  current_mode (fc (not_negotiated h)) = requested_mode (fc h).
Proof using. intros E. split; [|done]. intros s s' i. unfold tc_thresholds. simpl. by rewrite E. Qed.

(** With negotiation disabled and the mode settled, [ixgbe_fc_enable_generic]
    either rejects the configuration without touching a register (no pause time,
    or a class that would send pause frames with a low water mark that is zero or
    not below the high one), or succeeds and programs exactly the mode: RFCE iff
    pause frames are honoured, TFCE iff they are sent, per-class thresholds from
    the water marks with FCEN only for sending classes (the others get the packet
    buffer size less 24 KB), the pause time in all FCTTV halves, and half of it
    as refresh threshold. *)
Theorem fc_enable_programs h s cl pr :
  disable_fc_autoneg (fc h) = true -> current_mode (fc h) = requested_mode (fc h) ->
  fc_valid (requested_mode (fc h)) = true ->
  length (high_water (fc h)) = 8%nat -> length (low_water (fc h)) = 8%nat ->
  0 <= pause_time (fc h) < 2 ^ 16 ->
  plain h s (ixgbe_fc_enable_generic (ixgbe_fc_autoneg cl pr)) (fun ret h' s' =>
    (ret = IXGBE_ERR_INVALID_LINK_SETTINGS /\ h' = h /\ s' = s /\
     (pause_time (fc h) = 0 \/ exists i, 0 <= i < 8 /\ ~ marks_ok (fc h) i)) \/
    (ret = IXGBE_SUCCESS /\ pause_time (fc h) <> 0 /\
     (forall i, 0 <= i < 8 -> marks_ok (fc h) i /\ tc_thresholds (fc h) s s' i) /\
     mode_programmed (requested_mode (fc h)) s' /\
     (forall i, 0 <= i < 4 -> s' (IXGBE_FCTTV i) = pause_time (fc h) * 0x00010001) /\
     s' IXGBE_FCRTV = pause_time (fc h) / 2)).
Proof using PlainRegs0.
  intros Hd Hc Hv Hh Hl Hp. unfold ixgbe_fc_enable_generic. pl_step. pl_step.
  destruct (Z.eqb_spec (pause_time (fc h)) 0) as [E0|E0].
  { pl_step. left. auto. }
  pl_step. eapply pl_mono; [by apply check_water_marks_effect|].
  intros [u|u] h' s' (-> & -> & Hm); [|pl_step; left; auto].
  pl_step. eapply pl_mono; [by apply fc_autoneg_disabled_effect|].
  intros _ h' s' (-> & ->). pl_step. pl_step. pl_step. pl_step. pl_step. pl_step.
  destruct (not_negotiated_same h Hc) as [Ht Hcm]. rewrite Hcm.
  match goal with |- plain _ _ (match ?m with _ => _ end) _ =>
    change m with (mode_regs (requested_mode (fc h))
      (Z.land (s IXGBE_MFLCN) (bnot 32 (Z.lor IXGBE_MFLCN_RPFCE_MASK IXGBE_MFLCN_RFCE)))
      (Z.land (s IXGBE_FCCFG) (bnot 32 (Z.lor IXGBE_FCCFG_TFCE_802_3X IXGBE_FCCFG_TFCE_PRIORITY)))) end.
  destruct (mode_regs _ _ _) as [[a b]|] eqn:Em; [|by destruct (requested_mode (fc h))].
  apply mode_regs_bits in Em; [|done..].
  pl_step. pl_step. pl_step. pl_step. pl_step.
  rewrite <- Hcm. eapply pl_mono; [by apply threshold_loop_effect|].
  intros _ h' s1 (-> & Hth & Em1 & Ef1). pl_step.
  eapply pl_mono; [by apply pause_time_loop_effect|]. intros _ h' s2 (-> & Hpt & Hfr).
  pl_step. pl_step. pl_step. right. split; [done|]. split; [done|].
  assert (Hfr' : forall r, r <> IXGBE_FCRTV -> (forall i, 0 <= i < 4 -> r <> IXGBE_FCTTV i) ->
    set_reg IXGBE_FCRTV (u32 (pause_time (fc h) / 2)) s2 r = s1 r).
  { intros r N1 N2. rewrite set_reg_ne by done. by apply Hfr. }
  cbn [fc not_negotiated upd_fc pause_time upd_current_mode upd_fc_was_autonegged] in *.
  split; [|split; [|split]].
  - intros i Hi. split; [by apply Hm|]. pose proof (proj1 (Ht _ _ _) (Hth i Hi)) as H'. revert H'. unfold tc_thresholds.
    rewrite !Hfr' by (try intros; fc_side). by fc_simpl.
  - unfold mode_programmed. rewrite !Hfr' by (try intros; fc_side). rewrite Em1, Ef1. by fc_simpl.
  - intros i Hi. rewrite set_reg_ne by fc_side. rewrite Hpt by done.
    rewrite trunc_idem by done. apply trunc_small. unfold in_range. lia.
  - rewrite set_reg_eq. apply trunc_small. unfold in_range. zlia.
Qed.
End Enable.

(** ** Negotiation between two adapters *)
Section Negotiate.
Context `{D : Mmio} `{!PlainRegs D fc_regs}.
Context (cl : M (Z * bool)) (pr : Z -> Z -> Z -> M Z) (pw : Z -> Z -> Z -> M unit)
  (ar : M (Z * bool * Z)) (aw : Z -> bool -> M Z).

Ltac pl_step := pl_step_with fc_side.

(** a 1G fiber port of the 82598 or 82599 with a permitted request, whose
    advertisement register has its duplex bit set *)
Record fiber_port (h : ixgbe_hw) (s : Z -> Z) : Prop := {
  fp_media : media_type (phy h) = ixgbe_media_type_fiber;
  fp_mac : mac_type_val (mac_type (mac h)) < mac_type_val ixgbe_mac_X540;
  fp_mode : fc_valid (requested_mode (fc h)) = true;
  fp_strict : strict_ieee (fc h) = true -> requested_mode (fc h) <> ixgbe_fc_rx_pause;
  fp_duplex : Z.testbit (s IXGBE_PCS1GANA) 5 = true;
}.

Lemma advertise_bits m x : in_range 32 x -> fc_valid m = true -> Z.testbit x 5 = true ->
  exists y, advertise 32 m IXGBE_PCS1GANA_SYM_PAUSE IXGBE_PCS1GANA_ASM_PAUSE x = Some y /\
    in_range 32 y /\ y <> 0 /\
    has y IXGBE_PCS1GANA_SYM_PAUSE = receives_pause m /\
    has y IXGBE_PCS1GANA_ASM_PAUSE = (sends_pause m || receives_pause m).
Proof using.
  intros Hx Hv H5. change IXGBE_PCS1GANA_SYM_PAUSE with (bit 7). change IXGBE_PCS1GANA_ASM_PAUSE with (bit 8).
  assert (Hnz : forall y, Z.testbit y 5 = true -> y <> 0) by (intros y E ->; by rewrite Z.bits_0 in E).
  assert (Hr : forall m', fc_valid m' = true -> forall y,
    advertise 32 m' (bit 7) (bit 8) x = Some y -> in_range 32 y).
  { intros m' _ y E. destruct m'; simpl in E; try done; injection E as <-;
      repeat first [apply lor_range | apply land_range]; try done; by vm_compute. }
  assert (exists y, advertise 32 m (bit 7) (bit 8) x = Some y) as [y Ey]
    by (destruct m; simpl in *; eauto; done).
  exists y. split; [done|]. split; [by eapply Hr|]. rewrite !has_bit by lia.
  assert (Z.testbit y 5 = true /\ Z.testbit y 7 = receives_pause m /\
          Z.testbit y 8 = sends_pause m || receives_pause m) as (E5 & E7 & E8); [|auto].
  clear Hnz Hr. destruct m; try done; cbn [advertise] in Ey; injection Ey as <-;
    autorewrite with zbits; rewrite ?H5; cbn -[Z.testbit];
    rewrite ?andb_true_r, ?andb_false_r, ?orb_true_r; done.
Qed.

Lemma setup_fc_fiber_effect h s : fiber_port h s -> in_range 32 (s IXGBE_PCS1GANA) ->
  plain h s (ixgbe_setup_fc_generic cl pr pw ar aw) (fun ret h' s' =>
    ret = IXGBE_SUCCESS /\ h' = h /\
    s' IXGBE_PCS1GANA <> 0 /\ in_range 32 (s' IXGBE_PCS1GANA) /\
    has (s' IXGBE_PCS1GANA) IXGBE_PCS1GANA_SYM_PAUSE = receives_pause (requested_mode (fc h)) /\
    has (s' IXGBE_PCS1GANA) IXGBE_PCS1GANA_ASM_PAUSE =
      sends_pause (requested_mode (fc h)) || receives_pause (requested_mode (fc h))).
Proof using PlainRegs0.
  intros [Hmed Hmac Hmode Hst Hdx] Hx. unfold ixgbe_setup_fc_generic, mod_fc. pl_step. pl_step.
  assert (strict_ieee (fc h) && bool_decide (requested_mode (fc h) = ixgbe_fc_rx_pause) = false) as ->.
  { destruct (strict_ieee (fc h)) eqn:E; [|done]. simpl. apply bool_decide_eq_false. auto. }
  assert (bool_decide (requested_mode (fc h) = ixgbe_fc_default) = false) as ->.
  { apply bool_decide_eq_false. intros E. by rewrite E in Hmode. }
  pl_step. pl_step. pl_step. pl_step. pl_step. rewrite Hmed. pl_step. pl_step. pl_step.
  pl_step. pl_step.
  destruct (advertise_bits _ _ Hx Hmode Hdx) as (y & Ey & Hy & Hnz & Hs & Ha). rewrite Ey.
  assert (exists z, advertise 32 (requested_mode (fc h)) IXGBE_AUTOC_SYM_PAUSE IXGBE_AUTOC_ASM_PAUSE 0 =
    Some z) as [z ->] by (destruct (requested_mode (fc h)); eauto; done).
  assert (exists t, advertise 16 (requested_mode (fc h)) IXGBE_TAF_SYM_PAUSE IXGBE_TAF_ASM_PAUSE 0 =
    Some t) as [t ->] by (destruct (requested_mode (fc h)); eauto; done).
  destruct (Z.ltb_spec (mac_type_val (mac_type (mac h))) (mac_type_val ixgbe_mac_X540)); [|lia].
  do 7 pl_step. split; [done|]. split; [done|]. fc_simpl. rewrite trunc_small by done. done.
Qed.

(** the negotiation is over: each side sees the other's advertisement *)
Definition linked (s partner : Z -> Z) : Z -> Z :=
  set_reg IXGBE_PCS1GANLP (partner IXGBE_PCS1GANA)
    (set_reg IXGBE_PCS1GLSTA IXGBE_PCS1GLSTA_AN_COMPLETE s).

(** what the code resolves to, from the two requested modes *)
Definition resolved (m partner : ixgbe_fc_mode) : ixgbe_fc_mode :=
  if receives_pause m && receives_pause partner
  then (if bool_decide (m = ixgbe_fc_full) then ixgbe_fc_full else ixgbe_fc_rx_pause)
  else if negb (receives_pause m) && sends_pause m && receives_pause partner then ixgbe_fc_tx_pause
  else if receives_pause m && negb (receives_pause partner) && sends_pause partner
  then ixgbe_fc_rx_pause else ixgbe_fc_none.

Lemma autoneg_fiber_effect h s s' m m' : requested_mode (fc h) = m ->
  s IXGBE_PCS1GANA <> 0 -> s' IXGBE_PCS1GANA <> 0 ->
  has (s IXGBE_PCS1GANA) IXGBE_PCS1GANA_SYM_PAUSE = receives_pause m ->
  has (s IXGBE_PCS1GANA) IXGBE_PCS1GANA_ASM_PAUSE = sends_pause m || receives_pause m ->
  has (s' IXGBE_PCS1GANA) IXGBE_PCS1GANA_SYM_PAUSE = receives_pause m' ->
  has (s' IXGBE_PCS1GANA) IXGBE_PCS1GANA_ASM_PAUSE = sends_pause m' || receives_pause m' ->
  plain h (linked s s') ixgbe_fc_autoneg_fiber (fun ret h' _ =>
    ret = IXGBE_SUCCESS /\ current_mode (fc h') = resolved m m').
Proof using PlainRegs0.
  intros Hm N1 N2 H1 H2 H3 H4. unfold ixgbe_fc_autoneg_fiber, linked. pl_step. pl_step.
  fc_simpl. change (negb (has IXGBE_PCS1GLSTA_AN_COMPLETE IXGBE_PCS1GLSTA_AN_COMPLETE) ||
    has IXGBE_PCS1GLSTA_AN_COMPLETE IXGBE_PCS1GLSTA_AN_TIMED_OUT) with false. cbv iota.
  pl_step. pl_step. pl_step. pl_step. fc_simpl.
  unfold ixgbe_negotiate_fc, mod_fc.
  destruct (Z.eqb_spec (s IXGBE_PCS1GANA) 0); [done|].
  destruct (Z.eqb_spec (s' IXGBE_PCS1GANA) 0); [done|]. cbn [orb]. pl_step. pl_step. pl_step.
  rewrite H1, H2, H3, H4, Hm. unfold resolved.
  assert (Hsimp : (negb (receives_pause m) && (sends_pause m || receives_pause m) && receives_pause m'
      && (sends_pause m' || receives_pause m')) =
    negb (receives_pause m) && sends_pause m && receives_pause m').
  { by destruct (receives_pause m), (sends_pause m), (receives_pause m'), (sends_pause m'). }
  assert (Hsimp2 : (receives_pause m && (sends_pause m || receives_pause m) && negb (receives_pause m')
      && (sends_pause m' || receives_pause m')) =
    receives_pause m && negb (receives_pause m') && sends_pause m').
  { by destruct (receives_pause m), (sends_pause m), (receives_pause m'), (sends_pause m'). }
  rewrite Hsimp, Hsimp2.
  repeat first [pl_step | match goal with |- context [if ?b then _ else _] => destruct b end];
    split; done.
Qed.

(** two modes agree: nobody sends pause frames the other ignores *)
Definition fc_agree (c1 c2 : ixgbe_fc_mode) : Prop :=
  (sends_pause c1 = true -> receives_pause c2 = true) /\
  (sends_pause c2 = true -> receives_pause c1 = true).

Lemma resolved_agree m1 m2 : fc_valid m1 = true -> fc_valid m2 = true ->
  fc_agree (resolved m1 m2) (resolved m2 m1) /\
  sends_pause (resolved m1 m2) = sends_pause m1 && receives_pause m2 /\
  (receives_pause (resolved m1 m2) = true -> receives_pause m1 = true).
Proof using. by destruct m1, m2. Qed.

(** C28: when two 1G fiber ports (of a MAC before X540, with a permitted mode
    requested and full duplex advertised) advertise with [ixgbe_setup_fc_generic] and,
    after the link partner's word has arrived, negotiate with
    [ixgbe_fc_autoneg_fiber], both succeed and agree: neither sends pause frames
    that the other ignores, each sends them exactly when it asked to and the
    other is willing to honour them, and none honours them without having
    asked. *)
Theorem fc_negotiation_consistent h1 s1 h2 s2 : fiber_port h1 s1 -> fiber_port h2 s2 ->
  in_range 32 (s1 IXGBE_PCS1GANA) -> in_range 32 (s2 IXGBE_PCS1GANA) ->
  let m1 := requested_mode (fc h1) in let m2 := requested_mode (fc h2) in
  plain h1 s1 (ixgbe_setup_fc_generic cl pr pw ar aw) (fun r1 h1' s1' =>
  plain h2 s2 (ixgbe_setup_fc_generic cl pr pw ar aw) (fun r2 h2' s2' =>
    r1 = IXGBE_SUCCESS /\ r2 = IXGBE_SUCCESS /\
    plain h1' (linked s1' s2') ixgbe_fc_autoneg_fiber (fun a1 h1'' _ =>
    plain h2' (linked s2' s1') ixgbe_fc_autoneg_fiber (fun a2 h2'' _ =>
      let c1 := current_mode (fc h1'') in let c2 := current_mode (fc h2'') in
      a1 = IXGBE_SUCCESS /\ a2 = IXGBE_SUCCESS /\ fc_agree c1 c2 /\
      sends_pause c1 = sends_pause m1 && receives_pause m2 /\
      sends_pause c2 = sends_pause m2 && receives_pause m1 /\
      (receives_pause c1 = true -> receives_pause m1 = true) /\
      (receives_pause c2 = true -> receives_pause m2 = true))))).
Proof using PlainRegs0.
  intros P1 P2 R1 R2 m1 m2.
  eapply pl_mono; [by apply setup_fc_fiber_effect|].
  intros r1 h1' s1' (-> & -> & N1 & _ & A1 & B1).
  eapply pl_mono; [by apply setup_fc_fiber_effect|].
  intros r2 h2' s2' (-> & -> & N2 & _ & A2 & B2). split; [done|]. split; [done|].
  eapply pl_mono; [by apply (autoneg_fiber_effect h1 s1' s2' m1 m2)|].
  intros a1 h1'' t1 [-> E1].
  eapply pl_mono; [by apply (autoneg_fiber_effect h2 s2' s1' m2 m1)|].
  intros a2 h2'' t2 [-> E2]. cbv zeta. rewrite E1, E2.
  destruct (resolved_agree m1 m2) as (G1 & G2 & G3); [apply P1|apply P2|].
  destruct (resolved_agree m2 m1) as (_ & G5 & G6); [apply P2|apply P1|]. done.
Qed.
End Negotiate.

(** ** Witnesses *)
#[local] Existing Instance ram_plain.

Definition link_down : M (D := ram) (Z * bool) := mret (0, false).
Definition no_phy (_ _ old : Z) : M (D := ram) Z := mret old.
Definition no_phy_write (_ _ _ : Z) : M (D := ram) unit := mret tt.
Definition no_autoc : M (D := ram) (Z * bool * Z) := mret (IXGBE_SUCCESS, false, 0).
Definition no_autoc_write (_ : Z) (_ : bool) : M (D := ram) Z := mret IXGBE_SUCCESS.

(** settled on full flow control, negotiation off *)
Definition fc_full : ixgbe_fc_info :=
  mk_fc (replicate 8 0x80) (replicate 8 0x40) 0xFFFF true false true false
    ixgbe_fc_full ixgbe_fc_full.
Definition hw_fc (f : ixgbe_fc_info) : ixgbe_hw :=
  upd_fc f (upd_phy (upd_media_type ixgbe_media_type_fiber (phy hw0)) hw0).

Lemma hw_fc_holds f m : m !! IXGBE_STATUS = None ->
  holds (D := ram) (P := fc_regs) (hw_fc f) (ram_regs m) (mk_world ram (hw_fc f) m []).
Proof. intros Hm. split; [|done|done]. split; [done|done|]. simpl. by rewrite Hm. Qed.

Lemma fc_enable_programs_witness :
  wp (ixgbe_fc_enable_generic (ixgbe_fc_autoneg link_down no_phy)) (fun ret w' =>
    ret = IXGBE_SUCCESS /\ mode_programmed ixgbe_fc_full (fun r => peek (P := fc_regs) (w_dev w') r))
    (mk_world ram (hw_fc fc_full) ∅ []).
Proof.
  pose proof (fc_enable_programs (D := ram) (hw_fc fc_full) (ram_regs ∅) link_down no_phy
    eq_refl eq_refl eq_refl eq_refl eq_refl ltac:(split; [discriminate|reflexivity])
    _ (hw_fc_holds fc_full ∅ eq_refl)) as H.
  eapply wp_mono; [exact H|]. clear H.
  intros ret w' (h' & s' & Hh & [(_ & _ & _ & Hbad)|(-> & _ & _ & Hm & _)]).
  - exfalso. destruct Hbad as [Hbad|(i & Hi & Hbad)]; [discriminate Hbad|].
    apply Hbad. intros _ _.
    assert (HF : Forall (fun j => nth (Z.to_nat j) (low_water fc_full) 0 = 0x40 /\
      nth (Z.to_nat j) (high_water fc_full) 0 = 0x80) (seqZ 0 8)) by (repeat constructor).
    assert (Hin : In i (seqZ 0 8)) by (apply list_elem_of_In, elem_of_seqZ; lia).
    pose proof (proj1 (List.Forall_forall _ _) HF i Hin) as [El Eh].
    cbn [fc hw_fc upd_fc upd_phy]. rewrite El, Eh. split; [discriminate|reflexivity].
  - split; [reflexivity|]. unfold mode_programmed in *.
    rewrite !(ho_regs _ _ _ Hh) by (clear; fc_side). exact Hm.
Defined.

Lemma fc_negotiation_consistent_witness :
  let ana : gmap Z Z := {[IXGBE_PCS1GANA := 0x20]} in
  let tx := upd_requested_mode ixgbe_fc_tx_pause fc_full in
  fiber_port (hw_fc fc_full) (ram_regs ana) /\ fiber_port (hw_fc tx) (ram_regs ana) /\
  wp (ixgbe_setup_fc_generic link_down no_phy no_phy_write no_autoc no_autoc_write)
    (fun r1 _ => r1 = IXGBE_SUCCESS) (mk_world ram (hw_fc fc_full) ana []).
Proof.
  intros ana tx.
  assert (P1 : fiber_port (hw_fc fc_full) (ram_regs ana)) by (by split; vm_compute).
  assert (P2 : fiber_port (hw_fc tx) (ram_regs ana)) by (by split; vm_compute).
  split; [exact P1|]. split; [exact P2|].
  pose proof (fc_negotiation_consistent (D := ram) link_down no_phy no_phy_write no_autoc no_autoc_write
    (hw_fc fc_full) (ram_regs ana) (hw_fc tx) (ram_regs ana) P1 P2
    ltac:(split; [discriminate|reflexivity]) ltac:(split; [discriminate|reflexivity])
    _ (hw_fc_holds fc_full ana eq_refl)) as H.
  eapply wp_mono; [exact H|]. intros r1 w1 (h1 & s1 & _ & H2).
  specialize (H2 _ (hw_fc_holds tx ana eq_refl)).
  apply wp_done in H2 as (r2 & w2 & _ & h2 & s2 & _ & E1 & _). exact E1.
Defined.

(** an adapter whose current mode differs from the requested one: the water
    marks (low mark zero) are checked against the old mode *)
Definition fc_swap : ixgbe_fc_info :=
  mk_fc (replicate 8 0x80) (replicate 8 0) 0xFFFF true false true false
    ixgbe_fc_none ixgbe_fc_full.

(** [ixgbe_fc_enable_generic] checks the water marks before
    [hw->mac.ops.fc_autoneg] replaces the current mode, so a zero low water mark
    (which, the code says, causes XOFF floods) is accepted and programmed
    together with FCEN when flow control was off before: the call succeeds with
    FCRTL = XONE|0 and FCEN set. *)
Theorem fc_enable_checks_old_mode :
  match ixgbe_fc_enable_generic (ixgbe_fc_autoneg link_down no_phy)
          (mk_world ram (hw_fc fc_swap) ∅ []) with
  | Done ret w' => ret = IXGBE_SUCCESS /\ current_mode (fc (w_hw w')) = ixgbe_fc_full /\
      (w_dev w' : gmap Z Z) !! IXGBE_FCRTL_82599 0 = Some IXGBE_FCRTL_XONE /\
      (w_dev w' : gmap Z Z) !! IXGBE_FCRTH_82599 0 = Some (Z.lor (Z.shiftl 0x80 10) IXGBE_FCRTH_FCEN)
  | Fault _ => False
  end.
Proof. vm_compute. repeat split. Qed.
