(* ===== verification/HostIf.v ===== *)
(** * Manageability host interface (ixgbe_common.c)

    Commands to the firmware through the FLEX_MNG window.  A buffer of [u32] is
    a list of 32-bit words; its bytes, and the header fields the code reads
    through [struct ixgbe_hic_hdr], are those of a little-endian host, where
    [IXGBE_CPU_TO_LE32] and [IXGBE_LE32_TO_CPUS] change nothing. *)
From S2P Require Import Prelude Bytes Regs Types Osdep.

Section HostIf.
Context `{D : Mmio}.

(** [None] is a NULL buffer *)
Definition ixgbe_calculate_checksum (buffer : option (list Z)) (length : Z) : M Z :=
  match buffer with
  | None => mret 0
  | Some b =>
      sum ← for_acc (Z.to_nat length) 0 0 (fun i sum => x ← nth_c b i; mret (u8 (sum + x)));
      mret (u8 (0 - sum))
  end.

Definition ixgbe_hic_unlocked (buffer : list Z) (length timeout : Z) : M Z :=
  if (length =? 0) || (IXGBE_HI_MAX_BLOCK_BYTE_LENGTH <? length)
  then mret IXGBE_ERR_HOST_INTERFACE_COMMAND
  else
    fwsts ← IXGBE_READ_REG IXGBE_FWSTS;
    IXGBE_WRITE_REG IXGBE_FWSTS (Z.lor fwsts IXGBE_FWSTS_FWRI) ;;
    hicr ← IXGBE_READ_REG IXGBE_HICR;
    if negb (has hicr IXGBE_HICR_EN) then mret IXGBE_ERR_HOST_INTERFACE_COMMAND
    else if negb (length mod 4 =? 0) then mret IXGBE_ERR_INVALID_ARGUMENT
    else
      let dword_len := u16 (Z.shiftr length 2) in
      for_loop (Z.to_nat dword_len) 0 (fun i =>
        x ← nth_c buffer i; IXGBE_WRITE_REG_ARRAY IXGBE_FLEX_MNG i x) ;;
      IXGBE_WRITE_REG IXGBE_HICR (Z.lor hicr IXGBE_HICR_C) ;;
      r ← for_break (Z.to_nat timeout) 0 tt (fun _ _ =>
            hicr ← IXGBE_READ_REG IXGBE_HICR;
            if negb (has hicr IXGBE_HICR_C) then mret (inr tt)
            else msec_delay 1 ;; mret (inl tt));
      let timed_out := match r with inl _ => negb (timeout =? 0) | inr _ => false end in
      b0 ← nth_c buffer 0;
      if Z.land b0 IXGBE_HOST_INTERFACE_MASK_CMD =? IXGBE_HOST_INTERFACE_APPLY_UPDATE_CMD
      then mret IXGBE_SUCCESS
      else
        bad ← (if timed_out : bool then mret true
               else hicr ← IXGBE_READ_REG IXGBE_HICR; mret (negb (has hicr IXGBE_HICR_SV)));
        mret (if bad : bool then IXGBE_ERR_HOST_INTERFACE_COMMAND else IXGBE_SUCCESS).

(** fields of [struct ixgbe_hic_hdr] in the first word *)
Definition hic_cmd (b0 : Z) : Z := u8 b0.
Definition hic_buf_len (b0 : Z) : Z := u8 (Z.shiftr b0 8).
Definition hic_ret_status (b0 : Z) : Z := u8 (Z.shiftr b0 16).

(** [for (; bi < last; bi++) buffer[bi] = IXGBE_READ_REG_ARRAY(hw, IXGBE_FLEX_MNG, bi)] *)
Definition read_flex (first last : Z) (buffer : list Z) : M (list Z) :=
  for_acc (Z.to_nat (last - first)) first buffer (fun bi b =>
    x ← IXGBE_READ_REG_ARRAY IXGBE_FLEX_MNG bi; upd_c b bi x).

(** the part of [ixgbe_host_interface_command] that reads the response *)
Definition hic_response (buffer : list Z) (length : Z) : M (Z * list Z) :=
  let hdr_size := 4 in
  let dword_len := Z.shiftr hdr_size 2 in
  buffer ← read_flex 0 dword_len buffer;
  b0 ← nth_c buffer 0;
  r ← (if (hic_cmd b0 =? 0x30) || (hic_cmd b0 =? 0x31) then
         buffer ← read_flex dword_len (dword_len + 2) buffer;
         b0 ← nth_c buffer 0;
         let buf_len := u16 (Z.lor (Z.land (Z.shiftl (hic_ret_status b0) 3) 0xF00) (hic_buf_len b0)) in
         mret (buffer, dword_len + 2, buf_len, hdr_size + 8)
       else mret (buffer, dword_len, hic_buf_len b0, hdr_size));
  let '(buffer, bi, buf_len, hdr_size) := r in
  if buf_len =? 0 then mret (IXGBE_SUCCESS, buffer)
  else if length <? buf_len + hdr_size then mret (IXGBE_ERR_HOST_INTERFACE_COMMAND, buffer)
  else
    let dword_len := Z.shiftr (buf_len + 3) 2 in
    buffer ← read_flex bi (dword_len + 1) buffer;
    mret (IXGBE_SUCCESS, buffer).

(** [hw->mac.ops.acquire_swfw_sync], [hw->mac.ops.release_swfw_sync] *)
Context (acquire_swfw_sync : Z -> M Z) (release_swfw_sync : Z -> M unit).

Definition ixgbe_host_interface_command (buffer : list Z) (length timeout : Z) (return_data : bool) :
    M (Z * list Z) :=
  if (length =? 0) || (IXGBE_HI_MAX_BLOCK_BYTE_LENGTH <? length)
  then mret (IXGBE_ERR_HOST_INTERFACE_COMMAND, buffer)
  else
    status ← acquire_swfw_sync IXGBE_GSSR_SW_MNG_SM;
    if negb (status =? 0) then mret (status, buffer)
    else
      status ← ixgbe_hic_unlocked buffer length timeout;
      r ← (if negb (status =? 0) then mret (status, buffer)
           else if negb return_data then mret (status, buffer)
           else hic_response buffer length);
      release_swfw_sync IXGBE_GSSR_SW_MNG_SM ;;
      mret r.

(** the bytes of [struct ixgbe_hic_drv_info] *)
Definition drv_info_bytes (checksum port maj min build sub : Z) : list Z :=
  [FW_CEM_CMD_DRIVER_INFO; FW_CEM_CMD_DRIVER_INFO_LEN; FW_CEM_CMD_RESERVED; checksum;
   port; sub; build; min; maj; 0; 0; 0].

(** the retry loop: [fw_cmd] is also where the response goes; the last iteration
    ends it with the last status *)
Fixpoint fw_drv_ver_retry (n : nat) (fw_cmd : list Z) (ret_val : Z) : M Z :=
  match n with
  | O => mret ret_val
  | S n' =>
      r ← ixgbe_host_interface_command fw_cmd 12 IXGBE_HI_COMMAND_TIMEOUT true;
      let '(ret_val, fw_cmd) := r in
      if negb (ret_val =? IXGBE_SUCCESS) then fw_drv_ver_retry n' fw_cmd ret_val
      else
        b0 ← nth_c fw_cmd 0;
        mret (if hic_ret_status b0 =? FW_CEM_RESP_STATUS_SUCCESS then IXGBE_SUCCESS
              else IXGBE_ERR_HOST_INTERFACE_COMMAND)
  end.

Definition ixgbe_set_fw_drv_ver_generic (maj min build sub : Z) : M Z :=
  h ← get_hw;
  let port := u8 (bus_func h) in
  checksum ← ixgbe_calculate_checksum (Some (drv_info_bytes 0 port maj min build sub))
               (FW_CEM_HDR_LEN + FW_CEM_CMD_DRIVER_INFO_LEN);
  fw_drv_ver_retry (Z.to_nat (FW_CEM_MAX_RETRIES + 1))
    (words_of (drv_info_bytes checksum port maj min build sub)) IXGBE_SUCCESS.
End HostIf.
