(* ===== verification/HostIfProps.v ===== *)
(** * Properties of the manageability host interface

    Memory safety and lock discipline of [ixgbe_host_interface_command] on an
    arbitrary device, its requirement on the caller's buffer, and the checksum
    of the driver-information command. *)
From stdpp Require Import gmap.
From S2P Require Import Prelude Regs Types Osdep Trace Semaphore SemProps HostIf.

(** accesses of the host interface itself: the FLEX_MNG window, HICR, FWSTS *)
Definition hic_access (a : access) : Prop :=
  match a with Rd r _ | Wr r _ => 0x15800 <= r < 0x15F10 | Dly _ => True end.

Definition hic_status (s : Z) : Prop :=
  In s [IXGBE_SUCCESS; IXGBE_ERR_HOST_INTERFACE_COMMAND; IXGBE_ERR_INVALID_ARGUMENT;
        IXGBE_ERR_SWFW_SYNC].

(** one of the status codes, chosen by evaluation *)
Ltac hic_code := unfold hic_status; simpl; auto 10.

Lemma flex_access i : 0 <= i < 448 -> 0x15800 <= IXGBE_FLEX_MNG + Z.shiftl i 2 < 0x15F10.
Proof. intros. unfold IXGBE_FLEX_MNG. rewrite Z.shiftl_mul_pow2 by lia. lia. Qed.

Section HicSafe.
Context `{D : Mmio}.

Abbreviation hic_tr c m T := (traces sem_static c m (fun r l => Forall hic_access l /\ T r)).

(** sequencing computations that keep to the window *)
Lemma hic_bind {A B} c (m : M A) (f : A -> M B) (T1 : A -> Prop) (T : B -> Prop) :
  hic_tr c m T1 -> (forall a, T1 a -> hic_tr c (f a) T) -> hic_tr c (m ≫= f) T.
Proof using.
  intros Hm Hf. eapply tr_bind; [exact Hm|]. intros a l [Hl Ha].
  eapply tr_mono; [by apply Hf|]. intros b l' [Hl' Hb]. split; [by apply Forall_app|done].
Qed.

Lemma hic_nth {A} c (b : list A) i (T : A -> Prop) :
  0 <= i < Z.of_nat (length b) -> (forall x, T x) -> hic_tr c (nth_c b i) T.
Proof using.
  intros Hi HT. assert (exists x, b !! Z.to_nat i = Some x) as [x Hx]
    by (apply lookup_lt_is_Some_2; lia).
  eapply tr_nth_c; [lia|exact Hx|]. split; [constructor|done].
Qed.

Lemma hic_read c r (T : Z -> Prop) : 0x15800 <= r < 0x15F10 -> (forall v, T v) ->
  hic_tr c (IXGBE_READ_REG r) T.
Proof using. intros Hr HT. apply tr_READ_REG; [exact sem_static_remove|intros v _]. split; [fa|done]. Qed.

Lemma hic_write c r v (T : unit -> Prop) : 0x15800 <= r < 0x15F10 -> T tt ->
  hic_tr c (IXGBE_WRITE_REG r v) T.
Proof using. intros Hr HT. apply tr_WRITE_REG. split; [fa|done]. Qed.

Lemma hic_ret {A} c (a : A) (T : A -> Prop) : T a -> hic_tr c (mret a) T.
Proof using. intros. by apply tr_ret. Qed.

Lemma hic_unlocked_safe c buffer length timeout :
  length <= 4 * Z.of_nat (List.length buffer) -> 0 <= length ->
  hic_tr c (ixgbe_hic_unlocked buffer length timeout) (fun s => hic_status s).
Proof using.
  intros Hl Hp. unfold ixgbe_hic_unlocked. apply tr_if; intros Eb.
  { apply hic_ret. hic_code. }
  apply orb_false_iff in Eb as [E0%Z.eqb_neq E1%Z.ltb_ge].
  unfold IXGBE_HI_MAX_BLOCK_BYTE_LENGTH in E1.
  eapply hic_bind; [by apply (hic_read _ _ (fun _ => True))|intros v _].
  eapply hic_bind; [by apply (hic_write _ _ _ (fun _ => True))|intros [] _].
  eapply hic_bind; [by apply (hic_read _ _ (fun _ => True))|intros hicr _].
  apply tr_if; intros _; [apply hic_ret; hic_code|].
  apply tr_if; intros Em; [apply hic_ret; hic_code|].
  apply negb_false_iff, Z.eqb_eq in Em.
  assert (Hq : length = 4 * (length / 4)) by (apply Z_div_exact_full_2; [lia|done]).
  assert (Hr : 1 <= length / 4 <= 448) by lia.
  assert (Hd : u16 (Z.shiftr length 2) = length / 4).
  { rewrite Z.shiftr_div_pow2 by lia. change (2 ^ 2) with 4. apply trunc_small.
    unfold in_range. lia. }
  rewrite Hd. clear Em Hd. revert Hq Hr. generalize (length / 4). intros n -> Hr.
  eapply hic_bind with (T1 := fun _ => True).
  { eapply tr_mono with (T := fun _ l => Forall hic_access l); [|by auto].
    apply tr_for_loop with (I := fun _ l => Forall hic_access l); [constructor|].
    intros k l Hk HI. rewrite Z2Nat.id in Hk by lia.
    eapply tr_mono with (T := fun _ l' => Forall hic_access l' /\ True);
      [|intros ? ? [? _]; by apply Forall_app].
    eapply hic_bind; [apply (hic_nth _ _ _ (fun _ => True)); [lia|done]|intros x _].
    apply hic_write; [apply flex_access; lia|done]. }
  intros [] _. eapply hic_bind; [by apply (hic_write _ _ _ (fun _ => True))|intros [] _].
  eapply hic_bind with (T1 := fun _ => True).
  { apply tr_for_break with (I := fun _ _ l => Forall hic_access l); [constructor| |by auto].
    intros k [] l _ HI. apply tr_bind_read; [exact sem_static_remove|intros v' _].
    apply tr_if; intros _.
    - apply tr_ret. split; [|done]. apply Forall_app. split; [done|fa; done].
    - apply tr_bind_delay, tr_ret. apply Forall_app. split; [done|fa; done]. }
  intros r _. eapply hic_bind; [apply (hic_nth _ _ _ (fun _ => True)); [lia|done]|intros b0 _].
  apply tr_if; intros _; [apply hic_ret; hic_code|].
  eapply hic_bind with (T1 := fun _ => True).
  { destruct r; simpl; [destruct (negb _)|]; [by apply hic_ret|..];
      (eapply hic_bind; [by apply (hic_read _ _ (fun _ => True))|intros ? _; by apply hic_ret]). }
  intros [] _; apply hic_ret; hic_code.
Qed.

Lemma read_flex_safe c first last buffer :
  0 <= first -> last <= Z.of_nat (length buffer) -> last <= 448 ->
  hic_tr c (read_flex first last buffer) (fun b => length b = length buffer).
Proof using.
  intros Hf Hl Hm. unfold read_flex. 
  apply tr_for_acc with (I := fun _ b l => Forall hic_access l /\ length b = length buffer);
    [split; [constructor|done]|].
  intros k b l Hk [HF Hb]. eapply tr_mono with (T := fun b' l' => Forall hic_access l' /\
    length b' = length buffer); [|intros b' l' [? ?]; split; [by apply Forall_app|done]].
  eapply hic_bind; [apply (hic_read _ _ (fun _ => True)); [apply flex_access; lia|done]|intros x _].
  apply tr_upd_c; [lia|]. split; [constructor|]. by rewrite length_insert.
Qed.

Lemma hic_buf_len_range b0 : 0 <= hic_buf_len b0 < 256.
Proof using. unfold hic_buf_len. pose proof (trunc_range 8 (Z.shiftr b0 8) ltac:(lia)) as H. exact H. Qed.

Lemma hic_response_safe c buffer length :
  3 <= Z.of_nat (List.length buffer) -> length <= 4 * Z.of_nat (List.length buffer) ->
  length <= IXGBE_HI_MAX_BLOCK_BYTE_LENGTH ->
  hic_tr c (hic_response buffer length) (fun r =>
    hic_status (fst r) /\ List.length (snd r) = List.length buffer).
Proof using.
  intros H3 Hl Hm. unfold IXGBE_HI_MAX_BLOCK_BYTE_LENGTH in Hm. unfold hic_response.
  change (Z.shiftr 4 2) with 1. cbv zeta.
  eapply hic_bind; [apply read_flex_safe; lia|intros b1 E1; cbv beta in E1].
  eapply hic_bind; [apply (hic_nth _ _ _ (fun _ => True)); [lia|done]|intros b0 _].
  eapply hic_bind with (T1 := fun r => let '(b, bi, bl, hs) := r in
    List.length b = List.length buffer /\ 1 <= bi /\ 0 <= bl /\ 4 <= hs).
  { apply tr_if; intros _.
    - eapply hic_bind; [apply read_flex_safe; lia|intros b2 E2; cbv beta in E2].
      eapply hic_bind; [apply (hic_nth _ _ _ (fun _ => True)); [lia|done]|intros b0' _].
      apply hic_ret. split; [congruence|]. split; [lia|]. split; [|lia].
      apply (trunc_range 16). lia.
    - apply hic_ret. split; [done|]. pose proof (hic_buf_len_range b0). lia. }
  intros [[[b bi] bl] hs] (Eb & Hbi & Hbl & Hhs).
  apply tr_if; intros _; [apply hic_ret; hic_code|].
  apply tr_if; intros El; [apply hic_ret; hic_code|]. apply Z.ltb_ge in El.
  assert (Z.shiftr (bl + 3) 2 = (bl + 3) / 4) as -> by (rewrite Z.shiftr_div_pow2 by lia; done).
  pose proof (Z.mul_div_le (bl + 3) 4 ltac:(lia)).
  eapply hic_bind; [apply read_flex_safe; lia|intros b2 E2; cbv beta in E2].
  apply hic_ret. split; [hic_code|]. simpl. congruence.
Qed.
End HicSafe.

(** *** Checksums *)
Section Checksum.
Context `{D : Mmio}.

Lemma checksum_spec b length w : 0 <= length <= Z.of_nat (List.length b) ->
  wp (ixgbe_calculate_checksum (Some b) length) (fun cs w' => w' = w /\ in_range 8 cs /\
    (zsum (take (Z.to_nat length) b) + cs) mod 256 = 0) w.
Proof using.
  intros Hl. unfold ixgbe_calculate_checksum. apply wp_bind. eapply wp_mono.
  { apply wp_for_acc with (Inv := fun k s w' =>
      w' = w /\ s = u8 (zsum (take (Z.to_nat k) b))); [done|].
    intros k s w' Hk [-> ->]. rewrite Z2Nat.id in Hk by lia.
    assert (exists x, b !! Z.to_nat k = Some x) as [x Hx] by (apply lookup_lt_is_Some_2; lia).
    apply wp_bind, (wp_nth_c _ _ x); [lia|done|]. apply wp_ret. split; [done|].
    rewrite trunc_add_l by lia. replace (Z.to_nat (k + 1)) with (S (Z.to_nat k)) by lia.
    rewrite (take_S_r _ _ x), zsum_app by done. f_equal. simpl. lia. }
  intros s w' [-> ->]. apply wp_ret. split; [done|]. split; [by apply trunc_range|].
  rewrite Z.add_0_l, Z2Nat.id by lia. unfold trunc. change (2 ^ 8) with 256.
  rewrite Zplus_mod_idemp_r, Z.add_sub_assoc, Z.add_0_r, Zminus_mod_idemp_r. by rewrite Z.sub_diag.
Qed.
End Checksum.

Section HicLock.
Context `{D : Mmio} `{!SwFwSync IXGBE_GSSR_SW_MNG_SM}.

Lemma hic_neutral l : Forall hic_access l -> Forall lock_neutral l.
Proof using.
  apply Forall_impl. intros [] Ha; unfold lock_neutral; simpl in *; [| |by auto];
    intros Er; rewrite Er in Ha; by apply sf_reg_other.
Qed.

(** the accesses of one command: nothing but a failed attempt at the lock, or the
    lock is taken, held at every access of the host interface, and given back *)
Definition hic_exclusive (l : list access) : Prop :=
  unlocked l \/
  exists la lh lr, l = la ++ lh ++ lr /\ Forall hic_access lh /\ unlocks lr /\
    forall g p q, sf_held g = false -> lh = p ++ q ->
      sf_held (foldl (fun g a => sf_step a g) g (la ++ p)) = true.

Lemma hic_exclusive_unlocked l : hic_exclusive l -> unlocked l.
Proof using.
  intros [?|(la & lh & lr & -> & _ & Hr & _)]; [done|].
  by apply unlocked_unlocks, unlocks_app_r.
Qed.

Abbreviation command := (ixgbe_host_interface_command sf_acquire sf_release).

Lemma hic_command_tr c buffer length timeout return_data :
  3 <= Z.of_nat (List.length buffer) -> 0 <= length <= 4 * Z.of_nat (List.length buffer) ->
  traces sem_static c (command buffer length timeout return_data)
    (fun r l => hic_exclusive l /\ hic_status (fst r) /\
                List.length (snd r) = List.length buffer).
Proof using.
  intros H3 [Hp Hl]. unfold ixgbe_host_interface_command. apply tr_if; intros Eb.
  { apply tr_ret. split; [left; apply unlocked_nil|]. split; [hic_code|done]. }
  apply orb_false_iff in Eb as [_ E1%Z.ltb_ge].
  eapply tr_bind; [apply sf_acquire_spec|]. intros s l1 [Hs Hg]. apply tr_if; intros Es.
  { apply tr_ret. rewrite app_nil_r. split; [|split; [destruct Hs as [-> | ->]; hic_code|done]].
    left. intros g H. rewrite Hg by done. by apply negb_true_iff in Es. }
  apply negb_false_iff in Es.
  eapply tr_bind; [by apply hic_unlocked_safe|]. intros s2 l2 [H2 Hs2].
  eapply tr_bind with (T1 := fun r l => Forall hic_access l /\
    hic_status (fst r) /\ List.length (snd r) = List.length buffer).
  { apply tr_if; intros _; [by apply tr_ret|]. apply tr_if; intros _; [by apply tr_ret|].
    by apply hic_response_safe. }
  intros r l3 [H3' Hr]. eapply tr_bind; [apply sf_release_spec|]. intros [] l4 H4.
  apply tr_ret. split; [right|done]. rewrite app_nil_r.
  exists l1, (l2 ++ l3), l4. split; [by rewrite <- app_assoc|].
  assert (HF : Forall hic_access (l2 ++ l3)) by by apply Forall_app.
  split; [done|]. split; [done|]. intros g p q H0 E. rewrite E in HF.
  apply Forall_app in HF as [HF _]. rewrite foldl_app, neutral_keeps by by apply hic_neutral.
  by rewrite Hg.
Qed.

(** On any device and for any firmware answer, [ixgbe_host_interface_command]
    with a buffer of at least three words that holds [length] bytes never
    accesses memory outside the buffer, ends with one of its four status codes,
    touches the window, HICR and FWSTS only while it holds the [SW_MNG] lock, and
    does not hold the lock at its end. *)
Theorem host_interface_command_safe c buffer length timeout return_data :
  3 <= Z.of_nat (List.length buffer) -> 0 <= length <= 4 * Z.of_nat (List.length buffer) ->
  traces sem_static c
    (ixgbe_host_interface_command sf_acquire sf_release buffer length timeout return_data)
    (fun r l => hic_exclusive l /\ unlocked l /\ hic_status (fst r) /\
                List.length (snd r) = List.length buffer).
Proof using.
  intros H3 Hl. eapply tr_mono; [by apply hic_command_tr|].
  intros r l (He & ?). split; [done|]. split; [by apply hic_exclusive_unlocked|done].
Qed.

(** *** The driver-information command *)
Lemma drv_ver_retry_tr c n fw_cmd ret :
  length fw_cmd = 3%nat -> hic_status ret ->
  traces sem_static c (fw_drv_ver_retry sf_acquire sf_release n fw_cmd ret)
    (fun r l => unlocked l /\ hic_status r).
Proof using.
  revert fw_cmd ret. induction n as [|n IH]; intros fw_cmd ret Hf Hr; simpl fw_drv_ver_retry.
  { apply tr_ret. split; [apply unlocked_nil|done]. }
  eapply tr_bind; [apply (hic_command_tr c); rewrite Hf; simpl; lia|].
  intros [s b] l (He & Hs & Hb). apply hic_exclusive_unlocked in He. simpl in Hs, Hb.
  apply tr_if; intros _.
  - eapply tr_mono; [apply IH; [congruence|done]|]. intros r l' [Hu ?].
    split; [by apply unlocked_app|done].
  - eapply tr_bind with (T1 := fun _ l => l = []).
    { assert (exists x, b !! 0%nat = Some x) as [x Hx] by (apply lookup_lt_is_Some_2; lia).
      by eapply tr_nth_c. }
    intros b0 l' ->. apply tr_ret. rewrite app_nil_r. split; [done|].
    destruct (_ =? _); hic_code.
Qed.

(** For version bytes, [ixgbe_set_fw_drv_ver_generic] ends on any device,
    without the lock and with one of the status codes, after at most four
    attempts whose twelve-byte buffer the answers never overrun; the command it
    sends carries a checksum byte that makes the sum of its bytes zero
    modulo 256. *)
Theorem drv_ver_sent c maj min build sub port :
  traces sem_static c (ixgbe_set_fw_drv_ver_generic sf_acquire sf_release maj min build sub)
    (fun r l => unlocked l /\ hic_status r) /\
  forall w : world, wp (ixgbe_calculate_checksum (Some (drv_info_bytes 0 port maj min build sub)) 9)
    (fun cs w' => w' = w /\ in_range 8 cs /\
       zsum (drv_info_bytes cs port maj min build sub) mod 256 = 0) w.
Proof using.
  split.
  - unfold ixgbe_set_fw_drv_ver_generic. apply tr_bind_get_hw. intros h _.
    eapply tr_bind with (T1 := fun _ l => l = []).
    { intros w Hc. eapply wp_mono; [apply checksum_spec; by split; vm_compute|].
      intros cs w' (-> & _). split; [done|]. exists []. split; [done|apply did_nil]. }
    intros cs l ->. apply drv_ver_retry_tr; [done|hic_code].
  - intros w. eapply wp_mono; [apply checksum_spec; by split; vm_compute|].
    intros cs w' (-> & Hc & E). split; [done|]. split; [done|]. rewrite <- E. f_equal.
    simpl. lia.
Qed.
End HicLock.

(** ** Concrete firmware, for evaluation

    A register file whose firmware answers a command at once: the command bit
    clears, the status is valid and [resp] is in the window. *)
#[local] Instance hic_fw (resp : list Z) : Mmio := {|
  dev := gmap Z Z;
  dev_read d r := (u32 (default 0 (d !! r)), d);
  dev_write d r v :=
    if (r =? IXGBE_HICR) && has v IXGBE_HICR_C
    then <[IXGBE_HICR := Z.lor (Z.land v (bnot 32 IXGBE_HICR_C)) IXGBE_HICR_SV]>
           (foldr (fun p d => <[IXGBE_FLEX_MNG + 4 * Z.of_nat (fst p) := snd p]> d) d
              (imap pair resp))
    else <[r := v]> d;
  dev_delay d _ := d;
|}.

Definition hic_world (resp : list Z) : @world (hic_fw resp) :=
  mk_world (hic_fw resp) hw0 ({[IXGBE_HICR := IXGBE_HICR_EN]} : gmap Z Z) [].

(** The three-word requirement is necessary: with a buffer of eight bytes
    (as [ixgbe_disable_rx_x550] passes), an answer whose command byte is 0x30
    makes [ixgbe_host_interface_command] write past the buffer before it
    compares the reply with [length]. *)
Theorem host_interface_command_short_buffer :
  match ixgbe_host_interface_command (D := hic_fw [0x30; 0; 0]) ixgbe_acquire_swfw_sync
          ixgbe_release_swfw_sync [0xDE; 1] 8 IXGBE_HI_COMMAND_TIMEOUT true
          (hic_world [0x30; 0; 0]) with
  | Done _ _ => False
  | Fault f => f = FOutOfBounds
  end.
Proof. vm_compute. reflexivity. Qed.

#[local] Instance mng_lock (resp : list Z) : SwFwSync (D := hic_fw resp) IXGBE_GSSR_SW_MNG_SM :=
  swfw_gssr IXGBE_GSSR_SW_MNG_SM (conj eq_refl eq_refl).

Lemma host_interface_command_safe_witness :
  traces (D := hic_fw [0x30; 0; 0]) sem_static ixgbe_mvals_base
    (ixgbe_host_interface_command ixgbe_acquire_swfw_sync ixgbe_release_swfw_sync
       [0xDD; 1; 2] 12 IXGBE_HI_COMMAND_TIMEOUT true)
    (fun r l => hic_exclusive (D := hic_fw [0x30; 0; 0]) l /\
                unlocked (D := hic_fw [0x30; 0; 0]) l /\ hic_status (fst r) /\
                List.length (snd r) = 3%nat).
Proof.
  exact (host_interface_command_safe (D := hic_fw [0x30; 0; 0]) ixgbe_mvals_base [0xDD; 1; 2] 12
    IXGBE_HI_COMMAND_TIMEOUT true ltac:(discriminate) ltac:(split; discriminate)).
Defined.
