(* ===== verification/X540.v ===== *)
(** * X540: resource locks, NVM access and checksum (ixgbe_x540.c)

    On X540 and later the locks are bits of SW_FW_SYNC, guarded by SMBI and by
    its own REGSMP bit; NVM access goes through EERD/EEWR under the EEP lock. *)
From S2P Require Import Prelude Regs Types Osdep Eeprom.

(** ** Resource locks *)
Section Sync.
Context `{D : Mmio}.

Definition ixgbe_release_swfw_sync_semaphore : M unit :=
  h ← get_hw;
  swsm ← IXGBE_READ_REG (IXGBE_SWFW_SYNC_BY_MAC h);
  IXGBE_WRITE_REG (IXGBE_SWFW_SYNC_BY_MAC h) (Z.land swsm (bnot 32 IXGBE_SWFW_REGSMP)) ;;
  swsm ← IXGBE_READ_REG (IXGBE_SWSM_BY_MAC h);
  IXGBE_WRITE_REG (IXGBE_SWSM_BY_MAC h) (Z.land swsm (bnot 32 IXGBE_SWSM_SMBI)) ;;
  IXGBE_WRITE_FLUSH.

(** a poll loop of 2000 rounds: [inr] when [reg] reads with [mask] clear *)
Definition poll_clear (reg mask : Z) : M (unit + unit) :=
  for_break 2000 0 tt (fun _ _ =>
    swsm ← IXGBE_READ_REG reg;
    if negb (has swsm mask) then mret (inr tt)
    else usec_delay 50 ;; mret (inl tt)).

Definition ixgbe_get_swfw_sync_semaphore : M Z :=
  h ← get_hw;
  r ← poll_clear (IXGBE_SWSM_BY_MAC h) IXGBE_SWSM_SMBI;
  match r with
  | inl _ => mret IXGBE_ERR_EEPROM
  | inr _ =>
      r ← poll_clear (IXGBE_SWFW_SYNC_BY_MAC h) IXGBE_SWFW_REGSMP;
      match r with
      | inl _ => ixgbe_release_swfw_sync_semaphore ;; mret IXGBE_ERR_EEPROM
      | inr _ => mret IXGBE_SUCCESS
      end
  end.

(** the software bits that belong to a mask *)
Definition release_swmask (mask : Z) : Z :=
  let swmask := Z.land mask (Z.lor IXGBE_GSSR_NVM_PHY_MASK IXGBE_GSSR_SW_MNG_SM) in
  if has mask IXGBE_GSSR_I2C_MASK then Z.lor swmask (Z.land mask IXGBE_GSSR_I2C_MASK) else swmask.

Definition ixgbe_release_swfw_sync_X540 (mask : Z) : M unit :=
  let swmask := release_swmask mask in
  ixgbe_get_swfw_sync_semaphore ;;
  h ← get_hw;
  swfw_sync ← IXGBE_READ_REG (IXGBE_SWFW_SYNC_BY_MAC h);
  IXGBE_WRITE_REG (IXGBE_SWFW_SYNC_BY_MAC h) (Z.land swfw_sync (bnot 32 swmask)) ;;
  ixgbe_release_swfw_sync_semaphore ;;
  msec_delay 2.

(** [swmask], [fwmask] and [hwmask] of [ixgbe_acquire_swfw_sync_X540] *)
Definition acquire_swmask (mask : Z) : Z :=
  let swmask := Z.land mask IXGBE_GSSR_NVM_PHY_MASK in
  let swmask := if has mask IXGBE_GSSR_SW_MNG_SM then Z.lor swmask IXGBE_GSSR_SW_MNG_SM else swmask in
  Z.lor swmask (Z.land mask IXGBE_GSSR_I2C_MASK).
Definition acquire_fwmask (mask : Z) : Z :=
  Z.lor (u32 (Z.shiftl (Z.land mask IXGBE_GSSR_NVM_PHY_MASK) 5))
        (u32 (Z.shiftl (Z.land mask IXGBE_GSSR_I2C_MASK) 2)).
Definition acquire_hwmask (mask : Z) : Z :=
  if has (Z.land mask IXGBE_GSSR_NVM_PHY_MASK) IXGBE_GSSR_EEP_SM then IXGBE_GSSR_FLASH_SM else 0.

(** the masks of the resources cleared for a lock another driver has kept *)
Definition stale_rmask (mask : Z) : Z :=
  let rmask := Z.lor (Z.lor (Z.lor (Z.lor IXGBE_GSSR_EEP_SM IXGBE_GSSR_PHY0_SM) IXGBE_GSSR_PHY1_SM)
                            IXGBE_GSSR_MAC_CSR_SM) IXGBE_GSSR_SW_MNG_SM in
  if negb (Z.land mask IXGBE_GSSR_I2C_MASK =? 0) then Z.lor rmask IXGBE_GSSR_I2C_MASK else rmask.

(** the part of [ixgbe_acquire_swfw_sync_X540] behind its loop *)
Definition acquire_forced (mask : Z) : M Z :=
  let swmask := acquire_swmask mask in
  s ← ixgbe_get_swfw_sync_semaphore;
  if negb (s =? 0) then mret IXGBE_ERR_SWFW_SYNC
  else
    h ← get_hw;
    swfw_sync ← IXGBE_READ_REG (IXGBE_SWFW_SYNC_BY_MAC h);
    if has swfw_sync (Z.lor (acquire_fwmask mask) (acquire_hwmask mask)) then
      IXGBE_WRITE_REG (IXGBE_SWFW_SYNC_BY_MAC h) (Z.lor swfw_sync swmask) ;;
      ixgbe_release_swfw_sync_semaphore ;;
      msec_delay 5 ;;
      mret IXGBE_SUCCESS
    else if has swfw_sync swmask then
      ixgbe_release_swfw_sync_X540 (stale_rmask mask) ;;
      ixgbe_release_swfw_sync_semaphore ;;
      mret IXGBE_ERR_SWFW_SYNC
    else
      ixgbe_release_swfw_sync_semaphore ;;
      mret IXGBE_ERR_SWFW_SYNC.

Definition ixgbe_acquire_swfw_sync_X540 (mask : Z) : M Z :=
  let swmask := acquire_swmask mask in
  let any := Z.lor (Z.lor (acquire_fwmask mask) swmask) (acquire_hwmask mask) in
  h ← get_hw;
  let timeout := if mac_type_val ixgbe_mac_X550 <=? mac_type_val (mac_type (mac h))
                 then 1000 else 200 in
  r ← for_break (Z.to_nat timeout) 0 tt (fun _ _ =>
        s ← ixgbe_get_swfw_sync_semaphore;
        if negb (s =? 0) then mret (inr IXGBE_ERR_SWFW_SYNC)
        else
          h ← get_hw;
          swfw_sync ← IXGBE_READ_REG (IXGBE_SWFW_SYNC_BY_MAC h);
          if negb (has swfw_sync any) then
            IXGBE_WRITE_REG (IXGBE_SWFW_SYNC_BY_MAC h) (Z.lor swfw_sync swmask) ;;
            ixgbe_release_swfw_sync_semaphore ;;
            mret (inr IXGBE_SUCCESS)
          else
            ixgbe_release_swfw_sync_semaphore ;;
            msec_delay 5 ;;
            mret (inl tt));
  match r with
  | inr ret => mret ret
  | inl _ => acquire_forced mask
  end.

Definition ixgbe_init_swfw_sync_X540 : M unit :=
  ixgbe_get_swfw_sync_semaphore ;;
  ixgbe_release_swfw_sync_semaphore ;;
  let rmask := stale_rmask IXGBE_GSSR_I2C_MASK in (* every resource *)
  ixgbe_acquire_swfw_sync_X540 rmask ;;
  ixgbe_release_swfw_sync_X540 rmask.
End Sync.

(** ** NVM *)
Section Nvm.
Context `{D : Mmio}.

Definition ixgbe_init_eeprom_params_X540 : M Z :=
  h ← get_hw;
  (if bool_decide (eeprom_type (eeprom h) = ixgbe_eeprom_uninitialized) then
     mod_eeprom (upd_semaphore_delay 10) ;;
     mod_eeprom (upd_eeprom_type ixgbe_flash) ;;
     eec ← IXGBE_READ_REG (IXGBE_EEC_BY_MAC h);
     let eeprom_size := u16 (Z.shiftr (Z.land eec IXGBE_EEC_SIZE) IXGBE_EEC_SIZE_SHIFT) in
     mod_eeprom (upd_word_size (u16 (bit (eeprom_size + IXGBE_EEPROM_WORD_SIZE_SHIFT))))
   else mret tt) ;;
  mret IXGBE_SUCCESS.

(** [hw->mac.ops.acquire_swfw_sync], [release_swfw_sync] and
    [hw->eeprom.ops.init_params] *)
Context (acquire_swfw_sync : Z -> M Z) (release_swfw_sync : Z -> M unit) (init_params : M Z).

(** [m] under the EEP lock; [none] is the result without it *)
Definition with_eep_lock {A} (none : A) (m : M A) : M A :=
  s ← acquire_swfw_sync IXGBE_GSSR_EEP_SM;
  if s =? IXGBE_SUCCESS then
    r ← m;
    release_swfw_sync IXGBE_GSSR_EEP_SM ;;
    mret r
  else mret none.

Definition ixgbe_read_eerd_X540 (offset : Z) (data : list Z) : M (Z * list Z) :=
  with_eep_lock (IXGBE_ERR_SWFW_SYNC, data) (ixgbe_read_eerd_generic init_params offset data).
Definition ixgbe_read_eerd_buffer_X540 (offset words : Z) (data : list Z) : M (Z * list Z) :=
  with_eep_lock (IXGBE_ERR_SWFW_SYNC, data)
    (ixgbe_read_eerd_buffer_generic init_params offset words data).
Definition ixgbe_write_eewr_X540 (offset data : Z) : M Z :=
  with_eep_lock IXGBE_ERR_SWFW_SYNC (ixgbe_write_eewr_generic init_params offset data).
Definition ixgbe_write_eewr_buffer_X540 (offset words : Z) (data : list Z) : M Z :=
  with_eep_lock IXGBE_ERR_SWFW_SYNC (ixgbe_write_eewr_buffer_generic init_params offset words data).

(** one round of the loop over the pointers, [ixgbe_calc_eeprom_checksum_X540] *)
Definition checksum_pointer_X540 (i checksum : Z) : M (Z + unit) :=
  if (i =? IXGBE_PHY_PTR) || (i =? IXGBE_OPTION_ROM_PTR) then mret (inl checksum)
  else
    r ← read_word init_params i;
    if negb (fst r =? 0) then mret (inr tt)
    else
      h ← get_hw;
      let pointer := snd r in
      if (pointer =? 0xFFFF) || (pointer =? 0) || (word_size (eeprom h) <=? pointer)
      then mret (inl checksum)
      else
        r ← read_word init_params pointer;
        if negb (fst r =? 0) then mret (inr tt)
        else
          h ← get_hw;
          let length := snd r in
          if (length =? 0xFFFF) || (length =? 0) ||
             (u32 (word_size (eeprom h) - pointer) <? length)
          then mret (inl checksum)
          else
            c ← checksum_section (read_word init_params) (Z.to_nat 65536) (pointer + length) (u16 (pointer + 1))
                  checksum;
            mret (match c with Some c => inl c | None => inr tt end).

Definition ixgbe_calc_eeprom_checksum_X540 : M Z :=
  r ← for_break (Z.to_nat IXGBE_EEPROM_CHECKSUM) 0 0 (fun i checksum =>
        r ← read_word init_params i;
        if negb (fst r =? 0) then mret (inr tt) else mret (inl (u16 (checksum + snd r))));
  match r with
  | inr _ => mret IXGBE_ERR_EEPROM
  | inl checksum =>
      r ← for_break (Z.to_nat (IXGBE_FW_PTR - IXGBE_PCIE_ANALOG_PTR)) IXGBE_PCIE_ANALOG_PTR checksum
            checksum_pointer_X540;
      mret (match r with
            | inr _ => IXGBE_ERR_EEPROM
            | inl checksum => u16 (IXGBE_EEPROM_SUM - checksum)
            end)
  end.

Definition ixgbe_poll_flash_update_done_X540 : M Z :=
  h ← get_hw;
  r ← for_break (Z.to_nat IXGBE_FLUDONE_ATTEMPTS) 0 tt (fun _ _ =>
        reg ← IXGBE_READ_REG (IXGBE_EEC_BY_MAC h);
        if has reg IXGBE_EEC_FLUDONE then mret (inr tt)
        else msec_delay 5 ;; mret (inl tt));
  mret (match r with inr _ => IXGBE_SUCCESS | inl _ => IXGBE_ERR_EEPROM end).

Definition ixgbe_update_flash_X540 : M Z :=
  status ← ixgbe_poll_flash_update_done_X540;
  if status =? IXGBE_ERR_EEPROM then mret status
  else
    h ← get_hw;
    eec ← IXGBE_READ_REG (IXGBE_EEC_BY_MAC h);
    IXGBE_WRITE_REG (IXGBE_EEC_BY_MAC h) (Z.lor eec IXGBE_EEC_FLUP) ;;
    status ← ixgbe_poll_flash_update_done_X540;
    h ← get_hw;
    if bool_decide (mac_type (mac h) = ixgbe_mac_X540) && (revision_id h =? 0) then
      flup ← IXGBE_READ_REG (IXGBE_EEC_BY_MAC h);
      (if has flup IXGBE_EEC_SEC1VAL
       then IXGBE_WRITE_REG (IXGBE_EEC_BY_MAC h) (Z.lor flup IXGBE_EEC_FLUP) else mret tt) ;;
      ixgbe_poll_flash_update_done_X540
    else mret status.

(** [hw->eeprom.ops.read] and [hw->eeprom.ops.calc_checksum] *)
Context (read : Z -> M (Z * Z)) (calc_checksum : M Z).

(** returns also what [*checksum_val] is set to *)
Definition ixgbe_validate_eeprom_checksum_X540 : M (Z * option Z) :=
  r ← read 0;
  if negb (fst r =? 0) then mret (fst r, None)
  else
    s ← acquire_swfw_sync IXGBE_GSSR_EEP_SM;
    if negb (s =? 0) then mret (IXGBE_ERR_SWFW_SYNC, None)
    else
      x ← (status ← calc_checksum;
           if status <? 0 then mret (status, None)
           else
             let checksum := u16 (Z.land status 0xffff) in
             r ← read_word init_params IXGBE_EEPROM_CHECKSUM;
             if negb (fst r =? 0) then mret (fst r, None)
             else mret (if negb (snd r =? checksum) then IXGBE_ERR_EEPROM_CHECKSUM else fst r,
                        Some checksum));
      release_swfw_sync IXGBE_GSSR_EEP_SM ;;
      mret x.

Definition ixgbe_update_eeprom_checksum_X540 : M Z :=
  r ← read 0;
  if negb (fst r =? 0) then mret (fst r)
  else
    s ← acquire_swfw_sync IXGBE_GSSR_EEP_SM;
    if negb (s =? 0) then mret IXGBE_ERR_SWFW_SYNC
    else
      x ← (status ← calc_checksum;
           if status <? 0 then mret status
           else
             status ← ixgbe_write_eewr_generic init_params IXGBE_EEPROM_CHECKSUM
                        (u16 (Z.land status 0xffff));
             if negb (status =? 0) then mret status
             else ixgbe_update_flash_X540);
      release_swfw_sync IXGBE_GSSR_EEP_SM ;;
      mret x.
End Nvm.
