(* ===== verification/X540Props.v ===== *)
(** * Properties of the X540 locks and checksum

    The access protocol of [ixgbe_acquire_swfw_sync_X540] on an arbitrary device,
    the case in which it takes a lock that another driver holds, and the checksum
    of the X540 family on a part behind EERD. *)
From stdpp Require Import gmap.
From S2P Require Import Prelude Regs Types Osdep Trace Semaphore SemProps Eeprom NvmProps X540.

(** ** The locks *)

(** what selects registers and round counts: the table and "X550 or later" *)
Definition x_static (h : ixgbe_hw) : ixgbe_mvals_table * bool :=
  (mvals h, mac_type_val ixgbe_mac_X550 <=? mac_type_val (mac_type (mac h))).

Lemma x_static_remove h : x_static (ixgbe_remove_adapter h) = x_static h.
Proof.
  unfold ixgbe_remove_adapter. destruct (negb (hw_addr h)); [done|].
  by destruct (__IXGBE_SERVICE_INITED _).
Qed.

Definition sync_of (c : ixgbe_mvals_table * bool) : Z :=
  match fst c with ixgbe_mvals_X550EM_a => IXGBE_SWFW_SYNC_X550EM_a | _ => IXGBE_SWFW_SYNC end.
Definition smbi_of (c : ixgbe_mvals_table * bool) : Z := swsm_of (fst c).
Definition rounds (c : ixgbe_mvals_table * bool) : Z := if snd c then 1000 else 200.

(** every write of register [r] puts back what was just read, less some bits *)
Inductive only_clears (r : Z) : list access -> Prop :=
| oc_nil : only_clears r []
| oc_read r' v l : only_clears r l -> only_clears r (Rd r' v :: l)
| oc_delay us l : only_clears r l -> only_clears r (Dly us :: l)
| oc_write r' v l : r' <> r -> only_clears r l -> only_clears r (Wr r' v :: l)
| oc_clear x m l : only_clears r l ->
    only_clears r (Rd r x :: Wr r (u32 (Z.land x (bnot 32 m))) :: l).

Lemma only_clears_app r a b : only_clears r a -> only_clears r b -> only_clears r (a ++ b).
Proof. intros Ha Hb. induction Ha; simpl; auto using only_clears. Qed.

Definition no_write (a : access) : Prop := match a with Wr _ _ => False | _ => True end.

Lemma no_write_clears r l : Forall no_write l -> only_clears r l.
Proof. induction 1 as [|[] l Ha _ IH]; [constructor..|done|constructor]; done. Qed.

Lemma sync_not_smbi c : smbi_of c <> sync_of c.
Proof. by destruct c as [[] ?]. Qed.

(** the semaphore was seen free: SMBI, then REGSMP, without a write in between *)
Definition x_taken (c : ixgbe_mvals_table * bool) (l : list access) : Prop := exists a v b v',
  l = a ++ [Rd (smbi_of c) v] ++ b ++ [Rd (sync_of c) v'] /\
  has v IXGBE_SWSM_SMBI = false /\ has v' IXGBE_SWFW_REGSMP = false /\ Forall no_write (a ++ b).

(** the semaphore is given back: REGSMP, then SMBI *)
Definition x_released (c : ixgbe_mvals_table * bool) (l : list access) : Prop := exists x y z,
  l = [Rd (sync_of c) x; Wr (sync_of c) (u32 (Z.land x (bnot 32 IXGBE_SWFW_REGSMP)));
       Rd (smbi_of c) y; Wr (smbi_of c) (u32 (Z.land y (bnot 32 IXGBE_SWSM_SMBI)));
       Rd IXGBE_STATUS z].

Lemma x_released_clears c l : x_released c l -> only_clears (sync_of c) l /\ waits l = 0.
Proof.
  intros (x & y & z & ->). split; [|done]. apply oc_clear, oc_read, oc_write, oc_read, oc_nil.
  apply sync_not_smbi.
Qed.

Create HintDb x540.
#[local] Hint Resolve only_clears_app no_write_clears x_static_remove : x540.

Section Protocol.
Context `{D : Mmio}.

Lemma sync_by_mac h c : x_static h = c -> IXGBE_SWFW_SYNC_BY_MAC h = sync_of c.
Proof using. by intros <-. Qed.
Lemma smbi_by_mac h c : x_static h = c -> IXGBE_SWSM_BY_MAC h = smbi_of c.
Proof using. by intros <-. Qed.

Lemma x_release_tr c : traces x_static c ixgbe_release_swfw_sync_semaphore
  (fun _ l => x_released c l).
Proof using.
  unfold ixgbe_release_swfw_sync_semaphore, IXGBE_WRITE_FLUSH.
  apply tr_bind_get_hw. intros h Hh. rewrite (sync_by_mac h c Hh), (smbi_by_mac h c Hh).
  apply tr_bind_read; [exact x_static_remove|intros x _]. apply tr_bind_write.
  apply tr_bind_read; [exact x_static_remove|intros y _]. apply tr_bind_write.
  apply tr_bind_read; [exact x_static_remove|intros z _]. apply tr_ret. by exists x, y, z.
Qed.

Lemma poll_clear_tr c reg mask : traces x_static c (poll_clear reg mask) (fun r l =>
  Forall no_write l /\ 0 <= waits l <= 100000 /\
  match r with
  | inr _ => exists a v, l = a ++ [Rd reg v] /\ has v mask = false
  | inl _ => True
  end).
Proof using.
  unfold poll_clear. apply tr_for_break with
    (I := fun k _ l => Forall no_write l /\ 0 <= waits l <= 50 * k).
  - split; [done|simpl; lia].
  - intros k _ l Hk [Hf Hw]. change (Z.of_nat _) with 2000 in Hk.
    apply tr_bind_read; [exact x_static_remove|intros v _]. apply tr_if; intros Hb.
    + apply tr_ret. rewrite waits_app. simpl. split; [apply Forall_app; split; [done|fa]|].
      split; [lia|]. apply negb_true_iff in Hb. eauto.
    + apply tr_bind_delay, tr_ret. rewrite waits_app. simpl.
      split; [apply Forall_app; split; [done|fa]|lia].
  - intros _ l [Hf Hw]. change (0 + Z.of_nat 2000) with 2000 in Hw. split; [done|]. lia.
Qed.

Lemma x_get_tr c : traces x_static c ixgbe_get_swfw_sync_semaphore (fun ret l =>
  only_clears (sync_of c) l /\ 0 <= waits l <= 200000 /\
  (ret = IXGBE_SUCCESS /\ x_taken c l \/ ret = IXGBE_ERR_EEPROM)).
Proof using.
  unfold ixgbe_get_swfw_sync_semaphore. apply tr_bind_get_hw. intros h Hh.
  rewrite (sync_by_mac h c Hh), (smbi_by_mac h c Hh).
  eapply tr_bind; [apply poll_clear_tr|]. intros r1 l1 (F1 & W1 & R1).
  destruct r1 as [u|u].
  { apply tr_ret. rewrite app_nil_r. split; [by apply no_write_clears|]. split; [lia|by right]. }
  eapply tr_bind; [apply poll_clear_tr|]. intros r2 l2 (F2 & W2 & R2). destruct r2 as [u2|u2].
  - eapply tr_bind; [apply x_release_tr|]. intros [] l3 H3. apply tr_ret.
    destruct (x_released_clears c l3 H3) as [C3 W3]. rewrite app_nil_r, !waits_app, W3.
    split; [eauto with x540|]. split; [lia|by right].
  - apply tr_ret. rewrite app_nil_r, waits_app. split; [eauto with x540|]. split; [lia|]. left.
    split; [done|]. destruct R1 as (a & v & -> & Hv), R2 as (b & v' & -> & Hv').
    exists a, v, b, v'. split; [by rewrite <- !app_assoc|]. split; [done|]. split; [done|].
    apply Forall_app in F1 as [? _], F2 as [? _]. by apply Forall_app.
Qed.

Lemma x_release_sync_tr c mask : traces x_static c (ixgbe_release_swfw_sync_X540 mask)
  (fun _ l => only_clears (sync_of c) l /\ waits l <= 202000).
Proof using.
  unfold ixgbe_release_swfw_sync_X540. eapply tr_bind; [apply x_get_tr|].
  intros s l1 (C1 & W1 & _). apply tr_bind_get_hw. intros h Hh. rewrite (sync_by_mac h c Hh).
  apply tr_bind_read; [exact x_static_remove|intros x _]. apply tr_bind_write.
  eapply tr_bind; [apply x_release_tr|]. intros [] l2 H2. apply tr_udelay.
  destruct (x_released_clears c l2 H2) as [C2 W2].
  rewrite waits_app. cbn [waits]. rewrite waits_app, W2. cbn [waits]. split; [|lia].
  apply only_clears_app; [done|]. apply oc_clear. apply only_clears_app; [done|].
  by repeat constructor.
Qed.

(** the software bits are added to what was read while the semaphore was held *)
Definition sync_set (c : ixgbe_mvals_table * bool) (swmask : Z) (K : Z -> list access -> Prop)
    (l : list access) : Prop :=
  exists pre s g rel, l = pre ++ s ++ [Rd (sync_of c) g; Wr (sync_of c) (u32 (Z.lor g swmask))] ++ rel /\
    only_clears (sync_of c) pre /\ x_taken c s /\ only_clears (sync_of c) rel /\ K g (pre ++ s).

(** the conflicting bits, and those of firmware and hardware only *)
Definition conflict (mask : Z) : Z :=
  Z.lor (Z.lor (acquire_fwmask mask) (acquire_swmask mask)) (acquire_hwmask mask).
Definition foreign (mask : Z) : Z := Z.lor (acquire_fwmask mask) (acquire_hwmask mask).

Definition x_outcome c mask (K : Z -> list access -> Prop) (ret : Z) (l : list access) : Prop :=
  ret = IXGBE_SUCCESS /\ sync_set c (acquire_swmask mask) K l \/
  ret = IXGBE_ERR_SWFW_SYNC /\ only_clears (sync_of c) l.

Lemma acquire_forced_tr c mask : traces x_static c (acquire_forced mask) (fun ret l =>
  waits l <= 402000 /\
  x_outcome c mask (fun g before => has g (foreign mask) = true /\ 0 <= waits before) ret l).
Proof using.
  unfold acquire_forced. eapply tr_bind; [apply x_get_tr|]. intros s l1 (C1 & W1 & S1).
  apply tr_if; intros Es.
  { apply tr_ret. rewrite app_nil_r. split; [lia|by right]. }
  destruct S1 as [[-> T1]| ->]; [|done]. apply tr_bind_get_hw. intros h Hh.
  rewrite (sync_by_mac h c Hh). apply tr_bind_read; [exact x_static_remove|intros g _].
  apply tr_if; intros Eg.
  { apply tr_bind_write. eapply tr_bind; [apply x_release_tr|]. intros [] l2 H2.
    apply tr_bind_delay, tr_ret. destruct (x_released_clears c l2 H2) as [C2 W2].
    rewrite waits_app. cbn [waits]. rewrite waits_app, W2. cbn [waits]. split; [lia|]. left.
    split; [done|]. exists [], l1, g, (l2 ++ [Dly (1000 * 5)]). split; [done|].
    split; [constructor|]. split; [done|]. split; [|split; [done|simpl; lia]].
    apply only_clears_app; [done|by repeat constructor]. }
  apply tr_if; intros _.
  - eapply tr_bind; [apply x_release_sync_tr|]. intros [] l2 [C2 W2].
    eapply tr_bind; [apply x_release_tr|]. intros [] l3 H3. apply tr_ret.
    destruct (x_released_clears c l3 H3) as [C3 W3].
    rewrite app_nil_r, waits_app. cbn [waits]. rewrite waits_app, W3. split; [lia|]. right.
    split; [done|]. apply only_clears_app; [done|]. apply oc_read. by apply only_clears_app.
  - eapply tr_bind; [apply x_release_tr|]. intros [] l3 H3. apply tr_ret.
    destruct (x_released_clears c l3 H3) as [C3 W3].
    rewrite app_nil_r, waits_app. cbn [waits]. rewrite W3. split; [lia|]. right.
    split; [done|]. apply only_clears_app; [done|]. by apply oc_read.
Qed.

End Protocol.

(** ** A lock taken from another driver *)
#[local] Existing Instance ram.

(** an X540 on which another driver and the firmware both own the NVM *)
Definition hw_x540 : ixgbe_hw := upd_mac (upd_mac_type ixgbe_mac_X540 (mac hw0)) hw0.
Definition sync_owned : Z := Z.lor IXGBE_GSSR_EEP_SM (Z.shiftl IXGBE_GSSR_EEP_SM 5).

(** The forced path of [ixgbe_acquire_swfw_sync_X540] ignores, with the
    firmware's bit, also the software bit: when another driver and the firmware
    both hold the NVM throughout the wait, the call reports success, and its
    later release would clear the other driver's bit; the comment allows only
    the firmware and hardware bits to be ignored. *)
Theorem x540_lock_stolen :
  has sync_owned (acquire_swmask IXGBE_GSSR_EEP_SM) = true /\
  match (ret ← ixgbe_acquire_swfw_sync_X540 IXGBE_GSSR_EEP_SM;
         ixgbe_release_swfw_sync_X540 IXGBE_GSSR_EEP_SM ;; mret ret)
          (mk_world ram hw_x540 ({[IXGBE_SWFW_SYNC := sync_owned]} : gmap Z Z) []) with
  | Done ret w' => ret = IXGBE_SUCCESS /\
      exists v, (w_dev w' : gmap Z Z) !! IXGBE_SWFW_SYNC = Some v /\
                has v (acquire_swmask IXGBE_GSSR_EEP_SM) = false
  | Fault _ => False
  end.
Proof.
  split; [done|]. vm_compute. split; [reflexivity|]. eexists. split; reflexivity.
Qed.

(** ** The checksum *)
Section X540Reference.
Context (size : Z) (word : Z -> Z).

(** the words behind pointer [i]: the PHY and option ROM sections are left out,
    and so are sections whose header is invalid; [None] when the section ends
    one word behind the part *)
Definition section_words_X540 (i : Z) : option (list Z) :=
  if (i =? IXGBE_PHY_PTR) || (i =? IXGBE_OPTION_ROM_PTR) then Some []
  else
    let p := word i in
    let n := word p in
    if (p =? 0xFFFF) || (p =? 0) || (size <=? p) then Some []
    else if (n =? 0xFFFF) || (n =? 0) || (size - p <? n) then Some []
    else if size <=? p + n then None
    else Some (word <$> seqZ (p + 1) n).

Definition nvm_checksum_X540 : option Z :=
  if size <=? 0x3E then None
  else match all_words section_words_X540 (seqZ 3 12) with
       | Some l => Some (u16 (0xBABA - (zsum (word <$> seqZ 0 63) + zsum l)))
       | None => None
       end.
End X540Reference.

#[export] Instance init_X540_done `{D : Mmio} : EepInit ixgbe_init_eeprom_params_X540.
Proof.
  intros w [_ _ Hi _]. unfold ixgbe_init_eeprom_params_X540, mbind, comp_bind, get_hw, gets.
  rewrite bool_decide_eq_false_2 by done. done.
Qed.

Section X540Checksum.
Context `{D : Mmio} `{!EerdDevice D}.
#[local] Instance x540_nvm : NvmOps := eerd_nvm ixgbe_init_eeprom_params_X540.
Context (w0 : world).

Abbreviation size0 := (nv_size w0).
Abbreviation word0 := (nv_word w0).

Lemma as_before_size w : as_before w0 w -> word_size (eeprom (w_hw w)) = size0.
Proof using. by intros (_ & H & _). Qed.

Lemma read_word_X540 w o : as_before w0 w -> 0 <= o < 65536 ->
  wp (read_word ixgbe_init_eeprom_params_X540 o) (fun r w' => as_before w0 w' /\
    if o <? size0 then r = (IXGBE_SUCCESS, word0 o) else fst r = IXGBE_ERR_EEPROM) w.
Proof using. exact (read_as_before w0 w o). Qed.

Lemma section_X540 j n checksum w : as_before w0 w -> size0 < 65536 -> 0 <= j <= 65535 ->
  0 < n < 65536 ->
  wp (checksum_section (read_word ixgbe_init_eeprom_params_X540) (Z.to_nat 65536) (j + n - 1) j
        (u16 checksum)) (fun r w' => as_before w0 w' /\
    r = if size0 <=? j + n - 1 then None
        else Some (u16 (checksum + zsum (word0 <$> seqZ j n)))) w.
Proof using.
  intros Hw Hs Hj Hn.
  pose proof (checksum_section_effect w0 (Z.to_nat 65536) j n checksum w Hw Hs Hj ltac:(lia)
    ltac:(right; rewrite Z2Nat.id; lia)) as H.
  destruct (Z.eqb_spec n 0); [lia|]. exact H.
Qed.

Lemma checksum_pointer_X540_effect i x w : as_before w0 w -> 0x3E < size0 < 65536 -> 3 <= i < 15 ->
  wp (checksum_pointer_X540 ixgbe_init_eeprom_params_X540 i (u16 x)) (fun r w' => as_before w0 w' /\
    r = match section_words_X540 size0 word0 i with
        | Some l => inl (u16 (x + zsum l)) | None => inr tt end) w.
Proof using.
  intros Hw Hs Hi. unfold checksum_pointer_X540, section_words_X540.
  assert (Hr16 : forall a, in_range 16 (word0 a)) by (intros a; apply ee_word_range).
  destruct ((i =? IXGBE_PHY_PTR) || (i =? IXGBE_OPTION_ROM_PTR)).
  { apply wp_ret. split; [done|]. simpl. by rewrite Z.add_0_r. }
  wp_step. eapply wp_mono; [apply read_word_X540; [done|lia]|]. intros r w1 [Hw1 Hr].
  destruct (Z.ltb_spec i size0); [|lia]. rewrite Hr. cbn [fst snd].
  change (negb (IXGBE_SUCCESS =? 0)) with false. cbv iota zeta. wp_step. apply wp_get_hw.
  rewrite (as_before_size w1 Hw1). set (p := word0 i) in *.
  assert (Hp : in_range 16 p) by apply Hr16. unfold in_range in Hp.
  destruct ((p =? 0xFFFF) || (p =? 0) || (size0 <=? p)) eqn:E1.
  { apply wp_ret. split; [done|]. simpl. by rewrite Z.add_0_r. }
  apply orb_false_iff in E1 as [E1 E1'%Z.leb_gt].
  wp_step. eapply wp_mono; [apply read_word_X540; [done|lia]|]. intros r2 w2 [Hw2 Hr2].
  destruct (Z.ltb_spec p size0); [|lia]. rewrite Hr2. cbn [fst snd].
  change (negb (IXGBE_SUCCESS =? 0)) with false. cbv iota. wp_step. apply wp_get_hw.
  rewrite (as_before_size w2 Hw2). set (n := word0 p) in *.
  assert (Hn : in_range 16 n) by apply Hr16. unfold in_range in Hn.
  rewrite (trunc_small 32 (size0 - p)) by (unfold in_range; lia).
  destruct ((n =? 0xFFFF) || (n =? 0) || (size0 - p <? n)) eqn:E2.
  { apply wp_ret. split; [done|]. simpl. by rewrite Z.add_0_r. }
  apply orb_false_iff in E2 as [[_ E2%Z.eqb_neq]%orb_false_iff E3%Z.ltb_ge].
  rewrite (trunc_small 16 (p + 1)) by (unfold in_range; lia). wp_step.
  replace (p + n) with ((p + 1) + n - 1) by lia.
  eapply wp_mono; [apply section_X540; [done|lia|lia|lia]|].
  intros c w3 [Hw3 ->]. apply wp_ret. split; [done|]. by destruct (size0 <=? p + 1 + n - 1).
Qed.

Lemma words_X540 w : as_before w0 w -> size0 < 65536 ->
  wp (for_break (Z.to_nat IXGBE_EEPROM_CHECKSUM) 0 0 (fun i checksum =>
        r ← read_word ixgbe_init_eeprom_params_X540 i;
        if negb (fst r =? 0) then mret (inr tt) else mret (inl (u16 (checksum + snd r)))))
    (fun r w' => as_before w0 w' /\
       r = if size0 <=? 0x3E then inr tt else inl (u16 (zsum (word0 <$> seqZ 0 63)))) w.
Proof using. exact (checksum_words_effect w0 w). Qed.

Lemma calc_checksum_X540_effect w : as_before w0 w ->
  wp (ixgbe_calc_eeprom_checksum_X540 ixgbe_init_eeprom_params_X540) (fun ret w' =>
    as_before w0 w' /\ ret = match nvm_checksum_X540 size0 word0 with
                             | Some c => c | None => IXGBE_ERR_EEPROM end) w.
Proof using.
  intros Hw. assert (size0 < 65536) as Hs.
  { destruct Hw as (Hok & <- & _). by apply nv_size_range. }
  unfold ixgbe_calc_eeprom_checksum_X540. wp_step.
  eapply wp_mono; [by apply words_X540|]. intros r w1 [Hw1 ->].
  unfold nvm_checksum_X540. destruct (Z.leb_spec size0 0x3E); [by apply wp_ret|]. wp_step.
  change (Z.to_nat (IXGBE_FW_PTR - IXGBE_PCIE_ANALOG_PTR)) with 12%nat.
  change IXGBE_PCIE_ANALOG_PTR with 3.
  eapply wp_mono; [apply (pointer_loop_effect w0 (section_words_X540 size0 word0)); [done|]|].
  { intros i x w' Hw' Hi. apply checksum_pointer_X540_effect; [done|lia|lia]. }
  intros r w2 [Hw2 ->]. change (Z.of_nat 12) with 12. apply wp_ret. split; [done|].
  destruct (all_words _ _) as [l|]; [|done].
  unfold trunc, IXGBE_EEPROM_SUM. by rewrite Zminus_mod_idemp_r.
Qed.
End X540Checksum.

Section X540Theorems.
Context `{D : Mmio} `{!EerdDevice D}.

(** On a part behind EERD, [ixgbe_calc_eeprom_checksum_X540] ends for every
    content and computes the X540 reference checksum: words 0..0x3E and the
    sections behind pointers 3 and 6..14 with a valid header sum up to 0xBABA
    with it; nothing is changed; the only contents it rejects are those with a
    section that ends exactly one word behind the part, which the length check
    lets through. *)
Theorem x540_checksum_spec w : eerd_ok w ->
  wp (ixgbe_calc_eeprom_checksum_X540 ixgbe_init_eeprom_params_X540) (fun ret w' =>
    word_size (eeprom (w_hw w')) = word_size (eeprom (w_hw w)) /\ (forall a, ee_word (w_dev w') a = ee_word (w_dev w) a) /\
    ret = match nvm_checksum_X540 (word_size (eeprom (w_hw w))) (ee_word (w_dev w)) with
          | Some c => c | None => IXGBE_ERR_EEPROM end) w.
Proof using.
  intros Hok. eapply wp_mono; [by apply (calc_checksum_X540_effect w)|].
  intros ret w' [(Hok' & Hs & Hw) ->]. split; [done|by split].
Qed.
End X540Theorems.

(** ** Witness: a part with one section behind pointer 6 *)
Definition x540_words (a : Z) : Z :=
  match a with 6 => 0x50 | 0x50 => 2 | 0x51 => 0x1111 | 0x52 => 0x2222 | _ => 0 end.
#[local] Existing Instance nvm_part.
#[local] Existing Instance nvm_part_eerd.

Definition wx540 : world (H := nvm_part) := mk_world nvm_part hw_nvm (mk_nvm x540_words 0 0) [].
Lemma wx540_ok : eerd_ok wx540.
Proof. by split. Qed.

Lemma x540_checksum_spec_witness :
  wp (ixgbe_calc_eeprom_checksum_X540 (D := nvm_part) ixgbe_init_eeprom_params_X540)
    (fun ret _ => ret = 0x8737) wx540.
Proof.
  eapply wp_mono; [exact (x540_checksum_spec (D := nvm_part) wx540 wx540_ok)|].
  intros ret w' (_ & _ & ->). vm_compute. reflexivity.
Defined.
