(* ===== verification/Packing.v ===== *)
(** * Bit-field packing (kcompat_packing.c)

    [pack] and [unpack] move the bits of a [u64] to and from a field of a byte
    buffer whose byte and bit order is chosen by the quirks.  A buffer is the
    list of its bytes; [size_t] is 64 bits wide. *)
From S2P Require Import Prelude.

Definition QUIRK_MSB_ON_THE_RIGHT : Z := bit 0.
Definition QUIRK_LITTLE_ENDIAN : Z := bit 1.
Definition QUIRK_LSW32_IS_FIRST : Z := bit 2.
Definition BITS_PER_BYTE : Z := 8.
Definition EINVAL : Z := 22.
Definition ERANGE : Z := 34.

(** [GENMASK(h, l)]: the bits [h] down to [l] *)
Definition GENMASK (h l : Z) : Z := Z.shiftl (Z.ones (h - l + 1)) l.

(** [bitrev8]: bit [i] of the result is bit [7 - i] of the byte *)
Definition bitrev8 (x : Z) : Z :=
  foldr (fun i acc => Z.lor (Z.shiftl (Z.b2z (Z.testbit x (7 - i))) i) acc) 0 (seqZ 0 8).

Definition calculate_box_addr (box len quirks : Z) : Z :=
  let this_group := box / 4 in
  let offset_of_group := if has quirks QUIRK_LSW32_IS_FIRST then u64 (this_group * 4)
                         else u64 (len - (this_group + 1) * 4) in
  let group_size := Z.min 4 (u64 (len - offset_of_group)) in
  let offset_in_group := if has quirks QUIRK_LITTLE_ENDIAN then u64 (box - this_group * 4)
                         else u64 (group_size - (box - this_group * 4) - 1) in
  u64 (offset_of_group + offset_in_group).

Section Packing.
Context {S : Type}.

(** one iteration of the loop of [__pack] *)
Definition pack_box (uval startbit endbit pbuflen quirks box : Z) (pbuf : list Z) : comp S (list Z) :=
  let plogical_first_u8 := startbit / BITS_PER_BYTE in
  let plogical_last_u8 := endbit / BITS_PER_BYTE in
  let box_start_bit := if box =? plogical_first_u8 then startbit mod BITS_PER_BYTE else 7 in
  let box_end_bit := if box =? plogical_last_u8 then endbit mod BITS_PER_BYTE else 0 in
  let proj_start_bit := u64 (box * BITS_PER_BYTE + box_start_bit - endbit) in
  let proj_end_bit := u64 (box * BITS_PER_BYTE + box_end_bit - endbit) in
  let proj_mask := GENMASK proj_start_bit proj_end_bit in
  let box_mask := u8 (GENMASK box_start_bit box_end_bit) in
  let box_addr := calculate_box_addr box pbuflen quirks in
  let pval := Z.land uval proj_mask in
  let pval := Z.shiftr pval proj_end_bit in
  let pval := u64 (Z.shiftl pval box_end_bit) in
  let '(pval, box_mask) := if has quirks QUIRK_MSB_ON_THE_RIGHT
                           then (bitrev8 (u8 pval), bitrev8 box_mask) else (pval, box_mask) in
  b ← nth_c pbuf box_addr;
  pbuf ← upd_c pbuf box_addr (Z.land b (bnot 8 box_mask));
  b ← nth_c pbuf box_addr;
  upd_c pbuf box_addr (u8 (Z.lor b pval)).

(** [for (box = first; box >= last; box--)], as the [n]-th iteration down from
    [first] (the check of the value's width only warns) *)
Definition __pack (pbuf : list Z) (uval startbit endbit pbuflen quirks : Z) : comp S (list Z) :=
  let first := startbit / BITS_PER_BYTE in
  let last := endbit / BITS_PER_BYTE in
  for_acc (Z.to_nat (first - last + 1)) 0 pbuf (fun n pbuf =>
    pack_box uval startbit endbit pbuflen quirks (first - n) pbuf).

Definition pack (pbuf : list Z) (uval startbit endbit pbuflen quirks : Z) : comp S (Z * list Z) :=
  if (startbit <? endbit) || (u64 (BITS_PER_BYTE * pbuflen) <=? startbit) then mret (- EINVAL, pbuf)
  else if 64 <=? startbit - endbit then mret (- ERANGE, pbuf)
  else pbuf ← __pack pbuf uval startbit endbit pbuflen quirks; mret (0, pbuf).

(** one iteration of the loop of [__unpack] *)
Definition unpack_box (pbuf : list Z) (startbit endbit pbuflen quirks box uval : Z) : comp S Z :=
  let plogical_first_u8 := startbit / BITS_PER_BYTE in
  let plogical_last_u8 := endbit / BITS_PER_BYTE in
  let box_start_bit := if box =? plogical_first_u8 then startbit mod BITS_PER_BYTE else 7 in
  let box_end_bit := if box =? plogical_last_u8 then endbit mod BITS_PER_BYTE else 0 in
  let proj_start_bit := u64 (box * BITS_PER_BYTE + box_start_bit - endbit) in
  let proj_end_bit := u64 (box * BITS_PER_BYTE + box_end_bit - endbit) in
  let proj_mask := GENMASK proj_start_bit proj_end_bit in
  let box_mask := u8 (GENMASK box_start_bit box_end_bit) in
  let box_addr := calculate_box_addr box pbuflen quirks in
  pval ← nth_c pbuf box_addr;
  let pval := if has quirks QUIRK_MSB_ON_THE_RIGHT then bitrev8 pval else pval in
  let pval := Z.land pval box_mask in
  let pval := Z.shiftr pval box_end_bit in
  let pval := u64 (Z.shiftl pval proj_end_bit) in
  mret (Z.lor (Z.land uval (bnot 64 proj_mask)) pval).

Definition __unpack (pbuf : list Z) (startbit endbit pbuflen quirks : Z) : comp S Z :=
  let first := startbit / BITS_PER_BYTE in
  let last := endbit / BITS_PER_BYTE in
  for_acc (Z.to_nat (first - last + 1)) 0 0 (fun n uval =>
    unpack_box pbuf startbit endbit pbuflen quirks (first - n) uval).

(** returns also [*uval], [None] when it is left alone *)
Definition unpack (pbuf : list Z) (startbit endbit pbuflen quirks : Z) : comp S (Z * option Z) :=
  if (startbit <? endbit) || (u64 (BITS_PER_BYTE * pbuflen) <=? startbit) then mret (- EINVAL, None)
  else
    let value_width := startbit - endbit + 1 in
    if 64 <? value_width then mret (- ERANGE, None)
    else v ← __unpack pbuf startbit endbit pbuflen quirks; mret (0, Some v).

(** ** Arrays of fields *)
Record packed_field := mk_packed_field {
  f_startbit : Z; f_endbit : Z; f_offset : Z; f_size : Z;
}.

(** an access of a field of the unpacked structure, whose bytes are in the order
    of a little-endian host *)
Definition field_bytes (field_size : Z) : Z :=
  if field_size =? 1 then 1 else if field_size =? 2 then 2 else if field_size =? 4 then 4 else 8.

Definition ustruct_field_to_u64 (ustruct : list Z) (field_offset field_size : Z) : comp S Z :=
  for_acc (Z.to_nat (field_bytes field_size)) 0 0 (fun i acc =>
    b ← nth_c ustruct (field_offset + i); mret (Z.lor acc (Z.shiftl b (8 * i)))).

Definition u64_to_ustruct_field (ustruct : list Z) (field_offset field_size uval : Z) : comp S (list Z) :=
  for_acc (Z.to_nat (field_bytes field_size)) 0 ustruct (fun i u =>
    upd_c u (field_offset + i) (u8 (Z.shiftr uval (8 * i)))).

Fixpoint __pack_fields (pbuf : list Z) (pbuflen : Z) (ustruct : list Z) (fields : list packed_field)
    (quirks : Z) : comp S (list Z) :=
  match fields with
  | [] => mret pbuf
  | field :: fields' =>
      uval ← ustruct_field_to_u64 ustruct (f_offset field) (f_size field);
      pbuf ← __pack pbuf uval (f_startbit field) (f_endbit field) pbuflen quirks;
      __pack_fields pbuf pbuflen ustruct fields' quirks
  end.

Fixpoint __unpack_fields (pbuf : list Z) (pbuflen : Z) (ustruct : list Z) (fields : list packed_field)
    (quirks : Z) : comp S (list Z) :=
  match fields with
  | [] => mret ustruct
  | field :: fields' =>
      uval ← __unpack pbuf (f_startbit field) (f_endbit field) pbuflen quirks;
      ustruct ← u64_to_ustruct_field ustruct (f_offset field) (f_size field) uval;
      __unpack_fields pbuf pbuflen ustruct fields' quirks
  end.

(** the u8 and u16 variants differ in the type of the descriptors only *)
Definition pack_fields_u8 := __pack_fields.
Definition pack_fields_u16 := __pack_fields.
Definition unpack_fields_u8 := __unpack_fields.
Definition unpack_fields_u16 := __unpack_fields.

Inductive packing_op := PACK | UNPACK.

(** [packing] (its [int] bit numbers converted to [size_t]); returns the status,
    the buffer and [*uval] *)
Definition packing (pbuf : list Z) (uval startbit endbit pbuflen : Z) (op : packing_op) (quirks : Z) :
    comp S (Z * list Z * Z) :=
  match op with
  | PACK => r ← pack pbuf uval (u64 startbit) (u64 endbit) pbuflen quirks; mret (fst r, snd r, uval)
  | UNPACK =>
      r ← unpack pbuf (u64 startbit) (u64 endbit) pbuflen quirks;
      mret (fst r, pbuf, default uval (snd r))
  end.
End Packing.
