(* ===== verification/PackingProps.v ===== *)
(** * Properties of the packing library

    The specification views a buffer as a sequence of logical bits; packing and
    unpacking are characterised bit by bit, from which the round trips follow. *)
From S2P Require Import Prelude Packing.

(** ** Byte addresses *)

(** byte order and length fit together: with little-endian groups and the most
    significant group first, the first group must not be cut *)
Definition good_layout (len quirks : Z) : Prop :=
  has quirks QUIRK_LSW32_IS_FIRST = true \/ has quirks QUIRK_LITTLE_ENDIAN = false \/ len mod 4 = 0.

(** the byte at which logical byte [box] is, without wrap-around *)
Definition phys (len quirks box : Z) : Z :=
  let g := box / 4 in
  if has quirks QUIRK_LSW32_IS_FIRST then
    if has quirks QUIRK_LITTLE_ENDIAN then box else 4 * g + Z.min 4 (len - 4 * g) - (box - 4 * g) - 1
  else if has quirks QUIRK_LITTLE_ENDIAN then len - 4 * (g + 1) + (box - 4 * g) else len - box - 1.

(** buffers are far smaller than the address space *)
Definition buf_len (len : Z) : Prop := 0 <= len < 2 ^ 28.

Lemma u64_small x : 0 <= x < 2 ^ 63 -> u64 x = x.
Proof. intros. apply trunc_small. unfold in_range. lia. Qed.

Lemma div4 b : 4 * (b / 4) <= b < 4 * (b / 4) + 4.
Proof. zlia. Qed.

Lemma u64_neg x : - 2 ^ 63 < x < 0 -> u64 x = x + 2 ^ 64.
Proof.
  intros. unfold trunc. rewrite <- (Z.mod_small (x + 2 ^ 64) (2 ^ 64)) by lia.
  by rewrite <- (Z_mod_plus_full x 1), Z.mul_1_l.
Qed.

(** the group offset may wrap below zero; adding to it wraps back *)
Lemma u64_wrap_add x y : u64 (u64 x + y) = u64 (x + y).
Proof. apply trunc_add_l. lia. Qed.
Lemma u64_wrap_sub x y : u64 (y - u64 x) = u64 (y - x).
Proof. unfold trunc. by rewrite Zminus_mod_idemp_r. Qed.

Lemma box_addr_wrapped box len quirks : buf_len len -> 0 <= box < len ->
  calculate_box_addr box len quirks = u64 (phys len quirks box).
Proof.
  unfold buf_len. intros Hl Hb. pose proof (div4 box) as Hg. unfold calculate_box_addr, phys.
  set (g := box / 4) in *. clearbody g.
  rewrite (u64_small (box - g * 4)) by lia.
  destruct (has quirks QUIRK_LSW32_IS_FIRST), (has quirks QUIRK_LITTLE_ENDIAN).
  - rewrite (u64_small (g * 4)) by lia. f_equal. lia.
  - rewrite (u64_small (g * 4)) by lia. rewrite (u64_small (len - g * 4)) by lia.
    rewrite (u64_small (Z.min 4 (len - g * 4) - (box - g * 4) - 1)) by lia. f_equal. lia.
  - rewrite u64_wrap_add. f_equal. lia.
  - rewrite u64_wrap_sub. replace (len - (len - (g + 1) * 4)) with (4 * g + 4) by lia.
    rewrite (u64_small (4 * g + 4)), Z.min_l by lia.
    rewrite (u64_small (4 - (box - g * 4) - 1)), u64_wrap_add by lia. f_equal. lia.
Qed.

Lemma phys_range len quirks box : good_layout len quirks -> 0 <= box < len ->
  0 <= phys len quirks box < len.
Proof.
  unfold good_layout, phys. intros Hq Hb. pose proof (div4 box).
  destruct (has quirks QUIRK_LSW32_IS_FIRST), (has quirks QUIRK_LITTLE_ENDIAN); try lia.
  destruct Hq as [?|[?|Hm]]; [done|done|]. zlia.
Qed.

Lemma phys_inj len quirks b b' : good_layout len quirks -> 0 <= b < len -> 0 <= b' < len ->
  phys len quirks b = phys len quirks b' -> b = b'.
Proof.
  unfold good_layout, phys. intros Hq Hb Hb'.
  pose proof (div4 b); pose proof (div4 b').
  destruct (has quirks QUIRK_LSW32_IS_FIRST), (has quirks QUIRK_LITTLE_ENDIAN); lia.
Qed.

Lemma box_addr_phys box len quirks : buf_len len -> good_layout len quirks -> 0 <= box < len ->
  calculate_box_addr box len quirks = phys len quirks box.
Proof.
  intros Hl Hq Hb. rewrite box_addr_wrapped by done. pose proof (phys_range _ _ _ Hq Hb).
  unfold buf_len in Hl. apply u64_small. lia.
Qed.

(** [calculate_box_addr] maps the logical bytes of a buffer one to one to
    its bytes exactly when the layout is good.  With QUIRK_LITTLE_ENDIAN, without
    QUIRK_LSW32_IS_FIRST and with a length that is no multiple of four, the first
    byte of the cut group is addressed in front of the buffer (the group offset
    wraps), whatever the comment says about such lengths. *)
Theorem box_addr_bijective len quirks : buf_len len ->
  (forall box, 0 <= box < len -> 0 <= calculate_box_addr box len quirks < len) /\
  (forall b b', 0 <= b < len -> 0 <= b' < len ->
     calculate_box_addr b len quirks = calculate_box_addr b' len quirks -> b = b')
  <-> good_layout len quirks.
Proof.
  intros Hl. split.
  - intros [Hr _]. unfold good_layout.
    destruct (has quirks QUIRK_LSW32_IS_FIRST) eqn:E1; [by left|right].
    destruct (has quirks QUIRK_LITTLE_ENDIAN) eqn:E2; [right|by left].
    destruct (Z.eq_dec (len mod 4) 0) as [?|Hn]; [done|exfalso].
    unfold buf_len in Hl. assert (Hb : 0 <= 4 * (len / 4) < len) by zlia.
    specialize (Hr _ Hb). rewrite box_addr_wrapped in Hr by done.
    unfold phys in Hr. rewrite E1, E2 in Hr. rewrite u64_neg in Hr by zlia. zlia.
  - intros Hq. split.
    + intros box Hb. rewrite box_addr_phys by done. by apply phys_range.
    + intros b b' Hb Hb'. rewrite !box_addr_phys by done. by apply phys_inj.
Qed.

(** ** Logical bits *)
Lemma testbit_GENMASK h l i : 0 <= l <= h + 1 -> 0 <= i ->
  Z.testbit (GENMASK h l) i = (l <=? i) && (i <=? h).
Proof.
  intros Hl Hi. unfold GENMASK. rewrite Z.shiftl_spec by done.
  destruct (Z.leb_spec l i); simpl.
  - rewrite Z.testbit_ones_nonneg by lia. apply eq_true_iff_eq. rewrite Z.ltb_lt, Z.leb_le. lia.
  - by rewrite Z.testbit_neg_r by lia.
Qed.

Lemma testbit_b2z b i : Z.testbit (Z.b2z b) i = b && (i =? 0).
Proof.
  destruct (Z.eqb_spec i 0) as [-> |Hn].
  - by rewrite Z.b2z_bit0, andb_true_r.
  - rewrite andb_false_r. destruct b; [|apply Z.bits_0].
    change (Z.b2z true) with (bit 0). rewrite testbit_bit by lia. by apply Z.eqb_neq.
Qed.

Lemma testbit_bitrev8 x i : 0 <= i -> Z.testbit (bitrev8 x) i = (i <? 8) && Z.testbit x (7 - i).
Proof.
  intros Hi. unfold bitrev8. change (seqZ 0 8) with [0; 1; 2; 3; 4; 5; 6; 7]. cbn [foldr].
  rewrite !Z.lor_spec, !Z.shiftl_spec, Z.bits_0, !testbit_b2z by done.
  destruct (Z.ltb_spec i 8) as [H8|H8].
  - assert (i = 0 \/ i = 1 \/ i = 2 \/ i = 3 \/ i = 4 \/ i = 5 \/ i = 6 \/ i = 7) as Hc by lia.
    clear Hi H8. repeat destruct Hc as [-> |Hc]; [..|subst i]; cbn -[Z.testbit];
      by rewrite ?andb_false_r, ?andb_true_r, ?orb_false_r.
  - repeat match goal with |- context [?a - ?b =? 0] => destruct (Z.eqb_spec (a - b) 0); [lia|] end.
    by rewrite !andb_false_r.
Qed.

(** the position of logical bit [i] in its byte *)
Definition bit_pos (quirks i : Z) : Z :=
  if has quirks QUIRK_MSB_ON_THE_RIGHT then 7 - i mod 8 else i mod 8.
Definition byte_at (pbuf : list Z) (a : Z) : Z := default 0 (pbuf !! Z.to_nat a).
(** logical bit [i] of a buffer *)
Definition lbit (quirks : Z) (pbuf : list Z) (i : Z) : bool :=
  Z.testbit (byte_at pbuf (phys (Z.of_nat (length pbuf)) quirks (i / 8))) (bit_pos quirks i).

Definition bytes (l : list Z) : Prop := Forall (in_range 8) l.

Lemma packed_byte_range pbuf a : bytes pbuf -> in_range 8 (byte_at pbuf a).
Proof.
  intros Hb. unfold byte_at. destruct (pbuf !! Z.to_nat a) eqn:E; simpl; [|done].
  by eapply Forall_lookup_1.
Qed.

Lemma lookup_byte_at pbuf a : 0 <= a < Z.of_nat (length pbuf) ->
  pbuf !! Z.to_nat a = Some (byte_at pbuf a).
Proof.
  intros Ha. unfold byte_at. destruct (lookup_lt_is_Some_2 pbuf (Z.to_nat a)) as [x ->]; [lia|done].
Qed.

Lemma byte_at_insert pbuf a b x : 0 <= a < Z.of_nat (length pbuf) -> 0 <= b ->
  byte_at (<[Z.to_nat a := x]> pbuf) b = if a =? b then x else byte_at pbuf b.
Proof.
  intros Ha Hb. unfold byte_at. destruct (Z.eqb_spec a b) as [-> |Hn].
  - by rewrite list_lookup_insert_eq by lia.
  - by rewrite list_lookup_insert_ne by lia.
Qed.

Lemma div8_mod i : 8 * (i / 8) + i mod 8 = i /\ 0 <= i mod 8 < 8.
Proof. zlia. Qed.

Section Spec.
Context {S : Type} (quirks : Z).
Context (uval startbit endbit : Z) (len : Z).
Context (Hlen : buf_len len) (Hq : good_layout len quirks).
Context (Hf : 0 <= endbit <= startbit) (Hs : startbit < 8 * len) (Hw : startbit - endbit < 64).

Abbreviation first := (startbit / 8).
Abbreviation last := (endbit / 8).
(** logical bit [i] belongs to the field, and to byte [box] of it *)
Definition in_field (i : Z) : bool := (endbit <=? i) && (i <=? startbit).

Definition bsb (box : Z) : Z := if box =? first then startbit mod 8 else 7.
Definition beb (box : Z) : Z := if box =? last then endbit mod 8 else 0.

Lemma box_bits box : last <= box <= first ->
  0 <= beb box < 8 /\ 0 <= bsb box < 8 /\ beb box <= bsb box /\
  endbit <= 8 * box + beb box /\ 8 * box + bsb box <= startbit.
Proof using Hf.
  intros Hb. pose proof (div8_mod startbit); pose proof (div8_mod endbit).
  unfold bsb, beb. destruct (Z.eqb_spec box first), (Z.eqb_spec box last); lia.
Qed.

Lemma box_bits_field box k : last <= box <= first -> 0 <= k < 8 ->
  (beb box <=? k) && (k <=? bsb box) = in_field (8 * box + k).
Proof using Hf.
  intros Hb Hk. pose proof (div8_mod startbit); pose proof (div8_mod endbit).
  unfold in_field, bsb, beb.
  destruct (Z.eqb_spec box first), (Z.eqb_spec box last);
    repeat match goal with |- context [?a <=? ?b] => destruct (Z.leb_spec a b) end; lia || done.
Qed.

Lemma box_in_buf box : last <= box <= first -> 0 <= box < len.
Proof using Hf Hs. intros. pose proof (div8_mod startbit); pose proof (div8_mod endbit). lia. Qed.

(** the mask of the box, its share of the value, and both in the order of the
    bits of the byte *)
Definition box_mask (box : Z) : Z := u8 (GENMASK (bsb box) (beb box)).
Definition box_val (box : Z) : Z :=
  u64 (Z.shiftl (Z.shiftr (Z.land uval (GENMASK (box * 8 + bsb box - endbit) (box * 8 + beb box - endbit)))
                          (box * 8 + beb box - endbit)) (beb box)).

Lemma box_mask_bits box k : last <= box <= first -> 0 <= k < 8 ->
  Z.testbit (box_mask box) k = in_field (8 * box + k).
Proof using Hf.
  intros Hb Hk. pose proof (box_bits box Hb). unfold box_mask.
  rewrite testbit_trunc, testbit_GENMASK, box_bits_field by lia.
  by destruct (Z.ltb_spec k 8); [|lia].
Qed.

Lemma box_val_bits box k : last <= box <= first -> 0 <= k < 8 ->
  Z.testbit (box_val box) k = in_field (8 * box + k) && Z.testbit uval (8 * box + k - endbit).
Proof using Hf.
  intros Hb Hk. pose proof (box_bits box Hb) as (B1 & B2 & B3 & B4 & B5). unfold box_val.
  rewrite testbit_trunc, Z.shiftl_spec by lia.
  destruct (Z.ltb_spec k 64); [|lia]. rewrite andb_true_l, <- box_bits_field by done.
  destruct (Z.leb_spec (beb box) k); simpl; [|by rewrite Z.testbit_neg_r by lia].
  rewrite Z.shiftr_spec, Z.land_spec, testbit_GENMASK by lia.
  replace (k - beb box + (box * 8 + beb box - endbit)) with (8 * box + k - endbit) by lia.
  destruct (Z.leb_spec (box * 8 + beb box - endbit) (8 * box + k - endbit)); [|lia].
  rewrite andb_true_l, andb_comm. f_equal. apply eq_true_iff_eq. rewrite !Z.leb_le. lia.
Qed.

(** reading a byte in the order of the quirks *)
Definition ordered (x : Z) : Z := if has quirks QUIRK_MSB_ON_THE_RIGHT then bitrev8 (u8 x) else x.
Definition at_pos (k : Z) : Z := if has quirks QUIRK_MSB_ON_THE_RIGHT then 7 - k else k.

Lemma ordered_bits x k : 0 <= k < 8 -> Z.testbit (ordered x) (at_pos k) = Z.testbit x k.
Proof using.
  intros Hk. unfold ordered, at_pos. destruct (has _ _); [|done].
  rewrite testbit_bitrev8, testbit_trunc by lia. replace (7 - (7 - k)) with k by lia.
  destruct (Z.ltb_spec (7 - k) 8), (Z.ltb_spec k 8); lia || done.
Qed.

Lemma new_byte_bits box old k : last <= box <= first -> 0 <= k < 8 ->
  Z.testbit (u8 (Z.lor (Z.land old (bnot 8 (ordered (box_mask box)))) (ordered (box_val box)))) (at_pos k) =
  if in_field (8 * box + k) then Z.testbit uval (8 * box + k - endbit) else Z.testbit old (at_pos k).
Proof using Hf.
  intros Hb Hk. assert (0 <= at_pos k < 8) by (unfold at_pos; destruct (has _ _); lia).
  rewrite testbit_trunc, Z.lor_spec, Z.land_spec, testbit_bnot by lia.
  rewrite !ordered_bits, box_mask_bits, box_val_bits by done.
  destruct (Z.ltb_spec (at_pos k) 8); [|lia].
  destruct (in_field (8 * box + k)); simpl; [by rewrite andb_false_r|].
  by rewrite andb_true_r, orb_false_r.
Qed.

(** what one iteration of [__pack] does *)
Lemma pack_box_effect box pbuf (s : S) : last <= box <= first ->
  Z.of_nat (length pbuf) = len -> bytes pbuf ->
  wp (pack_box uval startbit endbit len quirks box pbuf) (fun p s' => s' = s /\
    Z.of_nat (length p) = len /\ bytes p /\
    forall i, 0 <= i < 8 * len ->
      lbit quirks p i = if (i / 8 =? box) && in_field i then Z.testbit uval (i - endbit)
                        else lbit quirks pbuf i) s.
Proof using Hf Hs Hw Hlen Hq.
  intros Hb Hl Hby. pose proof (box_bits box Hb) as (B1 & B2 & B3 & B4 & B5).
  pose proof (box_in_buf box Hb) as Hbox. unfold buf_len in Hlen.
  unfold pack_box, BITS_PER_BYTE. fold (bsb box) (beb box).
  rewrite box_addr_phys by done. set (a := phys len quirks box).
  assert (Ha : 0 <= a < len) by (by apply phys_range).
  rewrite !(u64_small (box * 8 + _ - endbit)) by lia. fold (box_val box) (box_mask box).
  replace (if has quirks QUIRK_MSB_ON_THE_RIGHT then _ else _)
    with (ordered (box_val box), ordered (box_mask box)).
  2: { unfold ordered. destruct (has _ _); [|done].
       unfold box_mask at 1. by rewrite trunc_idem by lia. }
  apply wp_bind, (wp_nth_c _ _ (byte_at pbuf a)); [lia|apply lookup_byte_at; lia|].
  apply wp_bind, wp_upd_c; [lia|].
  apply wp_bind, (wp_nth_c _ _ (Z.land (byte_at pbuf a) (bnot 8 (ordered (box_mask box))))); [lia| |].
  { rewrite list_lookup_insert_eq; [done|lia]. }
  apply wp_upd_c; [rewrite length_insert; lia|]. rewrite list_insert_insert_eq.
  split; [done|]. rewrite length_insert. split; [done|]. split.
  { apply Forall_insert; [done|]. by apply trunc_range. }
  intros i Hi. unfold lbit. rewrite length_insert, Hl. pose proof (div8_mod i) as (Ei & Ri).
  assert (Hp : 0 <= phys len quirks (i / 8) < len) by (apply phys_range; [done|lia]).
  rewrite byte_at_insert by lia. destruct (Z.eqb_spec (i / 8) box) as [Ebox|Ebox].
  - rewrite Ebox. fold a. rewrite Z.eqb_refl. change (bit_pos quirks i) with (at_pos (i mod 8)).
    rewrite new_byte_bits by done. rewrite Ebox in Ei. by rewrite Ei.
  - simpl. destruct (Z.eqb_spec a (phys len quirks (i / 8))) as [E|]; [|done].
    apply phys_inj in E; [lia|done|lia|lia].
Qed.

Lemma pack_effect pbuf (s : S) : Z.of_nat (length pbuf) = len -> bytes pbuf ->
  wp (__pack pbuf uval startbit endbit len quirks) (fun p s' => s' = s /\
    Z.of_nat (length p) = len /\ bytes p /\
    forall i, 0 <= i < 8 * len ->
      lbit quirks p i = if in_field i then Z.testbit uval (i - endbit) else lbit quirks pbuf i) s.
Proof using Hf Hs Hw Hlen Hq.
  intros Hl Hby. unfold __pack, BITS_PER_BYTE.
  pose proof (div8_mod startbit) as Ds; pose proof (div8_mod endbit) as De.
  eapply wp_mono.
  { apply wp_for_acc with (Inv := fun n p s' => s' = s /\ Z.of_nat (length p) = len /\ bytes p /\
      forall i, 0 <= i < 8 * len ->
        lbit quirks p i = if (first - n <? i / 8) && in_field i then Z.testbit uval (i - endbit)
                          else lbit quirks pbuf i).
    - split; [done|]. split; [done|]. split; [done|]. intros i Hi. pose proof (div8_mod i).
      unfold in_field. destruct (Z.ltb_spec (first - 0) (i / 8)); [|done].
      destruct (Z.leb_spec i startbit); [lia|]. by rewrite !andb_false_r.
    - intros n p s' Hn (-> & Hlp & Hbp & Hp). rewrite Z2Nat.id in Hn by lia.
      eapply wp_mono; [apply pack_box_effect; [lia|done|done]|].
      intros p' s'' (-> & Hl' & Hb' & Hp'). split; [done|]. split; [done|]. split; [done|].
      intros i Hi. rewrite Hp', Hp by done.
      destruct (Z.eqb_spec (i / 8) (first - n)) as [E|E]; simpl.
      + destruct (Z.ltb_spec (first - n) (i / 8)); [lia|]. simpl.
        by destruct (Z.ltb_spec (first - (n + 1)) (i / 8)); [|lia].
      + destruct (Z.ltb_spec (first - n) (i / 8)), (Z.ltb_spec (first - (n + 1)) (i / 8)); lia || done. }
  intros p s' (-> & Hlp & Hbp & Hp). split; [done|]. split; [done|]. split; [done|].
  intros i Hi. rewrite Hp by done. pose proof (div8_mod i). rewrite Z2Nat.id by lia.
  destruct (Z.ltb_spec (first - (0 + (first - last + 1))) (i / 8)); [done|].
  unfold in_field. by destruct (Z.leb_spec endbit i); [lia|].
Qed.

Lemma unpack_box_effect box pbuf v (s : S) : last <= box <= first ->
  Z.of_nat (length pbuf) = len -> bytes pbuf -> in_range 64 v ->
  wp (unpack_box pbuf startbit endbit len quirks box v) (fun v' s' => s' = s /\ in_range 64 v' /\
    forall j, 0 <= j < 64 ->
      Z.testbit v' j = if ((j + endbit) / 8 =? box) && in_field (j + endbit)
                       then lbit quirks pbuf (j + endbit) else Z.testbit v j) s.
Proof using Hf Hs Hw Hlen Hq.
  intros Hb Hl Hby Hv. pose proof (box_bits box Hb) as (B1 & B2 & B3 & B4 & B5).
  pose proof (box_in_buf box Hb) as Hbox. unfold buf_len in Hlen.
  unfold unpack_box, BITS_PER_BYTE. fold (bsb box) (beb box).
  rewrite box_addr_phys by done. set (a := phys len quirks box).
  assert (Ha : 0 <= a < len) by (by apply phys_range).
  rewrite !(u64_small (box * 8 + _ - endbit)) by lia. fold (box_mask box).
  apply wp_bind, (wp_nth_c _ _ (byte_at pbuf a)); [lia|apply lookup_byte_at; lia|]. apply wp_ret.
  split; [done|]. pose proof (packed_byte_range pbuf a Hby) as Hr. split.
  { apply lor_range; [lia| |by apply trunc_range]. apply land_range; [lia|done|].
    apply (bnot_range 64). lia. }
  intros j Hj. set (k := j + endbit - 8 * box).
  rewrite Z.lor_spec, Z.land_spec, testbit_bnot, testbit_trunc, testbit_GENMASK, Z.shiftl_spec by lia.
  destruct (Z.ltb_spec j 64); [|lia]. simpl.
  assert (Hin : (box * 8 + beb box - endbit <=? j) && (j <=? box * 8 + bsb box - endbit) =
    ((j + endbit) / 8 =? box) && in_field (j + endbit)).
  { pose proof (div8_mod (j + endbit)). destruct (Z.eqb_spec ((j + endbit) / 8) box) as [E|E].
    - assert (in_field (j + endbit) = in_field (8 * box + (j + endbit) mod 8)) as -> by (f_equal; lia).
      rewrite <- box_bits_field by lia. rewrite andb_true_l. f_equal; apply eq_true_iff_eq; rewrite !Z.leb_le; lia.
    - apply andb_false_iff. rewrite !Z.leb_gt. lia. }
  rewrite Hin. destruct (((j + endbit) / 8 =? box) && in_field (j + endbit)) eqn:E.
  - apply andb_prop in E as [E%Z.eqb_eq Ef]. rewrite andb_false_r, orb_false_l.
    pose proof (div8_mod (j + endbit)) as (Ei & Ri). assert (Ek : k = (j + endbit) mod 8) by lia.
    apply andb_prop in Hin as [H1%Z.leb_le H2%Z.leb_le].
    rewrite Z.shiftr_spec, Z.land_spec by lia.
    replace (j - (box * 8 + beb box - endbit) + beb box) with k by lia.
    rewrite box_mask_bits by lia. replace (8 * box + k) with (j + endbit) by lia.
    rewrite Ef, andb_true_r. unfold lbit. rewrite Hl, E. fold a. rewrite Ek.
    change (bit_pos quirks (j + endbit)) with (at_pos ((j + endbit) mod 8)). unfold at_pos.
    destruct (has quirks QUIRK_MSB_ON_THE_RIGHT); [|done].
    rewrite testbit_bitrev8 by lia. by destruct (Z.ltb_spec ((j + endbit) mod 8) 8); [|lia].
  - rewrite andb_true_r. enough (Z.testbit (Z.shiftr _ _) _ = false) as -> by apply orb_false_r.
    destruct (Z.leb_spec (box * 8 + beb box - endbit) j); [|by rewrite Z.testbit_neg_r by lia].
    simpl in Hin. apply Z.leb_gt in Hin. rewrite Z.shiftr_spec, Z.land_spec by lia.
    apply andb_false_iff. right. unfold box_mask. rewrite testbit_trunc, testbit_GENMASK by lia.
    apply andb_false_iff. right. apply andb_false_iff. right. apply Z.leb_gt. lia.
Qed.

Lemma unpack_effect pbuf (s : S) : Z.of_nat (length pbuf) = len -> bytes pbuf ->
  wp (__unpack pbuf startbit endbit len quirks) (fun v s' => s' = s /\
    in_range (startbit - endbit + 1) v /\
    forall j, 0 <= j <= startbit - endbit -> Z.testbit v j = lbit quirks pbuf (j + endbit)) s.
Proof using Hf Hs Hw Hlen Hq.
  intros Hl Hby. unfold __unpack, BITS_PER_BYTE.
  pose proof (div8_mod startbit) as Ds; pose proof (div8_mod endbit) as De.
  eapply wp_mono.
  { apply wp_for_acc with (Inv := fun n v s' => s' = s /\ in_range 64 v /\
      forall j, 0 <= j < 64 -> Z.testbit v j =
        (first - n <? (j + endbit) / 8) && in_field (j + endbit) && lbit quirks pbuf (j + endbit)).
    - split; [done|]. split; [done|]. intros j Hj. rewrite Z.bits_0. pose proof (div8_mod (j + endbit)).
      unfold in_field. destruct (Z.ltb_spec (first - 0) ((j + endbit) / 8)); [|done].
      destruct (Z.leb_spec (j + endbit) startbit); [lia|]. by rewrite !andb_false_r.
    - intros n v s' Hn (-> & Hr & Hp). rewrite Z2Nat.id in Hn by lia.
      eapply wp_mono; [apply unpack_box_effect; [lia|done|done|done]|].
      intros v' s'' (-> & Hr' & Hp'). split; [done|]. split; [done|].
      intros j Hj. rewrite Hp', Hp by done.
      destruct (Z.eqb_spec ((j + endbit) / 8) (first - n)) as [E|E]; simpl.
      + destruct (Z.ltb_spec (first - n) ((j + endbit) / 8)); [lia|]. simpl.
        destruct (Z.ltb_spec (first - (n + 1)) ((j + endbit) / 8)); [|lia].
        by destruct (in_field (j + endbit)).
      + destruct (Z.ltb_spec (first - n) ((j + endbit) / 8)),
          (Z.ltb_spec (first - (n + 1)) ((j + endbit) / 8)); lia || done. }
  intros v s' (-> & Hr & Hp). split; [done|]. rewrite Z2Nat.id in Hp by lia. split.
  - apply range_of_testbit; [lia|unfold in_range in Hr; lia|]. intros j Hj.
    destruct (Z.ltb_spec j 64); [|by apply (testbit_range 64); [|lia]]. rewrite Hp by lia.
    unfold in_field. destruct (Z.leb_spec (j + endbit) startbit); [lia|]. by rewrite !andb_false_r.
  - intros j Hj. rewrite Hp by lia. pose proof (div8_mod (j + endbit)). unfold in_field.
    destruct (Z.ltb_spec (first - (0 + (first - last + 1))) ((j + endbit) / 8)); [|lia].
    by destruct (Z.leb_spec endbit (j + endbit)), (Z.leb_spec (j + endbit) startbit); [|lia..].
Qed.
End Spec.

(** ** Round trip of one field *)
Section RoundTrip.
Context {S : Type}.

(** On a buffer with a good layout, [pack] and then [unpack] of the same field
    both succeed exactly when the field lies in the buffer and has at most 64
    bits, otherwise both report the same error and nothing is written; the value
    read back is the value packed, cut to the width of the field, and every
    logical bit outside the field is as before. *)
Theorem pack_unpack_roundtrip len quirks pbuf uval startbit endbit (s : S) :
  buf_len len -> good_layout len quirks -> Z.of_nat (length pbuf) = len -> bytes pbuf ->
  0 <= startbit -> 0 <= endbit ->
  wp (r ← pack pbuf uval startbit endbit len quirks;
      u ← unpack (snd r) startbit endbit len quirks; mret (r, u))
    (fun x s' => let '((ret, p), (ret', v)) := x in s' = s /\ ret' = ret /\
       (ret = 0 <-> endbit <= startbit < 8 * len /\ startbit - endbit < 64) /\
       (ret <> 0 -> p = pbuf /\ v = None) /\
       (ret = 0 -> v = Some (trunc (startbit - endbit + 1) uval) /\ bytes p /\
          Z.of_nat (length p) = len /\
          forall i, 0 <= i < 8 * len -> ~ endbit <= i <= startbit ->
            lbit quirks p i = lbit quirks pbuf i)) s.
Proof using.
  intros Hlen Hq Hl Hby Hs0 He0. unfold pack, unpack, BITS_PER_BYTE, EINVAL, ERANGE.
  rewrite !(u64_small (8 * len)) by (unfold buf_len in Hlen; lia).
  destruct ((startbit <? endbit) || (8 * len <=? startbit)) eqn:E1.
  { wp_step. apply wp_ret. wp_step. apply wp_ret. apply wp_ret. split; [done|]. split; [done|].
    apply orb_true_iff in E1. rewrite Z.ltb_lt, Z.leb_le in E1. split; [lia|done]. }
  apply orb_false_iff in E1 as [E1%Z.ltb_ge E2%Z.leb_gt].
  destruct (Z.leb_spec 64 (startbit - endbit)) as [E3|E3].
  { destruct (Z.ltb_spec 64 (startbit - endbit + 1)); [|lia].
    wp_step. apply wp_ret. wp_step. apply wp_ret. apply wp_ret. split; [done|]. split; [done|].
    split; [lia|done]. }
  destruct (Z.ltb_spec 64 (startbit - endbit + 1)); [lia|].
  wp_step. wp_step. eapply wp_mono; [apply pack_effect; done || lia|].
  intros p s1 (-> & Hl1 & Hb1 & Hp). apply wp_ret. wp_step. wp_step.
  eapply wp_mono; [apply unpack_effect; done || lia|].
  intros v s2 (-> & Hv & Hbits). apply wp_ret. apply wp_ret. split; [done|]. split; [done|].
  split; [lia|]. split; [done|]. intros _. split; [|split; [done|split; [done|]]].
  - f_equal. apply Z.bits_inj'. intros j Hj. rewrite testbit_trunc by lia.
    destruct (Z.ltb_spec j (startbit - endbit + 1)); [|by apply (testbit_range (startbit - endbit + 1))].
    rewrite Hbits, Hp by lia. unfold in_field.
    destruct (Z.leb_spec endbit (j + endbit)), (Z.leb_spec (j + endbit) startbit); [|lia..].
    simpl. f_equal. lia.
  - intros i Hi Hn. rewrite Hp by done. unfold in_field.
    destruct (Z.leb_spec endbit i), (Z.leb_spec i startbit); simpl; lia || done.
Qed.
End RoundTrip.

(** ** Arrays of fields *)

(** bit [i] of the unpacked structure *)
Definition ubit (u : list Z) (i : Z) : bool := Z.testbit (byte_at u (i / 8)) (i mod 8).

Record field_ok (len ulen : Z) (f : packed_field) : Prop := {
  fo_bits : 0 <= f_endbit f <= f_startbit f /\ f_startbit f < 8 * len;
  fo_size : f_size f = 1 \/ f_size f = 2 \/ f_size f = 4 \/ f_size f = 8;
  fo_width : f_startbit f - f_endbit f < 8 * f_size f;
  fo_struct : 0 <= f_offset f /\ f_offset f + f_size f <= ulen;
}.

(** the fields share neither packed bits nor bytes of the structure *)
Definition apart (f g : packed_field) : Prop :=
  (f_startbit f < f_endbit g \/ f_startbit g < f_endbit f) /\
  (f_offset f + f_size f <= f_offset g \/ f_offset g + f_size g <= f_offset f).
Fixpoint all_apart (l : list packed_field) : Prop :=
  match l with [] => True | f :: l' => Forall (apart f) l' /\ all_apart l' end.

Section Fields.
Context {S : Type} (len ulen quirks : Z).
Context (Hlen : buf_len len) (Hq : good_layout len quirks).

Lemma field_bytes_ok f : field_ok len ulen f -> field_bytes (f_size f) = f_size f.
Proof using. intros [_ [-> |[-> |[-> | ->]]] _ _]; done. Qed.

Lemma field_width f : field_ok len ulen f -> f_startbit f - f_endbit f < 64.
Proof using. intros [_ Hz Hw _]. lia. Qed.

Lemma get_field_effect u f (s : S) : field_ok len ulen f -> bytes u -> Z.of_nat (length u) = ulen ->
  wp (ustruct_field_to_u64 u (f_offset f) (f_size f)) (fun v s' => s' = s /\
    forall j, 0 <= j < 8 * f_size f -> Z.testbit v j = ubit u (8 * f_offset f + j)) s.
Proof using.
  intros Hf Hu Hl. pose proof (fo_struct _ _ _ Hf) as Ho. pose proof (fo_size _ _ _ Hf) as Hz.
  unfold ustruct_field_to_u64. rewrite field_bytes_ok by done. eapply wp_mono.
  { apply wp_for_acc with (Inv := fun n v s' => s' = s /\ forall j, 0 <= j ->
      Z.testbit v j = (j <? 8 * n) && ubit u (8 * f_offset f + j)).
    - split; [done|]. intros j Hj. rewrite Z.bits_0. by destruct (Z.ltb_spec j (8 * 0)); [lia|].
    - intros n v s' Hn (-> & Hv). rewrite Z2Nat.id in Hn by lia.
      apply wp_bind, (wp_nth_c _ _ (byte_at u (f_offset f + n))); [lia|apply lookup_byte_at; lia|].
      apply wp_ret. split; [done|]. intros j Hj. rewrite Z.lor_spec, Hv, Z.shiftl_spec by done.
      pose proof (packed_byte_range u (f_offset f + n) Hu) as Hr.
      destruct (Z.ltb_spec j (8 * n)), (Z.ltb_spec j (8 * (n + 1))); try lia; simpl.
      + rewrite (Z.testbit_neg_r _ (j - 8 * n)) by lia. by rewrite orb_false_r.
      + unfold ubit. replace ((8 * f_offset f + j) / 8) with (f_offset f + n) by zlia.
        by replace ((8 * f_offset f + j) mod 8) with (j - 8 * n) by zlia.
      + by rewrite (testbit_range 8) by (done || lia). }
  intros v s' (-> & Hv). split; [done|]. intros j Hj. rewrite Hv by lia.
  rewrite Z2Nat.id by lia. by destruct (Z.ltb_spec j (8 * (0 + f_size f))); [|lia].
Qed.

Lemma set_field_effect u f v (s : S) : field_ok len ulen f -> bytes u -> Z.of_nat (length u) = ulen ->
  wp (u64_to_ustruct_field u (f_offset f) (f_size f) v) (fun u' s' => s' = s /\
    bytes u' /\ Z.of_nat (length u') = ulen /\
    forall i, 0 <= i -> ubit u' i =
      if (8 * f_offset f <=? i) && (i <? 8 * (f_offset f + f_size f))
      then Z.testbit v (i - 8 * f_offset f) else ubit u i) s.
Proof using.
  intros Hf Hu Hl. pose proof (fo_struct _ _ _ Hf) as Ho. pose proof (fo_size _ _ _ Hf) as Hz.
  unfold u64_to_ustruct_field. rewrite field_bytes_ok by done. eapply wp_mono.
  { apply wp_for_acc with (Inv := fun n u' s' => s' = s /\ bytes u' /\ Z.of_nat (length u') = ulen /\
      forall i, 0 <= i -> ubit u' i = if (8 * f_offset f <=? i) && (i <? 8 * (f_offset f + n))
                          then Z.testbit v (i - 8 * f_offset f) else ubit u i).
    - split; [done|]. split; [done|]. split; [done|]. intros i Hi.
      destruct (Z.leb_spec (8 * f_offset f) i), (Z.ltb_spec i (8 * (f_offset f + 0))); simpl; lia || done.
    - intros n u' s' Hn (-> & Hb & Hlu & Hv). rewrite Z2Nat.id in Hn by lia. apply wp_upd_c; [lia|].
      split; [done|]. rewrite length_insert. split; [by apply Forall_insert; [|apply trunc_range]|].
      split; [done|]. intros i Hi. unfold ubit at 1. rewrite byte_at_insert by zlia.
      pose proof (div8_mod i). destruct (Z.eqb_spec (f_offset f + n) (i / 8)) as [E|E].
      + rewrite testbit_trunc, Z.shiftr_spec by lia. destruct (Z.ltb_spec (i mod 8) 8); [|lia].
        destruct (Z.leb_spec (8 * f_offset f) i), (Z.ltb_spec i (8 * (f_offset f + (n + 1)))); try lia.
        simpl. f_equal. lia.
      + fold (ubit u' i). rewrite Hv by done.
        destruct (Z.leb_spec (8 * f_offset f) i), (Z.ltb_spec i (8 * (f_offset f + (n + 1)))),
          (Z.ltb_spec i (8 * (f_offset f + n))); simpl; lia || done. }
  intros u' s' H. rewrite Z2Nat.id in H by lia. exact H.
Qed.

Lemma pack_fields_effect fields pbuf u (s : S) :
  Forall (field_ok len ulen) fields -> all_apart fields -> bytes u -> Z.of_nat (length u) = ulen ->
  Z.of_nat (length pbuf) = len -> bytes pbuf ->
  wp (__pack_fields pbuf len u fields quirks) (fun p s' => s' = s /\
    Z.of_nat (length p) = len /\ bytes p /\
    Forall (fun f => forall j, 0 <= j <= f_startbit f - f_endbit f ->
      lbit quirks p (j + f_endbit f) = ubit u (8 * f_offset f + j)) fields /\
    forall i, 0 <= i < 8 * len -> Forall (fun f => in_field (f_startbit f) (f_endbit f) i = false) fields ->
      lbit quirks p i = lbit quirks pbuf i) s.
Proof using Hlen Hq.
  intros Hok Hap Hu Hul. revert pbuf Hap. induction Hok as [|f l Hf Hok IH]; intros pbuf Hap Hl Hb.
  { apply wp_ret. by split. }
  destruct Hap as [Hfa Hap]. simpl. pose proof (field_width f Hf). destruct (fo_bits _ _ _ Hf) as [F1 F2].
  wp_step. eapply wp_mono; [by apply get_field_effect|]. intros v s1 (-> & Hv).
  wp_step. eapply wp_mono; [by apply pack_effect|]. intros p1 s2 (-> & Hl1 & Hb1 & Hp1).
  eapply wp_mono; [by apply IH|]. intros p s3 (-> & Hl3 & Hb3 & Hp3 & Ho3).
  split; [done|]. split; [done|]. split; [done|]. split.
  - apply List.Forall_cons; [|done]. intros j Hj. rewrite Ho3; [|lia|].
    + rewrite Hp1 by lia. unfold in_field.
      destruct (Z.leb_spec (f_endbit f) (j + f_endbit f)), (Z.leb_spec (j + f_endbit f) (f_startbit f));
        try lia. simpl. replace (j + f_endbit f - f_endbit f) with j by lia.
      apply Hv. pose proof (fo_width _ _ _ Hf). lia.
    + eapply Forall_impl; [|exact Hfa]. intros g [Hg _]. unfold in_field.
      apply andb_false_iff. rewrite !Z.leb_gt. lia.
  - intros i Hi Hn. inversion Hn as [|? ? Hni Hnl]; subst. rewrite Ho3, Hp1 by done. by rewrite Hni.
Qed.

Lemma unpack_fields_effect fields pbuf u (s : S) :
  Forall (field_ok len ulen) fields -> all_apart fields -> bytes u -> Z.of_nat (length u) = ulen ->
  Z.of_nat (length pbuf) = len -> bytes pbuf ->
  wp (__unpack_fields pbuf len u fields quirks) (fun u' s' => s' = s /\
    bytes u' /\ Z.of_nat (length u') = ulen /\
    Forall (fun f => forall j, 0 <= j < 8 * f_size f -> ubit u' (8 * f_offset f + j) =
      (j <=? f_startbit f - f_endbit f) && lbit quirks pbuf (j + f_endbit f)) fields /\
    forall i, 0 <= i ->
      Forall (fun f => (8 * f_offset f <=? i) && (i <? 8 * (f_offset f + f_size f)) = false) fields ->
      ubit u' i = ubit u i) s.
Proof using Hlen Hq.
  intros Hok Hap Hu Hul Hl Hb. revert u Hap Hu Hul. induction Hok as [|f l Hf Hok IH]; intros u Hap Hu Hul.
  { apply wp_ret. by split. }
  destruct Hap as [Hfa Hap]. simpl. pose proof (field_width f Hf). destruct (fo_bits _ _ _ Hf) as [F1 F2].
  pose proof (fo_struct _ _ _ Hf) as Fo. pose proof (fo_size _ _ _ Hf) as Fz.
  wp_step. eapply wp_mono; [by apply unpack_effect|]. intros v s1 (-> & Hv & Hbits).
  wp_step. eapply wp_mono; [by apply set_field_effect|]. intros u1 s2 (-> & Hb1 & Hl1 & Hu1).
  eapply wp_mono; [by apply IH|]. intros u' s3 (-> & Hb3 & Hl3 & Hp3 & Ho3).
  split; [done|]. split; [done|]. split; [done|]. split.
  - apply List.Forall_cons; [|done]. intros j Hj. rewrite Ho3, Hu1; [|lia|lia|].
    + destruct (Z.leb_spec (8 * f_offset f) (8 * f_offset f + j)),
        (Z.ltb_spec (8 * f_offset f + j) (8 * (f_offset f + f_size f))); try lia. simpl.
      replace (8 * f_offset f + j - 8 * f_offset f) with j by lia.
      destruct (Z.leb_spec j (f_startbit f - f_endbit f)); [apply Hbits; lia|].
      apply (testbit_range (f_startbit f - f_endbit f + 1)); [done|lia].
    + eapply Forall_impl; [|exact Hfa]. intros g [_ Hg].
      apply andb_false_iff. rewrite Z.leb_gt, Z.ltb_ge. lia.
  - intros i Hi Hn. inversion Hn as [|? ? Hni Hnl]; subst. rewrite Ho3, Hu1 by done. by rewrite Hni.
Qed.

Lemma fields_roundtrip fields pbuf u u0 (s : S) :
  Forall (field_ok len ulen) fields -> all_apart fields -> bytes u -> Z.of_nat (length u) = ulen ->
  bytes u0 -> Z.of_nat (length u0) = ulen -> Z.of_nat (length pbuf) = len -> bytes pbuf ->
  wp (p ← pack_fields_u16 pbuf len u fields quirks;
      u' ← unpack_fields_u16 p len u0 fields quirks; mret (p, u'))
    (fun x s' => s' = s /\
      Forall (fun f => forall j, 0 <= j < 8 * f_size f -> ubit (snd x) (8 * f_offset f + j) =
        (j <=? f_startbit f - f_endbit f) && ubit u (8 * f_offset f + j)) fields /\
      (forall i, 0 <= i < 8 * len ->
        Forall (fun f => in_field (f_startbit f) (f_endbit f) i = false) fields ->
        lbit quirks (fst x) i = lbit quirks pbuf i) /\
      forall i, 0 <= i ->
        Forall (fun f => (8 * f_offset f <=? i) && (i <? 8 * (f_offset f + f_size f)) = false) fields ->
        ubit (snd x) i = ubit u0 i) s.
Proof using Hlen Hq.
  intros Hok Hap Hu Hul Hu0 Hul0 Hl Hb. wp_step.
  eapply wp_mono; [by apply pack_fields_effect|]. intros p s1 (-> & Hlp & Hbp & Hp & Hpo).
  wp_step. eapply wp_mono; [by apply unpack_fields_effect|]. intros u' s2 (-> & _ & _ & Hu' & Huo).
  apply wp_ret. split; [done|]. split; [|done].
  apply List.Forall_forall. intros f Hin j Hj. cbn [snd].
  rewrite (proj1 (List.Forall_forall _ _) Hu' f Hin j Hj).
  destruct (Z.leb_spec j (f_startbit f - f_endbit f)); [|done]. simpl.
  apply (proj1 (List.Forall_forall _ _) Hp f Hin). lia.
Qed.
End Fields.


(** ** Witnesses *)

(** length 3, little-endian groups, most significant group first: not a good
    layout, and logical byte 0 is addressed at [SIZE_MAX] *)
Lemma box_addr_bijective_witness :
  buf_len 3 /\ ~ good_layout 3 QUIRK_LITTLE_ENDIAN /\
  calculate_box_addr 0 3 QUIRK_LITTLE_ENDIAN = 2 ^ 64 - 1.
Proof.
  assert (H3 : buf_len 3) by (split; [discriminate|reflexivity]).
  split; [exact H3|]. split; [|reflexivity].
  intros Hg. apply (box_addr_bijective 3 QUIRK_LITTLE_ENDIAN H3) in Hg as [Hr _].
  specialize (Hr 0 ltac:(split; [discriminate|reflexivity])) as [_ Hr]. vm_compute in Hr. discriminate.
Defined.

Lemma pack_unpack_roundtrip_witness :
  wp (r ← pack [0xAA; 0xBB; 0xCC; 0xDD; 0xEE] 0x5A5 20 9 5 QUIRK_MSB_ON_THE_RIGHT;
      u ← unpack (snd r) 20 9 5 QUIRK_MSB_ON_THE_RIGHT; mret (r, u))
    (fun x _ => fst (fst x) = 0 /\ snd (snd x) = Some 0x5A5) tt.
Proof.
  eapply wp_mono; [apply (pack_unpack_roundtrip 5 QUIRK_MSB_ON_THE_RIGHT [0xAA; 0xBB; 0xCC; 0xDD; 0xEE]
    0x5A5 20 9 tt)|].
  - split; [discriminate|reflexivity].
  - right. left. reflexivity.
  - reflexivity.
  - repeat constructor; vm_compute; discriminate.
  - discriminate.
  - discriminate.
  - intros [[ret p] [ret' v]] s' (_ & _ & [_ Hr] & _ & Hv).
    assert (E : ret = 0) by (apply Hr; split; [split; [discriminate|reflexivity]|reflexivity]).
    split; [exact E|]. exact (proj1 (Hv E)).
Defined.

(** a 12-bit field kept in a [u16] and a flag kept in a [u8] *)
Definition demo_fields : list packed_field :=
  [mk_packed_field 27 16 0 2; mk_packed_field 3 3 2 1].

Lemma demo_fields_ok : Forall (field_ok 8 3) demo_fields.
Proof. repeat (apply List.Forall_cons || apply List.Forall_nil); split; cbn; lia. Qed.

Lemma demo_fields_apart : all_apart demo_fields.
Proof.
  split; [|split; [constructor|done]]. apply List.Forall_cons; [|constructor].
  split; [right|left]; vm_compute; [reflexivity|discriminate].
Qed.

Lemma packed_bytes_dec l : forallb (fun b => (0 <=? b) && (b <? 256)) l = true -> bytes l.
Proof.
  intros H. apply List.Forall_forall. intros b Hb. rewrite forallb_forall in H.
  specialize (H b Hb). apply andb_true_iff in H as [H1 H2].
  apply Z.leb_le in H1. apply Z.ltb_lt in H2. unfold in_range.
  split; [exact H1|exact H2].
Qed.

