(* ===== verification/Fdir.v ===== *)
(** * Flow Director of 82599 and later (ixgbe_82599.c)

    The hash of the signature and perfect filters, the input masks and the
    commands that add, query and remove filters.

    [union ixgbe_atr_input] is its [dword_stream]: fourteen 32-bit words as a
    little-endian host holds them.  A member of [formatted] is the part of a word
    at its offset. *)
From S2P Require Import Prelude Regs Types Osdep.

(** ** Byte order *)

(** [ntohs] and [ntohl] of a little-endian host *)
Definition IXGBE_NTOHS (x : Z) : Z := Z.lor (Z.shiftl (u8 x) 8) (u8 (Z.shiftr x 8)).
Definition IXGBE_NTOHL (x : Z) : Z :=
  Z.lor (Z.lor (Z.shiftl (u8 x) 24) (Z.shiftl (u8 (Z.shiftr x 8)) 16))
        (Z.lor (Z.shiftl (u8 (Z.shiftr x 16)) 8) (u8 (Z.shiftr x 24))).
Definition IXGBE_STORE_AS_BE32 (x : Z) : Z :=
  Z.lor (Z.lor (Z.lor (Z.shiftr (u32 x) 24) (Z.shiftr (Z.land (u32 x) 0x00FF0000) 8))
               (u32 (Z.shiftl (Z.land (u32 x) 0x0000FF00) 8)))
        (u32 (Z.shiftl (u32 x) 24)).
Definition IXGBE_STORE_AS_BE16 (x : Z) : Z :=
  IXGBE_NTOHS (Z.lor (Z.shiftr (u16 x) 8) (Z.shiftl (u16 x) 8)).

(** ** The input of a filter *)
Abbreviation atr_input := (list Z) (only parsing).

Definition dword_stream (a : atr_input) (i : Z) : Z := nth (Z.to_nat i) a 0.
(** [n] bytes at byte [k] of word [i] *)
Definition member (a : atr_input) (i k n : Z) : Z :=
  trunc (8 * n) (Z.shiftr (dword_stream a i) (8 * k)).

Definition vm_pool (a : atr_input) : Z := member a 0 0 1.
Definition flow_type (a : atr_input) : Z := member a 0 1 1.
Definition vlan_id (a : atr_input) : Z := member a 0 2 2.
Definition dst_ip (a : atr_input) (i : Z) : Z := dword_stream a (1 + i).
Definition src_ip (a : atr_input) (i : Z) : Z := dword_stream a (5 + i).
Definition inner_mac (a : atr_input) (i : Z) : Z := member a (9 + i / 4) (i mod 4) 1.
Definition tunnel_type (a : atr_input) : Z := member a 10 2 2.
Definition tni_vni (a : atr_input) : Z := dword_stream a 11.
Definition src_port (a : atr_input) : Z := member a 12 0 2.
Definition dst_port (a : atr_input) : Z := member a 12 2 2.
Definition flex_bytes (a : atr_input) : Z := member a 13 0 2.
Definition bkt_hash (a : atr_input) : Z := member a 13 2 2.

(** the assignment to [formatted.bkt_hash] *)
Definition set_bkt_hash (a : atr_input) (h : Z) : atr_input :=
  <[13%nat := Z.lor (Z.land (dword_stream a 13) 0xFFFF) (Z.shiftl (u16 h) 16)]> a.

(** ** Hashes *)
Definition IXGBE_ATR_COMMON_HASH_KEY : Z :=
  Z.land IXGBE_ATR_BUCKET_HASH_KEY IXGBE_ATR_SIGNATURE_HASH_KEY.

(** the three accumulators of the signature hash *)
Record sig_state := mk_sig { common_hash : Z; bucket_hash : Z; sig_hash : Z }.

Definition sig_add (n bit_no dword : Z) (s : sig_state) : sig_state :=
  if has IXGBE_ATR_COMMON_HASH_KEY (bit bit_no) then
    mk_sig (Z.lxor (common_hash s) (Z.shiftr dword n)) (bucket_hash s) (sig_hash s)
  else if has IXGBE_ATR_BUCKET_HASH_KEY (bit bit_no) then
    mk_sig (common_hash s) (Z.lxor (bucket_hash s) (Z.shiftr dword n)) (sig_hash s)
  else if has IXGBE_ATR_SIGNATURE_HASH_KEY (bit bit_no) then
    mk_sig (common_hash s) (bucket_hash s) (Z.lxor (sig_hash s) (u32 (Z.shiftl dword (16 - n))))
  else s.

Definition IXGBE_COMPUTE_SIG_HASH_ITERATION (lo_hash_dword hi_hash_dword n : Z) (s : sig_state) :
    sig_state :=
  sig_add n (n + 16) hi_hash_dword (sig_add n n lo_hash_dword s).

Definition ixgbe_atr_compute_sig_hash_82599 (input common : Z) : Z :=
  let flow_vm_vlan := IXGBE_NTOHL input in
  let hi_hash_dword := IXGBE_NTOHL common in
  let lo_hash_dword := Z.lor (Z.shiftr hi_hash_dword 16) (u32 (Z.shiftl hi_hash_dword 16)) in
  let hi_hash_dword := Z.lxor hi_hash_dword (Z.lxor flow_vm_vlan (Z.shiftr flow_vm_vlan 16)) in
  let s := IXGBE_COMPUTE_SIG_HASH_ITERATION lo_hash_dword hi_hash_dword 0 (mk_sig 0 0 0) in
  let lo_hash_dword :=
    Z.lxor lo_hash_dword (Z.lxor flow_vm_vlan (u32 (Z.shiftl flow_vm_vlan 16))) in
  let s := foldl (fun s n => IXGBE_COMPUTE_SIG_HASH_ITERATION lo_hash_dword hi_hash_dword n s) s
             [1; 2; 3; 4; 5; 6; 7; 8; 9; 10; 11; 12; 13; 14; 15] in
  let bucket := Z.land (Z.lxor (bucket_hash s) (common_hash s)) IXGBE_ATR_HASH_MASK in
  let sig := Z.land (Z.lxor (sig_hash s) (u32 (Z.shiftl (common_hash s) 16)))
               (Z.shiftl IXGBE_ATR_HASH_MASK 16) in
  Z.lxor sig bucket.

Definition IXGBE_COMPUTE_BKT_HASH_ITERATION (lo_hash_dword hi_hash_dword n bucket : Z) : Z :=
  let bucket := if has IXGBE_ATR_BUCKET_HASH_KEY (bit n)
                then Z.lxor bucket (Z.shiftr lo_hash_dword n) else bucket in
  if has IXGBE_ATR_BUCKET_HASH_KEY (bit (n + 16))
  then Z.lxor bucket (Z.shiftr hi_hash_dword n) else bucket.

(** the value stored in [bkt_hash], from the first word and the others XORed *)
Definition perfect_bucket (dword0 hi_dword : Z) : Z :=
  let flow_vm_vlan := IXGBE_NTOHL dword0 in
  let hi_hash_dword := IXGBE_NTOHL hi_dword in
  let lo_hash_dword := Z.lor (Z.shiftr hi_hash_dword 16) (u32 (Z.shiftl hi_hash_dword 16)) in
  let hi_hash_dword := Z.lxor hi_hash_dword (Z.lxor flow_vm_vlan (Z.shiftr flow_vm_vlan 16)) in
  let b := IXGBE_COMPUTE_BKT_HASH_ITERATION lo_hash_dword hi_hash_dword 0 0 in
  let lo_hash_dword :=
    Z.lxor lo_hash_dword (Z.lxor flow_vm_vlan (u32 (Z.shiftl flow_vm_vlan 16))) in
  let b := foldl (fun b n => IXGBE_COMPUTE_BKT_HASH_ITERATION lo_hash_dword hi_hash_dword n b) b
             [1; 2; 3; 4; 5; 6; 7; 8; 9; 10; 11; 12; 13; 14; 15] in
  Z.land b 0x1FFF.

(** returns the new [*input] *)
Definition ixgbe_atr_compute_perfect_hash_82599 (input input_mask : atr_input) : atr_input :=
  let input := zip_with Z.land input input_mask in
  let hi_dword := foldl (fun x i => Z.lxor x (dword_stream input i)) 0
                    [1; 2; 3; 4; 5; 6; 7; 8; 9; 10; 11; 12; 13] in
  set_bkt_hash input (perfect_bucket (dword_stream input 0) hi_dword).

(** one swap of neighbouring groups of [k] bits *)
Definition swap_step (lo hi k mask : Z) : Z :=
  Z.lor (u32 (Z.shiftl (Z.land mask lo) k)) (Z.shiftr (Z.land mask hi) k).

Definition ixgbe_get_fdirtcpm_82599 (input_mask : atr_input) : Z :=
  let mask := IXGBE_NTOHS (dst_port input_mask) in
  let mask := u32 (Z.shiftl mask IXGBE_FDIRTCPM_DPORTM_SHIFT) in
  let mask := Z.lor mask (IXGBE_NTOHS (src_port input_mask)) in
  let mask := swap_step 0x55555555 0xAAAAAAAA 1 mask in
  let mask := swap_step 0x33333333 0xCCCCCCCC 2 mask in
  let mask := swap_step 0x0F0F0F0F 0xF0F0F0F0 4 mask in
  swap_step 0x00FF00FF 0xFF00FF00 8 mask.

(** ** Input masks *)

(** the value of FDIRM; [None] is [IXGBE_ERR_CONFIG] *)
Definition fdirm_pool (m : atr_input) (fdirm : Z) : option Z :=
  let x := Z.land (vm_pool m) 0x7F in
  if x =? 0x0 then Some (Z.lor fdirm IXGBE_FDIRM_POOL)
  else if x =? 0x7F then Some fdirm else None.
Definition fdirm_l4 (m : atr_input) (fdirm : Z) : option Z :=
  let x := Z.land (flow_type m) IXGBE_ATR_L4TYPE_MASK in
  if x =? 0x0 then
    if negb (dst_port m =? 0) || negb (src_port m =? 0) then None
    else Some (Z.lor fdirm IXGBE_FDIRM_L4P)
  else if x =? IXGBE_ATR_L4TYPE_MASK then Some fdirm else None.
Definition fdirm_vlan (m : atr_input) (fdirm : Z) : option Z :=
  let x := Z.land (IXGBE_NTOHS (vlan_id m)) 0xEFFF in
  if x =? 0x0000 then Some (Z.lor (Z.lor fdirm IXGBE_FDIRM_VLANID) IXGBE_FDIRM_VLANP)
  else if x =? 0x0FFF then Some (Z.lor fdirm IXGBE_FDIRM_VLANP)
  else if x =? 0xE000 then Some (Z.lor fdirm IXGBE_FDIRM_VLANID)
  else if x =? 0xEFFF then Some fdirm else None.
Definition fdirm_flex (m : atr_input) (fdirm : Z) : option Z :=
  let x := Z.land (flex_bytes m) 0xFFFF in
  if x =? 0x0000 then Some (Z.lor fdirm IXGBE_FDIRM_FLEX)
  else if x =? 0xFFFF then Some fdirm else None.
(** the value of FDIRIP6M in cloud mode *)
Definition fdirip6m_mac (m : atr_input) (fdirip6m : Z) : option Z :=
  let x := Z.land (inner_mac m 0) 0xFF in
  if x =? 0x00 then Some (Z.lor fdirip6m IXGBE_FDIRIP6M_INNER_MAC)
  else if x =? 0xFF then Some fdirip6m else None.
Definition fdirip6m_vni (m : atr_input) (fdirip6m : Z) : option Z :=
  let x := Z.land (tni_vni m) 0xFFFFFFFF in
  if x =? 0x0 then Some (Z.lor fdirip6m IXGBE_FDIRIP6M_TNI_VNI)
  else if x =? 0x00FFFFFF then Some (Z.lor fdirip6m IXGBE_FDIRIP6M_TNI_VNI_24)
  else if x =? 0xFFFFFFFF then Some fdirip6m else None.
Definition fdirip6m_tunnel (m : atr_input) (fdirip6m : Z) : option Z :=
  let x := Z.land (tunnel_type m) 0xFFFF in
  if x =? 0x0 then Some (Z.lor fdirip6m IXGBE_FDIRIP6M_TUNNEL_TYPE)
  else if x =? 0xFFFF then Some fdirip6m else None.

Definition fdirm_of (m : atr_input) : option Z :=
  fdirm ← fdirm_pool m IXGBE_FDIRM_DIPv6;
  fdirm ← fdirm_l4 m fdirm;
  fdirm ← fdirm_vlan m fdirm;
  fdirm_flex m fdirm.
Definition fdirip6m_of (m : atr_input) : option Z :=
  let fdirip6m := Z.lor (Z.shiftl 0xFFFF IXGBE_FDIRIP6M_DIPM_SHIFT) IXGBE_FDIRIP6M_ALWAYS_MASK in
  fdirip6m ← fdirip6m_mac m fdirip6m;
  fdirip6m ← fdirip6m_vni m fdirip6m;
  fdirip6m_tunnel m fdirip6m.

(** ** Registers *)
Section Fdir.
Context `{D : Mmio}.

(** [writeq] as its two 32-bit writes, the low one first *)
Definition IXGBE_WRITE_REG64 (reg value : Z) : M unit :=
  h ← get_hw;
  if IXGBE_REMOVED (hw_addr h) then mret tt
  else writel (u32 value) reg ;; writel (Z.shiftr value 32) (reg + 4).

Definition IXGBE_WRITE_REG_BE32 (reg value : Z) : M unit :=
  IXGBE_WRITE_REG reg (IXGBE_STORE_AS_BE32 (IXGBE_NTOHL value)).

(** returns also [*fdircmd] *)
Definition ixgbe_fdir_check_cmd_complete : M (Z * Z) :=
  r ← for_break (Z.to_nat IXGBE_FDIRCMD_CMD_POLL) 0 0 (fun _ _ =>
        fdircmd ← IXGBE_READ_REG IXGBE_FDIRCMD;
        if negb (has fdircmd IXGBE_FDIRCMD_CMD_MASK) then mret (inr fdircmd)
        else usec_delay 10 ;; mret (inl fdircmd));
  mret (match r with
        | inr fdircmd => (IXGBE_SUCCESS, fdircmd)
        | inl fdircmd => (IXGBE_ERR_FDIR_CMD_INCOMPLETE, fdircmd)
        end).

(** the poll for [INIT_DONE]: [true] when it was seen *)
Definition poll_init_done : M bool :=
  r ← for_break (Z.to_nat IXGBE_FDIR_INIT_DONE_POLL) 0 tt (fun _ _ =>
        v ← IXGBE_READ_REG IXGBE_FDIRCTRL;
        if has v IXGBE_FDIRCTRL_INIT_DONE then mret (inr tt)
        else msec_delay 1 ;; mret (inl tt));
  mret (match r with inr _ => true | inl _ => false end).

(** bit 8 of FDIRCMD set and cleared again *)
Definition pulse_clearht : M unit :=
  v ← IXGBE_READ_REG IXGBE_FDIRCMD;
  IXGBE_WRITE_REG IXGBE_FDIRCMD (Z.lor v IXGBE_FDIRCMD_CLEARHT) ;;
  IXGBE_WRITE_FLUSH ;;
  v ← IXGBE_READ_REG IXGBE_FDIRCMD;
  IXGBE_WRITE_REG IXGBE_FDIRCMD (Z.land v (bnot 32 IXGBE_FDIRCMD_CLEARHT)) ;;
  IXGBE_WRITE_FLUSH.

Definition ixgbe_reinit_fdir_tables_82599 : M Z :=
  fdirctrl ← IXGBE_READ_REG IXGBE_FDIRCTRL;
  let fdirctrl := Z.land fdirctrl (bnot 32 IXGBE_FDIRCTRL_INIT_DONE) in
  r ← ixgbe_fdir_check_cmd_complete;
  if negb (fst r =? 0) then mret (fst r)
  else
    IXGBE_WRITE_REG IXGBE_FDIRFREE 0 ;;
    IXGBE_WRITE_FLUSH ;;
    pulse_clearht ;;
    IXGBE_WRITE_REG IXGBE_FDIRHASH 0x00 ;;
    IXGBE_WRITE_FLUSH ;;
    IXGBE_WRITE_REG IXGBE_FDIRCTRL fdirctrl ;;
    IXGBE_WRITE_FLUSH ;;
    ok ← poll_init_done;
    if negb ok then mret IXGBE_ERR_FDIR_REINIT_FAILED
    else
      IXGBE_READ_REG IXGBE_FDIRUSTAT ;;
      IXGBE_READ_REG IXGBE_FDIRFSTAT ;;
      IXGBE_READ_REG IXGBE_FDIRMATCH ;;
      IXGBE_READ_REG IXGBE_FDIRMISS ;;
      IXGBE_READ_REG IXGBE_FDIRLEN ;;
      mret IXGBE_SUCCESS.

Definition ixgbe_fdir_enable_82599 (fdirctrl : Z) : M unit :=
  IXGBE_WRITE_REG IXGBE_FDIRHKEY IXGBE_ATR_BUCKET_HASH_KEY ;;
  IXGBE_WRITE_REG IXGBE_FDIRSKEY IXGBE_ATR_SIGNATURE_HASH_KEY ;;
  IXGBE_WRITE_REG IXGBE_FDIRCTRL fdirctrl ;;
  IXGBE_WRITE_FLUSH ;;
  poll_init_done ;;
  mret tt.

Definition ixgbe_init_fdir_signature_82599 (fdirctrl : Z) : M Z :=
  ixgbe_fdir_enable_82599
    (Z.lor fdirctrl (Z.lor (Z.lor (Z.shiftl 0x6 IXGBE_FDIRCTRL_FLEX_SHIFT)
      (Z.shiftl 0xA IXGBE_FDIRCTRL_MAX_LENGTH_SHIFT)) (Z.shiftl 4 IXGBE_FDIRCTRL_FULL_THRESH_SHIFT))) ;;
  mret IXGBE_SUCCESS.

Definition ixgbe_init_fdir_perfect_82599 (fdirctrl : Z) (cloud_mode : bool) : M Z :=
  let fdirctrl :=
    Z.lor fdirctrl (Z.lor (Z.lor (Z.lor (Z.lor (Z.lor IXGBE_FDIRCTRL_PERFECT_MATCH
      IXGBE_FDIRCTRL_REPORT_STATUS) (Z.shiftl IXGBE_FDIR_DROP_QUEUE IXGBE_FDIRCTRL_DROP_Q_SHIFT))
      (Z.shiftl 0x6 IXGBE_FDIRCTRL_FLEX_SHIFT)) (Z.shiftl 0xA IXGBE_FDIRCTRL_MAX_LENGTH_SHIFT))
      (Z.shiftl 4 IXGBE_FDIRCTRL_FULL_THRESH_SHIFT)) in
  let fdirctrl :=
    if cloud_mode
    then Z.lor fdirctrl (Z.shiftl IXGBE_FDIRCTRL_FILTERMODE_CLOUD IXGBE_FDIRCTRL_FILTERMODE_SHIFT)
    else fdirctrl in
  ixgbe_fdir_enable_82599 fdirctrl ;;
  mret IXGBE_SUCCESS.

(** X550 and later *)
Definition is_x550_or_e610 (t : ixgbe_mac_type) : bool :=
  match t with
  | ixgbe_mac_X550 | ixgbe_mac_X550EM_x | ixgbe_mac_X550EM_a | ixgbe_mac_E610 => true
  | _ => false
  end.

Definition ixgbe_set_fdir_drop_queue_82599 (dropqueue : Z) : M unit :=
  fdirctrl ← IXGBE_READ_REG IXGBE_FDIRCTRL;
  let fdirctrl := Z.land fdirctrl (bnot 32 (Z.lor IXGBE_FDIRCTRL_DROP_Q_MASK IXGBE_FDIRCTRL_INIT_DONE)) in
  let fdirctrl := Z.lor fdirctrl (Z.shiftl dropqueue IXGBE_FDIRCTRL_DROP_Q_SHIFT) in
  h ← get_hw;
  let fdirctrl := if is_x550_or_e610 (mac_type (mac h))
                  then Z.lor fdirctrl IXGBE_FDIRCTRL_DROP_NO_MATCH else fdirctrl in
  pulse_clearht ;;
  ixgbe_fdir_enable_82599 fdirctrl.

(** [union ixgbe_atr_hash_dword] is its [dword]; [formatted.flow_type] is byte 1 *)
Definition ixgbe_fdir_add_signature_filter_82599 (input common queue : Z) : M unit :=
  let input_flow_type := u8 (Z.shiftr input 8) in
  let tunnel := has input_flow_type IXGBE_ATR_L4TYPE_TUNNEL_MASK in
  let flow_type := Z.land input_flow_type (IXGBE_ATR_L4TYPE_TUNNEL_MASK - 1) in
  (* UDPV4, TCPV4, SCTPV4, UDPV6, TCPV6 and SCTPV6 *)
  if negb (bool_decide (flow_type ∈ [1; 2; 3; 5; 6; 7])) then mret tt
  else
    let fdircmd := Z.lor (Z.lor (Z.lor IXGBE_FDIRCMD_CMD_ADD_FLOW IXGBE_FDIRCMD_FILTER_UPDATE)
                     IXGBE_FDIRCMD_LAST) IXGBE_FDIRCMD_QUEUE_EN in
    let fdircmd := Z.lor fdircmd (u32 (Z.shiftl flow_type IXGBE_FDIRCMD_FLOW_TYPE_SHIFT)) in
    let fdircmd := Z.lor fdircmd (u32 (Z.shiftl queue IXGBE_FDIRCMD_RX_QUEUE_SHIFT)) in
    let fdircmd := if tunnel then Z.lor fdircmd IXGBE_FDIRCMD_TUNNEL_FILTER else fdircmd in
    let fdirhashcmd := u64 (Z.shiftl fdircmd 32) in
    let fdirhashcmd := Z.lor fdirhashcmd (ixgbe_atr_compute_sig_hash_82599 input common) in
    IXGBE_WRITE_REG64 IXGBE_FDIRHASH fdirhashcmd.

Definition write_sctpm (v : Z) : M unit :=
  h ← get_hw;
  if is_x550_or_e610 (mac_type (mac h)) then IXGBE_WRITE_REG IXGBE_FDIRSCTPM v else mret tt.

Definition ixgbe_fdir_set_input_mask_82599 (input_mask : atr_input) (cloud_mode : bool) : M Z :=
  match fdirm_of input_mask with
  | None => mret IXGBE_ERR_CONFIG
  | Some fdirm =>
      if cloud_mode then
        let fdirm := Z.lor fdirm IXGBE_FDIRM_L3P in
        match fdirip6m_of input_mask with
        | None => mret IXGBE_ERR_CONFIG
        | Some fdirip6m =>
            IXGBE_WRITE_REG_BE32 IXGBE_FDIRIP6M fdirip6m ;;
            IXGBE_WRITE_REG IXGBE_FDIRTCPM 0xFFFFFFFF ;;
            IXGBE_WRITE_REG IXGBE_FDIRUDPM 0xFFFFFFFF ;;
            IXGBE_WRITE_REG_BE32 IXGBE_FDIRDIP4M 0xFFFFFFFF ;;
            IXGBE_WRITE_REG_BE32 IXGBE_FDIRSIP4M 0xFFFFFFFF ;;
            write_sctpm 0xFFFFFFFF ;;
            IXGBE_WRITE_REG IXGBE_FDIRM fdirm ;;
            mret IXGBE_SUCCESS
        end
      else
        IXGBE_WRITE_REG IXGBE_FDIRM fdirm ;;
        let fdirtcpm := ixgbe_get_fdirtcpm_82599 input_mask in
        IXGBE_WRITE_REG IXGBE_FDIRTCPM (bnot 32 fdirtcpm) ;;
        IXGBE_WRITE_REG IXGBE_FDIRUDPM (bnot 32 fdirtcpm) ;;
        write_sctpm (bnot 32 fdirtcpm) ;;
        IXGBE_WRITE_REG_BE32 IXGBE_FDIRSIP4M (bnot 32 (src_ip input_mask 0)) ;;
        IXGBE_WRITE_REG_BE32 IXGBE_FDIRDIP4M (bnot 32 (dst_ip input_mask 0)) ;;
        IXGBE_WRITE_REG_BE32 IXGBE_FDIRIP6M 0xFFFFFFFF ;;
        mret IXGBE_SUCCESS
  end.

(** FDIRHASH of a perfect filter *)
Definition fdirhash_of (input : atr_input) (soft_id : Z) : Z :=
  Z.lor (bkt_hash input) (u32 (Z.shiftl soft_id IXGBE_FDIRHASH_SIG_SW_INDEX_SHIFT)).

Definition ixgbe_fdir_write_perfect_filter_82599 (input : atr_input) (soft_id queue : Z)
    (cloud_mode : bool) : M Z :=
  (if negb cloud_mode then
     IXGBE_WRITE_REG_BE32 (IXGBE_FDIRSIPv6 0) (src_ip input 0) ;;
     IXGBE_WRITE_REG_BE32 (IXGBE_FDIRSIPv6 1) (src_ip input 1) ;;
     IXGBE_WRITE_REG_BE32 (IXGBE_FDIRSIPv6 2) (src_ip input 2) ;;
     IXGBE_WRITE_REG_BE32 IXGBE_FDIRIPSA (src_ip input 0) ;;
     IXGBE_WRITE_REG_BE32 IXGBE_FDIRIPDA (dst_ip input 0) ;;
     IXGBE_WRITE_REG IXGBE_FDIRPORT
       (Z.lor (u32 (Z.shiftl (IXGBE_NTOHS (dst_port input)) IXGBE_FDIRPORT_DESTINATION_SHIFT))
              (IXGBE_NTOHS (src_port input)))
   else mret tt) ;;
  IXGBE_WRITE_REG IXGBE_FDIRVLAN
    (Z.lor (u32 (Z.shiftl (IXGBE_STORE_AS_BE16 (flex_bytes input)) IXGBE_FDIRVLAN_FLEX_SHIFT))
           (IXGBE_NTOHS (vlan_id input))) ;;
  (if cloud_mode then
     let cloud_type := if negb (tunnel_type input =? 0) then 0x80000000 else 0 in
     let addr_low := Z.lor (Z.lor (Z.lor (inner_mac input 0) (u32 (Z.shiftl (inner_mac input 1) 8)))
                       (u32 (Z.shiftl (inner_mac input 2) 16))) (u32 (Z.shiftl (inner_mac input 3) 24)) in
     let addr_high := Z.lor (inner_mac input 4) (u32 (Z.shiftl (inner_mac input 5) 8)) in
     let cloud_type := Z.lor cloud_type addr_high in
     IXGBE_WRITE_REG_BE32 (IXGBE_FDIRSIPv6 0) addr_low ;;
     IXGBE_WRITE_REG_BE32 (IXGBE_FDIRSIPv6 1) cloud_type ;;
     IXGBE_WRITE_REG_BE32 (IXGBE_FDIRSIPv6 2) (tni_vni input)
   else mret tt) ;;
  IXGBE_WRITE_REG IXGBE_FDIRHASH (fdirhash_of input soft_id) ;;
  IXGBE_WRITE_FLUSH ;;
  let fdircmd := Z.lor (Z.lor (Z.lor IXGBE_FDIRCMD_CMD_ADD_FLOW IXGBE_FDIRCMD_FILTER_UPDATE)
                   IXGBE_FDIRCMD_LAST) IXGBE_FDIRCMD_QUEUE_EN in
  let fdircmd := if queue =? IXGBE_FDIR_DROP_QUEUE then Z.lor fdircmd IXGBE_FDIRCMD_DROP else fdircmd in
  let fdircmd := if has (flow_type input) IXGBE_ATR_L4TYPE_TUNNEL_MASK
                 then Z.lor fdircmd IXGBE_FDIRCMD_TUNNEL_FILTER else fdircmd in
  let fdircmd := Z.lor fdircmd (u32 (Z.shiftl (flow_type input) IXGBE_FDIRCMD_FLOW_TYPE_SHIFT)) in
  let fdircmd := Z.lor fdircmd (u32 (Z.shiftl queue IXGBE_FDIRCMD_RX_QUEUE_SHIFT)) in
  let fdircmd := Z.lor fdircmd (u32 (Z.shiftl (vm_pool input) IXGBE_FDIRCMD_VT_POOL_SHIFT)) in
  IXGBE_WRITE_REG IXGBE_FDIRCMD fdircmd ;;
  r ← ixgbe_fdir_check_cmd_complete;
  if negb (fst r =? 0) then mret (fst r) else mret IXGBE_SUCCESS.

Definition ixgbe_fdir_erase_perfect_filter_82599 (input : atr_input) (soft_id : Z) : M Z :=
  let fdirhash := fdirhash_of input soft_id in
  IXGBE_WRITE_REG IXGBE_FDIRHASH fdirhash ;;
  IXGBE_WRITE_FLUSH ;;
  IXGBE_WRITE_REG IXGBE_FDIRCMD IXGBE_FDIRCMD_CMD_QUERY_REM_FILT ;;
  r ← ixgbe_fdir_check_cmd_complete;
  if negb (fst r =? 0) then mret (fst r)
  else
    (if has (snd r) IXGBE_FDIRCMD_FILTER_VALID then
       IXGBE_WRITE_REG IXGBE_FDIRHASH fdirhash ;;
       IXGBE_WRITE_FLUSH ;;
       IXGBE_WRITE_REG IXGBE_FDIRCMD IXGBE_FDIRCMD_CMD_REMOVE_FLOW
     else mret tt) ;;
    mret IXGBE_SUCCESS.
End Fdir.
