(* ===== verification/FdirProps.v ===== *)
(** * Flow Director: the hash, the masks and the commands (Fdir.v)

    The unrolled hash of ixgbe_82599.c is the bit-serial hash of the stream of
    input bits with the key repeated along it.  Both are linear over XOR, so that
    they agree on every input when they agree on the inputs of one bit. *)
From Stdlib Require Import Btauto.
From S2P Require Import Prelude Regs Types Osdep Trace Fdir.

(** ** Functions that are linear over XOR *)
Section Linear.
Lemma land_lxor x y m : Z.land (Z.lxor x y) m = Z.lxor (Z.land x m) (Z.land y m).
Proof. bitwise i. Qed.
Lemma trunc_lxor w x y : 0 <= w -> trunc w (Z.lxor x y) = Z.lxor (trunc w x) (trunc w y).
Proof. intros Hw. bitwise i. Qed.
Lemma lxor_swap a b c d : Z.lxor (Z.lxor a b) (Z.lxor c d) = Z.lxor (Z.lxor a c) (Z.lxor b d).
Proof. bitwise i. Qed.

(** [g] is linear on [w]-bit values *)
Definition linear (w : Z) (g : Z -> Z) : Prop :=
  forall x y, in_range w x -> in_range w y -> g (Z.lxor x y) = Z.lxor (g x) (g y).

Lemma linear_zero w g : 0 <= w -> linear w g -> g 0 = 0.
Proof.
  intros Hw Hg. assert (H : in_range w 0) by (split; [lia|apply Z.pow_pos_nonneg; lia]).
  specialize (Hg 0 0 H H). rewrite !Z.lxor_nilpotent in Hg. exact Hg.
Qed.

(** linear functions that agree on the powers of two agree *)
Lemma linear_basis (n : nat) g h : linear (Z.of_nat n) g -> linear (Z.of_nat n) h ->
  (forall i, 0 <= i < Z.of_nat n -> g (bit i) = h (bit i)) ->
  forall x, in_range (Z.of_nat n) x -> g x = h x.
Proof.
  intros Hg Hh Hb.
  assert (forall k : nat, (k <= n)%nat -> forall x, in_range (Z.of_nat k) x -> g x = h x) as Hk; [|eauto].
  induction k as [|k IH]; intros Hk x Hx.
  { unfold in_range in Hx. change (2 ^ Z.of_nat 0) with 1 in Hx. replace x with 0 by lia.
    rewrite (linear_zero (Z.of_nat n) g), (linear_zero (Z.of_nat n) h) by (done || lia). done. }
  assert (Hle : forall z, in_range (Z.of_nat k) z -> in_range (Z.of_nat n) z).
  { intros z [? Hz]. split; [done|]. eapply Z.lt_le_trans; [exact Hz|]. apply Z.pow_le_mono_r; lia. }
  destruct (Z.testbit x (Z.of_nat k)) eqn:E.
  - set (y := Z.lxor x (bit (Z.of_nat k))).
    assert (Hy : in_range (Z.of_nat k) y).
    { apply range_of_testbit; [lia| |].
      - apply Z.lxor_nonneg. pose proof (bit_range (Z.of_nat (S k)) (Z.of_nat k) ltac:(lia)).
        unfold in_range in *. lia.
      - intros i Hi. unfold y. rewrite Z.lxor_spec, testbit_bit by lia.
        destruct (Z.eqb_spec i (Z.of_nat k)) as [->|]; [by rewrite E|].
        by rewrite (testbit_range (Z.of_nat (S k))) by (done || lia). }
    replace x with (Z.lxor y (bit (Z.of_nat k))) by (unfold y; bitwise i).
    rewrite Hg, Hh, (IH ltac:(lia) y Hy), Hb by (apply Hle, Hy || (apply bit_range; lia) || lia). done.
  - apply IH; [lia|]. apply range_of_testbit; [lia|unfold in_range in Hx; lia|].
    intros i Hi. destruct (Z.eqb_spec i (Z.of_nat k)) as [->|]; [done|].
    apply (testbit_range (Z.of_nat (S k))); [done|lia].
Qed.

(** [g] is linear on lists of [n] 32-bit words *)
Definition words (n : nat) (l : list Z) : Prop := length l = n /\ Forall (in_range 32) l.
Definition linear_words (n : nat) (g : list Z -> Z) : Prop :=
  forall l m, words n l -> words n m -> g (zip_with Z.lxor l m) = Z.lxor (g l) (g m).

Definition unit_words (n d : nat) (i : Z) : list Z :=
  map (fun k => if (k =? d)%nat then bit i else 0) (seq 0 n).

Lemma words_zeros n : words n (replicate n 0).
Proof.
  split; [apply length_replicate|]. by apply Forall_replicate.
Qed.
Lemma words_cons n x l : in_range 32 x -> words n l -> words (S n) (x :: l).
Proof. intros Hx [Hl Hf]. split; [by simpl; rewrite Hl|by apply List.Forall_cons]. Qed.

Lemma zip_lxor_zeros n l : length l = n -> zip_with Z.lxor (replicate n 0) l = l.
Proof. intros <-. induction l as [|x l IH]; simpl; [done|]. by rewrite IH, Z.lxor_0_l. Qed.

Lemma unit_words_0 n i : unit_words (S n) 0 i = bit i :: replicate n 0.
Proof.
  unfold unit_words. simpl. f_equal. rewrite <- seq_shift, map_map.
  induction n as [|n IH] using nat_ind; [done|].
  rewrite seq_S, map_app, IH. simpl.
  by rewrite <- replicate_cons_app.
Qed.
Lemma unit_words_S n d i : unit_words (S n) (S d) i = 0 :: unit_words n d i.
Proof. unfold unit_words. simpl. f_equal. by rewrite <- seq_shift, map_map. Qed.

Lemma linear_words_basis n g h : linear_words n g -> linear_words n h ->
  (forall d i, (d < n)%nat -> 0 <= i < 32 -> g (unit_words n d i) = h (unit_words n d i)) ->
  g (replicate n 0) = h (replicate n 0) ->
  forall l, words n l -> g l = h l.
Proof.
  revert g h. induction n as [|n IH]; intros g h Hg Hh Hb H0 l [Hl Hf].
  { by destruct l. }
  destruct l as [|x l]; [done|]. inversion Hf as [|? ? Hx Hf']; subst.
  assert (Hw : words n l) by (split; [by injection Hl|done]).
  assert (Hz := words_zeros n). assert (H32 : in_range 32 0) by done.
  assert (E : x :: l = zip_with Z.lxor (x :: replicate n 0) (0 :: l)).
  { simpl. rewrite Z.lxor_0_r, zip_lxor_zeros by (by injection Hl). done. }
  rewrite E, Hg, Hh by (by apply words_cons). f_equal.
  - apply (linear_basis 32 (fun x => g (x :: replicate n 0)) (fun x => h (x :: replicate n 0))); [| | |done].
    + intros a b Ha Hb'. rewrite <- Hg by (by apply words_cons). simpl.
      by rewrite (zip_lxor_zeros n) by apply length_replicate.
    + intros a b Ha Hb'. rewrite <- Hh by (by apply words_cons). simpl.
      by rewrite (zip_lxor_zeros n) by apply length_replicate.
    + intros i Hi. rewrite <- unit_words_0. apply Hb; [lia|done].
  - apply (IH (fun l => g (0 :: l)) (fun l => h (0 :: l))); [| | |done|done].
    + intros a b Ha Hb'. rewrite <- Hg by (by apply words_cons). done.
    + intros a b Ha Hb'. rewrite <- Hh by (by apply words_cons). done.
    + intros d i Hd Hi. rewrite <- unit_words_S. apply Hb; [lia|done].
Qed.
End Linear.

(** ** The reference: a bit-serial hash

    The stream is the first word (pool, flow type, VLAN), sixteen zeros, the
    other words, and the first word again, each word in network order from its
    low bit.  Bit [j] of the hash is the XOR of the stream bits behind position
    [j] where the key, repeated, has a one; bit 0 of the key starts at the
    second repetition. *)
Definition word_bits (w : Z) : list bool := map (Z.testbit (IXGBE_NTOHL w)) (seqZ 0 32).
Definition stream (l : list Z) : list bool :=
  match l with
  | [] => []
  | w0 :: ws => word_bits w0 ++ replicate 16 false ++ concat (map word_bits ws) ++ word_bits w0
  end.
(** the XOR of the bits of [s] at the ones of the repeated key, from key bit [m] on *)
Fixpoint dot (K m : Z) (s : list bool) : bool :=
  match s with
  | [] => false
  | b :: s' => xorb (b && Z.testbit K (m mod 32)) (dot K (m + 1) s')
  end.
(** the number whose bit [j < n] is [f j] *)
Definition of_bits (n : nat) (f : nat -> bool) : Z :=
  foldr (fun j h => Z.lxor (Z.shiftl (Z.b2z (f j)) (Z.of_nat j)) h) 0 (seq 0 n).
Definition reference_hash (K : Z) (n : nat) (l : list Z) : Z :=
  of_bits n (fun j => dot K 1 (take 479 (drop (S j) (stream l)))).

Section ReferenceLinear.
Lemma ntohl_lxor x y : IXGBE_NTOHL (Z.lxor x y) = Z.lxor (IXGBE_NTOHL x) (IXGBE_NTOHL y).
Proof.
  unfold IXGBE_NTOHL. rewrite !Z.shiftr_lxor, !trunc_lxor, !Z.shiftl_lxor by lia.
  apply Z.bits_inj'. intros i Hi. autorewrite with zbits.
  destruct (Z.ltb_spec i 8), (Z.ltb_spec i 16), (Z.ltb_spec i 24); try lia;
  repeat match goal with |- context [?a <? ?b] =>
    first [rewrite (proj2 (Z.ltb_lt a b)) by lia|rewrite (proj2 (Z.ltb_ge a b)) by lia] end;
  repeat match goal with |- context [Z.testbit _ ?e] => rewrite !(Z.testbit_neg_r _ e) by lia end;
  simpl; btauto.
Qed.
Lemma shiftl_range w x k n : in_range w x -> 0 <= k -> 0 <= w -> w + k <= n ->
  in_range n (Z.shiftl x k).
Proof.
  intros [H0 H1] Hk Hw Hn. rewrite Z.shiftl_mul_pow2 by done.
  assert (2 ^ (w + k) <= 2 ^ n) by (apply Z.pow_le_mono_r; lia).
  rewrite Z.pow_add_r in H by done. assert (0 < 2 ^ k) by (apply Z.pow_pos_nonneg; lia).
  split; nia.
Qed.
Lemma ntohl_range x : in_range 32 (IXGBE_NTOHL x).
Proof.
  assert (H8 : forall y, in_range 8 (u8 y)) by (intros; by apply trunc_range).
  unfold IXGBE_NTOHL. rewrite <- (Z.shiftl_0_r (u8 (Z.shiftr x 24))).
  repeat apply lor_range; try lia; by eapply shiftl_range.
Qed.

Lemma word_bits_lxor x y : word_bits (Z.lxor x y) = zip_with xorb (word_bits x) (word_bits y).
Proof.
  unfold word_bits. rewrite ntohl_lxor. rewrite zip_with_fmap_l, zip_with_fmap_r.
  induction (seqZ 0 32) as [|i l IH]; simpl; [done|]. by rewrite IH, Z.lxor_spec.
Qed.
Lemma word_bits_length x : length (word_bits x) = 32%nat.
Proof. done. Qed.


Lemma dot_app K m s t : dot K m (s ++ t) = xorb (dot K m s) (dot K (m + Z.of_nat (length s)) t).
Proof.
  revert m. induction s as [|b s IH]; intros m; cbn [app dot length].
  - rewrite Z.add_0_r. by destruct (dot K m t).
  - rewrite IH, xorb_assoc. do 3 f_equal. lia.
Qed.
Lemma dot_period K m k s : dot K (m + 32 * k) s = dot K m s.
Proof.
  revert m. induction s as [|b s IH]; intros m; [done|]. cbn [dot].
  replace (m + 32 * k + 1) with (m + 1 + 32 * k) by lia. rewrite IH.
  replace (m + 32 * k) with (m + k * 32) by lia. by rewrite Z.mod_add.
Qed.
Lemma dot_zeros K m n : dot K m (replicate n false) = false.
Proof. revert m. induction n as [|n IH]; intros m; [done|]. simpl. apply IH. Qed.
Lemma dot_xorb K m a b : length a = length b ->
  dot K m (zip_with xorb a b) = xorb (dot K m a) (dot K m b).
Proof.
  revert m b. induction a as [|x a IH]; intros m [|y b] H; try done. cbn [zip_with dot].
  rewrite IH by (by injection H). btauto.
Qed.

(** the words behind the first meet the same part of the key *)
Lemma dot_words K m ws :
  dot K m (concat (map word_bits ws)) = dot K m (word_bits (foldr Z.lxor 0 ws)).
Proof.
  revert m. induction ws as [|w ws IH]; intros m.
  - change (word_bits (foldr Z.lxor 0 [])) with (replicate 32 false). by rewrite dot_zeros.
  - cbn [map concat foldr]. rewrite dot_app, word_bits_length, word_bits_lxor, dot_xorb by done.
    f_equal. rewrite (dot_period K m 1). apply IH.
Qed.

Lemma length_concat_bits l : length (concat (map word_bits l)) = (32 * length l)%nat.
Proof.
  induction l as [|x l IH]; [done|]. cbn [map concat]. rewrite length_app, IH, word_bits_length.
  cbn [length]. lia.
Qed.

(** bit [j] of the hash from the first word and the XOR of the others *)
Definition compact_bit (K w0 c : Z) (j : nat) : bool :=
  xorb (dot K 1 (drop (S j) (word_bits w0)))
    (xorb (dot K (16 - Z.of_nat j) (word_bits c)) (dot K (16 - Z.of_nat j) (take (16 + j) (word_bits w0)))).

Lemma compact_bit_stream K w0 ws j : length ws = 13%nat -> (j < 15)%nat ->
  dot K 1 (take 479 (drop (S j) (stream (w0 :: ws)))) = compact_bit K w0 (foldr Z.lxor 0 ws) j.
Proof.
  intros Hw Hj. unfold stream, compact_bit.
  assert (Hc : length (concat (map word_bits ws)) = 416%nat) by (by rewrite length_concat_bits, Hw).
  rewrite drop_app_le by (rewrite word_bits_length; lia).
  rewrite take_app_ge by (rewrite length_drop, word_bits_length; lia). rewrite length_drop, word_bits_length.
  rewrite take_app_ge by (rewrite length_replicate; lia). rewrite length_replicate.
  rewrite take_app_ge by lia. rewrite Hc.
  rewrite !dot_app, dot_zeros, length_drop, word_bits_length, length_replicate, Hc, dot_words.
  replace (479 - (32 - S j) - 16 - 416)%nat with (16 + j)%nat by lia.
  replace (1 + Z.of_nat (32 - S j) + Z.of_nat 16) with (16 - Z.of_nat j + 32 * 1) by lia.
  replace (16 - Z.of_nat j + 32 * 1 + Z.of_nat 416) with (16 - Z.of_nat j + 32 * 14) by lia.
  rewrite !dot_period. by rewrite xorb_false_l.
Qed.

Lemma of_bits_ext n f g : (forall j, (j < n)%nat -> f j = g j) -> of_bits n f = of_bits n g.
Proof.
  intros H. unfold of_bits.
  assert (Hs : forall j, In j (seq 0 n) -> f j = g j) by (intros j Hj; apply in_seq in Hj; apply H; lia).
  clear H. induction (seq 0 n) as [|j l IH]; [done|]. cbn [foldr].
  rewrite IH by (intros; apply Hs; by right). by rewrite Hs by (by left).
Qed.
Lemma of_bits_xorb n f g : of_bits n (fun j => xorb (f j) (g j)) = Z.lxor (of_bits n f) (of_bits n g).
Proof.
  unfold of_bits. induction (seq 0 n) as [|j l IH]; [done|]. cbn [foldr]. rewrite IH.
  replace (Z.b2z (xorb (f j) (g j))) with (Z.lxor (Z.b2z (f j)) (Z.b2z (g j))) by (by destruct (f j), (g j)).
  by rewrite Z.shiftl_lxor, lxor_swap.
Qed.

(** the reference hash, from the first word and the XOR of the others *)
Definition compact_hash (K : Z) (n : nat) (l : list Z) : Z :=
  of_bits n (compact_bit K (nth 0 l 0) (nth 1 l 0)).

Lemma reference_compact K n w0 ws : length ws = 13%nat -> (n <= 15)%nat ->
  reference_hash K n (w0 :: ws) = compact_hash K n [w0; foldr Z.lxor 0 ws].
Proof. intros Hw Hn. apply of_bits_ext. intros j Hj. apply compact_bit_stream; [done|lia]. Qed.

Lemma compact_bit_lxor K a b c d j : compact_bit K (Z.lxor a b) (Z.lxor c d) j =
  xorb (compact_bit K a c j) (compact_bit K b d j).
Proof.
  unfold compact_bit. rewrite !word_bits_lxor, zip_with_drop, zip_with_take, !dot_xorb
    by (by rewrite ?length_drop, ?length_take, !word_bits_length). btauto.
Qed.

Lemma compact_linear K n : linear_words 2 (compact_hash K n).
Proof.
  intros l m [Hl _] [Hm _]. destruct l as [|a [|c []]], m as [|b [|d []]]; try done.
  unfold compact_hash. cbn [zip_with nth]. rewrite <- of_bits_xorb. apply of_bits_ext.
  intros j _. apply compact_bit_lxor.
Qed.
End ReferenceLinear.

(** ** The hash of the driver is linear *)
Section CodeLinear.
(** the exclusive or of two states of the signature hash *)
Definition sig_lxor (a b : sig_state) : sig_state :=
  mk_sig (Z.lxor (common_hash a) (common_hash b)) (Z.lxor (bucket_hash a) (bucket_hash b))
    (Z.lxor (sig_hash a) (sig_hash b)).

Lemma sig_add_lxor n b x y s t :
  sig_add n b (Z.lxor x y) (sig_lxor s t) = sig_lxor (sig_add n b x s) (sig_add n b y t).
Proof.
  unfold sig_add, sig_lxor.
  destruct (has IXGBE_ATR_COMMON_HASH_KEY (bit b)), (has IXGBE_ATR_BUCKET_HASH_KEY (bit b)),
    (has IXGBE_ATR_SIGNATURE_HASH_KEY (bit b)); cbn [common_hash bucket_hash sig_hash];
    rewrite ?Z.shiftr_lxor, ?Z.shiftl_lxor, ?trunc_lxor by lia; try done; f_equal; apply lxor_swap.
Qed.

Lemma sig_iter_lxor lo lo' hi hi' n s t :
  IXGBE_COMPUTE_SIG_HASH_ITERATION (Z.lxor lo lo') (Z.lxor hi hi') n (sig_lxor s t) =
  sig_lxor (IXGBE_COMPUTE_SIG_HASH_ITERATION lo hi n s) (IXGBE_COMPUTE_SIG_HASH_ITERATION lo' hi' n t).
Proof. unfold IXGBE_COMPUTE_SIG_HASH_ITERATION. by rewrite !sig_add_lxor. Qed.

Lemma sig_fold_lxor lo lo' hi hi' l s t :
  foldl (fun s n => IXGBE_COMPUTE_SIG_HASH_ITERATION (Z.lxor lo lo') (Z.lxor hi hi') n s) (sig_lxor s t) l =
  sig_lxor (foldl (fun s n => IXGBE_COMPUTE_SIG_HASH_ITERATION lo hi n s) s l)
    (foldl (fun s n => IXGBE_COMPUTE_SIG_HASH_ITERATION lo' hi' n s) t l).
Proof. revert s t. induction l as [|n l IH]; intros s t; [done|]. cbn [foldl]. by rewrite sig_iter_lxor, IH. Qed.

Lemma bkt_iter_lxor lo lo' hi hi' n b c :
  IXGBE_COMPUTE_BKT_HASH_ITERATION (Z.lxor lo lo') (Z.lxor hi hi') n (Z.lxor b c) =
  Z.lxor (IXGBE_COMPUTE_BKT_HASH_ITERATION lo hi n b) (IXGBE_COMPUTE_BKT_HASH_ITERATION lo' hi' n c).
Proof.
  unfold IXGBE_COMPUTE_BKT_HASH_ITERATION.
  destruct (has IXGBE_ATR_BUCKET_HASH_KEY (bit n)), (has IXGBE_ATR_BUCKET_HASH_KEY (bit (n + 16)));
    rewrite ?Z.shiftr_lxor; apply Z.bits_inj'; intros i Hi; rewrite ?Z.lxor_spec; btauto.
Qed.
Lemma bkt_fold_lxor lo lo' hi hi' l b c :
  foldl (fun b n => IXGBE_COMPUTE_BKT_HASH_ITERATION (Z.lxor lo lo') (Z.lxor hi hi') n b) (Z.lxor b c) l =
  Z.lxor (foldl (fun b n => IXGBE_COMPUTE_BKT_HASH_ITERATION lo hi n b) b l)
    (foldl (fun b n => IXGBE_COMPUTE_BKT_HASH_ITERATION lo' hi' n b) c l).
Proof. revert b c. induction l as [|n l IH]; intros b c; [done|]. cbn [foldl]. by rewrite bkt_iter_lxor, IH. Qed.

(** the swap of the halves of a word *)
Lemma halves_lxor x y : in_range 32 x -> in_range 32 y ->
  Z.lor (Z.shiftr (Z.lxor x y) 16) (u32 (Z.shiftl (Z.lxor x y) 16)) =
  Z.lxor (Z.lor (Z.shiftr x 16) (u32 (Z.shiftl x 16))) (Z.lor (Z.shiftr y 16) (u32 (Z.shiftl y 16))).
Proof.
  intros Hx Hy. apply Z.bits_inj'. intros i Hi. autorewrite with zbits.
  destruct (Z.ltb_spec i 16).
  - rewrite !(Z.testbit_neg_r _ (i - 16)) by lia. btauto.
  - rewrite !(testbit_range 32 _ (i + 16)) by (done || lia). btauto.
Qed.

Lemma sig_hash_lxor a b c d : ixgbe_atr_compute_sig_hash_82599 (Z.lxor a b) (Z.lxor c d) =
  Z.lxor (ixgbe_atr_compute_sig_hash_82599 a c) (ixgbe_atr_compute_sig_hash_82599 b d).
Proof.
  unfold ixgbe_atr_compute_sig_hash_82599. cbv zeta. rewrite !ntohl_lxor.
  pose proof (ntohl_range c) as Hc. pose proof (ntohl_range d) as Hd.
  rewrite halves_lxor by done.
  generalize dependent (IXGBE_NTOHL c). intros C Hc. generalize dependent (IXGBE_NTOHL d). intros E Hd.
  generalize (IXGBE_NTOHL a) (IXGBE_NTOHL b). intros f g.
  set (lo := Z.lor (Z.shiftr C 16) _). set (lo' := Z.lor (Z.shiftr E 16) _).
  rewrite !Z.shiftr_lxor, !Z.shiftl_lxor, !trunc_lxor by lia.
  rewrite !(lxor_swap f g), (lxor_swap C E), (lxor_swap lo lo').
  assert (H0 : forall l l' h h', IXGBE_COMPUTE_SIG_HASH_ITERATION (Z.lxor l l') (Z.lxor h h') 0 (mk_sig 0 0 0) =
    sig_lxor (IXGBE_COMPUTE_SIG_HASH_ITERATION l h 0 (mk_sig 0 0 0))
             (IXGBE_COMPUTE_SIG_HASH_ITERATION l' h' 0 (mk_sig 0 0 0))).
  { intros l l' h h'. exact (sig_iter_lxor l l' h h' 0 (mk_sig 0 0 0) (mk_sig 0 0 0)). }
  rewrite H0, sig_fold_lxor.
  match goal with |- context [sig_lxor ?p ?q] => generalize p q end. intros p q. unfold sig_lxor.
  cbn [common_hash bucket_hash sig_hash]. rewrite Z.shiftl_lxor, trunc_lxor by lia.
  apply Z.bits_inj'. intros i Hi. repeat rewrite ?Z.lxor_spec, ?Z.land_spec. btauto.
Qed.

Lemma perfect_bucket_lxor a b c d : perfect_bucket (Z.lxor a b) (Z.lxor c d) =
  Z.lxor (perfect_bucket a c) (perfect_bucket b d).
Proof.
  unfold perfect_bucket. cbv zeta. rewrite !ntohl_lxor.
  pose proof (ntohl_range c) as Hc. pose proof (ntohl_range d) as Hd.
  rewrite halves_lxor by done.
  generalize dependent (IXGBE_NTOHL c). intros C Hc. generalize dependent (IXGBE_NTOHL d). intros E Hd.
  generalize (IXGBE_NTOHL a) (IXGBE_NTOHL b). intros f g.
  set (lo := Z.lor (Z.shiftr C 16) _). set (lo' := Z.lor (Z.shiftr E 16) _).
  rewrite !Z.shiftr_lxor, !Z.shiftl_lxor, !trunc_lxor by lia.
  rewrite !(lxor_swap f g), (lxor_swap C E), (lxor_swap lo lo').
  assert (H0 : forall l l' h h', IXGBE_COMPUTE_BKT_HASH_ITERATION (Z.lxor l l') (Z.lxor h h') 0 0 =
    Z.lxor (IXGBE_COMPUTE_BKT_HASH_ITERATION l h 0 0) (IXGBE_COMPUTE_BKT_HASH_ITERATION l' h' 0 0)).
  { intros l l' h h'. exact (bkt_iter_lxor l l' h h' 0 0 0). }
  rewrite H0, bkt_fold_lxor. apply land_lxor.
Qed.
End CodeLinear.

(** ** The hash of the driver is the reference *)
Section HashSpec.
Definition basis_agree (n : nat) (g h : list Z -> Z) : bool :=
  forallb (fun d => forallb (fun i => g (unit_words n d i) =? h (unit_words n d i)) (seqZ 0 32)) (seq 0 n)
  && (g (replicate n 0) =? h (replicate n 0)).

(** linearity turns agreement on every input into a finite check *)
Lemma linear_words_eq n g h l : linear_words n g -> linear_words n h -> basis_agree n g h = true ->
  words n l -> g l = h l.
Proof.
  intros Hg Hh Hb Hl. apply andb_true_iff in Hb as [Hb H0]. apply Z.eqb_eq in H0.
  apply (linear_words_basis n); [done|done| |done|done].
  intros d i Hd Hi. rewrite forallb_forall in Hb. specialize (Hb d). rewrite forallb_forall in Hb.
  apply Z.eqb_eq, Hb; [apply in_seq; lia|]. apply list_elem_of_In, elem_of_seqZ. lia.
Qed.

Lemma nth_zip_lxor l m i : length l = length m ->
  nth i (zip_with Z.lxor l m) 0 = Z.lxor (nth i l 0) (nth i m 0).
Proof.
  revert m i. induction l as [|x l IH]; intros [|y m] [|i] H; try done. cbn [zip_with nth].
  apply IH. by injection H.
Qed.

Lemma linear_words_lxor_shift n g h k : linear_words n g -> linear_words n h ->
  linear_words n (fun l => Z.lxor (g l) (Z.shiftl (h l) k)).
Proof.
  intros Hg Hh l m Hl Hm. rewrite (Hg l m Hl Hm), (Hh l m Hl Hm), Z.shiftl_lxor. apply lxor_swap.
Qed.

(** the hashes as functions of the list of the two words *)
Definition sig_of_pair (l : list Z) : Z := ixgbe_atr_compute_sig_hash_82599 (nth 0 l 0) (nth 1 l 0).
Definition bucket_of_pair (l : list Z) : Z := perfect_bucket (nth 0 l 0) (nth 1 l 0).
Definition compact_sig (l : list Z) : Z :=
  Z.lxor (compact_hash IXGBE_ATR_BUCKET_HASH_KEY 15 l)
         (Z.shiftl (compact_hash IXGBE_ATR_SIGNATURE_HASH_KEY 15 l) 16).

Lemma sig_of_pair_linear : linear_words 2 sig_of_pair.
Proof. intros l m [Hl _] [Hm _]. unfold sig_of_pair. by rewrite !nth_zip_lxor, sig_hash_lxor by congruence. Qed.
Lemma bucket_of_pair_linear : linear_words 2 bucket_of_pair.
Proof. intros l m [Hl _] [Hm _]. unfold bucket_of_pair. by rewrite !nth_zip_lxor, perfect_bucket_lxor by congruence. Qed.
Lemma compact_sig_linear : linear_words 2 compact_sig.
Proof. apply linear_words_lxor_shift; apply compact_linear. Qed.

Lemma sig_basis : basis_agree 2 sig_of_pair compact_sig = true.
Proof. vm_compute. reflexivity. Qed.
Lemma bucket_basis :
  basis_agree 2 bucket_of_pair (compact_hash IXGBE_ATR_BUCKET_HASH_KEY 13) = true.
Proof. vm_compute. reflexivity. Qed.

Lemma words_pair x y : in_range 32 x -> in_range 32 y -> words 2 [x; y].
Proof. intros Hx Hy. apply words_cons; [done|]. by apply (words_cons 0 y []). Qed.
Lemma xor_words_range n ws : words n ws -> in_range 32 (foldr Z.lxor 0 ws).
Proof.
  intros [_ Hf]. induction Hf as [|x l Hx Hl IH]; [done|]. cbn [foldr]. by apply lxor_range.
Qed.

Lemma sig_of_pair_eq x y : ixgbe_atr_compute_sig_hash_82599 x y = sig_of_pair [x; y].
Proof. unfold sig_of_pair. reflexivity. Qed.
Lemma bucket_of_pair_eq x y : perfect_bucket x y = bucket_of_pair [x; y].
Proof. unfold bucket_of_pair. reflexivity. Qed.
Lemma compact_sig_eq l : Z.lxor (compact_hash IXGBE_ATR_BUCKET_HASH_KEY 15 l)
  (Z.shiftl (compact_hash IXGBE_ATR_SIGNATURE_HASH_KEY 15 l) 16) = compact_sig l.
Proof. unfold compact_sig. reflexivity. Qed.

(** C34: the signature hash, computed with two unrolled keys at once from the
    first word and the XOR of the others, is the bit-serial hash of the whole
    input stream: the bucket hash in the low half, the signature in the high one. *)
Theorem sig_hash_reference w0 ws : in_range 32 w0 -> words 13 ws ->
  ixgbe_atr_compute_sig_hash_82599 w0 (foldr Z.lxor 0 ws) =
  Z.lxor (reference_hash IXGBE_ATR_BUCKET_HASH_KEY 15 (w0 :: ws))
         (Z.shiftl (reference_hash IXGBE_ATR_SIGNATURE_HASH_KEY 15 (w0 :: ws)) 16).
Proof.
  intros H0 Hw. pose proof (xor_words_range 13 ws Hw) as Hc. destruct Hw as [Hw _].
  rewrite !reference_compact by (done || lia). rewrite compact_sig_eq, sig_of_pair_eq.
  exact (linear_words_eq 2 sig_of_pair compact_sig _ sig_of_pair_linear
    compact_sig_linear sig_basis (words_pair _ _ H0 Hc)).
Qed.

Lemma perfect_bucket_reference w0 ws : in_range 32 w0 -> words 13 ws ->
  perfect_bucket w0 (foldr Z.lxor 0 ws) = reference_hash IXGBE_ATR_BUCKET_HASH_KEY 13 (w0 :: ws).
Proof.
  intros H0 Hw. pose proof (xor_words_range 13 ws Hw) as Hc. destruct Hw as [Hw _].
  rewrite reference_compact by (done || lia). rewrite bucket_of_pair_eq.
  exact (linear_words_eq 2 bucket_of_pair (compact_hash IXGBE_ATR_BUCKET_HASH_KEY 13) _
    bucket_of_pair_linear (compact_linear _ _) bucket_basis (words_pair _ _ H0 Hc)).
Qed.

Lemma perfect_bucket_range w c : in_range 13 (perfect_bucket w c).
Proof.
  unfold perfect_bucket. cbv zeta. match goal with |- in_range _ (Z.land ?b _) => generalize b end.
  intros b. rewrite Z.land_comm. change 0x1FFF with (Z.ones 13). rewrite Z.land_comm, Z.land_ones by lia.
  by apply trunc_range.
Qed.

Lemma masked_words n l m : words n l -> words n m -> words n (zip_with Z.land l m).
Proof.
  revert l m. induction n as [|n IH]; intros [|x l] [|y m] [Hl Hf] [Hm Hg]; try done.
  inversion Hf; inversion Hg; subst. cbn [zip_with]. apply words_cons.
  - apply land_range; [lia|done|unfold in_range in *; lia].
  - cbn [length] in Hl, Hm. apply IH; (split; [lia|done]).
Qed.

Lemma xor_dwords w0 ws : length ws = 13%nat ->
  foldl (fun x i => Z.lxor x (dword_stream (w0 :: ws) i)) 0 [1; 2; 3; 4; 5; 6; 7; 8; 9; 10; 11; 12; 13] =
  foldr Z.lxor 0 ws.
Proof.
  intros Hw. do 14 (destruct ws as [|? ws]; [try done|try done]).
  cbn [foldl foldr]. unfold dword_stream. cbn [Z.to_nat Pos.to_nat Pos.iter_op nth Nat.add].
  rewrite Z.lxor_0_l, Z.lxor_0_r. by rewrite !Z.lxor_assoc.
Qed.

Lemma bkt_hash_set l h : length l = 14%nat -> in_range 16 h -> bkt_hash (set_bkt_hash l h) = h.
Proof.
  intros Hl Hh. unfold bkt_hash, set_bkt_hash, member. set (d := dword_stream l 13).
  unfold dword_stream. change (Z.to_nat 13) with 13%nat.
  rewrite nth_lookup, list_lookup_insert_eq by lia. cbn [from_option id].
  rewrite (trunc_small 16 h) by done. change (8 * 2) with 16.
  apply Z.bits_inj'. intros i Hi. rewrite testbit_trunc, Z.shiftr_spec, Z.lor_spec, Z.land_spec, Z.shiftl_spec by lia.
  replace (i + 16 - 16) with i by lia. change 65535 with (Z.ones 16). rewrite Z.ones_spec_high, andb_false_r by lia.
  destruct (Z.ltb_spec i 16); [done|]. by rewrite (testbit_range 16).
Qed.

Lemma dword_set_other l h i : 0 <= i < 13 -> dword_stream (set_bkt_hash l h) i = dword_stream l i.
Proof.
  intros Hi. unfold set_bkt_hash. generalize (Z.lor (Z.land (dword_stream l 13) 65535) (Z.shiftl (u16 h) 16)).
  intros v. unfold dword_stream. rewrite !nth_lookup, list_lookup_insert_ne by lia. done.
Qed.
Lemma nth_zip_land l m i : length l = length m ->
  nth i (zip_with Z.land l m) 0 = Z.land (nth i l 0) (nth i m 0).
Proof.
  revert m i. induction l as [|x l IH]; intros [|y m] [|i] H; try done. cbn [zip_with nth].
  apply IH. by injection H.
Qed.

Lemma perfect_hash_bucket input mask : words 14 input -> words 14 mask ->
  ixgbe_atr_compute_perfect_hash_82599 input mask =
  set_bkt_hash (zip_with Z.land input mask)
    (reference_hash IXGBE_ATR_BUCKET_HASH_KEY 13 (zip_with Z.land input mask)) /\
  in_range 13 (reference_hash IXGBE_ATR_BUCKET_HASH_KEY 13 (zip_with Z.land input mask)).
Proof.
  intros Hi Hm. unfold ixgbe_atr_compute_perfect_hash_82599. cbv zeta.
  pose proof (masked_words 14 _ _ Hi Hm) as Hl. generalize dependent (zip_with Z.land input mask).
  intros [|w0 ws] [Hl Hf]; [done|]. inversion Hf; subst. injection Hl as Hl.
  rewrite xor_dwords by done. change (dword_stream (w0 :: ws) 0) with w0.
  rewrite perfect_bucket_reference by done. split; [done|].
  rewrite <- perfect_bucket_reference by done. apply perfect_bucket_range.
Qed.

(** masking the input with the hash stored, by a mask that leaves it out, gives
    back the masked input *)
Lemma remask input mask h : words 14 input -> words 14 mask -> in_range 16 h -> bkt_hash mask = 0 ->
  zip_with Z.land (set_bkt_hash (zip_with Z.land input mask) h) mask = zip_with Z.land input mask.
Proof.
  intros [Hi Hif] [Hm Hmf] Hh Hb. unfold bkt_hash, member in Hb.
  apply (nth_ext _ _ 0 0).
  { unfold set_bkt_hash. rewrite !length_zip_with, length_insert, length_zip_with. lia. }
  intros n Hn. unfold set_bkt_hash in *.
  rewrite length_zip_with, length_insert, length_zip_with in Hn.
  rewrite nth_zip_land by (rewrite length_insert, length_zip_with; lia).
  rewrite (nth_lookup (<[_:=_]> _)). destruct (decide (n = 13)%nat) as [->|Hne].
  - rewrite list_lookup_insert_eq by (rewrite length_zip_with; lia). cbn [from_option id].
    rewrite (trunc_small 16 h) by done. unfold dword_stream in *. change (Z.to_nat 13) with 13%nat in *.
    rewrite nth_zip_land by lia. set (x := nth 13 input 0). set (m := nth 13 mask 0) in *.
    assert (Hmr : in_range 32 m).
    { unfold m. rewrite nth_lookup. destruct (mask !! 13%nat) eqn:E; [|done]. cbn. by eapply Forall_lookup_1. }
    assert (Hmb : forall i, 16 <= i -> Z.testbit m i = false).
    { intros i Hi'. destruct (Z.ltb_spec i 32); [|by apply (testbit_range 32)].
      apply (f_equal (fun z => Z.testbit z (i - 16))) in Hb. change (8 * 2) with 16 in Hb.
      rewrite testbit_trunc, Z.shiftr_spec, Z.bits_0 in Hb by lia.
      replace (i - 16 + 16) with i in Hb by lia. destruct (Z.ltb_spec (i - 16) 16); [done|lia]. }
    apply Z.bits_inj'. intros i Hi'. rewrite !Z.land_spec, Z.lor_spec, !Z.land_spec, Z.shiftl_spec by lia.
    destruct (Z.ltb_spec i 16).
    + change 65535 with (Z.ones 16). rewrite Z.ones_spec_low, (Z.testbit_neg_r _ (i - 16)) by lia. btauto.
    + rewrite Hmb by lia. btauto.
  - rewrite list_lookup_insert_ne by done. rewrite <- nth_lookup, nth_zip_land by lia.
    rewrite <- Z.land_assoc, Z.land_diag. done.
Qed.

(** The perfect-filter hash masks the input word by word and stores in
    [bkt_hash] the bit-serial hash of the masked stream, 13 bits wide; no other
    member changes.  When the mask leaves [bkt_hash] out, computing the hash again
    changes nothing, as its comment promises. *)
Theorem perfect_hash_reference input mask : words 14 input -> words 14 mask ->
  let r := ixgbe_atr_compute_perfect_hash_82599 input mask in
  bkt_hash r = reference_hash IXGBE_ATR_BUCKET_HASH_KEY 13 (zip_with Z.land input mask) /\
  (forall i, 0 <= i < 13 -> dword_stream r i = Z.land (dword_stream input i) (dword_stream mask i)) /\
  flex_bytes r = Z.land (flex_bytes input) (flex_bytes mask) /\
  (bkt_hash mask = 0 -> ixgbe_atr_compute_perfect_hash_82599 r mask = r).
Proof.
  intros Hi Hm r. destruct (perfect_hash_bucket input mask Hi Hm) as [Er Hh]. fold r in Er.
  pose proof (masked_words 14 _ _ Hi Hm) as Hl.
  assert (Hh16 : in_range 16 (reference_hash IXGBE_ATR_BUCKET_HASH_KEY 13 (zip_with Z.land input mask))).
  { unfold in_range in *. change (2 ^ 13) with 8192 in Hh. change (2 ^ 16) with 65536. lia. }
  rewrite Er. split; [apply bkt_hash_set; [by destruct Hl|done]|]. split; [|split].
  - intros i Hr. rewrite dword_set_other by done. destruct Hi, Hm. apply nth_zip_land. congruence.
  - unfold flex_bytes, member. rewrite Z.mul_0_r, !Z.shiftr_0_r. unfold set_bkt_hash, dword_stream at 1.
    change (Z.to_nat 13) with 13%nat. destruct Hl as [Hl _].
    rewrite nth_lookup, list_lookup_insert_eq by lia. cbn [from_option id]. unfold dword_stream.
    change (Z.to_nat 13) with 13%nat. destruct Hi, Hm. rewrite nth_zip_land by congruence.
    change (8 * 2) with 16. change 65535 with (Z.ones 16).
    apply Z.bits_inj'. intros i Hi'. autorewrite with zbits.
    destruct (Z.ltb_spec i 16); [|done]. rewrite Z.ones_spec_low, (Z.testbit_neg_r _ (i - 16)) by lia. simpl. btauto.
  - intros Hb. destruct (perfect_hash_bucket r mask) as [Er2 _]; [|done|].
    + rewrite Er. unfold set_bkt_hash. destruct Hl as [Hl Hf]. split; [by rewrite length_insert|].
      apply Forall_insert; [done|]. change 65535 with (Z.ones 16). rewrite Z.land_ones by lia.
      apply lor_range; [lia| |].
      * pose proof (trunc_range 16 (dword_stream (zip_with Z.land input mask) 13) ltac:(lia)) as Ht.
        unfold trunc, in_range in Ht. unfold in_range. change (2 ^ 16) with 65536 in *.
        change (2 ^ 32) with 4294967296. lia.
      * eapply shiftl_range; [by apply (trunc_range 16)|lia|lia|lia].
    + rewrite <- Er. rewrite Er2. rewrite Er at 1 2. rewrite remask by done. done.
Qed.
End HashSpec.

(** ** Witnesses: a TCP flow and a mask that compares all but the hash *)
Definition demo_flow : list Z :=
  [0x0A000200; 0x0100000A; 0; 0; 0; 0x0200000A; 0; 0; 0; 0; 0; 0; 0x5000BB01; 0x0008].
Definition demo_mask : list Z := replicate 13 0xFFFFFFFF ++ [0x0000FFFF].

Lemma words_dec n l : (length l =? n)%nat && forallb (fun x => (0 <=? x) && (x <? 2 ^ 32)) l = true -> words n l.
Proof.
  intros H. apply andb_true_iff in H as [Hl Hf]. apply Nat.eqb_eq in Hl. split; [done|].
  apply List.Forall_forall. intros x Hx. rewrite forallb_forall in Hf. specialize (Hf x Hx).
  apply andb_true_iff in Hf as [H0 H1]. apply Z.leb_le in H0. apply Z.ltb_lt in H1. by split.
Qed.

Lemma sig_hash_reference_witness :
  words 13 (tl demo_flow) /\
  ixgbe_atr_compute_sig_hash_82599 0x0A000200 (foldr Z.lxor 0 (tl demo_flow)) =
  Z.lxor (reference_hash IXGBE_ATR_BUCKET_HASH_KEY 15 demo_flow)
         (Z.shiftl (reference_hash IXGBE_ATR_SIGNATURE_HASH_KEY 15 demo_flow) 16).
Proof.
  assert (Hw : words 13 (tl demo_flow)) by (apply words_dec; reflexivity).
  assert (H0 : in_range 32 0x0A000200) by (split; [discriminate|reflexivity]).
  split; [exact Hw|]. exact (sig_hash_reference 0x0A000200 (tl demo_flow) H0 Hw).
Defined.

Lemma perfect_hash_reference_witness :
  bkt_hash demo_mask = 0 /\
  ixgbe_atr_compute_perfect_hash_82599 (ixgbe_atr_compute_perfect_hash_82599 demo_flow demo_mask) demo_mask =
  ixgbe_atr_compute_perfect_hash_82599 demo_flow demo_mask.
Proof.
  assert (Hw : words 14 demo_flow) by (apply words_dec; reflexivity).
  assert (Hm : words 14 demo_mask) by (apply words_dec; reflexivity).
  destruct (perfect_hash_reference demo_flow demo_mask Hw Hm) as (_ & _ & _ & H).
  split; [reflexivity|]. exact (H eq_refl).
Defined.
