(* ===== verification/FdirHwProps.v ===== *)
(** * Flow Director: input masks and filter commands (Fdir.v)

    On any device: which masks are accepted and what is programmed for them, the
    order of the accesses of a filter command, and that a command the device
    completes in time is reported as done. *)
From Stdlib Require Import Btauto.
From S2P Require Import Prelude Regs Types Osdep Trace Fdir FdirProps.

(** ** Port masks: the bits of each port reversed *)
Section Ports.
Lemma swap_step_bit lo hi k m i : 0 <= i -> 0 <= k ->
  Z.testbit (swap_step lo hi k m) i =
  (i <? 32) && (Z.testbit m (i - k) && Z.testbit lo (i - k)) || Z.testbit m (i + k) && Z.testbit hi (i + k).
Proof.
  intros Hi Hk. unfold swap_step.
  by rewrite Z.lor_spec, testbit_trunc, Z.shiftl_spec, Z.shiftr_spec, !Z.land_spec by lia.
Qed.

Lemma ntohs_range x : in_range 16 (IXGBE_NTOHS x).
Proof.
  unfold IXGBE_NTOHS. rewrite <- (Z.shiftl_0_r (u8 (Z.shiftr x 8))).
  apply lor_range; [lia| |]; eapply shiftl_range; try (by apply (trunc_range 8)); lia.
Qed.

(** both ports in one word, before the swaps *)
Lemma ports_bit d s i : in_range 16 s -> 0 <= i < 32 ->
  Z.testbit (Z.lor (u32 (Z.shiftl d 16)) s) i = if i <? 16 then Z.testbit s i else Z.testbit d (i - 16).
Proof.
  intros Hs Hi. rewrite Z.lor_spec, testbit_trunc, Z.shiftl_spec by lia.
  destruct (Z.ltb_spec i 32); [|lia]. destruct (Z.ltb_spec i 16).
  - by rewrite (Z.testbit_neg_r d) by lia.
  - rewrite (testbit_range 16 s) by (done || lia). by rewrite orb_false_r.
Qed.

(** every bit of a 32-bit value, one by one *)
Lemma below_32 (P : Z -> Prop) : Forall P (seqZ 0 32) -> forall i, 0 <= i < 32 -> P i.
Proof. rewrite List.Forall_forall. intros H i Hi. apply H, list_elem_of_In, elem_of_seqZ. lia. Qed.

(** evaluates the bits of constants *)
Ltac const_bits :=
  repeat match goal with
  | |- context [Z.testbit (Zpos ?p) ?e] => let b := eval vm_compute in (Z.testbit (Zpos p) e) in
      change (Z.testbit (Zpos p) e) with b
  | |- context [?a <? ?b] => let c := eval vm_compute in (a <? b) in change (a <? b) with c
  end; rewrite ?andb_false_r, ?andb_true_r, ?orb_false_r, ?orb_false_l, ?andb_true_l, ?andb_false_l.

Lemma swaps_bit m i : 0 <= i < 32 ->
  Z.testbit (swap_step 0x00FF00FF 0xFF00FF00 8 (swap_step 0x0F0F0F0F 0xF0F0F0F0 4
    (swap_step 0x33333333 0xCCCCCCCC 2 (swap_step 0x55555555 0xAAAAAAAA 1 m)))) i =
  Z.testbit m (if i <? 16 then 15 - i else 47 - i).
Proof.
  revert i. apply below_32.
  repeat (apply List.Forall_cons || apply List.Forall_nil);
    repeat (rewrite swap_step_bit by lia; const_bits); reflexivity.
Qed.

Lemma fdirtcpm_bit m i : 0 <= i < 16 ->
  Z.testbit (ixgbe_get_fdirtcpm_82599 m) i = Z.testbit (IXGBE_NTOHS (src_port m)) (15 - i) /\
  Z.testbit (ixgbe_get_fdirtcpm_82599 m) (16 + i) = Z.testbit (IXGBE_NTOHS (dst_port m)) (15 - i).
Proof.
  intros Hi. unfold ixgbe_get_fdirtcpm_82599. cbv zeta. rewrite !swaps_bit by lia.
  change IXGBE_FDIRTCPM_DPORTM_SHIFT with 16.
  destruct (Z.ltb_spec i 16); [|lia]. destruct (Z.ltb_spec (16 + i) 16); [lia|].
  rewrite !ports_bit by (apply ntohs_range || lia).
  destruct (Z.ltb_spec (15 - i) 16); [|lia]. destruct (Z.ltb_spec (47 - (16 + i)) 16); [lia|].
  split; [done|]. f_equal. lia.
Qed.

(** the two conversions of [IXGBE_WRITE_REG_BE32] cancel *)
Lemma ntohl_bit x i : 0 <= i < 32 -> Z.testbit (IXGBE_NTOHL x) i = Z.testbit x (8 * (3 - i / 8) + i mod 8).
Proof.
  revert i. apply below_32. unfold IXGBE_NTOHL.
  repeat (apply List.Forall_cons || apply List.Forall_nil); autorewrite with zbits; const_bits;
    rewrite ?Z.shiftr_spec by lia; rewrite ?(Z.testbit_neg_r x) by lia; rewrite ?orb_false_r; reflexivity.
Qed.
Lemma store_as_be32_bit x i : 0 <= i < 32 ->
  Z.testbit (IXGBE_STORE_AS_BE32 x) i = Z.testbit x (8 * (3 - i / 8) + i mod 8).
Proof.
  revert i. apply below_32. unfold IXGBE_STORE_AS_BE32.
  repeat (apply List.Forall_cons || apply List.Forall_nil); autorewrite with zbits; const_bits;
    rewrite ?(Z.testbit_neg_r x) by lia; reflexivity.
Qed.
Lemma store_as_be32_range x : in_range 32 (IXGBE_STORE_AS_BE32 x).
Proof.
  assert (H : forall y n, in_range 32 (u32 y) -> 0 <= n -> in_range 32 (Z.shiftr (u32 y) n)).
  { intros y n Hy Hn. apply range_of_testbit; [lia|apply Z.shiftr_nonneg; unfold in_range in Hy; lia|].
    intros i Hi. rewrite Z.shiftr_spec, (testbit_range 32) by (done || lia). done. }
  unfold IXGBE_STORE_AS_BE32. repeat apply lor_range; try lia; try (by apply trunc_range).
  - apply H; [by apply trunc_range|lia].
  - replace (Z.land (u32 x) 0x00FF0000) with (u32 (Z.land (u32 x) 0x00FF0000)).
    + apply H; [by apply trunc_range|lia].
    + apply trunc_small, land_range; [lia|by apply trunc_range|lia].
Qed.

Lemma write_be32_value x : in_range 32 x -> u32 (IXGBE_STORE_AS_BE32 (IXGBE_NTOHL x)) = x.
Proof.
  intros Hx. rewrite trunc_small by apply store_as_be32_range.
  apply Z.bits_inj'. intros i Hi. destruct (Z.ltb_spec i 32).
  - rewrite store_as_be32_bit, ntohl_bit by zlia. f_equal. zlia.
  - by rewrite !(testbit_range 32) by (done || apply store_as_be32_range).
Qed.
End Ports.

(** ** Input masks *)

(** the bits [n] of [x] are all clear or all set *)
Definition all_or_none (n x : Z) : bool := (Z.land x n =? 0) || (Z.land x n =? n).

(** The masks the hardware can apply: pool, layer 4 type, flexible bytes and the
    two parts of the VLAN tag as a whole, ports only with the layer 4 type; in
    cloud mode also the inner MAC address, the tunnel type and 24 or 32 bits of
    the network identifier. *)
Definition mask_ok (m : atr_input) (cloud_mode : bool) : bool :=
  all_or_none 0x7F (vm_pool m) && all_or_none 0x3 (flow_type m) &&
  (negb (Z.land (flow_type m) 0x3 =? 0) || (dst_port m =? 0) && (src_port m =? 0)) &&
  all_or_none 0x0FFF (IXGBE_NTOHS (vlan_id m)) && all_or_none 0xE000 (IXGBE_NTOHS (vlan_id m)) &&
  all_or_none 0xFFFF (flex_bytes m) &&
  (negb cloud_mode ||
   all_or_none 0xFF (inner_mac m 0) && all_or_none 0xFFFF (tunnel_type m) &&
   ((tni_vni m =? 0) || (tni_vni m =? 0x00FFFFFF) || (tni_vni m =? 0xFFFFFFFF))).

(** what FDIRM says: a bit per field that is not compared *)
Definition fdirm_value (m : atr_input) : Z :=
  Z.b2z (Z.land (IXGBE_NTOHS (vlan_id m)) 0x0FFF =? 0) +
  2 * Z.b2z (Z.land (IXGBE_NTOHS (vlan_id m)) 0xE000 =? 0) +
  4 * Z.b2z (Z.land (vm_pool m) 0x7F =? 0) +
  8 * Z.b2z (Z.land (flow_type m) 0x3 =? 0) +
  16 * Z.b2z (Z.land (flex_bytes m) 0xFFFF =? 0) + 32.

(** what FDIRIP6M says in cloud mode *)
Definition fdirip6m_value (m : atr_input) : Z :=
  0xFFFF0000 + 0x040F + 0x03F0 * Z.b2z (Z.land (inner_mac m 0) 0xFF =? 0) +
  0x0800 * Z.b2z (Z.land (tunnel_type m) 0xFFFF =? 0) +
  (if tni_vni m =? 0 then 0xF000 else if tni_vni m =? 0x00FFFFFF then 0x1000 else 0).

Section Masks.
Lemma vlan_eqb x c : Z.land c 0xEFFF = c ->
  (Z.land x 0xEFFF =? c) = (Z.land x 0x0FFF =? Z.land c 0x0FFF) && (Z.land x 0xE000 =? Z.land c 0xE000).
Proof.
  intros Hc. apply eq_true_iff_eq. rewrite andb_true_iff, !Z.eqb_eq. split.
  - intros <-. rewrite <- !Z.land_assoc. done.
  - intros [Hi Hp]. rewrite <- Hc. change 0xEFFF with (Z.lor 0x0FFF 0xE000).
    rewrite !Z.land_lor_distr_r. congruence.
Qed.

Lemma fdirm_of_spec m : fdirm_of m =
  if mask_ok m false then Some (fdirm_value m) else None.
Proof.
  unfold fdirm_of, fdirm_pool, fdirm_l4, fdirm_vlan, fdirm_flex, mask_ok, fdirm_value, all_or_none.
  rewrite !vlan_eqb by done. change IXGBE_ATR_L4TYPE_MASK with 3.
  change (Z.land 0 0x0FFF) with 0. change (Z.land 0 0xE000) with 0.
  change (Z.land 0x0FFF 0x0FFF) with 0x0FFF. change (Z.land 0x0FFF 0xE000) with 0.
  change (Z.land 0xE000 0x0FFF) with 0. change (Z.land 0xE000 0xE000) with 0xE000.
  change (Z.land 0xEFFF 0x0FFF) with 0x0FFF. change (Z.land 0xEFFF 0xE000) with 0xE000.
  generalize (Z.land (IXGBE_NTOHS (vlan_id m)) 0x0FFF), (Z.land (IXGBE_NTOHS (vlan_id m)) 0xE000),
    (Z.land (vm_pool m) 0x7F), (Z.land (flow_type m) 0x3), (Z.land (flex_bytes m) 0xFFFF).
  intros i p v t f.
  destruct (Z.eqb_spec v 0), (Z.eqb_spec v 0x7F); try lia; [| |done]; cbn [mbind option_bind orb andb].
  all: destruct (Z.eqb_spec t 0), (Z.eqb_spec t 3); try lia; [| |done];
    cbn [mbind option_bind orb andb negb].
  all: destruct (dst_port m =? 0), (src_port m =? 0); cbn [mbind option_bind orb andb negb]; try done.
  all: destruct (Z.eqb_spec i 0), (Z.eqb_spec i 0x0FFF); try lia; try done; cbn [mbind option_bind orb andb negb].
  all: destruct (Z.eqb_spec p 0), (Z.eqb_spec p 0xE000); try lia; try done; cbn [mbind option_bind orb andb negb].
  all: destruct (Z.eqb_spec f 0), (Z.eqb_spec f 0xFFFF); try lia; try done.
Qed.

Lemma dword_range m i : words 14 m -> in_range 32 (dword_stream m i).
Proof.
  intros [_ Hf]. unfold dword_stream. rewrite nth_lookup.
  destruct (m !! Z.to_nat i) eqn:E; [|done]. cbn. by eapply Forall_lookup_1.
Qed.

Lemma fdirip6m_of_spec m : words 14 m -> fdirip6m_of m =
  if all_or_none 0xFF (inner_mac m 0) && all_or_none 0xFFFF (tunnel_type m) &&
     ((tni_vni m =? 0) || (tni_vni m =? 0x00FFFFFF) || (tni_vni m =? 0xFFFFFFFF))
  then Some (fdirip6m_value m) else None.
Proof.
  intros Hm. unfold fdirip6m_of, fdirip6m_mac, fdirip6m_vni, fdirip6m_tunnel, fdirip6m_value, all_or_none.
  assert (Hv : Z.land (tni_vni m) 0xFFFFFFFF = tni_vni m).
  { change 0xFFFFFFFF with (Z.ones 32). rewrite Z.land_ones by lia.
    apply (trunc_small 32). by apply dword_range. }
  rewrite !Hv. clear Hv.
  generalize (Z.land (inner_mac m 0) 0xFF), (Z.land (tunnel_type m) 0xFFFF), (tni_vni m).
  intros a t v.
  destruct (Z.eqb_spec a 0), (Z.eqb_spec a 0xFF); try lia; cbn [mbind option_bind orb andb]; [| |].
  all: destruct (Z.eqb_spec v 0), (Z.eqb_spec v 0x00FFFFFF), (Z.eqb_spec v 0xFFFFFFFF); try lia;
    cbn [mbind option_bind orb andb negb]; rewrite ?andb_false_r; try done.
  all: destruct (Z.eqb_spec t 0), (Z.eqb_spec t 0xFFFF); try lia; done.
Qed.
End Masks.

Lemma fdirm_l3p m : u32 (Z.lor (fdirm_value m) IXGBE_FDIRM_L3P) = fdirm_value m + 64.
Proof. unfold fdirm_value. repeat destruct (_ =? 0); reflexivity. Qed.

Lemma mask_ok_cloud m cloud_mode : mask_ok m cloud_mode =
  mask_ok m false &&
  (negb cloud_mode ||
   all_or_none 0xFF (inner_mac m 0) && all_or_none 0xFFFF (tunnel_type m) &&
   ((tni_vni m =? 0) || (tni_vni m =? 0x00FFFFFF) || (tni_vni m =? 0xFFFFFFFF))).
Proof. unfold mask_ok. cbn [negb orb]. by rewrite andb_true_r. Qed.

Section Hw.
Context `{D : Mmio}.
Definition mac_of (h : ixgbe_hw) : ixgbe_mac_type := mac_type (mac h).
Lemma mac_of_remove h : mac_of (ixgbe_remove_adapter h) = mac_of h.
Proof.
  unfold mac_of, ixgbe_remove_adapter. destruct (negb (hw_addr h)); [done|].
  by destruct (__IXGBE_SERVICE_INITED _).
Qed.

Lemma write_sctpm_tr t v : traces mac_of t (write_sctpm v) (fun _ acc =>
  wrs acc = if is_x550_or_e610 t then [(IXGBE_FDIRSCTPM, u32 v)] else []).
Proof.
  unfold write_sctpm. apply tr_bind_get_hw. intros h Hh. fold (mac_of h). rewrite Hh.
  destruct (is_x550_or_e610 t); [by apply tr_WRITE_REG|by apply tr_ret].
Qed.

(** [ixgbe_fdir_set_input_mask_82599] succeeds exactly for the masks the
    hardware can apply; otherwise it returns IXGBE_ERR_CONFIG and touches no
    register.  On success FDIRM has a bit for each field left out, and outside
    cloud mode the port masks are the complements of the bit-reversed ports, the
    same for TCP, UDP and (on X550 and later) SCTP, and the address masks the
    complements of the IPv4 masks. *)
Theorem fdir_input_mask_spec m cloud_mode t : words 14 m ->
  traces mac_of t (ixgbe_fdir_set_input_mask_82599 m cloud_mode) (fun r acc =>
    let ports := bnot 32 (ixgbe_get_fdirtcpm_82599 m) in
    if negb (mask_ok m cloud_mode) then r = IXGBE_ERR_CONFIG /\ acc = []
    else r = IXGBE_SUCCESS /\
      if cloud_mode then wrs acc =
        [(IXGBE_FDIRIP6M, fdirip6m_value m); (IXGBE_FDIRTCPM, 0xFFFFFFFF); (IXGBE_FDIRUDPM, 0xFFFFFFFF);
         (IXGBE_FDIRDIP4M, 0xFFFFFFFF); (IXGBE_FDIRSIP4M, 0xFFFFFFFF)] ++
        (if is_x550_or_e610 t then [(IXGBE_FDIRSCTPM, 0xFFFFFFFF)] else []) ++
        [(IXGBE_FDIRM, fdirm_value m + 64)]
      else wrs acc =
        [(IXGBE_FDIRM, fdirm_value m); (IXGBE_FDIRTCPM, ports); (IXGBE_FDIRUDPM, ports)] ++
        (if is_x550_or_e610 t then [(IXGBE_FDIRSCTPM, ports)] else []) ++
        [(IXGBE_FDIRSIP4M, bnot 32 (src_ip m 0)); (IXGBE_FDIRDIP4M, bnot 32 (dst_ip m 0));
         (IXGBE_FDIRIP6M, 0xFFFFFFFF)] /\
        forall i, 0 <= i < 16 ->
          Z.testbit ports i = negb (Z.testbit (IXGBE_NTOHS (src_port m)) (15 - i)) /\
          Z.testbit ports (16 + i) = negb (Z.testbit (IXGBE_NTOHS (dst_port m)) (15 - i))).
Proof.
  intros Hm. unfold ixgbe_fdir_set_input_mask_82599. rewrite fdirm_of_spec.
  rewrite (mask_ok_cloud m cloud_mode). destruct (mask_ok m false) eqn:Hok; cbn [andb negb];
    [|by apply tr_ret].
  assert (Hv : 0 <= fdirm_value m < 64) by (unfold fdirm_value; repeat destruct (_ =? 0); simpl; lia).
  destruct cloud_mode; cbn [negb orb].
  - rewrite fdirip6m_of_spec by done. destruct (all_or_none 0xFF _ && _ && _); cbn [negb]; [|by apply tr_ret].
    unfold IXGBE_WRITE_REG_BE32. repeat apply tr_bind_write.
    eapply tr_bind; [apply write_sctpm_tr|]. intros [] l Hl. apply tr_bind_write, tr_ret. split; [done|].
    cbn [wrs app]. rewrite wrs_app, Hl. cbn [wrs].
    rewrite !write_be32_value by (done || (unfold fdirip6m_value; split; repeat destruct (_ =? _); simpl; lia)).
    rewrite fdirm_l3p. change (u32 0xFFFFFFFF) with 0xFFFFFFFF. done.
  - unfold IXGBE_WRITE_REG_BE32. repeat apply tr_bind_write.
    eapply tr_bind; [apply write_sctpm_tr|]. intros [] l Hl. repeat apply tr_bind_write. apply tr_ret.
    split; [done|]. split.
    + cbn [wrs app]. rewrite wrs_app, Hl. cbn [wrs].
      rewrite !write_be32_value by (done || by apply trunc_range).
      rewrite (trunc_small 32 (bnot 32 _)) by (by apply trunc_range).
      rewrite (trunc_small 32 (fdirm_value m)) by (split; [lia|change (2 ^ 32) with 4294967296; lia]). done.
    + intros i Hi. destruct (fdirtcpm_bit m i Hi) as [E1 E2]. rewrite !testbit_bnot, E1, E2 by lia.
      destruct (Z.ltb_spec i 32), (Z.ltb_spec (16 + i) 32); try lia. done.
Qed.

(** ** Filter commands *)

(** polls of FDIRCMD: at most nine that find a command running and one that does
    not, or ten that do *)
Definition busy_poll (v : Z) : list access := [Rd IXGBE_FDIRCMD v; Dly 10].
Definition polled (ret v : Z) (acc : list access) : Prop :=
  exists vs, Forall (fun v => has v IXGBE_FDIRCMD_CMD_MASK = true) vs /\
    (ret = IXGBE_SUCCESS /\ (length vs < 10)%nat /\ has v IXGBE_FDIRCMD_CMD_MASK = false /\
     acc = concat (map busy_poll vs) ++ [Rd IXGBE_FDIRCMD v] \/
     ret = IXGBE_ERR_FDIR_CMD_INCOMPLETE /\ length vs = 10%nat /\ acc = concat (map busy_poll vs)).

Lemma check_cmd_tr t : traces mac_of t ixgbe_fdir_check_cmd_complete (fun r acc => polled (fst r) (snd r) acc).
Proof.
  unfold ixgbe_fdir_check_cmd_complete. change (Z.to_nat IXGBE_FDIRCMD_CMD_POLL) with 10%nat.
  eapply tr_bind.
  - apply tr_for_break with
      (I := fun k _ l => exists vs, Forall (fun v => has v IXGBE_FDIRCMD_CMD_MASK = true) vs /\
              Z.of_nat (length vs) = k /\ l = concat (map busy_poll vs))
      (T := fun r l => polled (match r with inr _ => IXGBE_SUCCESS | inl _ => IXGBE_ERR_FDIR_CMD_INCOMPLETE end)
              (match r with inr v => v | inl v => v end) l).
    + exists []. done.
    + intros k v0 l Hk (vs & Hf & Hl & ->). change (0 + Z.of_nat 10) with 10 in Hk.
      apply tr_bind_read; [exact mac_of_remove|intros v Hv]. apply tr_if; intros Hb.
      * apply tr_ret. exists vs. split; [done|]. left. apply negb_true_iff in Hb.
        split; [done|]. split; [lia|]. done.
      * apply tr_bind_delay, tr_ret. apply negb_false_iff in Hb. exists (vs ++ [v]).
        split; [by apply Forall_app_2; [|apply Forall_singleton]|].
        rewrite length_app, map_app, concat_app. simpl. split; [lia|done].
    + intros v l (vs & Hf & Hl & ->). exists vs. split; [done|]. right. split; [done|]. split; [lia|done].
  - intros [v|v] l H; apply tr_ret; by rewrite app_nil_r.
Qed.

(** the command written for a perfect filter *)
Definition add_command (input : atr_input) (queue : Z) : Z :=
  let c := Z.lor (Z.lor (Z.lor IXGBE_FDIRCMD_CMD_ADD_FLOW IXGBE_FDIRCMD_FILTER_UPDATE)
             IXGBE_FDIRCMD_LAST) IXGBE_FDIRCMD_QUEUE_EN in
  let c := if queue =? IXGBE_FDIR_DROP_QUEUE then Z.lor c IXGBE_FDIRCMD_DROP else c in
  let c := if has (flow_type input) IXGBE_ATR_L4TYPE_TUNNEL_MASK
           then Z.lor c IXGBE_FDIRCMD_TUNNEL_FILTER else c in
  let c := Z.lor c (u32 (Z.shiftl (flow_type input) IXGBE_FDIRCMD_FLOW_TYPE_SHIFT)) in
  let c := Z.lor c (u32 (Z.shiftl queue IXGBE_FDIRCMD_RX_QUEUE_SHIFT)) in
  Z.lor c (u32 (Z.shiftl (vm_pool input) IXGBE_FDIRCMD_VT_POOL_SHIFT)).

(** a command: the hash, flushed by a read of STATUS, then FDIRCMD *)
Definition command (hash cmd s : Z) : list access :=
  [Wr IXGBE_FDIRHASH (u32 hash); Rd IXGBE_STATUS s; Wr IXGBE_FDIRCMD (u32 cmd)].
Definition field_write (a : access) : Prop :=
  match a with Wr r _ => r <> IXGBE_FDIRHASH /\ r <> IXGBE_FDIRCMD | _ => False end.

Lemma write_filter_tr t input soft_id queue cloud_mode :
  traces mac_of t (ixgbe_fdir_write_perfect_filter_82599 input soft_id queue cloud_mode) (fun ret acc =>
    exists fields s v polls,
      acc = fields ++ command (fdirhash_of input soft_id) (add_command input queue) s ++ polls /\
      Forall field_write fields /\ polled ret v polls).
Proof.
  unfold ixgbe_fdir_write_perfect_filter_82599, IXGBE_WRITE_REG_BE32, IXGBE_WRITE_FLUSH.
  eapply tr_bind with (T1 := fun _ l => Forall field_write l).
  { destruct (negb cloud_mode); [|by apply tr_ret]. repeat apply tr_bind_write. apply tr_WRITE_REG.
    repeat constructor; done. }
  intros [] l1 H1. apply tr_bind_write.
  eapply tr_bind with (T1 := fun _ l => Forall field_write l).
  { destruct cloud_mode; [|by apply tr_ret]. cbv zeta. repeat apply tr_bind_write. apply tr_WRITE_REG.
    repeat constructor; done. }
  intros [] l2 H2. apply tr_bind_write, tr_bind_assoc. apply tr_bind_read; [exact mac_of_remove|intros s Hs].
  apply tr_bind_ret. cbv zeta. apply tr_bind_write. eapply tr_bind; [apply check_cmd_tr|].
  intros [ret v] l3 H3. cbn [fst snd] in *.
  assert (E : (if negb (ret =? 0) then mret ret else mret IXGBE_SUCCESS) = (mret ret : M Z))
    by (destruct (Z.eqb_spec ret 0); by subst).
  rewrite E. apply tr_ret. eexists (l1 ++ _ :: l2), s, v, l3. rewrite app_nil_r, <- app_assoc.
  split; [done|]. split; [|done]. apply Forall_app. split; [done|]. by apply List.Forall_cons.
Qed.

Lemma erase_filter_tr t input soft_id :
  traces mac_of t (ixgbe_fdir_erase_perfect_filter_82599 input soft_id) (fun ret acc =>
    exists s v polls tail,
      acc = command (fdirhash_of input soft_id) IXGBE_FDIRCMD_CMD_QUERY_REM_FILT s ++ polls ++ tail /\
      polled ret v polls /\
      if (ret =? IXGBE_SUCCESS) && has v IXGBE_FDIRCMD_FILTER_VALID
      then exists s', tail = command (fdirhash_of input soft_id) IXGBE_FDIRCMD_CMD_REMOVE_FLOW s'
      else tail = []).
Proof.
  unfold ixgbe_fdir_erase_perfect_filter_82599, IXGBE_WRITE_FLUSH. cbv zeta.
  apply tr_bind_write, tr_bind_assoc. apply tr_bind_read; [exact mac_of_remove|intros s Hs].
  apply tr_bind_ret, tr_bind_write. eapply tr_bind; [apply check_cmd_tr|].
  intros [ret v] l3 H3. cbn [fst snd] in *. apply tr_if; intros Hb.
  - apply tr_ret. exists s, v, l3, []. rewrite app_nil_r. split; [done|]. split; [done|].
    apply negb_true_iff in Hb. change IXGBE_SUCCESS with 0. by rewrite Hb.
  - apply negb_false_iff, Z.eqb_eq in Hb. subst ret.
    destruct (has v IXGBE_FDIRCMD_FILTER_VALID) eqn:Hval.
    + apply tr_bind_assoc, tr_bind_write, tr_bind_assoc, tr_bind_assoc.
      apply tr_bind_read; [exact mac_of_remove|intros s' Hs']. apply tr_bind_ret, tr_bind_write, tr_ret.
      exists s, v, l3. eexists. split; [done|]. split; [done|]. rewrite Hval. by exists s'.
    + apply tr_bind_ret, tr_ret. exists s, v, l3, []. rewrite app_nil_r, Hval. done.
Qed.

(** On any device, adding a perfect filter writes every field of it, then the
    hash, flushed by a read, and the command last; erasing one queries it first
    and orders its removal exactly when the query completed and found it valid,
    with the hash written again.  Each command is polled at most ten times;
    success means that the last poll saw it done, and the error that ten polls saw
    it running. *)
Theorem fdir_command_order t input soft_id queue cloud_mode :
  traces mac_of t (ixgbe_fdir_write_perfect_filter_82599 input soft_id queue cloud_mode) (fun ret acc =>
    exists fields s v polls,
      acc = fields ++ command (fdirhash_of input soft_id) (add_command input queue) s ++ polls /\
      Forall field_write fields /\ polled ret v polls) /\
  traces mac_of t (ixgbe_fdir_erase_perfect_filter_82599 input soft_id) (fun ret acc =>
    exists s v polls tail,
      acc = command (fdirhash_of input soft_id) IXGBE_FDIRCMD_CMD_QUERY_REM_FILT s ++ polls ++ tail /\
      polled ret v polls /\
      if (ret =? IXGBE_SUCCESS) && has v IXGBE_FDIRCMD_FILTER_VALID
      then exists s', tail = command (fdirhash_of input soft_id) IXGBE_FDIRCMD_CMD_REMOVE_FLOW s'
      else tail = []).
Proof. split; [apply write_filter_tr|apply erase_filter_tr]. Qed.
End Hw.

(** ** Commands complete

    A device with a rank: reads do not raise it, a delay of [us] microseconds
    lowers it, and at rank zero register [r] reads with [mask] clear.  STATUS is
    never all ones. *)
Class Settles (D : Mmio) (r mask us : Z) := {
  rank : dev -> nat;
  rank_read d r' : (rank (dev_read d r').2 <= rank d)%nat;
  rank_delay d us' : us <= us' -> (rank (dev_delay d us') <= pred (rank d))%nat;
  rank_done d : rank d = 0%nat -> has (u32 (dev_read d r).1) mask = false;
  status_reads d : u32 (dev_read d IXGBE_STATUS).1 <> IXGBE_FAILED_READ_REG;
}.

Section Live.
Context `{D : Mmio} {r mask us : Z} {ST : Settles D r mask us}.
Context (Hfail : has IXGBE_FAILED_READ_REG mask = true) (Hdead : has IXGBE_DEAD_READ_REG mask = true).

(** mapped, and without the SGMII wait *)
Definition mapped (h : ixgbe_hw) : Prop :=
  hw_addr h = true /\ has (nw_mng_if_sel (phy h)) IXGBE_NW_MNG_IF_SEL_SGMII_ENABLE = false.
Definition settling (n : nat) (h : ixgbe_hw) (w : world) : Prop :=
  w_hw w = h /\ (rank (w_dev w) <= n)%nat.

Lemma readl_settles n h r' w : settling n h w ->
  wp (readl r') (fun v w' => settling n h w' /\ v = u32 (dev_read (w_dev w) r').1) w.
Proof.
  intros [Hh Hr]. apply wp_readl. intros v d E. pose proof (rank_read (w_dev w) r') as Hd.
  rewrite E in *. split; [|done]. split; [done|]. simpl in *. lia.
Qed.

Lemma check_remove_settles n h r' w : mapped h -> settling n h w ->
  wp (ixgbe_check_remove r') (fun _ w' => settling n h w') w.
Proof.
  intros [Ha _] Hs. unfold ixgbe_check_remove. wp_step. apply wp_get_hw. rewrite (proj1 Hs), Ha.
  cbn [IXGBE_REMOVED negb]. change (Z.to_nat IXGBE_FAILED_READ_RETRIES) with 5%nat.
  rewrite for_break_S. do 3 wp_step. eapply wp_mono; [by apply readl_settles|]. intros v w1 [Hs1 ->].
  rewrite (proj2 (Z.eqb_neq _ _) (status_reads (w_dev w))). cbn [negb]. do 2 wp_step.
  rewrite (proj2 (Z.eqb_neq _ _) (status_reads (w_dev w))).
  eapply wp_mono; [by apply readl_settles|]. by intros v w2 [? _].
Qed.

Lemma validate_settles n h r' w : mapped h -> settling n h w ->
  wp (ixgbe_validate_register_read r') (fun _ w' => settling n h w') w.
Proof.
  intros [Ha _] Hs. unfold ixgbe_validate_register_read. wp_step. apply wp_get_hw. rewrite (proj1 Hs), Ha.
  cbn [IXGBE_REMOVED negb]. wp_step. eapply wp_mono.
  - apply wp_for_break with (Inv := fun _ _ w' => settling n h w') (Q := fun _ w' => settling n h w'); [done| |done].
    intros k b w1 _ Hs1. wp_step. eapply wp_mono; [by apply readl_settles|]. intros v w2 [Hs2 _]. by wp_steps.
  - intros x w1 Hs1. by apply wp_ret.
Qed.

Lemma read_reg_settles n h r' w : mapped h -> settling n h w ->
  wp (IXGBE_READ_REG r') (fun v w' => settling n h w' /\ (r' = r -> n = 0%nat -> has v mask = false)) w.
Proof using Hfail Hdead.
  intros Hm Hs. pose proof Hm as [Ha Hg]. unfold IXGBE_READ_REG, ixgbe_read_reg.
  wp_step. apply wp_get_hw. rewrite (proj1 Hs), Ha, Hg. cbn [IXGBE_REMOVED negb].
  unfold ixgbe_read_reg_writes_completed. wp_step. eapply wp_mono; [by apply readl_settles|].
  intros v w1 [Hs1 Hv].
  assert (Hclear : r' = r -> n = 0%nat -> has v mask = false).
  { intros -> ->. rewrite Hv. apply rank_done. destruct Hs. lia. }
  destruct (Z.eqb_spec v IXGBE_FAILED_READ_REG) as [->|Hf].
  - assert (Hno : ~ (r' = r /\ n = 0%nat)).
    { intros [E1 E2]. rewrite Hclear in Hfail by done. done. }
    wp_step. eapply wp_mono; [by apply check_remove_settles|]. intros v2 w2 Hs2. cbv beta in Hs2 |- *. wp_step.
    + eapply wp_mono; [by apply validate_settles|]. intros v3 w3 Hs3. cbv beta in Hs3. split; [done|]. intros. by destruct Hno.
    + apply wp_ret. split; [done|]. intros. by destruct Hno.
  - do 2 wp_step. destruct (Z.eqb_spec v IXGBE_DEAD_READ_REG) as [->|Hd].
    + eapply wp_mono; [by apply validate_settles|]. intros v3 w3 Hs3. cbv beta in Hs3. split; [done|]. intros E1 E2.
      rewrite Hclear in Hdead by done. done.
    + apply wp_ret. done.
Qed.

(** a poll loop of [r] with at least [rank] + 1 rounds sees [mask] clear *)
Lemma poll_settles {A} n m i (a : A) h (f : Z -> A) w : mapped h -> settling n h w -> (n < m)%nat ->
  wp (for_break m i a (fun _ _ =>
        v ← IXGBE_READ_REG r;
        if negb (has v mask) then mret (inr v) else usec_delay us ;; mret (inl (f v))))
    (fun x w' => w_hw w' = h /\ exists v, x = inr v /\ has v mask = false) w.
Proof using Hfail Hdead.
  intros Hm. revert n i a w. induction m as [|m IH]; intros n i a w Hs Hn; [lia|].
  rewrite for_break_S. do 2 wp_step. eapply wp_mono; [by apply read_reg_settles|].
  intros v w1 [Hs1 Hv]. destruct (has v mask) eqn:E; cbn [negb]; wp_steps.
  - destruct n as [|n]; [by specialize (Hv eq_refl eq_refl)|]. apply wp_udelay. wp_steps. apply (IH n); [|lia].
    destruct Hs1 as [H1 H2]. split; [done|]. simpl. pose proof (rank_delay (w_dev w1) us (Z.le_refl us)). lia.
  - destruct Hs1. eauto.
Qed.
End Live.

(** ** Adding and erasing a filter completes *)
Section FdirLive.
Context `{D : Mmio} {ST : Settles D IXGBE_FDIRCMD IXGBE_FDIRCMD_CMD_MASK 10}.
Context (Hwrite : forall d r v, (rank (dev_write d r v) <= 9)%nat).

Lemma cmd_failed_read : has IXGBE_FAILED_READ_REG IXGBE_FDIRCMD_CMD_MASK = true.
Proof. reflexivity. Qed.
Lemma cmd_dead_read : has IXGBE_DEAD_READ_REG IXGBE_FDIRCMD_CMD_MASK = true.
Proof. reflexivity. Qed.

Lemma check_cmd_live h w : mapped h -> settling 9 h w ->
  wp ixgbe_fdir_check_cmd_complete (fun x w' => w_hw w' = h /\ fst x = IXGBE_SUCCESS) w.
Proof.
  intros Hm Hs. unfold ixgbe_fdir_check_cmd_complete.
  change (Z.to_nat IXGBE_FDIRCMD_CMD_POLL) with 10%nat. wp_step. eapply wp_mono.
  - apply (poll_settles cmd_failed_read cmd_dead_read 9 10 0 0 h (fun v => v)); [done|done|lia].
  - intros x w1 (Hh & v & -> & _). by apply wp_ret.
Qed.

Lemma write_settles h r v w : mapped h -> w_hw w = h -> wp (IXGBE_WRITE_REG r v) (fun _ w' => settling 9 h w') w.
Proof using Hwrite.
  intros [Ha _] Hh. unfold IXGBE_WRITE_REG. wp_step. apply wp_get_hw. rewrite Hh, Ha. cbn [IXGBE_REMOVED negb].
  apply wp_writel. split; [done|]. apply Hwrite.
Qed.

Lemma flush_keeps h w n : mapped h -> settling n h w -> wp IXGBE_WRITE_FLUSH (fun _ w' => w_hw w' = h) w.
Proof.
  intros Hm Hs. unfold IXGBE_WRITE_FLUSH. wp_step. eapply wp_mono; [by apply (read_reg_settles cmd_failed_read cmd_dead_read n)|].
  intros v w1 [[Hh _] _]. by apply wp_ret.
Qed.

(** runs the leading register writes *)
Ltac live_writes Hm :=
  repeat (first [progress cbv beta|apply wp_bind; eapply wp_mono; [apply (write_settles _ _ _ _ Hm); assumption
    |intros [] ? [? ?]]]).

Lemma commands_succeed input soft_id queue cloud_mode w : mapped (w_hw w) ->
  wp (ixgbe_fdir_write_perfect_filter_82599 input soft_id queue cloud_mode)
    (fun ret w' => w_hw w' = w_hw w /\ ret = IXGBE_SUCCESS) w /\
  wp (ixgbe_fdir_erase_perfect_filter_82599 input soft_id) (fun ret w' => w_hw w' = w_hw w /\ ret = IXGBE_SUCCESS) w.
Proof using Hwrite.
  intros Hm. assert (Hh : w_hw w = w_hw w) by done. revert Hm Hh. generalize (w_hw w) at 1 3 4 5. intros h Hm Hh. split.
  - unfold ixgbe_fdir_write_perfect_filter_82599, IXGBE_WRITE_REG_BE32. wp_step.
    eapply wp_mono with (P := fun _ w' => w_hw w' = h).
    { destruct cloud_mode; cbn [negb]; [by apply wp_ret|]. live_writes Hm.
      eapply wp_mono; [by apply (write_settles h)|]. by intros [] ? [? _]. }
    intros [] w1 Hh1. live_writes Hm. wp_step. eapply wp_mono with (P := fun _ w' => w_hw w' = h).
    { destruct cloud_mode; cbn [negb]; cbv zeta; [|by apply wp_ret]. live_writes Hm.
      eapply wp_mono; [by apply (write_settles h)|]. by intros [] ? [? _]. }
    intros [] w3 Hh3. live_writes Hm. wp_step.
    eapply wp_mono; [by apply (flush_keeps h _ 9)|]. intros [] w5 Hh5. cbv beta zeta. live_writes Hm.
    wp_step. eapply wp_mono; [by apply (check_cmd_live h)|]. intros [ret v] w7 [Hh7 Hret]. cbn [fst] in *.
    subst ret. by apply wp_ret.
  - unfold ixgbe_fdir_erase_perfect_filter_82599. cbv zeta. live_writes Hm. wp_step.
    eapply wp_mono; [by apply (flush_keeps h _ 9)|]. intros [] w5 Hh5. live_writes Hm.
    wp_step. eapply wp_mono; [by apply (check_cmd_live h)|]. intros [ret v] w7 [Hh7 Hret]. cbn [fst snd] in *.
    subst ret. change (negb (IXGBE_SUCCESS =? 0)) with false. cbv iota. wp_step. eapply wp_mono with (P := fun _ w' => w_hw w' = h); [|intros; by apply wp_ret].
    destruct (has v IXGBE_FDIRCMD_FILTER_VALID); [|by apply wp_ret]. live_writes Hm. wp_step.
    eapply wp_mono; [by apply (flush_keeps h _ 9)|]. intros [] w9 Hh9. cbv beta.
    eapply wp_mono; [by apply (write_settles h)|]. by intros [] ? [? _].
Qed.

End FdirLive.

(** ** Witnesses *)

(** a device that needs 90 microseconds for a command *)
#[local] Instance busy_dev : Mmio := {
  dev := nat;
  dev_read d r := (if decide (r = IXGBE_FDIRCMD) then (if decide (d = 0%nat) then 0 else 1) else 0, d);
  dev_write _ _ _ := 9%nat;
  dev_delay d _ := pred d;
}.

#[local] Instance busy_settles : Settles busy_dev IXGBE_FDIRCMD IXGBE_FDIRCMD_CMD_MASK 10.
Proof.
  refine {| rank := fun d : @dev busy_dev => d |}.
  - intros d r. apply le_n.
  - intros d us _. apply le_n.
  - intros d Hd. simpl in Hd. subst d. reflexivity.
  - intros d. vm_compute. discriminate.
Defined.


(** a mask that leaves everything out is accepted; half a pool mask is not *)
Lemma fdir_input_mask_spec_witness :
  mask_ok (replicate 14 0) false = true /\ mask_ok [1; 0; 0; 0; 0; 0; 0; 0; 0; 0; 0; 0; 0; 0] false = false /\
  traces (D := busy_dev) mac_of ixgbe_mac_82599EB
    (ixgbe_fdir_set_input_mask_82599 (replicate 14 0) false) (fun r acc => r = IXGBE_SUCCESS) /\
  traces (D := busy_dev) mac_of ixgbe_mac_82599EB
    (ixgbe_fdir_set_input_mask_82599 [1; 0; 0; 0; 0; 0; 0; 0; 0; 0; 0; 0; 0; 0] false)
    (fun r acc => r = IXGBE_ERR_CONFIG /\ acc = []).
Proof.
  split; [reflexivity|]. split; [reflexivity|]. split.
  - eapply tr_mono; [apply (fdir_input_mask_spec (replicate 14 0) false ixgbe_mac_82599EB)|].
    + apply words_dec. reflexivity.
    + intros r acc H. exact (proj1 H).
  - eapply tr_mono; [apply (fdir_input_mask_spec [1; 0; 0; 0; 0; 0; 0; 0; 0; 0; 0; 0; 0; 0] false ixgbe_mac_82599EB)|].
    + apply words_dec. reflexivity.
    + intros r acc H. exact H.
Defined.
