(* ===== verification/Queues.v ===== *)
(** * Queue layout and interrupt vectors (ixgbe_lib.c)

    How many rings the features ask for, which interrupt vector serves each ring
    and which hardware queue it drives.  The kernel configuration is the full one
    (HAVE_TX_MQ, CONFIG_FCOE, CONFIG_PCI_IOV, HAVE_XDP_SUPPORT,
    HAVE_NETDEV_SELECT_QUEUE).

    [qconf] is the part of [struct ixgbe_adapter] that the counts depend on, its
    [flags] as booleans; [adapter] adds the arrays of pointers to rings and
    vectors, [None] for NULL.  Members that this code only copies or resets (the
    counts and device of a ring, the DCB configuration and the flow control mode
    that the fallback without MSI-X puts back) are left out. *)
From S2P Require Import Prelude Regs Types.

Record ring_feature := mk_feature { limit : Z; indices : Z; mask : Z; offset : Z }.
Definition set_limit (x : Z) (f : ring_feature) := mk_feature x (indices f) (mask f) (offset f).
Definition set_indices (x : Z) (f : ring_feature) := mk_feature (limit f) x (mask f) (offset f).
Definition set_mask (x : Z) (f : ring_feature) := mk_feature (limit f) (indices f) x (offset f).
Definition set_offset (x : Z) (f : ring_feature) := mk_feature (limit f) (indices f) (mask f) x.

Definition IXGBE_MAX_FDIR_INDICES : Z := 63.
Definition IXGBE_MAX_FCOE_INDICES : Z := 8.
Definition IXGBE_MAX_VMDQ_INDICES : Z := 64.
Definition MAX_RX_QUEUES : Z := IXGBE_MAX_FDIR_INDICES + IXGBE_MAX_FCOE_INDICES.
Definition MAX_TX_QUEUES : Z := IXGBE_MAX_FDIR_INDICES + IXGBE_MAX_FCOE_INDICES.
Definition IXGBE_MAX_XDP_QS : Z := IXGBE_MAX_FDIR_INDICES + 1.
Definition MAX_MSIX_Q_VECTORS : Z := 64.
Definition NON_Q_VECTORS : Z := 1.
Definition MIN_MSIX_COUNT : Z := 1 + NON_Q_VECTORS.
Definition IXGBE_82599_VMDQ_8Q_MASK : Z := 0x78.
Definition IXGBE_82599_VMDQ_4Q_MASK : Z := 0x7C.
Definition IXGBE_82599_VMDQ_2Q_MASK : Z := 0x7E.
Definition IXGBE_RSS_64Q_MASK : Z := 0x3F.
Definition IXGBE_RSS_16Q_MASK : Z := 0xF.
Definition IXGBE_RSS_8Q_MASK : Z := 0x7.
Definition IXGBE_RSS_4Q_MASK : Z := 0x3.
Definition IXGBE_RSS_2Q_MASK : Z := 0x1.
Definition IXGBE_RSS_DISABLED_MASK : Z := 0x0.

(** [min_t(u16, x, y)] and [max_t(u16, x, y)] *)
Definition min_u16 (x y : Z) : Z := Z.min (u16 x) (u16 y).
Definition max_u16 (x y : Z) : Z := Z.max (u16 x) (u16 y).
(** [__ALIGN_MASK(x, ~m)] *)
Definition ALIGN_NOT_MASK (x m : Z) : Z := Z.land (x + Z.lnot m) m.
Definition DIV_ROUND_UP (n d : Z) : Z := (n + d - 1) / d.

(** the features and counts of the adapter *)
Record qconf := mk_qconf {
  a_mac : ixgbe_mac_type; num_tc : Z; dev_num_tx_queues : Z; vmdq_enabled : bool;
  sriov_enabled : bool; fcoe_enabled : bool; fdir_hash_capable : bool; fdir_perfect_capable : bool;
  msix_capable : bool; msix_enabled : bool; msi_capable : bool; msi_enabled : bool;
  dcb_enabled : bool; vmdq : ring_feature; rss : ring_feature; fdir : ring_feature;
  fcoe : ring_feature; num_rx_queues : Z; num_tx_queues : Z; num_xdp_queues : Z; num_rx_pools : Z;
  num_rx_queues_per_pool : Z; num_q_vectors : Z; max_q_vectors : Z; max_msix_vectors : Z;
  atr_sample_rate : Z; xdp_prog : bool; fcoe_tc : Z; tx_itr_setting : Z; rx_itr_setting : Z;
  tc_queue : list (Z * Z);
}.
Definition set_num_tc (x : Z) (q : qconf) : qconf := mk_qconf (a_mac q) x (dev_num_tx_queues q)
  (vmdq_enabled q) (sriov_enabled q) (fcoe_enabled q) (fdir_hash_capable q) (fdir_perfect_capable q)
  (msix_capable q) (msix_enabled q) (msi_capable q) (msi_enabled q) (dcb_enabled q) (vmdq q) (rss q)
  (fdir q) (fcoe q) (num_rx_queues q) (num_tx_queues q) (num_xdp_queues q) (num_rx_pools q)
  (num_rx_queues_per_pool q) (num_q_vectors q) (max_q_vectors q) (max_msix_vectors q)
  (atr_sample_rate q) (xdp_prog q) (fcoe_tc q) (tx_itr_setting q) (rx_itr_setting q) (tc_queue q).
Definition set_vmdq_enabled (x : bool) (q : qconf) : qconf := mk_qconf (a_mac q) (num_tc q)
  (dev_num_tx_queues q) x (sriov_enabled q) (fcoe_enabled q) (fdir_hash_capable q)
  (fdir_perfect_capable q) (msix_capable q) (msix_enabled q) (msi_capable q) (msi_enabled q)
  (dcb_enabled q) (vmdq q) (rss q) (fdir q) (fcoe q) (num_rx_queues q) (num_tx_queues q)
  (num_xdp_queues q) (num_rx_pools q) (num_rx_queues_per_pool q) (num_q_vectors q) (max_q_vectors q)
  (max_msix_vectors q) (atr_sample_rate q) (xdp_prog q) (fcoe_tc q) (tx_itr_setting q)
  (rx_itr_setting q) (tc_queue q).
Definition set_sriov_enabled (x : bool) (q : qconf) : qconf := mk_qconf (a_mac q) (num_tc q)
  (dev_num_tx_queues q) (vmdq_enabled q) x (fcoe_enabled q) (fdir_hash_capable q)
  (fdir_perfect_capable q) (msix_capable q) (msix_enabled q) (msi_capable q) (msi_enabled q)
  (dcb_enabled q) (vmdq q) (rss q) (fdir q) (fcoe q) (num_rx_queues q) (num_tx_queues q)
  (num_xdp_queues q) (num_rx_pools q) (num_rx_queues_per_pool q) (num_q_vectors q) (max_q_vectors q)
  (max_msix_vectors q) (atr_sample_rate q) (xdp_prog q) (fcoe_tc q) (tx_itr_setting q)
  (rx_itr_setting q) (tc_queue q).
Definition set_fcoe_enabled (x : bool) (q : qconf) : qconf := mk_qconf (a_mac q) (num_tc q)
  (dev_num_tx_queues q) (vmdq_enabled q) (sriov_enabled q) x (fdir_hash_capable q)
  (fdir_perfect_capable q) (msix_capable q) (msix_enabled q) (msi_capable q) (msi_enabled q)
  (dcb_enabled q) (vmdq q) (rss q) (fdir q) (fcoe q) (num_rx_queues q) (num_tx_queues q)
  (num_xdp_queues q) (num_rx_pools q) (num_rx_queues_per_pool q) (num_q_vectors q) (max_q_vectors q)
  (max_msix_vectors q) (atr_sample_rate q) (xdp_prog q) (fcoe_tc q) (tx_itr_setting q)
  (rx_itr_setting q) (tc_queue q).
Definition set_fdir_hash_capable (x : bool) (q : qconf) : qconf := mk_qconf (a_mac q) (num_tc q)
  (dev_num_tx_queues q) (vmdq_enabled q) (sriov_enabled q) (fcoe_enabled q) x
  (fdir_perfect_capable q) (msix_capable q) (msix_enabled q) (msi_capable q) (msi_enabled q)
  (dcb_enabled q) (vmdq q) (rss q) (fdir q) (fcoe q) (num_rx_queues q) (num_tx_queues q)
  (num_xdp_queues q) (num_rx_pools q) (num_rx_queues_per_pool q) (num_q_vectors q) (max_q_vectors q)
  (max_msix_vectors q) (atr_sample_rate q) (xdp_prog q) (fcoe_tc q) (tx_itr_setting q)
  (rx_itr_setting q) (tc_queue q).
Definition set_msix_enabled (x : bool) (q : qconf) : qconf := mk_qconf (a_mac q) (num_tc q)
  (dev_num_tx_queues q) (vmdq_enabled q) (sriov_enabled q) (fcoe_enabled q) (fdir_hash_capable q)
  (fdir_perfect_capable q) (msix_capable q) x (msi_capable q) (msi_enabled q) (dcb_enabled q)
  (vmdq q) (rss q) (fdir q) (fcoe q) (num_rx_queues q) (num_tx_queues q) (num_xdp_queues q)
  (num_rx_pools q) (num_rx_queues_per_pool q) (num_q_vectors q) (max_q_vectors q)
  (max_msix_vectors q) (atr_sample_rate q) (xdp_prog q) (fcoe_tc q) (tx_itr_setting q)
  (rx_itr_setting q) (tc_queue q).
Definition set_msi_enabled (x : bool) (q : qconf) : qconf := mk_qconf (a_mac q) (num_tc q)
  (dev_num_tx_queues q) (vmdq_enabled q) (sriov_enabled q) (fcoe_enabled q) (fdir_hash_capable q)
  (fdir_perfect_capable q) (msix_capable q) (msix_enabled q) (msi_capable q) x (dcb_enabled q)
  (vmdq q) (rss q) (fdir q) (fcoe q) (num_rx_queues q) (num_tx_queues q) (num_xdp_queues q)
  (num_rx_pools q) (num_rx_queues_per_pool q) (num_q_vectors q) (max_q_vectors q)
  (max_msix_vectors q) (atr_sample_rate q) (xdp_prog q) (fcoe_tc q) (tx_itr_setting q)
  (rx_itr_setting q) (tc_queue q).
Definition set_dcb_enabled (x : bool) (q : qconf) : qconf := mk_qconf (a_mac q) (num_tc q)
  (dev_num_tx_queues q) (vmdq_enabled q) (sriov_enabled q) (fcoe_enabled q) (fdir_hash_capable q)
  (fdir_perfect_capable q) (msix_capable q) (msix_enabled q) (msi_capable q) (msi_enabled q) x
  (vmdq q) (rss q) (fdir q) (fcoe q) (num_rx_queues q) (num_tx_queues q) (num_xdp_queues q)
  (num_rx_pools q) (num_rx_queues_per_pool q) (num_q_vectors q) (max_q_vectors q)
  (max_msix_vectors q) (atr_sample_rate q) (xdp_prog q) (fcoe_tc q) (tx_itr_setting q)
  (rx_itr_setting q) (tc_queue q).
Definition set_vmdq (x : ring_feature) (q : qconf) : qconf := mk_qconf (a_mac q) (num_tc q)
  (dev_num_tx_queues q) (vmdq_enabled q) (sriov_enabled q) (fcoe_enabled q) (fdir_hash_capable q)
  (fdir_perfect_capable q) (msix_capable q) (msix_enabled q) (msi_capable q) (msi_enabled q)
  (dcb_enabled q) x (rss q) (fdir q) (fcoe q) (num_rx_queues q) (num_tx_queues q) (num_xdp_queues q)
  (num_rx_pools q) (num_rx_queues_per_pool q) (num_q_vectors q) (max_q_vectors q)
  (max_msix_vectors q) (atr_sample_rate q) (xdp_prog q) (fcoe_tc q) (tx_itr_setting q)
  (rx_itr_setting q) (tc_queue q).
Definition set_rss (x : ring_feature) (q : qconf) : qconf := mk_qconf (a_mac q) (num_tc q)
  (dev_num_tx_queues q) (vmdq_enabled q) (sriov_enabled q) (fcoe_enabled q) (fdir_hash_capable q)
  (fdir_perfect_capable q) (msix_capable q) (msix_enabled q) (msi_capable q) (msi_enabled q)
  (dcb_enabled q) (vmdq q) x (fdir q) (fcoe q) (num_rx_queues q) (num_tx_queues q)
  (num_xdp_queues q) (num_rx_pools q) (num_rx_queues_per_pool q) (num_q_vectors q) (max_q_vectors q)
  (max_msix_vectors q) (atr_sample_rate q) (xdp_prog q) (fcoe_tc q) (tx_itr_setting q)
  (rx_itr_setting q) (tc_queue q).
Definition set_fdir (x : ring_feature) (q : qconf) : qconf := mk_qconf (a_mac q) (num_tc q)
  (dev_num_tx_queues q) (vmdq_enabled q) (sriov_enabled q) (fcoe_enabled q) (fdir_hash_capable q)
  (fdir_perfect_capable q) (msix_capable q) (msix_enabled q) (msi_capable q) (msi_enabled q)
  (dcb_enabled q) (vmdq q) (rss q) x (fcoe q) (num_rx_queues q) (num_tx_queues q) (num_xdp_queues q)
  (num_rx_pools q) (num_rx_queues_per_pool q) (num_q_vectors q) (max_q_vectors q)
  (max_msix_vectors q) (atr_sample_rate q) (xdp_prog q) (fcoe_tc q) (tx_itr_setting q)
  (rx_itr_setting q) (tc_queue q).
Definition set_fcoe (x : ring_feature) (q : qconf) : qconf := mk_qconf (a_mac q) (num_tc q)
  (dev_num_tx_queues q) (vmdq_enabled q) (sriov_enabled q) (fcoe_enabled q) (fdir_hash_capable q)
  (fdir_perfect_capable q) (msix_capable q) (msix_enabled q) (msi_capable q) (msi_enabled q)
  (dcb_enabled q) (vmdq q) (rss q) (fdir q) x (num_rx_queues q) (num_tx_queues q) (num_xdp_queues q)
  (num_rx_pools q) (num_rx_queues_per_pool q) (num_q_vectors q) (max_q_vectors q)
  (max_msix_vectors q) (atr_sample_rate q) (xdp_prog q) (fcoe_tc q) (tx_itr_setting q)
  (rx_itr_setting q) (tc_queue q).
Definition set_num_rx_queues (x : Z) (q : qconf) : qconf := mk_qconf (a_mac q) (num_tc q)
  (dev_num_tx_queues q) (vmdq_enabled q) (sriov_enabled q) (fcoe_enabled q) (fdir_hash_capable q)
  (fdir_perfect_capable q) (msix_capable q) (msix_enabled q) (msi_capable q) (msi_enabled q)
  (dcb_enabled q) (vmdq q) (rss q) (fdir q) (fcoe q) x (num_tx_queues q) (num_xdp_queues q)
  (num_rx_pools q) (num_rx_queues_per_pool q) (num_q_vectors q) (max_q_vectors q)
  (max_msix_vectors q) (atr_sample_rate q) (xdp_prog q) (fcoe_tc q) (tx_itr_setting q)
  (rx_itr_setting q) (tc_queue q).
Definition set_num_tx_queues (x : Z) (q : qconf) : qconf := mk_qconf (a_mac q) (num_tc q)
  (dev_num_tx_queues q) (vmdq_enabled q) (sriov_enabled q) (fcoe_enabled q) (fdir_hash_capable q)
  (fdir_perfect_capable q) (msix_capable q) (msix_enabled q) (msi_capable q) (msi_enabled q)
  (dcb_enabled q) (vmdq q) (rss q) (fdir q) (fcoe q) (num_rx_queues q) x (num_xdp_queues q)
  (num_rx_pools q) (num_rx_queues_per_pool q) (num_q_vectors q) (max_q_vectors q)
  (max_msix_vectors q) (atr_sample_rate q) (xdp_prog q) (fcoe_tc q) (tx_itr_setting q)
  (rx_itr_setting q) (tc_queue q).
Definition set_num_xdp_queues (x : Z) (q : qconf) : qconf := mk_qconf (a_mac q) (num_tc q)
  (dev_num_tx_queues q) (vmdq_enabled q) (sriov_enabled q) (fcoe_enabled q) (fdir_hash_capable q)
  (fdir_perfect_capable q) (msix_capable q) (msix_enabled q) (msi_capable q) (msi_enabled q)
  (dcb_enabled q) (vmdq q) (rss q) (fdir q) (fcoe q) (num_rx_queues q) (num_tx_queues q) x
  (num_rx_pools q) (num_rx_queues_per_pool q) (num_q_vectors q) (max_q_vectors q)
  (max_msix_vectors q) (atr_sample_rate q) (xdp_prog q) (fcoe_tc q) (tx_itr_setting q)
  (rx_itr_setting q) (tc_queue q).
Definition set_num_rx_pools (x : Z) (q : qconf) : qconf := mk_qconf (a_mac q) (num_tc q)
  (dev_num_tx_queues q) (vmdq_enabled q) (sriov_enabled q) (fcoe_enabled q) (fdir_hash_capable q)
  (fdir_perfect_capable q) (msix_capable q) (msix_enabled q) (msi_capable q) (msi_enabled q)
  (dcb_enabled q) (vmdq q) (rss q) (fdir q) (fcoe q) (num_rx_queues q) (num_tx_queues q)
  (num_xdp_queues q) x (num_rx_queues_per_pool q) (num_q_vectors q) (max_q_vectors q)
  (max_msix_vectors q) (atr_sample_rate q) (xdp_prog q) (fcoe_tc q) (tx_itr_setting q)
  (rx_itr_setting q) (tc_queue q).
Definition set_num_rx_queues_per_pool (x : Z) (q : qconf) : qconf := mk_qconf (a_mac q) (num_tc q)
  (dev_num_tx_queues q) (vmdq_enabled q) (sriov_enabled q) (fcoe_enabled q) (fdir_hash_capable q)
  (fdir_perfect_capable q) (msix_capable q) (msix_enabled q) (msi_capable q) (msi_enabled q)
  (dcb_enabled q) (vmdq q) (rss q) (fdir q) (fcoe q) (num_rx_queues q) (num_tx_queues q)
  (num_xdp_queues q) (num_rx_pools q) x (num_q_vectors q) (max_q_vectors q) (max_msix_vectors q)
  (atr_sample_rate q) (xdp_prog q) (fcoe_tc q) (tx_itr_setting q) (rx_itr_setting q) (tc_queue q).
Definition set_num_q_vectors (x : Z) (q : qconf) : qconf := mk_qconf (a_mac q) (num_tc q)
  (dev_num_tx_queues q) (vmdq_enabled q) (sriov_enabled q) (fcoe_enabled q) (fdir_hash_capable q)
  (fdir_perfect_capable q) (msix_capable q) (msix_enabled q) (msi_capable q) (msi_enabled q)
  (dcb_enabled q) (vmdq q) (rss q) (fdir q) (fcoe q) (num_rx_queues q) (num_tx_queues q)
  (num_xdp_queues q) (num_rx_pools q) (num_rx_queues_per_pool q) x (max_q_vectors q)
  (max_msix_vectors q) (atr_sample_rate q) (xdp_prog q) (fcoe_tc q) (tx_itr_setting q)
  (rx_itr_setting q) (tc_queue q).
Definition set_tc_queue (x : list (Z * Z)) (q : qconf) : qconf := mk_qconf (a_mac q) (num_tc q)
  (dev_num_tx_queues q) (vmdq_enabled q) (sriov_enabled q) (fcoe_enabled q) (fdir_hash_capable q)
  (fdir_perfect_capable q) (msix_capable q) (msix_enabled q) (msi_capable q) (msi_enabled q)
  (dcb_enabled q) (vmdq q) (rss q) (fdir q) (fcoe q) (num_rx_queues q) (num_tx_queues q)
  (num_xdp_queues q) (num_rx_pools q) (num_rx_queues_per_pool q) (num_q_vectors q) (max_q_vectors q)
  (max_msix_vectors q) (atr_sample_rate q) (xdp_prog q) (fcoe_tc q) (tx_itr_setting q)
  (rx_itr_setting q) x.

(** a descriptor ring *)
Record ring := mk_ring {
  queue_index : Z; reg_idx : Z; dcb_tc : Z; r_vector : Z; is_xdp : bool; is_fcoe : bool;
}.
Definition set_reg_idx (x : Z) (r : ring) := mk_ring (queue_index r) x (dcb_tc r) (r_vector r) (is_xdp r) (is_fcoe r).
Definition set_dcb_tc (x : Z) (r : ring) := mk_ring (queue_index r) (reg_idx r) x (r_vector r) (is_xdp r) (is_fcoe r).

(** an interrupt vector; the lists hold [queue_index] and whether the ring is an
    XDP ring, the last one added first *)
Record ixgbe_q_vector := mk_q_vector {
  v_idx : Z; itr : Z; v_tx : list (bool * Z); v_rx : list Z;
}.

Record adapter := mk_adapter {
  conf : qconf; rx_ring : list (option ring); tx_ring : list (option ring);
  xdp_ring : list (option ring); q_vector : list (option ixgbe_q_vector);
}.
Definition set_conf (x : qconf) (a : adapter) : adapter := mk_adapter x (rx_ring a) (tx_ring a)
  (xdp_ring a) (q_vector a).
Definition set_rx_ring (x : list (option ring)) (a : adapter) : adapter := mk_adapter (conf a) x
  (tx_ring a) (xdp_ring a) (q_vector a).
Definition set_tx_ring (x : list (option ring)) (a : adapter) : adapter := mk_adapter (conf a)
  (rx_ring a) x (xdp_ring a) (q_vector a).
Definition set_xdp_ring (x : list (option ring)) (a : adapter) : adapter := mk_adapter (conf a)
  (rx_ring a) (tx_ring a) x (q_vector a).
Definition set_q_vector (x : list (option ixgbe_q_vector)) (a : adapter) : adapter := mk_adapter
  (conf a) (rx_ring a) (tx_ring a) (xdp_ring a) x.

(** ** Queue counts

    [None] is the return value [false], which comes before any change. *)
Definition is_82599_or_later (t : ixgbe_mac_type) : bool :=
  match t with
  | ixgbe_mac_82599EB | ixgbe_mac_X540 | ixgbe_mac_X550 | ixgbe_mac_X550EM_x | ixgbe_mac_X550EM_a
  | ixgbe_mac_E610 => true
  | _ => false
  end.
Definition is_82598 (t : ixgbe_mac_type) : bool := match t with ixgbe_mac_82598EB => true | _ => false end.

(** the calls of [netdev_set_tc_queue]: count and offset of each class *)
Definition set_tc_queues (tcs count step : Z) (q : qconf) : qconf :=
  set_tc_queue (map (fun i => (count, step * i)) (seqZ 0 tcs)) q.

(** [vmdq_i], [vmdq_m], [fcoe_i] and [tcs] of [ixgbe_set_dcb_vmdq_queues] *)
Definition dcb_vmdq_pools (q : qconf) : Z * Z * Z * Z :=
  let lim := limit (vmdq q) in
  let off := offset (vmdq q) in
  let tcs := num_tc q in
  if is_82598 (a_mac q) then (min_u16 lim 4, 0x7, 0, tcs)
  else if is_82599_or_later (a_mac q) then
    let vmdq_i := u16 (lim + off) in
    let '(vmdq_i, vmdq_m) := if 4 <? tcs then (min_u16 vmdq_i 16, IXGBE_82599_VMDQ_8Q_MASK)
                             else (min_u16 vmdq_i 32, IXGBE_82599_VMDQ_4Q_MASK) in
    (u16 (vmdq_i - off), vmdq_m, u16 (128 / ALIGN_NOT_MASK 1 vmdq_m - vmdq_i), tcs)
  else (1, 0, 0, 1).

Definition ixgbe_set_dcb_vmdq_queues (q : qconf) : option qconf :=
  if num_tc q <=? 1 then None
  else if negb (vmdq_enabled q) then None
  else
    let '(vmdq_i, vmdq_m, fcoe_i, tcs) := dcb_vmdq_pools q in
    let q := set_vmdq (set_mask vmdq_m (set_indices vmdq_i (vmdq q))) q in
    let q := set_rss (set_mask IXGBE_RSS_DISABLED_MASK (set_indices 1 (rss q))) q in
    let q := set_num_rx_pools vmdq_i q in
    let q := set_num_rx_queues_per_pool tcs q in
    let q := set_num_tx_queues (vmdq_i * tcs) q in
    let q := set_num_xdp_queues 0 q in
    let q := set_num_rx_queues (vmdq_i * tcs) q in
    let q := set_fdir_hash_capable false q in
    let q :=
      if fcoe_enabled q then
        let fcoe_i := min_u16 fcoe_i (limit (fcoe q)) in
        if negb (fcoe_i =? 0) then
          let q := set_fcoe (set_offset (u16 (vmdq_i * tcs)) (set_indices fcoe_i (fcoe q))) q in
          let q := set_num_tx_queues (num_tx_queues q + fcoe_i) q in
          set_num_rx_queues (num_rx_queues q + fcoe_i) q
        else if 1 <? tcs then set_fcoe (set_offset (fcoe_tc q) (set_indices 1 (fcoe q))) q
        else set_fcoe (set_offset 0 (set_indices 0 (fcoe q))) (set_fcoe_enabled false q)
      else q in
    Some (set_tc_queues tcs 1 1 q).

Definition ixgbe_set_dcb_queues (q : qconf) : option qconf :=
  let tcs := num_tc q in
  if tcs <=? 1 then None
  else
    let rss_i := dev_num_tx_queues q / tcs in
    let '(rss_i, rss_m) := if is_82598 (a_mac q) then (min_u16 rss_i 4, IXGBE_RSS_4Q_MASK)
                           else if 4 <? tcs then (min_u16 rss_i 8, IXGBE_RSS_8Q_MASK)
                           else (min_u16 rss_i 16, IXGBE_RSS_16Q_MASK) in
    let rss_i := min_u16 rss_i (limit (rss q)) in
    let q := set_rss (set_mask rss_m (set_indices rss_i (rss q))) q in
    let q := set_fdir_hash_capable false q in
    let q := if fcoe_enabled q
             then set_fcoe (set_offset (u16 (rss_i * fcoe_tc q)) (set_indices (min_u16 rss_i (limit (fcoe q))) (fcoe q))) q
             else q in
    let q := set_tc_queues tcs rss_i rss_i q in
    let q := set_num_tx_queues (rss_i * tcs) q in
    let q := set_num_xdp_queues 0 q in
    Some (set_num_rx_queues (rss_i * tcs) q).

(** [vmdq_i], [vmdq_m], [rss_i], [rss_m] and [fcoe_i] of [ixgbe_set_vmdq_queues] *)
Definition vmdq_pools (q : qconf) : Z * Z * Z * Z * Z :=
  let lim := limit (vmdq q) in
  let off := offset (vmdq q) in
  let rss_i := limit (rss q) in
  if is_82598 (a_mac q) then
    let vmdq_i := min_u16 lim 16 in
    if (4 <? vmdq_i) || (rss_i =? 1) then (vmdq_i, 0x0F, 1, IXGBE_RSS_DISABLED_MASK, 0)
    else (vmdq_i, 0x18, min_u16 rss_i 8, IXGBE_RSS_8Q_MASK, 0)
  else if is_82599_or_later (a_mac q) then
    let vmdq_i := u16 (lim + off) in
    let vmdq_i := min_u16 IXGBE_MAX_VMDQ_INDICES vmdq_i in
    let '(vmdq_m, rss_m, rss_i) :=
      if 32 <? vmdq_i then (IXGBE_82599_VMDQ_2Q_MASK, IXGBE_RSS_2Q_MASK, min_u16 rss_i 2)
      else (IXGBE_82599_VMDQ_4Q_MASK, IXGBE_RSS_4Q_MASK,
            if 3 <? rss_i then 4 else if 1 <? rss_i then 2 else 1) in
    (u16 (vmdq_i - off), vmdq_m, rss_i, rss_m, u16 (128 - vmdq_i * ALIGN_NOT_MASK 1 vmdq_m))
  else (1, 0, 1, IXGBE_RSS_DISABLED_MASK, 0).

Definition ixgbe_set_vmdq_queues (num_online_cpus : Z) (q : qconf) : option qconf :=
  if negb (vmdq_enabled q) then None
  else
    let '(vmdq_i, vmdq_m, rss_i, rss_m, fcoe_i) := vmdq_pools q in
    let q := set_vmdq (set_mask vmdq_m (set_indices vmdq_i (vmdq q))) q in
    let q := set_rss (set_mask rss_m (set_indices rss_i (rss q))) q in
    let q := set_num_rx_pools vmdq_i q in
    let q := set_num_rx_queues_per_pool rss_i q in
    let q := set_num_rx_queues (vmdq_i * rss_i) q in
    let q := set_num_tx_queues (vmdq_i * rss_i) q in
    let q := set_num_xdp_queues 0 q in
    let q := set_fdir_hash_capable false q in
    Some (if fcoe_enabled q then
            let fcoe_i := min_u16 fcoe_i (limit (fcoe q)) in
            let '(q, fcoe_i) :=
              if (1 <? vmdq_i) && negb (fcoe_i =? 0) then
                (set_fcoe (set_offset (u16 (vmdq_i * rss_i)) (set_indices fcoe_i (fcoe q))) q, fcoe_i)
              else
                let fcoe_i := min_u16 (fcoe_i + rss_i) num_online_cpus in
                let fcoe_i := if negb (msix_enabled q) then rss_i else fcoe_i in
                let ind := min_u16 fcoe_i (limit (fcoe q)) in
                (set_fcoe (set_offset (u16 (fcoe_i - ind)) (set_indices ind (fcoe q))) q, u16 (fcoe_i - rss_i)) in
            let q := set_num_tx_queues (num_tx_queues q + fcoe_i) q in
            set_num_rx_queues (num_rx_queues q + fcoe_i) q
          else q).

Definition ixgbe_xdp_queues (nr_cpu_ids : Z) (q : qconf) : Z :=
  if xdp_prog q then Z.min IXGBE_MAX_XDP_QS nr_cpu_ids else 0.

Definition ixgbe_set_rss_queues (num_online_cpus nr_cpu_ids : Z) (q : qconf) : qconf :=
  let rss_i := limit (rss q) in
  let m := if mac_type_val (a_mac q) <? mac_type_val ixgbe_mac_X550
           then IXGBE_RSS_16Q_MASK else IXGBE_RSS_64Q_MASK in
  let q := set_rss (set_mask m (set_indices rss_i (rss q))) q in
  let q := set_fdir_hash_capable false q in
  let '(q, rss_i) :=
    if (1 <? rss_i) && negb (atr_sample_rate q =? 0) then
      let rss_i := limit (fdir q) in
      let q := set_fdir (set_indices rss_i (fdir q)) q in
      (if negb (fdir_perfect_capable q) then set_fdir_hash_capable true q else q, rss_i)
    else (q, rss_i) in
  let '(q, rss_i) :=
    if fcoe_enabled q then
      let fcoe_i := min_u16 (limit (fcoe q) + rss_i) num_online_cpus in
      let fcoe_i := min_u16 fcoe_i (dev_num_tx_queues q) in
      let fcoe_i := if negb (msix_enabled q) then rss_i else fcoe_i in
      let ind := min_u16 fcoe_i (limit (fcoe q)) in
      (set_fcoe (set_offset (u16 (fcoe_i - ind)) (set_indices ind (fcoe q))) q, max_u16 fcoe_i rss_i)
    else (q, rss_i) in
  let q := set_num_rx_queues rss_i q in
  let q := set_num_tx_queues rss_i q in
  set_num_xdp_queues (ixgbe_xdp_queues nr_cpu_ids q) q.

Definition ixgbe_set_num_queues (num_online_cpus nr_cpu_ids : Z) (q : qconf) : qconf :=
  let q := set_num_rx_queues 1 q in
  let q := set_num_tx_queues 1 q in
  let q := set_num_xdp_queues 0 q in
  let q := set_num_rx_pools (num_rx_queues q) q in
  let q := set_num_rx_queues_per_pool 1 q in
  match ixgbe_set_dcb_vmdq_queues q with
  | Some q => q
  | None =>
      match ixgbe_set_dcb_queues q with
      | Some q => q
      | None =>
          match ixgbe_set_vmdq_queues num_online_cpus q with
          | Some q => q
          | None => ixgbe_set_rss_queues num_online_cpus nr_cpu_ids q
          end
      end
  end.

(** ** Hardware queue of each ring *)
Abbreviation A := (comp adapter).

(** [*l[i]]: a NULL pointer is a fault *)
Definition deref {X} (l : list (option X)) (i : Z) : A X :=
  p ← nth_c l i; match p with Some x => mret x | None => crash FNullCall end.
Definition upd_rx (i : Z) (f : ring -> ring) : A unit :=
  a ← get; r ← deref (rx_ring a) i; l ← upd_c (rx_ring a) i (Some (f r)); modify (set_rx_ring l).
Definition upd_tx (i : Z) (f : ring -> ring) : A unit :=
  a ← get; r ← deref (tx_ring a) i; l ← upd_c (tx_ring a) i (Some (f r)); modify (set_tx_ring l).
Definition upd_xdp (i : Z) (f : ring -> ring) : A unit :=
  a ← get; r ← deref (xdp_ring a) i; l ← upd_c (xdp_ring a) i (Some (f r)); modify (set_xdp_ring l).

Definition queues_per_pool (q : qconf) : Z := ALIGN_NOT_MASK 1 (mask (vmdq q)).
Definition vmdq_first_reg (q : qconf) : Z := u16 (offset (vmdq q) * queues_per_pool q).

(** the loop of [ixgbe_cache_ring_dcb_vmdq] over [n] rings: the next pool when
    the current one has its [tcs] queues *)
Definition cache_pools (q : qconf) (n tcs : Z) (upd : Z -> (ring -> ring) -> A unit) : A unit :=
  for_acc (Z.to_nat n) 0 (vmdq_first_reg q) (fun i reg =>
    let reg := if tcs <=? Z.land reg (Z.lnot (mask (vmdq q)))
               then ALIGN_NOT_MASK reg (mask (vmdq q)) else reg in
    upd i (set_reg_idx (u8 reg)) ;; mret (u16 (reg + 1))) ;;
  mret tt.

(** the FCoE rings behind the pools *)
Definition cache_fcoe_pools (q : qconf) (n : Z) (upd : Z -> (ring -> ring) -> A unit) : A unit :=
  for_acc (Z.to_nat (n - offset (fcoe q))) (offset (fcoe q))
    (u16 ((offset (vmdq q) + indices (vmdq q)) * u16 (queues_per_pool q)))
    (fun i reg =>
       let reg := u16 (ALIGN_NOT_MASK reg (mask (vmdq q)) + fcoe_tc q) in
       upd i (set_reg_idx (u8 reg)) ;; mret (u16 (reg + 1))) ;;
  mret tt.

Definition ixgbe_cache_ring_dcb_vmdq : A bool :=
  a ← get;
  let q := conf a in
  let tcs := num_tc q in
  if tcs <=? 1 then mret false
  else if negb (vmdq_enabled q) then mret false
  else
    (if is_82598 (a_mac q) then
       for_loop (Z.to_nat (num_rx_queues q)) 0 (fun i =>
         upd_rx i (set_reg_idx (Z.land (Z.lor (Z.shiftr i 3) (Z.shiftl i 3)) 0x3F))) ;;
       for_loop (Z.to_nat (num_tx_queues q)) 0 (fun i =>
         upd_tx i (set_reg_idx (Z.land (Z.lor (Z.shiftr i 4) (Z.shiftl i 2)) 0x1F)))
     else if is_82599_or_later (a_mac q) then
       cache_pools q (num_rx_queues q) tcs upd_rx ;;
       cache_pools q (num_tx_queues q) tcs upd_tx
     else mret tt) ;;
    if negb (fcoe_enabled q) then mret true
    else if offset (fcoe q) <? tcs then mret true
    else
      (if negb (indices (fcoe q) =? 0) then
         cache_fcoe_pools q (num_rx_queues q) upd_rx ;;
         cache_fcoe_pools q (num_tx_queues q) upd_tx
       else mret tt) ;;
      mret true.

(** [*tx] and [*rx] *)
Definition ixgbe_get_first_reg_idx (q : qconf) (tc : Z) : Z * Z :=
  if is_82598 (a_mac q) then (Z.shiftl tc 2, Z.shiftl tc 3)
  else if is_82599_or_later (a_mac q) then
    if 4 <? num_tc q then
      (if tc <? 3 then Z.shiftl tc 5 else if tc <? 5 then Z.shiftl (tc + 2) 4 else Z.shiftl (tc + 8) 3,
       Z.shiftl tc 4)
    else (if tc <? 2 then Z.shiftl tc 6 else Z.shiftl (tc + 4) 4, Z.shiftl tc 5)
  else (0, 0).

Definition ixgbe_cache_ring_dcb : A bool :=
  a ← get;
  let q := conf a in
  if num_tc q <=? 1 then mret false
  else
    let rss_i := indices (rss q) in
    for_loop (Z.to_nat (num_tc q)) 0 (fun tc =>
      let offset := tc * rss_i in
      let '(tx_idx, rx_idx) := ixgbe_get_first_reg_idx q tc in
      for_loop (Z.to_nat rss_i) 0 (fun i =>
        upd_tx (offset + i) (set_reg_idx (u8 (tx_idx + i))) ;;
        upd_rx (offset + i) (set_reg_idx (u8 (rx_idx + i))) ;;
        upd_tx (offset + i) (set_dcb_tc (u8 tc)) ;;
        upd_rx (offset + i) (set_dcb_tc (u8 tc)))) ;;
    mret true.

(** the two loops of [ixgbe_cache_ring_vmdq] over [n] rings; [m] masks the index
    in the pool *)
Definition cache_vmdq (q : qconf) (n m : Z) (upd : Z -> (ring -> ring) -> A unit) : A unit :=
  r ← for_break (Z.to_nat n) 0 (vmdq_first_reg q) (fun i reg =>
        if negb (offset (fcoe q) =? 0) && (offset (fcoe q) <? i) then mret (inr (i, reg))
        else
          let reg := if indices (rss q) <=? Z.land reg m
                     then ALIGN_NOT_MASK reg (mask (vmdq q)) else reg in
          upd i (set_reg_idx (u8 reg)) ;; mret (inl (u16 (reg + 1))));
  match r with
  | inl _ => mret tt
  | inr (i, reg) =>
      for_acc (Z.to_nat (n - i)) i reg (fun i reg =>
        upd i (set_reg_idx (u8 reg)) ;; mret (u16 (reg + 1))) ;;
      mret tt
  end.

Definition ixgbe_cache_ring_vmdq : A bool :=
  a ← get;
  let q := conf a in
  if negb (vmdq_enabled q) then mret false
  else
    cache_vmdq q (num_rx_queues q) (Z.lnot (mask (vmdq q))) upd_rx ;;
    cache_vmdq q (num_tx_queues q) (mask (rss q)) upd_tx ;;
    mret true.

Definition ixgbe_cache_ring_rss : A bool :=
  a ← get;
  let q := conf a in
  for_loop (Z.to_nat (num_rx_queues q)) 0 (fun i => upd_rx i (set_reg_idx (u8 i))) ;;
  for_loop (Z.to_nat (num_tx_queues q)) 0 (fun i => upd_tx i (set_reg_idx (u8 i))) ;;
  for_loop (Z.to_nat (num_xdp_queues q)) 0 (fun i =>
    upd_xdp i (set_reg_idx (u8 (Z.max 0 (num_tx_queues q) + i)))) ;;
  mret true.

Definition ixgbe_cache_ring_register : A unit :=
  b ← ixgbe_cache_ring_dcb_vmdq;
  if (b : bool) then mret tt
  else
    b ← ixgbe_cache_ring_dcb;
    if (b : bool) then mret tt
    else
      b ← ixgbe_cache_ring_vmdq;
      if (b : bool) then mret tt
      else ixgbe_cache_ring_rss ;; mret tt.

(** ** Interrupt vectors *)
Definition IXGBE_12K_ITR : Z := 336.
Definition IXGBE_20K_ITR : Z := 200.
Definition ENOMEM : Z := 12.
Definition EOPNOTSUPP : Z := 95.

(** the three loops of [ixgbe_alloc_q_vector]: ring [i] is added to vector [v] *)
Definition add_tx_ring (v i : Z) : A unit :=
  a ← get;
  qv ← deref (q_vector a) v;
  qs ← upd_c (q_vector a) v (Some (mk_q_vector (v_idx qv) (itr qv) ((false, u8 i) :: v_tx qv) (v_rx qv)));
  l ← upd_c (tx_ring a) i (Some (mk_ring (u8 i) 0 0 v false false));
  modify (fun a => set_tx_ring l (set_q_vector qs a)).
Definition add_xdp_ring (v i : Z) : A unit :=
  a ← get;
  qv ← deref (q_vector a) v;
  qs ← upd_c (q_vector a) v (Some (mk_q_vector (v_idx qv) (itr qv) ((true, u8 i) :: v_tx qv) (v_rx qv)));
  l ← upd_c (xdp_ring a) i (Some (mk_ring (u8 i) 0 0 v true false));
  modify (fun a => set_xdp_ring l (set_q_vector qs a)).
Definition add_rx_ring (v i : Z) : A unit :=
  a ← get;
  let f := fcoe (conf a) in
  let is_f := fcoe_enabled (conf a) && (offset f <=? i) && (i <? offset f + indices f) in
  qv ← deref (q_vector a) v;
  qs ← upd_c (q_vector a) v (Some (mk_q_vector (v_idx qv) (itr qv) (v_tx qv) (u8 i :: v_rx qv)));
  l ← upd_c (rx_ring a) i (Some (mk_ring (u8 i) 0 0 v false is_f));
  modify (fun a => set_rx_ring l (set_q_vector qs a)).

(** [ok] says whether one of the two allocations succeeded *)
Definition ixgbe_alloc_q_vector (ok : bool) (v_count v txr_count txr_idx xdp_count xdp_idx rxr_count
    rxr_idx : Z) : A Z :=
  if negb ok then mret (- ENOMEM)
  else
    a ← get;
    let q := conf a in
    let itr := if negb (txr_count =? 0) && (rxr_count =? 0)
               then (if tx_itr_setting q =? 1 then IXGBE_12K_ITR else tx_itr_setting q)
               else (if rx_itr_setting q =? 1 then IXGBE_20K_ITR else rx_itr_setting q) in
    qs ← upd_c (q_vector a) v (Some (mk_q_vector v itr [] []));
    modify (set_q_vector qs) ;;
    for_loop (Z.to_nat txr_count) 0 (fun k => add_tx_ring v (txr_idx + k * v_count)) ;;
    for_loop (Z.to_nat xdp_count) 0 (fun k => add_xdp_ring v (xdp_idx + k)) ;;
    for_loop (Z.to_nat rxr_count) 0 (fun k => add_rx_ring v (rxr_idx + k * v_count)) ;;
    mret 0.

(** the loops over the rings of a vector *)
Fixpoint free_tx_rings (l : list (bool * Z)) : A unit :=
  match l with
  | [] => mret tt
  | (xdp, i) :: l' =>
      a ← get;
      (if (xdp : bool) then r ← upd_c (xdp_ring a) i None; modify (set_xdp_ring r)
       else r ← upd_c (tx_ring a) i None; modify (set_tx_ring r)) ;;
      free_tx_rings l'
  end.
Fixpoint free_rx_rings (l : list Z) : A unit :=
  match l with
  | [] => mret tt
  | i :: l' =>
      a ← get;
      r ← upd_c (rx_ring a) i None;
      modify (set_rx_ring r) ;;
      free_rx_rings l'
  end.

Definition ixgbe_free_q_vector (v : Z) : A unit :=
  a ← get;
  qv ← deref (q_vector a) v;
  free_tx_rings (v_tx qv) ;;
  free_rx_rings (v_rx qv) ;;
  a ← get;
  qs ← upd_c (q_vector a) v None;
  modify (set_q_vector qs).

Definition upd_conf (f : qconf -> qconf) : A unit := modify (fun a => set_conf (f (conf a)) a).
Definition zero_counts (q : qconf) : qconf :=
  set_num_q_vectors 0 (set_num_rx_queues 0 (set_num_xdp_queues 0 (set_num_tx_queues 0 q))).

(** the label [err_out], and the loop [while (v_idx--)] *)
Definition free_vectors (n : Z) : A unit :=
  for_loop (Z.to_nat n) 0 (fun k => ixgbe_free_q_vector (n - 1 - k)).

(** the remaining rings and next indices of [ixgbe_alloc_q_vectors] *)
Record remaining := mk_rem {
  rxr_remaining : Z; txr_remaining : Z; xdp_remaining : Z; rxr_next : Z; txr_next : Z; xdp_next : Z; v_next : Z;
}.

(** a vector of its own for one receive ring *)
Definition alloc_rx_vector (alloc_ok : Z -> bool) (q_vectors v : Z) (m : remaining) : A (remaining + Z) :=
  err ← ixgbe_alloc_q_vector (alloc_ok v) q_vectors v 0 0 0 0 1 (rxr_next m);
  if negb (err =? 0) then mret (inr v)
  else mret (inl (mk_rem (rxr_remaining m - 1) (txr_remaining m) (xdp_remaining m)
                    (rxr_next m + 1) (txr_next m) (xdp_next m) (v_next m + 1))).

(** the share of a vector in the remaining rings *)
Definition alloc_shared_vector (alloc_ok : Z -> bool) (q_vectors v : Z) (m : remaining) : A (remaining + Z) :=
  let rqpv := DIV_ROUND_UP (rxr_remaining m) (q_vectors - v) in
  let tqpv := DIV_ROUND_UP (txr_remaining m) (q_vectors - v) in
  let xqpv := DIV_ROUND_UP (xdp_remaining m) (q_vectors - v) in
  err ← ixgbe_alloc_q_vector (alloc_ok v) q_vectors v tqpv (txr_next m) xqpv (xdp_next m) rqpv (rxr_next m);
  if negb (err =? 0) then mret (inr v)
  else mret (inl (mk_rem (rxr_remaining m - rqpv) (txr_remaining m - tqpv) (xdp_remaining m - xqpv)
                    (rxr_next m + 1) (txr_next m + 1) (xdp_next m + xqpv) (v_next m + 1))).

Definition ixgbe_alloc_q_vectors (alloc_ok : Z -> bool) : A Z :=
  a ← get;
  let q := conf a in
  let q_vectors := num_q_vectors q in
  let rx := num_rx_queues q in
  let tx := num_tx_queues q in
  let xdp := num_xdp_queues q in
  let start := mk_rem rx tx xdp 0 0 0 0 in
  r ← (if u32 (u32 (rx + tx) + xdp) <=? q_vectors then
         for_break (Z.to_nat rx) 0 start (alloc_rx_vector alloc_ok q_vectors)
       else mret (inl start));
  r ← match r with
      | inr v => mret (inr v)
      | inl m => for_break (Z.to_nat (q_vectors - v_next m)) (v_next m) m (alloc_shared_vector alloc_ok q_vectors)
      end;
  match r with
  | inl _ => mret IXGBE_SUCCESS
  | inr v => upd_conf zero_counts ;; free_vectors v ;; mret (- ENOMEM)
  end.

Definition ixgbe_free_q_vectors : A unit :=
  a ← get;
  let v := num_q_vectors (conf a) in
  upd_conf zero_counts ;;
  free_vectors v.

(** ** Interrupt scheme

    The kernel services: the CPU counts, the memory allocations and the PCI core. *)
Record kernel := mk_kernel {
  num_online_cpus : Z;
  nr_cpu_ids : Z;
  msix_entries_ok : bool;
  pci_enable_msix_range : Z -> Z -> Z;
  pci_enable_msi : Z;
  pci_vfs_assigned : bool;
  alloc_ok : Z -> bool;
}.

Section Scheme.
Context (K : kernel).

Definition ixgbe_acquire_msix_vectors : A Z :=
  a ← get;
  let q := conf a in
  if negb (msix_capable q) then mret (- EOPNOTSUPP)
  else
    let vectors := Z.max (num_rx_queues q) (num_tx_queues q) in
    let vectors := Z.max vectors (num_xdp_queues q) in
    let vectors := Z.min vectors (num_online_cpus K) in
    let vectors := vectors + NON_Q_VECTORS in
    let vectors := Z.min vectors (max_msix_vectors q) in
    if negb (msix_entries_ok K) then mret (- ENOMEM)
    else
      let vectors := pci_enable_msix_range K MIN_MSIX_COUNT vectors in
      if vectors <? 0 then upd_conf (set_msix_enabled false) ;; mret vectors
      else
        upd_conf (fun q => set_num_q_vectors (Z.min (vectors - NON_Q_VECTORS) (max_q_vectors q))
                             (set_msix_enabled true q)) ;;
        mret 0.

Definition ixgbe_reset_interrupt_capability : A unit :=
  upd_conf (fun q => if msix_enabled q then set_msix_enabled false q
                     else if msi_enabled q then set_msi_enabled false q else q).

(** what [ixgbe_disable_sriov] does to the features of the queues (its register
    writes are in Sriov.v): nothing while VFs are assigned to guests *)
Definition disable_sriov_features (q : qconf) : qconf :=
  if negb (sriov_enabled q) then q
  else if pci_vfs_assigned K then q
  else
    let q := if limit (vmdq q) =? 1 then set_vmdq_enabled false q else q in
    let q := set_sriov_enabled false q in
    set_vmdq (set_offset 0 (vmdq q)) q.

(** without MSI-X: no traffic classes, one RSS queue *)
Definition reset_dcb (q : qconf) : qconf :=
  if 1 <? num_tc q then set_dcb_enabled false (set_num_tc 0 q) else q.
Definition single_rss (q : qconf) : qconf := set_rss (set_limit 1 (rss q)) q.
Definition try_msi (q : qconf) : qconf :=
  if negb (msi_capable q) then q
  else if negb (pci_enable_msi K =? 0) then q
  else set_msi_enabled true q.

Definition ixgbe_set_interrupt_capability : A unit :=
  r ← ixgbe_acquire_msix_vectors;
  if r =? 0 then mret tt
  else
    upd_conf reset_dcb ;;
    upd_conf (set_vmdq_enabled false) ;;
    upd_conf disable_sriov_features ;;
    upd_conf single_rss ;;
    upd_conf (ixgbe_set_num_queues (num_online_cpus K) (nr_cpu_ids K)) ;;
    upd_conf (set_num_q_vectors 1) ;;
    upd_conf try_msi.

Definition ixgbe_init_interrupt_scheme : A Z :=
  upd_conf (ixgbe_set_num_queues (num_online_cpus K) (nr_cpu_ids K)) ;;
  ixgbe_set_interrupt_capability ;;
  err ← ixgbe_alloc_q_vectors (alloc_ok K);
  if negb (err =? 0) then ixgbe_reset_interrupt_capability ;; mret err
  else
    ixgbe_cache_ring_register ;;
    mret IXGBE_SUCCESS.

Definition ixgbe_clear_interrupt_scheme : A unit :=
  upd_conf (fun q => set_num_rx_queues 0 (set_num_xdp_queues 0 (set_num_tx_queues 0 q))) ;;
  ixgbe_free_q_vectors ;;
  ixgbe_reset_interrupt_capability.
End Scheme.
