(* ===== verification/QueueProps.v ===== *)
(** * Queue layout: every ring has a hardware queue of its own (Queues.v) *)
From S2P Require Import Prelude Regs Types Queues.

(** ** Configurations *)

(** The ranges the driver keeps: module parameters (ixgbe_param.c), the number of
    VFs as pool offset, at most 8 classes (8 on 82598), the numbers of the CPUs and
    of the transmit queues of the netdev. *)
Record wf_conf (q : qconf) : Prop := {
  wf_mac : is_82598 (a_mac q) = true \/ is_82599_or_later (a_mac q) = true;
  wf_tc : 0 <= num_tc q <= 8;
  wf_tc_82598 : is_82598 (a_mac q) = true -> num_tc q = 0 \/ num_tc q = 8;
  wf_dev : 63 <= dev_num_tx_queues q <= 71 \/ is_82598 (a_mac q) = true /\ dev_num_tx_queues q = 32;
  wf_vmdq : 1 <= limit (vmdq q) <= 64;
  wf_vmdq_offset : 0 <= offset (vmdq q) < (if 4 <? num_tc q then 16 else if 1 <? num_tc q then 32 else 64);
  wf_vmdq_82598 : is_82598 (a_mac q) = true -> offset (vmdq q) = 0;
  wf_rss : 1 <= limit (rss q) <= 63;
  wf_fdir : 1 <= limit (fdir q) <= 63 \/ is_82598 (a_mac q) = true /\ atr_sample_rate q = 0;
  wf_fcoe : fcoe_enabled q = false /\ offset (fcoe q) = 0;
}.

(** which of the four layouts is used *)
Inductive layout := LDcbVmdq | LDcb | LVmdq | LRss.
Definition layout_of (q : qconf) : layout :=
  if 1 <? num_tc q then (if vmdq_enabled q then LDcbVmdq else LDcb)
  else (if vmdq_enabled q then LVmdq else LRss).

(** queues a pool has in hardware *)
Definition pool_size (q : qconf) : Z :=
  if is_82598 (a_mac q) then (if mask (vmdq q) =? 0x18 then 8 else 1)
  else if mask (vmdq q) =? IXGBE_82599_VMDQ_8Q_MASK then 8
  else if mask (vmdq q) =? IXGBE_82599_VMDQ_4Q_MASK then 4 else 2.

(** ring [i] of a layout in pools, [n] rings to a pool *)
Definition pool_reg (q : qconf) (n i : Z) : Z := (offset (vmdq q) + i / n) * pool_size q + i mod n.

(** the hardware queue that ring [i] should drive *)
Definition hw_rx (q : qconf) (i : Z) : Z :=
  match layout_of q with
  | LDcbVmdq => if is_82598 (a_mac q) then Z.land (Z.lor (Z.shiftr i 3) (Z.shiftl i 3)) 0x3F
                else pool_reg q (num_tc q) i
  | LDcb => snd (ixgbe_get_first_reg_idx q (i / indices (rss q))) + i mod indices (rss q)
  | LVmdq => pool_reg q (indices (rss q)) i
  | LRss => i
  end.
Definition hw_tx (q : qconf) (i : Z) : Z :=
  match layout_of q with
  | LDcbVmdq => if is_82598 (a_mac q) then Z.land (Z.lor (Z.shiftr i 4) (Z.shiftl i 2)) 0x1F
                else pool_reg q (num_tc q) i
  | LDcb => fst (ixgbe_get_first_reg_idx q (i / indices (rss q))) + i mod indices (rss q)
  | LVmdq => pool_reg q (indices (rss q)) i
  | LRss => i
  end.

(** the counts and masks that [ixgbe_set_num_queues] leaves for a layout *)
Record counted (q : qconf) : Prop := {
  ct_rx : 1 <= num_rx_queues q;
  ct_tx : num_tx_queues q = num_rx_queues q;
  ct_xdp : 0 <= num_xdp_queues q <= 64;
  ct_no_xdp : layout_of q <> LRss -> num_xdp_queues q = 0;
  ct_layout : match layout_of q with
    | LDcbVmdq =>
        if is_82598 (a_mac q) then num_rx_queues q <= 32
        else mask (vmdq q) = (if 4 <? num_tc q then 0x78 else 0x7C) /\
             num_rx_queues q = indices (vmdq q) * num_tc q /\ 1 <= indices (vmdq q) /\
             offset (vmdq q) + indices (vmdq q) <= (if 4 <? num_tc q then 16 else 32)
    | LDcb => 1 <= indices (rss q) <= (if is_82598 (a_mac q) then 4 else if 4 <? num_tc q then 8 else 16) /\
              num_rx_queues q = indices (rss q) * num_tc q
    | LVmdq =>
        num_rx_queues q = indices (vmdq q) * indices (rss q) /\ 1 <= indices (vmdq q) /\
        if is_82598 (a_mac q) then
          mask (vmdq q) = 0x0F /\ mask (rss q) = 0 /\ indices (rss q) = 1 /\ indices (vmdq q) <= 16 \/
          mask (vmdq q) = 0x18 /\ mask (rss q) = 7 /\ 1 <= indices (rss q) <= 8 /\ indices (vmdq q) <= 4
        else
          mask (vmdq q) = 0x7C /\ mask (rss q) = 3 /\ 1 <= indices (rss q) <= 4 /\
            offset (vmdq q) + indices (vmdq q) <= 32 \/
          mask (vmdq q) = 0x7E /\ mask (rss q) = 1 /\ 1 <= indices (rss q) <= 2 /\
            offset (vmdq q) + indices (vmdq q) <= 64
    | LRss => num_rx_queues q <= 63
    end;
}.

Section Counts.
Context (cpus ids : Z) (Hids : 0 <= ids).

Lemma min_u16_small x y : 0 <= x < 65536 -> 0 <= y < 65536 -> min_u16 x y = Z.min x y.
Proof. intros. unfold min_u16. by rewrite !trunc_small by (unfold in_range; lia). Qed.

Lemma mac_82598_only t : is_82598 t = true -> is_82599_or_later t = false.
Proof. by destruct t. Qed.

(** the base case of the counts does not matter to the features *)
Definition base_counts (q : qconf) : qconf :=
  set_num_rx_queues_per_pool 1 (set_num_rx_pools 1 (set_num_xdp_queues 0 (set_num_tx_queues 1 (set_num_rx_queues 1 q)))).

Lemma u16_small x : 0 <= x < 65536 -> u16 x = x.
Proof. intros. apply trunc_small. unfold in_range. lia. Qed.

Lemma dcb_vmdq_pools_spec q : wf_conf q -> 1 < num_tc q ->
  exists vi vm fi, dcb_vmdq_pools q = (vi, vm, fi, num_tc q) /\ 1 <= vi /\
    if is_82598 (a_mac q) then num_tc q = 8 /\ vi <= 4
    else vm = (if 4 <? num_tc q then 0x78 else 0x7C) /\
         offset (vmdq q) + vi <= (if 4 <? num_tc q then 16 else 32).
Proof.
  intros [Hmac Htc Ht8 _ Hv Ho Ho8 _ _ _] Ht. unfold dcb_vmdq_pools.
  destruct (is_82598 (a_mac q)) eqn:Em.
  - eexists _, _, _. split; [done|]. rewrite min_u16_small by lia. specialize (Ht8 eq_refl). lia.
  - destruct Hmac as [?|Hm]; [done|]. rewrite Hm. rewrite (u16_small (limit _ + _)) by (repeat case_match; lia).
    destruct (Z.ltb_spec 1 (num_tc q)); [|lia].
    destruct (Z.ltb_spec 4 (num_tc q)); eexists _, _, _; (split; [done|]); rewrite min_u16_small by lia;
      rewrite u16_small by lia; (split; [lia|]); (split; [done|lia]).
Qed.

(** the features that the queue counts leave alone *)
Lemma wf_conf_frame q q' : wf_conf q ->
  a_mac q' = a_mac q -> num_tc q' = num_tc q -> dev_num_tx_queues q' = dev_num_tx_queues q ->
  limit (vmdq q') = limit (vmdq q) -> offset (vmdq q') = offset (vmdq q) ->
  limit (rss q') = limit (rss q) -> limit (fdir q') = limit (fdir q) ->
  atr_sample_rate q' = atr_sample_rate q -> fcoe_enabled q' = fcoe_enabled q ->
  offset (fcoe q') = offset (fcoe q) -> wf_conf q'.
Proof. intros [] E1 E2 E3 E4 E5 E6 E7 E8 E9 E10. split; rewrite ?E1, ?E2, ?E3, ?E4, ?E5, ?E6, ?E7, ?E8, ?E9, ?E10; done. Qed.

Lemma dcb_vmdq_counted q : wf_conf q -> 1 < num_tc q -> vmdq_enabled q = true ->
  exists q', ixgbe_set_dcb_vmdq_queues q = Some q' /\ wf_conf q' /\ counted q' /\ layout_of q' = LDcbVmdq.
Proof.
  intros Hwf Ht Hv. unfold ixgbe_set_dcb_vmdq_queues. destruct (Z.leb_spec (num_tc q) 1); [lia|].
  rewrite Hv. cbn [negb]. destruct (dcb_vmdq_pools_spec q Hwf Ht) as (vi & vm & fi & -> & Hvi & Hp).
  pose proof (wf_fcoe q Hwf) as [Hf _]. pose proof (wf_tc q Hwf) as Htc.
  eexists. split; [reflexivity|]. cbv zeta.
  match goal with |- context [if fcoe_enabled ?q1 then _ else _] =>
    replace (fcoe_enabled q1) with false by (symmetry; exact Hf) end.
  assert (Hl : forall q1, num_tc q1 = num_tc q -> vmdq_enabled q1 = true -> layout_of q1 = LDcbVmdq).
  { intros q1 E1 E2. unfold layout_of. rewrite E1, E2. destruct (Z.ltb_spec 1 (num_tc q)); [done|lia]. }
  split; [by eapply wf_conf_frame; [exact Hwf|..]|]. rewrite Hl by done.
  split; [|done]. split; cbn; [nia|done|lia|done|]. rewrite Hl by done.
  destruct (is_82598 (a_mac q)).
  - lia.
  - destruct Hp. repeat split; try done; lia.
Qed.

Lemma layout_eq q b1 b2 : (1 <? num_tc q) = b1 -> vmdq_enabled q = b2 ->
  layout_of q = if b1 then (if b2 then LDcbVmdq else LDcb) else (if b2 then LVmdq else LRss).
Proof. unfold layout_of. by intros -> ->. Qed.

Lemma dcb_counted q : wf_conf q -> 1 < num_tc q -> vmdq_enabled q = false ->
  exists q', ixgbe_set_dcb_queues q = Some q' /\ wf_conf q' /\ counted q' /\ layout_of q' = LDcb.
Proof.
  intros Hwf Ht Hv. unfold ixgbe_set_dcb_queues. destruct (Z.leb_spec (num_tc q) 1); [lia|]. cbv zeta.
  pose proof Hwf as [Hmac Htc Ht8 Hdev _ _ _ Hrss _ [Hf _]].
  set (lim := if is_82598 (a_mac q) then 4 else if 4 <? num_tc q then 8 else 16).
  assert (Hd : 4 <= dev_num_tx_queues q / num_tc q < 65536).
  { destruct Hdev as [?|[E ?]].
    - split; [apply Z.div_le_lower_bound; lia|]. apply Z.div_lt_upper_bound; lia.
    - destruct (Ht8 E) as [?|E8]; [lia|]. rewrite E8. zlia. }
  assert (Ep : exists r m, 4 <= r <= lim /\
    (if is_82598 (a_mac q) then (min_u16 (dev_num_tx_queues q / num_tc q) 4, IXGBE_RSS_4Q_MASK)
     else if 4 <? num_tc q then (min_u16 (dev_num_tx_queues q / num_tc q) 8, IXGBE_RSS_8Q_MASK)
     else (min_u16 (dev_num_tx_queues q / num_tc q) 16, IXGBE_RSS_16Q_MASK)) = (r, m)).
  { unfold lim. destruct (is_82598 (a_mac q)), (4 <? num_tc q); eexists _, _; (split; [|reflexivity]);
      rewrite min_u16_small by lia; lia. }
  destruct Ep as (r & m & Hr & ->).
  assert (Hlim : 4 <= lim <= 16) by (unfold lim; destruct (is_82598 (a_mac q)), (4 <? num_tc q); lia).
  rewrite (min_u16_small r) by lia. eexists. split; [reflexivity|].
  match goal with |- context [if fcoe_enabled ?q1 then _ else _] =>
    replace (fcoe_enabled q1) with false by (symmetry; exact Hf) end.
  assert (Hb : (1 <? num_tc q) = true) by (destruct (Z.ltb_spec 1 (num_tc q)); [done|lia]).
  split; [by eapply wf_conf_frame; [exact Hwf|..]|].
  split; [|by rewrite (layout_eq _ true false)].
  split; cbn; [nia|done|lia|done|]. rewrite (layout_eq _ true false) by done. cbn. fold lim. split; [lia|done].
Qed.

Lemma vmdq_pools_spec q : wf_conf q -> num_tc q <= 1 ->
  exists vi vm ri rm fi, vmdq_pools q = (vi, vm, ri, rm, fi) /\ 1 <= vi /\
    if is_82598 (a_mac q) then
      vm = 0x0F /\ rm = 0 /\ ri = 1 /\ vi <= 16 \/ vm = 0x18 /\ rm = 7 /\ 1 <= ri <= 8 /\ vi <= 4
    else
      vm = 0x7C /\ rm = 3 /\ 1 <= ri <= 4 /\ offset (vmdq q) + vi <= 32 \/
      vm = 0x7E /\ rm = 1 /\ 1 <= ri <= 2 /\ offset (vmdq q) + vi <= 64.
Proof.
  intros [Hmac Htc _ _ Hv Ho Ho8 Hr _ _] Ht. unfold vmdq_pools. cbv zeta.
  destruct (Z.ltb_spec 4 (num_tc q)); [lia|]. destruct (Z.ltb_spec 1 (num_tc q)); [lia|].
  destruct (is_82598 (a_mac q)) eqn:Em.
  - rewrite !(min_u16_small (limit (vmdq q))) by lia. rewrite (min_u16_small (limit (rss q))) by lia.
    destruct ((4 <? Z.min (limit (vmdq q)) 16) || (limit (rss q) =? 1)) eqn:Eb;
      eexists _, _, _, _, _; (split; [reflexivity|]); (split; [lia|]).
    + left. repeat split; lia.
    + right. apply orb_false_iff in Eb as [E1 E2]. apply Z.ltb_ge in E1. repeat split; lia.
  - destruct Hmac as [?|Hm]; [done|]. rewrite Hm. rewrite (u16_small (limit _ + _)) by lia.
    rewrite (min_u16_small IXGBE_MAX_VMDQ_INDICES) by (unfold IXGBE_MAX_VMDQ_INDICES; lia).
    change IXGBE_MAX_VMDQ_INDICES with 64. rewrite (min_u16_small (limit (rss q))) by lia.
    destruct (Z.ltb_spec 32 (Z.min 64 (limit (vmdq q) + offset (vmdq q))));
      eexists _, _, _, _, _; (split; [reflexivity|]); rewrite u16_small by lia; (split; [lia|]).
    + right. repeat split; lia.
    + left. repeat split; try done; repeat case_match; lia.
Qed.

Lemma vmdq_counted q : wf_conf q -> num_tc q <= 1 -> vmdq_enabled q = true ->
  exists q', ixgbe_set_vmdq_queues cpus q = Some q' /\ wf_conf q' /\ counted q' /\ layout_of q' = LVmdq.
Proof.
  intros Hwf Ht Hv. unfold ixgbe_set_vmdq_queues. rewrite Hv. cbn [negb].
  destruct (vmdq_pools_spec q Hwf Ht) as (vi & vm & ri & rm & fi & -> & Hvi & Hp).
  pose proof (wf_fcoe q Hwf) as [Hf _]. eexists. split; [reflexivity|]. cbv zeta.
  match goal with |- context [if fcoe_enabled ?q1 then _ else _] =>
    replace (fcoe_enabled q1) with false by (symmetry; exact Hf) end.
  assert (Hb : (1 <? num_tc q) = false) by (destruct (Z.ltb_spec 1 (num_tc q)); [lia|done]).
  split; [by eapply wf_conf_frame; [exact Hwf|..]|].
  split; [|by rewrite (layout_eq _ false true)].
  assert (1 <= ri) by (destruct (is_82598 (a_mac q)); lia).
  split; cbn; [nia|done|lia|done|]. rewrite (layout_eq _ false true) by done. cbn. done.
Qed.

Lemma rss_counted q : wf_conf q -> num_tc q <= 1 -> vmdq_enabled q = false ->
  let q' := ixgbe_set_rss_queues cpus ids q in wf_conf q' /\ counted q' /\ layout_of q' = LRss.
Proof using Hids.
  intros Hwf Ht Hv. unfold ixgbe_set_rss_queues. cbv zeta.
  pose proof Hwf as [_ _ _ _ _ _ _ Hrss Hfdir [Hf _]].
  assert (Hb : (1 <? num_tc q) = false) by (destruct (Z.ltb_spec 1 (num_tc q)); [lia|done]).
  set (m := if mac_type_val (a_mac q) <? _ then _ else _).
  set (q1 := set_fdir_hash_capable false _).
  assert (exists q2 n, (if (1 <? limit (rss q)) && negb (atr_sample_rate q1 =? 0) then
      ((if negb (fdir_perfect_capable (set_fdir (set_indices (limit (fdir q1)) (fdir q1)) q1))
        then set_fdir_hash_capable true (set_fdir (set_indices (limit (fdir q1)) (fdir q1)) q1)
        else set_fdir (set_indices (limit (fdir q1)) (fdir q1)) q1), limit (fdir q1))
      else (q1, limit (rss q))) = (q2, n) /\ 1 <= n <= 63 /\ wf_conf q2 /\ vmdq_enabled q2 = false /\
      num_tc q2 = num_tc q /\ xdp_prog q2 = xdp_prog q) as (q2 & n & -> & Hn & Hwf2 & Hv2 & Ht2 & Hx2).
  { assert (Hw1 : wf_conf q1) by (by eapply wf_conf_frame; [exact Hwf|..]).
    destruct ((1 <? limit (rss q)) && negb (atr_sample_rate q1 =? 0)) eqn:Eb.
    - apply andb_true_iff in Eb as [_ Eb]. apply negb_true_iff, Z.eqb_neq in Eb.
      change (atr_sample_rate q1) with (atr_sample_rate q) in Eb.
      assert (1 <= limit (fdir q) <= 63) by (destruct Hfdir as [?|[_ ?]]; [done|lia]).
      destruct (negb _); eexists _, _; (split; [reflexivity|]); (split; [done|]);
        (split; [by eapply wf_conf_frame; [exact Hw1|..]|done]).
    - eexists _, _. split; [reflexivity|]. done. }
  rewrite (proj1 (wf_fcoe q2 Hwf2)). split; [by eapply wf_conf_frame; [exact Hwf2|..]|].
  split; [|rewrite (layout_eq _ false false); [done|by cbn; rewrite Ht2|done]].
  split; cbn; [lia|done| | |].
  2: { intros Hl. destruct Hl. rewrite (layout_eq _ false false); [done|by cbn; rewrite Ht2|done]. }
  - unfold ixgbe_xdp_queues. cbn. destruct (xdp_prog q2); [|lia]. unfold IXGBE_MAX_XDP_QS, IXGBE_MAX_FDIR_INDICES. lia.
  - rewrite (layout_eq _ false false); [lia|by cbn; rewrite Ht2|done].
Qed.

(** the counts of each of the four layouts *)
Lemma set_num_queues_counted q : wf_conf q ->
  let q' := ixgbe_set_num_queues cpus ids q in
  wf_conf q' /\ counted q' /\ layout_of q' = layout_of q.
Proof using Hids.
  intros Hwf. unfold ixgbe_set_num_queues. cbv zeta.
  set (q0 := set_num_rx_queues_per_pool 1 _).
  assert (Hw0 : wf_conf q0) by (by eapply wf_conf_frame; [exact Hwf|..]).
  replace (layout_of q) with (layout_of q0) by done.
  destruct (Z.ltb_spec 1 (num_tc q0)) as [Ht|Ht]; destruct (vmdq_enabled q0) eqn:Hv.
  - destruct (dcb_vmdq_counted q0 Hw0 Ht Hv) as (q' & -> & ? & ? & ->).
    rewrite (layout_eq q0 true true); [done|by apply Z.ltb_lt|done].
  - assert (ixgbe_set_dcb_vmdq_queues q0 = None) as ->.
    { unfold ixgbe_set_dcb_vmdq_queues. destruct (Z.leb_spec (num_tc q0) 1); [done|]. by rewrite Hv. }
    destruct (dcb_counted q0 Hw0 Ht Hv) as (q' & -> & ? & ? & ->).
    rewrite (layout_eq q0 true false); [done|by apply Z.ltb_lt|done].
  - assert (ixgbe_set_dcb_vmdq_queues q0 = None) as ->.
    { unfold ixgbe_set_dcb_vmdq_queues. destruct (Z.leb_spec (num_tc q0) 1); [done|lia]. }
    assert (ixgbe_set_dcb_queues q0 = None) as ->.
    { unfold ixgbe_set_dcb_queues. destruct (Z.leb_spec (num_tc q0) 1); [done|lia]. }
    destruct (vmdq_counted q0 Hw0 Ht Hv) as (q' & -> & ? & ? & ->).
    rewrite (layout_eq q0 false true); [done|by apply Z.ltb_ge|done].
  - assert (ixgbe_set_dcb_vmdq_queues q0 = None) as ->.
    { unfold ixgbe_set_dcb_vmdq_queues. destruct (Z.leb_spec (num_tc q0) 1); [done|lia]. }
    assert (ixgbe_set_dcb_queues q0 = None) as ->.
    { unfold ixgbe_set_dcb_queues. destruct (Z.leb_spec (num_tc q0) 1); [done|lia]. }
    assert (ixgbe_set_vmdq_queues cpus q0 = None) as ->.
    { unfold ixgbe_set_vmdq_queues. by rewrite Hv. }
    rewrite (layout_eq q0 false false); [by apply rss_counted|by apply Z.ltb_ge|done].
Qed.

(** C38: for a configuration as probing leaves it (limits within the arrays, FCoE
    off), the queue counts keep it well formed and leave the masks
    and counts that the ring mapping relies on, in each of the four layouts. *)
Theorem set_num_queues_wf q : wf_conf q ->
  let q' := ixgbe_set_num_queues cpus ids q in
  wf_conf q' /\ counted q' /\ layout_of q' = layout_of q.
Proof using Hids. apply set_num_queues_counted. Qed.
End Counts.

(** ** Distinct hardware queues *)
Section Distinct.
Context (q : qconf) (Hwf : wf_conf q) (Hct : counted q).

Definition hw_limit : Z := 128.

Lemma pool_reg_inj n i j : 0 < n <= pool_size q -> 0 <= i -> 0 <= j ->
  pool_reg q n i = pool_reg q n j -> i = j.
Proof.
  intros Hn Hi Hj E. unfold pool_reg in E.
  pose proof (Z.mod_pos_bound i n ltac:(lia)). pose proof (Z.mod_pos_bound j n ltac:(lia)).
  pose proof (Z.div_mod i n ltac:(lia)). pose proof (Z.div_mod j n ltac:(lia)).
  assert (i / n = j / n) by nia. assert (i mod n = j mod n) by nia. congruence.
Qed.

Lemma pool_reg_bound n i k : 0 < n <= pool_size q -> 0 <= offset (vmdq q) -> 0 <= i < k * n ->
  0 <= pool_reg q n i < (offset (vmdq q) + k) * pool_size q.
Proof.
  intros Hn Ho Hi. unfold pool_reg. pose proof (Z.mod_pos_bound i n ltac:(lia)).
  assert (0 <= i / n < k). { split; [apply Z.div_pos; lia|]. apply Z.div_lt_upper_bound; lia. }
  nia.
Qed.

(** the mappings of 82598 and of the traffic classes, checked ring by ring *)
Definition distinct_below (f : Z -> Z) (n bound : Z) : bool :=
  forallb (fun i => (0 <=? f i) && (f i <? bound) &&
    forallb (fun j => (i =? j) || negb (f i =? f j)) (seqZ 0 n)) (seqZ 0 n).

Lemma distinct_below_spec f n m bound i j : distinct_below f n bound = true -> m <= n ->
  0 <= i < m -> 0 <= j < m -> 0 <= f i < bound /\ (f i = f j -> i = j).
Proof.
  intros H Hm Hi Hj. unfold distinct_below in H. rewrite forallb_forall in H.
  specialize (H i). rewrite <- list_elem_of_In, elem_of_seqZ in H. specialize (H ltac:(lia)).
  apply andb_true_iff in H as [Hb Hd]. split; [lia|]. rewrite forallb_forall in Hd. specialize (Hd j).
  rewrite <- list_elem_of_In, elem_of_seqZ in Hd. specialize (Hd ltac:(lia)). lia.
Qed.

(** the first register of the next class is behind the queues of this one *)
Lemma first_reg_step tc tc' : 0 <= tc < tc' -> tc' < num_tc q ->
  let n := if is_82598 (a_mac q) then 4 else if 4 <? num_tc q then 8 else 16 in
  fst (ixgbe_get_first_reg_idx q tc) + n <= fst (ixgbe_get_first_reg_idx q tc') /\
  snd (ixgbe_get_first_reg_idx q tc) + n <= snd (ixgbe_get_first_reg_idx q tc').
Proof using Hwf.
  intros Htc Ht. pose proof Hwf as [Hmac Hn Hn8 _ _ _ _ _ _ _]. unfold ixgbe_get_first_reg_idx.
  rewrite !Z.shiftl_mul_pow2 by lia. destruct (is_82598 (a_mac q)) eqn:E; [simpl; lia|].
  destruct Hmac as [?|Hm]; [done|]. rewrite Hm.
  destruct (Z.ltb_spec 4 (num_tc q)); simpl.
  - destruct (Z.ltb_spec tc 3), (Z.ltb_spec tc' 3), (Z.ltb_spec tc 5), (Z.ltb_spec tc' 5); lia.
  - destruct (Z.ltb_spec tc 2), (Z.ltb_spec tc' 2); lia.
Qed.

Lemma first_reg_bound tc : 0 <= tc < num_tc q ->
  let n := if is_82598 (a_mac q) then 4 else if 4 <? num_tc q then 8 else 16 in
  0 <= fst (ixgbe_get_first_reg_idx q tc) <= 128 - n /\ 0 <= snd (ixgbe_get_first_reg_idx q tc) <= 128 - n.
Proof using Hwf.
  intros Ht. pose proof Hwf as [Hmac Hn Hn8 _ _ _ _ _ _ _]. unfold ixgbe_get_first_reg_idx.
  rewrite !Z.shiftl_mul_pow2 by lia. destruct (is_82598 (a_mac q)) eqn:E; [simpl; lia|].
  destruct Hmac as [?|Hm]; [done|]. rewrite Hm.
  destruct (Z.ltb_spec 4 (num_tc q)); simpl.
  - destruct (Z.ltb_spec tc 3), (Z.ltb_spec tc 5); lia.
  - destruct (Z.ltb_spec tc 2); lia.
Qed.

(** blocks of [n] rings that start at [f] of their number *)
Lemma blocks_distinct (f : Z -> Z) n lim k i j : 1 <= n <= lim ->
  (forall t t', 0 <= t < t' -> t' < k -> f t + lim <= f t') ->
  (forall t, 0 <= t < k -> 0 <= f t <= 128 - lim) ->
  0 <= i < n * k -> 0 <= j < n * k ->
  0 <= f (i / n) + i mod n < 128 /\ (f (i / n) + i mod n = f (j / n) + j mod n -> i = j).
Proof.
  intros Hn Hs Hb Hi Hj.
  pose proof (Z.mod_pos_bound i n ltac:(lia)). pose proof (Z.mod_pos_bound j n ltac:(lia)).
  pose proof (Z.div_mod i n ltac:(lia)). pose proof (Z.div_mod j n ltac:(lia)).
  assert (0 <= i / n < k). { split; [apply Z.div_pos; lia|]. apply Z.div_lt_upper_bound; lia. }
  assert (0 <= j / n < k). { split; [apply Z.div_pos; lia|]. apply Z.div_lt_upper_bound; lia. }
  split; [specialize (Hb (i / n) ltac:(done)); lia|]. intros E.
  destruct (Z.lt_trichotomy (i / n) (j / n)) as [Hlt|[He|Hlt]].
  - specialize (Hs (i / n) (j / n) ltac:(lia) ltac:(lia)). lia.
  - rewrite He in *. nia.
  - specialize (Hs (j / n) (i / n) ltac:(lia) ltac:(lia)). lia.
Qed.

(** a layout in pools: [n] rings to a pool, [k] pools *)
Lemma pools_distinct n k i j : 1 <= n <= pool_size q -> 0 <= offset (vmdq q) ->
  (offset (vmdq q) + k) * pool_size q <= 128 -> 0 <= i < k * n -> 0 <= j < k * n ->
  0 <= pool_reg q n i < 128 /\ (pool_reg q n i = pool_reg q n j -> i = j).
Proof.
  intros Hn Ho Hk Hi Hj. split.
  - pose proof (pool_reg_bound n i k ltac:(lia) Ho Hi). lia.
  - apply pool_reg_inj; lia.
Qed.

Lemma dcb_blocks_distinct (sel : Z * Z -> Z) i j :
  (forall p, sel p = fst p) \/ (forall p, sel p = snd p) -> layout_of q = LDcb ->
  0 <= i < num_rx_queues q -> 0 <= j < num_rx_queues q ->
  let f i := sel (ixgbe_get_first_reg_idx q (i / indices (rss q))) + i mod indices (rss q) in
  0 <= f i < 128 /\ (f i = f j -> i = j).
Proof using Hwf Hct.
  intros Hsel El Hi Hj. pose proof (ct_layout q Hct) as Hl. rewrite El in Hl. destruct Hl as [Hr Hnum].
  rewrite Hnum in Hi, Hj. eapply blocks_distinct with (f := fun t => sel (ixgbe_get_first_reg_idx q t));
    [exact Hr| | |exact Hi|exact Hj].
  - intros t t' Ht Ht'. destruct (first_reg_step t t' Ht Ht') as [H1 H2]. destruct Hsel as [E|E]; rewrite !E; done.
  - intros t Ht. destruct (first_reg_bound t Ht) as [H1 H2]. destruct Hsel as [E|E]; rewrite !E; done.
Qed.

Lemma vmdq_distinct i j : layout_of q = LVmdq ->
  0 <= i < num_rx_queues q -> 0 <= j < num_rx_queues q ->
  0 <= pool_reg q (indices (rss q)) i < 128 /\
  (pool_reg q (indices (rss q)) i = pool_reg q (indices (rss q)) j -> i = j).
Proof using Hwf Hct.
  intros El Hi Hj. pose proof (ct_layout q Hct) as Hl. rewrite El in Hl. destruct Hl as (Hnum & Hv & Hl).
  rewrite Hnum in Hi, Hj. pose proof (wf_vmdq_offset q Hwf) as Ho. pose proof (wf_vmdq_82598 q Hwf) as Ho8.
  apply (pools_distinct _ (indices (vmdq q))); [|lia| |done|done]; unfold pool_size;
    destruct (is_82598 (a_mac q)).
  - destruct Hl as [(-> & _ & -> & _)|(-> & _ & ? & _)]; cbn; lia.
  - destruct Hl as [(-> & _ & ? & _)|(-> & _ & ? & _)]; cbn; lia.
  - specialize (Ho8 eq_refl). destruct Hl as [(-> & _ & _ & ?)|(-> & _ & _ & ?)]; cbn; lia.
  - destruct Hl as [(-> & _ & _ & ?)|(-> & _ & _ & ?)]; cbn; lia.
Qed.

Lemma dcb_vmdq_distinct i j : layout_of q = LDcbVmdq -> is_82598 (a_mac q) = false ->
  0 <= i < num_rx_queues q -> 0 <= j < num_rx_queues q ->
  0 <= pool_reg q (num_tc q) i < 128 /\
  (pool_reg q (num_tc q) i = pool_reg q (num_tc q) j -> i = j).
Proof using Hwf Hct.
  intros El Em Hi Hj. pose proof (ct_layout q Hct) as Hl. rewrite El, Em in Hl.
  destruct Hl as (Hm & Hnum & Hv & Hk). rewrite Hnum in Hi, Hj.
  pose proof (wf_vmdq_offset q Hwf) as Ho. pose proof (wf_tc q Hwf) as Ht.
  assert (1 < num_tc q).
  { unfold layout_of in El. destruct (Z.ltb_spec 1 (num_tc q)); [done|]. by destruct (vmdq_enabled q). }
  apply (pools_distinct _ (indices (vmdq q))); [|lia| |done|done]; unfold pool_size; rewrite Em, Hm;
    destruct (Z.ltb_spec 4 (num_tc q)); cbn; lia.
Qed.

(** receive rings have hardware queues of their own, below 128 *)
Lemma hw_rx_distinct i j : 0 <= i < num_rx_queues q -> 0 <= j < num_rx_queues q ->
  0 <= hw_rx q i < hw_limit /\ (hw_rx q i = hw_rx q j -> i = j).
Proof using Hwf Hct.
  intros Hi Hj. unfold hw_rx, hw_limit. pose proof (ct_layout q Hct) as Hl. destruct (layout_of q) eqn:El.
  - destruct (is_82598 (a_mac q)) eqn:Em; [|by apply dcb_vmdq_distinct].
    apply (distinct_below_spec (fun i => Z.land (Z.lor (Z.shiftr i 3) (Z.shiftl i 3)) 0x3F) 32 (num_rx_queues q) 128);
      [vm_compute; reflexivity|done|done|done].
  - by apply (dcb_blocks_distinct snd); [right| | |].
  - by apply vmdq_distinct.
  - lia.
Qed.

(** and so have transmit and XDP rings, but for the combination of DCB and VMDq
    on 82598 *)
Definition hw_xdp (i : Z) : Z := num_tx_queues q + i.

Lemma hw_tx_distinct i j : (layout_of q = LDcbVmdq -> is_82598 (a_mac q) = false) ->
  0 <= i < num_tx_queues q -> 0 <= j < num_tx_queues q ->
  0 <= hw_tx q i < hw_limit /\ (hw_tx q i = hw_tx q j -> i = j).
Proof using Hwf Hct.
  rewrite (ct_tx q Hct). intros Hok Hi Hj. unfold hw_tx, hw_limit. pose proof (ct_layout q Hct) as Hl.
  destruct (layout_of q) eqn:El.
  - rewrite Hok by done. by apply dcb_vmdq_distinct; [|apply Hok| |].
  - by apply (dcb_blocks_distinct fst); [left| | |].
  - by apply vmdq_distinct.
  - lia.
Qed.
End Distinct.

(** ** A concrete configuration: 82599 with eight VMDq pools of two RSS queues *)
Definition sample_conf (mac : ixgbe_mac_type) (tcs pools queues : Z) (vm : bool) : qconf :=
  mk_qconf mac tcs 71 vm false false false false true false true false false (mk_feature pools 0 0 0)
    (mk_feature queues 0 0 0) (mk_feature 63 0 0 0) (mk_feature 0 0 0 0) 0 0 0 0 0 0 64 64 20 false 0 1 1 [].

Lemma sample_wf mac tcs pools queues vm : is_82599_or_later mac = true -> 0 <= tcs <= 8 -> 1 <= pools <= 64 ->
  1 <= queues <= 63 -> wf_conf (sample_conf mac tcs pools queues vm).
Proof.
  intros Hm Ht Hp Hq. assert (is_82598 mac = false) as E by (by destruct mac).
  split; cbn; rewrite ?E; try done; try lia; auto. destruct (4 <? tcs), (1 <? tcs); lia.
Qed.

Lemma set_num_queues_wf_witness : counted (ixgbe_set_num_queues 4 8 (sample_conf ixgbe_mac_82599EB 0 8 2 true)).
Proof. apply (set_num_queues_wf 4 8 ltac:(lia)). apply sample_wf; [reflexivity|lia|lia|lia]. Defined.
