(* ===== verification/RingProps.v ===== *)
(** * The ring mapping of ixgbe_lib.c gives each ring its hardware queue

    The code walks the arrays of ring pointers; what it leaves in [reg_idx] is
    the closed form [hw_rx], [hw_tx] of QueueProps.v. *)
From S2P Require Import Prelude Regs Types Queues QueueProps.

(** ** Arrays of ring pointers *)

(** [g] applied to the first [n] rings *)
Definition maps (g : Z -> ring -> ring) (n : Z) (l : list (option ring)) : list (option ring) :=
  imap (fun i o => if Z.of_nat i <? n then g (Z.of_nat i) <$> o else o) l.

(** the first [n] pointers are not NULL *)
Definition filled (n : Z) (l : list (option ring)) : Prop :=
  forall i, 0 <= i < n -> exists r, l !! Z.to_nat i = Some (Some r).

Section Arrays.
Implicit Types l : list (option ring).

Lemma lookup_maps g n l i r : 0 <= i < n -> l !! Z.to_nat i = Some (Some r) ->
  maps g n l !! Z.to_nat i = Some (Some (g i r)).
Proof.
  intros Hi Hl. unfold maps. rewrite list_lookup_imap, Hl. cbn. rewrite Z2Nat.id by lia.
  destruct (Z.ltb_spec i n); [done|lia].
Qed.

Lemma lookup_maps_beyond g n l i : n <= i -> 0 <= i -> maps g n l !! Z.to_nat i = l !! Z.to_nat i.
Proof.
  intros Hi H0. unfold maps. rewrite list_lookup_imap. destruct (l !! Z.to_nat i); [|done]. cbn.
  rewrite Z2Nat.id by lia. by destruct (Z.ltb_spec i n); [lia|].
Qed.

Lemma maps_0 g l : maps g 0 l = l.
Proof.
  apply list_eq. intros i. unfold maps. rewrite list_lookup_imap. destruct (l !! i); [|done]. cbn.
  by destruct (Z.ltb_spec (Z.of_nat i) 0); [lia|].
Qed.

Lemma maps_length g n l : length (maps g n l) = length l.
Proof. apply length_imap. Qed.

Lemma maps_step g k l r : 0 <= k -> l !! Z.to_nat k = Some (Some r) ->
  <[Z.to_nat k := Some (g k r)]> (maps g k l) = maps g (k + 1) l.
Proof.
  intros Hk Hl. assert (Hlen : (Z.to_nat k < length l)%nat) by (by apply lookup_lt_Some in Hl).
  apply list_eq. intros i. destruct (decide (i = Z.to_nat k)) as [->|Hne].
  - rewrite list_lookup_insert_eq by (by rewrite maps_length). symmetry. apply lookup_maps; [lia|done].
  - rewrite list_lookup_insert_ne by done. unfold maps. rewrite !list_lookup_imap.
    destruct (l !! i); [|done]. cbn.
    destruct (Z.ltb_spec (Z.of_nat i) k), (Z.ltb_spec (Z.of_nat i) (k + 1)); try done; lia.
Qed.

Lemma maps_ext g g' n l : (forall i, 0 <= i < n -> g i = g' i) -> maps g n l = maps g' n l.
Proof.
  intros H. apply list_eq. intros i. unfold maps. rewrite !list_lookup_imap. destruct (l !! i); [|done]. cbn.
  destruct (Z.ltb_spec (Z.of_nat i) n); [|done]. by rewrite H by lia.
Qed.

Lemma maps_maps g h n l : maps h n (maps g n l) = maps (fun i r => h i (g i r)) n l.
Proof.
  apply list_eq. intros i. unfold maps. rewrite !list_lookup_imap. destruct (l !! i) as [[r|]|]; [| |done]; cbn;
    by destruct (Z.ltb_spec (Z.of_nat i) n).
Qed.

Lemma filled_maps g n k l : filled n l -> filled n (maps g k l).
Proof.
  intros Hf i Hi. destruct (Hf i Hi) as [r Hr]. unfold maps. rewrite list_lookup_imap, Hr. cbn.
  destruct (Z.of_nat (Z.to_nat i) <? k); eauto.
Qed.
End Arrays.

(** ** The three arrays, through one interface *)
Record ring_array := mk_array {
  ra_get : adapter -> list (option ring);
  ra_set : list (option ring) -> adapter -> adapter;
  ra_upd : Z -> (ring -> ring) -> A unit;
  ra_get_set l a : ra_get (ra_set l a) = l;
  ra_set_set l l' a : ra_set l (ra_set l' a) = ra_set l a;
  ra_set_get a : ra_set (ra_get a) a = a;
  ra_conf l a : conf (ra_set l a) = conf a;
  ra_upd_effect i f r a : 0 <= i -> ra_get a !! Z.to_nat i = Some (Some r) ->
    wp (ra_upd i f) (fun _ a' => a' = ra_set (<[Z.to_nat i := Some (f r)]> (ra_get a)) a) a;
}.

Lemma deref_effect {X} (l : list (option X)) i x (Q : X -> adapter -> Prop) a :
  0 <= i -> l !! Z.to_nat i = Some (Some x) -> Q x a -> wp (deref l i) Q a.
Proof.
  intros Hi Hl HQ. unfold deref. wp_step. eapply wp_nth_c; [done|exact Hl|]. by apply wp_ret.
Qed.

Ltac upd_effect :=
  intros i f r a Hi Hl; wp_step; apply wp_get; wp_step;
  apply (deref_effect _ _ r); [done|exact Hl|]; wp_step;
  apply wp_upd_c; [apply lookup_lt_Some in Hl; lia|]; apply wp_modify; reflexivity.

Program Definition rx_array : ring_array := {| ra_get := rx_ring; ra_set := set_rx_ring; ra_upd := upd_rx |}.
Next Obligation. done. Qed.
Next Obligation. done. Qed.
Next Obligation. by intros []. Qed.
Next Obligation. done. Qed.
Next Obligation. unfold upd_rx. upd_effect. Qed.
Program Definition tx_array : ring_array := {| ra_get := tx_ring; ra_set := set_tx_ring; ra_upd := upd_tx |}.
Next Obligation. done. Qed.
Next Obligation. done. Qed.
Next Obligation. by intros []. Qed.
Next Obligation. done. Qed.
Next Obligation. unfold upd_tx. upd_effect. Qed.
Program Definition xdp_array : ring_array := {| ra_get := xdp_ring; ra_set := set_xdp_ring; ra_upd := upd_xdp |}.
Next Obligation. done. Qed.
Next Obligation. done. Qed.
Next Obligation. by intros []. Qed.
Next Obligation. done. Qed.
Next Obligation. unfold upd_xdp. upd_effect. Qed.

Section Loops.
Context (R : ring_array).

(** one more ring *)
Lemma upd_next g k a a0 : 0 <= k -> filled (k + 1) (ra_get R a0) ->
  a = ra_set R (maps g k (ra_get R a0)) a0 ->
  wp (ra_upd R k (g k)) (fun _ a' => a' = ra_set R (maps g (k + 1) (ra_get R a0)) a0) a.
Proof.
  intros Hk Hf ->. destruct (Hf k ltac:(lia)) as [r Hr].
  eapply wp_mono; [apply (ra_upd_effect R k _ r); [done|]|].
  - rewrite ra_get_set, lookup_maps_beyond by lia. done.
  - intros [] a' ->. by rewrite ra_get_set, ra_set_set, (maps_step _ _ _ r).
Qed.

Lemma upd_loop g n a : 0 <= n -> filled n (ra_get R a) ->
  wp (for_loop (Z.to_nat n) 0 (fun i => ra_upd R i (g i)))
    (fun _ a' => a' = ra_set R (maps g n (ra_get R a)) a) a.
Proof.
  intros Hn Hf. eapply wp_mono.
  - apply (wp_for_loop _ _ _ (fun k a' => a' = ra_set R (maps g k (ra_get R a)) a)).
    + by rewrite maps_0, ra_set_get.
    + intros k a' Hk Ha'. apply upd_next; [lia| |done]. intros i Hi. apply Hf. lia.
  - intros [] a' ->. by rewrite Z.add_0_l, Z2Nat.id by lia.
Qed.
End Loops.

(** ** Layouts in pools *)

(** the masks agree with pools of [ps] queues on the registers below [B] *)
Definition masks_ok (ps B m mk : Z) : bool :=
  forallb (fun r => (Z.land r m =? r mod ps) &&
    ((r mod ps =? 0) || (B <=? (r / ps + 1) * ps) || (ALIGN_NOT_MASK r mk =? (r / ps + 1) * ps))) (seqZ 0 B).

Lemma masks_ok_spec ps B m mk r : masks_ok ps B m mk = true -> 0 <= r < B ->
  Z.land r m = r mod ps /\
  (r mod ps <> 0 -> (r / ps + 1) * ps < B -> ALIGN_NOT_MASK r mk = (r / ps + 1) * ps).
Proof.
  intros H Hr. unfold masks_ok in H. rewrite forallb_forall in H. specialize (H r).
  rewrite <- list_elem_of_In, elem_of_seqZ in H. specialize (H ltac:(lia)).
  apply andb_true_iff in H as [H1 H2]. apply Z.eqb_eq in H1. split; [done|].
  intros Hm Hb. apply orb_true_iff in H2 as [H2|H2]; [apply orb_true_iff in H2 as [H2|H2]|]; lia.
Qed.

Section Pools.
Context (q : qconf) (n k m B : Z) (R : ring_array).
Let ps := pool_size q.
Context (Hn : 1 <= n <= ps) (Ho : 0 <= offset (vmdq q)) (HB : (offset (vmdq q) + k) * ps <= B <= 128).
Context (Hmask : masks_ok ps B m (mask (vmdq q)) = true) (Hps : queues_per_pool q = ps).

(** the register before ring [i] is looked at *)
Definition next_reg (i : Z) : Z := if i =? 0 then offset (vmdq q) * ps else pool_reg q n (i - 1) + 1.

Lemma pool_reg_next i : 0 < i -> pool_reg q n i =
  if (i - 1) mod n + 1 <? n then pool_reg q n (i - 1) + 1 else (offset (vmdq q) + (i - 1) / n + 1) * ps.
Proof using Hn HB.
  intros Hi. unfold pool_reg. fold ps. pose proof (Z.mod_pos_bound (i - 1) n ltac:(lia)) as Hm.
  pose proof (Z.div_mod (i - 1) n ltac:(lia)) as Hd.
  destruct (Z.ltb_spec ((i - 1) mod n + 1) n).
  - assert (Hq : i / n = (i - 1) / n) by (symmetry; apply (Z.div_unique _ _ _ ((i - 1) mod n + 1)); lia).
    assert (i mod n = (i - 1) mod n + 1) by (pose proof (Z.div_mod i n ltac:(lia)); nia). rewrite Hq. lia.
  - assert (Hq : i / n = (i - 1) / n + 1) by (symmetry; apply (Z.div_unique _ _ _ 0); lia).
    assert (i mod n = 0) by (pose proof (Z.div_mod i n ltac:(lia)); nia). rewrite Hq. lia.
Qed.

Lemma next_reg_adjust i : 0 <= i < k * n ->
  (if n <=? Z.land (next_reg i) m then ALIGN_NOT_MASK (next_reg i) (mask (vmdq q)) else next_reg i) =
  pool_reg q n i.
Proof using Hn Ho HB Hmask.
  intros Hi. pose proof (pool_reg_bound q n i k ltac:(fold ps; lia) Ho Hi) as Hb. fold ps in Hb.
  unfold next_reg. destruct (Z.eqb_spec i 0) as [->|Hne].
  - assert (Hb0 : 0 <= offset (vmdq q) * ps < B).
    { unfold pool_reg in Hb. fold ps in Hb. rewrite Z.div_0_l, Z.mod_0_l in Hb by lia. lia. }
    destruct (masks_ok_spec ps B m (mask (vmdq q)) _ Hmask Hb0) as [-> _].
    rewrite Z.mod_mul by lia. destruct (Z.leb_spec n 0); [lia|].
    unfold pool_reg. fold ps. rewrite Z.div_0_l, Z.mod_0_l by lia. lia.
  - rewrite (pool_reg_next i) in Hb |- * by lia.
    pose proof (pool_reg_bound q n (i - 1) k ltac:(fold ps; lia) Ho ltac:(lia)) as Hb1. fold ps in Hb1.
    pose proof (Z.mod_pos_bound (i - 1) n ltac:(lia)) as Hm.
    assert (Er : pool_reg q n (i - 1) + 1 = (i - 1) mod n + 1 + (offset (vmdq q) + (i - 1) / n) * ps)
      by (unfold pool_reg; fold ps; lia).
    destruct (Z.ltb_spec ((i - 1) mod n + 1) n) as [Hlt|Hge].
    + destruct (masks_ok_spec ps B m (mask (vmdq q)) (pool_reg q n (i - 1) + 1) Hmask ltac:(lia)) as [-> _].
      rewrite Er, Z.mod_add, Z.mod_small by lia. by destruct (Z.leb_spec n ((i - 1) mod n + 1)); [lia|].
    + replace ((i - 1) mod n + 1) with n in Er by lia.
      destruct (Z.eq_dec n ps) as [En|En].
      * assert (Hr : pool_reg q n (i - 1) + 1 = (offset (vmdq q) + (i - 1) / n + 1) * ps) by lia.
        destruct (masks_ok_spec ps B m (mask (vmdq q)) (pool_reg q n (i - 1) + 1) Hmask ltac:(lia)) as [-> _].
        rewrite Hr, Z.mod_mul by lia. by destruct (Z.leb_spec n 0); [lia|].
      * assert (Hlt : pool_reg q n (i - 1) + 1 < B) by nia.
        destruct (masks_ok_spec ps B m (mask (vmdq q)) (pool_reg q n (i - 1) + 1) Hmask ltac:(lia)) as [-> Ha].
        assert (Em : (pool_reg q n (i - 1) + 1) mod ps = n) by (rewrite Er, Z.mod_add, Z.mod_small by lia; done).
        assert (Ed : (pool_reg q n (i - 1) + 1) / ps = offset (vmdq q) + (i - 1) / n).
        { rewrite Er, Z.div_add, Z.div_small by lia. lia. }
        rewrite Em in *. destruct (Z.leb_spec n n); [|lia]. rewrite Ha by (rewrite ?Ed; lia). by rewrite Ed.
Qed.

(** both loops: from the register after a ring to that after the next *)
Lemma next_reg_S i : 0 <= i < k * n -> u8 (pool_reg q n i) = pool_reg q n i /\
  u16 (pool_reg q n i + 1) = next_reg (i + 1).
Proof using Hn Ho HB.
  intros Hi. pose proof (pool_reg_bound q n i k ltac:(fold ps; lia) Ho Hi) as Hb. fold ps in Hb.
  split; [apply trunc_small; unfold in_range; change (2 ^ 8) with 256; lia|].
  rewrite u16_small by lia. unfold next_reg. destruct (Z.eqb_spec (i + 1) 0); [lia|].
  by replace (i + 1 - 1) with i by lia.
Qed.

Lemma first_reg_ok : 1 <= k -> vmdq_first_reg q = next_reg 0.
Proof using Hn Ho HB Hps.
  intros Hk. unfold vmdq_first_reg, next_reg. rewrite Hps. cbn [Z.eqb]. apply u16_small. nia.
Qed.

Definition pool_regs : Z -> ring -> ring := fun i => set_reg_idx (pool_reg q n i).

Lemma cache_pools_effect a : m = Z.lnot (mask (vmdq q)) -> 1 <= k -> filled (k * n) (ra_get R a) ->
  wp (cache_pools q (k * n) n (ra_upd R)) (fun _ a' => a' = ra_set R (maps pool_regs (k * n) (ra_get R a)) a) a.
Proof using Hn Ho HB Hmask Hps.
  intros Hm Hk Hf. unfold cache_pools. rewrite first_reg_ok by done. wp_step. eapply wp_mono.
  - apply (wp_for_acc _ _ _ _ (fun i reg a' => reg = next_reg i /\
      a' = ra_set R (maps pool_regs i (ra_get R a)) a)).
    + by rewrite maps_0, ra_set_get.
    + intros i reg a' Hi [-> Ha']. rewrite <- Hm, next_reg_adjust by nia.
      destruct (next_reg_S i ltac:(nia)) as [-> E]. wp_step.
      eapply wp_mono; [apply (upd_next R pool_regs i a' a); [lia| |done]|].
      * intros j Hj. apply Hf. lia.
      * intros [] a2 ->. apply wp_ret. by rewrite E.
  - intros reg a' [_ ->]. apply wp_ret. by rewrite Z.add_0_l, Z2Nat.id by nia.
Qed.

Lemma cache_vmdq_effect a : indices (rss q) = n -> offset (fcoe q) = 0 -> 1 <= k ->
  filled (k * n) (ra_get R a) ->
  wp (cache_vmdq q (k * n) m (ra_upd R)) (fun _ a' => a' = ra_set R (maps pool_regs (k * n) (ra_get R a)) a) a.
Proof using Hn Ho HB Hmask Hps.
  intros Hr Hfc Hk Hf. unfold cache_vmdq. rewrite first_reg_ok, Hfc, Hr by done. cbn [Z.eqb negb andb].
  wp_step. eapply wp_mono.
  - apply (wp_for_break _ _ _ _ (fun i reg a' => reg = next_reg i /\
        a' = ra_set R (maps pool_regs i (ra_get R a)) a)
      (fun x a' => match x with inl _ => a' = ra_set R (maps pool_regs (k * n) (ra_get R a)) a | inr _ => False end)).
    + by rewrite maps_0, ra_set_get.
    + intros i reg a' Hi [-> Ha']. rewrite next_reg_adjust by nia.
      destruct (next_reg_S i ltac:(nia)) as [-> E]. wp_step.
      eapply wp_mono; [apply (upd_next R pool_regs i a' a); [lia| |done]|].
      * intros j Hj. apply Hf. lia.
      * intros [] a2 ->. apply wp_ret. by rewrite E.
    + intros reg a' [_ ->]. by rewrite Z.add_0_l, Z2Nat.id by nia.
  - intros [reg|x] a' H; [|done]. by apply wp_ret.
Qed.
End Pools.

(** ** The other layouts *)
Section DcbLoop.
Context (q : qconf) (a : adapter).
Let n := indices (rss q).
Context (Hn : 1 <= n) (Ht : 0 <= num_tc q <= 8).
Context (Hrx : filled (n * num_tc q) (rx_ring a)) (Htx : filled (n * num_tc q) (tx_ring a)).

Definition dcb_tx (j : Z) (r : ring) : ring :=
  set_dcb_tc (u8 (j / n)) (set_reg_idx (u8 (fst (ixgbe_get_first_reg_idx q (j / n)) + j mod n)) r).
Definition dcb_rx (j : Z) (r : ring) : ring :=
  set_dcb_tc (u8 (j / n)) (set_reg_idx (u8 (snd (ixgbe_get_first_reg_idx q (j / n)) + j mod n)) r).
Definition dcb_done (j : Z) : adapter :=
  set_tx_ring (maps dcb_tx j (tx_ring a)) (set_rx_ring (maps dcb_rx j (rx_ring a)) a).

(** an update of the ring that was updated last *)
Lemma upd_again (R : ring_array) f i r0 l a0 : 0 <= i -> (Z.to_nat i < length l)%nat ->
  ra_get R a0 = <[Z.to_nat i := Some r0]> l ->
  wp (ra_upd R i f) (fun _ a' => a' = ra_set R (<[Z.to_nat i := Some (f r0)]> l) a0) a0.
Proof.
  intros Hi Hl Hg. eapply wp_mono; [apply (ra_upd_effect R i f r0); [done|]|].
  - rewrite Hg. by apply list_lookup_insert_eq.
  - intros [] a' ->. by rewrite Hg, list_insert_insert_eq.
Qed.

Lemma dcb_body tc i : 0 <= tc < num_tc q -> 0 <= i < n ->
  let tx_idx := fst (ixgbe_get_first_reg_idx q tc) in
  let rx_idx := snd (ixgbe_get_first_reg_idx q tc) in
  let o := tc * n in
  wp (upd_tx (o + i) (set_reg_idx (u8 (tx_idx + i))) ;;
      upd_rx (o + i) (set_reg_idx (u8 (rx_idx + i))) ;;
      upd_tx (o + i) (set_dcb_tc (u8 tc)) ;;
      upd_rx (o + i) (set_dcb_tc (u8 tc)))
    (fun _ a' => a' = dcb_done (o + i + 1)) (dcb_done (o + i)).
Proof using Hn Ht Hrx Htx.
  intros Htc Hi tx_idx rx_idx o. set (j := o + i).
  assert (Hj : 0 <= j < n * num_tc q) by (unfold j, o; nia).
  assert (Ed : j / n = tc) by (symmetry; apply (Z.div_unique _ _ _ i); unfold j, o; lia).
  assert (Em : j mod n = i) by (symmetry; apply (Z.mod_unique _ _ tc); unfold j, o; lia).
  destruct (Htx j Hj) as [rt Hrt]. destruct (Hrx j Hj) as [rr Hrr].
  assert (Lt : (Z.to_nat j < length (maps dcb_tx j (tx_ring a)))%nat) by (rewrite maps_length; by apply lookup_lt_Some in Hrt).
  assert (Lr : (Z.to_nat j < length (maps dcb_rx j (rx_ring a)))%nat) by (rewrite maps_length; by apply lookup_lt_Some in Hrr).
  wp_step. eapply wp_mono; [apply (ra_upd_effect tx_array j _ rt); [lia|]|].
  { cbn. rewrite lookup_maps_beyond by lia. done. }
  intros [] a1 ->. wp_step. eapply wp_mono; [apply (ra_upd_effect rx_array j _ rr); [lia|]|].
  { cbn. rewrite lookup_maps_beyond by lia. done. }
  intros [] a2 ->. wp_step. eapply wp_mono.
  { apply (upd_again tx_array _ j (set_reg_idx (u8 (tx_idx + i)) rt) (maps dcb_tx j (tx_ring a))); [lia|done|done]. }
  intros [] a3 ->. cbv beta. eapply wp_mono.
  { apply (upd_again rx_array _ j (set_reg_idx (u8 (rx_idx + i)) rr) (maps dcb_rx j (rx_ring a))); [lia|done|done]. }
  intros [] a4 ->. unfold dcb_done. rewrite <- (maps_step dcb_tx j _ rt), <- (maps_step dcb_rx j _ rr) by (done || lia).
  unfold dcb_tx, dcb_rx. rewrite Ed, Em. fold tx_idx rx_idx. destruct a; reflexivity.
Qed.

Lemma dcb_loop : wp (for_loop (Z.to_nat (num_tc q)) 0 (fun tc =>
      let offset := tc * n in
      let '(tx_idx, rx_idx) := ixgbe_get_first_reg_idx q tc in
      for_loop (Z.to_nat n) 0 (fun i =>
        upd_tx (offset + i) (set_reg_idx (u8 (tx_idx + i))) ;;
        upd_rx (offset + i) (set_reg_idx (u8 (rx_idx + i))) ;;
        upd_tx (offset + i) (set_dcb_tc (u8 tc)) ;;
        upd_rx (offset + i) (set_dcb_tc (u8 tc)))))
    (fun _ a' => a' = dcb_done (n * num_tc q)) a.
Proof using Hn Ht Hrx Htx.
  eapply wp_mono.
  - apply (wp_for_loop _ _ _ (fun tc a' => a' = dcb_done (tc * n))).
    + unfold dcb_done. rewrite Z.mul_0_l, !maps_0. by destruct a.
    + intros tc a' Htc ->. cbv zeta. destruct (ixgbe_get_first_reg_idx q tc) as [t r] eqn:Ei.
      eapply wp_mono.
      * apply (wp_for_loop _ _ _ (fun i a' => a' = dcb_done (tc * n + i))); [by rewrite Z.add_0_r|].
        intros i a' Hi ->. pose proof (dcb_body tc i ltac:(lia) ltac:(lia)) as Hb. rewrite Ei in Hb.
        cbn [fst snd] in Hb. cbv zeta in Hb. rewrite <- Z.add_assoc in Hb. exact Hb.
      * intros [] a2 ->. f_equal. rewrite Z2Nat.id by lia. lia.
  - intros [] a' ->. f_equal. rewrite Z2Nat.id by lia. lia.
Qed.
End DcbLoop.

(** ** The whole mapping *)
Section Mapping.
(** the rings of [a'] are those of [a] with the registers [f] *)
Definition has_regs (f : Z -> Z) (n : Z) (l l' : list (option ring)) : Prop :=
  length l' = length l /\
  (forall i r, 0 <= i < n -> l !! Z.to_nat i = Some (Some r) ->
    exists r', l' !! Z.to_nat i = Some (Some r') /\ reg_idx r' = f i) /\
  (forall i r', l' !! i = Some (Some r') ->
    exists r, l !! i = Some (Some r) /\ queue_index r' = queue_index r /\ r_vector r' = r_vector r).

Lemma has_regs_maps f g n l :
  (forall i r, 0 <= i < n -> reg_idx (g i r) = f i /\ queue_index (g i r) = queue_index r /\
     r_vector (g i r) = r_vector r) ->
  has_regs f n l (maps g n l).
Proof.
  intros Hg. split; [apply maps_length|]. split.
  - intros i r Hi Hr. exists (g i r). split; [by apply lookup_maps|]. by apply Hg.
  - intros i r'. unfold maps. rewrite list_lookup_imap. destruct (l !! i) as [[r|]|]; [| |done]; cbn;
      destruct (Z.ltb_spec (Z.of_nat i) n); intros [= <-]; exists r; (split; [done|]); [|done].
    destruct (Hg (Z.of_nat i) r ltac:(lia)) as (_ & ? & ?). done.
Qed.

Lemma has_regs_none f n l : n <= 0 -> has_regs f n l l.
Proof. intros Hn. split; [done|]. split; [lia|]. intros i r Hr. by exists r. Qed.

Record mapping (a a' : adapter) : Prop := {
  mp_conf : conf a' = conf a;
  mp_vectors : q_vector a' = q_vector a;
  mp_rx : has_regs (hw_rx (conf a)) (num_rx_queues (conf a)) (rx_ring a) (rx_ring a');
  mp_tx : has_regs (hw_tx (conf a)) (num_tx_queues (conf a)) (tx_ring a) (tx_ring a');
  mp_xdp : has_regs (hw_xdp (conf a)) (num_xdp_queues (conf a)) (xdp_ring a) (xdp_ring a');
}.

Context (a : adapter).
Let q := conf a.
Context (Hwf : wf_conf q) (Hct : counted q).
Context (Hrx : filled (num_rx_queues q) (rx_ring a)) (Htx : filled (num_tx_queues q) (tx_ring a))
  (Hxdp : filled (num_xdp_queues q) (xdp_ring a)).

(** receive rings, then transmit rings, by the same closed form *)
Lemma mapping_both g : layout_of q <> LRss ->
  (forall i r, 0 <= i < num_rx_queues q -> reg_idx (g i r) = hw_rx q i /\ reg_idx (g i r) = hw_tx q i /\
     queue_index (g i r) = queue_index r /\ r_vector (g i r) = r_vector r) ->
  mapping a (set_tx_ring (maps g (num_tx_queues q) (tx_ring a))
               (set_rx_ring (maps g (num_rx_queues q) (rx_ring a)) a)).
Proof using Hct.
  intros Hl Hg. split; [done|done| | |]; fold q; cbn.
  - apply has_regs_maps. intros i r Hi. specialize (Hg i r Hi). naive_solver.
  - apply has_regs_maps. rewrite (ct_tx q Hct). intros i r Hi. specialize (Hg i r Hi). naive_solver.
  - apply has_regs_none. by rewrite (ct_no_xdp q Hct).
Qed.

Lemma two_loops (m1 m2 : A unit) g1 g2 :
  (forall a0, rx_ring a0 = rx_ring a -> wp m1 (fun _ a' => a' = set_rx_ring (maps g1 (num_rx_queues q) (rx_ring a0)) a0) a0) ->
  (forall a0, tx_ring a0 = tx_ring a -> wp m2 (fun _ a' => a' = set_tx_ring (maps g2 (num_tx_queues q) (tx_ring a0)) a0) a0) ->
  wp (m1 ;; m2) (fun _ a' => a' = set_tx_ring (maps g2 (num_tx_queues q) (tx_ring a))
                                   (set_rx_ring (maps g1 (num_rx_queues q) (rx_ring a)) a)) a.
Proof.
  intros H1 H2. wp_step. eapply wp_mono; [by apply H1|]. intros [] a1 ->. cbv beta.
  eapply wp_mono; [by apply H2|]. by intros [] a2 ->.
Qed.

Lemma pool_regs_eq n i r : reg_idx (pool_regs q n i r) = pool_reg q n i /\
  queue_index (pool_regs q n i r) = queue_index r /\ r_vector (pool_regs q n i r) = r_vector r.
Proof. done. Qed.

(** DCB with VMDq *)
Lemma map_dcb_vmdq : layout_of q = LDcbVmdq ->
  wp ixgbe_cache_ring_dcb_vmdq (fun b a' => b = true /\ mapping a a') a.
Proof using Hwf Hct Hrx Htx.
  intros El. pose proof (ct_layout q Hct) as Hl. rewrite El in Hl.
  assert (Ht : 1 < num_tc q /\ vmdq_enabled q = true).
  { unfold layout_of in El. destruct (Z.ltb_spec 1 (num_tc q)), (vmdq_enabled q); done. }
  destruct Ht as [Ht Hv]. unfold ixgbe_cache_ring_dcb_vmdq. wp_step. apply wp_get. fold q. cbv zeta.
  destruct (Z.leb_spec (num_tc q) 1); [lia|]. rewrite Hv. cbn [negb].
  rewrite (proj1 (wf_fcoe q Hwf)). cbn [negb]. wp_step. eapply wp_mono with (P := fun _ a' => mapping a a');
    [|intros [] a' Hm; by apply wp_ret].
  pose proof (wf_tc q Hwf) as Htc. pose proof (wf_vmdq_offset q Hwf) as Ho. pose proof (ct_rx q Hct) as Hr1.
  destruct (is_82598 (a_mac q)) eqn:Em.
  - eapply wp_mono; [eapply two_loops|].
    + intros a0 E. apply (upd_loop rx_array (fun i => set_reg_idx (Z.land (Z.lor (Z.shiftr i 3) (Z.shiftl i 3)) 0x3F)));
        [lia|]. cbn. by rewrite E.
    + intros a0 E. apply (upd_loop tx_array (fun i => set_reg_idx (Z.land (Z.lor (Z.shiftr i 4) (Z.shiftl i 2)) 0x1F)));
        [rewrite (ct_tx q Hct); lia|]. cbn. by rewrite E.
    + intros [] a' ->. split; [done|done| | |]; fold q; cbn.
      * apply has_regs_maps. intros i r Hi. unfold hw_rx. by rewrite El, Em.
      * apply has_regs_maps. intros i r Hi. unfold hw_tx. by rewrite El, Em.
      * apply has_regs_none. by rewrite (ct_no_xdp q Hct) by (by rewrite El).
  - destruct (wf_mac q Hwf) as [?|Hm]; [congruence|]. rewrite Hm. destruct Hl as (Hmask & Hnum & Hvi & Hoff).
    assert (Hpool : forall (R : ring_array) a0, filled (num_rx_queues q) (ra_get R a0) ->
      wp (cache_pools q (num_rx_queues q) (num_tc q) (ra_upd R))
        (fun _ a' => a' = ra_set R (maps (pool_regs q (num_tc q)) (num_rx_queues q) (ra_get R a0)) a0) a0).
    { intros R a0 Hf. rewrite Hnum in *.
      apply (cache_pools_effect q (num_tc q) (indices (vmdq q)) (Z.lnot (mask (vmdq q))) 128 R);
        unfold pool_size, queues_per_pool; rewrite ?Em, ?Hmask; [| | | | |done|done|done];
        destruct (Z.ltb_spec 4 (num_tc q)); try (by vm_compute); cbn; lia. }
    eapply wp_mono; [eapply (two_loops _ _ (pool_regs q (num_tc q)) (pool_regs q (num_tc q)))|].
    + intros a0 E. apply (Hpool rx_array). cbn. by rewrite E.
    + intros a0 E. rewrite (ct_tx q Hct). apply (Hpool tx_array). cbn. rewrite E, <- (ct_tx q Hct). done.
    + intros [] a' ->. apply mapping_both; [by rewrite El|]. intros i r Hi. unfold hw_rx, hw_tx. by rewrite El, Em.
Qed.

(** VMDq *)
Lemma map_vmdq : layout_of q = LVmdq -> wp ixgbe_cache_ring_vmdq (fun b a' => b = true /\ mapping a a') a.
Proof using Hwf Hct Hrx Htx.
  intros El. pose proof (ct_layout q Hct) as Hl. rewrite El in Hl. destruct Hl as (Hnum & Hvi & Hl).
  assert (Hv : vmdq_enabled q = true).
  { unfold layout_of in El. destruct (1 <? num_tc q), (vmdq_enabled q); done. }
  unfold ixgbe_cache_ring_vmdq. wp_step. apply wp_get. fold q. cbv zeta. rewrite Hv. cbn [negb].
  pose proof (wf_vmdq_offset q Hwf) as Ho. pose proof (wf_vmdq_82598 q Hwf) as Ho8.
  assert (Hpool : forall m (R : ring_array) a0, m = Z.lnot (mask (vmdq q)) \/ m = mask (rss q) ->
    filled (num_rx_queues q) (ra_get R a0) ->
    wp (cache_vmdq q (num_rx_queues q) m (ra_upd R))
      (fun _ a' => a' = ra_set R (maps (pool_regs q (indices (rss q))) (num_rx_queues q) (ra_get R a0)) a0) a0).
  { intros m R a0 Hm Hf. rewrite Hnum in *. destruct (is_82598 (a_mac q)) eqn:Em.
    - specialize (Ho8 eq_refl). destruct Hl as [(E1 & E2 & E3 & Hk)|(E1 & E2 & E3 & Hk)].
      + apply (cache_vmdq_effect q (indices (rss q)) (indices (vmdq q)) m 16 R);
          unfold pool_size, queues_per_pool; rewrite ?Em, ?E1, ?Ho8; cbn; try lia; try done;
          [destruct Hm as [-> | ->]; rewrite ?E1, ?E2; by vm_compute|apply (wf_fcoe q Hwf)].
      + apply (cache_vmdq_effect q (indices (rss q)) (indices (vmdq q)) m 32 R);
          unfold pool_size, queues_per_pool; rewrite ?Em, ?E1, ?Ho8; cbn; try lia; try done;
          [destruct Hm as [-> | ->]; rewrite ?E1, ?E2; by vm_compute|apply (wf_fcoe q Hwf)].
    - destruct Hl as [(E1 & E2 & E3 & Hk)|(E1 & E2 & E3 & Hk)].
      + apply (cache_vmdq_effect q (indices (rss q)) (indices (vmdq q)) m 128 R);
          unfold pool_size, queues_per_pool; rewrite ?Em, ?E1; cbn; try lia; try done;
          [destruct Hm as [-> | ->]; rewrite ?E1, ?E2; by vm_compute|apply (wf_fcoe q Hwf)].
      + apply (cache_vmdq_effect q (indices (rss q)) (indices (vmdq q)) m 128 R);
          unfold pool_size, queues_per_pool; rewrite ?Em, ?E1; cbn; try lia; try done;
          [destruct Hm as [-> | ->]; rewrite ?E1, ?E2; by vm_compute|apply (wf_fcoe q Hwf)]. }
  rewrite (ct_tx q Hct). rewrite (ct_tx q Hct) in Htx.
  wp_step. eapply wp_mono; [apply (Hpool _ rx_array); [by left|done]|]. intros [] a1 ->. wp_step.
  eapply wp_mono; [apply (Hpool _ tx_array); [by right|done]|]. intros [] a2 ->. apply wp_ret. split; [done|].
  assert (Hm : mapping a (set_tx_ring (maps (pool_regs q (indices (rss q))) (num_tx_queues q) (tx_ring a))
      (set_rx_ring (maps (pool_regs q (indices (rss q))) (num_rx_queues q) (rx_ring a)) a))).
  { apply mapping_both; [by rewrite El|]. intros i r Hi. unfold hw_rx, hw_tx. by rewrite El. }
  rewrite (ct_tx q Hct) in Hm. exact Hm.
Qed.

Lemma u8_small x : 0 <= x < 256 -> u8 x = x.
Proof. intros. apply trunc_small. unfold in_range. change (2 ^ 8) with 256. lia. Qed.

(** DCB *)
Lemma map_dcb : layout_of q = LDcb -> wp ixgbe_cache_ring_dcb (fun b a' => b = true /\ mapping a a') a.
Proof using Hwf Hct Hrx Htx.
  intros El. pose proof (ct_layout q Hct) as Hl. rewrite El in Hl. destruct Hl as [Hr Hnum].
  assert (Ht : 1 < num_tc q).
  { unfold layout_of in El. destruct (Z.ltb_spec 1 (num_tc q)), (vmdq_enabled q); done. }
  pose proof (wf_tc q Hwf) as Htc. pose proof (ct_tx q Hct) as Etx.
  unfold ixgbe_cache_ring_dcb. wp_step. apply wp_get. fold q. cbv zeta.
  destruct (Z.leb_spec (num_tc q) 1); [lia|]. wp_step.
  eapply wp_mono; [apply (dcb_loop q a); [lia|done|by rewrite <- Hnum|by rewrite <- Hnum, <- Etx]|].
  intros [] a' ->. apply wp_ret. split; [done|]. unfold dcb_done. rewrite <- Hnum.
  split; [done|done| | |]; fold q; cbn.
  - apply has_regs_maps. intros i r Hi. unfold hw_rx. rewrite El. split; [|done]. cbn. apply u8_small.
    destruct (dcb_blocks_distinct q Hwf Hct snd i i (or_intror (fun p => eq_refl)) El Hi Hi). lia.
  - rewrite Etx. apply has_regs_maps. intros i r Hi. unfold hw_tx. rewrite El. split; [|done]. cbn. apply u8_small.
    destruct (dcb_blocks_distinct q Hwf Hct fst i i (or_introl (fun p => eq_refl)) El Hi Hi). lia.
  - apply has_regs_none. by rewrite (ct_no_xdp q Hct) by (by rewrite El).
Qed.

(** RSS, with the XDP rings behind the transmit rings *)
Lemma map_rss : layout_of q = LRss -> wp ixgbe_cache_ring_rss (fun b a' => b = true /\ mapping a a') a.
Proof using Hwf Hct Hrx Htx Hxdp.
  intros El. pose proof (ct_layout q Hct) as Hl. rewrite El in Hl. pose proof (ct_rx q Hct). pose proof (ct_xdp q Hct).
  pose proof (ct_tx q Hct) as Etx. unfold ixgbe_cache_ring_rss. wp_step. apply wp_get. fold q. cbv zeta.
  wp_step. eapply wp_mono; [apply (upd_loop rx_array (fun i => set_reg_idx (u8 i))); [lia|done]|].
  intros [] a1 ->. wp_step. eapply wp_mono; [apply (upd_loop tx_array (fun i => set_reg_idx (u8 i))); [lia|done]|].
  intros [] a2 ->. wp_step.
  eapply wp_mono; [apply (upd_loop xdp_array (fun i => set_reg_idx (u8 (Z.max 0 (num_tx_queues q) + i)))); [lia|done]|].
  intros [] a3 ->. apply wp_ret. split; [done|]. split; [done|done| | |]; fold q;
    cbn [rx_ring tx_ring xdp_ring set_rx_ring set_tx_ring set_xdp_ring ra_get ra_set rx_array tx_array xdp_array conf];
    apply has_regs_maps; intros i r Hi; (split; [|done]); cbn; rewrite ?u8_small by lia; unfold hw_rx, hw_tx, hw_xdp; rewrite ?El; lia.
Qed.
End Mapping.

(** ** The result *)

(** no two of the first [n] rings drive the same hardware queue *)
Definition own_queues (n : Z) (l : list (option ring)) : Prop :=
  forall i j r r', 0 <= i < n -> 0 <= j < n -> l !! Z.to_nat i = Some (Some r) -> l !! Z.to_nat j = Some (Some r') ->
    0 <= reg_idx r < hw_limit /\ (reg_idx r = reg_idx r' -> i = j).

Lemma has_regs_own f n l l' : filled n l -> has_regs f n l l' ->
  (forall i j, 0 <= i < n -> 0 <= j < n -> 0 <= f i < hw_limit /\ (f i = f j -> i = j)) -> own_queues n l'.
Proof.
  intros Hf Hm Hd i j r r' Hi Hj Hr Hr'. destruct (Hf i Hi) as [x Hx]. destruct (Hf j Hj) as [y Hy].
  destruct Hm as (_ & Hm & _).
  destruct (Hm i x Hi Hx) as (x' & Ex & Rx). destruct (Hm j y Hj Hy) as (y' & Ey & Ry).
  simplify_eq. rewrite Rx, Ry. by apply Hd.
Qed.

Section Register.
Context (a : adapter) (Hwf : wf_conf (conf a)) (Hct : counted (conf a)).
Context (Hrx : filled (num_rx_queues (conf a)) (rx_ring a)) (Htx : filled (num_tx_queues (conf a)) (tx_ring a))
  (Hxdp : filled (num_xdp_queues (conf a)) (xdp_ring a)).

(** the layouts tried before the one of the configuration leave the rings alone *)
Lemma not_dcb_vmdq (Q : bool -> adapter -> Prop) : layout_of (conf a) <> LDcbVmdq -> Q false a ->
  wp ixgbe_cache_ring_dcb_vmdq Q a.
Proof.
  intros El HQ. unfold ixgbe_cache_ring_dcb_vmdq. wp_step. apply wp_get. cbv zeta.
  destruct (Z.leb_spec (num_tc (conf a)) 1); [by apply wp_ret|].
  destruct (vmdq_enabled (conf a)) eqn:Ev; [|by apply wp_ret].
  destruct El. unfold layout_of. rewrite Ev. by destruct (Z.ltb_spec 1 (num_tc (conf a))); [|lia].
Qed.

Lemma not_dcb (Q : bool -> adapter -> Prop) : num_tc (conf a) <= 1 -> Q false a -> wp ixgbe_cache_ring_dcb Q a.
Proof.
  intros El HQ. unfold ixgbe_cache_ring_dcb. wp_step. apply wp_get. cbv zeta.
  destruct (Z.leb_spec (num_tc (conf a)) 1); [by apply wp_ret|lia].
Qed.

Lemma not_vmdq (Q : bool -> adapter -> Prop) : vmdq_enabled (conf a) = false -> Q false a ->
  wp ixgbe_cache_ring_vmdq Q a.
Proof. intros El HQ. unfold ixgbe_cache_ring_vmdq. wp_step. apply wp_get. cbv zeta. rewrite El. by apply wp_ret. Qed.

Lemma register_mapping : wp ixgbe_cache_ring_register (fun _ a' => mapping a a') a.
Proof using Hwf Hct Hrx Htx Hxdp.
  unfold ixgbe_cache_ring_register. wp_step. destruct (layout_of (conf a)) eqn:El.
  { eapply wp_mono; [by apply map_dcb_vmdq|]. intros b a' [-> Hm]. by apply wp_ret. }
  all: apply not_dcb_vmdq; [by rewrite El|]; wp_step.
  { eapply wp_mono; [by apply map_dcb|]. intros b a' [-> Hm]. by apply wp_ret. }
  all: assert (Ht : num_tc (conf a) <= 1) by
    (unfold layout_of in El; destruct (Z.ltb_spec 1 (num_tc (conf a))), (vmdq_enabled (conf a)); done).
  all: apply not_dcb; [done|]; wp_step.
  { eapply wp_mono; [by apply map_vmdq|]. intros b a' [-> Hm]. by apply wp_ret. }
  apply not_vmdq.
  { unfold layout_of in El. by destruct (1 <? num_tc (conf a)), (vmdq_enabled (conf a)). }
  wp_step. eapply wp_mono; [by apply map_rss|]. intros b a' [_ Hm]. by apply wp_ret.
Qed.

(** The ring mapping always succeeds, leaves the configuration and the vectors
    alone and gives every receive, transmit and XDP ring the hardware queue of the
    layout; receive rings never share a queue, nor do transmit and XDP rings outside
    of the combination of DCB and VMDq on 82598. *)
Lemma cache_ring_register_distinct :
  wp ixgbe_cache_ring_register (fun _ a' =>
    mapping a a' /\ own_queues (num_rx_queues (conf a)) (rx_ring a') /\
    ((layout_of (conf a) = LDcbVmdq -> is_82598 (a_mac (conf a)) = false) ->
     own_queues (num_tx_queues (conf a)) (tx_ring a') /\
     forall i j r r', 0 <= i < num_tx_queues (conf a) -> 0 <= j < num_xdp_queues (conf a) ->
       tx_ring a' !! Z.to_nat i = Some (Some r) -> xdp_ring a' !! Z.to_nat j = Some (Some r') ->
       reg_idx r < reg_idx r' < hw_limit)) a.
Proof using Hwf Hct Hrx Htx Hxdp.
  eapply wp_mono; [apply register_mapping|]. intros [] a' Hm. split; [done|]. destruct Hm as [_ _ Hr Ht Hx]. split.
  { eapply has_regs_own; [done|exact Hr|]. by apply hw_rx_distinct. }
  intros Hok. split; [eapply has_regs_own; [done|exact Ht|]; intros i j; by apply hw_tx_distinct|].
  intros i j r r' Hi Hj Er Er'. destruct (Htx i Hi) as [x Ex]. destruct (Hxdp j Hj) as [y Ey].
  destruct (proj1 (proj2 Ht) i x Hi Ex) as (x' & Ex' & Rx). destruct (proj1 (proj2 Hx) j y Hj Ey) as (y' & Ey' & Ry). simplify_eq.
  rewrite Rx, Ry. unfold hw_xdp, hw_tx. pose proof (ct_no_xdp _ Hct) as Hno. pose proof (ct_xdp _ Hct).
  pose proof (ct_layout _ Hct) as Hl. pose proof (ct_tx _ Hct).
  destruct (layout_of (conf a)); [rewrite Hno in Hj by done; lia..|]. unfold hw_limit. lia.
Qed.
End Register.

(** With DCB and VMDq on 82598 the mapping gives the transmit rings 0 and 8,
    which belong to different pools, the same hardware queue, although the receive
    rings keep their own: the shift should be by three, as for the receive rings. *)
Theorem tx_82598_dcb_vmdq_collision a : wf_conf (conf a) -> counted (conf a) ->
  layout_of (conf a) = LDcbVmdq -> is_82598 (a_mac (conf a)) = true -> 9 <= num_tx_queues (conf a) ->
  filled (num_rx_queues (conf a)) (rx_ring a) -> filled (num_tx_queues (conf a)) (tx_ring a) ->
  wp ixgbe_cache_ring_register (fun _ a' =>
    (exists r r', tx_ring a' !! 0%nat = Some (Some r) /\ tx_ring a' !! 8%nat = Some (Some r') /\ reg_idx r = reg_idx r') /\
    own_queues (num_rx_queues (conf a)) (rx_ring a')) a.
Proof.
  intros Hwf Hct El Em Hn Hrx Htx.
  assert (Hxdp : filled (num_xdp_queues (conf a)) (xdp_ring a)).
  { rewrite (ct_no_xdp _ Hct) by (by rewrite El). intros i Hi. lia. }
  eapply wp_mono; [by apply register_mapping|]. intros [] a' [_ _ Hr (_ & Ht & _) _]. split.
  - destruct (Htx 0 ltac:(lia)) as [x Hx]. destruct (Htx 8 ltac:(lia)) as [y Hy].
    destruct (Ht 0 x ltac:(lia) Hx) as (r & Hr0 & E0). destruct (Ht 8 y ltac:(lia) Hy) as (r' & Hr8 & E8).
    exists r, r'. split; [exact Hr0|]. split; [exact Hr8|]. rewrite E0, E8. unfold hw_tx. by rewrite El, Em.
  - eapply has_regs_own; [exact Hrx|exact Hr|]. by apply hw_rx_distinct.
Qed.

(** 82598 with eight classes in four pools *)
Definition sample_82598 : adapter :=
  let q := ixgbe_set_num_queues 4 8 (set_num_tc 8 (sample_conf ixgbe_mac_82598EB 0 4 1 true)) in
  let rings := map (fun i => Some (mk_ring i 0 0 0 false false)) (seqZ 0 32) in
  mk_adapter q rings rings [] [].

Lemma sample_filled i : 0 <= i < 32 ->
  exists r, map (fun i => Some (mk_ring i 0 0 0 false false)) (seqZ 0 32) !! Z.to_nat i = Some (Some r).
Proof.
  intros Hi. exists (mk_ring i 0 0 0 false false). rewrite list_lookup_fmap, lookup_seqZ_lt by lia.
  cbn. by rewrite Z2Nat.id by lia.
Qed.

Lemma tx_82598_dcb_vmdq_collision_witness : wp ixgbe_cache_ring_register (fun _ a' =>
    (exists r r', tx_ring a' !! 0%nat = Some (Some r) /\ tx_ring a' !! 8%nat = Some (Some r') /\ reg_idx r = reg_idx r') /\
    own_queues 32 (rx_ring a')) sample_82598.
Proof.
  apply (tx_82598_dcb_vmdq_collision sample_82598); [| |reflexivity|reflexivity|by vm_compute| |].
  3,4: exact sample_filled.
  all: split; try done; vm_compute; try done; first [by left | by right | by intros _; right].
Defined.
