(* ===== verification/VectorProps.v ===== *)
(** * Every ring is served by an interrupt vector (Queues.v)

    [ixgbe_alloc_q_vectors] spreads the rings over the vectors; when an
    allocation fails everything is taken back.  [vectors_ok] is the invariant
    between the arrays of rings and the lists of the vectors. *)
From S2P Require Import Prelude Regs Types Queues QueueProps RingProps.

(** ** Rings and vectors *)
Inductive kind := KTx | KXdp | KRx.

#[export] Instance kind_eq_dec : EqDecision kind.
Proof. solve_decision. Defined.

Definition arr (k : kind) : ring_array := match k with KTx => tx_array | KXdp => xdp_array | KRx => rx_array end.
Definition rings (k : kind) (a : adapter) : list (option ring) := ra_get (arr k) a.
Definition count (k : kind) (q : qconf) : Z :=
  match k with KTx => num_tx_queues q | KXdp => num_xdp_queues q | KRx => num_rx_queues q end.
Definition add (k : kind) : Z -> Z -> A unit :=
  match k with KTx => add_tx_ring | KXdp => add_xdp_ring | KRx => add_rx_ring end.

(** the vector has ring [i] on its list *)
Definition listed (k : kind) (qv : ixgbe_q_vector) (i : Z) : Prop :=
  match k with KTx => (false, i) ∈ v_tx qv | KXdp => (true, i) ∈ v_tx qv | KRx => i ∈ v_rx qv end.

(** the first [n] vectors exist and list rings of the arrays; every ring knows its
    index and is on the list of its vector *)
Record vectors_ok (n : Z) (a : adapter) : Prop := {
  vo_vec : forall v, 0 <= v < n -> exists qv, q_vector a !! Z.to_nat v = Some (Some qv) /\
    forall k i, listed k qv i -> 0 <= i < Z.of_nat (length (rings k a));
  vo_none : forall v qv, n <= v -> 0 <= v -> q_vector a !! Z.to_nat v <> Some (Some qv);
  vo_ring : forall k i r, 0 <= i -> rings k a !! Z.to_nat i = Some (Some r) ->
    queue_index r = i /\ 0 <= r_vector r < n /\
    exists qv, q_vector a !! Z.to_nat (r_vector r) = Some (Some qv) /\ listed k qv i;
}.

Definition present (k : kind) (a : adapter) (i : Z) : Prop :=
  exists r, rings k a !! Z.to_nat i = Some (Some r).

(** rings only come in *)
Record grows (a a' : adapter) : Prop := {
  gr_conf : conf a' = conf a;
  gr_vec : length (q_vector a') = length (q_vector a);
  gr_len : forall k, length (rings k a') = length (rings k a);
  gr_keep : forall k i, present k a i -> present k a' i;
}.

#[export] Instance grows_preorder : PreOrder grows.
Proof.
  split.
  - by intros a.
  - intros a b c [] []. split; [congruence|congruence|intros; congruence|auto].
Qed.

Lemma rings_set k k' l a : rings k (ra_set (arr k') l a) = if decide (k = k') then l else rings k a.
Proof. by destruct k, k'. Qed.
Lemma rings_set_vec k l a : rings k (set_q_vector l a) = rings k a.
Proof. by destruct k. Qed.
Lemma vec_set k l a : q_vector (ra_set (arr k) l a) = q_vector a.
Proof. by destruct k. Qed.

(** ** Adding a ring *)
Definition added (k : kind) (v i : Z) (qv : ixgbe_q_vector) (a a' : adapter) : Prop :=
  exists qv' r, a' = ra_set (arr k) (<[Z.to_nat i := Some r]> (rings k a))
                       (set_q_vector (<[Z.to_nat v := Some qv']> (q_vector a)) a) /\
    queue_index r = i /\ r_vector r = v /\
    forall k' j, listed k' qv' j <-> listed k' qv j \/ (k' = k /\ j = i).

Lemma add_effect k v i qv a : 0 <= v -> q_vector a !! Z.to_nat v = Some (Some qv) ->
  0 <= i < Z.of_nat (length (rings k a)) -> i < 256 ->
  wp (add k v i) (fun _ a' => added k v i qv a a') a.
Proof.
  intros Hv Hq Hi Hi8. pose proof (lookup_lt_Some _ _ _ Hq) as Hlt.
  assert (E8 : u8 i = i) by (apply u8_small; lia).
  destruct k; cbn [add]; unfold add_tx_ring, add_xdp_ring, add_rx_ring; wp_step; apply wp_get; cbv zeta; wp_step;
    (eapply deref_effect; [done|exact Hq|]); wp_step; (apply wp_upd_c; [lia|]); wp_step; (apply wp_upd_c; [exact Hi|]);
    apply wp_modify; rewrite E8; eexists _, _; (split; [reflexivity|]); (split; [done|]); (split; [done|]);
    intros [] j; cbn; rewrite ?elem_of_cons; naive_solver.
Qed.

Lemma added_ok n k v i qv a a' : 0 <= v < n -> vectors_ok n a -> q_vector a !! Z.to_nat v = Some (Some qv) ->
  0 <= i < Z.of_nat (length (rings k a)) -> added k v i qv a a' ->
  vectors_ok n a' /\ grows a a' /\ present k a' i.
Proof.
  intros Hv [Hvec Hnone Hring] Hq Hi (qv' & r & -> & Er & Ev & Hl).
  pose proof (lookup_lt_Some _ _ _ Hq) as Hlt.
  assert (Hrings : forall k' j, rings k' (ra_set (arr k) (<[Z.to_nat i:=Some r]> (rings k a))
      (set_q_vector (<[Z.to_nat v:=Some qv']> (q_vector a)) a)) !! j =
      if decide (k' = k /\ j = Z.to_nat i) then Some (Some r) else rings k' a !! j).
  { intros k' j. rewrite rings_set. destruct (decide (k' = k)) as [->|Hk].
    - destruct (decide (j = Z.to_nat i)) as [->|Hj].
      + rewrite list_lookup_insert_eq by lia. by rewrite decide_True.
      + rewrite list_lookup_insert_ne by done. rewrite decide_False by naive_solver. done.
    - rewrite rings_set_vec, decide_False by naive_solver. done. }
  assert (Hlen : forall k', length (rings k' (ra_set (arr k) (<[Z.to_nat i:=Some r]> (rings k a))
      (set_q_vector (<[Z.to_nat v:=Some qv']> (q_vector a)) a))) = length (rings k' a)).
  { intros k'. rewrite rings_set. destruct (decide (k' = k)) as [->|Hk]; [by rewrite length_insert|by rewrite rings_set_vec]. }
  set (a' := ra_set _ _ _) in *.
  assert (Hqv : forall w, q_vector a' !! w = if decide (w = Z.to_nat v) then Some (Some qv') else q_vector a !! w).
  { intros w. unfold a'. rewrite vec_set. cbn. destruct (decide (w = Z.to_nat v)) as [->|Hw].
    - by rewrite list_lookup_insert_eq.
    - by rewrite list_lookup_insert_ne. }
  split; [split|split; [split|]].
  - intros w Hw. rewrite Hqv. destruct (decide (Z.to_nat w = Z.to_nat v)) as [E|E].
    + exists qv'. split; [done|]. intros k' j Hj. rewrite Hlen. apply Hl in Hj as [Hj|[-> ->]]; [|done].
      destruct (Hvec v Hv) as (qv0 & Hq0 & Hb). simplify_eq. by apply Hb.
    + destruct (Hvec w Hw) as (qv0 & Hq0 & Hb). exists qv0. split; [done|]. intros k' j. rewrite Hlen. apply Hb.
  - intros w qv0 Hw Hw0. rewrite Hqv, decide_False by lia. by apply Hnone.
  - intros k' j r' Hj. rewrite Hrings. destruct (decide (k' = k /\ Z.to_nat j = Z.to_nat i)) as [[-> E]|E].
    + intros [= <-]. assert (j = i) as -> by lia. split; [done|]. rewrite Ev. split; [done|].
      exists qv'. rewrite Hqv, decide_True by done. split; [done|]. apply Hl. by right.
    + intros Hr'. destruct (Hring k' j r' Hj Hr') as (H1 & H2 & qv0 & H3 & H4). split; [done|]. split; [done|].
      destruct (decide (r_vector r' = v)) as [E1|E1].
      * exists qv'. rewrite Hqv, decide_True by (by rewrite E1). split; [done|]. apply Hl. left. congruence.
      * exists qv0. rewrite Hqv, decide_False by lia. done.
  - unfold a'. by destruct k.
  - unfold a'. rewrite vec_set. apply length_insert.
  - apply Hlen.
  - intros k' j [r' Hr']. unfold present. rewrite Hrings. destruct (decide _); eauto.
  - exists r. rewrite Hrings. by rewrite decide_True.
Qed.

(** the arrays have at most 256 entries: [queue_index] is a byte *)
Definition small_arrays (a : adapter) : Prop := forall k, (length (rings k a) <= 256)%nat.

Lemma small_grows a a' : grows a a' -> small_arrays a -> small_arrays a'.
Proof. intros Hg Hs k. rewrite (gr_len _ _ Hg). apply Hs. Qed.

(** one of the three loops: [m] rings, the [j]th at [f j] *)
Lemma add_loop k v n m (f : Z -> Z) a : 0 <= v < n -> vectors_ok n a -> small_arrays a -> 0 <= m ->
  (forall j, 0 <= j < m -> 0 <= f j < Z.of_nat (length (rings k a))) ->
  wp (for_loop (Z.to_nat m) 0 (fun j => add k v (f j)))
    (fun _ a' => vectors_ok n a' /\ grows a a' /\ forall j, 0 <= j < m -> present k a' (f j)) a.
Proof.
  intros Hv Hok Hs Hm Hf. eapply wp_mono.
  - apply (wp_for_loop _ _ _ (fun j a' => vectors_ok n a' /\ grows a a' /\ forall j', 0 <= j' < j -> present k a' (f j'))).
    + split; [done|]. split; [done|]. intros j' Hj'. lia.
    + intros j a' Hj (Hok' & Hg & Hp). destruct (vo_vec _ _ Hok' v Hv) as (qv & Hq & _).
      pose proof (gr_len _ _ Hg k) as El. pose proof (Hf j ltac:(lia)) as Hfj. pose proof (Hs k) as Hsk.
      eapply wp_mono; [apply (add_effect k v (f j) qv a'); [lia|done|by rewrite El|lia]|].
      intros [] a2 Ha2. destruct (added_ok n k v (f j) qv a' a2 Hv Hok' Hq ltac:(by rewrite El) Ha2) as (H1 & H2 & H3).
      split; [done|]. split; [by transitivity a'|]. intros j' Hj'.
      destruct (decide (j' = j)) as [->|Hne]; [done|]. apply (gr_keep _ _ H2), Hp. lia.
  - intros [] a' (H1 & H2 & H3). split; [done|]. split; [done|]. intros j Hj. apply H3. lia.
Qed.

(** a new vector without rings *)
Lemma new_vector_ok n v itr a : 0 <= n -> v = n -> n < Z.of_nat (length (q_vector a)) -> vectors_ok n a ->
  let a' := set_q_vector (<[Z.to_nat v := Some (mk_q_vector v itr [] [])]> (q_vector a)) a in
  vectors_ok (n + 1) a' /\ grows a a'.
Proof.
  intros Hn -> Hlt [Hvec Hnone Hring] a'.
  assert (Hqv : forall w, q_vector a' !! w = if decide (w = Z.to_nat n) then Some (Some (mk_q_vector n itr [] []))
                                             else q_vector a !! w).
  { intros w. cbn. destruct (decide (w = Z.to_nat n)) as [->|Hw].
    - by rewrite list_lookup_insert_eq by lia.
    - by rewrite list_lookup_insert_ne. }
  split; [split|split].
  - intros w Hw. rewrite Hqv. destruct (decide (Z.to_nat w = Z.to_nat n)) as [E|E].
    + eexists. split; [done|]. intros [] i Hi; cbn in Hi; by apply elem_of_nil in Hi.
    + destruct (Hvec w ltac:(lia)) as (qv & Hq & Hb). exists qv. split; [done|]. intros k i. unfold a'. rewrite rings_set_vec. apply Hb.
  - intros w qv Hw Hw0. rewrite Hqv, decide_False by lia. apply Hnone; lia.
  - intros k i r Hi Hr. unfold a' in Hr. rewrite rings_set_vec in Hr.
    destruct (Hring k i r Hi Hr) as (H1 & H2 & qv & H3 & H4). split; [done|]. split; [lia|].
    exists qv. rewrite Hqv, decide_False by lia. done.
  - done.
  - apply length_insert.
  - intros k. unfold a'. by rewrite rings_set_vec.
  - intros k i. unfold present, a'. by rewrite rings_set_vec.
Qed.

(** [ixgbe_alloc_q_vector] *)
Lemma alloc_q_vector_ok (ok : bool) Q v ntx tx nxdp xdp nrx rx a :
  0 <= v < Z.of_nat (length (q_vector a)) -> vectors_ok v a -> small_arrays a -> 0 <= ntx -> 0 <= nxdp -> 0 <= nrx ->
  (forall j, 0 <= j < ntx -> 0 <= tx + j * Q < Z.of_nat (length (rings KTx a))) ->
  (forall j, 0 <= j < nxdp -> 0 <= xdp + j < Z.of_nat (length (rings KXdp a))) ->
  (forall j, 0 <= j < nrx -> 0 <= rx + j * Q < Z.of_nat (length (rings KRx a))) ->
  wp (ixgbe_alloc_q_vector ok Q v ntx tx nxdp xdp nrx rx) (fun e a' =>
    if ok then e = 0 /\ vectors_ok (v + 1) a' /\ grows a a' /\
      (forall j, 0 <= j < ntx -> present KTx a' (tx + j * Q)) /\
      (forall j, 0 <= j < nxdp -> present KXdp a' (xdp + j)) /\
      (forall j, 0 <= j < nrx -> present KRx a' (rx + j * Q))
    else e = - ENOMEM /\ a' = a) a.
Proof.
  intros Hv Hok Hs Htx0 Hxdp0 Hrx0 Htx Hxdp Hrx. unfold ixgbe_alloc_q_vector. destruct ok; cbn [negb]; [|by apply wp_ret].
  wp_step. apply wp_get. cbv zeta. wp_step. apply wp_upd_c; [done|]. wp_step. apply wp_modify.
  set (itr := if negb (ntx =? 0) && (nrx =? 0) then _ else _).
  destruct (new_vector_ok v v itr a ltac:(lia) eq_refl ltac:(lia) Hok) as [H0 G0].
  set (a0 := set_q_vector _ a) in *. wp_step. eapply wp_mono.
  { apply (add_loop KTx v (v + 1) ntx (fun j => tx + j * Q)); [lia|done|by eapply small_grows|done|].
    intros j Hj. rewrite (gr_len _ _ G0). by apply Htx. }
  intros [] a1 (H1 & G1 & P1). assert (G01 : grows a a1) by (by transitivity a0). wp_step. eapply wp_mono.
  { apply (add_loop KXdp v (v + 1) nxdp (fun j => xdp + j)); [lia|done|by eapply small_grows|done|].
    intros j Hj. rewrite (gr_len _ _ G01). by apply Hxdp. }
  intros [] a2 (H2 & G2 & P2). assert (G02 : grows a a2) by (by transitivity a1). wp_step. eapply wp_mono.
  { apply (add_loop KRx v (v + 1) nrx (fun j => rx + j * Q)); [lia|done|by eapply small_grows|done|].
    intros j Hj. rewrite (gr_len _ _ G02). by apply Hrx. }
  intros [] a3 (H3 & G3 & P3). apply wp_ret. split; [done|]. split; [done|]. split; [by transitivity a2|].
  split; [|split; [|done]].
  - intros j Hj. apply (gr_keep _ _ G3), (gr_keep _ _ G2), P1, Hj.
  - intros j Hj. apply (gr_keep _ _ G3), P2, Hj.
Qed.

(** ** Freeing *)

(** only rings outside of [P] are left *)
Record shrinks (P : kind -> Z -> Prop) (a a' : adapter) : Prop := {
  sh_conf : conf a' = conf a;
  sh_vec : q_vector a' = q_vector a;
  sh_len : forall k, length (rings k a') = length (rings k a);
  sh_ring : forall k i r, 0 <= i -> rings k a' !! Z.to_nat i = Some (Some r) ->
    rings k a !! Z.to_nat i = Some (Some r) /\ ~ P k i;
}.

(** [adapter->xxx_ring[i] = NULL] *)
Lemma clear_one k i a : 0 <= i -> shrinks (fun k' j => k' = k /\ j = i) a (ra_set (arr k) (<[Z.to_nat i := None]> (rings k a)) a).
Proof.
  intros Hi. split; [by destruct k|by destruct k| |].
  - intros k'. rewrite rings_set. destruct (decide (k' = k)) as [->|]; [by rewrite length_insert|done].
  - intros k' j r Hj. rewrite rings_set. destruct (decide (k' = k)) as [->|]; [|naive_solver].
    destruct (decide (j = i)) as [->|Hne].
    + intros H. destruct (decide (Z.to_nat i < length (rings k a))%nat).
      * by rewrite list_lookup_insert_eq in H by done.
      * apply lookup_lt_Some in H. rewrite length_insert in H. lia.
    + rewrite list_lookup_insert_ne by lia. naive_solver.
Qed.

Lemma shrinks_trans P P' a b c : shrinks P a b -> shrinks P' b c -> shrinks (fun k i => P k i \/ P' k i) a c.
Proof.
  intros [] []. split; [congruence|congruence|intros; congruence|].
  intros k i r Hi Hr. destruct (sh_ring1 k i r Hi Hr) as [H1 H2]. destruct (sh_ring0 k i r Hi H1) as [H3 H4]. naive_solver.
Qed.

Lemma shrinks_weaken P P' a b : (forall k i, P' k i -> P k i) -> shrinks P a b -> shrinks P' a b.
Proof. intros H [H1 H2 H3 H4]. split; [done|done|done|]. intros k i r Hi Hr. destruct (H4 k i r Hi Hr). naive_solver. Qed.

Lemma free_tx_effect l a :
  (forall b i, (b, i) ∈ l -> 0 <= i < Z.of_nat (length (rings (if (b : bool) then KXdp else KTx) a))) ->
  wp (free_tx_rings l) (fun _ a' => shrinks (fun k i => match k with KTx => (false, i) ∈ l | KXdp => (true, i) ∈ l
                                                        | KRx => False end) a a') a.
Proof.
  revert a. induction l as [|[b i] l IH]; intros a Hl; cbn [free_tx_rings].
  - apply wp_ret. split; [done|done|done|]. intros [] i r _ Hr; (split; [done|]); cbn; rewrite ?elem_of_nil; by intros ?.
  - pose proof (Hl b i ltac:(by left)) as Hi. wp_step. apply wp_get. wp_step.
    set (k := if b then KXdp else KTx) in *.
    apply (wp_mono _ (fun _ a' => a' = ra_set (arr k) (<[Z.to_nat i := None]> (rings k a)) a)).
    { destruct b; cbn in Hi |- *; wp_step; (apply wp_upd_c; [exact Hi|]); by apply wp_modify. }
    intros [] a1 ->. pose proof (clear_one k i a ltac:(lia)) as Hc. set (a1 := ra_set _ _ _) in *.
    eapply wp_mono; [apply IH|].
    + intros b' j Hj. rewrite (sh_len _ _ _ Hc). apply Hl. by right.
    + intros [] a2 Hs. eapply shrinks_weaken; [|by eapply shrinks_trans].
      intros k' j Hj. destruct b, k'; cbn in Hj |- *; rewrite ?elem_of_cons in Hj; naive_solver.
Qed.

Lemma free_rx_effect l a : (forall i, i ∈ l -> 0 <= i < Z.of_nat (length (rings KRx a))) ->
  wp (free_rx_rings l) (fun _ a' => shrinks (fun k i => match k with KRx => i ∈ l | _ => False end) a a') a.
Proof.
  revert a. induction l as [|i l IH]; intros a Hl; cbn [free_rx_rings].
  - apply wp_ret. split; [done|done|done|]. intros [] i r _ Hr; (split; [done|]); cbn; rewrite ?elem_of_nil; by intros ?.
  - pose proof (Hl i ltac:(by left)) as Hi. wp_step. apply wp_get. wp_step. apply wp_upd_c; [exact Hi|].
    wp_step. apply wp_modify. pose proof (clear_one KRx i a ltac:(lia)) as Hc.
    eapply wp_mono; [apply IH|].
    + intros j Hj. pose proof (sh_len _ _ _ Hc KRx) as E. cbn in E |- *. rewrite E. apply Hl. by right.
    + intros [] a2 Hs. eapply shrinks_weaken; [|eapply shrinks_trans; [exact Hc|exact Hs]].
      intros [] j Hj; cbn in Hj |- *; rewrite ?elem_of_cons in Hj; naive_solver.
Qed.

Lemma free_q_vector_ok n a : 0 <= n -> vectors_ok (n + 1) a ->
  wp (ixgbe_free_q_vector n) (fun _ a' => vectors_ok n a' /\ conf a' = conf a) a.
Proof.
  intros Hn Hok. pose proof Hok as [Hvec Hnone Hring]. destruct (Hvec n ltac:(lia)) as (qv & Hq & Hb).
  unfold ixgbe_free_q_vector. wp_step. apply wp_get. wp_step. eapply deref_effect; [done|exact Hq|]. wp_step.
  eapply wp_mono; [apply free_tx_effect; intros [] i Hi; [by apply (Hb KXdp)|by apply (Hb KTx)]|].
  intros [] a1 H1. wp_step.
  eapply wp_mono; [apply free_rx_effect; intros i Hi; rewrite (sh_len _ _ _ H1); by apply (Hb KRx)|].
  intros [] a2 H2. pose proof (shrinks_trans _ _ _ _ _ H1 H2) as Hs.
  eapply shrinks_weaken with (P' := fun k i => listed k qv i) in Hs; [|intros [] i Hi; cbn in Hi |- *; auto].
  clear a1 H1 H2. destruct Hs as [Sc Sv Sl Sr]. wp_step. apply wp_get. wp_step.
  pose proof (lookup_lt_Some _ _ _ Hq) as Hlt. apply wp_upd_c; [rewrite Sv; lia|]. apply wp_modify.
  split; [|exact Sc].
  assert (Hqv : forall w, (w <> Z.to_nat n -> (<[Z.to_nat n := None]> (q_vector a2)) !! w = q_vector a !! w) /\
     (w = Z.to_nat n -> (<[Z.to_nat n := None]> (q_vector a2)) !! w = Some None)).
  { intros w. rewrite Sv. split; [intros; by apply list_lookup_insert_ne|intros ->; by apply list_lookup_insert_eq]. }
  split; cbn.
  - intros w Hw. destruct (Hvec w ltac:(lia)) as (qv' & Hq' & Hb'). exists qv'. split.
    + by rewrite (proj1 (Hqv _)) by lia.
    + intros k i. rewrite rings_set_vec, Sl. apply Hb'.
  - intros w qv' Hw Hw0. destruct (decide (w = n)) as [->|Hne].
    + by rewrite (proj2 (Hqv _)).
    + rewrite (proj1 (Hqv _)) by lia. apply Hnone; lia.
  - intros k i r Hi Hr. rewrite rings_set_vec in Hr. destruct (Sr k i r Hi Hr) as [Hr' Hnl].
    destruct (Hring k i r Hi Hr') as (E1 & E2 & qv' & E3 & E4). split; [done|].
    destruct (decide (r_vector r = n)) as [E|E]; [rewrite E in E3; naive_solver|].
    split; [lia|]. exists qv'. rewrite (proj1 (Hqv _)) by lia. done.
Qed.

Lemma free_vectors_ok n a : 0 <= n -> vectors_ok n a ->
  wp (free_vectors n) (fun _ a' => vectors_ok 0 a' /\ conf a' = conf a) a.
Proof.
  intros Hn Hok. unfold free_vectors. eapply wp_mono.
  - apply (wp_for_loop _ _ _ (fun k a' => vectors_ok (n - k) a' /\ conf a' = conf a)).
    + by rewrite Z.sub_0_r.
    + intros k a' Hk [Hok' Hc]. eapply wp_mono; [apply free_q_vector_ok|].
      * lia.
      * by replace (n - 1 - k + 1) with (n - k) by lia.
      * intros [] a2 [H1 H2]. split; [by replace (n - (k + 1)) with (n - 1 - k) by lia|congruence].
  - intros [] a' [H1 H2]. split; [|done]. by replace (n - (0 + Z.of_nat (Z.to_nat n))) with 0 in H1 by lia.
Qed.

(** the invariant looks at the arrays only *)
Lemma vectors_ok_ext n a a' : q_vector a' = q_vector a -> (forall k, rings k a' = rings k a) ->
  vectors_ok n a -> vectors_ok n a'.
Proof.
  intros Ev Er [H1 H2 H3]. split; rewrite ?Ev; [|done|].
  - intros v Hv. destruct (H1 v Hv) as (qv & Hq & Hb). exists qv. split; [done|]. intros k i. rewrite Er. apply Hb.
  - intros k i r. rewrite Er. apply H3.
Qed.

(** ** The shares of the vectors

    [N] rings over [R] vectors: the [t]th gets [share t] of them, and [left t]
    remain before it. *)
Section Shares.
Context (N R : Z) (HN : 0 <= N) (HR : 0 < R).

Definition share (t : Z) : Z := N / R + (if t <? N mod R then 1 else 0).
Definition left_of (t : Z) : Z := (R - t) * (N / R) + Z.max 0 (N mod R - t).

Lemma left_0 : left_of 0 = N.
Proof using HN HR.
  unfold left_of. pose proof (Z.div_mod N R ltac:(lia)). pose proof (Z.mod_pos_bound N R HR). lia.
Qed.

Lemma share_ceil t : 0 <= t < R -> DIV_ROUND_UP (left_of t) (R - t) = share t /\
  left_of t - share t = left_of (t + 1) /\ 0 <= share t.
Proof using HN HR.
  intros Ht. unfold DIV_ROUND_UP, left_of, share. pose proof (Z.mod_pos_bound N R HR). pose proof (Z.div_pos N R HN HR).
  destruct (Z.ltb_spec t (N mod R)); (split; [|lia]).
  - symmetry. apply (Z.div_unique _ _ _ (N mod R - t - 1)); lia.
  - symmetry. apply (Z.div_unique _ _ _ (R - t - 1)); lia.
Qed.

(** with stride [Q] the shares cover the [N] rings, and no more *)
Context (Q : Z) (HQ : R = Q \/ N <= R <= Q).

Lemma share_bound t j : 0 <= t < R -> 0 <= j < share t -> 0 <= t + j * Q < N.
Proof using HN HR HQ.
  intros Ht Hj. unfold share in Hj. pose proof (Z.div_mod N R ltac:(lia)). pose proof (Z.mod_pos_bound N R HR).
  destruct HQ as [<-|HNR].
  - destruct (Z.ltb_spec t (N mod R)); nia.
  - assert (N / R = 0 \/ N / R = 1 /\ N mod R = 0) by nia.
    destruct (Z.ltb_spec t (N mod R)); assert (j = 0) by lia; subst j; nia.
Qed.

Lemma share_cover t i : 0 <= t < R -> 0 <= i < N -> i mod Q = t -> i = t + i / Q * Q /\ 0 <= i / Q < share t.
Proof using HN HR HQ.
  intros Ht Hi E. unfold share. pose proof (Z.div_mod N R ltac:(lia)). pose proof (Z.mod_pos_bound N R HR).
  pose proof (Z.div_mod i Q ltac:(lia)). pose proof (Z.div_pos i Q ltac:(lia) ltac:(lia)).
  split; [lia|]. split; [done|]. destruct HQ as [<-|HNR].
  - destruct (Z.ltb_spec t (N mod R)); nia.
  - assert (i / Q = 0) as -> by (apply Z.div_small; lia). assert (N / R = 0 \/ N / R = 1 /\ N mod R = 0) by nia.
    destruct (Z.ltb_spec t (N mod R)); nia.
Qed.
End Shares.

(** ** Spreading the rings *)
Section Spread.
Context (ok : Z -> bool) (Q v0 : Z) (Ntx Nxdp Nrx s : Z) (a : adapter).
Let R := Q - v0.
Context (Hv0 : 0 <= v0 < Q) (HQ : Q <= Z.of_nat (length (q_vector a))) (Hok : vectors_ok v0 a) (Hs : small_arrays a).
Context (Htx : 0 <= Ntx <= Z.of_nat (length (rings KTx a))) (Hxdp : 0 <= Nxdp <= Z.of_nat (length (rings KXdp a)))
  (Hrx : 0 <= Nrx <= Z.of_nat (length (rings KRx a))).
Context (Qtx : R = Q \/ Ntx <= R <= Q) (Qrx : R = Q \/ Nrx <= R <= Q) (Hst : Nrx = 0 \/ s = 0).

(** before vector [v] *)
Record spread (v : Z) (m : remaining) (a' : adapter) : Prop := {
  sp_ok : vectors_ok v a';
  sp_grows : grows a a';
  sp_tx : txr_remaining m = left_of Ntx R (v - v0) /\ txr_next m = v - v0;
  sp_tx_done : forall i, 0 <= i < Ntx -> i mod Q < v - v0 -> present KTx a' i;
  sp_rx : rxr_remaining m = left_of Nrx R (v - v0) /\ rxr_next m = s + (v - v0);
  sp_rx_done : forall i, 0 <= i < Nrx -> i mod Q < v - v0 -> present KRx a' i;
  sp_xdp : 0 <= xdp_next m <= Nxdp /\ xdp_remaining m = Nxdp - xdp_next m /\ (v = Q -> xdp_remaining m = 0);
  sp_xdp_done : forall i, 0 <= i < xdp_next m -> present KXdp a' i;
}.

Definition failed (c : Z) (a' : adapter) : Prop := 0 <= c < Q /\ ok c = false /\ vectors_ok c a' /\ grows a a'.

Lemma ceil_xdp x d : 0 <= x -> 0 < d -> 0 <= DIV_ROUND_UP x d <= x /\ (d = 1 -> DIV_ROUND_UP x d = x).
Proof.
  intros Hx Hd. unfold DIV_ROUND_UP. split; [split|].
  - apply Z.div_pos; lia.
  - destruct (Z.eq_dec x 0) as [->|]; [rewrite Z.div_small; lia|]. apply Z.lt_succ_r, Z.div_lt_upper_bound; nia.
  - intros ->. rewrite Z.div_1_r. lia.
Qed.

Lemma spread_step v m a' : v0 <= v < Q -> spread v m a' ->
  wp (alloc_shared_vector ok Q v m) (fun r a'' => match r with
    | inl m' => spread (v + 1) m' a''
    | inr c => failed c a''
    end) a'.
Proof using Hv0 HQ Hs Htx Hxdp Hrx Qtx Qrx Hst.
  intros Hv [Sok Sg [St1 St2] Stx [Sr1 Sr2] Srx (Sx1 & Sx2 & Sx3) Sxdp]. unfold alloc_shared_vector. cbv zeta.
  assert (HR : 0 < R) by (unfold R; lia). set (t := v - v0) in *.
  assert (Ht : 0 <= t < R) by (unfold t, R; lia). replace (Q - v) with (R - t) by (unfold t, R; lia).
  destruct (share_ceil Ntx R ltac:(lia) HR t Ht) as (Et & Lt & Pt).
  destruct (share_ceil Nrx R ltac:(lia) HR t Ht) as (Er & Lr & Pr).
  destruct (ceil_xdp (xdp_remaining m) (R - t) ltac:(lia) ltac:(lia)) as [Hx Hx1].
  rewrite St1, Sr1, Et, Er, St2, Sr2. set (xq := DIV_ROUND_UP _ _) in *. wp_step.
  eapply wp_mono; [apply alloc_q_vector_ok|].
  - rewrite (gr_vec _ _ Sg). lia.
  - done.
  - by eapply small_grows.
  - done.
  - lia.
  - done.
  - intros j Hj. rewrite (gr_len _ _ Sg). pose proof (share_bound Ntx R ltac:(lia) HR Q Qtx t j Ht Hj). lia.
  - intros j Hj. rewrite (gr_len _ _ Sg). lia.
  - intros j Hj. rewrite (gr_len _ _ Sg). destruct Hst as [E| ->].
    + exfalso. unfold share in Hj. rewrite E in Hj. rewrite Z.div_0_l, Z.mod_0_l in Hj by lia.
      destruct (Z.ltb_spec t 0); lia.
    + pose proof (share_bound Nrx R ltac:(lia) HR Q Qrx t j Ht Hj). lia.
  - intros e a2 H2. destruct (ok v) eqn:Eok.
    + destruct H2 as (-> & H2 & G2 & P1 & P2 & P3). cbn. apply wp_ret. split; cbn.
      * done.
      * by transitivity a'.
      * replace (v + 1 - v0) with (t + 1) by (unfold t; lia). done.
      * intros i Hi Hm. destruct (Z.eq_dec (i mod Q) t) as [E|E].
        -- destruct (share_cover Ntx R ltac:(lia) HR Q Qtx t i Ht Hi E) as [Ei Hj]. rewrite Ei. by apply P1.
        -- apply (gr_keep _ _ G2), Stx; [done|lia].
      * replace (v + 1 - v0) with (t + 1) by (unfold t; lia). split; [done|lia].
      * intros i Hi Hm. destruct (Z.eq_dec (i mod Q) t) as [E|E].
        -- destruct Hst as [?| ->]; [lia|]. destruct (share_cover Nrx R ltac:(lia) HR Q Qrx t i Ht Hi E) as [Ei Hj].
           rewrite Z.add_0_l in P3. rewrite Ei. by apply P3.
        -- apply (gr_keep _ _ G2), Srx; [done|lia].
      * split; [lia|]. split; [lia|]. intros E. rewrite Hx1 by (unfold R, t; lia). lia.
      * intros i Hi. destruct (Z.lt_ge_cases i (xdp_next m)).
        -- apply (gr_keep _ _ G2), Sxdp. lia.
        -- replace i with (xdp_next m + (i - xdp_next m)) by lia. apply P2. lia.
    + destruct H2 as [-> ->]. cbn. apply wp_ret. split; [lia|done].
Qed.

Lemma spread_loop m : spread v0 m a ->
  wp (for_break (Z.to_nat (Q - v0)) v0 m (alloc_shared_vector ok Q)) (fun r a' => match r with
    | inl _ => vectors_ok Q a' /\ grows a a' /\ (forall i, 0 <= i < Ntx -> present KTx a' i) /\
               (forall i, 0 <= i < Nxdp -> present KXdp a' i) /\ (forall i, 0 <= i < Nrx -> present KRx a' i)
    | inr c => failed c a'
    end) a.
Proof using Hv0 HQ Hs Htx Hxdp Hrx Qtx Qrx Hst.
  intros H0. apply (wp_for_break _ _ _ _ spread); [done| |].
  - intros v m' a' Hv Hm'. apply spread_step; [lia|done].
  - intros m' a' Hm'. replace (v0 + Z.of_nat (Z.to_nat (Q - v0))) with Q in Hm' by lia.
    destruct Hm' as [H1 H2 _ H3 _ H4 (H5 & H6 & H7) H8]. fold R in H3, H4. split; [done|]. split; [done|].
    assert (Hmod : forall N, R = Q \/ N <= R <= Q -> forall i, 0 <= i < N -> i mod Q < R).
    { intros N [->|HN] i Hi; [apply Z.mod_pos_bound; lia|]. rewrite Z.mod_small by lia. lia. }
    split; [|split].
    + intros i Hi. apply H3; [done|]. by apply (Hmod Ntx).
    + intros i Hi. apply H8. specialize (H7 eq_refl). lia.
    + intros i Hi. apply H4; [done|]. by apply (Hmod Nrx).
Qed.
End Spread.

(** ** All the vectors *)

(** every ring has its index and the vector that lists it *)
Definition served (a : adapter) : Prop :=
  vectors_ok (num_q_vectors (conf a)) a /\
  forall k i, 0 <= i < count k (conf a) -> present k a i.

(** no ring and no vector is left *)
Definition all_null (a : adapter) : Prop :=
  (forall k i r, rings k a !! i <> Some (Some r)) /\ (forall v qv, q_vector a !! v <> Some (Some qv)).

Lemma all_null_ok a : vectors_ok 0 a <-> all_null a.
Proof.
  split.
  - intros [_ H2 H3]. split.
    + intros k i r Hr. destruct (H3 k (Z.of_nat i) r ltac:(lia)) as (_ & ? & _); [by rewrite Nat2Z.id|lia].
    + intros v qv. rewrite <- (Nat2Z.id v). apply H2; lia.
  - intros [H1 H2]. split; [lia|intros; apply H2|]. intros k i r _ Hr. by destruct (H1 _ _ _ Hr).
Qed.

(** the counts fit the arrays *)
Record fits (a : adapter) : Prop := {
  ft_null : all_null a;
  ft_small : small_arrays a;
  ft_vectors : 1 <= num_q_vectors (conf a) <= Z.of_nat (length (q_vector a));
  ft_tx : 1 <= num_tx_queues (conf a);
  ft_counts : forall k, 0 <= count k (conf a) <= Z.of_nat (length (rings k a));
}.

Section Alloc.
Context (ok : Z -> bool) (a : adapter) (Hfit : fits a).
Let q := conf a.
Let Q := num_q_vectors q.

(** the first loop, when there is a vector for each ring *)
Lemma rx_loop : num_rx_queues q + num_tx_queues q + num_xdp_queues q <= Q ->
  wp (for_break (Z.to_nat (num_rx_queues q)) 0 (mk_rem (num_rx_queues q) (num_tx_queues q) (num_xdp_queues q) 0 0 0 0)
        (alloc_rx_vector ok Q)) (fun r a' => match r with
    | inl m => m = mk_rem 0 (num_tx_queues q) (num_xdp_queues q) (num_rx_queues q) 0 0 (num_rx_queues q) /\
               vectors_ok (num_rx_queues q) a' /\ grows a a' /\
               (forall i, 0 <= i < num_rx_queues q -> present KRx a' i)
    | inr c => failed ok Q a c a'
    end) a.
Proof using Hfit.
  intros Hsum. destruct Hfit as [Hn Hs HQ Ht Hc]. fold q Q in HQ, Ht, Hc.
  pose proof (Hc KTx) as Ctx. pose proof (Hc KXdp) as Cxdp. pose proof (Hc KRx) as Crx. cbn [count] in Ctx, Cxdp, Crx.
  apply (wp_for_break _ _ _ _ (fun v m a' => m = mk_rem (num_rx_queues q - v) (num_tx_queues q) (num_xdp_queues q) v 0 0 v /\
      vectors_ok v a' /\ grows a a' /\ forall i, 0 <= i < v -> present KRx a' i)).
  - split; [by rewrite Z.sub_0_r|]. split; [by apply all_null_ok|]. split; [done|]. intros; lia.
  - intros v m a' Hv (-> & Hok & Hg & Hp). unfold alloc_rx_vector. cbn [rxr_next rxr_remaining txr_remaining xdp_remaining txr_next xdp_next v_next].
    wp_step. eapply wp_mono; [apply (alloc_q_vector_ok (ok v) Q v 0 0 0 0 1 v a')|].
    + rewrite (gr_vec _ _ Hg). lia.
    + done.
    + by eapply small_grows.
    + done.
    + done.
    + done.
    + intros j Hj. lia.
    + intros j Hj. lia.
    + intros j Hj. rewrite (gr_len _ _ Hg). lia.
    + intros e a2 H2. destruct (ok v) eqn:Eok.
      * destruct H2 as (-> & H2 & G2 & _ & _ & P3). cbn. apply wp_ret. split; [f_equal; lia|]. split; [done|].
        split; [by transitivity a'|]. intros i Hi. destruct (Z.eq_dec i v) as [->|Hne].
        -- specialize (P3 0 ltac:(lia)). by rewrite Z.mul_0_l, Z.add_0_r in P3.
        -- apply (gr_keep _ _ G2), Hp. lia.
      * destruct H2 as [-> ->]. cbn. apply wp_ret. split; [lia|done].
  - intros m a' H. replace (0 + Z.of_nat (Z.to_nat (num_rx_queues q))) with (num_rx_queues q) in H by lia.
    by rewrite Z.sub_diag in H.
Qed.

(** the state at the start of the second loop *)
Lemma spread_start v0 m a1 Nrx s : 0 <= v0 < Q -> vectors_ok v0 a1 -> 0 <= Nrx ->
  m = mk_rem Nrx (num_tx_queues q) (num_xdp_queues q) s 0 0 v0 ->
  spread Q v0 (num_tx_queues q) (num_xdp_queues q) Nrx s a1 v0 m a1.
Proof using Hfit.
  intros Hv Hok Hr ->. destruct Hfit as [_ _ _ Ht Hc]. fold q in Ht, Hc.
  pose proof (Hc KXdp) as Cxdp. cbn [count] in Cxdp.
  split; cbn; rewrite ?Z.sub_diag, ?left_0 by lia; try done; try lia.
  - intros i Hi Hm. pose proof (Z.mod_pos_bound i Q ltac:(lia)). lia.
  - intros i Hi Hm. pose proof (Z.mod_pos_bound i Q ltac:(lia)). lia.
Qed.

Lemma alloc_q_vectors_spec : wp (ixgbe_alloc_q_vectors ok) (fun e a' =>
    e = IXGBE_SUCCESS /\ (forall k, length (rings k a') = length (rings k a)) /\ conf a' = q /\ served a' \/
    e = - ENOMEM /\ (exists v, 0 <= v < Q /\ ok v = false) /\ conf a' = zero_counts q /\ all_null a') a.
Proof using Hfit.
  pose proof Hfit as [Hn Hs HQ Ht Hc]. fold q Q in HQ, Ht, Hc.
  pose proof (Hc KTx) as Ctx. pose proof (Hc KXdp) as Cxdp. pose proof (Hc KRx) as Crx. cbn [count] in Ctx, Cxdp, Crx.
  pose proof (Hs KTx) as Stx. pose proof (Hs KXdp) as Sxdp. pose proof (Hs KRx) as Srx.
  unfold ixgbe_alloc_q_vectors. wp_step. apply wp_get. fold q. cbv zeta. fold Q.
  rewrite (trunc_small 32 (num_rx_queues q + num_tx_queues q)) by (unfold in_range; lia).
  rewrite trunc_small by (unfold in_range; lia). wp_step.
  set (P := fun (r : remaining + Z) a1 => match r with
    | inl m => exists v0 Nrx s, 0 <= v0 < Q /\ (Nrx = num_rx_queues q /\ s = 0 /\ v0 = 0 \/
        Nrx = 0 /\ num_tx_queues q <= Q - v0 /\ (forall i, 0 <= i < num_rx_queues q -> present KRx a1 i)) /\
        m = mk_rem Nrx (num_tx_queues q) (num_xdp_queues q) s 0 0 v0 /\ vectors_ok v0 a1 /\ grows a a1
    | inr c => failed ok Q a c a1 end).
  apply (wp_mono _ P).
  { destruct (Z.leb_spec (num_rx_queues q + num_tx_queues q + num_xdp_queues q) Q).
    - eapply wp_mono; [by apply rx_loop|]. intros [m|c] a1 Hr; [|done].
      destruct Hr as (-> & Hr & G2 & P2). exists (num_rx_queues q), 0, (num_rx_queues q).
      split; [lia|]. split; [right; split; [done|split; [lia|done]]|done].
    - apply wp_ret. exists 0, (num_rx_queues q), 0. split; [lia|]. split; [by left|]. split; [done|].
      split; [by apply all_null_ok|done]. }
  intros r a1 Hr. wp_step.
  apply (wp_mono _ (fun r a' => match r with
    | inl _ => conf a' = q /\ (forall k, length (rings k a') = length (rings k a)) /\ served a'
    | inr c => failed ok Q a c a' end)).
  { destruct r as [m|c]; [|by apply wp_ret]. destruct Hr as (v0 & Nrx & s & Hv & Hcase & -> & Hok & Hg). cbn [v_next].
    assert (HN : 0 <= Nrx <= num_rx_queues q) by lia.
    eapply wp_mono; [apply (spread_loop ok Q v0 (num_tx_queues q) (num_xdp_queues q) Nrx s a1);
      rewrite ?(gr_len _ _ Hg), ?(gr_vec _ _ Hg); try lia; try done|].
    - by eapply small_grows.
    - by apply spread_start; [| |lia|].
    - intros [m|c] a2.
      + intros (H2 & G2 & T2 & X2 & R2). assert (Hg2 : grows a a2) by (by transitivity a1).
        split; [by apply gr_conf|]. split; [by apply gr_len|]. split; rewrite (gr_conf _ _ Hg2); [done|].
        intros [] i Hi; [by apply T2|by apply X2|]. destruct Hcase as [(-> & _)|(_ & _ & Hp)]; [by apply R2|].
        by apply (gr_keep _ _ G2), Hp.
      + intros (? & ? & ? & ?). split; [done|]. split; [done|]. split; [done|]. by transitivity a1. }
  clear r a1 Hr P. intros [m|c] a1 Hr.
  - apply wp_ret. left. naive_solver.
  - destruct Hr as (Hcr & Hco & Hok & Hg). wp_step. unfold upd_conf. apply wp_modify. wp_step.
    eapply wp_mono; [apply (free_vectors_ok c); [lia|]; by eapply vectors_ok_ext, Hok; [|intros []]|].
    intros [] a2 [H2 E2]. apply wp_ret. right. split; [done|]. split; [by exists c|].
    split; [rewrite E2; cbn; by rewrite (gr_conf _ _ Hg)|by apply all_null_ok].
Qed.
End Alloc.
