(* ===== verification/SchemeProps.v ===== *)
(** * The interrupt scheme: counts, vectors and ring mapping together

    [ixgbe_init_interrupt_scheme] composes the queue counts (QueueProps.v), the
    MSI-X or MSI vectors, the spreading of the rings (VectorProps.v) and the ring
    mapping (RingProps.v). *)
From S2P Require Import Prelude Regs Types Queues QueueProps RingProps VectorProps.

(** ** Hypotheses on the kernel and the probed adapter *)

(** [pci_enable_msix_range(min, max)] is a negative error or a number of vectors
    within the range *)
Record kernel_ok (K : kernel) : Prop := {
  ko_cpus : 1 <= num_online_cpus K;
  ko_ids : 0 <= nr_cpu_ids K;
  ko_msix : forall lo hi, pci_enable_msix_range K lo hi < 0 \/ lo <= pci_enable_msix_range K lo hi <= hi;
}.

Definition counts_of (K : kernel) (q : qconf) : qconf := ixgbe_set_num_queues (num_online_cpus K) (nr_cpu_ids K) q.

(** after probing: no ring or vector yet, FCoE off (in [wf_conf]) *)
Record probed (a : adapter) : Prop := {
  pb_wf : wf_conf (conf a);
  pb_null : all_null a;
  pb_small : small_arrays a;
  pb_rx : 1 <= Z.of_nat (length (rx_ring a));
  pb_tx : 1 <= Z.of_nat (length (tx_ring a));
  pb_xdp : 64 <= Z.of_nat (length (xdp_ring a));
  pb_vectors : 1 <= max_q_vectors (conf a) <= Z.of_nat (length (q_vector a));
}.
(** The queue counts fit the arrays of ring pointers.  The driver does not check
    this, see [vmdq_rings_overflow_arrays]. *)
Definition counts_fit (K : kernel) (a : adapter) : Prop :=
  num_rx_queues (counts_of K (conf a)) <= Z.of_nat (length (rx_ring a)) /\
  num_tx_queues (counts_of K (conf a)) <= Z.of_nat (length (tx_ring a)).

(** the driver's state while the device is up: every ring is on the list of its
    vector and drives a hardware queue of its own *)
Record up (a : adapter) : Prop := {
  up_vectors : 1 <= num_q_vectors (conf a);
  up_served : served a;
  up_rx : own_queues (num_rx_queues (conf a)) (rx_ring a);
  up_tx : (layout_of (conf a) = LDcbVmdq -> is_82598 (a_mac (conf a)) = false) ->
    own_queues (num_tx_queues (conf a)) (tx_ring a) /\
    forall i j r r', 0 <= i < num_tx_queues (conf a) -> 0 <= j < num_xdp_queues (conf a) ->
      tx_ring a !! Z.to_nat i = Some (Some r) -> xdp_ring a !! Z.to_nat j = Some (Some r') ->
      reg_idx r < reg_idx r' < hw_limit;
}.

Lemma mapping_rings a a' k : mapping a a' -> exists f, has_regs f (count k (conf a)) (rings k a) (rings k a').
Proof. intros [_ _ H1 H2 H3]. destruct k; eexists; [exact H2|exact H3|exact H1]. Qed.

Lemma mapping_served a a' : mapping a a' -> served a -> served a'.
Proof.
  intros Hm [[Hvec Hnone Hring] Hp]. pose proof (mp_conf _ _ Hm) as Ec. pose proof (mp_vectors _ _ Hm) as Ev.
  split; rewrite Ec; [split; rewrite Ev|].
  - intros v Hv. destruct (Hvec v Hv) as (qv & Hq & Hb). exists qv. split; [done|]. intros k i.
    destruct (mapping_rings a a' k Hm) as (f & -> & _). apply Hb.
  - done.
  - intros k i r' Hi Hr'. destruct (mapping_rings a a' k Hm) as (f & _ & _ & Hback).
    destruct (Hback _ _ Hr') as (r & Hr & -> & ->). by apply Hring.
  - intros k i Hi. destruct (mapping_rings a a' k Hm) as (f & _ & Hfwd & _). destruct (Hp k i Hi) as [r Hr].
    destruct (Hfwd i r Hi Hr) as (r' & Hr' & _). by exists r'.
Qed.

Section Scheme.
Context (K : kernel) (HK : kernel_ok K).

(** the counts leave the number of possible vectors alone *)
Lemma dcb_vmdq_max q q' : ixgbe_set_dcb_vmdq_queues q = Some q' -> max_q_vectors q' = max_q_vectors q.
Proof.
  unfold ixgbe_set_dcb_vmdq_queues. destruct (_ <=? 1); [done|]. destruct (negb _); [done|].
  destruct (dcb_vmdq_pools q) as [[[vi vm] fi] tcs]. intros [= <-]. cbn. by repeat case_match.
Qed.
Lemma dcb_max q q' : ixgbe_set_dcb_queues q = Some q' -> max_q_vectors q' = max_q_vectors q.
Proof.
  unfold ixgbe_set_dcb_queues. destruct (_ <=? 1); [done|].
  destruct (if is_82598 _ then _ else _) as [ri rm]. intros [= <-]. cbn. by repeat case_match.
Qed.
Lemma vmdq_max n q q' : ixgbe_set_vmdq_queues n q = Some q' -> max_q_vectors q' = max_q_vectors q.
Proof.
  unfold ixgbe_set_vmdq_queues. destruct (negb _); [done|]. destruct (vmdq_pools q) as [[[[vi' vm'] ri] rm] fi'].
  intros [= <-]. cbn. repeat case_match; simplify_eq; done.
Qed.
Lemma rss_max n m q : max_q_vectors (ixgbe_set_rss_queues n m q) = max_q_vectors q.
Proof. unfold ixgbe_set_rss_queues. cbn. repeat case_match; simplify_eq; done. Qed.

Lemma counts_max_q_vectors q : max_q_vectors (counts_of K q) = max_q_vectors q.
Proof.
  unfold counts_of, ixgbe_set_num_queues. cbv zeta. set (q0 := set_num_rx_queues_per_pool 1 _).
  change (max_q_vectors q) with (max_q_vectors q0). clearbody q0.
  destruct (ixgbe_set_dcb_vmdq_queues q0) eqn:E1; [by apply dcb_vmdq_max|].
  destruct (ixgbe_set_dcb_queues q0) eqn:E2; [by apply dcb_max|].
  destruct (ixgbe_set_vmdq_queues _ q0) eqn:E3; [by eapply vmdq_max|]. apply rss_max.
Qed.

(** what the interrupt capability leaves: a well-formed configuration with its
    counts, and vectors and rings that fit *)
Record capable (a a' : adapter) : Prop := {
  cp_rings : forall k, rings k a' = rings k a;
  cp_vec : q_vector a' = q_vector a;
  cp_wf : wf_conf (conf a');
  cp_counted : counted (conf a');
  cp_vectors : 1 <= num_q_vectors (conf a') <= max_q_vectors (conf a);
  cp_counts : num_rx_queues (conf a') = num_rx_queues (conf a) \/ num_rx_queues (conf a') = 1;
}.

(** the configuration without MSI-X *)
Definition fallback (q : qconf) : qconf :=
  single_rss (disable_sriov_features K (set_vmdq_enabled false (reset_dcb q))).

Lemma fallback_wf q : wf_conf q -> wf_conf (fallback q) /\ layout_of (fallback q) = LRss /\ limit (rss (fallback q)) = 1.
Proof.
  intros [H1 H2 H3 H4 H5 H6 H7 H8 H9 H10]. unfold fallback.
  set (q1 := reset_dcb q).
  assert (E1 : num_tc q1 <= 1 /\ 0 <= num_tc q1 /\ (is_82598 (a_mac q) = true -> num_tc q1 = 0)).
  { unfold q1, reset_dcb. destruct (Z.ltb_spec 1 (num_tc q)); cbn; [lia|]. split; [lia|]. split; [lia|].
    intros E. destruct (H3 E); lia. }
  assert (E2 : 0 <= offset (vmdq q1) < 64 /\ (is_82598 (a_mac q) = true -> offset (vmdq q1) = 0)).
  { replace (vmdq q1) with (vmdq q) by (unfold q1, reset_dcb; by destruct (1 <? num_tc q)). split; [|done].
    destruct (4 <? num_tc q), (1 <? num_tc q); lia. }
  assert (F : a_mac q1 = a_mac q /\ dev_num_tx_queues q1 = dev_num_tx_queues q /\ limit (vmdq q1) = limit (vmdq q) /\
    fdir q1 = fdir q /\ atr_sample_rate q1 = atr_sample_rate q /\ fcoe_enabled q1 = fcoe_enabled q /\ fcoe q1 = fcoe q)
    by (unfold q1, reset_dcb; by destruct (1 <? num_tc q)).
  clearbody q1. destruct F as (F1 & F2 & F3 & F4 & F5 & F6 & F7). destruct E1 as (E1a & E1b & E1c). destruct E2 as [E2a E2b].
  unfold single_rss, disable_sriov_features. cbv zeta.
  assert (Hb : (1 <? num_tc q1) = false) by (by apply Z.ltb_ge).
  assert (Hb4 : (4 <? num_tc q1) = false) by (apply Z.ltb_ge; lia).
  destruct (negb (sriov_enabled _)); [|destruct (pci_vfs_assigned K); [|destruct (limit _ =? 1)]];
    (split; [|split; [unfold layout_of; cbn; by rewrite Hb|done]]);
    split; cbn; rewrite ?F1, ?F2, ?F3, ?F4, ?F5, ?F6, ?F7, ?Hb, ?Hb4; try done; try lia;
    intros E; specialize (E1c E); lia.
Qed.

Lemma rss_one q : wf_conf q -> layout_of q = LRss -> limit (rss q) = 1 -> num_rx_queues (counts_of K q) = 1.
Proof.
  intros Hwf El Hr. unfold counts_of, ixgbe_set_num_queues. cbv zeta. set (q0 := set_num_rx_queues_per_pool 1 _).
  change (rss q) with (rss q0) in Hr. change (layout_of q) with (layout_of q0) in El.
  pose proof (proj1 (wf_fcoe q Hwf)) as Hf. change (fcoe_enabled q) with (fcoe_enabled q0) in Hf. clearbody q0.
  assert (Ht : num_tc q0 <= 1 /\ vmdq_enabled q0 = false).
  { unfold layout_of in El. destruct (Z.ltb_spec 1 (num_tc q0)), (vmdq_enabled q0); done. }
  destruct Ht as [Ht Hv]. unfold ixgbe_set_dcb_vmdq_queues, ixgbe_set_dcb_queues, ixgbe_set_vmdq_queues.
  destruct (Z.leb_spec (num_tc q0) 1); [|lia]. rewrite Hv. cbn [negb].
  unfold ixgbe_set_rss_queues. cbv zeta. rewrite Hr. cbn [Z.ltb Z.compare Pos.compare Pos.compare_cont andb].
  cbn [fcoe_enabled set_fdir_hash_capable set_rss]. by rewrite Hf.
Qed.

(** the configuration by name, so that terms stay small *)
Lemma wp_upd_conf f (Q : unit -> adapter -> Prop) a :
  (forall q', q' = f (conf a) -> Q tt (set_conf q' a)) -> wp (upd_conf f) Q a.
Proof. intros H. unfold upd_conf. apply wp_modify. by apply H. Qed.

Lemma acquire_ok a : wf_conf (conf a) -> counted (conf a) -> 1 <= max_q_vectors (conf a) ->
  wp (ixgbe_acquire_msix_vectors K) (fun r a' => r = 0 /\ capable a a' \/ r <> 0 /\
    exists b, a' = set_conf (set_msix_enabled b (conf a)) a) a.
Proof using HK.
  intros Hwf Hct Hm.
  assert (Hsame : a = set_conf (set_msix_enabled (msix_enabled (conf a)) (conf a)) a) by (by destruct a as [[] ? ? ? ?]).
  unfold ixgbe_acquire_msix_vectors. wp_step. apply wp_get. cbv zeta.
  destruct (msix_capable (conf a)); cbn [negb]; [|apply wp_ret; right; split; [done|by eexists]].
  destruct (msix_entries_ok K); cbn [negb]; [|apply wp_ret; right; split; [done|by eexists]].
  set (hi := Z.min _ (max_msix_vectors (conf a))).
  destruct (Z.ltb_spec (pci_enable_msix_range K MIN_MSIX_COUNT hi) 0) as [Hlt|Hge].
  - wp_step. unfold upd_conf. apply wp_modify. apply wp_ret. right. split; [lia|by eexists].
  - destruct (ko_msix K HK MIN_MSIX_COUNT hi) as [?|Hr]; [lia|].
    wp_step. unfold upd_conf. apply wp_modify. apply wp_ret. left. split; [done|]. split; cbn.
    + by intros [].
    + done.
    + by eapply wf_conf_frame; [exact Hwf|..].
    + destruct Hct as [C1 C2 C3 C4 C5]. by split.
    + unfold MIN_MSIX_COUNT, NON_Q_VECTORS in *. lia.
    + by left.
Qed.

Lemma counts_ok q : wf_conf q -> wf_conf (counts_of K q) /\ counted (counts_of K q).
Proof using HK.
  intros Hwf. destruct (set_num_queues_counted (num_online_cpus K) (nr_cpu_ids K) (ko_ids K HK) _ Hwf) as (Hw & Hc & _).
  split; [exact Hw|exact Hc].
Qed.

(** the counts of the fallback *)
Lemma fallback_counts q : wf_conf q ->
  let q' := counts_of K (fallback q) in wf_conf q' /\ counted q' /\ num_rx_queues q' = 1.
Proof using HK.
  intros Hwf q'. destruct (fallback_wf q Hwf) as (Hwf' & El & Hl).
  destruct (counts_ok _ Hwf') as [Hw Hc]. split; [exact Hw|]. split; [exact Hc|]. by apply rss_one.
Qed.

Lemma fallback_capable q q' a : wf_conf q' -> counted q' -> num_rx_queues q' = 1 -> 1 <= max_q_vectors (conf a) ->
  q = set_num_q_vectors 1 q' \/ q = set_msi_enabled true (set_num_q_vectors 1 q') -> capable a (set_conf q a).
Proof.
  intros Hw [C1 C2 C3 C4 C5] E1 Hm. intros [-> | ->]; split; cbn; try (by intros []); try done;
    try (by eapply wf_conf_frame; [exact Hw|..]); try (by split); try lia; by right.
Qed.

Lemma set_conf_twice q q' a : set_conf q (set_conf q' a) = set_conf q a.
Proof. done. Qed.

Lemma capability_ok a : wf_conf (conf a) -> counted (conf a) -> 1 <= max_q_vectors (conf a) ->
  wp (ixgbe_set_interrupt_capability K) (fun _ a' => capable a a') a.
Proof using HK.
  intros Hwf Hct Hm. unfold ixgbe_set_interrupt_capability. wp_step.
  eapply wp_mono; [by apply acquire_ok|]. intros r a1 [[-> Hc]|[Hr [b ->]]]; [by apply wp_ret|].
  destruct (Z.eqb_spec r 0); [done|]. set (qm := set_msix_enabled b (conf a)).
  wp_step. apply wp_upd_conf. intros q1 E1. wp_step. apply wp_upd_conf. intros q2 E2.
  wp_step. apply wp_upd_conf. intros q3 E3. wp_step. apply wp_upd_conf. intros q4 E4.
  wp_step. apply wp_upd_conf. intros q5 E5. wp_step. apply wp_upd_conf. intros q6 E6. apply wp_upd_conf. intros q7 E7.
  cbn [conf set_conf] in *. rewrite !set_conf_twice.
  assert (E : q4 = fallback qm) by (rewrite E4, E3, E2, E1; reflexivity).
  destruct (fallback_counts qm) as (Hw & Hc & H1); [by eapply wf_conf_frame; [exact Hwf|..]|].
  assert (Ec : q5 = counts_of K (fallback qm)) by (rewrite <- E; exact E5). rewrite <- Ec in Hw, Hc, H1.
  apply (fallback_capable q7 q5); [done|done|done|done|].
  rewrite E7, E6. unfold try_msi. repeat case_match; auto.
Qed.

Lemma rings_conf k q a : rings k (set_conf q a) = rings k a.
Proof. by destruct k. Qed.

Lemma null_conf q a : all_null a -> all_null (set_conf q a).
Proof. intros [H1 H2]. split; [|exact H2]. intros k. rewrite rings_conf. apply H1. Qed.

Lemma capable_fits a a' : capable a a' -> all_null a -> small_arrays a ->
  max_q_vectors (conf a) <= Z.of_nat (length (q_vector a)) ->
  1 <= Z.of_nat (length (rx_ring a)) -> 1 <= Z.of_nat (length (tx_ring a)) -> 64 <= Z.of_nat (length (xdp_ring a)) ->
  num_rx_queues (conf a) <= Z.of_nat (length (rx_ring a)) -> num_rx_queues (conf a) <= Z.of_nat (length (tx_ring a)) ->
  fits a'.
Proof.
  intros [Cr Cv Cw Cc Cn Ce] [N1 N2] Hs Hm Hr1 Ht1 Hx1 Hr Ht. pose proof (ct_rx _ Cc). pose proof (ct_tx _ Cc) as Et.
  pose proof (ct_xdp _ Cc). split.
  - split; [intros k; rewrite Cr; apply N1|rewrite Cv; apply N2].
  - intros k. rewrite Cr. apply Hs.
  - rewrite Cv. lia.
  - lia.
  - intros k. rewrite Cr. destruct k; cbn [count]; cbn; rewrite ?Et; lia.
Qed.

Lemma init_scheme a : probed a -> counts_fit K a ->
  wp (ixgbe_init_interrupt_scheme K) (fun e a' =>
    e = IXGBE_SUCCESS /\ up a' \/
    e = - ENOMEM /\ all_null a' /\ (exists v, alloc_ok K v = false) /\ msix_enabled (conf a') = false /\
      num_q_vectors (conf a') = 0 /\ forall k, count k (conf a') = 0) a.
Proof using HK.
  intros [Hwf Hn Hs Hr1 Ht1 Hx1 Hv] [Hcr Hct]. unfold ixgbe_init_interrupt_scheme. wp_step.
  apply wp_upd_conf. intros q1 E0. assert (E1 : q1 = counts_of K (conf a)) by exact E0. clear E0.
  destruct (counts_ok _ Hwf) as [Hw1 Hc1]. pose proof (counts_max_q_vectors (conf a)) as Em.
  rewrite <- E1 in Hcr, Hct, Hw1, Hc1, Em.
  wp_step. set (a1 := set_conf q1 a). eapply wp_mono; [apply capability_ok; [exact Hw1|exact Hc1|cbn; lia]|].
  intros [] a2 H2. assert (Hfit : fits a2).
  { eapply capable_fits; [exact H2|by apply null_conf|intros k; unfold a1; rewrite rings_conf; apply Hs|cbn; lia|done|done|done|done|]. cbn. by rewrite <- (ct_tx _ Hc1). }
  destruct H2 as [_ _ Cw Cc _ _]. wp_step. eapply wp_mono; [by apply alloc_q_vectors_spec|].
  intros e a3 [(-> & _ & E3 & Hserved)|(-> & (v & _ & Hf) & E3 & Hnull)]; cbn [Z.eqb IXGBE_SUCCESS negb].
  - wp_step. assert (Hp : forall k, filled (count k (conf a3)) (rings k a3)) by (intros k i Hi; by apply Hserved).
    rewrite <- E3 in Cw, Cc.
    eapply wp_mono; [apply cache_ring_register_distinct; [done|done|apply (Hp KRx)|apply (Hp KTx)|apply (Hp KXdp)]|].
    intros [] a4 (Hm & Hown & Htx). apply wp_ret. left. split; [done|]. pose proof (mp_conf _ _ Hm) as E4.
    split; [rewrite E4, E3; apply Hfit|by eapply mapping_served|by rewrite E4|by rewrite E4].
  - change (negb (- ENOMEM =? 0)) with true. cbv iota. wp_step. unfold ixgbe_reset_interrupt_capability. apply wp_upd_conf. intros q4 E4. rewrite E3 in E4. apply wp_ret. right.
    split; [done|]. split; [by apply null_conf|]. split; [by exists v|]. cbn. rewrite E4.
    destruct (msix_enabled (zero_counts _)) eqn:Ex; [|destruct (msi_enabled (zero_counts _))];
      (split; [done|]); (split; [done|]); by intros [].
Qed.
Lemma mono_clear_msix q : let q' := if msix_enabled q then set_msix_enabled false q
     else if msi_enabled q then set_msi_enabled false q else q in
  msix_enabled q' = false /\ num_q_vectors q' = num_q_vectors q /\ forall k, count k q' = count k q.
Proof. cbv zeta. destruct (msix_enabled q) eqn:E; [|destruct (msi_enabled q)]; (split; [done|]); (split; [done|]); by intros []. Qed.

(** tearing down takes back every vector and every ring *)
Lemma clear_scheme a : up a ->
  wp ixgbe_clear_interrupt_scheme (fun _ a' =>
    all_null a' /\ num_q_vectors (conf a') = 0 /\ msix_enabled (conf a') = false /\ forall k, count k (conf a') = 0) a.
Proof.
  intros [Hn [Hok _] _ _]. unfold ixgbe_clear_interrupt_scheme. wp_step. apply wp_upd_conf. intros q1 E1. wp_step.
  unfold ixgbe_free_q_vectors. wp_step. apply wp_get. cbv zeta. wp_step. apply wp_upd_conf. intros q2 E2.
  cbn [conf set_conf] in *. assert (Eq : num_q_vectors q1 = num_q_vectors (conf a)) by (by rewrite E1). rewrite Eq.
  eapply wp_mono; [apply free_vectors_ok; [lia|]; eapply vectors_ok_ext, Hok; [done|by intros []]|].
  intros [] a2 [Ha2 E]. unfold ixgbe_reset_interrupt_capability. apply wp_upd_conf. intros q3 E3. cbn [conf set_conf] in *.
  split; [by apply null_conf, all_null_ok|]. destruct (mono_clear_msix (conf a2)) as (M1 & M2 & M3).
  rewrite <- E3 in M1, M2, M3. rewrite M2, E, E2. split; [done|]. split; [done|].
  intros k. rewrite M3, E, E2. by destruct k.
Qed.


(** A scheme that was brought up and torn down again leaves no ring, no vector
    and no count, whether or not the allocations succeeded. *)
Theorem init_then_clear a : probed a -> counts_fit K a ->
  wp (e ← ixgbe_init_interrupt_scheme K;
      if negb (e =? 0) then mret e else ixgbe_clear_interrupt_scheme ;; mret e) (fun e a' =>
    all_null a' /\ num_q_vectors (conf a') = 0 /\ msix_enabled (conf a') = false /\
    (forall k, count k (conf a') = 0) /\ (e = 0 \/ exists v, alloc_ok K v = false)) a.
Proof using HK.
  intros Hp Hf0. wp_step. eapply wp_mono; [by apply init_scheme|].
  intros e a1 [[-> Hup]|(-> & Hn & Hf & Hm & Hq & Hk)]; cbn [Z.eqb IXGBE_SUCCESS negb].
  - wp_step. eapply wp_mono; [by apply clear_scheme|]. intros [] a2 (H1 & H2 & H3 & H4). apply wp_ret. auto 6.
  - apply wp_ret. auto 6.
Qed.
End Scheme.

(** ** Witnesses: 82599, eight pools of two queues, four processors *)
Definition sample_kernel (ok : bool) : kernel :=
  mk_kernel 4 8 true (fun lo hi => if hi <? lo then -28 else hi) 0 false (fun v => ok || (v <? 2)).
Definition sample_adapter (pools : Z) : adapter :=
  mk_adapter (sample_conf ixgbe_mac_82599EB 0 pools 2 true) (replicate 71 None) (replicate 71 None) (replicate 64 None)
    (replicate 64 None).

Lemma replicate_null {X} n i (x : X) : replicate n (@None X) !! i <> Some (Some x).
Proof. rewrite lookup_replicate. naive_solver. Qed.

Lemma sample_kernel_ok ok : kernel_ok (sample_kernel ok).
Proof. split; cbn; [lia|lia|]. intros lo hi. destruct (Z.ltb_spec hi lo); lia. Qed.

Lemma sample_fit ok : counts_fit (sample_kernel ok) (sample_adapter 8).
Proof. by split; vm_compute. Qed.
Lemma sample_probed : probed (sample_adapter 8).
Proof.
  split; try by vm_compute.
  - by apply sample_wf.
  - split; [intros []; apply replicate_null|apply replicate_null].
  - intros []; apply Nat.leb_le; reflexivity.
Qed.


Lemma init_then_clear_witness :
  wp (e ← ixgbe_init_interrupt_scheme (sample_kernel false);
      if negb (e =? 0) then mret e else ixgbe_clear_interrupt_scheme ;; mret e) (fun e a' => all_null a') (sample_adapter 8).
Proof.
  eapply wp_mono; [apply (init_then_clear _ (sample_kernel_ok false) _ sample_probed (sample_fit false))|]. intros e a' H. apply H.
Defined.

(** The queue counts are not bounded by the arrays of ring pointers: 64 pools
    of two queues, which the module parameters allow, ask for 128 rings, and the
    allocation of the vectors writes behind the 71 entries of [tx_ring]. *)
Theorem vmdq_rings_overflow_arrays :
  let q := counts_of (sample_kernel true) (conf (sample_adapter 64)) in
  num_rx_queues q = 128 /\ MAX_RX_QUEUES = 71 /\
  ixgbe_init_interrupt_scheme (sample_kernel true) (sample_adapter 64) = Fault FOutOfBounds.
Proof. vm_compute. done. Qed.
