(* ===== verification/PfState.v ===== *)
(** * The state of the physical function

    The part of [struct ixgbe_adapter] that the filter code of ixgbe_main.c and
    the SR-IOV code share: the hardware with its device ([pw]), the rings and
    features of ixgbe_lib.c ([ad]), the network device, the data kept per VF, the
    table of receive addresses and the VLANs of the PF.  Flags are booleans.  A
    pointer is [None] when it is NULL; [vf_mvs] is also [None] when the list head
    was never initialised or the entries were freed, so that walking the list is
    a fault.  Statistics, locks and kernel handles that this code does not read
    are left out.

    [__dev_uc_sync] of the kernel only calls the two functions it is given; what
    it does is a script ([uc_script]) that the kernel picks in each state. *)
From S2P Require Import Prelude Regs Types Osdep Queues.

Definition EPERM : Z := 1.
Definition EINVAL : Z := 22.
Definition ENOSPC : Z := 28.
Definition EPROTONOSUPPORT : Z := 93.
Definition ETH_ALEN : Z := 6.
Definition ETH_HLEN : Z := 14.
Definition ETH_FRAME_LEN : Z := 1514.
Definition ETH_FCS_LEN : Z := 4.
Definition ETH_P_PAUSE : Z := 0x8808.
Definition VLAN_N_VID : Z := 4096.
Definition VLAN_VID_MASK : Z := 0xfff.
Definition VLAN_PRIO_SHIFT : Z := 13.

(** ** Data *)

(** struct net_device: what the code reads of it *)
Record net_device := mk_netdev {
  iff_promisc : bool; iff_allmulti : bool; f_vlan_ctag_rx : bool; f_vlan_ctag_filter : bool;
  running : bool; mc_list : list (list Z); mtu : Z; fcoe_mtu : bool; prio_tc_map : list Z;
}.

(** struct ixgbe_mac_addr *)
Record ixgbe_mac_addr := mk_mac_addr { m_addr : list Z; m_pool : Z; m_state : Z }.

(** struct vf_macvlans *)
Record vf_macvlans := mk_mv { mv_vf : Z; mv_free : bool; mv_is_macvlan : bool; mv_addr : list Z }.

(** struct vf_data_storage *)
Record vf_data_storage := mk_vf {
  vfdev : option Z; vf_mac_addresses : list Z; vf_mc_hashes : list Z; num_vf_mc_hashes : Z;
  clear_to_send : bool; pf_set_mac : bool; pf_vlan : Z; pf_qos : Z; tx_rate : Z; link_enable :
  bool; link_state : Z; spoofchk_enabled : bool; rss_query_enabled : bool; trusted : bool;
  xcast_mode : Z; vf_api : Z;
}.
Definition put_vfdev (x : option Z) (v : vf_data_storage) : vf_data_storage := mk_vf x
  (vf_mac_addresses v) (vf_mc_hashes v) (num_vf_mc_hashes v) (clear_to_send v) (pf_set_mac v)
  (pf_vlan v) (pf_qos v) (tx_rate v) (link_enable v) (link_state v) (spoofchk_enabled v)
  (rss_query_enabled v) (trusted v) (xcast_mode v) (vf_api v).
Definition put_vf_mac_addresses (x : list Z) (v : vf_data_storage) : vf_data_storage := mk_vf (vfdev
  v) x (vf_mc_hashes v) (num_vf_mc_hashes v) (clear_to_send v) (pf_set_mac v) (pf_vlan v) (pf_qos v)
  (tx_rate v) (link_enable v) (link_state v) (spoofchk_enabled v) (rss_query_enabled v) (trusted v)
  (xcast_mode v) (vf_api v).
Definition put_vf_mc_hashes (x : list Z) (v : vf_data_storage) : vf_data_storage := mk_vf (vfdev v)
  (vf_mac_addresses v) x (num_vf_mc_hashes v) (clear_to_send v) (pf_set_mac v) (pf_vlan v) (pf_qos
  v) (tx_rate v) (link_enable v) (link_state v) (spoofchk_enabled v) (rss_query_enabled v) (trusted
  v) (xcast_mode v) (vf_api v).
Definition put_num_vf_mc_hashes (x : Z) (v : vf_data_storage) : vf_data_storage := mk_vf (vfdev v)
  (vf_mac_addresses v) (vf_mc_hashes v) x (clear_to_send v) (pf_set_mac v) (pf_vlan v) (pf_qos v)
  (tx_rate v) (link_enable v) (link_state v) (spoofchk_enabled v) (rss_query_enabled v) (trusted v)
  (xcast_mode v) (vf_api v).
Definition put_clear_to_send (x : bool) (v : vf_data_storage) : vf_data_storage := mk_vf (vfdev v)
  (vf_mac_addresses v) (vf_mc_hashes v) (num_vf_mc_hashes v) x (pf_set_mac v) (pf_vlan v) (pf_qos v)
  (tx_rate v) (link_enable v) (link_state v) (spoofchk_enabled v) (rss_query_enabled v) (trusted v)
  (xcast_mode v) (vf_api v).
Definition put_pf_set_mac (x : bool) (v : vf_data_storage) : vf_data_storage := mk_vf (vfdev v)
  (vf_mac_addresses v) (vf_mc_hashes v) (num_vf_mc_hashes v) (clear_to_send v) x (pf_vlan v) (pf_qos
  v) (tx_rate v) (link_enable v) (link_state v) (spoofchk_enabled v) (rss_query_enabled v) (trusted
  v) (xcast_mode v) (vf_api v).
Definition put_pf_vlan (x : Z) (v : vf_data_storage) : vf_data_storage := mk_vf (vfdev v)
  (vf_mac_addresses v) (vf_mc_hashes v) (num_vf_mc_hashes v) (clear_to_send v) (pf_set_mac v) x
  (pf_qos v) (tx_rate v) (link_enable v) (link_state v) (spoofchk_enabled v) (rss_query_enabled v)
  (trusted v) (xcast_mode v) (vf_api v).
Definition put_pf_qos (x : Z) (v : vf_data_storage) : vf_data_storage := mk_vf (vfdev v)
  (vf_mac_addresses v) (vf_mc_hashes v) (num_vf_mc_hashes v) (clear_to_send v) (pf_set_mac v)
  (pf_vlan v) x (tx_rate v) (link_enable v) (link_state v) (spoofchk_enabled v) (rss_query_enabled
  v) (trusted v) (xcast_mode v) (vf_api v).
Definition put_tx_rate (x : Z) (v : vf_data_storage) : vf_data_storage := mk_vf (vfdev v)
  (vf_mac_addresses v) (vf_mc_hashes v) (num_vf_mc_hashes v) (clear_to_send v) (pf_set_mac v)
  (pf_vlan v) (pf_qos v) x (link_enable v) (link_state v) (spoofchk_enabled v) (rss_query_enabled v)
  (trusted v) (xcast_mode v) (vf_api v).
Definition put_link_enable (x : bool) (v : vf_data_storage) : vf_data_storage := mk_vf (vfdev v)
  (vf_mac_addresses v) (vf_mc_hashes v) (num_vf_mc_hashes v) (clear_to_send v) (pf_set_mac v)
  (pf_vlan v) (pf_qos v) (tx_rate v) x (link_state v) (spoofchk_enabled v) (rss_query_enabled v)
  (trusted v) (xcast_mode v) (vf_api v).
Definition put_link_state (x : Z) (v : vf_data_storage) : vf_data_storage := mk_vf (vfdev v)
  (vf_mac_addresses v) (vf_mc_hashes v) (num_vf_mc_hashes v) (clear_to_send v) (pf_set_mac v)
  (pf_vlan v) (pf_qos v) (tx_rate v) (link_enable v) x (spoofchk_enabled v) (rss_query_enabled v)
  (trusted v) (xcast_mode v) (vf_api v).
Definition put_spoofchk_enabled (x : bool) (v : vf_data_storage) : vf_data_storage := mk_vf (vfdev
  v) (vf_mac_addresses v) (vf_mc_hashes v) (num_vf_mc_hashes v) (clear_to_send v) (pf_set_mac v)
  (pf_vlan v) (pf_qos v) (tx_rate v) (link_enable v) (link_state v) x (rss_query_enabled v) (trusted
  v) (xcast_mode v) (vf_api v).
Definition put_rss_query_enabled (x : bool) (v : vf_data_storage) : vf_data_storage := mk_vf (vfdev
  v) (vf_mac_addresses v) (vf_mc_hashes v) (num_vf_mc_hashes v) (clear_to_send v) (pf_set_mac v)
  (pf_vlan v) (pf_qos v) (tx_rate v) (link_enable v) (link_state v) (spoofchk_enabled v) x (trusted
  v) (xcast_mode v) (vf_api v).
Definition put_trusted (x : bool) (v : vf_data_storage) : vf_data_storage := mk_vf (vfdev v)
  (vf_mac_addresses v) (vf_mc_hashes v) (num_vf_mc_hashes v) (clear_to_send v) (pf_set_mac v)
  (pf_vlan v) (pf_qos v) (tx_rate v) (link_enable v) (link_state v) (spoofchk_enabled v)
  (rss_query_enabled v) x (xcast_mode v) (vf_api v).
Definition put_xcast_mode (x : Z) (v : vf_data_storage) : vf_data_storage := mk_vf (vfdev v)
  (vf_mac_addresses v) (vf_mc_hashes v) (num_vf_mc_hashes v) (clear_to_send v) (pf_set_mac v)
  (pf_vlan v) (pf_qos v) (tx_rate v) (link_enable v) (link_state v) (spoofchk_enabled v)
  (rss_query_enabled v) (trusted v) x (vf_api v).
Definition put_vf_api (x : Z) (v : vf_data_storage) : vf_data_storage := mk_vf (vfdev v)
  (vf_mac_addresses v) (vf_mc_hashes v) (num_vf_mc_hashes v) (clear_to_send v) (pf_set_mac v)
  (pf_vlan v) (pf_qos v) (tx_rate v) (link_enable v) (link_state v) (spoofchk_enabled v)
  (rss_query_enabled v) (trusted v) (xcast_mode v) x.

(** the calls that [__dev_uc_sync] makes of its two arguments, and its result *)
Inductive uc_script :=
| UcDone (ret : Z)
| UcSync (addr : list Z) (k : Z -> uc_script)
| UcUnsync (addr : list Z) (k : Z -> uc_script).

Section State.
Context `{D : Mmio}.

(** struct ixgbe_adapter *)
Record pf := mk_pf {
  pw : world; ad : adapter; netdev : net_device; num_vfs : Z; vfinfo : option (list
  vf_data_storage); vf_mvs : option (list vf_macvlans); mac_table : list ixgbe_mac_addr;
  active_vlans : list Z; sriov_capable : bool; mdd_enabled : bool; l2switch_enable : bool;
  replication_enable : bool; vlan_promisc : bool; rsc_capable : bool; rsc_enabled : bool; max_vfs
  : Z; default_up : Z; link_speed : Z; link_up : bool; vf_rate_link_speed : Z; rss_indir_tbl :
  list Z; rss_key : list Z; pg_tcs : Z; pfc_tcs : Z; vt_mode : bool;
}.
Definition put_pw (x : world) (s : pf) : pf := mk_pf x (ad s) (netdev s) (num_vfs s) (vfinfo s)
  (vf_mvs s) (mac_table s) (active_vlans s) (sriov_capable s) (mdd_enabled s) (l2switch_enable s)
  (replication_enable s) (vlan_promisc s) (rsc_capable s) (rsc_enabled s) (max_vfs s) (default_up s)
  (link_speed s) (link_up s) (vf_rate_link_speed s) (rss_indir_tbl s) (rss_key s) (pg_tcs s)
  (pfc_tcs s) (vt_mode s).
Definition put_ad (x : adapter) (s : pf) : pf := mk_pf (pw s) x (netdev s) (num_vfs s) (vfinfo s)
  (vf_mvs s) (mac_table s) (active_vlans s) (sriov_capable s) (mdd_enabled s) (l2switch_enable s)
  (replication_enable s) (vlan_promisc s) (rsc_capable s) (rsc_enabled s) (max_vfs s) (default_up s)
  (link_speed s) (link_up s) (vf_rate_link_speed s) (rss_indir_tbl s) (rss_key s) (pg_tcs s)
  (pfc_tcs s) (vt_mode s).
Definition put_num_vfs (x : Z) (s : pf) : pf := mk_pf (pw s) (ad s) (netdev s) x (vfinfo s) (vf_mvs
  s) (mac_table s) (active_vlans s) (sriov_capable s) (mdd_enabled s) (l2switch_enable s)
  (replication_enable s) (vlan_promisc s) (rsc_capable s) (rsc_enabled s) (max_vfs s) (default_up s)
  (link_speed s) (link_up s) (vf_rate_link_speed s) (rss_indir_tbl s) (rss_key s) (pg_tcs s)
  (pfc_tcs s) (vt_mode s).
Definition put_vfinfo (x : option (list vf_data_storage)) (s : pf) : pf := mk_pf (pw s) (ad s)
  (netdev s) (num_vfs s) x (vf_mvs s) (mac_table s) (active_vlans s) (sriov_capable s) (mdd_enabled
  s) (l2switch_enable s) (replication_enable s) (vlan_promisc s) (rsc_capable s) (rsc_enabled s)
  (max_vfs s) (default_up s) (link_speed s) (link_up s) (vf_rate_link_speed s) (rss_indir_tbl s)
  (rss_key s) (pg_tcs s) (pfc_tcs s) (vt_mode s).
Definition put_vf_mvs (x : option (list vf_macvlans)) (s : pf) : pf := mk_pf (pw s) (ad s) (netdev
  s) (num_vfs s) (vfinfo s) x (mac_table s) (active_vlans s) (sriov_capable s) (mdd_enabled s)
  (l2switch_enable s) (replication_enable s) (vlan_promisc s) (rsc_capable s) (rsc_enabled s)
  (max_vfs s) (default_up s) (link_speed s) (link_up s) (vf_rate_link_speed s) (rss_indir_tbl s)
  (rss_key s) (pg_tcs s) (pfc_tcs s) (vt_mode s).
Definition put_mac_table (x : list ixgbe_mac_addr) (s : pf) : pf := mk_pf (pw s) (ad s) (netdev s)
  (num_vfs s) (vfinfo s) (vf_mvs s) x (active_vlans s) (sriov_capable s) (mdd_enabled s)
  (l2switch_enable s) (replication_enable s) (vlan_promisc s) (rsc_capable s) (rsc_enabled s)
  (max_vfs s) (default_up s) (link_speed s) (link_up s) (vf_rate_link_speed s) (rss_indir_tbl s)
  (rss_key s) (pg_tcs s) (pfc_tcs s) (vt_mode s).
Definition put_active_vlans (x : list Z) (s : pf) : pf := mk_pf (pw s) (ad s) (netdev s) (num_vfs s)
  (vfinfo s) (vf_mvs s) (mac_table s) x (sriov_capable s) (mdd_enabled s) (l2switch_enable s)
  (replication_enable s) (vlan_promisc s) (rsc_capable s) (rsc_enabled s) (max_vfs s) (default_up s)
  (link_speed s) (link_up s) (vf_rate_link_speed s) (rss_indir_tbl s) (rss_key s) (pg_tcs s)
  (pfc_tcs s) (vt_mode s).
Definition put_l2switch_enable (x : bool) (s : pf) : pf := mk_pf (pw s) (ad s) (netdev s) (num_vfs
  s) (vfinfo s) (vf_mvs s) (mac_table s) (active_vlans s) (sriov_capable s) (mdd_enabled s) x
  (replication_enable s) (vlan_promisc s) (rsc_capable s) (rsc_enabled s) (max_vfs s) (default_up s)
  (link_speed s) (link_up s) (vf_rate_link_speed s) (rss_indir_tbl s) (rss_key s) (pg_tcs s)
  (pfc_tcs s) (vt_mode s).
Definition put_replication_enable (x : bool) (s : pf) : pf := mk_pf (pw s) (ad s) (netdev s)
  (num_vfs s) (vfinfo s) (vf_mvs s) (mac_table s) (active_vlans s) (sriov_capable s) (mdd_enabled s)
  (l2switch_enable s) x (vlan_promisc s) (rsc_capable s) (rsc_enabled s) (max_vfs s) (default_up s)
  (link_speed s) (link_up s) (vf_rate_link_speed s) (rss_indir_tbl s) (rss_key s) (pg_tcs s)
  (pfc_tcs s) (vt_mode s).
Definition put_vlan_promisc (x : bool) (s : pf) : pf := mk_pf (pw s) (ad s) (netdev s) (num_vfs s)
  (vfinfo s) (vf_mvs s) (mac_table s) (active_vlans s) (sriov_capable s) (mdd_enabled s)
  (l2switch_enable s) (replication_enable s) x (rsc_capable s) (rsc_enabled s) (max_vfs s)
  (default_up s) (link_speed s) (link_up s) (vf_rate_link_speed s) (rss_indir_tbl s) (rss_key s)
  (pg_tcs s) (pfc_tcs s) (vt_mode s).
Definition put_rsc_capable (x : bool) (s : pf) : pf := mk_pf (pw s) (ad s) (netdev s) (num_vfs s)
  (vfinfo s) (vf_mvs s) (mac_table s) (active_vlans s) (sriov_capable s) (mdd_enabled s)
  (l2switch_enable s) (replication_enable s) (vlan_promisc s) x (rsc_enabled s) (max_vfs s)
  (default_up s) (link_speed s) (link_up s) (vf_rate_link_speed s) (rss_indir_tbl s) (rss_key s)
  (pg_tcs s) (pfc_tcs s) (vt_mode s).
Definition put_rsc_enabled (x : bool) (s : pf) : pf := mk_pf (pw s) (ad s) (netdev s) (num_vfs s)
  (vfinfo s) (vf_mvs s) (mac_table s) (active_vlans s) (sriov_capable s) (mdd_enabled s)
  (l2switch_enable s) (replication_enable s) (vlan_promisc s) (rsc_capable s) x (max_vfs s)
  (default_up s) (link_speed s) (link_up s) (vf_rate_link_speed s) (rss_indir_tbl s) (rss_key s)
  (pg_tcs s) (pfc_tcs s) (vt_mode s).
Definition put_vf_rate_link_speed (x : Z) (s : pf) : pf := mk_pf (pw s) (ad s) (netdev s) (num_vfs
  s) (vfinfo s) (vf_mvs s) (mac_table s) (active_vlans s) (sriov_capable s) (mdd_enabled s)
  (l2switch_enable s) (replication_enable s) (vlan_promisc s) (rsc_capable s) (rsc_enabled s)
  (max_vfs s) (default_up s) (link_speed s) (link_up s) x (rss_indir_tbl s) (rss_key s) (pg_tcs s)
  (pfc_tcs s) (vt_mode s).
Definition put_pg_tcs (x : Z) (s : pf) : pf := mk_pf (pw s) (ad s) (netdev s) (num_vfs s) (vfinfo s)
  (vf_mvs s) (mac_table s) (active_vlans s) (sriov_capable s) (mdd_enabled s) (l2switch_enable s)
  (replication_enable s) (vlan_promisc s) (rsc_capable s) (rsc_enabled s) (max_vfs s) (default_up s)
  (link_speed s) (link_up s) (vf_rate_link_speed s) (rss_indir_tbl s) (rss_key s) x (pfc_tcs s)
  (vt_mode s).
Definition put_pfc_tcs (x : Z) (s : pf) : pf := mk_pf (pw s) (ad s) (netdev s) (num_vfs s) (vfinfo
  s) (vf_mvs s) (mac_table s) (active_vlans s) (sriov_capable s) (mdd_enabled s) (l2switch_enable s)
  (replication_enable s) (vlan_promisc s) (rsc_capable s) (rsc_enabled s) (max_vfs s) (default_up s)
  (link_speed s) (link_up s) (vf_rate_link_speed s) (rss_indir_tbl s) (rss_key s) (pg_tcs s) x
  (vt_mode s).
Definition put_vt_mode (x : bool) (s : pf) : pf := mk_pf (pw s) (ad s) (netdev s) (num_vfs s)
  (vfinfo s) (vf_mvs s) (mac_table s) (active_vlans s) (sriov_capable s) (mdd_enabled s)
  (l2switch_enable s) (replication_enable s) (vlan_promisc s) (rsc_capable s) (rsc_enabled s)
  (max_vfs s) (default_up s) (link_speed s) (link_up s) (vf_rate_link_speed s) (rss_indir_tbl s)
  (rss_key s) (pg_tcs s) (pfc_tcs s) x.

Definition PF (A : Type) : Type := comp pf A.

(** a routine of the shared code, called with [&adapter->hw] *)
Definition lift {A} (m : M A) : PF A := fun s =>
  match m (pw s) with
  | Done a w => Done a (put_pw w s)
  | Fault e => Fault e
  end.

Definition hw (s : pf) : ixgbe_hw := w_hw (pw s).
Definition get_pf_hw : PF ixgbe_hw := gets hw.
Definition pf_mac (s : pf) : ixgbe_mac_type := mac_type (mac (hw s)).
Definition RD (r : Z) : PF Z := lift (IXGBE_READ_REG r).
Definition WR (r v : Z) : PF unit := lift (IXGBE_WRITE_REG r v).
Definition FLUSH : PF unit := lift IXGBE_WRITE_FLUSH.

(** [VMDQ_P(p)] *)
Definition VMDQ_P (p : Z) (s : pf) : Z := p + offset (vmdq (conf (ad s))).

(** [adapter->vfinfo[vf]], read and changed *)
Definition get_vf (vf : Z) : PF vf_data_storage :=
  s ← get;
  match vfinfo s with
  | Some l => nth_c l vf
  | None => crash FNullCall
  end.
Definition mod_vf (vf : Z) (f : vf_data_storage -> vf_data_storage) : PF unit :=
  s ← get;
  match vfinfo s with
  | Some l => v ← nth_c l vf; l' ← upd_c l vf (f v); modify (put_vfinfo (Some l'))
  | None => crash FNullCall
  end.

(** [adapter->mac_table[i]], read and changed *)
Definition get_mac (i : Z) : PF ixgbe_mac_addr := s ← get; nth_c (mac_table s) i.
Definition put_mac (i : Z) (e : ixgbe_mac_addr) : PF unit :=
  s ← get; l ← upd_c (mac_table s) i e; modify (put_mac_table l).

(** [test_bit], [set_bit] and [clear_bit] on [adapter->active_vlans], an array
    of 64 words of 64 bits *)
Definition test_vlan (vid : Z) : PF bool :=
  s ← get; w ← nth_c (active_vlans s) (vid / 64); mret (Z.testbit w (vid mod 64)).
Definition set_vlan (vid : Z) : PF unit :=
  s ← get;
  w ← nth_c (active_vlans s) (vid / 64);
  l ← upd_c (active_vlans s) (vid / 64) (Z.lor w (bit (vid mod 64)));
  modify (put_active_vlans l).
Definition clear_vlan (vid : Z) : PF unit :=
  s ← get;
  w ← nth_c (active_vlans s) (vid / 64);
  l ← upd_c (active_vlans s) (vid / 64) (Z.land w (bnot 64 (bit (vid mod 64))));
  modify (put_active_vlans l).
End State.

(** ** Ethernet addresses *)
Definition is_zero_ether_addr (a : list Z) : bool := forallb (fun x => x =? 0) a.
Definition is_multicast_ether_addr (a : list Z) : bool := has (hd 0 a) 0x01.
Definition is_valid_ether_addr (a : list Z) : bool :=
  negb (is_multicast_ether_addr a) && negb (is_zero_ether_addr a).
Definition ether_addr_equal (a b : list Z) : bool := bool_decide (a = b).
