(* ===== verification/Adapter.v ===== *)
(** * Receive filters of the driver core (ixgbe_main.c)

    The table of receive addresses that the driver keeps in software
    ([mac_table]) and writes to the hardware, the VLAN filter of the PF with its
    promiscuous mode, tag stripping, and [ixgbe_set_rx_mode] with the multicast
    list.  The configuration is the one of a current kernel: CONFIG_PCI_IOV,
    HAVE_SET_RX_MODE, HAVE_8021P_SUPPORT and NETIF_F_HW_VLAN_CTAG_* are defined,
    HAVE_VLAN_RX_REGISTER and HAVE_PTP_1588_CLOCK are not. *)
From S2P Require Import Prelude Regs Types Osdep Filters Queues PfState.

Section Adapter.
Context `{D : Mmio}.
(** what [__dev_uc_sync] does when it is called in a state *)
Context (dev_uc_sync : pf -> uc_script).

(** the pointer [hw->mac.ops.set_vfta]; NULL on an unknown MAC *)
Definition call_set_vfta (vlan vind : Z) (vlan_on vlvf_bypass : bool) : M Z :=
  h ← get_hw;
  match mac_type (mac h) with
  | ixgbe_mac_unknown => crash FNullCall
  | ixgbe_mac_82598EB => ixgbe_set_vfta_82598 vlan vind vlan_on vlvf_bypass
  | _ => ixgbe_set_vfta_generic vlan vind vlan_on vlvf_bypass
  end.
Definition set_vfta (vlan vind : Z) (vlan_on vlvf_bypass : bool) : PF Z :=
  lift (call_set_vfta vlan vind vlan_on vlvf_bypass).

(** the pointers [hw->mac.ops.set_vfta] and [ops.update_mc_addr_list] are set *)
Definition mac_known (t : ixgbe_mac_type) : bool :=
  match t with ixgbe_mac_unknown => false | _ => true end.

(** ** The table of receive addresses *)
Definition in_use (e : ixgbe_mac_addr) : bool := has (m_state e) IXGBE_MAC_STATE_IN_USE.
Definition set_state (x : Z) (e : ixgbe_mac_addr) : ixgbe_mac_addr := mk_mac_addr (m_addr e) (m_pool e) x.
Definition num_rars (s : pf) : Z := num_rar_entries (mac (hw s)).

(** one entry written to the hardware *)
Definition write_rar (i : Z) : PF unit :=
  e ← get_mac i;
  put_mac i (set_state (Z.land (m_state e) (bnot 16 IXGBE_MAC_STATE_MODIFIED)) e) ;;
  if in_use e then
    lift (ixgbe_set_rar_generic i (m_addr e) (m_pool e) IXGBE_RAH_AV) ;; mret tt
  else lift (ixgbe_clear_rar_generic i) ;; mret tt.

Definition ixgbe_full_sync_mac_table : PF unit :=
  s ← get;
  for_loop (Z.to_nat (num_rars s)) 0 write_rar.

Definition ixgbe_sync_mac_table : PF unit :=
  s ← get;
  for_loop (Z.to_nat (num_rars s)) 0 (fun i =>
    e ← get_mac i;
    if negb (has (m_state e) IXGBE_MAC_STATE_MODIFIED) then mret tt else write_rar i).

Definition ixgbe_available_rars (pool : Z) : PF Z :=
  s ← get;
  for_acc (Z.to_nat (num_rars s)) 0 0 (fun i count =>
    e ← get_mac i;
    if has (m_state e) IXGBE_MAC_STATE_DEFAULT then mret count
    else if in_use e && negb (m_pool e =? u16 pool) then mret count
    else mret (count + 1)).

Definition ixgbe_mac_set_default_filter : PF unit :=
  s ← get;
  let e := mk_mac_addr (mac_addr (mac (hw s))) (u16 (VMDQ_P 0 s))
             (Z.lor IXGBE_MAC_STATE_DEFAULT IXGBE_MAC_STATE_IN_USE) in
  put_mac 0 e ;;
  lift (ixgbe_set_rar_generic 0 (m_addr e) (m_pool e) IXGBE_RAH_AV) ;; mret tt.

Definition ixgbe_add_mac_filter (addr : list Z) (pool : Z) : PF Z :=
  if is_zero_ether_addr addr then mret (- EINVAL)
  else
    s ← get;
    r ← for_break (Z.to_nat (num_rars s)) 0 tt (fun i _ =>
          e ← get_mac i;
          if in_use e then mret (inl tt)
          else
            put_mac i (mk_mac_addr addr (u16 pool)
              (Z.lor (m_state e) (Z.lor IXGBE_MAC_STATE_MODIFIED IXGBE_MAC_STATE_IN_USE))) ;;
            ixgbe_sync_mac_table ;;
            mret (inr i));
    mret (match r with inr i => i | inl _ => - ENOMEM end).

(** an entry is given up: marked as changed and no longer in use *)
Definition release_state (x : Z) : Z :=
  Z.land (Z.lor x IXGBE_MAC_STATE_MODIFIED) (bnot 16 IXGBE_MAC_STATE_IN_USE).

Definition ixgbe_flush_sw_mac_table : PF unit :=
  s ← get;
  for_loop (Z.to_nat (num_rars s)) 0 (fun i =>
    e ← get_mac i; put_mac i (set_state (release_state (m_state e)) e)) ;;
  ixgbe_sync_mac_table.

Definition ixgbe_del_mac_filter (addr : list Z) (pool : Z) : PF Z :=
  if is_zero_ether_addr addr then mret (- EINVAL)
  else
    s ← get;
    r ← for_break (Z.to_nat (num_rars s)) 0 tt (fun i _ =>
          e ← get_mac i;
          if negb (in_use e) then mret (inl tt)
          else if negb (m_pool e =? u16 pool) then mret (inl tt)
          else if negb (ether_addr_equal addr (m_addr e)) then mret (inl tt)
          else
            put_mac i (set_state (release_state (m_state e)) e) ;;
            ixgbe_sync_mac_table ;;
            mret (inr tt));
    mret (match r with inr _ => 0 | inl _ => - ENOMEM end).

Definition ixgbe_uc_sync (addr : list Z) : PF Z :=
  s ← get;
  ret ← ixgbe_add_mac_filter addr (VMDQ_P 0 s);
  mret (Z.min ret 0).

Definition ixgbe_uc_unsync (addr : list Z) : PF Z :=
  s ← get;
  ixgbe_del_mac_filter addr (VMDQ_P 0 s) ;; mret 0.

(** [__dev_uc_sync(netdev, ixgbe_uc_sync, ixgbe_uc_unsync)] *)
Fixpoint run_uc (t : uc_script) : PF Z :=
  match t with
  | UcDone ret => mret ret
  | UcSync addr k => r ← ixgbe_uc_sync addr; run_uc (k r)
  | UcUnsync addr k => r ← ixgbe_uc_unsync addr; run_uc (k r)
  end.

(** ** Multicast list *)

(** the cursor of [ixgbe_addr_list_itr] is the rest of the kernel's list; an
    address taken from an empty list is a NULL pointer *)
Definition ixgbe_addr_list_itr (pool : Z) (l : list (list Z)) : list Z * Z * list (list Z) :=
  (hd [] l, pool, tl l).

(** the body of [ixgbe_restore_vf_multicasts] (ixgbe_sriov.c) for one VF *)
Definition restore_vf_mta (j : Z) (v : vf_data_storage) : PF unit :=
  x ← nth_c (vf_mc_hashes v) j;
  lift (mod_addr_ctrl (fun a => upd_mta_in_use (u32 (mta_in_use a + 1)) a)) ;;
  let vector_reg := Z.land (Z.shiftr x 5) 0x7F in
  let vector_bit := Z.land x 0x1F in
  s ← get;
  let shadow := mta_shadow (mac (hw s)) in
  w ← nth_c shadow vector_reg;
  l ← upd_c shadow vector_reg (Z.lor w (bit32 vector_bit));
  lift (mod_mac (upd_mta_shadow l)).

Definition ixgbe_restore_vf_multicasts : PF unit :=
  lift (mod_mac (fun m => upd_mta_shadow (replicate (length (mta_shadow m)) 0) m)) ;;
  s ← get;
  for_loop (Z.to_nat (num_vfs s)) 0 (fun i =>
    vmolr ← RD (IXGBE_VMOLR i);
    v ← get_vf i;
    for_loop (Z.to_nat (num_vf_mc_hashes v)) 0 (fun j => restore_vf_mta j v) ;;
    WR (IXGBE_VMOLR i)
      (if negb (num_vf_mc_hashes v =? 0) then Z.lor vmolr IXGBE_VMOLR_ROMPE
       else Z.land vmolr (bnot 32 IXGBE_VMOLR_ROMPE))) ;;
  ixgbe_full_sync_mac_table.

Definition ixgbe_write_mc_addr_list : PF Z :=
  s ← get;
  if negb (mac_known (pf_mac s)) then mret (- ENOMEM)
  else if negb (running (netdev s)) then mret 0
  else
    ixgbe_restore_vf_multicasts ;;
    let l := mc_list (netdev s) in
    let addr_count := Z.of_nat (length l) in
    lift (ixgbe_update_mc_addr_list_generic (ixgbe_addr_list_itr (VMDQ_P 0 s)) l addr_count false) ;;
    mret addr_count.

(** ** VLAN filter of the PF *)

(** [for (idx = IXGBE_VLVF_ENTRIES; --idx;)]: the entries [n] down to 1 *)
Fixpoint find_vlvf_down (vlan : Z) (n : nat) : PF Z :=
  match n with
  | O => mret 0
  | S n' =>
      vlvf ← RD (IXGBE_VLVF (Z.of_nat n));
      if Z.land vlvf VLAN_VID_MASK =? vlan then mret (Z.of_nat n) else find_vlvf_down vlan n'
  end.
Definition ixgbe_find_vlvf_entry (vlan : Z) : PF Z :=
  if vlan =? 0 then mret 0 else find_vlvf_down vlan (Z.to_nat (IXGBE_VLVF_ENTRIES - 1)).

Definition ixgbe_update_pf_promisc_vlvf (vid : Z) : PF unit :=
  idx ← ixgbe_find_vlvf_entry vid;
  if idx =? 0 then mret tt
  else
    s ← get;
    let word := idx * 2 + VMDQ_P 0 s / 32 in
    b ← RD (IXGBE_VLVFB word);
    let bits := Z.land (bnot 32 (bit (VMDQ_P 0 s mod 32))) b in
    alone ← (if bits =? 0 then o ← RD (IXGBE_VLVFB (Z.lxor word 1)); mret (o =? 0) else mret false);
    if alone : bool then
      (if negb (vlan_promisc s) then WR (IXGBE_VLVFB word) 0 else mret tt) ;;
      WR (IXGBE_VLVF idx) 0
    else mret tt.

Definition ixgbe_vlan_rx_add_vid (vid : Z) : PF Z :=
  s ← get;
  (if mac_known (pf_mac s) then
     (if vid <? VLAN_N_VID then set_vlan vid else mret tt) ;;
     (if (vid =? 0) || negb (vlan_promisc s)
      then set_vfta vid (VMDQ_P 0 s) true (negb (vid =? 0)) ;; mret tt else mret tt) ;;
     (if vmdq_enabled (conf (ad s)) && negb (is_82598 (pf_mac s)) then
        for_loop (Z.to_nat (num_rx_pools (conf (ad s)) - 1)) 1 (fun i =>
          set_vfta vid (VMDQ_P i s) true true ;; mret tt)
      else mret tt)
   else mret tt) ;;
  mret 0.

Definition ixgbe_vlan_rx_kill_vid (vid : Z) : PF Z :=
  s ← get;
  if vid =? 0 then mret 0
  else
    (if mac_known (pf_mac s) then
       (if negb (vid =? 0) && negb (vlan_promisc s)
        then set_vfta vid (VMDQ_P 0 s) false true ;; mret tt else mret tt) ;;
       (if vmdq_enabled (conf (ad s)) && negb (is_82598 (pf_mac s)) then
          for_loop (Z.to_nat (num_rx_pools (conf (ad s)) - 1)) 1 (fun i =>
            set_vfta vid (VMDQ_P i s) false true ;; mret tt)
        else mret tt)
     else mret tt) ;;
    clear_vlan vid ;;
    mret 0.

(** the body of the loops of [ixgbe_vlan_strip_disable] and [_enable] for one
    ring; [f] changes the register *)
Definition strip_ring (f : Z -> Z) (i : Z) : PF unit :=
  s ← get;
  r ← nth_c (rx_ring (ad s)) i;
  match r with
  | None => crash FNullCall
  | Some r =>
      vlnctrl ← RD (IXGBE_RXDCTL (reg_idx r));
      WR (IXGBE_RXDCTL (reg_idx r)) (f vlnctrl)
  end.

Definition ixgbe_vlan_strip_disable : PF unit :=
  s ← get;
  let q := conf (ad s) in
  if dcb_enabled q then mret tt
  else
    match pf_mac s with
    | ixgbe_mac_82598EB =>
        vlnctrl ← RD IXGBE_VLNCTRL;
        WR IXGBE_VLNCTRL (Z.land vlnctrl (bnot 32 IXGBE_VLNCTRL_VME))
    | ixgbe_mac_unknown => mret tt
    | _ => for_loop (Z.to_nat (num_rx_queues q)) 0
             (strip_ring (fun x => Z.land x (bnot 32 IXGBE_RXDCTL_VME)))
    end.

Definition ixgbe_vlan_strip_enable : PF unit :=
  s ← get;
  match pf_mac s with
  | ixgbe_mac_82598EB =>
      vlnctrl ← RD IXGBE_VLNCTRL;
      WR IXGBE_VLNCTRL (Z.lor vlnctrl IXGBE_VLNCTRL_VME)
  | ixgbe_mac_unknown => mret tt
  | _ => for_loop (Z.to_nat (num_rx_queues (conf (ad s)))) 0
           (strip_ring (fun x => Z.lor x IXGBE_RXDCTL_VME))
  end.

Definition ixgbe_vlan_promisc_enable : PF unit :=
  s ← get;
  vlnctrl ← RD IXGBE_VLNCTRL;
  if negb (vmdq_enabled (conf (ad s))) then
    WR IXGBE_VLNCTRL (Z.land vlnctrl (bnot 32 IXGBE_VLNCTRL_VFE))
  else
    WR IXGBE_VLNCTRL (Z.lor vlnctrl IXGBE_VLNCTRL_VFE) ;;
    if is_82598 (pf_mac s) then mret tt
    else if vlan_promisc s then mret tt
    else
      modify (put_vlan_promisc true) ;;
      for_loop (Z.to_nat (IXGBE_VLVF_ENTRIES - 1)) 1 (fun k =>
        let i := IXGBE_VLVF_ENTRIES - k in
        let reg_offset := IXGBE_VLVFB (i * 2 + VMDQ_P 0 s / 32) in
        vlvfb ← RD reg_offset;
        WR reg_offset (Z.lor vlvfb (bit32 (VMDQ_P 0 s mod 32)))) ;;
      let n := vft_size (mac (hw s)) in
      for_loop (Z.to_nat n) 1 (fun k => WR (IXGBE_VFTA (n - k)) 0xFFFFFFFF).

Definition VFTA_BLOCK_SIZE : Z := 8.

(** the first loop of [ixgbe_scrub_vfta], for the entry [i]; [vfta] is the block
    of words being collected *)
Definition scrub_entry (vid_start vid_end i : Z) (vfta : list Z) : PF (list Z) :=
  s ← get;
  vlvf ← RD (IXGBE_VLVF i);
  let vid := Z.land vlvf VLAN_VID_MASK in
  if (vid <? vid_start) || (vid_end <=? vid) then mret vfta
  else
    r ← (if negb (vlvf =? 0) then
           x ← nth_c vfta ((vid - vid_start) / 32);
           vfta ← upd_c vfta ((vid - vid_start) / 32) (Z.lor x (bit32 (vid mod 32)));
           active ← test_vlan vid;
           mret (vfta, active)
         else mret (vfta, false));
    let '(vfta, active) := r : list Z * bool in
    if active then mret vfta
    else
      let word := i * 2 + VMDQ_P 0 s / 32 in
      b ← RD (IXGBE_VLVFB word);
      WR (IXGBE_VLVFB word) (Z.land (bnot 32 (bit (VMDQ_P 0 s mod 32))) b) ;;
      mret vfta.

Definition ixgbe_scrub_vfta (vfta_offset : Z) : PF unit :=
  let vid_start := vfta_offset * 32 in
  let vid_end := vid_start + VFTA_BLOCK_SIZE * 32 in
  vfta ← for_acc (Z.to_nat (IXGBE_VLVF_ENTRIES - 1)) 1 (replicate (Z.to_nat VFTA_BLOCK_SIZE) 0)
           (fun k => scrub_entry vid_start vid_end (IXGBE_VLVF_ENTRIES - k));
  for_loop (Z.to_nat VFTA_BLOCK_SIZE) 1 (fun k =>
    let i := VFTA_BLOCK_SIZE - k in
    let vid := (vfta_offset + i) * 32 in
    s ← get;
    a ← nth_c (active_vlans s) (vid / 64);
    x ← nth_c vfta i;
    WR (IXGBE_VFTA (vfta_offset + i)) (Z.lor x (u32 (Z.shiftr a (vid mod 64))))).

Definition ixgbe_vlan_promisc_disable : PF unit :=
  s ← get;
  vlnctrl ← RD IXGBE_VLNCTRL;
  WR IXGBE_VLNCTRL (Z.lor vlnctrl IXGBE_VLNCTRL_VFE) ;;
  if negb (vmdq_enabled (conf (ad s))) || is_82598 (pf_mac s) then mret tt
  else if negb (vlan_promisc s) then mret tt
  else
    modify (put_vlan_promisc false) ;;
    for_loop (Z.to_nat ((vft_size (mac (hw s)) + (VFTA_BLOCK_SIZE - 1)) / VFTA_BLOCK_SIZE)) 0
      (fun k => ixgbe_scrub_vfta (k * VFTA_BLOCK_SIZE)).

Definition ixgbe_vlan_mode (vlan_ctag_rx : bool) : PF unit :=
  if vlan_ctag_rx then ixgbe_vlan_strip_enable else ixgbe_vlan_strip_disable.

Definition ixgbe_restore_vlan : PF unit :=
  ixgbe_vlan_rx_add_vid 0 ;;
  for_loop (Z.to_nat (VLAN_N_VID - 1)) 1 (fun vid =>
    b ← test_vlan vid;
    if b : bool then ixgbe_vlan_rx_add_vid vid ;; mret tt else mret tt).

(** ** Receive mode *)
Definition ixgbe_set_rx_mode : PF unit :=
  fctrl ← RD IXGBE_FCTRL;
  s ← get;
  let nd := netdev s in
  let fctrl := Z.lor (Z.lor (Z.lor fctrl IXGBE_FCTRL_BAM) IXGBE_FCTRL_DPF) IXGBE_FCTRL_PMCF in
  let fctrl := Z.land fctrl (bnot 32 (Z.lor IXGBE_FCTRL_UPE IXGBE_FCTRL_MPE)) in
  let vmolr := Z.lor IXGBE_VMOLR_BAM IXGBE_VMOLR_AUPE in
  let fctrl :=
    if iff_promisc nd then Z.lor fctrl (Z.lor IXGBE_FCTRL_UPE IXGBE_FCTRL_MPE)
    else if iff_allmulti nd then Z.lor fctrl IXGBE_FCTRL_MPE else fctrl in
  let vmolr := if iff_promisc nd || iff_allmulti nd then Z.lor vmolr IXGBE_VMOLR_MPE else vmolr in
  let ctag_filter := f_vlan_ctag_filter nd && negb (iff_promisc nd) in
  lift (mod_addr_ctrl (upd_user_set_promisc (iff_promisc nd))) ;;
  s1 ← get;
  err ← run_uc (dev_uc_sync s1);
  let fctrl := if negb (err =? 0) then Z.lor fctrl IXGBE_FCTRL_UPE else fctrl in
  let vmolr := if negb (err =? 0) then Z.lor vmolr IXGBE_VMOLR_ROPE else vmolr in
  count ← ixgbe_write_mc_addr_list;
  let fctrl := if count <? 0 then Z.lor fctrl IXGBE_FCTRL_MPE else fctrl in
  let vmolr := if count <? 0 then Z.lor vmolr IXGBE_VMOLR_MPE
               else if negb (count =? 0) then Z.lor vmolr IXGBE_VMOLR_ROMPE else vmolr in
  (if negb (is_82598 (pf_mac s)) then
     old ← RD (IXGBE_VMOLR (VMDQ_P 0 s));
     WR (IXGBE_VMOLR (VMDQ_P 0 s)) (Z.lor vmolr (Z.land old
       (bnot 32 (Z.lor (Z.lor IXGBE_VMOLR_MPE IXGBE_VMOLR_ROMPE) IXGBE_VMOLR_ROPE))))
   else mret tt) ;;
  WR IXGBE_FCTRL fctrl ;;
  (if f_vlan_ctag_rx nd then ixgbe_vlan_strip_enable else ixgbe_vlan_strip_disable) ;;
  (if ctag_filter then ixgbe_vlan_promisc_disable else ixgbe_vlan_promisc_enable).

End Adapter.
