(* ===== verification/X550.v ===== *)
(** * Virtualisation support of the X550 family (ixgbe_x550.c)

    Malicious driver detection (which queues the hardware blocked, mapped to
    VFs, and how a VF is released), Ethertype anti-spoofing and source address
    pruning. *)
From S2P Require Import Prelude Regs Types Osdep Filters.

Section X550.
Context `{D : Mmio}.

Definition ixgbe_set_source_address_pruning_X550 (enable : bool) (pool : Z) : M unit :=
  if 63 <? pool then mret tt
  else
    l ← IXGBE_READ_REG IXGBE_PFFLPL;
    h ← IXGBE_READ_REG IXGBE_PFFLPH;
    let pfflp := Z.lor l (Z.shiftl h 32) in
    let pfflp := if enable then Z.lor pfflp (bit pool) else Z.land pfflp (bnot 64 (bit pool)) in
    IXGBE_WRITE_REG IXGBE_PFFLPL (u32 pfflp) ;;
    IXGBE_WRITE_REG IXGBE_PFFLPH (u32 (Z.shiftr pfflp 32)).

Definition ixgbe_set_ethertype_anti_spoofing_X550 (enable : bool) (vf : Z) : M unit :=
  let vf_target_reg := Z.shiftr vf 3 in
  let vf_target_shift := Z.rem vf 8 + IXGBE_SPOOF_ETHERTYPEAS_SHIFT in
  pfvfspoof ← IXGBE_READ_REG (IXGBE_PFVFSPOOF vf_target_reg);
  IXGBE_WRITE_REG (IXGBE_PFVFSPOOF vf_target_reg)
    (if enable then Z.lor pfvfspoof (bit32 vf_target_shift)
     else Z.land pfvfspoof (bnot 32 (bit vf_target_shift))).

Definition ixgbe_disable_mdd_X550 : M unit :=
  reg ← IXGBE_READ_REG IXGBE_DMATXCTL;
  IXGBE_WRITE_REG IXGBE_DMATXCTL
    (Z.land reg (bnot 32 (Z.lor IXGBE_DMATXCTL_MDP_EN IXGBE_DMATXCTL_MBINTEN))) ;;
  reg ← IXGBE_READ_REG IXGBE_RDRXCTL;
  IXGBE_WRITE_REG IXGBE_RDRXCTL
    (Z.land reg (bnot 32 (Z.lor IXGBE_RDRXCTL_MDP_EN IXGBE_RDRXCTL_MBINTEN))).

Definition ixgbe_enable_mdd_X550 : M unit :=
  reg ← IXGBE_READ_REG IXGBE_DMATXCTL;
  IXGBE_WRITE_REG IXGBE_DMATXCTL
    (Z.lor reg (Z.lor IXGBE_DMATXCTL_MDP_EN IXGBE_DMATXCTL_MBINTEN)) ;;
  reg ← IXGBE_READ_REG IXGBE_RDRXCTL;
  IXGBE_WRITE_REG IXGBE_RDRXCTL
    (Z.lor reg (Z.lor IXGBE_RDRXCTL_MDP_EN IXGBE_RDRXCTL_MBINTEN)).

(** queues per pool and its binary logarithm, from the receive queue mode *)
Definition mdd_num_qs (mrqc : Z) : Z :=
  let m := Z.land mrqc IXGBE_MRQC_MRQE_MASK in
  if m =? IXGBE_MRQC_VMDQRT8TCEN then 8
  else if (m =? IXGBE_MRQC_VMDQRSS32EN) || (m =? IXGBE_MRQC_VMDQRT4TCEN) then 4
  else 2.
Definition mdd_bitmask (mrqc : Z) : Z :=
  let m := Z.land mrqc IXGBE_MRQC_MRQE_MASK in
  if m =? IXGBE_MRQC_VMDQRT8TCEN then 0x000000FF
  else if (m =? IXGBE_MRQC_VMDQRSS32EN) || (m =? IXGBE_MRQC_VMDQRT4TCEN) then 0x0000000F
  else 0x00000003.
Definition mdd_shift (mrqc : Z) : Z :=
  let m := Z.land mrqc IXGBE_MRQC_MRQE_MASK in
  if m =? IXGBE_MRQC_VMDQRT8TCEN then 3
  else if (m =? IXGBE_MRQC_VMDQRSS32EN) || (m =? IXGBE_MRQC_VMDQRT4TCEN) then 2
  else 1.

Definition ixgbe_restore_mdd_vf_X550 (vf : Z) : M unit :=
  reg ← IXGBE_READ_REG IXGBE_MRQC;
  let start_q := u32 (vf * mdd_num_qs reg) in
  let idx := start_q / 32 in
  let v := u32 (Z.shiftl (mdd_bitmask reg) (start_q mod 32)) in
  IXGBE_WRITE_REG (IXGBE_WQBR_TX idx) v ;;
  IXGBE_WRITE_REG (IXGBE_WQBR_RX idx) v.

(** the inner loop over the queues of one register; the code stops when no bit
    of [wqbr] is left, which skips only clear bits *)
Definition mdd_queues (shift i wqbr : Z) (vf_bitmap : list Z) : M (list Z) :=
  for_acc 32 0 vf_bitmap (fun j b =>
    if negb (has wqbr (bit j)) then mret b
    else
      let q := j + i * 32 in
      let vf := Z.shiftr q shift in
      x ← nth_c b (vf / 32);
      upd_c b (vf / 32) (Z.lor x (bit32 (vf mod 32)))).

Definition ixgbe_mdd_event_X550 (vf_bitmap : list Z) : M (list Z) :=
  reg ← IXGBE_READ_REG IXGBE_MRQC;
  let shift := mdd_shift reg in
  for_acc 4 0 vf_bitmap (fun i b =>
    t ← IXGBE_READ_REG (IXGBE_WQBR_TX i);
    r ← IXGBE_READ_REG (IXGBE_WQBR_RX i);
    let wqbr := Z.lor t r in
    if wqbr =? 0 then mret b else mdd_queues shift i wqbr b).
End X550.
