(* ===== verification/Sriov.v ===== *)
(** * SR-IOV: the physical function serves its virtual functions (ixgbe_sriov.c)

    The messages a VF can send through its mailbox, the reset of a VF, malicious
    driver detection, and the operations of the administrator
    ([ixgbe_ndo_set_vf_mac] and its siblings).  The kernel offers
    HAVE_NDO_SET_VF_TRUST, _LINK_STATE, _RSS_QUERY_EN, _MIN_MAX_TX_RATE,
    IFLA_VF_VLAN_INFO_MAX and HAVE_XDP_SUPPORT; IXGBE_DISABLE_VF_MQ and
    HAVE_VLAN_RX_REGISTER are not defined.  The host is little endian.

    A message buffer is a list of 32-bit words; an access past its end is a
    fault.  A handler that answers in the buffer returns it with its result. *)
From S2P Require Import Prelude Regs Types Osdep Mbx Filters Queues PfState Adapter.
From S2P Require Import X550.

(** enum ixgbe_pfvf_api_rev, enum ixgbevf_xcast_modes and the link states of
    if_link.h *)
Definition ixgbe_mbox_api_10 : Z := 0.
Definition ixgbe_mbox_api_20 : Z := 1.
Definition ixgbe_mbox_api_11 : Z := 2.
Definition ixgbe_mbox_api_12 : Z := 3.
Definition ixgbe_mbox_api_13 : Z := 4.
Definition ixgbe_mbox_api_16 : Z := 7.
Definition ixgbe_mbox_api_17 : Z := 8.
Definition IXGBEVF_XCAST_MODE_NONE : Z := 0.
Definition IXGBEVF_XCAST_MODE_MULTI : Z := 1.
Definition IXGBEVF_XCAST_MODE_ALLMULTI : Z := 2.
Definition IXGBEVF_XCAST_MODE_PROMISC : Z := 3.
Definition IFLA_VF_LINK_STATE_AUTO : Z := 0.
Definition IFLA_VF_LINK_STATE_ENABLE : Z := 1.
Definition IFLA_VF_LINK_STATE_DISABLE : Z := 2.

Definition one_of (x : Z) (l : list Z) : bool := existsb (Z.eqb x) l.
Definition b2z (b : bool) : Z := if b then 1 else 0.

(** six bytes from [msgbuf[1]] on, and the words that six bytes make *)
Definition msg_mac {S} (msgbuf : list Z) : comp S (list Z) :=
  a ← nth_c msgbuf 1;
  b ← nth_c msgbuf 2;
  mret [u8 a; u8 (Z.shiftr a 8); u8 (Z.shiftr a 16); u8 (Z.shiftr a 24); u8 b; u8 (Z.shiftr b 8)].
Definition mac_words {S} (m : list Z) : comp S (Z * Z) :=
  m0 ← nth_c m 0; m1 ← nth_c m 1; m2 ← nth_c m 2; m3 ← nth_c m 3; m4 ← nth_c m 4; m5 ← nth_c m 5;
  mret (Z.lor (Z.lor (Z.lor m0 (Z.shiftl m1 8)) (Z.shiftl m2 16)) (Z.shiftl m3 24),
        Z.lor m4 (Z.shiftl m5 8)).
(** half word [i] from [msgbuf[1]] on *)
Definition msg_hash {S} (msgbuf : list Z) (i : Z) : comp S Z :=
  w ← nth_c msgbuf (1 + i / 2); mret (u16 (Z.shiftr w (16 * (i mod 2)))).
(** the field of the message type that carries a number *)
Definition msg_info (msg0 : Z) : Z := Z.shiftr (Z.land msg0 IXGBE_VT_MSGINFO_MASK) IXGBE_VT_MSGINFO_SHIFT.

Section Sriov.
Context `{D : Mmio}.
Context (dev_uc_sync : pf -> uc_script).

Definition q_per_pool (s : pf) : Z := u32 (ALIGN_NOT_MASK 1 (mask (vmdq (conf (ad s))))).
Definition is_x550 (s : pf) : bool := mac_type_val ixgbe_mac_X550 <=? mac_type_val (pf_mac s).

(** ** Filters of a VF *)
Definition ixgbe_set_vf_multicasts (msgbuf : list Z) (vf : Z) : PF Z :=
  msg0 ← nth_c msgbuf 0;
  vmolr ← RD (IXGBE_VMOLR vf);
  let entries := Z.min (msg_info msg0) IXGBE_MAX_VF_MC_ENTRIES in
  mod_vf vf (put_num_vf_mc_hashes entries) ;;
  for_loop (Z.to_nat entries) 0 (fun i =>
    x ← msg_hash msgbuf i;
    v ← get_vf vf;
    l ← upd_c (vf_mc_hashes v) i x;
    mod_vf vf (put_vf_mc_hashes l)) ;;
  WR (IXGBE_VMOLR vf) (Z.lor vmolr IXGBE_VMOLR_ROMPE) ;;
  ixgbe_write_mc_addr_list ;;
  mret 0.

Definition ixgbe_set_vf_vlan (add : bool) (vid vf : Z) : PF Z :=
  s ← get;
  err ← (if add then
           active ← test_vlan vid;
           if active : bool then set_vfta vid (VMDQ_P 0 s) true false else mret 0
         else mret 0);
  if negb (err =? 0) then mret err
  else
    err ← set_vfta vid vf add false;
    if add && (err =? 0) then mret err
    else
      active ← test_vlan vid;
      (if active || vlan_promisc s then ixgbe_update_pf_promisc_vlvf vid else mret tt) ;;
      mret err.

(** the largest frame of the PF *)
Definition pf_max_frame (s : pf) : Z :=
  let f := mtu (netdev s) + ETH_HLEN in
  if fcoe_mtu (netdev s) then Z.max f IXGBE_FCOE_JUMBO_FRAME_SIZE else f.

(** whether an 82599 must stop the receiver of the VF *)
Definition lpe_error (s : pf) (v : vf_data_storage) (max_frame : Z) : bool :=
  let jumbo := ETH_FRAME_LEN <? pf_max_frame s in
  if one_of (vf_api v) [ixgbe_mbox_api_11; ixgbe_mbox_api_12; ixgbe_mbox_api_13; ixgbe_mbox_api_16;
                        ixgbe_mbox_api_17] && jumbo
  then false
  else jumbo || (ETH_FRAME_LEN + ETH_FCS_LEN <? max_frame).

Definition ixgbe_set_vf_lpe (max_frame vf : Z) : PF Z :=
  s ← get;
  err ← (match pf_mac s with
         | ixgbe_mac_82599EB =>
             v ← get_vf vf;
             let err := lpe_error s v max_frame in
             vfre ← RD (IXGBE_VFRE (vf / 32));
             WR (IXGBE_VFRE (vf / 32))
               (if err then Z.land vfre (bnot 32 (bit (vf mod 32))) else Z.lor vfre (bit32 (vf mod 32))) ;;
             mret err
         | _ => mret false
         end);
  if err : bool then mret (- EINVAL)
  else
    max_frs ← RD IXGBE_MAXFRS;
    let max_frs := Z.shiftr (Z.land max_frs IXGBE_MHADD_MFS_MASK) IXGBE_MHADD_MFS_SHIFT in
    (if max_frs <? max_frame then WR IXGBE_MAXFRS (u32 (Z.shiftl max_frame IXGBE_MHADD_MFS_SHIFT))
     else mret tt) ;;
    mret 0.

Definition ixgbe_set_vmolr (vf : Z) (aupe : bool) : PF unit :=
  vmolr ← RD (IXGBE_VMOLR vf);
  let vmolr := Z.lor vmolr IXGBE_VMOLR_BAM in
  WR (IXGBE_VMOLR vf)
    (if aupe then Z.lor vmolr IXGBE_VMOLR_AUPE else Z.land vmolr (bnot 32 IXGBE_VMOLR_AUPE)).

Definition ixgbe_set_vmvir (vid qos vf : Z) : PF unit :=
  WR (IXGBE_VMVIR vf) (Z.lor (Z.lor vid (Z.shiftl qos VLAN_PRIO_SHIFT)) IXGBE_VMVIR_VLANA_DEFAULT).
Definition ixgbe_clear_vmvir (vf : Z) : PF unit := WR (IXGBE_VMVIR vf) 0.

(** the body of [ixgbe_clear_vf_vlans] for the entry [i]; [update_vlvf] and
    [update_vlvfb] are the labels *)
Definition clear_vf_vlan_entry (vf i : Z) : PF unit :=
  s ← get;
  let pf_pool := VMDQ_P 0 s in
  let pool_mask := bnot 32 (bit (pf_pool mod 32)) in
  let vlvfb_mask := bit32 (vf mod 32) in
  let word := i * 2 + vf / 32 in
  vlvfb ← RD (IXGBE_VLVFB word);
  if negb (has vlvfb vlvfb_mask) then mret tt
  else
    let vlvfb := Z.lxor vlvfb vlvfb_mask in
    other ← RD (IXGBE_VLVFB (Z.lxor word 1));
    let bits := if word mod 2 =? 0 then [vlvfb; other] else [other; vlvfb] in
    let update_vlvfb (vlvfb : Z) : PF unit := WR (IXGBE_VLVFB word) vlvfb in
    let update_vlvf : PF unit :=
      WR (IXGBE_VLVF i) 0 ;;
      update_vlvfb (if negb (vlan_promisc s) then 0 else vlvfb) in
    far ← nth_c bits (Z.lxor (pf_pool / 32) 1);
    near ← nth_c bits (pf_pool / 32);
    if negb (far =? 0) || has near pool_mask then update_vlvfb vlvfb
    else if negb (far =? 0) || negb (near =? 0) then update_vlvf
    else
      vlvf ← RD (IXGBE_VLVF i);
      if vlvf =? 0 then update_vlvfb vlvfb
      else
        let vid := Z.land vlvf VLAN_VID_MASK in
        let mask := bit32 (vid mod 32) in
        vfta ← RD (IXGBE_VFTA (vid / 32));
        (if has vfta mask then WR (IXGBE_VFTA (vid / 32)) (Z.lxor vfta mask) else mret tt) ;;
        update_vlvf.

Definition ixgbe_clear_vf_vlans (vf : Z) : PF unit :=
  for_loop (Z.to_nat IXGBE_VLVF_ENTRIES) 1 (fun k => clear_vf_vlan_entry vf (IXGBE_VLVF_ENTRIES - k)).

(** the list [adapter->vf_mvs] *)
Definition get_mvs : PF (list vf_macvlans) :=
  s ← get; match vf_mvs s with Some l => mret l | None => crash FNullCall end.
Definition put_mv (j : Z) (e : vf_macvlans) : PF unit :=
  l ← get_mvs; l ← upd_c l j e; modify (put_vf_mvs (Some l)).

(** the first loop of [ixgbe_set_vf_macvlan]: every filter of the VF goes *)
Definition release_macvlans (vf : Z) : PF unit :=
  l ← get_mvs;
  for_loop (length l) 0 (fun j =>
    l ← get_mvs;
    e ← nth_c l j;
    if mv_vf e =? vf then
      put_mv j (mk_mv (-1) true false (mv_addr e)) ;;
      ixgbe_del_mac_filter (mv_addr e) vf ;; mret tt
    else mret tt).

Definition ixgbe_set_vf_macvlan (vf index : Z) (mac_addr : list Z) : PF Z :=
  (if index <=? 1 then release_macvlans vf else mret tt) ;;
  if index =? 0 then mret 0
  else
    l ← get_mvs;
    match list_find (fun e => mv_free e = true) l with
    | None => mret (- ENOSPC)
    | Some (j, _) =>
        retval ← ixgbe_add_mac_filter mac_addr vf;
        if retval <? 0 then mret retval
        else put_mv (Z.of_nat j) (mk_mv vf false true mac_addr) ;; mret 0
    end.

Definition ixgbe_set_vf_mac (vf : Z) (mac_addr : list Z) : PF Z :=
  v ← get_vf vf;
  ixgbe_del_mac_filter (vf_mac_addresses v) vf ;;
  retval ← ixgbe_add_mac_filter mac_addr vf;
  mod_vf vf (put_vf_mac_addresses
    (if 0 <=? retval then mac_addr else replicate (Z.to_nat ETH_ALEN) 0)) ;;
  mret retval.

(** ** Reset of a VF *)

(** the part of [ixgbe_vf_reset_event] for X550 and later *)
Definition reset_vf_queues (vf : Z) : PF unit :=
  s ← get;
  for_loop (Z.to_nat (q_per_pool s)) 0 (fun queue =>
    let reg_idx := vf * q_per_pool s + queue in
    reg_val ← RD (IXGBE_PVFTXDCTL reg_idx);
    if negb (reg_val =? 0) then
      let reg_val := Z.lor reg_val IXGBE_TXDCTL_ENABLE in
      WR (IXGBE_PVFTXDCTL reg_idx) reg_val ;;
      WR (IXGBE_PVFTXDCTL reg_idx) (Z.land reg_val (bnot 32 IXGBE_TXDCTL_ENABLE))
    else mret tt) ;;
  for_loop (Z.to_nat IXGBE_VFMAILBOX_SIZE) 0 (fun word =>
    lift (IXGBE_WRITE_REG_ARRAY (IXGBE_PFMBMEM vf) word 0)) ;;
  FLUSH.

Definition ixgbe_vf_reset_event (vf : Z) : PF unit :=
  s ← get;
  let num_tcs := num_tc (conf (ad s)) in
  ixgbe_clear_vf_vlans vf ;;
  v ← get_vf vf;
  ixgbe_set_vf_vlan true (pf_vlan v) vf ;;
  ixgbe_set_vmolr vf (pf_vlan v =? 0) ;;
  (if (pf_vlan v =? 0) && (pf_qos v =? 0) && (num_tcs =? 0) then ixgbe_clear_vmvir vf
   else if negb (pf_qos v =? 0) || (num_tcs =? 0) then ixgbe_set_vmvir (pf_vlan v) (pf_qos v) vf
   else ixgbe_set_vmvir (pf_vlan v) (default_up s) vf) ;;
  mod_vf vf (put_num_vf_mc_hashes 0) ;;
  ixgbe_set_rx_mode dev_uc_sync ;;
  v ← get_vf vf;
  ixgbe_del_mac_filter (vf_mac_addresses v) vf ;;
  ixgbe_set_vf_macvlan vf 0 [] ;;
  mod_vf vf (put_vf_api ixgbe_mbox_api_10) ;;
  (if is_x550 s then reset_vf_queues vf else mret tt).

Definition ixgbe_vf_configuration (event_mask : Z) : PF Z :=
  let vfn := Z.land event_mask 0x3f in
  (if has event_mask 0x10000000 then
     mod_vf vfn (put_vf_mac_addresses (replicate (Z.to_nat ETH_ALEN) 0))
   else mret tt) ;;
  mret 0.

Definition ixgbe_write_qde (vf qde : Z) : PF unit :=
  s ← get;
  for_loop (Z.to_nat (q_per_pool s)) (vf * q_per_pool s) (fun i =>
    FLUSH ;;
    WR IXGBE_QDE (Z.lor (Z.lor IXGBE_QDE_WRITE qde) (u32 (Z.shiftl i IXGBE_QDE_IDX_SHIFT)))).

(** [state] applied to the enable bit of a VF *)
Definition vf_bit (on : bool) (vf reg : Z) : Z :=
  if on then Z.lor reg (bit32 (vf mod 32)) else Z.land reg (bnot 32 (bit (vf mod 32))).

Definition ixgbe_set_vf_rx_tx (vf : Z) : PF unit :=
  s ← get;
  reg_cur_tx ← RD (IXGBE_VFTE (vf / 32));
  reg_cur_rx ← RD (IXGBE_VFRE (vf / 32));
  v ← get_vf vf;
  let reg_req_tx := vf_bit (link_enable v) vf reg_cur_tx in
  let reg_req_rx := vf_bit (link_enable v) vf reg_cur_rx in
  let reg_req_rx :=
    match pf_mac s with
    | ixgbe_mac_82599EB => if ETH_FRAME_LEN <? pf_max_frame s then vf_bit false vf reg_cur_rx else reg_req_rx
    | _ => reg_req_rx
    end in
  (if negb (reg_cur_tx =? reg_req_tx) then WR (IXGBE_VFTE (vf / 32)) reg_req_tx else mret tt) ;;
  (if negb (reg_cur_rx =? reg_req_rx) then WR (IXGBE_VFRE (vf / 32)) reg_req_rx else mret tt).

Definition write_mbx (msg : list Z) (size vf : Z) : PF Z := lift (ixgbe_write_mbx msg size vf).

Definition ixgbe_vf_reset_msg (vf : Z) : PF Z :=
  s ← get;
  ixgbe_vf_reset_event vf ;;
  v ← get_vf vf;
  (if negb (is_zero_ether_addr (vf_mac_addresses v))
   then ixgbe_set_vf_mac vf (vf_mac_addresses v) ;; mret tt else mret tt) ;;
  v ← get_vf vf;
  ixgbe_write_qde vf (if negb (pf_vlan v =? 0) then Z.lor IXGBE_QDE_ENABLE IXGBE_QDE_HIDE_VLAN
                      else IXGBE_QDE_ENABLE) ;;
  ixgbe_set_vf_rx_tx vf ;;
  mod_vf vf (put_clear_to_send true) ;;
  reg ← RD (IXGBE_VMECM (vf / 32));
  WR (IXGBE_VMECM (vf / 32)) (Z.lor reg (bit32 (vf mod 32))) ;;
  for_loop (Z.to_nat (q_per_pool s)) 0 (fun i =>
    WR (IXGBE_PVFTDWBAH (q_per_pool s * vf + i)) 0 ;;
    WR (IXGBE_PVFTDWBAL (q_per_pool s * vf + i)) 0) ;;
  v ← get_vf vf;
  m ← (if negb (is_zero_ether_addr (vf_mac_addresses v)) && pf_set_mac v then
         w ← mac_words (vf_mac_addresses v);
         mret [Z.lor IXGBE_VF_RESET IXGBE_VT_MSGTYPE_SUCCESS; fst w; snd w]
       else mret [Z.lor IXGBE_VF_RESET IXGBE_VT_MSGTYPE_FAILURE; 0; 0]);
  s ← get;
  write_mbx (m ++ [mc_filter_type (mac (hw s))]) IXGBE_VF_PERMADDR_MSG_LEN vf ;;
  mret 0.

(** ** Messages *)
Definition ixgbe_set_vf_mac_addr (msgbuf : list Z) (vf : Z) : PF Z :=
  new_mac ← msg_mac msgbuf;
  if negb (is_valid_ether_addr new_mac) then mret (-1)
  else
    v ← get_vf vf;
    if pf_set_mac v && negb (trusted v) && negb (bool_decide (vf_mac_addresses v = new_mac))
    then mret (-1)
    else r ← ixgbe_set_vf_mac vf new_mac; mret (b2z (r <? 0)).

Definition ixgbe_set_vf_vlan_msg (msgbuf : list Z) (vf : Z) : PF Z :=
  msg0 ← nth_c msgbuf 0;
  msg1 ← nth_c msgbuf 1;
  let add := msg_info msg0 in
  let vid := Z.land msg1 IXGBE_VLVF_VLANID_MASK in
  s ← get;
  v ← get_vf vf;
  if negb (pf_vlan v =? 0) || negb (num_tc (conf (ad s)) =? 0) then mret (-1)
  else if (vid =? 0) && (add =? 0) then mret 0
  else ixgbe_set_vf_vlan (negb (add =? 0)) vid vf.

(** the pointers [hw->mac.ops.set_mac_anti_spoofing], [set_vlan_anti_spoofing] *)
Definition anti_spoofing (f : M unit) : PF unit :=
  s ← get;
  match pf_mac s with
  | ixgbe_mac_unknown | ixgbe_mac_82598EB => crash FNullCall
  | _ => lift f
  end.

Definition ixgbe_set_vf_macvlan_msg (msgbuf : list Z) (vf : Z) : PF Z :=
  msg0 ← nth_c msgbuf 0;
  new_mac ← msg_mac msgbuf;
  let index := msg_info msg0 in
  v ← get_vf vf;
  if pf_set_mac v && negb (trusted v) && (0 <? index) then mret (-1)
  else if negb (index =? 0) && negb (is_valid_ether_addr new_mac) then mret (-1)
  else
    (if negb (index =? 0) && spoofchk_enabled v then
       anti_spoofing (ixgbe_set_mac_anti_spoofing false vf) ;;
       anti_spoofing (ixgbe_set_vlan_anti_spoofing false vf)
     else mret tt) ;;
    err ← ixgbe_set_vf_macvlan vf index new_mac;
    mret (b2z (err <? 0)).

Definition ixgbe_negotiate_vf_api (msgbuf : list Z) (vf : Z) : PF Z :=
  api ← nth_c msgbuf 1;
  if one_of api [ixgbe_mbox_api_10; ixgbe_mbox_api_11; ixgbe_mbox_api_12; ixgbe_mbox_api_13;
                 ixgbe_mbox_api_16; ixgbe_mbox_api_17]
  then mod_vf vf (put_vf_api api) ;; mret 0
  else mret (-1).

Definition ixgbe_get_vf_queues (msgbuf : list Z) (vf : Z) : PF (Z * list Z) :=
  s ← get;
  v ← get_vf vf;
  let num_tcs := num_tc (conf (ad s)) in
  if negb (one_of (vf_api v) [ixgbe_mbox_api_20; ixgbe_mbox_api_11; ixgbe_mbox_api_12;
                              ixgbe_mbox_api_13; ixgbe_mbox_api_16; ixgbe_mbox_api_17])
  then mret (-1, msgbuf)
  else
    m ← upd_c msgbuf IXGBE_VF_TX_QUEUES (q_per_pool s);
    m ← upd_c m IXGBE_VF_RX_QUEUES (q_per_pool s);
    default_tc ← (if 1 <? num_tcs then nth_c (prio_tc_map (netdev s)) (Z.land (default_up s) 15)
                  else mret 0);
    m ← upd_c m IXGBE_VF_TRANS_VLAN
          (if negb (num_tcs =? 0) then num_tcs
           else if negb (pf_vlan v =? 0) || negb (pf_qos v =? 0) then 1 else 0);
    m ← upd_c m IXGBE_VF_DEF_QUEUE default_tc;
    mret (0, m).

(** [ixgbe_rss_indir_tbl_entries] (ixgbe_main.c) *)
Definition ixgbe_rss_indir_tbl_entries (s : pf) : Z :=
  if negb (is_x550 s) then 128
  else if sriov_enabled (conf (ad s)) then 64
  else 512.

(** the versions of the interface that know the queries below *)
Definition api_12_and_later (v : vf_data_storage) : bool :=
  one_of (vf_api v) [ixgbe_mbox_api_12; ixgbe_mbox_api_13; ixgbe_mbox_api_16; ixgbe_mbox_api_17].

Definition ixgbe_get_vf_reta (msgbuf : list Z) (vf : Z) : PF (Z * list Z) :=
  s ← get;
  v ← get_vf vf;
  if negb (rss_query_enabled v) then mret (- EPERM, msgbuf)
  else if negb (api_12_and_later v) then mret (- EOPNOTSUPP, msgbuf)
  else
    m ← for_acc (Z.to_nat (ixgbe_rss_indir_tbl_entries s / 16)) 0 msgbuf (fun i m =>
          x ← for_acc 16 0 0 (fun j x =>
                r ← nth_c (rss_indir_tbl s) (16 * i + j);
                mret (Z.lor x (Z.shiftl (Z.land r 0x3) (2 * j))));
          upd_c m (1 + i) x);
    mret (0, m).

Definition ixgbe_get_vf_rss_key (msgbuf : list Z) (vf : Z) : PF (Z * list Z) :=
  s ← get;
  v ← get_vf vf;
  if negb (rss_query_enabled v) then mret (- EPERM, msgbuf)
  else if negb (api_12_and_later v) then mret (- EOPNOTSUPP, msgbuf)
  else
    m ← for_acc (Z.to_nat (IXGBE_RSS_KEY_SIZE / 4)) 0 msgbuf (fun i m =>
          x ← nth_c (rss_key s) i; upd_c m (1 + i) x);
    mret (0, m).

(** the bits of VMOLR that a mode clears and sets; [None]: no such mode *)
Definition xcast_bits (xcast_mode : Z) : option (Z * Z) :=
  let all_bits := Z.lor (Z.lor (Z.lor (Z.lor IXGBE_VMOLR_BAM IXGBE_VMOLR_ROMPE) IXGBE_VMOLR_MPE)
                    IXGBE_VMOLR_UPE) IXGBE_VMOLR_VPE in
  if xcast_mode =? IXGBEVF_XCAST_MODE_NONE then Some (all_bits, 0)
  else if xcast_mode =? IXGBEVF_XCAST_MODE_MULTI then
    Some (Z.lor (Z.lor IXGBE_VMOLR_MPE IXGBE_VMOLR_UPE) IXGBE_VMOLR_VPE,
          Z.lor IXGBE_VMOLR_BAM IXGBE_VMOLR_ROMPE)
  else if xcast_mode =? IXGBEVF_XCAST_MODE_ALLMULTI then
    Some (Z.lor IXGBE_VMOLR_UPE IXGBE_VMOLR_VPE,
          Z.lor (Z.lor IXGBE_VMOLR_BAM IXGBE_VMOLR_ROMPE) IXGBE_VMOLR_MPE)
  else if xcast_mode =? IXGBEVF_XCAST_MODE_PROMISC then Some (0, all_bits)
  else None.

Definition ixgbe_update_vf_xcast_mode (msgbuf : list Z) (vf : Z) : PF (Z * list Z) :=
  s ← get;
  msg1 ← nth_c msgbuf 1;
  let mode := sext 32 msg1 in
  v ← get_vf vf;
  if negb (api_12_and_later v) ||
     ((vf_api v =? ixgbe_mbox_api_12) && (mode =? IXGBEVF_XCAST_MODE_PROMISC))
  then mret (- EOPNOTSUPP, msgbuf)
  else
    let mode := if (IXGBEVF_XCAST_MODE_MULTI <? mode) && negb (trusted v)
                then IXGBEVF_XCAST_MODE_MULTI else mode in
    let out : PF (Z * list Z) := m ← upd_c msgbuf 1 (u32 mode); mret (0, m) in
    if xcast_mode v =? mode then out
    else
      match xcast_bits mode with
      | None => mret (- EOPNOTSUPP, msgbuf)
      | Some (disable, enable) =>
          err ← (if mode =? IXGBEVF_XCAST_MODE_PROMISC then
                   if mac_type_val (pf_mac s) <=? mac_type_val ixgbe_mac_82599EB then mret (- EOPNOTSUPP)
                   else
                     fctrl ← RD IXGBE_FCTRL;
                     mret (if negb (has fctrl IXGBE_FCTRL_UPE) then - EPERM else 0)
                 else mret 0);
          if negb (err =? 0) then mret (err, msgbuf)
          else
            vmolr ← RD (IXGBE_VMOLR vf);
            WR (IXGBE_VMOLR vf) (Z.lor (Z.land vmolr (bnot 32 disable)) enable) ;;
            mod_vf vf (put_xcast_mode mode) ;;
            out
      end.

Definition ixgbe_get_vf_link_state (msgbuf : list Z) (vf : Z) : PF (Z * list Z) :=
  v ← get_vf vf;
  if negb (api_12_and_later v) then mret (- EOPNOTSUPP, msgbuf)
  else m ← upd_c msgbuf 1 (b2z (link_enable v)); mret (0, m).

Definition ixgbe_get_vf_link_status (msgbuf : list Z) (vf : Z) : PF (Z * list Z) :=
  s ← get;
  v ← get_vf vf;
  if negb (one_of (vf_api v) [ixgbe_mbox_api_16; ixgbe_mbox_api_17]) ||
     negb (ixgbe_is_mac_E6xx (pf_mac s))
  then mret (- EOPNOTSUPP, msgbuf)
  else
    m ← upd_c msgbuf 1 (link_speed s);
    m ← upd_c m 2 (b2z (link_up s));
    mret (0, m).

Definition ixgbe_negotiate_vf_features (msgbuf : list Z) (vf : Z) : PF (Z * list Z) :=
  features ← nth_c msgbuf 1;
  v ← get_vf vf;
  if negb (vf_api v =? ixgbe_mbox_api_17) then mret (- EOPNOTSUPP, msgbuf)
  else m ← upd_c msgbuf 1 (Z.land features IXGBE_SUPPORTED_FEATURES); mret (0, m).

(** the [switch] of [ixgbe_rcv_msg_from_vf]: the result and the buffer; [None]
    is the [return -EINVAL] that leaves the function without an answer *)
Definition vf_request (msgbuf : list Z) (vf : Z) : PF (option (Z * list Z)) :=
  let plain (m : PF Z) : PF (option (Z * list Z)) := r ← m; mret (Some (r, msgbuf)) in
  let answer (m : PF (Z * list Z)) : PF (option (Z * list Z)) := r ← m; mret (Some r) in
  msg0 ← nth_c msgbuf 0;
  let t := Z.land msg0 0xFFFF in
  if t =? IXGBE_VF_SET_MAC_ADDR then plain (ixgbe_set_vf_mac_addr msgbuf vf)
  else if t =? IXGBE_VF_SET_MULTICAST then plain (ixgbe_set_vf_multicasts msgbuf vf)
  else if t =? IXGBE_VF_SET_VLAN then plain (ixgbe_set_vf_vlan_msg msgbuf vf)
  else if t =? IXGBE_VF_SET_LPE then
    msg1 ← nth_c msgbuf 1;
    if IXGBE_MAX_JUMBO_FRAME_SIZE <? msg1 then mret None else plain (ixgbe_set_vf_lpe msg1 vf)
  else if t =? IXGBE_VF_SET_MACVLAN then plain (ixgbe_set_vf_macvlan_msg msgbuf vf)
  else if t =? IXGBE_VF_API_NEGOTIATE then plain (ixgbe_negotiate_vf_api msgbuf vf)
  else if t =? IXGBE_VF_GET_QUEUES then answer (ixgbe_get_vf_queues msgbuf vf)
  else if t =? IXGBE_VF_GET_RETA then answer (ixgbe_get_vf_reta msgbuf vf)
  else if t =? IXGBE_VF_GET_RSS_KEY then answer (ixgbe_get_vf_rss_key msgbuf vf)
  else if t =? IXGBE_VF_UPDATE_XCAST_MODE then answer (ixgbe_update_vf_xcast_mode msgbuf vf)
  else if t =? IXGBE_VF_GET_LINK_STATE then answer (ixgbe_get_vf_link_state msgbuf vf)
  else if t =? IXGBE_VF_GET_PF_LINK_STATE then answer (ixgbe_get_vf_link_status msgbuf vf)
  else if t =? IXGBE_VF_FEATURES_NEGOTIATE then answer (ixgbe_negotiate_vf_features msgbuf vf)
  else mret (Some (IXGBE_ERR_MBX, msgbuf)).

(** the first word of an answer *)
Definition answer_word (retval msg0 : Z) : Z :=
  Z.lor (Z.lor msg0 (if negb (retval =? 0) then IXGBE_VT_MSGTYPE_FAILURE else IXGBE_VT_MSGTYPE_SUCCESS))
    IXGBE_VT_MSGTYPE_CTS.

(** a message that is neither an answer nor the reset request *)
Definition serve_request (msgbuf : list Z) (vf : Z) : PF Z :=
  r ← vf_request msgbuf vf;
  match r with
  | None => mret (- EINVAL)
  | Some (retval, msgbuf) =>
      msg0 ← nth_c msgbuf 0;
      m ← upd_c msgbuf 0 (answer_word retval msg0);
      write_mbx m IXGBE_VFMAILBOX_SIZE vf ;;
      mret retval
  end.

(** the buffer's first contents do not matter: a successful read fills it *)
Definition ixgbe_rcv_msg_from_vf (vf : Z) : PF Z :=
  r ← lift (ixgbe_read_mbx (replicate (Z.to_nat IXGBE_VFMAILBOX_SIZE) 0) IXGBE_VFMAILBOX_SIZE vf);
  let '(retval, msgbuf) := r : Z * list Z in
  if negb (retval =? 0) then mret retval
  else
    msg0 ← nth_c msgbuf 0;
    if has msg0 (Z.lor IXGBE_VT_MSGTYPE_SUCCESS IXGBE_VT_MSGTYPE_FAILURE) then mret retval
    else
      FLUSH ;;
      if msg0 =? IXGBE_VF_RESET then ixgbe_vf_reset_msg vf
      else
        v ← get_vf vf;
        if negb (clear_to_send v) then
          m ← upd_c msgbuf 0 (Z.lor msg0 IXGBE_VT_MSGTYPE_FAILURE);
          write_mbx m 1 vf ;;
          mret retval
        else serve_request msgbuf vf.

Definition ixgbe_rcv_ack_from_vf (vf : Z) : PF unit :=
  v ← get_vf vf;
  if negb (clear_to_send v) then write_mbx [IXGBE_VT_MSGTYPE_FAILURE] 1 vf ;; mret tt else mret tt.

(** ** Malicious driver detection *)
Definition restart_malicious_vf (vf : Z) : PF unit :=
  lift (ixgbe_restore_mdd_vf_X550 vf) ;;
  mod_vf vf (put_clear_to_send false) ;;
  write_mbx [Z.lor IXGBE_PF_CONTROL_MSG IXGBE_VT_MSGTYPE_CTS] 1 vf ;; mret tt.

Definition ixgbe_check_mdd_event : PF bool :=
  s ← get;
  if negb (is_x550 s) then mret false
  else
    vf_bitmap ← lift (ixgbe_mdd_event_X550 [0; 0]);
    for_acc 2 0 false (fun i retval =>
      b ← nth_c vf_bitmap i;
      for_acc 32 0 retval (fun j retval =>
        if negb (has b (bit j)) then mret retval
        else
          RD IXGBE_LVMMC_TX ;;
          RD IXGBE_LVMMC_RX ;;
          restart_malicious_vf (j + i * 32) ;;
          mret true)).

(** one turn of the loop of [ixgbe_msg_task] *)
Definition serve_vf (vf : Z) : PF unit :=
  r ← lift (ixgbe_check_for_rst vf);
  (if r =? 0 then ixgbe_vf_reset_event vf else mret tt) ;;
  r ← lift (ixgbe_check_for_msg vf);
  (if r =? 0 then ixgbe_rcv_msg_from_vf vf ;; mret tt else mret tt) ;;
  r ← lift (ixgbe_check_for_ack vf);
  (if r =? 0 then ixgbe_rcv_ack_from_vf vf else mret tt).

Definition ixgbe_msg_task : PF unit :=
  s ← get;
  match vfinfo s with
  | None => mret tt
  | Some _ =>
      (if mdd_enabled s then ixgbe_check_mdd_event ;; mret tt else mret tt) ;;
      s ← get;
      for_loop (Z.to_nat (num_vfs s)) 0 serve_vf
  end.

Definition ixgbe_ping_vf (vf : Z) : PF unit :=
  v ← get_vf vf;
  write_mbx [if clear_to_send v then Z.lor IXGBE_PF_CONTROL_MSG IXGBE_VT_MSGTYPE_CTS
             else IXGBE_PF_CONTROL_MSG] 1 vf ;; mret tt.

Definition ixgbe_ping_all_vfs : PF unit :=
  s ← get;
  for_loop (Z.to_nat (num_vfs s)) 0 ixgbe_ping_vf.

(** ** The administrator *)
Definition bad_vf (vf : Z) (s : pf) : bool := (vf <? 0) || (num_vfs s <=? vf).

Definition ixgbe_ndo_set_vf_trust (vf : Z) (setting : bool) : PF Z :=
  s ← get;
  if bad_vf vf s then mret (- EINVAL)
  else
    v ← get_vf vf;
    if Bool.eqb (trusted v) setting then mret 0
    else
      mod_vf vf (put_trusted setting) ;;
      mod_vf vf (put_clear_to_send false) ;;
      ixgbe_ping_vf vf ;;
      mret 0.

Definition ixgbe_ndo_set_vf_mac (vf : Z) (mac : list Z) : PF Z :=
  s ← get;
  if bad_vf vf s then mret (- EINVAL)
  else if is_valid_ether_addr mac then
    retval ← ixgbe_set_vf_mac vf mac;
    (if 0 <=? retval then mod_vf vf (put_pf_set_mac true) else mret tt) ;;
    mret retval
  else if is_zero_ether_addr mac then
    v ← get_vf vf;
    if is_zero_ether_addr (vf_mac_addresses v) then mret 0
    else
      retval ← ixgbe_del_mac_filter (vf_mac_addresses v) vf;
      (if 0 <=? retval then
         mod_vf vf (put_pf_set_mac false) ;;
         mod_vf vf (put_vf_mac_addresses mac)
       else mret tt) ;;
      mret retval
  else mret (- EINVAL).

Definition ixgbe_enable_port_vlan (vf vlan qos : Z) : PF Z :=
  err ← ixgbe_set_vf_vlan true vlan vf;
  if negb (err =? 0) then mret err
  else
    ixgbe_set_vf_vlan false 0 vf ;;
    ixgbe_set_vmvir vlan qos vf ;;
    ixgbe_set_vmolr vf false ;;
    s ← get;
    (if is_x550 s then ixgbe_write_qde vf (Z.lor IXGBE_QDE_ENABLE IXGBE_QDE_HIDE_VLAN) else mret tt) ;;
    mod_vf vf (put_pf_vlan vlan) ;;
    mod_vf vf (put_pf_qos qos) ;;
    mret err.

Definition ixgbe_disable_port_vlan (vf : Z) : PF Z :=
  v ← get_vf vf;
  err ← ixgbe_set_vf_vlan false (pf_vlan v) vf;
  ixgbe_set_vf_vlan true 0 vf ;;
  ixgbe_clear_vmvir vf ;;
  ixgbe_set_vmolr vf true ;;
  s ← get;
  (if is_x550 s then ixgbe_write_qde vf IXGBE_QDE_ENABLE else mret tt) ;;
  mod_vf vf (put_pf_vlan 0) ;;
  mod_vf vf (put_pf_qos 0) ;;
  mret err.

(** [proto_8021q]: the protocol asked for is 802.1Q *)
Definition ixgbe_ndo_set_vf_vlan (vf vlan qos : Z) (proto_8021q : bool) : PF Z :=
  s ← get;
  if bad_vf vf s || (VLAN_VID_MASK - 1 <? vlan) || (7 <? qos) then mret (- EINVAL)
  else if negb proto_8021q then mret (- EPROTONOSUPPORT)
  else if negb (vlan =? 0) || negb (qos =? 0) then
    v ← get_vf vf;
    err ← (if negb (pf_vlan v =? 0) then ixgbe_disable_port_vlan vf else mret 0);
    if negb (err =? 0) then mret err else ixgbe_enable_port_vlan vf vlan qos
  else ixgbe_disable_port_vlan vf.

Definition ixgbe_link_mbps (s : pf) : Z :=
  if link_speed s =? IXGBE_LINK_SPEED_100_FULL then 100
  else if link_speed s =? IXGBE_LINK_SPEED_1GB_FULL then 1000
  else if link_speed s =? IXGBE_LINK_SPEED_10GB_FULL then 10000
  else 0.

(** the rate factor for a VF that may send [tx_rate] Mbps *)
Definition rate_factor (link_speed tx_rate : Z) : Z :=
  if tx_rate =? 0 then 0
  else
    Z.lor (Z.land (u32 (Z.shiftl (u32 link_speed) IXGBE_RTTBCNRC_RF_INT_SHIFT) / tx_rate)
             (Z.lor IXGBE_RTTBCNRC_RF_INT_MASK IXGBE_RTTBCNRC_RF_DEC_MASK))
          IXGBE_RTTBCNRC_RS_ENA.

Definition ixgbe_set_vf_rate_limit (vf : Z) : PF unit :=
  v ← get_vf vf;
  s ← get;
  let bcnrc_val := rate_factor (vf_rate_link_speed s) (tx_rate v) in
  (match pf_mac s with
   | ixgbe_mac_82599EB => WR IXGBE_RTTBCNRM 0x4
   | ixgbe_mac_X540 => WR IXGBE_RTTBCNRM 0x14
   | _ => mret tt
   end) ;;
  let queues_per_pool := u16 (ALIGN_NOT_MASK 1 (mask (vmdq (conf (ad s))))) in
  for_loop (Z.to_nat queues_per_pool) 0 (fun queue =>
    WR IXGBE_RTTDQSEL (vf * queues_per_pool + queue) ;;
    WR IXGBE_RTTBCNRC bcnrc_val).

Definition ixgbe_check_vf_rate_limit : PF unit :=
  s ← get;
  if vf_rate_link_speed s =? 0 then mret tt
  else
    (if negb (ixgbe_link_mbps s =? vf_rate_link_speed s) then modify (put_vf_rate_link_speed 0)
     else mret tt) ;;
    for_loop (Z.to_nat (num_vfs s)) 0 (fun i =>
      s ← get;
      (if vf_rate_link_speed s =? 0 then mod_vf i (put_tx_rate 0) else mret tt) ;;
      ixgbe_set_vf_rate_limit i).

Definition ixgbe_ndo_set_vf_bw (vf max_tx_rate : Z) : PF Z :=
  s ← get;
  if bad_vf vf s then mret (- EINVAL)
  else if negb (link_up s) then mret (- EINVAL)
  else
    let link_speed := ixgbe_link_mbps s in
    if negb (link_speed =? 10000) then mret (- EINVAL)
    else if negb (max_tx_rate =? 0) && ((max_tx_rate <=? 10) || (link_speed <? max_tx_rate))
    then mret (- EINVAL)
    else
      modify (put_vf_rate_link_speed link_speed) ;;
      mod_vf vf (put_tx_rate (u16 max_tx_rate)) ;;
      ixgbe_set_vf_rate_limit vf ;;
      mret 0.

Definition ixgbe_ndo_set_vf_spoofchk (vf : Z) (setting : bool) : PF Z :=
  s ← get;
  if bad_vf vf s then mret (- EINVAL)
  else
    mod_vf vf (put_spoofchk_enabled setting) ;;
    anti_spoofing (ixgbe_set_mac_anti_spoofing setting vf) ;;
    anti_spoofing (ixgbe_set_vlan_anti_spoofing setting vf) ;;
    (if is_x550 s then
       let lead := Z.lor IXGBE_ETQF_FILTER_EN IXGBE_ETQF_TX_ANTISPOOF in
       WR (IXGBE_ETQF IXGBE_ETQF_FILTER_LLDP) (Z.lor lead IXGBE_ETH_P_LLDP) ;;
       WR (IXGBE_ETQF IXGBE_ETQF_FILTER_FC) (Z.lor lead ETH_P_PAUSE) ;;
       lift (ixgbe_set_ethertype_anti_spoofing_X550 setting vf)
     else mret tt) ;;
    mret 0.

Definition ixgbe_set_vf_link_state (vf state : Z) : PF unit :=
  mod_vf vf (put_link_state state) ;;
  s ← get;
  (if state =? IFLA_VF_LINK_STATE_AUTO then mod_vf vf (put_link_enable (negb (__IXGBE_DOWN (back (hw s)))))
   else if state =? IFLA_VF_LINK_STATE_ENABLE then mod_vf vf (put_link_enable true)
   else if state =? IFLA_VF_LINK_STATE_DISABLE then mod_vf vf (put_link_enable false)
   else mret tt) ;;
  ixgbe_set_vf_rx_tx vf ;;
  mod_vf vf (put_clear_to_send false) ;;
  ixgbe_ping_vf vf.

Definition ixgbe_set_all_vfs : PF unit :=
  s ← get;
  for_loop (Z.to_nat (num_vfs s)) 0 (fun i =>
    v ← get_vf i; ixgbe_set_vf_link_state i (link_state v)).

Definition ixgbe_ndo_set_vf_link_state (vf state : Z) : PF Z :=
  s ← get;
  if bad_vf vf s then mret (- EINVAL)
  else if state =? IFLA_VF_LINK_STATE_ENABLE then mret 0
  else if (state =? IFLA_VF_LINK_STATE_DISABLE) || (state =? IFLA_VF_LINK_STATE_AUTO)
  then ixgbe_set_vf_link_state vf state ;; mret 0
  else mret (- EINVAL).

Definition ixgbe_ndo_set_vf_rss_query_en (vf : Z) (setting : bool) : PF Z :=
  s ← get;
  if (mac_type_val (pf_mac s) <? mac_type_val ixgbe_mac_82599EB) || is_x550 s then mret (- EOPNOTSUPP)
  else if bad_vf vf s then mret (- EINVAL)
  else mod_vf vf (put_rss_query_enabled setting) ;; mret 0.

(** struct ifla_vf_info *)
Record ifla_vf_info := mk_ivi {
  ivi_vf : Z; ivi_mac : list Z; ivi_max_tx_rate : Z; ivi_min_tx_rate : Z; ivi_vlan : Z; ivi_qos : Z;
  ivi_linkstate : Z; ivi_spoofchk : bool; ivi_rss_query_en : bool; ivi_trusted : bool;
}.
Definition ixgbe_ndo_get_vf_config (vf : Z) : PF (Z + ifla_vf_info) :=
  s ← get;
  if bad_vf vf s then mret (inl (- EINVAL))
  else
    v ← get_vf vf;
    mret (inr (mk_ivi vf (vf_mac_addresses v) (tx_rate v) 0 (pf_vlan v) (pf_qos v) (link_state v)
                (spoofchk_enabled v) (rss_query_enabled v) (trusted v))).
End Sriov.
