(* ===== verification/SriovCfg.v ===== *)
(** * SR-IOV: enabling and disabling (ixgbe_sriov.c)

    The data of the VFs is allocated and released here, from the module
    parameter or from sysfs.  The PCI core and the allocator are the record
    [iov_kernel]: what they answer during one call.  [ixgbe_sriov_reinit], which
    takes the interface down and up again, is an argument. *)
From S2P Require Import Prelude Regs Types Osdep Mbx Filters Queues PfState Adapter.
From S2P Require Import X550 Sriov.

(** a PCI device as [pci_get_device] finds it *)
Record pci_dev := mk_pci_dev { dev_id : Z; is_virtfn : bool; is_ours : bool }.

(** the answers of the kernel to the calls of this file *)
Record iov_kernel := mk_iov_kernel {
  pci_num_vf : Z; pci_enable_sriov : Z -> Z; iov_vfs_assigned : bool; iov_capability : bool;
  vfinfo_alloc : bool; mv_list_alloc : bool; pci_devices : list pci_dev;
}.

(** entries of [kcalloc] *)
Definition vf0 : vf_data_storage :=
  mk_vf None (replicate 6 0) (replicate 30 0) 0 false false 0 0 0 false 0 false false false 0 0.
Definition mv0 : vf_macvlans := mk_mv (-1) true false (replicate 6 0).

Section SriovCfg.
Context `{D : Mmio}.

Definition mod_conf (f : qconf -> qconf) : PF unit :=
  modify (fun s => put_ad (set_conf (f (conf (ad s))) (ad s)) s).

(** without memory, or without entries, the list stays as it was *)
Definition ixgbe_alloc_vf_macvlans (k : iov_kernel) (num_vfs : Z) : PF unit :=
  s ← get;
  let num_vf_macvlans := sext 32 (num_rar_entries (mac (hw s)) - (IXGBE_MAX_PF_MACVLANS + 1 + num_vfs)) in
  if num_vf_macvlans =? 0 then mret tt
  else if mv_list_alloc k && (0 <? num_vf_macvlans) then
    modify (put_vf_mvs (Some (replicate (Z.to_nat num_vf_macvlans) mv0)))
  else mret tt.

(** the traffic classes left to the PF *)
Definition limit_tcs (s : pf) : Z :=
  match pf_mac s with
  | ixgbe_mac_82599EB => if num_vfs s <? 16 then IXGBE_DCB_MAX_TRAFFIC_CLASS
                         else if num_vfs s <? 32 then 4 else 1
  | _ => if num_vfs s <? 32 then 4 else 1
  end.

Definition __ixgbe_enable_sriov (k : iov_kernel) (num_vfs : Z) : PF Z :=
  s ← get;
  if xdp_prog (conf (ad s)) then mret (- EINVAL)
  else
    mod_conf (set_sriov_enabled true) ;;
    mod_conf (set_vmdq_enabled true) ;;
    mod_conf (fun q => if limit (vmdq q) =? 0 then set_vmdq (set_limit 1 (vmdq q)) q else q) ;;
    if negb (vfinfo_alloc k) then modify (put_vfinfo None) ;; mret (- ENOMEM)
    else
      modify (put_vfinfo (Some (replicate (Z.to_nat num_vfs) vf0))) ;;
      WR IXGBE_PFDTXGSWC IXGBE_PFDTXGSWC_VT_LBEN ;;
      modify (put_num_vfs num_vfs) ;;
      ixgbe_alloc_vf_macvlans k num_vfs ;;
      mod_conf (fun q => set_vmdq (set_offset (u16 num_vfs) (vmdq q)) q) ;;
      modify (put_l2switch_enable true) ;;
      modify (put_replication_enable true) ;;
      modify (fun s => put_pfc_tcs (limit_tcs s) (put_pg_tcs (limit_tcs s) s)) ;;
      modify (put_vt_mode true) ;;
      modify (put_rsc_capable false) ;;
      modify (put_rsc_enabled false) ;;
      for_loop (Z.to_nat num_vfs) 0 (fun i =>
        mod_vf i (fun v => put_xcast_mode IXGBEVF_XCAST_MODE_NONE (put_trusted false
          (put_rss_query_enabled false (put_link_enable true (put_spoofchk_enabled true v)))))) ;;
      mret 0.

(** the devices that [pci_get_device] enumerates; [vf] counts those taken *)
Fixpoint take_vfs (vf : Z) (l : list pci_dev) : PF unit :=
  match l with
  | [] => mret tt
  | d :: l' =>
      s ← get;
      if negb (is_virtfn d) || negb (is_ours d) || (num_vfs s <=? vf) then take_vfs vf l'
      else mod_vf vf (put_vfdev (Some (dev_id d))) ;; take_vfs (vf + 1) l'
  end.
Definition ixgbe_get_vfs (k : iov_kernel) : PF unit :=
  if negb (iov_capability k) then mret tt else take_vfs 0 (pci_devices k).

(** [if (hw->mac.ops.disable_mdd && !(flags & IXGBE_FLAG_MDD_ENABLED))] *)
Definition turn_off_mdd : PF unit :=
  s ← get;
  if is_x550 s && negb (mdd_enabled s) then lift ixgbe_disable_mdd_X550 else mret tt.

Definition ixgbe_disable_sriov (k : iov_kernel) : PF Z :=
  s ← get;
  modify (put_num_vfs 0) ;;
  for_loop (Z.to_nat (num_vfs s)) 0 (fun vf =>
    v ← get_vf vf;
    match vfdev v with
    | None => mret tt
    | Some _ => mod_vf vf (put_vfdev None)
    end) ;;
  modify (put_vfinfo None) ;;
  modify (put_vf_mvs None) ;;
  if negb (sriov_enabled (conf (ad s))) then mret 0
  else
    turn_off_mdd ;;
    if iov_vfs_assigned k then mret (- EPERM)
    else
      WR IXGBE_GCR_EXT 0 ;;
      gpie ← RD IXGBE_GPIE;
      WR IXGBE_GPIE (Z.land gpie (bnot 32 IXGBE_GPIE_VTMODE_MASK)) ;;
      vmdctl ← RD IXGBE_VT_CTL;
      WR IXGBE_VT_CTL (Z.land vmdctl (bnot 32 IXGBE_VT_CTL_POOL_MASK)) ;;
      FLUSH ;;
      mod_conf (fun q => if limit (vmdq q) =? 1 then set_vmdq_enabled false q else q) ;;
      mod_conf (set_sriov_enabled false) ;;
      mod_conf (fun q => set_vmdq (set_offset 0 (vmdq q)) q) ;;
      lift (msec_delay 100) ;;
      mret 0.

Definition ixgbe_enable_sriov (k : iov_kernel) : PF unit :=
  s ← get;
  if (pci_num_vf k =? 0) && (max_vfs s =? 0) then mret tt
  else
    let num_vfs := if negb (pci_num_vf k =? 0) then pci_num_vf k
                   else Z.min (max_vfs s) IXGBE_MAX_VFS_DRV_LIMIT in
    let err := if negb (pci_num_vf k =? 0) then 0 else pci_enable_sriov k num_vfs in
    if negb (err =? 0) then mret tt
    else
      err ← __ixgbe_enable_sriov k num_vfs;
      if err =? 0 then ixgbe_get_vfs k
      else ixgbe_disable_sriov k ;; mret tt.

(** the number of VFs that the traffic classes leave room for *)
Definition max_vfs_for (num_tc : Z) : Z :=
  if 4 <? num_tc then IXGBE_MAX_VFS_8TC
  else if 1 <? num_tc then IXGBE_MAX_VFS_4TC
  else IXGBE_MAX_VFS_1TC.

Section Reinit.
(** [ixgbe_sriov_reinit] (ixgbe_main.c) *)
Context (ixgbe_sriov_reinit : PF unit).

Definition ixgbe_pci_sriov_enable (k : iov_kernel) (num : Z) : PF Z :=
  s ← get;
  if negb (sriov_capable s) then mret (- EOPNOTSUPP)
  else if num_vfs s =? num then mret (- EINVAL)
  else if negb (pci_num_vf k =? 0) && (pci_num_vf k =? num) then mret num
  else
    err ← (if negb (pci_num_vf k =? 0) then ixgbe_disable_sriov k else mret 0);
    if negb (err =? 0) then mret err
    else
      s ← get;
      if max_vfs_for (num_tc (conf (ad s))) <? num then mret (- EPERM)
      else
        err ← __ixgbe_enable_sriov k num;
        if negb (err =? 0) then mret err
        else
          s ← get;
          for_loop (Z.to_nat (num_vfs s)) 0 (fun i =>
            ixgbe_vf_configuration (Z.lor i 0x10000000) ;; mret tt) ;;
          ixgbe_sriov_reinit ;;
          let err := pci_enable_sriov k num in
          if negb (err =? 0) then mret err
          else ixgbe_get_vfs k ;; mret num.

(** [current_flags != adapter->flags]: these two flags are the ones that
    [ixgbe_disable_sriov] changes *)
Definition iov_flags (s : pf) : bool * bool := (sriov_enabled (conf (ad s)), vmdq_enabled (conf (ad s))).

Definition ixgbe_pci_sriov_disable (k : iov_kernel) : PF Z :=
  s ← get;
  if (num_vfs s =? 0) && (pci_num_vf k =? 0) then mret (- EINVAL)
  else
    err ← ixgbe_disable_sriov k;
    s' ← get;
    (if (err =? 0) && negb (bool_decide (iov_flags s = iov_flags s')) then ixgbe_sriov_reinit
     else mret tt) ;;
    mret err.

Definition ixgbe_pci_sriov_configure (k : iov_kernel) (num : Z) : PF Z :=
  if num =? 0 then ixgbe_pci_sriov_disable k else ixgbe_pci_sriov_enable k num.
End Reinit.
End SriovCfg.
