(* ===== verification/SriovCore.v ===== *)
(** * What the PF code relies on in the shared code

    [core] is the part of [struct ixgbe_hw] that no routine called by the SR-IOV
    code changes.  [keeps m Q]: on any device whose MPSAR registers are storage,
    from a hardware state with the core [c], [m] ends without a fault, leaves the
    core alone, and its value satisfies [Q].  The rules of the judgement form the
    database [keeps]. *)
From S2P Require Import Prelude Regs Types Osdep Trace Mbx MbxProps MbxSafe Filters.
From S2P Require Import Queues PfState Adapter X550.

Definition core (h : ixgbe_hw) : ixgbe_mac_info * nat * mbx_cfg :=
  (upd_mta_shadow [] (mac h), length (mta_shadow (mac h)), mbx_static h).
Definition core_mac (c : ixgbe_mac_info * nat * mbx_cfg) : ixgbe_mac_info := c.1.1.

Definition sriov_mac (t : ixgbe_mac_type) : Prop := t <> ixgbe_mac_unknown /\ t <> ixgbe_mac_82598EB.

Record core_ok (c : ixgbe_mac_info * nat * mbx_cfg) : Prop := {
  co_mac : sriov_mac (mac_type (core_mac c));
  co_rars : num_rar_entries (core_mac c) <= 128;
  co_mta : c.1.2 = 128%nat;
  co_mcft : mcft_size (core_mac c) <= 128;
  co_vft : vft_size (core_mac c) <= 128;
  co_mbx : mbx_wf c.2;
  co_size : c_size c.2 = 16;
}.

(** the pool registers of the receive addresses *)
Definition mpsar_regs (r : Z) : Prop := exists i, 0 <= i < 128 /\ (r = IXGBE_MPSAR_LO i \/ r = IXGBE_MPSAR_HI i).

Lemma core_remove h : core (ixgbe_remove_adapter h) = core h.
Proof.
  unfold ixgbe_remove_adapter. destruct (hw_addr h); simpl; [|done].
  by destruct (__IXGBE_SERVICE_INITED (back h)).
Qed.

Lemma core_type h c : core h = c -> mac_type (mac h) = mac_type (core_mac c).
Proof. by intros <-. Qed.
Lemma core_rars h c : core h = c -> num_rar_entries (mac h) = num_rar_entries (core_mac c).
Proof. by intros <-. Qed.
Lemma core_shadow h c : core h = c -> length (mta_shadow (mac h)) = c.1.2.
Proof. by intros <-. Qed.
Lemma core_mcft h c : core h = c -> mcft_size (mac h) = mcft_size (core_mac c).
Proof. by intros <-. Qed.

Section Keeps.
Context `{D : Mmio}.
Context (c : ixgbe_mac_info * nat * mbx_cfg) (Hc : core_ok c).

Definition keeps {A} (m : M A) (Q : A -> Prop) : Prop :=
  forall w, core (w_hw w) = c -> wp m (fun a w' => core (w_hw w') = c /\ Q a) w.

Lemma kp_ret {A} (a : A) (Q : A -> Prop) : Q a -> keeps (mret a) Q.
Proof. intros HQ w Hw. by apply wp_ret. Qed.
Lemma kp_bind {A B} (m : M A) (f : A -> M B) P Q :
  keeps m P -> (forall a, P a -> keeps (f a) Q) -> keeps (m ≫= f) Q.
Proof.
  intros Hm Hf w Hw. apply wp_bind. eapply wp_mono; [by apply Hm|]. intros a w' [H1 H2]. by apply Hf.
Qed.
Lemma kp_mono {A} (m : M A) (P Q : A -> Prop) : keeps m P -> (forall a, P a -> Q a) -> keeps m Q.
Proof. intros Hm HQ w Hw. eapply wp_mono; [by apply Hm|]. naive_solver. Qed.
Lemma kp_any {A} (m : M A) (Q : A -> Prop) : keeps m Q -> keeps m (fun _ => True).
Proof. intros Hm. by eapply kp_mono. Qed.
Lemma kp_get_hw : keeps get_hw (fun h => core h = c).
Proof. intros w Hw. by apply wp_get_hw. Qed.
Lemma kp_upd_hw f : (forall h, core h = c -> core (f h) = c) -> keeps (upd_hw f) (fun _ => True).
Proof. intros Hf w Hw. apply wp_upd_hw. split; [by apply Hf|done]. Qed.
Lemma kp_read r : keeps (IXGBE_READ_REG r) (in_range 32).
Proof.
  intros w Hw. eapply wp_mono; [apply read_reg_reads_only|]. intros v w' [Hv [_ _ [E|[_ E]]]]; rewrite E.
  - done.
  - by rewrite core_remove.
Qed.
Lemma kp_write r v : keeps (IXGBE_WRITE_REG r v) (fun _ => True).
Proof.
  intros w Hw. unfold IXGBE_WRITE_REG. wp_step. apply wp_get_hw. wp_step; [by apply wp_ret|].
  by apply wp_writel.
Qed.
Lemma kp_delay us : keeps (udelay us) (fun _ => True).
Proof. intros w Hw. by apply wp_udelay. Qed.
Lemma kp_nth {A} (l : list A) i : 0 <= i < Z.of_nat (length l) ->
  keeps (nth_c l i) (fun x => l !! Z.to_nat i = Some x).
Proof.
  intros Hi w Hw. destruct (lookup_lt_is_Some_2 l (Z.to_nat i)) as [a Ha]; [lia|].
  by eapply wp_nth_c; [lia|done|].
Qed.
Lemma kp_upd {A} (l : list A) i x : 0 <= i < Z.of_nat (length l) ->
  keeps (upd_c l i x) (fun l' => length l' = length l).
Proof. intros Hi w Hw. apply wp_upd_c; [done|]. by rewrite length_insert. Qed.
Lemma kp_for_loop n i (body : Z -> M unit) :
  (forall k, i <= k < i + Z.of_nat n -> keeps (body k) (fun _ => True)) ->
  keeps (for_loop n i body) (fun _ => True).
Proof.
  intros Hb w Hw. eapply wp_mono; [apply wp_for_loop with (Inv := fun _ w => core (w_hw w) = c)|done].
  - done.
  - intros k w' Hk Hw'. eapply wp_mono; [by apply Hb|]. naive_solver.
Qed.
Lemma kp_for_acc {A} n i (a : A) (body : Z -> A -> M A) (Inv : Z -> A -> Prop) :
  Inv i a ->
  (forall k b, i <= k < i + Z.of_nat n -> Inv k b -> keeps (body k b) (Inv (k + 1))) ->
  keeps (for_acc n i a body) (Inv (i + Z.of_nat n)).
Proof.
  intros H0 Hb w Hw. apply wp_for_acc with (Inv := fun k b w => core (w_hw w) = c /\ Inv k b).
  - done.
  - intros k b w' Hk [Hw' HI]. by apply Hb.
Qed.
Lemma kp_for_break {A B} n i (a : A) (body : Z -> A -> M (A + B)) :
  (forall k b, keeps (body k b) (fun _ => True)) -> keeps (for_break n i a body) (fun _ => True).
Proof.
  intros Hb w Hw. apply wp_for_break with (Inv := fun _ _ w => core (w_hw w) = c).
  - done.
  - intros k b w' _ Hw'. eapply wp_mono; [by apply Hb|]. intros [] w2 [? _]; done.
  - done.
Qed.
End Keeps.

Create HintDb keeps.
#[export] Hint Resolve kp_read kp_write kp_delay kp_get_hw kp_nth kp_upd : keeps.

(** Runs a computation by the rules; loops and lookups leave their side
    conditions, matches are split. *)
Ltac keeps_step :=
  first
    [ progress cbn beta iota zeta
    | solve [eauto with keeps]
    | solve [eapply kp_any; eauto with keeps]
    | lazymatch goal with
      | |- keeps _ (mret _) _ => apply kp_ret
      | |- keeps _ (mbind _ (mret _)) _ => eapply kp_bind; [apply kp_ret; exact I|intros ? _]
      | |- keeps _ (mbind _ get_hw) _ => eapply kp_bind; [apply kp_get_hw|intros ? ?]
      | |- keeps _ (mbind _ (IXGBE_READ_REG _)) _ => eapply kp_bind; [apply kp_read|intros ? ?]
      | |- keeps _ (mbind _ (IXGBE_WRITE_REG _ _)) _ => eapply kp_bind; [apply kp_write|intros ? _]
      | |- keeps _ (mbind _ (nth_c _ _)) _ => eapply kp_bind; [apply kp_nth|intros ? ?]
      | |- keeps _ (mbind _ _) _ => eapply kp_bind with (P := fun _ => True); [|intros ? _]
      | |- keeps _ (for_loop _ _ _) _ => apply kp_for_loop; intros ? ?
      | |- keeps _ (for_break _ _ _ _) _ => apply kp_for_break; intros ? ?
      | |- keeps _ (if ?b then _ else _) _ => destruct b eqn:?
      | |- keeps _ (match ?b with _ => _ end) _ => destruct b eqn:?
      end ].
Ltac keeps_steps := repeat keeps_step.

(** ** The mailbox leaves the rest of the hardware state alone *)
Section MacKept.
Context `{D : Mmio}.

(** if [m] ends, the MAC's data is what it was *)
Definition mac_kept {A} (m : M A) : Prop :=
  forall w a w', m w = Done a w' -> mac (w_hw w') = mac (w_hw w).

Lemma mk_of_wp {A} (m : M A) :
  (forall w, wp m (fun _ w' => mac (w_hw w') = mac (w_hw w)) w) -> mac_kept m.
Proof. intros H w a w' E. specialize (H w). unfold wp in H. by rewrite E in H. Qed.
Lemma mk_ret {A} (a : A) : mac_kept (mret a).
Proof. by intros w b w' [= _ ->]. Qed.
Lemma mk_bind {A B} (m : M A) (f : A -> M B) :
  mac_kept m -> (forall a, mac_kept (f a)) -> mac_kept (m ≫= f).
Proof.
  intros Hm Hf w b w'. unfold mbind, comp_bind. destruct (m w) as [a w1|] eqn:E; [|done].
  intros E'. rewrite (Hf _ _ _ _ E'). by eapply Hm.
Qed.
Lemma mk_get_hw : mac_kept get_hw.
Proof. by intros w b w' [= _ ->]. Qed.
Lemma mk_upd_hw f : (forall h, mac (f h) = mac h) -> mac_kept (upd_hw f).
Proof. intros Hf w b w' [= _ <-]. apply Hf. Qed.
Lemma mk_crash {A} e : mac_kept (crash e : M A).
Proof. by intros w b w'. Qed.
Lemma mk_read r : mac_kept (IXGBE_READ_REG r).
Proof.
  apply mk_of_wp. intros w. eapply wp_mono; [apply read_reg_reads_only|].
  intros v w' [_ [_ _ [E|[_ E]]]]; rewrite E; [done|].
  unfold ixgbe_remove_adapter. destruct (hw_addr _); simpl; [|done].
  by destruct (__IXGBE_SERVICE_INITED _).
Qed.
Lemma mk_write r v : mac_kept (IXGBE_WRITE_REG r v).
Proof.
  apply mk_of_wp. intros w. unfold IXGBE_WRITE_REG. wp_step. apply wp_get_hw.
  wp_step; [by apply wp_ret|]. by apply wp_writel.
Qed.
Lemma mk_delay us : mac_kept (udelay us).
Proof. by intros w b w' [= _ <-]. Qed.
Lemma mk_nth {A} (l : list A) i : mac_kept (nth_c l i).
Proof. intros w b w'. unfold nth_c. destruct (i <? 0); [done|]. destruct (l !! _); by intros [= _ <-]. Qed.
Lemma mk_upd {A} (l : list A) i x : mac_kept (upd_c l i x).
Proof. intros w b w'. unfold upd_c. destruct (_ || _); by intros [= _ <-]. Qed.
Lemma mk_for_loop n i (body : Z -> M unit) : (forall k, mac_kept (body k)) -> mac_kept (for_loop n i body).
Proof.
  intros Hb. revert i. induction n as [|n IH]; intros i; [apply mk_ret|].
  apply mk_bind; [apply Hb|]. intros _. apply IH.
Qed.
Lemma mk_for_acc {A} n i (a : A) (body : Z -> A -> M A) :
  (forall k b, mac_kept (body k b)) -> mac_kept (for_acc n i a body).
Proof.
  intros Hb. revert i a. induction n as [|n IH]; intros i a; [apply mk_ret|].
  apply mk_bind; [apply Hb|]. intros b. apply IH.
Qed.
Lemma mk_for_break {A B} n i (a : A) (body : Z -> A -> M (A + B)) :
  (forall k b, mac_kept (body k b)) -> mac_kept (for_break n i a body).
Proof.
  intros Hb. revert i a. induction n as [|n IH]; intros i a; [apply mk_ret|].
  apply mk_bind; [apply Hb|]. intros [b|b]; [apply IH|apply mk_ret].
Qed.
End MacKept.

Create HintDb mac_kept.
#[export] Hint Resolve mk_ret mk_get_hw mk_crash mk_read mk_write mk_delay mk_nth mk_upd : mac_kept.

Ltac mac_kept_steps :=
  repeat first
    [ progress cbn beta iota zeta
    | solve [eauto with mac_kept]
    | lazymatch goal with
      | |- mac_kept (mbind _ _) => apply mk_bind; [|intros ?]
      | |- mac_kept (upd_hw _) => by apply mk_upd_hw
      | |- mac_kept (for_loop _ _ _) => apply mk_for_loop; intros ?
      | |- mac_kept (for_acc _ _ _ _) => apply mk_for_acc; intros ? ?
      | |- mac_kept (for_break _ _ _ _) => apply mk_for_break; intros ? ?
      | |- mac_kept (if ?b then _ else _) => destruct b
      | |- mac_kept (match ?b with _ => _ end) => destruct b
      end ].

Section MbxKept.
Context `{D : Mmio}.

Lemma mk_mod_mbx f : mac_kept (mod_mbx f).
Proof. by apply mk_upd_hw. Qed.
Lemma mk_mod_stats f : mac_kept (mod_stats f).
Proof. by apply mk_upd_hw. Qed.
Lemma mk_get_mbx : mac_kept get_mbx.
Proof. unfold get_mbx. mac_kept_steps. Qed.
Hint Resolve mk_mod_mbx mk_mod_stats mk_get_mbx : mac_kept.
Lemma mk_get_ops id : mac_kept (get_ops id).
Proof. unfold get_ops. mac_kept_steps. Qed.
Hint Resolve mk_get_ops : mac_kept.

Lemma mk_read_mailbox_vf : mac_kept ixgbe_read_mailbox_vf.
Proof. unfold ixgbe_read_mailbox_vf. mac_kept_steps. Qed.
Hint Resolve mk_read_mailbox_vf : mac_kept.
Lemma mk_check_vf b id : mac_kept (ixgbe_check_for_bit_vf b) /\ mac_kept ixgbe_clear_msg_vf /\
  mac_kept ixgbe_clear_ack_vf /\ mac_kept ixgbe_clear_rst_vf /\ mac_kept ixgbe_obtain_mbx_lock_vf /\
  mac_kept (ixgbe_release_mbx_lock_vf id).
Proof.
  unfold ixgbe_check_for_bit_vf, ixgbe_clear_msg_vf, ixgbe_clear_ack_vf, ixgbe_clear_rst_vf,
    ixgbe_obtain_mbx_lock_vf, ixgbe_release_mbx_lock_vf, inc_reqs, inc_acks, inc_rsts, usec_delay.
  repeat split; mac_kept_steps.
Qed.

Lemma mk_call_check_for_msg f id : mac_kept (call_check_for_msg f id).
Proof.
  destruct f as [[]|]; simpl; unfold ixgbe_check_for_msg_vf, ixgbe_check_for_msg_pf, ixgbe_check_for_bit_pf;
    mac_kept_steps. apply (mk_check_vf _ 0).
Qed.
Lemma mk_call_check_for_ack f id : mac_kept (call_check_for_ack f id).
Proof.
  destruct f as [[]|]; simpl; unfold ixgbe_check_for_ack_vf, ixgbe_check_for_ack_pf,
    ixgbe_check_for_bit_pf, ixgbe_clear_ack_pf, inc_acks; mac_kept_steps; apply (mk_check_vf 0 0) || apply (mk_check_vf _ 0).
Qed.
Lemma mk_call_check_for_rst f id : mac_kept (call_check_for_rst f id).
Proof.
  destruct f as [[]|]; simpl; unfold ixgbe_check_for_rst_vf, ixgbe_check_for_rst_pf, inc_rsts;
    mac_kept_steps; apply (mk_check_vf 0 0) || apply (mk_check_vf _ 0).
Qed.
Lemma mk_call_release f id : mac_kept (call_release f id).
Proof.
  destruct f as [[]|]; simpl; unfold ixgbe_release_mbx_lock_dummy, ixgbe_release_mbx_lock_pf;
    mac_kept_steps. apply (mk_check_vf 0 id).
Qed.
Hint Resolve mk_call_check_for_msg mk_call_check_for_ack mk_call_check_for_rst mk_call_release : mac_kept.

Lemma mk_poll n (check : M Z) : mac_kept check -> mac_kept (poll_countdown n check).
Proof.
  intros H. induction n as [|n IH]; cbn [poll_countdown]; [mac_kept_steps|].
  apply mk_bind; [done|]. intros r. destruct n; unfold usec_delay; mac_kept_steps.
Qed.
Lemma mk_poll_for_ack id : mac_kept (ixgbe_poll_for_ack id).
Proof. unfold ixgbe_poll_for_ack. mac_kept_steps. apply mk_poll. mac_kept_steps. Qed.
Lemma mk_copy_to_mem mem msg size : mac_kept (copy_to_mem mem msg size).
Proof. unfold copy_to_mem, IXGBE_WRITE_REG_ARRAY. mac_kept_steps. Qed.
Lemma mk_copy_from_mem mem msg size : mac_kept (copy_from_mem mem msg size).
Proof. unfold copy_from_mem, IXGBE_READ_REG_ARRAY. mac_kept_steps. Qed.
Lemma mk_pf_parts id : mac_kept (ixgbe_clear_msg_pf id) /\ mac_kept (ixgbe_clear_ack_pf id) /\
  mac_kept (ixgbe_check_for_msg_pf id) /\ mac_kept (ixgbe_check_for_ack_pf id) /\
  mac_kept (ixgbe_obtain_mbx_lock_pf id).
Proof.
  unfold ixgbe_clear_msg_pf, ixgbe_clear_ack_pf, ixgbe_obtain_mbx_lock_pf, ixgbe_check_for_msg_pf,
    ixgbe_check_for_ack_pf, ixgbe_check_for_bit_pf, ixgbe_clear_ack_pf, inc_reqs, inc_acks, usec_delay.
  repeat split; mac_kept_steps.
Qed.
Hint Resolve mk_poll_for_ack mk_copy_to_mem mk_copy_from_mem : mac_kept.
Hint Extern 1 (mac_kept _) => apply mk_check_vf || apply mk_pf_parts : mac_kept.

Lemma mk_write_mbx msg size id : mac_kept (ixgbe_write_mbx msg size id).
Proof.
  unfold ixgbe_write_mbx. mac_kept_steps. unfold call_write. destruct (op_write _) as [[]|];
    unfold ixgbe_write_mbx_vf_legacy, ixgbe_write_mbx_vf, ixgbe_write_mbx_pf_legacy, ixgbe_write_mbx_pf,
      ixgbe_check_for_msg_vf, ixgbe_check_for_ack_vf, inc_msgs_tx; mac_kept_steps.
Qed.
Lemma mk_read_mbx msg size id : mac_kept (ixgbe_read_mbx msg size id).
Proof.
  unfold ixgbe_read_mbx. mac_kept_steps. unfold call_read.
  match goal with f : mbx_read_fn |- _ => destruct f end;
    unfold ixgbe_read_mbx_vf_legacy, ixgbe_read_mbx_vf, ixgbe_read_mbx_pf_legacy, ixgbe_read_mbx_pf,
      ixgbe_check_for_msg_vf, inc_msgs_rx; mac_kept_steps.
Qed.
End MbxKept.

(** ** The mailbox keeps the core *)
Section MbxKeeps.
Context `{D : Mmio}.
Context (c : ixgbe_mac_info * nat * mbx_cfg) (Hc : core_ok c).

(** [m] returns only values in [Q], if it ends *)
Definition yields {A} (m : M A) (Q : A -> Prop) : Prop := forall w a w', m w = Done a w' -> Q a.

Lemma yl_ret {A} (a : A) (Q : A -> Prop) : Q a -> yields (mret a) Q.
Proof using. by intros HQ w b w' [= <- _]. Qed.
Lemma yl_bind {A B} (m : M A) (f : A -> M B) P Q :
  yields m P -> (forall a, P a -> yields (f a) Q) -> yields (m ≫= f) Q.
Proof using.
  intros Hm Hf w b w'. unfold mbind, comp_bind. destruct (m w) as [a w1|] eqn:E; [|done].
  intros E'. by eapply Hf, E'; eapply Hm.
Qed.
Lemma yl_then {A B} (m : M A) (f : A -> M B) Q : (forall a, yields (f a) Q) -> yields (m ≫= f) Q.
Proof using. intros Hf. by apply yl_bind with (P := fun _ => True). Qed.
Lemma yl_upd {A} (l : list A) i x : yields (upd_c l i x) (fun l' => length l' = length l).
Proof using.
  intros w b w'. unfold upd_c. destruct (_ || _); [done|]. intros [= <- _]. by rewrite length_insert.
Qed.

Lemma yl_copy_from_mem mem msg size :
  yields (copy_from_mem mem msg size) (fun l => length l = length msg).
Proof using.
  unfold copy_from_mem. generalize (Z.to_nat size) as n. intros n. generalize 0 as i.
  enough (forall l i, length l = length msg ->
    yields (for_acc n i l (fun i m => v ← IXGBE_READ_REG_ARRAY mem i; upd_c m i v))
      (fun l => length l = length msg)) by eauto.
  induction n as [|n IH]; intros l i Hl; [by apply yl_ret|].
  eapply yl_bind with (P := fun l => length l = length msg); [|by eauto].
  apply yl_then. intros v w b w' E. apply yl_upd in E. congruence.
Qed.

Lemma yl_read_mbx msg size id : yields (ixgbe_read_mbx msg size id) (fun r => length r.2 = length msg).
Proof using.
  unfold ixgbe_read_mbx. apply yl_then. intros m. apply yl_then. intros o.
  destruct (op_read o) as [f|]; [|by apply yl_ret].
  assert (Hr : forall A (m : M A) n mem, yields (msg ← copy_from_mem mem msg n; m ;; mret (IXGBE_SUCCESS, msg))
    (fun r => length r.2 = length msg)).
  { intros A m' n mem. eapply yl_bind; [apply yl_copy_from_mem|]. intros l Hl. apply yl_then.
    intros _. by apply yl_ret. }
  unfold call_read, ixgbe_read_mbx_vf_legacy, ixgbe_read_mbx_vf, ixgbe_read_mbx_pf_legacy, ixgbe_read_mbx_pf.
  destruct f; apply yl_then; intros r; destruct (negb _); try by apply yl_ret.
  all: repeat first [ eapply yl_bind; [apply yl_copy_from_mem|intros l Hl]
                    | apply yl_then; intros ? | by apply yl_ret ].
Qed.

Lemma wp_drop {S A} (m : comp S A) (Q : unit -> S -> Prop) s :
  wp (m ;; mret tt) Q s -> wp m (fun _ => Q tt) s.
Proof using. unfold wp, mbind, comp_bind. by destruct (m s). Qed.

(** a request that the mailbox accepts *)
Lemma kp_mbx {A} (m : M A) r (Q : A -> Prop) :
  mbx_exec r = (m ;; mret tt) -> valid_request r -> is_init r = false -> mac_kept m -> yields m Q ->
  keeps c m Q.
Proof using Hc.
  intros Er Hv Hi Hk HQ w Hw. pose proof (co_mbx _ Hc) as Hx. rewrite <- Hw in Hx.
  pose proof (safe_exec _ r Hx Hv Hi w eq_refl) as Hs. rewrite Er in Hs. apply wp_drop in Hs.
  unfold wp in *. destruct (m w) as [a w'|] eqn:E; [|done]. destruct Hs as [Hs _].
  split; [|by eapply HQ]. rewrite <- Hw. unfold core. rewrite (Hk _ _ _ E). f_equal. exact Hs.
Qed.

Lemma kp_write_mbx msg size id : 0 <= id < 64 -> 0 < size <= Z.of_nat (length msg) ->
  keeps c (ixgbe_write_mbx msg size id) (fun _ => True).
Proof using Hc.
  intros. apply (kp_mbx _ (RqWrite msg size id)); [done|done|done|apply mk_write_mbx|done].
Qed.
Lemma kp_read_mbx msg size id : 0 <= id < 64 -> 0 <= size <= Z.of_nat (length msg) ->
  keeps c (ixgbe_read_mbx msg size id) (fun r => length r.2 = length msg).
Proof using Hc.
  intros. apply (kp_mbx _ (RqRead msg size id)); [done|done|done|apply mk_read_mbx|apply yl_read_mbx].
Qed.
Lemma kp_check_for_rst id : 0 <= id < 64 -> keeps c (ixgbe_check_for_rst id) (fun _ => True).
Proof using Hc.
  intros. apply (kp_mbx _ (RqCheckRst id)); [done|done|done| |done].
  unfold ixgbe_check_for_rst. apply mk_bind; [apply mk_get_ops|]. intros o.
  destruct (op_check_for_rst o); [apply mk_call_check_for_rst|apply mk_ret].
Qed.
Lemma kp_check_for_msg id : 0 <= id < 64 -> keeps c (ixgbe_check_for_msg id) (fun _ => True).
Proof using Hc.
  intros. apply (kp_mbx _ (RqCheckMsg id)); [done|done|done| |done].
  unfold ixgbe_check_for_msg. apply mk_bind; [apply mk_get_ops|]. intros o.
  destruct (op_check_for_msg o); [apply mk_call_check_for_msg|apply mk_ret].
Qed.
Lemma kp_check_for_ack id : 0 <= id < 64 -> keeps c (ixgbe_check_for_ack id) (fun _ => True).
Proof using Hc.
  intros. apply (kp_mbx _ (RqCheckAck id)); [done|done|done| |done].
  unfold ixgbe_check_for_ack. apply mk_bind; [apply mk_get_ops|]. intros o.
  destruct (op_check_for_ack o); [apply mk_call_check_for_ack|apply mk_ret].
Qed.
End MbxKeeps.

(** ** The filters keep the core *)
Section FiltersKeep.
Context `{D : Mmio}.
Context (c : ixgbe_mac_info * nat * mbx_cfg) (Hc : core_ok c).

Lemma core_not_unknown h : core h = c ->
  mac_type (mac h) <> ixgbe_mac_unknown /\ mac_type (mac h) <> ixgbe_mac_82598EB.
Proof using Hc. intros <-. apply Hc. Qed.

Lemma kp_mod_addr_ctrl f : keeps c (mod_addr_ctrl f) (fun _ => True).
Proof using. by apply kp_upd_hw. Qed.
Lemma kp_rar_low addr : length addr = 6%nat -> keeps c (rar_low_of addr) (fun _ => True).
Proof using. intros Hl. unfold rar_low_of. keeps_steps; try lia; done. Qed.
Lemma kp_rar_high addr : length addr = 6%nat -> keeps c (rar_high_of addr) (fun _ => True).
Proof using. intros Hl. unfold rar_high_of. keeps_steps; try lia; done. Qed.

Lemma kp_call_set_vmdq i p : keeps c (call_set_vmdq (crash FNullCall) i p) (fun _ => True).
Proof using Hc.
  unfold call_set_vmdq. keeps_step. destruct (core_not_unknown _ H) as [H1 H2].
  destruct (mac_type (mac a)); try done; unfold ixgbe_set_vmdq_generic; keeps_steps; done.
Qed.

Lemma kp_set_rar i addr p en : length addr = 6%nat ->
  keeps c (ixgbe_set_rar_generic i addr p en) (fun _ => True).
Proof using Hc.
  intros Hl. unfold ixgbe_set_rar_generic. keeps_steps; try done.
  - apply kp_call_set_vmdq.
  - by apply kp_rar_low.
  - by apply kp_rar_high.
Qed.

Lemma kp_vlvf_search v e n : keeps c (vlvf_search v e n) (fun _ => True).
Proof using. revert e. induction n as [|n IH]; intros e; cbn [vlvf_search]; keeps_steps; done. Qed.

Lemma kp_set_vfta vlan vind on bypass : keeps c (call_set_vfta vlan vind on bypass) (fun _ => True).
Proof using Hc.
  unfold call_set_vfta. keeps_step. destruct (core_not_unknown _ H) as [H1 H2].
  enough (keeps c (ixgbe_set_vfta_generic vlan vind on bypass) (fun _ => True))
    by (destruct (mac_type (mac a)); done).
  unfold ixgbe_set_vfta_generic, ixgbe_set_vlvf_generic, ixgbe_find_vlvf_slot.
  keeps_steps; try done. apply kp_vlvf_search.
Qed.

Lemma core_set_shadow h l : core h = c -> length l = 128%nat ->
  core (upd_mac (upd_mta_shadow l (mac h)) h) = c.
Proof using Hc. intros <- Hl. unfold core. simpl. rewrite Hl. by rewrite <- (co_mta _ Hc). Qed.

Lemma kp_set_mta addr : length addr = 6%nat -> keeps c (ixgbe_set_mta addr) (fun _ => True).
Proof using Hc.
  intros Hl. unfold ixgbe_set_mta. eapply kp_bind; [apply kp_mod_addr_ctrl|intros _ _].
  eapply kp_bind with (P := fun _ => True).
  { unfold ixgbe_mta_vector. keeps_steps; try lia; done. }
  intros v _. keeps_step. pose proof (core_shadow _ _ H) as Hs. rewrite (co_mta _ Hc) in Hs.
  assert (0 <= Z.land (Z.shiftr v 5) 0x7F < 128).
  { change 0x7F with (Z.ones 7). rewrite Z.land_ones by lia. apply Z.mod_pos_bound. lia. }
  eapply kp_bind; [apply kp_nth; lia|]. intros x _. eapply kp_bind; [apply kp_upd; lia|].
  intros l El. cbv beta in El. apply kp_upd_hw. intros h Hh. apply core_set_shadow; [done|lia].
Qed.

Lemma kp_update_mc_list p l n : n = Z.of_nat (length l) -> Forall (fun a => length a = 6%nat) l ->
  keeps c (ixgbe_update_mc_addr_list_generic (ixgbe_addr_list_itr p) l n false) (fun _ => True).
Proof using Hc.
  intros -> Hl. unfold ixgbe_update_mc_addr_list_generic.
  eapply kp_bind; [apply kp_mod_addr_ctrl|intros _ _].
  eapply kp_bind; [apply kp_mod_addr_ctrl|intros _ _].
  eapply kp_bind; [by apply kp_ret with (Q := fun _ => True)|intros _ _].
  eapply kp_bind.
  { apply kp_for_acc with (Inv := fun k l' => k + Z.of_nat (length l') = Z.of_nat (length l) /\
      Forall (fun a => length a = 6%nat) l').
    - split; [lia|done].
    - intros k l' Hk [H1 H2]. destruct l' as [|a l']; simpl in *; [lia|].
      apply Forall_cons_1 in H2 as [H2 H3]. eapply kp_bind; [by apply kp_set_mta|].
      intros _ _. apply kp_ret. split; [lia|done]. }
  intros ? _. keeps_step. pose proof (core_mcft _ _ H) as Hm. pose proof (co_mcft _ Hc) as Hx.
  eapply kp_bind.
  { apply kp_for_loop. intros k Hk. keeps_step. pose proof (core_shadow _ _ H0) as Hs.
    rewrite (co_mta _ Hc) in Hs. eapply kp_bind; [apply kp_nth; lia|]. intros x _. apply kp_write. }
  intros _ _. keeps_steps; done.
Qed.

Lemma kp_anti_spoofing on vf : keeps c (ixgbe_set_mac_anti_spoofing on vf) (fun _ => True) /\
  keeps c (ixgbe_set_vlan_anti_spoofing on vf) (fun _ => True) /\
  keeps c (ixgbe_set_ethertype_anti_spoofing_X550 on vf) (fun _ => True).
Proof using.
  unfold ixgbe_set_mac_anti_spoofing, ixgbe_set_vlan_anti_spoofing, ixgbe_set_ethertype_anti_spoofing_X550.
  repeat split; keeps_steps; done.
Qed.
End FiltersKeep.

(** ** Clearing a receive address ends

    The pool words are storage; every other register, the status register
    included, may answer anything, and the adapter may vanish. *)
Section ClearRar.
Context `{D : Mmio} `{!PlainRegs D mpsar_regs}.
Abbreviation P := mpsar_regs.
Abbreviation here w := (hw_addr (w_hw w) = true).

(** [w'] follows [w] with the same pool words *)
Record follows (w w' : world) : Prop := {
  fo_core : core (w_hw w') = core (w_hw w);
  fo_here : here w' -> here w;
  fo_peek : forall r, P r -> peek (w_dev w') r = peek (w_dev w) r;
}.
Lemma follows_refl w : follows w w.
Proof. done. Qed.
Lemma follows_trans w1 w2 w3 : follows w1 w2 -> follows w2 w3 -> follows w1 w3.
Proof.
  intros [a1 b1 c1] [a2 b2 c2]. split; [congruence|auto|]. intros r Hr. by rewrite c2, c1.
Qed.
Hint Resolve follows_refl : core.

Lemma readl_follows r w : wp (readl r) (fun v w' =>
  follows w w' /\ w_hw w' = w_hw w /\ (P r -> v = peek (w_dev w) r)) w.
Proof.
  apply wp_readl. intros v d E. split; [|split; [done|]].
  - split; simpl; [done|done|]. intros r' Hr'. pose proof (peek_read_other (w_dev w) r r' Hr') as H.
    by rewrite E in H.
  - intros Hr. rewrite peek_read in E by done. injection E as <- _. apply trunc_small, peek_range.
Qed.
Lemma delay_follows us w : wp (udelay us) (fun _ w' => follows w w') w.
Proof. apply wp_udelay. split; simpl; [done|done|]. intros r Hr. by apply peek_delay. Qed.
Lemma remove_follows w : follows w (mk_world _ (ixgbe_remove_adapter (w_hw w)) (w_dev w) (w_log w)).
Proof. split; simpl; [apply core_remove| |done]. by rewrite remove_adapter_addr. Qed.

(** what a read of [r] gives while the adapter is there *)
Definition read_ok (r : Z) (w : world) (v : Z) (w' : world) : Prop :=
  follows w w' /\ (here w' -> P r -> v = peek (w_dev w) r).

Lemma read_ok_later r w w1 v w' : follows w w1 -> read_ok r w1 v w' -> read_ok r w v w'.
Proof.
  intros Hf [H1 H2]. split; [by eapply follows_trans|]. intros Ha Hr. rewrite H2 by done.
  by apply (fo_peek _ _ Hf).
Qed.

Lemma check_remove_follows r w : wp (ixgbe_check_remove r) (read_ok r w) w.
Proof.
  unfold ixgbe_check_remove. wp_step. apply wp_get_hw. wp_step.
  { apply wp_ret. split; [done|]. intros Ha. rewrite Ha in Heqb. done. }
  wp_step. eapply wp_mono.
  { apply wp_for_break with (Inv := fun _ _ w' => follows w w') (Q := fun _ w' => follows w w').
    - done.
    - intros k b w1 _ H1. wp_step. eapply wp_mono; [apply readl_follows|]. intros v w2 (H2 & _ & _).
      pose proof (follows_trans _ _ _ H1 H2) as H3. wp_step; [by wp_step|]. wp_step.
      eapply wp_mono; [apply delay_follows|]. intros [] w3 H4. wp_step. by eapply follows_trans.
    - done. }
  intros x w1 H1. cbv zeta. wp_step.
  - wp_step. apply wp_upd_hw. wp_step. pose proof (follows_trans _ _ _ H1 (remove_follows w1)) as H2.
    split; [done|]. simpl. by rewrite remove_adapter_addr.
  - eapply wp_mono; [apply readl_follows|]. intros v w2 (H2 & _ & H3). apply (read_ok_later _ _ w1); [done|].
    split; [done|]. intros _. exact H3.
Qed.

Lemma validate_follows r w : wp (ixgbe_validate_register_read r) (read_ok r w) w.
Proof.
  unfold ixgbe_validate_register_read. wp_step. apply wp_get_hw. wp_step.
  { apply wp_ret. split; [done|]. intros Ha. rewrite Ha in Heqb. done. }
  wp_step. eapply wp_mono.
  { apply wp_for_break with
      (Inv := fun k v w' => follows w w' /\ (k = 0 \/ (P r -> v = peek (w_dev w) r)))
      (Q := fun x w' => follows w w' /\ (P r -> match x with inl v => v | inr v => v end = peek (w_dev w) r)).
    - split; [done|by left].
    - intros k v0 w1 _ [H1 _]. wp_step. eapply wp_mono; [apply readl_follows|]. intros v w2 (H2 & _ & H3).
      pose proof (follows_trans _ _ _ H1 H2) as H4.
      assert (P r -> v = peek (w_dev w) r) as H5.
      { intros Hr. rewrite H3 by done. by apply (fo_peek _ _ H1). }
      wp_step; wp_step; auto.
    - intros v w1 [H1 [Hk|H2]]; [by vm_compute in Hk|auto]. }
  intros x w1 [H1 H2]. apply wp_ret. split; auto.
Qed.

Lemma read_reg_follows r w : wp (IXGBE_READ_REG r) (read_ok r w) w.
Proof.
  unfold IXGBE_READ_REG, ixgbe_read_reg. wp_step. apply wp_get_hw. wp_step.
  { apply wp_ret. split; [done|]. intros Ha. rewrite Ha in Heqb. done. }
  assert (Hcont : forall w1, follows w w1 -> wp (ixgbe_read_reg_writes_completed r) (read_ok r w) w1).
  { intros w1 H1. unfold ixgbe_read_reg_writes_completed. wp_step.
    eapply wp_mono; [apply readl_follows|]. intros v w2 (H2 & _ & H3).
    assert (read_ok r w v w2) as H4.
    { apply (read_ok_later _ _ w1); [done|]. split; [done|]. intros _. exact H3. }
    wp_step. eapply wp_mono with (P := read_ok r w).
    { wp_step; [|by apply wp_ret]. eapply wp_mono; [apply check_remove_follows|].
      intros v3 w3 H5. apply (read_ok_later _ _ w2); [apply H4|done]. }
    intros v3 w3 H5. wp_step; [|by apply wp_ret]. eapply wp_mono; [apply validate_follows|].
    intros v4 w4 H6. apply (read_ok_later _ _ w3); [apply H5|done]. }
  wp_step; [|by apply Hcont]. wp_step. eapply wp_mono.
  { apply wp_for_break with (Inv := fun _ _ w' => follows w w')
      (Q := fun x w' => follows w w' /\ (x = inr false -> ~ here w')).
    - done.
    - intros k b w1 _ H1. wp_step. eapply wp_mono; [apply readl_follows|]. intros v w2 (H2 & _ & _).
      pose proof (follows_trans _ _ _ H1 H2) as H3. wp_step; [by wp_step|]. wp_step.
      + wp_step. apply wp_upd_hw. wp_step. split; [by eapply follows_trans, remove_follows|].
        intros _. simpl. by rewrite remove_adapter_addr.
      + wp_step. eapply wp_mono; [apply delay_follows|]. intros [] w3 H4. wp_step. by eapply follows_trans.
    - done. }
  intros [u|[]] w1 [H1 H2]; [by apply Hcont|by apply Hcont|].
  apply wp_ret. split; [done|]. intros Ha. by destruct (H2 eq_refl).
Qed.

Lemma write_reg_follows r v w : wp (IXGBE_WRITE_REG r v) (fun _ w' =>
  core (w_hw w') = core (w_hw w) /\ (here w' -> here w) /\
  (here w' -> forall r', P r' -> peek (w_dev w') r' = if decide (r = r') then u32 v else peek (w_dev w) r')) w.
Proof.
  unfold IXGBE_WRITE_REG. wp_step. apply wp_get_hw. wp_step.
  - apply wp_ret. split; [done|]. split; [done|]. intros Ha. rewrite Ha in Heqb. done.
  - apply wp_writel. split; [done|]. split; [done|]. simpl. intros _ r' Hr'.
    by rewrite peek_write by (done || by apply trunc_range).
Qed.

Lemma mpsar_lo i : 0 <= i < 128 -> P (IXGBE_MPSAR_LO i).
Proof. exists i. auto. Qed.
Lemma mpsar_hi i : 0 <= i < 128 -> P (IXGBE_MPSAR_HI i).
Proof. exists i. auto. Qed.
Hint Resolve mpsar_lo mpsar_hi : core.

(** the pool words of entry [i] are zero, unless the adapter is gone *)
Definition no_pool (i : Z) (w : world) : Prop :=
  here w -> peek (w_dev w) (IXGBE_MPSAR_LO i) = 0 /\ peek (w_dev w) (IXGBE_MPSAR_HI i) = 0.

Lemma no_pool_follows i w w' : 0 <= i < 128 -> no_pool i w -> follows w w' -> no_pool i w'.
Proof. intros Hi Hn [_ Ha Hp] Hw. rewrite !Hp by auto. auto. Qed.

Lemma no_pool_write i r v w : 0 <= i < 128 -> no_pool i w -> ~ P r ->
  wp (IXGBE_WRITE_REG r v) (fun _ w' => core (w_hw w') = core (w_hw w) /\ no_pool i w') w.
Proof.
  intros Hi Hn Hr. eapply wp_mono; [apply write_reg_follows|]. intros [] w' (H1 & H2 & H3).
  split; [done|]. intros Ha. rewrite !H3 by auto. rewrite !decide_False by (intros ->; auto). auto.
Qed.

Lemma rar_not_mpsar i : 0 <= i < 128 -> ~ P (IXGBE_RAL i) /\ ~ P (IXGBE_RAH i).
Proof.
  intros Hi. unfold P, mpsar_regs, IXGBE_RAL, IXGBE_RAH, IXGBE_MPSAR_LO, IXGBE_MPSAR_HI.
  split; intros (j & Hj & [E|E]); destruct (Z.leb_spec i 15); lia.
Qed.

(** [clear_vmdq] finds no pool: the end of the recursion *)
Lemma clear_vmdq_last n i w : 0 <= i < 128 -> no_pool i w ->
  wp (clear_vmdq_fuel (S n) i IXGBE_CLEAR_VMDQ_ALL) (fun _ w' => core (w_hw w') = core (w_hw w)) w.
Proof.
  intros Hi Hn. cbn [clear_vmdq_fuel]. unfold clear_vmdq_with. wp_step. apply wp_get_hw.
  wp_step; [by apply wp_ret|].
  wp_step. eapply wp_mono; [apply read_reg_follows|]. intros lo w1 [F1 R1].
  wp_step. eapply wp_mono; [apply read_reg_follows|]. intros hi w2 [F2 R2].
  pose proof (follows_trans _ _ _ F1 F2) as F. wp_step. apply wp_get_hw.
  wp_step; [apply wp_ret, F|]. apply negb_false_iff in Heqb0.
  pose proof (fo_here _ _ F2 Heqb0) as Ha1. destruct (no_pool_follows i w w1 Hi Hn F1 Ha1) as [E1 E2].
  rewrite R2, E2 by auto. rewrite R1 by auto. destruct (Hn (fo_here _ _ F1 Ha1)) as [-> _].
  apply wp_ret, F.
Qed.

Lemma clear_rar_last n i w : 0 <= i < 128 -> no_pool i w ->
  wp (clear_rar_with (clear_vmdq_fuel (S n)) i) (fun _ w' => core (w_hw w') = core (w_hw w)) w.
Proof.
  intros Hi Hn. unfold clear_rar_with. destruct (rar_not_mpsar i Hi) as [Hl Hh]. wp_step. apply wp_get_hw.
  wp_step; [by apply wp_ret|].
  wp_step. eapply wp_mono; [apply read_reg_follows|]. intros x w1 [F1 _]. cbv zeta.
  pose proof (no_pool_follows _ _ _ Hi Hn F1) as N1.
  wp_step. eapply wp_mono; [by apply no_pool_write|]. intros [] w2 [C2 N2].
  wp_step. eapply wp_mono; [by apply no_pool_write|]. intros [] w3 [C3 N3].
  wp_step. eapply wp_mono; [by apply clear_vmdq_last|]. intros r w4 C4. cbv beta in C4.
  apply wp_ret. rewrite C4, C3, C2. apply F1.
Qed.

(** a pool word cleared if it was not zero: the copy the code keeps of it *)
Lemma clear_word r x w : P r -> (here w -> x = peek (w_dev w) r) ->
  wp (if negb (x =? 0) then IXGBE_WRITE_REG r 0 ;; IXGBE_READ_REG r else mret x) (fun y w' =>
    core (w_hw w') = core (w_hw w) /\ (here w' -> here w) /\ (here w' -> y = peek (w_dev w') r) /\
    (here w' -> forall r', P r' -> r' <> r -> peek (w_dev w') r' = peek (w_dev w) r')) w.
Proof.
  intros Hr Hx. wp_step; [|apply wp_ret; by repeat split].
  wp_step. eapply wp_mono; [apply write_reg_follows|]. intros [] w1 (C1 & A1 & W1).
  eapply wp_mono; [apply read_reg_follows|]. intros y w2 [F2 R2]. split; [|split; [|split]].
  - rewrite (fo_core _ _ F2). done.
  - intros Ha. apply A1, (fo_here _ _ F2 Ha).
  - intros Ha. rewrite (fo_peek _ _ F2) by done. auto.
  - intros Ha r' Hr' Hne. pose proof (fo_here _ _ F2 Ha). rewrite (fo_peek _ _ F2), W1 by done.
    by rewrite decide_False.
Qed.

Lemma clear_vmdq_all i w : 0 <= i < 128 ->
  wp (ixgbe_clear_vmdq_generic i IXGBE_CLEAR_VMDQ_ALL) (fun _ w' => core (w_hw w') = core (w_hw w)) w.
Proof.
  intros Hi. unfold ixgbe_clear_vmdq_generic.
  change (clear_vmdq_fuel 2) with (clear_vmdq_with (clear_rar_with (clear_vmdq_fuel 1))).
  unfold clear_vmdq_with. wp_step. apply wp_get_hw. wp_step; [by apply wp_ret|].
  wp_step. eapply wp_mono; [apply read_reg_follows|]. intros lo w1 [F1 R1].
  wp_step. eapply wp_mono; [apply read_reg_follows|]. intros hi w2 [F2 R2].
  pose proof (follows_trans _ _ _ F1 F2) as F. wp_step. apply wp_get_hw.
  wp_step; [apply wp_ret, F|]. wp_step; [apply wp_ret, F|]. rewrite Z.eqb_refl.
  wp_step. wp_step. eapply wp_mono.
  { apply clear_word; [auto|]. intros Ha. rewrite (fo_peek _ _ F2) by auto.
    rewrite (fo_peek _ _ F1) by auto. apply R1; [by apply (fo_here _ _ F2)|auto]. }
  intros lo' w3 (C3 & A3 & V3 & O3). wp_step. eapply wp_mono.
  { apply clear_word; [auto|]. intros Ha. pose proof (A3 Ha).
    rewrite O3 by (auto || (unfold IXGBE_MPSAR_LO, IXGBE_MPSAR_HI; lia)).
    rewrite (fo_peek _ _ F2) by auto. apply R2; auto. }
  intros hi' w4 (C4 & A4 & V4 & O4). wp_step. cbn [fst snd]. wp_step. apply wp_get_hw.
  assert (core (w_hw w4) = core (w_hw w)) as C by (rewrite C4, C3; apply F).
  wp_step. eapply wp_mono with (P := fun _ w' => core (w_hw w') = core (w_hw w)).
  2: { intros [] w5 C5. by apply wp_ret. }
  wp_step; [|by apply wp_ret]. wp_step. eapply wp_mono.
  - apply clear_rar_last; [done|]. intros Ha. pose proof (A4 Ha) as Ha3.
    apply andb_true_iff in Heqb2 as [[[E1 E2]%andb_true_iff _]%andb_true_iff _].
    apply Z.eqb_eq in E1, E2. split; [|by rewrite <- V4].
    rewrite O4 by (auto || (unfold IXGBE_MPSAR_LO, IXGBE_MPSAR_HI; lia)). by rewrite <- V3.
  - intros r w5 C5. apply wp_ret. by rewrite C5.
Qed.

Context (c : ixgbe_mac_info * nat * mbx_cfg) (Hc : core_ok c).

Lemma kp_clear_rar i : 0 <= i -> keeps c (ixgbe_clear_rar_generic i) (fun _ => True).
Proof using Hc PlainRegs0.
  intros Hi. unfold ixgbe_clear_rar_generic, clear_rar_with. keeps_step. keeps_step; [by apply kp_ret|].
  assert (i < 128) as Hi'.
  { apply Z.leb_gt in Heqb. pose proof (co_rars _ Hc). rewrite (core_rars _ _ H) in Heqb. lia. }
  do 3 keeps_step. eapply kp_bind with (P := fun _ => True); [|intros _ _; by apply kp_ret].
  unfold call_clear_vmdq. eapply kp_bind; [apply kp_get_hw|]. intros h Hh.
  destruct (core_not_unknown c Hc _ Hh) as [H1 H2].
  enough (keeps c (ixgbe_clear_vmdq_generic i IXGBE_CLEAR_VMDQ_ALL) (fun _ => True))
    by (destruct (mac_type (mac h)); done).
  intros w Hw. eapply wp_mono; [by apply clear_vmdq_all|]. simpl. intros _ w' ->. done.
Qed.
End ClearRar.
