(* ===== verification/SriovFrame.v ===== *)
(** * Invariant of the PF and isolation of the VFs: definitions and rules

    [wf] is the well-formedness that every operation of the PF preserves.
    [iso vf s s'] relates the states before and after work on behalf of the VF
    [vf]: the data of the other VFs, their address filters and everything that the
    administrator set for [vf] is the same, and a filter that is new belongs to
    [vf] or to the PF, and is one that [vf] may ask for.  [runs vf s m Q]: from
    [s], [m] ends without a fault in a well-formed state related to [s] by [iso].

    The device is arbitrary but for the pool registers of the receive addresses,
    which are storage. *)
From S2P Require Import Prelude Regs Types Osdep Trace Mbx MbxProps MbxSafe Filters.
From S2P Require Import Queues PfState Adapter X550 Sriov SriovCore.

(** the filter that an entry of the table stands for *)
Definition view (e : ixgbe_mac_addr) : option (list Z * Z) :=
  if in_use e then Some (m_addr e, m_pool e) else None.

(** what the administrator sets for a VF *)
Definition admin (v : vf_data_storage) : option Z * bool * Z * Z * Z * bool * Z * bool * bool * bool :=
  (vfdev v, pf_set_mac v, pf_vlan v, pf_qos v, tx_rate v, link_enable v, link_state v,
   spoofchk_enabled v, rss_query_enabled v, trusted v).
(** the administrator chose the address, and the VF may not change it *)
Definition restricted (v : vf_data_storage) : Prop := pf_set_mac v = true /\ trusted v = false.

Record vf_ok (t : ixgbe_mac_type) (v : vf_data_storage) : Prop := {
  vo_mac : length (vf_mac_addresses v) = 6%nat;
  vo_hashes : length (vf_mc_hashes v) = 30%nat;
  vo_num : 0 <= num_vf_mc_hashes v <= 30;
  vo_vlan : 0 <= pf_vlan v < 4096;
  vo_rss : rss_query_enabled v = true -> mac_type_val t < mac_type_val ixgbe_mac_X550;
}.

Inductive script_ok : uc_script -> Prop :=
| so_done r : script_ok (UcDone r)
| so_sync a k : length a = 6%nat -> (forall r, script_ok (k r)) -> script_ok (UcSync a k)
| so_unsync a k : length a = 6%nat -> (forall r, script_ok (k r)) -> script_ok (UcUnsync a k).

Section Frame.
Context `{D : Mmio}.
Implicit Types s : pf.

Definition filters s : list (option (list Z * Z)) := view <$> mac_table s.
Definition pf_pool s : Z := VMDQ_P 0 s.

Definition vf_at s (v : Z) : option vf_data_storage :=
  if v <? 0 then None else vfinfo s ≫= fun l => l !! Z.to_nat v.

(** an address that the VF may have a filter for *)
Definition permitted s (vf : Z) (a : list Z) : Prop :=
  is_zero_ether_addr a = false /\
  forall v, vf_at s vf = Some v -> restricted v -> vf_mac_addresses v = a.

(** the fields that work for a VF does not touch *)
Definition shared s :=
  (ad s, netdev s, num_vfs s, active_vlans s,
   (sriov_capable s, mdd_enabled s, l2switch_enable s, replication_enable s, rsc_capable s, rsc_enabled s),
   (max_vfs s, default_up s, link_speed s, link_up s, vf_rate_link_speed s),
   (rss_indir_tbl s, rss_key s, pg_tcs s, pfc_tcs s, vt_mode s)).

Record wf s : Prop := {
  wf_core : core_ok (core (hw s));
  wf_num : 1 <= num_vfs s <= 63;
  wf_offset : offset (vmdq (conf (ad s))) = num_vfs s;
  wf_vfs : exists l, vfinfo s = Some l /\ Z.of_nat (length l) = num_vfs s /\ Forall (vf_ok (pf_mac s)) l;
  wf_mvs : exists l, vf_mvs s = Some l /\ Forall (fun e => length (mv_addr e) = 6%nat) l;
  wf_table : Z.of_nat (length (mac_table s)) = num_rars s;
  wf_addrs : Forall (fun e => length (m_addr e) = 6%nat) (mac_table s);
  wf_vlans : length (active_vlans s) = 64%nat;
  wf_rings : forall i, 0 <= i < num_rx_queues (conf (ad s)) ->
    exists r, rx_ring (ad s) !! Z.to_nat i = Some (Some r);
  wf_reta : length (rss_indir_tbl s) = 512%nat;
  wf_key : length (rss_key s) = 10%nat;
  wf_mc : Forall (fun a => length a = 6%nat) (mc_list (netdev s));
  wf_prio : length (prio_tc_map (netdev s)) = 16%nat;
}.

Record iso (vf : Z) s s' : Prop := {
  is_shared : shared s' = shared s;
  is_core : core (hw s') = core (hw s);
  is_others : forall v, v <> vf -> vf_at s' v = vf_at s v;
  is_own : forall v, vf_at s vf = Some v -> exists v', vf_at s' vf = Some v' /\ admin v' = admin v /\
    (restricted v -> vf_mac_addresses v' = vf_mac_addresses v \/
                     is_zero_ether_addr (vf_mac_addresses v') = true);
  is_mvs : forall l, vf_mvs s = Some l -> exists l', vf_mvs s' = Some l' /\ length l' = length l /\
    forall j e, l !! j = Some e -> mv_free e = false -> mv_vf e <> vf -> l' !! j = Some e;
  is_keep : forall i a p, filters s !! i = Some (Some (a, p)) -> p <> vf -> p <> pf_pool s ->
    filters s' !! i = Some (Some (a, p));
  is_new : forall i a p, filters s' !! i = Some (Some (a, p)) -> p <> pf_pool s ->
    filters s !! i = Some (Some (a, p)) \/ (p = vf /\ permitted s vf a);
}.

Lemma shared_pool s s' : shared s' = shared s -> pf_pool s' = pf_pool s.
Proof. intros [= E _]. unfold pf_pool, VMDQ_P. by rewrite E. Qed.

Lemma admin_restricted v v' : admin v' = admin v -> restricted v <-> restricted v'.
Proof. intros [= _ E1 _ _ _ _ _ _ _ E2]. unfold restricted. by rewrite E1, E2. Qed.

Lemma iso_refl vf s : iso vf s s.
Proof. split; [done|done|done|eauto|eauto|auto|auto]. Qed.

Lemma iso_trans vf s1 s2 s3 : iso vf s1 s2 -> iso vf s2 s3 -> iso vf s1 s3.
Proof.
  intros H1 H2. pose proof (shared_pool _ _ (is_shared _ _ _ H1)) as Hp. split.
  - rewrite (is_shared _ _ _ H2). apply H1.
  - rewrite (is_core _ _ _ H2). apply H1.
  - intros v Hv. rewrite (is_others _ _ _ H2) by done. by apply H1.
  - intros v Hv. destruct (is_own _ _ _ H1 v Hv) as (v2 & E2 & A2 & R2).
    destruct (is_own _ _ _ H2 v2 E2) as (v3 & E3 & A3 & R3). exists v3.
    split; [done|]. split; [congruence|]. intros Hr. destruct (R3 (proj1 (admin_restricted _ _ A2) Hr)) as [->|Z3].
    + by apply R2.
    + by right.
  - intros l Hl. destruct (is_mvs _ _ _ H1 l Hl) as (l2 & E2 & L2 & K2).
    destruct (is_mvs _ _ _ H2 l2 E2) as (l3 & E3 & L3 & K3). exists l3. split; [done|].
    split; [congruence|]. intros j e Hj Hf Hv. apply K3; auto.
  - intros i a p Hi Hv Hq. apply (is_keep _ _ _ H2); [|done|by rewrite Hp].
    by apply (is_keep _ _ _ H1).
  - intros i a p Hi Hq. destruct (is_new _ _ _ H2 i a p Hi ltac:(by rewrite Hp)) as [Ho|[-> [Hz Ha]]].
    + by apply (is_new _ _ _ H1).
    + right. split; [done|]. split; [done|]. intros v Hv Hr.
      destruct (is_own _ _ _ H1 v Hv) as (v2 & E2 & A2 & R2).
      pose proof (Ha v2 E2 (proj1 (admin_restricted _ _ A2) Hr)) as E.
      destruct (R2 Hr) as [E'|Z2]; congruence.
Qed.

#[export] Instance iso_preorder vf : PreOrder (iso vf).
Proof. split; [exact (iso_refl vf)|exact (iso_trans vf)]. Qed.

(** ** Elementary changes *)
Lemma wf_put_pw w s : wf s -> core (w_hw w) = core (hw s) -> wf (put_pw w s).
Proof.
  intros [] E. assert (pf_mac (put_pw w s) = pf_mac s) as Em.
  { unfold pf_mac, hw. simpl. change (core (hw s)) with (core (w_hw (pw s))) in E.
    by rewrite (core_type _ _ E). }
  assert (num_rars (put_pw w s) = num_rars s) as En.
  { unfold num_rars, hw. simpl. by rewrite (core_rars _ _ E). }
  split; rewrite ?Em, ?En; try done. unfold hw. simpl. by rewrite E.
Qed.
Lemma iso_put_pw vf w s : core (w_hw w) = core (hw s) -> iso vf s (put_pw w s).
Proof. intros E. split; [done|done|done|eauto|eauto|auto|auto]. Qed.

Lemma vf_at_some s v : wf s -> 0 <= v < num_vfs s -> exists x, vf_at s v = Some x.
Proof.
  intros Hw Hv. destruct (wf_vfs _ Hw) as (l & E & Hl & _). unfold vf_at. rewrite E. simpl.
  destruct (Z.ltb_spec v 0); [lia|]. apply lookup_lt_is_Some_2. lia.
Qed.
Lemma vf_at_ok s v x : wf s -> vf_at s v = Some x -> vf_ok (pf_mac s) x.
Proof.
  intros Hw. destruct (wf_vfs _ Hw) as (l & E & _ & Hl). unfold vf_at. rewrite E. simpl.
  destruct (v <? 0); [done|]. apply Forall_lookup_1. done.
Qed.

(** the entry of one VF replaced *)
Definition set_vf (v : Z) (x : vf_data_storage) s : pf :=
  put_vfinfo (match vfinfo s with Some l => Some (<[Z.to_nat v := x]> l) | None => None end) s.

Lemma vf_at_set s v x v' : wf s -> 0 <= v < num_vfs s ->
  vf_at (set_vf v x s) v' = if decide (v' = v) then Some x else vf_at s v'.
Proof.
  intros Hw Hv. destruct (wf_vfs _ Hw) as (l & E & Hl & _). unfold vf_at, set_vf. simpl. rewrite E. simpl.
  case_decide as Hd.
  - subst v'. destruct (Z.ltb_spec v 0); [lia|]. apply list_lookup_insert_eq. lia.
  - destruct (Z.ltb_spec v' 0); [done|]. by rewrite list_lookup_insert_ne by lia.
Qed.
Lemma wf_set_vf v x s : wf s -> 0 <= v < num_vfs s -> vf_ok (pf_mac s) x -> wf (set_vf v x s).
Proof.
  intros Hw Hv Hx. pose proof Hw as []. destruct wf_vfs0 as (l & E & Hl & Ho). split; try done.
  simpl. rewrite E. eexists. split; [done|]. rewrite length_insert. split; [done|]. by apply Forall_insert.
Qed.
Lemma iso_set_vf vf v x s : wf s -> 0 <= vf < num_vfs s -> vf_at s vf = Some v -> admin x = admin v ->
  (restricted v -> vf_mac_addresses x = vf_mac_addresses v \/ is_zero_ether_addr (vf_mac_addresses x) = true) ->
  iso vf s (set_vf vf x s).
Proof.
  intros Hw Hv E Ha Hm. split; try done; eauto.
  - intros v' Hne. rewrite vf_at_set by done. by rewrite decide_False.
  - intros v0 E0. rewrite E in E0. injection E0 as <-. exists x. rewrite vf_at_set by done.
    by rewrite decide_True.
Qed.

(** the filter of one entry changed *)
Lemma wf_put_table l s : wf s -> length l = length (mac_table s) ->
  Forall (fun e => length (m_addr e) = 6%nat) l -> wf (put_mac_table l s).
Proof. intros [] Hl Ha. split; simpl; rewrite ?Hl; done. Qed.

(** the changes of a filter that work for [vf] may make *)
Inductive allowed (vf : Z) s : option (list Z * Z) -> option (list Z * Z) -> Prop :=
| al_same o : allowed vf s o o
| al_add a p : p = pf_pool s \/ (p = vf /\ permitted s vf a) -> allowed vf s None (Some (a, p))
| al_del a p : p = vf \/ p = pf_pool s -> allowed vf s (Some (a, p)) None.

Lemma iso_put_table vf i e e' s :
  mac_table s !! i = Some e -> allowed vf s (view e) (view e') ->
  iso vf s (put_mac_table (<[i := e']> (mac_table s)) s).
Proof.
  intros Hi Ha. assert (Hf : forall j, filters (put_mac_table (<[i := e']> (mac_table s)) s) !! j =
    if decide (j = i) then Some (view e') else filters s !! j).
  { intros j. unfold filters. simpl. rewrite list_fmap_insert. case_decide as Hd.
    - subst j. apply list_lookup_insert_eq. rewrite length_fmap. by eapply lookup_lt_Some.
    - by apply list_lookup_insert_ne. }
  assert (He : filters s !! i = Some (view e)) by (unfold filters; by rewrite list_lookup_fmap, Hi).
  split; try done; eauto.
  - intros j a p Hj Hv Hp. rewrite Hf. case_decide as Hd; [|done]. subst j. rewrite He in Hj.
    injection Hj as Hj. rewrite Hj in Ha. inversion Ha; subst; [done|naive_solver].
  - intros j a p Hj Hp. rewrite Hf in Hj. case_decide as Hd; [|by left]. subst j. rewrite He.
    injection Hj as Hj. rewrite Hj in Ha. inversion Ha as [o E|a' p' HH E1 E2|]; subst; [by left|].
    right. naive_solver.
Qed.
End Frame.

(** ** Symbolic execution *)
Section Runs.
Context `{D : Mmio} (vf : Z).
Implicit Types s : pf.

(** a well-formed state in which [vf] is a VF *)
Record good s : Prop := { gd_wf : wf s; gd_vf : 0 <= vf < num_vfs s }.

Definition runs {A} s (m : PF A) (Q : A -> pf -> Prop) : Prop :=
  wp m (fun a s' => good s' /\ iso vf s s' /\ Q a s') s.

Lemma good_iso s s' : good s -> wf s' -> iso vf s s' -> good s'.
Proof. intros [_ Hv] Hw Hi. split; [done|]. pose proof (is_shared _ _ _ Hi) as [= _ _ E _]. by rewrite E. Qed.

Lemma rn_ret {A} s (a : A) (Q : A -> pf -> Prop) : good s -> Q a s -> runs s (mret a) Q.
Proof. intros. apply wp_ret. split; [done|]. split; [apply iso_refl|done]. Qed.
Lemma rn_bind {A B} s (m : PF A) (f : A -> PF B) P (Q : B -> pf -> Prop) :
  runs s m P -> (forall a s', good s' -> iso vf s s' -> P a s' -> runs s' (f a) Q) -> runs s (m ≫= f) Q.
Proof.
  intros Hm Hf. apply wp_bind. eapply wp_mono; [exact Hm|]. intros a s' (Hg & Hi & HP).
  eapply wp_mono; [by apply Hf|]. intros b s2 (Hg2 & Hi2 & HQ). split; [done|]. split; [|done].
  by eapply iso_trans.
Qed.
Lemma rn_mono {A} s (m : PF A) (P Q : A -> pf -> Prop) :
  runs s m P -> (forall a s', good s' -> iso vf s s' -> P a s' -> Q a s') -> runs s m Q.
Proof. intros Hm HQ. eapply wp_mono; [exact Hm|]. naive_solver. Qed.
Lemma rn_any {A} s (m : PF A) (P : A -> pf -> Prop) : runs s m P -> runs s m (fun _ _ => True).
Proof. intros Hm. by eapply rn_mono. Qed.
Lemma rn_get {B} s (f : pf -> PF B) Q : runs s (f s) Q -> runs s (get ≫= f) Q.
Proof. done. Qed.
Lemma rn_lift {A} s (m : M A) P (Q : A -> pf -> Prop) : good s -> keeps (core (hw s)) m P ->
  (forall a w, core (w_hw w) = core (hw s) -> P a -> Q a (put_pw w s)) -> runs s (lift m) Q.
Proof.
  intros Hg Hm HQ. pose proof (Hm (pw s) eq_refl) as H. unfold runs, wp, lift in *.
  destruct (m (pw s)) as [a w|]; [|done]. destruct H as [E HP].
  assert (iso vf s (put_pw w s)) as Hi by by apply iso_put_pw.
  split; [|split; [done|by apply HQ]]. eapply good_iso; [done| |done]. apply wf_put_pw; [apply Hg|done].
Qed.
Lemma rn_lift_any {A} s (m : M A) P : good s -> keeps (core (hw s)) m P -> runs s (lift m) (fun a _ => P a).
Proof. intros Hg Hm. by eapply rn_lift. Qed.
Lemma rn_read s r : good s -> runs s (RD r) (fun v _ => in_range 32 v).
Proof. intros. apply rn_lift_any; [done|apply kp_read]. Qed.
Lemma rn_write s r v : good s -> runs s (WR r v) (fun _ _ => True).
Proof. intros. apply (rn_lift_any _ _ (fun _ => True)); [done|apply kp_write]. Qed.
Lemma rn_flush s : good s -> runs s FLUSH (fun _ _ => True).
Proof.
  intros. apply (rn_lift_any _ _ (fun _ => True)); [done|]. unfold IXGBE_WRITE_FLUSH.
  eapply kp_bind; [apply kp_read|]. intros. by apply kp_ret.
Qed.
Lemma rn_nth {A} s (l : list A) i : good s -> 0 <= i < Z.of_nat (length l) ->
  runs s (nth_c l i) (fun x s' => s' = s /\ l !! Z.to_nat i = Some x).
Proof.
  intros Hg Hi. destruct (lookup_lt_is_Some_2 l (Z.to_nat i)) as [a Ha]; [lia|].
  eapply wp_nth_c; [lia|done|]. split; [done|]. split; [apply iso_refl|done].
Qed.
Lemma rn_upd {A} s (l : list A) i x : good s -> 0 <= i < Z.of_nat (length l) ->
  runs s (upd_c l i x) (fun l' s' => s' = s /\ l' = <[Z.to_nat i := x]> l).
Proof. intros Hg Hi. apply wp_upd_c; [done|]. split; [done|]. split; [apply iso_refl|done]. Qed.
Lemma rn_get_vf s v : good s -> 0 <= v < num_vfs s ->
  runs s (get_vf v) (fun x s' => s' = s /\ vf_at s v = Some x /\ vf_ok (pf_mac s) x).
Proof.
  intros Hg Hv. pose proof (gd_wf _ Hg) as Hw. destruct (vf_at_some _ _ Hw Hv) as [x Hx].
  pose proof (vf_at_ok _ _ _ Hw Hx) as Ho. unfold get_vf. apply rn_get.
  unfold vf_at in Hx. destruct (Z.ltb_spec v 0); [lia|].
  destruct (vfinfo s) as [l|] eqn:E; simpl in Hx; [|done].
  eapply wp_nth_c; [lia|done|]. split; [done|]. split; [apply iso_refl|]. split; [done|].
  unfold vf_at. destruct (Z.ltb_spec v 0); [lia|]. by rewrite E.
Qed.

(** [mod_vf] replaces one entry *)
Lemma wp_mod_vf s v x f (Q : unit -> pf -> Prop) : wf s -> 0 <= v < num_vfs s -> vf_at s v = Some x ->
  Q tt (set_vf v (f x) s) -> wp (mod_vf v f) Q s.
Proof.
  intros Hw Hv Hx HQ. destruct (wf_vfs _ Hw) as (l & E & Hl & _). unfold mod_vf. wp_step.
  unfold set_vf in HQ. unfold vf_at in Hx. destruct (Z.ltb_spec v 0); [lia|]. rewrite E in *. simpl in Hx.
  apply wp_get. rewrite E. wp_step. eapply wp_nth_c; [lia|done|]. wp_step.
  apply wp_upd_c; [lia|]. by apply wp_modify.
Qed.
Lemma rn_mod_vf s f : good s ->
  (forall x, vf_ok (pf_mac s) x -> vf_at s vf = Some x -> vf_ok (pf_mac s) (f x) /\ admin (f x) = admin x /\
    (restricted x -> vf_mac_addresses (f x) = vf_mac_addresses x \/
                     is_zero_ether_addr (vf_mac_addresses (f x)) = true)) ->
  runs s (mod_vf vf f) (fun _ s' => exists x, vf_at s vf = Some x /\ vf_at s' vf = Some (f x) /\
    s' = set_vf vf (f x) s).
Proof.
  intros Hg Hf. pose proof Hg as [Hw Hv]. destruct (vf_at_some _ _ Hw Hv) as [x Hx].
  destruct (Hf x (vf_at_ok _ _ _ Hw Hx) Hx) as (H1 & H2 & H3).
  eapply wp_mod_vf; [done|done|done|].
  assert (iso vf s (set_vf vf (f x) s)) as Hi by by apply (iso_set_vf vf x).
  split; [|split; [done|]].
  - eapply good_iso; [done|by apply wf_set_vf|done].
  - exists x. split; [done|]. split; [|done]. rewrite vf_at_set by done. by rewrite decide_True.
Qed.

(** loops: the body needs a good state only *)
Lemma rn_for_loop s n i (body : Z -> PF unit) : good s ->
  (forall k s', good s' -> iso vf s s' -> i <= k < i + Z.of_nat n -> runs s' (body k) (fun _ _ => True)) ->
  runs s (for_loop n i body) (fun _ _ => True).
Proof.
  intros Hg Hb. eapply wp_mono;
    [apply wp_for_loop with (Inv := fun _ s' => good s' /\ iso vf s s')|].
  - split; [done|apply iso_refl].
  - intros k s' Hk [Hg' Hi]. eapply wp_mono; [by apply Hb|]. intros [] s2 (? & ? & _).
    split; [done|]. by eapply iso_trans.
  - naive_solver.
Qed.
Lemma rn_for_acc {A} s n i (a : A) (body : Z -> A -> PF A) (Inv : A -> Prop) : good s -> Inv a ->
  (forall k b s', good s' -> iso vf s s' -> i <= k < i + Z.of_nat n -> Inv b ->
     runs s' (body k b) (fun b' _ => Inv b')) ->
  runs s (for_acc n i a body) (fun b _ => Inv b).
Proof.
  intros Hg H0 Hb. eapply wp_mono;
    [apply wp_for_acc with (Inv := fun _ b s' => good s' /\ iso vf s s' /\ Inv b)|].
  - split; [done|]. split; [apply iso_refl|done].
  - intros k b s' Hk (Hg' & Hi & HI). eapply wp_mono; [by apply Hb|]. intros b' s2 (? & ? & ?).
    split; [done|]. split; [|done]. by eapply iso_trans.
  - naive_solver.
Qed.
Lemma rn_for_break {A B} s n i (a : A) (body : Z -> A -> PF (A + B)) : good s ->
  (forall k b s', good s' -> iso vf s s' -> i <= k < i + Z.of_nat n -> runs s' (body k b) (fun _ _ => True)) ->
  runs s (for_break n i a body) (fun _ _ => True).
Proof.
  intros Hg Hb. apply wp_for_break with (Inv := fun _ _ s' => good s' /\ iso vf s s').
  - split; [done|apply iso_refl].
  - intros k b s' Hk [Hg' Hi]. eapply wp_mono; [by apply Hb|]. intros [] s2 (? & ? & _).
    + split; [done|]. by eapply iso_trans.
    + split; [done|]. split; [by eapply iso_trans|done].
  - naive_solver.
Qed.

(** what does not change along the way *)
Lemma iso_num s s' : iso vf s s' -> num_vfs s' = num_vfs s.
Proof. intros Hi. by pose proof (is_shared _ _ _ Hi) as [= _ _ E _]. Qed.
Lemma iso_ad s s' : iso vf s s' -> ad s' = ad s.
Proof. intros Hi. by pose proof (is_shared _ _ _ Hi) as [= E _]. Qed.
Lemma iso_netdev s s' : iso vf s s' -> netdev s' = netdev s.
Proof. intros Hi. by pose proof (is_shared _ _ _ Hi) as [= _ E _]. Qed.
Lemma iso_mac s s' : iso vf s s' -> pf_mac s' = pf_mac s.
Proof. intros Hi. unfold pf_mac. by rewrite (core_type _ _ (is_core _ _ _ Hi)). Qed.
Lemma iso_rars s s' : iso vf s s' -> num_rars s' = num_rars s.
Proof. intros Hi. unfold num_rars. by rewrite (core_rars _ _ (is_core _ _ _ Hi)). Qed.
Lemma good_pool s : good s -> pf_pool s = num_vfs s /\ 0 <= vf < pf_pool s /\ pf_pool s <= 63.
Proof.
  intros [Hw Hv]. unfold pf_pool, VMDQ_P. rewrite (wf_offset _ Hw). pose proof (wf_num _ Hw). lia.
Qed.
Lemma good_mac s : good s -> pf_mac s <> ixgbe_mac_unknown /\ pf_mac s <> ixgbe_mac_82598EB.
Proof. intros [Hw _]. exact (co_mac _ (wf_core _ Hw)). Qed.
End Runs.

#[global] Arguments runs : simpl never.
