(* ===== verification/SriovSafe.v ===== *)
(** * The PF serves a VF: no fault, invariant kept, isolation

    Every routine of Adapter.v and Sriov.v that a message or a reset of the VF
    [vf] can reach, run by the rules of SriovFrame.v. *)
From S2P Require Import Prelude Regs Types Osdep Trace Mbx MbxProps MbxSafe Filters.
From S2P Require Import Queues PfState Adapter X550 Sriov SriovCore SriovFrame.

Create HintDb runs.
#[export] Hint Resolve rn_read rn_write rn_flush : runs.

(** One step; side conditions about lists are left. *)
Ltac rn_step :=
  cbn beta iota zeta;
  first
    [ solve [eauto with runs]
    | solve [eapply rn_any; eauto with runs]
    | lazymatch goal with
      | |- runs _ _ (mret _) _ => apply rn_ret; [done|]
      | |- runs _ _ (mbind _ get) _ => apply rn_get
      | |- runs _ _ (mbind _ (RD _)) _ => eapply rn_bind; [by apply rn_read|intros ? ? ? ? ?]
      | |- runs _ _ (mbind _ (WR _ _)) _ => eapply rn_bind; [by apply rn_write|intros ? ? ? ? _]
      | |- runs _ _ (mbind _ FLUSH) _ => eapply rn_bind; [by apply rn_flush|intros ? ? ? ? _]
      | |- runs _ _ (mbind _ (nth_c _ _)) _ => eapply rn_bind; [apply rn_nth; [done|]|intros ? ? _ _ [-> ?]]
      | |- runs _ _ (mbind _ (upd_c _ _ _)) _ =>
          eapply rn_bind; [apply rn_upd; [done|]|intros ? ? _ _ [-> ?]]
      | |- runs _ _ (mbind _ (get_vf _)) _ =>
          eapply rn_bind; [apply rn_get_vf; [done|try by apply gd_vf]|intros ? ? _ _ (-> & ? & ?)]
      | |- runs _ _ (mbind _ _) _ =>
          eapply rn_bind with (P := fun _ _ => True);
            [try solve [eauto with runs | eapply rn_any; eauto with runs]|intros ? ? ? ? _]
      | |- runs _ _ (for_loop _ _ _) _ => apply rn_for_loop; [done|intros ? ? ? ? ?]
      | |- runs _ _ (if ?b then _ else _) _ => destruct b eqn:?
      | |- runs _ _ (match ?b with _ => _ end) _ => destruct b eqn:?
      end ].
Ltac rn_steps := repeat rn_step.

(** [has] of one bit of a state word *)
Lemma in_use_bit e : in_use e = Z.testbit (m_state e) 2.
Proof. unfold in_use. change IXGBE_MAC_STATE_IN_USE with (bit 2). by rewrite has_bit by lia. Qed.

Lemma view_synced e : view (set_state (Z.land (m_state e) (bnot 16 IXGBE_MAC_STATE_MODIFIED)) e) = view e.
Proof.
  unfold view. rewrite !in_use_bit. unfold set_state. cbn [m_state m_addr m_pool].
  rewrite Z.land_spec, testbit_bnot by lia.
  by replace ((2 <? 16) && negb (Z.testbit IXGBE_MAC_STATE_MODIFIED 2)) with true by done; rewrite andb_true_r.
Qed.
Lemma view_added a p x :
  view (mk_mac_addr a p (Z.lor x (Z.lor IXGBE_MAC_STATE_MODIFIED IXGBE_MAC_STATE_IN_USE))) = Some (a, p).
Proof.
  unfold view. rewrite in_use_bit. cbn [m_state m_addr m_pool]. rewrite !Z.lor_spec.
  by replace (Z.testbit IXGBE_MAC_STATE_IN_USE 2) with true by done; rewrite !orb_true_r.
Qed.
Lemma view_released e : view (set_state (release_state (m_state e)) e) = None.
Proof.
  unfold view. rewrite in_use_bit. unfold set_state, release_state. cbn [m_state].
  rewrite Z.land_spec, testbit_bnot by lia. by rewrite andb_false_r.
Qed.

Lemma u16_le63 x : 0 <= x <= 63 -> u16 x = x.
Proof. intros. apply trunc_small. unfold in_range. lia. Qed.

Section Safe.
Context `{D : Mmio} `{!PlainRegs D mpsar_regs}.
Context (vf : Z).
Implicit Types s : pf.
Abbreviation runs := (runs vf).
Abbreviation good := (good vf).
Abbreviation iso := (iso vf).

Lemma rn_for_break_inv {A B} s n i (a : A) (body : Z -> A -> PF (A + B)) (Inv : pf -> Prop) :
  good s -> Inv s ->
  (forall k b s', good s' -> iso s s' -> i <= k < i + Z.of_nat n -> Inv s' ->
     runs s' (body k b) (fun r s'' => match r with inl _ => Inv s'' | inr _ => True end)) ->
  runs s (for_break n i a body) (fun _ _ => True).
Proof.
  intros Hg H0 Hb. apply wp_for_break with (Inv := fun _ _ s' => good s' /\ iso s s' /\ Inv s').
  - split; [done|]. split; [apply iso_refl|done].
  - intros k b s' Hk (Hg' & Hi & HI). eapply wp_mono; [by apply Hb|]. intros [] s2 (? & ? & ?).
    + split; [done|]. split; [by eapply iso_trans|done].
    + split; [done|]. split; [by eapply iso_trans|done].
  - naive_solver.
Qed.

(** ** The table of receive addresses *)
Lemma rn_get_mac s i : good s -> 0 <= i < num_rars s ->
  runs s (get_mac i) (fun e s' => s' = s /\ mac_table s !! Z.to_nat i = Some e /\ length (m_addr e) = 6%nat).
Proof.
  intros Hg Hi. pose proof (gd_wf _ _ Hg) as Hw. pose proof (wf_table _ Hw) as Hl.
  destruct (lookup_lt_is_Some_2 (mac_table s) (Z.to_nat i)) as [e He]; [lia|].
  unfold get_mac. apply rn_get. eapply wp_nth_c; [lia|done|]. split; [done|]. split; [apply iso_refl|].
  split; [done|]. split; [done|]. exact (Forall_lookup_1 _ _ _ _ (wf_addrs _ Hw) He).
Qed.
Lemma rn_put_mac s i e e' : good s -> 0 <= i < num_rars s -> mac_table s !! Z.to_nat i = Some e ->
  allowed vf s (view e) (view e') -> length (m_addr e') = 6%nat ->
  runs s (put_mac i e') (fun _ _ => True).
Proof.
  intros Hg Hi He Ha Hl. pose proof (gd_wf _ _ Hg) as Hw. pose proof (wf_table _ Hw) as Ht.
  unfold put_mac. apply rn_get. unfold SriovFrame.runs. wp_step. apply wp_upd_c; [lia|]. apply wp_modify.
  assert (iso s (put_mac_table (<[Z.to_nat i := e']> (mac_table s)) s)) as Hs by by eapply iso_put_table.
  split; [|by split]. eapply good_iso; [done| |done]. apply wf_put_table; [done|by rewrite length_insert|].
  apply Forall_insert; [apply Hw|done].
Qed.

Lemma rn_write_rar s i : good s -> 0 <= i < num_rars s -> runs s (write_rar i) (fun _ _ => True).
Proof using All.
  intros Hg Hi. unfold write_rar. eapply rn_bind; [by apply rn_get_mac|]. intros e s1 Hg1 Hi1 (-> & He & Hl).
  eapply rn_bind.
  { eapply rn_put_mac; [done|done|exact He| |done]. rewrite view_synced. constructor. }
  intros [] s2 Hg2 Hi2 _. pose proof (wf_core _ (gd_wf _ _ Hg2)) as Hc.
  destruct (in_use e); (eapply rn_bind; [apply rn_lift_any with (P := fun _ => True); [done|]|]).
  - by apply kp_set_rar.
  - intros. by apply rn_ret.
  - apply kp_clear_rar; [done|lia].
  - intros. by apply rn_ret.
Qed.

Lemma rn_full_sync s : good s -> runs s ixgbe_full_sync_mac_table (fun _ _ => True).
Proof using All.
  intros Hg. unfold ixgbe_full_sync_mac_table. apply rn_get. apply rn_for_loop; [done|]. intros k s1 Hg1 Hi1 Hk.
  apply rn_write_rar; [done|]. rewrite (iso_rars _ _ _ Hi1). lia.
Qed.
Lemma rn_sync s : good s -> runs s ixgbe_sync_mac_table (fun _ _ => True).
Proof using All.
  intros Hg. unfold ixgbe_sync_mac_table. apply rn_get. apply rn_for_loop; [done|]. intros k s1 Hg1 Hi1 Hk.
  assert (0 <= k < num_rars s1) as Hk' by (rewrite (iso_rars _ _ _ Hi1); lia).
  eapply rn_bind; [by apply rn_get_mac|]. intros e s2 Hg2 _ (-> & _).
  rn_step; [by apply rn_ret|]. by apply rn_write_rar.
Qed.
Hint Resolve rn_full_sync rn_sync : runs.

(** who may add a filter: the PF, or the VF for an address it may have *)
Definition may s (a : list Z) (pool : Z) : Prop := pool = pf_pool s \/
  (pool = vf /\ forall v, vf_at s vf = Some v -> restricted v -> vf_mac_addresses v = a).

Lemma may_pool s a p : good s -> may s a p -> u16 p = p.
Proof using. intros Hg Hm. destruct (good_pool _ _ Hg) as (E & H1 & H2). apply u16_le63. destruct Hm as [->|[-> _]]; lia. Qed.

Lemma rn_add_mac_filter s a pool : good s -> may s a pool -> length a = 6%nat ->
  runs s (ixgbe_add_mac_filter a pool) (fun _ _ => True).
Proof using All.
  intros Hg Hm Hl. unfold ixgbe_add_mac_filter. destruct (is_zero_ether_addr a) eqn:Hz; [by apply rn_ret|].
  apply rn_get. eapply rn_bind; [|intros; by apply rn_ret].
  apply rn_for_break_inv with (Inv := fun s' => s' = s); [done|done|]. intros k _ s1 Hg1 Hi1 Hk ->.
  assert (0 <= k < num_rars s) as Hk' by lia.
  eapply rn_bind; [by apply rn_get_mac|]. intros e s2 _ _ (-> & He & _).
  destruct (in_use e) eqn:Hu; [by apply rn_ret|]. rewrite (may_pool s a pool) by done.
  eapply rn_bind with (P := fun _ _ => True).
  { eapply rn_put_mac; [done|done|exact He| |done]. rewrite view_added. unfold view. rewrite Hu.
    apply al_add. destruct Hm as [->|[-> Hm]]; [by left|]. right. split; [done|]. by split. }
  intros [] s3 Hg3 _ _. eapply rn_bind; [by apply rn_sync|]. intros [] s4 Hg4 _ _. by apply rn_ret.
Qed.

Lemma rn_del_mac_filter s a pool : good s -> pool = vf \/ pool = pf_pool s ->
  runs s (ixgbe_del_mac_filter a pool) (fun _ _ => True).
Proof using All.
  intros Hg Hp. unfold ixgbe_del_mac_filter. destruct (is_zero_ether_addr a) eqn:Hz; [by apply rn_ret|].
  assert (u16 pool = pool) as ->.
  { destruct (good_pool _ _ Hg) as (E & H1 & H2). apply u16_le63. destruct Hp as [->| ->]; lia. }
  apply rn_get. eapply rn_bind; [|intros; by apply rn_ret].
  apply rn_for_break_inv with (Inv := fun s' => s' = s); [done|done|]. intros k _ s1 Hg1 Hi1 Hk ->.
  assert (0 <= k < num_rars s) as Hk' by lia.
  eapply rn_bind; [by apply rn_get_mac|]. intros e s2 _ _ (-> & He & Hl).
  destruct (in_use e) eqn:Hu; cbn [negb]; [|by apply rn_ret].
  destruct (Z.eqb_spec (m_pool e) pool) as [Ep|]; cbn [negb]; [|by apply rn_ret].
  destruct (negb _); [by apply rn_ret|].
  eapply rn_bind with (P := fun _ _ => True).
  { eapply rn_put_mac; [done|done|exact He| |done]. rewrite view_released. unfold view. rewrite Hu, Ep.
    by apply al_del. }
  intros [] s3 Hg3 _ _. eapply rn_bind; [by apply rn_sync|]. intros [] s4 Hg4 _ _. by apply rn_ret.
Qed.

Lemma rn_run_uc t s : script_ok t -> good s -> runs s (run_uc t) (fun _ _ => True).
Proof using All.
  intros Ht. revert s. induction Ht as [r|a k Ha Hk IH|a k Ha Hk IH]; intros s Hg; cbn [run_uc].
  - by apply rn_ret.
  - eapply rn_bind with (P := fun _ _ => True); [|intros; by apply IH].
    unfold ixgbe_uc_sync. apply rn_get. eapply rn_bind; [apply rn_add_mac_filter; [done|by left|done]|].
    intros. by apply rn_ret.
  - eapply rn_bind with (P := fun _ _ => True); [|intros; by apply IH].
    unfold ixgbe_uc_unsync. apply rn_get. eapply rn_bind; [apply rn_del_mac_filter; [done|by right]|].
    intros. by apply rn_ret.
Qed.

(** ** Multicast list *)
Lemma core_shadow_len s : good s -> length (mta_shadow (mac (hw s))) = 128%nat.
Proof using. intros Hg. exact (co_mta _ (wf_core _ (gd_wf _ _ Hg))). Qed.

Lemma rn_set_shadow s l : good s -> length l = 128%nat ->
  runs s (lift (mod_mac (upd_mta_shadow l))) (fun _ _ => True).
Proof using.
  intros Hg Hl. apply (rn_lift_any _ _ _ (fun _ => True)); [done|]. apply kp_upd_hw. intros h Hh.
  apply core_set_shadow; [apply Hg|done|done].
Qed.
Lemma rn_mod_addr_ctrl s f : good s -> runs s (lift (mod_addr_ctrl f)) (fun _ _ => True).
Proof using. intros Hg. apply (rn_lift_any _ _ _ (fun _ => True)); [done|apply kp_mod_addr_ctrl]. Qed.
Hint Resolve rn_mod_addr_ctrl : runs.

Lemma land_7f x : 0 <= Z.land x 0x7F < 128.
Proof using. change 0x7F with (Z.ones 7). rewrite Z.land_ones by lia. apply Z.mod_pos_bound. lia. Qed.

Lemma rn_restore_vf_mta s j v : good s -> 0 <= j < 30 -> length (vf_mc_hashes v) = 30%nat ->
  runs s (restore_vf_mta j v) (fun _ _ => True).
Proof using.
  intros Hg Hj Hl. unfold restore_vf_mta. rn_step; [lia|]. do 2 rn_step.
  pose proof (core_shadow_len _ H0) as Hs. pose proof (land_7f (Z.shiftr a 5)) as Hb.
  rn_step; [lia|]. rn_step; [lia|]. subst. apply rn_set_shadow; [done|]. by rewrite length_insert.
Qed.

Lemma rn_clear_shadow s : good s ->
  runs s (lift (mod_mac (fun m => upd_mta_shadow (replicate (length (mta_shadow m)) 0) m))) (fun _ _ => True).
Proof using.
  intros Hg. apply (rn_lift_any _ _ _ (fun _ => True)); [done|]. apply kp_upd_hw. intros h Hh.
  rewrite <- Hh. unfold core. simpl. by rewrite length_replicate.
Qed.

Lemma rn_restore_vf_multicasts s : good s -> runs s ixgbe_restore_vf_multicasts (fun _ _ => True).
Proof using All.
  intros Hg. unfold ixgbe_restore_vf_multicasts.
  eapply rn_bind; [by apply rn_clear_shadow|]. intros [] s1 Hg1 _ _. apply rn_get.
  eapply rn_bind; [|intros; by apply rn_full_sync].
  apply rn_for_loop; [done|]. intros i s2 Hg2 Hi2 Hk. rn_step.
  rewrite <- (iso_num _ _ _ Hi2) in Hk.
  rn_step; [rewrite (iso_num _ _ _ H0); lia|].
  rn_step; [|rn_steps]. rn_step. pose proof (vo_num _ _ H3).
  apply rn_restore_vf_mta; [done|lia|by destruct H3].
Qed.
Hint Resolve rn_restore_vf_multicasts : runs.

Lemma rn_write_mc_addr_list s : good s -> runs s ixgbe_write_mc_addr_list (fun _ _ => True).
Proof using All.
  intros Hg. unfold ixgbe_write_mc_addr_list. rn_step. rn_step; [by apply rn_ret|].
  rn_step; [by apply rn_ret|]. rn_step. eapply rn_bind.
  { apply rn_lift_any with (P := fun _ => True); [done|]. apply kp_update_mc_list; [|done|].
    - apply H.
    - apply (wf_mc _ (gd_wf _ _ Hg)). }
  intros. by apply rn_ret.
Qed.
Hint Resolve rn_write_mc_addr_list : runs.

(** ** VLANs *)
Lemma rn_set_vfta s vid pool on bypass : good s -> runs s (set_vfta vid pool on bypass) (fun _ _ => True).
Proof using.
  intros Hg. apply (rn_lift_any _ _ _ (fun _ => True)); [done|]. apply kp_set_vfta.
  apply (wf_core _ (gd_wf _ _ Hg)).
Qed.
Lemma rn_test_vlan s vid : good s -> 0 <= vid < 4096 -> runs s (test_vlan vid) (fun _ s' => s' = s).
Proof using.
  intros Hg Hv. pose proof (wf_vlans _ (gd_wf _ _ Hg)). unfold test_vlan. rn_step.
  rn_step; [zlia|]. by apply rn_ret.
Qed.
Lemma rn_find_vlvf_down vlan n s : good s -> runs s (find_vlvf_down vlan n) (fun _ _ => True).
Proof using. revert s. induction n as [|n IH]; intros s Hg; cbn [find_vlvf_down]; rn_steps; auto. Qed.
Lemma rn_find_vlvf_entry vlan s : good s -> runs s (ixgbe_find_vlvf_entry vlan) (fun _ _ => True).
Proof using.
  intros Hg. unfold ixgbe_find_vlvf_entry. destruct (vlan =? 0); [by apply rn_ret|]. by apply rn_find_vlvf_down.
Qed.
Hint Resolve rn_set_vfta rn_find_vlvf_entry : runs.
Lemma rn_update_pf_promisc_vlvf vid s : good s -> runs s (ixgbe_update_pf_promisc_vlvf vid) (fun _ _ => True).
Proof using. intros Hg. unfold ixgbe_update_pf_promisc_vlvf. rn_steps; done. Qed.
Hint Resolve rn_update_pf_promisc_vlvf : runs.

Lemma rn_set_vf_vlan s add vid v : good s -> 0 <= vid < 4096 ->
  runs s (ixgbe_set_vf_vlan add vid v) (fun _ _ => True).
Proof using.
  intros Hg Hv. unfold ixgbe_set_vf_vlan. rn_step. eapply rn_bind with (P := fun _ _ => True).
  { destruct add; [|by apply rn_ret]. eapply rn_bind; [by apply rn_test_vlan|]. intros b s1 Hg1 _ ->.
    destruct b; rn_steps; done. }
  intros err s1 Hg1 _ _. rn_step; [by apply rn_ret|]. rn_step. rn_step; [by apply rn_ret|].
  eapply rn_bind; [by apply rn_test_vlan|]. intros b s3 Hg3 _ ->. rn_steps; done.
Qed.

Lemma rn_strip_ring f i s : good s -> 0 <= i < num_rx_queues (conf (ad s)) ->
  runs s (strip_ring f i) (fun _ _ => True).
Proof using.
  intros Hg Hi. destruct (wf_rings _ (gd_wf _ _ Hg) i Hi) as [r Hr]. unfold strip_ring. rn_step.
  rn_step; [apply lookup_lt_Some in Hr; lia|]. rewrite Hr in H. injection H as <-. rn_steps; done.
Qed.
Lemma rn_strip_rings f s : good s ->
  runs s (for_loop (Z.to_nat (num_rx_queues (conf (ad s)))) 0 (strip_ring f)) (fun _ _ => True).
Proof using.
  intros Hg. apply rn_for_loop; [done|]. intros i s1 Hg1 Hi1 Hk. apply rn_strip_ring; [done|].
  rewrite (iso_ad _ _ _ Hi1). lia.
Qed.
Hint Resolve rn_strip_rings : runs.
Lemma rn_vlan_strip s : good s ->
  runs s ixgbe_vlan_strip_enable (fun _ _ => True) /\ runs s ixgbe_vlan_strip_disable (fun _ _ => True).
Proof using.
  intros Hg. unfold ixgbe_vlan_strip_enable, ixgbe_vlan_strip_disable.
  split; rn_steps; done.
Qed.

Lemma rn_put_vlan_promisc b s : good s -> runs s (modify (put_vlan_promisc b)) (fun _ _ => True).
Proof using.
  intros [Hw Hv]. apply wp_modify. split; [split; [|done]; by destruct Hw|]. split; [|done].
  split; [done|done|done|eauto|eauto|auto|auto].
Qed.
Hint Resolve rn_put_vlan_promisc : runs.

Lemma rn_promisc_enable s : good s -> runs s ixgbe_vlan_promisc_enable (fun _ _ => True).
Proof using. intros Hg. unfold ixgbe_vlan_promisc_enable. rn_steps; done. Qed.

Lemma land_vid x : 0 <= Z.land x VLAN_VID_MASK < 4096.
Proof using. change VLAN_VID_MASK with (Z.ones 12). rewrite Z.land_ones by lia. apply Z.mod_pos_bound. lia. Qed.

Lemma rn_scrub_entry s v i l : good s -> length l = 8%nat ->
  runs s (scrub_entry v (v + VFTA_BLOCK_SIZE * 32) i l) (fun l' _ => length l' = 8%nat).
Proof using.
  intros Hg Hl. unfold scrub_entry. rn_step. rn_step. pose proof (land_vid a) as Hv.
  destruct (_ || _) eqn:E; [by apply rn_ret|]. apply orb_false_iff in E as [E1 E2].
  apply Z.ltb_ge in E1. apply Z.leb_gt in E2. unfold VFTA_BLOCK_SIZE in E2.
  eapply rn_bind with (P := fun r _ => length r.1 = 8%nat).
  { destruct (negb _); [|by apply rn_ret]. rn_step; [zlia|]. rn_step; [zlia|].
    eapply rn_bind; [by apply rn_test_vlan|]. intros b s1 Hg1 _ ->. apply rn_ret; [done|].
    subst. simpl. by rewrite length_insert. }
  intros [l' b] s1 Hg1 _ Hl'. simpl in Hl'. rn_steps; done.
Qed.
Lemma rn_scrub_vfta s o : good s -> 0 <= o <= 120 -> runs s (ixgbe_scrub_vfta o) (fun _ _ => True).
Proof using.
  intros Hg Ho. unfold ixgbe_scrub_vfta. eapply rn_bind.
  { apply rn_for_acc with (Inv := fun l => length l = 8%nat); [done|done|]. intros k l s1 Hg1 _ _ Hl.
    by apply rn_scrub_entry. }
  intros l s1 Hg1 _ Hl. simpl in Hl. apply rn_for_loop; [done|]. intros k s2 Hg2 _ Hk.
  pose proof (wf_vlans _ (gd_wf _ _ Hg2)). unfold VFTA_BLOCK_SIZE in *. rn_step.
  rn_step; [zlia|]. rn_step; [lia|]. by apply rn_write.
Qed.
Lemma rn_promisc_disable s : good s -> runs s ixgbe_vlan_promisc_disable (fun _ _ => True).
Proof using.
  intros Hg. pose proof (co_vft _ (wf_core _ (gd_wf _ _ Hg))) as Hf.
  unfold ixgbe_vlan_promisc_disable. do 6 (rn_step; try done; try by apply rn_ret).
  apply rn_for_loop; [done|]. intros k s1 Hg1 _ Hk. apply rn_scrub_vfta; [done|].
  unfold VFTA_BLOCK_SIZE in *. change (vft_size (mac (hw s))) with (vft_size (core_mac (core (hw s)))) in Hk.
  zlia.
Qed.
Hint Resolve rn_promisc_enable rn_promisc_disable : runs.

Section RxMode.
Context (dev_uc_sync : pf -> uc_script) (Hsync : forall s, script_ok (dev_uc_sync s)).

Lemma rn_set_rx_mode s : good s -> runs s (ixgbe_set_rx_mode dev_uc_sync) (fun _ _ => True).
Proof using All.
  intros Hg. unfold ixgbe_set_rx_mode. do 4 rn_step.
  eapply rn_bind with (P := fun _ _ => True); [by apply rn_run_uc|]. intros err s1 Hg1 _ _.
  do 2 rn_step; [rn_steps; done|].
  rn_step. destruct (f_vlan_ctag_rx _).
  - eapply rn_bind; [by apply rn_vlan_strip|]. intros. rn_steps.
  - eapply rn_bind; [by apply rn_vlan_strip|]. intros. rn_steps.
Qed.
End RxMode.
End Safe.

#[export] Hint Resolve rn_mod_addr_ctrl rn_set_vfta rn_find_vlvf_entry rn_update_pf_promisc_vlvf : runs.
