(* ===== verification/SriovMsg.v ===== *)
(** * The PF serves a VF: macvlan filters, reset and messages

    Continues SriovSafe.v up to [serve_vf], one turn of the loop of
    [ixgbe_msg_task]: whatever the VF [vf] wrote into its mailbox, the PF ends
    without a fault, keeps its invariant, and leaves the other VFs alone. *)
From S2P Require Import Prelude Regs Types Osdep Trace Mbx MbxProps MbxSafe Filters.
From S2P Require Import Queues PfState Adapter X550 Sriov SriovCore SriovFrame SriovSafe.

(** ** What a routine does not change *)
Section ObsKept.
Context `{D : Mmio} {X : Type} (f : pf -> X).

Definition obs_kept {A} (m : PF A) : Prop := forall s a s', m s = Done a s' -> f s' = f s.

Lemma ok_ret {A} (a : A) : obs_kept (mret a).
Proof using. by intros s b s' [= _ ->]. Qed.
Lemma ok_get : obs_kept get.
Proof using. by intros s b s' [= _ ->]. Qed.
Lemma ok_crash {A} e : obs_kept (crash e : PF A).
Proof using. by intros s b s'. Qed.
Lemma ok_bind {A B} (m : PF A) (g : A -> PF B) :
  obs_kept m -> (forall a, obs_kept (g a)) -> obs_kept (m ≫= g).
Proof using.
  intros Hm Hg s b s'. unfold mbind, comp_bind. destruct (m s) as [a s1|] eqn:E; [|done].
  intros E'. rewrite (Hg _ _ _ _ E'). by eapply Hm.
Qed.
Lemma ok_modify g : (forall s, f (g s) = f s) -> obs_kept (modify g).
Proof using. intros Hf s b s' [= _ <-]. apply Hf. Qed.
Lemma ok_lift {A} (m : M A) : (forall w s, f (put_pw w s) = f s) -> obs_kept (lift m).
Proof using. intros Hf s a s'. unfold lift. destruct (m (pw s)); [|done]. intros [= _ <-]. apply Hf. Qed.
Lemma ok_nth {A} (l : list A) i : obs_kept (nth_c l i).
Proof using. intros s b s'. unfold nth_c. destruct (i <? 0); [done|]. destruct (l !! _); by intros [= _ <-]. Qed.
Lemma ok_upd {A} (l : list A) i x : obs_kept (upd_c l i x).
Proof using. intros s b s'. unfold upd_c. destruct (_ || _); by intros [= _ <-]. Qed.
Lemma ok_for_loop n i (body : Z -> PF unit) : (forall k, obs_kept (body k)) -> obs_kept (for_loop n i body).
Proof using.
  intros Hb. revert i. induction n as [|n IH]; intros i; [apply ok_ret|].
  apply ok_bind; [apply Hb|]. intros _. apply IH.
Qed.
Lemma ok_for_acc {A} n i (a : A) (body : Z -> A -> PF A) :
  (forall k b, obs_kept (body k b)) -> obs_kept (for_acc n i a body).
Proof using.
  intros Hb. revert i a. induction n as [|n IH]; intros i a; [apply ok_ret|].
  apply ok_bind; [apply Hb|]. intros b. apply IH.
Qed.
Lemma ok_for_break {A B} n i (a : A) (body : Z -> A -> PF (A + B)) :
  (forall k b, obs_kept (body k b)) -> obs_kept (for_break n i a body).
Proof using.
  intros Hb. revert i a. induction n as [|n IH]; intros i a; [apply ok_ret|].
  apply ok_bind; [apply Hb|]. intros [b|b]; [apply IH|apply ok_ret].
Qed.
End ObsKept.

Create HintDb obs_kept.
#[export] Hint Resolve ok_ret ok_get ok_nth ok_upd ok_crash : obs_kept.
Ltac obs_kept_steps :=
  repeat first
    [ progress cbn beta iota zeta
    | solve [eauto with obs_kept]
    | lazymatch goal with
      | |- obs_kept _ (mbind _ _) => apply ok_bind; [|intros ?]
      | |- obs_kept _ (modify _) => by apply ok_modify
      | |- obs_kept _ (lift _) => by apply ok_lift
      | |- obs_kept _ (for_loop _ _ _) => apply ok_for_loop; intros ?
      | |- obs_kept _ (for_acc _ _ _ _) => apply ok_for_acc; intros ? ?
      | |- obs_kept _ (for_break _ _ _ _) => apply ok_for_break; intros ? ?
      | |- obs_kept _ (if ?b then _ else _) => destruct b
      | |- obs_kept _ (match ?b with _ => _ end) => destruct b
      end ].

Section Filters.
Context `{D : Mmio} {X : Type} (f : pf -> X).
Context (Hw : forall w s, f (put_pw w s) = f s) (Ht : forall l s, f (put_mac_table l s) = f s).

Lemma ok_sync : obs_kept f ixgbe_sync_mac_table.
Proof using All.
  unfold ixgbe_sync_mac_table, write_rar, get_mac, put_mac. obs_kept_steps.
Qed.
Lemma ok_add_mac_filter a p : obs_kept f (ixgbe_add_mac_filter a p).
Proof using All.
  unfold ixgbe_add_mac_filter, get_mac, put_mac. obs_kept_steps; by apply ok_sync.
Qed.
Lemma ok_del_mac_filter a p : obs_kept f (ixgbe_del_mac_filter a p).
Proof using All.
  unfold ixgbe_del_mac_filter, get_mac, put_mac. obs_kept_steps; by apply ok_sync.
Qed.
End Filters.

Section Msg.
Context `{D : Mmio} `{!PlainRegs D mpsar_regs}.
Context (vf : Z).
Implicit Types s : pf.
Abbreviation runs := (runs vf).
Abbreviation good := (good vf).
Abbreviation iso := (iso vf).

Lemma rn_kept {A X} (f : pf -> X) s (m : PF A) P : runs s m P -> obs_kept f m ->
  runs s m (fun a s' => P a s' /\ f s' = f s).
Proof using.
  intros Hm Hk. unfold SriovFrame.runs, wp in *. specialize (Hk s).
  destruct (m s) as [a s'|]; [|done]. naive_solver.
Qed.

(** a change of the VF's own data *)
Lemma rn_set s f : good s ->
  (forall x, vf_ok (pf_mac s) x -> vf_ok (pf_mac s) (f x)) ->
  (forall x, admin (f x) = admin x) -> (forall x, vf_mac_addresses (f x) = vf_mac_addresses x) ->
  runs s (mod_vf vf f) (fun _ _ => True).
Proof using.
  intros Hg H1 H2 H3. eapply rn_any. apply rn_mod_vf; [done|]. intros x Hx _.
  split; [by apply H1|]. split; [done|]. left. apply H3.
Qed.

Lemma iso_unrestricted s s' v : good s -> iso s s' -> vf_at s vf = Some v -> ~ restricted v ->
  forall a, may vf s' a vf.
Proof using.
  intros Hg Hi Hv Hr a. right. split; [done|]. intros v' Hv' Hr'.
  destruct (is_own _ _ _ Hi v Hv) as (v2 & E2 & A2 & _). rewrite Hv' in E2. injection E2 as <-.
  by apply (admin_restricted _ _ A2) in Hr'.
Qed.

(** ** Macvlan filters *)
Lemma rn_get_mvs s : good s -> runs s get_mvs (fun l s' => s' = s /\ vf_mvs s = Some l /\
  Forall (fun e => length (mv_addr e) = 6%nat) l).
Proof using.
  intros Hg. destruct (wf_mvs _ (gd_wf _ _ Hg)) as (l & E & Hl). unfold get_mvs. apply rn_get.
  rewrite E. by apply rn_ret.
Qed.
Lemma rn_put_mv s j e l e0 : good s -> vf_mvs s = Some l -> l !! j = Some e0 ->
  mv_free e0 = true \/ mv_vf e0 = vf -> length (mv_addr e) = 6%nat ->
  runs s (put_mv (Z.of_nat j) e) (fun _ _ => True).
Proof using.
  intros Hg El Ej He Ha. pose proof Hg as [Hw Hv]. destruct (wf_mvs _ Hw) as (l' & E' & Hl).
  rewrite El in E'. injection E' as <-.
  unfold put_mv. eapply rn_bind; [by apply rn_get_mvs|]. intros l1 s1 _ _ (-> & E1 & _).
  rewrite El in E1. injection E1 as <-. pose proof (lookup_lt_Some _ _ _ Ej) as Hj.
  rn_step; [lia|]. subst. rewrite Nat2Z.id. apply wp_modify.
  assert (iso s (put_vf_mvs (Some (<[j:=e]> l)) s)) as Hi.
  { split; [done|done|done|eauto| |auto|auto]. intros l2 E2. rewrite El in E2. injection E2 as <-.
    eexists. split; [done|]. split; [by rewrite length_insert|]. intros i e' Hi Hf Hne.
    destruct (decide (i = j)) as [->|Hij]; [|by rewrite list_lookup_insert_ne].
    rewrite Ej in Hi. injection Hi as <-. destruct He; congruence. }
  split; [|by split]. eapply good_iso; [done| |done]. destruct Hw. split; try done.
  eexists. split; [done|]. by apply Forall_insert.
Qed.

Lemma rn_release_macvlans s : good s -> runs s (release_macvlans vf) (fun _ _ => True).
Proof using All.
  intros Hg. unfold release_macvlans. eapply rn_bind; [by apply rn_get_mvs|].
  intros l s1 _ _ (-> & El & _). apply rn_for_loop; [done|]. intros j s1 Hg1 Hi1 Hj.
  destruct (is_mvs _ _ _ Hi1 l El) as (l1 & E1 & L1 & _).
  eapply rn_bind; [by apply rn_get_mvs|]. intros l2 s2 _ _ (-> & E2 & Ha).
  rewrite E1 in E2. injection E2 as <-. rn_step; [lia|].
  destruct (Z.eqb_spec (mv_vf a) vf) as [Ev|]; [|by apply rn_ret].
  eapply rn_bind with (P := fun _ _ => True).
  { rewrite <- (Z2Nat.id j) by lia. eapply rn_put_mv; [done|done|done|by right|].
    exact (Forall_lookup_1 _ _ _ _ Ha H). }
  intros [] s2 Hg2 _ _. eapply rn_bind; [apply rn_del_mac_filter; [done|by left]|]. intros. by apply rn_ret.
Qed.

Lemma rn_set_vf_macvlan s index a : good s ->
  (index <> 0 -> length a = 6%nat /\ forall v, vf_at s vf = Some v -> ~ restricted v) ->
  runs s (ixgbe_set_vf_macvlan vf index a) (fun _ _ => True).
Proof using All.
  intros Hg Ha. unfold ixgbe_set_vf_macvlan. eapply rn_bind with (P := fun _ _ => True).
  { destruct (index <=? 1); [by apply rn_release_macvlans|by apply rn_ret]. }
  intros [] s1 Hg1 Hi1 _. destruct (Z.eqb_spec index 0) as [|Hn]; [by apply rn_ret|].
  destruct (Ha Hn) as [Hl Hr]. destruct (vf_at_some _ _ (gd_wf _ _ Hg) (gd_vf _ _ Hg)) as [v Hv].
  eapply rn_bind; [by apply rn_get_mvs|]. intros l s2 _ _ (-> & El & Hml).
  destruct (list_find _ l) as [[j e]|] eqn:Ef; [|by apply rn_ret].
  apply list_find_Some in Ef as (Ej & Efree & _).
  eapply rn_bind.
  { apply (rn_kept vf_mvs); [apply rn_add_mac_filter; [done| |done]|by apply ok_add_mac_filter].
    by apply (iso_unrestricted s s1 v); auto. }
  intros r s3 Hg3 _ [_ Ek]. destruct (r <? 0); [by apply rn_ret|].
  eapply rn_bind; [|intros; by apply rn_ret]. eapply rn_put_mv; [done|by rewrite Ek|done|by left|done].
Qed.

Lemma rn_set_vf_mac s a : good s -> may vf s a vf -> length a = 6%nat ->
  runs s (ixgbe_set_vf_mac vf a) (fun _ _ => True).
Proof using All.
  intros Hg Hm Hl. unfold ixgbe_set_vf_mac. rn_step.
  eapply rn_bind.
  { apply (rn_kept vfinfo); [apply rn_del_mac_filter; [done|by left]|by apply ok_del_mac_filter]. }
  intros r s1 Hg1 _ [_ E1]. assert (Hat : forall u, vf_at s1 u = vf_at s u) by (intros; unfold vf_at; by rewrite E1).
  eapply rn_bind.
  { apply (rn_kept vfinfo); [apply rn_add_mac_filter; [done| |done]|by apply ok_add_mac_filter].
    destruct Hm as [Hp|[_ Hm]]; [destruct (good_pool _ _ Hg); lia|]. right. by setoid_rewrite Hat. }
  intros r' s2 Hg2 _ [_ E2]. assert (Hat' : forall u, vf_at s2 u = vf_at s u) by (intros; unfold vf_at; by rewrite E2, E1).
  eapply rn_bind with (P := fun _ _ => True); [|intros; by apply rn_ret].
  eapply rn_any. apply rn_mod_vf; [done|]. intros x Hx Hxv. rewrite Hat' in Hxv.
  split; [|split; [done|]].
  - destruct Hx. split; try done. simpl. by destruct (0 <=? r').
  - intros Hr. simpl. destruct (0 <=? r'); [|by right]. left.
    destruct Hm as [Hp|[_ Hm]]; [destruct (good_pool _ _ Hg); lia|]. symmetry. by apply Hm.
Qed.

(** ** Reset of the VF *)
Hint Resolve rn_write_mc_addr_list rn_set_rx_mode : runs.

Lemma rn_clear_vf_vlans s : good s -> runs s (ixgbe_clear_vf_vlans vf) (fun _ _ => True).
Proof using.
  intros Hg. unfold ixgbe_clear_vf_vlans. apply rn_for_loop; [done|]. intros k s1 Hg1 _ _.
  unfold clear_vf_vlan_entry. rn_step. destruct (good_pool _ _ Hg1) as (_ & Hp0 & Hp1). unfold pf_pool in *.
  assert (VMDQ_P 0 s1 / 32 = 0 \/ VMDQ_P 0 s1 / 32 = 1) as Hp by zlia.
  rn_step. rn_step; [by apply rn_ret|]. rn_step.
  assert (Hb : forall (b : bool) (x y : Z), length (if b then [x; y] else [y; x]) = 2%nat) by by intros [].
  rn_step; [rewrite Hb; by destruct Hp as [-> | ->]|].
  rn_step; [rewrite Hb; by destruct Hp as [-> | ->]|].
  rn_steps; done.
Qed.

Lemma rn_write_qde s q : good s -> runs s (ixgbe_write_qde vf q) (fun _ _ => True).
Proof using. intros Hg. unfold ixgbe_write_qde. rn_steps; done. Qed.
Lemma rn_reset_vf_queues s : good s -> runs s (reset_vf_queues vf) (fun _ _ => True).
Proof using.
  intros Hg. unfold reset_vf_queues, IXGBE_WRITE_REG_ARRAY. rn_steps; done.
Qed.
Lemma rn_set_vf_rx_tx s v : good s -> 0 <= v < num_vfs s -> runs s (ixgbe_set_vf_rx_tx v) (fun _ _ => True).
Proof using.
  intros Hg Hv. unfold ixgbe_set_vf_rx_tx. do 3 rn_step. rn_step.
  { by rewrite (iso_num _ _ _ H3), (iso_num _ _ _ H0). }
  rn_steps; done.
Qed.
Lemma rn_set_vmolr s v b : good s -> runs s (ixgbe_set_vmolr v b) (fun _ _ => True).
Proof using. intros Hg. unfold ixgbe_set_vmolr. rn_steps; done. Qed.
Hint Resolve rn_clear_vf_vlans rn_write_qde rn_reset_vf_queues rn_set_vmolr : runs.

Lemma rn_write_mbx s msg size : good s -> 0 < size <= Z.of_nat (length msg) ->
  runs s (write_mbx msg size vf) (fun _ _ => True).
Proof using.
  intros Hg Hs. destruct (good_pool _ _ Hg) as (_ & H1 & H2).
  apply (rn_lift_any _ _ _ (fun _ => True)); [done|]. apply kp_write_mbx; [apply Hg|lia|done].
Qed.

Lemma rn_set_hashes_0 s : good s -> runs s (mod_vf vf (put_num_vf_mc_hashes 0)) (fun _ _ => True).
Proof using. intros Hg. apply rn_set; [done| |done|done]. intros x []. by split. Qed.
Lemma rn_set_api s n : good s -> runs s (mod_vf vf (put_vf_api n)) (fun _ _ => True).
Proof using. intros Hg. apply rn_set; [done| |done|done]. intros x []. by split. Qed.
Lemma rn_set_cts s b : good s -> runs s (mod_vf vf (put_clear_to_send b)) (fun _ _ => True).
Proof using. intros Hg. apply rn_set; [done| |done|done]. intros x []. by split. Qed.
Lemma rn_set_xcast s n : good s -> runs s (mod_vf vf (put_xcast_mode n)) (fun _ _ => True).
Proof using. intros Hg. apply rn_set; [done| |done|done]. intros x []. by split. Qed.
Hint Resolve rn_set_hashes_0 rn_set_api rn_set_cts rn_set_xcast : runs.

Section Reset.
Context (dev_uc_sync : pf -> uc_script) (Hsync : forall s, script_ok (dev_uc_sync s)).

Lemma rn_vf_reset_event s : good s -> runs s (ixgbe_vf_reset_event dev_uc_sync vf) (fun _ _ => True).
Proof using All.
  intros Hg. unfold ixgbe_vf_reset_event, ixgbe_clear_vmvir, ixgbe_set_vmvir. do 2 rn_step.
  rn_step. eapply rn_bind with (P := fun _ _ => True).
  { apply rn_set_vf_vlan; [done|]. by destruct H2. }
  intros _ s1 Hg1 _ _. do 2 rn_step; [rn_steps; done|]. do 2 rn_step. rn_step.
  eapply rn_bind; [apply rn_del_mac_filter; [done|by left]|]. intros _ s2 Hg2 _ _.
  eapply rn_bind; [by apply rn_set_vf_macvlan|]. intros _ s3 Hg3 _ _. rn_steps; done.
Qed.

Lemma rn_mac_words s l : good s -> length l = 6%nat -> runs s (mac_words l) (fun _ s' => s' = s).
Proof using.
  intros Hg Hl. unfold mac_words. do 6 (rn_step; [lia|]). by apply rn_ret.
Qed.

Lemma rn_vf_reset_msg s : good s -> runs s (ixgbe_vf_reset_msg dev_uc_sync vf) (fun _ _ => True).
Proof using All.
  intros Hg. unfold ixgbe_vf_reset_msg. rn_step.
  eapply rn_bind; [by apply rn_vf_reset_event|]. intros [] s1 Hg1 _ _. rn_step.
  eapply rn_bind with (P := fun _ _ => True).
  { destruct (negb _); [|by apply rn_ret]. eapply rn_bind; [|intros; by apply rn_ret].
    apply rn_set_vf_mac; [done| |by destruct H0]. right. split; [done|]. intros v Hv _. congruence. }
  intros [] s2 Hg2 _ _. rn_step. rn_step.
  eapply rn_bind; [apply rn_set_vf_rx_tx; [done|apply H3]|]. intros [] s3 Hg3 _ _.
  do 3 rn_step. rn_step; [rn_steps; done|]. rn_step.
  eapply rn_bind with (P := fun m _ => length m = 3%nat).
  { destruct (_ && _); [|by apply rn_ret]. eapply rn_bind; [apply rn_mac_words; [done|by apply H15]|].
    intros w s4 Hg4 _ ->. by apply rn_ret. }
  intros m s4 Hg4 _ Hm. simpl in Hm. rn_step. eapply rn_bind; [|intros; by apply rn_ret].
  apply rn_write_mbx; [done|]. rewrite length_app, Hm. done.
Qed.
End Reset.

(** ** Messages *)
Section Handlers.
Context (msgbuf : list Z) (Hmsg : length msgbuf = 16%nat).

(** the buffer of an answer has the length of the message *)
Definition answered (r : Z * list Z) (s : pf) : Prop := length r.2 = 16%nat.

Lemma rn_msg_mac s : good s -> runs s (msg_mac msgbuf) (fun a s' => s' = s /\ length a = 6%nat).
Proof using All. intros Hg. unfold msg_mac. do 2 (rn_step; [lia|]). by apply rn_ret. Qed.

Lemma rn_set_vf_mac_addr s : good s -> runs s (ixgbe_set_vf_mac_addr msgbuf vf) (fun _ _ => True).
Proof using All.
  intros Hg. unfold ixgbe_set_vf_mac_addr. eapply rn_bind; [by apply rn_msg_mac|].
  intros a s1 _ _ [-> Ha]. destruct (negb _); [by apply rn_ret|]. rn_step.
  destruct (_ && _) eqn:E; [by apply rn_ret|]. eapply rn_bind; [|intros; by apply rn_ret].
  apply rn_set_vf_mac; [done| |done]. right. split; [done|]. intros v Hv [R1 R2].
  rewrite Hv in H. injection H as <-. rewrite R1, R2 in E. simpl in E.
  apply negb_false_iff, bool_decide_eq_true in E. done.
Qed.

Lemma msg_info_pos x : 0 <= msg_info x.
Proof using. unfold msg_info. apply Z.shiftr_nonneg, Z.land_nonneg. by right. Qed.

Lemma rn_msg_hash s i : good s -> 0 <= i < 30 -> runs s (msg_hash msgbuf i) (fun _ s' => s' = s).
Proof using All. intros Hg Hi. unfold msg_hash. rn_step; [zlia|]. by apply rn_ret. Qed.

Lemma rn_set_vf_multicasts s : good s -> runs s (ixgbe_set_vf_multicasts msgbuf vf) (fun _ _ => True).
Proof using All.
  intros Hg. unfold ixgbe_set_vf_multicasts. rn_step; [lia|]. rn_step. pose proof (msg_info_pos a) as Hn.
  assert (0 <= Z.min (msg_info a) IXGBE_MAX_VF_MC_ENTRIES <= 30) as He by (change IXGBE_MAX_VF_MC_ENTRIES with 30; lia).
  eapply rn_bind with (P := fun _ _ => True).
  { apply rn_set; [done| |done|done]. intros x []. by split. }
  intros [] s1 Hg1 _ _. eapply rn_bind with (P := fun _ _ => True).
  { apply rn_for_loop; [done|]. intros i s2 Hg2 _ Hi.
    eapply rn_bind; [apply rn_msg_hash; [done|lia]|]. intros x s3 _ _ ->.
    rn_step. rn_step; [destruct H4; lia|]. subst.
    apply rn_set; [done| |done|done]. intros y []. destruct H4. split; try done. simpl. by rewrite length_insert. }
  intros [] s2 Hg2 _ _. rn_steps; done.
Qed.

Lemma rn_set_vf_vlan_msg s : good s -> runs s (ixgbe_set_vf_vlan_msg msgbuf vf) (fun _ _ => True).
Proof using All.
  intros Hg. unfold ixgbe_set_vf_vlan_msg. do 2 (rn_step; [lia|]). do 2 rn_step.
  destruct (_ || _); [by apply rn_ret|]. destruct (_ && _); [by apply rn_ret|].
  apply rn_set_vf_vlan; [done|]. apply land_vid.
Qed.

Lemma rn_anti_spoofing s m : good s -> keeps (core (hw s)) m (fun _ => True) ->
  runs s (anti_spoofing m) (fun _ _ => True).
Proof using.
  intros Hg Hm. destruct (good_mac _ _ Hg) as [H1 H2]. unfold anti_spoofing. rn_step.
  enough (runs s (lift m) (fun _ _ => True)) by (destruct (pf_mac s); done).
  by apply (rn_lift_any _ _ _ (fun _ => True)).
Qed.

Lemma rn_set_vf_macvlan_msg s : good s -> runs s (ixgbe_set_vf_macvlan_msg msgbuf vf) (fun _ _ => True).
Proof using All.
  intros Hg. unfold ixgbe_set_vf_macvlan_msg. rn_step; [lia|].
  eapply rn_bind; [by apply rn_msg_mac|]. intros m s1 _ _ [-> Hm]. rn_step.
  rn_step; [by apply rn_ret|]. rename Heqb into E. rn_step; [by apply rn_ret|].
  eapply rn_bind with (P := fun _ _ => True).
  { rn_step; [|by apply rn_ret].
    eapply rn_bind; [apply rn_anti_spoofing; [done|apply kp_anti_spoofing]|]. intros [] s1 Hg1 _ _.
    apply rn_anti_spoofing; [done|apply kp_anti_spoofing]. }
  intros [] s1 Hg1 Hi1 _. eapply rn_bind; [|intros; by apply rn_ret].
  apply rn_set_vf_macvlan; [done|]. intros Hn. split; [done|]. intros v Hv Hr.
  destruct (is_own _ _ _ Hi1 a0 H0) as (v' & E' & A' & _). rewrite Hv in E'. injection E' as <-.
  apply (admin_restricted _ _ A') in Hr as [R1 R2]. rewrite R1, R2 in E. simpl in E.
  apply Z.ltb_ge in E. pose proof (msg_info_pos a). lia.
Qed.

Lemma rn_set_vf_lpe s n : good s -> runs s (ixgbe_set_vf_lpe n vf) (fun _ _ => True).
Proof using.
  intros Hg. unfold ixgbe_set_vf_lpe. rn_step. eapply rn_bind with (P := fun _ _ => True).
  { rn_steps; done. }
  intros b s1 Hg1 _ _. rn_steps; done.
Qed.

Lemma rn_negotiate_vf_api s : good s -> runs s (ixgbe_negotiate_vf_api msgbuf vf) (fun _ _ => True).
Proof using All. intros Hg. unfold ixgbe_negotiate_vf_api. rn_step; [lia|]. rn_steps; done. Qed.

Lemma rn_answer s i x n : good s -> 0 <= i < 16 ->
  runs s (m ← upd_c msgbuf i x; mret (n, m)) answered.
Proof using All.
  intros Hg Hi. rn_step; [lia|]. apply rn_ret; [done|]. subst. unfold answered. simpl. by rewrite length_insert.
Qed.

Lemma rn_get_vf_queues s : good s -> runs s (ixgbe_get_vf_queues msgbuf vf) answered.
Proof using All.
  intros Hg. pose proof (wf_prio _ (gd_wf _ _ Hg)) as Hp. unfold ixgbe_get_vf_queues. do 2 rn_step.
  rn_step; [by apply rn_ret|].
  assert (0 <= Z.land (default_up s) 15 < 16).
  { change 15 with (Z.ones 4). rewrite Z.land_ones by lia. apply Z.mod_pos_bound. lia. }
  change IXGBE_VF_TX_QUEUES with 1. change IXGBE_VF_RX_QUEUES with 2. change IXGBE_VF_TRANS_VLAN with 3.
  change IXGBE_VF_DEF_QUEUE with 4.
  rn_step; [lia|]. subst. rn_step; [rewrite length_insert; lia|]. subst.
  eapply rn_bind with (P := fun _ _ => True).
  { destruct (1 <? _); [|by apply rn_ret]. eapply rn_any. apply rn_nth; [done|]. lia. }
  intros tc s1 Hg1 _ _. rn_step; [rewrite !length_insert; lia|]. rn_step; [subst; rewrite !length_insert; lia|].
  apply rn_ret; [done|]. subst. unfold answered. simpl. by rewrite !length_insert.
Qed.

Lemma rn_get_vf_reta s : good s -> runs s (ixgbe_get_vf_reta msgbuf vf) answered.
Proof using All.
  intros Hg. pose proof (wf_reta _ (gd_wf _ _ Hg)) as Hr. unfold ixgbe_get_vf_reta. do 2 rn_step.
  destruct (rss_query_enabled a) eqn:E; [|by apply rn_ret]. simpl. destruct (negb _); [by apply rn_ret|].
  assert (ixgbe_rss_indir_tbl_entries s = 128) as ->.
  { pose proof (vo_rss _ _ H0 E). unfold ixgbe_rss_indir_tbl_entries, is_x550.
    by replace (_ <=? _) with false by (symmetry; apply Z.leb_gt; lia). }
  eapply rn_bind with (P := fun m _ => length m = 16%nat); [|intros m s1 Hg1 _ Hm; by apply rn_ret].
  apply rn_for_acc with (Inv := fun m => length m = 16%nat); [done|done|].
  intros i m s1 Hg1 _ Hi Hm. change (Z.of_nat (Z.to_nat (128 / 16))) with 8 in Hi.
  eapply rn_bind with (P := fun _ _ => True).
  { eapply rn_any. apply rn_for_acc with (Inv := fun _ => True); [done|done|]. intros j x s2 Hg2 _ Hj _.
    change (Z.of_nat 16) with 16 in Hj. rn_step; [lia|]. by apply rn_ret. }
  intros x s2 Hg2 _ _. eapply rn_mono; [apply rn_upd; [done|lia]|]. intros l' s3 _ _ [_ ->].
  by rewrite length_insert.
Qed.

Lemma rn_get_vf_rss_key s : good s -> runs s (ixgbe_get_vf_rss_key msgbuf vf) answered.
Proof using All.
  intros Hg. pose proof (wf_key _ (gd_wf _ _ Hg)) as Hr. unfold ixgbe_get_vf_rss_key. do 2 rn_step.
  rn_step; [by apply rn_ret|]. rn_step; [by apply rn_ret|].
  eapply rn_bind with (P := fun m _ => length m = 16%nat); [|intros m s1 Hg1 _ Hm; by apply rn_ret].
  apply rn_for_acc with (Inv := fun m => length m = 16%nat); [done|done|].
  intros i m s1 Hg1 _ Hi Hm. change (Z.of_nat (Z.to_nat (IXGBE_RSS_KEY_SIZE / 4))) with 10 in Hi.
  rn_step; [lia|]. eapply rn_mono; [apply rn_upd; [done|lia]|]. intros l' s3 _ _ [_ ->].
  by rewrite length_insert.
Qed.

Lemma rn_update_vf_xcast_mode s : good s -> runs s (ixgbe_update_vf_xcast_mode msgbuf vf) answered.
Proof using All.
  intros Hg. unfold ixgbe_update_vf_xcast_mode. rn_step. rn_step; [lia|]. rn_step.
  rn_step; [by apply rn_ret|]. rn_step; [by apply rn_answer|].
  destruct (xcast_bits _) as [[off on]|]; [|by apply rn_ret].
  eapply rn_bind with (P := fun _ _ => True); [rn_steps; done|]. intros err s1 Hg1 _ _.
  rn_step; [by apply rn_ret|]. do 3 rn_step. by apply rn_answer.
Qed.

Lemma rn_get_link s : good s -> runs s (ixgbe_get_vf_link_state msgbuf vf) answered /\
  runs s (ixgbe_get_vf_link_status msgbuf vf) answered /\
  runs s (ixgbe_negotiate_vf_features msgbuf vf) answered.
Proof using All.
  intros Hg. unfold ixgbe_get_vf_link_state, ixgbe_get_vf_link_status, ixgbe_negotiate_vf_features.
  split; [|split].
  - rn_step. rn_step; [by apply rn_ret|by apply rn_answer].
  - do 2 rn_step. rn_step; [by apply rn_ret|]. rn_step; [lia|].
    rn_step; [subst; rewrite length_insert; lia|].
    apply rn_ret; [done|]. subst. unfold answered. simpl. by rewrite !length_insert.
  - rn_step; [lia|]. rn_step. rn_step; [by apply rn_ret|by apply rn_answer].
Qed.

Lemma rn_vf_request s : good s ->
  runs s (vf_request msgbuf vf) (fun r s' => if r is Some a then answered a s' else True).
Proof using All.
  intros Hg. unfold vf_request. rn_step; [lia|].
  assert (Hplain : forall s' (m : PF Z), runs s' m (fun _ _ => True) ->
    runs s' (r ← m; mret (Some (r, msgbuf))) (fun r s'' => if r is Some a then answered a s'' else True)).
  { intros s' m Hm. eapply rn_bind; [done|]. intros. by apply rn_ret. }
  assert (Hans : forall m : PF (Z * list Z), runs s m answered ->
    runs s (r ← m; mret (Some r)) (fun r s'' => if r is Some a then answered a s'' else True)).
  { intros m Hm. eapply rn_bind; [done|]. intros. by apply rn_ret. }
  repeat match goal with |- SriovFrame.runs _ _ (if ?b then _ else _) _ => destruct b end;
    try (apply Hplain || apply Hans; first
      [ by apply rn_set_vf_mac_addr | by apply rn_set_vf_multicasts | by apply rn_set_vf_vlan_msg
      | by apply rn_set_vf_macvlan_msg | by apply rn_negotiate_vf_api | by apply rn_get_vf_queues
      | by apply rn_get_vf_reta | by apply rn_get_vf_rss_key | by apply rn_update_vf_xcast_mode
      | by apply rn_get_link ]).
  - rn_step; [lia|]. rn_step; [by apply rn_ret|]. by apply Hplain, rn_set_vf_lpe.
  - by apply rn_ret.
Qed.

Lemma rn_serve_request s : good s -> runs s (serve_request msgbuf vf) (fun _ _ => True).
Proof using All.
  intros Hg. unfold serve_request. eapply rn_bind; [by apply rn_vf_request|].
  intros [[r m]|] s1 Hg1 _ Hm; [|by apply rn_ret]. unfold answered in Hm. simpl in Hm.
  rn_step; [lia|]. rn_step; [lia|]. eapply rn_bind; [|intros; by apply rn_ret].
  apply rn_write_mbx; [done|]. subst. rewrite length_insert, Hm. done.
Qed.
End Handlers.

Section Serve.
Context (dev_uc_sync : pf -> uc_script) (Hsync : forall s, script_ok (dev_uc_sync s)).

Lemma rn_rcv_msg s : good s -> runs s (ixgbe_rcv_msg_from_vf dev_uc_sync vf) (fun _ _ => True).
Proof using All.
  intros Hg. destruct (good_pool _ _ Hg) as (_ & H1 & H2). unfold ixgbe_rcv_msg_from_vf.
  eapply rn_bind.
  { apply rn_lift_any; [done|]. apply kp_read_mbx; [apply Hg|lia|done]. }
  intros [ret m] s1 Hg1 _ Hm. cbn beta in Hm. change (length m = 16%nat) in Hm. rn_step; [by apply rn_ret|].
  rn_step; [lia|]. rn_step; [by apply rn_ret|]. rn_step. rn_step; [by apply rn_vf_reset_msg|].
  rn_step. rn_step; [|by apply rn_serve_request]. rn_step; [lia|].
  eapply rn_bind; [|intros; by apply rn_ret]. apply rn_write_mbx; [done|]. subst. rewrite length_insert, Hm. done.
Qed.

Lemma rn_rcv_ack s : good s -> runs s (ixgbe_rcv_ack_from_vf vf) (fun _ _ => True).
Proof using.
  intros Hg. unfold ixgbe_rcv_ack_from_vf. rn_step. rn_step; [|by apply rn_ret].
  eapply rn_bind; [|intros; by apply rn_ret]. by apply rn_write_mbx.
Qed.

Lemma rn_serve_vf s : good s -> runs s (serve_vf dev_uc_sync vf) (fun _ _ => True).
Proof using All.
  intros Hg. unfold serve_vf.
  assert (Hid : forall s', good s' -> 0 <= vf < 64).
  { intros s' Hg'. destruct (good_pool _ _ Hg') as (_ & ? & ?). lia. }
  eapply rn_bind; [apply rn_lift_any with (P := fun _ => True); [done|]|].
  { apply kp_check_for_rst; [apply Hg|by eapply Hid]. }
  intros r s1 Hg1 _ _. eapply rn_bind with (P := fun _ _ => True).
  { destruct (r =? 0); [by apply rn_vf_reset_event|by apply rn_ret]. }
  intros [] s2 Hg2 _ _. eapply rn_bind; [apply rn_lift_any with (P := fun _ => True); [done|]|].
  { apply kp_check_for_msg; [apply Hg2|by eapply Hid]. }
  intros r2 s3 Hg3 _ _. eapply rn_bind with (P := fun _ _ => True).
  { destruct (r2 =? 0); [|by apply rn_ret]. eapply rn_bind; [by apply rn_rcv_msg|]. intros. by apply rn_ret. }
  intros [] s4 Hg4 _ _. eapply rn_bind; [apply rn_lift_any with (P := fun _ => True); [done|]|].
  { apply kp_check_for_ack; [apply Hg4|by eapply Hid]. }
  intros r5 s5 Hg5 _ _. destruct (r5 =? 0); [by apply rn_rcv_ack|by apply rn_ret].
Qed.
End Serve.
End Msg.
