(* ===== verification/SriovAdmin.v ===== *)
(** * The administrator and the whole PF: no fault, invariant kept

    The operations that change what the administrator sets are not isolated from
    the VF they are for, but they keep the invariant of SriovFrame.v.  [stays]:
    from [s], the computation ends without a fault in a well-formed state with
    as many VFs.  [pf_event] lists what can happen to a PF with SR-IOV on. *)
From S2P Require Import Prelude Regs Types Osdep Trace Mbx MbxProps MbxSafe Filters.
From S2P Require Import Queues PfState Adapter X550 Sriov SriovCore SriovFrame SriovSafe SriovMsg.

Section Stays.
Context `{D : Mmio}.
Implicit Types s : pf.

Record same_cfg s s' : Prop := {
  sc_num : num_vfs s' = num_vfs s;
  sc_mdd : mdd_enabled s' = mdd_enabled s;
  sc_core : core (hw s') = core (hw s);
}.
#[export] Instance same_cfg_preorder : PreOrder same_cfg.
Proof. split; [done|]. intros s1 s2 s3 [] []. split; congruence. Qed.

Lemma iso_cfg vf s s' : iso vf s s' -> same_cfg s s'.
Proof. intros Hi. pose proof (is_shared _ _ _ Hi) as [=]. split; [done|done|apply Hi]. Qed.

Definition stays {A} s (m : PF A) (Q : A -> pf -> Prop) : Prop :=
  wp m (fun a s' => wf s' /\ same_cfg s s' /\ Q a s') s.

Lemma st_ret {A} s (a : A) (Q : A -> pf -> Prop) : wf s -> Q a s -> stays s (mret a) Q.
Proof. intros. by apply wp_ret. Qed.
Lemma st_bind {A B} s (m : PF A) (f : A -> PF B) P (Q : B -> pf -> Prop) :
  stays s m P -> (forall a s', wf s' -> same_cfg s s' -> P a s' -> stays s' (f a) Q) -> stays s (m ≫= f) Q.
Proof.
  intros Hm Hf. apply wp_bind. eapply wp_mono; [exact Hm|]. intros a s' (Hw & Hs & HP).
  eapply wp_mono; [by apply Hf|]. intros b s2 (Hw2 & Hs2 & HQ). split; [done|]. split; [by etrans|done].
Qed.
Lemma st_get {B} s (f : pf -> PF B) Q : stays s (f s) Q -> stays s (get ≫= f) Q.
Proof. done. Qed.
Lemma st_runs {A} vf s (m : PF A) Q : wf s -> 0 <= vf < num_vfs s ->
  (good vf s -> runs vf s m Q) -> stays s m Q.
Proof.
  intros Hw Hv Hm. eapply wp_mono; [by apply Hm|]. intros a s' (Hg & Hi & HQ).
  split; [apply Hg|]. split; [by eapply iso_cfg|done].
Qed.
Lemma st_get_vf s v : wf s -> 0 <= v < num_vfs s ->
  stays s (get_vf v) (fun x s' => s' = s /\ vf_at s v = Some x /\ vf_ok (pf_mac s) x).
Proof. intros Hw Hv. apply (st_runs v); [done|done|]. intros Hg. by apply rn_get_vf. Qed.
Lemma st_mod_vf s v f : wf s -> 0 <= v < num_vfs s ->
  (forall x, vf_ok (pf_mac s) x -> vf_ok (pf_mac s) (f x)) -> stays s (mod_vf v f) (fun _ _ => True).
Proof.
  intros Hw Hv Hf. destruct (vf_at_some _ _ Hw Hv) as [x Hx].
  eapply wp_mod_vf; [done|done|done|]. split; [|by split].
  apply wf_set_vf; [done|done|]. apply Hf. by eapply vf_at_ok.
Qed.
Lemma st_modify s f : wf (f s) -> same_cfg s (f s) -> stays s (modify f) (fun _ _ => True).
Proof. intros. by apply wp_modify. Qed.
Lemma st_for_loop s n i (body : Z -> PF unit) : wf s ->
  (forall k s', wf s' -> same_cfg s s' -> i <= k < i + Z.of_nat n -> stays s' (body k) (fun _ _ => True)) ->
  stays s (for_loop n i body) (fun _ _ => True).
Proof.
  intros Hw Hb. eapply wp_mono; [apply wp_for_loop with (Inv := fun _ s' => wf s' /\ same_cfg s s')|].
  - done.
  - intros k s' Hk [Hw' Hs]. eapply wp_mono; [by apply Hb|]. intros [] s2 (? & ? & _).
    split; [done|by etrans].
  - naive_solver.
Qed.
Lemma st_mono {A} s (m : PF A) (P Q : A -> pf -> Prop) :
  stays s m P -> (forall a s', P a s' -> Q a s') -> stays s m Q.
Proof. intros Hm HQ. eapply wp_mono; [exact Hm|]. naive_solver. Qed.
Lemma st_write s r v : wf s -> stays s (WR r v) (fun _ _ => True).
Proof. intros Hw. pose proof (wf_num _ Hw). apply (st_runs 0); [done|lia|]. apply rn_write. Qed.
Lemma st_read s r : wf s -> stays s (RD r) (fun _ _ => True).
Proof. intros Hw. pose proof (wf_num _ Hw). apply (st_runs 0); [done|lia|]. intros Hg. eapply rn_any. by apply rn_read. Qed.
End Stays.

Ltac st_step :=
  cbn beta iota zeta;
  lazymatch goal with
  | |- stays _ (mret _) _ => apply st_ret; [done|]
  | |- stays _ (mbind _ get) _ => apply st_get
  | |- stays _ (mbind _ (get_vf _)) _ =>
      eapply st_bind; [apply st_get_vf; [done|]|intros ? ? _ _ (-> & ? & ?)]
  | |- stays _ (mbind _ (mod_vf _ _)) _ =>
      eapply st_bind; [apply st_mod_vf; [done| |intros ? []; by split]|intros ? ? ? ? _]
  | |- stays _ (mod_vf _ _) _ => apply st_mod_vf; [done| |intros ? []; by split]
  | |- stays _ (mbind _ _) _ => eapply st_bind with (P := fun _ _ => True); [|intros ? ? ? ? _]
  | |- stays _ (WR _ _) _ => by apply st_write
  | |- stays _ (RD _) _ => by apply st_read
  | |- stays _ (for_loop _ _ _) _ => apply st_for_loop; [done|intros ? ? ? ? ?]
  | |- stays _ (if ?b then _ else _) _ => destruct b eqn:?
  | |- stays _ (match ?b with _ => _ end) _ => destruct b eqn:?
  end.

Section Admin.
Context `{D : Mmio} `{!PlainRegs D mpsar_regs}.
Implicit Types s : pf.

Lemma bad_vf_false v s : bad_vf v s = false -> 0 <= v < num_vfs s.
Proof using. unfold bad_vf. intros [H1 H2]%orb_false_iff. lia. Qed.

Ltac bad := let E := fresh "Hbad" in
  destruct (bad_vf _ _) eqn:E; [by apply st_ret|]; apply bad_vf_false in E.
Ltac num := first [done|
  match goal with H : same_cfg _ ?s' |- context [num_vfs ?s'] => rewrite (sc_num _ _ H); clear H end; num].

Lemma st_ping_vf s v : wf s -> 0 <= v < num_vfs s -> stays s (ixgbe_ping_vf v) (fun _ _ => True).
Proof using.
  intros Hw Hv. apply (st_runs v); [done|done|]. intros Hg. unfold ixgbe_ping_vf. rn_step.
  eapply rn_bind; [|intros; by apply rn_ret]. by apply rn_write_mbx.
Qed.

Lemma st_ndo_set_vf_trust s v b : wf s -> stays s (ixgbe_ndo_set_vf_trust v b) (fun _ _ => True).
Proof using.
  intros Hw. unfold ixgbe_ndo_set_vf_trust. st_step. bad. do 2 (st_step; [done|]).
  st_step; [done|]. st_step; [num|]. st_step; [|by st_step]. apply st_ping_vf; [done|num].
Qed.

(** a filter for any address; the administrator is not bound by [permitted] *)
Lemma st_put_mac s i e : wf s -> 0 <= i < num_rars s -> length (m_addr e) = 6%nat ->
  stays s (put_mac i e) (fun _ _ => True).
Proof using.
  intros Hw Hi He. pose proof (wf_table _ Hw) as Ht. unfold put_mac. apply st_get. unfold stays. wp_step.
  apply wp_upd_c; [lia|]. apply wp_modify. split; [|by split].
  apply wf_put_table; [done|by rewrite length_insert|]. apply Forall_insert; [apply Hw|done].
Qed.
Lemma st_sync s : wf s -> stays s ixgbe_sync_mac_table (fun _ _ => True).
Proof using All. intros Hw. pose proof (wf_num _ Hw). apply (st_runs 0); [done|lia|]. by apply rn_sync. Qed.
Lemma st_get_mac s i : wf s -> 0 <= i < num_rars s -> stays s (get_mac i) (fun e s' => s' = s).
Proof using.
  intros Hw Hi. pose proof (wf_num _ Hw). apply (st_runs 0); [done|lia|]. intros Hg.
  eapply rn_mono; [by apply rn_get_mac|]. naive_solver.
Qed.
Lemma cfg_rars s s' : same_cfg s s' -> num_rars s' = num_rars s.
Proof using. intros Hc. unfold num_rars. by rewrite (core_rars _ _ (sc_core _ _ Hc)). Qed.

Lemma st_add_mac_filter s a p : wf s -> length a = 6%nat ->
  stays s (ixgbe_add_mac_filter a p) (fun _ _ => True).
Proof using All.
  intros Hw Hl. unfold ixgbe_add_mac_filter. destruct (is_zero_ether_addr a); [by apply st_ret|].
  st_step. st_step; [|by st_step].
  apply wp_for_break with (Inv := fun _ _ s' => wf s' /\ same_cfg s s'); [done| |naive_solver].
  intros i [] s1 Hi [Hw1 Hc1]. assert (0 <= i < num_rars s1) by (rewrite (cfg_rars _ _ Hc1); lia).
  eapply wp_mono with (P := fun r s' => wf s' /\ same_cfg s1 s' /\ True);
    [|intros [] s2 (? & ? & _); split; [done|by etrans|done|split; [by etrans|done]]].
  change (stays s1 (e ← get_mac i; if in_use e then mret (inl tt) else
     put_mac i (mk_mac_addr a (u16 p)
       (Z.lor (m_state e) (Z.lor IXGBE_MAC_STATE_MODIFIED IXGBE_MAC_STATE_IN_USE))) ;;
     ixgbe_sync_mac_table ;; mret (inr i)) (fun _ _ => True)).
  eapply st_bind; [by apply st_get_mac|]. intros e s2 _ _ ->. st_step; [by st_step|].
  st_step; [by apply st_put_mac|]. st_step; [by apply st_sync|]. by st_step.
Qed.
Lemma st_del_mac_filter s a v : wf s -> 0 <= v < num_vfs s ->
  stays s (ixgbe_del_mac_filter a v) (fun _ _ => True).
Proof using All.
  intros Hw Hv. apply (st_runs v); [done|done|]. intros Hg. apply rn_del_mac_filter; [done|by left].
Qed.

Lemma st_set_vf_mac s v a : wf s -> 0 <= v < num_vfs s -> length a = 6%nat ->
  stays s (ixgbe_set_vf_mac v a) (fun _ _ => True).
Proof using All.
  intros Hw Hv Hl. unfold ixgbe_set_vf_mac. st_step; [done|].
  st_step; [by apply st_del_mac_filter|]. st_step; [by apply st_add_mac_filter|].
  eapply st_bind; [apply st_mod_vf; [done|num|]|intros; by st_step].
  intros x []. split; try done. simpl. by destruct (0 <=? _).
Qed.

Lemma st_ndo_set_vf_mac s v a : wf s -> length a = 6%nat ->
  stays s (ixgbe_ndo_set_vf_mac v a) (fun _ _ => True).
Proof using All.
  intros Hw Hl. unfold ixgbe_ndo_set_vf_mac. st_step. bad. st_step.
  - st_step; [by apply st_set_vf_mac|]. st_step; [|by st_step]. st_step; [|by st_step]. st_step. num.
  - st_step; [|by st_step]. st_step; [done|]. st_step; [by st_step|].
    st_step; [by apply st_del_mac_filter|]. st_step; [|by st_step]. st_step; [|by st_step].
    st_step; [num|]. apply st_mod_vf; [done|num|]. intros x []. by split.
Qed.

Lemma st_set_vf_vlan s b vid v : wf s -> 0 <= v < num_vfs s -> 0 <= vid < 4096 ->
  stays s (ixgbe_set_vf_vlan b vid v) (fun _ _ => True).
Proof using. intros Hw Hv Hd. apply (st_runs v); [done|done|]. intros Hg. by apply rn_set_vf_vlan. Qed.
Lemma st_write_qde s v q : wf s -> 0 <= v < num_vfs s -> stays s (ixgbe_write_qde v q) (fun _ _ => True).
Proof using. intros Hw Hv. apply (st_runs v); [done|done|]. intros Hg. by apply rn_write_qde. Qed.
Lemma st_set_vmolr s v b : wf s -> stays s (ixgbe_set_vmolr v b) (fun _ _ => True).
Proof using. intros Hw. unfold ixgbe_set_vmolr. do 2 st_step; by st_step. Qed.

Lemma st_enable_port_vlan s v vlan qos : wf s -> 0 <= v < num_vfs s -> 0 <= vlan < 4096 ->
  stays s (ixgbe_enable_port_vlan v vlan qos) (fun _ _ => True).
Proof using.
  intros Hw Hv Hd. unfold ixgbe_enable_port_vlan, ixgbe_set_vmvir. st_step; [by apply st_set_vf_vlan|].
  st_step; [by st_step|]. st_step; [by apply st_set_vf_vlan; [done|num|]|]. st_step; [by st_step|].
  st_step; [by apply st_set_vmolr|]. st_step. st_step.
  { st_step; [|by st_step]. apply st_write_qde; [done|num]. }
  eapply st_bind; [apply st_mod_vf; [done|num|]|].
  { intros x []. by split. }
  intros [] s2 Hw2 Hc2 _. st_step; [num|by st_step].
Qed.
Lemma st_disable_port_vlan s v : wf s -> 0 <= v < num_vfs s ->
  stays s (ixgbe_disable_port_vlan v) (fun _ _ => True).
Proof using.
  intros Hw Hv. unfold ixgbe_disable_port_vlan, ixgbe_clear_vmvir. st_step; [done|].
  st_step; [apply st_set_vf_vlan; [done|done|by destruct H0]|].
  st_step; [by apply st_set_vf_vlan; [done|num|]|]. st_step; [by st_step|].
  st_step; [by apply st_set_vmolr|]. st_step. st_step.
  { st_step; [|by st_step]. apply st_write_qde; [done|num]. }
  st_step; [num|]. st_step; [num|by st_step].
Qed.
Lemma st_ndo_set_vf_vlan s v vlan qos p : wf s -> 0 <= vlan ->
  stays s (ixgbe_ndo_set_vf_vlan v vlan qos p) (fun _ _ => True).
Proof using.
  intros Hw Hd. unfold ixgbe_ndo_set_vf_vlan. st_step.
  destruct (bad_vf v s) eqn:Hb; [by apply st_ret|]. apply bad_vf_false in Hb. simpl.
  destruct (Z.ltb_spec (VLAN_VID_MASK - 1) vlan) as [|Hv]; [by apply st_ret|].
  unfold VLAN_VID_MASK in Hv. st_step; [by st_step|]. st_step; [by st_step|].
  st_step; [|by apply st_disable_port_vlan]. st_step; [done|]. st_step.
  { st_step; [by apply st_disable_port_vlan|by st_step]. }
  st_step; [by st_step|]. apply st_enable_port_vlan; [done|num|lia].
Qed.

Lemma st_set_vf_rate_limit s v : wf s -> 0 <= v < num_vfs s ->
  stays s (ixgbe_set_vf_rate_limit v) (fun _ _ => True).
Proof using.
  intros Hw Hv. unfold ixgbe_set_vf_rate_limit. st_step; [done|]. st_step. st_step.
  { destruct (pf_mac s); (by st_step) || by apply st_write. }
  st_step. st_step; by st_step.
Qed.
Lemma st_put_rate s n : wf s -> stays s (modify (put_vf_rate_link_speed n)) (fun _ _ => True).
Proof using. intros Hw. apply st_modify; [by destruct Hw|done]. Qed.
Lemma st_check_vf_rate_limit s : wf s -> stays s ixgbe_check_vf_rate_limit (fun _ _ => True).
Proof using.
  intros Hw. unfold ixgbe_check_vf_rate_limit. st_step. st_step; [by st_step|].
  st_step; [st_step; [by apply st_put_rate|by st_step]|]. st_step. st_step.
  assert (0 <= k < num_vfs s'0) by (rewrite (sc_num _ _ H2), (sc_num _ _ H0); lia).
  st_step; [st_step; by st_step|]. apply st_set_vf_rate_limit; [done|num].
Qed.
Lemma st_ndo_set_vf_bw s v n : wf s -> stays s (ixgbe_ndo_set_vf_bw v n) (fun _ _ => True).
Proof using.
  intros Hw. unfold ixgbe_ndo_set_vf_bw. st_step. bad. do 3 (st_step; [by st_step|]).
  st_step; [by apply st_put_rate|]. st_step; [num|].
  st_step; [apply st_set_vf_rate_limit; [done|num]|by st_step].
Qed.

Lemma st_lift s (m : M unit) : wf s -> keeps (core (hw s)) m (fun _ => True) -> stays s (lift m) (fun _ _ => True).
Proof using.
  intros Hw Hm. pose proof (wf_num _ Hw). apply (st_runs 0); [done|lia|]. intros Hg.
  by apply (rn_lift_any _ _ _ (fun _ => True)).
Qed.
Lemma st_anti_spoofing s m : wf s -> keeps (core (hw s)) m (fun _ => True) ->
  stays s (anti_spoofing m) (fun _ _ => True).
Proof using.
  intros Hw Hm. pose proof (wf_num _ Hw). apply (st_runs 0); [done|lia|]. intros Hg.
  by apply rn_anti_spoofing.
Qed.
Lemma st_ndo_set_vf_spoofchk s v b : wf s -> stays s (ixgbe_ndo_set_vf_spoofchk v b) (fun _ _ => True).
Proof using.
  intros Hw. unfold ixgbe_ndo_set_vf_spoofchk. st_step. bad. st_step; [done|].
  do 2 (st_step; [apply st_anti_spoofing; [done|apply kp_anti_spoofing]|]). st_step; [|by st_step].
  st_step; [|by st_step]. do 2 (st_step; [by st_step|]). apply st_lift; [done|apply kp_anti_spoofing].
Qed.

Lemma st_set_vf_link_state s v n : wf s -> 0 <= v < num_vfs s ->
  stays s (ixgbe_set_vf_link_state v n) (fun _ _ => True).
Proof using.
  intros Hw Hv. unfold ixgbe_set_vf_link_state. st_step; [done|]. st_step. st_step.
  { repeat (st_step; [st_step; num|]). by st_step. }
  st_step.
  { assert (0 <= v < num_vfs s'0) by num. apply (st_runs v); [done|done|]. intros Hg. by apply rn_set_vf_rx_tx. }
  st_step; [num|]. apply st_ping_vf; [done|num].
Qed.
Lemma st_set_all_vfs s : wf s -> stays s ixgbe_set_all_vfs (fun _ _ => True).
Proof using.
  intros Hw. unfold ixgbe_set_all_vfs. st_step. st_step.
  assert (0 <= k < num_vfs s') by (rewrite (sc_num _ _ H0); lia). st_step; [done|].
  by apply st_set_vf_link_state.
Qed.
Lemma st_ndo_set_vf_link_state s v n : wf s -> stays s (ixgbe_ndo_set_vf_link_state v n) (fun _ _ => True).
Proof using.
  intros Hw. unfold ixgbe_ndo_set_vf_link_state. st_step. bad. st_step; [by st_step|].
  st_step; [|by st_step]. st_step; [by apply st_set_vf_link_state|by st_step].
Qed.
Lemma st_ndo_set_vf_rss_query_en s v b : wf s -> stays s (ixgbe_ndo_set_vf_rss_query_en v b) (fun _ _ => True).
Proof using.
  intros Hw. unfold ixgbe_ndo_set_vf_rss_query_en. st_step.
  destruct (_ <? _); [by apply st_ret|]. simpl. destruct (is_x550 s) eqn:Ex; [by apply st_ret|]. bad.
  eapply st_bind; [apply st_mod_vf; [done|done|]|intros; by st_step].
  intros x []. split; try done. intros _. by apply Z.leb_gt in Ex.
Qed.
Lemma st_ping_all_vfs s : wf s -> stays s ixgbe_ping_all_vfs (fun _ _ => True).
Proof using.
  intros Hw. unfold ixgbe_ping_all_vfs. st_step. st_step. apply st_ping_vf; [done|].
  rewrite (sc_num _ _ H0). lia.
Qed.

(** ** The VLANs of the PF *)
Lemma st_set_vfta s vid p on b : wf s -> stays s (set_vfta vid p on b) (fun _ _ => True).
Proof using.
  intros Hw. pose proof (wf_num _ Hw). apply (st_runs 0); [done|lia|]. intros Hg. by apply rn_set_vfta.
Qed.
Lemma st_put_vlans s vid f : wf s -> 0 <= vid < 4096 ->
  stays s (w ← nth_c (active_vlans s) (vid / 64); l ← upd_c (active_vlans s) (vid / 64) (f w);
           modify (put_active_vlans l)) (fun _ _ => True).
Proof using.
  intros Hw Hv. pose proof (wf_vlans _ Hw) as Hl.
  destruct (lookup_lt_is_Some_2 (active_vlans s) (Z.to_nat (vid / 64))) as [w Hx]; [zlia|].
  unfold stays. wp_step. eapply wp_nth_c; [zlia|done|]. wp_step. apply wp_upd_c; [zlia|]. apply wp_modify.
  split; [|by split]. destruct Hw. split; try done. simpl. by rewrite length_insert.
Qed.
Lemma st_vlan_rx_add_vid s vid : wf s -> 0 <= vid -> stays s (ixgbe_vlan_rx_add_vid vid) (fun _ _ => True).
Proof using.
  intros Hw Hv. unfold ixgbe_vlan_rx_add_vid. st_step. st_step; [|by st_step]. st_step; [|by st_step].
  st_step.
  { destruct (Z.ltb_spec vid VLAN_N_VID) as [Hn|]; [|by st_step]. unfold VLAN_N_VID in Hn.
    unfold set_vlan. st_step. by apply (st_put_vlans _ _ (fun w => Z.lor w _)). }
  st_step; [st_step; [st_step; [by apply st_set_vfta|by st_step]|by st_step]|].
  st_step; [|by st_step]. st_step. st_step; [by apply st_set_vfta|by st_step].
Qed.
Lemma st_vlan_rx_kill_vid s vid : wf s -> 0 <= vid < 4096 -> stays s (ixgbe_vlan_rx_kill_vid vid) (fun _ _ => True).
Proof using.
  intros Hw Hv. unfold ixgbe_vlan_rx_kill_vid. st_step. st_step; [by st_step|]. st_step.
  { st_step; [|by st_step].
    st_step; [st_step; [st_step; [by apply st_set_vfta|by st_step]|by st_step]|].
    st_step; [|by st_step]. st_step. st_step; [by apply st_set_vfta|by st_step]. }
  unfold clear_vlan. st_step; [|by st_step]. st_step. by apply (st_put_vlans _ _ (fun w => Z.land w _)).
Qed.

(** ** Malicious driver detection *)

(** the hardware reports a blocked queue of a pool that is not a VF: the index of
    that pool is outside [vfinfo] *)
Definition reports_outside (s : pf) : bool :=
  match ixgbe_mdd_event_X550 [0; 0] (pw s) with
  | Done b _ => existsb (fun v => Z.testbit (nth (Z.to_nat (v / 32)) b 0) (v mod 32))
                  (seqZ (num_vfs s) (64 - num_vfs s))
  | Fault _ => false
  end.

Lemma kp_mdd_event c : keeps c (ixgbe_mdd_event_X550 [0; 0]) (fun b => length b = 2%nat).
Proof using.
  unfold ixgbe_mdd_event_X550, mdd_queues. eapply kp_bind; [apply kp_read|]. intros reg _. cbv zeta.
  assert (1 <= mdd_shift reg) as Hsh by (unfold mdd_shift; repeat destruct (_ =? _); simpl; lia).
  apply (kp_for_acc _ _ _ _ _ (fun _ b => length b = 2%nat)); [done|]. intros i b Hi Hb.
  eapply kp_bind; [apply kp_read|]. intros x _. eapply kp_bind; [apply kp_read|]. intros y _.
  destruct (_ =? 0); [by apply kp_ret|].
  apply (kp_for_acc _ _ _ _ _ (fun _ b => length b = 2%nat)); [done|]. clear b Hb. intros j b Hj Hb.
  destruct (has _ _); simpl; [|by apply kp_ret].
  assert (0 <= Z.shiftr (j + i * 32) (mdd_shift reg) / 32 < Z.of_nat (length b)) as Hr.
  { rewrite Hb, Z.shiftr_div_pow2 by lia. assert (2 ^ 1 <= 2 ^ mdd_shift reg) by (apply Z.pow_le_mono_r; lia).
    assert (0 <= (j + i * 32) / 2 ^ mdd_shift reg < 64); [|zlia]. split; [apply Z.div_pos; lia|].
    apply Z.div_lt_upper_bound; lia. }
  eapply kp_bind; [by apply kp_nth|]. intros z _. eapply kp_mono; [by apply kp_upd|].
  intros l Hl. by rewrite Hl.
Qed.

Lemma st_restart s v : wf s -> 0 <= v < num_vfs s -> stays s (restart_malicious_vf v) (fun _ _ => True).
Proof using.
  intros Hw Hv. unfold restart_malicious_vf. st_step.
  { apply st_lift; [done|]. unfold ixgbe_restore_mdd_vf_X550. eapply kp_bind; [apply kp_read|]. intros reg _. cbv zeta.
    eapply kp_bind; [apply kp_write|]. intros. apply kp_write. }
  st_step; [num|]. assert (0 <= v < num_vfs s'0) by num. st_step; [|by st_step].
  apply (st_runs v); [done|done|]. intros Hg. by apply rn_write_mbx.
Qed.

Lemma st_for_acc {A} s n i (a : A) (body : Z -> A -> PF A) : wf s ->
  (forall k b s', wf s' -> same_cfg s s' -> i <= k < i + Z.of_nat n -> stays s' (body k b) (fun _ _ => True)) ->
  stays s (for_acc n i a body) (fun _ _ => True).
Proof using.
  intros Hw Hb. eapply wp_mono; [apply wp_for_acc with (Inv := fun _ _ s' => wf s' /\ same_cfg s s')|].
  - done.
  - intros k b s' Hk [Hw' Hs]. eapply wp_mono; [by apply Hb|]. intros b' s2 (? & ? & _). split; [done|by etrans].
  - naive_solver.
Qed.

Lemma st_check_mdd_event s : wf s -> (is_x550 s = true -> reports_outside s = false) ->
  stays s ixgbe_check_mdd_event (fun _ _ => True).
Proof using.
  intros Hw Hm. unfold ixgbe_check_mdd_event. apply st_get. destruct (is_x550 s) eqn:Ex; simpl; [|by apply st_ret].
  specialize (Hm eq_refl). pose proof (wf_num _ Hw) as Hn.
  eapply st_bind with (P := fun b s' => length b = 2%nat /\ forall v, num_vfs s <= v < 64 ->
    Z.testbit (nth (Z.to_nat (v / 32)) b 0) (v mod 32) = false).
  { pose proof (kp_mdd_event _ (pw s) eq_refl) as Hk. unfold reports_outside in Hm. unfold stays, wp, lift in *.
    destruct (ixgbe_mdd_event_X550 [0; 0] (pw s)) as [b w|]; [|done]. destruct Hk as [Ec Hl].
    split; [by apply wf_put_pw|]. split; [by split|]. split; [done|]. intros v Hv.
    destruct (Z.testbit _ _) eqn:E; [|done]. rewrite <- Hm. symmetry. apply existsb_exists.
    exists v. split; [|done]. apply list_elem_of_In, elem_of_seqZ. lia. }
  intros b s1 Hw1 Hc1 [Hl Hb]. apply st_for_acc; [done|]. intros i r s2 Hw2 Hc2 Hi.
  destruct (lookup_lt_is_Some_2 b (Z.to_nat i)) as [x Hx]; [lia|].
  eapply st_bind with (P := fun y s' => y = x /\ s' = s2); [eapply wp_nth_c; [lia|done|done]|].
  intros y s3 _ _ [-> ->]. apply st_for_acc; [done|]. intros j r' s3 Hw3 Hc3 Hj.
  rewrite has_bit by lia. destruct (Z.testbit x j) eqn:Eb; [|by apply st_ret]. cbn [negb].
  st_step; [by st_step|]. st_step; [by st_step|]. st_step; [|by st_step]. apply st_restart; [done|].
  assert (num_vfs s'0 = num_vfs s) as -> by (rewrite (sc_num _ _ H2), (sc_num _ _ H0), (sc_num _ _ Hc3), (sc_num _ _ Hc2), (sc_num _ _ Hc1); done).
  destruct (decide (j + i * 32 < num_vfs s)) as [|Hge]; [lia|]. exfalso.
  specialize (Hb (j + i * 32)). rewrite (nth_lookup_Some b _ 0 x) in Hb.
  - replace ((j + i * 32) mod 32) with j in Hb by zlia. rewrite Hb in Eb; [done|lia].
  - by replace ((j + i * 32) / 32) with i by zlia.
Qed.

(** ** What can happen to a PF with SR-IOV on *)
Inductive pf_event :=
| EvMsgTask
| EvSetTrust (vf : Z) (on : bool)
| EvSetMac (vf : Z) (mac : list Z)
| EvSetVlan (vf vlan qos : Z) (proto_8021q : bool)
| EvSetBw (vf rate : Z)
| EvSetSpoofchk (vf : Z) (on : bool)
| EvSetLinkState (vf state : Z)
| EvSetRssQuery (vf : Z) (on : bool)
| EvCheckRate
| EvSetAllVfs
| EvPingAll
| EvRxMode
| EvVlanAdd (vid : Z)
| EvVlanKill (vid : Z).

(** what the kernel checks before it calls the driver *)
Definition event_ok (e : pf_event) : Prop :=
  match e with
  | EvSetMac _ mac => length mac = 6%nat
  | EvSetVlan _ vlan _ _ => 0 <= vlan
  | EvVlanAdd vid | EvVlanKill vid => 0 <= vid < 4096
  | _ => True
  end.

Section Events.
Context (dev_uc_sync : pf -> uc_script) (Hsync : forall s, script_ok (dev_uc_sync s)).

Definition run_event (e : pf_event) : PF unit :=
  match e with
  | EvMsgTask => ixgbe_msg_task dev_uc_sync
  | EvSetTrust vf on => ixgbe_ndo_set_vf_trust vf on ;; mret tt
  | EvSetMac vf mac => ixgbe_ndo_set_vf_mac vf mac ;; mret tt
  | EvSetVlan vf vlan qos p => ixgbe_ndo_set_vf_vlan vf vlan qos p ;; mret tt
  | EvSetBw vf rate => ixgbe_ndo_set_vf_bw vf rate ;; mret tt
  | EvSetSpoofchk vf on => ixgbe_ndo_set_vf_spoofchk vf on ;; mret tt
  | EvSetLinkState vf st => ixgbe_ndo_set_vf_link_state vf st ;; mret tt
  | EvSetRssQuery vf on => ixgbe_ndo_set_vf_rss_query_en vf on ;; mret tt
  | EvCheckRate => ixgbe_check_vf_rate_limit
  | EvSetAllVfs => ixgbe_set_all_vfs
  | EvPingAll => ixgbe_ping_all_vfs
  | EvRxMode => ixgbe_set_rx_mode dev_uc_sync
  | EvVlanAdd vid => ixgbe_vlan_rx_add_vid vid ;; mret tt
  | EvVlanKill vid => ixgbe_vlan_rx_kill_vid vid ;; mret tt
  end.
Fixpoint run_events (l : list pf_event) : PF unit :=
  match l with
  | [] => mret tt
  | e :: l' => run_event e ;; run_events l'
  end.

(** no pool without VF is reported when the mailboxes are served *)
Definition mdd_fine (s : pf) : Prop := mdd_enabled s = true -> is_x550 s = true -> reports_outside s = false.

Lemma st_msg_task s : wf s -> mdd_fine s -> stays s (ixgbe_msg_task dev_uc_sync) (fun _ _ => True).
Proof using All.
  intros Hw Hm. unfold ixgbe_msg_task. st_step. destruct (wf_vfs _ Hw) as (l & -> & _).
  st_step.
  { destruct (mdd_enabled s) eqn:E; [|by st_step]. st_step; [|by st_step]. apply st_check_mdd_event; [done|]. by apply Hm. }
  st_step. st_step.
  assert (0 <= k < num_vfs s'0) by (rewrite (sc_num _ _ H2); lia).
  apply (st_runs k); [done|done|]. intros Hg. by apply rn_serve_vf.
Qed.

Lemma st_event s e : wf s -> (e = EvMsgTask -> mdd_fine s) -> event_ok e -> stays s (run_event e) (fun _ _ => True).
Proof using All.
  intros Hw Hm He. destruct e; simpl in He |- *.
  1: by apply st_msg_task; [|apply Hm].
  8: by apply st_check_vf_rate_limit.
  8: by apply st_set_all_vfs.
  8: by apply st_ping_all_vfs.
  8: { pose proof (wf_num _ Hw). apply (st_runs 0); [done|lia|]. intros Hg. by apply rn_set_rx_mode. }
  all: st_step; [|by st_step].
  - by apply st_ndo_set_vf_trust.
  - by apply st_ndo_set_vf_mac.
  - by apply st_ndo_set_vf_vlan.
  - by apply st_ndo_set_vf_bw.
  - by apply st_ndo_set_vf_spoofchk.
  - by apply st_ndo_set_vf_link_state.
  - by apply st_ndo_set_vf_rss_query_en.
  - apply st_vlan_rx_add_vid; [done|lia].
  - by apply st_vlan_rx_kill_vid.
Qed.

Lemma cfg_x550 s s' : same_cfg s s' -> is_x550 s' = is_x550 s.
Proof using. intros Hc. unfold is_x550, pf_mac. by rewrite (core_type _ _ (sc_core _ _ Hc)). Qed.

(** a history ends, or stops where the mailboxes are served while the hardware
    reports a pool that is no VF *)
Lemma events_survive s l : wf s -> Forall event_ok l ->
  (exists s', run_events l s = Done tt s' /\ wf s' /\ same_cfg s s') \/
  (mdd_enabled s = true /\ is_x550 s = true /\ exists before after s0, l = before ++ EvMsgTask :: after /\
     run_events before s = Done tt s0 /\ wf s0 /\ reports_outside s0 = true).
Proof using All.
  intros Hw Hl. revert s Hw. induction Hl as [|e l He _ IH]; intros s Hw.
  { left. exists s. by split. }
  assert ((e = EvMsgTask -> mdd_fine s) \/
    (e = EvMsgTask /\ mdd_enabled s = true /\ is_x550 s = true /\ reports_outside s = true)) as [Hm|(-> & Hm & Hx & Ho)].
  { unfold mdd_fine. destruct e; try (left; done).
    destruct (mdd_enabled s), (is_x550 s), (reports_outside s); (by right) || (left; by intros). }
  2: { right. split; [done|]. split; [done|]. by exists [], l, s. }
  pose proof (st_event s e Hw Hm He) as H. unfold stays, wp in H. cbn [run_events]. unfold mbind, comp_bind.
  destruct (run_event e s) as [[] s1|] eqn:E; [|done]. destruct H as (Hw1 & Hc1 & _).
  destruct (IH s1 Hw1) as [(s' & E' & Hw' & Hc')|(Hm1 & Hx1 & before & after & s0 & -> & E0 & Hw0 & Ho)].
  - left. exists s'. split; [done|]. split; [done|by etrans].
  - right. rewrite <- (sc_mdd _ _ Hc1), <- (cfg_x550 _ _ Hc1). split; [done|]. split; [done|].
    exists (e :: before), after, s0. split; [done|]. split; [|done]. cbn [run_events]. unfold mbind, comp_bind.
    by rewrite E.
Qed.
End Events.
End Admin.
