(* ===== verification/SriovProps.v ===== *)
(** * SR-IOV: properties

    No history of requests brings the PF down or breaks its invariant; work for
    one VF leaves the others and the administrator's settings alone; enabling
    establishes the invariant; an untrusted VF gains no promiscuous mode; and two
    situations in which the code does leave its data: a failed allocation that a
    comment calls harmless, and a malicious event of a pool without VF. *)
From stdpp Require Import gmap.
From S2P Require Import Prelude Regs Types Osdep Trace Mbx MbxProps MbxSafe Filters.
From S2P Require Import Queues PfState Adapter X550 Sriov SriovCfg SriovCore SriovFrame SriovSafe.
From S2P Require Import SriovMsg SriovAdmin QueueProps.

Lemma wp_ends {S A} (m : comp S A) (Q : A -> S -> Prop) s :
  wp m Q s -> exists a s', m s = Done a s' /\ Q a s'.
Proof. unfold wp. destruct (m s); [eauto|done]. Qed.

Section Props.
Context `{D : Mmio} `{!PlainRegs D mpsar_regs}.
Implicit Types s : pf.

(** C3: Whatever the VFs write into their mailboxes and whatever the
    administrator and the network stack ask for, in any order, on any device
    whose pool registers (MPSAR) are storage: the PF ends, never uses a NULL
    pointer or leaves an array, and keeps its invariant and its number of VFs -
    unless malicious driver detection is on, on an X550 or later, and at some
    point of the history at which the mailboxes are served the hardware reports a
    blocked queue of a pool that is no VF.  (In that case the code does leave
    [vfinfo]: [mdd_report_outside_vfs_faults].) *)
Theorem pf_survives_any_history dev_uc_sync s evs :
  (forall s', script_ok (dev_uc_sync s')) -> wf s -> Forall event_ok evs ->
  (exists s', run_events dev_uc_sync evs s = Done tt s' /\ wf s' /\ num_vfs s' = num_vfs s) \/
  (mdd_enabled s = true /\ is_x550 s = true /\ exists before after s0, evs = before ++ EvMsgTask :: after /\
     run_events dev_uc_sync before s = Done tt s0 /\ wf s0 /\ reports_outside s0 = true).
Proof using All.
  intros Hsync Hw He. destruct (events_survive dev_uc_sync Hsync s evs Hw He) as [(s' & E & Hw' & Hc)|H]; [left|by right].
  exists s'. split; [done|]. split; [done|apply Hc].
Qed.

End Props.

(** ** Enabling *)
Section Enable.
Context `{D : Mmio}.
Implicit Types s : pf.

(** the driver before SR-IOV is enabled: the invariant but for the VFs *)
Record idle s : Prop := {
  id_core : core_ok (core (hw s));
  id_table : Z.of_nat (length (mac_table s)) = num_rars s;
  id_addrs : Forall (fun e => length (m_addr e) = 6%nat) (mac_table s);
  id_vlans : length (active_vlans s) = 64%nat;
  id_rings : forall i, 0 <= i < num_rx_queues (conf (ad s)) ->
    exists r, rx_ring (ad s) !! Z.to_nat i = Some (Some r);
  id_reta : length (rss_indir_tbl s) = 512%nat;
  id_key : length (rss_key s) = 10%nat;
  id_mc : Forall (fun a => length a = 6%nat) (mc_list (netdev s));
  id_prio : length (prio_tc_map (netdev s)) = 16%nat;
}.

Lemma lift_core {A} (m : M A) c P (Q : A -> pf -> Prop) s : keeps c m P -> core (hw s) = c ->
  (forall a w, core (w_hw w) = c -> P a -> Q a (put_pw w s)) -> wp (lift m) Q s.
Proof.
  intros Hm Hc HQ. specialize (Hm (pw s) Hc). unfold wp, lift in *. destruct (m (pw s)); [|done].
  destruct Hm. by apply HQ.
Qed.

Lemma vf0_ok t : vf_ok t vf0.
Proof. by split. Qed.
Lemma mv0_list n : Forall (fun e => length (mv_addr e) = 6%nat) (replicate n mv0).
Proof. by apply Forall_replicate. Qed.

Lemma wp_alloc_macvlans k n s (Q : unit -> pf -> Prop) : mv_list_alloc k = true -> 1 <= n <= 63 ->
  16 + n < num_rars s <= 128 -> (forall l, Forall (fun e => length (mv_addr e) = 6%nat) l -> Q tt (put_vf_mvs (Some l) s)) ->
  wp (ixgbe_alloc_vf_macvlans k n) Q s.
Proof.
  intros Hk Hn Hr HQ. unfold ixgbe_alloc_vf_macvlans. apply wp_bind, wp_get. cbn zeta.
  change (num_rar_entries (mac (hw s))) with (num_rars s). change IXGBE_MAX_PF_MACVLANS with 15.
  unfold sext. rewrite trunc_small by (unfold in_range; lia). change (2 ^ (32 - 1)) with 0x80000000.
  replace (_ <? 0x80000000) with true by lia.
  destruct (Z.eqb_spec (num_rars s - (15 + 1 + n)) 0); [lia|]. rewrite Hk.
  destruct (Z.ltb_spec 0 (num_rars s - (15 + 1 + n))); [|lia]. simpl.
  apply wp_modify, HQ, mv0_list.
Qed.

(** [__ixgbe_enable_sriov] with its memory allocated establishes the
    invariant for the number of VFs asked for, whatever the device does. *)
Theorem enable_sriov_establishes_wf k n s :
  idle s -> xdp_prog (conf (ad s)) = false -> vfinfo_alloc k = true -> mv_list_alloc k = true ->
  1 <= n <= 63 -> 16 + n < num_rars s ->
  exists s', __ixgbe_enable_sriov k n s = Done 0 s' /\ wf s' /\ num_vfs s' = n.
Proof.
  intros Hi Hx Hv Hm Hn Hr. pose proof (co_rars _ (id_core _ Hi)) as Hr2.
  enough (wp (__ixgbe_enable_sriov k n) (fun r s' => r = 0 /\ wf s' /\ num_vfs s' = n) s) as H.
  { destruct (wp_ends _ _ _ H) as (r & s' & E & -> & Hw' & En). eauto. }
  unfold __ixgbe_enable_sriov, mod_conf. apply wp_bind, wp_get. rewrite Hx, Hv. cbn beta iota delta [negb].
  do 3 (apply wp_bind, wp_modify). apply wp_bind, wp_modify. apply wp_bind.
  eapply lift_core; [apply kp_write|reflexivity|]. intros [] w Ew _.
  apply wp_bind, wp_modify. apply wp_bind. apply wp_alloc_macvlans; [done|done| |].
  { unfold num_rars, hw. simpl. rewrite (core_rars _ _ Ew). exact (conj Hr Hr2). }
  intros l Hl. do 7 (apply wp_bind, wp_modify). apply wp_bind.
  match goal with |- wp _ _ ?s0 => set (s1 := s0) end.
  assert (wf s1) as Hw1.
  { destruct Hi. subst s1. split; try done.
    - unfold hw. simpl. rewrite Ew. done.
    - simpl. rewrite trunc_small; [done|unfold in_range; lia].
    - simpl. eexists. split; [done|]. rewrite length_replicate. split; [lia|].
      apply Forall_replicate, vf0_ok.
    - simpl. eauto.
    - unfold num_rars, hw in *. simpl in *. by rewrite (core_rars _ _ Ew).
    - simpl. destruct (limit _ =? 0); done. }
  eapply wp_mono; [apply (st_for_loop s1); [done|]|].
  { intros j s2 Hw2 Hc2 Hj. apply st_mod_vf; [done| |].
    - rewrite (sc_num _ _ Hc2). subst s1. simpl. lia.
    - intros x []. by split. }
  intros [] s2 (Hw2 & Hc2 & _). apply wp_ret. split; [done|]. split; [done|].
  by rewrite (sc_num _ _ Hc2).
Qed.
End Enable.

(** ** Promiscuous modes *)
Section Xcast.
Context `{D : Mmio} {P : Z -> Prop} `{!PlainRegs D P}.
Context (HS : P IXGBE_STATUS).
Implicit Types s : pf.

(** what VMOLR of a VF holds *)
Definition vmolr_of (vf : Z) s : Z := peek (w_dev (pw s)) (IXGBE_VMOLR vf).
Definition promisc_bits : list Z := [IXGBE_VMOLR_MPE; IXGBE_VMOLR_UPE; IXGBE_VMOLR_VPE].

Lemma wp_lift {A} (m : M A) (Q : A -> pf -> Prop) s :
  wp m (fun a w => Q a (put_pw w s)) (pw s) -> wp (lift m) Q s.
Proof using. unfold wp, lift. by destruct (m (pw s)). Qed.

(** clearing the promiscuous bits and setting others leaves them clear *)
Lemma xcast_clears mode off on old m : mode <= IXGBEVF_XCAST_MODE_MULTI -> xcast_bits mode = Some (off, on) ->
  In m promisc_bits -> has (u32 (Z.lor (Z.land old (bnot 32 off)) on)) m = false.
Proof using.
  intros Hm Hx Hin. unfold has. apply negb_false_iff, Z.eqb_eq. apply Z.bits_inj'. intros i Hi.
  rewrite Z.bits_0, Z.land_spec. unfold trunc. rewrite <- Z.land_ones by lia.
  rewrite Z.land_spec, Z.lor_spec, Z.land_spec, testbit_bnot by lia.
  assert (exists j, m = bit j /\ 0 <= j < 32 /\ Z.testbit off j = true /\ Z.testbit on j = false) as (j & -> & Hj & H1 & H2).
  { unfold xcast_bits in Hx. unfold IXGBEVF_XCAST_MODE_MULTI, IXGBEVF_XCAST_MODE_NONE,
      IXGBEVF_XCAST_MODE_ALLMULTI, IXGBEVF_XCAST_MODE_PROMISC in *.
    destruct (Z.eqb_spec mode 0); [|destruct (Z.eqb_spec mode 1)]; [| |
      destruct (Z.eqb_spec mode 2); [lia|]; destruct (Z.eqb_spec mode 3); [lia|done]];
      injection Hx as <- <-; destruct Hin as [<-|[<-|[<-|[]]]];
      [exists 28|exists 22|exists 23|exists 28|exists 22|exists 23]; (split; [done|split; [lia|done]]). }
  rewrite testbit_bit by lia. destruct (Z.eqb_spec i j) as [->|]; [|by rewrite andb_false_r].
  rewrite H1, H2. simpl. by rewrite !andb_false_r.
Qed.

Lemma vmolr_not_status vf : 0 <= vf -> IXGBE_VMOLR vf <> IXGBE_STATUS.
Proof using. unfold IXGBE_VMOLR, IXGBE_STATUS. lia. Qed.

(** C30: An untrusted VF that asks for a mode gains none of the promiscuous bits
    of its VMOLR, whatever mode it asks for; if the PF says yes, the mode that it
    answers and remembers is at most MULTI. *)
Theorem untrusted_vf_gains_no_promiscuity msgbuf vf s v :
  P (IXGBE_VMOLR vf) -> ready (pw s) -> wf s -> 0 <= vf < num_vfs s -> length msgbuf = 16%nat ->
  vf_at s vf = Some v -> trusted v = false ->
  wp (ixgbe_update_vf_xcast_mode msgbuf vf) (fun r s' =>
    (forall m, In m promisc_bits -> has (vmolr_of vf s') m = true -> has (vmolr_of vf s) m = true) /\
    (r.1 = 0 -> exists v', vf_at s' vf = Some v' /\ xcast_mode v' <= IXGBEVF_XCAST_MODE_MULTI /\
       r.2 !! 1%nat = Some (u32 (xcast_mode v')))) s.
Proof using All.
  intros HP Hr Hw Hv Hl Hx Ht. unfold ixgbe_update_vf_xcast_mode. apply wp_bind, wp_get. apply wp_bind.
  destruct (lookup_lt_is_Some_2 msgbuf 1) as [m1 Hm1]; [lia|]. eapply wp_nth_c; [lia|done|].
  apply wp_bind. eapply wp_mono; [apply (st_get_vf s vf Hw Hv)|]. intros v1 s1 (_ & _ & -> & E1 & _).
  rewrite Hx in E1. injection E1 as <-. cbn zeta. rewrite Ht. cbn [negb]. rewrite andb_true_r.
  destruct (_ || _); [by apply wp_ret|].
  set (mode := if IXGBEVF_XCAST_MODE_MULTI <? sext 32 m1 then IXGBEVF_XCAST_MODE_MULTI else sext 32 m1).
  assert (mode <= IXGBEVF_XCAST_MODE_MULTI) as Hmode.
  { subst mode. destruct (Z.ltb_spec IXGBEVF_XCAST_MODE_MULTI (sext 32 m1)); lia. }
  clearbody mode.
  assert (Hout : forall s' v' (Q : Z * list Z -> pf -> Prop), xcast_mode v' = mode ->
    (Q (0, <[1%nat := u32 (xcast_mode v')]> msgbuf) s') -> wp (m ← upd_c msgbuf 1 (u32 mode); mret (0, m)) Q s').
  { intros s' v' Q <- HQ. apply wp_bind, wp_upd_c; [lia|]. by apply wp_ret. }
  destruct (Z.eqb_spec (xcast_mode v) mode) as [Em|Em].
  { eapply Hout; [exact Em|]. split; [done|]. intros _. exists v. split; [done|]. split; [lia|].
    apply list_lookup_insert_eq. lia. }
  destruct (xcast_bits mode) as [[off on]|] eqn:Eb; [|by apply wp_ret].
  destruct (Z.eqb_spec mode IXGBEVF_XCAST_MODE_PROMISC) as [->|_]; [done|].
  apply wp_bind, wp_ret. cbn [negb Z.eqb]. apply wp_bind, wp_lift, (wp_READ_REG HS); [done|done|].
  intros w1 Hr1 (Eh1 & Ed1 & _). apply wp_bind, wp_lift, (wp_WRITE_REG HS); [apply vmolr_not_status; lia|done|].
  intros w2 Hr2 (Eh2 & Ew2 & _). apply wp_bind.
  assert (wf (put_pw w2 (put_pw w1 s))) as Hw2.
  { apply wf_put_pw; [apply wf_put_pw; [done|by rewrite Eh1]|by rewrite Eh2]. }
  eapply wp_mod_vf; [done|done|exact Hx|]. apply (Hout _ (put_xcast_mode mode v)); [reflexivity|]. split.
  - intros m Hm Hh. unfold vmolr_of in Hh. simpl in Hh. rewrite Ew2 in Hh by done.
    rewrite decide_True in Hh by done. by rewrite (xcast_clears mode) in Hh.
  - intros _. exists (put_xcast_mode mode v). rewrite vf_at_set by done. rewrite decide_True by done.
    split; [done|]. split; [done|]. apply list_lookup_insert_eq. lia.
Qed.
End Xcast.

(** ** Failed allocation of the macvlan list *)
Section Macvlan.
Context `{D : Mmio} (dev_uc_sync : pf -> uc_script).
Implicit Types s : pf.
Definition vf_count s : option nat := length <$> vfinfo s.
Abbreviation mvs_kept := (obs_kept vf_mvs).

Lemma mv_mod_vf vf f : mvs_kept (mod_vf vf f).
Proof using. unfold mod_vf. obs_kept_steps. Qed.
Lemma mv_get_vf vf : mvs_kept (get_vf vf).
Proof using. unfold get_vf. obs_kept_steps. Qed.
Lemma mv_test_vlan vid : mvs_kept (test_vlan vid).
Proof using. unfold test_vlan. obs_kept_steps. Qed.
Lemma mv_RD r : mvs_kept (RD r).
Proof using. by apply ok_lift. Qed.
Lemma mv_WR r v : mvs_kept (WR r v).
Proof using. by apply ok_lift. Qed.
Hint Resolve mv_mod_vf mv_get_vf mv_test_vlan mv_RD mv_WR : obs_kept.

Lemma mv_set_vf_vlan add vid vf : mvs_kept (ixgbe_set_vf_vlan add vid vf).
Proof using.
  assert (forall n, mvs_kept (find_vlvf_down vid n)) as Hf.
  { induction n as [|n IH]; cbn [find_vlvf_down]; obs_kept_steps. }
  unfold ixgbe_set_vf_vlan, ixgbe_update_pf_promisc_vlvf, ixgbe_find_vlvf_entry, set_vfta. obs_kept_steps.
Qed.
Lemma mv_clear_vf_vlans vf : mvs_kept (ixgbe_clear_vf_vlans vf).
Proof using. unfold ixgbe_clear_vf_vlans, clear_vf_vlan_entry. obs_kept_steps. Qed.
Hint Resolve mv_set_vf_vlan mv_clear_vf_vlans : obs_kept.

Lemma mv_filters a p : mvs_kept (ixgbe_add_mac_filter a p) /\ mvs_kept (ixgbe_del_mac_filter a p).
Proof using. split; [by apply ok_add_mac_filter|by apply ok_del_mac_filter]. Qed.
Lemma mv_run_uc t : mvs_kept (run_uc t).
Proof using.
  induction t as [r|a t IH|a t IH]; cbn [run_uc]; unfold ixgbe_uc_sync, ixgbe_uc_unsync; obs_kept_steps;
    apply mv_filters.
Qed.
Lemma mv_set_rx_mode : mvs_kept (ixgbe_set_rx_mode dev_uc_sync).
Proof using.
  unfold ixgbe_set_rx_mode, ixgbe_write_mc_addr_list, ixgbe_restore_vf_multicasts, restore_vf_mta,
    ixgbe_full_sync_mac_table, write_rar, get_mac, put_mac, ixgbe_vlan_strip_enable, ixgbe_vlan_strip_disable,
    ixgbe_vlan_promisc_enable, ixgbe_vlan_promisc_disable, ixgbe_scrub_vfta, scrub_entry, strip_ring.
  obs_kept_steps. apply mv_run_uc.
Qed.
Hint Resolve mv_set_rx_mode : obs_kept.

Lemma never_bind {A B} (m : PF A) (f : A -> PF B) s :
  mvs_kept m -> vf_mvs s = None ->
  (forall a s', vf_mvs s' = None -> forall b s'', f a s' <> Done b s'') -> forall b s'', (m ≫= f) s <> Done b s''.
Proof using.
  intros Hm Hs Hf b s''. unfold mbind, comp_bind. destruct (m s) as [a s'|] eqn:E; [|done].
  apply Hf. by rewrite (Hm _ _ _ E).
Qed.

Lemma reset_without_list vf s : vf_mvs s = None -> forall a s', ixgbe_vf_reset_event dev_uc_sync vf s <> Done a s'.
Proof using.
  intros Hs. unfold ixgbe_vf_reset_event, ixgbe_set_vmolr, ixgbe_clear_vmvir, ixgbe_set_vmvir.
  do 9 (apply never_bind; [obs_kept_steps|done|]; clear s Hs; intros ? s Hs).
  apply never_bind; [apply mv_filters|done|]. clear s Hs. intros _ s Hs b s''.
  unfold ixgbe_set_vf_macvlan, release_macvlans, get_mvs, mbind, comp_bind. simpl. by rewrite Hs.
Qed.

(** enabling needs the memory of [vfinfo] only *)
Lemma enable_done k n s : xdp_prog (conf (ad s)) = false -> vfinfo_alloc k = true ->
  exists s', __ixgbe_enable_sriov k n s = Done 0 s'.
Proof using.
  intros Hx Hv. enough (wp (__ixgbe_enable_sriov k n) (fun r _ => r = 0) s) as H.
  { destruct (wp_ends _ _ _ H) as (r & s' & E & ->). eauto. }
  unfold __ixgbe_enable_sriov, mod_conf. apply wp_bind, wp_get. rewrite Hx, Hv. cbn beta iota delta [negb].
  do 4 (apply wp_bind, wp_modify). apply wp_bind.
  eapply lift_core; [apply kp_write|reflexivity|]. intros [] w _ _. apply wp_bind, wp_modify. apply wp_bind.
  match goal with |- wp _ _ ?s0 => set (s1 := s0) end.
  assert (vfinfo s1 = Some (replicate (Z.to_nat n) vf0)) as E1 by done. clearbody s1.
  apply wp_mono with (P := fun _ s2 => vfinfo s2 = vfinfo s1).
  { unfold ixgbe_alloc_vf_macvlans. apply wp_bind, wp_get. cbn zeta.
    destruct (_ =? 0); [by apply wp_ret|]. destruct (_ && _); [by apply wp_modify|by apply wp_ret]. }
  intros [] s2 E2. do 7 (apply wp_bind, wp_modify). apply wp_bind.
  eapply wp_mono; [apply wp_for_loop with (Inv := fun _ s' => vf_count s' = Some (Z.to_nat n))|].
  - unfold vf_count. simpl. by rewrite E2, E1; simpl; rewrite length_replicate.
  - intros j s' Hj Hs'. unfold vf_count in Hs'. destruct (vfinfo s') as [l|] eqn:El; [|done]. injection Hs' as Hl.
    unfold mod_vf. apply wp_bind, wp_get. rewrite El. destruct (lookup_lt_is_Some_2 l (Z.to_nat j)) as [x Hxj]; [lia|].
    apply wp_bind. eapply wp_nth_c; [lia|done|]. apply wp_bind, wp_upd_c; [lia|]. apply wp_modify.
    unfold vf_count. simpl. by rewrite length_insert, Hl.
  - intros [] s' _. by apply wp_ret.
Qed.

(** C31: A comment in [ixgbe_set_vf_macvlan] says that a failed allocation of the
    macvlan list is not fatal.  Enabling SR-IOV then succeeds, but the list head
    was never initialised, and from then on no reset of a VF ends: the walk over
    the list goes through a NULL pointer. *)
Theorem macvlan_alloc_failure_is_fatal k n vf s s' :
  vf_mvs s = None -> mv_list_alloc k = false -> __ixgbe_enable_sriov k n s = Done 0 s' ->
  forall a s2, ixgbe_vf_reset_event dev_uc_sync vf s' <> Done a s2.
Proof using.
  intros Hs Hk E. apply reset_without_list. rewrite <- Hs.
  assert (mvs_kept (__ixgbe_enable_sriov k n)) as H; [|by apply (H s 0)].
  unfold __ixgbe_enable_sriov, ixgbe_alloc_vf_macvlans, mod_conf. rewrite Hk. cbn [andb]. obs_kept_steps.
Qed.
End Macvlan.

(** ** Malicious driver detection *)
Section Mdd.
Context `{D : Mmio}.
Implicit Types s : pf.

(** a loop that keeps [f] and whose body faults at one index *)
Lemma for_acc_faults {A X} (f : pf -> X) n i (a : A) (body : Z -> A -> PF A) k0 s :
  i <= k0 < i + Z.of_nat n -> (forall k b, obs_kept f (body k b)) ->
  (forall b s', f s' = f s -> exists e, body k0 b s' = Fault e) -> exists e, for_acc n i a body s = Fault e.
Proof using.
  revert i a s. induction n as [|n IH]; intros i a s Hk Hb Hf; [lia|].
  change (exists e, match body i a s with Done b s1 => for_acc n (i + 1) b body s1 | Fault e => Fault e end = Fault e).
  destruct (decide (i = k0)) as [->|Hne].
  - destruct (Hf a s eq_refl) as [e ->]. eauto.
  - destruct (body i a s) as [b s1|e] eqn:E; [|eauto]. pose proof (Hb _ _ _ _ _ E) as Ek.
    apply IH; [lia|done|]. intros b' s' E'. apply Hf. congruence.
Qed.

Lemma vc_mod_vf v f : obs_kept vf_count (mod_vf v f).
Proof using.
  intros s b s'. unfold mod_vf, mbind, comp_bind, get, nth_c, upd_c, modify. destruct (vfinfo s) as [l|] eqn:E; [|done].
  destruct (v <? 0); [done|]. destruct (l !! _); [|done]. destruct (_ || _); [done|].
  intros [= _ <-]. unfold vf_count. simpl. by rewrite E, length_insert.
Qed.
Hint Resolve vc_mod_vf : obs_kept.

Lemma mod_vf_outside v f l s : vfinfo s = Some l -> Z.of_nat (length l) <= v -> mod_vf v f s = Fault FOutOfBounds.
Proof using.
  intros E Hl. unfold mod_vf, mbind, comp_bind, get. rewrite E. unfold nth_c.
  destruct (Z.ltb_spec v 0); [lia|]. by rewrite lookup_ge_None_2 by lia.
Qed.

Lemma restart_outside v (l : list vf_data_storage) s : vf_count s = Some (length l) -> Z.of_nat (length l) <= v ->
  exists e, restart_malicious_vf v s = Fault e.
Proof using.
  intros Hs Hv. unfold restart_malicious_vf. unfold mbind, comp_bind.
  destruct (lift _ s) as [[] s1|e] eqn:E; [|eauto]. unfold lift in E.
  destruct (ixgbe_restore_mdd_vf_X550 v (pw s)) as [a w|]; [|done]. injection E as _ <-.
  unfold vf_count in Hs. destruct (vfinfo s) as [l'|] eqn:El; [|done]. injection Hs as Hl.
  rewrite (mod_vf_outside v _ l'); [eauto|exact El|lia].
Qed.

Lemma vc_restart v : obs_kept vf_count (restart_malicious_vf v).
Proof using. unfold restart_malicious_vf, write_mbx. obs_kept_steps. Qed.

(** [ixgbe_check_mdd_event] indexes the data of the VFs by the pool that the
    hardware reports.  A report for a pool that is not a VF (the pools of the PF
    follow those of the VFs) is an access out of the bounds of [vfinfo]. *)
Theorem mdd_report_outside_vfs_faults s l b w v x :
  is_x550 s = true -> vfinfo s = Some l -> Z.of_nat (length l) <= v < 64 ->
  ixgbe_mdd_event_X550 [0; 0] (pw s) = Done b w ->
  b !! Z.to_nat (v / 32) = Some x -> Z.testbit x (v mod 32) = true ->
  exists e, ixgbe_check_mdd_event s = Fault e.
Proof using.
  intros Hx Hl Hv Hb Hi Ht. unfold ixgbe_check_mdd_event. unfold mbind at 1, comp_bind at 1, get.
  rewrite Hx. cbn [negb]. unfold mbind at 1, comp_bind at 1, lift. rewrite Hb.
  assert (vf_count (put_pw w s) = Some (length l)) as Hc by (unfold vf_count; simpl; by rewrite Hl).
  apply (for_acc_faults vf_count) with (k0 := v / 32); [zlia| |].
  { intros. obs_kept_steps; try apply vc_restart; by apply ok_lift. }
  intros r s1 E1. rewrite Hc in E1. unfold mbind at 1, comp_bind at 1, nth_c.
  destruct (Z.ltb_spec (v / 32) 0); [zlia|]. rewrite Hi.
  apply (for_acc_faults vf_count) with (k0 := v mod 32); [zlia| |].
  { intros. obs_kept_steps; try apply vc_restart; by apply ok_lift. }
  intros r2 s2 E2. rewrite has_bit, Ht by zlia. cbn [negb].
  replace (v mod 32 + v / 32 * 32) with v by zlia. unfold mbind, comp_bind.
  destruct (RD IXGBE_LVMMC_TX s2) as [y s3|] eqn:F3; [|eauto].
  destruct (RD IXGBE_LVMMC_RX s3) as [z s4|] eqn:F4; [|eauto].
  destruct (restart_outside v l s4) as [e ->]; [|lia|eauto].
  rewrite (ok_lift vf_count _ ltac:(done) _ _ _ F4), (ok_lift vf_count _ ltac:(done) _ _ _ F3). congruence.
Qed.
End Mdd.

(** ** Witnesses *)
#[local] Existing Instance ram.
#[local] Existing Instance ram_plain.

(** an 82599 with 128 receive addresses, a mailbox, and no queues yet *)
Definition nd0 : net_device := mk_netdev false false true true true [] 1500 false (replicate 16 0).
Definition pf_off (h : ixgbe_hw) (d : gmap Z Z) : pf (D := ram) :=
  mk_pf (mk_world ram h d []) (Queues.mk_adapter (sample_conf ixgbe_mac_82599EB 0 8 2 true) [] [] [] []) nd0 0
    None None (replicate 128 (mk_mac_addr (replicate 6 0) 0 0)) (replicate 64 0) true false false false false
    true true 0 0 0 true 0 (replicate 512 0) (replicate 10 0) 8 8 false.
Definition kernel0 (mv : bool) : iov_kernel := mk_iov_kernel 0 (fun _ => 0) false true true mv [].

(** with two VFs; the first has an address that the administrator chose *)
Definition vf_adm : vf_data_storage := put_pf_set_mac true (put_vf_mac_addresses [2; 0; 0; 0; 0; 9] vf0).
Definition pf_on (h : ixgbe_hw) (d : gmap Z Z) : pf (D := ram) :=
  put_num_vfs 2 (put_vfinfo (Some [vf_adm; put_vf_api ixgbe_mbox_api_13 vf0]) (put_vf_mvs (Some [mv0; mv0])
    (put_ad (set_conf (set_vmdq (mk_feature 8 0 0 2) (sample_conf ixgbe_mac_82599EB 0 8 2 true))
       (ad (pf_off h d))) (pf_off h d)))).

Lemma hw_mbx_ok : core_ok (core hw_mbx).
Proof.
  split; try done. split; [done|]. split; [|done]. apply Forall_replicate. naive_solver.
Qed.
Lemma pf_off_idle d : idle (pf_off hw_mbx d).
Proof.
  split; try done.
  - exact hw_mbx_ok.
  - by apply Forall_replicate.
  - intros i Hi. cbn in Hi. lia.
Qed.
Lemma pf_on_wf d : wf (pf_on hw_mbx d).
Proof.
  split; try done.
  - exact hw_mbx_ok.
  - eexists. split; [done|]. split; [done|]. by repeat constructor.
  - eexists. split; [done|]. by repeat constructor.
  - by apply Forall_replicate.
  - intros i Hi. cbn in Hi. lia.
Qed.

(** a kernel without secondary addresses *)
Definition no_uc (s : pf) : uc_script := UcDone 0.
Lemma no_uc_ok s : script_ok (no_uc s).
Proof. constructor. Qed.

Definition some_events : list pf_event :=
  [EvMsgTask; EvSetTrust 0 true; EvSetMac 1 [2; 0; 0; 0; 0; 7]; EvSetVlan 1 5 3 true; EvRxMode; EvVlanAdd 100;
   EvSetLinkState 0 IFLA_VF_LINK_STATE_DISABLE; EvMsgTask].

Lemma pf_survives_any_history_witness :
  exists s', run_events no_uc some_events (pf_on hw_mbx ∅) = Done tt s' /\ wf s' /\ num_vfs s' = 2.
Proof.
  destruct (pf_survives_any_history no_uc (pf_on hw_mbx ∅) some_events) as [H|[H _]].
  - exact no_uc_ok.
  - apply pf_on_wf.
  - repeat constructor; simpl; lia.
  - exact H.
  - discriminate H.
Defined.

(** The clause about the cleared address is needed: with every entry of the table
    in use, setting the address that the administrator chose again fails and
    clears it, and the administrator's mark stays. *)
Example full_table_clears_address :
  let full := replicate 128 (mk_mac_addr [2; 0; 0; 0; 0; 1] 2 IXGBE_MAC_STATE_IN_USE) in
  match ixgbe_set_vf_mac 0 [2; 0; 0; 0; 0; 9] (put_mac_table full (pf_on hw_mbx ∅)) with
  | Done _ s' => match vf_at s' 0 with
                 | Some v => vf_mac_addresses v = replicate 6 0 /\ pf_set_mac v = true
                 | None => False
                 end
  | Fault _ => False
  end.
Proof. by vm_compute. Qed.


Lemma enable_sriov_establishes_wf_witness :
  exists s', __ixgbe_enable_sriov (kernel0 true) 2 (pf_off hw_mbx ∅) = Done 0 s' /\ wf s' /\ num_vfs s' = 2.
Proof.
  apply (enable_sriov_establishes_wf (kernel0 true) 2 (pf_off hw_mbx ∅)).
  - apply pf_off_idle.
  - reflexivity.
  - reflexivity.
  - reflexivity.
  - lia.
  - reflexivity.
Defined.

(** the second VF asks for promiscuous mode *)
Lemma untrusted_vf_gains_no_promiscuity_witness :
  wp (ixgbe_update_vf_xcast_mode ([12; 3] ++ replicate 14 0) 1) (fun r s' =>
    (forall m, In m promisc_bits -> has (vmolr_of (P := fun _ => True) 1 s') m = true ->
       has (vmolr_of (P := fun _ => True) 1 (pf_on hw_mbx ∅)) m = true) /\
    (r.1 = 0 -> exists v', vf_at s' 1 = Some v' /\ xcast_mode v' <= IXGBEVF_XCAST_MODE_MULTI /\
       r.2 !! 1%nat = Some (u32 (xcast_mode v')))) (pf_on hw_mbx ∅).
Proof.
  apply (untrusted_vf_gains_no_promiscuity (P := fun _ => True) I ([12; 3] ++ replicate 14 0) 1
    (pf_on hw_mbx ∅) (put_vf_api ixgbe_mbox_api_13 vf0)).
  - exact I.
  - by split.
  - apply pf_on_wf.
  - simpl. lia.
  - reflexivity.
  - reflexivity.
  - reflexivity.
Defined.

Lemma macvlan_alloc_failure_is_fatal_witness :
  exists s', __ixgbe_enable_sriov (kernel0 false) 2 (pf_off hw_mbx ∅) = Done 0 s' /\
    forall a s2, ixgbe_vf_reset_event no_uc 0 s' <> Done a s2.
Proof.
  assert (exists s', __ixgbe_enable_sriov (kernel0 false) 2 (pf_off hw_mbx ∅) = Done 0 s') as [s' E]
    by (by apply enable_done).
  exists s'. split; [exact E|].
  exact (macvlan_alloc_failure_is_fatal no_uc (kernel0 false) 2 0 (pf_off hw_mbx ∅) s' eq_refl eq_refl E).
Defined.

(** queue 4, of the first pool after those of two VFs, is blocked *)
Definition hw_x550 : ixgbe_hw := upd_mac (upd_mac_type ixgbe_mac_X550 (mac hw_mbx)) hw_mbx.
Definition blocked4 : gmap Z Z := {[IXGBE_WQBR_TX 0 := 0x10]}.

Lemma mdd_report_outside_vfs_faults_witness : exists e, ixgbe_check_mdd_event (pf_on hw_x550 blocked4) = Fault e.
Proof.
  assert (match ixgbe_mdd_event_X550 [0; 0] (pw (pf_on hw_x550 blocked4)) with
          | Done b _ => b | Fault _ => [] end = [4; 0]) as Hb by (vm_compute; reflexivity).
  destruct (ixgbe_mdd_event_X550 [0; 0] (pw (pf_on hw_x550 blocked4))) as [b w|] eqn:E; [|discriminate Hb].
  apply (mdd_report_outside_vfs_faults (pf_on hw_x550 blocked4) [vf_adm; put_vf_api ixgbe_mbox_api_13 vf0] b w 2 4).
  - reflexivity.
  - reflexivity.
  - simpl. lia.
  - exact E.
  - rewrite Hb. reflexivity.
  - reflexivity.
Defined.
