(* ===== verification/RegsE610.v ===== *)
(** * Registers, opcodes and layouts of the E610 (ixgbe_type_e610.h)

    One definition per [#define] or enumerator that the modelled code uses,
    under the name it has there. *)
From S2P Require Import Prelude.

(** ** Admin command interface *)
Definition PF_HIDA (i : Z) : Z := 0x00085000 + (i * 4).
Definition PF_HIDA_2 (i : Z) : Z := 0x00085020 + (i * 4).
Definition PF_HIBA (i : Z) : Z := 0x00084000 + (i * 4).
Definition PF_HICR : Z := 0x00082048.
Definition PF_HICR_EN : Z := bit 0.
Definition PF_HICR_C : Z := bit 1.
Definition PF_HICR_SV : Z := bit 2.
Definition PF_HICR_EV : Z := bit 3.
Definition GL_FWSTS : Z := 0x00083048.
Definition GL_FWSTS_EP_PF0 : Z := bit 24.
Definition GL_FWSTS_EP_PF1 : Z := bit 25.
Definition BYTES_PER_DWORD : Z := 4.
Definition IXGBE_ACI_DESC_SIZE : Z := 32.
Definition IXGBE_ACI_DESC_SIZE_IN_DWORDS : Z := IXGBE_ACI_DESC_SIZE / BYTES_PER_DWORD.
Definition IXGBE_ACI_MAX_BUFFER_SIZE : Z := 4096.
Definition IXGBE_ACI_SEND_DELAY_TIME_MS : Z := 10.
Definition IXGBE_ACI_SEND_MAX_EXECUTE : Z := 3.
Definition IXGBE_ACI_SYNC_RESPONSE_TIMEOUT : Z := 100000.
Definition IXGBE_ACI_ASYNC_RESPONSE_TIMEOUT : Z := 150000.
Definition IXGBE_ACI_RELEASE_RES_TIMEOUT : Z := 10000.
Definition IXGBE_ACI_LG_BUF : Z := 512.
Definition IXGBE_ACI_FLAG_LB_S : Z := 9.
Definition IXGBE_ACI_FLAG_RD_S : Z := 10.
Definition IXGBE_ACI_FLAG_BUF_S : Z := 12.
Definition IXGBE_ACI_FLAG_SI_S : Z := 13.
Definition IXGBE_ACI_FLAG_LB : Z := bit IXGBE_ACI_FLAG_LB_S.
Definition IXGBE_ACI_FLAG_RD : Z := bit IXGBE_ACI_FLAG_RD_S.
Definition IXGBE_ACI_FLAG_BUF : Z := bit IXGBE_ACI_FLAG_BUF_S.
Definition IXGBE_ACI_FLAG_SI : Z := bit IXGBE_ACI_FLAG_SI_S.
Definition IXGBE_ACI_RC_OK : Z := 0.
Definition IXGBE_ACI_RC_EBUSY : Z := 12.
Definition IXGBE_ACI_RC_EINVAL : Z := 14.
Definition IXGBE_DRV_VER_STR_LEN_E610 : Z := 32.
Definition IXGBE_NVM_TIMEOUT : Z := 180000.
Definition IXGBE_RES_READ : Z := 1.
Definition IXGBE_RES_WRITE : Z := 2.
Definition IXGBE_NVM_RES_ID : Z := 1.

(** ** Opcodes *)
Definition ixgbe_aci_opc_get_ver : Z := 0x0001.
Definition ixgbe_aci_opc_driver_ver : Z := 0x0002.
Definition ixgbe_aci_opc_req_res : Z := 0x0008.
Definition ixgbe_aci_opc_release_res : Z := 0x0009.
Definition ixgbe_aci_opc_list_func_caps : Z := 0x000A.
Definition ixgbe_aci_opc_list_dev_caps : Z := 0x000B.
Definition ixgbe_aci_opc_disable_rxen : Z := 0x000C.
Definition ixgbe_aci_opc_get_fw_event : Z := 0x0014.
Definition ixgbe_aci_opc_get_phy_caps : Z := 0x0600.
Definition ixgbe_aci_opc_get_link_status : Z := 0x0607.
Definition ixgbe_aci_opc_get_link_topo : Z := 0x06E0.
Definition ixgbe_aci_opc_nvm_read : Z := 0x0701.
Definition ixgbe_aci_opc_nvm_erase : Z := 0x0702.
Definition ixgbe_aci_opc_nvm_write : Z := 0x0703.
Definition ixgbe_aci_opc_nvm_checksum : Z := 0x0706.
Definition ixgbe_aci_opc_nvm_write_activate : Z := 0x0707.
Definition ixgbe_aci_opc_nvm_update_empr : Z := 0x0709.
Definition ixgbe_aci_opc_nvm_pkg_data : Z := 0x070A.
Definition ixgbe_aci_opc_nvm_pass_component_tbl : Z := 0x070B.
Definition ixgbe_aci_opc_nvm_sanitization : Z := 0x070C.

(** ** NVM commands *)
Definition IXGBE_ACI_NVM_MAX_OFFSET : Z := 0xFFFFFF.
Definition IXGBE_ACI_NVM_LAST_CMD : Z := bit 0.
Definition IXGBE_ACI_NVM_SPECIAL_UPDATE : Z := bit 6.
Definition IXGBE_ACI_NVM_FLASH_ONLY : Z := bit 7.
Definition IXGBE_ACI_NVM_ACTIV_REQ_EMPR : Z := bit 8.
Definition IXGBE_ACI_NVM_START_POINT : Z := 0.
Definition IXGBE_ACI_NVM_MINSREV_MOD_ID : Z := 0x130.
Definition IXGBE_ACI_NVM_MINSREV_NVM_VALID : Z := bit 0.
Definition IXGBE_ACI_NVM_MINSREV_OROM_VALID : Z := bit 1.
Definition IXGBE_ACI_NVM_CHECKSUM_VERIFY : Z := bit 0.
Definition IXGBE_ACI_NVM_CHECKSUM_RECALC : Z := bit 1.
Definition IXGBE_ACI_NVM_CHECKSUM_CORRECT : Z := 0xBABA.
Definition IXGBE_ACI_NVM_PKG_DELETE : Z := bit 0.
Definition IXGBE_ACI_SANITIZE_REQ_OPERATE : Z := bit 0.
Definition IXGBE_ACI_SANITIZE_OPERATE_SUBJECT_CLEAR : Z := 0.
Definition IXGBE_ACI_SANITIZE_OPERATE_HOST_CLEAN_DONE : Z := bit 0.
Definition IXGBE_ACI_SANITIZE_OPERATE_HOST_CLEAN_SUCCESS : Z := bit 1.
Definition IXGBE_ACI_SANITIZE_OPERATE_BMC_CLEAN_DONE : Z := bit 2.
Definition IXGBE_ACI_SANITIZE_OPERATE_BMC_CLEAN_SUCCESS : Z := bit 3.

(** ** Capabilities *)
Definition IXGBE_ACI_CAPS_VALID_FUNCTIONS : Z := 0x0005.
Definition IXGBE_ACI_CAPS_VMDQ : Z := 0x0014.
Definition IXGBE_ACI_CAPS_VSI : Z := 0x0017.
Definition IXGBE_ACI_CAPS_DCB : Z := 0x0018.
Definition IXGBE_ACI_CAPS_RSS : Z := 0x0040.
Definition IXGBE_ACI_CAPS_RXQS : Z := 0x0041.
Definition IXGBE_ACI_CAPS_TXQS : Z := 0x0042.
Definition IXGBE_ACI_CAPS_MSIX : Z := 0x0043.
Definition IXGBE_ACI_CAPS_FD : Z := 0x0045.
Definition IXGBE_ACI_CAPS_1588 : Z := 0x0046.
Definition IXGBE_ACI_CAPS_MAX_MTU : Z := 0x0047.
Definition IXGBE_ACI_CAPS_NVM_VER : Z := 0x0048.
Definition IXGBE_ACI_CAPS_PENDING_NVM_VER : Z := 0x0049.
Definition IXGBE_ACI_CAPS_PENDING_OROM_VER : Z := 0x004B.
Definition IXGBE_ACI_CAPS_PENDING_NET_VER : Z := 0x004D.
Definition IXGBE_ACI_CAPS_PCIE_RESET_AVOIDANCE : Z := 0x0076.
Definition IXGBE_ACI_CAPS_POST_UPDATE_RESET_RESTRICT : Z := 0x0077.
Definition IXGBE_ACI_CAPS_NVM_MGMT : Z := 0x0080.
Definition IXGBE_ACI_CAPS_EXT_TOPO_DEV_IMG0 : Z := 0x0081.
Definition IXGBE_ACI_CAPS_EXT_TOPO_DEV_IMG1 : Z := 0x0082.
Definition IXGBE_ACI_CAPS_EXT_TOPO_DEV_IMG2 : Z := 0x0083.
Definition IXGBE_ACI_CAPS_EXT_TOPO_DEV_IMG3 : Z := 0x0084.
Definition IXGBE_ACI_CAPS_OROM_RECOVERY_UPDATE : Z := 0x0090.
Definition IXGBE_ACI_CAPS_NEXT_CLUSTER_ID : Z := 0x0096.
Definition IXGBE_ACI_CAPS_PTP_BY_PHY : Z := 0x0097.
Definition IXGBE_ACI_CAPS_PTP_BY_PHY_SUPP : Z := bit 0.
Definition IXGBE_ACI_CAPS_PTP_BY_PHY_LL : Z := bit 1.
Definition IXGBE_ACI_CAPS_EEE : Z := 0x009B.
Definition IXGBE_NVM_MGMT_SEC_REV_DISABLED : Z := bit 0.
Definition IXGBE_NVM_MGMT_UPDATE_DISABLED : Z := bit 1.
Definition IXGBE_NVM_MGMT_UNIFIED_UPD_SUPPORT : Z := bit 3.
Definition IXGBE_NVM_MGMT_NETLIST_AUTH_SUPPORT : Z := bit 5.
Definition IXGBE_EXT_TOPO_DEV_IMG_PART_NUM_S : Z := 8.
Definition IXGBE_EXT_TOPO_DEV_IMG_PART_NUM_M : Z := Z.shiftl 0xFF IXGBE_EXT_TOPO_DEV_IMG_PART_NUM_S.
Definition IXGBE_EXT_TOPO_DEV_IMG_LOAD_EN : Z := bit 0.
Definition IXGBE_EXT_TOPO_DEV_IMG_PROG_EN : Z := bit 1.
Definition IXGBE_TS_FUNC_ENA_M : Z := bit 0.
Definition IXGBE_TS_SRC_TMR_OWND_M : Z := bit 1.
Definition IXGBE_TS_TMR_ENA_M : Z := bit 2.
Definition IXGBE_TS_TMR_IDX_OWND_M : Z := bit 4.
Definition IXGBE_TS_CLK_FREQ_S : Z := 16.
Definition IXGBE_TS_CLK_FREQ_M : Z := Z.shiftl 0x7 IXGBE_TS_CLK_FREQ_S.
Definition IXGBE_TS_CLK_SRC_M : Z := bit 20.
Definition IXGBE_TS_TMR_IDX_ASSOC_M : Z := bit 24.
Definition IXGBE_TIME_REF_FREQ_25_000 : Z := 0.
Definition IXGBE_TIME_REF_FREQ_245_760 : Z := 5.
Definition IXGBE_TS_TMR0_OWNR_M : Z := 0x7.
Definition IXGBE_TS_TMR0_OWND_M : Z := bit 3.
Definition IXGBE_TS_TMR1_OWNR_S : Z := 4.
Definition IXGBE_TS_TMR1_OWNR_M : Z := Z.shiftl 0x7 IXGBE_TS_TMR1_OWNR_S.
Definition IXGBE_TS_TMR1_OWND_M : Z := bit 7.
Definition IXGBE_TS_DEV_ENA_M : Z := bit 24.
Definition IXGBE_TS_TMR0_ENA_M : Z := bit 25.
Definition IXGBE_TS_TMR1_ENA_M : Z := bit 26.
Definition IXGBE_MAX_VSI : Z := 768.

(** ** Firmware update *)
Definition IXGBE_ACI_NVM_PRESERVATION_S : Z := 1.
Definition IXGBE_ACI_NVM_NO_PRESERVATION : Z := Z.shiftl 0 IXGBE_ACI_NVM_PRESERVATION_S.
Definition IXGBE_ACI_NVM_PRESERVE_ALL : Z := bit 1.
Definition IXGBE_ACI_NVM_PRESERVE_SELECTED : Z := Z.shiftl 3 IXGBE_ACI_NVM_PRESERVATION_S.
Definition IXGBE_ACI_NVM_ACTIV_SEL_NVM : Z := bit 3.
Definition IXGBE_ACI_NVM_ACTIV_SEL_OROM : Z := bit 4.
Definition IXGBE_ACI_NVM_ACTIV_SEL_NETLIST : Z := bit 5.
Definition IXGBE_ACI_NVM_REVERT_LAST_ACTIV : Z := bit 6.
Definition IXGBE_ACI_NVM_RESET_LVL_M : Z := Z.shiftl 0x3 0.
Definition IXGBE_ACI_NVM_POR_FLAG : Z := 0.
Definition IXGBE_ACI_NVM_PERST_FLAG : Z := 1.
Definition IXGBE_ACI_NVM_EMPR_FLAG : Z := 2.
Definition IXGBE_ACI_NVM_EMPR_ENA : Z := bit 0.
Definition IXGBE_ACI_NVM_PASS_COMP_CAN_BE_UPDATED : Z := 0x0.
Definition IXGBE_ACI_NVM_PASS_COMP_CAN_MAY_BE_UPDATEABLE : Z := 0x1.
Definition IXGBE_ACI_NVM_PASS_COMP_CAN_NOT_BE_UPDATED : Z := 0x2.
Definition IXGBE_ACI_NVM_PASS_COMP_PARTIAL_CHECK : Z := 0x3.
Definition NVM_COMP_ID_OROM : Z := 0x5.
Definition NVM_COMP_ID_NVM : Z := 0x6.
Definition NVM_COMP_ID_NETLIST : Z := 0x8.
Definition FWU_COMP_CLASS_IDX_NOT_USE : Z := 0x0.
Definition GL_MNG_FWSM : Z := 0x000B6134.
Definition GL_MNG_FWSM_FW_MODES_RECOVERY_M : Z := bit 1.

(** ** Flash and Shadow RAM *)
Definition GLNVM_GENS : Z := 0x000B6100.
Definition GLNVM_GENS_SR_SIZE_S : Z := 5.
Definition GLNVM_GENS_SR_SIZE_M : Z := Z.shiftl 0x7 5.
Definition GLNVM_FLA : Z := 0x000B6108.
Definition GLNVM_FLA_LOCKED_M : Z := bit 6.
Definition E610_SR_VPD_SIZE_WORDS : Z := 512.
Definition E610_SR_PCIE_ALT_SIZE_WORDS : Z := 512.
Definition E610_SR_NVM_DEV_STARTER_VER : Z := 0x18.
Definition E610_NVM_VER_LO_SHIFT : Z := 0.
Definition E610_NVM_VER_LO_MASK : Z := Z.shiftl 0xff E610_NVM_VER_LO_SHIFT.
Definition E610_NVM_VER_HI_SHIFT : Z := 12.
Definition E610_NVM_VER_HI_MASK : Z := Z.shiftl 0xf E610_NVM_VER_HI_SHIFT.
Definition E610_SR_NVM_EETRACK_LO : Z := 0x2D.
Definition E610_SR_NVM_EETRACK_HI : Z := 0x2E.
Definition E610_SR_VPD_PTR : Z := 0x2F.
Definition E610_SR_PCIE_ALT_AUTO_LOAD_PTR : Z := 0x3E.
Definition E610_SR_SW_CHECKSUM_WORD : Z := 0x3F.
Definition E610_SR_PFA_PTR : Z := 0x40.
Definition E610_SR_1ST_NVM_BANK_PTR : Z := 0x42.
Definition E610_SR_NVM_BANK_SIZE : Z := 0x43.
Definition E610_SR_1ST_OROM_BANK_PTR : Z := 0x44.
Definition E610_SR_OROM_BANK_SIZE : Z := 0x45.
Definition E610_SR_NETLIST_BANK_PTR : Z := 0x46.
Definition E610_SR_NETLIST_BANK_SIZE : Z := 0x47.
Definition E610_SR_NVM_CTRL_WORD : Z := 0x00.
Definition E610_SR_PBA_BLOCK_PTR : Z := 0x16.
Definition IXGBE_OROM_VER_PATCH_SHIFT : Z := 0.
Definition IXGBE_OROM_VER_PATCH_MASK : Z := Z.shiftl 0xff IXGBE_OROM_VER_PATCH_SHIFT.
Definition IXGBE_OROM_VER_BUILD_SHIFT : Z := 8.
Definition IXGBE_OROM_VER_BUILD_MASK : Z := Z.shiftl 0xffff IXGBE_OROM_VER_BUILD_SHIFT.
Definition IXGBE_OROM_VER_SHIFT : Z := 24.
Definition IXGBE_OROM_VER_MASK : Z := Z.shiftl 0xff IXGBE_OROM_VER_SHIFT.
Definition IXGBE_NVM_CSS_HDR_LEN_L : Z := 0x02.
Definition IXGBE_NVM_CSS_HDR_LEN_H : Z := 0x03.
Definition IXGBE_NVM_CSS_SREV_L : Z := 0x14.
Definition IXGBE_NVM_CSS_SREV_H : Z := 0x15.
Definition IXGBE_NVM_AUTH_HEADER_LEN : Z := 0x08.
Definition IXGBE_NETLIST_ID_BLK_SIZE : Z := 0x30.
Definition IXGBE_NETLIST_LINK_TOPO_OFFSET (i : Z) : Z := i + 2.
Definition IXGBE_NETLIST_ID_BLK_OFFSET (i : Z) : Z := IXGBE_NETLIST_LINK_TOPO_OFFSET (0x0004 + 2 * i).
Definition IXGBE_NETLIST_ID_BLK_MAJOR_VER_LOW : Z := 0x02.
Definition IXGBE_NETLIST_ID_BLK_MAJOR_VER_HIGH : Z := 0x03.
Definition IXGBE_NETLIST_ID_BLK_MINOR_VER_LOW : Z := 0x04.
Definition IXGBE_NETLIST_ID_BLK_MINOR_VER_HIGH : Z := 0x05.
Definition IXGBE_NETLIST_ID_BLK_TYPE_LOW : Z := 0x06.
Definition IXGBE_NETLIST_ID_BLK_TYPE_HIGH : Z := 0x07.
Definition IXGBE_NETLIST_ID_BLK_REV_LOW : Z := 0x08.
Definition IXGBE_NETLIST_ID_BLK_REV_HIGH : Z := 0x09.
Definition IXGBE_NETLIST_ID_BLK_SHA_HASH_WORD (i : Z) : Z := 0x0A + i.
Definition IXGBE_NETLIST_ID_BLK_CUST_VER : Z := 0x2F.
Definition IXGBE_NETLIST_LINK_TOPO_MOD_ID : Z := 0x011B.
Definition IXGBE_NETLIST_TYPE_OFFSET : Z := 0x0000.
Definition IXGBE_LINK_TOPO_MODULE_LEN : Z := IXGBE_NETLIST_LINK_TOPO_OFFSET (0x0000).
Definition IXGBE_LINK_TOPO_NODE_COUNT : Z := IXGBE_NETLIST_LINK_TOPO_OFFSET (0x0001).
Definition IXGBE_LINK_TOPO_NODE_COUNT_M : Z := Z.shiftl 0x3FF 0.
Definition IXGBE_SR_CTRL_WORD_1_S : Z := 0x06.
Definition IXGBE_SR_CTRL_WORD_1_M : Z := Z.shiftl 0x03 IXGBE_SR_CTRL_WORD_1_S.
Definition IXGBE_SR_CTRL_WORD_VALID : Z := 0x1.
Definition IXGBE_SR_CTRL_WORD_OROM_BANK : Z := bit 3.
Definition IXGBE_SR_CTRL_WORD_NETLIST_BANK : Z := bit 4.
Definition IXGBE_SR_CTRL_WORD_NVM_BANK : Z := bit 5.
Definition IXGBE_SR_NVM_PTR_4KB_UNITS : Z := bit 15.
Definition IXGBE_SR_SECTOR_SIZE_IN_WORDS : Z := 0x800.
Definition IXGBE_SR_WORDS_IN_1KB : Z := 512.
Definition IXGBE_SR_SW_CHECKSUM_BASE : Z := 0xBABA.
