(* ===== verification/Aci.v ===== *)
(** * Admin command interface of the E610 (ixgbe_e610.c)

    Commands to the firmware through the registers PF_HIDA (descriptor), PF_HIBA
    (data buffer) and PF_HICR (control), and the ownership of shared resources
    built on them.  A descriptor is a record with the members of
    [struct ixgbe_aci_desc]; the union [params] is its sixteen bytes.  The host is
    little-endian, where [IXGBE_CPU_TO_LE16] and the like change nothing.

    A buffer argument is [None] for a NULL pointer and otherwise the bytes the
    pointer can reach; a function that fills a buffer or rewrites a descriptor
    returns the new value.  Whether a memory allocation succeeds is decided by
    the parameter [kmalloc], for each state of the world. *)
From S2P Require Import Prelude Bytes Regs Types Osdep RegsE610.

(** struct ixgbe_aci_desc *)
Record ixgbe_aci_desc := mk_desc {
  d_flags : Z; d_opcode : Z; d_datalen : Z; d_retval : Z;
  d_cookie_high : Z; d_cookie_low : Z; d_params : list Z }.

Definition upd_d_flags (x : Z) (d : ixgbe_aci_desc) : ixgbe_aci_desc :=
  mk_desc x (d_opcode d) (d_datalen d) (d_retval d) (d_cookie_high d) (d_cookie_low d) (d_params d).
Definition upd_d_datalen (x : Z) (d : ixgbe_aci_desc) : ixgbe_aci_desc :=
  mk_desc (d_flags d) (d_opcode d) x (d_retval d) (d_cookie_high d) (d_cookie_low d) (d_params d).
Definition upd_d_params (f : list Z -> list Z) (d : ixgbe_aci_desc) : ixgbe_aci_desc :=
  mk_desc (d_flags d) (d_opcode d) (d_datalen d) (d_retval d) (d_cookie_high d) (d_cookie_low d)
    (f (d_params d)).

(** the descriptor as eight words, [(u32 * )desc], and back *)
Definition raw_desc (d : ixgbe_aci_desc) : list Z :=
  Z.lor (d_flags d) (Z.shiftl (d_opcode d) 16) ::
  Z.lor (d_datalen d) (Z.shiftl (d_retval d) 16) ::
  d_cookie_high d :: d_cookie_low d :: words_of (d_params d).
Definition desc_of_raw (l : list Z) : ixgbe_aci_desc :=
  mk_desc (u16 (nth 0 l 0)) (u16 (Z.shiftr (nth 0 l 0) 16))
    (u16 (nth 1 l 0)) (u16 (Z.shiftr (nth 1 l 0) 16)) (nth 2 l 0) (nth 3 l 0)
    (bytes_of (drop 4 l)).

(** struct ixgbe_aci_event; struct ixgbe_driver_ver *)
Record ixgbe_aci_event := mk_aci_event {
  e_desc : ixgbe_aci_desc; e_msg_len : Z; e_buf_len : Z; e_msg_buf : option (list Z) }.
Record ixgbe_driver_ver := mk_driver_ver {
  dv_major : Z; dv_minor : Z; dv_build : Z; dv_subbuild : Z; dv_string : list Z }.

(** what a command leaves to its caller: status, descriptor, buffer *)
Definition aci_reply : Type := Z * ixgbe_aci_desc * option (list Z).

Definition ixgbe_should_retry_aci_send_cmd_execute (opcode : Z) : bool :=
  (opcode =? ixgbe_aci_opc_disable_rxen) || (opcode =? ixgbe_aci_opc_get_phy_caps) ||
  (opcode =? ixgbe_aci_opc_get_link_status) || (opcode =? ixgbe_aci_opc_get_link_topo).

Definition ixgbe_fill_dflt_direct_cmd_desc (opcode : Z) : ixgbe_aci_desc :=
  mk_desc IXGBE_ACI_FLAG_SI opcode 0 0 0 0 (replicate 16 0).

Section Aci.
Context `{D : Mmio} (kmalloc : Z -> world -> bool).

Definition ixgbe_malloc (size : Z) : M bool := gets (kmalloc size).

(** [ixgbe_acquire_lock(&hw->aci.lock)]: a thread that already holds the mutex
    would wait for itself *)
Definition ixgbe_acquire_lock : M unit :=
  h ← get_hw;
  if aci_lock (aci h) then crash FDeadlock
  else upd_hw (fun h => upd_aci (upd_aci_lock true (aci h)) h).
Definition ixgbe_release_lock : M unit :=
  upd_hw (fun h => upd_aci (upd_aci_lock false (aci h)) h).

(** a fresh mutex is free *)
Definition ixgbe_init_aci : M unit :=
  upd_hw (fun h => upd_aci (upd_aci_lock false (aci h)) h).

Definition set_last_status (s : Z) : M unit :=
  upd_hw (fun h => upd_aci (upd_aci_last_status s (aci h)) h).
Definition get_last_status : M Z := h ← get_hw; mret (aci_last_status (aci h)).

(** the eight descriptor words, out and in *)
Definition write_hida (d : ixgbe_aci_desc) : M unit :=
  for_loop (Z.to_nat IXGBE_ACI_DESC_SIZE_IN_DWORDS) 0 (fun i =>
    x ← nth_c (raw_desc d) i; IXGBE_WRITE_REG (PF_HIDA i) x).
Definition read_desc (reg : Z -> Z) (d : ixgbe_aci_desc) : M ixgbe_aci_desc :=
  l ← for_acc (Z.to_nat IXGBE_ACI_DESC_SIZE_IN_DWORDS) 0 (raw_desc d) (fun i l =>
    x ← IXGBE_READ_REG (reg i); upd_c l i x);
  mret (desc_of_raw l).

(** [tmp_buf_size]: the size rounded up to words *)
Definition aci_tmp_buf_size (buf_size : Z) : Z :=
  if buf_size mod 4 =? 0 then buf_size else Z.land buf_size (bnot 16 0x03) + 4.

(** the part of [ixgbe_aci_send_cmd_execute] that waits: the last value of HICR *)
Definition aci_wait (bits : Z) (timeout : Z) (hicr : Z) : M Z :=
  r ← for_break (Z.to_nat timeout) 0 hicr (fun _ _ =>
        hicr ← IXGBE_READ_REG PF_HICR;
        if has hicr bits || negb (has hicr PF_HICR_C) then mret (inr hicr)
        else msec_delay 1 ;; mret (inl hicr));
  mret (match r with inl h => h | inr h => h end).

(** waiting for the answer and reading it: the last value of HICR, the descriptor *)
Definition aci_answer (d : ixgbe_aci_desc) (hicr : Z) : M (Z * ixgbe_aci_desc) :=
  hicr ← aci_wait PF_HICR_SV IXGBE_ACI_SYNC_RESPONSE_TIMEOUT hicr;
  hicr ← (if has hicr PF_HICR_SV && has hicr PF_HICR_C
          then aci_wait PF_HICR_EV IXGBE_ACI_ASYNC_RESPONSE_TIMEOUT hicr else mret hicr);
  d ← (if has hicr PF_HICR_SV then read_desc PF_HIDA d else mret d);
  d ← (if has hicr PF_HICR_EV && negb (has hicr PF_HICR_C) then read_desc PF_HIDA_2 d else mret d);
  mret (hicr, d).

(** writing a command to the registers; [tmp_buf] is the filled bounce buffer, if
    there is a valid buffer *)
Definition aci_submit (d : ixgbe_aci_desc) (tmp_buf : option (list Z)) : M Z :=
  (match tmp_buf with
   | Some t =>
       if has (d_flags d) IXGBE_ACI_FLAG_RD then
         for_loop (length t) 0 (fun i => x ← nth_c t i; IXGBE_WRITE_REG (PF_HIBA i) x)
       else mret tt
   | None => mret tt
   end) ;;
  write_hida d ;;
  hicr ← IXGBE_READ_REG PF_HICR;
  let hicr := Z.land (Z.lor hicr PF_HICR_C) (bnot 32 (Z.lor PF_HICR_SV PF_HICR_EV)) in
  IXGBE_WRITE_REG PF_HICR hicr ;;
  mret hicr.

(** from the first write to a register to the end *)
Definition aci_exchange (opcode : Z) (d : ixgbe_aci_desc) (buf : option (list Z)) (buf_size : Z)
    (tmp_buf : option (list Z)) : M aci_reply :=
  hicr ← aci_submit d tmp_buf;
  x ← aci_answer d hicr;
  let '(hicr, d) := x in
  if has hicr PF_HICR_C then mret (IXGBE_ERR_ACI_TIMEOUT, d, buf)
  else if negb (has hicr PF_HICR_SV) && negb (has hicr PF_HICR_EV)
  then mret (IXGBE_ERR_ACI_ERROR, d, buf)
  else if negb (d_opcode d =? opcode) && negb (opcode =? ixgbe_aci_opc_get_fw_event)
  then mret (IXGBE_ERR_ACI_ERROR, d, buf)
  else if negb (d_retval d =? IXGBE_ACI_RC_OK)
  then set_last_status (d_retval d) ;; mret (IXGBE_ERR_ACI_ERROR, d, buf)
  else
    match tmp_buf, buf with
    | Some t, Some b =>
        if has (d_flags d) IXGBE_ACI_FLAG_BUF then
          t ← for_acc (length t) 0 t (fun i t => x ← IXGBE_READ_REG (PF_HIBA i); upd_c t i x);
          s ← copy_from (bytes_of t) buf_size;
          b ← copy_to b s;
          mret (IXGBE_SUCCESS, d, Some b)
        else mret (IXGBE_SUCCESS, d, buf)
    | _, _ => mret (IXGBE_SUCCESS, d, buf)
    end.

Definition ixgbe_aci_send_cmd_execute (d : ixgbe_aci_desc) (buf : option (list Z)) (buf_size : Z) :
    M aci_reply :=
  set_last_status IXGBE_ACI_RC_OK ;;
  hicr ← IXGBE_READ_REG PF_HICR;
  if negb (has hicr PF_HICR_EN) then mret (IXGBE_ERR_ACI_DISABLED, d, buf)
  else if has hicr PF_HICR_C
  then set_last_status IXGBE_ACI_RC_EBUSY ;; mret (IXGBE_ERR_ACI_BUSY, d, buf)
  else
    let opcode := d_opcode d in
    if IXGBE_ACI_MAX_BUFFER_SIZE <? buf_size then mret (IXGBE_ERR_PARAM, d, buf)
    else
      let d := match buf with
               | Some _ => upd_d_flags (Z.lor (d_flags d) IXGBE_ACI_FLAG_BUF) d
               | None => d
               end in
      if has (d_flags d) IXGBE_ACI_FLAG_BUF &&
         match buf with Some _ => buf_size =? 0 | None => negb (buf_size =? 0) end
      then mret (IXGBE_ERR_PARAM, d, buf)
      else
        match buf with
        | Some b =>
            let tmp_buf_size := aci_tmp_buf_size buf_size in
            ok ← ixgbe_malloc tmp_buf_size;
            if negb ok then mret (IXGBE_ERR_OUT_OF_MEM, d, buf)
            else
              s ← copy_from b buf_size;
              let tmp_buf := words_of (s ++ replicate (Z.to_nat (tmp_buf_size - buf_size)) 0xFF) in
              let d := if IXGBE_ACI_LG_BUF <? tmp_buf_size
                       then upd_d_flags (Z.lor (d_flags d) IXGBE_ACI_FLAG_LB) d else d in
              let d := upd_d_datalen buf_size d in
              aci_exchange opcode d buf buf_size (Some tmp_buf)
        | None => aci_exchange opcode d buf buf_size None
        end.

(** one execution under the lock, with the status the firmware left *)
Definition aci_execute_locked (d : ixgbe_aci_desc) (buf : option (list Z)) (buf_size : Z) :
    M (aci_reply * Z) :=
  ixgbe_acquire_lock ;;
  x ← (r ← ixgbe_aci_send_cmd_execute d buf buf_size;
       last_status ← get_last_status;
       mret (r, last_status));
  ixgbe_release_lock ;;
  mret x.

(** the loop of [ixgbe_aci_send_cmd]; [n] counts the executions that are left
    after this one, [desc_cpy] and [buf_cpy] are the copies made before it *)
Fixpoint aci_send_loop (n : nat) (is_cmd_for_retry : bool) (desc_cpy : ixgbe_aci_desc)
    (buf_cpy : list Z) (d : ixgbe_aci_desc) (buf : option (list Z)) (buf_size : Z) : M aci_reply :=
  x ← aci_execute_locked d buf buf_size;
  let '(r, last_status) := x in
  let '(status, _, buf) := r in
  if negb is_cmd_for_retry || (status =? IXGBE_SUCCESS) ||
     (negb (last_status =? IXGBE_ACI_RC_EBUSY) && negb (status =? IXGBE_ERR_ACI_ERROR))
  then mret r
  else
    buf ← (match buf with Some b => b ← copy_to b buf_cpy; mret (Some b) | None => mret None end);
    msec_delay IXGBE_ACI_SEND_DELAY_TIME_MS ;;
    match n with
    | O => mret (status, desc_cpy, buf)
    | S n' => aci_send_loop n' is_cmd_for_retry desc_cpy buf_cpy desc_cpy buf buf_size
    end.

Definition ixgbe_aci_send_cmd (d : ixgbe_aci_desc) (buf : option (list Z)) (buf_size : Z) :
    M aci_reply :=
  let is_cmd_for_retry := ixgbe_should_retry_aci_send_cmd_execute (d_opcode d) in
  let n := Z.to_nat (IXGBE_ACI_SEND_MAX_EXECUTE - 1) in
  match buf with
  | Some b =>
      if is_cmd_for_retry then
        ok ← ixgbe_malloc buf_size;
        if negb ok then mret (IXGBE_ERR_OUT_OF_MEM, d, buf)
        else
          c ← copy_from b buf_size;
          aci_send_loop n true d c d buf buf_size
      else aci_send_loop n false d [] d buf buf_size
  | None => aci_send_loop n is_cmd_for_retry d [] d buf buf_size
  end.

(** a command without a buffer: its status and descriptor *)
Definition aci_direct (d : ixgbe_aci_desc) : M (Z * ixgbe_aci_desc) :=
  r ← ixgbe_aci_send_cmd d None 0; mret (fst r).

(** *** Events *)
Definition ixgbe_aci_check_event_pending : M bool :=
  h ← get_hw;
  let ep_bit_mask := if bus_func h =? 0 then GL_FWSTS_EP_PF0 else GL_FWSTS_EP_PF1 in
  fwsts ← IXGBE_READ_REG GL_FWSTS;
  mret (has fwsts ep_bit_mask).

(** [e] is [None] for NULL, [pending] whether the caller wants the flag; the
    result has the status, the event structure and the flag *)
Definition ixgbe_aci_get_event (e : option ixgbe_aci_event) (pending : bool) :
    M (Z * option ixgbe_aci_event * option bool) :=
  match e with
  | None => mret (IXGBE_ERR_PARAM, None, None)
  | Some ev =>
      if match e_msg_buf ev with
         | None => negb (e_buf_len ev =? 0)
         | Some _ => e_buf_len ev =? 0
         end
      then mret (IXGBE_ERR_PARAM, e, None)
      else
        ixgbe_acquire_lock ;;
        r ← (p ← ixgbe_aci_check_event_pending;
             if negb p then mret (IXGBE_ERR_ACI_NO_EVENTS, e, None)
             else
               r ← ixgbe_aci_send_cmd_execute
                     (ixgbe_fill_dflt_direct_cmd_desc ixgbe_aci_opc_get_fw_event)
                     (e_msg_buf ev) (e_buf_len ev);
               let '(status, desc, buf) := r in
               let ev := mk_aci_event (e_desc ev) (e_msg_len ev) (e_buf_len ev) buf in
               if negb (status =? 0) then mret (status, Some ev, None)
               else if d_opcode desc =? ixgbe_aci_opc_get_fw_event
               then mret (IXGBE_ERR_ACI_NO_EVENTS, Some ev, None)
               else
                 let ev := mk_aci_event desc (Z.min (d_datalen desc) (e_buf_len ev)) (e_buf_len ev) buf in
                 if pending then
                   p ← ixgbe_aci_check_event_pending; mret (status, Some ev, Some p)
                 else mret (status, Some ev, None));
        ixgbe_release_lock ;;
        mret r
  end.

(** *** Versions *)
Definition ixgbe_aci_get_fw_ver : M Z :=
  r ← aci_direct (ixgbe_fill_dflt_direct_cmd_desc ixgbe_aci_opc_get_ver);
  let '(status, desc) := r in
  let p := d_params desc in
  (if status =? 0 then
     upd_hw (upd_fw_version (mk_fw_version (get8 p 12) (get8 p 13) (get8 p 14) (get8 p 15)
                               (get8 p 8) (get8 p 9) (get8 p 10) (get8 p 11) (get32 p 4)))
   else mret tt) ;;
  mret status.

(** the length of the ASCII prefix of the string *)
Fixpoint driver_string_len (s : list Z) : Z :=
  match s with
  | c :: s' => if (c <? 0x80) && negb (c =? 0) then 1 + driver_string_len s' else 0
  | [] => 0
  end.

Definition ixgbe_aci_send_driver_ver (dv : option ixgbe_driver_ver) : M (Z * option (list Z)) :=
  match dv with
  | None => mret (IXGBE_ERR_PARAM, None)
  | Some v =>
      let d := ixgbe_fill_dflt_direct_cmd_desc ixgbe_aci_opc_driver_ver in
      let d := upd_d_flags (Z.lor (d_flags d) IXGBE_ACI_FLAG_RD) d in
      let d := upd_d_params (fun p => put8 3 (dv_subbuild v) (put8 2 (dv_build v)
                 (put8 1 (dv_minor v) (put8 0 (dv_major v) p)))) d in
      r ← ixgbe_aci_send_cmd d (Some (dv_string v)) (driver_string_len (dv_string v));
      let '(status, _, buf) := r in
      mret (status, buf)
  end.

(** *** Resource ownership *)

(** status and the new value of [*timeout] *)
Definition ixgbe_aci_req_res (res access sdp_number timeout : Z) : M (Z * Z) :=
  let d := upd_d_params (fun p => put32 4 timeout (put32 8 sdp_number
             (put16 2 access (put16 0 res p))))
             (ixgbe_fill_dflt_direct_cmd_desc ixgbe_aci_opc_req_res) in
  r ← aci_direct d;
  let '(status, desc) := r in
  last_status ← get_last_status;
  mret (status, if (status =? 0) || (last_status =? IXGBE_ACI_RC_EBUSY)
                then get32 (d_params desc) 4 else 0).

Definition ixgbe_aci_release_res (res sdp_number : Z) : M Z :=
  let d := upd_d_params (fun p => put32 8 sdp_number (put16 0 res p))
             (ixgbe_fill_dflt_direct_cmd_desc ixgbe_aci_opc_release_res) in
  r ← aci_direct d;
  mret (fst r).

Definition IXGBE_RES_POLLING_DELAY_MS : Z := 10.

(** the loop of [ixgbe_acquire_res] *)
Fixpoint acquire_res_poll (fuel : nat) (res access status retry_timeout res_timeout : Z) : M Z :=
  if (status =? 0) || (retry_timeout =? 0) || (res_timeout =? 0) then mret status
  else
    match fuel with
    | O => crash FOutOfFuel
    | S fuel' =>
        let delay := IXGBE_RES_POLLING_DELAY_MS in
        msec_delay delay ;;
        let retry_timeout := if delay <? retry_timeout then retry_timeout - delay else 0 in
        r ← ixgbe_aci_req_res res access 0 res_timeout;
        let '(status, res_timeout) := r in
        if status =? IXGBE_ERR_ACI_NO_WORK then mret status
        else if status =? 0 then mret status
        else acquire_res_poll fuel' res access status retry_timeout res_timeout
    end.

Definition ixgbe_acquire_res (res access timeout : Z) : M Z :=
  r ← ixgbe_aci_req_res res access 0 timeout;
  let '(status, res_timeout) := r in
  if status =? IXGBE_ERR_ACI_NO_WORK then mret status
  else acquire_res_poll (Z.to_nat (res_timeout / IXGBE_RES_POLLING_DELAY_MS + 1))
         res access status res_timeout res_timeout.

Definition ixgbe_release_res (res : Z) : M unit :=
  status ← ixgbe_aci_release_res res 0;
  _ ← for_break (B := unit) (Z.to_nat IXGBE_ACI_RELEASE_RES_TIMEOUT) 0 status (fun _ status =>
        if negb (status =? IXGBE_ERR_ACI_TIMEOUT) then mret (inr tt)
        else
          msec_delay 1 ;;
          status ← ixgbe_aci_release_res res 0;
          mret (inl status));
  mret tt.
End Aci.
