(* ===== verification/AciSafe.v ===== *)
(** * The admin command interface on an arbitrary device

    What the driver does on the bus for one command, whatever firmware and
    device answer: which registers it writes, in which order, how long it waits,
    which status it can return, and that it neither leaves its buffers nor keeps
    the lock. *)
From S2P Require Import Prelude Bytes Regs Types Osdep Trace RegsE610 Aci.

(** the registers of the interface *)
Definition aci_reg (r : Z) : Prop :=
  0x84000 <= r < 0x85040 \/ r = PF_HICR \/ r = GL_FWSTS \/ r = GLNVM_FLA \/ r = GLNVM_GENS.
Definition aci_access (a : access) : Prop :=
  match a with Rd r _ | Wr r _ => aci_reg r | Dly _ => True end.

Definition aci_status (s : Z) : Prop :=
  In s [IXGBE_SUCCESS; IXGBE_ERR_ACI_DISABLED; IXGBE_ERR_ACI_BUSY; IXGBE_ERR_PARAM;
        IXGBE_ERR_ACI_TIMEOUT; IXGBE_ERR_ACI_ERROR; IXGBE_ERR_OUT_OF_MEM].
Ltac aci_code := unfold aci_status; simpl; auto 10.

(** the writes of a list of words to a register array *)
Definition reg_writes (reg : Z -> Z) (l : list Z) : list (Z * Z) :=
  imap (fun i x => (reg (Z.of_nat i), u32 x)) l.

Lemma reg_writes_snoc reg l x :
  reg_writes reg (l ++ [x]) = reg_writes reg l ++ [(reg (Z.of_nat (length l)), u32 x)].
Proof. unfold reg_writes. rewrite imap_app. simpl. by rewrite Nat.add_0_r. Qed.

Lemma PF_HIDA_reg i : 0 <= i < 8 -> aci_reg (PF_HIDA i).
Proof. unfold PF_HIDA. left. lia. Qed.
Lemma PF_HIDA_2_reg i : 0 <= i < 8 -> aci_reg (PF_HIDA_2 i).
Proof. unfold PF_HIDA_2. left. lia. Qed.
Lemma PF_HIBA_reg i : 0 <= i < 1024 -> aci_reg (PF_HIBA i).
Proof. unfold PF_HIBA. left. lia. Qed.
Lemma PF_HICR_reg : aci_reg PF_HICR.
Proof. by right; left. Qed.
Lemma GL_FWSTS_reg : aci_reg GL_FWSTS.
Proof. right; right; by left. Qed.
Lemma GLNVM_FLA_reg : aci_reg GLNVM_FLA.
Proof. right; right; right; by left. Qed.
Lemma GLNVM_GENS_reg : aci_reg GLNVM_GENS.
Proof. right; right; right; by right. Qed.
#[export] Hint Resolve PF_HIDA_reg PF_HIDA_2_reg PF_HIBA_reg PF_HICR_reg GL_FWSTS_reg
  GLNVM_FLA_reg GLNVM_GENS_reg : aci.

(** the state of the lock is what a command needs to know of [struct ixgbe_hw] *)
Definition lock_st (h : ixgbe_hw) : bool := aci_lock (aci h).
Lemma lock_st_remove h : lock_st (ixgbe_remove_adapter h) = lock_st h.
Proof.
  unfold ixgbe_remove_adapter, lock_st. destruct (hw_addr h); [|done]. simpl.
  by destruct (__IXGBE_SERVICE_INITED (back h)).
Qed.

Section Does.
Context `{D : Mmio}.

(** [does c m T]: with the lock in state [c], [m] touches only registers of the
    interface, leaves the lock as it is, and its result, its writes and the time
    it waits satisfy [T] *)
Definition does {A} (c : bool) (m : M A) (T : A -> list (Z * Z) -> Z -> Prop) : Prop :=
  traces lock_st c m (fun a l => Forall aci_access l /\ T a (wrs l) (waits l)).

Lemma do_ret {A} c (a : A) (T : A -> list (Z * Z) -> Z -> Prop) : T a [] 0 -> does c (mret a) T.
Proof. intros HT. apply tr_ret. by split. Qed.

Lemma do_mono {A} c (m : M A) (T T' : A -> list (Z * Z) -> Z -> Prop) :
  does c m T -> (forall a ws n, T a ws n -> T' a ws n) -> does c m T'.
Proof. intros Hm HT. eapply tr_mono; [exact Hm|]. intros a l [? ?]. auto. Qed.

Lemma do_bind {A B} c (m : M A) (f : A -> M B) T1 (T : B -> list (Z * Z) -> Z -> Prop) :
  does c m T1 ->
  (forall a ws n, T1 a ws n -> does c (f a) (fun b ws' n' => T b (ws ++ ws') (n + n'))) ->
  does c (m ≫= f) T.
Proof.
  intros Hm Hf. eapply tr_bind; [exact Hm|]. intros a l [Hl Ha].
  eapply tr_mono; [by apply Hf|]. intros b l' [Hl' Hb].
  split; [by apply Forall_app|]. by rewrite wrs_app, waits_app.
Qed.

Lemma do_read c r (T : Z -> list (Z * Z) -> Z -> Prop) :
  aci_reg r -> (forall v, in_range 32 v -> T v [] 0) -> does c (IXGBE_READ_REG r) T.
Proof.
  intros Hr HT. apply tr_READ_REG; [exact lock_st_remove|]. intros v Hv.
  split; [by apply Forall_singleton|by apply HT].
Qed.

Lemma do_write c r v (T : unit -> list (Z * Z) -> Z -> Prop) :
  aci_reg r -> T tt [(r, u32 v)] 0 -> does c (IXGBE_WRITE_REG r v) T.
Proof. intros Hr HT. apply tr_WRITE_REG. split; [by apply Forall_singleton|done]. Qed.

Lemma do_msec c ms (T : unit -> list (Z * Z) -> Z -> Prop) :
  T tt [] (1000 * ms) -> does c (msec_delay ms) T.
Proof.
  intros HT. apply tr_udelay. split; [by apply Forall_singleton|]. cbn [wrs waits].
  by rewrite Z.add_0_r.
Qed.

Lemma do_bind_read {B} c r (f : Z -> M B) (T : B -> list (Z * Z) -> Z -> Prop) :
  aci_reg r -> (forall v, in_range 32 v -> does c (f v) T) -> does c (IXGBE_READ_REG r ≫= f) T.
Proof.
  intros Hr Hf. eapply do_bind; [by apply (do_read c r (fun v ws n => in_range 32 v /\ ws = [] /\ n = 0))|].
  intros v ws n (Hv & -> & ->). by apply Hf.
Qed.

Lemma do_bind_write {B} c r v (f : unit -> M B) (T : B -> list (Z * Z) -> Z -> Prop) :
  aci_reg r -> does c (f tt) (fun b ws n => T b ((r, u32 v) :: ws) n) ->
  does c (IXGBE_WRITE_REG r v ≫= f) T.
Proof.
  intros Hr Hf. eapply do_bind; [by apply (do_write c r v (fun _ ws n => ws = [(r, u32 v)] /\ n = 0))|].
  by intros [] ws n (-> & ->).
Qed.

Lemma do_bind_msec {B} c ms (f : unit -> M B) (T : B -> list (Z * Z) -> Z -> Prop) :
  does c (f tt) (fun b ws n => T b ws (1000 * ms + n)) -> does c (msec_delay ms ≫= f) T.
Proof.
  intros Hf. eapply do_bind; [by apply (do_msec c ms (fun _ ws n => ws = [] /\ n = 1000 * ms))|].
  by intros [] ws n (-> & ->).
Qed.

Lemma do_bind_upd_hw {B} c g (f : unit -> M B) T :
  (forall h, lock_st (g h) = lock_st h) -> (forall h, hw_addr (g h) = hw_addr h) ->
  does c (f tt) T -> does c (upd_hw g ≫= f) T.
Proof. apply tr_bind_upd_hw. Qed.

Lemma do_bind_get_hw {B} c (f : ixgbe_hw -> M B) T :
  (forall h, lock_st h = c -> does c (f h) T) -> does c (get_hw ≫= f) T.
Proof. apply tr_bind_get_hw. Qed.

Lemma do_if {A} c (b : bool) (m1 m2 : M A) T :
  (b = true -> does c m1 T) -> (b = false -> does c m2 T) -> does c (if b then m1 else m2) T.
Proof. destruct b; auto. Qed.

Lemma do_last_status c s (T : unit -> list (Z * Z) -> Z -> Prop) :
  T tt [] 0 -> does c (set_last_status s) T.
Proof. intros HT. apply tr_upd_hw; [done|done|]. by split. Qed.

Lemma do_bind_last_status {B} c s (f : unit -> M B) T :
  does c (f tt) T -> does c (set_last_status s ≫= f) T.
Proof. by apply do_bind_upd_hw. Qed.

Lemma do_get_last_status c (T : Z -> list (Z * Z) -> Z -> Prop) :
  (forall s, T s [] 0) -> does c get_last_status T.
Proof. intros HT. apply do_bind_get_hw. intros h _. by apply do_ret. Qed.

Lemma do_copy_from c src n (T : list Z -> list (Z * Z) -> Z -> Prop) :
  n <= Z.of_nat (length src) -> T (take (Z.to_nat n) src) [] 0 -> does c (copy_from src n) T.
Proof.
  intros Hn HT w Hc. apply wp_copy_from; [done|]. split; [done|]. exists [].
  split; [by split|apply did_nil].
Qed.

Lemma do_copy_to c dst src (T : list Z -> list (Z * Z) -> Z -> Prop) :
  (length src <= length dst)%nat -> T (src ++ drop (length src) dst) [] 0 -> does c (copy_to dst src) T.
Proof.
  intros Hn HT w Hc. apply wp_copy_to; [done|]. split; [done|]. exists [].
  split; [by split|apply did_nil].
Qed.

Lemma do_for_loop c n i (body : Z -> M unit) (I : Z -> list (Z * Z) -> Z -> Prop) :
  I i [] 0 ->
  (forall k ws t, i <= k < i + Z.of_nat n -> I k ws t ->
     does c (body k) (fun _ ws' t' => I (k + 1) (ws ++ ws') (t + t'))) ->
  does c (for_loop n i body) (fun _ ws t => I (i + Z.of_nat n) ws t).
Proof.
  intros H0 Hb. apply tr_for_loop with (I := fun k l => Forall aci_access l /\ I k (wrs l) (waits l));
    [by split|].
  intros k l Hk [HF HI]. eapply tr_mono; [by apply (Hb k)|]. intros [] l' [HF' HI'].
  split; [by apply Forall_app|]. by rewrite wrs_app, waits_app.
Qed.

Lemma do_for_acc {A} c n i (a : A) (body : Z -> A -> M A) (I : Z -> A -> list (Z * Z) -> Z -> Prop) :
  I i a [] 0 ->
  (forall k b ws t, i <= k < i + Z.of_nat n -> I k b ws t ->
     does c (body k b) (fun b' ws' t' => I (k + 1) b' (ws ++ ws') (t + t'))) ->
  does c (for_acc n i a body) (fun b ws t => I (i + Z.of_nat n) b ws t).
Proof.
  intros H0 Hb.
  apply tr_for_acc with (I := fun k b l => Forall aci_access l /\ I k b (wrs l) (waits l)); [by split|].
  intros k b l Hk [HF HI]. eapply tr_mono; [by apply (Hb k b)|]. intros b' l' [HF' HI'].
  split; [by apply Forall_app|]. by rewrite wrs_app, waits_app.
Qed.

Lemma do_for_break {A B} c n i (a : A) (body : Z -> A -> M (A + B))
    (I : Z -> A -> list (Z * Z) -> Z -> Prop) (T : A + B -> list (Z * Z) -> Z -> Prop) :
  I i a [] 0 ->
  (forall k b ws t, i <= k < i + Z.of_nat n -> I k b ws t ->
     does c (body k b) (fun x ws' t' => match x with
                                        | inl b' => I (k + 1) b' (ws ++ ws') (t + t')
                                        | inr y => T (inr y) (ws ++ ws') (t + t')
                                        end)) ->
  (forall b ws t, I (i + Z.of_nat n) b ws t -> T (inl b) ws t) ->
  does c (for_break n i a body) T.
Proof.
  intros H0 Hb He.
  apply tr_for_break with (I := fun k b l => Forall aci_access l /\ I k b (wrs l) (waits l));
    [by split| |].
  - intros k b l Hk [HF HI]. eapply tr_mono; [by apply (Hb k b)|]. intros x l' [HF' HI'].
    rewrite wrs_app, waits_app. destruct x; (split; [by apply Forall_app|done]).
  - intros b l [? ?]. split; [done|by apply He].
Qed.

Lemma do_nth_c {A} c (l : list A) i (T : A -> list (Z * Z) -> Z -> Prop) :
  0 <= i < Z.of_nat (length l) -> (forall x, l !! Z.to_nat i = Some x -> T x [] 0) ->
  does c (nth_c l i) T.
Proof.
  intros Hi HT. destruct (lookup_lt_is_Some_2 l (Z.to_nat i)) as [x Hx]; [lia|].
  eapply tr_nth_c; [lia|exact Hx|]. split; [constructor|by apply HT].
Qed.

Lemma do_upd_c {A} c (l : list A) i x (T : list A -> list (Z * Z) -> Z -> Prop) :
  0 <= i < Z.of_nat (length l) -> T (<[Z.to_nat i := x]> l) [] 0 -> does c (upd_c l i x) T.
Proof. intros Hi HT. apply tr_upd_c; [done|]. split; [constructor|done]. Qed.

(** writing a list of words to an array of registers *)
Lemma do_write_words c reg l (T : unit -> list (Z * Z) -> Z -> Prop) :
  (forall i, 0 <= i < Z.of_nat (length l) -> aci_reg (reg i)) -> T tt (reg_writes reg l) 0 ->
  does c (for_loop (length l) 0 (fun i => x ← nth_c l i; IXGBE_WRITE_REG (reg i) x)) T.
Proof.
  intros Hr HT. eapply do_mono.
  { apply do_for_loop with (I := fun k ws t => ws = reg_writes reg (take (Z.to_nat k) l) /\ t = 0); [done|].
    intros k ws t Hk [-> ->]. eapply do_bind.
    { apply (do_nth_c c l k (fun x ws t => l !! Z.to_nat k = Some x /\ ws = [] /\ t = 0)); [lia|done]. }
    intros x ws t (Hx & -> & ->). apply do_write; [apply Hr; lia|].
    replace (Z.to_nat (k + 1)) with (S (Z.to_nat k)) by lia. rewrite (take_S_r _ _ x) by done.
    rewrite reg_writes_snoc, length_take_le by (apply lookup_lt_Some in Hx; lia).
    rewrite Z2Nat.id by lia. done. }
  intros [] ws t [-> ->]. by rewrite Z.add_0_l, Nat2Z.id, firstn_all.
Qed.

(** reading words from an array of registers *)
Lemma do_read_words c reg l (n : nat) (T : list Z -> list (Z * Z) -> Z -> Prop) :
  (forall i, 0 <= i < Z.of_nat n -> aci_reg (reg i)) -> (n <= length l)%nat ->
  (forall l', length l' = length l -> T l' [] 0) ->
  does c (for_acc n 0 l (fun i l => x ← IXGBE_READ_REG (reg i); upd_c l i x)) T.
Proof.
  intros Hr Hn HT. eapply do_mono.
  { apply do_for_acc with (I := fun k b ws t => length b = length l /\ ws = [] /\ t = 0); [done|].
    intros k b ws t Hk (Hb & -> & ->). apply do_bind_read; [apply Hr; lia|]. intros v Hv.
    apply do_upd_c; [lia|]. by rewrite length_insert. }
  intros b ws t (Hb & -> & ->). by apply HT.
Qed.

(** a computation run with the lock held *)
Lemma do_locked {A} (m : M A) T :
  does true m T -> does false (ixgbe_acquire_lock ;; (a ← m; ixgbe_release_lock ;; mret a)) T.
Proof.
  intros Hm w Hc. unfold ixgbe_acquire_lock. apply wp_bind, wp_bind, wp_get_hw.
  unfold lock_st in Hc. rewrite Hc. apply wp_upd_hw. apply wp_bind. eapply wp_mono.
  { apply Hm. done. }
  intros a w1 (Hc1 & l & HT & Hd). apply wp_bind, wp_upd_hw, wp_ret. split; [done|].
  exists l. split; [done|]. intros Ha. specialize (Hd Ha). exact Hd.
Qed.

Lemma do_bind_assoc {A B E} c (m : M A) (g : A -> M B) (f : B -> M E) T :
  does c (m ≫= (fun x => g x ≫= f)) T <-> does c ((m ≫= g) ≫= f) T.
Proof.
  split; intros Hm w Hc; specialize (Hm w Hc); unfold wp, mbind, comp_bind in *; by destruct (m w).
Qed.
End Does.

(** ** One command *)

(** the descriptor and the words of the bounce buffer that are sent *)
Definition aci_request (d : ixgbe_aci_desc) (buf : option (list Z)) (buf_size : Z) :
    ixgbe_aci_desc * list Z :=
  match buf with
  | Some b =>
      let fl := Z.lor (Z.lor (d_flags d) IXGBE_ACI_FLAG_BUF)
                  (if IXGBE_ACI_LG_BUF <? aci_tmp_buf_size buf_size then IXGBE_ACI_FLAG_LB else 0) in
      (upd_d_datalen buf_size (upd_d_flags fl d),
       words_of (take (Z.to_nat buf_size) b ++
                 replicate (Z.to_nat (aci_tmp_buf_size buf_size - buf_size)) 0xFF))
  | None => (d, [])
  end.

(** the writes that submit a command: the buffer if the firmware is to read it,
    the descriptor, then HICR with the command bit set and the answer bits clear *)
Definition submits (rq : ixgbe_aci_desc * list Z) (ws : list (Z * Z)) : Prop :=
  exists hicr, in_range 32 hicr /\ has hicr PF_HICR_C = true /\
    has hicr PF_HICR_SV = false /\ has hicr PF_HICR_EV = false /\
    ws = (if has (d_flags rq.1) IXGBE_ACI_FLAG_RD then reg_writes PF_HIBA rq.2 else []) ++
         reg_writes PF_HIDA (raw_desc rq.1) ++ [(PF_HICR, hicr)].

(** the value written to HICR *)
Definition command_hicr (hicr : Z) : Z :=
  Z.land (Z.lor hicr PF_HICR_C) (bnot 32 (Z.lor PF_HICR_SV PF_HICR_EV)).

Lemma has_command h k : 0 <= k < 32 -> has (command_hicr h) (bit k) =
  (Z.testbit h k || (k =? 1)) && negb (k =? 2) && negb (k =? 3).
Proof.
  intros Hk. rewrite has_bit by lia. unfold command_hicr.
  rewrite Z.land_spec, Z.lor_spec, testbit_bnot, Z.lor_spec by lia.
  unfold PF_HICR_C, PF_HICR_SV, PF_HICR_EV. rewrite !testbit_bit by lia.
  destruct (Z.ltb_spec k 32); [|lia]. simpl.
  destruct (k =? 2), (k =? 3), (Z.testbit h k), (k =? 1); done.
Qed.

Definition desc_wf (d : ixgbe_aci_desc) : Prop := length (d_params d) = 16%nat.

Lemma length_raw_desc d : desc_wf d -> length (raw_desc d) = 8%nat.
Proof. intros Hd. unfold raw_desc. simpl. by rewrite (length_words_of 4). Qed.

Lemma desc_of_raw_wf l : length l = 8%nat -> desc_wf (desc_of_raw l).
Proof. intros Hl. unfold desc_wf, desc_of_raw. simpl d_params. by rewrite length_bytes_of, length_drop, Hl. Qed.

(** the longest wait for one answer, in microseconds *)
Definition aci_max_wait : Z :=
  1000 * (IXGBE_ACI_SYNC_RESPONSE_TIMEOUT + IXGBE_ACI_ASYNC_RESPONSE_TIMEOUT).

Lemma tmp_buf_size_spec n : 0 <= n <= 4096 ->
  aci_tmp_buf_size n = 4 * ((n + 3) / 4) /\ n <= aci_tmp_buf_size n <= 4096.
Proof.
  intros Hn. assert (E : aci_tmp_buf_size n = 4 * ((n + 3) / 4)).
  { unfold aci_tmp_buf_size. destruct (Z.eqb_spec (n mod 4) 0) as [H|H]; [zlia|].
    assert (Z.land n (bnot 16 0x03) = 4 * (n / 4)) as ->; [|zlia].
    replace (Z.land n (bnot 16 3)) with (Z.ldiff n (Z.ones 2)).
    - rewrite Z.ldiff_ones_r by lia. rewrite Z.shiftl_mul_pow2, Z.shiftr_div_pow2 by lia. change (2 ^ 2) with 4. lia.
    - apply Z.bits_inj'. intros i Hi. rewrite Z.ldiff_spec, Z.land_spec, testbit_bnot by lia.
      change (Z.ones 2) with 3. destruct (Z.ltb_spec i 16); [done|].
      rewrite (testbit_range 16 n); [done|unfold in_range; lia|lia]. }
  rewrite E. split; [done|]. zlia.
Qed.

Lemma length_bounce b n : 0 <= n <= 4096 -> n <= Z.of_nat (length b) ->
  Z.of_nat (length (aci_request (mk_desc 0 0 0 0 0 0 []) (Some b) n).2) = (n + 3) / 4 /\
  n <= 4 * ((n + 3) / 4) <= 4096.
Proof.
  intros Hn Hb. destruct (tmp_buf_size_spec n Hn) as [E Hr]. simpl. rewrite E in *.
  rewrite (length_words_of (Z.to_nat ((n + 3) / 4))); [zlia|].
  rewrite length_app, length_take, length_replicate. zlia.
Qed.

Section Execute.
Context `{D : Mmio} (kmalloc : Z -> world -> bool).

Lemma do_malloc c n (T : bool -> list (Z * Z) -> Z -> Prop) :
  (forall b, T b [] 0) -> does c (ixgbe_malloc kmalloc n) T.
Proof using.
  intros HT w Hc. apply wp_gets. split; [done|]. exists []. split; [by split|apply did_nil].
Qed.

Lemma do_read_desc c reg d (T : ixgbe_aci_desc -> list (Z * Z) -> Z -> Prop) :
  desc_wf d -> (forall i, 0 <= i < 8 -> aci_reg (reg i)) -> (forall d', desc_wf d' -> T d' [] 0) ->
  does c (read_desc reg d) T.
Proof using.
  intros Hd Hr HT. unfold read_desc. eapply do_bind.
  { apply (do_read_words c reg (raw_desc d) 8 (fun l ws t => length l = 8%nat /\ ws = [] /\ t = 0)); [done| |].
    - by rewrite length_raw_desc.
    - intros l' ->. by rewrite length_raw_desc. }
  intros l ws t (Hl & -> & ->). apply do_ret. apply HT. by apply desc_of_raw_wf.
Qed.

Lemma do_aci_wait c bits timeout hicr (T : Z -> list (Z * Z) -> Z -> Prop) :
  0 <= timeout -> (forall v t, 0 <= t <= 1000 * timeout -> T v [] t) ->
  does c (aci_wait bits timeout hicr) T.
Proof using.
  intros Ht HT. unfold aci_wait. eapply do_bind.
  { apply do_for_break with (I := fun k _ ws t => ws = [] /\ 0 <= t <= 1000 * k)
      (T := fun _ ws t => ws = [] /\ 0 <= t <= 1000 * timeout); [split; [done|lia]| |].
    - intros k h ws t Hk [-> Hb]. apply do_bind_read; [auto with aci|]. intros v _.
      apply do_if; intros _.
      + apply do_ret. split; [done|]. lia.
      + apply do_bind_msec, do_ret. split; [done|lia].
    - intros _ ws t [-> Hb]. split; [done|]. lia. }
  intros r ws t [-> Hb]. apply do_ret. rewrite Z.add_0_r. by apply HT.
Qed.

Lemma do_answer c d h : desc_wf d ->
  does c (aci_answer d h) (fun x ws tm => desc_wf x.2 /\ ws = [] /\ 0 <= tm <= aci_max_wait).
Proof using.
  intros Hd. unfold aci_answer.
  eapply do_bind; [apply (do_aci_wait c _ _ _ (fun _ ws tm => ws = [] /\ 0 <= tm <= 1000 * IXGBE_ACI_SYNC_RESPONSE_TIMEOUT)); [done|by auto]|].
  intros v1 ws2 tm2 [-> Ht2].
  eapply do_bind with (T1 := fun _ ws tm => ws = [] /\ 0 <= tm <= 1000 * IXGBE_ACI_ASYNC_RESPONSE_TIMEOUT).
  { apply do_if; intros _; [by apply do_aci_wait; [|auto]|apply do_ret; by vm_compute]. }
  intros v2 ws3 tm3 [-> Ht3].
  eapply do_bind with (T1 := fun d' ws tm => desc_wf d' /\ ws = [] /\ tm = 0).
  { apply do_if; intros _; [apply do_read_desc; auto with aci|by apply do_ret]. }
  intros d1 ws4 tm4 (Hd1 & -> & ->).
  eapply do_bind with (T1 := fun d' ws tm => desc_wf d' /\ ws = [] /\ tm = 0).
  { apply do_if; intros _; [apply do_read_desc; auto with aci|by apply do_ret]. }
  intros d2 ws5 tm5 (Hd2 & -> & ->).
  apply do_ret. split; [done|]. split; [done|]. unfold aci_max_wait. lia.
Qed.

Lemma do_submit c d (t : option (list Z)) :
  desc_wf d -> Z.of_nat (length (default [] t)) <= 1024 ->
  does c (aci_submit d t) (fun _ ws tm => submits (d, default [] t) ws /\ tm = 0).
Proof using.
  intros Hd Ht. unfold aci_submit.
  eapply do_bind with (T1 := fun _ ws tm => tm = 0 /\
    ws = if has (d_flags d) IXGBE_ACI_FLAG_RD then reg_writes PF_HIBA (default [] t) else []).
  { destruct t as [t|]; [|apply do_ret; simpl; destruct (has (d_flags d) _); done].
    apply do_if; intros E; rewrite E; [|by apply do_ret]. apply do_write_words; [|done].
    intros i Hi. apply PF_HIBA_reg. simpl in Ht. lia. }
  intros [] ws0 tm0 [-> E0].
  eapply do_bind with (T1 := fun _ ws tm => tm = 0 /\ ws = reg_writes PF_HIDA (raw_desc d)).
  { unfold write_hida. change (Z.to_nat _) with 8%nat. rewrite <- (length_raw_desc d Hd) at 1.
    apply do_write_words; [|done]. rewrite length_raw_desc by done. auto with aci. }
  intros [] ws1 tm1 [-> ->]. apply do_bind_read; [auto with aci|]. intros h Hh. cbv zeta.
  apply do_bind_write; [auto with aci|]. apply do_ret. split; [|done].
  eexists. split; [by apply trunc_range|].
  assert (Hr : forall k, 0 <= k < 32 -> has (u32 (command_hicr h)) (bit k) = has (command_hicr h) (bit k)).
  { intros k Hk. rewrite !has_bit, testbit_trunc by lia. by destruct (Z.ltb_spec k 32); [|lia]. }
  fold (command_hicr h). unfold PF_HICR_C, PF_HICR_SV, PF_HICR_EV in *. rewrite !Hr, !has_command by lia.
  split; [by rewrite orb_true_r|]. split; [by rewrite !andb_false_r|]. split; [by rewrite !andb_false_r|].
  simpl. by rewrite E0.
Qed.

Lemma do_exchange c op d buf n t (T : aci_reply -> list (Z * Z) -> Z -> Prop) :
  desc_wf d -> 0 <= n ->
  match buf, t with
  | Some b, Some t => n <= Z.of_nat (length b) /\ n <= 4 * Z.of_nat (length t) <= 4096
  | _, None => True
  | None, Some _ => False
  end ->
  (forall s d' buf' ws tm, aci_status s -> desc_wf d' ->
     match buf', buf with Some b', Some b => length b' = length b | None, None => True | _, _ => False end ->
     submits (d, default [] t) ws -> 0 <= tm <= aci_max_wait -> T (s, d', buf') ws tm) ->
  does c (aci_exchange op d buf n t) T.
Proof using.
  intros Hd Hn Hb HT. unfold aci_exchange.
  eapply do_bind; [apply do_submit; [done|destruct t; [destruct buf; [simpl; lia|done]|done]]|].
  intros h ws0 tm0 [Hsub ->].
  eapply do_bind; [by apply do_answer|]. intros [v2 d2] ws2 tm2 (Hd2 & -> & Ht2). cbn [snd] in Hd2.
  assert (Htm : 0 <= 0 + (tm2 + 0) <= aci_max_wait) by lia.
  assert (Hsame : match buf, buf with Some b', Some b => length b' = length b | None, None => True | _, _ => False end)
    by by destruct buf.
  assert (Hend : forall s, aci_status s -> does c (mret (s, d2, buf)) (fun r ws tm =>
    T r (ws0 ++ [] ++ ws) (0 + (tm2 + tm)))).
  { intros s Hs. apply do_ret. rewrite app_nil_r. by apply HT. }
  apply do_if; intros _; [apply Hend; aci_code|]. apply do_if; intros _; [apply Hend; aci_code|].
  apply do_if; intros _; [apply Hend; aci_code|].
  apply do_if; intros _; [apply do_bind_last_status, Hend; aci_code|].
  destruct t as [t|]; [|apply Hend; aci_code]. destruct buf as [b|]; [|done].
  apply do_if; intros _; [|apply Hend; aci_code]. destruct Hb as [Hb1 Hb2].
  eapply do_bind.
  { apply (do_read_words c PF_HIBA t (length t) (fun l ws tm => length l = length t /\ ws = [] /\ tm = 0)); [|lia|done].
    intros i Hi. apply PF_HIBA_reg. lia. }
  intros t' ws6 tm6 (Hl & -> & ->). eapply do_bind.
  { apply (do_copy_from c _ _ (fun s ws tm => length s = Z.to_nat n /\ ws = [] /\ tm = 0)).
    - rewrite length_bytes_of. lia.
    - rewrite length_take, length_bytes_of. split; [lia|done]. }
  intros s ws7 tm7 (Hs & -> & ->). eapply do_bind.
  { apply (do_copy_to c _ _ (fun b' ws tm => length b' = length b /\ ws = [] /\ tm = 0)); [lia|].
    rewrite length_app, length_drop. split; [lia|done]. }
  intros b' ws8 tm8 (Hb' & -> & ->). apply do_ret.
  rewrite !app_nil_r. apply HT; [aci_code|done|done|done|lia].
Qed.

(** buffers of the same size, or both NULL *)
Definition same_size (buf' buf : option (list Z)) : Prop :=
  match buf', buf with Some b', Some b => length b' = length b | None, None => True | _, _ => False end.

(** the caller's buffer holds [n] bytes *)
Definition buf_holds (buf : option (list Z)) (n : Z) : Prop :=
  0 <= n /\ match buf with Some b => n <= Z.of_nat (length b) | None => True end.

Definition exec_post (rq : ixgbe_aci_desc * list Z) (buf : option (list Z)) (r : aci_reply)
    (ws : list (Z * Z)) (tm : Z) : Prop :=
  let '(s, d', buf') := r in
  aci_status s /\ desc_wf d' /\ same_size buf' buf /\
  (submits rq ws \/ s <> IXGBE_SUCCESS /\ ws = []) /\ 0 <= tm <= aci_max_wait.

Lemma do_execute c d buf n :
  desc_wf d -> buf_holds buf n ->
  does c (ixgbe_aci_send_cmd_execute kmalloc d buf n) (exec_post (aci_request d buf n) buf).
Proof using.
  intros Hd [Hn Hb]. unfold ixgbe_aci_send_cmd_execute.
  assert (Hsame : same_size buf buf) by by destruct buf.
  assert (Hw : 0 <= 0 <= aci_max_wait) by by vm_compute.
  assert (Hend : forall s d', aci_status s -> s <> IXGBE_SUCCESS -> desc_wf d' ->
    does c (mret (s, d', buf)) (exec_post (aci_request d buf n) buf)).
  { intros s d' Hs Hne Hd'. apply do_ret. by repeat (split; [by auto|]). }
  apply do_bind_last_status, do_bind_read; [auto with aci|]. intros h Hh.
  apply do_if; intros _; [apply Hend; [aci_code|done|done]|].
  apply do_if; intros _; [apply do_bind_last_status, Hend; [aci_code|done|done]|].
  cbv zeta. apply do_if; intros Em; [apply Hend; [aci_code|done|done]|].
  apply Z.ltb_ge in Em. unfold IXGBE_ACI_MAX_BUFFER_SIZE in Em.
  destruct buf as [b|].
  - apply do_if; intros E0; [apply Hend; [aci_code|done|done]|].
    eapply do_bind; [apply (do_malloc c _ (fun _ ws tm => ws = [] /\ tm = 0)); done|].
    intros ok ws tm [-> ->]. apply do_if; intros _; [apply Hend; [aci_code|done|done]|].
    eapply do_bind; [apply (do_copy_from c _ _ (fun s ws tm => s = take (Z.to_nat n) b /\ ws = [] /\ tm = 0)); done|].
    intros s ws tm (-> & -> & ->).
    destruct (length_bounce b n ltac:(lia) Hb) as [El Hr]. simpl in El.
    assert (Hrq : aci_request d (Some b) n =
      (upd_d_datalen n (if IXGBE_ACI_LG_BUF <? aci_tmp_buf_size n
         then upd_d_flags (Z.lor (d_flags (upd_d_flags (Z.lor (d_flags d) IXGBE_ACI_FLAG_BUF) d)) IXGBE_ACI_FLAG_LB)
                (upd_d_flags (Z.lor (d_flags d) IXGBE_ACI_FLAG_BUF) d)
         else upd_d_flags (Z.lor (d_flags d) IXGBE_ACI_FLAG_BUF) d),
       words_of (take (Z.to_nat n) b ++ replicate (Z.to_nat (aci_tmp_buf_size n - n)) 0xFF))).
    { unfold aci_request. f_equal. destruct (_ <? _); [done|]. by rewrite Z.lor_0_r. }
    rewrite Hrq. apply do_exchange; [by destruct (_ <? _)|lia|split; [done|lia]|].
    intros s d' buf' ws tm Hs Hd' Hb' Hsub Htm. split; [done|]. split; [done|]. split; [done|].
    split; [by left|]. lia.
  - apply do_if; intros E0; [apply Hend; [aci_code|done|done]|].
    apply do_exchange; [done|lia|done|].
    intros s d' buf' ws tm Hs Hd' Hb' Hsub Htm. split; [done|]. split; [done|]. split; [done|].
    split; [by left|]. lia.
Qed.

(** [k] executions at most, each of which sends the same request or nothing *)
Definition send_post (k : Z) (rq : ixgbe_aci_desc * list Z) (buf : option (list Z)) (r : aci_reply)
    (ws : list (Z * Z)) (tm : Z) : Prop :=
  let '(s, d', buf') := r in
  aci_status s /\ desc_wf d' /\ same_size buf' buf /\ 0 <= tm <= k * (aci_max_wait + 10000) /\
  exists l, Z.of_nat (length l) <= k /\ Forall (submits rq) l /\ ws = concat l /\
            (s = IXGBE_SUCCESS -> l <> []).

Lemma send_post_one k rq buf s d' b1 ws tm :
  1 <= k -> aci_status s -> desc_wf d' -> same_size b1 buf ->
  submits rq ws \/ s <> IXGBE_SUCCESS /\ ws = [] -> 0 <= tm <= aci_max_wait ->
  send_post k rq buf (s, d', b1) ws tm.
Proof using.
  intros Hk Hs Hd Hb Hw Ht. split; [done|]. split; [done|]. split; [done|].
  split; [change aci_max_wait with 250000000 in *; lia|].
  destruct Hw as [Hw|[Hne ->]]; [exists [ws]|exists []]; simpl; rewrite ?app_nil_r.
  - split; [lia|]. split; [by apply Forall_singleton|]. done.
  - split; [lia|]. done.
Qed.

(** an execution after which the command is sent again *)
Lemma send_post_more k rq buf r s ws ws' tm tm' :
  submits rq ws \/ s <> IXGBE_SUCCESS /\ ws = [] -> 0 <= tm <= aci_max_wait ->
  send_post k rq buf r ws' tm' -> send_post (k + 1) rq buf r (ws ++ ws') (tm + (10000 + tm')).
Proof using.
  intros Hw Ht. destruct r as [[s' d'] b']. intros (Hs & Hd & Hb & Ht' & l & Hl & HF & -> & Hne).
  split; [done|]. split; [done|]. split; [done|]. split; [change aci_max_wait with 250000000 in *; lia|].
  destruct Hw as [Hw|[_ ->]]; [exists (ws :: l)|exists l]; simpl.
  - split; [lia|]. split; [by constructor|]. done.
  - split; [lia|]. done.
Qed.

(** putting the copy of the request's buffer back *)
Lemma do_restore c b1 buf cpy size :
  buf_holds buf size -> same_size b1 buf ->
  match buf with Some b => cpy = take (Z.to_nat size) b | None => True end ->
  does c (match b1 with Some b => b ← copy_to b cpy; mret (Some b) | None => mret None end)
    (fun b2 ws tm => same_size b2 buf /\
       match b2, buf with Some x, Some y => take (Z.to_nat size) x = take (Z.to_nat size) y | _, _ => True end /\
       ws = [] /\ tm = 0).
Proof using.
  intros [Hn Hb] Hs Hc. destruct b1 as [b1|], buf as [b|]; try done; [|by apply do_ret].
  subst cpy. simpl in Hs. eapply do_bind.
  { apply (do_copy_to c _ _ (fun x ws tm => x = take (Z.to_nat size) b ++ drop (Z.to_nat size) b1 /\ ws = [] /\ tm = 0)).
    - rewrite length_take. lia.
    - by rewrite length_take_le by lia. }
  intros x ws tm (-> & -> & ->). apply do_ret. split; [|split; [|done]].
  - simpl. rewrite length_app, length_take, length_drop. lia.
  - rewrite take_app_le by (rewrite length_take; lia). by rewrite take_take, Nat.min_id.
Qed.

Lemma do_send_loop n retry d c b' buf size :
  desc_wf d -> buf_holds buf size -> same_size b' buf ->
  match b', buf with Some x, Some y => take (Z.to_nat size) x = take (Z.to_nat size) y | _, _ => True end ->
  (retry = true -> match buf with Some b => c = take (Z.to_nat size) b | None => True end) ->
  does false (aci_send_loop kmalloc n retry d c d b' size)
    (send_post (if retry then Z.of_nat n + 1 else 1) (aci_request d buf size) buf).
Proof using.
  intros Hd Hb. revert b'. induction n as [|n IH]; intros b' Hs Ht Hc;
    unfold aci_send_loop; fold (aci_send_loop kmalloc).
  all: assert (Hrq : aci_request d b' size = aci_request d buf size) by
    (unfold aci_request; destruct b', buf; try done; by rewrite Ht).
  all: assert (Hb' : buf_holds b' size) by
    (destruct Hb as [? Hb]; split; [done|]; destruct b', buf; try done; simpl in Hs; lia).
  all: eapply do_bind; [apply do_locked; eapply do_bind; [by apply do_execute|]; intros r ws tm Hr;
    eapply do_bind; [by apply (do_get_last_status true (fun _ ws tm => ws = [] /\ tm = 0))|];
    intros ls ws' tm' [-> ->]; apply do_ret; rewrite !app_nil_r, !Z.add_0_r;
    exact (Hr : (fun x ws tm => exec_post (aci_request d b' size) b' x.1 ws tm) (r, ls) ws tm)|].
  all: intros [[[s d'] b1] ls] ws tm Hp; cbn [fst] in Hp; rewrite Hrq in Hp;
    destruct Hp as (Hst & Hd' & Hs1 & Hw & Htm).
  all: assert (Hs2 : same_size b1 buf) by (destruct b1, b', buf; try done; simpl in *; congruence).
  all: apply do_if; intros E; [apply do_ret; rewrite app_nil_r, Z.add_0_r; apply send_post_one; [destruct retry; lia|done..]|].
  all: apply orb_false_iff in E as [[E1 E2]%orb_false_iff E3]; apply negb_false_iff in E1; subst retry;
    specialize (Hc eq_refl).
  all: eapply do_bind; [by apply (do_restore _ _ buf _ size)|]; intros b2 ws2 tm2 (H2 & Ht2 & -> & ->); apply do_bind_msec.
  - apply do_ret. refine (send_post_more 0 _ _ _ s ws [] tm 0 Hw Htm _).
    split; [done|]. split; [done|]. split; [done|]. split; [lia|]. exists [].
    split; [done|]. split; [done|]. split; [done|]. intros ->. by apply Z.eqb_neq in E2.
  - eapply do_mono; [by apply (IH b2)|]. intros r ws3 tm3 Hp3. cbv beta in Hp3.
    rewrite Z.add_0_l, app_nil_l. replace (Z.of_nat (S n) + 1) with (Z.of_nat n + 1 + 1) by lia.
    by apply (send_post_more _ _ _ _ s).
Qed.

(** On any device and for any firmware: [ixgbe_aci_send_cmd] *)
Lemma do_send_cmd d buf size : desc_wf d -> buf_holds buf size ->
  does false (ixgbe_aci_send_cmd kmalloc d buf size)
    (send_post (if ixgbe_should_retry_aci_send_cmd_execute (d_opcode d) then 3 else 1)
       (aci_request d buf size) buf).
Proof using.
  intros Hd Hb. unfold ixgbe_aci_send_cmd. cbv zeta. change (Z.to_nat _) with 2%nat.
  set (retry := ixgbe_should_retry_aci_send_cmd_execute (d_opcode d)).
  destruct buf as [b|]; [|by apply (do_send_loop 2 retry)].
  destruct retry eqn:E; [|by apply (do_send_loop 2 false)].
  eapply do_bind; [by apply (do_malloc _ _ (fun _ ws tm => ws = [] /\ tm = 0))|].
  intros ok ws tm [-> ->]. apply do_if; intros _.
  - apply do_ret. split; [aci_code|]. split; [done|]. split; [done|].
    split; [change aci_max_wait with 250000000; lia|]. by exists [].
  - eapply do_bind; [apply (do_copy_from _ _ _ (fun s ws tm => s = take (Z.to_nat size) b /\ ws = [] /\ tm = 0)); [apply Hb|done]|].
    intros s ws tm (-> & -> & ->). by apply (do_send_loop 2 true).
Qed.
End Execute.
