(* ===== verification/AciDev.v ===== *)
(** * A firmware behind the admin command registers

    The contract of the other side of the interface: an abstract firmware
    (class [Firmware]) behind the registers (class [AciDevice]), as the comments
    of [ixgbe_aci_send_cmd_execute] describe it.  Software writes descriptor and
    buffer and sets PF_HICR.C with SV and EV cleared; the firmware executes the
    command and answers after some time, either at once (SV set, C cleared,
    answer in PF_HIDA) or in two steps (SV set, later EV set and C cleared,
    answer in PF_HIDA_2).

    Against this contract, sending a command is a remote procedure call: the
    lemmas of this file.  The unit itself is an executable device. *)
From S2P Require Import Prelude Bytes Regs Types Osdep RegsE610.
From S2P Require Import Aci AciSafe.

(** a command: eight descriptor words and the 1024 words of the buffer *)
Class Firmware := {
  fw : Type;
  (** new state, answer descriptor, answer buffer *)
  fw_exec : fw -> list Z -> list Z -> fw * list Z * list Z;
  (** milliseconds to the first answer, and from it to a second one *)
  fw_latency : fw -> Z * option Z;
  fw_desc_ok s d b : length (fw_exec s d b).1.2 = 8%nat /\ Forall (in_range 32) (fw_exec s d b).1.2;
  fw_buf_ok s d b : length (fw_exec s d b).2 = 1024%nat /\ Forall (in_range 32) (fw_exec s d b).2;
  fw_latency_ok s :
    0 <= (fw_latency s).1 < IXGBE_ACI_SYNC_RESPONSE_TIMEOUT /\
    match (fw_latency s).2 with Some t => 0 <= t < IXGBE_ACI_ASYNC_RESPONSE_TIMEOUT | None => True end;
}.

Section Unit.
Context `{F : Firmware}.

(** a command in execution: microseconds left of this phase, of the next one,
    whether this is the second, and the answer *)
Record job := mk_job { j_left : Z; j_next : option Z; j_async : bool; j_desc : list Z; j_buf : list Z }.

Record aci_unit := mk_unit {
  u_fw : fw; u_hida : list Z; u_hida2 : list Z; u_hiba : list Z; u_hicr : Z; u_job : option job }.

Definition set_bits (x m : Z) : Z := Z.lor x m.
Definition clear_bits (x m : Z) : Z := Z.land x (bnot 32 m).

Definition unit_write_hida (i : Z) (v : Z) (u : aci_unit) : aci_unit :=
  mk_unit (u_fw u) (<[Z.to_nat i := v]> (u_hida u)) (u_hida2 u) (u_hiba u) (u_hicr u) (u_job u).
Definition unit_write_hiba (i : Z) (v : Z) (u : aci_unit) : aci_unit :=
  mk_unit (u_fw u) (u_hida u) (u_hida2 u) (<[Z.to_nat i := v]> (u_hiba u)) (u_hicr u) (u_job u).

(** a write of PF_HICR; setting C on an idle unit starts the command *)
Definition unit_write_hicr (v : Z) (u : aci_unit) : aci_unit :=
  if has v PF_HICR_C then
    match u_job u with
    | Some _ => u
    | None =>
        let '(s, ad, ab) := fw_exec (u_fw u) (u_hida u) (u_hiba u) in
        let '(t, next) := fw_latency (u_fw u) in
        mk_unit s (u_hida u) (u_hida2 u) (u_hiba u) v
          (Some (mk_job (1000 * t) (option_map (Z.mul 1000) next) false ad ab))
    end
  else mk_unit (u_fw u) (u_hida u) (u_hida2 u) (u_hiba u) v (u_job u).

(** time passes *)
Definition unit_tick (us : Z) (u : aci_unit) : aci_unit :=
  match u_job u with
  | None => u
  | Some j =>
      if us <? j_left j
      then mk_unit (u_fw u) (u_hida u) (u_hida2 u) (u_hiba u) (u_hicr u)
             (Some (mk_job (j_left j - us) (j_next j) (j_async j) (j_desc j) (j_buf j)))
      else if j_async j
      then mk_unit (u_fw u) (u_hida u) (j_desc j) (j_buf j)
             (set_bits (clear_bits (u_hicr u) PF_HICR_C) PF_HICR_EV) None
      else match j_next j with
           | None => mk_unit (u_fw u) (j_desc j) (u_hida2 u) (j_buf j)
                       (set_bits (clear_bits (u_hicr u) PF_HICR_C) PF_HICR_SV) None
           | Some t => mk_unit (u_fw u) (u_hida u) (u_hida2 u) (u_hiba u) (set_bits (u_hicr u) PF_HICR_SV)
                         (Some (mk_job t None true (j_desc j) (j_buf j)))
           end
  end.

(** the shape of a unit's registers *)
Record unit_wf (u : aci_unit) : Prop := {
  uw_hida : length (u_hida u) = 8%nat /\ Forall (in_range 32) (u_hida u);
  uw_hida2 : length (u_hida2 u) = 8%nat /\ Forall (in_range 32) (u_hida2 u);
  uw_hiba : length (u_hiba u) = 1024%nat /\ Forall (in_range 32) (u_hiba u);
  uw_hicr : in_range 32 (u_hicr u);
}.
End Unit.

(** A device with such a unit.  Reads have no effect; the NVM registers keep
    their value; the status register answers. *)
Class AciDevice (D : Mmio) (F : Firmware) := {
  unit_of : dev -> aci_unit;
  dev_gens : Z;
  dev_fla : Z;
  gens_range : in_range 32 dev_gens;
  fla_range : in_range 32 dev_fla;
  read_status d : exists v, dev_read d IXGBE_STATUS = (v, d) /\ in_range 32 v /\ v <> IXGBE_FAILED_READ_REG;
  read_gens d : dev_read d GLNVM_GENS = (dev_gens, d);
  read_fla d : dev_read d GLNVM_FLA = (dev_fla, d);
  read_fwsm d : exists v, dev_read d GL_MNG_FWSM = (v, d) /\ in_range 32 v;
  read_hicr d : dev_read d PF_HICR = (u_hicr (unit_of d), d);
  read_hida d i x : 0 <= i < 8 -> u_hida (unit_of d) !! Z.to_nat i = Some x ->
    dev_read d (PF_HIDA i) = (x, d);
  read_hida2 d i x : 0 <= i < 8 -> u_hida2 (unit_of d) !! Z.to_nat i = Some x ->
    dev_read d (PF_HIDA_2 i) = (x, d);
  read_hiba d i x : 0 <= i < 1024 -> u_hiba (unit_of d) !! Z.to_nat i = Some x ->
    dev_read d (PF_HIBA i) = (x, d);
  write_hida_unit d i v : 0 <= i < 8 -> in_range 32 v ->
    unit_of (dev_write d (PF_HIDA i) v) = unit_write_hida i v (unit_of d);
  write_hiba_unit d i v : 0 <= i < 1024 -> in_range 32 v ->
    unit_of (dev_write d (PF_HIBA i) v) = unit_write_hiba i v (unit_of d);
  write_hicr_unit d v : in_range 32 v -> unit_of (dev_write d PF_HICR v) = unit_write_hicr v (unit_of d);
  delay_unit d us : unit_of (dev_delay d us) = unit_tick us (unit_of d);
}.

(** ** Register access in such a device *)
Section Stable.
Context `{D : Mmio}.

(** the adapter is mapped and needs no SGMII wait *)
Definition mapped (h : ixgbe_hw) : Prop :=
  hw_addr h = true /\ has (nw_mng_if_sel (phy h)) IXGBE_NW_MNG_IF_SEL_SGMII_ENABLE = false.

Lemma wp_readl_stable r v (w : world) (Q : Z -> world -> Prop) :
  dev_read (w_dev w) r = (v, w_dev w) -> in_range 32 v ->
  (forall l, Q v (mk_world _ (w_hw w) (w_dev w) l)) -> wp (readl r) Q w.
Proof. intros E Hv HQ. apply wp_readl. intros x d Ex. rewrite E in Ex. injection Ex as <- <-. by rewrite trunc_small. Qed.

Lemma wp_validate_stable r v (w : world) (Q : Z -> world -> Prop) : mapped (w_hw w) ->
  dev_read (w_dev w) r = (v, w_dev w) -> in_range 32 v ->
  (forall l, Q v (mk_world _ (w_hw w) (w_dev w) l)) -> wp (ixgbe_validate_register_read r) Q w.
Proof.
  intros [Ha _] E Hv HQ. unfold ixgbe_validate_register_read. wp_step. apply wp_get_hw. rewrite Ha.
  cbn [IXGBE_REMOVED negb]. wp_step. eapply wp_mono.
  { apply wp_for_break with
      (Inv := fun k x w' => (k = 0 \/ x = v) /\ w_hw w' = w_hw w /\ w_dev w' = w_dev w)
      (Q := fun x w' => match x with inl x => x | inr x => x end = v /\ w_hw w' = w_hw w /\ w_dev w' = w_dev w).
    - split; [by left|done].
    - intros k _ w1 _ (_ & Eh & Ed). wp_step. apply (wp_readl_stable _ v); [by rewrite Ed|done|].
      intros l. wp_step; wp_steps; simpl; [by rewrite Eh, Ed|]. split; [by right|]. by rewrite Eh, Ed.
    - intros x w1 ([Hk| ->] & ?); [by vm_compute in Hk|done]. }
  intros x [h d l] (-> & Eh & Ed). simpl in Eh, Ed. subst h d. apply wp_ret. apply HQ.
Qed.

Lemma wp_check_remove_stable r v s (w : world) (Q : Z -> world -> Prop) : mapped (w_hw w) ->
  dev_read (w_dev w) r = (v, w_dev w) -> in_range 32 v ->
  dev_read (w_dev w) IXGBE_STATUS = (s, w_dev w) -> in_range 32 s -> s <> IXGBE_FAILED_READ_REG ->
  (forall l, Q v (mk_world _ (w_hw w) (w_dev w) l)) -> wp (ixgbe_check_remove r) Q w.
Proof.
  intros [Ha _] E Hv Es Hs Hne HQ. unfold ixgbe_check_remove. wp_step. apply wp_get_hw. rewrite Ha.
  change (Z.to_nat IXGBE_FAILED_READ_RETRIES) with 5%nat. cbn [negb IXGBE_REMOVED].
  rewrite for_break_S. do 3 wp_step. apply (wp_readl_stable _ s); [done|done|]. intros l.
  assert ((s =? IXGBE_FAILED_READ_REG) = false) as En by by apply Z.eqb_neq.
  rewrite En. cbn [negb]. do 2 wp_step. rewrite En. by apply (wp_readl_stable _ v).
Qed.

(** a read of a register whose reads have no effect *)
Lemma wp_READ_stable r v s (w : world) (Q : Z -> world -> Prop) : mapped (w_hw w) ->
  dev_read (w_dev w) r = (v, w_dev w) -> in_range 32 v ->
  dev_read (w_dev w) IXGBE_STATUS = (s, w_dev w) -> in_range 32 s -> s <> IXGBE_FAILED_READ_REG ->
  (forall l, Q v (mk_world _ (w_hw w) (w_dev w) l)) -> wp (IXGBE_READ_REG r) Q w.
Proof.
  intros Hm E Hv Es Hs Hne HQ. unfold IXGBE_READ_REG, ixgbe_read_reg. wp_step. apply wp_get_hw.
  destruct Hm as [Ha Hg]. rewrite Ha, Hg. cbn [negb IXGBE_REMOVED].
  unfold ixgbe_read_reg_writes_completed. wp_step. apply (wp_readl_stable _ v); [done|done|]. intros l.
  wp_step.
  assert (H2 : forall l, wp (if v =? IXGBE_DEAD_READ_REG then ixgbe_validate_register_read r else mret v) Q
    (mk_world _ (w_hw w) (w_dev w) l)).
  { intros l'. wp_step; [|by apply wp_ret]. by apply (wp_validate_stable _ v). }
  wp_step; [|by apply wp_ret]. apply (wp_check_remove_stable _ v s); try done.
Qed.

Lemma wp_WRITE r v (w : world) (Q : unit -> world -> Prop) : mapped (w_hw w) -> in_range 32 v ->
  (forall l, Q tt (mk_world _ (w_hw w) (dev_write (w_dev w) r v) l)) -> wp (IXGBE_WRITE_REG r v) Q w.
Proof.
  intros [Ha _] Hv HQ. unfold IXGBE_WRITE_REG. wp_step. apply wp_get_hw. rewrite Ha. cbn [negb IXGBE_REMOVED].
  apply wp_writel. by rewrite trunc_small.
Qed.
End Stable.
