(* ===== verification/AciRpc.v ===== *)
(** * Admin commands as calls of the firmware

    Against the contract of AciDev.v, [ixgbe_aci_send_cmd] is a remote procedure
    call: it hands the firmware exactly the request, waits for its one- or
    two-step answer and gives the caller the answer's status, descriptor and
    data. *)
From S2P Require Import Prelude Bytes Regs Types Osdep RegsE610.
From S2P Require Import Aci AciSafe AciDev.

(** ** Descriptors as words *)
Record desc_ok (d : ixgbe_aci_desc) : Prop := {
  do_flags : in_range 16 (d_flags d); do_opcode : in_range 16 (d_opcode d);
  do_datalen : in_range 16 (d_datalen d); do_retval : in_range 16 (d_retval d);
  do_cookie_high : in_range 32 (d_cookie_high d); do_cookie_low : in_range 32 (d_cookie_low d);
  do_params : length (d_params d) = 16%nat /\ Forall byte (d_params d);
}.

Lemma halves_range a b : in_range 16 a -> in_range 16 b -> in_range 32 (Z.lor a (Z.shiftl b 16)).
Proof.
  intros Ha Hb. apply lor_range; [lia|unfold in_range in *; lia|].
  unfold in_range in *. rewrite Z.shiftl_mul_pow2 by lia. lia.
Qed.

Lemma halves_low a b : in_range 16 a -> u16 (Z.lor a (Z.shiftl b 16)) = a.
Proof.
  intros Ha. apply Z.bits_inj'. intros i Hi. rewrite testbit_trunc, Z.lor_spec, Z.shiftl_spec by lia.
  destruct (Z.ltb_spec i 16); simpl; [|symmetry; by apply (testbit_range 16)].
  rewrite (Z.testbit_neg_r b) by lia. by rewrite orb_false_r.
Qed.

Lemma halves_high a b : in_range 16 a -> in_range 16 b -> u16 (Z.shiftr (Z.lor a (Z.shiftl b 16)) 16) = b.
Proof.
  intros Ha Hb. apply Z.bits_inj'. intros i Hi.
  rewrite testbit_trunc, Z.shiftr_spec, Z.lor_spec, Z.shiftl_spec by lia.
  rewrite (testbit_range 16 a) by (done || lia). rewrite Z.add_simpl_r. simpl.
  destruct (Z.ltb_spec i 16); simpl; [done|]. symmetry. by apply (testbit_range 16).
Qed.

Lemma raw_desc_range d : desc_ok d -> Forall (in_range 32) (raw_desc d).
Proof.
  intros [? ? ? ? ? ? [Hl Hb]]. unfold raw_desc.
  do 2 (constructor; [by apply halves_range|]).
  do 2 (constructor; [done|]). by apply (words_of_range 4).
Qed.

Lemma desc_of_raw_desc d : desc_ok d -> desc_of_raw (raw_desc d) = d.
Proof.
  intros [? ? ? ? ? ? [Hl Hb]]. unfold raw_desc, desc_of_raw. cbn [nth skipn].
  rewrite drop_0, !halves_low, !halves_high, (bytes_words 4) by done. by destruct d.
Qed.

Lemma desc_of_raw_ok l : length l = 8%nat -> Forall (in_range 32) l -> desc_ok (desc_of_raw l).
Proof.
  intros Hl Hr. unfold desc_of_raw.
  assert (H : forall i, in_range 32 (nth i l 0)).
  { intros i. destruct (decide (i < length l)%nat) as [Hi|Hi].
    - rewrite Forall_forall in Hr. apply Hr, nth_In. done.
    - rewrite nth_overflow by lia. by vm_compute. }
  split; simpl; try (by apply trunc_range); try apply H.
  rewrite length_bytes_of, length_drop, Hl. split; [done|]. apply bytes_of_bytes.
Qed.

Lemma take_bytes n k l : (n <= 4 * k)%nat -> take n (bytes_of (take k l)) = take n (bytes_of l).
Proof.
  intros Hn. rewrite <- (take_drop k l) at 2. rewrite bytes_of_app.
  destruct (decide (k <= length l)%nat) as [Hk|Hk].
  - rewrite take_app_le; [done|]. rewrite length_bytes_of, length_take. lia.
  - rewrite (drop_ge l) by lia. by rewrite app_nil_r.
Qed.

(** arguments a caller may pass *)
Definition valid_buf (d : ixgbe_aci_desc) (buf : option (list Z)) (n : Z) : Prop :=
  match buf with
  | Some b => 1 <= n <= 4096 /\ n <= Z.of_nat (length b) /\ Forall byte b
  | None => n = 0 \/ has (d_flags d) IXGBE_ACI_FLAG_BUF = false /\ 0 <= n <= 4096
  end.

Lemma aci_request_ok d buf n : desc_ok d -> valid_buf d buf n ->
  desc_ok (aci_request d buf n).1 /\ Forall (in_range 32) (aci_request d buf n).2 /\
  (buf <> None -> n <= 4 * Z.of_nat (length (aci_request d buf n).2) <= 4096).
Proof.
  intros Hd Hv. destruct buf as [b|]; [|simpl; split; [done|split; [constructor|done]]].
  destruct Hv as (Hn & Hl & Hb). destruct (length_bounce b n ltac:(lia) Hl) as [El Hr].
  destruct (tmp_buf_size_spec n ltac:(lia)) as [Et Ht].
  split; [|split].
  - destruct Hd. split; simpl; try done; [|unfold in_range; lia].
    apply lor_range; [lia|by apply lor_range|]. by destruct (_ <? _).
  - simpl. apply (words_of_range (Z.to_nat ((n + 3) / 4))).
    + rewrite length_app, length_take, length_replicate, Et. zlia.
    + apply Forall_app. split; [by apply Forall_take|]. by apply Forall_replicate.
  - intros _. simpl in *. lia.
Qed.

Section Rpc.
Context `{D : Mmio} `{F : Firmware} `{!AciDevice D F} (kmalloc : Z -> world -> bool).

(** the world with the unit in state [u] *)
Record aci_world (w : world) (u : aci_unit) : Prop := {
  aw_mapped : mapped (w_hw w);
  aw_unit : unit_of (w_dev w) = u;
  aw_wf : unit_wf u;
}.

Lemma wp_read_aci r v w u (Q : Z -> world -> Prop) : aci_world w u ->
  dev_read (w_dev w) r = (v, w_dev w) -> in_range 32 v ->
  (forall w', aci_world w' u -> w_hw w' = w_hw w -> Q v w') -> wp (IXGBE_READ_REG r) Q w.
Proof using.
  intros [Hm Hu Hw] E Hv HQ. destruct (read_status (w_dev w)) as (s & Es & Hs & Hne).
  apply (wp_READ_stable _ v s); try done. intros l. by apply HQ.
Qed.

Lemma wp_read_hicr w u (Q : Z -> world -> Prop) : aci_world w u ->
  (forall w', aci_world w' u -> w_hw w' = w_hw w -> Q (u_hicr u) w') -> wp (IXGBE_READ_REG PF_HICR) Q w.
Proof using.
  intros Hw HQ. destruct Hw as [Hm Hu Hwf]. eapply wp_read_aci; [by split|rewrite read_hicr, Hu; done| |done].
  by destruct Hwf.
Qed.

Lemma overwrite_step (l a : list Z) k x : l !! k = Some x -> (k < length a)%nat ->
  <[k := x]> (take k l ++ drop k a) = take (S k) l ++ drop (S k) a.
Proof using.
  intros Hx Hk. apply lookup_lt_Some in Hx as Hkl.
  rewrite insert_app_r_alt by (rewrite length_take; lia). rewrite length_take_le by lia.
  rewrite Nat.sub_diag. destruct (lookup_lt_is_Some_2 a k) as [y Hy]; [lia|].
  rewrite (drop_S _ _ _ Hy). cbn [insert list_insert]. rewrite (take_S_r _ _ x) by done.
  by rewrite <- app_assoc.
Qed.

(** reading an array of registers over a list *)
Lemma wp_read_array (reg : Z -> Z) (src l : list Z) (n : nat) w u (Q : list Z -> world -> Prop) :
  aci_world w u -> Forall (in_range 32) src -> (n <= length src)%nat -> (n <= length l)%nat ->
  (forall d i x, unit_of d = u -> 0 <= i < Z.of_nat n -> src !! Z.to_nat i = Some x ->
     dev_read d (reg i) = (x, d)) ->
  (forall w', aci_world w' u -> w_hw w' = w_hw w -> Q (take n src ++ drop n l) w') ->
  wp (for_acc n 0 l (fun i l => x ← IXGBE_READ_REG (reg i); upd_c l i x)) Q w.
Proof using.
  intros Hw Hr Hn Hl Hrd HQ. eapply wp_mono.
  { apply wp_for_acc with (Inv := fun k b w' => b = take (Z.to_nat k) src ++ drop (Z.to_nat k) l /\
      aci_world w' u /\ w_hw w' = w_hw w); [by rewrite drop_0|].
    intros k b w1 Hk (-> & Hw1 & Eh).
    destruct (lookup_lt_is_Some_2 src (Z.to_nat k)) as [x Hx]; [lia|].
    wp_step. eapply wp_read_aci; [done|by apply (Hrd _ k x); [apply Hw1|lia|]| |].
    { rewrite Forall_lookup in Hr. by eapply Hr. }
    intros w2 Hw2 Eh2. apply wp_upd_c.
    { rewrite length_app, length_take, length_drop. lia. }
    split; [|split; [done|congruence]].
    replace (Z.to_nat (k + 1)) with (S (Z.to_nat k)) by lia.
    apply overwrite_step; [done|lia]. }
  intros b w' (-> & Hw' & Eh). rewrite Z.add_0_l, Nat2Z.id. by apply HQ.
Qed.

Lemma wp_read_desc_sync d w u (Q : ixgbe_aci_desc -> world -> Prop) : aci_world w u -> desc_wf d ->
  (forall w', aci_world w' u -> w_hw w' = w_hw w -> Q (desc_of_raw (u_hida u)) w') ->
  wp (read_desc PF_HIDA d) Q w.
Proof using.
  intros Hw Hd HQ. unfold read_desc. wp_step. destruct (uw_hida u (aw_wf _ _ Hw)) as [Hl Hr].
  eapply (wp_read_array PF_HIDA (u_hida u)); [done|done|by rewrite Hl|by rewrite length_raw_desc| |].
  - intros dv i x Hu Hi Hx. apply read_hida; [done|by rewrite Hu].
  - intros w' Hw' Eh. apply wp_ret. rewrite take_ge by (rewrite Hl; done).
    rewrite drop_ge by (rewrite length_raw_desc by done; done). rewrite app_nil_r. by apply HQ.
Qed.

Lemma wp_read_desc_async d w u (Q : ixgbe_aci_desc -> world -> Prop) : aci_world w u -> desc_wf d ->
  (forall w', aci_world w' u -> w_hw w' = w_hw w -> Q (desc_of_raw (u_hida2 u)) w') ->
  wp (read_desc PF_HIDA_2 d) Q w.
Proof using.
  intros Hw Hd HQ. unfold read_desc. wp_step. destruct (uw_hida2 u (aw_wf _ _ Hw)) as [Hl Hr].
  eapply (wp_read_array PF_HIDA_2 (u_hida2 u)); [done|done|by rewrite Hl|by rewrite length_raw_desc| |].
  - intros dv i x Hu Hi Hx. apply read_hida2; [done|by rewrite Hu].
  - intros w' Hw' Eh. apply wp_ret. rewrite take_ge by (rewrite Hl; done).
    rewrite drop_ge by (rewrite length_raw_desc by done; done). rewrite app_nil_r. by apply HQ.
Qed.

(** the unit after words were written over the front of its arrays *)
Definition with_hida (l : list Z) (u : aci_unit) : aci_unit :=
  mk_unit (u_fw u) (l ++ drop (length l) (u_hida u)) (u_hida2 u) (u_hiba u) (u_hicr u) (u_job u).
Definition with_hiba (l : list Z) (u : aci_unit) : aci_unit :=
  mk_unit (u_fw u) (u_hida u) (u_hida2 u) (l ++ drop (length l) (u_hiba u)) (u_hicr u) (u_job u).


Lemma with_hida_wf l u : unit_wf u -> Forall (in_range 32) l -> (length l <= 8)%nat -> unit_wf (with_hida l u).
Proof using.
  intros [[? ?] ? ? ?] Hl Hn. split; simpl; try done. rewrite length_app, length_drop. split; [lia|].
  apply Forall_app. split; [done|by apply Forall_drop].
Qed.
Lemma with_hiba_wf l u : unit_wf u -> Forall (in_range 32) l -> (length l <= 1024)%nat -> unit_wf (with_hiba l u).
Proof using.
  intros [? ? [? ?] ?] Hl Hn. split; simpl; try done. rewrite length_app, length_drop. split; [lia|].
  apply Forall_app. split; [done|by apply Forall_drop].
Qed.

(** writing a list of words to an array of registers *)
Lemma wp_write_array (reg : Z -> Z) (upd : list Z -> aci_unit -> aci_unit) (l : list Z) (n : nat) w u
    (Q : unit -> world -> Prop) :
  aci_world w u -> Forall (in_range 32) l -> (length l <= n)%nat ->
  (forall l', Forall (in_range 32) l' -> (length l' <= n)%nat -> unit_wf (upd l' u)) -> upd [] u = u ->
  (forall d k x, l !! k = Some x -> unit_of d = upd (take k l) u ->
     unit_of (dev_write d (reg (Z.of_nat k)) x) = upd (take (S k) l) u) ->
  (forall w', aci_world w' (upd l u) -> w_hw w' = w_hw w -> Q tt w') ->
  wp (for_loop (length l) 0 (fun i => x ← nth_c l i; IXGBE_WRITE_REG (reg i) x)) Q w.
Proof using.
  intros [Hm Hu Hw] Hr Hn Hwf H0 Hstep HQ. eapply wp_mono.
  { apply wp_for_loop with (Inv := fun k w' => unit_of (w_dev w') = upd (take (Z.to_nat k) l) u /\
      w_hw w' = w_hw w); [split; [|done]; change (take (Z.to_nat 0) l) with (@nil Z); by rewrite H0|].
    intros k w1 Hk [Eu Eh]. destruct (lookup_lt_is_Some_2 l (Z.to_nat k)) as [x Hx]; [lia|].
    wp_step. apply (wp_nth_c _ _ x); [lia|done|]. apply wp_WRITE; [by rewrite Eh| |].
    { rewrite Forall_lookup in Hr. by eapply Hr. }
    intros lg. simpl. split; [|done]. replace (Z.to_nat (k + 1)) with (S (Z.to_nat k)) by lia.
    rewrite <- (Hstep _ _ x Hx Eu). by rewrite Z2Nat.id by lia. }
  intros [] w' [Eu Eh]. rewrite Z.add_0_l, Nat2Z.id, firstn_all in Eu. apply HQ; [|done].
  split; [by rewrite Eh|done|by apply Hwf].
Qed.

Lemma wp_write_hida d w u (Q : unit -> world -> Prop) : aci_world w u -> desc_ok d ->
  (forall w', aci_world w' (with_hida (raw_desc d) u) -> w_hw w' = w_hw w -> Q tt w') ->
  wp (write_hida d) Q w.
Proof using.
  intros Hw Hd HQ. pose proof (raw_desc_range d Hd) as Hr.
  assert (Hl : length (raw_desc d) = 8%nat) by (apply length_raw_desc; apply Hd).
  unfold write_hida. change (Z.to_nat _) with 8%nat. rewrite <- Hl at 1.
  eapply (wp_write_array PF_HIDA with_hida _ 8); [done|done|lia| | | |done].
  - intros l' H1 H2. apply with_hida_wf; [apply Hw|done|done].
  - unfold with_hida. simpl. rewrite drop_0. by destruct u.
  - intros dv k x Hx Eu. assert (Hk : (k < 8)%nat) by (rewrite <- Hl; by eapply lookup_lt_Some).
    rewrite write_hida_unit; [|lia|by rewrite Forall_lookup in Hr; eapply Hr].
    rewrite Eu. unfold unit_write_hida, with_hida. cbn [u_fw u_hida u_hida2 u_hiba u_hicr u_job]. f_equal. rewrite Nat2Z.id.
    rewrite !length_take_le by lia. apply overwrite_step; [done|].
    destruct (uw_hida u (aw_wf _ _ Hw)) as [-> _]. lia.
Qed.

Lemma wp_write_hiba t w u (Q : unit -> world -> Prop) : aci_world w u ->
  Forall (in_range 32) t -> (length t <= 1024)%nat ->
  (forall w', aci_world w' (with_hiba t u) -> w_hw w' = w_hw w -> Q tt w') ->
  wp (for_loop (length t) 0 (fun i => x ← nth_c t i; IXGBE_WRITE_REG (PF_HIBA i) x)) Q w.
Proof using.
  intros Hw Hr Hl HQ. eapply (wp_write_array PF_HIBA with_hiba _ 1024); [done|done|lia| | | |done].
  - intros l' H1 H2. apply with_hiba_wf; [apply Hw|done|done].
  - unfold with_hiba. simpl. rewrite drop_0. by destruct u.
  - intros dv k x Hx Eu. pose proof (lookup_lt_Some _ _ _ Hx) as Hk.
    rewrite write_hiba_unit; [|lia|by rewrite Forall_lookup in Hr; eapply Hr].
    rewrite Eu. unfold unit_write_hiba, with_hiba. simpl. f_equal. rewrite Nat2Z.id.
    rewrite !length_take_le by lia. apply overwrite_step; [done|].
    destruct (uw_hiba u (aw_wf _ _ Hw)) as [-> _]. lia.
Qed.

(** ** Waiting for the end of a phase *)
Definition with_left (x : Z) (j : job) (u : aci_unit) : aci_unit :=
  mk_unit (u_fw u) (u_hida u) (u_hida2 u) (u_hiba u) (u_hicr u)
    (Some (mk_job x (j_next j) (j_async j) (j_desc j) (j_buf j))).

(** the unit when the present phase is over *)
Definition phase_end (u : aci_unit) : aci_unit :=
  match u_job u with Some j => unit_tick (j_left j) u | None => u end.

Lemma tick_left us x j u : u_job u = Some j ->
  unit_tick us (with_left x j u) = if us <? x then with_left (x - us) j u else phase_end u.
Proof using.
  intros Ej. unfold unit_tick, with_left, phase_end. simpl. destruct (us <? x); [done|].
  rewrite Ej. unfold unit_tick. rewrite Ej, Z.ltb_irrefl. done.
Qed.

Lemma wp_aci_wait bits T h0 w u j u1 (Q : Z -> world -> Prop) :
  aci_world w u -> u_job u = Some j -> 0 <= j_left j <= 1000 * (T - 1) -> 2 <= T ->
  has (u_hicr u) bits = false -> has (u_hicr u) PF_HICR_C = true ->
  phase_end u = u1 -> has (u_hicr u1) bits || negb (has (u_hicr u1) PF_HICR_C) = true ->
  unit_wf u1 ->
  (forall w', aci_world w' u1 -> w_hw w' = w_hw w -> Q (u_hicr u1) w') ->
  wp (aci_wait bits T h0) Q w.
Proof using.
  intros Hw Ej HL HT Hb Hc <- He Hwf HQ. set (L := j_left j) in *.
  assert (Eu : u = with_left L j u).
  { unfold with_left, L. destruct u, j. simpl in *. by subst. }
  unfold aci_wait. wp_step. eapply wp_mono.
  { apply wp_for_break with
      (Inv := fun k _ w' => w_hw w' = w_hw w /\
         (aci_world w' (with_left (L - 1000 * k) j u) /\ (k = 0 \/ 0 < L - 1000 * k) \/
          aci_world w' (phase_end u) /\ k <= T - 1))
      (Q := fun r w' => match r with
        | inr h => h = u_hicr (phase_end u) /\ aci_world w' (phase_end u) /\ w_hw w' = w_hw w
        | inl _ => False end).
    - split; [done|]. left. rewrite Z.mul_0_r, Z.sub_0_r, <- Eu. split; [done|by left].
    - intros k h w1 Hk [Eh [[Hw1 Hk1]|[Hw1 Hk1]]]; (wp_step; eapply wp_read_hicr; [done|];
        intros w2 Hw2 Eh2).
      + cbn [with_left u_hicr]. rewrite Hb, Hc. cbn [orb negb]. wp_step.
        unfold msec_delay. apply wp_udelay. apply wp_ret. simpl. split; [congruence|].
        destruct Hw2 as [Hm2 Hu2 Hwf2].
        assert (Et : unit_of (dev_delay (w_dev w2) (1000 * 1)) =
          if 1000 <? L - 1000 * k then with_left (L - 1000 * (k + 1)) j u else phase_end u).
        { rewrite delay_unit, Hu2, tick_left by done. change (1000 * 1) with 1000.
          destruct (1000 <? L - 1000 * k); [|done]. f_equal. lia. }
        destruct (Z.ltb_spec 1000 (L - 1000 * k)).
        * left. split; [|right; lia]. split; simpl; [done|done|]. destruct Hwf2; by split.
        * right. split; [by split; simpl|]. destruct Hk1; lia.
      + rewrite He. apply wp_ret. split; [done|]. split; [done|congruence].
    - intros h w1 [Eh [[Hw1 Hk1]|[Hw1 Hk1]]]; rewrite Z2Nat.id in * by lia; lia. }
  intros [h|h] w1; [done|]. intros (-> & Hw1 & Eh). apply wp_ret. by apply HQ.
Qed.
(** ** The call *)

(** no command in execution, the interface enabled *)
Record unit_idle (u : aci_unit) (s : fw) : Prop := {
  ui_fw : u_fw u = s;
  ui_job : u_job u = None;
  ui_en : has (u_hicr u) PF_HICR_EN = true;
  ui_c : has (u_hicr u) PF_HICR_C = false;
}.

(** what the caller gets: status, descriptor and buffer, and [aci.last_status] *)
Definition rpc_reply (op : Z) (buf : option (list Z)) (n : Z) (rd : ixgbe_aci_desc) (ab : list Z) :
    aci_reply * Z :=
  if negb (d_opcode rd =? op) && negb (op =? ixgbe_aci_opc_get_fw_event)
  then ((IXGBE_ERR_ACI_ERROR, rd, buf), 0)
  else if negb (d_retval rd =? IXGBE_ACI_RC_OK) then ((IXGBE_ERR_ACI_ERROR, rd, buf), d_retval rd)
  else
    ((IXGBE_SUCCESS, rd,
      match buf with
      | Some b => if has (d_flags rd) IXGBE_ACI_FLAG_BUF
                  then Some (take (Z.to_nat n) (bytes_of ab) ++ drop (Z.to_nat n) b) else buf
      | None => None
      end), 0).

Definition hw_last (ls : Z) (h : ixgbe_hw) : ixgbe_hw := upd_aci (upd_aci_last_status ls (aci h)) h.

Lemma hw_last_same h : hw_last (aci_last_status (aci h)) h = h.
Proof using. unfold hw_last, upd_aci, upd_aci_last_status. destruct (aci h) eqn:E. by destruct h; simpl in *; subst. Qed.

Lemma has_set v m k : 0 <= k -> 0 <= m ->
  has (set_bits v (bit m)) (bit k) = (k =? m) || has v (bit k).
Proof using.
  intros Hk Hm. rewrite !has_bit by lia. unfold set_bits. rewrite Z.lor_spec, testbit_bit by lia.
  apply orb_comm.
Qed.
Lemma has_clear v m k : 0 <= k < 32 -> 0 <= m ->
  has (clear_bits v (bit m)) (bit k) = negb (k =? m) && has v (bit k).
Proof using.
  intros Hk Hm. rewrite !has_bit by lia. unfold clear_bits.
  rewrite Z.land_spec, testbit_bnot, testbit_bit by lia.
  destruct (Z.ltb_spec k 32); [|lia]. apply andb_comm.
Qed.
Lemma set_range v m : in_range 32 v -> in_range 32 m -> in_range 32 (set_bits v m).
Proof using. intros. by apply lor_range. Qed.
Lemma clear_range v m : in_range 32 v -> in_range 32 (clear_bits v m).
Proof using. intros. apply land_range; [done|done|]. by apply bnot_range. Qed.

(** the answer to the command a unit starts with: after one or two phases the
    driver holds the answer descriptor, and the unit is idle with the answer
    buffer in place *)
Lemma wp_answer d u h w (Q : Z * ixgbe_aci_desc -> world -> Prop) :
  unit_wf u -> u_job u = None -> desc_wf d ->
  in_range 32 h -> has h PF_HICR_C = true -> has h PF_HICR_SV = false -> has h PF_HICR_EV = false ->
  has h PF_HICR_EN = true ->
  aci_world w (unit_write_hicr h u) ->
  (forall w' hicr u' s' ad ab, fw_exec (u_fw u) (u_hida u) (u_hiba u) = (s', ad, ab) ->
     aci_world w' u' -> unit_idle u' s' -> u_hiba u' = ab -> w_hw w' = w_hw w ->
     has hicr PF_HICR_C = false -> has hicr PF_HICR_SV = true -> Q (hicr, desc_of_raw ad) w') ->
  wp (aci_answer d h) Q w.
Proof using.
  intros Hwf Ej Hd Hh Hc Hsv Hev Hen Hw HQ. unfold aci_answer.
  unfold unit_write_hicr in Hw. rewrite Hc, Ej in Hw.
  destruct (fw_exec (u_fw u) (u_hida u) (u_hiba u)) as [[s' ad] ab] eqn:Ex.
  pose proof (fw_desc_ok (u_fw u) (u_hida u) (u_hiba u)) as Hda. rewrite Ex in Hda. simpl in Hda.
  pose proof (fw_buf_ok (u_fw u) (u_hida u) (u_hiba u)) as Hba. rewrite Ex in Hba. simpl in Hba.
  pose proof (fw_latency_ok (u_fw u)) as Hlat.
  destruct (fw_latency (u_fw u)) as [t next]. simpl in Hlat. destruct Hlat as [Ht Hn].
  assert (Hans : forall w1 hicr u1 d1, aci_world w1 u1 -> unit_idle u1 s' -> u_hiba u1 = ab ->
    w_hw w1 = w_hw w -> desc_wf d1 -> has hicr PF_HICR_C = false -> has hicr PF_HICR_SV = true ->
    (if has hicr PF_HICR_EV then u_hida2 u1 else u_hida u1) = ad ->
    wp (d ← (if has hicr PF_HICR_SV then read_desc PF_HIDA d1 else mret d1);
        d ← (if has hicr PF_HICR_EV && negb (has hicr PF_HICR_C) then read_desc PF_HIDA_2 d else mret d);
        mret (hicr, d)) Q w1).
  { intros w1 hicr u1 d1 H1 Hi Hb Eh Hd1 Hc1 Hs1 Hu. rewrite Hs1, Hc1. cbn [negb].
    rewrite andb_true_r. wp_step. eapply wp_read_desc_sync; [done|done|]. intros w2 H2 Eh2. wp_step.
    destruct (has hicr PF_HICR_EV).
    - eapply wp_read_desc_async; [done| |].
      { apply desc_of_raw_wf. by destruct (uw_hida u1 (aw_wf _ _ H1)). }
      intros w3 H3 Eh3. wp_step. rewrite Hu. by eapply HQ; try done; congruence.
    - wp_step. wp_step. rewrite Hu. by eapply HQ; try done; congruence. }
  destruct Hwf as [? ? ? ?]. wp_step. destruct next as [t2|]; simpl option_map in Hw.
  - set (v2 := set_bits h PF_HICR_SV).
    assert (Hv2 : has v2 PF_HICR_SV = true /\ has v2 PF_HICR_C = true /\ has v2 PF_HICR_EV = false /\
                  has v2 PF_HICR_EN = true).
    { unfold v2, PF_HICR_SV, PF_HICR_C, PF_HICR_EV, PF_HICR_EN in *. rewrite !has_set by lia.
      by rewrite Hc, Hev, Hen. }
    destruct Hv2 as (V1 & V2 & V3 & V4).
    set (v3 := set_bits (clear_bits v2 PF_HICR_C) PF_HICR_EV).
    assert (Hv3 : has v3 PF_HICR_SV = true /\ has v3 PF_HICR_C = false /\ has v3 PF_HICR_EV = true /\
                  has v3 PF_HICR_EN = true).
    { unfold v3. unfold PF_HICR_SV, PF_HICR_C, PF_HICR_EV, PF_HICR_EN in *.
      rewrite !has_set, !has_clear by lia. by rewrite V1, V4. }
    destruct Hv3 as (V5 & V6 & V7 & V8).
    eapply (wp_aci_wait _ _ _ _ _ _ (mk_unit s' (u_hida u) (u_hida2 u) (u_hiba u) v2
      (Some (mk_job (1000 * t2) None true ad ab)))); [exact Hw|done|simpl; lia|done|done|done| | | |].
    { unfold phase_end, unit_tick. cbn. by rewrite Z.ltb_irrefl. }
    { simpl. by rewrite V1. }
    { split; [done..|]. by apply set_range. }
    intros w1 Hw1 Eh1. cbn [u_hicr]. rewrite V1, V2. cbn [andb]. wp_step.
    eapply (wp_aci_wait _ _ _ _ _ _ (mk_unit s' (u_hida u) ad ab v3 None));
      [exact Hw1|done|simpl; lia|done|done|done| | | |].
    { unfold phase_end, unit_tick. cbn. by rewrite Z.ltb_irrefl. }
    { simpl. by rewrite V7. }
    { split; [done..|]. apply set_range; [|done]. apply clear_range. by apply set_range. }
    intros w2 Hw2 Eh2. eapply Hans; [exact Hw2|by split|done|congruence|done|done|done|].
    cbn [u_hicr u_hida u_hida2]. by rewrite V7.
  - set (v1 := set_bits (clear_bits h PF_HICR_C) PF_HICR_SV).
    assert (Hv1 : has v1 PF_HICR_SV = true /\ has v1 PF_HICR_C = false /\ has v1 PF_HICR_EV = false /\
                  has v1 PF_HICR_EN = true).
    { unfold v1. unfold PF_HICR_SV, PF_HICR_C, PF_HICR_EV, PF_HICR_EN in *.
      rewrite !has_set, !has_clear by lia. by rewrite Hev, Hen. }
    destruct Hv1 as (V1 & V2 & V3 & V4).
    eapply (wp_aci_wait _ _ _ _ _ _ (mk_unit s' ad (u_hida2 u) ab v1 None));
      [exact Hw|done|simpl; lia|done|done|done| | | |].
    { unfold phase_end, unit_tick. cbn. by rewrite Z.ltb_irrefl. }
    { simpl. by rewrite V1. }
    { split; [done..|]. apply set_range; [|done]. by apply clear_range. }
    intros w1 Hw1 Eh1. cbn [u_hicr]. rewrite V1, V2. cbn [andb]. wp_step. wp_step.
    eapply Hans; [exact Hw1|by split|done|congruence|done|done|done|].
    cbn [u_hicr u_hida u_hida2]. by rewrite V3.
Qed.

(** the words the firmware sees in the buffer registers: the bounce buffer [t] in
    front if the descriptor says that there is data to read *)
Definition sees (d : ixgbe_aci_desc) (t hb : list Z) : Prop :=
  length hb = 1024%nat /\ Forall (in_range 32) hb /\
  (has (d_flags d) IXGBE_ACI_FLAG_RD = true -> take (length t) hb = t).

Lemma write_hicr_wf h u : unit_wf u -> in_range 32 h -> unit_wf (unit_write_hicr h u).
Proof using.
  intros Hw Hh. destruct Hw as [? ? ? ?]. unfold unit_write_hicr. destruct (has h PF_HICR_C); [|by split].
  destruct (u_job u); [by split|].
  destruct (fw_exec _ _ _) as [[s' ad] ab], (fw_latency _) as [t next]. by split.
Qed.

(** after the submission the unit executes the command *)
Lemma wp_submit d (t : option (list Z)) w u (Q : Z -> world -> Prop) :
  aci_world w u -> desc_ok d -> (length (default [] t) <= 1024)%nat ->
  Forall (in_range 32) (default [] t) ->
  (forall w' u', sees d (default [] t) (u_hiba u') -> u_hida u' = raw_desc d -> unit_wf u' ->
     u_fw u' = u_fw u -> u_job u' = u_job u -> aci_world w' (unit_write_hicr (command_hicr (u_hicr u)) u') ->
     w_hw w' = w_hw w -> Q (command_hicr (u_hicr u)) w') ->
  wp (aci_submit d t) Q w.
Proof using.
  intros Hw Hd Hl Hr HQ. unfold aci_submit. wp_step.
  set (u1 := if has (d_flags d) IXGBE_ACI_FLAG_RD then with_hiba (default [] t) u else u).
  assert (E0 : with_hiba [] u = u) by (unfold with_hiba; simpl; rewrite drop_0; by destruct u).
  assert (Hu1 : unit_wf u1 /\ sees d (default [] t) (u_hiba u1) /\ u_fw u1 = u_fw u /\ u_job u1 = u_job u /\
                u_hicr u1 = u_hicr u).
  { pose proof (aw_wf _ _ Hw) as Hwf.
    assert (unit_wf u1) as H1.
    { unfold u1. destruct (has _ _); [|done]. by apply with_hiba_wf. }
    split; [done|]. split; [|by unfold u1; destruct (has _ _)].
    destruct (uw_hiba _ H1) as [? ?]. split; [done|]. split; [done|]. intros E. unfold u1. rewrite E.
    cbn [with_hiba u_hiba]. by rewrite take_app_length. }
  destruct Hu1 as (Hwf1 & Hs1 & Hf1 & Hj1 & Hh1).
  eapply wp_mono with (P := fun _ w1 => w_hw w1 = w_hw w /\ aci_world w1 u1).
  { unfold u1. destruct t as [t|]; simpl default in *.
    - destruct (has (d_flags d) IXGBE_ACI_FLAG_RD); [|by apply wp_ret].
      apply (wp_write_hiba t w u); [done|done|done|]. intros w' Hw' Eh. by split.
    - rewrite E0. destruct (has _ _); by apply wp_ret. }
  intros [] w1 [Eh1 Hw1]. wp_step. eapply wp_write_hida; [exact Hw1|done|]. intros w2 Hw2 Eh2.
  wp_step. eapply wp_read_hicr; [exact Hw2|]. intros w3 Hw3 Eh3. cbn [u_hicr with_hida] in *.
  cbv zeta. fold (command_hicr (u_hicr u1)). rewrite Hh1.
  assert (Hh : in_range 32 (command_hicr (u_hicr u))).
  { apply land_range; [lia| |by apply bnot_range]. apply lor_range; [lia| |done].
    apply (uw_hicr u (aw_wf _ _ Hw)). }
  wp_step. destruct Hw3 as [Hm3 Hu3 Hwf3]. apply wp_WRITE; [done|done|]. intros lg. apply wp_ret.
  eapply (HQ _ (with_hida (raw_desc d) u1)); try done; simpl.
  - rewrite drop_ge, app_nil_r; [done|]. destruct (uw_hida u1 Hwf1) as [-> _].
    by rewrite (length_words_of 4) by apply Hd.
  - split; simpl; [done| |by apply write_hicr_wf]. by rewrite write_hicr_unit, Hu3.
  - congruence.
Qed.

Lemma wp_exchange op d buf n t w u (Q : aci_reply -> world -> Prop) :
  aci_world w u -> unit_idle u (u_fw u) -> desc_ok d -> aci_last_status (aci (w_hw w)) = 0 ->
  match buf, t with
  | Some b, Some tw => 0 <= n <= Z.of_nat (length b) /\ n <= 4 * Z.of_nat (length tw) <= 4096 /\
                       Forall (in_range 32) tw
  | None, None => True
  | _, _ => False
  end ->
  (forall w' u' hb s' ad ab, sees d (default [] t) hb -> fw_exec (u_fw u) (raw_desc d) hb = (s', ad, ab) ->
     aci_world w' u' -> unit_idle u' s' ->
     let x := rpc_reply op buf n (desc_of_raw ad) ab in
     w_hw w' = hw_last x.2 (w_hw w) -> Q x.1 w') ->
  wp (aci_exchange op d buf n t) Q w.
Proof using.
  intros Hw [_ Ej Hen Hc] Hd Hls Hb HQ. unfold aci_exchange. wp_step.
  assert (Htl : (length (default [] t) <= 1024)%nat /\ Forall (in_range 32) (default [] t)).
  { destruct t as [t|]; simpl; [|split; [lia|constructor]]. destruct buf; [|done]. split; [lia|apply Hb]. }
  eapply wp_submit; [done|done|apply Htl|apply Htl|].
  intros w1 u1 Hsees Eh1 Hwf1 Ef1 Ej1 Hw1 Ehw1. set (h' := command_hicr (u_hicr u)) in *.
  assert (Hh' : has h' PF_HICR_C = true /\ has h' PF_HICR_SV = false /\ has h' PF_HICR_EV = false /\
                has h' PF_HICR_EN = true /\ in_range 32 h').
  { unfold h'. unfold PF_HICR_C, PF_HICR_SV, PF_HICR_EV, PF_HICR_EN in *. rewrite !has_command by lia.
    rewrite has_bit in Hen by lia. rewrite Hen. rewrite orb_true_r, !andb_false_r. repeat (split; [done|]).
    apply land_range; [lia| |by apply bnot_range]. apply lor_range; [lia| |done].
    apply (uw_hicr u (aw_wf _ _ Hw)). }
  destruct Hh' as (H1 & H2 & H3 & H4 & H5). wp_step.
  apply (wp_answer d u1 h' w1); [done|congruence|apply Hd|done|done|done|done|done|done|].
  intros w' hicr u' s' ad ab Ex Hw' Hi' Hab Eh' Hc' Hs'. cbn [fst snd]. rewrite Eh1, Ef1 in Ex.
  rewrite Hc', Hs'. cbn [negb andb]. 
  assert (HQ' := fun w2 H => HQ w2 u' (u_hiba u1) s' ad ab Hsees Ex H Hi'). clear HQ. cbv zeta in HQ'.
  assert (Eh : w_hw w' = w_hw w) by congruence.
  assert (E0 : hw_last 0 (w_hw w) = w_hw w) by (rewrite <- Hls; apply hw_last_same).
  unfold rpc_reply in HQ'. set (rd := desc_of_raw ad) in *.
  destruct (negb (d_opcode rd =? op) && _); [apply wp_ret, HQ'; [done|by rewrite Eh]|].
  destruct (negb (d_retval rd =? _)).
  { wp_step. apply wp_upd_hw, wp_ret, HQ'; [|by rewrite Eh].
    destruct Hw' as [Hm Hu Hwf]. by split. }
  destruct t as [t|], buf as [b|]; try done; [|apply wp_ret, HQ'; [done|by rewrite Eh]].
  destruct (has (d_flags rd) IXGBE_ACI_FLAG_BUF); [|apply wp_ret, HQ'; [done|by rewrite Eh]].
  destruct Hb as (Hn & Ht & Hr). wp_step. destruct (uw_hiba u' (aw_wf _ _ Hw')) as [Hbl Hbr].
  rewrite Hab in Hbl, Hbr. eapply (wp_read_array PF_HIBA ab); [exact Hw'|done|lia|done| |].
  { intros dv i x Hu Hi2 Hx. apply read_hiba; [lia|by rewrite Hu, Hab]. }
  intros w2 Hw2 Eh2. rewrite drop_all, app_nil_r. wp_step. apply wp_copy_from.
  { rewrite length_bytes_of, length_take. lia. }
  wp_step. apply wp_copy_to.
  { rewrite length_take, length_bytes_of, length_take. lia. }
  apply wp_ret. rewrite length_take, length_bytes_of, length_take.
  replace (Z.to_nat n `min` (4 * (length t `min` length ab)))%nat with (Z.to_nat n) by lia.
  rewrite take_bytes by lia. apply HQ'; [done|]. cbn [snd]. congruence.
Qed.

(** the unit is idle and this thread does not hold the lock *)
Record aci_ready (w : world) (s : fw) : Prop := {
  ar_unit : exists u, aci_world w u /\ unit_idle u s;
  ar_lock : aci_lock (aci (w_hw w)) = false;
}.

Lemma wp_execute d buf n w s (Q : aci_reply -> world -> Prop) :
  (exists u, aci_world w u /\ unit_idle u s) -> desc_ok d -> valid_buf d buf n ->
  (forall k w', kmalloc k w' = true) ->
  (forall w' hb s' ad ab, let rq := aci_request d buf n in
     sees rq.1 rq.2 hb -> fw_exec s (raw_desc rq.1) hb = (s', ad, ab) ->
     (exists u, aci_world w' u /\ unit_idle u s') ->
     let x := rpc_reply (d_opcode d) buf n (desc_of_raw ad) ab in
     w_hw w' = hw_last x.2 (w_hw w) -> Q x.1 w') ->
  wp (ixgbe_aci_send_cmd_execute kmalloc d buf n) Q w.
Proof using.
  intros (u & Hw & Hi) Hd Hv Hk HQ. unfold ixgbe_aci_send_cmd_execute.
  destruct (aci_request_ok d buf n Hd Hv) as (Hrd & Hrt & Hrl).
  wp_step. apply wp_upd_hw. set (w0 := mk_world _ _ _ _).
  assert (Hw0 : aci_world w0 u) by (destruct Hw; by split).
  wp_step. eapply wp_read_hicr; [exact Hw0|]. intros w1 Hw1 Eh1. destruct Hi as [Ef Ej Hen Hc].
  rewrite Hen, Hc. cbn [negb]. cbv zeta.
  assert (Hn : n <= 4096) by (destruct buf; simpl in Hv; lia).
  destruct (Z.ltb_spec IXGBE_ACI_MAX_BUFFER_SIZE n); [unfold IXGBE_ACI_MAX_BUFFER_SIZE in *; lia|].
  assert (Hex : forall t, match buf, t with
      | Some b, Some tw => tw = (aci_request d buf n).2
      | None, None => True
      | _, _ => False
      end -> wp (aci_exchange (d_opcode d) (aci_request d buf n).1 buf n t) Q w1).
  { intros t Ht. apply (wp_exchange _ _ _ _ _ _ u); [done|by split|done|by rewrite Eh1| |].
    - destruct buf, t; try done. subst. split; [simpl in Hv; lia|]. split; [by apply Hrl|done].
    - intros w' u' hb s' ad ab Hs Ex Hw' Hi' x Ehw. rewrite Ef in Ex. eapply (HQ w' hb); [|exact Ex|by exists u'|].
      + destruct buf, t; try done. by subst.
      + rewrite Ehw, Eh1. done. }
  destruct buf as [b|].
  - destruct Hv as (Hv & Hl & Hb). rewrite andb_false_intro2 by (apply Z.eqb_neq; lia).
    wp_step. unfold ixgbe_malloc. wp_step. rewrite Hk. cbn [negb]. wp_step. apply wp_copy_from; [done|].
    match goal with |- wp (aci_exchange ?o ?d' ?b' ?n' (Some ?t)) _ _ =>
      replace d' with (aci_request d (Some b) n).1; [by apply (Hex (Some t))|] end.
    unfold aci_request. cbn [fst]. destruct (_ <? _); [done|]. by rewrite Z.lor_0_r.
  - assert (has (d_flags d) IXGBE_ACI_FLAG_BUF && negb (n =? 0) = false) as ->.
    { destruct Hv as [-> |[-> _]]; [|done]. by rewrite andb_false_r. }
    by apply (Hex None).
Qed.

Lemma hw_unlock ls h : aci_lock (aci h) = false ->
  upd_aci (upd_aci_lock false (aci (hw_last ls (upd_aci (upd_aci_lock true (aci h)) h))))
    (hw_last ls (upd_aci (upd_aci_lock true (aci h)) h)) = hw_last ls h.
Proof using. unfold hw_last, upd_aci, upd_aci_last_status, upd_aci_lock. cbn. by intros <-. Qed.

(** Sending a command that is not repeated is one call of the firmware. *)
Lemma wp_send_cmd d buf n w s (Q : aci_reply -> world -> Prop) :
  aci_ready w s -> desc_ok d -> valid_buf d buf n -> (forall k w', kmalloc k w' = true) ->
  ixgbe_should_retry_aci_send_cmd_execute (d_opcode d) = false ->
  (forall w' hb s' ad ab, let rq := aci_request d buf n in
     sees rq.1 rq.2 hb -> fw_exec s (raw_desc rq.1) hb = (s', ad, ab) -> aci_ready w' s' ->
     let x := rpc_reply (d_opcode d) buf n (desc_of_raw ad) ab in
     w_hw w' = hw_last x.2 (w_hw w) -> Q x.1 w') ->
  wp (ixgbe_aci_send_cmd kmalloc d buf n) Q w.
Proof using.
  intros [(u & Hw & Hi) Hlk] Hd Hv Hk Hr HQ. unfold ixgbe_aci_send_cmd. cbv zeta. rewrite Hr.
  assert (Hloop : wp (aci_send_loop kmalloc 2 false d [] d buf n) Q w); [|by destruct buf].
  unfold aci_send_loop; fold (aci_send_loop kmalloc). unfold aci_execute_locked, ixgbe_acquire_lock.
  do 3 wp_step. apply wp_get_hw. rewrite Hlk. apply wp_upd_hw. do 2 wp_step.
  eapply wp_execute; [exists u; split; [destruct Hw; by split|done]|done|done|done|].
  intros w' hb s' ad ab rq Hs Ex (u' & Hw' & Hi') x Eh. wp_step. unfold get_last_status. wp_step.
  apply wp_get_hw. apply wp_ret. wp_step. wp_step. unfold ixgbe_release_lock. apply wp_upd_hw, wp_ret.
  destruct x as [[[st rd] rb] ls] eqn:Ex2. cbn [fst snd] in *. cbn [negb orb]. apply wp_ret.
  specialize (HQ (mk_world _ (upd_aci (upd_aci_lock false (aci (w_hw w'))) (w_hw w')) (w_dev w') (w_log w'))
    hb s' ad ab Hs Ex). cbv zeta in HQ. fold x in HQ. rewrite Ex2 in HQ. cbn [fst snd] in HQ. apply HQ.
  - split; [|done]. exists u'. split; [|done]. destruct Hw'; by split.
  - cbn [w_hw]. rewrite Eh. by apply hw_unlock.
Qed.
End Rpc.
