(* ===== verification/AciUnit.v ===== *)
(** * Concrete devices for the admin command interface

    For every firmware, the unit of AciDev.v as a device, and a firmware that
    agrees to everything: it accepts each command and announces [count] elements
    in the buffer [buf].  The concrete instances of the theorems about E610 run
    on them. *)
From S2P Require Import Prelude Bytes Regs Types Osdep RegsE610.
From S2P Require Import Aci AciSafe AciDev AciRpc.

(** the registers of a unit *)
Definition in_window (r base words : Z) : bool := (base <=? r) && (r <? base + 4 * words) && ((r - base) mod 4 =? 0).

Section UnitDevice.
Context `{F : Firmware}.

#[local] Instance unit_mmio : Mmio := {
  dev := aci_unit;
  dev_read := fun u r =>
    ((if r =? PF_HICR then u_hicr u
      else if in_window r (PF_HIDA 0) 8 then nth (Z.to_nat ((r - PF_HIDA 0) / 4)) (u_hida u) 0
      else if in_window r (PF_HIDA_2 0) 8 then nth (Z.to_nat ((r - PF_HIDA_2 0) / 4)) (u_hida2 u) 0
      else if in_window r (PF_HIBA 0) 1024 then nth (Z.to_nat ((r - PF_HIBA 0) / 4)) (u_hiba u) 0
      else if r =? GLNVM_FLA then GLNVM_FLA_LOCKED_M
      else if r =? GLNVM_GENS then Z.shiftl 2 GLNVM_GENS_SR_SIZE_S
      else 0), u);
  dev_write := fun u r v =>
    if r =? PF_HICR then unit_write_hicr v u
    else if in_window r (PF_HIDA 0) 8 then unit_write_hida ((r - PF_HIDA 0) / 4) v u
    else if in_window r (PF_HIBA 0) 1024 then unit_write_hiba ((r - PF_HIBA 0) / 4) v u
    else u;
  dev_delay := fun u us => unit_tick us u;
}.

Lemma in_window_at base words i : 0 <= i < words -> in_window (base + i * 4) base words = true /\ (base + i * 4 - base) / 4 = i.
Proof.
  intros Hi. unfold in_window. split; [|zlia].
  apply andb_true_intro. split; [apply andb_true_intro; split; [apply Z.leb_le; lia|apply Z.ltb_lt; lia]|].
  apply Z.eqb_eq. zlia.
Qed.
Lemma in_window_out r base words : r < base \/ base + 4 * words <= r -> in_window r base words = false.
Proof.
  intros Hr. unfold in_window. apply andb_false_intro1. destruct Hr.
  - apply andb_false_intro1, Z.leb_gt. lia.
  - apply andb_false_intro2, Z.ltb_ge. lia.
Qed.

#[local, refine] Instance unit_device : AciDevice unit_mmio F := {
  unit_of := fun u : @dev unit_mmio => u;
  dev_gens := Z.shiftl 2 GLNVM_GENS_SR_SIZE_S;
  dev_fla := GLNVM_FLA_LOCKED_M;
  gens_range := _; fla_range := _; read_status := _; read_gens := _; read_fla := _; read_fwsm := _; read_hicr := _;
  read_hida := _; read_hida2 := _; read_hiba := _; write_hida_unit := _; write_hiba_unit := _;
  write_hicr_unit := _; delay_unit := _;
}.
Proof.
  all: try done.
  - intros d. by exists 0.
  - intros d. by exists 0.
  - intros d i x Hi Hx. simpl. destruct (in_window_at 0x85000 8 i Hi) as [E1 E2].
    unfold PF_HIDA at 1. destruct (Z.eqb_spec (0x85000 + i * 4) PF_HICR); [unfold PF_HICR in *; lia|].
    change (PF_HIDA 0) with 0x85000. unfold PF_HIDA. rewrite E1, E2, nth_lookup, Hx. done.
  - intros d i x Hi Hx. simpl. destruct (in_window_at 0x85020 8 i Hi) as [E1 E2].
    unfold PF_HIDA_2 at 1. destruct (Z.eqb_spec (0x85020 + i * 4) PF_HICR); [unfold PF_HICR in *; lia|].
    change (PF_HIDA 0) with 0x85000. change (PF_HIDA_2 0) with 0x85020. unfold PF_HIDA_2.
    rewrite (in_window_out _ 0x85000) by lia. rewrite E1, E2, nth_lookup, Hx. done.
  - intros d i x Hi Hx. simpl. destruct (in_window_at 0x84000 1024 i Hi) as [E1 E2].
    unfold PF_HIBA at 1. destruct (Z.eqb_spec (0x84000 + i * 4) PF_HICR); [unfold PF_HICR in *; lia|].
    change (PF_HIDA 0) with 0x85000. change (PF_HIDA_2 0) with 0x85020. change (PF_HIBA 0) with 0x84000.
    unfold PF_HIBA. rewrite (in_window_out _ 0x85000), (in_window_out _ 0x85020) by lia.
    rewrite E1, E2, nth_lookup, Hx. done.
  - intros d i v Hi Hv. simpl. destruct (in_window_at 0x85000 8 i Hi) as [E1 E2].
    change (PF_HIDA 0) with 0x85000. unfold PF_HIDA. rewrite E1, E2.
    destruct (Z.eqb_spec (0x85000 + i * 4) PF_HICR); [unfold PF_HICR in *; lia|done].
  - intros d i v Hi Hv. simpl. destruct (in_window_at 0x84000 1024 i Hi) as [E1 E2].
    change (PF_HIDA 0) with 0x85000. change (PF_HIBA 0) with 0x84000. unfold PF_HIBA.
    rewrite (in_window_out _ 0x85000) by lia. rewrite E1, E2.
    destruct (Z.eqb_spec (0x84000 + i * 4) PF_HICR); [unfold PF_HICR in *; lia|done].
Defined.
End UnitDevice.

(** ** A firmware that agrees to everything *)
Section Agree.
Context (count : Z) (buf : list Z).

Definition agree_desc (op : Z) : ixgbe_aci_desc :=
  mk_desc IXGBE_ACI_FLAG_BUF op 0 IXGBE_ACI_RC_OK 0 0 (put32 4 count (replicate 16 0)).
Definition agree_page : list Z := take 4096 (map u8 buf ++ replicate 4096 0).
Definition agree_exec (s : unit) (l hb : list Z) : unit * list Z * list Z :=
  (s, raw_desc (agree_desc (d_opcode (desc_of_raw l))), words_of agree_page).

Lemma agree_desc_ok op : in_range 16 op -> desc_ok (agree_desc op).
Proof.
  intros Ho. split; try done. split; [done|]. repeat constructor; by apply trunc_range || (by vm_compute).
Qed.
Lemma agree_page_ok : length agree_page = (4 * 1024)%nat /\ Forall byte agree_page.
Proof.
  unfold agree_page. split; [rewrite length_take, length_app, length_replicate; lia|].
  apply Forall_take, Forall_app. split; [|by apply Forall_replicate].
  apply Forall_fmap, Forall_true. intros x. by apply trunc_range.
Qed.

#[local, refine] Instance agree_firmware : Firmware := {
  fw := unit; fw_exec := agree_exec; fw_latency := fun _ => (3, None) }.
Proof.
  - intros s d b. split; [done|]. apply raw_desc_range, agree_desc_ok. apply trunc_range. lia.
  - intros s d b. destruct agree_page_ok. split; [by apply length_words_of|by apply (words_of_range 1024)].
  - intros s. by split.
Defined.

Lemma agree_reply (s : unit) l hb s' ad ab : fw_exec s l hb = (s', ad, ab) ->
  desc_of_raw ad = agree_desc (d_opcode (desc_of_raw l)) /\ bytes_of ab = agree_page.
Proof.
  intros [= <- <- <-]. split.
  - apply desc_of_raw_desc, agree_desc_ok. apply trunc_range. lia.
  - apply (bytes_words 1024); apply agree_page_ok.
Qed.

(** the device in which it runs *)
Definition agree_unit : aci_unit := mk_unit tt (replicate 8 0) (replicate 8 0) (replicate 1024 0) PF_HICR_EN None.
Definition agree_world (h : ixgbe_hw) : world (H := unit_mmio) := mk_world unit_mmio h agree_unit [].

Lemma agree_world_ready h : mapped h -> aci_lock (aci h) = false ->
  aci_ready (D := unit_mmio) (AciDevice0 := unit_device) (agree_world h) tt.
Proof.
  intros Hm Hl. split; [|done]. exists agree_unit. split; [|by split].
  assert (Hz : forall n, Forall (in_range 32) (replicate n 0)) by (intros; by apply Forall_replicate).
  split; [done|done|]. by split; [split; [done|apply Hz]..|].
Qed.
End Agree.
