(* ===== verification/AciNvm.v ===== *)
(** * NVM access of the E610 through admin commands (ixgbe_e610.c)

    Ownership of the NVM, the NVM commands, flat reads of flash and Shadow RAM,
    the flash banks and the version information in them, the EEPROM operations of
    the E610 and the search in the preserved field area.

    A function that returns data through a pointer returns the status and the
    data.  Where the C function leaves the pointed-to area unwritten, the data is
    its old value if it is an argument and otherwise [None], or 0 next to an error
    status (no caller reads such a word). *)
From S2P Require Import Prelude Bytes Regs Types Osdep RegsE610 Aci.

(** struct ixgbe_minsrev_info *)
Record ixgbe_minsrev_info := mk_minsrev {
  ms_nvm : Z; ms_orom : Z; ms_nvm_valid : bool; ms_orom_valid : bool }.

(** [DIVIDE_AND_ROUND_UP], [ROUND_UP], in [u32] arithmetic *)
Definition ROUND_UP (a b : Z) : Z := u32 (b * (u32 (u32 (a + b) - 1) / b)).

Section AciNvm.
Context `{D : Mmio} (kmalloc : Z -> world -> bool).
Abbreviation send_cmd := (ixgbe_aci_send_cmd kmalloc).
Abbreviation direct := (aci_direct kmalloc).

(** *** Ownership *)
Definition ixgbe_acquire_nvm (access : Z) : M Z :=
  fla ← IXGBE_READ_REG GLNVM_FLA;
  if Z.land fla GLNVM_FLA_LOCKED_M =? 0 then mret IXGBE_SUCCESS
  else ixgbe_acquire_res kmalloc IXGBE_NVM_RES_ID access IXGBE_NVM_TIMEOUT.

Definition ixgbe_release_nvm : M unit :=
  fla ← IXGBE_READ_REG GLNVM_FLA;
  if Z.land fla GLNVM_FLA_LOCKED_M =? 0 then mret tt
  else ixgbe_release_res kmalloc IXGBE_NVM_RES_ID.

(** *** Commands *)

(** the members of [struct ixgbe_aci_cmd_nvm] *)
Definition nvm_params (offset cmd_flags module_typeid length : Z) (p : list Z) : list Z :=
  put16 6 length (put8 2 (Z.land (Z.shiftr offset 16) 0xFF) (put16 0 (Z.land offset 0xFFFF)
    (put16 4 module_typeid (put8 3 cmd_flags p)))).

(** status and [data] *)
Definition ixgbe_aci_read_nvm (module_typeid offset length : Z) (data : list Z)
    (last_command read_shadow_ram : bool) : M (Z * list Z) :=
  if IXGBE_ACI_NVM_MAX_OFFSET <? offset then mret (IXGBE_ERR_PARAM, data)
  else
    let cmd_flags := if negb read_shadow_ram && (module_typeid =? IXGBE_ACI_NVM_START_POINT)
                     then IXGBE_ACI_NVM_FLASH_ONLY else 0 in
    let cmd_flags := if last_command then Z.lor cmd_flags IXGBE_ACI_NVM_LAST_CMD else cmd_flags in
    let d := upd_d_params (nvm_params offset cmd_flags module_typeid length)
               (ixgbe_fill_dflt_direct_cmd_desc ixgbe_aci_opc_nvm_read) in
    r ← send_cmd d (Some data) length;
    let '(status, _, buf) := r in
    mret (status, default data buf).

Definition ixgbe_aci_erase_nvm (module_typeid : Z) : M Z :=
  r ← ixgbe_aci_read_nvm 0 (2 * module_typeid + 2) 2 [0; 0] true true;
  let '(status, len) := r in
  if negb (status =? 0) then mret status
  else
    let d := upd_d_params (fun p => put8 2 0 (put16 0 0 (put16 6 (get16 len 0) (put16 4 module_typeid p))))
               (ixgbe_fill_dflt_direct_cmd_desc ixgbe_aci_opc_nvm_erase) in
    r ← direct d; mret (fst r).

Definition ixgbe_aci_update_nvm (module_typeid offset length : Z) (data : list Z)
    (last_command : bool) (command_flags : Z) : M (Z * list Z) :=
  if negb (Z.land offset 0xFF000000 =? 0) then mret (IXGBE_ERR_PARAM, data)
  else
    let cmd_flags := if last_command then Z.lor command_flags IXGBE_ACI_NVM_LAST_CMD else command_flags in
    let d := upd_d_params (nvm_params offset cmd_flags module_typeid length)
               (ixgbe_fill_dflt_direct_cmd_desc ixgbe_aci_opc_nvm_write) in
    let d := upd_d_flags (Z.lor (d_flags d) IXGBE_ACI_FLAG_RD) d in
    r ← send_cmd d (Some data) length;
    let '(status, _, buf) := r in
    mret (status, default data buf).

(** [cmd->flags] and [cmd->checksum] of [struct ixgbe_aci_cmd_nvm_checksum] *)
Definition nvm_checksum_cmd (flags : Z) : M (Z * ixgbe_aci_desc) :=
  direct (upd_d_params (put8 0 flags) (ixgbe_fill_dflt_direct_cmd_desc ixgbe_aci_opc_nvm_checksum)).

Definition ixgbe_nvm_validate_checksum : M Z :=
  status ← ixgbe_acquire_nvm IXGBE_RES_READ;
  if negb (status =? 0) then mret status
  else
    r ← nvm_checksum_cmd IXGBE_ACI_NVM_CHECKSUM_VERIFY;
    let '(status, d) := r in
    ixgbe_release_nvm ;;
    mret (if (status =? 0) && negb (get16 (d_params d) 2 =? IXGBE_ACI_NVM_CHECKSUM_CORRECT)
          then IXGBE_ERR_NVM_CHECKSUM else status).

Definition ixgbe_nvm_recalculate_checksum : M Z :=
  status ← ixgbe_acquire_nvm IXGBE_RES_WRITE;
  if negb (status =? 0) then mret status
  else
    r ← nvm_checksum_cmd IXGBE_ACI_NVM_CHECKSUM_RECALC;
    ixgbe_release_nvm ;;
    mret (fst r).

(** status and [*response_flags] *)
Definition ixgbe_nvm_write_activate (cmd_flags : Z) : M (Z * option Z) :=
  let d := upd_d_params (fun p => put8 2 (Z.land (Z.shiftr cmd_flags 8) 0xFF)
             (put8 3 (Z.land cmd_flags 0xFF) p))
             (ixgbe_fill_dflt_direct_cmd_desc ixgbe_aci_opc_nvm_write_activate) in
  r ← direct d;
  let '(status, d) := r in
  mret (status, if status =? 0 then Some (get8 (d_params d) 3) else None).

Definition ixgbe_aci_nvm_update_empr : M Z :=
  r ← direct (ixgbe_fill_dflt_direct_cmd_desc ixgbe_aci_opc_nvm_update_empr); mret (fst r).

Definition ixgbe_nvm_set_pkg_data (del_pkg_data_flag : bool) (data : option (list Z)) (length : Z) : M Z :=
  if negb (length =? 0) && match data with None => true | Some _ => false end then mret IXGBE_ERR_PARAM
  else
    let d := ixgbe_fill_dflt_direct_cmd_desc ixgbe_aci_opc_nvm_pkg_data in
    let d := upd_d_flags (Z.lor (d_flags d) IXGBE_ACI_FLAG_RD) d in
    let d := if del_pkg_data_flag then upd_d_params (put8 3 IXGBE_ACI_NVM_PKG_DELETE) d else d in
    r ← send_cmd d data length;
    mret (fst (fst r)).

(** status, [*comp_response] and [*comp_response_code] *)
Definition ixgbe_nvm_pass_component_tbl (data : option (list Z)) (length transfer_flag : Z) :
    M (Z * option (Z * Z)) :=
  match data with
  | None => mret (IXGBE_ERR_PARAM, None)
  | Some _ =>
      let d := ixgbe_fill_dflt_direct_cmd_desc ixgbe_aci_opc_nvm_pass_component_tbl in
      let d := upd_d_flags (Z.lor (d_flags d) IXGBE_ACI_FLAG_RD) d in
      let d := upd_d_params (put8 3 transfer_flag) d in
      r ← send_cmd d data length;
      let '(status, d, _) := r in
      mret (status, if status =? 0 then Some (get8 (d_params d) 0, get8 (d_params d) 1) else None)
  end.

(** status and [*values] *)
Definition ixgbe_sanitize_nvm (cmd_flags : Z) : M (Z * Z) :=
  r ← direct (upd_d_params (put8 0 cmd_flags)
                (ixgbe_fill_dflt_direct_cmd_desc ixgbe_aci_opc_nvm_sanitization));
  let '(status, d) := r in
  mret (status, get8 (d_params d) 1).

Definition ixgbe_sanitize_operate : M Z :=
  r ← ixgbe_sanitize_nvm
        (Z.lor IXGBE_ACI_SANITIZE_REQ_OPERATE IXGBE_ACI_SANITIZE_OPERATE_SUBJECT_CLEAR);
  let '(status, values) := r in
  if negb (status =? 0) then mret status
  else
    let host_done := has values IXGBE_ACI_SANITIZE_OPERATE_HOST_CLEAN_DONE in
    let bmc_done := has values IXGBE_ACI_SANITIZE_OPERATE_BMC_CLEAN_DONE in
    mret (if (negb host_done && negb bmc_done) ||
             (host_done && negb (has values IXGBE_ACI_SANITIZE_OPERATE_HOST_CLEAN_SUCCESS)) ||
             (bmc_done && negb (has values IXGBE_ACI_SANITIZE_OPERATE_BMC_CLEAN_SUCCESS))
          then IXGBE_ERR_ACI_ERROR else IXGBE_SUCCESS).

(** *** Flat reads *)

(** the [do] loop of [ixgbe_read_flat_nvm]; one iteration per sector, so that
    [inlen / 4096 + 2] of them suffice; the result is status, [data] and
    [bytes_read] *)
Fixpoint read_flat_loop (fuel : nat) (offset inlen bytes_read : Z) (data : list Z)
    (read_shadow_ram : bool) : M (Z * list Z * Z) :=
  match fuel with
  | O => crash FOutOfFuel
  | S fuel' =>
      let sector_offset := offset mod IXGBE_ACI_MAX_BUFFER_SIZE in
      let read_size := Z.min (IXGBE_ACI_MAX_BUFFER_SIZE - sector_offset) (u32 (inlen - bytes_read)) in
      let last_cmd := negb (u32 (bytes_read + read_size) <? inlen) in
      if Z.of_nat (length data) <? bytes_read then crash FOutOfBounds
      else
        r ← ixgbe_aci_read_nvm IXGBE_ACI_NVM_START_POINT offset (u16 read_size)
              (drop (Z.to_nat bytes_read) data) last_cmd read_shadow_ram;
        let '(status, part) := r in
        let data := take (Z.to_nat bytes_read) data ++ part in
        if negb (status =? 0) then mret (status, data, bytes_read)
        else
          let bytes_read := u32 (bytes_read + read_size) in
          if last_cmd : bool then mret (status, data, bytes_read)
          else read_flat_loop fuel' (u32 (offset + read_size)) inlen bytes_read data read_shadow_ram
  end.

Definition ixgbe_read_flat_nvm (offset length : Z) (data : list Z) (read_shadow_ram : bool) :
    M (Z * list Z * Z) :=
  h ← get_hw;
  if read_shadow_ram && (word_size (eeprom h) * 2 <? u32 (offset + length))
  then mret (IXGBE_ERR_PARAM, data, 0)
  else read_flat_loop (Z.to_nat (length / IXGBE_ACI_MAX_BUFFER_SIZE + 2)) offset length 0 data read_shadow_ram.

(** status and the word *)
Definition ixgbe_read_sr_word_aci (offset : Z) : M (Z * Z) :=
  r ← ixgbe_read_flat_nvm (offset * 2) 2 [0; 0] true;
  let '(status, data, _) := r in
  mret (status, if status =? 0 then get16 data 0 else 0).

(** status, [*words] and [data], the area as bytes *)
Definition ixgbe_read_sr_buf_aci (offset words : Z) (data : list Z) : M (Z * Z * list Z) :=
  r ← ixgbe_read_flat_nvm (offset * 2) (words * 2) data true;
  let '(status, data, bytes) := r in
  mret (status, u16 (bytes / 2), data).

(** *** EEPROM operations *)
Definition sr_size_of (gens_stat : Z) : Z :=
  u8 (Z.shiftr (Z.land gens_stat GLNVM_GENS_SR_SIZE_M) GLNVM_GENS_SR_SIZE_S).

Definition ixgbe_init_eeprom_params_E610 : M Z :=
  h ← get_hw;
  (if bool_decide (eeprom_type (eeprom h) = ixgbe_eeprom_uninitialized) then
     upd_hw (fun h => upd_eeprom (upd_eeprom_type ixgbe_flash (eeprom h)) h) ;;
     gens_stat ← IXGBE_READ_REG GLNVM_GENS;
     upd_hw (fun h => upd_eeprom (upd_word_size
               (u16 (bit (sr_size_of gens_stat) * IXGBE_SR_WORDS_IN_1KB)) (eeprom h)) h)
   else mret tt) ;;
  mret IXGBE_SUCCESS.

(** the opening of the EEPROM operations *)
Definition init_eeprom_if_needed : M Z :=
  h ← get_hw;
  if bool_decide (eeprom_type (eeprom h) = ixgbe_eeprom_uninitialized)
  then ixgbe_init_eeprom_params_E610 else mret IXGBE_SUCCESS.

(** status and the word *)
Definition ixgbe_read_ee_aci_E610 (offset : Z) : M (Z * Z) :=
  status ← init_eeprom_if_needed;
  if negb (status =? 0) then mret (status, 0)
  else
    status ← ixgbe_acquire_nvm IXGBE_RES_READ;
    if negb (status =? 0) then mret (status, 0)
    else
      r ← ixgbe_read_sr_word_aci offset;
      ixgbe_release_nvm ;;
      mret r.

(** status and [data] *)
Definition ixgbe_read_ee_aci_buffer_E610 (offset words : Z) (data : list Z) : M (Z * list Z) :=
  status ← init_eeprom_if_needed;
  if negb (status =? 0) then mret (status, data)
  else
    status ← ixgbe_acquire_nvm IXGBE_RES_READ;
    if negb (status =? 0) then mret (status, data)
    else
      r ← ixgbe_read_sr_buf_aci offset words data;
      let '(status, _, data) := r in
      ixgbe_release_nvm ;;
      mret (status, data).

(** [i] is left out of the checksum *)
Definition checksum_skips (vpd_module pcie_alt_module i : Z) : bool :=
  (i =? E610_SR_SW_CHECKSUM_WORD) ||
  ((vpd_module <=? i) && (i <? vpd_module + E610_SR_VPD_SIZE_WORDS)) ||
  ((pcie_alt_module <=? i) && (i <? pcie_alt_module + E610_SR_PCIE_ALT_SIZE_WORDS)).

(** the loop of [ixgbe_calc_eeprom_checksum_E610]: [inr] is an error status *)
Definition checksum_words (word_size vpd_module pcie_alt_module : Z) (data : list Z) : M (list Z * Z + Z) :=
  for_break (Z.to_nat word_size) 0 (data, 0) (fun i '(data, checksum_local) =>
    r ← (if i mod IXGBE_SR_SECTOR_SIZE_IN_WORDS =? 0 then
           r ← ixgbe_read_sr_buf_aci i IXGBE_SR_SECTOR_SIZE_IN_WORDS data;
           let '(status, _, data) := r in mret (status, data)
         else mret (IXGBE_SUCCESS, data));
    let '(status, data) := r in
    if negb (status =? 0) then mret (inr status)
    else if checksum_skips vpd_module pcie_alt_module i then mret (inl (data, checksum_local))
    else
      let k := i mod IXGBE_SR_SECTOR_SIZE_IN_WORDS in
      lo ← nth_c data (2 * k); hi ← nth_c data (2 * k + 1);
      mret (inl (data, u16 (checksum_local + Z.lor lo (Z.shiftl hi 8))))).

(** between the acquisition of the NVM and its release *)
Definition checksum_body : M Z :=
  r ← ixgbe_read_sr_word_aci E610_SR_VPD_PTR;
  let '(status, vpd_module) := r in
  if negb (status =? 0) then mret status
  else
    r ← ixgbe_read_sr_word_aci E610_SR_PCIE_ALT_AUTO_LOAD_PTR;
    let '(status, pcie_alt_module) := r in
    if negb (status =? 0) then mret status
    else
      h ← get_hw;
      r ← checksum_words (word_size (eeprom h)) vpd_module pcie_alt_module
            (replicate (Z.to_nat (2 * IXGBE_SR_SECTOR_SIZE_IN_WORDS)) 0);
      mret (match r with
            | inl (_, checksum_local) => u16 (IXGBE_SR_SW_CHECKSUM_BASE - checksum_local)
            | inr status => status
            end).

Definition ixgbe_calc_eeprom_checksum_E610 : M Z :=
  status ← init_eeprom_if_needed;
  if negb (status =? 0) then mret status
  else
    ok ← ixgbe_malloc kmalloc (2 * IXGBE_SR_SECTOR_SIZE_IN_WORDS);
    if negb ok then mret IXGBE_ERR_OUT_OF_MEM
    else
      status ← ixgbe_acquire_nvm IXGBE_RES_READ;
      if negb (status =? 0) then mret status
      else
        r ← checksum_body;
        ixgbe_release_nvm ;;
        mret r.

Definition ixgbe_update_eeprom_checksum_E610 : M Z :=
  status ← init_eeprom_if_needed;
  if negb (status =? 0) then mret status
  else
    status ← ixgbe_nvm_recalculate_checksum;
    if negb (status =? 0) then mret status
    else
      status ← ixgbe_acquire_nvm IXGBE_RES_WRITE;
      if negb (status =? 0) then mret status
      else
        r ← ixgbe_nvm_write_activate IXGBE_ACI_NVM_ACTIV_REQ_EMPR;
        ixgbe_release_nvm ;;
        mret (fst r).

(** [want] is whether [checksum_val] is not NULL; the value is written on success *)
Definition ixgbe_validate_eeprom_checksum_E610 (want : bool) : M (Z * option Z) :=
  status ← init_eeprom_if_needed;
  if negb (status =? 0) then mret (status, None)
  else
    status ← ixgbe_nvm_validate_checksum;
    if negb (status =? 0) then mret (status, None)
    else if negb want then mret (status, None)
    else
      status ← ixgbe_acquire_nvm IXGBE_RES_READ;
      if negb (status =? 0) then mret (status, None)
      else
        r ← ixgbe_read_sr_word_aci E610_SR_SW_CHECKSUM_WORD;
        let '(status, tmp_checksum) := r in
        ixgbe_release_nvm ;;
        mret (status, if status =? 0 then Some tmp_checksum else None).

(** *** Flash banks *)
Definition ixgbe_get_flash_bank_offset (h : ixgbe_hw) (bank : ixgbe_bank_select) (module : Z) : Z :=
  let b := banks (flash h) in
  let area :=
    if module =? E610_SR_1ST_NVM_BANK_PTR then Some (nvm_ptr b, nvm_size b, nvm_bank b)
    else if module =? E610_SR_1ST_OROM_BANK_PTR then Some (orom_ptr b, orom_size b, orom_bank b)
    else if module =? E610_SR_NETLIST_BANK_PTR then Some (netlist_ptr b, netlist_size b, netlist_bank b)
    else None in
  match area with
  | None => 0
  | Some (offset, size, active_bank) =>
      match active_bank, bank with
      | IXGBE_1ST_FLASH_BANK, IXGBE_ACTIVE_FLASH_BANK => u32 (offset + 0)
      | IXGBE_1ST_FLASH_BANK, IXGBE_INACTIVE_FLASH_BANK => u32 (offset + size)
      | IXGBE_2ND_FLASH_BANK, IXGBE_ACTIVE_FLASH_BANK => u32 (offset + size)
      | IXGBE_2ND_FLASH_BANK, IXGBE_INACTIVE_FLASH_BANK => u32 (offset + 0)
      | IXGBE_INVALID_FLASH_BANK, _ => 0
      end
  end.

(** status and [data] *)
Definition ixgbe_read_flash_module (bank : ixgbe_bank_select) (module offset : Z) (data : list Z)
    (length : Z) : M (Z * list Z) :=
  h ← get_hw;
  let start := ixgbe_get_flash_bank_offset h bank module in
  if start =? 0 then mret (IXGBE_ERR_PARAM, data)
  else
    status ← ixgbe_acquire_nvm IXGBE_RES_READ;
    if negb (status =? 0) then mret (status, data)
    else
      r ← ixgbe_read_flat_nvm (u32 (start + offset)) length data false;
      let '(status, data, _) := r in
      ixgbe_release_nvm ;;
      mret (status, data).

(** one word of a module *)
Definition read_module_word (module : Z) (bank : ixgbe_bank_select) (offset : Z) : M (Z * Z) :=
  r ← ixgbe_read_flash_module bank module (u32 (offset * 2)) [0; 0] 2;
  let '(status, data_local) := r in
  mret (status, if status =? 0 then get16 data_local 0 else 0).
Definition ixgbe_read_netlist_module : ixgbe_bank_select -> Z -> M (Z * Z) :=
  read_module_word E610_SR_NETLIST_BANK_PTR.
Definition ixgbe_read_nvm_module : ixgbe_bank_select -> Z -> M (Z * Z) :=
  read_module_word E610_SR_1ST_NVM_BANK_PTR.
Definition ixgbe_read_orom_module : ixgbe_bank_select -> Z -> M (Z * Z) :=
  read_module_word E610_SR_1ST_OROM_BANK_PTR.

(** two words [l], [h] read by [rd] at [off_l] and [off_h], as a 32-bit value *)
Definition read_two_words (rd : Z -> M (Z * Z)) (off_l off_h : Z) : M (Z * Z) :=
  r ← rd off_l;
  let '(status, l) := r in
  if negb (status =? 0) then mret (status, 0)
  else
    r ← rd off_h;
    let '(status, h) := r in
    if negb (status =? 0) then mret (status, 0)
    else mret (IXGBE_SUCCESS, Z.lor (Z.shiftl h 16) l).

Definition ixgbe_get_nvm_css_hdr_len (bank : ixgbe_bank_select) : M (Z * Z) :=
  r ← read_two_words (ixgbe_read_nvm_module bank) IXGBE_NVM_CSS_HDR_LEN_L IXGBE_NVM_CSS_HDR_LEN_H;
  let '(status, hdr_len_dword) := r in
  mret (status, if status =? 0 then u32 (u32 (hdr_len_dword * 2) + IXGBE_NVM_AUTH_HEADER_LEN) else 0).

Definition ixgbe_read_nvm_sr_copy (bank : ixgbe_bank_select) (offset : Z) : M (Z * Z) :=
  r ← ixgbe_get_nvm_css_hdr_len bank;
  let '(status, hdr_len) := r in
  if negb (status =? 0) then mret (status, 0)
  else ixgbe_read_nvm_module bank (u32 (ROUND_UP hdr_len 32 + offset)).

(** [minsrevs] is an argument: a part that is not valid keeps its old value *)
Definition ixgbe_get_nvm_minsrevs (minsrevs : ixgbe_minsrev_info) : M (Z * ixgbe_minsrev_info) :=
  status ← ixgbe_acquire_nvm IXGBE_RES_READ;
  if negb (status =? 0) then mret (status, minsrevs)
  else
    r ← ixgbe_aci_read_nvm IXGBE_ACI_NVM_MINSREV_MOD_ID 0 12 (replicate 12 0) true false;
    let '(status, data) := r in
    ixgbe_release_nvm ;;
    if negb (status =? 0) then mret (status, minsrevs)
    else
      let valid := get16 data 2 in
      let m := if has valid IXGBE_ACI_NVM_MINSREV_NVM_VALID
               then mk_minsrev (Z.lor (Z.shiftl (get16 data 6) 16) (get16 data 4)) (ms_orom minsrevs)
                      true (ms_orom_valid minsrevs)
               else minsrevs in
      let m := if has valid IXGBE_ACI_NVM_MINSREV_OROM_VALID
               then mk_minsrev (ms_nvm m) (Z.lor (Z.shiftl (get16 data 10) 16) (get16 data 8))
                      (ms_nvm_valid m) true
               else m in
      mret (IXGBE_SUCCESS, m).

(** the data that goes back to the flash *)
Definition minsrev_update (m : ixgbe_minsrev_info) (data : list Z) : list Z :=
  let data := if ms_nvm_valid m
              then put16 2 (Z.lor (get16 data 2) IXGBE_ACI_NVM_MINSREV_NVM_VALID)
                     (put16 6 (Z.shiftr (ms_nvm m) 16) (put16 4 (Z.land (ms_nvm m) 0xFFFF) data))
              else data in
  if ms_orom_valid m
  then put16 2 (Z.lor (get16 data 2) IXGBE_ACI_NVM_MINSREV_OROM_VALID)
         (put16 10 (Z.shiftr (ms_orom m) 16) (put16 8 (Z.land (ms_orom m) 0xFFFF) data))
  else data.

Definition ixgbe_update_nvm_minsrevs (minsrevs : ixgbe_minsrev_info) : M Z :=
  if negb (ms_nvm_valid minsrevs) && negb (ms_orom_valid minsrevs) then mret IXGBE_ERR_PARAM
  else
    status ← ixgbe_acquire_nvm IXGBE_RES_WRITE;
    if negb (status =? 0) then mret status
    else
      status ← (r ← ixgbe_aci_read_nvm IXGBE_ACI_NVM_MINSREV_MOD_ID 0 12 (replicate 12 0) true false;
                let '(status, data) := r in
                if negb (status =? 0) then mret status
                else
                  r ← ixgbe_aci_update_nvm IXGBE_ACI_NVM_MINSREV_MOD_ID 0 12
                        (minsrev_update minsrevs data) false IXGBE_ACI_NVM_SPECIAL_UPDATE;
                  let '(status, _) := r in
                  if negb (status =? 0) then mret status
                  else r ← ixgbe_nvm_write_activate 0; mret (fst r));
      ixgbe_release_nvm ;;
      mret status.

Definition ixgbe_get_nvm_srev (bank : ixgbe_bank_select) : M (Z * Z) :=
  read_two_words (ixgbe_read_nvm_module bank) IXGBE_NVM_CSS_SREV_L IXGBE_NVM_CSS_SREV_H.

Definition IXGBE_OROM_STEP : Z := 512.
(** size of [struct ixgbe_orom_civd_info]; the characters "$CIV" *)
Definition civd_size : nat := 74.
Definition civd_signature : list Z := [0x24; 0x43; 0x49; 0x56].

(** the search in the image: [Some (inl _)] is the structure found, [inr] one with
    a wrong checksum, [None] no structure; [n] counts the remaining steps *)
Fixpoint find_civd (n : nat) (image : list Z) : option (list Z + unit) :=
  match n with
  | O => None
  | S n' =>
      if bool_decide (take 4 image = civd_signature) then
        let tmp := take civd_size image in
        if u8 (zsum tmp) =? 0 then Some (inl tmp) else Some (inr tt)
      else find_civd n' (drop (Z.to_nat IXGBE_OROM_STEP) image)
  end.

(** status and the bytes of [*civd] *)
Definition ixgbe_get_orom_civd_data (bank : ixgbe_bank_select) : M (Z * option (list Z)) :=
  h ← get_hw;
  let size := orom_size (banks (flash h)) in
  if size =? 0 then mret (IXGBE_ERR_PARAM, None)
  else
    ok ← ixgbe_malloc kmalloc size;
    if negb ok then mret (IXGBE_ERR_OUT_OF_MEM, None)
    else
      r ← ixgbe_read_flash_module bank E610_SR_1ST_OROM_BANK_PTR 0 (replicate (Z.to_nat size) 0) size;
      let '(status, orom_data) := r in
      if negb (status =? 0) then mret (IXGBE_ERR_NVM, None)
      else
        mret (match find_civd (Z.to_nat (size / IXGBE_OROM_STEP)) orom_data with
              | Some (inl civd) => (IXGBE_SUCCESS, Some civd)
              | Some (inr _) => (IXGBE_ERR_NVM, None)
              | None => (IXGBE_ERR_DOES_NOT_EXIST, None)
              end).

Definition ixgbe_get_orom_srev (bank : ixgbe_bank_select) : M (Z * Z) :=
  h ← get_hw;
  let orom_size_word := orom_size (banks (flash h)) / 2 in
  r ← ixgbe_get_nvm_css_hdr_len bank;
  let '(status, hdr_len) := r in
  if negb (status =? 0) then mret (status, 0)
  else if orom_size_word <? hdr_len then mret (IXGBE_ERR_CONFIG, 0)
  else
    let css_start := orom_size_word - hdr_len in
    read_two_words (ixgbe_read_orom_module bank)
      (css_start + IXGBE_NVM_CSS_SREV_L) (css_start + IXGBE_NVM_CSS_SREV_H).

Definition ixgbe_get_orom_ver_info (bank : ixgbe_bank_select) (orom : ixgbe_orom_info) :
    M (Z * ixgbe_orom_info) :=
  r ← ixgbe_get_orom_civd_data bank;
  match r with
  | (status, Some civd) =>
      let combo_ver := get32 civd 5 in
      let orom := mk_orom_info
        (u8 (Z.shiftr (Z.land combo_ver IXGBE_OROM_VER_MASK) IXGBE_OROM_VER_SHIFT))
        (u8 (Z.land combo_ver IXGBE_OROM_VER_PATCH_MASK))
        (u16 (Z.shiftr (Z.land combo_ver IXGBE_OROM_VER_BUILD_MASK) IXGBE_OROM_VER_BUILD_SHIFT))
        (orom_srev orom) in
      r ← ixgbe_get_orom_srev bank;
      let '(status, srev) := r in
      if negb (status =? 0) then mret (status, orom)
      else mret (IXGBE_SUCCESS, upd_orom_srev srev orom)
  | (status, None) => mret (status, orom)
  end.

Definition ixgbe_get_inactive_orom_ver (orom : ixgbe_orom_info) : M (Z * ixgbe_orom_info) :=
  ixgbe_get_orom_ver_info IXGBE_INACTIVE_FLASH_BANK orom.

Definition ixgbe_get_nvm_ver_info (bank : ixgbe_bank_select) (nvm : ixgbe_nvm_info) :
    M (Z * ixgbe_nvm_info) :=
  r ← ixgbe_read_nvm_sr_copy bank E610_SR_NVM_DEV_STARTER_VER;
  let '(status, ver) := r in
  if negb (status =? 0) then mret (status, nvm)
  else
    let nvm := upd_nvm_minor (Z.shiftr (Z.land ver E610_NVM_VER_LO_MASK) E610_NVM_VER_LO_SHIFT)
      (upd_nvm_major (Z.shiftr (Z.land ver E610_NVM_VER_HI_MASK) E610_NVM_VER_HI_SHIFT) nvm) in
    r ← read_two_words (ixgbe_read_nvm_sr_copy bank) E610_SR_NVM_EETRACK_LO E610_SR_NVM_EETRACK_HI;
    let '(status, eetrack) := r in
    if negb (status =? 0) then mret (status, nvm)
    else
      let nvm := upd_nvm_eetrack eetrack nvm in
      r ← ixgbe_get_nvm_srev bank;
      let '(status, srev) := r in
      mret (IXGBE_SUCCESS, if status =? 0 then upd_nvm_srev srev nvm else nvm).

Definition ixgbe_get_inactive_nvm_ver (nvm : ixgbe_nvm_info) : M (Z * ixgbe_nvm_info) :=
  ixgbe_get_nvm_ver_info IXGBE_INACTIVE_FLASH_BANK nvm.
Definition ixgbe_get_active_nvm_ver (nvm : ixgbe_nvm_info) : M (Z * ixgbe_nvm_info) :=
  ixgbe_get_nvm_ver_info IXGBE_ACTIVE_FLASH_BANK nvm.

(** the netlist identification in the words of its block *)
Definition netlist_of_blk (id_blk : list Z) : ixgbe_netlist_info :=
  let w i := get16 id_blk (Z.to_nat (2 * i)) in
  let pair hi lo := Z.lor (Z.shiftl (w hi) 16) (w lo) in
  mk_netlist_info
    (pair IXGBE_NETLIST_ID_BLK_MAJOR_VER_HIGH IXGBE_NETLIST_ID_BLK_MAJOR_VER_LOW)
    (pair IXGBE_NETLIST_ID_BLK_MINOR_VER_HIGH IXGBE_NETLIST_ID_BLK_MINOR_VER_LOW)
    (pair IXGBE_NETLIST_ID_BLK_TYPE_HIGH IXGBE_NETLIST_ID_BLK_TYPE_LOW)
    (pair IXGBE_NETLIST_ID_BLK_REV_HIGH IXGBE_NETLIST_ID_BLK_REV_LOW)
    (pair (IXGBE_NETLIST_ID_BLK_SHA_HASH_WORD 15) (IXGBE_NETLIST_ID_BLK_SHA_HASH_WORD 14))
    (w IXGBE_NETLIST_ID_BLK_CUST_VER).

Definition ixgbe_get_netlist_info (bank : ixgbe_bank_select) (netlist : ixgbe_netlist_info) :
    M (Z * ixgbe_netlist_info) :=
  r ← ixgbe_read_netlist_module bank IXGBE_NETLIST_TYPE_OFFSET;
  let '(status, module_id) := r in
  if negb (status =? 0) then mret (status, netlist)
  else if negb (module_id =? IXGBE_NETLIST_LINK_TOPO_MOD_ID) then mret (IXGBE_ERR_NVM, netlist)
  else
    r ← ixgbe_read_netlist_module bank IXGBE_LINK_TOPO_MODULE_LEN;
    let '(status, length) := r in
    if negb (status =? 0) then mret (status, netlist)
    else if length <? IXGBE_NETLIST_ID_BLK_SIZE then mret (IXGBE_ERR_NVM, netlist)
    else
      r ← ixgbe_read_netlist_module bank IXGBE_LINK_TOPO_NODE_COUNT;
      let '(status, node_count) := r in
      if negb (status =? 0) then mret (status, netlist)
      else
        let node_count := Z.land node_count IXGBE_LINK_TOPO_NODE_COUNT_M in
        ok ← ixgbe_malloc kmalloc (2 * IXGBE_NETLIST_ID_BLK_SIZE);
        if negb ok then mret (IXGBE_ERR_NO_SPACE, netlist)
        else
          r ← ixgbe_read_flash_module bank E610_SR_NETLIST_BANK_PTR
                (IXGBE_NETLIST_ID_BLK_OFFSET node_count * 2)
                (replicate (Z.to_nat (2 * IXGBE_NETLIST_ID_BLK_SIZE)) 0) (2 * IXGBE_NETLIST_ID_BLK_SIZE);
          let '(status, id_blk) := r in
          mret (status, if status =? 0 then netlist_of_blk id_blk else netlist).

Definition ixgbe_get_inactive_netlist_ver (netlist : ixgbe_netlist_info) : M (Z * ixgbe_netlist_info) :=
  ixgbe_get_netlist_info IXGBE_INACTIVE_FLASH_BANK netlist.

(** *** Pointers and sizes in the Shadow RAM *)
Definition ixgbe_read_sr_pointer (offset : Z) : M (Z * Z) :=
  r ← ixgbe_read_ee_aci_E610 offset;
  let '(status, value) := r in
  mret (status, if negb (status =? 0) then 0
                else if has value IXGBE_SR_NVM_PTR_4KB_UNITS
                then Z.land value (bnot 64 IXGBE_SR_NVM_PTR_4KB_UNITS) * 4 * 1024
                else value * 2).

Definition ixgbe_read_sr_area_size (offset : Z) : M (Z * Z) :=
  r ← ixgbe_read_ee_aci_E610 offset;
  let '(status, value) := r in
  mret (status, if status =? 0 then value * 4 * 1024 else 0).

(** the bisection of [ixgbe_discover_flash_size]; 24 halvings of [2^24] suffice *)
Fixpoint discover_loop (fuel : nat) (min_size max_size : Z) : M (Z * Z) :=
  if max_size - min_size <=? 1 then mret (IXGBE_SUCCESS, max_size)
  else
    match fuel with
    | O => crash FOutOfFuel
    | S fuel' =>
        let offset := (max_size + min_size) / 2 in
        r ← ixgbe_read_flat_nvm offset 1 [0] false;
        let '(status, _, _) := r in
        last_status ← get_last_status;
        if (status =? IXGBE_ERR_ACI_ERROR) && (last_status =? IXGBE_ACI_RC_EINVAL)
        then discover_loop fuel' min_size offset
        else if status =? 0 then discover_loop fuel' offset max_size
        else mret (status, max_size)
    end.

Definition upd_flash_info (f : ixgbe_flash_info -> ixgbe_flash_info) : M unit :=
  upd_hw (fun h => upd_flash (f (flash h)) h).

Definition ixgbe_discover_flash_size : M Z :=
  status ← ixgbe_acquire_nvm IXGBE_RES_READ;
  if negb (status =? 0) then mret status
  else
    r ← discover_loop 25 0 (IXGBE_ACI_NVM_MAX_OFFSET + 1);
    let '(status, max_size) := r in
    (if status =? 0 then upd_flash_info (upd_flash_size max_size) else mret tt) ;;
    ixgbe_release_nvm ;;
    mret status.

(** one field of [hw->flash.banks], read by [rd] *)
Definition read_bank_field (rd : M (Z * Z)) (upd : Z -> ixgbe_bank_info -> ixgbe_bank_info) : M Z :=
  r ← rd;
  let '(status, value) := r in
  (if status =? 0 then upd_flash_info (fun f => upd_banks (upd value (banks f)) f) else mret tt) ;;
  mret status.

Definition active_bank (ctrl_word flag : Z) : ixgbe_flash_bank :=
  if negb (has ctrl_word flag) then IXGBE_1ST_FLASH_BANK else IXGBE_2ND_FLASH_BANK.

(** the reads in their order; the first failure ends them *)
Fixpoint read_bank_fields (l : list (M (Z * Z) * (Z -> ixgbe_bank_info -> ixgbe_bank_info))) : M Z :=
  match l with
  | [] => mret IXGBE_SUCCESS
  | (rd, upd) :: l' =>
      status ← read_bank_field rd upd;
      if negb (status =? 0) then mret status else read_bank_fields l'
  end.

Definition ixgbe_determine_active_flash_banks : M Z :=
  r ← ixgbe_read_ee_aci_E610 E610_SR_NVM_CTRL_WORD;
  let '(status, ctrl_word) := r in
  if negb (status =? 0) then mret status
  else if negb (Z.shiftr (Z.land ctrl_word IXGBE_SR_CTRL_WORD_1_M) IXGBE_SR_CTRL_WORD_1_S
                =? IXGBE_SR_CTRL_WORD_VALID)
  then mret IXGBE_ERR_CONFIG
  else
    upd_flash_info (fun f => upd_banks
      (upd_netlist_bank (active_bank ctrl_word IXGBE_SR_CTRL_WORD_NETLIST_BANK)
        (upd_orom_bank (active_bank ctrl_word IXGBE_SR_CTRL_WORD_OROM_BANK)
          (upd_nvm_bank (active_bank ctrl_word IXGBE_SR_CTRL_WORD_NVM_BANK) (banks f)))) f) ;;
    read_bank_fields
      [(ixgbe_read_sr_pointer E610_SR_1ST_NVM_BANK_PTR, upd_nvm_ptr);
       (ixgbe_read_sr_area_size E610_SR_NVM_BANK_SIZE, upd_nvm_size);
       (ixgbe_read_sr_pointer E610_SR_1ST_OROM_BANK_PTR, upd_orom_ptr);
       (ixgbe_read_sr_area_size E610_SR_OROM_BANK_SIZE, upd_orom_size);
       (ixgbe_read_sr_pointer E610_SR_NETLIST_BANK_PTR, upd_netlist_ptr);
       (ixgbe_read_sr_area_size E610_SR_NETLIST_BANK_SIZE, upd_netlist_size)].

(** reading [*nvm], [*orom] or [*netlist] of the active bank into [hw->flash] *)
Definition into_flash {A} (get : ixgbe_flash_info -> A) (put : A -> ixgbe_flash_info -> ixgbe_flash_info)
    (rd : A -> M (Z * A)) : M Z :=
  h ← get_hw;
  r ← rd (get (flash h));
  let '(status, x) := r in
  upd_flash_info (put x) ;;
  mret status.

Definition ixgbe_init_nvm : M Z :=
  gens_stat ← IXGBE_READ_REG GLNVM_GENS;
  upd_flash_info (upd_sr_words (u32 (bit (sr_size_of gens_stat) * IXGBE_SR_WORDS_IN_1KB))) ;;
  fla ← IXGBE_READ_REG GLNVM_FLA;
  if negb (has fla GLNVM_FLA_LOCKED_M)
  then upd_flash_info (upd_blank_nvm_mode true) ;; mret IXGBE_ERR_NVM_BLANK_MODE
  else
    upd_flash_info (upd_blank_nvm_mode false) ;;
    status ← ixgbe_discover_flash_size;
    if negb (status =? 0) then mret status
    else
      status ← ixgbe_determine_active_flash_banks;
      if negb (status =? 0) then mret status
      else
        status ← into_flash fl_nvm upd_fl_nvm (ixgbe_get_nvm_ver_info IXGBE_ACTIVE_FLASH_BANK);
        if negb (status =? 0) then mret status
        else
          into_flash fl_orom upd_fl_orom (ixgbe_get_orom_ver_info IXGBE_ACTIVE_FLASH_BANK) ;;
          into_flash fl_netlist upd_fl_netlist (ixgbe_get_netlist_info IXGBE_ACTIVE_FLASH_BANK) ;;
          mret IXGBE_SUCCESS.

(** *** The preserved field area *)

(** the loop of [ixgbe_get_pfa_module_tlv]; the code has no bound on it *)
Fixpoint pfa_tlv_loop (fuel : nat) (next_tlv pfa_end_ptr module_type : Z) : M (Z * option (Z * Z)) :=
  if negb (next_tlv <? pfa_end_ptr) then mret (IXGBE_ERR_DOES_NOT_EXIST, None)
  else
    match fuel with
    | O => crash FOutOfFuel
    | S fuel' =>
        r ← ixgbe_read_ee_aci_E610 next_tlv;
        let '(status, tlv_sub_module_type) := r in
        if negb (status =? IXGBE_SUCCESS) then mret (IXGBE_ERR_DOES_NOT_EXIST, None)
        else
          r ← ixgbe_read_ee_aci_E610 (u16 (next_tlv + 1));
          let '(status, tlv_len) := r in
          if negb (status =? IXGBE_SUCCESS) then mret (IXGBE_ERR_DOES_NOT_EXIST, None)
          else if tlv_sub_module_type =? module_type then
            mret (if negb (tlv_len =? 0) then (IXGBE_SUCCESS, Some (next_tlv, tlv_len))
                  else (IXGBE_ERR_INVAL_SIZE, None))
          else pfa_tlv_loop fuel' (u16 (next_tlv + tlv_len + 2)) pfa_end_ptr module_type
    end.

(** status, and [*module_tlv] with [*module_tlv_len] *)
Definition ixgbe_get_pfa_module_tlv (fuel : nat) (module_type : Z) : M (Z * option (Z * Z)) :=
  r ← ixgbe_read_ee_aci_E610 E610_SR_PFA_PTR;
  let '(status, pfa_ptr) := r in
  if negb (status =? IXGBE_SUCCESS) then mret (status, None)
  else
    r ← ixgbe_read_ee_aci_E610 pfa_ptr;
    let '(status, pfa_len) := r in
    if negb (status =? IXGBE_SUCCESS) then mret (status, None)
    else pfa_tlv_loop fuel (u16 (pfa_ptr + 1)) (u16 (pfa_ptr + pfa_len)) module_type.

(** [pba_num] is the caller's area; status and its new content *)
Definition ixgbe_read_pba_string_E610 (fuel : nat) (pba_num : list Z) (pba_num_size : Z) : M (Z * list Z) :=
  r ← ixgbe_get_pfa_module_tlv fuel E610_SR_PBA_BLOCK_PTR;
  match r with
  | (status, Some (pba_tlv, pba_tlv_len)) =>
      r ← ixgbe_read_ee_aci_E610 (u16 (pba_tlv + 2));
      let '(status, pba_size) := r in
      if negb (status =? IXGBE_SUCCESS) then mret (status, pba_num)
      else if pba_tlv_len <? pba_size then mret (IXGBE_ERR_INVAL_SIZE, pba_num)
      else
        let pba_size := u16 (pba_size - 1) in
        if pba_num_size <? pba_size * 2 + 1 then mret (IXGBE_ERR_PARAM, pba_num)
        else
          r ← for_break (Z.to_nat pba_size) 0 pba_num (fun i pba_num =>
                r ← ixgbe_read_ee_aci_E610 (u16 (pba_tlv + 2 + 1 + i));
                let '(status, pba_word) := r in
                if negb (status =? IXGBE_SUCCESS) then mret (inr (status, pba_num))
                else
                  pba_num ← upd_c pba_num (i * 2) (Z.land (Z.shiftr pba_word 8) 0xFF);
                  pba_num ← upd_c pba_num (i * 2 + 1) (Z.land pba_word 0xFF);
                  mret (inl pba_num));
          match r with
          | inr x => mret x
          | inl pba_num => pba_num ← upd_c pba_num (pba_size * 2) 0; mret (IXGBE_SUCCESS, pba_num)
          end
  | (status, None) => mret (status, pba_num)
  end.
End AciNvm.
