(* ===== verification/AciNvmFw.v ===== *)
(** * NVM access against firmware that serves the NVM

    The contract of the NVM commands (class [NvmFirmware]): a free NVM is granted
    on request, its owner can read flash and Shadow RAM within a sector, a read
    beyond the end is an invalid argument.  Against it the driver's reads return
    the bytes of the device: rules for the flat read, the bisection for the size,
    the EEPROM word, the checksum and the search in the preserved field area. *)
From S2P Require Import Prelude Bytes Regs Types Osdep RegsE610.
From S2P Require Import Aci AciSafe AciDev AciRpc AciNvm.

(** ** Members of the parameters *)
Lemma get16_halves x : in_range 16 x -> Z.lor (u8 x) (Z.shiftl (u8 (Z.shiftr x 8)) 8) = x.
Proof.
  intros Hx. apply Z.bits_inj'. intros i Hi. rewrite Z.lor_spec, Z.shiftl_spec, !testbit_trunc by lia.
  destruct (Z.ltb_spec i 8).
  - rewrite (Z.testbit_neg_r _ (i - 8)) by lia. cbn [andb]. by rewrite andb_false_r, orb_false_r.
  - cbn [andb orb]. rewrite Z.shiftr_spec by lia. rewrite Z.sub_add.
    destruct (Z.ltb_spec (i - 8) 8); [done|]. cbn [andb]. symmetry. apply (testbit_range 16); [done|lia].
Qed.

(** the offset of an NVM command *)
Definition cmd_offset (p : list Z) : Z := Z.lor (get16 p 0) (Z.shiftl (get8 p 2) 16).

Lemma nvm_params_fields off fl m n : in_range 24 off -> in_range 8 fl -> in_range 16 m -> in_range 16 n ->
  let p := nvm_params off fl m n (replicate 16 0) in
  cmd_offset p = off /\ get8 p 3 = fl /\ get16 p 4 = m /\ get16 p 6 = n /\
  length p = 16%nat /\ Forall byte p.
Proof.
  intros Ho Hf Hm Hn p. unfold p, nvm_params, put16, put8. cbn [insert list_insert replicate Nat.add].
  unfold cmd_offset, get16, get8. cbn [nth Nat.add].
  split; [|split; [by apply trunc_small|split; [by apply get16_halves|split; [by apply get16_halves|]]]].
  - assert (Hl : in_range 16 (Z.land off 65535)).
    { change 65535 with (Z.ones 16). rewrite Z.land_ones by lia. apply trunc_range. lia. }
    rewrite get16_halves by done. apply Z.bits_inj'. intros i Hi.
    change 65535 with (Z.ones 16). change 255 with (Z.ones 8).
    rewrite Z.lor_spec, Z.shiftl_spec, !Z.land_ones, testbit_trunc by lia.
    fold (u8 (Z.shiftr off 16)). fold (u16 off). rewrite !testbit_trunc by lia.
    destruct (Z.ltb_spec i 16).
    + rewrite (Z.testbit_neg_r _ (i - 16)) by lia. destruct (i - 16 <? 8); simpl; by rewrite orb_false_r.
    + cbn [andb orb]. rewrite Z.shiftr_spec by lia. rewrite Z.sub_add.
      destruct (Z.ltb_spec (i - 16) 8); [done|]. cbn [andb]. symmetry. apply (testbit_range 24); [done|lia].
  - split; [done|]. repeat constructor; by apply trunc_range || (by vm_compute).
Qed.

(** ** Firmware that serves the NVM *)
Class NvmFirmware (F : Firmware) := {
  nvm_flash : fw -> list Z;
  nvm_sr : fw -> list Z;
  nvm_owned : fw -> bool;
  nvm_bytes s : Forall byte (nvm_flash s) /\ Forall byte (nvm_sr s);
  (** a free NVM is granted, and released on request *)
  fw_req_res s l hb s' ad ab :
    fw_exec s l hb = (s', ad, ab) -> d_opcode (desc_of_raw l) = ixgbe_aci_opc_req_res ->
    get16 (d_params (desc_of_raw l)) 0 = IXGBE_NVM_RES_ID -> nvm_owned s = false ->
    d_opcode (desc_of_raw ad) = ixgbe_aci_opc_req_res /\ d_retval (desc_of_raw ad) = IXGBE_ACI_RC_OK /\
    nvm_owned s' = true /\ nvm_flash s' = nvm_flash s /\ nvm_sr s' = nvm_sr s;
  fw_release_res s l hb s' ad ab :
    fw_exec s l hb = (s', ad, ab) -> d_opcode (desc_of_raw l) = ixgbe_aci_opc_release_res ->
    get16 (d_params (desc_of_raw l)) 0 = IXGBE_NVM_RES_ID -> nvm_owned s = true ->
    d_opcode (desc_of_raw ad) = ixgbe_aci_opc_release_res /\ d_retval (desc_of_raw ad) = IXGBE_ACI_RC_OK /\
    nvm_owned s' = false /\ nvm_flash s' = nvm_flash s /\ nvm_sr s' = nvm_sr s;
  (** the owner can read within one sector of the flash or of the Shadow RAM;
      beyond the end is an invalid argument *)
  fw_nvm_read s l hb s' ad ab :
    fw_exec s l hb = (s', ad, ab) -> d_opcode (desc_of_raw l) = ixgbe_aci_opc_nvm_read ->
    let p := d_params (desc_of_raw l) in
    get16 p 4 = IXGBE_ACI_NVM_START_POINT -> nvm_owned s = true ->
    let area := if has (get8 p 3) IXGBE_ACI_NVM_FLASH_ONLY then nvm_flash s else nvm_sr s in
    let off := cmd_offset p in
    let n := get16 p 6 in
    d_opcode (desc_of_raw ad) = ixgbe_aci_opc_nvm_read /\
    nvm_owned s' = true /\ nvm_flash s' = nvm_flash s /\ nvm_sr s' = nvm_sr s /\
    (1 <= n -> off mod 4096 + n <= 4096 -> off + n <= Z.of_nat (length area) ->
       d_retval (desc_of_raw ad) = IXGBE_ACI_RC_OK /\ has (d_flags (desc_of_raw ad)) IXGBE_ACI_FLAG_BUF = true /\
       take (Z.to_nat n) (bytes_of ab) = take (Z.to_nat n) (drop (Z.to_nat off) area)) /\
    (Z.of_nat (length area) < off + n -> d_retval (desc_of_raw ad) = IXGBE_ACI_RC_EINVAL);
}.

Section Nvm.
Context `{D : Mmio} `{F : Firmware} `{!AciDevice D F} `{!NvmFirmware F} (kmalloc : Z -> world -> bool).
Context (kmalloc_ok : forall k w, kmalloc k w = true).
Context (normal_mode : has dev_fla GLNVM_FLA_LOCKED_M = true).

(** the device is ready, with these contents of flash and Shadow RAM and this
    ownership of the NVM *)
Definition nvm_at (w : world) (fl sr : list Z) (owned : bool) : Prop :=
  exists s, aci_ready w s /\ nvm_flash s = fl /\ nvm_sr s = sr /\ nvm_owned s = owned.

Lemma dflt_desc_ok op f : in_range 16 op -> length (f (replicate 16 0)) = 16%nat ->
  Forall byte (f (replicate 16 0)) -> desc_ok (upd_d_params f (ixgbe_fill_dflt_direct_cmd_desc op)).
Proof using. intros Ho Hl Hb. split; simpl; done. Qed.

Lemma wp_read_nvm off n data last sr_read w fl sr area (Q : Z * list Z -> world -> Prop) :
  nvm_at w fl sr true -> area = (if sr_read : bool then sr else fl) ->
  0 <= off <= IXGBE_ACI_NVM_MAX_OFFSET -> 1 <= n <= 4096 -> n <= Z.of_nat (length data) -> Forall byte data ->
  (forall w' r ls, nvm_at w' fl sr true -> w_hw w' = hw_last ls (w_hw w) ->
     (off mod 4096 + n <= 4096 -> off + n <= Z.of_nat (length area) ->
        ls = 0 /\ r = (IXGBE_SUCCESS, take (Z.to_nat n) (drop (Z.to_nat off) area) ++ drop (Z.to_nat n) data)) ->
     (Z.of_nat (length area) < off + n -> ls = IXGBE_ACI_RC_EINVAL /\ r = (IXGBE_ERR_ACI_ERROR, data)) ->
     Q r w') ->
  wp (ixgbe_aci_read_nvm kmalloc IXGBE_ACI_NVM_START_POINT off n data last sr_read) Q w.
Proof using kmalloc_ok.
  intros (s & Hr & <- & <- & Ho) Ea Hoff Hn Hl Hb HQ. unfold ixgbe_aci_read_nvm.
  destruct (Z.ltb_spec IXGBE_ACI_NVM_MAX_OFFSET off); [lia|]. cbv zeta.
  set (fl' := if last then _ else _).
  assert (Hfl : in_range 8 fl' /\ has fl' IXGBE_ACI_NVM_FLASH_ONLY = negb sr_read).
  { unfold fl'. destruct last, sr_read; vm_compute; done. }
  destruct (nvm_params_fields off fl' IXGBE_ACI_NVM_START_POINT n) as (P1 & P2 & P3 & P4 & P5 & P6).
  { unfold in_range, IXGBE_ACI_NVM_MAX_OFFSET in *. lia. }
  { apply Hfl. }
  { done. }
  { unfold in_range. lia. }
  wp_step. set (d := upd_d_params _ _).
  assert (Hd : desc_ok d) by by apply dflt_desc_ok.
  eapply wp_send_cmd; [exact Hr|exact Hd|split; [done|done]|exact kmalloc_ok|done|].
  intros w' hb s' ad ab rq _ Ex Hr' x Eh.
  assert (Hrq : desc_of_raw (raw_desc rq.1) = rq.1).
  { apply desc_of_raw_desc. by apply aci_request_ok. }
  pose proof (fw_nvm_read _ _ _ _ _ _ Ex) as Hfw. rewrite Hrq in Hfw.
  change (d_opcode rq.1) with ixgbe_aci_opc_nvm_read in Hfw.
  change (d_params rq.1) with (nvm_params off fl' IXGBE_ACI_NVM_START_POINT n (replicate 16 0)) in Hfw.
  specialize (Hfw eq_refl). cbv zeta in Hfw. rewrite P1, P2, P3, P4 in Hfw.
  destruct (Hfw eq_refl Ho) as (F1 & F2 & F3 & F4 & F5 & F6). clear Hfw.
  assert (Ea' : area = if has fl' IXGBE_ACI_NVM_FLASH_ONLY then nvm_flash s else nvm_sr s).
  { rewrite Ea. destruct Hfl as [_ ->]. by destruct sr_read. }
  rewrite <- Ea' in F5, F6.
  assert (Hx : x = (if negb (d_retval (desc_of_raw ad) =? 0)
    then ((IXGBE_ERR_ACI_ERROR, desc_of_raw ad, Some data), d_retval (desc_of_raw ad))
    else ((IXGBE_SUCCESS, desc_of_raw ad, if has (d_flags (desc_of_raw ad)) IXGBE_ACI_FLAG_BUF
            then Some (take (Z.to_nat n) (bytes_of ab) ++ drop (Z.to_nat n) data) else Some data), 0))).
  { unfold x, rpc_reply. change (d_opcode d) with ixgbe_aci_opc_nvm_read. rewrite F1, Z.eqb_refl. done. }
  destruct x as [[[st rd] rb] ls]. cbn [fst snd] in *. apply wp_ret.
  apply (HQ w' _ ls); [by exists s'|done| |].
  - intros H1 H2. destruct (F5 ltac:(lia) H1 H2) as (G1 & G2 & G3). rewrite G1, G2, G3 in Hx.
    by injection Hx as -> -> -> ->.
  - intros H1. rewrite (F6 H1) in Hx. by injection Hx as -> -> -> ->.
Qed.

(** the state of the driver apart from [aci.last_status] *)
Definition same_but_status (w w' : world) : Prop := exists ls, w_hw w' = hw_last ls (w_hw w).

Lemma hw_last_last a b h : hw_last a (hw_last b h) = hw_last a h.
Proof using. done. Qed.
Lemma sbs_refl w : same_but_status w w.
Proof using. exists (aci_last_status (aci (w_hw w))). by rewrite hw_last_same. Qed.
Lemma sbs_trans w1 w2 w3 : same_but_status w1 w2 -> same_but_status w2 w3 -> same_but_status w1 w3.
Proof using. intros [a Ha] [b Hb]. exists b. rewrite Hb, Ha. apply hw_last_last. Qed.
Lemma sbs_last w w' ls : w_hw w' = hw_last ls (w_hw w) -> same_but_status w w'.
Proof using. by exists ls. Qed.

Lemma wp_fla w fl sr o (Q : Z -> world -> Prop) : nvm_at w fl sr o ->
  (forall w', nvm_at w' fl sr o -> w_hw w' = w_hw w -> Q dev_fla w') -> wp (IXGBE_READ_REG GLNVM_FLA) Q w.
Proof using.
  intros (s & [(u & Hw & Hi) Hl] & Hn) HQ.
  eapply wp_read_aci; [exact Hw|apply read_fla|apply fla_range|]. intros w' Hw' Eh.
  apply HQ; [|done]. exists s. split; [|done]. split; [by exists u|by rewrite Eh].
Qed.

(** a command without a buffer that the firmware accepts *)
Lemma wp_direct d w s (Q : Z * ixgbe_aci_desc -> world -> Prop) :
  aci_ready w s -> desc_ok d -> ixgbe_should_retry_aci_send_cmd_execute (d_opcode d) = false ->
  (forall hb s' ad ab, fw_exec s (raw_desc d) hb = (s', ad, ab) ->
     d_opcode (desc_of_raw ad) = d_opcode d /\ d_retval (desc_of_raw ad) = IXGBE_ACI_RC_OK /\
     forall w', aci_ready w' s' -> w_hw w' = hw_last 0 (w_hw w) -> Q (IXGBE_SUCCESS, desc_of_raw ad) w') ->
  wp (aci_direct kmalloc d) Q w.
Proof using kmalloc_ok.
  intros Hr Hd Hn HQ. unfold aci_direct. wp_step.
  eapply wp_send_cmd; [exact Hr|exact Hd|by left|exact kmalloc_ok|done|].
  intros w' hb s' ad ab rq _ Ex Hr' x Eh. destruct (HQ _ _ _ _ Ex) as (E1 & E2 & HQ').
  apply wp_ret. unfold x, rpc_reply in *. rewrite E1, E2, !Z.eqb_refl in *. cbn [negb andb fst snd] in *.
  by apply HQ'.
Qed.

Lemma wp_acquire_nvm access w fl sr (Q : Z -> world -> Prop) : nvm_at w fl sr false ->
  (forall w', nvm_at w' fl sr true -> same_but_status w w' -> Q IXGBE_SUCCESS w') ->
  wp (ixgbe_acquire_nvm kmalloc access) Q w.
Proof using kmalloc_ok normal_mode.
  intros Hw HQ. unfold ixgbe_acquire_nvm. wp_step. eapply wp_fla; [exact Hw|].
  intros w1 (s & Hr & Hf & Hs & Ho) Eh1. unfold has in normal_mode. apply negb_true_iff in normal_mode as ->.
  unfold ixgbe_acquire_res. wp_step. unfold ixgbe_aci_req_res. cbv zeta. wp_step. set (d := upd_d_params _ _).
  assert (Hd : desc_ok d).
  { apply dflt_desc_ok; [done|done|]. repeat constructor; by apply trunc_range || (by vm_compute). }
  eapply wp_direct; [exact Hr|exact Hd|done|]. intros hb s' ad ab Ex.
  destruct (fw_req_res _ _ _ _ _ _ Ex) as (E1 & E2 & E3 & E4 & E5).
  { by rewrite desc_of_raw_desc. }
  { by rewrite desc_of_raw_desc. }
  { done. }
  split; [done|]. split; [done|]. intros w2 Hr2 Eh2. wp_step. unfold get_last_status. wp_step.
  apply wp_get_hw. apply wp_ret. apply wp_ret. cbn [fst Z.eqb orb].
  change (IXGBE_SUCCESS =? IXGBE_ERR_ACI_NO_WORK) with false. cbn iota.
  unfold acquire_res_poll. destruct (Z.to_nat _); cbn [Z.eqb IXGBE_SUCCESS orb]; apply wp_ret, HQ.
  1,3: exists s'; split; [done|]; split; [congruence|]; split; [congruence|done].
  1,2: apply (sbs_last _ _ 0); congruence.
Qed.

Lemma wp_release_nvm w fl sr (Q : unit -> world -> Prop) : nvm_at w fl sr true ->
  (forall w', nvm_at w' fl sr false -> same_but_status w w' -> Q tt w') ->
  wp (ixgbe_release_nvm kmalloc) Q w.
Proof using kmalloc_ok normal_mode.
  intros Hw HQ. unfold ixgbe_release_nvm. wp_step. eapply wp_fla; [exact Hw|].
  intros w1 (s & Hr & Hf & Hs & Ho) Eh1. unfold has in normal_mode. apply negb_true_iff in normal_mode as ->.
  unfold ixgbe_release_res. wp_step. unfold ixgbe_aci_release_res. cbv zeta. wp_step. set (d := upd_d_params _ _).
  assert (Hd : desc_ok d).
  { apply dflt_desc_ok; [done|done|]. repeat constructor; by vm_compute. }
  eapply wp_direct; [exact Hr|exact Hd|done|]. intros hb s' ad ab Ex.
  destruct (fw_release_res _ _ _ _ _ _ Ex) as (E1 & E2 & E3 & E4 & E5).
  { by rewrite desc_of_raw_desc. }
  { by rewrite desc_of_raw_desc. }
  { done. }
  split; [done|]. split; [done|]. intros w2 Hr2 Eh2. apply wp_ret. wp_step. cbn [fst].
  change (Z.to_nat IXGBE_ACI_RELEASE_RES_TIMEOUT) with (S (Z.to_nat (IXGBE_ACI_RELEASE_RES_TIMEOUT - 1))).
  rewrite for_break_S. wp_step. wp_step; [|done]. wp_step. wp_step. wp_step. apply HQ.
  - exists s'; split; [done|]; split; [congruence|]; split; [congruence|done].
  - apply (sbs_last _ _ 0); congruence.
Qed.

(** ** Flat reads *)

(** [len] bytes of [area] from [off] on *)
Definition slice (area : list Z) (off len : Z) : list Z := take (Z.to_nat len) (drop (Z.to_nat off) area).

Lemma length_slice area off len : 0 <= off -> 0 <= len -> off + len <= Z.of_nat (length area) ->
  Z.of_nat (length (slice area off len)) = len.
Proof using. intros. unfold slice. rewrite length_take, length_drop. lia. Qed.

Lemma slice_app area off a b : 0 <= off -> 0 <= a -> 0 <= b ->
  slice area off a ++ slice area (off + a) b = slice area off (a + b).
Proof using.
  intros Ho Ha Hb. unfold slice. rewrite (Z2Nat.inj_add off a), (Z2Nat.inj_add a b) by lia.
  rewrite <- drop_drop. apply take_take_drop.
Qed.

Lemma slice_bytes area off len : Forall byte area -> Forall byte (slice area off len).
Proof using. intros. by apply Forall_take, Forall_drop. Qed.

Lemma nvm_at_bytes w fl sr o : nvm_at w fl sr o -> Forall byte fl /\ Forall byte sr.
Proof using. intros (s & _ & <- & <- & _). apply nvm_bytes. Qed.

Lemma wp_flat_loop fuel off len data sr_read w fl sr area br (Q : Z * list Z * Z -> world -> Prop) :
  nvm_at w fl sr true -> area = (if sr_read : bool then sr else fl) ->
  0 <= off -> 0 <= br < len -> len <= Z.of_nat (length data) -> Forall byte data ->
  off + len <= Z.of_nat (length area) -> off + len <= IXGBE_ACI_NVM_MAX_OFFSET + 1 ->
  ((off + br) mod 4096 + (len - br) + 4095) / 4096 <= Z.of_nat fuel ->
  (forall w', nvm_at w' fl sr true -> same_but_status w w' ->
     Q (IXGBE_SUCCESS, slice area off len ++ drop (Z.to_nat len) data, len) w') ->
  wp (read_flat_loop kmalloc fuel (off + br) len br
        (slice area off br ++ drop (Z.to_nat br) data) sr_read) Q w.
Proof using kmalloc_ok.
  intros Hw Ea Ho Hbr Hl Hb Hend Hmax Hf HQ. unfold IXGBE_ACI_NVM_MAX_OFFSET in Hmax.
  revert w br Hw Hbr Hf HQ.
  induction fuel as [|fuel IH]; intros w br Hw Hbr Hf HQ; [zlia|].
  simpl read_flat_loop. set (so := (off + br) mod IXGBE_ACI_MAX_BUFFER_SIZE).
  assert (Hso : so = (off + br) mod 4096 /\ 0 <= so < 4096).
  { split; [done|]. apply Z.mod_pos_bound. done. }
  assert (Hlb : Z.of_nat (length (slice area off br)) = br) by (apply length_slice; lia).
  rewrite (trunc_small 32 (len - br)) by (unfold in_range; lia).
  change IXGBE_ACI_MAX_BUFFER_SIZE with 4096. set (rs := Z.min (4096 - so) (len - br)).
  assert (Hrs : 1 <= rs <= 4096 /\ rs <= len - br /\ so + rs <= 4096) by lia.
  rewrite (trunc_small 32 (br + rs)), (trunc_small 16 rs), (trunc_small 32 (off + br + rs)) by (unfold in_range; lia).
  rewrite length_app, length_drop.
  destruct (Z.ltb_spec (Z.of_nat (length (slice area off br) + (length data - Z.to_nat br))) br); [lia|].
  assert (Hdrop : drop (Z.to_nat br) (slice area off br ++ drop (Z.to_nat br) data) = drop (Z.to_nat br) data).
  { rewrite drop_app_le by lia. by rewrite drop_ge by lia. }
  rewrite Hdrop. wp_step.
  apply (wp_read_nvm _ _ _ _ _ w fl sr area); [done|done|unfold IXGBE_ACI_NVM_MAX_OFFSET; lia|lia| |by apply Forall_drop|].
  { rewrite length_drop. lia. }
  intros w1 r ls Hw1 Eh1 Hok _. destruct Hok as [-> ->]; [lia|lia|].
  assert (Hsb : same_but_status w w1) by by eapply sbs_last.
  change (negb (IXGBE_SUCCESS =? 0)) with false. cbn iota.
  assert (Hdata : take (Z.to_nat br) (slice area off br ++ drop (Z.to_nat br) data) ++
     take (Z.to_nat rs) (drop (Z.to_nat (off + br)) area) ++ drop (Z.to_nat rs) (drop (Z.to_nat br) data) =
     slice area off (br + rs) ++ drop (Z.to_nat (br + rs)) data).
  { rewrite take_app_le by lia. rewrite take_ge by lia. rewrite app_assoc. f_equal.
    - rewrite <- slice_app by lia. done.
    - rewrite drop_drop. f_equal. lia. }
  rewrite Hdata. destruct (Z.ltb_spec (br + rs) len) as [Hlast|Hlast]; cbn [negb].
  - rewrite <- Z.add_assoc. apply IH; [done|lia| |].
    + assert (rs = 4096 - so) as -> by lia. destruct Hso as [Hso ?]. rewrite Hso in *. zlia.
    + intros w2 Hw2 Hs2. apply HQ; [done|by eapply sbs_trans].
  - assert (br + rs = len) as -> by lia. apply wp_ret. by apply HQ.
Qed.

Lemma wp_flat off len data sr_read w fl sr area (Q : Z * list Z * Z -> world -> Prop) :
  nvm_at w fl sr true -> area = (if sr_read : bool then sr else fl) ->
  0 <= off -> 1 <= len <= Z.of_nat (length data) -> Forall byte data ->
  off + len <= Z.of_nat (length area) -> off + len <= IXGBE_ACI_NVM_MAX_OFFSET + 1 ->
  (sr_read = true -> off + len <= word_size (eeprom (w_hw w)) * 2) ->
  (forall w', nvm_at w' fl sr true -> same_but_status w w' ->
     Q (IXGBE_SUCCESS, slice area off len ++ drop (Z.to_nat len) data, len) w') ->
  wp (ixgbe_read_flat_nvm kmalloc off len data sr_read) Q w.
Proof using kmalloc_ok.
  intros Hw Ea Ho Hl Hb Hend Hmax Hsr HQ. unfold ixgbe_read_flat_nvm. wp_step. apply wp_get_hw.
  unfold IXGBE_ACI_NVM_MAX_OFFSET in Hmax.
  assert (sr_read && (word_size (eeprom (w_hw w)) * 2 <? u32 (off + len)) = false) as ->.
  { destruct sr_read; [|done]. rewrite trunc_small by (unfold in_range; lia). simpl. apply Z.ltb_ge. auto. }
  pose proof (wp_flat_loop (Z.to_nat (len / 4096 + 2)) off len data sr_read w fl sr area 0 Q) as H.
  rewrite Z.add_0_r in H. apply H; [done|done|done|lia|lia|done|done|unfold IXGBE_ACI_NVM_MAX_OFFSET; lia| |done].
  rewrite Z2Nat.id by zlia. zlia.
Qed.

(** beyond the end of the flash *)
Lemma wp_flat_beyond off data w fl sr (Q : Z * list Z * Z -> world -> Prop) :
  nvm_at w fl sr true -> Z.of_nat (length fl) <= off <= IXGBE_ACI_NVM_MAX_OFFSET ->
  1 <= Z.of_nat (length data) -> Forall byte data ->
  (forall w', nvm_at w' fl sr true -> w_hw w' = hw_last IXGBE_ACI_RC_EINVAL (w_hw w) ->
     Q (IXGBE_ERR_ACI_ERROR, data, 0) w') ->
  wp (ixgbe_read_flat_nvm kmalloc off 1 data false) Q w.
Proof using kmalloc_ok.
  intros Hw Ho Hl Hb HQ. unfold ixgbe_read_flat_nvm. wp_step. apply wp_get_hw. cbn [andb].
  change (Z.to_nat (1 / IXGBE_ACI_MAX_BUFFER_SIZE + 2)) with 2%nat. unfold read_flat_loop; fold (read_flat_loop kmalloc).
  cbv zeta. assert (Hm : 0 <= off mod IXGBE_ACI_MAX_BUFFER_SIZE < 4096) by (apply Z.mod_pos_bound; done).
  change (u32 (1 - 0)) with 1. rewrite Z.min_r by (unfold IXGBE_ACI_MAX_BUFFER_SIZE in *; lia).
  destruct (Z.ltb_spec (Z.of_nat (length data)) 0); [lia|]. change (Z.to_nat 0) with 0%nat.
  rewrite drop_0. wp_step.
  apply (wp_read_nvm _ _ _ _ _ w fl sr fl); [done|done|unfold IXGBE_ACI_NVM_MAX_OFFSET in *; lia|by vm_compute|change (u16 1) with 1; lia|done|].
  intros w1 r ls Hw1 Eh1 _ Hbad. destruct Hbad as [-> ->]; [change (u16 1) with 1; lia|].
  change (negb (IXGBE_ERR_ACI_ERROR =? 0)) with true. cbn iota. apply wp_ret. by apply HQ.
Qed.

(** ** The size of the flash *)
Lemma wp_discover_loop fuel lo hi w fl sr (Q : Z * Z -> world -> Prop) :
  nvm_at w fl sr true -> 0 <= lo < Z.of_nat (length fl) -> Z.of_nat (length fl) <= hi ->
  hi <= IXGBE_ACI_NVM_MAX_OFFSET + 1 -> hi - lo <= 2 ^ Z.of_nat fuel ->
  (forall w', nvm_at w' fl sr true -> same_but_status w w' -> Q (IXGBE_SUCCESS, Z.of_nat (length fl)) w') ->
  wp (discover_loop kmalloc fuel lo hi) Q w.
Proof using kmalloc_ok.
  unfold IXGBE_ACI_NVM_MAX_OFFSET. revert lo hi w.
  induction fuel as [|fuel IH]; intros lo hi w Hw Hlo Hhi Hmax Hf HQ; simpl discover_loop;
    (destruct (Z.leb_spec (hi - lo) 1);
      [apply wp_ret; assert (hi = Z.of_nat (length fl)) as -> by lia; apply HQ; [done|apply sbs_refl]|]).
  { simpl in Hf. lia. }
  rewrite Nat2Z.inj_succ, Z.pow_succ_r in Hf by lia. set (off := (hi + lo) / 2).
  assert (Hoff : lo < off < hi /\ off - lo <= 2 ^ Z.of_nat fuel /\ hi - off <= 2 ^ Z.of_nat fuel) by (unfold off; zlia).
  wp_step. destruct (Z.lt_ge_cases off (Z.of_nat (length fl))) as [Hin|Hout].
  - apply (wp_flat _ _ _ _ w fl sr fl); [done|done|lia|simpl; lia|by repeat constructor|lia|unfold IXGBE_ACI_NVM_MAX_OFFSET; lia|done|].
    intros w1 Hw1 Hs1. wp_step. unfold get_last_status. wp_step. apply wp_get_hw. apply wp_ret.
    change (IXGBE_SUCCESS =? IXGBE_ERR_ACI_ERROR) with false. change (IXGBE_SUCCESS =? 0) with true. cbn [andb].
    apply IH; [done|lia|lia|lia|lia|]. intros w2 Hw2 Hs2. apply HQ; [done|by eapply sbs_trans].
  - apply (wp_flat_beyond _ _ w fl sr); [done|unfold IXGBE_ACI_NVM_MAX_OFFSET; lia|simpl; lia|by repeat constructor|].
    intros w1 Hw1 Eh1. wp_step. unfold get_last_status. wp_step. apply wp_get_hw. apply wp_ret.
    rewrite Eh1. cbn [hw_last aci upd_aci aci_last_status upd_aci_last_status].
    rewrite !Z.eqb_refl. cbn [andb].
    apply IH; [done|lia|lia|lia|lia|]. intros w2 Hw2 Hs2.
    apply HQ; [done|]. eapply sbs_trans; [by eapply sbs_last|done].
Qed.

Lemma wp_discover w fl sr (Q : Z -> world -> Prop) :
  nvm_at w fl sr false -> 1 <= Z.of_nat (length fl) <= IXGBE_ACI_NVM_MAX_OFFSET + 1 ->
  (forall w', nvm_at w' fl sr false -> flash_size (flash (w_hw w')) = Z.of_nat (length fl) ->
     Q IXGBE_SUCCESS w') ->
  wp (ixgbe_discover_flash_size kmalloc) Q w.
Proof using kmalloc_ok normal_mode.
  intros Hw Hl HQ. unfold ixgbe_discover_flash_size. wp_step.
  eapply wp_acquire_nvm; [exact Hw|]. intros w1 Hw1 Hs1. change (negb (IXGBE_SUCCESS =? 0)) with false.
  cbn iota. wp_step. eapply wp_discover_loop; [exact Hw1|lia|lia|lia|by vm_compute|]. intros w2 Hw2 Hs2.
  wp_step. change (IXGBE_SUCCESS =? 0) with true. cbn iota. unfold upd_flash_info. apply wp_upd_hw. wp_step.
  eapply wp_release_nvm.
  { destruct Hw2 as (s & [(u & [Hm Hu Hwf] & Hi) Hlk] & Hrest). exists s. split; [|exact Hrest].
    split; [exists u; split; [|done]|done]. by split. }
  intros w3 Hw3 [ls Hs3]. apply wp_ret, HQ; [done|]. by rewrite Hs3.
Qed.

(** ** Words of the Shadow RAM *)
Definition sr_word (sr : list Z) (i : Z) : Z := get16 sr (Z.to_nat (2 * i)).

Lemma get8_nonneg l k : Forall byte l -> 0 <= get8 l k.
Proof using.
  intros Hl. unfold get8. destruct (decide (k < length l)%nat).
  - rewrite Forall_forall in Hl. by apply Hl, nth_In.
  - by rewrite nth_overflow by lia.
Qed.

Lemma sr_word_nonneg sr i : Forall byte sr -> 0 <= sr_word sr i.
Proof using.
  intros Hb. unfold sr_word, get16. apply Z.lor_nonneg. split; [by apply get8_nonneg|].
  apply Z.shiftl_nonneg. by apply get8_nonneg.
Qed.

Lemma get8_slice area off len k : 0 <= off -> Z.of_nat k < len ->
  get8 (slice area off len) k = get8 area (Z.to_nat off + k).
Proof using.
  intros Ho Hk. unfold get8, slice. rewrite !nth_lookup, lookup_take_lt by lia.
  by rewrite lookup_drop.
Qed.

Lemma get16_slice area off len k rest : 0 <= off -> Z.of_nat k + 1 < len -> off + len <= Z.of_nat (length area) ->
  get16 (slice area off len ++ rest) k = get16 area (Z.to_nat off + k).
Proof using.
  intros Ho Hk Hl. assert (Hln := length_slice area off len Ho ltac:(lia) Hl). unfold get16.
  assert (H : forall j, Z.of_nat j < len -> get8 (slice area off len ++ rest) j = get8 area (Z.to_nat off + j)).
  { intros j Hj. rewrite <- (get8_slice area off len) by lia. unfold get8. apply app_nth1. lia. }
  rewrite !H by lia. by rewrite Nat.add_assoc.
Qed.

Lemma wp_sr_word off w fl sr (Q : Z * Z -> world -> Prop) :
  nvm_at w fl sr true -> 0 <= off -> 2 * off + 2 <= Z.of_nat (length sr) ->
  2 * off + 2 <= word_size (eeprom (w_hw w)) * 2 -> 2 * off + 2 <= IXGBE_ACI_NVM_MAX_OFFSET + 1 ->
  (forall w', nvm_at w' fl sr true -> same_but_status w w' -> Q (IXGBE_SUCCESS, sr_word sr off) w') ->
  wp (ixgbe_read_sr_word_aci kmalloc off) Q w.
Proof using kmalloc_ok.
  intros Hw Ho Hl Hws Hm HQ. unfold ixgbe_read_sr_word_aci. wp_step.
  apply (wp_flat _ _ _ _ w fl sr sr); [done|done|lia|simpl; lia|by repeat constructor|lia|lia|lia|].
  intros w1 Hw1 Hs1. apply wp_ret. change (IXGBE_SUCCESS =? 0) with true. cbn iota.
  rewrite get16_slice by lia. rewrite Nat.add_0_r. unfold sr_word in HQ. rewrite Z.mul_comm in HQ. by apply HQ.
Qed.

(** ** EEPROM operations *)

(** the EEPROM parameters are set and describe the Shadow RAM *)
Definition sr_geometry (h : ixgbe_hw) (sr : list Z) : Prop :=
  eeprom_type (eeprom h) <> ixgbe_eeprom_uninitialized /\
  in_range 16 (word_size (eeprom h)) /\ Z.of_nat (length sr) = 2 * word_size (eeprom h).

Lemma sbs_geometry w w' sr : same_but_status w w' -> sr_geometry (w_hw w) sr -> sr_geometry (w_hw w') sr.
Proof using. by intros [ls ->]. Qed.
Lemma sbs_eeprom w w' : same_but_status w w' -> eeprom (w_hw w') = eeprom (w_hw w).
Proof using. by intros [ls ->]. Qed.

Lemma wp_init_done w sr (Q : Z -> world -> Prop) : sr_geometry (w_hw w) sr ->
  Q IXGBE_SUCCESS w -> wp init_eeprom_if_needed Q w.
Proof using.
  intros [Ht _] HQ. unfold init_eeprom_if_needed. wp_step. apply wp_get_hw.
  rewrite bool_decide_eq_false_2 by done. by apply wp_ret.
Qed.

Lemma wp_ee_word off w fl sr (Q : Z * Z -> world -> Prop) :
  nvm_at w fl sr false -> sr_geometry (w_hw w) sr -> 0 <= off < word_size (eeprom (w_hw w)) ->
  (forall w', nvm_at w' fl sr false -> same_but_status w w' -> Q (IXGBE_SUCCESS, sr_word sr off) w') ->
  wp (ixgbe_read_ee_aci_E610 kmalloc off) Q w.
Proof using kmalloc_ok normal_mode.
  intros Hw Hg Ho HQ. unfold ixgbe_read_ee_aci_E610. wp_step. apply (wp_init_done _ sr); [done|].
  change (negb (IXGBE_SUCCESS =? 0)) with false. cbn iota. wp_step.
  eapply wp_acquire_nvm; [exact Hw|]. intros w1 Hw1 Hs1. change (negb (IXGBE_SUCCESS =? 0)) with false.
  cbn iota. destruct Hg as (_ & Hr & Hl). unfold in_range in Hr. wp_step.
  apply (wp_sr_word _ w1 fl sr); [done|lia|lia|rewrite (sbs_eeprom _ _ Hs1); lia|unfold IXGBE_ACI_NVM_MAX_OFFSET; lia|].
  intros w2 Hw2 Hs2. wp_step. eapply wp_release_nvm; [exact Hw2|]. intros w3 Hw3 Hs3. apply wp_ret, HQ; [done|].
  eapply sbs_trans; [done|]. by eapply sbs_trans.
Qed.

(** *** The checksum *)

(** the checksum a reader of the documentation expects: 0xBABA minus the sum of all
    words but the checksum word 0x3F and the 512 words each of the VPD area, which
    word 0x2F points to, and of the PCIe ALT area, which word 0x3E points to *)
Definition left_out (sr : list Z) : list Z := 0x3F :: seqZ (sr_word sr 0x2F) 512 ++ seqZ (sr_word sr 0x3E) 512.
Definition sr_checksum (sr : list Z) (words : Z) : Z :=
  u16 (0xBABA - zsum (map (sr_word sr) (filter (fun i => i ∉ left_out sr) (seqZ 0 words)))).

Lemma skips_left_out sr i :
  checksum_skips (sr_word sr E610_SR_VPD_PTR) (sr_word sr E610_SR_PCIE_ALT_AUTO_LOAD_PTR) i = true <-> i ∈ left_out sr.
Proof using.
  unfold checksum_skips, left_out. rewrite elem_of_cons, elem_of_app, !elem_of_seqZ, !orb_true_iff, !andb_true_iff.
  rewrite Z.eqb_eq, !Z.leb_le, !Z.ltb_lt.
  change E610_SR_VPD_PTR with 0x2F. change E610_SR_PCIE_ALT_AUTO_LOAD_PTR with 0x3E. change E610_SR_SW_CHECKSUM_WORD with 0x3F.
  change E610_SR_VPD_SIZE_WORDS with 512. change E610_SR_PCIE_ALT_SIZE_WORDS with 512. tauto.
Qed.
Lemma sr_checksum_sum sr words :
  sr_checksum sr words = u16 (IXGBE_SR_SW_CHECKSUM_BASE - zsum (map (fun i =>
    if checksum_skips (sr_word sr E610_SR_VPD_PTR) (sr_word sr E610_SR_PCIE_ALT_AUTO_LOAD_PTR) i then 0 else sr_word sr i)
    (seqZ 0 words))).
Proof using.
  unfold sr_checksum. change IXGBE_SR_SW_CHECKSUM_BASE with 0xBABA. do 2 f_equal.
  induction (seqZ 0 words) as [|i l IH]; [done|]. rewrite filter_cons. cbn [map zsum foldr].
  pose proof (skips_left_out sr i) as Hi. destruct (checksum_skips _ _ i).
  - rewrite decide_False by tauto. rewrite IH. unfold zsum. lia.
  - rewrite decide_True by (intros H; by apply Hi in H). cbn [map zsum foldr]. unfold zsum in *. lia.
Qed.

Lemma zsum_seqZ_snoc f k : 0 <= k -> zsum (map f (seqZ 0 (k + 1))) = zsum (map f (seqZ 0 k)) + f k.
Proof using.
  intros Hk. rewrite seqZ_app by lia. rewrite map_app, zsum_app.
  replace (seqZ (0 + k) 1) with [k] by (unfold seqZ; simpl; f_equal; lia).
  cbn [map zsum foldr]. lia.
Qed.

(** the page of word [k] is in the buffer when the word is added *)
Lemma wp_checksum_page k data w fl sr (Q : Z * list Z -> world -> Prop) :
  nvm_at w fl sr true -> length data = 4096%nat -> Forall byte data ->
  (k mod 2048 <> 0 -> data = slice sr (4096 * (k / 2048)) 4096) -> 0 <= k < 65536 ->
  4096 * (k / 2048) + 4096 <= Z.of_nat (length sr) ->
  4096 * (k / 2048) + 4096 <= word_size (eeprom (w_hw w)) * 2 ->
  (forall w', nvm_at w' fl sr true -> same_but_status w w' ->
     Q (IXGBE_SUCCESS, slice sr (4096 * (k / 2048)) 4096) w') ->
  wp (if k mod 2048 =? 0 then
        r ← ixgbe_read_sr_buf_aci kmalloc k 2048 data;
        let '(status, _, data) := r in mret (status, data)
      else mret (IXGBE_SUCCESS, data)) Q w.
Proof using kmalloc_ok.
  intros Hw Hd Hdb Hdata Hk Hl Hws HQ.
  destruct (Z.eqb_spec (k mod 2048) 0) as [E|E];
    [|apply wp_ret; rewrite Hdata by done; apply HQ; [done|apply sbs_refl]].
  unfold ixgbe_read_sr_buf_aci. wp_step. wp_step.
  apply (wp_flat _ _ _ _ w fl sr sr); [done|done|lia|rewrite Hd; simpl; lia|done|zlia|
    unfold IXGBE_ACI_NVM_MAX_OFFSET; zlia|zlia|].
  intros w2 Hw2 Hs2. apply wp_ret, wp_ret.
  change (2048 * 2) with 4096. rewrite drop_ge, app_nil_r by (rewrite Hd; done).
  replace (k * 2) with (4096 * (k / 2048)) by zlia. by apply HQ.
Qed.

Lemma wp_checksum_words w fl sr vpd alt (Q : list Z * Z + Z -> world -> Prop) :
  let words := word_size (eeprom (w_hw w)) in
  nvm_at w fl sr true -> sr_geometry (w_hw w) sr -> words mod 2048 = 0 ->
  (forall w' data, nvm_at w' fl sr true -> same_but_status w w' ->
     Q (inl (data, u16 (zsum (map (fun i => if checksum_skips vpd alt i then 0 else sr_word sr i)
                               (seqZ 0 words))))) w') ->
  wp (checksum_words kmalloc words vpd alt (replicate 4096 0)) Q w.
Proof using kmalloc_ok.
  intros words Hw (_ & Hr & Hl) Hm HQ. unfold in_range in Hr.
  assert (Ew : word_size (eeprom (w_hw w)) = words) by done. rewrite Ew in Hr, Hl. clearbody words.
  set (f := fun i => if checksum_skips vpd alt i then 0 else sr_word sr i).
  assert (Hb : Forall byte sr) by by destruct (nvm_at_bytes _ _ _ _ Hw).
  unfold checksum_words.
  apply wp_for_break with (Inv := fun k '(data, acc) w' =>
    nvm_at w' fl sr true /\ same_but_status w w' /\ length data = 4096%nat /\ Forall byte data /\
    (k mod 2048 <> 0 -> data = slice sr (4096 * (k / 2048)) 4096) /\ acc = u16 (zsum (map f (seqZ 0 k)))).
  - split; [done|]. split; [apply sbs_refl|]. split; [apply length_replicate|].
    split; [by apply Forall_replicate|]. done.
  - intros k [data acc] w1 Hk (Hw1 & Hs1 & Hd & Hdb & Hdata & ->). rewrite Z2Nat.id in Hk by lia.
    change IXGBE_SR_SECTOR_SIZE_IN_WORDS with 2048. wp_step.
    assert (Hkk : 4096 * (k / 2048) + 4096 <= 2 * words) by zlia.
    assert (Hlen := length_slice sr (4096 * (k / 2048)) 4096 ltac:(zlia) ltac:(lia) ltac:(lia)).
    eapply wp_checksum_page; [exact Hw1|exact Hd|exact Hdb|exact Hdata|lia|zlia| |].
    { rewrite (sbs_eeprom _ _ Hs1), Ew. zlia. }
    intros w2 Hw2 Hs12. assert (Hs2 := sbs_trans _ _ _ Hs1 Hs12).
    change (negb (IXGBE_SUCCESS =? 0)) with false. cbn iota.
    assert (Hnext : (k + 1) mod 2048 <> 0 -> slice sr (4096 * (k / 2048)) 4096 = slice sr (4096 * ((k + 1) / 2048)) 4096).
    { intros Hne. do 2 f_equal. zlia. }
    assert (Hinv : forall acc, acc = u16 (zsum (map f (seqZ 0 (k + 1)))) ->
      nvm_at w2 fl sr true /\ same_but_status w w2 /\ length (slice sr (4096 * (k / 2048)) 4096) = 4096%nat /\
      Forall byte (slice sr (4096 * (k / 2048)) 4096) /\
      ((k + 1) mod 2048 <> 0 -> slice sr (4096 * (k / 2048)) 4096 = slice sr (4096 * ((k + 1) / 2048)) 4096) /\
      acc = u16 (zsum (map f (seqZ 0 (k + 1))))).
    { intros acc' ->. repeat (split; [done || lia || by apply slice_bytes|]). done. }
    destruct (checksum_skips vpd alt k) eqn:Es.
    + apply wp_ret. apply Hinv. rewrite zsum_seqZ_snoc by lia.
      replace (f k) with 0 by (unfold f; by rewrite Es). f_equal. lia.
    + assert (Hmod : 0 <= k mod 2048 < 2048) by (apply Z.mod_pos_bound; lia).
      set (sl := slice sr (4096 * (k / 2048)) 4096) in *.
      assert (Hat : forall j, 0 <= j < 4096 -> sl !! Z.to_nat j = Some (get8 sl (Z.to_nat j))).
      { intros j Hj. unfold get8. rewrite nth_lookup.
        destruct (lookup_lt_is_Some_2 sl (Z.to_nat j)) as [x ->]; [lia|done]. }
      wp_step. eapply wp_nth_c; [lia|apply Hat; lia|]. wp_step. eapply wp_nth_c; [lia|apply Hat; lia|].
      apply wp_ret. apply Hinv. rewrite zsum_seqZ_snoc by lia.
      replace (f k) with (sr_word sr k) by (unfold f; by rewrite Es).
      rewrite trunc_add_l by lia. do 2 f_equal. unfold sr_word, get16, sl.
      rewrite !get8_slice by zlia.
      replace (Z.to_nat (4096 * (k / 2048)) + Z.to_nat (2 * (k mod 2048)))%nat with (Z.to_nat (2 * k)) by zlia.
      replace (Z.to_nat (4096 * (k / 2048)) + Z.to_nat (2 * (k mod 2048) + 1))%nat
        with (Z.to_nat (2 * k) + 1)%nat by zlia. done.
  - intros [data acc] w1 (Hw1 & Hs1 & _ & _ & _ & ->). rewrite Z.add_0_l, Z2Nat.id by lia. by apply HQ.
Qed.

Lemma wp_calc_checksum w fl sr (Q : Z -> world -> Prop) :
  let words := word_size (eeprom (w_hw w)) in
  nvm_at w fl sr false -> sr_geometry (w_hw w) sr -> words mod 2048 = 0 -> 0 < words ->
  (forall w', nvm_at w' fl sr false -> same_but_status w w' -> Q (sr_checksum sr words) w') ->
  wp (ixgbe_calc_eeprom_checksum_E610 kmalloc) Q w.
Proof using kmalloc_ok normal_mode.
  intros words Hw Hg Hm Hp HQ. rewrite sr_checksum_sum in HQ. unfold ixgbe_calc_eeprom_checksum_E610. wp_step.
  apply (wp_init_done _ sr); [done|]. change (negb (IXGBE_SUCCESS =? 0)) with false. cbn iota. wp_step.
  unfold ixgbe_malloc. wp_step. rewrite kmalloc_ok. cbn [negb]. wp_step.
  eapply wp_acquire_nvm; [exact Hw|]. intros w1 Hw1 Hs1. change (negb (IXGBE_SUCCESS =? 0)) with false.
  cbn iota. wp_step. unfold checksum_body.
  assert (Hg' : 2048 <= words < 65536 /\ Z.of_nat (length sr) = 2 * words).
  { destruct Hg as (_ & Hr & Hl). unfold in_range in Hr. fold words in Hr, Hl.
    split; [|done]. clearbody words. zlia. }
  assert (Hword : forall off w2 Q', 0 <= off < 2048 -> nvm_at w2 fl sr true -> same_but_status w w2 ->
    (forall w3, nvm_at w3 fl sr true -> same_but_status w w3 -> Q' (IXGBE_SUCCESS, sr_word sr off) w3) ->
    wp (ixgbe_read_sr_word_aci kmalloc off) Q' w2).
  { intros off w2 Q' Ho Hw2 Hs2 HQ'. apply (wp_sr_word _ w2 fl sr); [done|lia|lia| |unfold IXGBE_ACI_NVM_MAX_OFFSET; lia|].
    - rewrite (sbs_eeprom _ _ Hs2). fold words. lia.
    - intros w3 Hw3 Hs3. apply HQ'; [done|by eapply sbs_trans]. }
  wp_step. apply Hword; [by vm_compute|done|done|]. intros w2 Hw2 Hs2.
  change (negb (IXGBE_SUCCESS =? 0)) with false. cbn iota.
  wp_step. apply Hword; [by vm_compute|done|done|]. intros w3 Hw3 Hs3.
  change (negb (IXGBE_SUCCESS =? 0)) with false. cbn iota. wp_step. apply wp_get_hw. wp_step.
  change (Z.to_nat (2 * IXGBE_SR_SECTOR_SIZE_IN_WORDS)) with 4096%nat.
  eapply wp_checksum_words; [exact Hw3|by eapply sbs_geometry|by rewrite (sbs_eeprom _ _ Hs3)|].
  rewrite (sbs_eeprom _ _ Hs3). fold words. intros w4 data Hw4 Hs4. apply wp_ret. wp_step.
  eapply wp_release_nvm; [exact Hw4|]. intros w5 Hw5 Hs5. apply wp_ret.
  assert (E : forall x, u16 (IXGBE_SR_SW_CHECKSUM_BASE - u16 x) = u16 (IXGBE_SR_SW_CHECKSUM_BASE - x)).
  { intros x. unfold trunc. by rewrite Zminus_mod_idemp_r. }
  rewrite E. apply HQ; [done|]. eapply sbs_trans; [done|]. by eapply sbs_trans.
Qed.

(** ** The preserved field area *)

(** type-length-value records from [p] to [e], by type and length; the length
    does not count the two words in front *)
Fixpoint tlvs_at (sr : list Z) (p e : Z) (l : list (Z * Z)) : Prop :=
  match l with
  | [] => p = e
  | (t, len) :: l' => sr_word sr p = t /\ sr_word sr (p + 1) = len /\ 0 <= len /\ tlvs_at sr (p + len + 2) e l'
  end.

(** the first record of the type, with its position *)
Fixpoint find_tlv (p : Z) (l : list (Z * Z)) (ty : Z) : option (Z * Z) :=
  match l with
  | [] => None
  | (t, len) :: l' => if t =? ty then Some (p, len) else find_tlv (p + len + 2) l' ty
  end.

Definition tlv_result (r : option (Z * Z)) : Z * option (Z * Z) :=
  match r with
  | Some (p, len) => if len =? 0 then (IXGBE_ERR_INVAL_SIZE, None) else (IXGBE_SUCCESS, Some (p, len))
  | None => (IXGBE_ERR_DOES_NOT_EXIST, None)
  end.

Lemma tlvs_at_le sr p e l : tlvs_at sr p e l -> p <= e.
Proof using. revert p. induction l as [|[t len] l IH]; simpl; intros p H; [lia|]. destruct H as (_ & _ & Hl & H%IH). lia. Qed.

Lemma wp_pfa_loop fuel p e ty l w fl sr (Q : Z * option (Z * Z) -> world -> Prop) :
  nvm_at w fl sr false -> sr_geometry (w_hw w) sr -> 0 <= p ->
  e <= word_size (eeprom (w_hw w)) -> e < 65536 -> tlvs_at sr p e l -> (length l <= fuel)%nat ->
  (forall w', nvm_at w' fl sr false -> same_but_status w w' -> Q (tlv_result (find_tlv p l ty)) w') ->
  wp (pfa_tlv_loop kmalloc fuel p e ty) Q w.
Proof using kmalloc_ok normal_mode.
  revert fuel p w. induction l as [|[t len] l IH]; intros fuel p w Hw Hg Hp He H16 Htl Hf HQ.
  - simpl in Htl. subst e. destruct fuel; simpl; rewrite Z.ltb_irrefl; cbn [negb]; apply wp_ret;
      (apply HQ; [done|apply sbs_refl]).
  - destruct Htl as (Et & El & Hl & Htl). pose proof (tlvs_at_le _ _ _ _ Htl).
    destruct fuel as [|fuel]; [simpl in Hf; lia|]. simpl pfa_tlv_loop.
    destruct (Z.ltb_spec p e); [|lia]. cbn [negb]. wp_step.
    apply (wp_ee_word _ w fl sr); [done|done|lia|]. intros w1 Hw1 Hs1. rewrite Et.
    change (negb (IXGBE_SUCCESS =? IXGBE_SUCCESS)) with false. cbn iota. wp_step.
    rewrite (trunc_small 16 (p + 1)) by (unfold in_range; lia).
    apply (wp_ee_word _ w1 fl sr); [done|by eapply sbs_geometry|rewrite (sbs_eeprom _ _ Hs1); lia|].
    intros w2 Hw2 Hs2. rewrite El. change (negb (IXGBE_SUCCESS =? IXGBE_SUCCESS)) with false. cbn iota.
    assert (Hs : same_but_status w w2) by by eapply sbs_trans.
    simpl find_tlv in HQ. destruct (t =? ty).
    + apply wp_ret. simpl in HQ. destruct (len =? 0); by apply HQ.
    + rewrite (trunc_small 16 (p + len + 2)) by (unfold in_range; lia).
      apply IH; [done|by eapply sbs_geometry|lia|by rewrite (sbs_eeprom _ _ Hs)|done|done|simpl in Hf; lia|].
      intros w3 Hw3 Hs3. apply HQ; [done|by eapply sbs_trans].
Qed.

(** a computation that runs out of fuel *)
Lemma bind_fault {A B} (m : M A) (f : A -> M B) e (w : world) :
  wp m (fun a w' => f a w' = Fault e) w -> (m ≫= f) w = Fault e.
Proof using. unfold wp, mbind, comp_bind. by destruct (m w). Qed.

(** A record whose length is [0xFFFE] and that is not the one looked for: the next
    record is the same record. *)
Lemma pfa_loop_endless fuel p e ty w fl sr :
  nvm_at w fl sr false -> sr_geometry (w_hw w) sr -> 0 <= p < e -> p + 1 < word_size (eeprom (w_hw w)) ->
  sr_word sr p <> ty -> sr_word sr (p + 1) = 0xFFFE ->
  pfa_tlv_loop kmalloc fuel p e ty w = Fault FOutOfFuel.
Proof using kmalloc_ok normal_mode.
  intros Hw Hg Hp Hws Ht Hl. revert w Hw Hg Hws.
  assert (Hlt : (p <? e) = true) by (apply Z.ltb_lt; lia).
  induction fuel as [|fuel IH]; intros w Hw Hg Hws; simpl pfa_tlv_loop; rewrite Hlt; cbn [negb]; [done|].
  assert (Hr : word_size (eeprom (w_hw w)) < 65536) by (destruct Hg as (_ & Hr & _); unfold in_range in Hr; lia).
  apply bind_fault, (wp_ee_word _ w fl sr); [done|done|lia|]. intros w1 Hw1 Hs1.
  change (negb (IXGBE_SUCCESS =? IXGBE_SUCCESS)) with false. cbn iota.
  rewrite (trunc_small 16 (p + 1)) by (unfold in_range; lia).
  apply bind_fault, (wp_ee_word _ w1 fl sr);
    [done|by eapply sbs_geometry|rewrite (sbs_eeprom _ _ Hs1); lia|]. intros w2 Hw2 Hs2.
  change (negb (IXGBE_SUCCESS =? IXGBE_SUCCESS)) with false. cbn iota.
  apply Z.eqb_neq in Ht as ->. rewrite Hl.
  assert (u16 (p + 0xFFFE + 2) = p) as ->.
  { unfold trunc. change (2 ^ 16) with 65536. rewrite <- Z.add_assoc. change (65534 + 2) with (1 * 65536).
    rewrite Z.mod_add by lia. apply Z.mod_small. lia. }
  assert (Hs : same_but_status w w2) by by eapply sbs_trans.
  apply IH; [done|by eapply sbs_geometry|by rewrite (sbs_eeprom _ _ Hs)].
Qed.
End Nvm.
