(* ===== verification/AciProps.v ===== *)
(** * Properties of the admin command interface and of NVM access on the E610

    The claims: the command protocol on an arbitrary device, commands as calls of
    the firmware, exact reads, discovery of the flash size, the checksum and the
    search in the preserved field area; and an executable device, with firmware
    that serves the NVM, on which their witnesses run. *)
From S2P Require Import Prelude Bytes Regs Types Osdep Trace RegsE610.
From S2P Require Import Aci AciSafe AciDev AciRpc AciUnit AciNvm AciNvmFw.

Section AnyDevice.
Context `{D : Mmio} (kmalloc : Z -> world -> bool).

(** C22: On any device and for any firmware, one admin command with a descriptor of
    the right size and a buffer that holds [size] bytes ends with one of seven
    status codes, without a fault, without the lock and with the buffer
    at its size; it touches registers of the interface only, waits at most 250.01
    seconds per execution, and executes at most once (three times for the four commands
    that are repeated); each execution writes nothing, or the same request: the
    buffer words if the firmware is to read them, the eight descriptor words, then
    PF_HICR with C set and SV and EV clear.  Success is only reported after such a
    request. *)
Theorem aci_command_protocol d buf size : desc_wf d -> buf_holds buf size ->
  traces lock_st false (ixgbe_aci_send_cmd kmalloc d buf size) (fun r l =>
    Forall aci_access l /\
    send_post (if ixgbe_should_retry_aci_send_cmd_execute (d_opcode d) then 3 else 1)
      (aci_request d buf size) buf r (wrs l) (waits l)).
Proof using. intros Hd Hb. by apply do_send_cmd. Qed.
End AnyDevice.

Section Call.
Context `{D : Mmio} `{F : Firmware} `{!AciDevice D F} (kmalloc : Z -> world -> bool).
Context (kmalloc_ok : forall k w, kmalloc k w = true).

(** C21: On a device that keeps the protocol, with memory for its copies, a
    command that is not of the repeated kind is one call of the firmware: the firmware is run once, on exactly the
    descriptor and (where it is told to read data) the bytes the caller passed;
    status, descriptor, data and [aci.last_status] are those of its answer,
    whether it comes in one step or in two; nothing else of the driver's state
    changes and the interface is ready for the next command. *)
Theorem aci_command_is_a_call d buf n w s :
  aci_ready w s -> desc_ok d -> valid_buf d buf n ->
  ixgbe_should_retry_aci_send_cmd_execute (d_opcode d) = false ->
  wp (ixgbe_aci_send_cmd kmalloc d buf n) (fun r w' => exists hb s' ad ab,
    let rq := aci_request d buf n in
    sees rq.1 rq.2 hb /\ fw_exec s (raw_desc rq.1) hb = (s', ad, ab) /\ aci_ready w' s' /\
    (r, aci_last_status (aci (w_hw w'))) = rpc_reply (d_opcode d) buf n (desc_of_raw ad) ab /\
    w_hw w' = hw_last (aci_last_status (aci (w_hw w'))) (w_hw w)) w.
Proof using kmalloc_ok.
  intros Hr Hd Hv Hn. eapply wp_send_cmd; [exact Hr|done|done|exact kmalloc_ok|done|].
  intros w' hb s' ad ab rq Hs Ex Hr' x Eh. exists hb, s', ad, ab. cbv zeta. split; [done|].
  split; [done|]. split; [done|]. rewrite Eh. split; [|done].
  change (aci_last_status (aci (hw_last x.2 (w_hw w)))) with x.2. symmetry. apply surjective_pairing.
Qed.
End Call.

Section Nvm.
Context `{D : Mmio} `{F : Firmware} `{!AciDevice D F} `{!NvmFirmware F} (kmalloc : Z -> world -> bool).
Context (kmalloc_ok : forall k w, kmalloc k w = true).

(** C23: [ixgbe_read_flat_nvm] by the owner of the NVM, with memory for the commands
    and for a range inside the part, reads exactly the bytes of the
    flash, or of the Shadow RAM, at the offset, whatever sectors they span, into
    the front of the caller's buffer, reports their number and leaves the rest of
    the buffer, the device's contents and the ownership as they were. *)
Theorem read_flat_nvm_exact off len data sr_read w fl sr :
  nvm_at w fl sr true -> 0 <= off -> 1 <= len <= Z.of_nat (length data) -> Forall byte data ->
  off + len <= Z.of_nat (length (if sr_read : bool then sr else fl)) ->
  off + len <= IXGBE_ACI_NVM_MAX_OFFSET + 1 ->
  (sr_read = true -> off + len <= word_size (eeprom (w_hw w)) * 2) ->
  wp (ixgbe_read_flat_nvm kmalloc off len data sr_read) (fun r w' =>
    r = (IXGBE_SUCCESS,
         slice (if sr_read then sr else fl) off len ++ drop (Z.to_nat len) data, len) /\
    nvm_at w' fl sr true /\ same_but_status w w') w.
Proof using kmalloc_ok.
  intros Hw Ho Hl Hb Hend Hm Hs. by eapply wp_flat.
Qed.

Context (normal_mode : has dev_fla GLNVM_FLA_LOCKED_M = true).

(** [ixgbe_discover_flash_size] finds the size of the flash, for every size from
    one byte to 16 MB, and gives the NVM back. *)
Theorem flash_size_discovered w fl sr :
  nvm_at w fl sr false -> 1 <= Z.of_nat (length fl) <= IXGBE_ACI_NVM_MAX_OFFSET + 1 ->
  wp (ixgbe_discover_flash_size kmalloc) (fun r w' =>
    r = IXGBE_SUCCESS /\ flash_size (flash (w_hw w')) = Z.of_nat (length fl) /\ nvm_at w' fl sr false) w.
Proof using kmalloc_ok normal_mode. intros Hw Hl. by eapply wp_discover. Qed.

(** C33: On an adapter in normal mode, with memory for one sector, and for a Shadow
    RAM of whole sectors, [ixgbe_calc_eeprom_checksum_E610] returns 0xBABA minus the
    sum of all words but the checksum word 0x3F, the 512 words of the VPD area and
    the 512 words of the PCIe ALT area, modulo [2^16], and gives the NVM back. *)
Theorem calc_checksum_E610_spec w fl sr :
  nvm_at w fl sr false -> sr_geometry (w_hw w) sr ->
  word_size (eeprom (w_hw w)) mod IXGBE_SR_SECTOR_SIZE_IN_WORDS = 0 -> 0 < word_size (eeprom (w_hw w)) ->
  wp (ixgbe_calc_eeprom_checksum_E610 kmalloc) (fun r w' =>
    r = sr_checksum sr (word_size (eeprom (w_hw w))) /\ nvm_at w' fl sr false /\ same_but_status w w') w.
Proof using kmalloc_ok normal_mode. intros Hw Hg Hm Hp. by eapply wp_calc_checksum. Qed.

(** Where the preserved field area holds records back to back up to its end,
    [ixgbe_get_pfa_module_tlv] ends after at most one round per record and returns
    position and length of the first record of the type, an error for one of
    length zero, and that the module does not exist if there is none. *)
Theorem pfa_search_spec fuel ty l w fl sr :
  let p := sr_word sr E610_SR_PFA_PTR in
  let e := p + sr_word sr p in
  nvm_at w fl sr false -> sr_geometry (w_hw w) sr ->
  E610_SR_PFA_PTR < word_size (eeprom (w_hw w)) -> e <= word_size (eeprom (w_hw w)) ->
  tlvs_at sr (p + 1) e l -> (length l <= fuel)%nat ->
  wp (ixgbe_get_pfa_module_tlv kmalloc fuel ty) (fun r w' =>
    r = tlv_result (find_tlv (p + 1) l ty) /\ nvm_at w' fl sr false /\ same_but_status w w') w.
Proof using kmalloc_ok normal_mode.
  intros p e Hw Hg Hp He Htl Hf. pose proof (tlvs_at_le _ _ _ _ Htl) as Hle.
  assert (H16 : e < 65536) by (destruct Hg as (_ & Hr & _); unfold in_range in Hr; lia).
  assert (Hp0 : 0 <= p).
  { destruct (nvm_at_bytes _ _ _ _ Hw) as [_ Hb]. by apply sr_word_nonneg. }
  unfold ixgbe_get_pfa_module_tlv. wp_step.
  apply (wp_ee_word kmalloc kmalloc_ok normal_mode _ w fl sr); [done|done|by vm_compute|]. intros w1 Hw1 Hs1.
  fold p. change (negb (IXGBE_SUCCESS =? IXGBE_SUCCESS)) with false. cbn iota. wp_step.
  apply (wp_ee_word kmalloc kmalloc_ok normal_mode _ w1 fl sr);
    [done|by eapply sbs_geometry|rewrite (sbs_eeprom _ _ Hs1); lia|]. intros w2 Hw2 Hs2.
  change (negb (IXGBE_SUCCESS =? IXGBE_SUCCESS)) with false. cbn iota. fold e.
  rewrite !trunc_small by (unfold in_range; lia).
  assert (Hs : same_but_status w w2) by by eapply sbs_trans.
  apply (wp_pfa_loop kmalloc kmalloc_ok normal_mode _ _ _ _ l w2 fl sr);
    [done|by eapply sbs_geometry|lia|by rewrite (sbs_eeprom _ _ Hs)|done|done|done|].
  intros w3 Hw3 Hs3. split; [done|]. split; [done|by eapply sbs_trans].
Qed.

(** A first record with the length field [0xFFFE] and another type than the one
    looked for keeps [ixgbe_get_pfa_module_tlv] reading it forever: no number of
    rounds ends the loop, because [next_tlv + tlv_len + 2] wraps to [next_tlv]. *)
Theorem pfa_search_endless fuel ty w fl sr :
  let p := sr_word sr E610_SR_PFA_PTR in
  nvm_at w fl sr false -> sr_geometry (w_hw w) sr ->
  E610_SR_PFA_PTR < word_size (eeprom (w_hw w)) ->
  p + 2 < word_size (eeprom (w_hw w)) -> 2 <= sr_word sr p -> p + sr_word sr p < 65536 ->
  sr_word sr (p + 1) <> ty -> sr_word sr (p + 2) = 0xFFFE ->
  ixgbe_get_pfa_module_tlv kmalloc fuel ty w = Fault FOutOfFuel.
Proof using kmalloc_ok normal_mode.
  intros p Hw Hg Hp Hws Hlen He Ht Hl.
  assert (Hp0 : 0 <= p).
  { destruct (nvm_at_bytes _ _ _ _ Hw) as [_ Hb]. by apply sr_word_nonneg. }
  unfold ixgbe_get_pfa_module_tlv.
  apply bind_fault, (wp_ee_word kmalloc kmalloc_ok normal_mode _ w fl sr); [done|done|by vm_compute|].
  intros w1 Hw1 Hs1. fold p. change (negb (IXGBE_SUCCESS =? IXGBE_SUCCESS)) with false. cbn iota.
  apply bind_fault, (wp_ee_word kmalloc kmalloc_ok normal_mode _ w1 fl sr);
    [done|by eapply sbs_geometry|rewrite (sbs_eeprom _ _ Hs1); lia|]. intros w2 Hw2 Hs2.
  change (negb (IXGBE_SUCCESS =? IXGBE_SUCCESS)) with false. cbn iota.
  rewrite !trunc_small by (unfold in_range; lia).
  assert (Hs : same_but_status w w2) by by eapply sbs_trans.
  apply (pfa_loop_endless kmalloc kmalloc_ok normal_mode _ _ _ _ _ fl sr);
    [done|by eapply sbs_geometry|lia|rewrite (sbs_eeprom _ _ Hs); lia|done|].
  by replace (p + 1 + 1) with (p + 2) by lia.
Qed.
End Nvm.

(** ** An executable device

    Firmware with a flash, a Shadow RAM and the ownership of the NVM; it answers
    in one step while the NVM is free and in two while it is owned. *)
Record nvm_fw := mk_nvm_fw { f_flash : list Z; f_sr : list Z; f_owned : bool }.

Definition fw_reply (op flags retval : Z) : list Z :=
  raw_desc (mk_desc flags op 0 retval 0 0 (replicate 16 0)).
Definition fw_page (l : list Z) : list Z := words_of (take 4096 (l ++ replicate 4096 0)).

Definition nvm_exec (s : nvm_fw) (l hb : list Z) : nvm_fw * list Z * list Z :=
  let d := desc_of_raw l in
  let p := d_params d in
  let none := fw_page [] in
  if (d_opcode d =? ixgbe_aci_opc_req_res) && (get16 p 0 =? IXGBE_NVM_RES_ID) then
    (mk_nvm_fw (f_flash s) (f_sr s) true, fw_reply ixgbe_aci_opc_req_res 0
       (if f_owned s then IXGBE_ACI_RC_EBUSY else IXGBE_ACI_RC_OK), none)
  else if (d_opcode d =? ixgbe_aci_opc_release_res) && (get16 p 0 =? IXGBE_NVM_RES_ID) then
    (mk_nvm_fw (f_flash s) (f_sr s) false, fw_reply ixgbe_aci_opc_release_res 0 IXGBE_ACI_RC_OK, none)
  else if d_opcode d =? ixgbe_aci_opc_nvm_read then
    let area := map u8 (if has (get8 p 3) IXGBE_ACI_NVM_FLASH_ONLY then f_flash s else f_sr s) in
    if Z.of_nat (length area) <? cmd_offset p + get16 p 6
    then (s, fw_reply ixgbe_aci_opc_nvm_read 0 IXGBE_ACI_RC_EINVAL, none)
    else (s, fw_reply ixgbe_aci_opc_nvm_read IXGBE_ACI_FLAG_BUF IXGBE_ACI_RC_OK,
          fw_page (slice area (cmd_offset p) (get16 p 6)))
  else (s, fw_reply 0 0 IXGBE_ACI_RC_OK, none).

Lemma fw_reply_ok op fl rv : in_range 16 op -> in_range 16 fl -> in_range 16 rv ->
  length (fw_reply op fl rv) = 8%nat /\ Forall (in_range 32) (fw_reply op fl rv) /\
  desc_of_raw (fw_reply op fl rv) = mk_desc fl op 0 rv 0 0 (replicate 16 0).
Proof.
  intros H1 H2 H3. unfold fw_reply. set (d := mk_desc _ _ _ _ _ _ _).
  assert (Hd : desc_ok d). { split; simpl; try done. split; [done|]. by repeat constructor. }
  split; [done|]. split; [by apply raw_desc_range|by apply desc_of_raw_desc].
Qed.

Lemma fw_page_ok l : Forall byte l -> length (fw_page l) = 1024%nat /\ Forall (in_range 32) (fw_page l) /\
  bytes_of (fw_page l) = take 4096 (l ++ replicate 4096 0).
Proof.
  intros Hl. unfold fw_page. set (x := take 4096 _).
  assert (Hx : length x = (4 * 1024)%nat) by (unfold x; rewrite length_take, length_app, length_replicate; lia).
  assert (Hb : Forall byte x) by (apply Forall_take, Forall_app; split; [done|by apply Forall_replicate]).
  split; [by apply length_words_of|]. split; [by apply (words_of_range 1024)|by apply (bytes_words 1024)].
Qed.

Lemma map_u8_bytes l : Forall byte (map u8 l).
Proof. apply Forall_fmap, Forall_true. intros x. by apply trunc_range. Qed.

Lemma nvm_exec_ok s l hb :
  (length (nvm_exec s l hb).1.2 = 8%nat /\ Forall (in_range 32) (nvm_exec s l hb).1.2) /\
  (length (nvm_exec s l hb).2 = 1024%nat /\ Forall (in_range 32) (nvm_exec s l hb).2).
Proof.
  assert (Hr : forall op fl rv, in_range 16 op -> in_range 16 fl -> in_range 16 rv ->
    length (fw_reply op fl rv) = 8%nat /\ Forall (in_range 32) (fw_reply op fl rv))
    by (intros; destruct (fw_reply_ok op fl rv) as (? & ? & ?); done).
  assert (Hp : forall x, Forall byte x -> length (fw_page x) = 1024%nat /\ Forall (in_range 32) (fw_page x))
    by (intros x Hx; destruct (fw_page_ok x Hx) as (? & ? & ?); done).
  unfold nvm_exec. cbv zeta.
  repeat (destruct (_ && _) || destruct (_ =? _) || destruct (_ <? _)); cbn [fst snd];
    (split; [apply Hr; try done|apply Hp; try constructor]); [by destruct (f_owned s)..|].
  apply slice_bytes, map_u8_bytes.
Qed.

#[export, refine] Instance nvm_firmware : Firmware := {
  fw := nvm_fw;
  fw_exec := nvm_exec;
  fw_latency := fun s => if f_owned s then (2, Some 3) else (1, None);
  fw_desc_ok := fun s d b => proj1 (nvm_exec_ok s d b);
  fw_buf_ok := fun s d b => proj2 (nvm_exec_ok s d b);
  fw_latency_ok := _;
}.
Proof. intros s. by destruct (f_owned s). Defined.

Lemma nvm_exec_read s l hb s' ad ab :
  nvm_exec s l hb = (s', ad, ab) -> d_opcode (desc_of_raw l) = ixgbe_aci_opc_nvm_read ->
  let p := d_params (desc_of_raw l) in
  let area := map u8 (if has (get8 p 3) IXGBE_ACI_NVM_FLASH_ONLY then f_flash s else f_sr s) in
  let off := cmd_offset p in
  let n := get16 p 6 in
  s' = s /\ d_opcode (desc_of_raw ad) = ixgbe_aci_opc_nvm_read /\
  (1 <= n -> off mod 4096 + n <= 4096 -> off + n <= Z.of_nat (length area) ->
     d_retval (desc_of_raw ad) = IXGBE_ACI_RC_OK /\ has (d_flags (desc_of_raw ad)) IXGBE_ACI_FLAG_BUF = true /\
     take (Z.to_nat n) (bytes_of ab) = take (Z.to_nat n) (drop (Z.to_nat off) area)) /\
  (Z.of_nat (length area) < off + n -> d_retval (desc_of_raw ad) = IXGBE_ACI_RC_EINVAL).
Proof.
  intros Ex Hop. cbv zeta. unfold nvm_exec in Ex. rewrite Hop in Ex. cbv zeta in Ex.
  change (ixgbe_aci_opc_nvm_read =? ixgbe_aci_opc_req_res) with false in Ex.
  change (ixgbe_aci_opc_nvm_read =? ixgbe_aci_opc_release_res) with false in Ex.
  rewrite Z.eqb_refl in Ex. cbn [andb] in Ex.
  set (p := d_params (desc_of_raw l)) in *. set (area := map u8 _) in *.
  assert (Hp : Forall byte p) by apply bytes_of_bytes.
  assert (Ho : 0 <= cmd_offset p).
  { unfold cmd_offset, get16. rewrite !Z.lor_nonneg, !Z.shiftl_nonneg.
    pose proof (get8_nonneg p 0 Hp). pose proof (get8_nonneg p (0 + 1) Hp).
    pose proof (get8_nonneg p 2 Hp). done. }
  destruct (Z.ltb_spec (Z.of_nat (length area)) (cmd_offset p + get16 p 6)) as [Hb|Hb].
  - injection Ex as <- <- <-. destruct (fw_reply_ok ixgbe_aci_opc_nvm_read 0 IXGBE_ACI_RC_EINVAL) as (_ & _ & ->); [done..|].
    split; [done|]. split; [done|]. split; [lia|done].
  - injection Ex as <- <- <-.
    destruct (fw_reply_ok ixgbe_aci_opc_nvm_read IXGBE_ACI_FLAG_BUF IXGBE_ACI_RC_OK) as (_ & _ & ->); [done..|].
    split; [done|]. split; [done|]. split; [|lia]. intros H1 H2 H3. split; [done|]. split; [by vm_compute|].
    assert (Hm : 0 <= cmd_offset p mod 4096) by (apply Z.mod_pos_bound; lia).
    destruct (fw_page_ok (slice area (cmd_offset p) (get16 p 6))) as (_ & _ & ->).
    { apply slice_bytes, map_u8_bytes. }
    assert (Hln := length_slice area (cmd_offset p) (get16 p 6) Ho ltac:(lia) H3).
    rewrite take_take, Nat.min_l by lia. rewrite take_app_le by lia. unfold slice. by rewrite take_take, Nat.min_id.
Qed.

#[export, refine] Instance nvm_firmware_serves : NvmFirmware nvm_firmware := {
  nvm_flash := fun s : @fw nvm_firmware => map u8 (f_flash s);
  nvm_sr := fun s : @fw nvm_firmware => map u8 (f_sr s);
  nvm_owned := fun s : @fw nvm_firmware => f_owned s;
  nvm_bytes := _; fw_req_res := _; fw_release_res := _; fw_nvm_read := _;
}.
Proof.
  - intros s. split; apply map_u8_bytes.
  - intros s l hb s' ad ab Ex Hop Hres Ho. simpl in Ex. unfold nvm_exec in Ex. cbv zeta in Ex.
    rewrite Hop, Hres, !Z.eqb_refl in Ex. cbn [andb] in Ex. injection Ex as <- <- <-. rewrite Ho.
    destruct (fw_reply_ok ixgbe_aci_opc_req_res 0 IXGBE_ACI_RC_OK) as (_ & _ & ->); done.
  - intros s l hb s' ad ab Ex Hop Hres Ho. simpl in Ex. unfold nvm_exec in Ex. cbv zeta in Ex.
    rewrite Hop, Hres, !Z.eqb_refl in Ex. cbn [andb] in Ex.
    change (ixgbe_aci_opc_release_res =? ixgbe_aci_opc_req_res) with false in Ex. cbn [andb] in Ex.
    injection Ex as <- <- <-.
    destruct (fw_reply_ok ixgbe_aci_opc_release_res 0 IXGBE_ACI_RC_OK) as (_ & _ & ->); done.
  - intros s l hb s' ad ab Ex Hop p Hm Ho area off n. simpl in Ex, Ho.
    destruct (nvm_exec_read _ _ _ _ _ _ Ex Hop) as (-> & E1 & E2 & E3).
    assert (area = map u8 (if has (get8 p 3) IXGBE_ACI_NVM_FLASH_ONLY then f_flash s else f_sr s)) as ->
      by (unfold area; simpl; by destruct (has _ _)).
    done.
Defined.

(** ** Witnesses *)
Definition unit0 (s : nvm_fw) : aci_unit :=
  mk_unit s (replicate 8 0) (replicate 8 0) (replicate 1024 0) PF_HICR_EN None.
Definition hw_e610 : ixgbe_hw := upd_eeprom (mk_eeprom ixgbe_flash 0 2048 0 0 0) hw0.
Definition w_e610 (s : nvm_fw) : world (H := unit_mmio) := mk_world unit_mmio hw_e610 (unit0 s) [].
Definition mem_ok (k : Z) (w : world (H := unit_mmio)) : bool := true.

Lemma w_e610_ready s : aci_ready (D := unit_mmio) (AciDevice0 := unit_device) (w_e610 s) s.
Proof.
  split; [|done]. exists (unit0 s). split; [|by split].
  assert (Hz : forall n, Forall (in_range 32) (replicate n 0)) by (intros; by apply Forall_replicate).
  split; [by split|done|]. by split; [split; [done|apply Hz]..|].
Qed.

Lemma w_e610_at s : nvm_at (D := unit_mmio) (AciDevice0 := unit_device) (w_e610 s)
  (map u8 (f_flash s)) (map u8 (f_sr s)) (f_owned s).
Proof. exists s. split; [apply w_e610_ready|done]. Qed.

(** a Shadow RAM of one sector in which the words of [l] follow each other from
    word 0x40 on *)
Definition ex_sr (l : list Z) : list Z :=
  take 4096 (replicate 128 0 ++ (l ≫= (fun x => [u8 x; u8 (Z.shiftr x 8)])) ++ replicate 4096 0).

Lemma ex_sr_geometry l : sr_geometry hw_e610 (map u8 (ex_sr l)).
Proof.
  split; [done|]. split; [done|]. rewrite length_map. unfold ex_sr.
  rewrite length_take, !length_app, !length_replicate. change (word_size (eeprom hw_e610)) with 2048. lia.
Qed.

(** the request for the firmware version, on any device *)
Lemma aci_command_protocol_witness :
  desc_wf (ixgbe_fill_dflt_direct_cmd_desc ixgbe_aci_opc_get_ver) /\ buf_holds None 0 /\
  traces (D := unit_mmio (F := nvm_firmware)) lock_st false
    (ixgbe_aci_send_cmd mem_ok (ixgbe_fill_dflt_direct_cmd_desc ixgbe_aci_opc_get_ver) None 0) (fun r l =>
      Forall aci_access l /\
      send_post 1 (ixgbe_fill_dflt_direct_cmd_desc ixgbe_aci_opc_get_ver, []) None r (wrs l) (waits l)).
Proof.
  split; [reflexivity|]. split; [split; [lia|exact I]|].
  exact (aci_command_protocol (D := unit_mmio) mem_ok
    (ixgbe_fill_dflt_direct_cmd_desc ixgbe_aci_opc_get_ver) None 0 eq_refl (conj (Z.le_refl 0) I)).
Defined.

Lemma aci_command_is_a_call_witness :
  let s := mk_nvm_fw [1; 2; 3] [4; 5] true in
  let d := upd_d_params (nvm_params 1 IXGBE_ACI_NVM_FLASH_ONLY 0 2)
             (ixgbe_fill_dflt_direct_cmd_desc ixgbe_aci_opc_nvm_read) in
  aci_ready (D := unit_mmio) (AciDevice0 := unit_device) (w_e610 s) s /\
  wp (ixgbe_aci_send_cmd mem_ok d (Some [0; 0]) 2) (fun r _ => exists rd, r = (IXGBE_SUCCESS, rd, Some [2; 3]))
    (w_e610 s).
Proof.
  intros s d. split; [apply w_e610_ready|].
  assert (Hd : desc_ok d).
  { apply dflt_desc_ok; [done|done|]. apply nvm_params_fields; done. }
  assert (Hv : valid_buf d (Some [0; 0]) 2).
  { split; [lia|]. split; [done|]. by repeat (apply List.Forall_cons; [done|]). }
  eapply wp_mono; [exact (aci_command_is_a_call (AciDevice0 := unit_device) mem_ok (fun _ _ => eq_refl)
    d (Some [0; 0]) 2 (w_e610 s) s (w_e610_ready s) Hd Hv eq_refl)|].
  intros r w' (hb & s' & ad & ab & Hs & Ex & _ & Er & _). cbv zeta in Ex.
  vm_compute in Ex. injection Ex as <- <- <-. injection Er as -> _. eexists. reflexivity.
Defined.

Lemma read_flat_nvm_exact_witness :
  let s := mk_nvm_fw (replicate 4094 9 ++ [1; 2; 3; 4; 5]) [] true in
  wp (ixgbe_read_flat_nvm mem_ok 4094 4 [0; 0; 0; 0; 8] false)
    (fun r _ => r = (IXGBE_SUCCESS, [1; 2; 3; 4; 8], 4)) (w_e610 s).
Proof.
  intros s.
  eapply wp_mono; [exact (read_flat_nvm_exact (AciDevice0 := unit_device) mem_ok (fun _ _ => eq_refl) 4094 4 [0; 0; 0; 0; 8] false
    (w_e610 s) (map u8 (f_flash s)) [] (w_e610_at s) ltac:(lia) ltac:(simpl; lia)
    ltac:(repeat (apply List.Forall_cons; [done|]); constructor) ltac:(vm_compute; congruence)
    ltac:(vm_compute; congruence) ltac:(discriminate))|].
  intros r w' [-> _]. vm_compute. reflexivity.
Defined.

Lemma flash_size_discovered_witness :
  let s := mk_nvm_fw (replicate 5000 7) [] false in
  wp (ixgbe_discover_flash_size mem_ok)
    (fun r w' => r = IXGBE_SUCCESS /\ flash_size (flash (w_hw w')) = 5000) (w_e610 s).
Proof.
  intros s.
  eapply wp_mono; [exact (flash_size_discovered (AciDevice0 := unit_device) mem_ok (fun _ _ => eq_refl) eq_refl (w_e610 s)
    (map u8 (f_flash s)) [] (w_e610_at s) ltac:(split; vm_compute; congruence))|].
  intros r w' (-> & -> & _). split; [reflexivity|]. vm_compute. reflexivity.
Defined.

Lemma calc_checksum_E610_spec_witness :
  let s := mk_nvm_fw [] (ex_sr [1; 2; 3]) false in
  wp (ixgbe_calc_eeprom_checksum_E610 mem_ok)
    (fun r _ => r = sr_checksum (map u8 (ex_sr [1; 2; 3])) 2048) (w_e610 s).
Proof.
  intros s.
  eapply wp_mono; [exact (calc_checksum_E610_spec (AciDevice0 := unit_device) mem_ok (fun _ _ => eq_refl) eq_refl (w_e610 s)
    [] (map u8 (ex_sr [1; 2; 3])) (w_e610_at s) (ex_sr_geometry _) eq_refl ltac:(reflexivity))|].
  intros r w' [-> _]. reflexivity.
Defined.

(** a preserved field area at word 0x41 with two records *)
Lemma pfa_search_spec_witness :
  let s := mk_nvm_fw [] (ex_sr [0x41; 8; 7; 1; 0xAAAA; E610_SR_PBA_BLOCK_PTR; 2; 5; 6]) false in
  wp (ixgbe_get_pfa_module_tlv mem_ok 2 E610_SR_PBA_BLOCK_PTR)
    (fun r _ => r = (IXGBE_SUCCESS, Some (0x45, 2))) (w_e610 s).
Proof.
  intros s.
  eapply wp_mono; [exact (pfa_search_spec (AciDevice0 := unit_device) mem_ok (fun _ _ => eq_refl) eq_refl 2 E610_SR_PBA_BLOCK_PTR
    [(7, 1); (E610_SR_PBA_BLOCK_PTR, 2)] (w_e610 s) [] (map u8 (f_sr s)) (w_e610_at s) (ex_sr_geometry _)
    eq_refl ltac:(vm_compute; congruence) ltac:(vm_compute; repeat split; congruence) ltac:(simpl; lia))|].
  intros r w' [-> _]. vm_compute. reflexivity.
Defined.

Lemma pfa_search_endless_witness :
  let s := mk_nvm_fw [] (ex_sr [0x41; 8; 7; 0xFFFE]) false in
  ixgbe_get_pfa_module_tlv mem_ok 1000 E610_SR_PBA_BLOCK_PTR (w_e610 s) = Fault FOutOfFuel.
Proof.
  intros s.
  exact (pfa_search_endless (AciDevice0 := unit_device) mem_ok (fun _ _ => eq_refl) eq_refl 1000 E610_SR_PBA_BLOCK_PTR
    (w_e610 s) [] (map u8 (f_sr s)) (w_e610_at s) (ex_sr_geometry _) eq_refl
    ltac:(vm_compute; congruence) ltac:(vm_compute; congruence) ltac:(vm_compute; congruence)
    ltac:(vm_compute; congruence) ltac:(vm_compute; reflexivity)).
Defined.
