(* ===== verification/Status.v ===== *)
(** * Error codes as control flow

    [err = m; if (err) return err; k]: the idiom by which C code chains calls
    that return 0 or an error code. *)
From S2P Require Import Prelude.

Declare Scope status_scope.
Definition ok_then {S} (m : comp S Z) (k : comp S Z) : comp S Z :=
  err ← m; if negb (err =? 0) then mret err else k.
Notation "m ?; k" := (ok_then m k) (at level 100, k at level 200, right associativity,
  format "m  ?; '//' k") : status_scope.
#[global] Open Scope status_scope.

Lemma wp_ok_then {S} (m k : comp S Z) Q s :
  wp m (fun e s' => if e =? 0 then wp k Q s' else Q e s') s -> wp (m ?; k) Q s.
Proof.
  intros H. unfold ok_then. apply wp_bind. eapply wp_mono; [exact H|]. cbv beta.
  intros e s' He. by destruct (e =? 0).
Qed.
