(* ===== verification/Pldm.v ===== *)
(** * The PLDM firmware image parser and update engine (kcompat_pldmfw.c)

    A firmware file is a list [fw] of bytes that came from outside: nothing is
    known of it.  A pointer into it is its offset, and every read through such a
    pointer is checked: outside the file it is a fault.  [size_t] has 64 bits.

    [kzalloc] may fail at any time: [kz n] says whether the allocation number
    [n] succeeds.  [live] counts the objects that are allocated.  The device
    driver below the engine has a state [W] of its own and is known by the record
    [pldmfw_ops].  [crc32_le] is the kernel's. *)
From S2P Require Import Prelude Status Bytes.

Definition ENOENT : Z := 2.
Definition ENOMEM : Z := 12.
Definition EFAULT : Z := 14.
Definition EINVAL : Z := 22.
Definition EBADMSG : Z := 74.
Definition EOPNOTSUPP : Z := 95.

Definition PLDM_DESC_ID_PCI_VENDOR_ID : Z := 0x0000.
Definition PLDM_DESC_ID_IANA_ENTERPRISE_ID : Z := 0x0001.
Definition PLDM_DESC_ID_UUID : Z := 0x0002.
Definition PLDM_DESC_ID_PNP_VENDOR_ID : Z := 0x0003.
Definition PLDM_DESC_ID_ACPI_VENDOR_ID : Z := 0x0004.
Definition PLDM_DESC_ID_PCI_DEVICE_ID : Z := 0x0100.
Definition PLDM_DESC_ID_PCI_SUBVENDOR_ID : Z := 0x0101.
Definition PLDM_DESC_ID_PCI_SUBDEV_ID : Z := 0x0102.
Definition PLDM_DESC_ID_PCI_REVISION_ID : Z := 0x0103.
Definition PLDM_DESC_ID_PNP_PRODUCT_ID : Z := 0x0104.
Definition PLDM_DESC_ID_ACPI_PRODUCT_ID : Z := 0x0105.
Definition PLDM_DESC_ID_VENDOR_DEFINED : Z := 0xFFFF.

Definition PLDM_TRANSFER_FLAG_START : Z := bit 0.
Definition PLDM_TRANSFER_FLAG_MIDDLE : Z := bit 1.
Definition PLDM_TRANSFER_FLAG_END : Z := bit 2.

Definition PCI_ANY_ID : Z := -1.
Definition PACKAGE_HEADER_FORMAT_REVISION : Z := 0x01.

(** UUID f018878c-cb7d-4943-9800-a02f059aca02 *)
Definition pldm_firmware_header_id : list Z :=
  [0xf0; 0x18; 0x87; 0x8c; 0xcb; 0x7d; 0x49; 0x43; 0x98; 0x00; 0xa0; 0x2f; 0x05; 0x9a; 0xca; 0x02].

(** the sizes of the packed structs, and the offsets of their members *)
Module Header.
Definition revision : Z := 16.
Definition size : Z := 17.
Definition component_bitmap_len : Z := 32.
Definition version_len : Z := 35.
Definition sizeof : Z := 36.
End Header.
Module RecordInfo.
Definition record_len : Z := 0.
Definition descriptor_count : Z := 2.
Definition version_type : Z := 7.
Definition version_len : Z := 8.
Definition package_data_len : Z := 9.
Definition sizeof : Z := 11.
End RecordInfo.
Module DescTlv.
Definition type : Z := 0.
Definition size : Z := 2.
Definition data : Z := 4.
Definition sizeof : Z := 4.
End DescTlv.
Module ComponentInfo.
Definition classification : Z := 0.
Definition identifier : Z := 2.
Definition comparison_stamp : Z := 4.
Definition options : Z := 8.
Definition activation_method : Z := 10.
Definition location_offset : Z := 12.
Definition size : Z := 16.
Definition version_type : Z := 20.
Definition version_len : Z := 21.
Definition version_string : Z := 22.
Definition sizeof : Z := 22.
End ComponentInfo.

Record pldmfw_desc_tlv := mk_desc_tlv { t_data : Z; t_type : Z; t_size : Z }.

(** [component_bitmap] has one byte of bits per list element; [None] is NULL *)
Record pldmfw_record := mk_record {
  descs : list pldmfw_desc_tlv; r_version_string : Z; r_version_type : Z; r_version_len : Z;
  package_data_len : Z; device_update_flags : Z; package_data : Z;
  component_bitmap : option (list Z); r_component_bitmap_len : Z }.

Record pldmfw_component := mk_component {
  classification : Z; identifier : Z; options : Z; activation_method : Z; comparison_stamp : Z;
  component_size : Z; component_data : Z; c_version_string : Z; c_version_type : Z;
  c_version_len : Z; c_index : Z }.

(** what [kzalloc] gives *)
Definition record0 : pldmfw_record := mk_record [] 0 0 0 0 0 0 None 0.
Definition upd_descs f r := mk_record (f (descs r)) (r_version_string r) (r_version_type r)
  (r_version_len r) (package_data_len r) (device_update_flags r) (package_data r)
  (component_bitmap r) (r_component_bitmap_len r).
Definition upd_info pdl vl vt r := mk_record (descs r) (r_version_string r) vt vl pdl
  (device_update_flags r) (package_data r) (component_bitmap r) (r_component_bitmap_len r).
Definition upd_bitmap_len x r := mk_record (descs r) (r_version_string r) (r_version_type r)
  (r_version_len r) (package_data_len r) (device_update_flags r) (package_data r)
  (component_bitmap r) x.
Definition upd_bitmap x r := mk_record (descs r) (r_version_string r) (r_version_type r)
  (r_version_len r) (package_data_len r) (device_update_flags r) (package_data r)
  x (r_component_bitmap_len r).
Definition upd_r_version_string x r := mk_record (descs r) x (r_version_type r)
  (r_version_len r) (package_data_len r) (device_update_flags r) (package_data r)
  (component_bitmap r) (r_component_bitmap_len r).
Definition upd_package_data x r := mk_record (descs r) (r_version_string r) (r_version_type r)
  (r_version_len r) (package_data_len r) (device_update_flags r) x
  (component_bitmap r) (r_component_bitmap_len r).

(** [struct pldmfw_priv] without [fw] and [context], which do not change *)
Record pldmfw_priv := mk_priv {
  p_offset : Z; records : list pldmfw_record; components : list pldmfw_component;
  total_header_size : Z; p_component_bitmap_len : Z; bitmap_size : Z;
  component_count : Z; component_start : Z; record_start : Z; record_count : Z;
  header_crc : Z; matching_record : option pldmfw_record }.
Definition priv0 : pldmfw_priv := mk_priv 0 [] [] 0 0 0 0 0 0 0 0 None.
Definition set_p_offset x p := mk_priv x (records p) (components p) (total_header_size p)
  (p_component_bitmap_len p) (bitmap_size p) (component_count p) (component_start p)
  (record_start p) (record_count p) (header_crc p) (matching_record p).
Definition set_records x p := mk_priv (p_offset p) x (components p) (total_header_size p)
  (p_component_bitmap_len p) (bitmap_size p) (component_count p) (component_start p)
  (record_start p) (record_count p) (header_crc p) (matching_record p).
Definition set_components x p := mk_priv (p_offset p) (records p) x (total_header_size p)
  (p_component_bitmap_len p) (bitmap_size p) (component_count p) (component_start p)
  (record_start p) (record_count p) (header_crc p) (matching_record p).
Definition set_total_header_size x p := mk_priv (p_offset p) (records p) (components p) x
  (p_component_bitmap_len p) (bitmap_size p) (component_count p) (component_start p)
  (record_start p) (record_count p) (header_crc p) (matching_record p).
Definition set_p_component_bitmap_len x p := mk_priv (p_offset p) (records p) (components p)
  (total_header_size p) x (bitmap_size p) (component_count p) (component_start p)
  (record_start p) (record_count p) (header_crc p) (matching_record p).
Definition set_bitmap_size x p := mk_priv (p_offset p) (records p) (components p)
  (total_header_size p) (p_component_bitmap_len p) x (component_count p) (component_start p)
  (record_start p) (record_count p) (header_crc p) (matching_record p).
Definition set_component_area n start p := mk_priv (p_offset p) (records p) (components p)
  (total_header_size p) (p_component_bitmap_len p) (bitmap_size p) n start
  (record_start p) (record_count p) (header_crc p) (matching_record p).
Definition set_record_area n start p := mk_priv (p_offset p) (records p) (components p)
  (total_header_size p) (p_component_bitmap_len p) (bitmap_size p) (component_count p)
  (component_start p) start n (header_crc p) (matching_record p).
Definition set_header_crc x p := mk_priv (p_offset p) (records p) (components p)
  (total_header_size p) (p_component_bitmap_len p) (bitmap_size p) (component_count p)
  (component_start p) (record_start p) (record_count p) x (matching_record p).
Definition set_matching_record x p := mk_priv (p_offset p) (records p) (components p)
  (total_header_size p) (p_component_bitmap_len p) (bitmap_size p) (component_count p)
  (component_start p) (record_start p) (record_count p) (header_crc p) x.

(** the identifiers of the PCI device *)
Record pci_dev := mk_pci_dev {
  vendor : Z; device : Z; subsystem_vendor : Z; subsystem_device : Z }.

(** state of a run: [pldmfw_priv], allocations, the driver *)
Record engine (W : Type) := mk_engine { e_priv : pldmfw_priv; live : Z; allocs : nat; e_dev : W }.
Arguments mk_engine {W}. Arguments e_priv {W}. Arguments live {W}.
Arguments allocs {W}. Arguments e_dev {W}.

Definition Eng (W A : Type) := comp (engine W) A.

(** the operations of the driver; [finalize_update] is optional *)
Record pldmfw_ops (W : Type) := mk_ops {
  match_record : pldmfw_record -> comp W bool;
  send_package_data : Z -> Z -> comp W Z;
  send_component_table : pldmfw_component -> Z -> comp W Z;
  flash_component : pldmfw_component -> comp W Z;
  finalize_update : option (comp W Z) }.
Arguments mk_ops {W}. Arguments match_record {W}. Arguments send_package_data {W}.
Arguments send_component_table {W}. Arguments flash_component {W}. Arguments finalize_update {W}.

(** ** Bitmaps *)
Definition BITS_TO_LONGS (n : Z) : Z := (n + 63) / 64.
Definition bitmap_bytes (nbits : Z) : list Z := replicate (Z.to_nat (8 * BITS_TO_LONGS nbits)) 0.
Definition test_bit {S} (i : Z) (bitmap : list Z) : comp S bool :=
  b ← nth_c bitmap (i / 8); mret (Z.testbit b (i mod 8)).
(** the bit, for an index inside *)
Definition bitmap_has (bitmap : list Z) (i : Z) : bool :=
  Z.testbit (nth (Z.to_nat (i / 8)) bitmap 0) (i mod 8).
Definition find_first_bit (bitmap : list Z) (size : Z) : Z :=
  default size (List.find (bitmap_has bitmap) (seqZ 0 size)).
Definition find_last_bit (bitmap : list Z) (size : Z) : Z :=
  default size (List.find (bitmap_has bitmap) (rev (seqZ 0 size))).

Section Engine.
Context {W : Type} (kz : nat -> bool) (crc32_le : Z -> list Z -> Z) (fw : list Z) (ops : pldmfw_ops W).
Local Abbreviation EM := (Eng W).

Definition get_priv : EM pldmfw_priv := gets e_priv.
Definition upd_priv (f : pldmfw_priv -> pldmfw_priv) : EM unit :=
  modify (fun s => mk_engine (f (e_priv s)) (live s) (allocs s) (e_dev s)).

(** [kzalloc(...)]: whether it succeeds *)
Definition kzalloc : EM bool := fun s =>
  let ok := kz (allocs s) in
  Done ok (mk_engine (e_priv s) (if ok then live s + 1 else live s) (S (allocs s)) (e_dev s)).
Definition kfree : EM unit :=
  modify (fun s => mk_engine (e_priv s) (live s - 1) (allocs s) (e_dev s)).

(** a call of the driver *)
Definition call {A} (m : comp W A) : EM A := fun s =>
  match m (e_dev s) with
  | Done a d => Done a (mk_engine (e_priv s) (live s) (allocs s) d)
  | Fault e => Fault e
  end.

(** the record that was added last *)
Definition upd_last_record (f : pldmfw_record -> pldmfw_record) : EM unit :=
  upd_priv (fun p => set_records (alter f (length (records p) - 1)%nat (records p)) p).

(** ** Reading the file *)
Definition fw_size : Z := Z.of_nat (length fw).
Definition rd8 (p : Z) : EM Z := nth_c fw p.
Definition get_unaligned_le16 (p : Z) : EM Z :=
  a ← rd8 p; b ← rd8 (p + 1); mret (Z.lor a (Z.shiftl b 8)).
Definition get_unaligned_le32 (p : Z) : EM Z :=
  a ← rd8 p; b ← rd8 (p + 1); c ← rd8 (p + 2); d ← rd8 (p + 3); mret (le32_of a b c d).

Definition pldm_check_fw_space (offset length : Z) : EM Z :=
  let expected_size := u64 (offset + length) in
  mret (if fw_size <? expected_size then - EFAULT else 0).

Definition pldm_move_fw_offset (bytes_to_move : Z) : EM Z :=
  p ← get_priv;
  pldm_check_fw_space (p_offset p) bytes_to_move ?;
  (upd_priv (fun p => set_p_offset (u64 (p_offset p + bytes_to_move)) p) ;; mret 0).

(** ** The header *)
Definition pldm_parse_header : EM Z :=
  pldm_move_fw_offset Header.sizeof ?;
  (id ← for_collect 16 0 rd8;
   if negb (bool_decide (id = pldm_firmware_header_id)) then mret (- EINVAL)
   else
     rev ← rd8 Header.revision;
     if negb (rev =? PACKAGE_HEADER_FORMAT_REVISION) then mret (- EOPNOTSUPP)
     else
       size ← get_unaligned_le16 Header.size;
       upd_priv (set_total_header_size size) ;;
       let header_size := u64 (size - Header.sizeof) in
       p ← get_priv;
       pldm_check_fw_space (p_offset p) header_size ?;
       (bl ← get_unaligned_le16 Header.component_bitmap_len;
        upd_priv (set_p_component_bitmap_len bl) ;;
        if negb (bl mod 8 =? 0) then mret (- EINVAL)
        else
          upd_priv (set_bitmap_size (bl / 8)) ;;
          vl ← rd8 Header.version_len;
          pldm_move_fw_offset vl ?;
          (p ← get_priv;
           let record_area := p_offset p in
           pldm_move_fw_offset 1 ?;
           (n ← rd8 record_area;
            upd_priv (set_record_area n (record_area + 1)) ;;
            mret 0)))).

(** ** Descriptors *)
Definition expected_desc_size (type : Z) : option Z :=
  if (type =? PLDM_DESC_ID_PCI_VENDOR_ID) || (type =? PLDM_DESC_ID_PCI_DEVICE_ID) ||
     (type =? PLDM_DESC_ID_PCI_SUBVENDOR_ID) || (type =? PLDM_DESC_ID_PCI_SUBDEV_ID) then Some 2
  else if type =? PLDM_DESC_ID_PCI_REVISION_ID then Some 1
  else if type =? PLDM_DESC_ID_PNP_VENDOR_ID then Some 3
  else if (type =? PLDM_DESC_ID_IANA_ENTERPRISE_ID) || (type =? PLDM_DESC_ID_ACPI_VENDOR_ID) ||
          (type =? PLDM_DESC_ID_PNP_PRODUCT_ID) || (type =? PLDM_DESC_ID_ACPI_PRODUCT_ID) then Some 4
  else if type =? PLDM_DESC_ID_UUID then Some 16
  else None.

Definition pldm_check_desc_tlv_len (type size : Z) : Z :=
  match expected_desc_size type with
  | Some n => if negb (size =? n) then - EINVAL else 0
  | None => 0
  end.

Definition pldm_next_desc_tlv (desc : Z) : EM Z :=
  size ← get_unaligned_le16 (desc + DescTlv.size); mret (desc + DescTlv.data + size).

(** [n] descriptors from the pointer [desc] on *)
Fixpoint pldm_parse_desc_tlvs_from (n : nat) (desc : Z) : EM Z :=
  match n with
  | O => mret 0
  | S n' =>
      pldm_move_fw_offset DescTlv.sizeof ?;
      (type ← get_unaligned_le16 (desc + DescTlv.type);
       size ← get_unaligned_le16 (desc + DescTlv.size);
       mret (pldm_check_desc_tlv_len type size) ?;
       (pldm_move_fw_offset size ?;
        (ok ← kzalloc;
         if negb ok then mret (- ENOMEM)
         else
           upd_last_record (upd_descs (fun l =>
             l ++ [mk_desc_tlv (desc + DescTlv.data) type size])) ;;
           desc ← pldm_next_desc_tlv desc;
           pldm_parse_desc_tlvs_from n' desc)))
  end.

Definition pldm_parse_desc_tlvs (desc_count : Z) : EM Z :=
  p ← get_priv; pldm_parse_desc_tlvs_from (Z.to_nat desc_count) (p_offset p).

(** ** Records *)
Definition pldm_parse_one_record (record : Z) : EM Z :=
  ok ← kzalloc;
  if negb ok then mret (- ENOMEM)
  else
    upd_priv (fun p => set_records (records p ++ [record0]) p) ;;
    pldm_move_fw_offset RecordInfo.sizeof ?;
    (record_len ← get_unaligned_le16 (record + RecordInfo.record_len);
     pdl ← get_unaligned_le16 (record + RecordInfo.package_data_len);
     vl ← rd8 (record + RecordInfo.version_len);
     vt ← rd8 (record + RecordInfo.version_type);
     upd_last_record (upd_info pdl vl vt) ;;
     p ← get_priv;
     let bitmap_ptr := p_offset p in
     pldm_move_fw_offset (bitmap_size p) ?;
     (upd_last_record (upd_bitmap_len (p_component_bitmap_len p)) ;;
      ok ← kzalloc;
      if negb ok then mret (- ENOMEM)
      else
        upd_last_record (upd_bitmap (Some (bitmap_bytes (p_component_bitmap_len p)))) ;;
        bm ← for_acc (Z.to_nat (bitmap_size p)) 0 (bitmap_bytes (p_component_bitmap_len p)) (fun i bm =>
          x ← rd8 (bitmap_ptr + i); upd_c bm i x);
        upd_last_record (upd_bitmap (Some bm)) ;;
        p ← get_priv;
        upd_last_record (upd_r_version_string (p_offset p)) ;;
        pldm_move_fw_offset vl ?;
        (dc ← rd8 (record + RecordInfo.descriptor_count);
         pldm_parse_desc_tlvs dc ?;
         (p ← get_priv;
          upd_last_record (upd_package_data (p_offset p)) ;;
          pldm_move_fw_offset pdl ?;
          (p ← get_priv;
           let measured_length := u64 (p_offset p - record) in
           mret (if negb (measured_length =? record_len) then - EFAULT else 0)))))).

(** [n] records from the pointer [record] on *)
Fixpoint pldm_parse_records_from (n : nat) (record : Z) : EM Z :=
  match n with
  | O => mret 0
  | S n' =>
      pldm_parse_one_record record ?;
      (record_len ← get_unaligned_le16 (record + RecordInfo.record_len);
       pldm_parse_records_from n' (record + record_len))
  end.

Definition pldm_parse_records : EM Z :=
  p ← get_priv;
  pldm_parse_records_from (Z.to_nat (record_count p)) (record_start p) ?;
  (p ← get_priv;
   let component_area := p_offset p in
   pldm_move_fw_offset 2 ?;
   (n ← get_unaligned_le16 component_area;
    upd_priv (set_component_area n (component_area + 2)) ;;
    mret 0)).

(** ** Components *)
Definition pldm_next_component (component : Z) : EM Z :=
  vl ← rd8 (component + ComponentInfo.version_len);
  mret (component + ComponentInfo.version_string + vl).

Definition parse_component (i component : Z) : EM Z :=
  pldm_move_fw_offset ComponentInfo.sizeof ?;
  (vl ← rd8 (component + ComponentInfo.version_len);
   pldm_move_fw_offset vl ?;
   (offset ← get_unaligned_le32 (component + ComponentInfo.location_offset);
    size ← get_unaligned_le32 (component + ComponentInfo.size);
    pldm_check_fw_space offset size ?;
    (ok ← kzalloc;
     if negb ok then mret (- ENOMEM)
     else
       cl ← get_unaligned_le16 (component + ComponentInfo.classification);
       id ← get_unaligned_le16 (component + ComponentInfo.identifier);
       cs ← get_unaligned_le32 (component + ComponentInfo.comparison_stamp);
       op ← get_unaligned_le16 (component + ComponentInfo.options);
       am ← get_unaligned_le16 (component + ComponentInfo.activation_method);
       vt ← rd8 (component + ComponentInfo.version_type);
       upd_priv (fun p => set_components (components p ++
         [mk_component cl id op am cs size offset (component + ComponentInfo.version_string) vt vl i]) p) ;;
       mret 0))).

(** the counter [i] is a [u8], [component_count] a [u16]; every round but the
    last moves the offset, so the file's length bounds the rounds *)
Fixpoint pldm_parse_components_from (fuel : nat) (i component : Z) : EM Z :=
  p ← get_priv;
  if negb (i <? component_count p) then mret 0
  else
    match fuel with
    | O => crash FOutOfFuel
    | S fuel' =>
        parse_component i component ?;
        (next ← pldm_next_component component;
         pldm_parse_components_from fuel' (u8 (i + 1)) next)
    end.

Definition pldm_parse_components : EM Z :=
  p ← get_priv;
  pldm_parse_components_from (S (length fw)) 0 (component_start p) ?;
  (p ← get_priv;
   let header_crc_ptr := p_offset p in
   pldm_move_fw_offset 4 ?;
   (p ← get_priv;
    if negb (p_offset p =? total_header_size p) then mret (- EFAULT)
    else
      crc ← get_unaligned_le32 header_crc_ptr;
      upd_priv (set_header_crc crc) ;;
      mret 0)).

Definition pldm_verify_header_crc : EM Z :=
  p ← get_priv;
  let length := u64 (p_offset p - 4) in
  bytes ← copy_from fw length;
  let calculated_crc := Z.lxor (crc32_le (bnot 32 0) bytes) (bnot 32 0) in
  mret (if negb (calculated_crc =? header_crc p) then - EBADMSG else 0).

(** [kfree] of a component, a record with its descriptors and its bitmap *)
Fixpoint kfree_n (n : nat) : EM unit :=
  match n with O => mret tt | S n' => kfree ;; kfree_n n' end.

Definition free_record (r : pldmfw_record) : EM unit :=
  kfree_n (length (descs r)) ;;
  (match component_bitmap r with Some _ => kfree | None => mret tt end) ;;
  kfree.

Fixpoint free_records (l : list pldmfw_record) : EM unit :=
  match l with [] => mret tt | r :: l' => free_record r ;; free_records l' end.

Definition pldmfw_free_priv : EM unit :=
  p ← get_priv;
  kfree_n (length (components p)) ;;
  upd_priv (set_components []) ;;
  free_records (records p) ;;
  upd_priv (set_records []).

Definition pldm_parse_image : EM Z :=
  if fw_size =? 0 then mret (- EINVAL)
  else
    pldm_parse_header ?;
    (pldm_parse_records ?;
     (pldm_parse_components ?; pldm_verify_header_crc)).

(** ** Matching and sending *)

(** the switch over [desc->type]: the member of [id] *)
Definition match_desc (d : pldmfw_desc_tlv) (id : pci_dev) : comp W pci_dev :=
  let value := (a ← nth_c fw (t_data d); b ← nth_c fw (t_data d + 1);
    let v := Z.lor a (Z.shiftl b 8) in
    mret (if negb (v =? 0) then v else PCI_ANY_ID)) : comp W Z in
  if t_type d =? PLDM_DESC_ID_PCI_VENDOR_ID then
    v ← value; mret (mk_pci_dev v (device id) (subsystem_vendor id) (subsystem_device id))
  else if t_type d =? PLDM_DESC_ID_PCI_DEVICE_ID then
    v ← value; mret (mk_pci_dev (vendor id) v (subsystem_vendor id) (subsystem_device id))
  else if t_type d =? PLDM_DESC_ID_PCI_SUBVENDOR_ID then
    v ← value; mret (mk_pci_dev (vendor id) (device id) v (subsystem_device id))
  else if t_type d =? PLDM_DESC_ID_PCI_SUBDEV_ID then
    v ← value; mret (mk_pci_dev (vendor id) (device id) (subsystem_vendor id) v)
  else mret id.

Fixpoint match_descs (l : list pldmfw_desc_tlv) (id : pci_dev) : comp W pci_dev :=
  match l with
  | [] => mret id
  | d :: l' => id ← match_desc d id; match_descs l' id
  end.

Definition id_matches (x y : Z) : bool := (x =? PCI_ANY_ID) || (x =? y).

Definition pldmfw_op_pci_match_record (pdev : pci_dev) (record : pldmfw_record) : comp W bool :=
  id ← match_descs (descs record) (mk_pci_dev PCI_ANY_ID PCI_ANY_ID PCI_ANY_ID PCI_ANY_ID);
  mret (id_matches (vendor id) (vendor pdev) && id_matches (device id) (device pdev) &&
        id_matches (subsystem_vendor id) (subsystem_vendor pdev) &&
        id_matches (subsystem_device id) (subsystem_device pdev)).

Fixpoint find_record (l : list pldmfw_record) : EM Z :=
  match l with
  | [] => mret (- ENOENT)
  | r :: l' =>
      m ← call (match_record ops r);
      if m : bool then upd_priv (set_matching_record (Some r)) ;; mret 0 else find_record l'
  end.

Definition pldm_find_matching_record : EM Z := p ← get_priv; find_record (records p).

(** [data->matching_record], [->component_bitmap]: NULL is a fault *)
Definition matching : EM pldmfw_record :=
  p ← get_priv;
  match matching_record p with Some r => mret r | None => crash FNullCall end.
Definition matching_bitmap : EM (list Z) :=
  r ← matching;
  match component_bitmap r with Some bm => mret bm | None => crash FNullCall end.

Definition pldm_send_package_data : EM Z :=
  r ← matching; call (send_package_data ops (package_data r) (package_data_len r)).

Definition transfer_flag_of (bitmap : list Z) (nbits index : Z) : Z :=
  let f := if index =? find_first_bit bitmap nbits then PLDM_TRANSFER_FLAG_START else 0 in
  let f := if index =? find_last_bit bitmap nbits then Z.lor f PLDM_TRANSFER_FLAG_END else f in
  if f =? 0 then PLDM_TRANSFER_FLAG_MIDDLE else f.

(** [op] on every component whose bit is set, until one fails *)
Fixpoint each_component (bitmap : list Z) (op : pldmfw_component -> comp W Z)
    (l : list pldmfw_component) : EM Z :=
  match l with
  | [] => mret 0
  | c :: l' =>
      b ← test_bit (c_index c) bitmap;
      if negb b then each_component bitmap op l'
      else call (op c) ?; each_component bitmap op l'
  end.

Definition pldm_send_component_tables : EM Z :=
  bitmap ← matching_bitmap;
  p ← get_priv;
  each_component bitmap (fun c =>
    send_component_table ops c (transfer_flag_of bitmap (p_component_bitmap_len p) (c_index c)))
    (components p).

Definition pldm_flash_components : EM Z :=
  bitmap ← matching_bitmap;
  p ← get_priv;
  each_component bitmap (flash_component ops) (components p).

Definition pldm_finalize_update : EM Z :=
  match finalize_update ops with Some f => call f | None => mret 0 end.

(** the whole update; on entry there is no [pldmfw_priv] *)
Definition pldmfw_flash_image : EM Z :=
  ok ← kzalloc;
  if negb ok then mret (- ENOMEM)
  else
    upd_priv (fun _ => priv0) ;;
    err ← (pldm_parse_image ?;
           (pldm_find_matching_record ?;
            (pldm_send_package_data ?;
             (pldm_send_component_tables ?;
              (pldm_flash_components ?;
               pldm_finalize_update)))));
    pldmfw_free_priv ;;
    kfree ;;
    mret err.
End Engine.
