(* ===== verification/PldmParse.v ===== *)
(** * What the PLDM parser accepts

    The layout of a package (DMTF DSP0267) as relations between offsets of the
    file and the records the parser builds, and the parser run against them: on
    any file and with any failures of [kzalloc] it ends inside the file, keeps
    account of its memory, and accepts exactly the files of that layout. *)
From S2P Require Import Prelude Status Bytes Pldm.

(** [l] laid out back to back from [o] to [o'] *)
Inductive chain {A} (P : Z -> A -> Z -> Prop) : Z -> list A -> Z -> Prop :=
| chain_nil o : chain P o [] o
| chain_cons o x o1 l o2 : P o x o1 -> chain P o1 l o2 -> chain P o (x :: l) o2.

Lemma chain_app {A} (P : Z -> A -> Z -> Prop) o l o1 l' o2 :
  chain P o l o1 -> chain P o1 l' o2 -> chain P o (l ++ l') o2.
Proof. induction 1; simpl; [done|]. intros. econstructor; eauto. Qed.

(** two ways to lay out as many elements are the same *)
Lemma chain_det {A} (P : Z -> A -> Z -> Prop) :
  (forall o x o1 y o2, P o x o1 -> P o y o2 -> x = y /\ o1 = o2) ->
  forall o l o1 l' o2, chain P o l o1 -> chain P o l' o2 -> length l = length l' -> l = l' /\ o1 = o2.
Proof.
  intros HP o l o1 l' o2 H. revert l' o2.
  induction H as [o|o x o1 l o2 Hx _ IH]; intros l' o3 H' Hl; inversion H'; subst; simpl in *; try lia; [done|].
  match goal with Hy : P o ?y ?o' |- _ => destruct (HP _ _ _ _ _ Hx Hy) as [-> ->] end.
  by edestruct IH as [-> ->]; [eassumption|lia|].
Qed.

Section Layout.
Context (fw : list Z).
Local Abbreviation N := (fw_size fw).

Definition byte_at (p : Z) : Z := get8 fw (Z.to_nat p).
Definition le16_at (p : Z) : Z := Z.lor (byte_at p) (Z.shiftl (byte_at (p + 1)) 8).
Definition le32_at (p : Z) : Z := le32_of (byte_at p) (byte_at (p + 1)) (byte_at (p + 2)) (byte_at (p + 3)).
(** the [n] bytes from [p] on *)
Definition bytes_at (p n : Z) : list Z := take (Z.to_nat n) (drop (Z.to_nat p) fw).

Definition desc_at (o : Z) (d : pldmfw_desc_tlv) (o' : Z) : Prop :=
  d = mk_desc_tlv (o + 4) (le16_at o) (le16_at (o + 2)) /\ o' = o + 4 + t_size d /\ o' <= N /\
  pldm_check_desc_tlv_len (t_type d) (t_size d) = 0.

(** the bitmap of [nbits] bits, in whole longs *)
Definition bitmap_at (p nbits : Z) : list Z :=
  bytes_at p (nbits / 8) ++ drop (Z.to_nat (nbits / 8)) (bitmap_bytes nbits).

(** a record from [o] to [o'], with the device update flags [fl o] *)
Definition record_lay (fl : Z -> Z) (nbits o : Z) (r : pldmfw_record) (o' : Z) : Prop :=
  let vl := byte_at (o + 8) in
  let vs := o + 11 + nbits / 8 in
  exists o2, chain desc_at (vs + vl) (descs r) o2 /\ Z.of_nat (length (descs r)) = byte_at (o + 2) /\
    vs + vl <= N /\ o' = o2 + le16_at (o + 9) /\ o' <= N /\ o' - o = le16_at o /\
    r = mk_record (descs r) vs (byte_at (o + 7)) vl (le16_at (o + 9)) (fl o) o2
          (Some (bitmap_at (o + 11) nbits)) nbits.
(** what the file says, and what the parser keeps of it: it never stores the flags *)
Definition record_at : Z -> Z -> pldmfw_record -> Z -> Prop := record_lay (fun o => le32_at (o + 3)).
Definition kept_at : Z -> Z -> pldmfw_record -> Z -> Prop := record_lay (fun _ => 0).

Definition component_at (i o : Z) (c : pldmfw_component) (o' : Z) : Prop :=
  let vl := byte_at (o + 21) in
  o' = o + 22 + vl /\ o' <= N /\ le32_at (o + 12) + le32_at (o + 16) <= N /\
  c = mk_component (le16_at o) (le16_at (o + 2)) (le16_at (o + 8)) (le16_at (o + 10)) (le32_at (o + 4))
        (le32_at (o + 16)) (le32_at (o + 12)) (o + 22) (byte_at (o + 20)) vl i.

(** components are numbered *)
Inductive components_at : Z -> Z -> list pldmfw_component -> Z -> Prop :=
| comps_nil i o : components_at i o [] o
| comps_cons i o c o1 l o2 :
    component_at i o c o1 -> components_at (i + 1) o1 l o2 -> components_at i o (c :: l) o2.

(** a whole package header whose records [rec] describes *)
Record package_lay (rec : Z -> Z -> pldmfw_record -> Z -> Prop) (crc32_le : Z -> list Z -> Z) (rs : list pldmfw_record) (cs : list pldmfw_component)
    (nbits : Z) : Prop := {
  pk_size : 36 <= N;
  pk_id : bytes_at 0 16 = pldm_firmware_header_id;
  pk_revision : byte_at 16 = PACKAGE_HEADER_FORMAT_REVISION;
  pk_total : le16_at 17 <= N;
  pk_nbits : le16_at 32 = nbits;
  pk_whole_bytes : nbits mod 8 = 0;
  pk_area : exists o1 o2, let v := 36 + byte_at 35 in
    v + 1 <= N /\ Z.of_nat (length rs) = byte_at v /\ chain (rec nbits) (v + 1) rs o1 /\
    o1 + 2 <= N /\ Z.of_nat (length cs) = le16_at o1 /\ (length cs <= 255)%nat /\
    components_at 0 (o1 + 2) cs o2 /\
    o2 + 4 = le16_at 17 /\
    Z.lxor (crc32_le (bnot 32 0) (bytes_at 0 o2)) (bnot 32 0) = le32_at o2 }.

(** a package with the records and components of the file; and as the parser
    keeps it *)
Definition package_at := package_lay record_at.
Definition parsed_at := package_lay kept_at.
End Layout.

Section Values.
Context (fw : list Z) (fw_bytes : Forall byte fw).

Lemma byte_at_range p : in_range 8 (byte_at fw p).
Proof using fw_bytes.
  unfold byte_at, get8. destruct (Nat.lt_ge_cases (Z.to_nat p) (length fw)) as [Hl|Hl].
  - by apply List.Forall_nth.
  - rewrite nth_overflow by done. by vm_compute.
Qed.
Lemma le16_at_range p : in_range 16 (le16_at fw p).
Proof using fw_bytes.
  pose proof (byte_at_range p) as Ha. pose proof (byte_at_range (p + 1)) as Hb.
  apply range_of_testbit; [lia| |].
  - unfold le16_at. rewrite Z.lor_nonneg, Z.shiftl_nonneg. unfold in_range in *. lia.
  - intros i Hi. unfold le16_at. rewrite Z.lor_spec, Z.shiftl_spec by lia.
    by rewrite (testbit_range 8 _ i), (testbit_range 8 _ (i - 8)) by (done || lia).
Qed.
Lemma le32_at_range p : in_range 32 (le32_at fw p).
Proof using fw_bytes. apply le32_of_range; apply byte_at_range. Qed.
End Values.

Lemma desc_at_det fw o x o1 y o2 : desc_at fw o x o1 -> desc_at fw o y o2 -> x = y /\ o1 = o2.
Proof. intros (-> & -> & _) (-> & -> & _). done. Qed.

Lemma record_lay_det fw fl n o x o1 y o2 : record_lay fw fl n o x o1 -> record_lay fw fl n o y o2 -> x = y /\ o1 = o2.
Proof.
  intros (a & Ha & La & _ & -> & _ & _ & Ea) (b & Hb & Lb & _ & -> & _ & _ & Eb).
  destruct (chain_det _ (desc_at_det fw) _ _ _ _ _ Ha Hb) as [E ->]; [lia|].
  split; [|done]. by rewrite Ea, Eb, E.
Qed.
Lemma record_at_det fw n o x o1 y o2 : kept_at fw n o x o1 -> kept_at fw n o y o2 -> x = y /\ o1 = o2.
Proof. apply record_lay_det. Qed.

(** ** What the parser forgets *)
Definition forget_flags (r : pldmfw_record) : pldmfw_record :=
  mk_record (descs r) (r_version_string r) (r_version_type r) (r_version_len r) (package_data_len r) 0
    (package_data r) (component_bitmap r) (r_component_bitmap_len r).

Lemma kept_iff fw nb o r o' : kept_at fw nb o r o' <-> exists r0, record_at fw nb o r0 o' /\ r = forget_flags r0.
Proof.
  split.
  - intros (o2 & H1 & H2 & H3 & H4 & H5 & H6 & ->). simpl in *.
    exists (mk_record (descs r) (o + 11 + nb / 8) (byte_at fw (o + 7)) (byte_at fw (o + 8)) (le16_at fw (o + 9))
      (le32_at fw (o + 3)) o2 (Some (bitmap_at fw (o + 11) nb)) nb). split; [|done]. by exists o2.
  - intros (r0 & (o2 & H1 & H2 & H3 & H4 & H5 & H6 & ->) & ->). by exists o2.
Qed.
Lemma kept_chain fw nb o l o' : chain (kept_at fw nb) o l o' <->
  exists l0, chain (record_at fw nb) o l0 o' /\ l = map forget_flags l0.
Proof.
  split.
  - induction 1 as [o|o r o1 l o2 (r0 & Hr & ->)%kept_iff _ (l0 & Hl & ->)]; [exists []; by split; [constructor|]|].
    exists (r0 :: l0). split; [by econstructor|done].
  - intros (l0 & H & ->). induction H as [o|o r o1 l o2 Hr _ IH]; [constructor|].
    econstructor; [|done]. apply kept_iff. eauto.
Qed.
(** the parser keeps of a package all but the device update flags *)
Lemma parsed_iff fw crc rs cs nb : parsed_at fw crc rs cs nb <->
  exists rs0, package_at fw crc rs0 cs nb /\ rs = map forget_flags rs0.
Proof.
  split.
  - intros [H1 H2 H3 H4 H5 H6 (o1 & o2 & H)]. simpl in H. destruct H as (A & B & (l0 & C & ->)%kept_chain & E).
    exists l0. split; [|done]. rewrite length_map in B. split; try done. exists o1, o2. simpl. by split_and!; try apply E.
  - intros (rs0 & [H1 H2 H3 H4 H5 H6 (o1 & o2 & H)] & ->). simpl in H. destruct H as (A & B & C & E).
    split; try done. exists o1, o2. simpl. rewrite length_map. split_and!; try apply E; [done|done|].
    apply kept_chain. eauto.
Qed.

Lemma component_at_det fw i o x o1 y o2 :
  component_at fw i o x o1 -> component_at fw i o y o2 -> x = y /\ o1 = o2.
Proof. intros (-> & _ & _ & ->) (-> & _ & _ & ->). done. Qed.

(** ** The parser *)

(** the members of [pldmfw_priv] that parsing descriptors, records and components
    leaves alone *)
Definition hdr (p : pldmfw_priv) :=
  (total_header_size p, p_component_bitmap_len p, bitmap_size p, component_count p,
   component_start p, record_start p, record_count p, matching_record p).

Section Run.
Context {W : Type} (kz : nat -> bool) (fw : list Z).
Context (fw_bytes : Forall byte fw) (fw_small : fw_size fw < 2 ^ 62).
Implicit Types (s : engine W) (Q : Z -> engine W -> Prop).

Definition at_off s (o : Z) : engine W :=
  mk_engine (set_p_offset o (e_priv s)) (live s) (allocs s) (e_dev s).
Definition off s : Z := p_offset (e_priv s).

(** why a step failed: no memory, or the file is not of the form [P] *)
Definition fails (P : Prop) : Prop := (exists k, kz k = false) \/ ~ P.

Lemma fails_mono P P' : (P' -> P) -> fails P -> fails P'.
Proof. unfold fails. tauto. Qed.

Lemma wp_space o n Q s : 0 <= o < 2 ^ 63 -> 0 <= n < 2 ^ 63 ->
  (fw_size fw < o + n -> Q (- EFAULT) s) -> (o + n <= fw_size fw -> Q 0 s) ->
  wp (pldm_check_fw_space fw o n) Q s.
Proof.
  intros Ho Hn H1 H2. unfold pldm_check_fw_space. apply wp_ret.
  rewrite trunc_small by (unfold in_range; lia). destruct (Z.ltb_spec (fw_size fw) (o + n)); auto.
Qed.

Lemma wp_move n (k : Eng W Z) Q s : 0 <= off s <= fw_size fw -> 0 <= n < 2 ^ 62 ->
  (fw_size fw < off s + n -> Q (- EFAULT) s) ->
  (off s + n <= fw_size fw -> wp k Q (at_off s (off s + n))) ->
  wp (pldm_move_fw_offset fw n ?; k) Q s.
Proof using fw_small.
  intros Ho Hn H1 H2. apply wp_ok_then. unfold pldm_move_fw_offset. wp_step. unfold get_priv.
  apply wp_gets, wp_ok_then. fold (off s). apply wp_space; [lia|lia|..].
  - intros H. by apply H1.
  - intros H. simpl. wp_step. unfold upd_priv. apply wp_modify, wp_ret. simpl.
    fold (off s). rewrite trunc_small by (unfold in_range; lia). by apply H2.
Qed.

Lemma wp_rd8 p Q s : 0 <= p < fw_size fw -> Q (byte_at fw p) s -> wp (rd8 fw p) Q s.
Proof.
  unfold fw_size. intros Hp HQ. destruct (lookup_lt_is_Some_2 fw (Z.to_nat p)) as [x Hx]; [lia|].
  eapply wp_nth_c; [lia|done|]. unfold byte_at, get8 in HQ. by erewrite nth_lookup_Some in HQ by done.
Qed.
Lemma wp_le16 p Q s : 0 <= p -> p + 2 <= fw_size fw -> Q (le16_at fw p) s -> wp (get_unaligned_le16 fw p) Q s.
Proof.
  intros Hp H2 HQ. unfold get_unaligned_le16.
  wp_step. apply wp_rd8; [lia|]. wp_step. apply wp_rd8; [lia|]. by wp_step.
Qed.
Lemma wp_le32 p Q s : 0 <= p -> p + 4 <= fw_size fw -> Q (le32_at fw p) s -> wp (get_unaligned_le32 fw p) Q s.
Proof.
  intros Hp H2 HQ. unfold get_unaligned_le32.
  do 4 (wp_step; apply wp_rd8; [lia|]). by wp_step.
Qed.

Lemma wp_kzalloc (Q : bool -> engine W -> Prop) s :
  (kz (allocs s) = true -> Q true (mk_engine (e_priv s) (live s + 1) (S (allocs s)) (e_dev s))) ->
  (kz (allocs s) = false -> Q false (mk_engine (e_priv s) (live s) (S (allocs s)) (e_dev s))) ->
  wp (kzalloc kz) Q s.
Proof. intros H1 H2. unfold kzalloc, wp. destruct (kz (allocs s)); auto. Qed.

Lemma alter_last {A} (f : A -> A) l x : alter f (length (l ++ [x]) - 1)%nat (l ++ [x]) = l ++ [f x].
Proof.
  rewrite length_app. simpl. replace (length l + 1 - 1)%nat with (length l + 0)%nat by lia.
  by rewrite alter_app_r.
Qed.

Lemma wp_upd_last f rs r (Q : unit -> engine W -> Prop) s :
  records (e_priv s) = rs ++ [r] ->
  Q tt (mk_engine (set_records (rs ++ [f r]) (e_priv s)) (live s) (allocs s) (e_dev s)) ->
  wp (upd_last_record f) Q s.
Proof. intros Hr HQ. unfold upd_last_record, upd_priv. apply wp_modify. by rewrite Hr, alter_last. Qed.

Lemma descs_le o l o' : chain (desc_at fw) o l o' -> o <= o'.
Proof using fw_bytes.
  induction 1 as [o|o x o1 l o2 (-> & -> & _) _ IH]; [lia|]. simpl in IH.
  pose proof (le16_at_range fw fw_bytes (o + 2)) as H. unfold in_range in H. lia.
Qed.

(** the record [r] being read got descriptors for the bytes from [o] on *)
Definition descs_post (n : nat) (o : Z) rs r s (e : Z) s' : Prop := exists l o',
  chain (desc_at fw) o l o' /\ 0 <= off s' <= fw_size fw /\
  records (e_priv s') = rs ++ [upd_descs (fun l0 => l0 ++ l) r] /\
  components (e_priv s') = components (e_priv s) /\ hdr (e_priv s') = hdr (e_priv s) /\
  live s' = live s + Z.of_nat (length l) /\ e_dev s' = e_dev s /\
  (e = 0 -> length l = n /\ off s' = o') /\
  (e <> 0 -> fails (exists l o', chain (desc_at fw) o l o' /\ length l = n)).

Lemma descs_stop n o rs r s e s' : records (e_priv s) = rs ++ [r] ->
  e_priv s' = set_p_offset (off s') (e_priv s) -> live s' = live s -> e_dev s' = e_dev s ->
  0 <= off s' <= fw_size fw -> (e = 0 -> n = O /\ off s' = o) ->
  (e <> 0 -> fails (exists l o', chain (desc_at fw) o l o' /\ length l = n)) ->
  descs_post n o rs r s e s'.
Proof.
  intros Hr Hp Hl Hd Ho H0 H1. exists [], o. split; [constructor|]. split; [done|].
  assert (upd_descs (fun l0 => l0 ++ []) r = r) as ->.
  { destruct r. unfold upd_descs. simpl. by rewrite app_nil_r. }
  rewrite Hp. split_and!; try done; [simpl; lia|]. intros He. destruct (H0 He). by subst.
Qed.

Lemma descs_inv o l o' n : chain (desc_at fw) o l o' -> length l = S n ->
  exists l', l = mk_desc_tlv (o + 4) (le16_at fw o) (le16_at fw (o + 2)) :: l' /\
    chain (desc_at fw) (o + 4 + le16_at fw (o + 2)) l' o' /\ length l' = n /\
    o + 4 + le16_at fw (o + 2) <= fw_size fw /\
    pldm_check_desc_tlv_len (le16_at fw o) (le16_at fw (o + 2)) = 0.
Proof.
  intros Hc Hl. inversion Hc as [|? x o1 l1 ? Hx Hc']; subst; [done|].
  destruct Hx as (-> & -> & Hx & Hck). simpl in *. exists l1. repeat split; try done. lia.
Qed.

Lemma descs_more n o rs r s e s' :
  descs_post n (o + 4 + le16_at fw (o + 2)) rs
    (upd_descs (fun l => l ++ [mk_desc_tlv (o + 4) (le16_at fw o) (le16_at fw (o + 2))]) r) s e s' ->
  o + 4 + le16_at fw (o + 2) <= fw_size fw ->
  pldm_check_desc_tlv_len (le16_at fw o) (le16_at fw (o + 2)) = 0 ->
  forall s0, components (e_priv s) = components (e_priv s0) -> hdr (e_priv s) = hdr (e_priv s0) ->
  live s = live s0 + 1 -> e_dev s = e_dev s0 ->
  descs_post (S n) o rs r s0 e s'.
Proof.
  intros (l & o' & Hc & Hof & Hrs & Hcs & Hh & Hlv & Hdev & H0 & H1) Hend Hck s0 Ec Eh El Ed.
  exists (mk_desc_tlv (o + 4) (le16_at fw o) (le16_at fw (o + 2)) :: l), o'.
  split; [by econstructor|]. split; [done|].
  split. { rewrite Hrs. unfold upd_descs. simpl. by rewrite <- app_assoc. }
  split; [congruence|]. split; [congruence|]. split; [simpl; lia|]. split; [congruence|]. split.
  - intros He. destruct (H0 He). simpl. split; [lia|done].
  - intros He. eapply fails_mono; [|by apply H1]. intros (l1 & o1 & Hc1 & Hl1).
    destruct (descs_inv _ _ _ _ Hc1 Hl1) as (l2 & -> & ? & ? & _). eauto.
Qed.

Lemma wp_descs n : forall o rs r s, off s = o -> records (e_priv s) = rs ++ [r] -> 0 <= o <= fw_size fw ->
  wp (pldm_parse_desc_tlvs_from kz fw n o) (descs_post n o rs r s) s.
Proof using fw_bytes fw_small.
  induction n as [|n IH]; intros o rs r s Ho Hr Hb; simpl.
  { apply wp_ret, descs_stop; try done; [by destruct s as [[] ???]|lia]. }
  pose proof (le16_at_range fw fw_bytes (o + 2)) as Hsz.
  assert (Hsz0 : 0 <= le16_at fw (o + 2) < 65536) by exact Hsz.
  assert (Hfail : (o + 4 + le16_at fw (o + 2) <= fw_size fw ->
    pldm_check_desc_tlv_len (le16_at fw o) (le16_at fw (o + 2)) = 0 -> False) ->
    fails (exists l o', chain (desc_at fw) o l o' /\ length l = S n)).
  { intros H. right. intros (l & o' & Hc & Hl). destruct (descs_inv _ _ _ _ Hc Hl) as (? & ? & ? & ? & ? & ?).
    by apply H. }
  apply wp_move; [lia|done| |]; change DescTlv.sizeof with 4.
  { intros H. apply descs_stop; try done; [by destruct s as [[] ???]|lia|].
    intros _. apply Hfail. lia. }
  intros H4. rewrite Ho in *.
  wp_step. change DescTlv.type with 0. rewrite Z.add_0_r. apply wp_le16; [lia|lia|].
  wp_step. change DescTlv.size with 2. apply wp_le16; [lia|lia|].
  apply wp_ok_then, wp_ret.
  destruct (Z.eqb_spec (pldm_check_desc_tlv_len (le16_at fw o) (le16_at fw (o + 2))) 0) as [Hck|Hck].
  2:{ apply descs_stop; try done; [unfold off; simpl; lia|]. intros _. by apply Hfail. }
  apply wp_move; change (off (at_off s (o + 4))) with (o + 4); [lia|lia| |].
  { intros H. apply descs_stop; try done; [unfold off; simpl; lia|]. intros _. apply Hfail. lia. }
  intros Hend. wp_step. apply wp_kzalloc; intros Hk; simpl.
  2:{ apply wp_ret, descs_stop; try done; [unfold off; simpl; lia|]. left. eauto. }
  wp_step. eapply wp_upd_last; [done|]. wp_step. unfold pldm_next_desc_tlv. wp_step.
  change DescTlv.size with 2. change DescTlv.data with 4. apply wp_le16; [lia|lia|]. wp_step.
  eapply wp_mono; [eapply (IH _ rs); [done|done|lia]|].
  intros e s' Hs. by eapply descs_more.
Qed.

(** objects allocated for a record: itself, its descriptors, its bitmap *)
Definition objs_of (r : pldmfw_record) : Z :=
  1 + Z.of_nat (length (descs r)) + (if component_bitmap r then 1 else 0).
Definition objs (l : list pldmfw_record) : Z := zsum (map objs_of l).

Lemma objs_app l l' : objs (l ++ l') = objs l + objs l'.
Proof. unfold objs. by rewrite map_app, zsum_app. Qed.

(** at most one record was added *)
Definition record_post (nbits o : Z) rs s (e : Z) s' : Prop := exists l,
  records (e_priv s') = rs ++ l /\ live s' = live s + objs l /\ 0 <= off s' <= fw_size fw /\
  components (e_priv s') = components (e_priv s) /\ hdr (e_priv s') = hdr (e_priv s) /\
  e_dev s' = e_dev s /\
  (e = 0 -> exists r o', l = [r] /\ kept_at fw nbits o r o' /\ off s' = o') /\
  (e <> 0 -> fails (exists r o', kept_at fw nbits o r o')).

(** the record [r] is being read since [s0] *)
Definition reading rs r s0 s : Prop :=
  records (e_priv s) = rs ++ [r] /\ live s = live s0 + objs_of r /\
  components (e_priv s) = components (e_priv s0) /\ hdr (e_priv s) = hdr (e_priv s0) /\
  e_dev s = e_dev s0.

Lemma record_stop nbits o rs r s e s' : e <> 0 -> reading rs r s s' -> 0 <= off s' <= fw_size fw ->
  fails (exists r o', kept_at fw nbits o r o') -> record_post nbits o rs s e s'.
Proof.
  intros He (Hr & Hl & Hc & Hh & Hd) Ho Hf. exists [r]. split; [done|].
  split; [unfold objs; simpl; lia|]. by repeat (split; [done|]).
Qed.

Lemma wp_reading f rs r s0 s (Q : unit -> engine W -> Prop) :
  reading rs r s0 s -> objs_of (f r) = objs_of r ->
  (forall s', reading rs (f r) s0 s' -> off s' = off s -> allocs s' = allocs s -> Q tt s') ->
  wp (upd_last_record f) Q s.
Proof.
  intros (Hr & Hl & Hc & Hh & Hd) Hf HQ. eapply wp_upd_last; [done|].
  apply HQ; [|done|done]. split; [done|]. split; [simpl; by rewrite Hf|]. done.
Qed.

Lemma wp_bitmap nbits ptr (Q : list Z -> engine W -> Prop) s :
  0 <= nbits -> 0 <= ptr -> ptr + nbits / 8 <= fw_size fw ->
  Q (bitmap_at fw ptr nbits) s ->
  wp (for_acc (Z.to_nat (nbits / 8)) 0 (bitmap_bytes nbits) (fun i bm =>
    x ← rd8 fw (ptr + i); upd_c bm i x)) Q s.
Proof.
  intros Hn Hp Hend HQ. unfold fw_size in Hend.
  assert (Hlen : nbits / 8 <= Z.of_nat (length (bitmap_bytes nbits))).
  { unfold bitmap_bytes, BITS_TO_LONGS. rewrite length_replicate. zlia. }
  assert (Hb : forall k, 0 <= k <= nbits / 8 -> length (bytes_at fw ptr k) = Z.to_nat k).
  { intros k Hk. unfold bytes_at. rewrite length_take, length_drop. zlia. }
  eapply wp_mono; [apply (wp_for_acc _ _ _ _ (fun k bm s' => s' = s /\
    bm = bytes_at fw ptr k ++ drop (Z.to_nat k) (bitmap_bytes nbits)))|].
  - split; [done|]. unfold bytes_at. by rewrite Z2Nat.inj_0, take_0, drop_0.
  - intros k bm s' Hk [-> ->]. assert (Hk' : 0 <= k <= nbits / 8) by zlia. wp_step.
    apply wp_rd8; [unfold fw_size; zlia|].
    apply wp_upd_c; [rewrite length_app, length_drop, Hb by lia; zlia|]. split; [done|].
    rewrite insert_app_r_alt by (rewrite Hb by lia; lia). rewrite Hb, Nat.sub_diag by lia.
    unfold bytes_at. rewrite Z2Nat.inj_add by lia. simpl (Z.to_nat 1). rewrite Nat.add_1_r.
    destruct (lookup_lt_is_Some_2 (drop (Z.to_nat ptr) fw) (Z.to_nat k)) as [x Hx];
      [rewrite length_drop; zlia|].
    rewrite (take_S_r _ _ x Hx), <- app_assoc. f_equal.
    destruct (lookup_lt_is_Some_2 (bitmap_bytes nbits) (Z.to_nat k)) as [y Hy]; [zlia|].
    rewrite (drop_S _ y _ Hy). simpl. f_equal. rewrite lookup_drop in Hx.
    unfold byte_at, get8. erewrite nth_lookup_Some; [done|].
    rewrite Z2Nat.inj_add by lia. done.
  - cbv beta. intros bm s' [-> ->]. rewrite Z.add_0_l, Z2Nat.id by zlia. exact HQ.
Qed.

(** the end of a record: package data and length *)
Lemma wp_record_tail nbits o rs r s0 s o2 : reading rs r s0 s -> off s = o2 -> 0 <= o <= o2 -> o2 <= fw_size fw ->
  component_bitmap r = Some (bitmap_at fw (o + 11) nbits) ->
  r = mk_record (descs r) (o + 11 + nbits / 8) (byte_at fw (o + 7)) (byte_at fw (o + 8)) (le16_at fw (o + 9)) 0
        (package_data r) (component_bitmap r) nbits ->
  chain (desc_at fw) (o + 11 + nbits / 8 + byte_at fw (o + 8)) (descs r) o2 ->
  Z.of_nat (length (descs r)) = byte_at fw (o + 2) ->
  o + 11 + nbits / 8 + byte_at fw (o + 8) <= fw_size fw ->
  wp (p ← get_priv;
      upd_last_record (upd_package_data (p_offset p)) ;;
      pldm_move_fw_offset fw (le16_at fw (o + 9)) ?;
      (p ← get_priv;
       let measured_length := u64 (p_offset p - o) in
       mret (if negb (measured_length =? le16_at fw o) then - EFAULT else 0)))
     (record_post nbits o rs s0) s.
Proof using fw_bytes fw_small.
  intros Hrd Ho Hlo Hhi Hbm Er Hc Hl Hv. wp_step. unfold get_priv at 1. apply wp_gets. wp_step.
  eapply wp_reading; [done|done|]. intros s1 Hrd1 Ho1 _. fold (off s) in Hrd1. rewrite Ho in *.
  assert (Hpd : 0 <= le16_at fw (o + 9) < 65536) by exact (le16_at_range fw fw_bytes (o + 9)).
  assert (Hinv : forall r' o', kept_at fw nbits o r' o' -> o' = o2 + le16_at fw (o + 9) /\
    o' <= fw_size fw /\ o' - o = le16_at fw o).
  { intros r' o' (x & Hx & Hlx & _ & -> & ? & ? & _).
    destruct (chain_det _ (desc_at_det fw) _ _ _ _ _ Hc Hx) as [_ <-]; [lia|]. done. }
  apply wp_move; [lia|lia| |].
  { intros H. eapply record_stop; [done|done|lia|]. right. intros (r' & o' & Hr').
    apply Hinv in Hr'. lia. }
  intros H. wp_step. unfold get_priv. apply wp_gets, wp_ret. fold (off (at_off s1 (off s1 + le16_at fw (o + 9)))).
  change (off (at_off s1 (off s1 + le16_at fw (o + 9)))) with (off s1 + le16_at fw (o + 9)).
  rewrite Ho1 in *. rewrite trunc_small by (unfold in_range; lia).
  destruct (Z.eqb_spec (o2 + le16_at fw (o + 9) - o) (le16_at fw o)) as [He|He]; simpl.
  - destruct Hrd1 as (H1 & H2 & H3 & H4 & H5). exists [upd_package_data o2 r]. split; [done|].
    split; [unfold objs; simpl; lia|]. split; [unfold off; simpl; lia|].
    do 3 (split; [done|]). split; [|done]. intros _. exists (upd_package_data o2 r), (o2 + le16_at fw (o + 9)).
    split; [done|]. split; [|done]. exists o2. split_and!; try done.
    rewrite Er at 1. unfold upd_package_data. simpl. by rewrite Hbm.
  - eapply record_stop; [done|done|unfold off; simpl; lia|]. right. intros (r' & o' & Hr').
    apply Hinv in Hr'. lia.
Qed.

Lemma wp_one_record nbits o rs s :
  records (e_priv s) = rs -> off s = o -> 0 <= o <= fw_size fw -> 0 <= nbits < 65536 ->
  p_component_bitmap_len (e_priv s) = nbits -> bitmap_size (e_priv s) = nbits / 8 ->
  wp (pldm_parse_one_record kz fw o) (record_post nbits o rs s) s.
Proof using fw_bytes fw_small.
  intros Hrs Ho Hb Hn Hbl Hbs. unfold pldm_parse_one_record.
  assert (Hvl : 0 <= byte_at fw (o + 8) < 256) by exact (byte_at_range fw fw_bytes (o + 8)).
  assert (Hdc : 0 <= byte_at fw (o + 2) < 256) by exact (byte_at_range fw fw_bytes (o + 2)).
  assert (Hfail : (o + 11 + nbits / 8 + byte_at fw (o + 8) <= fw_size fw -> False) ->
    fails (exists r o', kept_at fw nbits o r o')).
  { intros H. right. intros (r & o' & x & _ & _ & Hx & _). by apply H. }
  wp_step. apply wp_kzalloc; intros Hk; simpl.
  2:{ apply wp_ret. exists []. rewrite app_nil_r. split_and!; try done; [unfold objs; simpl; lia|unfold off in *; simpl; lia..|].
      intros _. left. eauto. }
  wp_step. unfold upd_priv at 1. apply wp_modify.
  match goal with |- wp _ _ ?x => set (s1 := x) end.
  assert (Hrd : reading rs record0 s s1) by (unfold s1; by rewrite <- Hrs).
  assert (Ho1 : off s1 = o) by done. clearbody s1.
  apply wp_move; [lia|done| |]; rewrite Ho1; change RecordInfo.sizeof with 11.
  { intros H. eapply record_stop; [done|done|lia|]. apply Hfail. zlia. }
  intros H11. wp_step. change RecordInfo.record_len with 0. rewrite Z.add_0_r. apply wp_le16; [lia|lia|].
  wp_step. change RecordInfo.package_data_len with 9. apply wp_le16; [lia|lia|].
  wp_step. change RecordInfo.version_len with 8. apply wp_rd8; [lia|].
  wp_step. change RecordInfo.version_type with 7. apply wp_rd8; [lia|].
  wp_step. eapply wp_reading; [exact Hrd|done|]. intros s2 Hrd2 Ho2 _. wp_step. unfold get_priv at 1. apply wp_gets.
  change (off (at_off s1 (o + 11))) with (o + 11) in Ho2. fold (off s2).
  assert (p_component_bitmap_len (e_priv s2) = nbits /\ bitmap_size (e_priv s2) = nbits / 8) as [-> ->].
  { destruct Hrd2 as (_ & _ & _ & Hh & _). unfold hdr in Hh. injection Hh; intros; split; congruence. }
  apply wp_move; [lia|zlia| |]; rewrite Ho2.
  { intros H. eapply record_stop; [done|done|lia|]. apply Hfail. lia. }
  intros Hbm. wp_step. eapply wp_reading; [exact Hrd2|done|]. intros s3 Hrd3 Ho3 _.
  change (off (at_off s2 (o + 11 + nbits / 8))) with (o + 11 + nbits / 8) in Ho3.
  wp_step. apply wp_kzalloc; intros Hk2; simpl negb; cbv iota.
  2:{ apply wp_ret. eapply record_stop; [done|exact Hrd3|unfold off in *; simpl; zlia|]. left. eauto. }
  wp_step. destruct Hrd3 as (Hr3 & Hl3 & Hc3 & Hh3 & Hd3). eapply wp_upd_last; [exact Hr3|].
  wp_step. apply wp_bitmap; [lia|lia|lia|].
  match goal with |- wp _ _ ?x => set (s4 := x) end.
  assert (Hrd4 : reading rs (upd_bitmap (Some (bitmap_bytes nbits)) (upd_bitmap_len nbits (upd_info (le16_at fw (o + 9))
    (byte_at fw (o + 8)) (byte_at fw (o + 7)) record0))) s s4).
  { split; [done|]. split; [simpl; rewrite Hl3; unfold objs_of; simpl; lia|]. done. }
  assert (Ho4 : off s4 = o + 11 + nbits / 8) by done. clearbody s4.
  wp_step. eapply wp_reading; [exact Hrd4|done|]. intros s5 Hrd5 Ho5 _. rewrite Ho4 in Ho5.
  wp_step. unfold get_priv at 1. apply wp_gets. fold (off s5). rewrite Ho5.
  wp_step. eapply wp_reading; [exact Hrd5|done|]. intros s6 Hrd6 Ho6 _. rewrite Ho5 in Ho6.
  apply wp_move; [zlia|lia| |]; rewrite Ho6.
  { intros H. eapply record_stop; [done|done|zlia|]. apply Hfail. lia. }
  intros Hv. wp_step. change RecordInfo.descriptor_count with 2. apply wp_rd8; [lia|].
  apply wp_ok_then. unfold pldm_parse_desc_tlvs. wp_step. unfold get_priv at 1. apply wp_gets.
  destruct Hrd6 as (Hr6 & Hl6 & Hc6 & Hh6 & Hd6).
  eapply wp_mono; [eapply (wp_descs _ _ rs); [done|exact Hr6|simpl; zlia]|]. cbv beta.
  intros e s7 (l & o' & Hch & Hof & Hr7 & Hc7 & Hh7 & Hl7 & Hd7 & He0 & He1). simpl in Hch, Hl7, Hc7, Hh7, Hd7.
  match type of Hr7 with _ = _ ++ [?x] => set (r7 := x) in * end.
  assert (Hrd7 : reading rs r7 s s7).
  { split; [done|]. split; [rewrite Hl7, Hl6; unfold objs_of; simpl; lia|]. by rewrite Hc7, Hh7, Hd7. }
  destruct (Z.eqb_spec e 0) as [->|He].
  - destruct (He0 eq_refl) as [Hlen Hend]. eapply (wp_record_tail _ _ _ r7); try done; simpl; [|lia|lia].
    apply descs_le in Hch. zlia.
  - eapply record_stop; [done|done|lia|]. eapply fails_mono; [|by apply He1].
    intros (r & x & y & Hy & Hly & _). simpl. exists (descs r), y. split; [done|lia].
Qed.

Definition records_post (nbits : Z) (n : nat) (o : Z) rs s (e : Z) s' : Prop := exists l,
  records (e_priv s') = rs ++ l /\ live s' = live s + objs l /\ 0 <= off s' <= fw_size fw /\
  components (e_priv s') = components (e_priv s) /\ hdr (e_priv s') = hdr (e_priv s) /\
  e_dev s' = e_dev s /\
  (e = 0 -> chain (kept_at fw nbits) o l (off s') /\ length l = n) /\
  (e <> 0 -> fails (exists l o', chain (kept_at fw nbits) o l o' /\ length l = n)).

Lemma hdr_bitmap p p' : hdr p' = hdr p ->
  p_component_bitmap_len p' = p_component_bitmap_len p /\ bitmap_size p' = bitmap_size p.
Proof. unfold hdr. intros H. injection H; intros; split; congruence. Qed.

Lemma records_fail nbits n o : fails (exists r o', kept_at fw nbits o r o') ->
  fails (exists l o', chain (kept_at fw nbits) o l o' /\ length l = S n).
Proof.
  apply fails_mono. intros (l & o' & Hc & Hl). inversion Hc; subst; [done|]. eauto.
Qed.

Lemma wp_records nbits n : forall o rs s,
  records (e_priv s) = rs -> off s = o -> 0 <= o <= fw_size fw -> 0 <= nbits < 65536 ->
  p_component_bitmap_len (e_priv s) = nbits -> bitmap_size (e_priv s) = nbits / 8 ->
  wp (pldm_parse_records_from kz fw n o) (records_post nbits n o rs s) s.
Proof using fw_bytes fw_small.
  induction n as [|n IH]; intros o rs s Hrs Ho Hb Hn Hbl Hbs; simpl.
  { apply wp_ret. exists []. rewrite app_nil_r. split_and!; try done; [unfold objs; simpl; lia|lia..|].
    intros _. split; [rewrite Ho; constructor|done]. }
  apply wp_ok_then. eapply wp_mono; [by apply (wp_one_record nbits o rs)|]. cbv beta.
  intros e s1 (l & Hr1 & Hl1 & Ho1 & Hc1 & Hh1 & Hd1 & He0 & He1). destruct (Z.eqb_spec e 0) as [->|He].
  2:{ exists l. split_and!; try done; [lia..|]. intros _. by apply records_fail, He1. }
  destruct (He0 eq_refl) as (r & o' & -> & Hr & Ho'). wp_step. change RecordInfo.record_len with 0.
  rewrite Z.add_0_r. pose proof Hr as (o2 & Hch & _ & Hv & -> & Hend & Hlen & _).
  assert (Hvl : 0 <= byte_at fw (o + 8) < 256) by exact (byte_at_range fw fw_bytes (o + 8)).
  apply wp_le16; [lia|zlia|]. replace (o + le16_at fw o) with (off s1) by lia.
  destruct (hdr_bitmap _ _ Hh1) as [Hbl1 Hbs1].
  eapply wp_mono; [apply (IH _ (rs ++ [r])); try done; [lia|congruence..]|]. cbv beta.
  intros e s2 (l2 & Hr2 & Hl2 & Ho2 & Hc2 & Hh2 & Hd2 & Hf0 & Hf1). exists (r :: l2).
  split; [by rewrite Hr2, <- app_assoc|].
  split; [rewrite Hl2, Hl1; change (r :: l2) with ([r] ++ l2); rewrite objs_app; lia|].
  split; [done|]. split; [congruence|]. split; [congruence|]. split; [congruence|]. split.
  - intros He. destruct (Hf0 He). split; [|simpl; lia]. econstructor; [exact Hr|]. by rewrite <- Ho'.
  - intros He. eapply fails_mono; [|by apply Hf1]. intros (l3 & o3 & Hc3 & Hl3).
    inversion Hc3 as [|? x o1 l4 ? Hx Hc4]; subst; [done|].
    destruct (record_at_det _ _ _ _ _ _ _ Hr Hx) as [<- <-]. exists l4, o3. split; [by rewrite Ho'|simpl in Hl3; lia].
Qed.

Definition comps_post (i o cnt : Z) s (e : Z) s' : Prop := exists l,
  components (e_priv s') = components (e_priv s) ++ l /\ live s' = live s + Z.of_nat (length l) /\
  0 <= off s' <= fw_size fw /\ records (e_priv s') = records (e_priv s) /\
  hdr (e_priv s') = hdr (e_priv s) /\ e_dev s' = e_dev s /\
  (e = 0 -> components_at fw i o l (off s') /\ i + Z.of_nat (length l) = cnt /\ cnt <= 255) /\
  (e <> 0 -> fails (cnt <= 255 /\ exists l o', components_at fw i o l o' /\ i + Z.of_nat (length l) = cnt)).

(** one component *)
Lemma wp_component i o Q s : off s = o -> 0 <= o <= fw_size fw ->
  (forall e s', e <> 0 -> 0 <= off s' <= fw_size fw -> e_priv s' = set_p_offset (off s') (e_priv s) ->
     live s' = live s -> e_dev s' = e_dev s -> fails (exists c o', component_at fw i o c o') -> Q e s') ->
  (forall c o' s', component_at fw i o c o' -> off s' = o' ->
     e_priv s' = set_components (components (e_priv s) ++ [c]) (set_p_offset o' (e_priv s)) ->
     live s' = live s + 1 -> e_dev s' = e_dev s -> Q 0 s') ->
  wp (parse_component kz fw i o) Q s.
Proof using fw_bytes fw_small.
  intros Ho Hb Hbad Hgood. unfold parse_component.
  assert (Hvl : 0 <= byte_at fw (o + 21) < 256) by exact (byte_at_range fw fw_bytes (o + 21)).
  assert (H12 : 0 <= le32_at fw (o + 12) < 2 ^ 32) by exact (le32_at_range fw fw_bytes (o + 12)).
  assert (H16 : 0 <= le32_at fw (o + 16) < 2 ^ 32) by exact (le32_at_range fw fw_bytes (o + 16)).
  assert (Hfail : (o + 22 + byte_at fw (o + 21) <= fw_size fw ->
    le32_at fw (o + 12) + le32_at fw (o + 16) <= fw_size fw -> False) ->
    fails (exists c o', component_at fw i o c o')).
  { intros H. right. intros (c & o' & -> & Hx & Hy & _). by apply H. }
  change ComponentInfo.sizeof with 22. change ComponentInfo.version_len with 21.
  change ComponentInfo.version_string with 22.
  apply wp_move; [lia|done| |]; rewrite Ho.
  { intros H. apply Hbad; try done; [lia|by destruct s as [[] ???]|apply Hfail; lia]. }
  intros H22. wp_step. apply wp_rd8; [lia|].
  apply wp_move; change (off (at_off s (o + 22))) with (o + 22); [lia|lia| |].
  { intros H. apply Hbad; try done; [unfold off; simpl; lia|apply Hfail; lia]. }
  intros Hv. wp_step. apply (wp_le32 (o + 12)); [lia|lia|]. wp_step. apply (wp_le32 (o + 16)); [lia|lia|].
  apply wp_ok_then, wp_space; [lia|lia| |].
  { intros H. apply Hbad; try done; [unfold off; simpl; lia|apply Hfail; lia]. }
  intros Hd. simpl. wp_step. apply wp_kzalloc; intros Hk; simpl.
  2:{ apply wp_ret, Hbad; try done; [unfold off; simpl; lia|left; eauto]. }
  wp_step. change ComponentInfo.classification with 0. rewrite Z.add_0_r. apply wp_le16; [lia|lia|].
  wp_step. apply (wp_le16 (o + 2)); [lia|lia|]. wp_step. apply (wp_le32 (o + 4)); [lia|lia|].
  wp_step. apply (wp_le16 (o + 8)); [lia|lia|]. wp_step. apply (wp_le16 (o + 10)); [lia|lia|].
  wp_step. apply (wp_rd8 (o + 20)); [lia|]. wp_step. unfold upd_priv. apply wp_modify, wp_ret.
  by eapply (Hgood _ (o + 22 + byte_at fw (o + 21))).
Qed.

Lemma comps_fail i o cnt : i < cnt -> fails (exists c o', component_at fw i o c o') ->
  fails (cnt <= 255 /\ exists l o', components_at fw i o l o' /\ i + Z.of_nat (length l) = cnt).
Proof.
  intros Hi. apply fails_mono. intros (_ & l & o' & Hc & Hl). inversion Hc; subst; [simpl in Hi; lia|]. eauto.
Qed.

Lemma wp_components cnt fuel : forall i o s,
  off s = o -> 0 <= o <= fw_size fw -> 0 <= i <= 255 -> (cnt <= 255 -> i <= cnt) ->
  component_count (e_priv s) = cnt -> fw_size fw - o < Z.of_nat fuel ->
  wp (pldm_parse_components_from kz fw fuel i o) (comps_post i o cnt s) s.
Proof using fw_bytes fw_small.
  induction fuel as [|fuel IH]; intros i o s Ho Hb Hi Hle Hcnt Hf; simpl; [lia|].
  wp_step. unfold get_priv at 1. apply wp_gets. rewrite Hcnt.
  destruct (Z.ltb_spec i cnt) as [Hlt|Hge]; simpl.
  2:{ apply wp_ret. exists []. rewrite app_nil_r. split_and!; try done; [simpl; lia|lia..|].
      intros _. rewrite Ho. split; [constructor|]. simpl. lia. }
  apply wp_ok_then, wp_component; [done|done| |].
  { intros e s' He Ho' Hp Hl Hd Hx. destruct (Z.eqb_spec e 0); [done|]. exists []. rewrite app_nil_r, Hp.
    split_and!; try done; [simpl; lia|lia..|]. intros _. by apply comps_fail. }
  intros c o' s1 Hc Ho1 Hp1 Hl1 Hd1. simpl. pose proof Hc as (-> & Hend & _ & _).
  assert (Hvl : 0 <= byte_at fw (o + 21) < 256) by exact (byte_at_range fw fw_bytes (o + 21)).
  wp_step. unfold pldm_next_component. wp_step. change ComponentInfo.version_len with 21.
  change ComponentInfo.version_string with 22. apply wp_rd8; [lia|]. wp_step.
  assert (Hu : u8 (i + 1) = if i =? 255 then 0 else i + 1).
  { destruct (Z.eqb_spec i 255) as [->|]; [done|]. apply trunc_small. unfold in_range. lia. }
  eapply wp_mono; [apply IH; try done; [lia|rewrite Hu; destruct (Z.eqb_spec i 255); lia..|by rewrite Hp1|lia]|].
  cbv beta. intros e s2 (l & Hc2 & Hl2 & Ho2 & Hr2 & Hh2 & Hd2 & He0 & He1). exists (c :: l).
  split; [rewrite Hc2, Hp1; simpl; by rewrite <- app_assoc|]. split; [rewrite Hl2, Hl1; simpl; lia|]. split; [done|].
  split; [by rewrite Hr2, Hp1|]. split; [by rewrite Hh2, Hp1|]. split; [congruence|]. split.
  - intros He. destruct (He0 He) as (Hch & Hn & H255).
    rewrite (proj2 (Z.eqb_neq i 255)) in Hu by lia. rewrite Hu in Hch, Hn. split; [by econstructor|]. simpl. lia.
  - intros He. eapply fails_mono; [|by apply He1]. intros (H255 & l3 & o3 & Hc3 & Hl3). split; [done|].
    rewrite (proj2 (Z.eqb_neq i 255)) in Hu by lia. rewrite Hu.
    inversion Hc3 as [|? ? x o1 l4 ? Hx Hc4]; subst; simpl in Hl3; [lia|].
    destruct (component_at_det _ _ _ _ _ _ _ Hc Hx) as [<- <-]. exists l4, o3. split; [done|lia].
Qed.

(** the start of [pldm_parse_header] *)
Lemma wp_header_id (Q : list Z -> engine W -> Prop) s : 16 <= fw_size fw ->
  Q (bytes_at fw 0 16) s -> wp (for_collect 16 0 (rd8 fw)) Q s.
Proof.
  intros H16 HQ. eapply wp_mono; [apply (wp_for_collect _ _ _ (fun k l s' => s' = s /\ l = bytes_at fw 0 k))|].
  - done.
  - intros k l s' Hk [-> ->]. apply wp_rd8; [lia|]. split; [done|]. unfold bytes_at. simpl. rewrite !drop_0.
    rewrite Z2Nat.inj_add, Nat.add_1_r by lia. unfold fw_size in H16.
    destruct (lookup_lt_is_Some_2 fw (Z.to_nat k)) as [x Hx]; [lia|].
    rewrite (take_S_r _ _ _ Hx). unfold byte_at, get8. by erewrite nth_lookup_Some.
  - cbv beta. intros l s' [-> ->]. exact HQ.
Qed.

(** a run that stopped in the header *)
Definition header_bad s (e : Z) s' : Prop :=
  e <> 0 /\ records (e_priv s') = records (e_priv s) /\ components (e_priv s') = components (e_priv s) /\
  live s' = live s /\ e_dev s' = e_dev s.

Definition header_ok (nbits : Z) : Prop :=
  36 <= fw_size fw /\ bytes_at fw 0 16 = pldm_firmware_header_id /\
  byte_at fw 16 = PACKAGE_HEADER_FORMAT_REVISION /\ le16_at fw 17 <= fw_size fw /\
  le16_at fw 32 = nbits /\ nbits mod 8 = 0 /\ 36 + byte_at fw 35 + 1 <= fw_size fw.

Lemma wp_header Q s : off s = 0 ->
  (forall e s', header_bad s e s' -> ~ header_ok (le16_at fw 32) -> Q e s') ->
  (forall s', header_ok (le16_at fw 32) -> off s' = 37 + byte_at fw 35 ->
     records (e_priv s') = records (e_priv s) -> components (e_priv s') = components (e_priv s) ->
     live s' = live s -> e_dev s' = e_dev s ->
     total_header_size (e_priv s') = le16_at fw 17 -> p_component_bitmap_len (e_priv s') = le16_at fw 32 ->
     bitmap_size (e_priv s') = le16_at fw 32 / 8 -> record_start (e_priv s') = 37 + byte_at fw 35 ->
     record_count (e_priv s') = byte_at fw (36 + byte_at fw 35) -> Q 0 s') ->
  wp (pldm_parse_header fw) Q s.
Proof using fw_bytes fw_small.
  intros Ho Hbad Hgood. unfold pldm_parse_header.
  assert (Hn : 0 <= fw_size fw) by (unfold fw_size; lia).
  assert (H17 : 0 <= le16_at fw 17 < 65536) by exact (le16_at_range fw fw_bytes 17).
  assert (H35 : 0 <= byte_at fw 35 < 256) by exact (byte_at_range fw fw_bytes 35).
  assert (Hstop : forall e s', e <> 0 -> records (e_priv s') = records (e_priv s) ->
    components (e_priv s') = components (e_priv s) -> live s' = live s -> e_dev s' = e_dev s ->
    ~ header_ok (le16_at fw 32) -> Q e s').
  { intros. by apply Hbad. }
  apply wp_move; [lia|done| |]; rewrite Ho; change Header.sizeof with 36.
  { intros H. apply Hstop; try done. unfold header_ok. lia. }
  intros H36. change (0 + 36) with 36. wp_step. apply wp_header_id; [lia|].
  destruct (bool_decide (bytes_at fw 0 16 = pldm_firmware_header_id)) eqn:Hid; simpl negb; cbv iota.
  2:{ apply wp_ret, Hstop; try done. intros (_ & Hx & _). by apply bool_decide_eq_false in Hid. }
  apply bool_decide_eq_true in Hid. wp_step. apply (wp_rd8 16); [lia|].
  destruct (Z.eqb_spec (byte_at fw 16) PACKAGE_HEADER_FORMAT_REVISION) as [Hrev|Hrev]; simpl negb; cbv iota.
  2:{ apply wp_ret, Hstop; try done. by intros (_ & _ & Hx & _). }
  wp_step. apply (wp_le16 17); [lia|lia|]. wp_step. unfold upd_priv at 1. apply wp_modify.
  wp_step. unfold get_priv at 1. apply wp_gets. apply wp_ok_then. unfold pldm_check_fw_space. apply wp_ret.
  assert (u64 (36 + u64 (le16_at fw 17 - 36)) = le16_at fw 17) as Hw.
  { rewrite Z.add_comm, trunc_add_l by lia. replace (le16_at fw 17 - 36 + 36) with (le16_at fw 17) by lia.
    apply trunc_small. unfold in_range. lia. }
  match goal with |- context [fw_size fw <? u64 ?x] => change x with (36 + u64 (le16_at fw 17 - 36)) end.
  rewrite Hw. destruct (Z.ltb_spec (fw_size fw) (le16_at fw 17)) as [Ht|Ht]; simpl.
  { apply Hstop; try done. unfold header_ok. lia. }
  wp_step. apply (wp_le16 32); [lia|lia|]. wp_step. unfold upd_priv at 1. apply wp_modify.
  destruct (Z.eqb_spec (le16_at fw 32 mod 8) 0) as [Hm|Hm]; simpl negb; cbv iota.
  2:{ apply wp_ret, Hstop; try done. intros H. by apply Hm, H. }
  wp_step. unfold upd_priv at 1. apply wp_modify. wp_step. apply (wp_rd8 35); [lia|].
  apply wp_move; unfold off; simpl p_offset; [lia|lia| |].
  { intros H. apply Hstop; try done. unfold header_ok. lia. }
  intros Hv. wp_step. unfold get_priv at 1. apply wp_gets. simpl p_offset.
  apply wp_move; unfold off; simpl p_offset; [lia|done| |].
  { intros H. apply Hstop; try done. unfold header_ok. lia. }
  intros Hv1. wp_step. apply wp_rd8; [lia|]. wp_step. unfold upd_priv. apply wp_modify, wp_ret.
  apply Hgood; try done; unfold header_ok, off; simpl; repeat (split; [done || lia|]); done || lia.
Qed.

(** *** The whole image *)

Lemma components_le i o l o' : components_at fw i o l o' -> o <= o'.
Proof using fw_bytes.
  induction 1 as [i o|i o c o1 l o2 (-> & _) _ IH]; [lia|].
  pose proof (byte_at_range fw fw_bytes (o + 21)) as H. unfold in_range in H. lia.
Qed.
Lemma components_det i o l o1 l' o2 : components_at fw i o l o1 -> components_at fw i o l' o2 ->
  length l = length l' -> l = l' /\ o1 = o2.
Proof using.
  intros H. revert l' o2. induction H as [i o|i o c o1 l o2 Hc _ IH]; intros l' o3 H' Hl;
    inversion H' as [|? ? c' o1' l1 ? Hc' H1]; subst; simpl in Hl; try lia; [done|].
  destruct (component_at_det _ _ _ _ _ _ _ Hc Hc') as [-> ->].
  by edestruct IH as [-> ->]; [eassumption|lia|].
Qed.

Context (crc32_le : Z -> list Z -> Z).

(** what parsing leaves behind: all memory accounted for, and the package if it
    was accepted *)
Definition parsed s0 (e : Z) s : Prop :=
  live s = live s0 + objs (records (e_priv s)) + Z.of_nat (length (components (e_priv s))) /\
  e_dev s = e_dev s0 /\ (e <> 0 -> fails (exists rs cs nb, parsed_at fw crc32_le rs cs nb)) /\
  (e = 0 -> exists nb, parsed_at fw crc32_le (records (e_priv s)) (components (e_priv s)) nb /\
     p_component_bitmap_len (e_priv s) = nb).

Lemma not_parsed s0 e s : e <> 0 -> e_dev s = e_dev s0 ->
  live s = live s0 + objs (records (e_priv s)) + Z.of_nat (length (components (e_priv s))) ->
  fails (exists rs cs nb, parsed_at fw crc32_le rs cs nb) -> parsed s0 e s.
Proof. intros He Hd Hl Hf. by split_and!. Qed.

Lemma package_header rs cs nb : parsed_at fw crc32_le rs cs nb -> header_ok (le16_at fw 32).
Proof. intros [H1 H2 H3 H4 <- H6 (o1 & o2 & H7 & _)]. by split_and!; try lia. Qed.

(** what is known after the records *)
Definition records_ok (rs : list pldmfw_record) (o1 : Z) : Prop :=
  Z.of_nat (length rs) = byte_at fw (36 + byte_at fw 35) /\
  chain (kept_at fw (le16_at fw 32)) (37 + byte_at fw 35) rs o1 /\ o1 + 2 <= fw_size fw.

Lemma package_records rs cs nb o1 : parsed_at fw crc32_le rs cs nb ->
  chain (kept_at fw (le16_at fw 32)) (37 + byte_at fw 35) rs o1 -> records_ok rs o1 /\
  Z.of_nat (length cs) = le16_at fw o1 /\ (length cs <= 255)%nat /\
  exists o2, components_at fw 0 (o1 + 2) cs o2 /\ o2 + 4 = le16_at fw 17 /\
    Z.lxor (crc32_le (bnot 32 0) (bytes_at fw 0 o2)) (bnot 32 0) = le32_at fw o2.
Proof using.
  intros [H1 H2 H3 H4 <- H6 (o & o2 & H7 & H8 & H9 & H10 & H11 & H12 & H13 & H14 & H15)] Hc.
  replace (36 + byte_at fw 35 + 1) with (37 + byte_at fw 35) in H9 by lia.
  destruct (chain_det _ (record_at_det fw _) _ _ _ _ _ H9 Hc) as [_ ->]; [done|].
  split; [by split_and!|]. split; [done|]. split; [done|]. by exists o2.
Qed.

Lemma package_chain rs cs nb : parsed_at fw crc32_le rs cs nb ->
  exists o1, chain (kept_at fw (le16_at fw 32)) (37 + byte_at fw 35) rs o1.
Proof using.
  intros [H1 H2 H3 H4 <- H6 (o & o2 & H7 & H8 & H9 & _)].
  replace (36 + byte_at fw 35 + 1) with (37 + byte_at fw 35) in H9 by lia. eauto.
Qed.

Lemma wp_parse_records Q s0 s : off s = 37 + byte_at fw 35 -> off s <= fw_size fw ->
  records (e_priv s) = [] -> components (e_priv s) = [] -> live s = live s0 -> e_dev s = e_dev s0 ->
  p_component_bitmap_len (e_priv s) = le16_at fw 32 -> bitmap_size (e_priv s) = le16_at fw 32 / 8 ->
  record_start (e_priv s) = 37 + byte_at fw 35 ->
  record_count (e_priv s) = byte_at fw (36 + byte_at fw 35) ->
  (forall e s', e <> 0 -> parsed s0 e s' -> Q e s') ->
  (forall s' o1, records_ok (records (e_priv s')) o1 -> off s' = o1 + 2 -> 0 <= o1 ->
     components (e_priv s') = [] -> live s' = live s0 + objs (records (e_priv s')) -> e_dev s' = e_dev s0 ->
     p_component_bitmap_len (e_priv s') = le16_at fw 32 ->
     total_header_size (e_priv s') = total_header_size (e_priv s) ->
     component_start (e_priv s') = o1 + 2 -> component_count (e_priv s') = le16_at fw o1 -> Q 0 s') ->
  wp (pldm_parse_records kz fw) Q s.
Proof using fw_bytes fw_small.
  intros Ho Hb Hr Hc Hl Hd Hbl Hbs Hrs Hrc Hbad Hgood. unfold pldm_parse_records.
  assert (Hv : 0 <= byte_at fw 35 < 256) by exact (byte_at_range fw fw_bytes 35).
  assert (Hn : 0 <= le16_at fw 32 < 65536) by exact (le16_at_range fw fw_bytes 32).
  assert (Hcnt : 0 <= byte_at fw (36 + byte_at fw 35) < 256) by exact (byte_at_range fw fw_bytes _).
  wp_step. unfold get_priv at 1. apply wp_gets. rewrite Hrs, Hrc.
  apply wp_ok_then. eapply wp_mono; [apply (wp_records (le16_at fw 32) _ _ []); try done; lia|]. cbv beta.
  intros e s1 (l & Hr1 & Hl1 & Ho1 & Hc1 & Hh1 & Hd1 & He0 & He1). simpl in Hr1. subst l.
  assert (Hacc : live s1 = live s0 + objs (records (e_priv s1)) + Z.of_nat (length (components (e_priv s1)))).
  { rewrite Hc1, Hc, Hl1, Hl. simpl. lia. }
  destruct (Z.eqb_spec e 0) as [->|He].
  2:{ apply Hbad; [done|]. apply not_parsed; [done|congruence|done|]. eapply fails_mono; [|by apply He1].
      intros (rs & cs & nb & Hp). destruct (package_chain _ _ _ Hp) as [o1 Hch].
      destruct (package_records _ _ _ _ Hp Hch) as ((Hlen & _) & _). exists rs, o1. split; [done|lia]. }
  destruct (He0 eq_refl) as [Hch Hlen]. wp_step. unfold get_priv at 1. apply wp_gets. fold (off s1).
  assert (Hfail : (off s1 + 2 <= fw_size fw -> False) -> fails (exists rs cs nb, parsed_at fw crc32_le rs cs nb)).
  { intros H. right. intros (rs & cs & nb & Hp). destruct (package_chain _ _ _ Hp) as [o1 Hch'].
    destruct (package_records _ _ _ _ Hp Hch') as ((Hlen' & _ & Hx) & _).
    destruct (chain_det _ (record_at_det fw _) _ _ _ _ _ Hch Hch') as [_ <-]; [lia|]. by apply H. }
  apply wp_move; [lia|done| |].
  { intros H. apply Hbad; [done|]. apply not_parsed; [done|congruence|done|]. apply Hfail. lia. }
  intros H2. wp_step. apply wp_le16; [lia|lia|]. wp_step. unfold upd_priv. apply wp_modify, wp_ret.
  eapply (Hgood _ (off s1)); try done; simpl; [|lia|congruence|congruence|congruence|..].
  - split; [simpl; lia|]. by split.
  - unfold hdr in Hh1. injection Hh1; intros; congruence.
  - unfold hdr in Hh1. injection Hh1; intros; congruence.
Qed.

Lemma wp_parse_components Q s0 s o1 : records_ok (records (e_priv s)) o1 -> off s = o1 + 2 -> 0 <= o1 ->
  header_ok (le16_at fw 32) ->
  components (e_priv s) = [] -> live s = live s0 + objs (records (e_priv s)) -> e_dev s = e_dev s0 ->
  p_component_bitmap_len (e_priv s) = le16_at fw 32 ->
  total_header_size (e_priv s) = le16_at fw 17 ->
  component_start (e_priv s) = o1 + 2 -> component_count (e_priv s) = le16_at fw o1 ->
  (forall e s', e <> 0 -> parsed s0 e s' -> Q e s') ->
  (forall s' e, off s' = le16_at fw 17 ->
     live s' = live s0 + objs (records (e_priv s')) + Z.of_nat (length (components (e_priv s'))) ->
     e_dev s' = e_dev s0 -> 0 <= off s' - 4 -> header_crc (e_priv s') = le32_at fw (off s' - 4) ->
     p_component_bitmap_len (e_priv s') = le16_at fw 32 -> e = 0 ->
     ((exists rs cs nb, parsed_at fw crc32_le rs cs nb) \/
      Z.lxor (crc32_le (bnot 32 0) (bytes_at fw 0 (off s' - 4))) (bnot 32 0) = le32_at fw (off s' - 4) ->
      Z.lxor (crc32_le (bnot 32 0) (bytes_at fw 0 (off s' - 4))) (bnot 32 0) = le32_at fw (off s' - 4) /\
      parsed_at fw crc32_le (records (e_priv s')) (components (e_priv s')) (le16_at fw 32)) -> Q e s') ->
  wp (pldm_parse_components kz fw) Q s.
Proof using fw_bytes fw_small.
  intros Hok Ho Hlo Hhd Hc Hl Hd Hbl Htot Hcs Hcc Hbad Hgood. pose proof Hok as (Hlen & Hch & Ho1).
  assert (Hcn : 0 <= le16_at fw o1 < 65536) by exact (le16_at_range fw fw_bytes o1).
  assert (Hpk : forall rs cs nb, parsed_at fw crc32_le rs cs nb ->
    Z.of_nat (length cs) = le16_at fw o1 /\ (length cs <= 255)%nat /\
    exists o2, components_at fw 0 (o1 + 2) cs o2 /\ o2 + 4 = le16_at fw 17 /\
    Z.lxor (crc32_le (bnot 32 0) (bytes_at fw 0 o2)) (bnot 32 0) = le32_at fw o2).
  { intros rs cs nb Hp. destruct (package_chain _ _ _ Hp) as [x Hx].
    destruct (package_records _ _ _ _ Hp Hx) as ((Hlx & _) & Hr).
    destruct (chain_det _ (record_at_det fw _) _ _ _ _ _ Hch Hx) as [_ <-]; [lia|]. exact Hr. }
  unfold pldm_parse_components. wp_step. unfold get_priv at 1. apply wp_gets. rewrite Hcs.
  apply wp_ok_then. eapply wp_mono; [apply (wp_components (le16_at fw o1)); try done; try lia|].
  { unfold fw_size. lia. }
  cbv beta. intros e s1 (l & Hc1 & Hl1 & Hof & Hr1 & Hh1 & Hd1 & He0 & He1). rewrite Hc in Hc1. simpl in Hc1. subst l.
  assert (Hacc : live s1 = live s0 + objs (records (e_priv s1)) + Z.of_nat (length (components (e_priv s1)))).
  { rewrite Hr1. lia. }
  destruct (Z.eqb_spec e 0) as [->|He].
  2:{ apply Hbad; [done|]. apply not_parsed; [done|congruence|done|]. eapply fails_mono; [|by apply He1].
      intros (rs & cs & nb & Hp). destruct (Hpk _ _ _ Hp) as (Ha & Hb & o2 & Hx & _). split; [lia|].
      exists cs, o2. split; [done|lia]. }
  destruct (He0 eq_refl) as (Hch2 & Hn2 & H255). wp_step. unfold get_priv at 1. apply wp_gets. fold (off s1).
  pose proof (components_le _ _ _ _ Hch2) as Hle.
  assert (Hfail : (off s1 + 4 = le16_at fw 17 -> False) -> fails (exists rs cs nb, parsed_at fw crc32_le rs cs nb)).
  { intros H. right. intros (rs & cs & nb & Hp). destruct (Hpk _ _ _ Hp) as (Ha & Hb & o2 & Hx & Hy & _).
    destruct (components_det _ _ _ _ _ _ Hch2 Hx) as [_ <-]; [lia|]. by apply H. }
  assert (Ht1 : total_header_size (e_priv s1) = le16_at fw 17 /\ p_component_bitmap_len (e_priv s1) = le16_at fw 32).
  { unfold hdr in Hh1. injection Hh1; intros; split; congruence. }
  destruct Ht1 as [Ht1 Hb1]. pose proof Hhd as (_ & _ & _ & H17 & _).
  apply wp_move; [lia|done| |].
  { intros H. apply Hbad; [done|]. apply not_parsed; [done|congruence|done|]. apply Hfail. lia. }
  intros H4. wp_step. unfold get_priv at 1. apply wp_gets. change (p_offset (e_priv (at_off s1 (off s1 + 4)))) with (off s1 + 4).
  change (total_header_size (e_priv (at_off s1 (off s1 + 4)))) with (total_header_size (e_priv s1)). rewrite Ht1.
  destruct (Z.eqb_spec (off s1 + 4) (le16_at fw 17)) as [Heq|Hne]; simpl negb; cbv iota.
  2:{ apply wp_ret, Hbad; [done|]. apply not_parsed; [done|simpl; congruence|done|by apply Hfail]. }
  wp_step. apply wp_le32; [lia|lia|]. wp_step. unfold upd_priv. apply wp_modify, wp_ret.
  apply Hgood; try done; unfold off; simpl; fold (off s1); try replace (off s1 + 4 - 4) with (off s1) by lia;
    [congruence|lia|done|].
  intros Hcrc. assert (Hcrc' : Z.lxor (crc32_le (bnot 32 0) (bytes_at fw 0 (off s1))) (bnot 32 0) = le32_at fw (off s1)).
  { destruct Hcrc as [(rs & cs & nb & Hp)|?]; [|done]. destruct (Hpk _ _ _ Hp) as (Ha & Hb & o2 & Hx & Hy & Hz).
    destruct (components_det _ _ _ _ _ _ Hch2 Hx) as [_ <-]; [lia|]. done. }
  split; [done|]. destruct Hhd as (G1 & G2 & G3 & G4 & G5 & G6 & G7). split; try done.
  exists o1, (off s1). rewrite Hr1. split_and!; try done; [|lia..].
  by replace (36 + byte_at fw 35 + 1) with (37 + byte_at fw 35) by lia.
Qed.

Lemma wp_parse_image s : off s = 0 -> records (e_priv s) = [] -> components (e_priv s) = [] ->
  wp (pldm_parse_image kz crc32_le fw) (parsed s) s.
Proof using fw_bytes fw_small.
  intros Ho Hr Hc. unfold pldm_parse_image. destruct (Z.eqb_spec (fw_size fw) 0) as [H0|H0].
  { apply wp_ret, not_parsed; try done; [rewrite Hr, Hc; unfold objs; simpl; lia|].
    right. intros (rs & cs & nb & [Hp _ _ _ _ _ _]). lia. }
  apply wp_ok_then, wp_header; [done| |].
  { intros e s1 (He & Hr1 & Hc1 & Hl1 & Hd1) Hx. destruct (Z.eqb_spec e 0); [done|].
    apply not_parsed; try done; [rewrite Hl1, Hr1, Hc1, Hr, Hc; unfold objs; simpl; lia|].
    right. intros (rs & cs & nb & Hp). by eapply Hx, package_header. }
  intros s1 Hhd Ho1 Hr1 Hc1 Hl1 Hd1 Ht1 Hb1 Hs1 Hst1 Hn1. pose proof Hhd as (_ & _ & _ & _ & _ & _ & H36). simpl.
  apply wp_ok_then. eapply (wp_parse_records _ s s1); try done; [lia|congruence..| |].
  { intros e s2 He Hp. by destruct (Z.eqb_spec e 0). }
  intros s2 o1 Hok Ho2 Hlo Hc2 Hl2 Hd2 Hb2 Ht2 Hst2 Hn2. simpl. rewrite Ht1 in Ht2.
  apply wp_ok_then. eapply (wp_parse_components _ s s2); try done.
  { intros e s3 He Hp. by destruct (Z.eqb_spec e 0). }
  intros s3 e Ho3 Hl3 Hd3 H43 Hcrc3 Hb3 -> Hp. simpl. unfold pldm_verify_header_crc.
  wp_step. unfold get_priv. apply wp_gets. fold (off s3).
  pose proof Hhd as (_ & _ & _ & H17 & _). unfold fw_size in *.
  rewrite trunc_small by (unfold in_range; lia). wp_step. apply wp_copy_from; [lia|]. wp_step.
  change (take (Z.to_nat (off s3 - 4)) fw) with (bytes_at fw 0 (off s3 - 4)) in *.
  rewrite Hcrc3. destruct (Z.eqb_spec (Z.lxor (crc32_le (bnot 32 0) (bytes_at fw 0 (off s3 - 4))) (bnot 32 0))
    (le32_at fw (off s3 - 4))) as [Hq|Hq]; simpl.
  - split_and!; try done. intros _. exists (le16_at fw 32). split; [|done]. by apply Hp; right.
  - apply not_parsed; try done. right. intros Hx. apply Hq. by apply Hp; left.
Qed.
End Run.
