(* ===== verification/PldmEngine.v ===== *)
(** * The PLDM update engine

    What the engine does with an image that the parser accepted, as a plain
    sequence of calls of the driver ([apply_package]), and the engine run against
    it, with all its memory. *)
From S2P Require Import Prelude Status Bytes Pldm PldmParse.

Section Reference.
Context {W : Type} (ops : pldmfw_ops W).

Fixpoint first_match (rs : list pldmfw_record) : comp W (option pldmfw_record) :=
  match rs with
  | [] => mret None
  | r :: rs' => b ← match_record ops r; if b : bool then mret (Some r) else first_match rs'
  end.

(** the calls in their order, until one fails *)
Fixpoint until_error (l : list (comp W Z)) : comp W Z :=
  match l with
  | [] => mret 0
  | m :: l' => e ← m; if negb (e =? 0) then mret e else until_error l'
  end.

(** the components a record asks for *)
Definition applicable (r : pldmfw_record) (cs : list pldmfw_component) : list pldmfw_component :=
  List.filter (fun c => bitmap_has (default [] (component_bitmap r)) (c_index c)) cs.

Definition update_calls (r : pldmfw_record) (cs : list pldmfw_component) (nb : Z) : list (comp W Z) :=
  [send_package_data ops (package_data r) (package_data_len r)] ++
  map (fun c => send_component_table ops c
         (transfer_flag_of (default [] (component_bitmap r)) nb (c_index c))) (applicable r cs) ++
  map (flash_component ops) (applicable r cs) ++
  [default (mret 0) (finalize_update ops)].

(** the update a package asks for *)
Definition apply_package (rs : list pldmfw_record) (cs : list pldmfw_component) (nb : Z) : comp W Z :=
  m ← first_match rs;
  match m with
  | None => mret (- ENOENT)
  | Some r => until_error (update_calls r cs nb)
  end.
End Reference.

Lemma bitmap_at_length fw p nb : 0 <= nb -> nb mod 8 = 0 -> 0 <= p -> p + nb / 8 <= fw_size fw ->
  Z.of_nat (length (bitmap_at fw p nb)) = 8 * BITS_TO_LONGS nb.
Proof.
  intros Hn Hm Hp He. unfold fw_size in He.
  unfold bitmap_at, bitmap_bytes, bytes_at, BITS_TO_LONGS.
  rewrite length_app, length_take, !length_drop, length_replicate. zlia.
Qed.

Section Run.
Context {W : Type} (kz : nat -> bool) (crc32_le : Z -> list Z -> Z) (fw : list Z) (ops : pldmfw_ops W).
Context (fw_bytes : Forall byte fw) (fw_small : fw_size fw < 2 ^ 62).
Implicit Types (s : engine W).

(** the engine did [m] on the device and nothing to its own data, or faulted with it *)
Definition runs (m : comp W Z) s (o : outcome (engine W) Z) : Prop :=
  match m (e_dev s) with
  | Done e d => o = Done e (mk_engine (e_priv s) (live s) (allocs s) d)
  | Fault f => o = Fault f
  end.

Lemma engine_eta s : mk_engine (e_priv s) (live s) (allocs s) (e_dev s) = s.
Proof. by destruct s. Qed.

Lemma until_error_app (l l' : list (comp W Z)) d :
  until_error (l ++ l') d = (until_error l ?; until_error l') d.
Proof.
  revert d. induction l as [|m l IH]; intros d; [done|]. simpl. unfold ok_then, mbind, comp_bind.
  destruct (m d) as [e d'|]; [|done]. destruct (Z.eqb_spec e 0) as [->|He]; simpl.
  - apply IH.
  - destruct (Z.eqb_spec e 0); [done|]. done.
Qed.

(** steps of the engine that only call the driver *)
Lemma runs_then (m m' : comp W Z) (k k' : Eng W Z) s :
  runs m s (k s) -> (forall s1, e_priv s1 = e_priv s -> runs m' s1 (k' s1)) ->
  runs (m ?; m') s ((k ?; k') s).
Proof.
  unfold runs, ok_then, mbind, comp_bind. intros H1 H2. destruct (m (e_dev s)) as [e d|f].
  - rewrite H1. simpl. destruct (Z.eqb_spec e 0) as [->|He]; simpl; [|done].
    by apply (H2 (mk_engine (e_priv s) (live s) (allocs s) d)).
  - by rewrite H1.
Qed.

Lemma runs_call (m : comp W Z) s : runs m s (call m s).
Proof. unfold runs, call. by destruct (m (e_dev s)). Qed.

Lemma test_bit_inside {S} i bm (st : S) : 0 <= i < 8 * Z.of_nat (length bm) ->
  test_bit i bm st = Done (bitmap_has bm i) st.
Proof.
  intros Hi. unfold test_bit, bitmap_has, mbind, comp_bind, nth_c.
  destruct (Z.ltb_spec (i / 8) 0); [zlia|].
  destruct (lookup_lt_is_Some_2 bm (Z.to_nat (i / 8))) as [x Hx]; [zlia|].
  rewrite Hx. by erewrite nth_lookup_Some.
Qed.

Lemma each_component_runs bm op cs s :
  Forall (fun c => 0 <= c_index c < 8 * Z.of_nat (length bm)) cs ->
  runs (until_error (map op (List.filter (fun c => bitmap_has bm (c_index c)) cs))) s
    (each_component bm op cs s).
Proof.
  intros Hc. revert s. induction Hc as [|c cs Hi _ IH]; intros s; simpl.
  { unfold runs. simpl. by rewrite engine_eta. }
  unfold mbind at 1, comp_bind. rewrite test_bit_inside by done.
  destruct (bitmap_has bm (c_index c)); simpl; [|apply IH].
  apply (runs_then (op c) (until_error _)); [apply runs_call|]. intros s1 _. apply IH.
Qed.

Lemma find_record_run l s :
  find_record ops l s = match first_match ops l (e_dev s) with
    | Done (Some r) d => Done 0 (mk_engine (set_matching_record (Some r) (e_priv s)) (live s) (allocs s) d)
    | Done None d => Done (- ENOENT) (mk_engine (e_priv s) (live s) (allocs s) d)
    | Fault f => Fault f
    end.
Proof.
  revert s. induction l as [|r l IH]; intros s; simpl; [by rewrite engine_eta|].
  unfold mbind, comp_bind, call. destruct (match_record ops r (e_dev s)) as [b d|f]; [|done].
  destruct b; [done|]. by rewrite IH.
Qed.

Lemma first_match_in l d r d' : first_match ops l d = Done (Some r) d' -> r ∈ l.
Proof.
  revert d. induction l as [|x l IH]; intros d; simpl; [done|]. unfold mbind, comp_bind.
  destruct (match_record ops x d) as [[|] d1|]; [|intros H; right; by eapply IH|done].
  intros [= -> ->]. left.
Qed.

(** everything after the parser, on a package whose bitmaps cover the components *)
Definition after_match : Eng W Z :=
  pldm_send_package_data ops ?;
  (pldm_send_component_tables ops ?; (pldm_flash_components ops ?; pldm_finalize_update ops)).
Definition after_parse : Eng W Z := pldm_find_matching_record ops ?; after_match.

Lemma until_error_last (m : comp W Z) d : until_error [m] d = m d.
Proof.
  simpl. unfold mbind, comp_bind. destruct (m d) as [e d'|]; [|done].
  destruct (Z.eqb_spec e 0) as [->|]; done.
Qed.

(** after the match: the calls of [update_calls] *)
Lemma after_match_run s r bm nb : let p := e_priv s in
  matching_record p = Some r -> p_component_bitmap_len p = nb -> component_bitmap r = Some bm ->
  Forall (fun c => 0 <= c_index c < 8 * Z.of_nat (length bm)) (components p) ->
  runs (send_package_data ops (package_data r) (package_data_len r) ?;
      (until_error (map (fun c => send_component_table ops c (transfer_flag_of bm nb (c_index c)))
         (List.filter (fun c => bitmap_has bm (c_index c)) (components p))) ?;
       (until_error (map (flash_component ops) (List.filter (fun c => bitmap_has bm (c_index c)) (components p))) ?;
        default (mret 0) (finalize_update ops)))) s (after_match s).
Proof.
  intros p Hr Hnb Hbm Hin. unfold after_match.
  assert (Hmb : forall s2, e_priv s2 = e_priv s -> matching_bitmap s2 = Done bm s2).
  { intros s2 E. unfold matching_bitmap, matching, mbind, comp_bind, get_priv, gets. rewrite E. fold p.
    rewrite Hr. simpl. by rewrite Hbm. }
  apply runs_then.
  { unfold pldm_send_package_data, matching, mbind, comp_bind, get_priv, gets. fold p. rewrite Hr. simpl. apply runs_call. }
  intros s2 E2. apply runs_then.
  { unfold pldm_send_component_tables. unfold mbind at 1, comp_bind. rewrite Hmb by done.
    unfold mbind, comp_bind, get_priv, gets. rewrite E2. fold p. rewrite Hnb. by apply each_component_runs. }
  intros s3 E3. apply runs_then.
  { unfold pldm_flash_components. unfold mbind at 1, comp_bind. rewrite Hmb by congruence.
    unfold mbind, comp_bind, get_priv, gets. rewrite E3, E2. fold p. by apply each_component_runs. }
  intros s4 E4. unfold pldm_finalize_update. destruct (finalize_update ops); simpl; [apply runs_call|].
  unfold runs. simpl. by rewrite engine_eta.
Qed.

Lemma until_error_calls r bm cs nb d : component_bitmap r = Some bm ->
  until_error (update_calls ops r cs nb) d =
  (send_package_data ops (package_data r) (package_data_len r) ?;
      (until_error (map (fun c => send_component_table ops c (transfer_flag_of bm nb (c_index c)))
         (List.filter (fun c => bitmap_has bm (c_index c)) cs)) ?;
       (until_error (map (flash_component ops) (List.filter (fun c => bitmap_has bm (c_index c)) cs)) ?;
        default (mret 0) (finalize_update ops)))) d.
Proof.
  intros Hbm. unfold update_calls, applicable. rewrite Hbm. simpl default.
  rewrite until_error_app. unfold ok_then at 1 2, mbind, comp_bind. rewrite until_error_last.
  destruct (send_package_data _ _ _ _) as [e d'|f]; [|done]. destruct (negb (e =? 0)); [done|].
  rewrite until_error_app. unfold ok_then at 1 2, mbind, comp_bind.
  destruct (until_error _ d') as [e' d''|f]; [|done]. destruct (negb (e' =? 0)); [done|].
  rewrite until_error_app. unfold ok_then, mbind, comp_bind.
  destruct (until_error _ d'') as [e2 d2|f]; [|done]. destruct (negb (e2 =? 0)); [done|].
  by rewrite until_error_last.
Qed.

Lemma after_parse_run s nb :
  let p := e_priv s in
  p_component_bitmap_len p = nb ->
  (forall r, r ∈ records p -> exists bm, component_bitmap r = Some bm /\
     Forall (fun c => 0 <= c_index c < 8 * Z.of_nat (length bm)) (components p)) ->
  match apply_package ops (records p) (components p) nb (e_dev s) with
  | Done e d => exists p', records p' = records p /\ components p' = components p /\
      after_parse s = Done e (mk_engine p' (live s) (allocs s) d)
  | Fault f => after_parse s = Fault f
  end.
Proof.
  intros p Hnb Hcov.
  assert (after_parse s = match first_match ops (records p) (e_dev s) with
    | Done (Some r) d => after_match (mk_engine (set_matching_record (Some r) p) (live s) (allocs s) d)
    | Done None d => Done (- ENOENT) (mk_engine p (live s) (allocs s) d)
    | Fault f => Fault f end) as ->.
  { unfold after_parse, pldm_find_matching_record, ok_then, mbind, comp_bind, get_priv, gets.
    rewrite find_record_run. fold p. by destruct (first_match ops (records p) (e_dev s)) as [[r|] d|f]. }
  unfold apply_package, mbind, comp_bind.
  destruct (first_match ops (records p) (e_dev s)) as [[r|] d|f] eqn:Hm; [| |done].
  2:{ by exists p. }
  destruct (Hcov r) as (bm & Hbm & Hin); [by eapply first_match_in|].
  match goal with |- context [after_match ?x] => set (s1 := x) end.
  pose proof (after_match_run s1 r bm nb eq_refl Hnb Hbm Hin) as Hr. unfold runs in Hr.
  rewrite (until_error_calls _ bm) by done. simpl e_dev in Hr. change (components (e_priv s1)) with (components p) in Hr.
  destruct (ok_then _ _ d) as [e d'|f]; [|done]. exists (e_priv s1). by split_and!.
Qed.

(** ** Freeing *)
Lemma kfree_n_run n s :
  kfree_n n s = Done tt (mk_engine (e_priv s) (live s - Z.of_nat n) (allocs s) (e_dev s)).
Proof.
  revert s. induction n as [|n IH]; intros s; simpl.
  - rewrite Z.sub_0_r. by rewrite engine_eta.
  - unfold mbind, comp_bind. simpl. rewrite IH. simpl. do 2 f_equal. lia.
Qed.
Lemma free_record_run r s :
  free_record r s = Done tt (mk_engine (e_priv s) (live s - objs_of r) (allocs s) (e_dev s)).
Proof.
  unfold free_record, mbind, comp_bind. rewrite kfree_n_run. unfold objs_of, kfree, modify.
  destruct (component_bitmap r); simpl; do 2 f_equal; lia.
Qed.
Lemma free_records_run l s :
  free_records l s = Done tt (mk_engine (e_priv s) (live s - objs l) (allocs s) (e_dev s)).
Proof.
  revert s. induction l as [|r l IH]; intros s; simpl.
  - unfold objs. simpl. rewrite Z.sub_0_r. by rewrite engine_eta.
  - unfold mbind, comp_bind. rewrite free_record_run, IH. unfold objs. simpl. do 2 f_equal. lia.
Qed.
Lemma free_priv_run s : exists p', pldmfw_free_priv s =
  Done tt (mk_engine p' (live s - objs (records (e_priv s)) - Z.of_nat (length (components (e_priv s))))
             (allocs s) (e_dev s)).
Proof.
  unfold pldmfw_free_priv, mbind, comp_bind, get_priv, gets. rewrite kfree_n_run.
  unfold upd_priv, modify. rewrite free_records_run. simpl. eexists. do 2 f_equal. lia.
Qed.

(** ** What a package guarantees *)
Lemma record_chain_le nb o l o' : 0 <= nb -> 0 <= o -> chain (kept_at fw nb) o l o' -> o <= o'.
Proof using fw_bytes.
  intros Hn Ho. induction 1 as [o|o x o1 l o2 Hx _ IH]; [lia|].
  destruct Hx as (y & Hy & _ & _ & -> & _ & He & _).
  pose proof (le16_at_range fw fw_bytes o) as H. unfold in_range in H. lia.
Qed.

Lemma package_bitmaps rs cs nb r : parsed_at fw crc32_le rs cs nb -> r ∈ rs ->
  exists bm, component_bitmap r = Some bm /\ Z.of_nat (length bm) = 8 * BITS_TO_LONGS nb.
Proof using fw_bytes.
  intros [H1 H2 H3 H4 <- H6 (o1 & o2 & H7 & H8 & H9 & _)] Hin.
  assert (Hn : 0 <= le16_at fw 32 < 65536) by exact (le16_at_range fw fw_bytes 32).
  assert (Hv : 0 <= byte_at fw 35 < 256) by exact (byte_at_range fw fw_bytes 35).
  assert (Ho : 0 <= 36 + byte_at fw 35 + 1) by lia. revert Ho Hin. clear -H9 Hn H6 fw_bytes.
  induction H9 as [o|o x o1 l o2 Hx Hc IH]; intros Ho Hin; [by apply elem_of_nil in Hin|].
  destruct Hx as (y & Hy & _ & Hv & -> & _ & He & Er).
  pose proof (le16_at_range fw fw_bytes o) as H. unfold in_range in H.
  pose proof (byte_at_range fw fw_bytes (o + 8)) as H8. unfold in_range in H8.
  apply elem_of_cons in Hin as [->|Hin]; [|apply IH; [lia|done]].
  rewrite Er. simpl. eexists. split; [done|]. apply bitmap_at_length; lia || zlia.
Qed.

Lemma components_index i o cs o' k c : components_at fw i o cs o' -> cs !! k = Some c ->
  c_index c = i + Z.of_nat k.
Proof.
  intros H. revert k. induction H as [i o|i o x o1 l o2 (_ & _ & _ & ->) _ IH]; intros k Hk; [done|].
  destruct k as [|k]; simpl in Hk; [injection Hk as <-; simpl; lia|]. apply IH in Hk. lia.
Qed.

Lemma package_indices rs cs nb : parsed_at fw crc32_le rs cs nb ->
  forall k c, cs !! k = Some c -> c_index c = Z.of_nat k.
Proof.
  intros [_ _ _ _ _ _ (o1 & o2 & _ & _ & _ & _ & _ & _ & Hc & _)] k c Hk.
  by rewrite (components_index _ _ _ _ _ _ Hc Hk).
Qed.

Lemma package_covered rs cs nb : parsed_at fw crc32_le rs cs nb ->
  Z.of_nat (length cs) <= 64 * BITS_TO_LONGS nb ->
  forall r, r ∈ rs -> exists bm, component_bitmap r = Some bm /\
    Forall (fun c => 0 <= c_index c < 8 * Z.of_nat (length bm)) cs.
Proof using fw_bytes.
  intros Hp Hl r Hr. destruct (package_bitmaps _ _ _ _ Hp Hr) as (bm & Hbm & Hlen).
  exists bm. split; [done|]. apply Forall_lookup. intros k c Hk.
  rewrite (package_indices _ _ _ Hp _ _ Hk), Hlen. apply lookup_lt_Some in Hk. lia.
Qed.

(** ** The whole update *)
Lemma flash_image_run s :
  (forall rs cs nb, parsed_at fw crc32_le rs cs nb -> Z.of_nat (length cs) <= 64 * BITS_TO_LONGS nb /\
     exists e d, apply_package ops rs cs nb (e_dev s) = Done e d) ->
  wp (pldmfw_flash_image kz crc32_le fw ops) (fun e s' => live s' = live s /\
    ((e <> 0 /\ e_dev s' = e_dev s /\ fails kz (exists rs cs nb, parsed_at fw crc32_le rs cs nb)) \/
     exists rs cs nb, parsed_at fw crc32_le rs cs nb /\
       apply_package ops rs cs nb (e_dev s) = Done e (e_dev s'))) s.
Proof using fw_bytes fw_small.
  intros Hpk. unfold pldmfw_flash_image. wp_step. apply wp_kzalloc; intros Hk; simpl.
  2:{ apply wp_ret. split; [done|]. left. split_and!; try done. left. eauto. }
  wp_step. unfold upd_priv at 1. apply wp_modify. simpl.
  match goal with |- wp _ _ ?x => set (s1 := x) end. wp_step. apply wp_ok_then.
  eapply wp_mono; [by apply (wp_parse_image kz fw fw_bytes fw_small crc32_le s1)|]. cbv beta.
  intros e s2 (Hl & Hd & Hbad & Hgood). change (live s1) with (live s + 1) in Hl.
  change (e_dev s1) with (e_dev s) in Hd. destruct (Z.eqb_spec e 0) as [->|He].
  - destruct (Hgood eq_refl) as (nb & Hp & Hnb). destruct (Hpk _ _ _ Hp) as (Hcov & e & d & Ha).
    pose proof (after_parse_run s2 nb Hnb (package_covered _ _ _ Hp Hcov)) as Hr. rewrite Hd, Ha in Hr.
    destruct Hr as (p' & Hr1 & Hr2 & Hr). fold after_match. fold after_parse. unfold wp at 1. rewrite Hr.
    wp_step. destruct (free_priv_run (mk_engine p' (live s2) (allocs s2) d)) as (p'' & Hf).
    unfold wp at 1. rewrite Hf. wp_step. unfold kfree. apply wp_modify, wp_ret. simpl.
    split; [rewrite Hr1, Hr2; lia|]. right. eauto.
  - wp_step. destruct (free_priv_run s2) as (p'' & Hf). unfold wp at 1. rewrite Hf.
    wp_step. unfold kfree. apply wp_modify, wp_ret. simpl. split; [lia|]. left. split_and!; try done. by apply Hbad.
Qed.
End Run.
