(* ===== verification/PldmProps.v ===== *)
(** * Firmware images: what the parser and the engine guarantee *)
From S2P Require Import Prelude Status Bytes Pldm PldmParse PldmEngine.

(** ** Writing packages

    The contents of a package as data, a writer, and the proof that what it writes
    has the layout of PldmParse.v: every package can be read back. *)
Record desc_src := mk_dsrc { ds_type : Z; ds_data : list Z }.
Record record_src := mk_rsrc {
  rs_flags : Z; rs_vtype : Z; rs_version : list Z; rs_bitmap : list Z; rs_descs : list desc_src;
  rs_package : list Z }.
Record comp_src := mk_csrc {
  cs_class : Z; cs_id : Z; cs_stamp : Z; cs_options : Z; cs_activation : Z; cs_location : Z;
  cs_size : Z; cs_vtype : Z; cs_version : list Z }.
Record pkg_src := mk_psrc {
  ps_date : list Z; ps_vtype : Z; ps_version : list Z; ps_nbits : Z;
  ps_records : list record_src; ps_comps : list comp_src }.

Definition zlen {A} (l : list A) : Z := Z.of_nat (length l).
Definition le16b (x : Z) : list Z := [u8 x; u8 (Z.shiftr x 8)].

Definition enc_desc (d : desc_src) : list Z := le16b (ds_type d) ++ le16b (zlen (ds_data d)) ++ ds_data d.
Definition rec_body (r : record_src) : list Z :=
  [zlen (rs_descs r)] ++ bytes_of_word (rs_flags r) ++ [rs_vtype r; zlen (rs_version r)] ++
  le16b (zlen (rs_package r)) ++ rs_bitmap r ++ rs_version r ++ concat (map enc_desc (rs_descs r)) ++ rs_package r.
Definition enc_record (r : record_src) : list Z := le16b (2 + zlen (rec_body r)) ++ rec_body r.
Definition enc_comp (c : comp_src) : list Z :=
  le16b (cs_class c) ++ le16b (cs_id c) ++ bytes_of_word (cs_stamp c) ++ le16b (cs_options c) ++
  le16b (cs_activation c) ++ bytes_of_word (cs_location c) ++ bytes_of_word (cs_size c) ++
  [cs_vtype c; zlen (cs_version c)] ++ cs_version c.
(** what follows the total size *)
Definition pkg_body (p : pkg_src) : list Z :=
  ps_date p ++ le16b (ps_nbits p) ++ [ps_vtype p; zlen (ps_version p)] ++ ps_version p ++
  [zlen (ps_records p)] ++ concat (map enc_record (ps_records p)) ++
  le16b (zlen (ps_comps p)) ++ concat (map enc_comp (ps_comps p)).
Definition total_size (p : pkg_src) : Z := 19 + zlen (pkg_body p) + 4.
Definition enc_head (p : pkg_src) : list Z :=
  pldm_firmware_header_id ++ [PACKAGE_HEADER_FORMAT_REVISION] ++ le16b (total_size p) ++ pkg_body p.
Definition encode (crc : Z -> list Z -> Z) (p : pkg_src) (payload : list Z) : list Z :=
  enc_head p ++ bytes_of_word (Z.lxor (crc (bnot 32 0) (enc_head p)) (bnot 32 0)) ++ payload.

(** every number fits its field *)
Definition desc_wf (d : desc_src) : Prop :=
  in_range 16 (ds_type d) /\ zlen (ds_data d) < 65536 /\
  pldm_check_desc_tlv_len (ds_type d) (zlen (ds_data d)) = 0.
Definition rec_wf (nbits : Z) (r : record_src) : Prop :=
  in_range 32 (rs_flags r) /\ zlen (rs_bitmap r) = nbits / 8 /\ Forall desc_wf (rs_descs r) /\ zlen (rs_descs r) < 256 /\
  zlen (rs_version r) < 256 /\ zlen (rs_package r) < 65536 /\ 2 + zlen (rec_body r) < 65536.
Definition comp_wf (n : Z) (c : comp_src) : Prop :=
  in_range 16 (cs_class c) /\ in_range 16 (cs_id c) /\ in_range 32 (cs_stamp c) /\
  in_range 16 (cs_options c) /\ in_range 16 (cs_activation c) /\ in_range 32 (cs_location c) /\
  in_range 32 (cs_size c) /\ zlen (cs_version c) < 256 /\ cs_location c + cs_size c <= n.
Definition pkg_wf (n : Z) (p : pkg_src) : Prop :=
  zlen (ps_date p) = 13 /\ zlen (ps_version p) < 256 /\ in_range 16 (ps_nbits p) /\
  ps_nbits p mod 8 = 0 /\ Forall (rec_wf (ps_nbits p)) (ps_records p) /\ zlen (ps_records p) < 256 /\
  Forall (comp_wf n) (ps_comps p) /\ zlen (ps_comps p) < 256 /\ total_size p < 65536.

Lemma zlen_nil {A} : zlen (@nil A) = 0.
Proof. done. Qed.
Lemma zlen_cons {A} (x : A) l : zlen (x :: l) = 1 + zlen l.
Proof. unfold zlen. simpl. lia. Qed.
Lemma zlen_app {A} (l l' : list A) : zlen (l ++ l') = zlen l + zlen l'.
Proof. unfold zlen. rewrite length_app. lia. Qed.
Lemma zlen_le16b x : zlen (le16b x) = 2.
Proof. done. Qed.
Lemma zlen_word x : zlen (bytes_of_word x) = 4.
Proof. done. Qed.
Lemma zlen_nonneg {A} (l : list A) : 0 <= zlen l.
Proof. unfold zlen. lia. Qed.
#[global] Arguments zlen : simpl never.
Create Rewrite HintDb zlen.
#[export] Hint Rewrite @zlen_nil @zlen_cons @zlen_app zlen_le16b zlen_word : zlen.

(** ** Bytes at an offset *)
Definition holds (fw : list Z) (o : Z) (l : list Z) : Prop :=
  exists pre post, fw = pre ++ l ++ post /\ zlen pre = o.

Lemma holds_app fw o l l' : holds fw o (l ++ l') -> holds fw o l /\ holds fw (o + zlen l) l'.
Proof.
  intros (pre & post & -> & <-). split.
  - exists pre, (l' ++ post). by rewrite <- !(assoc_L app).
  - exists (pre ++ l), post. rewrite <- !(assoc_L app). split; [done|]. rewrite zlen_app. lia.
Qed.
Lemma holds_cons fw o x l : holds fw o (x :: l) -> byte_at fw o = x /\ holds fw (o + 1) l.
Proof.
  intros H. change (x :: l) with ([x] ++ l) in H. split; [|by apply holds_app in H as [_ ?]].
  destruct H as (pre & post & -> & <-). unfold byte_at, get8. unfold zlen.
  by rewrite Nat2Z.id, app_nth2, Nat.sub_diag by lia.
Qed.
Lemma holds_bound fw o l : holds fw o l -> 0 <= o /\ o + zlen l <= fw_size fw.
Proof.
  intros (pre & post & -> & <-). unfold zlen, fw_size. rewrite !length_app. lia.
Qed.
Lemma holds_bytes fw o l : holds fw o l -> bytes_at fw o (zlen l) = l.
Proof.
  intros (pre & post & -> & <-). unfold bytes_at, zlen. rewrite !Nat2Z.id, drop_app_length.
  by rewrite take_app_length.
Qed.
Lemma holds_le16 fw o x : holds fw o (le16b x) -> in_range 16 x -> le16_at fw o = x.
Proof.
  intros H Hx. unfold le16b in H. apply holds_cons in H as [Ha H]. apply holds_cons in H as [Hb _].
  unfold le16_at. rewrite Ha, Hb. apply Z.bits_inj'. intros i Hi.
  rewrite Z.lor_spec, Z.shiftl_spec, !testbit_trunc by lia.
  destruct (Z.ltb_spec i 8) as [H8|H8]; simpl.
  - by rewrite (Z.testbit_neg_r _ (i - 8)), andb_false_r, orb_false_r by lia.
  - rewrite Z.shiftr_spec by lia. destruct (Z.ltb_spec (i - 8) 8); simpl; [f_equal; lia|].
    symmetry. apply (testbit_range 16); [done|lia].
Qed.
Lemma holds_le32 fw o x : holds fw o (bytes_of_word x) -> in_range 32 x -> le32_at fw o = x.
Proof.
  intros H Hx. unfold bytes_of_word in H. do 4 (apply holds_cons in H as [? H]).
  unfold le32_at. replace (o + 2) with (o + 1 + 1) by lia. replace (o + 3) with (o + 1 + 1 + 1) by lia.
  repeat match goal with E : byte_at _ _ = _ |- _ => rewrite E; clear E end. by apply word_of_bytes.
Qed.

(** [enc] of a list, one element after the other *)
Fixpoint lay {A B} (enc : A -> list Z) (f : Z -> A -> B) (o : Z) (l : list A) : list B :=
  match l with
  | [] => []
  | x :: l' => f o x :: lay enc f (o + zlen (enc x)) l'
  end.

Lemma lay_length {A B} enc (f : Z -> A -> B) o l : length (lay enc f o l) = length l.
Proof. revert o. induction l as [|x l IH]; intros o; simpl; [done|]. by rewrite IH. Qed.

Lemma chain_lay {A B} fw (enc : A -> list Z) (f : Z -> A -> B) (P : Z -> B -> Z -> Prop) (ok : A -> Prop) l :
  (forall o x, ok x -> holds fw o (enc x) -> P o (f o x) (o + zlen (enc x))) -> Forall ok l ->
  forall o, holds fw o (concat (map enc l)) ->
  chain P o (lay enc f o l) (o + zlen (concat (map enc l))).
Proof.
  intros HP Hok. induction Hok as [|x l Hx _ IH]; intros o H; simpl.
  - unfold zlen. simpl. rewrite Z.add_0_r. constructor.
  - apply holds_app in H as [H1 H2]. econstructor; [by apply HP|]. unfold zlen in *. rewrite length_app.
    rewrite Nat2Z.inj_add, Z.add_assoc. by apply IH.
Qed.

Lemma holds_at fw o o' l : holds fw o l -> o = o' -> holds fw o' l.
Proof. by intros ? <-. Qed.

(** take the next piece of [H] off, as [Hx] *)
Ltac piece H Hx := apply holds_app in H as [Hx H]; autorewrite with zlen in H.

(** ** The layout of what is written *)
Definition desc_lay (o : Z) (d : desc_src) : pldmfw_desc_tlv :=
  mk_desc_tlv (o + 4) (ds_type d) (zlen (ds_data d)).

Lemma holds_desc fw o d : desc_wf d -> holds fw o (enc_desc d) ->
  desc_at fw o (desc_lay o d) (o + zlen (enc_desc d)).
Proof.
  intros (Ht & Hl & Hc) H. pose proof (holds_bound _ _ _ H) as Hb. pose proof (zlen_nonneg (ds_data d)) as Hnn.
  unfold enc_desc in *. autorewrite with zlen in *. piece H H1. piece H H2.
  unfold desc_at, desc_lay. rewrite (holds_le16 _ _ _ H1) by done.
  rewrite (holds_le16 _ _ _ H2) by (unfold in_range; lia). simpl. split_and!; done || lia.
Qed.

Definition rec_lay (nb o : Z) (r : record_src) : pldmfw_record :=
  let vs := o + 11 + nb / 8 in
  let ds := vs + zlen (rs_version r) in
  mk_record (lay enc_desc desc_lay ds (rs_descs r)) vs (rs_vtype r) (zlen (rs_version r)) (zlen (rs_package r)) (rs_flags r)
    (ds + zlen (concat (map enc_desc (rs_descs r))))
    (Some (rs_bitmap r ++ drop (Z.to_nat (nb / 8)) (bitmap_bytes nb))) nb.

Lemma holds_record fw nb o r : 0 <= nb -> rec_wf nb r -> holds fw o (enc_record r) ->
  record_at fw nb o (rec_lay nb o r) (o + zlen (enc_record r)).
Proof.
  intros Hn (Hfl & Hbm & Hds & Hdc & Hv & Hp & Hl) H. pose proof (holds_bound _ _ _ H) as Hb.
  pose proof (zlen_nonneg (rs_package r)) as Hp0. pose proof (zlen_nonneg (rs_version r)) as Hv0.
  pose proof (zlen_nonneg (concat (map enc_desc (rs_descs r)))) as Hd0.
  pose proof (zlen_nonneg (rec_body r)) as Hb0.
  unfold enc_record in *. piece H H1. rewrite zlen_app, zlen_le16b in *.
  assert (Hz : zlen (rec_body r) = 9 + nb / 8 + zlen (rs_version r) +
    zlen (concat (map enc_desc (rs_descs r))) + zlen (rs_package r)).
  { unfold rec_body. autorewrite with zlen. lia. }
  apply holds_le16 in H1; [|unfold in_range; lia]. unfold rec_body in H.
  piece H H2. piece H H3. piece H H4. piece H H5. piece H H6. piece H H7. piece H H8.
  apply holds_cons in H2 as [H2 _]. apply (holds_at _ _ (o + 3)) in H3; [|lia]. apply holds_le32 in H3; [|done].
  apply holds_cons in H4 as [H4 H4']. apply holds_cons in H4' as [H4' _].
  apply holds_le16 in H5; [|unfold in_range; lia].
  apply (holds_at _ _ (o + 11)) in H6; [|lia]. apply holds_bytes in H6. rewrite Hbm in H6.
  apply (holds_at _ _ (o + 11 + nb / 8 + zlen (rs_version r))) in H8; [|lia].
  replace (o + 2 + (1 + 0) + 4) with (o + 7) in * by lia. replace (o + 7 + 1) with (o + 8) in * by lia.
  replace (o + 7 + (1 + (1 + 0))) with (o + 9) in * by lia.
  unfold record_at, record_lay. rewrite H4', H5, H2, H1. exists (o + 11 + nb / 8 + zlen (rs_version r) +
    zlen (concat (map enc_desc (rs_descs r)))).
  assert (Zt : forall A B (l : list A) (l' : list B), length l = length l' -> Z.of_nat (length l) = zlen l')
    by (by intros ???? ->).
  split_and!; [|apply Zt, lay_length|lia|lia|lia|lia|].
  - eapply (chain_lay fw _ _ _ desc_wf); [|done|done]. intros. by apply holds_desc.
  - unfold rec_lay, bitmap_at. simpl. by rewrite H3, H4, H6.
Qed.

Definition comp_lay (i o : Z) (c : comp_src) : pldmfw_component :=
  mk_component (cs_class c) (cs_id c) (cs_options c) (cs_activation c) (cs_stamp c) (cs_size c)
    (cs_location c) (o + 22) (cs_vtype c) (zlen (cs_version c)) i.

Lemma holds_comp fw i o c : comp_wf (fw_size fw) c -> holds fw o (enc_comp c) ->
  component_at fw i o (comp_lay i o c) (o + zlen (enc_comp c)).
Proof.
  intros (H1 & H2 & H3 & H4 & H5 & H6 & H7 & H8 & H9) H. pose proof (holds_bound _ _ _ H) as Hb.
  unfold enc_comp in *. autorewrite with zlen in *.
  piece H G1. piece H G2. piece H G3. piece H G4. piece H G5. piece H G6. piece H G7. piece H G8.
  apply holds_le16 in G1; [|done]. apply holds_le16 in G2; [|done]. apply holds_le32 in G3; [|done].
  apply holds_le16 in G4; [|done]. apply holds_le16 in G5; [|done]. apply holds_le32 in G6; [|done].
  apply holds_le32 in G7; [|done]. apply holds_cons in G8 as [G8 G9]. apply holds_cons in G9 as [G9 _].
  unfold component_at.
  replace (o + 2 + 2) with (o + 4) in * by lia. replace (o + 4 + 4) with (o + 8) in * by lia.
  replace (o + 8 + 2) with (o + 10) in * by lia. replace (o + 10 + 2) with (o + 12) in * by lia.
  replace (o + 12 + 4) with (o + 16) in * by lia. replace (o + 16 + 4) with (o + 20) in * by lia.
  replace (o + 20 + 1) with (o + 21) in * by lia. rewrite G1, G2, G3, G4, G5, G6, G7, G8, G9.
  split_and!; done || lia.
Qed.

Fixpoint comps_lay (i o : Z) (l : list comp_src) : list pldmfw_component :=
  match l with
  | [] => []
  | c :: l' => comp_lay i o c :: comps_lay (i + 1) (o + zlen (enc_comp c)) l'
  end.
Lemma comps_lay_length i o l : length (comps_lay i o l) = length l.
Proof. revert i o. induction l as [|x l IH]; intros i o; simpl; [done|]. by rewrite IH. Qed.

Lemma holds_comps fw l : Forall (comp_wf (fw_size fw)) l -> forall i o,
  holds fw o (concat (map enc_comp l)) ->
  components_at fw i o (comps_lay i o l) (o + zlen (concat (map enc_comp l))).
Proof.
  induction 1 as [|c l Hc _ IH]; intros i o H; cbn [map concat comps_lay].
  - rewrite zlen_nil, Z.add_0_r. constructor.
  - cbn [map concat] in H. apply holds_app in H as [H1 H2]. econstructor; [by apply holds_comp|].
    rewrite zlen_app, Z.add_assoc. by apply IH.
Qed.

(** ** The whole package *)
Definition records_lay (p : pkg_src) : list pldmfw_record :=
  lay enc_record (rec_lay (ps_nbits p)) (37 + zlen (ps_version p)) (ps_records p).
Definition components_lay (p : pkg_src) : list pldmfw_component :=
  comps_lay 0 (37 + zlen (ps_version p) + zlen (concat (map enc_record (ps_records p))) + 2) (ps_comps p).

Lemma encode_package crc p payload : let fw := encode crc p payload in
  pkg_wf (fw_size fw) p -> in_range 32 (crc (bnot 32 0) (enc_head p)) ->
  package_at fw crc (records_lay p) (components_lay p) (ps_nbits p).
Proof.
  intros fw (Hd & Hv & Hn & Hm & Hrs & Hrc & Hcs & Hcc & Ht) Hcrc.
  assert (H : holds fw 0 (enc_head p ++ bytes_of_word (Z.lxor (crc (bnot 32 0) (enc_head p)) (bnot 32 0)))).
  { exists [], payload. unfold fw, encode. by rewrite <- (assoc_L app). }
  pose proof (zlen_nonneg (ps_version p)) as Hv0. pose proof (zlen_nonneg (concat (map enc_record (ps_records p)))) as Hr0.
  pose proof (zlen_nonneg (concat (map enc_comp (ps_comps p)))) as Hc0.
  assert (Hb : zlen (pkg_body p) = 18 + zlen (ps_version p) + zlen (concat (map enc_record (ps_records p))) + 2 +
    zlen (concat (map enc_comp (ps_comps p)))).
  { unfold pkg_body. autorewrite with zlen. lia. }
  assert (Hh : zlen (enc_head p) = 19 + zlen (pkg_body p)).
  { unfold enc_head. autorewrite with zlen. change (zlen pldm_firmware_header_id) with 16. lia. }
  pose proof (holds_bound _ _ _ H) as [_ Hend]. autorewrite with zlen in Hend.
  apply holds_app in H as [H Hc]. pose proof (holds_bytes _ _ _ H) as Hall.
  apply holds_le32 in Hc; [|apply lxor_range; [lia|done|by apply bnot_range]].
  unfold enc_head in H. piece H H1. change (zlen pldm_firmware_header_id) with 16 in H. piece H H2. piece H H3.
  apply holds_bytes in H1. change (zlen pldm_firmware_header_id) with 16 in H1.
  apply holds_cons in H2 as [H2 _]. apply holds_le16 in H3; [|unfold in_range, total_size in *; lia].
  unfold pkg_body in H. piece H G1. rewrite Hd in H. piece H G2. piece H G3. piece H G4. piece H G5. piece H G6. piece H G7.
  apply holds_le16 in G2; [|done]. apply holds_cons in G3 as [_ G3]. apply holds_cons in G3 as [G3 _].
  apply holds_cons in G5 as [G5 _].
  apply (holds_at _ _ (37 + zlen (ps_version p))) in G6; [|lia].
  apply (holds_at _ _ (37 + zlen (ps_version p) + zlen (concat (map enc_record (ps_records p))))) in G7; [|lia].
  apply holds_le16 in G7; [|unfold in_range; pose proof (zlen_nonneg (ps_comps p)); lia].
  apply (holds_at _ _ (37 + zlen (ps_version p) + zlen (concat (map enc_record (ps_records p))) + 2)) in H; [|lia].
  assert (Zt : forall A B (l : list A) (l' : list B), length l = length l' -> Z.of_nat (length l) = zlen l')
    by (by intros ???? ->).
  change (0 + 16 + (1 + 0)) with 17 in H3. change (0 + 16) with 16 in H2.
  change (0 + 16 + (1 + 0) + 2 + 13) with 32 in *. change (32 + 2 + 1) with 35 in *. assert (Hts : total_size p <= fw_size fw) by (unfold total_size; lia).
  split; try done; [lia|by rewrite H3|].
  exists (37 + zlen (ps_version p) + zlen (concat (map enc_record (ps_records p)))), (zlen (enc_head p)).
  simpl. rewrite G3. replace (36 + zlen (ps_version p) + 1) with (37 + zlen (ps_version p)) by lia.
  replace (32 + 2 + (1 + (1 + 0)) + zlen (ps_version p)) with (36 + zlen (ps_version p)) in G5 by lia.
  rewrite G5, G7. split_and!; [lia|apply Zt, lay_length| |lia|apply Zt, comps_lay_length| | | |].
  - eapply (chain_lay fw _ _ _ (rec_wf (ps_nbits p))); [|done|done]. intros. apply holds_record; [apply Hn|done|done].
  - unfold components_lay. rewrite comps_lay_length. unfold zlen in Hcc. lia.
  - rewrite Hh, Hb. replace (19 + (18 + zlen (ps_version p) + zlen (concat (map enc_record (ps_records p))) + 2 +
      zlen (concat (map enc_comp (ps_comps p))))) with
      (37 + zlen (ps_version p) + zlen (concat (map enc_record (ps_records p))) + 2 + zlen (concat (map enc_comp (ps_comps p)))) by lia.
    by apply holds_comps.
  - rewrite H3, Hh. unfold total_size. lia.
  - rewrite Hall, <- Hc. by rewrite Z.add_0_l.
Qed.

(** ** The theorems *)
(** the state in which [pldmfw_flash_image] starts the parser *)
Definition fresh {W} (s : engine W) : Prop :=
  p_offset (e_priv s) = 0 /\ records (e_priv s) = [] /\ components (e_priv s) = [].

Lemma package_det fw crc rs cs nb rs' cs' nb' :
  package_at fw crc rs cs nb -> package_at fw crc rs' cs' nb' -> rs = rs' /\ cs = cs' /\ nb = nb'.
Proof.
  intros [_ _ _ _ <- _ (a & b & H)] [_ _ _ _ <- _ (a' & b' & H')]. simpl in *.
  destruct H as (_ & L1 & C1 & _ & L2 & _ & C2 & _). destruct H' as (_ & L1' & C1' & _ & L2' & _ & C2' & _).
  destruct (chain_det _ (record_lay_det fw _ _) _ _ _ _ _ C1 C1') as [-> <-]; [lia|].
  by destruct (components_det _ _ _ _ _ _ _ C2 C2') as [-> _]; [lia|].
Qed.
Lemma parsed_exists fw crc : (exists rs cs nb, parsed_at fw crc rs cs nb) <-> exists rs cs nb, package_at fw crc rs cs nb.
Proof.
  split.
  - intros (rs & cs & nb & (rs0 & H & _)%parsed_iff). eauto.
  - intros (rs & cs & nb & H). exists (map forget_flags rs), cs, nb. apply parsed_iff. eauto.
Qed.

Section Parser.
Context {W : Type} (kz : nat -> bool) (crc32_le : Z -> list Z -> Z) (fw : list Z).


End Parser.


Section Engine.
Context {W : Type} (kz : nat -> bool) (crc32_le : Z -> list Z -> Z) (fw : list Z) (ops : pldmfw_ops W).

(** [pldmfw_flash_image] either fails without having called the driver
    (which happens only for a file that is not a package, or for want of memory),
    or the driver gets exactly the calls the package asks for: the package data
    of the first matching record, the tables of its components with their
    transfer flags, the components, the end, each only if all before succeeded.
    All memory is released, whatever happens. *)
Theorem pldm_flash_image_refines (s : engine W) :
  Forall byte fw -> fw_size fw < 2 ^ 62 ->
  (forall rs cs nb, package_at fw crc32_le rs cs nb -> Z.of_nat (length cs) <= 64 * BITS_TO_LONGS nb /\
     exists e d, apply_package ops (map forget_flags rs) cs nb (e_dev s) = Done e d) ->
  wp (pldmfw_flash_image kz crc32_le fw ops) (fun e s' => live s' = live s /\
    ((e <> 0 /\ e_dev s' = e_dev s /\
      ((exists k, kz k = false) \/ ~ exists rs cs nb, package_at fw crc32_le rs cs nb)) \/
     exists rs cs nb, package_at fw crc32_le rs cs nb /\
       apply_package ops (map forget_flags rs) cs nb (e_dev s) = Done e (e_dev s'))) s.
Proof.
  intros Hb Hs H. eapply wp_mono; [apply flash_image_run; [done|done|]|].
  - intros rs cs nb (rs0 & Hp & ->)%parsed_iff. by apply H.
  - cbv beta. intros e s' (Hl & [(He & Hd & Hf)|(rs & cs & nb & (rs0 & Hp & ->)%parsed_iff & Ha)]); (split; [done|]).
    + left. split_and!; try done. destruct Hf as [|Hn]; [by left|]. right. by rewrite <- parsed_exists.
    + right. by exists rs0, cs, nb.
Qed.

Lemma each_component_overrun bm op cs (s : engine W) :
  (forall c d, exists d', op c d = Done 0 d') ->
  (exists c, c ∈ cs /\ 8 * Z.of_nat (length bm) <= c_index c) ->
  each_component bm op cs s = Fault FOutOfBounds.
Proof.
  intros Hop (c & Hin & Hc). revert s. induction cs as [|c0 cs IH]; intros s; [by apply elem_of_nil in Hin|].
  simpl. unfold mbind at 1, comp_bind.
  destruct (test_bit (c_index c0) bm s) as [b s1|f] eqn:Ht.
  - apply elem_of_cons in Hin as [<-|Hin].
    { exfalso. unfold test_bit, mbind, comp_bind, nth_c in Ht. destruct (c_index c / 8 <? 0); [done|].
      rewrite lookup_ge_None_2 in Ht by zlia. done. }
    destruct b; simpl; [|by apply IH]. unfold ok_then, mbind, comp_bind, call.
    destruct (Hop c0 (e_dev s1)) as [d' ->]. simpl. by apply IH.
  - unfold test_bit, mbind, comp_bind, nth_c in Ht. destruct (c_index c0 / 8 <? 0); [by injection Ht as <-|].
    destruct (bm !! Z.to_nat (c_index c0 / 8)); [done|by injection Ht as <-].
Qed.

Lemma after_match_overrun (s : engine W) r bm d1 : let p := e_priv s in
  matching_record p = Some r -> component_bitmap r = Some bm ->
  (exists c, c ∈ components p /\ 8 * Z.of_nat (length bm) <= c_index c) ->
  send_package_data ops (package_data r) (package_data_len r) (e_dev s) = Done 0 d1 ->
  (forall c f d, exists d', send_component_table ops c f d = Done 0 d') ->
  after_match ops s = Fault FOutOfBounds.
Proof.
  intros p Hm Hbm Hc Hsend Htab.
  assert (H1 : pldm_send_package_data ops s = Done 0 (mk_engine p (live s) (allocs s) d1)).
  { unfold pldm_send_package_data, matching, mbind, comp_bind, get_priv, gets. fold p. rewrite Hm. simpl.
    unfold call. by rewrite Hsend. }
  assert (H2 : pldm_send_component_tables ops (mk_engine p (live s) (allocs s) d1) = Fault FOutOfBounds).
  { unfold pldm_send_component_tables, matching_bitmap, matching, mbind, comp_bind, get_priv, gets. simpl.
    rewrite Hm. simpl. rewrite Hbm. simpl. apply each_component_overrun; [by intros; apply Htab|done]. }
  unfold after_match, ok_then, mbind, comp_bind. rewrite H1. change (negb (0 =? 0)) with false.
  cbv beta iota. by rewrite H2.
Qed.

(** C32: The number of components is not checked against the length of the component
    bitmaps.  An image with more components than its bitmaps have bits (rounded
    up to longs; a bitmap of zero bits and one component suffice) passes every
    check, checksum included, and if a record matches and the firmware accepts
    what it is sent, [test_bit] reads outside the bitmap. *)
Theorem pldm_bitmap_overrun (s : engine W) rs cs nb r d d1 :
  Forall byte fw -> fw_size fw < 2 ^ 62 -> (forall k, kz k = true) ->
  package_at fw crc32_le rs cs nb -> 64 * BITS_TO_LONGS nb < Z.of_nat (length cs) ->
  first_match ops (map forget_flags rs) (e_dev s) = Done (Some r) d ->
  send_package_data ops (package_data r) (package_data_len r) d = Done 0 d1 ->
  (forall c f d, exists d', send_component_table ops c f d = Done 0 d') ->
  pldmfw_flash_image kz crc32_le fw ops s = Fault FOutOfBounds.
Proof.
  intros Hb Hs Hk Hp Hlen Hm Hsend Htab. unfold pldmfw_flash_image, mbind, comp_bind, kzalloc.
  rewrite Hk. simpl. match goal with |- context [ok_then _ _ ?x] => set (s1 := x) end.
  assert (Hf : fresh s1) by done. destruct Hf as (Ho & Hr & Hc).
  pose proof (wp_parse_image kz fw Hb Hs crc32_le s1 Ho Hr Hc) as H. apply wp_done in H as (e & s2 & E & _ & Hd & H1 & H0).
  assert (He : e = 0).
  { destruct (Z.eq_dec e 0) as [|He]; [done|]. destruct (H1 He) as [[k Hf]|Hn]; [by rewrite Hk in Hf|].
    exfalso. apply Hn, parsed_exists. eauto. }
  subst e. destruct (H0 eq_refl) as (nb' & Hpp & Hnb). pose proof Hpp as (rs0 & Hp' & Er)%parsed_iff.
  destruct (package_det _ _ _ _ _ _ _ _ Hp' Hp) as (-> & Ec & ->).
  fold (after_match ops). unfold ok_then, mbind, comp_bind. rewrite E. simpl.
  unfold pldm_find_matching_record, mbind, comp_bind, get_priv, gets. rewrite find_record_run, Er, Hd.
  change (e_dev s1) with (e_dev s). rewrite Hm. simpl.
  destruct (package_bitmaps crc32_le fw Hb _ _ _ r Hpp) as (bm & Hbm & Hbl); [rewrite Er; by eapply first_match_in|].
  erewrite (after_match_overrun _ r bm d1); [done|done|done| |done|done]. simpl. rewrite Ec.
  destruct (lookup_lt_is_Some_2 cs (length cs - 1)%nat) as [c Hcl]; [lia|].
  exists c. split; [apply list_elem_of_lookup; eauto|]. rewrite Ec in Hpp. rewrite (package_indices _ _ _ _ _ Hpp _ _ Hcl), Hbl. lia.
Qed.
End Engine.

(** ** Concrete images *)

(** the CRC-32 of IEEE 802.3, bit by bit *)
Definition crc_bit (c : Z) : Z :=
  if Z.odd c then Z.lxor (Z.shiftr c 1) 0xEDB88320 else Z.shiftr c 1.
Definition crc32 (c : Z) (l : list Z) : Z :=
  foldl (fun c b => Nat.iter 8 crc_bit (Z.lxor c b)) c l.

(** one record for the PCI device 8086:57ae, one component of four bytes *)
Definition ex_pkg (nbits : Z) (bitmap : list Z) : pkg_src :=
  mk_psrc (replicate 13 0) 1 [0x31] nbits
    [mk_rsrc 1 1 [0x61; 0x62] bitmap [mk_dsrc PLDM_DESC_ID_PCI_VENDOR_ID [0x86; 0x80];
                                      mk_dsrc PLDM_DESC_ID_PCI_DEVICE_ID [0xae; 0x57]] [1; 2; 3]]
    [mk_csrc 10 2 7 0 1 100 4 1 [0x76]].
Definition ex_image (nbits : Z) (bitmap : list Z) : list Z :=
  encode crc32 (ex_pkg nbits bitmap) (replicate 16 0xAA).

(** a driver that records its calls *)
Definition ex_dev : pci_dev := mk_pci_dev 0x8086 0x57ae 0 0.
Definition log_op (x : Z * Z) : comp (list (Z * Z)) Z := modify (fun l => l ++ [x]) ;; mret 0.
Definition ex_ops (fw : list Z) : pldmfw_ops (list (Z * Z)) :=
  mk_ops (pldmfw_op_pci_match_record fw ex_dev) (fun p n => log_op (p, n))
    (fun c f => log_op (identifier c, f)) (fun c => log_op (component_data c, component_size c))
    (Some (log_op (0, 0))).
Definition ex_state : engine (list (Z * Z)) := mk_engine priv0 5 0 [].

Lemma bytes_dec l : forallb (fun x => (0 <=? x) && (x <? 256)) l = true -> Forall byte l.
Proof.
  rewrite forallb_forall. intros H. apply List.Forall_forall. intros x Hx. apply H in Hx.
  unfold byte, in_range. change (2 ^ 8) with 256. lia.
Qed.

Definition ex8 : list Z := ex_image 8 [1].
Definition ex0 : list Z := ex_image 0 [].

Lemma ex_pkg_wf n nbits bm : 104 <= n -> nbits = 8 /\ bm = [1] \/ nbits = 0 /\ bm = [] -> pkg_wf n (ex_pkg nbits bm).
Proof.
  intros Hn Hb. destruct Hb as [[-> ->]|[-> ->]].
  - split_and!; [by vm_compute..| |by vm_compute| |by vm_compute|by vm_compute].
    + constructor; [|constructor]. split_and!; [by vm_compute|by vm_compute| |by vm_compute..].
      repeat (constructor; [split_and!; by vm_compute|]); constructor.
    + constructor; [|constructor]. split_and!; [by vm_compute..|simpl; lia].
  - split_and!; [by vm_compute..| |by vm_compute| |by vm_compute|by vm_compute].
    + constructor; [|constructor]. split_and!; [by vm_compute|by vm_compute| |by vm_compute..].
      repeat (constructor; [split_and!; by vm_compute|]); constructor.
    + constructor; [|constructor]. split_and!; [by vm_compute..|simpl; lia].
Qed.
Lemma ex8_package : package_at ex8 crc32 (records_lay (ex_pkg 8 [1])) (components_lay (ex_pkg 8 [1])) 8.
Proof.
  apply (encode_package crc32 (ex_pkg 8 [1])); [|by vm_compute]. apply ex_pkg_wf; [by vm_compute|auto].
Qed.
Lemma ex0_package : package_at ex0 crc32 (records_lay (ex_pkg 0 [])) (components_lay (ex_pkg 0 [])) 0.
Proof.
  apply (encode_package crc32 (ex_pkg 0 [])); [|by vm_compute]. apply ex_pkg_wf; [by vm_compute|auto].
Qed.



(** the calls the driver got: package data, one table with START and END, the
    component, the end *)
Example ex8_calls :
  match pldmfw_flash_image (fun _ => true) crc32 ex8 (ex_ops ex8) ex_state with
  | Done e s => (e, live s, e_dev s) = (0, 5, [(64, 3); (2, 5); (100, 4); (0, 0)])
  | Fault _ => False
  end.
Proof. by vm_compute. Qed.

Lemma pldm_flash_image_refines_witness :
  wp (pldmfw_flash_image (fun _ => true) crc32 ex8 (ex_ops ex8)) (fun e s' => live s' = 5 /\
    ((e <> 0 /\ e_dev s' = [] /\
      ((exists k : nat, true = false) \/ ~ exists rs cs nb, package_at ex8 crc32 rs cs nb)) \/
     exists rs cs nb, package_at ex8 crc32 rs cs nb /\
       apply_package (ex_ops ex8) (map forget_flags rs) cs nb [] = Done e (e_dev s'))) ex_state.
Proof.
  apply (pldm_flash_image_refines (fun _ => true) crc32 ex8 (ex_ops ex8) ex_state);
    [apply bytes_dec; by vm_compute|by vm_compute|].
  intros rs cs nb Hp. destruct (package_det _ _ _ _ _ _ _ _ Hp ex8_package) as (-> & -> & ->).
  split; [by vm_compute|]. exists 0, [(64, 3); (2, 5); (100, 4); (0, 0)]. by vm_compute.
Defined.

Lemma pldm_bitmap_overrun_witness :
  pldmfw_flash_image (fun _ => true) crc32 ex0 (ex_ops ex0) ex_state = Fault FOutOfBounds.
Proof.
  apply (pldm_bitmap_overrun (fun _ => true) crc32 ex0 (ex_ops ex0) ex_state (records_lay (ex_pkg 0 []))
    (components_lay (ex_pkg 0 [])) 0
    (forget_flags (rec_lay 0 38 (mk_rsrc 1 1 [0x61; 0x62] [] [mk_dsrc PLDM_DESC_ID_PCI_VENDOR_ID [0x86; 0x80];
                                      mk_dsrc PLDM_DESC_ID_PCI_DEVICE_ID [0xae; 0x57]] [1; 2; 3]))) [] [(63, 3)]);
    [apply bytes_dec; by vm_compute|by vm_compute|done|exact ex0_package|by vm_compute|by vm_compute|by vm_compute|].
  intros c f d. by eexists.
Defined.
