(* ===== verification/AciCaps.v ===== *)
(** * Capabilities of the E610 (ixgbe_e610.c)

    The lists of device and function capabilities that the firmware reports, and
    their parser.  The parser takes the number of list elements from the
    descriptor the firmware returned and the elements from the buffer of the
    command, which every access is checked against.  Capability records are
    cleared by [memset] and then filled element by element; a function that fills
    one returns it.  The build has PTP ([NO_PTP_SUPPORT] undefined). *)
From S2P Require Import Prelude Bytes Regs Types Osdep RegsE610 Aci.

(** struct ixgbe_aci_cmd_list_caps_elem, the members that are used *)
Record ixgbe_aci_cmd_list_caps_elem := mk_caps_elem {
  ce_cap : Z; ce_number : Z; ce_logical_id : Z; ce_phys_id : Z }.
Definition caps_elem_size : Z := 32.

Definition caps_elem_of (l : list Z) : ixgbe_aci_cmd_list_caps_elem :=
  mk_caps_elem (get16 l 0) (get32 l 4) (get32 l 8) (get32 l 12).

Definition NUM_IXGBE_TIME_REF_FREQ : Z := IXGBE_TIME_REF_FREQ_245_760 + 1.
Definition IXGBE_CAPS_VALID_FUNCS_M : Z := 0xFF.

(** the case of an external topology device image *)
Definition parse_topo_img (index number logical_id phys_id : Z) (caps : ixgbe_hw_common_caps) :
    ixgbe_hw_common_caps :=
  let i := Z.to_nat index in
  let caps := upd_cc_topo_ver_high (<[i := number]> (cc_topo_ver_high caps)) caps in
  let caps := upd_cc_topo_ver_low (<[i := logical_id]> (cc_topo_ver_low caps)) caps in
  let caps := upd_cc_topo_part_num (<[i := Z.shiftr (Z.land phys_id IXGBE_EXT_TOPO_DEV_IMG_PART_NUM_M)
                                       IXGBE_EXT_TOPO_DEV_IMG_PART_NUM_S]> (cc_topo_part_num caps)) caps in
  let caps := upd_cc_topo_load_en (<[i := has phys_id IXGBE_EXT_TOPO_DEV_IMG_LOAD_EN]> (cc_topo_load_en caps)) caps in
  upd_cc_topo_prog_en (<[i := has phys_id IXGBE_EXT_TOPO_DEV_IMG_PROG_EN]> (cc_topo_prog_en caps)) caps.

(** the capabilities and [found] *)
Definition ixgbe_parse_common_caps (caps : ixgbe_hw_common_caps) (elem : ixgbe_aci_cmd_list_caps_elem) :
    ixgbe_hw_common_caps * bool :=
  let logical_id := ce_logical_id elem in
  let phys_id := ce_phys_id elem in
  let number := ce_number elem in
  let cap := ce_cap elem in
  if cap =? IXGBE_ACI_CAPS_VALID_FUNCTIONS then (upd_cc_valid_functions number caps, true)
  else if cap =? IXGBE_ACI_CAPS_VMDQ then (upd_cc_vmdq (Z.b2z (number =? 1)) caps, true)
  else if cap =? IXGBE_ACI_CAPS_DCB then
    (upd_cc_maxtc phys_id (upd_cc_active_tc_bitmap logical_id (upd_cc_dcb (Z.b2z (number =? 1)) caps)), true)
  else if cap =? IXGBE_ACI_CAPS_RSS then
    (upd_cc_rss_table_entry_width logical_id (upd_cc_rss_table_size number caps), true)
  else if cap =? IXGBE_ACI_CAPS_RXQS then (upd_cc_rxq_first_id phys_id (upd_cc_num_rxq number caps), true)
  else if cap =? IXGBE_ACI_CAPS_TXQS then (upd_cc_txq_first_id phys_id (upd_cc_num_txq number caps), true)
  else if cap =? IXGBE_ACI_CAPS_MSIX then
    (upd_cc_msix_vector_first_id phys_id (upd_cc_num_msix_vectors number caps), true)
  else if cap =? IXGBE_ACI_CAPS_NVM_VER then (caps, true)
  else if cap =? IXGBE_ACI_CAPS_PENDING_NVM_VER then (upd_cc_nvm_update_pending_nvm true caps, true)
  else if cap =? IXGBE_ACI_CAPS_PENDING_OROM_VER then (upd_cc_nvm_update_pending_orom true caps, true)
  else if cap =? IXGBE_ACI_CAPS_PENDING_NET_VER then (upd_cc_nvm_update_pending_netlist true caps, true)
  else if cap =? IXGBE_ACI_CAPS_NVM_MGMT then
    (upd_cc_netlist_auth (has number IXGBE_NVM_MGMT_NETLIST_AUTH_SUPPORT)
       (upd_cc_nvm_unified_update (has number IXGBE_NVM_MGMT_UNIFIED_UPD_SUPPORT)
          (upd_cc_update_disabled (has number IXGBE_NVM_MGMT_UPDATE_DISABLED)
             (upd_cc_sec_rev_disabled (has number IXGBE_NVM_MGMT_SEC_REV_DISABLED) caps))), true)
  else if cap =? IXGBE_ACI_CAPS_MAX_MTU then (upd_cc_max_mtu number caps, true)
  else if cap =? IXGBE_ACI_CAPS_PCIE_RESET_AVOIDANCE then (upd_cc_pcie_reset_avoidance (0 <? number) caps, true)
  else if cap =? IXGBE_ACI_CAPS_POST_UPDATE_RESET_RESTRICT then
    (upd_cc_reset_restrict_support (number =? 1) caps, true)
  else if (cap =? IXGBE_ACI_CAPS_EXT_TOPO_DEV_IMG0) || (cap =? IXGBE_ACI_CAPS_EXT_TOPO_DEV_IMG1) ||
          (cap =? IXGBE_ACI_CAPS_EXT_TOPO_DEV_IMG2) || (cap =? IXGBE_ACI_CAPS_EXT_TOPO_DEV_IMG3) then
    (parse_topo_img (u8 (cap - IXGBE_ACI_CAPS_EXT_TOPO_DEV_IMG0)) number logical_id phys_id caps, true)
  else if cap =? IXGBE_ACI_CAPS_OROM_RECOVERY_UPDATE then (upd_cc_orom_recovery_update (number =? 1) caps, true)
  else if cap =? IXGBE_ACI_CAPS_NEXT_CLUSTER_ID then (upd_cc_next_cluster_id_support (number =? 1) caps, true)
  else if cap =? IXGBE_ACI_CAPS_PTP_BY_PHY then
    (upd_cc_ptp_by_phy_ll (has number IXGBE_ACI_CAPS_PTP_BY_PHY_LL)
       (upd_cc_ptp_by_phy_support (has number IXGBE_ACI_CAPS_PTP_BY_PHY_SUPP) caps), true)
  else if cap =? IXGBE_ACI_CAPS_EEE then (upd_cc_eee_support (u8 number) caps, true)
  else (caps, false).

(** the loop counts the bits [0 .. n-1] *)
Fixpoint count_bits (n : nat) (w : Z) : Z :=
  match n with
  | O => 0
  | S n' => count_bits n' w + (if has w (bit (Z.of_nat n')) then 1 else 0)
  end.
Definition ixgbe_hweight8 (w : Z) : Z := count_bits 8 w.
(** [hweight32] of the kernel counts 32 bits *)
Definition ixgbe_hweight32 (w : Z) : Z := u8 (count_bits 32 w).

(** *** Device capabilities *)
Definition ixgbe_parse_valid_functions_cap (dev_p : ixgbe_hw_dev_caps) (cap : ixgbe_aci_cmd_list_caps_elem) :
    ixgbe_hw_dev_caps :=
  upd_num_funcs (ixgbe_hweight32 (ce_number cap)) dev_p.

Definition ixgbe_parse_vsi_dev_caps (dev_p : ixgbe_hw_dev_caps) (cap : ixgbe_aci_cmd_list_caps_elem) :
    ixgbe_hw_dev_caps :=
  upd_num_vsi_allocd_to_host (ce_number cap) dev_p.

Definition ixgbe_parse_1588_dev_caps (dev_p : ixgbe_hw_dev_caps) (cap : ixgbe_aci_cmd_list_caps_elem) :
    ixgbe_hw_dev_caps :=
  let number := ce_number cap in
  let flag m := Z.b2z (has number m) in
  let info := mk_ts_dev_info (ce_logical_id cap) (ce_phys_id cap)
                (Z.land number IXGBE_TS_TMR0_OWNR_M)
                (Z.shiftr (Z.land number IXGBE_TS_TMR1_OWNR_M) IXGBE_TS_TMR1_OWNR_S)
                (flag IXGBE_TS_TMR0_OWND_M) (flag IXGBE_TS_TMR1_OWND_M) (flag IXGBE_TS_DEV_ENA_M)
                (flag IXGBE_TS_TMR0_ENA_M) (flag IXGBE_TS_TMR1_ENA_M) in
  upd_ts_dev info (upd_dcap_common (upd_cc_ieee_1588 (tsd_ena info) (dcap_common dev_p)) dev_p).

Definition ixgbe_parse_fdir_dev_caps (dev_p : ixgbe_hw_dev_caps) (cap : ixgbe_aci_cmd_list_caps_elem) :
    ixgbe_hw_dev_caps :=
  upd_num_flow_director_fltr (ce_number cap) dev_p.

(** one round of the loop of [ixgbe_parse_dev_caps] *)
Definition parse_dev_cap (dev_p : ixgbe_hw_dev_caps) (e : ixgbe_aci_cmd_list_caps_elem) : ixgbe_hw_dev_caps :=
  let cap := ce_cap e in
  let dev_p := upd_dcap_common (fst (ixgbe_parse_common_caps (dcap_common dev_p) e)) dev_p in
  if cap =? IXGBE_ACI_CAPS_VALID_FUNCTIONS then ixgbe_parse_valid_functions_cap dev_p e
  else if cap =? IXGBE_ACI_CAPS_VSI then ixgbe_parse_vsi_dev_caps dev_p e
  else if cap =? IXGBE_ACI_CAPS_1588 then ixgbe_parse_1588_dev_caps dev_p e
  else if cap =? IXGBE_ACI_CAPS_FD then ixgbe_parse_fdir_dev_caps dev_p e
  else dev_p.

(** *** Function capabilities *)
Definition num_per_func (valid_functions max : Z) : Z :=
  let funcs := ixgbe_hweight8 (Z.land valid_functions IXGBE_CAPS_VALID_FUNCS_M) in
  if funcs =? 0 then 0 else max / funcs.

Definition ixgbe_parse_1588_func_caps (func_p : ixgbe_hw_func_caps) (cap : ixgbe_aci_cmd_list_caps_elem) :
    ixgbe_hw_func_caps :=
  let number := ce_number cap in
  let flag m := Z.b2z (has number m) in
  let clk_freq := Z.shiftr (Z.land number IXGBE_TS_CLK_FREQ_M) IXGBE_TS_CLK_FREQ_S in
  let time_ref := if clk_freq <? NUM_IXGBE_TIME_REF_FREQ then clk_freq else IXGBE_TIME_REF_FREQ_25_000 in
  let info := mk_ts_func_info time_ref clk_freq (flag IXGBE_TS_CLK_SRC_M) (flag IXGBE_TS_TMR_IDX_ASSOC_M)
                (flag IXGBE_TS_FUNC_ENA_M) (flag IXGBE_TS_TMR_IDX_OWND_M) (flag IXGBE_TS_SRC_TMR_OWND_M)
                (flag IXGBE_TS_TMR_ENA_M) in
  upd_ts_func info (upd_fcap_common (upd_cc_ieee_1588 (tsf_ena info) (fcap_common func_p)) func_p).

Section Caps.
Context `{D : Mmio} (kmalloc : Z -> world -> bool).

(** [cap_resp[i]] *)
Definition caps_elem_at (buf : list Z) (i : Z) : M ixgbe_aci_cmd_list_caps_elem :=
  l ← copy_from (drop (Z.to_nat (caps_elem_size * i)) buf) caps_elem_size;
  mret (caps_elem_of l).

Definition ixgbe_parse_dev_caps (buf : list Z) (cap_count : Z) : M ixgbe_hw_dev_caps :=
  for_acc (Z.to_nat cap_count) 0 dev_caps0 (fun i dev_p =>
    e ← caps_elem_at buf i; mret (parse_dev_cap dev_p e)).

Definition ixgbe_get_num_per_func (max : Z) : M Z :=
  h ← get_hw; mret (num_per_func (cc_valid_functions (dcap_common (dev_caps h))) max).

Definition ixgbe_parse_vsi_func_caps (func_p : ixgbe_hw_func_caps) (cap : ixgbe_aci_cmd_list_caps_elem) :
    M ixgbe_hw_func_caps :=
  n ← ixgbe_get_num_per_func IXGBE_MAX_VSI; mret (upd_guar_num_vsi n func_p).

(** one round of the loop of [ixgbe_parse_func_caps] *)
Definition parse_func_cap (func_p : ixgbe_hw_func_caps) (e : ixgbe_aci_cmd_list_caps_elem) :
    M ixgbe_hw_func_caps :=
  let cap := ce_cap e in
  let func_p := upd_fcap_common (fst (ixgbe_parse_common_caps (fcap_common func_p) e)) func_p in
  if cap =? IXGBE_ACI_CAPS_VSI then ixgbe_parse_vsi_func_caps func_p e
  else if cap =? IXGBE_ACI_CAPS_1588 then mret (ixgbe_parse_1588_func_caps func_p e)
  else mret func_p.

Definition ixgbe_parse_func_caps (buf : list Z) (cap_count : Z) : M ixgbe_hw_func_caps :=
  for_acc (Z.to_nat cap_count) 0 func_caps0 (fun i func_p =>
    e ← caps_elem_at buf i; parse_func_cap func_p e).

(** status, [buf] and, if the command was sent, [*cap_count] *)
Definition ixgbe_aci_list_caps (buf : list Z) (buf_size opc : Z) : M (Z * list Z * option Z) :=
  if negb (opc =? ixgbe_aci_opc_list_func_caps) && negb (opc =? ixgbe_aci_opc_list_dev_caps)
  then mret (IXGBE_ERR_PARAM, buf, None)
  else
    r ← ixgbe_aci_send_cmd kmalloc (ixgbe_fill_dflt_direct_cmd_desc opc) (Some buf) buf_size;
    let '(status, desc, b) := r in
    mret (status, default buf b, Some (get32 (d_params desc) 4)).

(** a list in a fresh buffer of the largest size: status, buffer, number of
    elements; [None] if there is no memory *)
Definition fetch_caps (opc : Z) : M (option (Z * list Z * Z)) :=
  ok ← ixgbe_malloc kmalloc IXGBE_ACI_MAX_BUFFER_SIZE;
  if negb ok then mret None
  else
    r ← ixgbe_aci_list_caps (replicate (Z.to_nat IXGBE_ACI_MAX_BUFFER_SIZE) 0) IXGBE_ACI_MAX_BUFFER_SIZE opc;
    let '(status, cbuf, cap_count) := r in
    mret (Some (status, cbuf, default (IXGBE_ACI_MAX_BUFFER_SIZE / caps_elem_size) cap_count)).

(** status and, on success, the new [*dev_caps] *)
Definition ixgbe_discover_dev_caps : M (Z * option ixgbe_hw_dev_caps) :=
  r ← fetch_caps ixgbe_aci_opc_list_dev_caps;
  match r with
  | None => mret (IXGBE_ERR_OUT_OF_MEM, None)
  | Some (status, cbuf, cap_count) =>
      if status =? 0 then
        c ← ixgbe_parse_dev_caps cbuf cap_count; mret (status, Some c)
      else mret (status, None)
  end.

Definition ixgbe_discover_func_caps : M (Z * option ixgbe_hw_func_caps) :=
  r ← fetch_caps ixgbe_aci_opc_list_func_caps;
  match r with
  | None => mret (IXGBE_ERR_OUT_OF_MEM, None)
  | Some (status, cbuf, cap_count) =>
      if status =? 0 then
        c ← ixgbe_parse_func_caps cbuf cap_count; mret (status, Some c)
      else mret (status, None)
  end.

Definition ixgbe_get_caps : M Z :=
  r ← ixgbe_discover_dev_caps;
  let '(status, c) := r in
  (match c with Some c => upd_hw (upd_dev_caps c) | None => mret tt end) ;;
  if negb (status =? 0) then mret status
  else
    r ← ixgbe_discover_func_caps;
    let '(status, c) := r in
    (match c with Some c => upd_hw (upd_func_caps c) | None => mret tt end) ;;
    mret status.

(** *** Recovery mode *)
Definition ixgbe_fw_recovery_mode_E610 : M bool :=
  fwsm ← IXGBE_READ_REG GL_MNG_FWSM;
  mret (has fwsm GL_MNG_FWSM_FW_MODES_RECOVERY_M).
End Caps.
