(* ===== verification/AciSession.v ===== *)
(** * Sessions with the firmware

    What a routine of the driver says to the firmware, as the list of the commands
    it sent with the answers it got, whatever the firmware answers.  [speaks h m Q]
    runs [m] on any device whose firmware answers, in any state of the driver
    that differs from [h] in [aci.last_status] only: [m] ends without a fault, the
    unit is idle and the mutex free again, the firmware went through the session,
    and [Q] holds of the result and the session. *)
From S2P Require Import Prelude Bytes Regs Types Osdep RegsE610.
From S2P Require Import Aci AciSafe AciDev AciRpc AciNvm AciNvmFw AciCaps.

(** a command: descriptor as the routine built it, the bytes that were sent along,
    what the caller got back *)
Record fwcall := mk_fwcall { fc_desc : ixgbe_aci_desc; fc_data : list Z; fc_reply : aci_reply }.
Definition fc_status (c : fwcall) : Z := fst (fst (fc_reply c)).
Definition fc_answer (c : fwcall) : ixgbe_aci_desc := snd (fst (fc_reply c)).
Definition accepted (c : fwcall) : Prop := fc_status c = 0.
Definition fc_opcode (c : fwcall) : Z := d_opcode (fc_desc c).

Section Session.
Context `{D : Mmio} `{F : Firmware} `{!AciDevice D F} (kmalloc : Z -> world -> bool).
Context (kmalloc_ok : forall k w, kmalloc k w = true).

(** the firmware in state [s] executes the command and goes to [s'] *)
Definition executes (s : fw) (c : fwcall) (s' : fw) : Prop :=
  exists buf n hb ad ab, let rq := aci_request (fc_desc c) buf n in
    sees rq.1 rq.2 hb /\ fw_exec s (raw_desc rq.1) hb = (s', ad, ab) /\
    fc_data c = match buf with Some b => take (Z.to_nat n) b | None => [] end /\
    fc_reply c = (rpc_reply (fc_opcode c) buf n (desc_of_raw ad) ab).1.

Inductive session : fw -> list fwcall -> fw -> Prop :=
  | session_nil s : session s [] s
  | session_cons s c s1 cs s2 : executes s c s1 -> session s1 cs s2 -> session s (c :: cs) s2.

Lemma session_app s1 s2 s3 cs cs' : session s1 cs s2 -> session s2 cs' s3 -> session s1 (cs ++ cs') s3.
Proof using. induction 1; [done|]. intros H'. simpl. econstructor; eauto. Qed.

Lemma session_one s c s' : executes s c s' -> session s [c] s'.
Proof using. intros. econstructor; [done|constructor]. Qed.

(** the driver's data, up to [aci.last_status] *)
Definition same_hw (h h' : ixgbe_hw) : Prop := exists ls, h' = hw_last ls h.

Lemma same_hw_last h h' ls : same_hw h h' -> same_hw h (hw_last ls h').
Proof using. intros [a ->]. exists ls. apply hw_last_last. Qed.
Lemma same_hw_refl h : same_hw h h.
Proof using. exists (aci_last_status (aci h)). by rewrite hw_last_same. Qed.
Lemma same_hw_caps h h' : same_hw h h' -> dev_caps h' = dev_caps h.
Proof using. by intros [ls ->]. Qed.

Definition speaks {A} (h : ixgbe_hw) (m : M A) (Q : A -> list fwcall -> Prop) : Prop :=
  forall w s, aci_ready w s -> same_hw h (w_hw w) ->
  wp m (fun a w' => exists s' cs, aci_ready w' s' /\ same_hw h (w_hw w') /\ session s cs s' /\ Q a cs) w.

Lemma speaks_ret {A} h (a : A) Q : Q a [] -> speaks h (mret a) Q.
Proof using. intros HQ w s Hr Hh. apply wp_ret. exists s, []. split_and!; try done. constructor. Qed.

Lemma speaks_mono {A} h (m : M A) (Q Q' : A -> list fwcall -> Prop) :
  speaks h m Q -> (forall a cs, Q a cs -> Q' a cs) -> speaks h m Q'.
Proof using.
  intros Hm H w s Hr Hh. eapply wp_mono; [by apply Hm|]. cbv beta.
  intros a w' (s' & cs & ? & ? & ? & ?). exists s', cs. auto.
Qed.

Lemma speaks_bind {A B} h (m : M A) (f : A -> M B) Q Q' :
  speaks h m Q' -> (forall a cs, Q' a cs -> speaks h (f a) (fun b cs' => Q b (cs ++ cs'))) ->
  speaks h (m ≫= f) Q.
Proof using.
  intros Hm Hf w s Hr Hh. apply wp_bind. eapply wp_mono; [by apply Hm|]. cbv beta.
  intros a w1 (s1 & cs & Hr1 & Hh1 & Hs1 & HQ). eapply wp_mono; [by eapply Hf|]. cbv beta.
  intros b w2 (s2 & cs' & Hr2 & Hh2 & Hs2 & HQ2). exists s2, (cs ++ cs').
  split_and!; try done. by eapply session_app.
Qed.

(** a step that says nothing *)
Lemma speaks_quiet {A B} h (m : M A) (f : A -> M B) Q (P : A -> Prop) :
  speaks h m (fun a cs => cs = [] /\ P a) -> (forall a, P a -> speaks h (f a) Q) -> speaks h (m ≫= f) Q.
Proof using. intros Hm Hf. eapply speaks_bind; [exact Hm|]. cbv beta. intros a cs [-> HP]. by apply Hf. Qed.

Lemma speaks_get_hw h : speaks h get_hw (fun h' cs => cs = [] /\ same_hw h h').
Proof using. intros w s Hr Hh. apply wp_get_hw. exists s, []. split_and!; try done. constructor. Qed.

Lemma speaks_malloc h n : speaks h (ixgbe_malloc kmalloc n) (fun b cs => cs = [] /\ b = true).
Proof using kmalloc_ok.
  intros w s Hr Hh. unfold ixgbe_malloc, gets. exists s, []. split_and!; try done. constructor.
Qed.

Lemma speaks_copy_from h l n (Q : list Z -> list fwcall -> Prop) :
  n <= Z.of_nat (length l) -> Q (take (Z.to_nat n) l) [] -> speaks h (copy_from l n) Q.
Proof using. intros Hn HQ. unfold copy_from. destruct (Z.ltb_spec (Z.of_nat (length l)) n); [lia|]. by apply speaks_ret. Qed.

Lemma ready_world w s w' : aci_ready w s -> w_dev w' = w_dev w -> w_hw w' = w_hw w -> aci_ready w' s.
Proof using.
  intros [(u & [H1 H2 H3] & Hi) Hl] Ed Eh. split; [|by rewrite Eh]. exists u. split; [|done]. split; [by rewrite Eh|by rewrite Ed|done].
Qed.

(** a register whose reads have no effect *)
Lemma speaks_read h r (P : Z -> Prop) :
  (forall d, exists v, dev_read d r = (v, d) /\ in_range 32 v /\ P v) ->
  speaks h (IXGBE_READ_REG r) (fun v cs => cs = [] /\ P v).
Proof using.
  intros Hr w s Hw Hh. destruct Hw as [(u & Hu & Hi) Hl]. destruct (Hr (w_dev w)) as (v & Ev & Hv & HP).
  eapply wp_read_aci; [exact Hu|exact Ev|done|]. intros w' Hw' Eh. exists s, [].
  split_and!; try done; [|by rewrite Eh|constructor]. split; [by exists u|by rewrite Eh].
Qed.

(** time passes for an idle unit *)
Lemma speaks_delay h ms : speaks h (msec_delay ms) (fun _ cs => cs = []).
Proof using.
  intros w s [(u & [H1 H2 H3] & Hi) Hl] Hh. unfold msec_delay. apply wp_udelay. exists s, [].
  split_and!; try done; [|constructor]. split; [|done]. exists u. split; [|done]. split; [done| |done]. simpl.
  rewrite delay_unit, H2. unfold unit_tick. destruct Hi as [_ -> _ _]. done.
Qed.

(** ** A command *)
Lemma rpc_reply_desc op buf n rd ab : (rpc_reply op buf n rd ab).1.1.2 = rd.
Proof using. unfold rpc_reply. by destruct (_ && _), (negb (d_retval rd =? IXGBE_ACI_RC_OK)). Qed.

Lemma rpc_reply_status op buf n rd ab : let x := (rpc_reply op buf n rd ab).1 in
  fst (fst x) = 0 \/ fst (fst x) = IXGBE_ERR_ACI_ERROR.
Proof using. unfold rpc_reply. destruct (_ && _), (negb (d_retval rd =? IXGBE_ACI_RC_OK)); auto. Qed.

(** the caller's buffer keeps its length *)
Definition same_shape (buf buf' : option (list Z)) : Prop :=
  match buf, buf' with
  | Some b, Some b' => length b' = length b /\ Forall byte b'
  | None, None => True
  | _, _ => False
  end.

Lemma rpc_reply_buf d buf n rd ab : valid_buf d buf n -> length ab = 1024%nat ->
  same_shape buf (rpc_reply (d_opcode d) buf n rd ab).1.2.
Proof using.
  intros Hv Hab. unfold same_shape, rpc_reply. destruct buf as [b|].
  - destruct Hv as (Hn1 & Hn2 & Hb). destruct (_ && _); [done|]. destruct (negb _); [done|]. cbn [fst snd].
    destruct (has _ _); [|done]. split.
    + rewrite length_app, length_take, length_drop, length_bytes_of, Hab. lia.
    + apply Forall_app. split; [apply Forall_take, bytes_of_bytes|by apply Forall_drop].
  - by destruct (_ && _), (negb (d_retval rd =? IXGBE_ACI_RC_OK)).
Qed.

(** the command was sent, once, and the firmware executed it *)
Definition sent (d : ixgbe_aci_desc) (data : list Z) (x : aci_reply) (cs : list fwcall) : Prop :=
  cs = [mk_fwcall d data x] /\ exists s s', executes s (mk_fwcall d data x) s'.

Lemma speaks_send h d buf n :
  desc_ok d -> valid_buf d buf n -> ixgbe_should_retry_aci_send_cmd_execute (d_opcode d) = false ->
  speaks h (ixgbe_aci_send_cmd kmalloc d buf n) (fun x cs =>
    sent d (match buf with Some b => take (Z.to_nat n) b | None => [] end) x cs /\
    (fst (fst x) = 0 \/ fst (fst x) = IXGBE_ERR_ACI_ERROR) /\
    desc_ok (snd (fst x)) /\
    same_shape buf (snd x)).
Proof using kmalloc_ok.
  intros Hd Hv Hn w s Hr Hh. eapply wp_send_cmd; [done|done|done|done|done|].
  intros w' hb s' ad ab rq Hs Ex Hr' x Eh. exists s', [mk_fwcall d (match buf with Some b => take (Z.to_nat n) b | None => [] end) x.1].
  assert (Had : desc_ok (desc_of_raw ad)).
  { pose proof (fw_desc_ok s (raw_desc rq.1) hb) as [H1 H2]. rewrite Ex in H1, H2. by apply desc_of_raw_ok. }
  assert (Hab : length ab = 1024%nat).
  { pose proof (fw_buf_ok s (raw_desc rq.1) hb) as [H1 _]. by rewrite Ex in H1. }
  set (c := mk_fwcall _ _ _). assert (He : executes s c s') by by exists buf, n, hb, ad, ab.
  split; [done|]. split; [rewrite Eh; by apply same_hw_last|]. split; [by apply session_one|].
  split; [split; [done|by exists s, s']|]. split; [|split].
  - apply rpc_reply_status.
  - unfold x. by rewrite rpc_reply_desc.
  - by apply rpc_reply_buf.
Qed.

(** a buffer of no bytes, or of more than the interface takes, is refused without
    a command *)
Lemma wp_execute_refused d b n w s (Q : aci_reply -> world -> Prop) :
  (exists u, aci_world w u /\ unit_idle u s) -> n = 0 \/ IXGBE_ACI_MAX_BUFFER_SIZE < n ->
  (forall w' d', (exists u, aci_world w' u /\ unit_idle u s) -> w_hw w' = hw_last 0 (w_hw w) ->
     Q (IXGBE_ERR_PARAM, d', Some b) w') ->
  wp (ixgbe_aci_send_cmd_execute kmalloc d (Some b) n) Q w.
Proof using.
  intros (u & Hu & Hi) Hn HQ. unfold ixgbe_aci_send_cmd_execute, set_last_status. wp_step. apply wp_upd_hw. wp_step.
  eapply wp_read_hicr; [destruct Hu; by split|]. intros w' Hw' Eh. pose proof Hi as [_ _ Hi3 Hi4].
  rewrite Hi3, Hi4. cbn [negb]. cbv zeta.
  destruct (Z.ltb_spec IXGBE_ACI_MAX_BUFFER_SIZE n) as [|Hle]; [apply wp_ret, HQ; [by exists u|done]|].
  destruct Hn as [-> |]; [|lia]. cbn iota beta.
  assert (has (d_flags (upd_d_flags (Z.lor (d_flags d) IXGBE_ACI_FLAG_BUF) d)) IXGBE_ACI_FLAG_BUF = true) as ->.
  { unfold has. apply negb_true_iff, Z.eqb_neq. simpl. rewrite Z.land_lor_distr_l, Z.land_diag.
    intros E. apply Z.lor_eq_0_iff in E as [_ E]. by vm_compute in E. }
  apply wp_ret, HQ; [by exists u|done].
Qed.

Lemma speaks_send_refused h d b n : n = 0 \/ IXGBE_ACI_MAX_BUFFER_SIZE < n ->
  ixgbe_should_retry_aci_send_cmd_execute (d_opcode d) = false ->
  speaks h (ixgbe_aci_send_cmd kmalloc d (Some b) n) (fun x cs =>
    cs = [] /\ fst (fst x) = IXGBE_ERR_PARAM /\ snd x = Some b).
Proof using.
  intros Hn Hr0 w s [(u & Hu & Hi) Hl] Hh. unfold ixgbe_aci_send_cmd. cbv zeta. rewrite Hr0.
  change (Z.to_nat (IXGBE_ACI_SEND_MAX_EXECUTE - 1)) with 2%nat.
  unfold aci_send_loop; fold (aci_send_loop kmalloc). unfold aci_execute_locked, ixgbe_acquire_lock.
  do 3 wp_step. apply wp_get_hw. rewrite Hl. apply wp_upd_hw. do 2 wp_step.
  eapply wp_execute_refused; [exists u; split; [destruct Hu; by split|done]|done|].
  intros w' d' (u' & Hw' & Hi') Eh. wp_step. unfold get_last_status. wp_step.
  apply wp_get_hw. apply wp_ret. wp_step. wp_step. unfold ixgbe_release_lock. apply wp_upd_hw, wp_ret.
  cbn [negb orb]. apply wp_ret. exists s, []. split_and!; try done.
  - split; [|done]. exists u'. split; [|done]. destruct Hw'; by split.
  - cbn [w_hw]. rewrite Eh. cbn [w_hw]. rewrite hw_unlock by done. by apply same_hw_last.
  - constructor.
Qed.
End Session.

(** ** The sessions of the routines *)
Lemma get32_nonneg l i : Forall byte l -> 0 <= get32 l i.
Proof.
  intros Hl. assert (H : forall k, byte (get8 l k)).
  { intros k. unfold get8. rewrite nth_lookup. destruct (l !! k) eqn:E; [by eapply Forall_lookup_1|by vm_compute]. }
  apply le32_of_range; apply H.
Qed.

Lemma high_byte_zero x : in_range 32 x -> Z.land x 0xFF000000 = 0 -> in_range 24 x.
Proof.
  intros Hx E. assert (H : Z.land (Z.shiftr x 24) (Z.ones 8) = 0).
  { change (Z.ones 8) with (Z.shiftr 0xFF000000 24). rewrite <- Z.shiftr_land, E. apply Z.shiftr_0_l. }
  rewrite Z.land_ones, Z.shiftr_div_pow2 in H by lia. unfold in_range in *. zlia.
Qed.

Section Talk.
Context `{D : Mmio} `{F : Firmware} `{!AciDevice D F} (kmalloc : Z -> world -> bool).
Context (kmalloc_ok : forall k w, kmalloc k w = true).
Context (normal_mode : has dev_fla GLNVM_FLA_LOCKED_M = true).
Implicit Types (cs : list fwcall).

(** a command without a buffer *)
Lemma speaks_direct h d :
  desc_ok d -> ixgbe_should_retry_aci_send_cmd_execute (d_opcode d) = false ->
  speaks h (aci_direct kmalloc d) (fun r cs => exists x, cs = [mk_fwcall d [] x] /\ r = fst x /\
    (fst r = 0 \/ fst r = IXGBE_ERR_ACI_ERROR) /\ desc_ok (snd r)).
Proof using kmalloc_ok.
  intros Hd Hr. unfold aci_direct. eapply speaks_bind.
  { apply speaks_send; [done|done|by left|done]. }
  cbv beta. intros x cs ([-> _] & Hs & Hx & _). apply speaks_ret. by exists x.
Qed.

(** *** The NVM resource *)
Definition is_request (c : fwcall) : Prop := fc_opcode c = ixgbe_aci_opc_req_res.
Definition is_release (c : fwcall) : Prop := fc_opcode c = ixgbe_aci_opc_release_res.

(** requests, of which the last was granted; requests that were all refused *)
Definition granted cs : Prop :=
  exists cs0 c, cs = cs0 ++ [c] /\ Forall is_request cs /\ Forall (fun c => ~ accepted c) cs0 /\ accepted c.
Definition refused cs : Prop := Forall is_request cs /\ Forall (fun c => ~ accepted c) cs.

Lemma speaks_req_res h res access sdp timeout : in_range 16 res -> in_range 16 access ->
  speaks h (ixgbe_aci_req_res kmalloc res access sdp timeout) (fun r cs => 0 <= snd r /\ exists c, cs = [c] /\
    is_request c /\ fst r = fc_status c).
Proof using kmalloc_ok.
  intros H1 H2. unfold ixgbe_aci_req_res. cbv zeta. set (d := upd_d_params _ _). eapply speaks_bind.
  { apply (speaks_direct _ d); [|done]. apply dflt_desc_ok; [done|done|].
    repeat constructor; by apply trunc_range || (by vm_compute). }
  cbv beta. intros [status desc] cs (x & -> & E & _ & Hd). unfold get_last_status.
  eapply speaks_bind with (Q' := fun _ cs => cs = []).
  { eapply speaks_quiet; [apply speaks_get_hw|]. cbv beta. intros h' _. by apply speaks_ret. }
  cbv beta. intros ls ? ->. apply speaks_ret. cbn [snd fst]. rewrite app_nil_r. split.
  - destruct (_ || _); [|lia]. apply get32_nonneg. apply Hd.
  - eexists. split; [done|]. split; [done|]. unfold fc_status. simpl. by rewrite <- E.
Qed.

(** [st] is the status of the requests [cs] *)
Definition requested (st : Z) cs : Prop := (st = 0 -> granted cs) /\ (st <> 0 -> refused cs).

Lemma requested_one c : is_request c -> requested (fc_status c) [c].
Proof using.
  intros Hc. split; intros E.
  - exists [], c. split_and!; try done. by constructor.
  - split; by constructor.
Qed.
Lemma requested_cons c st cs : is_request c -> fc_status c <> 0 -> requested st cs -> requested st (c :: cs).
Proof using.
  intros Hc Hn [HA HB]. split; intros E.
  - destruct (HA E) as (cs0 & c' & -> & G1 & G2 & G3). exists (c :: cs0), c'. split_and!; try done; by constructor.
  - destruct (HB E). split; by constructor.
Qed.

Lemma speaks_acquire_poll h res access fuel status retry timeout : in_range 16 res -> in_range 16 access ->
  0 <= retry <= 10 * Z.of_nat fuel ->
  speaks h (acquire_res_poll kmalloc fuel res access status retry timeout) (fun st cs =>
    st = status /\ cs = [] \/ status <> 0 /\ requested st cs).
Proof using kmalloc_ok.
  intros H1 H2. revert status retry timeout. induction fuel as [|fuel IH]; intros status retry timeout Hf.
  { unfold acquire_res_poll. destruct (Z.eqb_spec retry 0); [|lia]. rewrite orb_true_r. cbn [orb].
    apply speaks_ret. by left. }
  cbn [acquire_res_poll]. destruct (Z.eqb_spec status 0) as [->|Hs]; [apply speaks_ret; by left|]. cbn [orb].
  destruct (_ || _); [apply speaks_ret; by left|].
  cbv zeta. eapply speaks_quiet with (P := fun _ => True).
  { eapply speaks_mono; [apply speaks_delay|]. cbv beta. by intros ? ? ->. }
  intros _ _. eapply speaks_bind; [by apply speaks_req_res|]. cbv beta.
  intros [st rt] cs (Hrt & c & -> & Hc & Est). cbn [fst snd] in *.
  pose proof (requested_one c Hc) as Hone. rewrite <- Est in Hone.
  destruct (_ =? _); [apply speaks_ret; by right|].
  destruct (Z.eqb_spec st 0) as [E|Hne]; [apply speaks_ret; by right|].
  eapply speaks_mono; [apply IH|].
  { unfold IXGBE_RES_POLLING_DELAY_MS. destruct (Z.ltb_spec 10 retry); lia. }
  cbv beta. intros st' cs' [[-> ->]|[_ Hq]]; right; split; try done. apply requested_cons; [done|congruence|done].
Qed.

Lemma speaks_fla h : speaks h (IXGBE_READ_REG GLNVM_FLA) (fun v cs => cs = [] /\ v = dev_fla).
Proof using. apply speaks_read. intros d. exists dev_fla. split; [apply read_fla|]. split; [apply fla_range|done]. Qed.

Lemma speaks_acquire_nvm h access : in_range 16 access ->
  speaks h (ixgbe_acquire_nvm kmalloc access) requested.
Proof using kmalloc_ok normal_mode.
  intros Ha. unfold ixgbe_acquire_nvm. eapply speaks_quiet; [apply speaks_fla|]. cbv beta. intros v ->.
  unfold has in normal_mode. apply negb_true_iff in normal_mode as ->.
  unfold ixgbe_acquire_res. eapply speaks_bind; [by apply speaks_req_res|]. cbv beta.
  intros [st rt] cs (Hrt & c & -> & Hc & Est). cbn [fst snd] in *.
  pose proof (requested_one c Hc) as Hone. rewrite <- Est in Hone.
  destruct (_ =? _); [by apply speaks_ret|].
  eapply speaks_mono; [apply speaks_acquire_poll; [done|done|]|].
  { unfold IXGBE_RES_POLLING_DELAY_MS. zlia. }
  cbv beta. intros st' cs' [[-> ->]|[Hs Hq]]; [done|]. apply requested_cons; [done|congruence|done].
Qed.

(** the NVM is released by one command, whatever the answer *)
Definition released cs : Prop := exists c, cs = [c] /\ is_release c.

Lemma speaks_release_nvm h : speaks h (ixgbe_release_nvm kmalloc) (fun _ cs => released cs).
Proof using kmalloc_ok normal_mode.
  unfold ixgbe_release_nvm. eapply speaks_quiet; [apply speaks_fla|]. cbv beta. intros v ->.
  unfold has in normal_mode. apply negb_true_iff in normal_mode as ->.
  unfold ixgbe_release_res, ixgbe_aci_release_res. cbv zeta. set (d := upd_d_params _ _).
  eapply speaks_bind with (Q' := fun st cs => st <> IXGBE_ERR_ACI_TIMEOUT /\ released cs).
  { eapply speaks_bind; [apply (speaks_direct _ d)|].
    - apply dflt_desc_ok; [done|done|]. repeat constructor; by vm_compute.
    - done.
    - cbv beta. intros r cs (x & -> & E & Hs & _). apply speaks_ret. split.
      + by destruct Hs as [-> | ->].
      + eexists. split; [done|done]. }
  cbv beta. intros st cs [Hst Hcs].
  change (Z.to_nat IXGBE_ACI_RELEASE_RES_TIMEOUT) with (S (Z.to_nat (IXGBE_ACI_RELEASE_RES_TIMEOUT - 1))).
  rewrite for_break_S. destruct (Z.eqb_spec st IXGBE_ERR_ACI_TIMEOUT); [done|]. cbn [negb].
  eapply speaks_bind with (Q' := fun _ cs => cs = []).
  { eapply speaks_bind with (Q' := fun x cs => x = inr tt /\ cs = []); [by apply speaks_ret|].
    cbv beta. intros x ? [-> ->]. by apply speaks_ret. }
  cbv beta. intros _ ? ->. apply speaks_ret. by rewrite !app_nil_r.
Qed.

(** *** Commands of an update *)

(** neither the lock of the NVM nor the switch of the banks *)
Definition ordinary (c : fwcall) : Prop :=
  fc_opcode c <> ixgbe_aci_opc_req_res /\ fc_opcode c <> ixgbe_aci_opc_release_res /\
  fc_opcode c <> ixgbe_aci_opc_nvm_write_activate.

(** ordinary commands; if the result [e] is 0 all were accepted, and [P] holds *)
Definition did (P : list fwcall -> Prop) (e : Z) cs : Prop :=
  Forall ordinary cs /\ (e = 0 -> Forall accepted cs /\ P cs).

Lemma did_one P e c : ordinary c -> (e = 0 -> accepted c /\ P [c]) -> did P e [c].
Proof using. intros Ho He. split; [by constructor|]. intros E. destruct (He E). split; [by constructor|done]. Qed.
Lemma did_none P e : e <> 0 -> did P e [].
Proof using. split; [constructor|done]. Qed.

Definition write_desc (module offset n : Z) (last : bool) : ixgbe_aci_desc :=
  let d := upd_d_params (nvm_params offset (if last then IXGBE_ACI_NVM_LAST_CMD else 0) module n)
             (ixgbe_fill_dflt_direct_cmd_desc ixgbe_aci_opc_nvm_write) in
  upd_d_flags (Z.lor (d_flags d) IXGBE_ACI_FLAG_RD) d.

(** a block of an image is one command, unless it is empty or lies beyond what
    the command can address *)
Lemma speaks_update_nvm h module off n data last :
  in_range 16 module -> in_range 32 off -> 0 <= n <= 4096 -> n <= Z.of_nat (length data) -> Forall byte data ->
  speaks h (ixgbe_aci_update_nvm kmalloc module off n data last 0) (fun r cs =>
    length (snd r) = length data /\ Forall byte (snd r) /\
    did (fun cs => exists x, cs = [mk_fwcall (write_desc module off n last) (take (Z.to_nat n) data) x])
      (fst r) cs).
Proof using kmalloc_ok.
  intros Hm Ho Hn Hl Hb. unfold ixgbe_aci_update_nvm.
  destruct (Z.eqb_spec (Z.land off 0xFF000000) 0) as [E|]; cbn [negb].
  2:{ apply speaks_ret. split; [done|]. split; [done|]. by apply did_none. }
  cbv zeta. set (fl := if last then Z.lor 0 _ else 0).
  assert (Efl : fl = if last then IXGBE_ACI_NVM_LAST_CMD else 0) by by destruct last.
  rewrite Efl. match goal with |- context [ixgbe_aci_send_cmd _ ?x] => change x with (write_desc module off n last) end.
  destruct (decide (n = 0)) as [->|Hn0].
  - eapply speaks_bind; [apply speaks_send_refused; [by left|done]|]. cbv beta. intros [[st d] b] cs (-> & Es & Eb).
    cbn [fst snd] in *. subst b. apply speaks_ret. split; [done|]. split; [done|]. apply did_none. by rewrite Es.
  - eapply speaks_bind.
    + apply speaks_send; [done| |split; [lia|by split]|done].
      destruct (nvm_params_fields off (if last then IXGBE_ACI_NVM_LAST_CMD else 0) module n) as (_ & _ & _ & _ & P5 & P6).
      { by apply high_byte_zero. }
      { by destruct last. }
      { done. }
      { unfold in_range. lia. }
      unfold write_desc. cbv zeta. by split.
    + cbv beta. intros [[st d] b] cs ([-> _] & Es & _ & Hsh). cbn [fst snd] in *. apply speaks_ret.
      rewrite app_nil_r. destruct b as [b|]; [|done]. destruct Hsh as [H1 H2]. split; [done|]. split; [done|]. apply did_one; [done|]. intros E0. split; [done|]. by eexists.
Qed.

(** an erasure reads the length of the module from the Shadow RAM first *)
Definition read_len_desc (module : Z) : ixgbe_aci_desc :=
  upd_d_params (nvm_params (2 * module + 2) IXGBE_ACI_NVM_LAST_CMD 0 2)
    (ixgbe_fill_dflt_direct_cmd_desc ixgbe_aci_opc_nvm_read).
Definition erase_desc (module len : Z) : ixgbe_aci_desc :=
  upd_d_params (fun p => put8 2 0 (put16 0 0 (put16 6 len (put16 4 module p))))
    (ixgbe_fill_dflt_direct_cmd_desc ixgbe_aci_opc_nvm_erase).
Definition erased (module : Z) cs : Prop :=
  exists x data len y, cs = [mk_fwcall (read_len_desc module) data x; mk_fwcall (erase_desc module len) [] y].

Lemma speaks_erase_nvm h module : in_range 15 module ->
  speaks h (ixgbe_aci_erase_nvm kmalloc module) (did (erased module)).
Proof using kmalloc_ok.
  intros Hm. unfold in_range in Hm. unfold ixgbe_aci_erase_nvm.
  eapply speaks_bind with (Q' := fun r cs => did (fun cs => exists data x, cs = [mk_fwcall (read_len_desc module) data x]) (fst r) cs).
  { unfold ixgbe_aci_read_nvm. destruct (Z.ltb_spec IXGBE_ACI_NVM_MAX_OFFSET (2 * module + 2)) as [|_].
    { apply speaks_ret. by apply did_none. }
    cbv zeta. match goal with |- context [ixgbe_aci_send_cmd _ ?x] => change x with (read_len_desc module) end.
    eapply speaks_bind.
    - apply speaks_send; [done| |split; [lia|split; [simpl; lia|by repeat constructor]]|done].
      destruct (nvm_params_fields (2 * module + 2) IXGBE_ACI_NVM_LAST_CMD 0 2) as (_ & _ & _ & _ & P5 & P6);
        [unfold in_range; lia|done|done|done|]. by split.
    - cbv beta. intros [[st d] b] cs ([-> _] & Es & _). cbn [fst snd] in *. apply speaks_ret. rewrite app_nil_r.
      apply did_one; [done|]. intros E. split; [done|]. by do 2 eexists. }
  cbv beta. intros [st len] cs [Ho Hd]. cbn [fst snd] in *. destruct (Z.eqb_spec st 0) as [->|Hne]; cbn [negb].
  2:{ apply speaks_ret. rewrite app_nil_r. by split. }
  destruct (Hd eq_refl) as [Ha (data & x & ->)].
  match goal with |- context [aci_direct _ ?x] => change x with (erase_desc module (get16 len 0)) end.
  eapply speaks_bind; [apply speaks_direct; [|done]|].
  { apply dflt_desc_ok; [done|done|]. repeat constructor; by apply trunc_range || (by vm_compute). }
  cbv beta. intros r cs (y & -> & Er & _). apply speaks_ret. rewrite app_nil_r. split.
  - apply Forall_app. split; [done|]. by constructor.
  - intros E. split; [apply Forall_app; split; [done|constructor; [|done]]|].
    + unfold accepted, fc_status. simpl. by rewrite <- Er.
    + by exists x, data, (get16 len 0), y.
Qed.

(** the record's package data *)
Definition pkg_desc : ixgbe_aci_desc :=
  let d := ixgbe_fill_dflt_direct_cmd_desc ixgbe_aci_opc_nvm_pkg_data in
  upd_d_flags (Z.lor (d_flags d) IXGBE_ACI_FLAG_RD) d.

Lemma speaks_set_pkg_data h data n : 0 <= n -> n <= Z.of_nat (length data) -> Forall byte data ->
  speaks h (ixgbe_nvm_set_pkg_data kmalloc false (Some data) n)
    (did (fun cs => exists x, cs = [mk_fwcall pkg_desc (take (Z.to_nat n) data) x])).
Proof using kmalloc_ok.
  intros Hn Hl Hb. unfold ixgbe_nvm_set_pkg_data. rewrite andb_false_r. cbv zeta.
  match goal with |- context [ixgbe_aci_send_cmd _ ?x] => change x with pkg_desc end.
  destruct (decide (1 <= n <= 4096)) as [Hv|Hv].
  - eapply speaks_bind; [apply speaks_send; [done| |split; [lia|by split]|done]|].
    { split; try done. split; [done|]. by apply Forall_replicate. }
    cbv beta. intros [[st d] b] cs ([-> _] & Es & _). cbn [fst snd] in *. apply speaks_ret. rewrite app_nil_r.
    apply did_one; [done|]. intros E. split; [done|]. by eexists.
  - eapply speaks_bind; [apply speaks_send_refused; [unfold IXGBE_ACI_MAX_BUFFER_SIZE; lia|done]|].
    cbv beta. intros [[st d] b] cs (-> & Es & _). cbn [fst snd] in *. apply speaks_ret. apply did_none. by rewrite Es.
Qed.

(** a component table; the answer says whether the firmware takes the component *)
Definition tbl_desc (flag : Z) : ixgbe_aci_desc :=
  let d := ixgbe_fill_dflt_direct_cmd_desc ixgbe_aci_opc_nvm_pass_component_tbl in
  upd_d_params (put8 3 flag) (upd_d_flags (Z.lor (d_flags d) IXGBE_ACI_FLAG_RD) d).

Lemma speaks_pass_component_tbl h data n flag : 1 <= n <= 4096 -> n <= Z.of_nat (length data) -> Forall byte data ->
  speaks h (ixgbe_nvm_pass_component_tbl kmalloc (Some data) n flag) (fun r cs =>
    exists c, cs = [c] /\ fc_desc c = tbl_desc flag /\ fc_data c = take (Z.to_nat n) data /\
      fst r = fc_status c /\ snd r = (if fst r =? 0 then Some (get8 (d_params (fc_answer c)) 0, get8 (d_params (fc_answer c)) 1) else None)).
Proof using kmalloc_ok.
  intros Hn Hl Hb. unfold ixgbe_nvm_pass_component_tbl. cbv zeta.
  match goal with |- context [ixgbe_aci_send_cmd _ ?x] => change x with (tbl_desc flag) end.
  eapply speaks_bind; [apply speaks_send; [done| |split; [lia|by split]|done]|].
  { split; try done. split; [done|]. repeat constructor; by apply trunc_range || (by vm_compute). }
  cbv beta. intros [[st d] b] cs ([-> _] & Es & _). cbn [fst snd] in *. apply speaks_ret. rewrite app_nil_r.
  eexists. split; [done|]. by split_and!.
Qed.

(** switching the banks *)
Definition activate_desc (flags : Z) : ixgbe_aci_desc :=
  upd_d_params (fun p => put8 2 (Z.land (Z.shiftr flags 8) 0xFF) (put8 3 (Z.land flags 0xFF) p))
    (ixgbe_fill_dflt_direct_cmd_desc ixgbe_aci_opc_nvm_write_activate).

Lemma speaks_write_activate h flags :
  speaks h (ixgbe_nvm_write_activate kmalloc flags) (fun r cs =>
    exists c, cs = [c] /\ fc_desc c = activate_desc flags /\ fst r = fc_status c /\
      snd r = (if fst r =? 0 then Some (get8 (d_params (fc_answer c)) 3) else None)).
Proof using kmalloc_ok.
  unfold ixgbe_nvm_write_activate. cbv zeta.
  match goal with |- context [aci_direct _ ?x] => change x with (activate_desc flags) end.
  eapply speaks_bind; [apply speaks_direct; [|done]|].
  { apply dflt_desc_ok; [done|done|]. repeat constructor; by apply trunc_range || (by vm_compute). }
  cbv beta. intros [st d] cs (x & -> & Er & _). apply speaks_ret. rewrite app_nil_r. destruct x as [[st' d'] b].
  cbn [fst] in Er. injection Er as -> ->. eexists. split; [done|]. by split_and!.
Qed.
End Talk.
