(* ===== verification/CapsProps.v ===== *)
(** * Capabilities: the parser against a reference

    The reference reads a list of capabilities as a map from identifiers to
    values: a member of the capability record is the value of the last element
    with the identifier the member belongs to ([last_of]).  The parser, which
    updates the record element by element, computes it; the order of elements
    with different identifiers does not matter. *)
From S2P Require Import Prelude Bytes Regs Types Osdep RegsE610.
From S2P Require Import Aci AciSafe AciDev AciUnit AciRpc AciNvm AciNvmFw AciCaps AciSession.

Abbreviation elem := ixgbe_aci_cmd_list_caps_elem.

(** the elements in a buffer *)
Definition elem_at (buf : list Z) (i : Z) : elem :=
  caps_elem_of (take 32 (drop (Z.to_nat (32 * i)) buf)).
Definition caps_elems (buf : list Z) (n : Z) : list elem := map (elem_at buf) (seqZ 0 n).

(** ** The reference *)
Definition last_of {A} (id : Z) (f : elem -> A) (d : A) (l : list elem) : A :=
  default d (option_map f (List.find (fun e => ce_cap e =? id) (rev l))).

Definition topo_of {A} (f : elem -> A) (d : A) (l : list elem) : list A :=
  [last_of IXGBE_ACI_CAPS_EXT_TOPO_DEV_IMG0 f d l; last_of IXGBE_ACI_CAPS_EXT_TOPO_DEV_IMG1 f d l;
   last_of IXGBE_ACI_CAPS_EXT_TOPO_DEV_IMG2 f d l; last_of IXGBE_ACI_CAPS_EXT_TOPO_DEV_IMG3 f d l].

Definition is_one (e : elem) : bool := ce_number e =? 1.
Definition flag (m : Z) (e : elem) : bool := has (ce_number e) m.

(** the common members; [ts] is the value of [ieee_1588] *)
Definition common_caps_of (ts : Z) (l : list elem) : ixgbe_hw_common_caps := {|
  cc_valid_functions := last_of IXGBE_ACI_CAPS_VALID_FUNCTIONS ce_number 0 l;
  cc_vmdq := last_of IXGBE_ACI_CAPS_VMDQ (fun e => Z.b2z (is_one e)) 0 l;
  cc_dcb := last_of IXGBE_ACI_CAPS_DCB (fun e => Z.b2z (is_one e)) 0 l;
  cc_active_tc_bitmap := last_of IXGBE_ACI_CAPS_DCB ce_logical_id 0 l;
  cc_maxtc := last_of IXGBE_ACI_CAPS_DCB ce_phys_id 0 l;
  cc_rss_table_size := last_of IXGBE_ACI_CAPS_RSS ce_number 0 l;
  cc_rss_table_entry_width := last_of IXGBE_ACI_CAPS_RSS ce_logical_id 0 l;
  cc_num_rxq := last_of IXGBE_ACI_CAPS_RXQS ce_number 0 l;
  cc_rxq_first_id := last_of IXGBE_ACI_CAPS_RXQS ce_phys_id 0 l;
  cc_num_txq := last_of IXGBE_ACI_CAPS_TXQS ce_number 0 l;
  cc_txq_first_id := last_of IXGBE_ACI_CAPS_TXQS ce_phys_id 0 l;
  cc_num_msix_vectors := last_of IXGBE_ACI_CAPS_MSIX ce_number 0 l;
  cc_msix_vector_first_id := last_of IXGBE_ACI_CAPS_MSIX ce_phys_id 0 l;
  cc_nvm_update_pending_nvm := last_of IXGBE_ACI_CAPS_PENDING_NVM_VER (fun _ => true) false l;
  cc_nvm_update_pending_orom := last_of IXGBE_ACI_CAPS_PENDING_OROM_VER (fun _ => true) false l;
  cc_nvm_update_pending_netlist := last_of IXGBE_ACI_CAPS_PENDING_NET_VER (fun _ => true) false l;
  cc_sec_rev_disabled := last_of IXGBE_ACI_CAPS_NVM_MGMT (flag IXGBE_NVM_MGMT_SEC_REV_DISABLED) false l;
  cc_update_disabled := last_of IXGBE_ACI_CAPS_NVM_MGMT (flag IXGBE_NVM_MGMT_UPDATE_DISABLED) false l;
  cc_nvm_unified_update := last_of IXGBE_ACI_CAPS_NVM_MGMT (flag IXGBE_NVM_MGMT_UNIFIED_UPD_SUPPORT) false l;
  cc_netlist_auth := last_of IXGBE_ACI_CAPS_NVM_MGMT (flag IXGBE_NVM_MGMT_NETLIST_AUTH_SUPPORT) false l;
  cc_max_mtu := last_of IXGBE_ACI_CAPS_MAX_MTU ce_number 0 l;
  cc_pcie_reset_avoidance := last_of IXGBE_ACI_CAPS_PCIE_RESET_AVOIDANCE (fun e => 0 <? ce_number e) false l;
  cc_reset_restrict_support := last_of IXGBE_ACI_CAPS_POST_UPDATE_RESET_RESTRICT is_one false l;
  cc_topo_ver_high := topo_of ce_number 0 l;
  cc_topo_ver_low := topo_of ce_logical_id 0 l;
  cc_topo_part_num := topo_of (fun e => Z.shiftr (Z.land (ce_phys_id e) IXGBE_EXT_TOPO_DEV_IMG_PART_NUM_M)
                                          IXGBE_EXT_TOPO_DEV_IMG_PART_NUM_S) 0 l;
  cc_topo_load_en := topo_of (fun e => has (ce_phys_id e) IXGBE_EXT_TOPO_DEV_IMG_LOAD_EN) false l;
  cc_topo_prog_en := topo_of (fun e => has (ce_phys_id e) IXGBE_EXT_TOPO_DEV_IMG_PROG_EN) false l;
  cc_orom_recovery_update := last_of IXGBE_ACI_CAPS_OROM_RECOVERY_UPDATE is_one false l;
  cc_next_cluster_id_support := last_of IXGBE_ACI_CAPS_NEXT_CLUSTER_ID is_one false l;
  cc_ptp_by_phy_support := last_of IXGBE_ACI_CAPS_PTP_BY_PHY (flag IXGBE_ACI_CAPS_PTP_BY_PHY_SUPP) false l;
  cc_ptp_by_phy_ll := last_of IXGBE_ACI_CAPS_PTP_BY_PHY (flag IXGBE_ACI_CAPS_PTP_BY_PHY_LL) false l;
  cc_eee_support := last_of IXGBE_ACI_CAPS_EEE (fun e => u8 (ce_number e)) 0 l;
  cc_ieee_1588 := ts |}.

(** the time synchronisation members of one element *)
Definition ts_dev_of (e : elem) : ixgbe_ts_dev_info := {|
  tsd_ena_ports := ce_logical_id e; tsd_tmr_own_map := ce_phys_id e;
  tsd_tmr0_owner := Z.land (ce_number e) IXGBE_TS_TMR0_OWNR_M;
  tsd_tmr1_owner := Z.shiftr (Z.land (ce_number e) IXGBE_TS_TMR1_OWNR_M) IXGBE_TS_TMR1_OWNR_S;
  tsd_tmr0_owned := Z.b2z (flag IXGBE_TS_TMR0_OWND_M e); tsd_tmr1_owned := Z.b2z (flag IXGBE_TS_TMR1_OWND_M e);
  tsd_ena := Z.b2z (flag IXGBE_TS_DEV_ENA_M e);
  tsd_tmr0_ena := Z.b2z (flag IXGBE_TS_TMR0_ENA_M e); tsd_tmr1_ena := Z.b2z (flag IXGBE_TS_TMR1_ENA_M e) |}.

(** the number of bits set *)
Definition popcount (n : nat) (w : Z) : Z := zsum (map (fun i => Z.b2z (Z.testbit w i)) (seqZ 0 (Z.of_nat n))).

Definition dev_caps_of (l : list elem) : ixgbe_hw_dev_caps := {|
  dcap_common := common_caps_of (last_of IXGBE_ACI_CAPS_1588 (fun e => Z.b2z (flag IXGBE_TS_DEV_ENA_M e)) 0 l) l;
  num_vsi_allocd_to_host := last_of IXGBE_ACI_CAPS_VSI ce_number 0 l;
  num_flow_director_fltr := last_of IXGBE_ACI_CAPS_FD ce_number 0 l;
  ts_dev := last_of IXGBE_ACI_CAPS_1588 ts_dev_of (ts_dev dev_caps0) l;
  num_funcs := last_of IXGBE_ACI_CAPS_VALID_FUNCTIONS (fun e => popcount 32 (ce_number e)) 0 l |}.

(** the time reference is one of the six known frequencies *)
Definition clk_freq_of (e : elem) : Z := Z.shiftr (Z.land (ce_number e) IXGBE_TS_CLK_FREQ_M) IXGBE_TS_CLK_FREQ_S.
Definition ts_func_of (e : elem) : ixgbe_ts_func_info := {|
  tsf_time_ref := if clk_freq_of e <? 6 then clk_freq_of e else 0; tsf_clk_freq := clk_freq_of e;
  tsf_clk_src := Z.b2z (flag IXGBE_TS_CLK_SRC_M e); tsf_tmr_index_assoc := Z.b2z (flag IXGBE_TS_TMR_IDX_ASSOC_M e);
  tsf_ena := Z.b2z (flag IXGBE_TS_FUNC_ENA_M e); tsf_tmr_index_owned := Z.b2z (flag IXGBE_TS_TMR_IDX_OWND_M e);
  tsf_src_tmr_owned := Z.b2z (flag IXGBE_TS_SRC_TMR_OWND_M e); tsf_tmr_ena := Z.b2z (flag IXGBE_TS_TMR_ENA_M e) |}.

(** the guaranteed VSIs are an equal share of the functions the device has *)
Definition share (max funcs : Z) : Z := if funcs =? 0 then 0 else max / funcs.
Definition func_caps_of (dc : ixgbe_hw_dev_caps) (l : list elem) : ixgbe_hw_func_caps := {|
  fcap_common := common_caps_of (last_of IXGBE_ACI_CAPS_1588 (fun e => Z.b2z (flag IXGBE_TS_FUNC_ENA_M e)) 0 l) l;
  guar_num_vsi := last_of IXGBE_ACI_CAPS_VSI
    (fun _ => share IXGBE_MAX_VSI (popcount 8 (cc_valid_functions (dcap_common dc)))) 0 l;
  ts_func := last_of IXGBE_ACI_CAPS_1588 ts_func_of (ts_func func_caps0) l |}.

(** ** The parser computes it *)
Lemma last_of_snoc {A} id (f : elem -> A) d l e :
  last_of id f d (l ++ [e]) = if ce_cap e =? id then f e else last_of id f d l.
Proof. unfold last_of. rewrite rev_unit. simpl. by destruct (ce_cap e =? id). Qed.

Lemma count_bits_popcount n w : count_bits n w = popcount n w.
Proof.
  induction n as [|n IH]; [done|]. cbn [count_bits]. rewrite IH. unfold popcount.
  rewrite Nat2Z.inj_succ, <- Z.add_1_r, zsum_seqZ_snoc by lia. f_equal. rewrite has_bit by lia.
  by destruct (Z.testbit w _).
Qed.
Lemma popcount_range n w : 0 <= popcount n w <= Z.of_nat n.
Proof.
  induction n as [|n IH]; [done|]. unfold popcount in *.
  rewrite Nat2Z.inj_succ, <- Z.add_1_r, zsum_seqZ_snoc by lia. destruct (Z.testbit w _); simpl; lia.
Qed.
Lemma hweight32_popcount w : ixgbe_hweight32 w = popcount 32 w.
Proof.
  unfold ixgbe_hweight32. rewrite count_bits_popcount. apply trunc_small.
  pose proof (popcount_range 32 w). unfold in_range. lia.
Qed.
Lemma num_per_func_share v max : num_per_func v max = share max (popcount 8 v).
Proof.
  unfold num_per_func, ixgbe_hweight8, share. rewrite count_bits_popcount.
  assert (popcount 8 (Z.land v IXGBE_CAPS_VALID_FUNCS_M) = popcount 8 v) as ->; [|done].
  unfold popcount. f_equal. apply map_ext_in. intros i Hi. change IXGBE_CAPS_VALID_FUNCS_M with (Z.ones 8).
  rewrite Z.land_spec, Z.ones_spec_low, andb_true_r; [done|].
  apply list_elem_of_In, elem_of_seqZ in Hi. lia.
Qed.

(** the identifiers *)
Definition cap_ids : list Z :=
  [IXGBE_ACI_CAPS_VALID_FUNCTIONS; IXGBE_ACI_CAPS_VMDQ; IXGBE_ACI_CAPS_VSI; IXGBE_ACI_CAPS_DCB; IXGBE_ACI_CAPS_RSS;
   IXGBE_ACI_CAPS_RXQS; IXGBE_ACI_CAPS_TXQS; IXGBE_ACI_CAPS_MSIX; IXGBE_ACI_CAPS_FD; IXGBE_ACI_CAPS_1588;
   IXGBE_ACI_CAPS_MAX_MTU; IXGBE_ACI_CAPS_NVM_VER; IXGBE_ACI_CAPS_PENDING_NVM_VER; IXGBE_ACI_CAPS_PENDING_OROM_VER;
   IXGBE_ACI_CAPS_PENDING_NET_VER; IXGBE_ACI_CAPS_PCIE_RESET_AVOIDANCE; IXGBE_ACI_CAPS_POST_UPDATE_RESET_RESTRICT;
   IXGBE_ACI_CAPS_NVM_MGMT; IXGBE_ACI_CAPS_EXT_TOPO_DEV_IMG0; IXGBE_ACI_CAPS_EXT_TOPO_DEV_IMG1;
   IXGBE_ACI_CAPS_EXT_TOPO_DEV_IMG2; IXGBE_ACI_CAPS_EXT_TOPO_DEV_IMG3; IXGBE_ACI_CAPS_OROM_RECOVERY_UPDATE;
   IXGBE_ACI_CAPS_NEXT_CLUSTER_ID; IXGBE_ACI_CAPS_PTP_BY_PHY; IXGBE_ACI_CAPS_EEE].

Lemma cap_cases c : c ∈ cap_ids \/ Forall (fun k => (c =? k) = false) cap_ids.
Proof.
  destruct (decide (c ∈ cap_ids)) as [|Hn]; [by left|right]. apply Forall_forall. intros k Hk.
  apply Z.eqb_neq. intros ->. by apply Hn, list_elem_of_In.
Qed.

(** one case per identifier, and one for all others *)
Ltac cap_case c :=
  let H := fresh in
  destruct (cap_cases c) as [H|H];
  [unfold cap_ids in H; repeat (apply elem_of_cons in H as [->|H]); [..|by apply elem_of_nil in H]
  |unfold cap_ids in H;
   repeat (let E := fresh in apply Forall_cons_1 in H as [E H]; try rewrite !E; clear E)].

Lemma parse_common_step ts l e :
  fst (ixgbe_parse_common_caps (common_caps_of ts l) e) = common_caps_of ts (l ++ [e]).
Proof.
  unfold common_caps_of, topo_of. rewrite !last_of_snoc. unfold ixgbe_parse_common_caps. destruct e as [c n lid pid].
  cbn [ce_cap ce_number ce_logical_id ce_phys_id]. cap_case c; reflexivity.
Qed.

Lemma parse_dev_step l e : parse_dev_cap (dev_caps_of l) e = dev_caps_of (l ++ [e]).
Proof.
  unfold parse_dev_cap, dev_caps_of. cbn [dcap_common]. rewrite parse_common_step, !last_of_snoc.
  unfold ixgbe_parse_valid_functions_cap. rewrite hweight32_popcount. destruct e as [c n lid pid].
  cbn [ce_cap ce_number ce_logical_id ce_phys_id]. cap_case c; reflexivity.
Qed.

Lemma dev_caps_of_nil : dev_caps_of [] = dev_caps0.
Proof. reflexivity. Qed.
Lemma func_caps_of_nil dc : func_caps_of dc [] = func_caps0.
Proof. reflexivity. Qed.

Lemma get32_put32 x : get32 (put32 4 x (replicate 16 0)) 4 = u32 x.
Proof.
  change (get32 (put32 4 x (replicate 16 0)) 4) with
    (le32_of (u8 x) (u8 (Z.shiftr x 8)) (u8 (Z.shiftr x 16)) (u8 (Z.shiftr (Z.shiftr x 16) 8))).
  rewrite Z.shiftr_shiftr by lia. change (16 + 8) with 24.
  assert (H : forall k, 0 <= k <= 24 -> u8 (Z.shiftr x k) = u8 (Z.shiftr (u32 x) k)).
  { intros k Hk. apply Z.bits_inj'. intros i Hi. rewrite !testbit_trunc, !Z.shiftr_spec, testbit_trunc by lia.
    destruct (Z.ltb_spec i 8); [|done]. destruct (Z.ltb_spec (i + k) 32); [done|lia]. }
  rewrite <- (Z.shiftr_0_r x) at 1. rewrite !H, Z.shiftr_0_r by lia. apply word_of_bytes. by apply trunc_range.
Qed.

Section Parse.
Context `{D : Mmio}.

Lemma parse_func_step dc l e (w : world) : dev_caps (w_hw w) = dc ->
  parse_func_cap (func_caps_of dc l) e w = Done (func_caps_of dc (l ++ [e])) w.
Proof.
  intros <-.
  unfold parse_func_cap, func_caps_of. rewrite <- num_per_func_share.
  cbn [fcap_common]. rewrite parse_common_step, !last_of_snoc. destruct e as [c n lid pid].
  cbn [ce_cap ce_number ce_logical_id ce_phys_id]. cap_case c; reflexivity.
Qed.

Lemma caps_elem_at_inside buf i (w : world) : 0 <= i -> 32 * (i + 1) <= Z.of_nat (length buf) ->
  caps_elem_at buf i w = Done (elem_at buf i) w.
Proof.
  intros Hi Hl. unfold caps_elem_at, caps_elem_size, mbind, comp_bind, copy_from. rewrite length_drop.
  destruct (Z.ltb_spec (Z.of_nat (length buf - Z.to_nat (32 * i))) 32); [lia|done].
Qed.
Lemma caps_elem_at_outside buf i (w : world) : 0 <= i -> Z.of_nat (length buf) < 32 * (i + 1) ->
  caps_elem_at buf i w = Fault FOutOfBounds.
Proof.
  intros Hi Hl. unfold caps_elem_at, caps_elem_size, mbind, comp_bind, copy_from. rewrite length_drop.
  destruct (Z.ltb_spec (Z.of_nat (length buf - Z.to_nat (32 * i))) 32); [done|lia].
Qed.

(** a loop over the elements that keeps the reference value *)
Lemma caps_loop {A} (f : list elem -> A) (body : Z -> A -> M A) buf k i l (w : world) :
  (forall j l, i <= j < i + Z.of_nat k -> body j (f l) w = Done (f (l ++ [elem_at buf j])) w) ->
  for_acc k i (f l) body w = Done (f (l ++ map (elem_at buf) (seqZ i (Z.of_nat k)))) w.
Proof.
  revert i l. induction k as [|k IH]; intros i l Hb; [by rewrite app_nil_r|].
  unfold for_acc; fold (@for_acc world A). unfold mbind, comp_bind. rewrite Hb by lia.
  rewrite IH by (intros; apply Hb; lia). rewrite (seqZ_cons i), Nat2Z.inj_succ, Z.pred_succ, <- Z.add_1_r by lia.
  cbn [map]. by rewrite <- app_assoc.
Qed.

(** a loop whose body faults at [m] *)
Lemma loop_faults {A} (body : Z -> A -> M A) e m k i a (w : world) : i <= m < i + Z.of_nat k ->
  (forall a, body m a w = Fault e) -> (forall j a, i <= j < m -> exists a', body j a w = Done a' w) ->
  for_acc k i a body w = Fault e.
Proof.
  revert i a. induction k as [|k IH]; intros i a Hm He Hb; [lia|].
  unfold for_acc; fold (@for_acc world A). unfold mbind, comp_bind.
  destruct (decide (i = m)) as [->|Hn]; [by rewrite He|].
  destruct (Hb i a) as [a' ->]; [lia|]. apply IH; [lia|done|]. intros j b Hj. apply Hb. lia.
Qed.

Lemma parse_dev_caps_run buf n (w : world) : 0 <= n -> 32 * n <= Z.of_nat (length buf) ->
  ixgbe_parse_dev_caps buf n w = Done (dev_caps_of (caps_elems buf n)) w.
Proof.
  intros Hn Hl. unfold ixgbe_parse_dev_caps. rewrite <- dev_caps_of_nil.
  rewrite (caps_loop dev_caps_of _ buf), Z2Nat.id by (lia || (intros j l Hj; unfold mbind, comp_bind;
    rewrite caps_elem_at_inside by lia; by rewrite <- parse_dev_step)). done.
Qed.

Lemma parse_func_caps_run buf n (w : world) : 0 <= n -> 32 * n <= Z.of_nat (length buf) ->
  ixgbe_parse_func_caps buf n w = Done (func_caps_of (dev_caps (w_hw w)) (caps_elems buf n)) w.
Proof.
  intros Hn Hl. unfold ixgbe_parse_func_caps. rewrite <- (func_caps_of_nil (dev_caps (w_hw w))).
  rewrite (caps_loop (func_caps_of (dev_caps (w_hw w))) _ buf), Z2Nat.id by (lia || (intros j l Hj;
    unfold mbind, comp_bind; rewrite caps_elem_at_inside by lia; by apply parse_func_step)). done.
Qed.

Lemma parse_dev_caps_overrun buf n (w : world) : Z.of_nat (length buf) < 32 * n ->
  ixgbe_parse_dev_caps buf n w = Fault FOutOfBounds.
Proof.
  intros Hl. unfold ixgbe_parse_dev_caps. apply (loop_faults _ _ (Z.of_nat (length buf) / 32)); [zlia| |].
  - intros a. unfold mbind, comp_bind. by rewrite caps_elem_at_outside by zlia.
  - intros j a Hj. unfold mbind, comp_bind. rewrite caps_elem_at_inside by zlia. by eexists.
Qed.
End Parse.

(** ** Firmware that reports capabilities *)

(** the number of elements it announces and the contents of its buffer, for the
    command [opc]; they do not change *)
Class CapsFirmware (F : Firmware) := {
  caps_count : fw -> Z -> Z;
  caps_bytes : fw -> Z -> list Z;
  fw_list_caps s l hb s' ad ab : fw_exec s l hb = (s', ad, ab) ->
    let opc := d_opcode (desc_of_raw l) in
    opc = ixgbe_aci_opc_list_dev_caps \/ opc = ixgbe_aci_opc_list_func_caps ->
    d_opcode (desc_of_raw ad) = opc /\ d_retval (desc_of_raw ad) = IXGBE_ACI_RC_OK /\
    has (d_flags (desc_of_raw ad)) IXGBE_ACI_FLAG_BUF = true /\
    get32 (d_params (desc_of_raw ad)) 4 = caps_count s opc /\ bytes_of ab = caps_bytes s opc /\
    forall o, caps_count s' o = caps_count s o /\ caps_bytes s' o = caps_bytes s o;
}.

Section Discovery.
Context `{D : Mmio} `{F : Firmware} `{!AciDevice D F} `{!CapsFirmware F} (kmalloc : Z -> world -> bool).
Context (kmalloc_ok : forall k w, kmalloc k w = true).

(** the answers the firmware would give in [s] *)
Definition same_caps (s s' : fw) : Prop :=
  forall o, caps_count s' o = caps_count s o /\ caps_bytes s' o = caps_bytes s o.

Lemma wp_fetch_caps opc w s (Q : option (Z * list Z * Z) -> world -> Prop) :
  aci_ready w s -> opc = ixgbe_aci_opc_list_dev_caps \/ opc = ixgbe_aci_opc_list_func_caps ->
  (forall w' s', aci_ready w' s' -> same_caps s s' -> w_hw w' = hw_last 0 (w_hw w) ->
     0 <= caps_count s opc -> length (caps_bytes s opc) = 4096%nat ->
     Q (Some (0, caps_bytes s opc, caps_count s opc)) w') ->
  wp (fetch_caps kmalloc opc) Q w.
Proof using kmalloc_ok.
  intros Hr Hop HQ. unfold fetch_caps, ixgbe_malloc. wp_step. unfold gets, wp at 1. rewrite kmalloc_ok. cbn [negb].
  set (buf := replicate (Z.to_nat IXGBE_ACI_MAX_BUFFER_SIZE) 0). wp_step. unfold ixgbe_aci_list_caps.
  assert (Hc : negb (opc =? ixgbe_aci_opc_list_func_caps) && negb (opc =? ixgbe_aci_opc_list_dev_caps) = false)
    by by destruct Hop as [-> | ->].
  rewrite Hc. set (d := ixgbe_fill_dflt_direct_cmd_desc opc).
  assert (Hd : desc_ok d).
  { split; try done; [by destruct Hop as [-> | ->]|]. split; [done|]. by apply Forall_replicate. }
  assert (Hlb : length buf = 4096%nat) by apply length_replicate.
  assert (Hv : valid_buf d (Some buf) 4096).
  { split; [lia|]. split; [rewrite Hlb; lia|by apply Forall_replicate]. }
  wp_step. eapply wp_send_cmd; [exact Hr|exact Hd|exact Hv|exact kmalloc_ok|by destruct Hop as [-> | ->]|].
  intros w' hb s' ad ab rq _ Ex Hr' x Eh.
  assert (Hrq : desc_of_raw (raw_desc rq.1) = rq.1).
  { apply desc_of_raw_desc. by apply aci_request_ok. }
  assert (Hab : length ab = 1024%nat) by (pose proof (fw_buf_ok s (raw_desc rq.1) hb) as [H _]; by rewrite Ex in H).
  destruct (fw_list_caps _ _ _ _ _ _ Ex) as (F1 & F2 & F3 & F4 & F5 & F6); rewrite Hrq in *;
    change (d_opcode rq.1) with opc in *; [done|].
  assert (Hx : x = ((IXGBE_SUCCESS, desc_of_raw ad, Some (caps_bytes s opc)), 0)).
  { unfold x, rpc_reply. change (d_opcode d) with opc. rewrite F1, F2, F3, Z.eqb_refl, F5.
    change (drop (Z.to_nat 4096) buf) with (@nil Z). rewrite app_nil_r.
    rewrite firstn_all2; [done|]. rewrite <- F5, length_bytes_of, Hab. unfold IXGBE_ACI_MAX_BUFFER_SIZE. lia. }
  rewrite Hx in *. cbn [fst snd] in *. apply wp_ret. apply wp_ret. cbn [default]. rewrite F4.
  apply (HQ w' s'); try done.
  - rewrite <- F4. apply get32_nonneg.
    pose proof (fw_desc_ok s (raw_desc rq.1) hb) as [H1 H2]. rewrite Ex in H1, H2.
    by apply (do_params _ (desc_of_raw_ok _ H1 H2)).
  - rewrite <- F5, length_bytes_of, Hab. done.
Qed.

(** C24: If the firmware announces no more elements than the buffer of 4096 bytes
    holds, [ixgbe_get_caps] succeeds and the capability records are those the
    lists describe: each member is the value of the last element with its
    identifier, and the guaranteed VSIs are the share of one of the functions
    that the device capabilities just read announce. *)
Theorem get_caps_exact w s :
  let n := caps_count s ixgbe_aci_opc_list_dev_caps in
  let m := caps_count s ixgbe_aci_opc_list_func_caps in
  aci_ready w s -> n <= 128 -> m <= 128 ->
  wp (ixgbe_get_caps kmalloc) (fun st w' => st = 0 /\
    let dc := dev_caps_of (caps_elems (caps_bytes s ixgbe_aci_opc_list_dev_caps) n) in
    dev_caps (w_hw w') = dc /\
    func_caps (w_hw w') = func_caps_of dc (caps_elems (caps_bytes s ixgbe_aci_opc_list_func_caps) m)) w.
Proof using kmalloc_ok.
  intros n m Hr Hn Hm. unfold ixgbe_get_caps, ixgbe_discover_dev_caps. wp_step. wp_step.
  eapply wp_fetch_caps; [exact Hr|by left|]. intros w1 s1 Hr1 Hc1 Eh1 Hn0 Hl1. fold n in Hn0 |- *. cbn [Z.eqb].
  wp_step. unfold wp at 1. rewrite parse_dev_caps_run by (rewrite ?Hl1; lia). apply wp_ret. wp_step. apply wp_upd_hw.
  cbn [Z.eqb negb]. unfold ixgbe_discover_func_caps. wp_step. wp_step.
  eapply wp_fetch_caps with (s := s1); [|by right|].
  { destruct Hr1 as [(u & Hu & Hi) Hl]. split; [|done]. exists u. split; [|done]. destruct Hu. by split. }
  intros w2 s2 Hr2 Hc2 Eh2. destruct (Hc1 ixgbe_aci_opc_list_func_caps) as [-> ->]. fold m. intros Hm0 Hl2. cbn [Z.eqb].
  wp_step. unfold wp at 1. rewrite parse_func_caps_run by (rewrite ?Hl2; lia). apply wp_ret. wp_step. apply wp_upd_hw, wp_ret.
  split; [done|]. cbv zeta. cbn [w_hw]. rewrite Eh2. done.
Qed.

(** The number of elements is taken from the firmware's answer without a check
    against the size of the buffer: an answer that announces more than 128
    elements makes [ixgbe_get_caps] read beyond the 4096 bytes. *)
Theorem caps_count_overrun w s :
  aci_ready w s -> 128 < caps_count s ixgbe_aci_opc_list_dev_caps ->
  ixgbe_get_caps kmalloc w = Fault FOutOfBounds.
Proof using kmalloc_ok.
  intros Hr Hn.
  assert (H : wp (fetch_caps kmalloc ixgbe_aci_opc_list_dev_caps) (fun r w' => exists b c, r = Some (0, b, c) /\
    length b = 4096%nat /\ 128 < c) w).
  { eapply wp_fetch_caps; [exact Hr|by left|]. intros w1 s1 _ _ _ _ Hl. eauto. }
  apply wp_done in H as (r & w' & E & b & c & -> & Hl & Hc).
  unfold ixgbe_get_caps, ixgbe_discover_dev_caps, mbind, comp_bind. rewrite E. cbn [Z.eqb].
  by rewrite parse_dev_caps_overrun by (rewrite Hl; lia).
Qed.
End Discovery.

(** ** Instances *)
#[local, refine] Instance agree_caps count buf : CapsFirmware (agree_firmware count buf) := {
  caps_count := fun _ _ => u32 count; caps_bytes := fun _ _ => agree_page buf }.
Proof.
  intros s l hb s' ad ab Ex opc _. destruct (agree_reply count buf s l hb s' ad ab Ex) as [Ea Eb].
  rewrite Ea. cbn [agree_desc d_opcode d_retval d_flags d_params].
  split; [done|]. split; [done|]. split; [done|]. split; [apply get32_put32|]. by split.
Defined.

(** three elements: functions 0 and 1 are valid, a pending update of the NVM, VSIs *)
Definition ex_caps : list Z :=
  [5; 0; 0; 0; 3; 0; 0; 0] ++ replicate 24 0 ++ [0x49; 0] ++ replicate 30 0 ++ [0x17; 0] ++ replicate 30 0.

Lemma get_caps_exact_witness :
  let F := agree_firmware 3 ex_caps in
  let w := agree_world 3 ex_caps hw0 in
  aci_ready (D := unit_mmio) (AciDevice0 := unit_device) w tt /\
  wp (ixgbe_get_caps (D := unit_mmio) (fun _ _ => true)) (fun st w' => st = 0 /\
    num_funcs (dev_caps (w_hw w')) = 2 /\ guar_num_vsi (func_caps (w_hw w')) = 384 /\
    cc_nvm_update_pending_nvm (dcap_common (dev_caps (w_hw w'))) = true) w.
Proof.
  intros F w. assert (Hr : aci_ready (D := unit_mmio) (AciDevice0 := unit_device) w tt).
  { apply agree_world_ready; [by split|done]. }
  split; [done|]. eapply wp_mono.
  - apply (get_caps_exact (AciDevice0 := unit_device) (fun _ _ => true) (fun _ _ => eq_refl) w _ Hr); vm_compute; discriminate.
  - cbv beta. intros st w' (-> & E1 & E2). rewrite E1, E2. vm_compute. done.
Defined.

Lemma caps_count_overrun_witness :
  let F := agree_firmware 129 [] in
  let w := agree_world 129 [] hw0 in
  aci_ready (D := unit_mmio) (AciDevice0 := unit_device) w tt /\
  ixgbe_get_caps (D := unit_mmio) (fun _ _ => true) w = Fault FOutOfBounds.
Proof.
  intros F w. assert (Hr : aci_ready (D := unit_mmio) (AciDevice0 := unit_device) w tt).
  { apply agree_world_ready; [by split|done]. }
  split; [done|].
  apply (caps_count_overrun (AciDevice0 := unit_device) (fun _ _ => true) (fun _ _ => eq_refl) w _ Hr). reflexivity.
Defined.
