(* ===== verification/FwUpdate.v ===== *)
(** * Firmware update of the E610 (ixgbe_fw_update.c)

    The driver's side of an update: the operations that the PLDM engine of Pldm.v
    calls, and the entry point that cancels a pending update, takes the NVM,
    runs the engine and releases the NVM.

    The state of a run has the adapter (a [world]), the members of
    [struct ixgbe_fwu_priv] that change, [fw_emp_reset_disabled] of the adapter
    and the notifications that were sent to devlink, oldest first.  Messages to
    the log and to the extended ACK are dropped.  The file [fw] is
    [params->fw] ([HAVE_DEVLINK_FLASH_UPDATE_PARAMS_FW]); a pointer into it is an
    offset. *)
From S2P Require Import Prelude Status Bytes Regs Types Osdep RegsE610 Aci AciNvm AciCaps.
From S2P Require Import Pldm.

Definition EIO : Z := 5.
Definition ECANCELED : Z := 125.

Definition DEVLINK_FLASH_OVERWRITE_SETTINGS : Z := bit 0.
Definition DEVLINK_FLASH_OVERWRITE_IDENTIFIERS : Z := bit 1.

(** the texts of the notifications *)
Inductive flash_msg :=
  | Preparing | Canceling | Erasing | Erasing_failed | Erasing_done
  | Flashing | Flashing_failed | Flashing_done
  | Activate_by_reload | Activate_by_reboot | Activate_by_power_cycle | Activate_suggested_reload.
(** the component's name in them *)
Inductive flash_part := fw_undi | fw_mgmt | fw_netlist.
#[export] Instance flash_part_eq_dec : EqDecision flash_part.
Proof. solve_decision. Defined.

(** message, component, done and total *)
Record notification := mk_note { n_msg : flash_msg; n_part : option flash_part; n_done : Z; n_total : Z }.

(** what changes beside the adapter *)
Record ixgbe_fwu_priv := mk_fwu_priv {
  activate_flags : Z; reset_level : Z; emp_reset_available : Z;
  fw_emp_reset_disabled : bool; notes : list notification }.
Definition set_activate_flags x p := mk_fwu_priv x (reset_level p) (emp_reset_available p)
  (fw_emp_reset_disabled p) (notes p).
Definition set_reset_level x p := mk_fwu_priv (activate_flags p) x (emp_reset_available p)
  (fw_emp_reset_disabled p) (notes p).
Definition set_emp_reset_available x p := mk_fwu_priv (activate_flags p) (reset_level p) x
  (fw_emp_reset_disabled p) (notes p).
Definition set_fw_emp_reset_disabled x p := mk_fwu_priv (activate_flags p) (reset_level p)
  (emp_reset_available p) x (notes p).
Definition add_note n p := mk_fwu_priv (activate_flags p) (reset_level p) (emp_reset_available p)
  (fw_emp_reset_disabled p) (notes p ++ [n]).

Definition IXGBE_FW_ERASE_TIMEOUT : Z := 300.
(** [sizeof(struct ixgbe_hw_dev_caps)] with the alignment of a 64-bit machine *)
Definition sizeof_dev_caps : Z := 224.

(** name, module and activation flag of a component identifier *)
Definition comp_name (id : Z) : option flash_part :=
  if id =? NVM_COMP_ID_OROM then Some fw_undi
  else if id =? NVM_COMP_ID_NVM then Some fw_mgmt
  else if id =? NVM_COMP_ID_NETLIST then Some fw_netlist
  else None.
Definition comp_module (c : flash_part) : Z :=
  match c with
  | fw_undi => E610_SR_1ST_OROM_BANK_PTR
  | fw_mgmt => E610_SR_1ST_NVM_BANK_PTR
  | fw_netlist => E610_SR_NETLIST_BANK_PTR
  end.
Definition comp_flag (c : flash_part) : Z :=
  match c with
  | fw_undi => IXGBE_ACI_NVM_ACTIV_SEL_OROM
  | fw_mgmt => IXGBE_ACI_NVM_ACTIV_SEL_NVM
  | fw_netlist => IXGBE_ACI_NVM_ACTIV_SEL_NETLIST
  end.

(** struct ixgbe_aci_cmd_nvm_comp_tbl of a component, with its version string *)
Definition comp_tbl_bytes (c : pldmfw_component) (cvs : list Z) : list Z :=
  [u8 (classification c); u8 (Z.shiftr (classification c) 8);
   u8 (identifier c); u8 (Z.shiftr (identifier c) 8);
   FWU_COMP_CLASS_IDX_NOT_USE] ++ bytes_of_word (comparison_stamp c) ++
  [c_version_type c; c_version_len c] ++ cvs.

(** the preservation level of an overwrite mask *)
Definition preservation_of (overwrite_mask : Z) : option Z :=
  if overwrite_mask =? 0 then Some IXGBE_ACI_NVM_PRESERVE_ALL
  else if overwrite_mask =? DEVLINK_FLASH_OVERWRITE_SETTINGS then Some IXGBE_ACI_NVM_PRESERVE_SELECTED
  else if overwrite_mask =? Z.lor DEVLINK_FLASH_OVERWRITE_SETTINGS DEVLINK_FLASH_OVERWRITE_IDENTIFIERS
  then Some IXGBE_ACI_NVM_NO_PRESERVATION
  else None.

Section FwUpdate.
Context `{D : Mmio} (kmalloc : Z -> world -> bool) (kz : nat -> bool) (crc32_le : Z -> list Z -> Z).
Context (pdev : pci_dev) (fw : list Z).

Record fwu := mk_fwu { f_hw : world; f_priv : ixgbe_fwu_priv }.
Abbreviation U := (comp fwu).

(** shared code on [adapter->hw] *)
Definition on_hw {A} (m : M A) : U A := fun st =>
  match m (f_hw st) with
  | Done a w => Done a (mk_fwu w (f_priv st))
  | Fault e => Fault e
  end.
Definition get_fwu_priv : U ixgbe_fwu_priv := gets f_priv.
Definition upd_fwu_priv (f : ixgbe_fwu_priv -> ixgbe_fwu_priv) : U unit :=
  modify (fun st => mk_fwu (f_hw st) (f (f_priv st))).
Definition get_caps_of_hw : U ixgbe_hw_common_caps :=
  h ← on_hw get_hw; mret (dcap_common (dev_caps h)).

Definition devlink_flash_update_status_notify (m : flash_msg) (part : option flash_part) (done total : Z) : U unit :=
  upd_fwu_priv (add_note (mk_note m part done total)).
Definition devlink_flash_update_timeout_notify (m : flash_msg) (part : option flash_part) (timeout : Z) : U unit :=
  upd_fwu_priv (add_note (mk_note m part 0 timeout)).

(** [length] bytes of the file behind the pointer [data] *)
Definition fw_bytes (data length : Z) : U (list Z) :=
  copy_from (drop (Z.to_nat data) fw) length.

Definition ixgbe_fw_recovery_mode : U bool := on_hw ixgbe_fw_recovery_mode_E610.

(** [kmemdup] copies the data if there is memory *)
Definition ixgbe_send_package_data (data length : Z) : U Z :=
  ok ← on_hw (ixgbe_malloc kmalloc length);
  if negb ok then mret (- ENOMEM)
  else
    package_data ← fw_bytes data length;
    status ← on_hw (ixgbe_nvm_set_pkg_data kmalloc false (Some package_data) length);
    mret (if negb (status =? 0) then - EIO else 0).

(** the second switch only chooses the message *)
Definition ixgbe_check_component_response (id response code : Z) : U Z :=
  match comp_name id with
  | None => mret (- EINVAL)
  | Some _ =>
      if (response =? IXGBE_ACI_NVM_PASS_COMP_CAN_BE_UPDATED) ||
         (response =? IXGBE_ACI_NVM_PASS_COMP_CAN_MAY_BE_UPDATEABLE) then mret 0
      else if response =? IXGBE_ACI_NVM_PASS_COMP_PARTIAL_CHECK then
        r ← ixgbe_fw_recovery_mode;
        mret (if r : bool then 0 else - ECANCELED)
      else mret (- ECANCELED)
  end.

Definition ixgbe_send_component_table (c : pldmfw_component) (transfer_flag : Z) : U Z :=
  match comp_name (identifier c) with
  | None => mret (- EOPNOTSUPP)
  | Some _ =>
      let length := 11 + c_version_len c in
      ok ← on_hw (ixgbe_malloc kmalloc length);
      if negb ok then mret (- ENOMEM)
      else
        cvs ← fw_bytes (c_version_string c) (c_version_len c);
        r ← on_hw (ixgbe_nvm_pass_component_tbl kmalloc (Some (comp_tbl_bytes c cvs)) length transfer_flag);
        match r with
        | (0, Some (response, code)) => ixgbe_check_component_response (identifier c) response code
        | _ => mret (- EIO)
        end
  end.

(** result and [block]; [wants_reset_level] is whether [reset_level] is not NULL *)
Definition ixgbe_write_one_nvm_block (module offset block_size : Z) (block : list Z) (last_cmd : bool)
    (wants_reset_level : bool) : U (Z * list Z) :=
  r ← on_hw (ixgbe_aci_update_nvm kmalloc module offset block_size block last_cmd 0);
  let '(status, block) := r in
  if negb (status =? 0) then mret (- EIO, block)
  else
    (if wants_reset_level && last_cmd && (module =? E610_SR_1ST_NVM_BANK_PTR) then
       caps ← get_caps_of_hw;
       upd_fwu_priv (set_reset_level (if cc_pcie_reset_avoidance caps
                                      then IXGBE_ACI_NVM_RESET_LVL_M else IXGBE_ACI_NVM_POR_FLAG))
     else mret tt) ;;
    mret (0, block).

(** the [do] loop, one round per block; [image] is the component's data *)
Fixpoint write_nvm_loop (fuel : nat) (module : Z) (part : flash_part) (image : list Z) (length offset : Z)
    (block : list Z) (wants_reset_level : bool) : U Z :=
  match fuel with
  | O => crash FOutOfFuel
  | S fuel' =>
      let block_size := Z.min IXGBE_ACI_MAX_BUFFER_SIZE (u32 (length - offset)) in
      let last_cmd := negb (u32 (offset + block_size) <? length) in
      data ← copy_from (drop (Z.to_nat offset) image) block_size;
      block ← copy_to block data;
      r ← ixgbe_write_one_nvm_block module offset (u16 block_size) block last_cmd wants_reset_level;
      let '(err, block) := r in
      if negb (err =? 0) then mret err
      else
        let offset := u32 (offset + block_size) in
        devlink_flash_update_status_notify Flashing (Some part) offset length ;;
        if last_cmd then mret err
        else write_nvm_loop fuel' module part image length offset block wants_reset_level
  end.

(** [image] is a pointer into the file *)
Definition ixgbe_write_nvm_module (module : Z) (part : flash_part) (image length : Z)
    (wants_reset_level : bool) : U Z :=
  devlink_flash_update_status_notify Flashing (Some part) 0 length ;;
  ok ← on_hw (ixgbe_malloc kmalloc IXGBE_ACI_MAX_BUFFER_SIZE);
  if negb ok then mret (- ENOMEM)
  else
    err ← write_nvm_loop (Z.to_nat (length / IXGBE_ACI_MAX_BUFFER_SIZE + 1)) module part
            (drop (Z.to_nat image) fw) length 0
            (replicate (Z.to_nat IXGBE_ACI_MAX_BUFFER_SIZE) 0) wants_reset_level;
    devlink_flash_update_status_notify (if negb (err =? 0) then Flashing_failed else Flashing_done)
      (Some part) length length ;;
    mret err.

Definition ixgbe_erase_nvm_module (module : Z) (part : flash_part) : U Z :=
  devlink_flash_update_timeout_notify Erasing (Some part) IXGBE_FW_ERASE_TIMEOUT ;;
  status ← on_hw (ixgbe_aci_erase_nvm kmalloc module);
  if negb (status =? 0) then
    devlink_flash_update_status_notify Erasing_failed (Some part) 0 0 ;; mret (- EIO)
  else
    devlink_flash_update_status_notify Erasing_done (Some part) 0 0 ;; mret 0.

(** result and, if it was wanted, [*emp_reset_available] *)
Definition ixgbe_switch_flash_banks (flags : Z) (wants_emp_reset : bool) : U Z :=
  r ← on_hw (ixgbe_nvm_write_activate kmalloc flags);
  match r with
  | (0, Some response_flags) =>
      (if wants_emp_reset then
         caps ← get_caps_of_hw;
         upd_fwu_priv (set_emp_reset_available (if cc_reset_restrict_support caps
                         then Z.land response_flags IXGBE_ACI_NVM_EMPR_ENA else IXGBE_ACI_NVM_EMPR_ENA))
       else mret tt) ;;
      mret 0
  | _ => mret (- EIO)
  end.

Definition ixgbe_flash_component (c : pldmfw_component) : U Z :=
  match comp_name (identifier c) with
  | None => mret (- EINVAL)
  | Some part =>
      upd_fwu_priv (fun p => set_activate_flags (Z.lor (activate_flags p) (comp_flag part)) p) ;;
      ixgbe_erase_nvm_module (comp_module part) part ?;
      ixgbe_write_nvm_module (comp_module part) part (component_data c) (component_size c)
        (bool_decide (part = fw_mgmt))
  end.

(** the text for a reset level *)
Definition activate_msg (level : Z) : flash_msg :=
  if level =? IXGBE_ACI_NVM_EMPR_FLAG then Activate_by_reload
  else if level =? IXGBE_ACI_NVM_PERST_FLAG then Activate_by_reboot
  else if level =? IXGBE_ACI_NVM_POR_FLAG then Activate_by_power_cycle
  else Activate_suggested_reload.

Definition ixgbe_finalize_update : U Z :=
  p ← get_fwu_priv;
  ixgbe_switch_flash_banks (activate_flags p) true ?;
  (p ← get_fwu_priv;
   (if (reset_level p =? IXGBE_ACI_NVM_EMPR_FLAG) && (emp_reset_available p =? 0)
    then upd_fwu_priv (set_reset_level IXGBE_ACI_NVM_PERST_FLAG) else mret tt) ;;
   p ← get_fwu_priv;
   devlink_flash_update_status_notify (activate_msg (reset_level p)) None 0 0 ;;
   upd_fwu_priv (set_fw_emp_reset_disabled (emp_reset_available p =? 0)) ;;
   mret 0).

Definition ixgbe_fwu_ops_e610 : pldmfw_ops fwu :=
  mk_ops (pldmfw_op_pci_match_record fw pdev) ixgbe_send_package_data ixgbe_send_component_table
    ixgbe_flash_component (Some ixgbe_finalize_update).

(** result and, on success, [*pending] *)
Definition ixgbe_get_pending_updates : U (Z * Z) :=
  ok ← on_hw (ixgbe_malloc kmalloc sizeof_dev_caps);
  if negb ok then mret (- ENOMEM, 0)
  else
    r ← on_hw (ixgbe_discover_dev_caps kmalloc);
    match r with
    | (0, Some caps) =>
        let c := dcap_common caps in
        let pending := if cc_nvm_update_pending_nvm c then IXGBE_ACI_NVM_ACTIV_SEL_NVM else 0 in
        let pending := if cc_nvm_update_pending_orom c
                       then Z.lor pending IXGBE_ACI_NVM_ACTIV_SEL_OROM else pending in
        let pending := if cc_nvm_update_pending_netlist c
                       then Z.lor pending IXGBE_ACI_NVM_ACTIV_SEL_NETLIST else pending in
        mret (0, pending)
    | _ => mret (- EIO, 0)
    end.

(** [component] is [None] for NULL; the callers pass only the three names *)
Definition ixgbe_cancel_pending_update (component : option flash_part) : U Z :=
  r ← ixgbe_get_pending_updates;
  let '(err, pending) := r in
  if negb (err =? 0) then mret err
  else
    let pending := match component with
                   | Some c => Z.land pending (comp_flag c)
                   | None => pending
                   end in
    if pending =? 0 then mret 0
    else
      devlink_flash_update_status_notify Canceling component 0 0 ;;
      status ← on_hw (ixgbe_acquire_nvm kmalloc IXGBE_RES_WRITE);
      if negb (status =? 0) then mret (- EIO)
      else
        err ← ixgbe_switch_flash_banks (Z.lor pending IXGBE_ACI_NVM_REVERT_LAST_ACTIV) false;
        on_hw (ixgbe_release_nvm kmalloc) ;;
        upd_fwu_priv (set_fw_emp_reset_disabled false) ;;
        mret err.

(** [pldmfw_flash_image(&priv.context, fw)] on this state *)
Definition run_engine : U Z := fun st =>
  match pldmfw_flash_image kz crc32_le fw ixgbe_fwu_ops_e610 (mk_engine priv0 0 0 st) with
  | Done err s => Done err (e_dev s)
  | Fault e => Fault e
  end.

Definition ixgbe_flash_pldm_image (overwrite_mask : Z) : U Z :=
  match preservation_of overwrite_mask with
  | None => mret (- EOPNOTSUPP)
  | Some preservation =>
      caps ← get_caps_of_hw;
      supported ← (if cc_nvm_unified_update caps then mret true else ixgbe_fw_recovery_mode);
      if negb supported then mret (- EOPNOTSUPP)
      else
        upd_fwu_priv (fun p => mk_fwu_priv preservation 0 0 (fw_emp_reset_disabled p) (notes p)) ;;
        devlink_flash_update_status_notify Preparing None 0 0 ;;
        ixgbe_cancel_pending_update None ?;
        (status ← on_hw (ixgbe_acquire_nvm kmalloc IXGBE_RES_WRITE);
         if negb (status =? 0) then mret (- EIO)
         else
           err ← run_engine;
           on_hw (ixgbe_release_nvm kmalloc) ;;
           mret err)
  end.
End FwUpdate.
