(* ===== verification/FwTalk.v ===== *)
(** * A firmware update as a session

    What the operations of FwUpdate.v say to the firmware, whatever it answers:
    [talks h x m Q] runs [m] with private data [x] on an adapter whose firmware
    answers; [Q] holds of the result, the session and the private data at the
    end. *)
From S2P Require Import Prelude Status Bytes Regs Types Osdep RegsE610.
From S2P Require Import Aci AciSafe AciDev AciRpc AciNvm AciNvmFw AciCaps AciSession CapsProps.
From S2P Require Import Pldm PldmParse PldmEngine FwUpdate.

Section FwTalk.
Context `{D : Mmio} `{F : Firmware} `{!AciDevice D F} (kmalloc : Z -> world -> bool).
Context (kmalloc_ok : forall k w, kmalloc k w = true).
Context (normal_mode : has dev_fla GLNVM_FLA_LOCKED_M = true).
Context (img : list Z) (img_bytes : Forall byte img).
Implicit Types (cs : list fwcall) (x : ixgbe_fwu_priv) (h : ixgbe_hw).

Definition talks {A} h x (m : comp fwu A) (Q : A -> list fwcall -> ixgbe_fwu_priv -> Prop) : Prop :=
  forall w s, aci_ready w s -> same_hw h (w_hw w) ->
  wp m (fun a st => exists s' cs, aci_ready (f_hw st) s' /\ same_hw h (w_hw (f_hw st)) /\
          session s cs s' /\ Q a cs (f_priv st)) (mk_fwu w x).

Lemma talks_ret {A} h x (a : A) Q : Q a [] x -> talks h x (mret a) Q.
Proof using. intros HQ w s Hr Hh. apply wp_ret. exists s, []. split_and!; try done. constructor. Qed.

Lemma talks_mono {A} h x (m : comp fwu A) (Q Q' : A -> list fwcall -> ixgbe_fwu_priv -> Prop) :
  talks h x m Q -> (forall a cs p, Q a cs p -> Q' a cs p) -> talks h x m Q'.
Proof using.
  intros Hm H w s Hr Hh. eapply wp_mono; [by apply Hm|]. cbv beta.
  intros a st (s' & cs & ? & ? & ? & ?). exists s', cs. auto.
Qed.

Lemma talks_bind {A B} h x (m : comp fwu A) (f : A -> comp fwu B) Q Q' :
  talks h x m Q' -> (forall a cs p, Q' a cs p -> talks h p (f a) (fun b cs' => Q b (cs ++ cs'))) ->
  talks h x (m ≫= f) Q.
Proof using.
  intros Hm Hf w s Hr Hh. apply wp_bind. eapply wp_mono; [by apply Hm|]. cbv beta.
  intros a [w1 p] (s1 & cs & Hr1 & Hh1 & Hs1 & HQ). cbn [f_hw f_priv] in *.
  eapply wp_mono; [by eapply Hf|]. cbv beta.
  intros b st (s2 & cs' & Hr2 & Hh2 & Hs2 & HQ2). exists s2, (cs ++ cs').
  split_and!; try done. by eapply session_app.
Qed.

Lemma talks_then h x (m k : comp fwu Z) (Q Q' : Z -> list fwcall -> ixgbe_fwu_priv -> Prop) :
  talks h x m Q' ->
  (forall e cs p, e <> 0 -> Q' e cs p -> Q e cs p) ->
  (forall cs p, Q' 0 cs p -> talks h p k (fun e cs' => Q e (cs ++ cs'))) ->
  talks h x (m ?; k) Q.
Proof using.
  intros Hm He Hk. unfold ok_then. eapply talks_bind; [exact Hm|]. intros e cs p HQ.
  destruct (Z.eqb_spec e 0) as [->|Hne]; cbn [negb]; [by apply Hk|].
  apply talks_ret. rewrite app_nil_r. by apply He.
Qed.

(** steps without commands *)
Lemma talks_quiet {A B} h x (m : comp fwu A) (f : A -> comp fwu B) Q (a : A) p :
  (forall w, m (mk_fwu w x) = Done a (mk_fwu w p)) -> talks h p (f a) Q -> talks h x (m ≫= f) Q.
Proof using.
  intros Hm Hf w s Hr Hh. apply wp_bind. unfold wp at 1. rewrite Hm. by apply Hf.
Qed.

Lemma talks_upd {B} h x g (f : unit -> comp fwu B) Q :
  talks h (g x) (f tt) Q -> talks h x (upd_fwu_priv g ≫= f) Q.
Proof using. intros Hf. by eapply talks_quiet with (a := tt) (p := g x). Qed.
Lemma talks_get_priv {B} h x (f : ixgbe_fwu_priv -> comp fwu B) Q :
  talks h x (f x) Q -> talks h x (get_fwu_priv ≫= f) Q.
Proof using. intros Hf. by eapply talks_quiet with (a := x) (p := x). Qed.

Lemma talks_on_hw {A B} h x (m : M A) (f : A -> comp fwu B) Q Q' :
  speaks h m Q' -> (forall a cs, Q' a cs -> talks h x (f a) (fun b cs' => Q b (cs ++ cs'))) ->
  talks h x (on_hw m ≫= f) Q.
Proof using.
  intros Hm Hf. eapply talks_bind with (Q' := fun a cs p => Q' a cs /\ p = x).
  - intros w s Hr Hh. pose proof (Hm w s Hr Hh) as H. apply wp_done in H as (a & w' & E & s' & cs & ? & ? & ? & ?).
    unfold on_hw, wp. cbn [f_hw f_priv]. rewrite E. by exists s', cs.
  - intros a cs p [HQ ->]. by apply Hf.
Qed.

Lemma talks_malloc {B} h x n (f : bool -> comp fwu B) Q :
  talks h x (f true) Q -> talks h x (on_hw (ixgbe_malloc kmalloc n) ≫= f) Q.
Proof using kmalloc_ok.
  intros Hf. eapply talks_on_hw; [by apply speaks_malloc|]. cbv beta. by intros b cs [-> ->].
Qed.

(** the capabilities the driver has read before *)
Definition caps h : ixgbe_hw_common_caps := dcap_common (dev_caps h).
Lemma talks_caps {B} h x (f : ixgbe_hw_common_caps -> comp fwu B) Q :
  talks h x (f (caps h)) Q -> talks h x (get_caps_of_hw ≫= f) Q.
Proof using.
  intros Hf. unfold get_caps_of_hw. eapply talks_bind with (Q' := fun c cs p => c = caps h /\ cs = [] /\ p = x).
  - eapply talks_on_hw; [apply speaks_get_hw|]. cbv beta. intros h' cs [-> Hh]. apply talks_ret.
    split_and!; try done. unfold caps. by rewrite (same_hw_caps _ _ Hh).
  - cbv beta. by intros c cs p (-> & -> & ->).
Qed.

(** bytes of the file *)
Definition inside (p n : Z) : Prop := 0 <= p /\ 0 <= n /\ p + n <= fw_size img.

Lemma talks_fw_bytes {B} h x p n (f : list Z -> comp fwu B) Q : inside p n ->
  talks h x (f (bytes_at img p n)) Q -> talks h x (fw_bytes img p n ≫= f) Q.
Proof using.
  intros (Hp & Hn & Hl) Hf. eapply talks_quiet; [|exact Hf]. intros w. unfold fw_bytes, copy_from.
  rewrite length_drop. unfold fw_size in Hl. destruct (Z.ltb_spec (Z.of_nat (length img - Z.to_nat p)) n); [lia|done].
Qed.

Lemma bytes_at_bytes p n : Forall byte (bytes_at img p n).
Proof using img_bytes. by apply Forall_take, Forall_drop. Qed.
Lemma length_bytes_at p n : inside p n -> Z.of_nat (length (bytes_at img p n)) = n.
Proof using. intros (Hp & Hn & Hl). unfold bytes_at, fw_size in *. rewrite length_take, length_drop. lia. Qed.

(** *** Package data *)
Definition packaged (p n : Z) cs : Prop := exists y, cs = [mk_fwcall pkg_desc (bytes_at img p n) y].

Lemma take_bytes_at p n : inside p n -> take (Z.to_nat n) (bytes_at img p n) = bytes_at img p n.
Proof using. intros H. apply firstn_all2. pose proof (length_bytes_at p n H). lia. Qed.

Lemma talks_send_package_data h x p n : inside p n ->
  talks h x (ixgbe_send_package_data kmalloc img p n) (fun e cs x' => x' = x /\ did (packaged p n) e cs).
Proof using kmalloc_ok img_bytes.
  intros Hi. unfold ixgbe_send_package_data. apply talks_malloc. cbn [negb]. apply talks_fw_bytes; [done|].
  eapply talks_on_hw.
  { apply speaks_set_pkg_data; [done|by destruct Hi as (_ & ? & _)|by rewrite length_bytes_at by done|apply bytes_at_bytes]. }
  cbv beta. intros st cs [Ho Hd]. apply talks_ret. rewrite app_nil_r. split; [done|]. split; [done|].
  destruct (Z.eqb_spec st 0) as [->|]; cbn [negb]; [|done]. intros _.
  destruct (Hd eq_refl) as [Ha (y & ->)]. split; [done|]. exists y. by rewrite take_bytes_at.
Qed.

(** *** Component tables *)

(** what the parser guarantees of a component *)
Record comp_ok (c : pldmfw_component) : Prop := {
  ck_class : in_range 16 (classification c);
  ck_id : in_range 16 (identifier c);
  ck_version : inside (c_version_string c) (c_version_len c);
  ck_version_len : in_range 8 (c_version_len c);
  ck_version_type : in_range 8 (c_version_type c);
  ck_data : inside (component_data c) (component_size c);
  ck_size : in_range 32 (component_size c);
}.

(** the table was sent and the firmware did not reject the component *)
Definition tabled (flag : Z) (c : pldmfw_component) cs : Prop :=
  exists y, cs = [mk_fwcall (tbl_desc flag)
                    (comp_tbl_bytes c (bytes_at img (c_version_string c) (c_version_len c))) y] /\
    get8 (d_params (snd (fst y))) 0 <> IXGBE_ACI_NVM_PASS_COMP_CAN_NOT_BE_UPDATED.

Lemma comp_tbl_ok c : comp_ok c -> let t := comp_tbl_bytes c (bytes_at img (c_version_string c) (c_version_len c)) in
  Z.of_nat (length t) = 11 + c_version_len c /\ Forall byte t.
Proof using img_bytes.
  intros [_ _ Hv Hl Ht _ _] t. unfold t, comp_tbl_bytes. rewrite !length_app. split.
  - pose proof (length_bytes_at _ _ Hv). simpl. lia.
  - unfold bytes_of_word. cbn [app].
    repeat (apply List.Forall_cons; [solve [by apply trunc_range|done|by vm_compute]|]). apply bytes_at_bytes.
Qed.

Lemma talks_recovery_mode {B} h x (f : bool -> comp fwu B) Q :
  (forall b, talks h x (f b) Q) -> talks h x (ixgbe_fw_recovery_mode ≫= f) Q.
Proof using.
  intros Hf. unfold ixgbe_fw_recovery_mode. eapply talks_on_hw with (Q' := fun _ cs => cs = []).
  - unfold ixgbe_fw_recovery_mode_E610. eapply speaks_quiet with (P := fun _ => True).
    { apply speaks_read. intros d. destruct (read_fwsm d) as (v & ? & ?). by exists v. }
    intros v _. by apply speaks_ret.
  - cbv beta. by intros b cs ->.
Qed.

Lemma talks_send_component_table h x c flag : comp_ok c ->
  talks h x (ixgbe_send_component_table kmalloc img c flag) (fun e cs x' => x' = x /\ did (tabled flag c) e cs).
Proof using kmalloc_ok img_bytes.
  intros Hc. unfold ixgbe_send_component_table. destruct (comp_name (identifier c)) as [part|] eqn:En.
  2:{ apply talks_ret. split; [done|]. by apply did_none. }
  cbv zeta. apply talks_malloc. cbn [negb]. apply talks_fw_bytes; [apply Hc|].
  destruct (comp_tbl_ok c Hc) as [Hl Hb]. set (t := comp_tbl_bytes c _) in *.
  pose proof (ck_version_len c Hc) as Hv. unfold in_range in Hv.
  eapply talks_on_hw; [apply speaks_pass_component_tbl; [done|lia|lia|done]|].
  cbv beta. intros [st r] cs ([d data y] & -> & Ed & Edata & Est & Er). cbn [fst snd] in *.
  rewrite firstn_all2 in Edata by lia. cbn [fc_desc fc_data] in *. subst d data.
  destruct (Z.eqb_spec st 0) as [->|Hne].
  2:{ subst r. destruct st; [done|..]; apply talks_ret; (split; [done|]); rewrite app_nil_r; by apply did_one. }
  subst r. unfold ixgbe_check_component_response. rewrite En. unfold fc_answer. cbn [fc_reply].
  set (resp := get8 _ 0).
  assert (Hdone : forall e, (e = 0 -> resp <> IXGBE_ACI_NVM_PASS_COMP_CAN_NOT_BE_UPDATED) ->
    x = x /\ did (tabled flag c) e ([mk_fwcall (tbl_desc flag) t y] ++ [])).
  { intros e He. split; [done|]. rewrite app_nil_r. apply did_one; [done|]. intros E. split; [done|].
    exists y. split; [done|]. by apply He. }
  destruct (_ || _) eqn:Eo.
  { apply talks_ret, Hdone. intros _ E. rewrite E in Eo. by vm_compute in Eo. }
  destruct (Z.eqb_spec resp IXGBE_ACI_NVM_PASS_COMP_PARTIAL_CHECK) as [E|_].
  - apply talks_recovery_mode. intros b. apply talks_ret, Hdone. rewrite E. by intros _ [=].
  - by apply talks_ret, Hdone.
Qed.

(** *** Flashing a component *)

(** an image goes out in blocks of 4096 bytes, the last with the last flag *)
Definition block_count (n : Z) : Z := (n + 4095) / 4096.
Definition block (module : Z) (im : list Z) (k : Z) : ixgbe_aci_desc * list Z :=
  let len := Z.of_nat (length im) in
  let n := Z.min 4096 (len - 4096 * k) in
  (write_desc module (4096 * k) n (4096 * k + n =? len), take (Z.to_nat n) (drop (Z.to_nat (4096 * k)) im)).
Definition blocks_from (module : Z) (im : list Z) (k : Z) : list (ixgbe_aci_desc * list Z) :=
  map (block module im) (seqZ k (block_count (Z.of_nat (length im)) - k)).
Definition blocks (module : Z) (im : list Z) : list (ixgbe_aci_desc * list Z) := blocks_from module im 0.

(** the commands of a session *)
Definition said cs : list (ixgbe_aci_desc * list Z) := map (fun c => (fc_desc c, fc_data c)) cs.

(** flags and reset level may change; the reset level is never what the firmware
    asked for *)
Definition later x x' : Prop :=
  fw_emp_reset_disabled x' = fw_emp_reset_disabled x /\
  (reset_level x' = reset_level x \/ reset_level x' = IXGBE_ACI_NVM_POR_FLAG \/
   reset_level x' = IXGBE_ACI_NVM_RESET_LVL_M).
Lemma later_refl x : later x x.
Proof using. split; auto. Qed.
Lemma later_trans x y z : later x y -> later y z -> later x z.
Proof using. unfold later. intros [E1 H1] [E2 H2]. rewrite E2, E1. split; [done|]. destruct H2 as [-> |[-> | ->]]; auto. Qed.

Definition keeps_flags x x' : Prop := activate_flags x' = activate_flags x /\ later x x'.
Lemma keeps_trans x y z : keeps_flags x y -> keeps_flags y z -> keeps_flags x z.
Proof using. intros [E1 H1] [E2 H2]. split; [congruence|by eapply later_trans]. Qed.
Lemma keeps_note n x : keeps_flags x (add_note n x).
Proof using. by split; [|split; [|left]]. Qed.

Lemma talks_note {B} h x m part a b (f : unit -> comp fwu B) Q :
  talks h (add_note (mk_note m part a b) x) (f tt) Q ->
  talks h x (devlink_flash_update_status_notify m part a b ≫= f) Q.
Proof using. apply talks_upd. Qed.

Lemma talks_one_block h x module off n bl last wants :
  in_range 16 module -> in_range 32 off -> 0 <= n <= 4096 -> length bl = 4096%nat -> Forall byte bl ->
  talks h x (ixgbe_write_one_nvm_block kmalloc module off n bl last wants) (fun r cs x' =>
    keeps_flags x x' /\ length (snd r) = 4096%nat /\ Forall byte (snd r) /\
    did (fun cs => said cs = [(write_desc module off n last, take (Z.to_nat n) bl)]) (fst r) cs).
Proof using kmalloc_ok.
  intros Hm Ho Hn Hl Hb. unfold ixgbe_write_one_nvm_block.
  assert (Hx : keeps_flags x x) by (split; [done|apply later_refl]).
  eapply talks_on_hw; [apply speaks_update_nvm; [done|done|done|done|rewrite Hl; lia|done]|].
  cbv beta. intros [st b'] cs (Hl' & Hb' & Ho' & Hd). cbn [fst snd] in *.
  destruct (Z.eqb_spec st 0) as [->|Hne]; cbn [negb].
  2:{ apply talks_ret. rewrite app_nil_r. split; [done|]. cbn [fst snd]. split; [lia|]. split; [done|]. by split. }
  destruct (Hd eq_refl) as [Ha [y ->]].
  eapply talks_bind with (Q' := fun _ cs x' => cs = [] /\ keeps_flags x x').
  { destruct (_ && _); [|by apply talks_ret]. apply talks_caps. intros w s Hr Hh.
    exists s, []. split; [done|]. split; [done|]. split; [constructor|]. split; [done|]. split; [done|].
    split; [done|]. cbn [f_priv reset_level set_reset_level]. destruct (cc_pcie_reset_avoidance _); auto. }
  cbv beta. intros _ cs x' [-> Hx']. apply talks_ret. rewrite !app_nil_r. split; [done|]. cbn [fst snd].
  split; [lia|]. split; [done|]. split; [done|]. intros _. by split.
Qed.

Lemma block_step (im : list Z) k : 0 <= k < block_count (Z.of_nat (length im)) ->
  let len := Z.of_nat (length im) in
  let n := Z.min 4096 (len - 4096 * k) in
  0 < n <= 4096 /\ 4096 * k + n <= len /\
  ((4096 * k + n =? len) = negb (4096 * k + n <? len)) /\
  if 4096 * k + n =? len then block_count len = k + 1
  else k + 1 < block_count len /\ n = 4096.
Proof using.
  intros Hk len n. unfold block_count in *. subst n. fold len in Hk.
  destruct (Z.eqb_spec (4096 * k + Z.min 4096 (len - 4096 * k)) len);
    destruct (Z.ltb_spec (4096 * k + Z.min 4096 (len - 4096 * k)) len); simpl; split_and!; zlia.
Qed.

Lemma blocks_from_cons module im k : 0 <= k < block_count (Z.of_nat (length im)) ->
  blocks_from module im k = block module im k :: blocks_from module im (k + 1).
Proof using.
  intros Hk. unfold blocks_from. rewrite seqZ_cons by lia. cbn [map]. do 3 f_equal; lia.
Qed.
Lemma blocks_from_end module im k : block_count (Z.of_nat (length im)) <= k -> blocks_from module im k = [].
Proof using. intros Hk. unfold blocks_from. by rewrite seqZ_nil by lia. Qed.

(** the loop from block [k] on *)
Lemma talks_write_loop h fuel module part im rest bl wants k x :
  let len := Z.of_nat (length im) in
  in_range 16 module -> in_range 32 len -> take (length im) rest = im -> Forall byte im ->
  length bl = 4096%nat -> Forall byte bl -> 0 <= k < block_count len -> block_count len - k <= Z.of_nat fuel ->
  talks h x (write_nvm_loop kmalloc fuel module part rest len (4096 * k) bl wants) (fun e cs x' =>
    keeps_flags x x' /\ did (fun cs => said cs = blocks_from module im k) e cs).
Proof using kmalloc_ok.
  intros len Hm Hlen Hr Hb. revert k bl x. induction fuel as [|fuel IH]; intros k bl x Hl Hbl Hk Hf; [lia|].
  destruct (block_step im k Hk) as (Hn & Hle & Elast & Hnext). fold len in Hn, Hle, Elast, Hnext.
  cbn [write_nvm_loop]. cbv zeta. change IXGBE_ACI_MAX_BUFFER_SIZE with 4096.
  unfold in_range in Hlen. set (n := Z.min 4096 (len - 4096 * k)) in *.
  assert (u32 (len - 4096 * k) = len - 4096 * k) as -> by (apply trunc_small; unfold in_range; lia). fold n.
  assert (u32 (4096 * k + n) = 4096 * k + n) as -> by (apply trunc_small; unfold in_range; lia).
  assert (u16 n = n) as -> by (apply trunc_small; unfold in_range; lia).
  set (data := take (Z.to_nat n) (drop (Z.to_nat (4096 * k)) im)).
  assert (Hdl : Z.of_nat (length data) = n) by (unfold data; rewrite length_take, length_drop; lia).
  eapply talks_quiet with (a := data).
  { intros w. unfold copy_from. rewrite length_drop.
    assert (length im <= length rest)%nat by (pose proof (f_equal length Hr) as E; rewrite length_take in E; lia).
    destruct (Z.ltb_spec (Z.of_nat (length rest - Z.to_nat (4096 * k))) n); [lia|].
    assert (E : data = take (Z.to_nat n) (drop (Z.to_nat (4096 * k)) (take (length im) rest))) by by rewrite Hr.
    rewrite E, skipn_firstn_comm, firstn_firstn. by replace (Z.to_nat n `min` (length im - Z.to_nat (4096 * k)))%nat
      with (Z.to_nat n) by lia. }
  eapply talks_quiet with (a := data ++ drop (length data) bl).
  { intros w. unfold copy_to. rewrite Hl. destruct (Z.ltb_spec (Z.of_nat 4096) (Z.of_nat (length data))); [lia|done]. }
  eapply talks_bind.
  { apply talks_one_block; [done|unfold in_range; lia|lia| |].
    - rewrite length_app, length_drop. lia.
    - apply Forall_app. split; [by apply Forall_take, Forall_drop|by apply Forall_drop]. }
  cbv beta. intros [e b'] cs x' (Hx' & Hl' & Hb' & Ho & Hd). cbn [fst snd] in *.
  destruct (Z.eqb_spec e 0) as [->|Hne]; cbn [negb].
  2:{ apply talks_ret. rewrite app_nil_r. split; [done|]. by split. }
  destruct (Hd eq_refl) as [Ha Hs]. apply talks_note.
  assert (Hs' : said cs = [block module im k]).
  { rewrite Hs. unfold block. fold len. fold n. rewrite Elast. fold data. do 2 f_equal.
    replace (Z.to_nat n) with (length data) by lia. by rewrite take_app_length. }
  rewrite <- Elast. destruct (Z.eqb_spec (4096 * k + n) len) as [E|Hnl].
  - apply talks_ret. rewrite app_nil_r. split; [by eapply keeps_trans; [|apply keeps_note]|]. split; [done|].
    intros _. split; [done|]. rewrite blocks_from_cons by done. fold len. rewrite blocks_from_end; [done|].
    fold len. lia.
  - destruct Hnext as [Hk' En]. rewrite En. replace (4096 * k + 4096) with (4096 * (k + 1)) by lia.
    eapply talks_mono; [apply IH; [done|done|lia|lia]|]. cbv beta. intros e cs' x'' [Hx'' [Ho' Hd']].
    split; [by eapply keeps_trans; [|eapply keeps_trans; [apply keeps_note|]]|].
    split; [by apply Forall_app|]. intros E. destruct (Hd' E) as [Ha' Hs'']. split; [by apply Forall_app|].
    rewrite blocks_from_cons by done. unfold said in *. rewrite map_app, Hs', Hs''. done.
Qed.

(** an empty image is refused by the command interface *)
Lemma talks_write_loop_empty h fuel module part rest bl wants x :
  in_range 16 module -> length bl = 4096%nat -> Forall byte bl ->
  talks h x (write_nvm_loop kmalloc (S fuel) module part rest 0 0 bl wants) (fun e cs x' =>
    keeps_flags x x' /\ e <> 0 /\ Forall ordinary cs).
Proof using kmalloc_ok.
  intros Hm Hl Hb. cbn [write_nvm_loop]. cbv zeta.
  change (Z.min IXGBE_ACI_MAX_BUFFER_SIZE (u32 (0 - 0))) with 0.
  eapply talks_quiet with (a := []) (p := x).
  { intros w. unfold copy_from. destruct (Z.ltb_spec (Z.of_nat (length (drop (Z.to_nat 0) rest))) 0); [lia|done]. }
  eapply talks_quiet with (a := bl) (p := x); [by intros w; unfold copy_to; rewrite Hl|].
  change (u16 0) with 0. change (u32 (0 + 0)) with 0. change (negb (0 <? 0)) with true.
  eapply talks_bind with (Q' := fun r cs x' => keeps_flags x x' /\ fst r <> 0 /\ Forall ordinary cs).
  { unfold ixgbe_write_one_nvm_block. eapply talks_on_hw with (Q' := fun r cs => fst r <> 0 /\ cs = []).
    - unfold ixgbe_aci_update_nvm. change (negb (Z.land 0 4278190080 =? 0)) with false. cbv zeta.
      eapply speaks_bind; [apply speaks_send_refused; [by left|done]|]. cbv beta.
      intros [[st d] b] cs (-> & Es & _). cbn [fst snd] in *. apply speaks_ret. cbn [fst]. by rewrite Es.
    - cbv beta. intros [st b'] cs [Hst ->]. cbn [fst] in Hst. destruct (Z.eqb_spec st 0); [done|]. cbn [negb].
      apply talks_ret. split; [split; [done|apply later_refl]|]. by split. }
  cbv beta. intros [e b'] cs x' (Hx' & He & Ho). cbn [fst] in He. destruct (Z.eqb_spec e 0); [done|]. cbn [negb].
  apply talks_ret. rewrite app_nil_r. done.
Qed.

Lemma talks_write_nvm_module h x module part p n wants :
  in_range 16 module -> inside p n -> in_range 32 n ->
  talks h x (ixgbe_write_nvm_module kmalloc img module part p n wants) (fun e cs x' =>
    keeps_flags x x' /\ did (fun cs => said cs = blocks module (bytes_at img p n)) e cs).
Proof using kmalloc_ok img_bytes.
  intros Hm Hi Hn. unfold ixgbe_write_nvm_module. apply talks_note. apply talks_malloc. cbn [negb].
  set (x1 := add_note _ x). set (bl := replicate _ 0). pose proof (length_bytes_at p n Hi) as Hlen.
  assert (Hbl : length bl = 4096%nat /\ Forall byte bl).
  { split; [apply length_replicate|by apply Forall_replicate]. }
  destruct Hbl as [Hbl1 Hbl2].
  eapply talks_bind with (Q' := fun e cs x' => keeps_flags x1 x' /\
    did (fun cs => said cs = blocks module (bytes_at img p n)) e cs).
  - destruct (decide (n = 0)) as [->|Hn0].
    + eapply talks_mono; [apply talks_write_loop_empty; done|]. cbv beta. intros e cs x' (? & ? & ?). by split.
    + unfold in_range in Hn. rewrite <- Hlen at 1 2. replace 0 with (4096 * 0) at 1 by done.
      eapply talks_write_loop; rewrite ?Hlen; try done.
      * unfold bytes_at. rewrite length_take, length_drop. destruct Hi as (? & ? & ?). unfold fw_size in *.
        f_equal. lia.
      * apply bytes_at_bytes.
      * unfold block_count. zlia.
      * unfold block_count, IXGBE_ACI_MAX_BUFFER_SIZE. zlia.
  - cbv beta. intros e cs x2 [Hx2 Hd]. apply talks_note. apply talks_ret. rewrite app_nil_r. split; [|done].
    assert (Hx1 : keeps_flags x x1) by apply keeps_note.
    eapply keeps_trans; [exact Hx1|]. by eapply keeps_trans; [|apply keeps_note].
Qed.

Definition flag_of (c : pldmfw_component) : Z :=
  match comp_name (identifier c) with Some part => comp_flag part | None => 0 end.

(** the bank was erased and then written *)
Definition flashed (c : pldmfw_component) cs : Prop :=
  exists part cs1 cs2, comp_name (identifier c) = Some part /\ cs = cs1 ++ cs2 /\
    erased (comp_module part) cs1 /\
    said cs2 = blocks (comp_module part) (bytes_at img (component_data c) (component_size c)).

Lemma talks_flash_component h x c : comp_ok c ->
  talks h x (ixgbe_flash_component kmalloc img c) (fun e cs x' =>
    activate_flags x' = Z.lor (activate_flags x) (flag_of c) /\ later x x' /\ did (flashed c) e cs).
Proof using kmalloc_ok img_bytes.
  intros Hc. unfold ixgbe_flash_component, flag_of. destruct (comp_name (identifier c)) as [part|] eqn:En.
  2:{ apply talks_ret. rewrite Z.lor_0_r. split; [done|]. split; [apply later_refl|by apply did_none]. }
  set (fl := Z.lor _ _). apply talks_upd. fold fl.
  set (x1 := set_activate_flags fl x).
  assert (Hx1 : forall x', keeps_flags x1 x' -> activate_flags x' = fl /\ later x x').
  { intros x' [E H]. split; [done|exact H]. }
  assert (Hm : in_range 16 (comp_module part) /\ in_range 15 (comp_module part)) by by destruct part.
  eapply talks_then with (Q' := fun e cs x' => keeps_flags x1 x' /\ did (erased (comp_module part)) e cs).
  { unfold ixgbe_erase_nvm_module. apply talks_upd.
    eapply talks_on_hw; [apply speaks_erase_nvm; [done|apply Hm]|]. cbv beta. intros st cs [Ho Hd].
    destruct (Z.eqb_spec st 0) as [->|Hne]; cbn [negb]; apply talks_note, talks_ret; rewrite app_nil_r.
    all: split; [eapply keeps_trans; apply keeps_note|by split]. }
  { intros e cs p He [Hp [Ho _]]. destruct (Hx1 _ Hp). split; [done|]. split; [done|]. by split. }
  cbv beta. intros cs p [Hp [Ho Hd]]. destruct (Hd eq_refl) as [Ha He].
  eapply talks_mono; [apply talks_write_nvm_module; [apply Hm|apply Hc|apply Hc]|].
  cbv beta. intros e cs' x' [Hx' [Ho' Hd']]. destruct (Hx1 x') as [E1 E2]; [by eapply keeps_trans|].
  split; [done|]. split; [done|]. split; [by apply Forall_app|]. intros E. destruct (Hd' E) as [Ha' Hs].
  split; [by apply Forall_app|]. by exists part, cs, cs'.
Qed.

(** *** The end: switching the banks *)
Definition activation (flags : Z) (c : fwcall) : Prop := fc_desc c = activate_desc flags.

Lemma talks_switch_banks h x flags wants :
  talks h x (ixgbe_switch_flash_banks kmalloc flags wants) (fun e cs x' => exists c, cs = [c] /\
    activation flags c /\ (e = 0 <-> accepted c) /\ reset_level x' = reset_level x /\ (wants = false -> x' = x)).
Proof using kmalloc_ok.
  unfold ixgbe_switch_flash_banks. eapply talks_on_hw; [by apply speaks_write_activate|].
  cbv beta. intros [st r] cs (c & -> & Ed & Est & Er). cbn [fst snd] in *.
  destruct (Z.eqb_spec st 0) as [->|Hne].
  2:{ subst r. assert (Hna : - EIO = 0 <-> accepted c) by (unfold accepted; rewrite <- Est; done).
      destruct st; [done|..]; apply talks_ret; by exists c. }
  subst r. eapply talks_bind with (Q' := fun _ cs x' => cs = [] /\ reset_level x' = reset_level x /\ (wants = false -> x' = x)).
  { destruct wants; [|by apply talks_ret]. apply talks_caps. intros w s Hr Hh. exists s, [].
    split; [done|]. split; [done|]. split; [constructor|]. by split. }
  cbv beta. intros _ cs x' (-> & Hx' & Hw). apply talks_ret. by exists c.
Qed.

Lemma talks_finalize h x :
  talks h x (ixgbe_finalize_update kmalloc) (fun e cs x' => exists c, cs = [c] /\
    activation (activate_flags x) c /\ (e = 0 <-> accepted c) /\
    (e = 0 -> (reset_level x = 0 \/ reset_level x = IXGBE_ACI_NVM_RESET_LVL_M) ->
       exists ns, notes x' = ns ++ [mk_note (if reset_level x =? 0 then Activate_by_power_cycle
                                             else Activate_suggested_reload) None 0 0])).
Proof using kmalloc_ok.
  unfold ixgbe_finalize_update. apply talks_get_priv.
  eapply talks_then; [by apply talks_switch_banks| |].
  { cbv beta. intros e cs p He (c & -> & Hc & Ha & _). by exists c. }
  cbv beta. intros cs p (c & -> & Hc & Ha & El & _). apply talks_get_priv.
  destruct ((reset_level p =? IXGBE_ACI_NVM_EMPR_FLAG) && (emp_reset_available p =? 0)) eqn:Eb.
  - apply andb_true_iff in Eb as [Eb _]. apply Z.eqb_eq in Eb. rewrite El in Eb.
    apply talks_upd. apply talks_get_priv.
    apply talks_note. apply talks_upd. apply talks_ret. exists c. split; [done|]. split; [done|].
    split; [done|]. rewrite Eb. intros _ [? | ?]; done.
  - eapply talks_quiet with (a := tt) (p := p); [done|]. apply talks_get_priv.
    apply talks_note. apply talks_upd. apply talks_ret. exists c. split; [done|]. split; [done|].
    split; [done|]. intros _ Hr. exists (notes p). cbn [notes add_note set_fw_emp_reset_disabled].
    rewrite El. do 2 f_equal. destruct Hr as [-> | ->]; done.
Qed.
End FwTalk.
