(* ===== verification/FwSession.v ===== *)
(** * The whole firmware update as a session

    From the operations of FwTalk.v to [ixgbe_flash_pldm_image]: the steps of
    the engine for an accepted package, the cancellation of a pending update, and
    the lock of the NVM around both. *)
From S2P Require Import Prelude Status Bytes Regs Types Osdep RegsE610.
From S2P Require Import Aci AciSafe AciDev AciRpc AciNvm AciNvmFw AciCaps AciSession CapsProps.
From S2P Require Import Pldm PldmParse PldmEngine FwUpdate FwTalk.

(** ** Sessions under the lock of the NVM *)
Definition inner (c : fwcall) : Prop :=
  fc_opcode c <> ixgbe_aci_opc_req_res /\ fc_opcode c <> ixgbe_aci_opc_release_res.

(** outside the lock only capabilities are read; a section begins with requests
    of which the last is granted and ends with the release *)
Inductive locked : list fwcall -> Prop :=
  | locked_nil : locked []
  | locked_caps c cs : fc_opcode c = ixgbe_aci_opc_list_dev_caps -> locked cs -> locked (c :: cs)
  | locked_refused cs1 cs : refused cs1 -> locked cs -> locked (cs1 ++ cs)
  | locked_section cs1 cs2 cs3 cs :
      granted cs1 -> Forall inner cs2 -> released cs3 -> locked cs -> locked (cs1 ++ cs2 ++ cs3 ++ cs).

Lemma locked_app cs cs' : locked cs -> locked cs' -> locked (cs ++ cs').
Proof.
  induction 1; intros H'; [done|..].
  - apply locked_caps; auto.
  - rewrite <- app_assoc. apply locked_refused; auto.
  - rewrite <- !app_assoc. apply locked_section; auto.
Qed.
Lemma ordinary_inner cs : Forall ordinary cs -> Forall inner cs.
Proof. apply Forall_impl. by intros c (? & ? & _). Qed.

(** a switch of the banks that was accepted undoes a pending update *)
Definition reverts_only (c : fwcall) : Prop :=
  fc_opcode c = ixgbe_aci_opc_nvm_write_activate -> accepted c ->
  has (get8 (d_params (fc_desc c)) 3) IXGBE_ACI_NVM_REVERT_LAST_ACTIV = true.
Lemma ordinary_reverts cs : Forall ordinary cs -> Forall reverts_only cs.
Proof. apply Forall_impl. by intros c (_ & _ & ?) ?. Qed.

(** [P] of one component after the other *)
Fixpoint each (P : pldmfw_component -> list fwcall -> Prop) (l : list pldmfw_component) (cs : list fwcall) : Prop :=
  match l with
  | [] => cs = []
  | c :: l' => exists a b, cs = a ++ b /\ P c a /\ each P l' b
  end.

Section FwSession.
Context `{D : Mmio} `{F : Firmware} `{!AciDevice D F} (kmalloc : Z -> world -> bool).
Context (kmalloc_ok : forall k w, kmalloc k w = true).
Context (normal_mode : has dev_fla GLNVM_FLA_LOCKED_M = true).
Context (caps_fit : forall s c s', executes s c s' -> fc_opcode c = ixgbe_aci_opc_list_dev_caps ->
  accepted c -> get32 (d_params (fc_answer c)) 4 <= 128).
Context (pdev : pci_dev) (img : list Z) (img_bytes : Forall byte img).
Implicit Types (cs : list fwcall) (x : ixgbe_fwu_priv) (h : ixgbe_hw).
Abbreviation ops := (ixgbe_fwu_ops_e610 kmalloc pdev img).

(** ** The steps of the engine *)
Definition flags_of (l : list pldmfw_component) (a : Z) : Z := foldl (fun a c => Z.lor a (flag_of c)) a l.

Lemma talks_tables h l (flag : pldmfw_component -> Z) x : Forall (comp_ok img) l ->
  talks h x (until_error (map (fun c => ixgbe_send_component_table kmalloc img c (flag c)) l)) (fun e cs x' =>
    x' = x /\ did (each (fun c => tabled img (flag c) c) l) e cs).
Proof using kmalloc_ok img_bytes.
  induction 1 as [|c l Hc Hl IH]; cbn [map until_error].
  { apply talks_ret. split; [done|]. split; [done|]. by split. }
  eapply talks_bind; [by apply talks_send_component_table|]. cbv beta. intros e cs x' [-> [Ho Hd]].
  destruct (Z.eqb_spec e 0) as [->|Hne]; cbn [negb].
  2:{ apply talks_ret. rewrite app_nil_r. split; [done|]. by split. }
  destruct (Hd eq_refl) as [Ha Ht]. eapply talks_mono; [exact IH|]. cbv beta. intros e cs' x' [-> [Ho' Hd']].
  split; [done|]. split; [by apply Forall_app|]. intros E. destruct (Hd' E) as [Ha' He].
  split; [by apply Forall_app|]. by exists cs, cs'.
Qed.

Lemma talks_flashes h l x : Forall (comp_ok img) l ->
  talks h x (until_error (map (ixgbe_flash_component kmalloc img) l)) (fun e cs x' =>
    later x x' /\ (e = 0 -> activate_flags x' = flags_of l (activate_flags x)) /\ did (each (flashed img) l) e cs).
Proof using kmalloc_ok img_bytes.
  intros Hl. revert x. induction Hl as [|c l Hc Hl IH]; intros x; cbn [map until_error].
  { apply talks_ret. split; [apply later_refl|]. split; [done|]. split; [done|]. by split. }
  eapply talks_bind; [by apply talks_flash_component|]. cbv beta. intros e cs x1 (Hf & Hx1 & Ho & Hd).
  destruct (Z.eqb_spec e 0) as [->|Hne]; cbn [negb].
  2:{ apply talks_ret. rewrite app_nil_r. split; [done|]. split; [done|]. by split. }
  destruct (Hd eq_refl) as [Ha Ht]. eapply talks_mono; [apply IH|]. cbv beta. intros e cs' x' (Hx' & Hf' & Ho' & Hd').
  split; [by eapply later_trans|]. split; [intros E; rewrite (Hf' E); simpl; by rewrite Hf|].
  split; [by apply Forall_app|]. intros E. destruct (Hd' E) as [Ha' He].
  split; [by apply Forall_app|]. by exists cs, cs'.
Qed.

(** a record as the parser leaves it *)
Record record_ok (r : pldmfw_record) : Prop := {
  rk_descs : Forall (fun d => expected_desc_size (t_type d) = Some 2 -> inside img (t_data d) 2) (descs r);
  rk_data : inside img (package_data r) (package_data_len r);
}.

(** all of the update that record [r] asks for *)
Definition updated r comps nb (flags : Z) cs : Prop :=
  exists c1 c2 c3 ca, cs = c1 ++ c2 ++ c3 ++ [ca] /\
    packaged img (package_data r) (package_data_len r) c1 /\
    each (fun c => tabled img (transfer_flag_of (default [] (component_bitmap r)) nb (c_index c)) c)
      (applicable r comps) c2 /\
    each (flashed img) (applicable r comps) c3 /\
    activation (flags_of (applicable r comps) flags) ca /\
    Forall accepted cs.

(** the last notification is one of two: the reset level is never what the
    firmware answered *)
Definition plain_level x : Prop := reset_level x = IXGBE_ACI_NVM_POR_FLAG \/ reset_level x = IXGBE_ACI_NVM_RESET_LVL_M.
Definition told x : Prop :=
  exists ns m, notes x = ns ++ [mk_note m None 0 0] /\ (m = Activate_by_power_cycle \/ m = Activate_suggested_reload).

Lemma later_level x x' : later x x' -> plain_level x -> plain_level x'.
Proof using. intros [_ [E|[E|E]]] H; unfold plain_level in *; rewrite E; auto. Qed.

(** commands of an update that failed: the banks were not switched *)
Definition gave_up cs : Prop :=
  Forall ordinary cs \/
  exists cs0 c, cs = cs0 ++ [c] /\ Forall ordinary cs0 /\ fc_opcode c = ixgbe_aci_opc_nvm_write_activate /\ ~ accepted c.

Lemma talks_ext {A} h x (m m' : comp fwu A) Q : (forall st, m st = m' st) -> talks h x m' Q -> talks h x m Q.
Proof using. intros E H w s Hr Hh. unfold wp. rewrite E. by apply H. Qed.

Lemma gave_up_app c1 cs : Forall ordinary c1 -> gave_up cs -> gave_up (c1 ++ cs).
Proof using.
  intros H1 [Ho|(cs0 & c & -> & Ho & Hop & Hn)]; [left; by apply Forall_app|].
  right. exists (c1 ++ cs0), c. rewrite app_assoc. split_and!; try done. by apply Forall_app.
Qed.

(** the components, and the switch of the banks *)
Lemma talks_flash_and_finish h x l : Forall (comp_ok img) l ->
  talks h x (until_error (map (ixgbe_flash_component kmalloc img) l) ?; ixgbe_finalize_update kmalloc)
    (fun e cs x' => (e = 0 -> exists c3 ca, cs = c3 ++ [ca] /\ each (flashed img) l c3 /\
        activation (flags_of l (activate_flags x)) ca /\ Forall accepted cs /\ (plain_level x -> told x')) /\
      (e <> 0 -> gave_up cs)).
Proof using kmalloc_ok img_bytes.
  intros Hl. eapply talks_then; [by apply talks_flashes| |].
  { cbv beta. intros e cs p He (_ & _ & Ho & _). split; [done|]. by left. }
  cbv beta. intros c3 x3 (Hlater & Hf & Ho3 & Hd3). destruct (Hd3 eq_refl) as [Ha3 H3].
  eapply talks_mono; [by apply talks_finalize|]. cbv beta. intros e cs x' (ca & -> & Hac & Hacc & Hn).
  rewrite (Hf eq_refl) in Hac. split.
  - intros E. exists c3, ca. split; [done|]. split; [done|]. split; [done|]. split.
    + apply Forall_app. split; [done|]. constructor; [by apply Hacc|done].
    + intros Hp. pose proof (later_level _ _ Hlater Hp) as Hp3. destruct (Hn E Hp3) as [ns Ens].
      eexists ns, _. split; [done|]. destruct (_ =? 0); auto.
  - intros E. right. exists c3, ca. split_and!; try done; [unfold fc_opcode; by rewrite Hac|]. by rewrite <- Hacc.
Qed.

Lemma talks_update h x r comps nb : record_ok r -> Forall (comp_ok img) comps ->
  talks h x (until_error (update_calls ops r comps nb)) (fun e cs x' =>
    (e = 0 -> updated r comps nb (activate_flags x) cs /\ (plain_level x -> told x')) /\ (e <> 0 -> gave_up cs)).
Proof using kmalloc_ok img_bytes.
  intros Hr Hc. unfold update_calls, updated. set (l := applicable r comps).
  assert (Hl : Forall (comp_ok img) l).
  { apply Forall_forall. intros c Hin. apply filter_In in Hin as [Hin _]. rewrite Forall_forall in Hc. by apply Hc. }
  cbn [app until_error]. eapply talks_bind; [apply talks_send_package_data; [done|done|apply Hr]|].
  cbv beta. intros e c1 x' [-> [Ho1 Hd1]]. destruct (Z.eqb_spec e 0) as [->|Hne]; cbn [negb].
  2:{ apply talks_ret. rewrite app_nil_r. split; [done|]. by left. }
  destruct (Hd1 eq_refl) as [Ha1 Hp1].
  set (tables := map _ l). set (flashes := map _ l).
  apply (talks_ext _ _ _ (until_error tables ?; (until_error flashes ?; ixgbe_finalize_update kmalloc))).
  { intros st. rewrite until_error_app. unfold ok_then, mbind, comp_bind.
    destruct (until_error tables st) as [e st1|]; [|done]. destruct (negb (e =? 0)); [done|].
    rewrite until_error_app. unfold ok_then, mbind, comp_bind.
    destruct (until_error flashes st1) as [e1 st2|]; [|done]. destruct (negb (e1 =? 0)); [done|].
    apply until_error_last. }
  eapply talks_then; [by apply talks_tables| |].
  { cbv beta. intros e c2 p He [_ [Ho2 _]]. split; [done|]. intros _. left. by apply Forall_app. }
  cbv beta. intros c2 p [-> [Ho2 Hd2]]. destruct (Hd2 eq_refl) as [Ha2 H2].
  eapply talks_mono; [by apply talks_flash_and_finish|]. cbv beta. intros e cs x' [H0 H1]. split.
  - intros E. destruct (H0 E) as (c3 & ca & -> & E3 & Ea & Ha & Ht). split; [|done]. exists c1, c2, c3, ca.
    split_and!; try done. apply Forall_app. split; [done|]. by apply Forall_app.
  - intros E. apply gave_up_app; [done|]. apply gave_up_app; [done|]. by apply H1.
Qed.

(** ** Matching: reads the file, changes nothing *)
Lemma match_desc_pure d id (st : fwu) :
  (expected_desc_size (t_type d) = Some 2 -> inside img (t_data d) 2) ->
  exists id', match_desc img d id st = Done id' st.
Proof using.
  intros Hd. unfold match_desc.
  assert (Hv : expected_desc_size (t_type d) = Some 2 -> forall q, exists a b,
    nth_c img (t_data d) (q : fwu) = Done a q /\ nth_c img (t_data d + 1) (q : fwu) = Done b q).
  { intros E q. destruct (Hd E) as (H1 & _ & H2). unfold fw_size in H2.
    assert (Hn : forall i, 0 <= i < Z.of_nat (length img) -> exists a, nth_c img i q = Done a q).
    { intros i Hi. unfold nth_c. destruct (Z.ltb_spec i 0); [lia|].
      destruct (lookup_lt_is_Some_2 img (Z.to_nat i)) as [a ->]; [lia|]. by exists a. }
    destruct (Hn (t_data d)) as [a Ea]; [lia|]. destruct (Hn (t_data d + 1)) as [b Eb]; [lia|]. by exists a, b. }
  unfold mbind, comp_bind.
  repeat match goal with |- context [t_type d =? ?k] => destruct (Z.eqb_spec (t_type d) k) as [E|] end; try by eexists.
  all: rewrite E in Hv; destruct (Hv eq_refl st) as (a & b & -> & ->); simpl; by eexists.
Qed.

Lemma match_descs_pure l id (st : fwu) :
  Forall (fun d => expected_desc_size (t_type d) = Some 2 -> inside img (t_data d) 2) l ->
  exists id', match_descs img l id st = Done id' st.
Proof using.
  intros H. revert id. induction H as [|d l Hd Hl IH]; intros id; [by eexists|]. cbn [match_descs].
  unfold mbind, comp_bind. destruct (match_desc_pure d id st Hd) as [id' ->]. apply IH.
Qed.

Lemma match_record_pure r (st : fwu) : record_ok r -> exists b, match_record ops r st = Done b st.
Proof using.
  intros Hr. change (match_record ops r st) with (pldmfw_op_pci_match_record img pdev r st).
  unfold pldmfw_op_pci_match_record, mbind, comp_bind.
  destruct (match_descs_pure (descs r) (mk_pci_dev PCI_ANY_ID PCI_ANY_ID PCI_ANY_ID PCI_ANY_ID) st) as [id ->];
    [apply Hr|]. by eexists.
Qed.

Lemma first_match_pure rs (st : fwu) : Forall record_ok rs ->
  exists m, first_match ops rs st = Done m st /\ forall r, m = Some r -> r ∈ rs.
Proof using.
  induction 1 as [|r rs Hr Hrs IH]; [by eexists|]. cbn [first_match]. unfold mbind, comp_bind.
  destruct (match_record_pure r st Hr) as [b ->]. destruct b.
  - eexists. split; [done|]. intros r' [= <-]. by left.
  - destruct IH as (m & -> & Hm). eexists. split; [done|]. intros r' E. right. by apply Hm.
Qed.

(** the update of a package *)
Lemma talks_apply_package h x rs comps nb : Forall record_ok rs -> Forall (comp_ok img) comps ->
  talks h x (apply_package ops rs comps nb) (fun e cs x' =>
    (e = 0 -> (exists r, (exists st, first_match ops rs st = Done (Some r) st) /\
       updated r comps nb (activate_flags x) cs) /\ (plain_level x -> told x')) /\
    (e <> 0 -> gave_up cs)).
Proof using kmalloc_ok img_bytes.
  intros Hrs Hc w s Hr Hh. unfold apply_package. apply wp_bind.
  destruct (first_match_pure rs (mk_fwu w x) Hrs) as (m & Em & Hm). unfold wp at 1. rewrite Em.
  destruct m as [r|].
  - assert (Hrec : record_ok r). { rewrite Forall_forall in Hrs. apply Hrs, list_elem_of_In. by apply Hm. }
    eapply wp_mono; [by apply (talks_update h x r comps nb Hrec Hc w s)|]. cbv beta.
    intros e st (s' & cs & ? & ? & ? & H0 & H1). exists s', cs. split_and!; try done. intros E.
    destruct (H0 E) as [Hu Ht]. split; [|done]. exists r. split; [by eexists|done].
  - apply wp_ret. exists s, []. split_and!; try done; [constructor|]. intros _. by left.
Qed.

(** ** What the parser guarantees *)
Lemma desc_chain_le o l o' : chain (desc_at img) o l o' -> o <= o'.
Proof using img_bytes.
  induction 1 as [o|o d o1 l o2 (-> & -> & _ & _) _ IH]; [lia|]. cbn [t_size] in *.
  pose proof (le16_at_range img img_bytes (o + 2)) as H. unfold in_range in H. lia.
Qed.

Lemma desc_chain_ok o l o' : 0 <= o -> chain (desc_at img) o l o' ->
  Forall (fun d => expected_desc_size (t_type d) = Some 2 -> inside img (t_data d) 2) l.
Proof using img_bytes.
  intros Ho H. revert Ho. induction H as [o|o d o1 l o2 (-> & -> & Hle & Hk) _ IH]; intros Ho; constructor.
  - cbn [t_type t_size t_data] in *. intros E. unfold pldm_check_desc_tlv_len in Hk. rewrite E in Hk.
    destruct (Z.eqb_spec (le16_at img (o + 2)) 2) as [E2|]; [|done]. unfold inside. rewrite E2 in Hle. lia.
  - apply IH. cbn [t_size]. pose proof (le16_at_range img img_bytes (o + 2)) as H. unfold in_range in H. lia.
Qed.

Lemma record_at_ok nb o r o' : 0 <= nb -> 0 <= o -> kept_at img nb o r o' -> record_ok r.
Proof using img_bytes.
  intros Hn Ho (o2 & Hch & _ & Hv & -> & Hle & _ & ->). cbn [descs] in *.
  pose proof (byte_at_range img img_bytes (o + 8)) as Hb. unfold in_range in Hb.
  assert (0 <= o + 11 + nb / 8 + byte_at img (o + 8)) by zlia.
  pose proof (desc_chain_le _ _ _ Hch). pose proof (le16_at_range img img_bytes (o + 9)) as H9. unfold in_range in H9.
  split; cbn [descs package_data package_data_len]; [by eapply desc_chain_ok|]. unfold inside. lia.
Qed.

Lemma component_at_ok i o c o' : 0 <= o -> component_at img i o c o' -> comp_ok img c.
Proof using img_bytes.
  intros Ho (-> & Hle & Hd & ->). pose proof (byte_at_range img img_bytes (o + 21)) as Hv.
  pose proof (le32_at_range img img_bytes (o + 12)) as H12. pose proof (le32_at_range img img_bytes (o + 16)) as H16.
  split; cbn; try (by apply le16_at_range); try (by apply byte_at_range); try done;
    unfold inside, in_range in *; lia.
Qed.

Lemma records_ok nb o l o' : 0 <= nb -> 0 <= o -> chain (kept_at img nb) o l o' -> Forall record_ok l.
Proof using img_bytes.
  intros Hn Ho H. revert Ho. induction H as [o|o r o1 l o2 Hr Hch IH]; intros Ho; constructor.
  - eapply record_at_ok; [exact Hn|exact Ho|exact Hr].
  - apply IH. destruct Hr as (? & _ & _ & _ & -> & _ & E & _). pose proof (le16_at_range img img_bytes o) as H.
    unfold in_range in H. lia.
Qed.
Lemma components_ok i o l o' : 0 <= o -> components_at img i o l o' -> Forall (comp_ok img) l.
Proof using img_bytes.
  intros Ho H. revert Ho. induction H as [i o|i o c o1 l o2 Hc Hch IH]; intros Ho; constructor.
  - eapply component_at_ok; [exact Ho|exact Hc].
  - apply IH. destruct Hc as (-> & _). pose proof (byte_at_range img img_bytes (o + 21)) as H. unfold in_range in H. lia.
Qed.

Lemma package_ok crc rs comps nb : parsed_at img crc rs comps nb ->
  Forall record_ok rs /\ Forall (comp_ok img) comps.
Proof using img_bytes.
  intros [_ _ _ _ <- _ (o1 & o2 & H)]. simpl in H. destruct H as (_ & _ & Hr & _ & _ & _ & Hc & _).
  pose proof (byte_at_range img img_bytes 35) as Hv. pose proof (le16_at_range img img_bytes 32) as Hn.
  assert (Ho : 0 <= 36 + byte_at img 35 + 1) by (unfold in_range in Hv; lia).
  assert (Hn0 : 0 <= le16_at img 32) by (unfold in_range in Hn; lia).
  assert (Ho1 : 0 <= o1) by (pose proof (record_chain_le img img_bytes _ _ _ _ Hn0 Ho Hr); lia).
  split; [by apply (records_ok _ _ _ _ Hn0 Ho Hr)|]. eapply (components_ok _ (o1 + 2)); [lia|done].
Qed.

(** ** The engine *)
Context (kz : nat -> bool) (crc32_le : Z -> list Z -> Z) (img_small : fw_size img < 2 ^ 62).
Context (covered : forall rs comps nb, parsed_at img crc32_le rs comps nb ->
  Z.of_nat (length comps) <= 64 * BITS_TO_LONGS nb).

(** the file is a package, [r] its first record for this device, and its update
    was carried out *)
Definition installed (flags : Z) cs : Prop :=
  exists rs comps nb r, parsed_at img crc32_le rs comps nb /\
    (exists st, first_match ops rs st = Done (Some r) st) /\ updated r comps nb flags cs.

Lemma talks_run_engine h x :
  talks h x (run_engine kmalloc kz crc32_le pdev img) (fun e cs x' =>
    (e = 0 -> installed (activate_flags x) cs /\ (plain_level x -> told x')) /\ (e <> 0 -> gave_up cs)).
Proof using kmalloc_ok img_bytes img_small covered.
  intros w s Hr Hh.
  assert (Hap : forall rs comps nb, parsed_at img crc32_le rs comps nb ->
    wp (apply_package ops rs comps nb) (fun e st => exists s' cs, aci_ready (f_hw st) s' /\
      same_hw h (w_hw (f_hw st)) /\ session s cs s' /\
      (e = 0 -> installed (activate_flags x) cs /\ (plain_level x -> told (f_priv st))) /\ (e <> 0 -> gave_up cs)) (mk_fwu w x)).
  { intros rs comps nb Hp. destruct (package_ok _ _ _ _ Hp) as [Hrs Hc].
    eapply wp_mono; [by apply (talks_apply_package h x rs comps nb Hrs Hc w s)|]. cbv beta.
    intros e st (s' & cs & ? & ? & ? & H0 & H1). exists s', cs. split_and!; try done. intros E.
    destruct (H0 E) as [(r & ? & ?) Ht]. split; [|done]. by exists rs, comps, nb, r. }
  set (s0 := mk_engine priv0 0 0 (mk_fwu w x)).
  assert (Hrun : wp (pldmfw_flash_image kz crc32_le img ops) (fun e s1 => live s1 = live s0 /\
    ((e <> 0 /\ e_dev s1 = e_dev s0 /\ fails kz (exists rs comps nb, parsed_at img crc32_le rs comps nb)) \/
     exists rs comps nb, parsed_at img crc32_le rs comps nb /\
       apply_package ops rs comps nb (e_dev s0) = Done e (e_dev s1))) s0).
  { apply flash_image_run; [done|done|]. intros rs comps nb Hp. split; [by eapply covered|].
    pose proof (Hap _ _ _ Hp) as H. apply wp_done in H as (e & d & E & _). by exists e, d. }
  apply wp_done in Hrun as (e & s1 & E & _ & H). unfold run_engine, wp. fold s0. rewrite E.
  destruct H as [(He & Ed & _)|(rs & comps & nb & Hp & Ea)].
  - rewrite Ed. exists s, []. split_and!; try done; [constructor|]. intros _. by left.
  - specialize (Hap _ _ _ Hp). unfold wp in Hap. change (mk_fwu w x) with (e_dev s0) in Hap. by rewrite Ea in Hap.
Qed.

(** ** Cancelling a pending update *)
Lemma speaks_pure {A} h (m : M A) a : (forall w, m w = Done a w) -> speaks h m (fun b cs => cs = [] /\ b = a).
Proof using. intros E w s Hr Hh. unfold wp. rewrite E. exists s, []. split_and!; try done. constructor. Qed.

Definition asks_caps (c : fwcall) : Prop := fc_opcode c = ixgbe_aci_opc_list_dev_caps.

Lemma speaks_list_caps h buf : length buf = 4096%nat -> Forall byte buf ->
  speaks h (ixgbe_aci_list_caps kmalloc buf 4096 ixgbe_aci_opc_list_dev_caps) (fun r cs =>
    exists c st b n, cs = [c] /\ asks_caps c /\ r = (st, b, Some n) /\ length b = 4096%nat /\ 0 <= n /\
      (st = 0 -> n <= 128)).
Proof using kmalloc_ok caps_fit.
  intros Hl Hb. unfold ixgbe_aci_list_caps. change (_ && _) with false. cbv iota.
  eapply speaks_bind; [apply speaks_send; [done| |split; [lia|by rewrite Hl]|done]|].
  { split; try done. split; [done|]. by apply Forall_replicate. }
  cbv beta. intros [[st d] b] cs ([-> (s & s' & Hex)] & _ & Hd & Hsh). cbn [fst snd] in *. apply speaks_ret.
  rewrite app_nil_r. destruct b as [b|]; [|done]. destruct Hsh as [Hlb _].
  eexists _, st, b, _. split; [done|]. split; [done|]. split; [done|]. split; [cbn; lia|].
  split; [apply get32_nonneg, Hd|]. intros E. apply (caps_fit _ _ _ Hex); [done|exact E].
Qed.

Lemma speaks_discover_dev_caps h :
  speaks h (ixgbe_discover_dev_caps kmalloc) (fun r cs => exists c, cs = [c] /\ asks_caps c).
Proof using kmalloc_ok caps_fit.
  unfold ixgbe_discover_dev_caps, fetch_caps.
  eapply speaks_bind with (Q' := fun r cs => exists c st b n, cs = [c] /\ asks_caps c /\ r = Some (st, b, n) /\
    length b = 4096%nat /\ 0 <= n /\ (st = 0 -> n <= 128)).
  { eapply speaks_bind; [by apply speaks_malloc|]. cbv beta. intros ok cs [-> ->]. cbn [negb app].
    eapply speaks_bind; [apply speaks_list_caps; [apply length_replicate|by apply Forall_replicate]|].
    cbv beta. intros r cs (c & st & b & n & -> & Hc & -> & H). apply speaks_ret. rewrite app_nil_r.
    by exists c, st, b, n. }
  cbv beta. intros r cs (c & st & b & n & -> & Hc & -> & Hl & Hn & H128).
  destruct (Z.eqb_spec st 0) as [->|_]; [|apply speaks_ret; by exists c].
  eapply speaks_bind; [apply speaks_pure; intros w; apply parse_dev_caps_run; [done|]|].
  { specialize (H128 eq_refl). lia. }
  cbv beta. intros dc cs [-> ->]. apply speaks_ret. by exists c.
Qed.

(** what a cancellation says: at most, under the lock, a switch that reverts *)
Definition cancelled cs : Prop := locked cs /\ Forall reverts_only cs.

Lemma request_reverts cs : Forall is_request cs -> Forall reverts_only cs.
Proof using. apply Forall_impl. intros c E1 E2. by rewrite E1 in E2. Qed.
Lemma release_reverts cs : released cs -> Forall reverts_only cs.
Proof using. intros (c & -> & E1). constructor; [|done]. intros E2. by rewrite E1 in E2. Qed.
Lemma granted_reverts cs : granted cs -> Forall reverts_only cs.
Proof using. intros (? & ? & _ & H & _). by apply request_reverts. Qed.

Lemma revert_flag pending : 0 <= pending < 64 ->
  has (get8 (d_params (activate_desc (Z.lor pending IXGBE_ACI_NVM_REVERT_LAST_ACTIV))) 3)
    IXGBE_ACI_NVM_REVERT_LAST_ACTIV = true.
Proof using.
  intros Hp. change (get8 (d_params (activate_desc ?f)) 3) with (u8 (Z.land f 0xFF)).
  change IXGBE_ACI_NVM_REVERT_LAST_ACTIV with (bit 6). rewrite has_bit, testbit_trunc, Z.land_spec, Z.lor_spec by lia.
  by rewrite orb_true_r.
Qed.

Lemma talks_cancel h x :
  talks h x (ixgbe_cancel_pending_update kmalloc None) (fun e cs x' =>
    cancelled cs /\ activate_flags x' = activate_flags x /\ reset_level x' = reset_level x).
Proof using kmalloc_ok normal_mode caps_fit.
  unfold ixgbe_cancel_pending_update.
  eapply talks_bind with (Q' := fun r cs x' => 0 <= snd r < 64 /\ x' = x /\ exists c, cs = [c] /\ asks_caps c).
  { unfold ixgbe_get_pending_updates. apply talks_malloc; [done|]. cbn [negb].
    eapply talks_on_hw; [apply speaks_discover_dev_caps|]. cbv beta. intros [st r] cs (c & -> & Hc).
    assert (Hr : forall e v : Z, 0 <= v < 64 -> 0 <= snd (e, v) < 64 /\ x = x /\ exists c', [c] ++ [] = [c'] /\ asks_caps c').
    { intros e v Hv. split; [done|]. split; [done|]. exists c. by rewrite app_nil_r. }
    destruct st; [destruct r as [dc|]|..]; apply talks_ret; apply Hr; try lia.
    by destruct (cc_nvm_update_pending_nvm _), (cc_nvm_update_pending_orom _), (cc_nvm_update_pending_netlist _). }
  cbv beta. intros [e pending] cs x' (Hp & -> & c & -> & Hc). cbn [snd] in Hp.
  assert (H1 : cancelled ([c] ++ [])).
  { split; [by apply locked_caps; [|constructor]|]. constructor; [|done]. intros E. by rewrite Hc in E. }
  destruct (negb (e =? 0)); [by apply talks_ret|]. cbv zeta. destruct (pending =? 0); [by apply talks_ret|].
  apply talks_note. eapply talks_on_hw; [by apply speaks_acquire_nvm|]. cbv beta. intros st cs [Hg Hf].
  destruct (Z.eqb_spec st 0) as [->|Hne]; cbn [negb].
  2:{ apply talks_ret. split; [|done]. specialize (Hf Hne). rewrite app_nil_r. split.
      - apply locked_caps; [done|]. rewrite <- (app_nil_r cs). by apply locked_refused; [|constructor].
      - apply Forall_app. split; [apply H1|]. by apply request_reverts, Hf. }
  specialize (Hg eq_refl). eapply talks_bind; [by apply talks_switch_banks|]. cbv beta.
  intros e' cs2 x2 (ca & -> & Hca & _ & _ & Hx2). rewrite (Hx2 eq_refl). eapply talks_on_hw; [by apply speaks_release_nvm|].
  cbv beta. intros _ cs3 H3. apply talks_upd, talks_ret. split; [|done]. rewrite app_nil_r. split.
  - apply locked_caps; [done|]. rewrite <- (app_nil_r cs3). apply (locked_section cs [ca] cs3 []); [done| |done|constructor].
    constructor; [|done]. unfold inner, fc_opcode. by rewrite Hca.
  - apply Forall_app. split; [apply H1|]. apply Forall_app. split; [by apply granted_reverts|].
    constructor; [|by apply release_reverts]. intros _ _. rewrite Hca. by apply revert_flag.
Qed.

(** ** The entry point *)
Lemma gave_up_inner cs : gave_up cs -> Forall inner cs /\ Forall reverts_only cs.
Proof using.
  intros [Ho|(cs0 & c & -> & Ho & Hop & Hn)]; [by split; [apply ordinary_inner|apply ordinary_reverts]|].
  split; apply Forall_app; split; [by apply ordinary_inner| |by apply ordinary_reverts|].
  - constructor; [|done]. unfold inner. by rewrite Hop.
  - constructor; [|done]. by intros _ ?.
Qed.
Lemma each_inner P l cs : (forall c cs, P c cs -> Forall inner cs) -> each P l cs -> Forall inner cs.
Proof using.
  intros HP. revert cs. induction l as [|c l IH]; simpl; intros cs; [by intros ->|].
  intros (a & b & -> & Ha & Hb). apply Forall_app. split; [by eapply HP|by apply IH].
Qed.

Lemma said_inner module im cs : said cs = blocks module im -> Forall inner cs.
Proof using.
  unfold said, blocks, blocks_from. generalize (seqZ 0 (block_count (Z.of_nat (length im)) - 0)). intros l.
  revert cs. induction l as [|k l IH]; intros [|c cs] E; simpl in E; try done. injection E as E1 _ E2.
  constructor; [|by apply IH]. unfold inner, fc_opcode. by rewrite E1.
Qed.

Lemma updated_inner r comps nb a cs : updated r comps nb a cs -> Forall inner cs.
Proof using.
  intros (c1 & c2 & c3 & ca & -> & [y ->] & H2 & H3 & Ha & _). constructor; [done|].
  apply Forall_app. split; [|apply Forall_app; split].
  - eapply each_inner; [|exact H2]. cbv beta. intros c cs (z & -> & _). by constructor.
  - eapply each_inner; [|exact H3]. intros c cs (part & cs1 & cs2 & _ & -> & (? & ? & ? & ? & ->) & Hs).
    apply Forall_app. split; [by repeat constructor|by eapply said_inner].
  - constructor; [|done]. unfold inner, fc_opcode. by rewrite Ha.
Qed.

Lemma talks_flash_image h x mask :
  talks h x (ixgbe_flash_pldm_image kmalloc kz crc32_le pdev img mask) (fun e cs x' =>
    locked cs /\
    (e = 0 -> exists flags c1 c2 c3 c4, preservation_of mask = Some flags /\ cs = c1 ++ c2 ++ c3 ++ c4 /\
       cancelled c1 /\ granted c2 /\ installed flags c3 /\ released c4 /\ told x') /\
    (e <> 0 -> Forall reverts_only cs)).
Proof using kmalloc_ok normal_mode caps_fit img_bytes img_small covered.
  unfold ixgbe_flash_pldm_image. destruct (preservation_of mask) as [flags|].
  2:{ apply talks_ret. split; [constructor|]. done. }
  apply talks_caps. eapply talks_bind with (Q' := fun _ cs x' => cs = [] /\ x' = x).
  { destruct (cc_nvm_unified_update _); [by apply talks_ret|].
    eapply talks_ext with (m' := b ← ixgbe_fw_recovery_mode; mret b).
    { intros st. unfold mbind, comp_bind. by destruct (ixgbe_fw_recovery_mode st). }
    apply talks_recovery_mode. intros b. by apply talks_ret. }
  cbv beta. intros b cs x' [-> ->]. destruct (negb b); [apply talks_ret; split; [constructor|by split]|].
  apply talks_upd, talks_note. set (x1 := add_note _ _).
  eapply talks_then; [by apply talks_cancel| |].
  { cbv beta. intros e cs p He [[Hl Hv] _]. split; [done|]. by split. }
  cbv beta. intros c1 x2 [[Hl1 Hv1] [Ef El]]. eapply talks_on_hw; [by apply speaks_acquire_nvm|].
  cbv beta. intros st c2 [Hg Hf]. destruct (Z.eqb_spec st 0) as [->|Hne]; cbn [negb].
  2:{ apply talks_ret. specialize (Hf Hne). rewrite app_nil_r. cbn [app]. split; [|split; [done|]].
      - apply locked_app; [done|]. rewrite <- (app_nil_r c2). by apply locked_refused; [|constructor].
      - intros _. apply Forall_app. split; [done|]. by apply request_reverts, Hf. }
  specialize (Hg eq_refl). eapply talks_bind; [apply talks_run_engine|]. cbv beta.
  intros e c3 x3 [H0 H1]. eapply talks_on_hw; [by apply speaks_release_nvm|]. cbv beta. intros _ c4 H4.
  apply talks_ret. rewrite app_nil_r. cbn [app].
  assert (Hin : Forall inner c3).
  { destruct (Z.eq_dec e 0) as [E|E]; [|by apply gave_up_inner, H1].
    destruct (H0 E) as [(rs & comps & nb & r & _ & _ & Hu) _]. by eapply updated_inner. }
  split; [|split].
  - apply locked_app; [done|]. rewrite <- (app_nil_r c4). apply locked_section; [done..|constructor].
  - intros E. destruct (H0 E) as [Hi Ht]. exists flags, c1, c2, c3, c4. rewrite Ef in Hi. split_and!; try done.
    apply Ht. unfold plain_level. rewrite El. by left.
  - intros E. apply Forall_app. split; [done|]. apply Forall_app. split; [by apply granted_reverts|].
    apply Forall_app. split; [by apply gave_up_inner, H1|by apply release_reverts].
Qed.
End FwSession.
