(* ===== verification/FwProps.v ===== *)
(** * Firmware update: what it guarantees, whatever the firmware answers *)
From S2P Require Import Prelude Status Bytes Regs Types Osdep RegsE610.
From S2P Require Import Aci AciSafe AciDev AciUnit AciRpc AciNvm AciNvmFw AciCaps.
From S2P Require Import AciSession CapsProps.
From S2P Require Import Pldm PldmParse PldmEngine PldmProps FwUpdate FwTalk FwSession.

(** the data of the blocks of an image, one after the other, are the image *)
Lemma blocks_from_concat module im k : 0 <= k <= block_count (Z.of_nat (length im)) ->
  concat (map snd (blocks_from module im k)) = drop (Z.to_nat (4096 * k)) im.
Proof.
  intros Hk. remember (Z.to_nat (block_count (Z.of_nat (length im)) - k)) as n eqn:En. revert k Hk En.
  induction n as [|n IH]; intros k Hk En.
  - rewrite blocks_from_end by lia. unfold block_count in *. rewrite drop_ge; [done|]. zlia.
  - rewrite blocks_from_cons by lia. cbn [map concat]. rewrite IH by lia. unfold block. cbn [snd].
    destruct (block_step im k ltac:(lia)) as (Hn & Hle & _ & Hnext).
    set (m := Z.min 4096 (Z.of_nat (length im) - 4096 * k)) in *.
    rewrite <- (take_drop (Z.to_nat m) (drop (Z.to_nat (4096 * k)) im)) at 2. f_equal. rewrite drop_drop.
    destruct (Z.eqb_spec (4096 * k + m) (Z.of_nat (length im))).
    + rewrite !drop_ge by lia. done.
    + f_equal. lia.
Qed.

Section FwProps.
Context `{D : Mmio} `{F : Firmware} `{!AciDevice D F} (kmalloc : Z -> world -> bool).
Context (img : list Z).

(** C10: [ixgbe_write_nvm_module] ends on every adapter whose firmware answers,
    whatever it answers.  If it returns 0, the commands it sent are the blocks of
    the image: together their data are the bytes of the component, each but the
    last has 4096 bytes, each goes to its offset, the last one alone has the last
    flag, and the firmware accepted all of them. *)
Theorem nvm_module_written h x module part p n wants w s :
  (forall k w, kmalloc k w = true) -> Forall byte img -> in_range 16 module -> inside img p n -> in_range 32 n ->
  aci_ready w s -> same_hw h (w_hw w) ->
  wp (ixgbe_write_nvm_module kmalloc img module part p n wants) (fun e st => exists s' cs,
    session s cs s' /\ aci_ready (f_hw st) s' /\
    (e = 0 -> Forall accepted cs /\ concat (map fc_data cs) = bytes_at img p n /\
       forall k c, cs !! k = Some c ->
         let off := 4096 * Z.of_nat k in
         let len := Z.of_nat (length (fc_data c)) in
         fc_desc c = write_desc module off len (off + len =? n) /\ ((S k < length cs)%nat -> len = 4096))) (mk_fwu w x).
Proof.
  intros Hk Hb Hm Hi Hn Hr Hh. pose proof (length_bytes_at img p n Hi) as Hlen.
  eapply wp_mono; [by apply (talks_write_nvm_module kmalloc Hk img Hb h x module part p n wants Hm Hi Hn)|].
  cbv beta. intros e st (s' & cs & Hr' & _ & Hs & _ & _ & Hd). exists s', cs. split; [done|]. split; [done|].
  intros E. destruct (Hd E) as [Ha Hsaid]. split; [done|].
  assert (Hdata : map fc_data cs = map snd (blocks module (bytes_at img p n))).
  { rewrite <- Hsaid. unfold said. by rewrite map_map. }
  split.
  - rewrite Hdata. unfold blocks. rewrite blocks_from_concat; [done|]. unfold block_count. zlia.
  - assert (Hbc : 0 <= block_count n) by (unfold block_count; unfold in_range in Hn; zlia).
    intros k c Hc. assert (Hc' : said cs !! k = Some (fc_desc c, fc_data c)).
    { unfold said. by rewrite list_lookup_fmap, Hc. }
    rewrite Hsaid in Hc'. unfold blocks, blocks_from in Hc'. rewrite list_lookup_fmap in Hc'.
    apply fmap_Some in Hc' as (j & Hj & Ej). apply lookup_seqZ in Hj as [-> Hj].
    assert (Hlc : Z.of_nat (length cs) = block_count n).
    { pose proof (f_equal length Hsaid) as E1. unfold said, blocks, blocks_from in E1.
      rewrite !length_map, length_seqZ in E1. rewrite Hlen in E1. lia. }
    rewrite Z.add_0_l in Ej. unfold block in Ej. rewrite Hlen in Ej, Hj. injection Ej as Ed Edata.
    destruct (block_step (bytes_at img p n) (Z.of_nat k)) as (B1 & B2 & _ & B4); rewrite Hlen in *; [lia|].
    set (m := Z.min 4096 (n - 4096 * Z.of_nat k)) in *.
    assert (El : Z.of_nat (length (fc_data c)) = m) by (rewrite Edata, length_take, length_drop; lia).
    cbv zeta. rewrite El. split; [done|]. intros Hlast. destruct (Z.eqb_spec (4096 * Z.of_nat k + m) n); lia.
Qed.

Context (pdev : pci_dev) (kz : nat -> bool) (crc32_le : Z -> list Z -> Z).

(** The three theorems below share their conditions: the kernel's allocator grants
    what the admin commands ask for, the adapter is in normal mode (not in NVM
    recovery or blank flash mode), the firmware never announces more than the 128
    capabilities that the driver's buffer holds, and the file, if it is a package,
    has no more components than its bitmaps have bits.  Without the last two the
    code leaves its buffers ([caps_count_overrun], [pldm_bitmap_overrun]). *)
Lemma parsed_covered :
  (forall rs comps nb, package_at img crc32_le rs comps nb -> Z.of_nat (length comps) <= 64 * BITS_TO_LONGS nb) ->
  forall rs comps nb, parsed_at img crc32_le rs comps nb -> Z.of_nat (length comps) <= 64 * BITS_TO_LONGS nb.
Proof. intros H rs comps nb (rs0 & Hp & _)%parsed_iff. by apply (H rs0). Qed.



(** The reset that completes an update is not taken from the firmware's answer
    to the last block, as the comment says, but set to the mask of the field: after
    a successful update the user is told to power cycle, or that a reload may or
    may not suffice, whatever the firmware answered; the branches for a reload
    and for a reboot are dead. *)
Theorem reset_level_not_from_firmware h x mask w s :
  (forall k w, kmalloc k w = true) -> has dev_fla GLNVM_FLA_LOCKED_M = true ->
  (forall s c s', executes s c s' -> fc_opcode c = ixgbe_aci_opc_list_dev_caps ->
     accepted c -> get32 (d_params (fc_answer c)) 4 <= 128) ->
  Forall byte img -> fw_size img < 2 ^ 62 ->
  (forall rs comps nb, package_at img crc32_le rs comps nb -> Z.of_nat (length comps) <= 64 * BITS_TO_LONGS nb) ->
  aci_ready w s -> same_hw h (w_hw w) ->
  wp (ixgbe_flash_pldm_image kmalloc kz crc32_le pdev img mask) (fun e st => e = 0 ->
    exists ns m, notes (f_priv st) = ns ++ [mk_note m None 0 0] /\
      (m = Activate_by_power_cycle \/ m = Activate_suggested_reload)) (mk_fwu w x).
Proof.
  intros Hk Hn Hc Hb Hs Hcov Hr Hh.
  eapply wp_mono; [by apply (talks_flash_image kmalloc Hk Hn Hc pdev img Hb kz crc32_le Hs (parsed_covered Hcov) h x mask)|].
  cbv beta. intros e st (s' & cs & _ & _ & _ & _ & H0 & _) E. destruct (H0 E) as (? & ? & ? & ? & ? & H).
  destruct H as (_ & _ & _ & _ & _ & _ & Ht). exact Ht.
Qed.
End FwProps.

(** ** A concrete update *)

(** one record for the PCI device 8086:57ae with the main firmware of four bytes *)
Definition fw_pkg : pkg_src :=
  mk_psrc (replicate 13 0) 1 [0x31] 8
    [mk_rsrc 0 1 [0x61; 0x62] [1] [mk_dsrc PLDM_DESC_ID_PCI_VENDOR_ID [0x86; 0x80];
                                   mk_dsrc PLDM_DESC_ID_PCI_DEVICE_ID [0xae; 0x57]] [1; 2; 3]]
    [mk_csrc 10 NVM_COMP_ID_NVM 7 0 1 100 4 1 [0x76]].
Definition fw_img : list Z := encode crc32 fw_pkg (replicate 16 0xAA).

Lemma fw_pkg_wf n : 104 <= n -> pkg_wf n fw_pkg.
Proof.
  intros Hn. split_and!; [by vm_compute..| |by vm_compute| |by vm_compute|by vm_compute].
  - constructor; [|constructor]. split_and!; [by vm_compute|by vm_compute| |by vm_compute..].
    repeat (constructor; [split_and!; by vm_compute|]); constructor.
  - constructor; [|constructor]. split_and!; [by vm_compute..|simpl; lia].
Qed.
Lemma fw_img_package : package_at fw_img crc32 (records_lay fw_pkg) (components_lay fw_pkg) 8.
Proof. apply (encode_package crc32 fw_pkg); [|by vm_compute]. apply fw_pkg_wf. by vm_compute. Qed.
Lemma fw_img_covered rs comps nb : package_at fw_img crc32 rs comps nb ->
  Z.of_nat (length comps) <= 64 * BITS_TO_LONGS nb.
Proof.
  intros Hp. destruct (package_det _ _ _ _ _ _ _ _ Hp fw_img_package) as (-> & -> & ->). by vm_compute.
Qed.
Lemma fw_img_bytes : Forall byte fw_img.
Proof. apply bytes_dec. by vm_compute. Qed.

(** an adapter with capabilities, and a firmware that agrees *)
Definition fw_hw : ixgbe_hw :=
  upd_dev_caps (upd_dcap_common (upd_cc_pcie_reset_avoidance true
    (upd_cc_nvm_unified_update true common_caps0)) dev_caps0) hw0.
Definition fw_priv0 : ixgbe_fwu_priv := mk_fwu_priv 0 0 0 false [].
Abbreviation agreeable := (agree_firmware 0 []).
Definition fw_world : world (H := unit_mmio (F := agreeable)) := agree_world 0 [] fw_hw.
Definition fw_mem (k : Z) (w : world (H := unit_mmio (F := agreeable))) : bool := true.

Lemma fw_world_ready : aci_ready (D := unit_mmio) (AciDevice0 := unit_device) fw_world tt.
Proof. apply agree_world_ready; [by split|done]. Qed.
Lemma agree_caps_fit s c s' : executes (F := agreeable) s c s' -> fc_opcode c = ixgbe_aci_opc_list_dev_caps ->
  accepted c -> get32 (d_params (fc_answer c)) 4 <= 128.
Proof.
  intros (buf & n & hb & ad & ab & _ & Ex & _ & Er) _ _. unfold fc_answer. rewrite Er, rpc_reply_desc.
  destruct (agree_reply 0 [] _ _ _ _ _ _ Ex) as [-> _]. by vm_compute.
Qed.

(** the update succeeds *)
Example fw_update_runs :
  match ixgbe_flash_pldm_image fw_mem (fun _ => true) crc32 ex_dev fw_img 0 (mk_fwu fw_world fw_priv0) with
  | Done e st => e = 0 /\ activate_flags (f_priv st) = Z.lor IXGBE_ACI_NVM_PRESERVE_ALL IXGBE_ACI_NVM_ACTIV_SEL_NVM /\
      reset_level (f_priv st) = 3
  | Fault _ => False
  end.
Proof. by vm_compute. Qed.

Abbreviation fw_device := (unit_device (F := agreeable)).
Abbreviation fw_update := (ixgbe_flash_pldm_image (D := unit_mmio (F := agreeable)) fw_mem (fun _ => true) crc32 ex_dev fw_img 0).

Ltac fw_conditions :=
  lazymatch goal with
  | |- Forall byte _ => exact fw_img_bytes
  | |- aci_ready _ _ => exact fw_world_ready
  | |- same_hw _ _ => apply same_hw_refl
  | |- context [fc_opcode] => exact agree_caps_fit
  | |- context [package_at] => exact fw_img_covered
  | |- forall k w, _ => intros; reflexivity
  | |- _ => vm_compute; intuition congruence
  end.

Lemma nvm_module_written_witness :
  wp (ixgbe_write_nvm_module (D := unit_mmio (F := agreeable)) fw_mem fw_img E610_SR_1ST_NVM_BANK_PTR fw_mgmt 100 4 true)
    (fun e st => exists s' cs, session (F := agreeable) tt cs s' /\ aci_ready (AciDevice0 := fw_device) (f_hw st) s' /\
    (e = 0 -> Forall accepted cs /\ concat (map fc_data cs) = bytes_at fw_img 100 4 /\
       forall k c, cs !! k = Some c ->
         let off := 4096 * Z.of_nat k in
         let len := Z.of_nat (length (fc_data c)) in
         fc_desc c = write_desc E610_SR_1ST_NVM_BANK_PTR off len (off + len =? 4) /\
         ((S k < length cs)%nat -> len = 4096))) (mk_fwu fw_world fw_priv0).
Proof.
  apply (nvm_module_written (AciDevice0 := fw_device) fw_mem fw_img fw_hw); fw_conditions.
Defined.


Lemma fw_update_zero e st : fw_update (mk_fwu fw_world fw_priv0) = Done e st -> e = 0.
Proof. intros E. pose proof fw_update_runs as R. rewrite E in R. by destruct R. Qed.


Lemma reset_level_not_from_firmware_witness :
  wp fw_update (fun e st => e = 0 ->
    exists ns m, notes (f_priv st) = ns ++ [mk_note m None 0 0] /\
      (m = Activate_by_power_cycle \/ m = Activate_suggested_reload)) (mk_fwu fw_world fw_priv0).
Proof.
  apply (reset_level_not_from_firmware (AciDevice0 := fw_device) fw_mem fw_img ex_dev (fun _ => true) crc32 fw_hw) with (s := tt); fw_conditions.
Defined.
