(* ===== verification/I2c.v ===== *)
(** * The bit-banged I2C master (ixgbe_phy.c)

    SDA and SCL are bits of I2CCTL: on the MACs before X550 a bit drives the
    (open drain) line directly, later ones also have output enables and a bit
    that selects this mode.  Byte transfers to SFP modules and the "combined"
    16-bit transfers to the CS4227 are built on it.  The lock operations
    [hw->mac.ops.acquire_swfw_sync] and [release_swfw_sync] are arguments. *)
From S2P Require Import Prelude Status Regs Types Osdep.

(** ** [IXGBE_BY_MAC]: the entries of the tables of ixgbe_api.c *)
Definition by_mvals (h : ixgbe_hw) (base x540 x550 x550em_x x550em_a : Z) : Z :=
  match mvals h with
  | ixgbe_mvals_base => base | ixgbe_mvals_X540 => x540 | ixgbe_mvals_X550 => x550
  | ixgbe_mvals_X550EM_x => x550em_x | ixgbe_mvals_X550EM_a => x550em_a
  end.
Definition IXGBE_I2CCTL_BY_MAC (h : ixgbe_hw) : Z :=
  by_mvals h IXGBE_I2CCTL IXGBE_I2CCTL_X540 IXGBE_I2CCTL_X550 IXGBE_I2CCTL_X550EM_x IXGBE_I2CCTL_X550EM_a.
Definition IXGBE_I2C_CLK_IN_BY_MAC (h : ixgbe_hw) : Z :=
  by_mvals h IXGBE_I2C_CLK_IN IXGBE_I2C_CLK_IN_X540 IXGBE_I2C_CLK_IN_X550 IXGBE_I2C_CLK_IN_X550EM_x
    IXGBE_I2C_CLK_IN_X550EM_a.
Definition IXGBE_I2C_CLK_OUT_BY_MAC (h : ixgbe_hw) : Z :=
  by_mvals h IXGBE_I2C_CLK_OUT IXGBE_I2C_CLK_OUT_X540 IXGBE_I2C_CLK_OUT_X550 IXGBE_I2C_CLK_OUT_X550EM_x
    IXGBE_I2C_CLK_OUT_X550EM_a.
Definition IXGBE_I2C_DATA_IN_BY_MAC (h : ixgbe_hw) : Z :=
  by_mvals h IXGBE_I2C_DATA_IN IXGBE_I2C_DATA_IN_X540 IXGBE_I2C_DATA_IN_X550 IXGBE_I2C_DATA_IN_X550EM_x
    IXGBE_I2C_DATA_IN_X550EM_a.
Definition IXGBE_I2C_DATA_OUT_BY_MAC (h : ixgbe_hw) : Z :=
  by_mvals h IXGBE_I2C_DATA_OUT IXGBE_I2C_DATA_OUT_X540 IXGBE_I2C_DATA_OUT_X550
    IXGBE_I2C_DATA_OUT_X550EM_x IXGBE_I2C_DATA_OUT_X550EM_a.
Definition IXGBE_I2C_DATA_OE_N_EN_BY_MAC (h : ixgbe_hw) : Z :=
  by_mvals h IXGBE_I2C_DATA_OE_N_EN IXGBE_I2C_DATA_OE_N_EN_X540 IXGBE_I2C_DATA_OE_N_EN_X550
    IXGBE_I2C_DATA_OE_N_EN_X550EM_x IXGBE_I2C_DATA_OE_N_EN_X550EM_a.
Definition IXGBE_I2C_BB_EN_BY_MAC (h : ixgbe_hw) : Z :=
  by_mvals h IXGBE_I2C_BB_EN IXGBE_I2C_BB_EN_X540 IXGBE_I2C_BB_EN_X550 IXGBE_I2C_BB_EN_X550EM_x
    IXGBE_I2C_BB_EN_X550EM_a.
Definition IXGBE_I2C_CLK_OE_N_EN_BY_MAC (h : ixgbe_hw) : Z :=
  by_mvals h IXGBE_I2C_CLK_OE_N_EN IXGBE_I2C_CLK_OE_N_EN_X540 IXGBE_I2C_CLK_OE_N_EN_X550
    IXGBE_I2C_CLK_OE_N_EN_X550EM_x IXGBE_I2C_CLK_OE_N_EN_X550EM_a.

Definition ixgbe_ones_comp_byte_add (add1 add2 : Z) : Z :=
  let sum := u16 (add1 + add2) in
  let sum := u16 (Z.land sum 0xFF + Z.shiftr sum 8) in
  Z.land sum 0xFF.

Section I2c.
Context `{D : Mmio}.

(** ** The lines.  [*i2cctl] is an argument and part of the result. *)
Definition ixgbe_raise_i2c_clk (i2cctl : Z) : M Z :=
  h ← get_hw;
  let clk_oe_bit := IXGBE_I2C_CLK_OE_N_EN_BY_MAC h in
  i2cctl ← (if negb (clk_oe_bit =? 0) then
              let i2cctl := Z.lor i2cctl clk_oe_bit in
              IXGBE_WRITE_REG (IXGBE_I2CCTL_BY_MAC h) i2cctl ;; mret i2cctl
            else mret i2cctl);
  r ← for_break (Z.to_nat IXGBE_I2C_CLOCK_STRETCHING_TIMEOUT) 0 i2cctl (fun _ i2cctl =>
        let i2cctl := Z.lor i2cctl (IXGBE_I2C_CLK_OUT_BY_MAC h) in
        IXGBE_WRITE_REG (IXGBE_I2CCTL_BY_MAC h) i2cctl ;;
        IXGBE_WRITE_FLUSH ;;
        usec_delay IXGBE_I2C_T_RISE ;;
        i2cctl_r ← IXGBE_READ_REG (IXGBE_I2CCTL_BY_MAC h);
        if has i2cctl_r (IXGBE_I2C_CLK_IN_BY_MAC h) then mret (inr i2cctl) else mret (inl i2cctl));
  mret (match r with inl v => v | inr v => v end).

Definition ixgbe_lower_i2c_clk (i2cctl : Z) : M Z :=
  h ← get_hw;
  let i2cctl := Z.land i2cctl (bnot 32 (IXGBE_I2C_CLK_OUT_BY_MAC h)) in
  let i2cctl := Z.land i2cctl (bnot 32 (IXGBE_I2C_CLK_OE_N_EN_BY_MAC h)) in
  IXGBE_WRITE_REG (IXGBE_I2CCTL_BY_MAC h) i2cctl ;;
  IXGBE_WRITE_FLUSH ;;
  usec_delay IXGBE_I2C_T_FALL ;;
  mret i2cctl.

(** the bit and [*i2cctl] *)
Definition ixgbe_get_i2c_data (i2cctl : Z) : M (bool * Z) :=
  h ← get_hw;
  let data_oe_bit := IXGBE_I2C_DATA_OE_N_EN_BY_MAC h in
  i2cctl ← (if negb (data_oe_bit =? 0) then
              let i2cctl := Z.lor i2cctl data_oe_bit in
              IXGBE_WRITE_REG (IXGBE_I2CCTL_BY_MAC h) i2cctl ;;
              IXGBE_WRITE_FLUSH ;;
              usec_delay IXGBE_I2C_T_FALL ;;
              mret i2cctl
            else mret i2cctl);
  mret (has i2cctl (IXGBE_I2C_DATA_IN_BY_MAC h), i2cctl).

(** status and [*i2cctl] *)
Definition ixgbe_set_i2c_data (i2cctl : Z) (data : bool) : M (Z * Z) :=
  h ← get_hw;
  let data_oe_bit := IXGBE_I2C_DATA_OE_N_EN_BY_MAC h in
  let i2cctl := if data then Z.lor i2cctl (IXGBE_I2C_DATA_OUT_BY_MAC h)
                else Z.land i2cctl (bnot 32 (IXGBE_I2C_DATA_OUT_BY_MAC h)) in
  let i2cctl := Z.land i2cctl (bnot 32 data_oe_bit) in
  IXGBE_WRITE_REG (IXGBE_I2CCTL_BY_MAC h) i2cctl ;;
  IXGBE_WRITE_FLUSH ;;
  usec_delay (IXGBE_I2C_T_RISE + IXGBE_I2C_T_FALL + IXGBE_I2C_T_SU_DATA) ;;
  if negb data then mret (IXGBE_SUCCESS, i2cctl)
  else
    (if negb (data_oe_bit =? 0) then
       IXGBE_WRITE_REG (IXGBE_I2CCTL_BY_MAC h) (Z.lor i2cctl data_oe_bit) ;; IXGBE_WRITE_FLUSH
     else mret tt) ;;
    i2cctl ← IXGBE_READ_REG (IXGBE_I2CCTL_BY_MAC h);
    r ← ixgbe_get_i2c_data i2cctl;
    let '(bit, i2cctl) := r in
    mret (if negb (Bool.eqb data bit) then IXGBE_ERR_I2C else IXGBE_SUCCESS, i2cctl).

(** the part that [ixgbe_get_i2c_ack] and [ixgbe_clock_in_i2c_bit] share:
    release SDA where that needs an output enable *)
Definition i2c_release_sda (i2cctl : Z) : M Z :=
  h ← get_hw;
  let data_oe_bit := IXGBE_I2C_DATA_OE_N_EN_BY_MAC h in
  if negb (data_oe_bit =? 0) then
    let i2cctl := Z.lor i2cctl (IXGBE_I2C_DATA_OUT_BY_MAC h) in
    let i2cctl := Z.lor i2cctl data_oe_bit in
    IXGBE_WRITE_REG (IXGBE_I2CCTL_BY_MAC h) i2cctl ;;
    IXGBE_WRITE_FLUSH ;;
    mret i2cctl
  else mret i2cctl.

(** ** Bits, bytes, conditions *)
Definition ixgbe_i2c_start : M unit :=
  h ← get_hw;
  i2cctl ← IXGBE_READ_REG (IXGBE_I2CCTL_BY_MAC h);
  let i2cctl := Z.lor i2cctl (IXGBE_I2C_BB_EN_BY_MAC h) in
  r ← ixgbe_set_i2c_data i2cctl true;
  i2cctl ← ixgbe_raise_i2c_clk (snd r);
  usec_delay IXGBE_I2C_T_SU_STA ;;
  r ← ixgbe_set_i2c_data i2cctl false;
  usec_delay IXGBE_I2C_T_HD_STA ;;
  ixgbe_lower_i2c_clk (snd r) ;;
  usec_delay IXGBE_I2C_T_LOW.

Definition ixgbe_i2c_stop : M unit :=
  h ← get_hw;
  i2cctl ← IXGBE_READ_REG (IXGBE_I2CCTL_BY_MAC h);
  let data_oe_bit := IXGBE_I2C_DATA_OE_N_EN_BY_MAC h in
  let clk_oe_bit := IXGBE_I2C_CLK_OE_N_EN_BY_MAC h in
  let bb_en_bit := IXGBE_I2C_BB_EN_BY_MAC h in
  r ← ixgbe_set_i2c_data i2cctl false;
  i2cctl ← ixgbe_raise_i2c_clk (snd r);
  usec_delay IXGBE_I2C_T_SU_STO ;;
  r ← ixgbe_set_i2c_data i2cctl true;
  usec_delay IXGBE_I2C_T_BUF ;;
  if negb (bb_en_bit =? 0) || negb (data_oe_bit =? 0) || negb (clk_oe_bit =? 0) then
    let i2cctl := Z.land (snd r) (bnot 32 bb_en_bit) in
    let i2cctl := Z.lor i2cctl (Z.lor data_oe_bit clk_oe_bit) in
    IXGBE_WRITE_REG (IXGBE_I2CCTL_BY_MAC h) i2cctl ;;
    IXGBE_WRITE_FLUSH
  else mret tt.

Definition ixgbe_clock_in_i2c_bit : M bool :=
  h ← get_hw;
  i2cctl ← IXGBE_READ_REG (IXGBE_I2CCTL_BY_MAC h);
  i2cctl ← i2c_release_sda i2cctl;
  ixgbe_raise_i2c_clk i2cctl ;;
  usec_delay IXGBE_I2C_T_HIGH ;;
  i2cctl ← IXGBE_READ_REG (IXGBE_I2CCTL_BY_MAC h);
  r ← ixgbe_get_i2c_data i2cctl;
  let '(data, i2cctl) := r in
  ixgbe_lower_i2c_clk i2cctl ;;
  usec_delay IXGBE_I2C_T_LOW ;;
  mret data.

Definition ixgbe_clock_out_i2c_bit (data : bool) : M Z :=
  h ← get_hw;
  i2cctl ← IXGBE_READ_REG (IXGBE_I2CCTL_BY_MAC h);
  r ← ixgbe_set_i2c_data i2cctl data;
  let '(status, i2cctl) := r in
  if status =? IXGBE_SUCCESS then
    i2cctl ← ixgbe_raise_i2c_clk i2cctl;
    usec_delay IXGBE_I2C_T_HIGH ;;
    ixgbe_lower_i2c_clk i2cctl ;;
    usec_delay IXGBE_I2C_T_LOW ;;
    mret status
  else mret IXGBE_ERR_I2C.

(** the loop counts [i] from 7 down to 0 *)
Definition ixgbe_clock_in_i2c_byte : M Z :=
  for_acc 8 0 0 (fun k data =>
    bit ← ixgbe_clock_in_i2c_bit;
    mret (Z.lor data (Z.shiftl (Z.b2z bit) (7 - k)))).

Definition ixgbe_clock_out_i2c_byte (data : Z) : M Z :=
  r ← for_break 8 0 tt (fun k _ =>
        status ← ixgbe_clock_out_i2c_bit (Z.testbit data (7 - k));
        if negb (status =? IXGBE_SUCCESS) then mret (inr status) else mret (inl tt));
  h ← get_hw;
  i2cctl ← IXGBE_READ_REG (IXGBE_I2CCTL_BY_MAC h);
  let i2cctl := Z.lor i2cctl (IXGBE_I2C_DATA_OUT_BY_MAC h) in
  let i2cctl := Z.lor i2cctl (IXGBE_I2C_DATA_OE_N_EN_BY_MAC h) in
  IXGBE_WRITE_REG (IXGBE_I2CCTL_BY_MAC h) i2cctl ;;
  IXGBE_WRITE_FLUSH ;;
  mret (match r with inl _ => IXGBE_SUCCESS | inr status => status end).

(** the accumulator of the poll is [ack] and [i2cctl] *)
Definition ixgbe_get_i2c_ack : M Z :=
  h ← get_hw;
  i2cctl ← IXGBE_READ_REG (IXGBE_I2CCTL_BY_MAC h);
  i2cctl ← i2c_release_sda i2cctl;
  i2cctl ← ixgbe_raise_i2c_clk i2cctl;
  usec_delay IXGBE_I2C_T_HIGH ;;
  r ← for_break 10 0 (true, i2cctl) (fun _ _ =>
        i2cctl ← IXGBE_READ_REG (IXGBE_I2CCTL_BY_MAC h);
        r ← ixgbe_get_i2c_data i2cctl;
        usec_delay 1 ;;
        if negb (fst r) then mret (inr r) else mret (inl r));
  let '(ack, i2cctl) := match r with inl x => x | inr x => x end in
  ixgbe_lower_i2c_clk i2cctl ;;
  usec_delay IXGBE_I2C_T_LOW ;;
  mret (if ack : bool then IXGBE_ERR_I2C else IXGBE_SUCCESS).

Definition ixgbe_out_i2c_byte_ack (byte : Z) : M Z :=
  ixgbe_clock_out_i2c_byte byte ?; ixgbe_get_i2c_ack.

(** status and the byte *)
Definition ixgbe_in_i2c_byte_ack : M (Z * Z) :=
  byte ← ixgbe_clock_in_i2c_byte;
  status ← ixgbe_clock_out_i2c_bit false;
  mret (status, byte).

Definition ixgbe_i2c_bus_clear : M unit :=
  h ← get_hw;
  ixgbe_i2c_start ;;
  i2cctl ← IXGBE_READ_REG (IXGBE_I2CCTL_BY_MAC h);
  r ← ixgbe_set_i2c_data i2cctl true;
  for_acc 9 0 (snd r) (fun _ i2cctl =>
    i2cctl ← ixgbe_raise_i2c_clk i2cctl;
    usec_delay IXGBE_I2C_T_HIGH ;;
    i2cctl ← ixgbe_lower_i2c_clk i2cctl;
    usec_delay IXGBE_I2C_T_LOW ;;
    mret i2cctl) ;;
  ixgbe_i2c_start ;;
  ixgbe_i2c_stop.

(** ** Transfers *)
Section Transfers.
Context (acquire_swfw_sync : Z -> M Z) (release_swfw_sync : Z -> M unit).

Definition unlock (lock : bool) (mask : Z) : M unit := if lock then release_swfw_sync mask else mret tt.

Definition ixgbe_is_sfp_probe (h : ixgbe_hw) (offset addr : Z) : bool :=
  (addr =? IXGBE_I2C_EEPROM_DEV_ADDR) && (offset =? IXGBE_SFF_IDENTIFIER) &&
  bool_decide (sfp_type (phy h) = ixgbe_sfp_type_not_present).

(** one attempt of the read, up to the label [fail]: status and [*data] *)
Definition i2c_read_frame (byte_offset dev_addr data : Z) : M (Z * Z) :=
  ixgbe_i2c_start ;;
  status ← (ixgbe_clock_out_i2c_byte dev_addr ?;
            ixgbe_get_i2c_ack ?;
            ixgbe_clock_out_i2c_byte byte_offset ?;
            ixgbe_get_i2c_ack ?;
            (ixgbe_i2c_start ;;
             ixgbe_clock_out_i2c_byte (Z.lor dev_addr 0x1) ?;
             ixgbe_get_i2c_ack));
  if negb (status =? IXGBE_SUCCESS) then mret (status, data)
  else
    data ← ixgbe_clock_in_i2c_byte;
    status ← ixgbe_clock_out_i2c_bit true;
    mret (status, data).

(** status and [*data]; the retries accumulate both *)
Definition ixgbe_read_i2c_byte_generic_int (byte_offset dev_addr : Z) (lock : bool) : M (Z * Z) :=
  h ← get_hw;
  let swfw_mask := phy_semaphore_mask (phy h) in
  let max_retry := if mac_type_val ixgbe_mac_X550 <=? mac_type_val (mac_type (mac h)) then 3 else 10 in
  let max_retry := if ixgbe_is_sfp_probe h byte_offset dev_addr then IXGBE_SFP_DETECT_RETRIES
                   else max_retry in
  r ← for_break (Z.to_nat (max_retry + 1)) 0 (0, 0) (fun _ acc =>
        locked ← (if lock then acquire_swfw_sync swfw_mask else mret 0);
        if negb (locked =? 0) then mret (inr (IXGBE_ERR_SWFW_SYNC, snd acc))
        else
          r ← i2c_read_frame byte_offset dev_addr (snd acc);
          if fst r =? IXGBE_SUCCESS then
            ixgbe_i2c_stop ;;
            unlock lock swfw_mask ;;
            mret (inr (IXGBE_SUCCESS, snd r))
          else
            ixgbe_i2c_bus_clear ;;
            (if lock then release_swfw_sync swfw_mask ;; msec_delay 100 else mret tt) ;;
            mret (inl r));
  mret (match r with inl x => x | inr x => x end).

Definition ixgbe_read_i2c_byte_generic (byte_offset dev_addr : Z) : M (Z * Z) :=
  ixgbe_read_i2c_byte_generic_int byte_offset dev_addr true.
Definition ixgbe_read_i2c_byte_generic_unlocked (byte_offset dev_addr : Z) : M (Z * Z) :=
  ixgbe_read_i2c_byte_generic_int byte_offset dev_addr false.

(** one attempt of the write, up to the label [fail] *)
Definition i2c_write_frame (byte_offset dev_addr data : Z) : M Z :=
  ixgbe_i2c_start ;;
  (ixgbe_clock_out_i2c_byte dev_addr ?;
   ixgbe_get_i2c_ack ?;
   ixgbe_clock_out_i2c_byte byte_offset ?;
   ixgbe_get_i2c_ack ?;
   ixgbe_clock_out_i2c_byte data ?;
   ixgbe_get_i2c_ack).

Definition ixgbe_write_i2c_byte_generic_int (byte_offset dev_addr data : Z) (lock : bool) : M Z :=
  h ← get_hw;
  let max_retry := 1 in
  let swfw_mask := phy_semaphore_mask (phy h) in
  locked ← (if lock then acquire_swfw_sync swfw_mask else mret 0);
  if negb (locked =? IXGBE_SUCCESS) then mret IXGBE_ERR_SWFW_SYNC
  else
    r ← for_break (Z.to_nat (max_retry + 1)) 0 0 (fun _ _ =>
          status ← i2c_write_frame byte_offset dev_addr data;
          if status =? IXGBE_SUCCESS then ixgbe_i2c_stop ;; mret (inr tt)
          else ixgbe_i2c_bus_clear ;; mret (inl status));
    unlock lock swfw_mask ;;
    mret (match r with inl status => status | inr _ => IXGBE_SUCCESS end).

Definition ixgbe_write_i2c_byte_generic (byte_offset dev_addr data : Z) : M Z :=
  ixgbe_write_i2c_byte_generic_int byte_offset dev_addr data true.
Definition ixgbe_write_i2c_byte_generic_unlocked (byte_offset dev_addr data : Z) : M Z :=
  ixgbe_write_i2c_byte_generic_int byte_offset dev_addr data false.

(** one attempt of the combined read, up to the label [fail]: status and the
    two bytes; the third byte read is dropped *)
Definition i2c_read_combined_frame (addr reg_high reg csum : Z) : M (Z * (Z * Z)) :=
  ixgbe_i2c_start ;;
  status ← (ixgbe_out_i2c_byte_ack addr ?;
            ixgbe_out_i2c_byte_ack reg_high ?;
            ixgbe_out_i2c_byte_ack (Z.land reg 0xFF) ?;
            ixgbe_out_i2c_byte_ack csum ?;
            (ixgbe_i2c_start ;;
             ixgbe_out_i2c_byte_ack (Z.lor addr 1)));
  if negb (status =? 0) then mret (status, (0, 0))
  else
    r ← ixgbe_in_i2c_byte_ack;
    let '(status, high_bits) := r in
    if negb (status =? 0) then mret (status, (0, 0))
    else
      r ← ixgbe_in_i2c_byte_ack;
      let '(status, low_bits) := r in
      if negb (status =? 0) then mret (status, (0, 0))
      else
        csum_byte ← ixgbe_clock_in_i2c_byte;
        status ← ixgbe_clock_out_i2c_bit false;
        mret (status, (high_bits, low_bits)).

(** status and, on success, [*val] *)
Definition ixgbe_read_i2c_combined_generic_int (addr reg : Z) (lock : bool) : M (Z * option Z) :=
  h ← get_hw;
  let swfw_mask := phy_semaphore_mask (phy h) in
  let max_retry := 3 in
  let reg_high := u8 (Z.lor (Z.land (Z.shiftr reg 7) 0xFE) 1) in
  let csum := ixgbe_ones_comp_byte_add reg_high (Z.land reg 0xFF) in
  let csum := bnot 8 csum in
  r ← for_break (Z.to_nat (max_retry + 1)) 0 tt (fun _ _ =>
        locked ← (if lock then acquire_swfw_sync swfw_mask else mret 0);
        if negb (locked =? 0) then mret (inr (IXGBE_ERR_SWFW_SYNC, None))
        else
          r ← i2c_read_combined_frame addr reg_high reg csum;
          let '(status, (high_bits, low_bits)) := r in
          if status =? 0 then
            ixgbe_i2c_stop ;;
            unlock lock swfw_mask ;;
            mret (inr (0, Some (u16 (Z.lor (Z.shiftl high_bits 8) low_bits))))
          else
            ixgbe_i2c_bus_clear ;;
            unlock lock swfw_mask ;;
            mret (inl tt));
  mret (match r with inl _ => (IXGBE_ERR_I2C, None) | inr x => x end).

Definition ixgbe_write_i2c_combined_generic_int (addr reg val : Z) (lock : bool) : M Z :=
  h ← get_hw;
  let swfw_mask := phy_semaphore_mask (phy h) in
  let max_retry := 1 in
  let reg_high := Z.land (Z.shiftr reg 7) 0xFE in
  let csum := ixgbe_ones_comp_byte_add reg_high (Z.land reg 0xFF) in
  let csum := ixgbe_ones_comp_byte_add csum (Z.shiftr val 8) in
  let csum := ixgbe_ones_comp_byte_add csum (Z.land val 0xFF) in
  let csum := bnot 8 csum in
  r ← for_break (Z.to_nat (max_retry + 1)) 0 tt (fun _ _ =>
        locked ← (if lock then acquire_swfw_sync swfw_mask else mret 0);
        if negb (locked =? 0) then mret (inr IXGBE_ERR_SWFW_SYNC)
        else
          ixgbe_i2c_start ;;
          status ← (ixgbe_out_i2c_byte_ack addr ?;
                    ixgbe_out_i2c_byte_ack reg_high ?;
                    ixgbe_out_i2c_byte_ack (Z.land reg 0xFF) ?;
                    ixgbe_out_i2c_byte_ack (Z.shiftr val 8) ?;
                    ixgbe_out_i2c_byte_ack (Z.land val 0xFF) ?;
                    ixgbe_out_i2c_byte_ack csum);
          if status =? 0 then
            ixgbe_i2c_stop ;; unlock lock swfw_mask ;; mret (inr 0)
          else
            ixgbe_i2c_bus_clear ;; unlock lock swfw_mask ;; mret (inl tt));
  mret (match r with inl _ => IXGBE_ERR_I2C | inr status => status end).
End Transfers.
End I2c.
