(* ===== verification/I2cBus.v ===== *)
(** * An I2C bus behind I2CCTL, and the master on it

    What the theorems on the I2C master assume of the adapter and of the device
    on the bus, and the protocol the master speaks as functions on the state of
    that device.  The bus has two open-drain lines: a line is high if nobody
    holds it low.  A device on the bus (class [I2cSlave]) sees START and STOP
    (SDA changes while SCL is high), the rising edges of SCL with the level of
    SDA, and the falling ones; [s_sda] tells whether it releases SDA.

    Then: every routine of the I2C part of ixgbe_phy.c, run on such an adapter, does
    to the device what the protocol says, on every MAC. *)
From S2P Require Import Prelude Status Regs Types Osdep I2c.

(** ** Levels of the lines as the register drives them *)
Definition clk_mask (h : ixgbe_hw) : Z := Z.lor (IXGBE_I2C_CLK_OUT_BY_MAC h) (IXGBE_I2C_CLK_OE_N_EN_BY_MAC h).
Definition data_mask (h : ixgbe_hw) : Z :=
  Z.lor (IXGBE_I2C_DATA_OUT_BY_MAC h) (IXGBE_I2C_DATA_OE_N_EN_BY_MAC h).
(** a line is released by its output bit or, where there is one, by its output
    enable, which is active low *)
Definition scl (h : ixgbe_hw) (v : Z) : bool := has v (clk_mask h).
Definition sda (h : ixgbe_hw) (v : Z) : bool := has v (data_mask h).

Class I2cSlave := {
  slave : Type;
  s_sda : slave -> bool;
  s_start : slave -> slave;
  s_stop : slave -> slave;
  s_rise : bool -> slave -> slave;
  s_fall : slave -> slave;
}.

(** SDA changes from [d] to [d'] while SCL is high *)
Definition data_edge `{I2cSlave} (d d' : bool) (s : slave) : slave :=
  if negb (s_sda s) then s
  else if d && negb d' then s_start s
  else if negb d && d' then s_stop s
  else s.

(** the levels the master drives change from [c], [d] to [c'], [d'] *)
Definition drive `{I2cSlave} (c d c' d' : bool) (s : slave) : slave :=
  if c then if c' then data_edge d d' s else s_fall s
  else if c' then s_rise (d' && s_sda s) s else s.

(** The adapter: I2CCTL keeps the output bits, shows the lines in its input bits,
    and what is written to it goes to the bus.  Nothing else does. *)
Class I2cBus (D : Mmio) (S : I2cSlave) (h : ixgbe_hw) := {
  pins : dev -> Z;
  on_bus : dev -> slave;
  i2c_read d v d' : dev_read d (IXGBE_I2CCTL_BY_MAC h) = (v, d') ->
    in_range 31 v /\ scl h v = scl h (pins d) /\ sda h v = sda h (pins d) /\
    has v (IXGBE_I2C_CLK_IN_BY_MAC h) = scl h (pins d) /\
    has v (IXGBE_I2C_DATA_IN_BY_MAC h) = sda h (pins d) && s_sda (on_bus d) /\
    pins d' = pins d /\ on_bus d' = on_bus d;
  i2c_write d v : let d' := dev_write d (IXGBE_I2CCTL_BY_MAC h) v in
    scl h (pins d') = scl h v /\ sda h (pins d') = sda h v /\
    on_bus d' = drive (scl h (pins d)) (sda h (pins d)) (scl h v) (sda h v) (on_bus d);
  i2c_status d v d' : dev_read d IXGBE_STATUS = (v, d') ->
    in_range 31 v /\ pins d' = pins d /\ on_bus d' = on_bus d;
  i2c_delay d us : pins (dev_delay d us) = pins d /\ on_bus (dev_delay d us) = on_bus d;
}.

(** ** The protocol, on the state of the device on the bus

    A step gives the result of the master and the new state.  Between the steps
    SCL is low; the master samples SDA while SCL is high. *)
Section Protocol.
Context `{S : I2cSlave}.
Implicit Types s : slave.

Definition p_start_idle s : slave := s_fall (data_edge true false s).
Definition p_start s : slave := s_fall (data_edge true false (s_rise (s_sda s) s)).
Definition p_stop s : slave := data_edge false true (s_rise false s).

(** a bit from the master; a device that holds SDA low is detected before a 1 is
    clocked *)
Definition p_out_bit (b : bool) s : bool * slave :=
  if b && negb (s_sda s) then (false, s) else (true, s_fall (s_rise b s)).
(** a bit from the device *)
Definition p_in_bit s : bool * slave :=
  let s := s_rise (s_sda s) s in (s_sda s, s_fall s).

(** the bits of a byte, most significant first; stops at the first collision *)
Fixpoint p_out_bits (l : list bool) s : bool * slave :=
  match l with
  | [] => (true, s)
  | b :: l => match p_out_bit b s with (true, s) => p_out_bits l s | x => x end
  end.
Definition byte_bits (x : Z) : list bool := map (fun k => Z.testbit x (7 - k)) (seqZ 0 8).
(** a byte and the acknowledgement of the device *)
Definition p_out_byte (x : Z) s : bool * slave :=
  match p_out_bits (byte_bits x) s with
  | (true, s) => let '(nack, s) := p_in_bit s in (negb nack, s)
  | r => r
  end.
Fixpoint p_in_bits (n : nat) (acc : Z) s : Z * slave :=
  match n with
  | O => (acc, s)
  | Datatypes.S n => let '(b, s) := p_in_bit s in p_in_bits n (2 * acc + Z.b2z b) s
  end.
Definition p_in_byte s : Z * slave := p_in_bits 8 0 s.

(** a sequence of bytes, all acknowledged *)
Fixpoint p_send (l : list Z) s : bool * slave :=
  match l with
  | [] => (true, s)
  | x :: l => match p_out_byte x s with (true, s) => p_send l s | r => r end
  end.

(** nine clocks with SDA released between two START conditions *)
Definition p_clear s : slave :=
  p_stop (p_start (Nat.iter 9 (fun s => s_fall (s_rise (s_sda s) s)) (p_start s))).

(** reading the byte at an offset of the device: write the offset, START again,
    read, refuse the next byte *)
Definition p_read (addr off : Z) s : option Z * slave :=
  match p_send [addr; off] (p_start_idle s) with
  | (true, s) =>
      match p_send [Z.lor addr 1] (p_start s) with
      | (true, s) =>
          let '(x, s) := p_in_byte s in
          match p_out_bit true s with
          | (true, s) => (Some x, p_stop s)
          | (false, s) => (None, p_clear s)
          end
      | (false, s) => (None, p_clear s)
      end
  | (false, s) => (None, p_clear s)
  end.
Definition p_write (addr off x : Z) s : bool * slave :=
  match p_send [addr; off; x] (p_start_idle s) with
  | (true, s) => (true, p_stop s)
  | (false, s) => (false, p_clear s)
  end.

(** a 16-bit register of a device that takes a checksum: the checksum it sends is
    read and dropped *)
Definition p_in_byte_ack s : option Z * slave :=
  let '(x, s) := p_in_byte s in
  let '(ok, s) := p_out_bit false s in (if ok : bool then Some x else None, s).
Definition p_read_combined (addr hi lo csum : Z) s : option Z * slave :=
  match p_send [addr; hi; lo; csum] (p_start_idle s) with
  | (true, s) =>
      match p_send [Z.lor addr 1] (p_start s) with
      | (true, s) =>
          match p_in_byte_ack s with
          | (Some x, s) =>
              match p_in_byte_ack s with
              | (Some y, s) =>
                  match p_in_byte_ack s with
                  | (Some _, s) => (Some (Z.lor (Z.shiftl x 8) y), p_stop s)
                  | (None, s) => (None, p_clear s)
                  end
              | (None, s) => (None, p_clear s)
              end
          | (None, s) => (None, p_clear s)
          end
      | (false, s) => (None, p_clear s)
      end
  | (false, s) => (None, p_clear s)
  end.

(** [n] attempts *)
Fixpoint p_read_retry (n : nat) (addr off : Z) s : option Z * slave :=
  match n with
  | O => (None, s)
  | Datatypes.S n => match p_read addr off s with (None, s) => p_read_retry n addr off s | r => r end
  end.
Fixpoint p_read_combined_retry (n : nat) (addr hi lo csum : Z) s : option Z * slave :=
  match n with
  | O => (None, s)
  | Datatypes.S n =>
      match p_read_combined addr hi lo csum s with
      | (None, s) => p_read_combined_retry n addr hi lo csum s
      | r => r
      end
  end.
Fixpoint p_write_retry (n : nat) (addr off x : Z) s : bool * slave :=
  match n with
  | O => (false, s)
  | Datatypes.S n => match p_write addr off x s with (false, s) => p_write_retry n addr off x s | r => r end
  end.
End Protocol.

(** ** Bits of the register *)
Lemma has_lor_l v m k : has (Z.lor v m) k = has v k || has m k.
Proof.
  unfold has. rewrite <- negb_andb. f_equal. apply eq_true_iff_eq.
  rewrite andb_true_iff, !Z.eqb_eq, Z.land_lor_distr_l, Z.lor_eq_0_iff. done.
Qed.
Lemma has_andnot v m k : has (Z.land v (bnot 32 m)) k = has v (Z.land k (bnot 32 m)).
Proof. unfold has. by rewrite <- Z.land_assoc, (Z.land_comm (bnot 32 m)). Qed.
Lemma has_u32 v k : in_range 32 k -> has (u32 v) k = has v k.
Proof.
  intros Hk. unfold has. do 2 f_equal. apply Z.bits_inj'. intros i Hi.
  rewrite !Z.land_spec, testbit_trunc by lia. destruct (Z.ltb_spec i 32); [done|].
  rewrite (testbit_range 32 k i Hk) by lia. by rewrite !andb_false_r.
Qed.

Ltac i2c_mask :=
  unfold scl, sda, clk_mask, data_mask, IXGBE_I2C_CLK_OUT_BY_MAC, IXGBE_I2C_CLK_OE_N_EN_BY_MAC,
    IXGBE_I2C_DATA_OUT_BY_MAC, IXGBE_I2C_DATA_OE_N_EN_BY_MAC, IXGBE_I2C_BB_EN_BY_MAC,
    IXGBE_I2C_DATA_IN_BY_MAC, IXGBE_I2C_CLK_IN_BY_MAC, by_mvals in *;
  match goal with h : ixgbe_hw |- _ => destruct (mvals h) end;
  rewrite ?has_andnot, ?has_lor_l, ?has_andnot, ?has_lor_l, ?has_andnot;
  repeat match goal with
  | |- context [has ?v ?m] => progress (let m' := eval vm_compute in m in change (has v m) with (has v m'))
  end;
  repeat match goal with
  | |- context [has (Zpos ?v) ?m] =>
      let b := eval vm_compute in (has (Zpos v) m) in change (has (Zpos v) m) with b
  end;
  rewrite ?orb_false_r, ?orb_true_r; try done; try (unfold has; by rewrite Z.land_0_r).

Section Masks.
Implicit Types (h : ixgbe_hw) (v : Z).
Lemma scl_u32 h v : scl h (u32 v) = scl h v.
Proof. apply has_u32. unfold clk_mask, IXGBE_I2C_CLK_OUT_BY_MAC, IXGBE_I2C_CLK_OE_N_EN_BY_MAC, by_mvals. by destruct (mvals h). Qed.
Lemma sda_u32 h v : sda h (u32 v) = sda h v.
Proof. apply has_u32. unfold data_mask, IXGBE_I2C_DATA_OUT_BY_MAC, IXGBE_I2C_DATA_OE_N_EN_BY_MAC, by_mvals. by destruct (mvals h). Qed.

Lemma scl_raise h v : scl h (Z.lor v (IXGBE_I2C_CLK_OUT_BY_MAC h)) = true.
Proof. i2c_mask. Qed.
Lemma scl_raise_oe h v : negb (IXGBE_I2C_CLK_OE_N_EN_BY_MAC h =? 0) = true ->
  scl h (Z.lor v (IXGBE_I2C_CLK_OE_N_EN_BY_MAC h)) = true.
Proof. i2c_mask. Qed.
Lemma sda_raise h v : sda h (Z.lor v (IXGBE_I2C_CLK_OUT_BY_MAC h)) = sda h v.
Proof. i2c_mask. Qed.
Lemma sda_raise_oe h v : sda h (Z.lor v (IXGBE_I2C_CLK_OE_N_EN_BY_MAC h)) = sda h v.
Proof. i2c_mask. Qed.
Lemma scl_lower h v : scl h (Z.land (Z.land v (bnot 32 (IXGBE_I2C_CLK_OUT_BY_MAC h)))
  (bnot 32 (IXGBE_I2C_CLK_OE_N_EN_BY_MAC h))) = false.
Proof. i2c_mask. Qed.
Lemma sda_lower h v : sda h (Z.land (Z.land v (bnot 32 (IXGBE_I2C_CLK_OUT_BY_MAC h)))
  (bnot 32 (IXGBE_I2C_CLK_OE_N_EN_BY_MAC h))) = sda h v.
Proof. i2c_mask. Qed.
Lemma sda_set h v : sda h (Z.land (Z.lor v (IXGBE_I2C_DATA_OUT_BY_MAC h))
  (bnot 32 (IXGBE_I2C_DATA_OE_N_EN_BY_MAC h))) = true.
Proof. i2c_mask. Qed.
Lemma scl_set h v : scl h (Z.land (Z.lor v (IXGBE_I2C_DATA_OUT_BY_MAC h))
  (bnot 32 (IXGBE_I2C_DATA_OE_N_EN_BY_MAC h))) = scl h v.
Proof. i2c_mask. Qed.
Lemma sda_clear h v : sda h (Z.land (Z.land v (bnot 32 (IXGBE_I2C_DATA_OUT_BY_MAC h)))
  (bnot 32 (IXGBE_I2C_DATA_OE_N_EN_BY_MAC h))) = false.
Proof. i2c_mask. Qed.
Lemma scl_clear h v : scl h (Z.land (Z.land v (bnot 32 (IXGBE_I2C_DATA_OUT_BY_MAC h)))
  (bnot 32 (IXGBE_I2C_DATA_OE_N_EN_BY_MAC h))) = scl h v.
Proof. i2c_mask. Qed.
Lemma sda_out h v : sda h (Z.lor v (IXGBE_I2C_DATA_OUT_BY_MAC h)) = true.
Proof. i2c_mask. Qed.
Lemma scl_out h v : scl h (Z.lor v (IXGBE_I2C_DATA_OUT_BY_MAC h)) = scl h v.
Proof. i2c_mask. Qed.
Lemma sda_oe h v : sda h v = true -> sda h (Z.lor v (IXGBE_I2C_DATA_OE_N_EN_BY_MAC h)) = true.
Proof. i2c_mask; by intros ->. Qed.
Lemma scl_oe h v : scl h (Z.lor v (IXGBE_I2C_DATA_OE_N_EN_BY_MAC h)) = scl h v.
Proof. i2c_mask. Qed.
Lemma sda_bb h v : sda h (Z.lor v (IXGBE_I2C_BB_EN_BY_MAC h)) = sda h v.
Proof. i2c_mask. Qed.
Lemma scl_bb h v : scl h (Z.lor v (IXGBE_I2C_BB_EN_BY_MAC h)) = scl h v.
Proof. i2c_mask. Qed.
Lemma data_in_oe h v : has (Z.lor v (IXGBE_I2C_DATA_OE_N_EN_BY_MAC h)) (IXGBE_I2C_DATA_IN_BY_MAC h) =
  has v (IXGBE_I2C_DATA_IN_BY_MAC h).
Proof. i2c_mask. Qed.
Definition stop_value h v : Z :=
  Z.lor (Z.land v (bnot 32 (IXGBE_I2C_BB_EN_BY_MAC h)))
    (Z.lor (IXGBE_I2C_DATA_OE_N_EN_BY_MAC h) (IXGBE_I2C_CLK_OE_N_EN_BY_MAC h)).
Lemma scl_stop h v : scl h v = true -> scl h (stop_value h v) = true.
Proof. unfold stop_value. i2c_mask; by intros ->. Qed.
Lemma sda_stop h v : sda h v = true -> sda h (stop_value h v) = true.
Proof. unfold stop_value. i2c_mask; by intros ->. Qed.
End Masks.

(** ** The master speaks the protocol *)
Section Run.
Context `{D : Mmio} {S : I2cSlave} (h : ixgbe_hw) `{B : !I2cBus D S h}.
Context (mapped : hw_addr h = true).
Context (no_sgmii : has (nw_mng_if_sel (phy h)) IXGBE_NW_MNG_IF_SEL_SGMII_ENABLE = false).
Implicit Types (s : slave) (c d : bool) (w : world).

(** the master drives SCL to [c] and SDA to [d], the device is in state [s] *)
Record bus (c d : bool) (s : slave) (w : world) : Prop := mk_bus {
  b_hw : w_hw w = h;
  b_scl : scl h (pins (w_dev w)) = c;
  b_sda : sda h (pins (w_dev w)) = d;
  b_slave : on_bus (w_dev w) = s;
}.
(** a value of [i2cctl] that drives the lines like the register *)
Definition agrees (c d : bool) (v : Z) : Prop := scl h v = c /\ sda h v = d.

Lemma healthy v : in_range 31 v ->
  u32 v = v /\ (v =? IXGBE_FAILED_READ_REG) = false /\ (v =? IXGBE_DEAD_READ_REG) = false.
Proof.
  unfold in_range. intros Hv. split; [apply trunc_small; unfold in_range; lia|].
  unfold IXGBE_FAILED_READ_REG, IXGBE_DEAD_READ_REG. lia.
Qed.

Lemma wp_read_healthy r w (Q : Z -> world -> Prop) : w_hw w = h ->
  (forall v dv, dev_read (w_dev w) r = (v, dv) -> in_range 31 v /\
     forall l, Q v (mk_world _ h dv l)) -> wp (IXGBE_READ_REG r) Q w.
Proof using mapped no_sgmii.
  intros Eh HQ. unfold IXGBE_READ_REG, ixgbe_read_reg. wp_step. apply wp_get_hw. rewrite Eh, mapped, no_sgmii.
  cbn [negb IXGBE_REMOVED]. unfold ixgbe_read_reg_writes_completed. wp_step. apply wp_readl. intros v dv E.
  destruct (HQ v dv E) as [Hv HQ']. destruct (healthy v Hv) as (-> & E1 & E2). rewrite E1. wp_step. wp_step. rewrite E2.
  wp_step. rewrite Eh. apply HQ'.
Qed.

Lemma wp_rd c d s w (Q : Z -> world -> Prop) : bus c d s w ->
  (forall v w', bus c d s w' -> agrees c d v -> has v (IXGBE_I2C_CLK_IN_BY_MAC h) = c ->
     has v (IXGBE_I2C_DATA_IN_BY_MAC h) = d && s_sda s -> Q v w') ->
  wp (IXGBE_READ_REG (IXGBE_I2CCTL_BY_MAC h)) Q w.
Proof using mapped no_sgmii.
  intros [Eh <- <- <-] HQ. apply wp_read_healthy; [done|]. intros v dv E.
  destruct (i2c_read _ _ _ E) as (Hv & H1 & H2 & H3 & H4 & H5 & H6). split; [done|]. intros l.
  apply HQ; [|by split|done|done]. by split; cbn; rewrite ?H5, ?H6.
Qed.
Lemma wp_wr c d s w v (Q : unit -> world -> Prop) : bus c d s w ->
  (forall w', bus (scl h v) (sda h v) (drive c d (scl h v) (sda h v) s) w' -> Q tt w') ->
  wp (IXGBE_WRITE_REG (IXGBE_I2CCTL_BY_MAC h) v) Q w.
Proof using mapped.
  intros [Eh <- <- <-] HQ. unfold IXGBE_WRITE_REG. wp_step. apply wp_get_hw. rewrite Eh, mapped. cbn [negb IXGBE_REMOVED].
  apply wp_writel, HQ. destruct (i2c_write (w_dev w) (u32 v)) as (H1 & H2 & H3).
  rewrite scl_u32 in H1. rewrite sda_u32 in H2. rewrite scl_u32, sda_u32 in H3. by split.
Qed.
Lemma wp_fl c d s w (Q : unit -> world -> Prop) : bus c d s w ->
  (forall w', bus c d s w' -> Q tt w') -> wp IXGBE_WRITE_FLUSH Q w.
Proof using mapped no_sgmii.
  intros [Eh <- <- <-] HQ. unfold IXGBE_WRITE_FLUSH. wp_step. apply wp_read_healthy; [done|]. intros v dv E.
  destruct (i2c_status _ _ _ E) as (Hv & H1 & H2). split; [done|]. intros l. wp_step. apply HQ.
  by split; cbn; rewrite ?H1, ?H2.
Qed.
Lemma wp_dl c d s w us (Q : unit -> world -> Prop) : bus c d s w ->
  (forall w', bus c d s w' -> Q tt w') -> wp (usec_delay us) Q w.
Proof using.
  intros [Eh <- <- <-] HQ. unfold usec_delay. apply wp_udelay, HQ.
  destruct (i2c_delay (w_dev w) us) as [H1 H2]. by split; cbn; rewrite ?H1, ?H2.
Qed.
Lemma wp_hw c d s w (Q : ixgbe_hw -> world -> Prop) : bus c d s w -> Q h w -> wp get_hw Q w.
Proof using. intros [Eh _ _ _] HQ. apply wp_get_hw. by rewrite Eh. Qed.

(** one access under [bus]; [Hb] names the fact about the current world *)
Ltac i2c_op Hb :=
  lazymatch goal with
  | |- wp (mbind _ _) _ _ => apply wp_bind; i2c_op Hb
  | |- wp get_hw _ _ => eapply wp_hw; [exact Hb|]
  | |- wp (usec_delay _) _ _ => eapply wp_dl; [exact Hb|]; clear dependent Hb; intros ? Hb
  | |- wp IXGBE_WRITE_FLUSH _ _ => eapply wp_fl; [exact Hb|]; clear dependent Hb; intros ? Hb
  | |- wp (IXGBE_WRITE_REG _ _) _ _ => eapply wp_wr; [exact Hb|]; clear dependent Hb; intros ? Hb
  | |- wp (mret _) _ _ => apply wp_ret
  end; cbv beta.

(** ** The lines *)
Lemma wp_raise c d s w v (Q : Z -> world -> Prop) : bus c d s w -> agrees c d v ->
  (forall v' w', agrees true d v' -> bus true d (if c then s else s_rise (d && s_sda s) s) w' -> Q v' w') ->
  wp (ixgbe_raise_i2c_clk v) Q w.
Proof using mapped no_sgmii.
  intros Hb [Hc Hd] HQ. unfold ixgbe_raise_i2c_clk. i2c_op Hb. cbv zeta.
  set (s' := if c then s else s_rise (d && s_sda s) s) in *.
  assert (Hloop : forall v0 c0 s0 w0, agrees c0 d v0 -> bus c0 d s0 w0 -> (if c0 then s0 else s_rise (d && s_sda s0) s0) = s' ->
    wp (r ← for_break (Z.to_nat IXGBE_I2C_CLOCK_STRETCHING_TIMEOUT) 0 v0 (fun _ i2cctl =>
        let i2cctl := Z.lor i2cctl (IXGBE_I2C_CLK_OUT_BY_MAC h) in
        IXGBE_WRITE_REG (IXGBE_I2CCTL_BY_MAC h) i2cctl ;;
        IXGBE_WRITE_FLUSH ;;
        usec_delay IXGBE_I2C_T_RISE ;;
        i2cctl_r ← IXGBE_READ_REG (IXGBE_I2CCTL_BY_MAC h);
        if has i2cctl_r (IXGBE_I2C_CLK_IN_BY_MAC h) then mret (inr i2cctl) else mret (inl i2cctl));
      mret (match r with inl v => v | inr v => v end)) Q w0).
  { intros v0 c0 s0 w0 [Hc0 Hd0] Hb0 Es. wp_step. change (Z.to_nat IXGBE_I2C_CLOCK_STRETCHING_TIMEOUT) with (Datatypes.S 499).
    rewrite for_break_S. wp_step. cbv zeta. i2c_op Hb0. rewrite scl_raise, sda_raise, Hd0 in Hb0.
    do 2 i2c_op Hb0. wp_step. eapply wp_rd; [exact Hb0|]. intros r w1 Hb1 _ -> _. do 3 wp_step.
    apply HQ; [split; [apply scl_raise|by rewrite sda_raise]|].
    unfold drive in Hb1. subst s'. rewrite <- Es. destruct c0; [|done].
    unfold data_edge in Hb1. rewrite andb_negb_r, andb_comm, andb_negb_r in Hb1. by destruct (negb (s_sda s0)). }
  destruct (negb (IXGBE_I2C_CLK_OE_N_EN_BY_MAC h =? 0)) eqn:Eoe.
  - wp_step. i2c_op Hb. rewrite (scl_raise_oe _ _ Eoe), sda_raise_oe, Hd in Hb. wp_step.
    apply (Hloop _ true (drive c d true d s)); [|done|].
    + split; [by apply scl_raise_oe|by rewrite sda_raise_oe].
    + subst s'. unfold drive. destruct c; [|done].
      unfold data_edge. rewrite andb_negb_r, andb_comm, andb_negb_r. by destruct (negb (s_sda s)).
  - wp_step. wp_step. by apply (Hloop _ c s).
Qed.

Lemma wp_lower d s w v (Q : Z -> world -> Prop) : bus true d s w -> agrees true d v ->
  (forall v' w', agrees false d v' -> bus false d (s_fall s) w' -> Q v' w') ->
  wp (ixgbe_lower_i2c_clk v) Q w.
Proof using mapped no_sgmii.
  intros Hb [Hc Hd] HQ. unfold ixgbe_lower_i2c_clk. i2c_op Hb. cbv zeta. i2c_op Hb.
  rewrite scl_lower, sda_lower, Hd in Hb. do 3 i2c_op Hb. apply HQ; [|exact Hb].
  split; [apply scl_lower|by rewrite sda_lower].
Qed.

Lemma wp_get_data c s w v (Q : bool * Z -> world -> Prop) : bus c true s w -> agrees c true v ->
  (forall v' w', agrees c true v' -> bus c true s w' -> Q (has v (IXGBE_I2C_DATA_IN_BY_MAC h), v') w') ->
  wp (ixgbe_get_i2c_data v) Q w.
Proof using mapped no_sgmii.
  intros Hb [Hc Hd] HQ. unfold ixgbe_get_i2c_data. i2c_op Hb. cbv zeta.
  destruct (negb _) eqn:Eoe.
  - wp_step. i2c_op Hb. rewrite scl_oe, sda_oe, Hc in Hb by done.
    assert (Es : drive c true c true s = s) by (unfold drive, data_edge; cbn; by destruct c, (s_sda s)).
    rewrite Es in Hb. do 4 i2c_op Hb. rewrite data_in_oe. apply HQ; [|exact Hb].
    split; [by rewrite scl_oe|by apply sda_oe].
  - do 3 wp_step. by apply HQ.
Qed.

(** the state after SDA was driven to [d'] *)
Definition sda_to (c d d' : bool) (s : slave) : slave := if c then data_edge d d' s else s.
Lemma drive_sda c d d' s : drive c d c d' s = sda_to c d d' s.
Proof using. by destruct c. Qed.

Lemma wp_set_data c d s w v d' (Q : Z * Z -> world -> Prop) : bus c d s w -> agrees c d v ->
  (forall v' w', let s' := sda_to c d d' s in agrees c d' v' -> bus c d' s' w' ->
     Q (if d' && negb (s_sda s') then IXGBE_ERR_I2C else IXGBE_SUCCESS, v') w') ->
  wp (ixgbe_set_i2c_data v d') Q w.
Proof using mapped no_sgmii.
  intros Hb [Hc Hd] HQ. unfold ixgbe_set_i2c_data. i2c_op Hb. cbv zeta.
  destruct d'; cbn [negb].
  - i2c_op Hb. rewrite scl_set, sda_set, Hc, drive_sda in Hb. do 2 i2c_op Hb.
    set (s1 := sda_to c d true s) in *. fold s1 in HQ. set (v1 := Z.land (Z.lor v _) _).
    assert (Hv1 : agrees c true v1) by (split; subst v1; rewrite ?scl_set, ?sda_set; done).
    assert (Hrest : forall w0, bus c true s1 w0 ->
      wp (i2cctl ← IXGBE_READ_REG (IXGBE_I2CCTL_BY_MAC h);
          r ← ixgbe_get_i2c_data i2cctl;
          let '(bit, i2cctl) := r in
          mret (if negb (Bool.eqb true bit) then IXGBE_ERR_I2C else IXGBE_SUCCESS, i2cctl)) Q w0).
    { intros w0 Hb0. wp_step. eapply wp_rd; [exact Hb0|]. intros r w1 Hb1 Hr _ Hin. wp_step.
      eapply wp_get_data; [exact Hb1|exact Hr|]. intros v' w2 Hv' Hb2. cbv beta. wp_step. rewrite Hin.
      specialize (HQ v' w2 Hv' Hb2). by destruct (s_sda s1). }
    wp_step. destruct (negb _) eqn:Eoe; [|wp_step; by apply Hrest].
    i2c_op Hb. destruct Hv1 as [H1 H2]. rewrite scl_oe, sda_oe, H1 in Hb by done.
    assert (Es : drive c true c true s1 = s1) by (unfold drive, data_edge; cbn; by destruct c, (s_sda s1)).
    rewrite Es in Hb. eapply wp_fl; [exact Hb|]. by apply Hrest.
  - i2c_op Hb. rewrite scl_clear, sda_clear, Hc, drive_sda in Hb. do 3 i2c_op Hb. apply HQ; [|exact Hb].
    split; [by rewrite scl_clear|apply sda_clear].
Qed.

(** before X550 SDA must be high already *)
Definition releasable (d : bool) : Prop := d = true \/ negb (IXGBE_I2C_DATA_OE_N_EN_BY_MAC h =? 0) = true.
Lemma wp_release_sda d s w v (Q : Z -> world -> Prop) : bus false d s w -> agrees false d v -> releasable d ->
  (forall v' w', agrees false true v' -> bus false true s w' -> Q v' w') -> wp (i2c_release_sda v) Q w.
Proof using mapped no_sgmii.
  intros Hb [Hc Hd] Hrel HQ. unfold i2c_release_sda. i2c_op Hb. cbv zeta.
  destruct (negb _) eqn:E; [|destruct Hrel as [-> |?]; [by apply wp_ret, HQ|congruence]].
  set (v1 := Z.lor (Z.lor v _) _). assert (Hv1 : agrees false true v1).
  { split; subst v1; [by rewrite scl_oe, scl_out|by apply sda_oe, sda_out]. }
  i2c_op Hb. destruct (Hv1) as [H1 H2]. rewrite H1, H2 in Hb. cbn in Hb. do 2 i2c_op Hb. by apply HQ.
Qed.

(** ** Conditions and bits *)
Lemma wp_start_from c d s w (Q : unit -> world -> Prop) : bus c d s w ->
  (forall w', bus false false (s_fall (data_edge true false
     (let s1 := sda_to c d true s in if c then s1 else s_rise (s_sda s1) s1))) w' -> Q tt w') ->
  wp ixgbe_i2c_start Q w.
Proof using mapped no_sgmii.
  intros Hb HQ. unfold ixgbe_i2c_start. i2c_op Hb. wp_step. eapply wp_rd; [exact Hb|]. clear dependent w.
  intros v w Hb [Hc Hd] _ _. cbv zeta. wp_step. eapply wp_set_data; [exact Hb|by split; rewrite ?scl_bb, ?sda_bb|].
  clear dependent w. cbv zeta. intros v1 w Hv1 Hb. wp_step. cbn [snd]. eapply wp_raise; [exact Hb|exact Hv1|].
  clear dependent w. intros v2 w Hv2 Hb. cbn [andb] in Hb. i2c_op Hb. wp_step. eapply wp_set_data; [exact Hb|exact Hv2|].
  clear dependent w'. clear Hv1 Hv2. cbv zeta. intros v3 w3 Hv3 Hb. i2c_op Hb. wp_step. cbn [snd].
  eapply wp_lower; [exact Hb|exact Hv3|]. intros v4 w4 _ Hb4. eapply wp_dl; [exact Hb4|]. exact HQ.
Qed.
Lemma wp_start_idle s w (Q : unit -> world -> Prop) : bus true true s w ->
  (forall w', bus false false (p_start_idle s) w' -> Q tt w') -> wp ixgbe_i2c_start Q w.
Proof using mapped no_sgmii.
  intros Hb HQ. eapply wp_start_from; [exact Hb|]. intros w' Hb'. apply HQ. cbn in Hb'. unfold data_edge at 2 in Hb'.
  cbn in Hb'. by destruct (negb (s_sda s)).
Qed.
Lemma wp_start d s w (Q : unit -> world -> Prop) : bus false d s w ->
  (forall w', bus false false (p_start s) w' -> Q tt w') -> wp ixgbe_i2c_start Q w.
Proof using mapped no_sgmii. intros Hb HQ. by eapply wp_start_from; [exact Hb|]. Qed.

Lemma wp_stop d s w (Q : unit -> world -> Prop) : bus false d s w ->
  (forall w', bus true true (p_stop s) w' -> Q tt w') -> wp ixgbe_i2c_stop Q w.
Proof using mapped no_sgmii.
  intros Hb HQ. unfold ixgbe_i2c_stop. i2c_op Hb. wp_step. eapply wp_rd; [exact Hb|]. clear dependent w.
  intros v w Hb Hv _ _. cbv zeta. wp_step. eapply wp_set_data; [exact Hb|exact Hv|]. clear dependent w. cbv zeta.
  intros v1 w Hv1 Hb. wp_step. cbn [snd]. eapply wp_raise; [exact Hb|exact Hv1|]. clear dependent w.
  intros v2 w Hv2 Hb. cbn [andb] in Hb. i2c_op Hb. wp_step. eapply wp_set_data; [exact Hb|exact Hv2|].
  clear dependent w'. cbv zeta. intros v3 w3 [H3 H3'] Hb. cbn [snd]. i2c_op Hb. fold (stop_value h v3).
  change (sda_to true false true (s_rise false (sda_to false d false s))) with (p_stop s) in Hb.
  destruct (_ || _); [|by apply wp_ret, HQ]. i2c_op Hb. rewrite (scl_stop _ _ H3), (sda_stop _ _ H3') in Hb.
  assert (Es : drive true true true true (p_stop s) = p_stop s) by (unfold drive, data_edge; cbn; by destruct (s_sda _)).
  rewrite Es in Hb. eapply wp_fl; [exact Hb|]. exact HQ.
Qed.

Lemma wp_out_bit b d s w (Q : Z -> world -> Prop) : bus false d s w ->
  (forall w', let '(ok, s') := p_out_bit b s in bus false b s' w' ->
     Q (if ok then IXGBE_SUCCESS else IXGBE_ERR_I2C) w') ->
  wp (ixgbe_clock_out_i2c_bit b) Q w.
Proof using mapped no_sgmii.
  intros Hb HQ. unfold ixgbe_clock_out_i2c_bit. i2c_op Hb. wp_step. eapply wp_rd; [exact Hb|]. clear dependent w.
  intros v w Hb Hv _ _. wp_step. eapply wp_set_data; [exact Hb|exact Hv|]. clear dependent w. cbv zeta.
  intros v1 w Hv1 Hb. cbn [sda_to] in Hb |- *. unfold p_out_bit in HQ. destruct (b && negb (s_sda s)) eqn:E.
  - cbv iota. change (IXGBE_ERR_I2C =? IXGBE_SUCCESS) with false. cbv iota. wp_step. by apply HQ.
  - cbv iota. change (IXGBE_SUCCESS =? IXGBE_SUCCESS) with true. cbv iota. wp_step. eapply wp_raise; [exact Hb|exact Hv1|]. clear dependent w.
    intros v2 w Hv2 Hb. i2c_op Hb. wp_step. eapply wp_lower; [exact Hb|exact Hv2|]. intros v3 w3 _ Hb3. i2c_op Hb3. wp_step.
    apply HQ. destruct b; [|exact Hb3]. apply negb_false_iff in E. rewrite E in Hb3. exact Hb3.
Qed.

Lemma wp_in_bit d s w (Q : bool -> world -> Prop) : bus false d s w -> releasable d ->
  (forall w', let '(b, s') := p_in_bit s in bus false true s' w' -> Q b w') ->
  wp ixgbe_clock_in_i2c_bit Q w.
Proof using mapped no_sgmii.
  intros Hb Hrel HQ. unfold ixgbe_clock_in_i2c_bit. i2c_op Hb. wp_step. eapply wp_rd; [exact Hb|]. clear dependent w.
  intros v w Hb Hv _ _. wp_step. eapply wp_release_sda; [exact Hb|exact Hv|exact Hrel|]. clear dependent w. intros v1 w Hv1 Hb.
  wp_step. eapply wp_raise; [exact Hb|exact Hv1|]. clear dependent w. intros v2 w Hv2 Hb. cbn [andb] in Hb. i2c_op Hb.
  wp_step. eapply wp_rd; [exact Hb|]. clear dependent w'. intros v3 w3 Hb Hv3 _ Hin. cbn [andb] in Hin. wp_step.
  eapply wp_get_data; [exact Hb|exact Hv3|]. clear dependent w3. intros v4 w4 Hv4 Hb. rewrite Hin. wp_step.
  eapply wp_lower; [exact Hb|exact Hv4|]. intros v5 w5 _ Hb5. i2c_op Hb5. wp_step. by apply HQ.
Qed.

(** ** Bytes *)
Lemma wp_get_ack s w (Q : Z -> world -> Prop) : bus false true s w ->
  (forall w', let '(nack, s') := p_in_bit s in bus false true s' w' ->
     Q (if nack then IXGBE_ERR_I2C else IXGBE_SUCCESS) w') ->
  wp ixgbe_get_i2c_ack Q w.
Proof using mapped no_sgmii.
  intros Hb HQ. unfold ixgbe_get_i2c_ack. i2c_op Hb. wp_step. eapply wp_rd; [exact Hb|]. clear dependent w.
  intros v w Hb Hv _ _. wp_step. eapply wp_release_sda; [exact Hb|exact Hv|by left|]. clear dependent w. intros v1 w Hv1 Hb.
  wp_step. eapply wp_raise; [exact Hb|exact Hv1|]. clear dependent w. intros v2 w Hv2 Hb. cbn [andb] in Hb. i2c_op Hb.
  unfold p_in_bit in HQ. set (s1 := s_rise (s_sda s) s) in *. wp_step. eapply wp_mono.
  { apply wp_for_break with
      (Inv := fun k (x : bool * Z) w => bus true true s1 w /\ agrees true true x.2 /\ (k = 0 \/ x.1 = s_sda s1))
      (Q := fun r w => let x := match r with inl x => x | inr x => x end in
              bus true true s1 w /\ agrees true true x.2 /\ x.1 = s_sda s1).
    - split; [exact Hb|]. split; [exact Hv2|by left].
    - intros k x w1 _ (Hb1 & _ & _). wp_step. eapply wp_rd; [exact Hb1|]. intros r w2 Hb2 Hr _ Hin. cbn [andb] in Hin.
      wp_step. eapply wp_get_data; [exact Hb2|exact Hr|]. intros v3 w3 Hv3 Hb3. rewrite Hin. i2c_op Hb3. cbn [fst].
      destruct (negb _); wp_step; (split; [exact Hb3|]); [by split|]. split; [exact Hv3|by right].
    - intros x w1 (Hb1 & Hx & [Hk|Hk]); [discriminate|]. by split. }
  cbv beta zeta. clear dependent w'. intros r w1 (Hb & Hx & Ex). destruct (match r with inl x => x | inr x => x end) as [ack v3].
  cbn [fst snd] in *. subst ack. wp_step. eapply wp_lower; [exact Hb|exact Hx|]. intros v4 w4 _ Hb4. i2c_op Hb4. wp_step. by apply HQ.
Qed.

Lemma wp_out_bits x n k d s w (Q : unit + Z -> world -> Prop) : bus false d s w ->
  (forall w' d', let '(ok, s') := p_out_bits (map (fun i => Z.testbit x (7 - i)) (seqZ k (Z.of_nat n))) s in
     bus false d' s' w' -> Q (if ok then inl tt else inr IXGBE_ERR_I2C) w') ->
  wp (for_break n k tt (fun k _ =>
        status ← ixgbe_clock_out_i2c_bit (Z.testbit x (7 - k));
        if negb (status =? IXGBE_SUCCESS) then mret (inr status) else mret (inl tt))) Q w.
Proof using mapped no_sgmii.
  revert k d s w. induction n as [|n IH]; intros k d s w Hb HQ; [by apply wp_ret, (HQ w d)|].
  rewrite for_break_S. do 2 wp_step. eapply wp_out_bit; [exact Hb|]. intros w'. rewrite seqZ_cons in HQ by lia.
  replace (Z.pred (Z.of_nat (Datatypes.S n))) with (Z.of_nat n) in HQ by lia. cbn [map p_out_bits] in HQ.
  destruct (p_out_bit _ s) as [[] s'].
  - intros Hb'. cbv iota. change (negb (IXGBE_SUCCESS =? IXGBE_SUCCESS)) with false. cbv iota. wp_step.
    eapply IH; [exact Hb'|]. intros w2 d2. rewrite Z.add_1_r. apply HQ.
  - intros Hb'. cbv iota. change (negb (IXGBE_ERR_I2C =? IXGBE_SUCCESS)) with true. cbv iota. do 2 wp_step. by eapply HQ.
Qed.

Lemma wp_clock_out_byte x d s w (Q : Z -> world -> Prop) : bus false d s w ->
  (forall w', let '(ok, s') := p_out_bits (byte_bits x) s in bus false true s' w' ->
     Q (if ok then IXGBE_SUCCESS else IXGBE_ERR_I2C) w') ->
  wp (ixgbe_clock_out_i2c_byte x) Q w.
Proof using mapped no_sgmii.
  intros Hb HQ. unfold ixgbe_clock_out_i2c_byte. wp_step. eapply wp_out_bits; [exact Hb|]. clear dependent w.
  intros w d'. fold (byte_bits x). unfold byte_bits in HQ. change (Z.of_nat 8) with 8.
  destruct (p_out_bits _ s) as [ok s']. intros Hb. i2c_op Hb. wp_step. eapply wp_rd; [exact Hb|]. clear dependent w.
  intros v w Hb [Hc Hd] _ _. cbv zeta. i2c_op Hb. rewrite scl_oe, scl_out, sda_oe, Hc in Hb by apply sda_out.
  cbn in Hb. do 2 i2c_op Hb. destruct ok; by apply HQ.
Qed.

(** a byte and its acknowledgement *)
Lemma wp_out_byte x d s w (Q : Z -> world -> Prop) : bus false d s w ->
  (forall w', let '(ok, s') := p_out_byte x s in bus false true s' w' ->
     Q (if ok then IXGBE_SUCCESS else IXGBE_ERR_I2C) w') ->
  wp (ixgbe_out_i2c_byte_ack x) Q w.
Proof using mapped no_sgmii.
  intros Hb HQ. unfold ixgbe_out_i2c_byte_ack. apply wp_ok_then. eapply wp_clock_out_byte; [exact Hb|].
  intros w'. unfold p_out_byte in HQ. destruct (p_out_bits _ s) as [[] s']; intros Hb'.
  - cbn [Z.eqb IXGBE_SUCCESS]. eapply wp_get_ack; [exact Hb'|]. intros w2. destruct (p_in_bit s') as [nack s2].
    intros Hb2. specialize (HQ w2 Hb2). by destruct nack.
  - by apply HQ.
Qed.

Lemma wp_ok_assoc (a b k : M Z) (Q : Z -> world -> Prop) w :
  wp ((a ?; b) ?; k) Q w -> wp (a ?; b ?; k) Q w.
Proof using.
  intros H. unfold ok_then in *. unfold wp, mbind, comp_bind in *. destruct (a w) as [e w1|]; [|done].
  destruct (negb (e =? 0)) eqn:E; [|done]. unfold mret, comp_ret in *. by rewrite E in H.
Qed.
Lemma wp_send x l d s w (k : M Z) (Q : Z -> world -> Prop) : bus false d s w ->
  (forall w', let '(ok, s') := p_out_byte x s in bus false true s' w' ->
     if ok : bool then wp k Q w' else Q IXGBE_ERR_I2C w') ->
  l = x -> wp (ixgbe_out_i2c_byte_ack l ?; k) Q w.
Proof using mapped no_sgmii.
  intros Hb HQ ->. apply wp_ok_then. eapply wp_out_byte; [exact Hb|]. intros w'. specialize (HQ w').
  destruct (p_out_byte x s) as [ok s']. intros Hb'. specialize (HQ Hb'). by destruct ok.
Qed.

Lemma shiftl_in_bit a b n : 0 <= n ->
  Z.lor (Z.shiftl a (n + 1)) (Z.shiftl (Z.b2z b) n) = Z.shiftl (2 * a + Z.b2z b) n.
Proof using.
  intros Hn. replace (Z.shiftl a (n + 1)) with (Z.shiftl (2 * a) n).
  2: { rewrite !Z.shiftl_mul_pow2, Z.pow_add_r by lia. lia. }
  rewrite <- Z.shiftl_lor. f_equal. destruct b; cbn [Z.b2z]; [|by rewrite Z.lor_0_r, Z.add_0_r].
  apply Z.bits_inj'. intros i Hi. rewrite Z.lor_spec. destruct (Z.eq_dec i 0) as [-> |].
  - by rewrite Z.testbit_even_0, Z.testbit_odd_0.
  - replace i with (Z.succ (i - 1)) by lia. rewrite Z.testbit_even_succ, Z.testbit_odd_succ by lia.
    change 1 with (2 * 0 + 1) at 2. rewrite Z.testbit_odd_succ, Z.bits_0 by lia. apply orb_false_r.
Qed.

Lemma wp_in_bits n d acc s w (Q : Z -> world -> Prop) : (n <= 8)%nat -> bus false d s w -> releasable d ->
  (forall w', let '(x, s') := p_in_bits n acc s in
     bus false (match n with O => d | _ => true end) s' w' -> Q x w') ->
  wp (for_acc n (8 - Z.of_nat n) (Z.shiftl acc (Z.of_nat n)) (fun k data =>
        bit ← ixgbe_clock_in_i2c_bit; mret (Z.lor data (Z.shiftl (Z.b2z bit) (7 - k))))) Q w.
Proof using mapped no_sgmii.
  revert d acc s w. induction n as [|n IH]; intros d acc s w Hn Hb Hd HQ.
  - rewrite Z.shiftl_0_r. apply wp_ret. by apply HQ.
  - change (for_acc (Datatypes.S n)) with (fun i (a : Z) body => a' ← body i a; for_acc (S := world) n (i + 1) a' body).
    cbv beta. do 2 wp_step. eapply wp_in_bit; [exact Hb|exact Hd|]. intros w'. cbn [p_in_bits] in HQ.
    destruct (p_in_bit s) as [b s']. intros Hb'. wp_step.
    replace (7 - (8 - Z.of_nat (Datatypes.S n))) with (Z.of_nat n) by lia.
    replace (Z.of_nat (Datatypes.S n)) with (Z.of_nat n + 1) by lia. rewrite shiftl_in_bit by lia.
    replace (8 - (Z.of_nat n + 1) + 1) with (8 - Z.of_nat n) by lia.
    eapply IH; [lia|exact Hb'|by left|]. intros w2. specialize (HQ w2).
    destruct (p_in_bits n _ s') as [x s2] eqn:Ep. intros Hb2. apply HQ. by destruct n.
Qed.
Lemma wp_in_byte d s w (Q : Z -> world -> Prop) : bus false d s w -> releasable d ->
  (forall w', let '(x, s') := p_in_byte s in bus false true s' w' -> Q x w') ->
  wp ixgbe_clock_in_i2c_byte Q w.
Proof using mapped no_sgmii. intros Hb Hd HQ. by apply (wp_in_bits 8 d 0 s); [lia|..]. Qed.

(** ** Transfers *)
Lemma wp_bus_clear d s w (Q : unit -> world -> Prop) : bus false d s w ->
  (forall w', bus true true (p_clear s) w' -> Q tt w') -> wp ixgbe_i2c_bus_clear Q w.
Proof using mapped no_sgmii.
  intros Hb HQ. unfold ixgbe_i2c_bus_clear. i2c_op Hb. wp_step. eapply wp_start; [exact Hb|]. clear dependent w. intros w Hb.
  wp_step. eapply wp_rd; [exact Hb|]. clear dependent w. intros v w Hb Hv _ _. wp_step.
  eapply wp_set_data; [exact Hb|exact Hv|]. clear dependent w. cbv zeta. cbn [sda_to snd]. intros v1 w Hv1 Hb. wp_step.
  eapply wp_mono.
  { apply wp_for_acc with (Inv := fun k v w => agrees false true v /\
      bus false true (Nat.iter (Z.to_nat k) (fun s => s_fall (s_rise (s_sda s) s)) (p_start s)) w).
    - by split.
    - intros k v2 w2 Hk [Hv2 Hb2]. wp_step. eapply wp_raise; [exact Hb2|exact Hv2|]. clear dependent w2.
      intros v3 w3 Hv3 Hb3. cbn [andb] in Hb3. i2c_op Hb3. wp_step. eapply wp_lower; [exact Hb3|exact Hv3|].
      intros v4 w4 Hv4 Hb4. i2c_op Hb4. wp_step. split; [exact Hv4|]. by rewrite Z2Nat.inj_add by lia; rewrite Nat.add_comm. }
  cbv beta. clear dependent w. intros v2 w [_ Hb]. wp_step. eapply wp_start; [exact Hb|]. clear dependent w. intros w Hb.
  by eapply wp_stop; [exact Hb|].
Qed.


(** a byte sent and acknowledged: the case of an error is left to [H0] *)
Ltac send_byte Hb H1 H0 :=
  first [apply wp_ok_assoc; lazymatch goal with |- context [ixgbe_clock_out_i2c_byte ?x ?; ixgbe_get_i2c_ack] =>
           fold (ixgbe_out_i2c_byte_ack x) end | idtac];
  eapply wp_send; [exact Hb| |reflexivity];
  let w' := fresh "w" in intros w'; revert H1 H0;
  match goal with |- context [p_out_byte ?x ?s] => destruct (p_out_byte x s) as [[] ?] end;
  intros H1 H0; clear Hb; intros Hb; [|by eapply H0].

Lemma wp_read_frame off addr data s w (Q : Z * Z -> world -> Prop) : bus true true s w ->
  (forall w' d x s', p_read addr off s = (Some x, p_stop s') -> bus false d s' w' -> Q (IXGBE_SUCCESS, x) w') ->
  (forall w' d x s', p_read addr off s = (None, p_clear s') -> bus false d s' w' -> Q (IXGBE_ERR_I2C, x) w') ->
  wp (i2c_read_frame off addr data) Q w.
Proof using mapped no_sgmii.
  unfold p_read, p_send. intros Hb H1 H0. unfold i2c_read_frame. wp_step. eapply wp_start_idle; [exact Hb|]. clear dependent w.
  intros w Hb. wp_step. send_byte Hb H1 H0. send_byte Hb H1 H0. wp_step.
  eapply wp_start; [exact Hb|]. clear Hb. intros w2 Hb. fold (ixgbe_out_i2c_byte_ack (Z.lor addr 1)).
  eapply wp_out_byte; [exact Hb|]. intros w3. revert H1 H0. destruct (p_out_byte _ _) as [[] s3]; intros H1 H0; clear Hb; intros Hb.
  - change (negb (IXGBE_SUCCESS =? IXGBE_SUCCESS)) with false. cbv iota. wp_step. eapply wp_in_byte; [exact Hb|by left|].
    intros w4. revert H1 H0. destruct (p_in_byte s3) as [x s4]. intros H1 H0. clear Hb. intros Hb. wp_step.
    eapply wp_out_bit; [exact Hb|]. intros w5. revert H1 H0. destruct (p_out_bit true s4) as [[] s5]; intros H1 H0 Hb5; wp_step.
    + by eapply H1.
    + by eapply H0.
  - change (negb (IXGBE_ERR_I2C =? IXGBE_SUCCESS)) with true. cbv iota. wp_step. by eapply H0.
Qed.

Lemma wp_write_frame off addr x s w (Q : Z -> world -> Prop) : bus true true s w ->
  (forall w' d s', p_write addr off x s = (true, p_stop s') -> bus false d s' w' -> Q IXGBE_SUCCESS w') ->
  (forall w' d s', p_write addr off x s = (false, p_clear s') -> bus false d s' w' -> Q IXGBE_ERR_I2C w') ->
  wp (i2c_write_frame off addr x) Q w.
Proof using mapped no_sgmii.
  unfold p_write, p_send. intros Hb H1 H0. unfold i2c_write_frame. wp_step. eapply wp_start_idle; [exact Hb|]. clear dependent w.
  intros w Hb. send_byte Hb H1 H0. send_byte Hb H1 H0. fold (ixgbe_out_i2c_byte_ack x).
  eapply wp_out_byte; [exact Hb|]. intros w3. revert H1 H0. destruct (p_out_byte _ _) as [[] s3]; intros H1 H0 Hb3;
    [by eapply H1|by eapply H0].
Qed.

Lemma wp_in_byte_ack d s w (Q : Z * Z -> world -> Prop) : bus false d s w -> releasable d ->
  (forall w' x, let '(o, s') := p_in_byte_ack s in bus false false s' w' ->
     Q (match o with Some x => (IXGBE_SUCCESS, x) | None => (IXGBE_ERR_I2C, x) end) w') ->
  wp ixgbe_in_i2c_byte_ack Q w.
Proof using mapped no_sgmii.
  intros Hb Hd HQ. unfold ixgbe_in_i2c_byte_ack. wp_step. eapply wp_in_byte; [exact Hb|exact Hd|]. unfold p_in_byte_ack in HQ.
  intros w1. destruct (p_in_byte s) as [x s1]. intros Hb1. wp_step. eapply wp_out_bit; [exact Hb1|]. intros w2.
  specialize (HQ w2 x). destruct (p_out_bit false s1) as [[] s2]; intros Hb2; wp_step; by apply HQ.
Qed.

Lemma wp_read_combined_frame addr hi reg csum s w (Q : Z * (Z * Z) -> world -> Prop) : bus true true s w ->
  negb (IXGBE_I2C_DATA_OE_N_EN_BY_MAC h =? 0) = true ->
  (forall w' d x y s', p_read_combined addr hi (Z.land reg 0xFF) csum s = (Some (Z.lor (Z.shiftl x 8) y), p_stop s') ->
     bus false d s' w' -> Q (0, (x, y)) w') ->
  (forall w' d r s', p_read_combined addr hi (Z.land reg 0xFF) csum s = (None, p_clear s') ->
     bus false d s' w' -> Q (IXGBE_ERR_I2C, r) w') ->
  wp (i2c_read_combined_frame addr hi reg csum) Q w.
Proof using mapped no_sgmii.
  unfold p_read_combined, p_send. intros Hb Hoe H1 H0. unfold i2c_read_combined_frame. wp_step.
  eapply wp_start_idle; [exact Hb|]. clear dependent w. intros w Hb. wp_step. do 4 send_byte Hb H1 H0. wp_step.
  eapply wp_start; [exact Hb|]. clear Hb. intros w5 Hb. eapply wp_out_byte; [exact Hb|]. intros w6. revert H1 H0.
  destruct (p_out_byte _ _) as [[] s6]; intros H1 H0; clear Hb; intros Hb.
  2: { change (negb (IXGBE_ERR_I2C =? 0)) with true. cbv iota. wp_step. by eapply H0. }
  change (negb (IXGBE_SUCCESS =? 0)) with false. cbv iota. wp_step. eapply wp_in_byte_ack; [exact Hb|by left|]. intros w7 z7.
  revert H1 H0. destruct (p_in_byte_ack s6) as [[x|] s7]; intros H1 H0; clear Hb; intros Hb.
  2: { cbv beta iota. change (negb (IXGBE_ERR_I2C =? 0)) with true. cbv iota. wp_step. by eapply H0. }
  cbv beta iota. change (negb (IXGBE_SUCCESS =? 0)) with false. cbv iota. wp_step. eapply wp_in_byte_ack; [exact Hb|by right|].
  intros w8 z8. revert H1 H0. destruct (p_in_byte_ack s7) as [[y|] s8]; intros H1 H0; clear Hb; intros Hb.
  2: { cbv beta iota. change (negb (IXGBE_ERR_I2C =? 0)) with true. cbv iota. wp_step. by eapply H0. }
  cbv beta iota. change (negb (IXGBE_SUCCESS =? 0)) with false. cbv iota. wp_step. eapply wp_in_byte; [exact Hb|by right|].
  intros w9. unfold p_in_byte_ack in H1, H0. revert H1 H0. destruct (p_in_byte s8) as [c s9]. intros H1 H0. clear Hb. intros Hb.
  wp_step. eapply wp_out_bit; [exact Hb|]. intros w10. revert H1 H0. destruct (p_out_bit false s9) as [[] s10]; intros H1 H0 Hb10; wp_step.
  - by eapply H1.
  - by eapply H0.
Qed.

(** *** With the lock and the retries *)
Section Locks.
Context (acquire : Z -> M Z) (release : Z -> M unit).
Context (acquire_ok : forall m s w, bus true true s w -> wp (acquire m) (fun st w' => st = 0 /\ bus true true s w') w).
Context (release_ok : forall m s w, bus true true s w -> wp (release m) (fun _ w' => bus true true s w') w).

Lemma wp_lock (lock : bool) m s w (Q : Z -> world -> Prop) : bus true true s w ->
  (forall w', bus true true s w' -> Q 0 w') -> wp (if lock then acquire m else mret 0) Q w.
Proof using acquire_ok.
  intros Hb HQ. destruct lock; [|by apply wp_ret, HQ]. eapply wp_mono; [by eapply acquire_ok|]. intros st w' [-> Hb']. by apply HQ.
Qed.
Lemma wp_unlock (lock : bool) m s w (Q : unit -> world -> Prop) : bus true true s w ->
  (forall w', bus true true s w' -> Q tt w') -> wp (unlock release lock m) Q w.
Proof using release_ok.
  intros Hb HQ. unfold unlock. destruct lock; [|by apply wp_ret, HQ].
  eapply wp_mono; [by eapply release_ok|]. intros [] w' Hb'. by apply HQ.
Qed.


(** one attempt of the read with its lock *)
Definition read_attempt (off addr : Z) (lock : bool) (m : Z) (acc : Z * Z) : M ((Z * Z) + (Z * Z)) :=
  locked ← (if lock then acquire m else mret 0);
  if negb (locked =? 0) then mret (inr (IXGBE_ERR_SWFW_SYNC, snd acc))
  else
    r ← i2c_read_frame off addr (snd acc);
    if fst r =? IXGBE_SUCCESS then
      ixgbe_i2c_stop ;; unlock release lock m ;; mret (inr (IXGBE_SUCCESS, snd r))
    else
      ixgbe_i2c_bus_clear ;;
      (if lock then release m ;; msec_delay 100 else mret tt) ;;
      mret (inl r).

Lemma wp_read_attempt off addr lock m acc s w (Q : (Z * Z) + (Z * Z) -> world -> Prop) : bus true true s w ->
  (forall w', match p_read addr off s with
              | (Some x, s') => bus true true s' w' -> Q (inr (IXGBE_SUCCESS, x)) w'
              | (None, s') => forall x, bus true true s' w' -> Q (inl (IXGBE_ERR_I2C, x)) w'
              end) ->
  wp (read_attempt off addr lock m acc) Q w.
Proof using mapped no_sgmii acquire_ok release_ok.
  intros Hb HQ. unfold read_attempt. wp_step. eapply wp_lock; [exact Hb|]. clear dependent w. intros w Hb.
  cbn [Z.eqb negb]. wp_step. eapply wp_read_frame; [exact Hb|..]; clear dependent w; intros w d x s' E Hb;
    rewrite E in HQ; cbn [fst snd].
  - change (IXGBE_SUCCESS =? IXGBE_SUCCESS) with true. cbv iota. wp_step. eapply wp_stop; [exact Hb|]. clear dependent w.
    intros w Hb. wp_step. eapply wp_unlock; [exact Hb|]. intros w' Hb'. wp_step. by apply HQ.
  - change (IXGBE_ERR_I2C =? IXGBE_SUCCESS) with false. cbv iota. wp_step. eapply wp_bus_clear; [exact Hb|].
    clear dependent w. intros w Hb. wp_step. destruct lock; [|do 2 wp_step; by apply HQ].
    wp_step. eapply wp_mono; [by eapply release_ok|]. cbv beta. intros [] w' Hb'. unfold msec_delay.
    eapply (wp_dl _ _ _ w'); [exact Hb'|]. intros w2 Hb2. wp_step. by apply HQ.
Qed.

Lemma wp_read_retry n k off addr lock m acc s w : bus true true s w -> (n = O -> acc.1 = IXGBE_ERR_I2C) ->
  wp (for_break n k acc (fun _ acc => read_attempt off addr lock m acc)) (fun r w' =>
    let '(o, s') := p_read_retry n addr off s in
    bus true true s' w' /\
    let r := match r with inl x => x | inr x => x end in
    match o with Some x => r = (IXGBE_SUCCESS, x) | None => r.1 = IXGBE_ERR_I2C end) w.
Proof using mapped no_sgmii acquire_ok release_ok.
  revert k acc s w. induction n as [|n IH]; intros k acc s w Hb Hacc; [apply wp_ret; split; auto|].
  rewrite for_break_S. wp_step. eapply wp_read_attempt; [exact Hb|]. intros w'. cbn [p_read_retry].
  destruct (p_read addr off s) as [[x|] s'].
  - intros Hb'. wp_step. by split.
  - intros x Hb'. by apply IH.
Qed.

(** how often the read is tried *)
Definition read_attempts (off addr : Z) : nat :=
  if ixgbe_is_sfp_probe h off addr then 3
  else if mac_type_val ixgbe_mac_X550 <=? mac_type_val (mac_type (mac h)) then 4 else 11.

Lemma wp_read_byte off addr lock s w : bus true true s w ->
  wp (ixgbe_read_i2c_byte_generic_int acquire release off addr lock) (fun r w' =>
    let '(o, s') := p_read_retry (read_attempts off addr) addr off s in
    bus true true s' w' /\ match o with Some x => r = (IXGBE_SUCCESS, x) | None => r.1 = IXGBE_ERR_I2C end) w.
Proof using mapped no_sgmii acquire_ok release_ok.
  intros Hb. unfold ixgbe_read_i2c_byte_generic_int. i2c_op Hb. cbv zeta. wp_step.
  match goal with |- wp (for_break (Z.to_nat ?a) _ _ _) _ _ => assert (En : Z.to_nat a = read_attempts off addr) end.
  { unfold read_attempts. destruct (ixgbe_is_sfp_probe h off addr); [done|]. by destruct (_ <=? _). }
  rewrite En. clear En.
  eapply wp_mono; [apply (wp_read_retry (read_attempts off addr) 0 off addr lock _ (0, 0) s w Hb)|].
  - unfold read_attempts. destruct (ixgbe_is_sfp_probe h off addr); [done|]. by destruct (_ <=? _).
  - cbv beta zeta. intros r w'. destruct (p_read_retry _ addr off s) as [o s']. intros [Hb' Hr]. wp_step. by split.
Qed.

Lemma wp_write_byte off addr x lock s w : bus true true s w ->
  wp (ixgbe_write_i2c_byte_generic_int acquire release off addr x lock) (fun st w' =>
    let '(ok, s') := p_write_retry 2 addr off x s in
    bus true true s' w' /\ st = if ok : bool then IXGBE_SUCCESS else IXGBE_ERR_I2C) w.
Proof using mapped no_sgmii acquire_ok release_ok.
  intros Hb. unfold ixgbe_write_i2c_byte_generic_int. i2c_op Hb. cbv zeta. wp_step. eapply wp_lock; [exact Hb|].
  clear dependent w. intros w Hb. change (negb (0 =? IXGBE_SUCCESS)) with false. cbv iota. change (Z.to_nat (1 + 1)) with 2%nat.
  assert (Hloop : forall n k st0 s w, bus true true s w -> (n = O -> st0 = IXGBE_ERR_I2C) ->
    wp (for_break n k st0 (fun _ _ =>
          status ← i2c_write_frame off addr x;
          if status =? IXGBE_SUCCESS then ixgbe_i2c_stop ;; mret (inr tt)
          else ixgbe_i2c_bus_clear ;; mret (inl status))) (fun r w' =>
      let '(ok, s') := p_write_retry n addr off x s in bus true true s' w' /\
      r = if ok : bool then inr tt else inl IXGBE_ERR_I2C) w).
  { clear dependent s w. intros n. induction n as [|n IH]; intros k st0 s w Hb Hst; [apply wp_ret; split; [done|by rewrite Hst]|].
    rewrite for_break_S. do 2 wp_step. cbn [p_write_retry].
    eapply wp_write_frame; [exact Hb|..]; clear dependent w; intros w d s' E Hb; rewrite E.
    - change (IXGBE_SUCCESS =? IXGBE_SUCCESS) with true. cbv iota. wp_step. eapply wp_stop; [exact Hb|]. intros w' Hb'. do 2 wp_step. by split.
    - change (IXGBE_ERR_I2C =? IXGBE_SUCCESS) with false. cbv iota. wp_step. eapply wp_bus_clear; [exact Hb|].
      intros w' Hb'. wp_step. by apply IH. }
  wp_step. eapply wp_mono; [by apply Hloop|]. cbv beta. clear dependent w. intros r w.
  destruct (p_write_retry 2 addr off x s) as [ok s']. intros [Hb ->]. wp_step. eapply wp_unlock; [exact Hb|].
  intros w' Hb'. wp_step. split; [done|]. by destruct ok.
Qed.

Lemma wp_read_combined addr reg lock s w : bus true true s w ->
  negb (IXGBE_I2C_DATA_OE_N_EN_BY_MAC h =? 0) = true ->
  let hi := u8 (Z.lor (Z.land (Z.shiftr reg 7) 0xFE) 1) in
  let csum := bnot 8 (ixgbe_ones_comp_byte_add hi (Z.land reg 0xFF)) in
  wp (ixgbe_read_i2c_combined_generic_int acquire release addr reg lock) (fun r w' =>
    let '(o, s') := p_read_combined_retry 4 addr hi (Z.land reg 0xFF) csum s in
    bus true true s' w' /\
    r = match o with Some x => (0, Some (u16 x)) | None => (IXGBE_ERR_I2C, None) end) w.
Proof using mapped no_sgmii acquire_ok release_ok.
  intros Hb Hoe hi csum. unfold ixgbe_read_i2c_combined_generic_int. i2c_op Hb. cbv zeta. fold hi csum.
  change (Z.to_nat (3 + 1)) with 4%nat. wp_step.
  match goal with |- wp (for_break ?n ?z ?a ?f) ?Q _ => enough (forall k, wp (for_break n k a f) Q w) by auto end.
  generalize 4%nat as n. intros n. revert s w Hb.
  induction n as [|n IH]; intros s w Hb k; [apply wp_ret; wp_step; by split|].
  rewrite for_break_S. do 2 wp_step. eapply wp_lock; [exact Hb|]. clear dependent w. intros w Hb. cbn [Z.eqb negb]. wp_step.
  eapply wp_read_combined_frame; [exact Hb|exact Hoe|..]; clear dependent w.
  - intros w d x y s' E Hb. cbn [p_read_combined_retry]. rewrite E. cbn [Z.eqb]. wp_step. eapply wp_stop; [exact Hb|]. clear dependent w.
    intros w Hb. wp_step. eapply wp_unlock; [exact Hb|]. intros w' Hb'. do 3 wp_step. by split.
  - intros w d [x y] s' E Hb. cbn [p_read_combined_retry]. rewrite E. change (IXGBE_ERR_I2C =? 0) with false. cbv iota.
    wp_step. eapply wp_bus_clear; [exact Hb|]. clear dependent w. intros w Hb. wp_step. eapply wp_unlock; [exact Hb|].
    intros w' Hb'. wp_step. by apply IH.
Qed.
End Locks.
End Run.
