(* ===== verification/I2cProps.v ===== *)
(** * Modules on the I2C bus

    The I2C EEPROM of an SFP or QSFP module (SFF-8472: one byte of offset, the
    offset advances after each byte) as a device on the bus, and what the I2C
    routines do to it. *)
From S2P Require Import Prelude Status Regs Types Osdep I2c I2cBus.

(** ** The module *)
Inductive kind := Address | Offset | Data.
Inductive phase :=
| Ignoring                              (** not addressed *)
| Receiving (k : kind) (l : list bool)  (** the bits so far *)
| Acking (k : kind) (x : Z)             (** holds SDA low for the ninth clock *)
| Sending (l : list bool)               (** the bits left, the present one first *)
| Awaiting                              (** the acknowledgement of the master *)
| Continuing.                           (** the master wants one more byte *)
Record module := mk_module { m_addr : Z; m_mem : list Z; m_ptr : Z; m_phase : phase }.
Definition in_phase (p : phase) (s : module) : module := mk_module (m_addr s) (m_mem s) (m_ptr s) p.
Definition bits_value (l : list bool) : Z := foldl (fun a b => 2 * a + Z.b2z b) 0 l.
Definition next_ptr (p : Z) : Z := (p + 1) mod 256.

Definition send_next (s : module) : module :=
  mk_module (m_addr s) (m_mem s) (next_ptr (m_ptr s)) (Sending (byte_bits (nth (Z.to_nat (m_ptr s)) (m_mem s) 0))).
Definition mod_fall (s : module) : module :=
  match m_phase s with
  | Receiving k l =>
      if bool_decide (length l = 8%nat) then
        let x := bits_value l in
        match k with
        | Address => if Z.shiftr x 1 =? Z.shiftr (m_addr s) 1 then in_phase (Acking Address x) s else in_phase Ignoring s
        | _ => in_phase (Acking k x) s
        end
      else s
  | Acking Address x => if Z.odd x then send_next s else in_phase (Receiving Offset []) s
  | Acking Offset x => mk_module (m_addr s) (m_mem s) x (Receiving Data [])
  | Acking Data x => mk_module (m_addr s) (<[Z.to_nat (m_ptr s) := x]> (m_mem s)) (next_ptr (m_ptr s)) (Receiving Data [])
  | Sending (_ :: b :: l) => in_phase (Sending (b :: l)) s
  | Sending _ => in_phase Awaiting s
  | Continuing => send_next s
  | Ignoring | Awaiting => s
  end.
Definition mod_rise (b : bool) (s : module) : module :=
  match m_phase s with
  | Receiving k l => in_phase (Receiving k (l ++ [b])) s
  | Awaiting => in_phase (if b then Ignoring else Continuing) s
  | _ => s
  end.
#[export] Instance sfp_module : I2cSlave := {
  slave := module;
  s_sda s := match m_phase s with Acking _ _ => false | Sending (b :: _) => b | _ => true end;
  s_start := in_phase (Receiving Address []);
  s_stop := in_phase Ignoring;
  s_rise := mod_rise;
  s_fall := mod_fall;
}.
Abbreviation idle a m p := (mk_module a m p Ignoring).

(** ** Its answers to the protocol *)
Lemma byte_all (P : Z -> bool) x : forallb P (seqZ 0 256) = true -> in_range 8 x -> P x = true.
Proof.
  rewrite forallb_forall. intros H Hx. apply H. apply list_elem_of_In, elem_of_seqZ. unfold in_range in Hx. lia.
Qed.
Lemma bits_value_byte x : in_range 8 x -> bits_value (byte_bits x) = x.
Proof. intros Hx. apply Z.eqb_eq. by apply (byte_all (fun x => bits_value (byte_bits x) =? x)). Qed.
Lemma length_byte_bits x : length (byte_bits x) = 8%nat.
Proof. done. Qed.

(** eight bits are received, whatever they are *)
Lemma receive k l2 l1 a m p : (length l1 + length l2 = 8)%nat -> l2 <> [] ->
  p_out_bits l2 (mk_module a m p (Receiving k l1)) = (true, mod_fall (mk_module a m p (Receiving k (l1 ++ l2)))).
Proof.
  revert l1. induction l2 as [|b l2 IH]; intros l1 Hl Hn; [done|]. cbn [p_out_bits]. unfold p_out_bit.
  change (s_sda _) with true. rewrite andb_false_r. cbn [s_rise s_fall sfp_module mod_rise m_phase in_phase m_addr m_mem m_ptr].
  destruct l2 as [|b' l2]; [done|]. replace (l1 ++ b :: b' :: l2) with ((l1 ++ [b]) ++ b' :: l2) by by rewrite <- app_assoc.
  rewrite <- (IH (l1 ++ [b])).
  - unfold mod_fall, in_phase. cbn [m_phase m_addr m_mem m_ptr]. rewrite bool_decide_eq_false_2; [done|]. rewrite length_app. cbn in *. lia.
  - rewrite length_app. cbn in *. lia.
  - done.
Qed.
(** a byte in phase [k] *)
Lemma out_byte k x a m p : in_range 8 x -> (k = Address -> Z.shiftr x 1 = Z.shiftr a 1) ->
  p_out_byte x (mk_module a m p (Receiving k [])) = (true, mod_fall (mk_module a m p (Acking k x))).
Proof.
  intros Hx Ha. unfold p_out_byte. rewrite (receive k (byte_bits x) []) by done. cbn [app].
  unfold mod_fall at 1. cbn [m_phase]. rewrite bool_decide_eq_true_2 by done. rewrite bits_value_byte by done.
  destruct k; [|done..]. cbn [m_addr]. by rewrite (proj2 (Z.eqb_eq _ _) (Ha eq_refl)).
Qed.
Lemma out_byte_other x a m p : in_range 8 x -> Z.shiftr x 1 <> Z.shiftr a 1 ->
  p_out_byte x (mk_module a m p (Receiving Address [])) = (false, idle a m p).
Proof.
  intros Hx Ha. unfold p_out_byte. rewrite (receive Address (byte_bits x) []) by done. cbn [app].
  unfold mod_fall at 1. cbn [m_phase]. rewrite bool_decide_eq_true_2 by done. rewrite bits_value_byte by done.
  cbn [m_addr]. by rewrite (proj2 (Z.eqb_neq _ _) Ha).
Qed.
Lemma send_bits l acc a m p : l <> [] ->
  p_in_bits (length l) acc (mk_module a m p (Sending l)) =
    (foldl (fun a b => 2 * a + Z.b2z b) acc l, mk_module a m p Awaiting).
Proof.
  revert acc. induction l as [|b l IH]; intros acc Hl; [done|]. cbn [length p_in_bits]. unfold p_in_bit.
  cbn [s_rise s_fall s_sda sfp_module mod_rise m_phase mod_fall]. destruct l as [|b' l]; [done|].
  exact (IH (2 * acc + Z.b2z b) ltac:(done)).
Qed.
Lemma in_byte y a m p : in_range 8 y ->
  p_in_byte (mk_module a m p (Sending (byte_bits y))) = (y, mk_module a m p Awaiting).
Proof.
  intros Hy. unfold p_in_byte. change 8%nat with (length (byte_bits y)). rewrite send_bits by done.
  by rewrite <- (bits_value_byte y Hy) at 2.
Qed.

Lemma addr_bytes a : in_range 8 a -> Z.odd a = false ->
  in_range 8 (Z.lor a 1) /\ Z.odd (Z.lor a 1) = true /\ Z.shiftr (Z.lor a 1) 1 = Z.shiftr a 1.
Proof.
  intros Ha Ho. pose proof (byte_all (fun a => Z.odd a || ((0 <=? Z.lor a 1) && (Z.lor a 1 <? 256) &&
    Z.odd (Z.lor a 1) && (Z.shiftr (Z.lor a 1) 1 =? Z.shiftr a 1))) a eq_refl Ha) as H. cbv beta in H.
  rewrite Ho in H. cbn [orb] in H. unfold in_range. change (2 ^ 8) with 256.
  rewrite !andb_true_iff, Z.leb_le, Z.ltb_lt, Z.eqb_eq in H. tauto.
Qed.

Section Module.
Context (a : Z) (addr_ok : in_range 8 a) (addr_even : Z.odd a = false).
Implicit Types m : list Z.

Lemma module_read m p off y : Forall (in_range 8) m -> in_range 8 off -> m !! Z.to_nat off = Some y ->
  p_read a off (idle a m p) = (Some y, idle a m (next_ptr off)).
Proof using addr_ok addr_even.
  intros Hm Ho Hy. unfold p_read, p_send. change (p_start_idle (S := sfp_module) (idle a m p)) with (mk_module a m p (Receiving Address [])).
  rewrite out_byte by done. unfold mod_fall at 1. cbn [m_phase]. rewrite addr_even. unfold in_phase; cbn [m_addr m_mem m_ptr].
  rewrite out_byte by done. unfold mod_fall at 1. cbn [m_phase m_addr m_mem m_ptr].
  change (p_start (S := sfp_module) (mk_module a m off (Receiving Data []))) with (mk_module a m off (Receiving Address [])).
  destruct (addr_bytes a addr_ok addr_even) as (H1 & H2 & H3). rewrite out_byte by done.
  unfold mod_fall at 1. cbn [m_phase]. rewrite H2. unfold send_next. cbn [m_addr m_mem m_ptr].
  rewrite (nth_lookup_Some _ _ _ _ Hy), in_byte; [done|]. by eapply Forall_lookup_1 in Hy.
Qed.

Lemma module_write m p off x : in_range 8 off -> in_range 8 x ->
  p_write a off x (idle a m p) = (true, idle a (<[Z.to_nat off := x]> m) (next_ptr off)).
Proof using addr_ok addr_even.
  intros Ho Hx. unfold p_write, p_send. change (p_start_idle (S := sfp_module) (idle a m p)) with (mk_module a m p (Receiving Address [])).
  rewrite out_byte by done. unfold mod_fall at 1. cbn [m_phase]. rewrite addr_even. unfold in_phase; cbn [m_addr m_mem m_ptr].
  rewrite out_byte by done. unfold mod_fall at 1. cbn [m_phase m_addr m_mem m_ptr]. by rewrite out_byte by done.
Qed.

(** an address at which nobody answers *)
Lemma module_absent m p b off : in_range 8 b -> Z.shiftr b 1 <> Z.shiftr a 1 -> Z.shiftr a 1 <> 127 ->
  p_read b off (idle a m p) = (None, idle a m p).
Proof using.
  intros Hb Hne H127. unfold p_read, p_send.
  change (p_start_idle (S := sfp_module) (idle a m p)) with (mk_module a m p (Receiving Address [])). rewrite out_byte_other by done.
  f_equal. assert (Hc : (127 =? Z.shiftr a 1) = false) by (apply Z.eqb_neq; congruence).
  unfold p_clear. change (p_start (S := sfp_module) (idle a m p)) with (mk_module a m p (Receiving Address [])).
  set (pulse := fun s : slave => s_fall (s_rise (s_sda s) s)). change (Nat.iter 9 pulse ?x) with (pulse (pulse (Nat.iter 7 pulse x))).
  change (Nat.iter 7 pulse (mk_module a m p (Receiving Address []))) with
    (mk_module a m p (Receiving Address (replicate 7 true))).
  assert (E : pulse (mk_module a m p (Receiving Address (replicate 7 true))) = idle a m p).
  { change (pulse _) with (if 127 =? Z.shiftr a 1 then mk_module a m p (Acking Address 255) else idle a m p). by rewrite Hc. }
  rewrite E. reflexivity.
Qed.
Lemma module_absent_retry n m p b off : in_range 8 b -> Z.shiftr b 1 <> Z.shiftr a 1 -> Z.shiftr a 1 <> 127 ->
  p_read_retry n b off (idle a m p) = (None, idle a m p).
Proof using. intros. induction n as [|n IH]; [done|]. cbn [p_read_retry]. by rewrite module_absent. Qed.
End Module.

(** ** The routines *)
Section Routines.
Context `{D : Mmio} (h : ixgbe_hw).
Context (acquire : Z -> M Z) (release : Z -> M unit).

(** the adapter is there, and taking or giving back the lock of the bus works and
    leaves the bus alone *)
Record i2c_ready `{S : I2cSlave} `{B : !I2cBus D S h} : Prop := {
  ir_mapped : hw_addr h = true;
  ir_sgmii : has (nw_mng_if_sel (phy h)) IXGBE_NW_MNG_IF_SEL_SGMII_ENABLE = false;
  ir_acquire m s w : bus h true true s w -> wp (acquire m) (fun st w' => st = 0 /\ bus h true true s w') w;
  ir_release m s w : bus h true true s w -> wp (release m) (fun _ w' => bus h true true s w') w;
}.

(** C11: The bit-banged I2C read implements the protocol, for every MAC and every
    device on the bus that does not stretch the clock, when the lock can be had: from an idle bus [ixgbe_read_i2c_byte_generic] (and the
    variant without the lock) does to the device exactly what sending START, the
    address, the offset, START, the address with the read bit, receiving a byte,
    refusing the next one and STOP does; a byte that is not acknowledged or a line
    held low leads to the recovery of the bus and, a bounded number of times, to
    another attempt.  The result is the byte received, or [IXGBE_ERR_I2C] when
    all attempts fail; the bus is idle again. *)
Theorem i2c_read_refines `{S : I2cSlave} `{B : !I2cBus D S h} off addr lock s w :
  i2c_ready -> bus h true true s w ->
  wp (ixgbe_read_i2c_byte_generic_int acquire release off addr lock) (fun r w' =>
    let '(o, s') := p_read_retry (read_attempts h off addr) addr off s in
    bus h true true s' w' /\
    match o with Some x => r = (IXGBE_SUCCESS, x) | None => fst r = IXGBE_ERR_I2C end) w.
Proof. intros [? ? ? ?] Hb. by apply (wp_read_byte h). Qed.

(** C14: Module EEPROM round trip: on every MAC, a byte written to the EEPROM of an
    SFP module with [ixgbe_write_i2c_byte_generic] succeeds at the first attempt,
    changes that byte of the module and no other, and
    [ixgbe_read_i2c_byte_generic] then returns it. *)
Theorem module_write_read `{B : !I2cBus D sfp_module h} a m p off x w :
  i2c_ready -> in_range 8 a -> Z.odd a = false -> Forall (in_range 8) m -> length m = 256%nat ->
  in_range 8 off -> in_range 8 x -> bus h true true (idle a m p : slave) w ->
  wp (st ← ixgbe_write_i2c_byte_generic acquire release off a x;
      r ← ixgbe_read_i2c_byte_generic acquire release off a;
      mret (st, r)) (fun '(st, r) w' =>
    st = IXGBE_SUCCESS /\ r = (IXGBE_SUCCESS, x) /\
    bus h true true (idle a (<[Z.to_nat off := x]> m) (next_ptr off) : slave) w') w.
Proof.
  intros [? ? ? ?] Ha He Hm Hl Ho Hx Hb. unfold ixgbe_write_i2c_byte_generic, ixgbe_read_i2c_byte_generic. wp_step.
  eapply wp_mono; [by eapply (wp_write_byte h)|]. cbn [p_write_retry]. rewrite module_write by done. cbv beta iota.
  intros st w1 [Hb1 ->]. wp_step. eapply wp_mono; [by eapply (wp_read_byte h)|]. cbv beta.
  assert (Hn : exists n, read_attempts h off a = Datatypes.S n).
  { unfold read_attempts. destruct (ixgbe_is_sfp_probe h off a); [by eexists|]. destruct (_ <=? _); by eexists. }
  destruct Hn as [n ->]. cbn [p_read_retry]. rewrite (module_read a Ha He _ _ _ x).
  - intros r w2 [Hb2 ->]. wp_step. by split.
  - apply Forall_insert; done.
  - done.
  - apply list_lookup_insert_eq. unfold in_range in Ho. lia.
Qed.

(** Reading at an address where no module answers ends with [IXGBE_ERR_I2C],
    after the bus was recovered in every attempt, and leaves a module at another
    address and the bus as they were. *)
Theorem module_absent_is_error `{B : !I2cBus D sfp_module h} a m p off b w :
  i2c_ready -> in_range 8 b -> Z.shiftr b 1 <> Z.shiftr a 1 -> Z.shiftr a 1 <> 127 ->
  bus h true true (idle a m p : slave) w ->
  wp (ixgbe_read_i2c_byte_generic acquire release off b) (fun r w' =>
    fst r = IXGBE_ERR_I2C /\ bus h true true (idle a m p : slave) w') w.
Proof.
  intros [? ? ? ?] Hb Hne H127 Hbus. unfold ixgbe_read_i2c_byte_generic.
  eapply wp_mono; [by eapply (wp_read_byte h)|]. cbv beta. rewrite module_absent_retry by done. by intros r w' [? ?].
Qed.

(** The checksum a device sends after the two bytes of a combined read is
    dropped: the value returned is that of the two bytes whatever the checksum
    (the third [p_in_byte_ack] of [p_read_combined], whose result is not used). *)
Theorem combined_read_refines `{S : I2cSlave} `{B : !I2cBus D S h} addr reg lock s w :
  i2c_ready -> mvals h = ixgbe_mvals_X550EM_x -> bus h true true s w ->
  let hi := u8 (Z.lor (Z.land (Z.shiftr reg 7) 0xFE) 1) in
  let csum := bnot 8 (ixgbe_ones_comp_byte_add hi (Z.land reg 0xFF)) in
  wp (ixgbe_read_i2c_combined_generic_int acquire release addr reg lock) (fun r w' =>
    let '(o, s') := p_read_combined_retry 4 addr hi (Z.land reg 0xFF) csum s in
    bus h true true s' w' /\
    r = match o with Some x => (0, Some (u16 x)) | None => (IXGBE_ERR_I2C, None) end) w.
Proof.
  intros [? ? ? ?] Hm Hb hi csum. apply (wp_read_combined h); try done.
  unfold IXGBE_I2C_DATA_OE_N_EN_BY_MAC, by_mvals. by rewrite Hm.
Qed.
End Routines.

(** ** A concrete adapter: I2CCTL and the module *)
Definition pin_value (h : ixgbe_hw) (ctl : Z) (s : module) : Z :=
  Z.lor (Z.land ctl (Z.lor (clk_mask h) (data_mask h)))
    (Z.lor (if scl h ctl then IXGBE_I2C_CLK_IN_BY_MAC h else 0)
           (if sda h ctl && s_sda s then IXGBE_I2C_DATA_IN_BY_MAC h else 0)).
Definition pin_mmio (h : ixgbe_hw) : Mmio := {|
  dev := Z * module;
  dev_read d r := (if r =? IXGBE_I2CCTL_BY_MAC h then pin_value h d.1 d.2 else 0, d);
  dev_write d r v :=
    if r =? IXGBE_I2CCTL_BY_MAC h
    then (v, drive (scl h d.1) (sda h d.1) (scl h v) (sda h v) d.2) else d;
  dev_delay d _ := d |}.

Lemma has_land_l v m k : has (Z.land v m) k = has v (Z.land m k).
Proof. unfold has. by rewrite <- Z.land_assoc. Qed.
(** every register layout keeps outputs and inputs apart *)
Ltac pin_bits h ctl :=
  intros Es; rewrite !has_lor_l, has_land_l; revert Es;
  unfold scl, sda, clk_mask, data_mask, IXGBE_I2C_CLK_OUT_BY_MAC, IXGBE_I2C_CLK_OE_N_EN_BY_MAC, IXGBE_I2C_DATA_OUT_BY_MAC,
    IXGBE_I2C_DATA_OE_N_EN_BY_MAC, IXGBE_I2C_CLK_IN_BY_MAC, IXGBE_I2C_DATA_IN_BY_MAC, by_mvals;
  destruct (mvals h); intros Es;
  repeat match goal with
  | H : context [has ctl ?m] |- _ => progress (let m' := eval vm_compute in m in change (has ctl m) with (has ctl m') in H)
  | |- context [has ctl ?m] => progress (let m' := eval vm_compute in m in change (has ctl m) with (has ctl m'))
  end;
  repeat match goal with
  | |- context [has ?v ?m] => lazymatch v with ctl => fail | _ =>
      let b := eval vm_compute in (has v m) in lazymatch b with true => idtac | false => idtac end; change (has v m) with b end
  end; rewrite ?orb_false_r, ?orb_true_r, ?Es; try done; unfold has; by rewrite Z.land_0_r.

Section PinBits.
Context (h : ixgbe_hw) (ctl : Z) (c b : bool).
Let v : Z := Z.lor (Z.land ctl (Z.lor (clk_mask h) (data_mask h)))
  (Z.lor (if c then IXGBE_I2C_CLK_IN_BY_MAC h else 0) (if b then IXGBE_I2C_DATA_IN_BY_MAC h else 0)).
Lemma pin_scl : scl h ctl = c -> scl h v = c.
Proof using. unfold v. destruct c, b; unfold scl at 2; pin_bits h ctl. Qed.
Lemma pin_sda : sda h v = sda h ctl.
Proof using. generalize (eq_refl true). unfold v. destruct c, b; unfold sda at 1; pin_bits h ctl. Qed.
Lemma pin_clk_in : has v (IXGBE_I2C_CLK_IN_BY_MAC h) = c.
Proof using. generalize (eq_refl true). unfold v. destruct c, b; pin_bits h ctl. Qed.
Lemma pin_data_in : has v (IXGBE_I2C_DATA_IN_BY_MAC h) = b.
Proof using. generalize (eq_refl true). unfold v. destruct c, b; pin_bits h ctl. Qed.
Lemma pin_range : in_range 31 v.
Proof using.
  unfold v, clk_mask, data_mask, IXGBE_I2C_CLK_OUT_BY_MAC, IXGBE_I2C_CLK_OE_N_EN_BY_MAC, IXGBE_I2C_DATA_OUT_BY_MAC,
    IXGBE_I2C_DATA_OE_N_EN_BY_MAC, IXGBE_I2C_CLK_IN_BY_MAC, IXGBE_I2C_DATA_IN_BY_MAC, by_mvals.
  apply lor_range; [done| |].
  - apply range_of_testbit; [done| |].
    + apply Z.land_nonneg. right. by destruct (mvals h).
    + intros i Hi. rewrite Z.land_spec, (testbit_range 31 (Z.lor _ _)) by (try done; by destruct (mvals h)). apply andb_false_r.
  - by destruct (mvals h), c, b.
Qed.
End PinBits.

#[export] Instance pin_bus h : I2cBus (pin_mmio h) sfp_module h.
Proof.
  refine {| pins := fun d : @dev (pin_mmio h) => d.1; on_bus := fun d : @dev (pin_mmio h) => d.2 : @slave sfp_module |}.
  - intros [ctl s] v d'. cbn. rewrite Z.eqb_refl. intros [= <- <-]. unfold pin_value. cbn [fst snd].
    split; [apply pin_range|]. split; [by apply pin_scl|]. split; [apply pin_sda|]. split; [apply pin_clk_in|].
    split; [apply pin_data_in|]. done.
  - intros [ctl s] v. cbn. by rewrite Z.eqb_refl.
  - intros [ctl s] v d'. cbn [dev_read pin_mmio fst snd].
    assert (E : (IXGBE_STATUS =? IXGBE_I2CCTL_BY_MAC h) = false).
    { unfold IXGBE_I2CCTL_BY_MAC, by_mvals. by destruct (mvals h). }
    rewrite E. by intros [= <- <-].
  - done.
Defined.

(** a module at 0xA0 with 256 zero bytes, behind the pins of a MAC *)
Definition mod0 : module := idle 0xA0 (replicate 256 0) 0.
Definition pins_high (h : ixgbe_hw) : Z := Z.lor (clk_mask h) (data_mask h).
Definition i2c_world (h : ixgbe_hw) : world (H := pin_mmio h) := mk_world (pin_mmio h) h (pins_high h, mod0) [].
Definition lock_free {h} (m : Z) : M (D := pin_mmio h) Z := mret 0.
Definition lock_done {h} (m : Z) : M (D := pin_mmio h) unit := mret tt.
Definition hw_x550em : ixgbe_hw := upd_mvals ixgbe_mvals_X550EM_x hw0.

Lemma i2c_ready_0 h : hw_addr h = true -> has (nw_mng_if_sel (phy h)) IXGBE_NW_MNG_IF_SEL_SGMII_ENABLE = false ->
  i2c_ready (D := pin_mmio h) h lock_free lock_done.
Proof. intros. by split. Qed.
Lemma i2c_world_idle h : bus (D := pin_mmio h) h true true (mod0 : slave) (i2c_world h).
Proof.
  split; [done| | |done].
  - cbn. unfold pins_high, scl, clk_mask, data_mask, IXGBE_I2C_CLK_OUT_BY_MAC, IXGBE_I2C_CLK_OE_N_EN_BY_MAC,
      IXGBE_I2C_DATA_OUT_BY_MAC, IXGBE_I2C_DATA_OE_N_EN_BY_MAC, by_mvals. by destruct (mvals h).
  - cbn. unfold pins_high, sda, clk_mask, data_mask, IXGBE_I2C_CLK_OUT_BY_MAC, IXGBE_I2C_CLK_OE_N_EN_BY_MAC,
      IXGBE_I2C_DATA_OUT_BY_MAC, IXGBE_I2C_DATA_OE_N_EN_BY_MAC, by_mvals. by destruct (mvals h).
Qed.

(** the driver and the module, bit by bit *)
Example i2c_write_read_runs :
  match (st ← ixgbe_write_i2c_byte_generic (D := pin_mmio hw_x550em) lock_free lock_done 3 0xA0 0x5C;
         r ← ixgbe_read_i2c_byte_generic lock_free lock_done 3 0xA0; mret (st, r)) (i2c_world hw_x550em) with
  | Done (st, r) _ => st = 0 /\ r = (0, 0x5C)
  | Fault _ => False
  end.
Proof. by vm_compute. Qed.

Lemma i2c_read_refines_witness :
  wp (ixgbe_read_i2c_byte_generic_int (D := pin_mmio hw0) lock_free lock_done 0 0xA0 true) (fun r w' =>
    let '(o, s') := p_read_retry (read_attempts hw0 0 0xA0) 0xA0 0 (mod0 : slave) in
    bus hw0 true true s' w' /\
    match o with Some x => r = (IXGBE_SUCCESS, x) | None => fst r = IXGBE_ERR_I2C end) (i2c_world hw0).
Proof.
  apply (i2c_read_refines (D := pin_mmio hw0) hw0 lock_free lock_done); [by apply i2c_ready_0|apply i2c_world_idle].
Defined.
Lemma module_write_read_witness :
  wp (st ← ixgbe_write_i2c_byte_generic (D := pin_mmio hw_x550em) lock_free lock_done 3 0xA0 0x5C;
      r ← ixgbe_read_i2c_byte_generic lock_free lock_done 3 0xA0; mret (st, r)) (fun '(st, r) w' =>
    st = IXGBE_SUCCESS /\ r = (IXGBE_SUCCESS, 0x5C) /\
    bus hw_x550em true true (idle 0xA0 (<[Z.to_nat 3 := 0x5C]> (replicate 256 0)) (next_ptr 3) : slave) w') (i2c_world hw_x550em).
Proof.
  apply (module_write_read (D := pin_mmio hw_x550em) hw_x550em lock_free lock_done 0xA0 (replicate 256 0) 0 3 0x5C);
    [by apply i2c_ready_0|done|done|by apply Forall_replicate|done|done|done|apply i2c_world_idle].
Defined.
Lemma module_absent_is_error_witness :
  wp (ixgbe_read_i2c_byte_generic (D := pin_mmio hw0) lock_free lock_done 0 0xA2) (fun r w' =>
    fst r = IXGBE_ERR_I2C /\ bus hw0 true true (mod0 : slave) w') (i2c_world hw0).
Proof.
  apply (module_absent_is_error (D := pin_mmio hw0) hw0 lock_free lock_done 0xA0 (replicate 256 0) 0 0 0xA2);
    [by apply i2c_ready_0|done|by vm_compute|by vm_compute|apply i2c_world_idle].
Defined.
Lemma combined_read_refines_witness :
  wp (ixgbe_read_i2c_combined_generic_int (D := pin_mmio hw_x550em) lock_free lock_done 0xBE 2 true) (fun r w' =>
    let '(o, s') := p_read_combined_retry 4 0xBE 1 2 (bnot 8 (ixgbe_ones_comp_byte_add 1 2)) (mod0 : slave) in
    bus hw_x550em true true s' w' /\
    r = match o with Some x => (0, Some (u16 x)) | None => (IXGBE_ERR_I2C, None) end) (i2c_world hw_x550em).
Proof.
  apply (combined_read_refines (D := pin_mmio hw_x550em) hw_x550em lock_free lock_done 0xBE 2 true);
    [by apply i2c_ready_0|done|apply i2c_world_idle].
Defined.
