(* ===== verification/Phy.v ===== *)
(** * PHY access, PHY and module identification (ixgbe_phy.c)

    MDIO access to the PHY, and the routines on top of it: finding and resetting
    the PHY, advertising speeds, identifying SFP and QSFP modules by their EEPROM.
    Operations reached through [hw->mac.ops], [hw->phy.ops] and [hw->eeprom.ops]
    are section variables.  An operation that stores through a pointer takes
    the old content of the variable and returns the new one with the status. *)
From S2P Require Import Prelude Regs Types Osdep I2c.

Section Mdio.
Context `{D : Mmio}.

(** the command word of an access: opcode, register, device and PHY address *)
Definition mdio_command (h : ixgbe_hw) (op reg_addr device_type : Z) : Z :=
  u32 (Z.lor (Z.lor (Z.lor (u32 (Z.shiftl reg_addr IXGBE_MSCA_NP_ADDR_SHIFT))
                           (u32 (Z.shiftl device_type IXGBE_MSCA_DEV_TYPE_SHIFT)))
                    (u32 (Z.shiftl (phy_addr (phy h)) IXGBE_MSCA_PHY_ADDR_SHIFT)))
             (Z.lor op IXGBE_MSCA_MDI_COMMAND)).

(** the poll for the end of a command: the last value read *)
Definition mdio_poll : M Z :=
  r ← for_break (Z.to_nat IXGBE_MDIO_COMMAND_TIMEOUT) 0 0 (fun _ _ =>
        usec_delay 10 ;;
        command ← IXGBE_READ_REG IXGBE_MSCA;
        if Z.land command IXGBE_MSCA_MDI_COMMAND =? 0 then mret (inr command) else mret (inl command));
  mret (match r with inl c => c | inr c => c end).

Definition ixgbe_read_phy_reg_mdi (reg_addr device_type phy_data : Z) : M (Z * Z) :=
  h ← get_hw;
  IXGBE_WRITE_REG IXGBE_MSCA (mdio_command h IXGBE_MSCA_ADDR_CYCLE reg_addr device_type) ;;
  command ← mdio_poll;
  if negb (Z.land command IXGBE_MSCA_MDI_COMMAND =? 0) then mret (IXGBE_ERR_PHY, phy_data)
  else
    h ← get_hw;
    IXGBE_WRITE_REG IXGBE_MSCA (mdio_command h IXGBE_MSCA_READ reg_addr device_type) ;;
    command ← mdio_poll;
    if negb (Z.land command IXGBE_MSCA_MDI_COMMAND =? 0) then mret (IXGBE_ERR_PHY, phy_data)
    else
      data ← IXGBE_READ_REG IXGBE_MSRWD;
      mret (IXGBE_SUCCESS, u16 (Z.shiftr data IXGBE_MSRWD_READ_DATA_SHIFT)).

Definition ixgbe_write_phy_reg_mdi (reg_addr device_type phy_data : Z) : M Z :=
  IXGBE_WRITE_REG IXGBE_MSRWD phy_data ;;
  h ← get_hw;
  IXGBE_WRITE_REG IXGBE_MSCA (mdio_command h IXGBE_MSCA_ADDR_CYCLE reg_addr device_type) ;;
  command ← mdio_poll;
  if negb (Z.land command IXGBE_MSCA_MDI_COMMAND =? 0) then mret IXGBE_ERR_PHY
  else
    h ← get_hw;
    IXGBE_WRITE_REG IXGBE_MSCA (mdio_command h IXGBE_MSCA_WRITE reg_addr device_type) ;;
    command ← mdio_poll;
    if negb (Z.land command IXGBE_MSCA_MDI_COMMAND =? 0) then mret IXGBE_ERR_PHY
    else mret IXGBE_SUCCESS.

Context (acquire_swfw_sync : Z -> M Z) (release_swfw_sync : Z -> M unit).
Context (read_reg_mdi : Z -> Z -> Z -> M (Z * Z)) (write_reg_mdi : Z -> Z -> Z -> M Z).

Definition ixgbe_read_phy_reg_generic (reg_addr device_type phy_data : Z) : M (Z * Z) :=
  h ← get_hw;
  let gssr := phy_semaphore_mask (phy h) in
  locked ← acquire_swfw_sync gssr;
  if negb (locked =? 0) then mret (IXGBE_ERR_SWFW_SYNC, phy_data)
  else
    r ← read_reg_mdi reg_addr device_type phy_data;
    release_swfw_sync gssr ;;
    mret r.

Definition ixgbe_write_phy_reg_generic (reg_addr device_type phy_data : Z) : M Z :=
  h ← get_hw;
  let gssr := phy_semaphore_mask (phy h) in
  locked ← acquire_swfw_sync gssr;
  if locked =? IXGBE_SUCCESS then
    status ← write_reg_mdi reg_addr device_type phy_data;
    release_swfw_sync gssr ;;
    mret status
  else mret IXGBE_ERR_SWFW_SYNC.
End Mdio.

(** ** The PHY *)
Definition ixgbe_get_phy_type_from_id (phy_id : Z) : ixgbe_phy_type :=
  if phy_id =? TN1010_PHY_ID then ixgbe_phy_tn
  else if (phy_id =? X550_PHY_ID) || (phy_id =? X540_PHY_ID) then ixgbe_phy_aq
  else if phy_id =? QT2022_PHY_ID then ixgbe_phy_qt
  else if phy_id =? ATH_PHY_ID then ixgbe_phy_nl
  else if (phy_id =? X557_PHY_ID) || (phy_id =? X557_PHY_ID2) then ixgbe_phy_x550em_ext_t
  else if (phy_id =? IXGBE_M88E1500_E_PHY_ID) || (phy_id =? IXGBE_M88E1543_E_PHY_ID) then ixgbe_phy_ext_1g_t
  else ixgbe_phy_unknown.

Section Phy.
Context `{D : Mmio}.
(** [hw->phy.ops.read_reg], [write_reg], [check_overtemp] and [setup_link] *)
Context (read_reg : Z -> Z -> Z -> M (Z * Z)) (write_reg : Z -> Z -> Z -> M Z).
Context (check_overtemp setup_link : M Z).
(** the content of a local variable that is not initialised *)
Context (junk : Z).

Definition mod_phy (f : ixgbe_phy_info -> ixgbe_phy_info) : M unit := upd_hw (fun h => upd_phy (f (phy h)) h).

Definition ixgbe_check_reset_blocked : M bool :=
  h ← get_hw;
  if bool_decide (mac_type (mac h) = ixgbe_mac_82598EB) then mret false
  else
    mmngc ← IXGBE_READ_REG IXGBE_MMNGC;
    mret (has mmngc IXGBE_MMNGC_MNG_VETO).

Definition ixgbe_validate_phy_addr (phy_addr : Z) : M bool :=
  mod_phy (upd_phy_addr phy_addr) ;;
  r ← read_reg IXGBE_MDIO_PHY_ID_HIGH IXGBE_MDIO_PMA_PMD_DEV_TYPE 0;
  let phy_id := snd r in
  mret (negb (phy_id =? 0xFFFF) && negb (phy_id =? 0x0)).

Definition ixgbe_get_phy_id : M Z :=
  r ← read_reg IXGBE_MDIO_PHY_ID_HIGH IXGBE_MDIO_PMA_PMD_DEV_TYPE 0;
  let '(status, phy_id_high) := r in
  if status =? IXGBE_SUCCESS then
    mod_phy (upd_phy_id (u32 (Z.shiftl phy_id_high 16))) ;;
    r ← read_reg IXGBE_MDIO_PHY_ID_LOW IXGBE_MDIO_PMA_PMD_DEV_TYPE 0;
    let '(status, phy_id_low) := r in
    mod_phy (fun p => upd_phy_id (Z.lor (phy_id p) (Z.land phy_id_low IXGBE_PHY_REVISION_MASK)) p) ;;
    mod_phy (upd_phy_revision (Z.land phy_id_low (bnot 32 IXGBE_PHY_REVISION_MASK))) ;;
    mret status
  else mret status.

Definition ixgbe_probe_phy (phy_addr : Z) : M bool :=
  valid ← ixgbe_validate_phy_addr phy_addr;
  if negb valid then mret false
  else
    status ← ixgbe_get_phy_id;
    if negb (status =? 0) then mret false
    else
      mod_phy (fun p => upd_phy_type (ixgbe_get_phy_type_from_id (phy_id p)) p) ;;
      h ← get_hw;
      (if bool_decide (phy_type (phy h) = ixgbe_phy_unknown) then
         r ← read_reg IXGBE_MDIO_PHY_EXT_ABILITY IXGBE_MDIO_PMA_PMD_DEV_TYPE 0;
         if has (snd r) (Z.lor IXGBE_MDIO_PHY_10GBASET_ABILITY IXGBE_MDIO_PHY_1000BASET_ABILITY)
         then mod_phy (upd_phy_type ixgbe_phy_cu_unknown)
         else mod_phy (upd_phy_type ixgbe_phy_generic)
       else mret tt) ;;
      mret true.

Definition ixgbe_identify_phy_generic : M Z :=
  h ← get_hw;
  (if phy_semaphore_mask (phy h) =? 0 then
     mod_phy (upd_phy_semaphore_mask (if negb (bus_lan_id h =? 0) then IXGBE_GSSR_PHY1_SM else IXGBE_GSSR_PHY0_SM))
   else mret tt) ;;
  if negb (bool_decide (phy_type (phy h) = ixgbe_phy_unknown)) then mret IXGBE_SUCCESS
  else if negb (nw_mng_if_sel (phy h) =? 0) then
    let phy_addr := u16 (Z.shiftr (Z.land (nw_mng_if_sel (phy h)) IXGBE_NW_MNG_IF_SEL_MDIO_PHY_ADD)
                                  IXGBE_NW_MNG_IF_SEL_MDIO_PHY_ADD_SHIFT) in
    found ← ixgbe_probe_phy phy_addr;
    mret (if found : bool then IXGBE_SUCCESS else IXGBE_ERR_PHY_ADDR_INVALID)
  else
    r ← for_break (Z.to_nat IXGBE_MAX_PHY_ADDR) 0 tt (fun phy_addr _ =>
          found ← ixgbe_probe_phy phy_addr;
          if found : bool then mret (inr tt) else mret (inl tt));
    match r with
    | inr _ => mret IXGBE_SUCCESS
    | inl _ => mod_phy (upd_phy_addr 0) ;; mret IXGBE_ERR_PHY_ADDR_INVALID
    end.

(** the poll of [ixgbe_reset_phy_generic]: [inr (inl status)] is the return of an
    error, [inr (inr ctrl)] the [break] *)
Definition reset_phy_poll : M (Z + (Z + Z)) :=
  h ← get_hw;
  for_break 30 0 0 (fun _ ctrl =>
    msec_delay 100 ;;
    if bool_decide (phy_type (phy h) = ixgbe_phy_x550em_ext_t) then
      r ← read_reg IXGBE_MDIO_TX_VENDOR_ALARMS_3 IXGBE_MDIO_PMA_PMD_DEV_TYPE ctrl;
      let '(status, ctrl) := r in
      if negb (status =? IXGBE_SUCCESS) then mret (inr (inl status))
      else if has ctrl IXGBE_MDIO_TX_VENDOR_ALARMS_3_RST_MASK then usec_delay 2 ;; mret (inr (inr ctrl))
      else mret (inl ctrl)
    else
      r ← read_reg IXGBE_MDIO_PHY_XS_CONTROL IXGBE_MDIO_PHY_XS_DEV_TYPE ctrl;
      let '(status, ctrl) := r in
      if negb (status =? IXGBE_SUCCESS) then mret (inr (inl status))
      else if negb (has ctrl IXGBE_MDIO_PHY_XS_RESET) then usec_delay 2 ;; mret (inr (inr ctrl))
      else mret (inl ctrl)).

Definition ixgbe_reset_phy_generic : M Z :=
  h ← get_hw;
  status ← (if bool_decide (phy_type (phy h) = ixgbe_phy_unknown) then ixgbe_identify_phy_generic
            else mret IXGBE_SUCCESS);
  h ← get_hw;
  if negb (status =? IXGBE_SUCCESS) || bool_decide (phy_type (phy h) = ixgbe_phy_none) then mret status
  else
    hot ← (if negb (reset_if_overtemp (phy h)) then
             t ← check_overtemp; mret (IXGBE_ERR_OVERTEMP =? t)
           else mret false);
    if hot : bool then mret status
    else
      blocked ← ixgbe_check_reset_blocked;
      if blocked : bool then mret status
      else
        write_reg IXGBE_MDIO_PHY_XS_CONTROL IXGBE_MDIO_PHY_XS_DEV_TYPE IXGBE_MDIO_PHY_XS_RESET ;;
        r ← reset_phy_poll;
        match r with
        | inr (inl status) => mret status
        | inl ctrl | inr (inr ctrl) =>
            mret (if has ctrl IXGBE_MDIO_PHY_XS_RESET then IXGBE_ERR_RESET_FAILED else IXGBE_SUCCESS)
        end.

Definition ixgbe_restart_auto_neg : M unit :=
  blocked ← ixgbe_check_reset_blocked;
  if blocked : bool then mret tt
  else
    r ← read_reg IXGBE_MDIO_AUTO_NEG_CONTROL IXGBE_MDIO_AUTO_NEG_DEV_TYPE junk;
    write_reg IXGBE_MDIO_AUTO_NEG_CONTROL IXGBE_MDIO_AUTO_NEG_DEV_TYPE (Z.lor (snd r) IXGBE_MII_RESTART) ;;
    mret tt.

Definition ixgbe_get_copper_speeds_supported : M Z :=
  r ← read_reg IXGBE_MDIO_PHY_SPEED_ABILITY IXGBE_MDIO_PMA_PMD_DEV_TYPE junk;
  let '(status, speed_ability) := r in
  if negb (status =? 0) then mret status
  else
    let add (c : bool) (s : Z) : M unit :=
      if c then mod_phy (fun p => upd_speeds_supported (Z.lor (speeds_supported p) s) p) else mret tt in
    add (has speed_ability IXGBE_MDIO_PHY_SPEED_10G) IXGBE_LINK_SPEED_10GB_FULL ;;
    add (has speed_ability IXGBE_MDIO_PHY_SPEED_1G) IXGBE_LINK_SPEED_1GB_FULL ;;
    add (has speed_ability IXGBE_MDIO_PHY_SPEED_100M) IXGBE_LINK_SPEED_100_FULL ;;
    h ← get_hw;
    (match mac_type (mac h) with
     | ixgbe_mac_X550 | ixgbe_mac_E610 =>
         add true IXGBE_LINK_SPEED_2_5GB_FULL ;; add true IXGBE_LINK_SPEED_5GB_FULL
     | ixgbe_mac_X550EM_x | ixgbe_mac_X550EM_a =>
         mod_phy (fun p => upd_speeds_supported (Z.land (speeds_supported p) (bnot 32 IXGBE_LINK_SPEED_100_FULL)) p)
     | _ => mret tt
     end) ;;
    mret status.

(** status, [*speed]; [*autoneg] is always [true] *)
Definition ixgbe_get_copper_link_capabilities_generic : M (Z * Z) :=
  h ← get_hw;
  status ← (if speeds_supported (phy h) =? 0 then ixgbe_get_copper_speeds_supported else mret IXGBE_SUCCESS);
  h ← get_hw;
  mret (status, speeds_supported (phy h)).

(** [reg &= ~mask; if (advertised && supported) reg |= mask] *)
Definition advertise (advertised supported speed mask reg : Z) : Z :=
  let reg := Z.land reg (bnot 16 mask) in
  if has advertised speed && has supported speed then Z.lor reg mask else reg.

Definition ixgbe_setup_phy_link_generic : M Z :=
  r ← ixgbe_get_copper_link_capabilities_generic;
  let speed := snd r in
  h ← get_hw;
  let adv := autoneg_advertised (phy h) in
  r ← read_reg IXGBE_MII_10GBASE_T_AUTONEG_CTRL_REG IXGBE_MDIO_AUTO_NEG_DEV_TYPE IXGBE_MII_AUTONEG_REG;
  let autoneg_reg := advertise adv speed IXGBE_LINK_SPEED_10GB_FULL IXGBE_MII_10GBASE_T_ADVERTISE (snd r) in
  write_reg IXGBE_MII_10GBASE_T_AUTONEG_CTRL_REG IXGBE_MDIO_AUTO_NEG_DEV_TYPE autoneg_reg ;;
  r ← read_reg IXGBE_MII_AUTONEG_VENDOR_PROVISION_1_REG IXGBE_MDIO_AUTO_NEG_DEV_TYPE autoneg_reg;
  let autoneg_reg := snd r in
  let autoneg_reg :=
    if bool_decide (mac_type (mac h) = ixgbe_mac_X550) || ixgbe_is_mac_E6xx (mac_type (mac h)) then
      advertise adv speed IXGBE_LINK_SPEED_2_5GB_FULL IXGBE_MII_2_5GBASE_T_ADVERTISE
        (advertise adv speed IXGBE_LINK_SPEED_5GB_FULL IXGBE_MII_5GBASE_T_ADVERTISE autoneg_reg)
    else autoneg_reg in
  let autoneg_reg := advertise adv speed IXGBE_LINK_SPEED_1GB_FULL IXGBE_MII_1GBASE_T_ADVERTISE autoneg_reg in
  write_reg IXGBE_MII_AUTONEG_VENDOR_PROVISION_1_REG IXGBE_MDIO_AUTO_NEG_DEV_TYPE autoneg_reg ;;
  r ← read_reg IXGBE_MII_AUTONEG_ADVERTISE_REG IXGBE_MDIO_AUTO_NEG_DEV_TYPE autoneg_reg;
  let autoneg_reg := Z.land (snd r) (bnot 16 (Z.lor IXGBE_MII_100BASE_T_ADVERTISE IXGBE_MII_100BASE_T_ADVERTISE_HALF)) in
  let autoneg_reg := if has adv IXGBE_LINK_SPEED_100_FULL && has speed IXGBE_LINK_SPEED_100_FULL
                     then Z.lor autoneg_reg IXGBE_MII_100BASE_T_ADVERTISE else autoneg_reg in
  write_reg IXGBE_MII_AUTONEG_ADVERTISE_REG IXGBE_MDIO_AUTO_NEG_DEV_TYPE autoneg_reg ;;
  ixgbe_restart_auto_neg ;;
  mret IXGBE_SUCCESS.

Definition ixgbe_setup_phy_link_speed_generic (speed : Z) : M Z :=
  mod_phy (upd_autoneg_advertised 0) ;;
  let add (s : Z) : M unit :=
    if has speed s then mod_phy (fun p => upd_autoneg_advertised (Z.lor (autoneg_advertised p) s) p) else mret tt in
  add IXGBE_LINK_SPEED_10GB_FULL ;;
  add IXGBE_LINK_SPEED_5GB_FULL ;;
  add IXGBE_LINK_SPEED_2_5GB_FULL ;;
  add IXGBE_LINK_SPEED_1GB_FULL ;;
  add IXGBE_LINK_SPEED_100_FULL ;;
  add IXGBE_LINK_SPEED_10_FULL ;;
  setup_link ;;
  mret IXGBE_SUCCESS.

(** status, [*speed], [*link_up]; the accumulator is the status and [phy_data] *)
Definition ixgbe_check_phy_link_tnx : M (Z * Z * bool) :=
  r ← for_break 10 0 (IXGBE_SUCCESS, 0) (fun _ acc =>
        usec_delay 10 ;;
        r ← read_reg IXGBE_MDIO_VENDOR_SPECIFIC_1_STATUS IXGBE_MDIO_VENDOR_SPECIFIC_1_DEV_TYPE (snd acc);
        if Z.land (snd r) IXGBE_MDIO_VENDOR_SPECIFIC_1_LINK_STATUS =? IXGBE_MDIO_VENDOR_SPECIFIC_1_LINK_STATUS
        then mret (inr r) else mret (inl r));
  mret (match r with
        | inl (status, _) => (status, IXGBE_LINK_SPEED_10GB_FULL, false)
        | inr (status, phy_data) =>
            (status,
             if Z.land phy_data IXGBE_MDIO_VENDOR_SPECIFIC_1_SPEED_STATUS =? IXGBE_MDIO_VENDOR_SPECIFIC_1_SPEED_STATUS
             then IXGBE_LINK_SPEED_1GB_FULL else IXGBE_LINK_SPEED_10GB_FULL, true)
        end).

(** one of the three blocks of [ixgbe_setup_phy_link_tnx]; the result is [autoneg_reg] *)
Definition tnx_advertise (speed adv reg bit mask autoneg_reg : Z) : M Z :=
  if has speed bit then
    r ← read_reg reg IXGBE_MDIO_AUTO_NEG_DEV_TYPE autoneg_reg;
    let autoneg_reg := Z.land (snd r) (bnot 16 mask) in
    let autoneg_reg := if has adv bit then Z.lor autoneg_reg mask else autoneg_reg in
    write_reg reg IXGBE_MDIO_AUTO_NEG_DEV_TYPE autoneg_reg ;;
    mret autoneg_reg
  else mret autoneg_reg.
Definition ixgbe_setup_phy_link_tnx : M Z :=
  r ← ixgbe_get_copper_link_capabilities_generic;
  let speed := snd r in
  h ← get_hw;
  let adv := autoneg_advertised (phy h) in
  reg ← tnx_advertise speed adv IXGBE_MII_10GBASE_T_AUTONEG_CTRL_REG IXGBE_LINK_SPEED_10GB_FULL
          IXGBE_MII_10GBASE_T_ADVERTISE IXGBE_MII_AUTONEG_REG;
  reg ← tnx_advertise speed adv IXGBE_MII_AUTONEG_XNP_TX_REG IXGBE_LINK_SPEED_1GB_FULL
          IXGBE_MII_1GBASE_T_ADVERTISE_XNP_TX reg;
  tnx_advertise speed adv IXGBE_MII_AUTONEG_ADVERTISE_REG IXGBE_LINK_SPEED_100_FULL
          IXGBE_MII_100BASE_T_ADVERTISE reg ;;
  ixgbe_restart_auto_neg ;;
  mret IXGBE_SUCCESS.

Definition ixgbe_get_phy_firmware_version_tnx (firmware_version : Z) : M (Z * Z) :=
  read_reg TNX_FW_REV IXGBE_MDIO_VENDOR_SPECIFIC_1_DEV_TYPE firmware_version.
Definition ixgbe_get_phy_firmware_version_generic (firmware_version : Z) : M (Z * Z) :=
  read_reg AQ_FW_REV IXGBE_MDIO_VENDOR_SPECIFIC_1_DEV_TYPE firmware_version.

Definition ixgbe_tn_check_overtemp : M Z :=
  h ← get_hw;
  if negb (device_id h =? IXGBE_DEV_ID_82599_T3_LOM) then mret IXGBE_SUCCESS
  else
    r ← read_reg IXGBE_TN_LASI_STATUS_REG IXGBE_MDIO_PMA_PMD_DEV_TYPE 0;
    mret (if negb (has (snd r) IXGBE_TN_LASI_STATUS_TEMP_ALARM) then IXGBE_SUCCESS else IXGBE_ERR_OVERTEMP).

(** [mng_present] is [ixgbe_mng_present] *)
Definition ixgbe_set_copper_phy_power (mng_present : M bool) (on : bool) : M Z :=
  present ← (if negb on then mng_present else mret false);
  if present : bool then mret 0
  else
    r ← read_reg IXGBE_MDIO_VENDOR_SPECIFIC_1_CONTROL IXGBE_MDIO_VENDOR_SPECIFIC_1_DEV_TYPE junk;
    let '(status, reg) := r in
    if negb (status =? 0) then mret status
    else if on then
      write_reg IXGBE_MDIO_VENDOR_SPECIFIC_1_CONTROL IXGBE_MDIO_VENDOR_SPECIFIC_1_DEV_TYPE
        (Z.land reg (bnot 16 IXGBE_MDIO_PHY_SET_LOW_POWER_MODE))
    else
      blocked ← ixgbe_check_reset_blocked;
      if blocked : bool then mret 0
      else
        write_reg IXGBE_MDIO_VENDOR_SPECIFIC_1_CONTROL IXGBE_MDIO_VENDOR_SPECIFIC_1_DEV_TYPE
          (Z.lor reg IXGBE_MDIO_PHY_SET_LOW_POWER_MODE).
End Phy.

(** * Modules

    The driver reads a few bytes of the module's EEPROM, sorts the module into a
    type, decides whether it is supported, and finds in the adapter's own EEPROM
    the sequence that initialises the PHY for it.  [eeprom_read] is
    [hw->eeprom.ops.read], whose word is used only after a status of zero. *)

(** ** The type of a module *)

(** the six types of 1G modules *)
Definition sfp_1g (t : ixgbe_sfp_type) : bool :=
  match t with
  | ixgbe_sfp_type_1g_cu_core0 | ixgbe_sfp_type_1g_cu_core1
  | ixgbe_sfp_type_1g_lx_core0 | ixgbe_sfp_type_1g_lx_core1
  | ixgbe_sfp_type_1g_sx_core0 | ixgbe_sfp_type_1g_sx_core1 => true
  | _ => false
  end.

Definition sfp_type_82598 (cable_tech comp_codes_10g : Z) : ixgbe_sfp_type :=
  if has cable_tech IXGBE_SFF_DA_PASSIVE_CABLE then ixgbe_sfp_type_da_cu
  else if has comp_codes_10g IXGBE_SFF_10GBASESR_CAPABLE then ixgbe_sfp_type_sr
  else if has comp_codes_10g IXGBE_SFF_10GBASELR_CAPABLE then ixgbe_sfp_type_lr
  else ixgbe_sfp_type_unknown.

(** the later MACs, after the branch that reads [cable_spec] *)
Definition sfp_type_82599 (lan_id cable_tech cable_spec comp_codes_10g comp_codes_1g : Z) : ixgbe_sfp_type :=
  let core (t0 t1 : ixgbe_sfp_type) := if lan_id =? 0 then t0 else t1 in
  if has cable_tech IXGBE_SFF_DA_PASSIVE_CABLE then
    core ixgbe_sfp_type_da_cu_core0 ixgbe_sfp_type_da_cu_core1
  else if has cable_tech IXGBE_SFF_DA_ACTIVE_CABLE then
    if has cable_spec IXGBE_SFF_DA_SPEC_ACTIVE_LIMITING
    then core ixgbe_sfp_type_da_act_lmt_core0 ixgbe_sfp_type_da_act_lmt_core1
    else ixgbe_sfp_type_unknown
  else if has comp_codes_10g (Z.lor IXGBE_SFF_10GBASESR_CAPABLE IXGBE_SFF_10GBASELR_CAPABLE) then
    core ixgbe_sfp_type_srlr_core0 ixgbe_sfp_type_srlr_core1
  else if has comp_codes_1g IXGBE_SFF_1GBASET_CAPABLE then
    core ixgbe_sfp_type_1g_cu_core0 ixgbe_sfp_type_1g_cu_core1
  else if has comp_codes_1g IXGBE_SFF_1GBASESX_CAPABLE then
    core ixgbe_sfp_type_1g_sx_core0 ixgbe_sfp_type_1g_sx_core1
  else if has comp_codes_1g IXGBE_SFF_1GBASELX_CAPABLE then
    core ixgbe_sfp_type_1g_lx_core0 ixgbe_sfp_type_1g_lx_core1
  else ixgbe_sfp_type_unknown.

Definition sfp_multispeed (comp_codes_1g comp_codes_10g : Z) : bool :=
  (has comp_codes_1g IXGBE_SFF_1GBASESX_CAPABLE && has comp_codes_10g IXGBE_SFF_10GBASESR_CAPABLE)
  || (has comp_codes_1g IXGBE_SFF_1GBASELX_CAPABLE && has comp_codes_10g IXGBE_SFF_10GBASELR_CAPABLE).

Definition vendor_oui (b0 b1 b2 : Z) : Z :=
  u32 (Z.lor (Z.lor (Z.shiftl b0 IXGBE_SFF_VENDOR_OUI_BYTE0_SHIFT)
                    (Z.shiftl b1 IXGBE_SFF_VENDOR_OUI_BYTE1_SHIFT))
             (Z.shiftl b2 IXGBE_SFF_VENDOR_OUI_BYTE2_SHIFT)).

(** the [switch] on the vendor; [old] is the PHY type before it *)
Definition sfp_vendor_type (oui cable_tech : Z) (old : ixgbe_phy_type) : ixgbe_phy_type :=
  if oui =? IXGBE_SFF_VENDOR_OUI_TYCO then
    if has cable_tech IXGBE_SFF_DA_PASSIVE_CABLE then ixgbe_phy_sfp_passive_tyco else old
  else if oui =? IXGBE_SFF_VENDOR_OUI_FTL then
    if has cable_tech IXGBE_SFF_DA_ACTIVE_CABLE then ixgbe_phy_sfp_ftl_active else ixgbe_phy_sfp_ftl
  else if oui =? IXGBE_SFF_VENDOR_OUI_AVAGO then ixgbe_phy_sfp_avago
  else if oui =? IXGBE_SFF_VENDOR_OUI_INTEL then ixgbe_phy_sfp_intel
  else if has cable_tech IXGBE_SFF_DA_PASSIVE_CABLE then ixgbe_phy_sfp_passive_unknown
  else if has cable_tech IXGBE_SFF_DA_ACTIVE_CABLE then ixgbe_phy_sfp_active_unknown
  else ixgbe_phy_sfp_unknown.

(** limiting active cables and 1G modules are initialised as SR modules *)
Definition init_sfp_type (t : ixgbe_sfp_type) : ixgbe_sfp_type :=
  match t with
  | ixgbe_sfp_type_da_act_lmt_core0 | ixgbe_sfp_type_1g_lx_core0
  | ixgbe_sfp_type_1g_cu_core0 | ixgbe_sfp_type_1g_sx_core0 => ixgbe_sfp_type_srlr_core0
  | ixgbe_sfp_type_da_act_lmt_core1 | ixgbe_sfp_type_1g_lx_core1
  | ixgbe_sfp_type_1g_cu_core1 | ixgbe_sfp_type_1g_sx_core1 => ixgbe_sfp_type_srlr_core1
  | t => t
  end.

Section Sfp.
Context `{D : Mmio}.
Context (get_media_type : M ixgbe_media_type) (set_lan_id : M unit).
Context (read_i2c_eeprom : Z -> Z -> M (Z * Z)) (get_device_caps : Z -> M (Z * Z)).

Definition sfp_absent : M Z := mod_phy (upd_sfp_type ixgbe_sfp_type_not_present) ;; mret IXGBE_ERR_SFP_NOT_PRESENT.

(** a checked read of the module: on an error control goes to [err] *)
Definition sfp_read (off : Z) (err : M Z) (k : Z -> M Z) : M Z :=
  r ← read_i2c_eeprom off 0;
  let '(status, v) := r in
  if negb (status =? IXGBE_SUCCESS) then err else k v.

(** the end of both functions: is the vendor supported? *)
Definition sfp_enforce (skip : ixgbe_sfp_type -> bool) (intel : ixgbe_phy_type) : M Z :=
  r ← get_device_caps 0;
  let enforce_sfp := snd r in
  h ← get_hw;
  if negb (has enforce_sfp IXGBE_DEVICE_CAPS_ALLOW_ANY_SFP) && negb (skip (sfp_type (phy h))) then
    if bool_decide (phy_type (phy h) = intel) then mret IXGBE_SUCCESS
    else if allow_unsupported_sfp h then mret IXGBE_SUCCESS
    else mod_phy (upd_phy_type ixgbe_phy_sfp_unsupported) ;; mret IXGBE_ERR_SFP_NOT_SUPPORTED
  else mret IXGBE_SUCCESS.

(** [if (sfp_type != stored) sfp_setup_needed = true], then [multispeed_fiber] *)
Definition sfp_record (stored : ixgbe_sfp_type) (comp_codes_1g comp_codes_10g : Z) : M unit :=
  h ← get_hw;
  (if negb (bool_decide (sfp_type (phy h) = stored)) then mod_phy (upd_sfp_setup_needed true) else mret tt) ;;
  mod_phy (upd_multispeed_fiber (sfp_multispeed comp_codes_1g comp_codes_10g)).

(** [err_read_i2c_eeprom] of the SFP function *)
Definition sfp_err_read : M Z :=
  mod_phy (upd_sfp_type ixgbe_sfp_type_not_present) ;;
  h ← get_hw;
  (if negb (bool_decide (phy_type (phy h) = ixgbe_phy_nl)) then
     mod_phy (upd_phy_id 0) ;; mod_phy (upd_phy_type ixgbe_phy_unknown)
   else mret tt) ;;
  mret IXGBE_ERR_SFP_NOT_PRESENT.

(** the part after the vendor is known *)
Definition sfp_policy (cable_tech comp_codes_10g : Z) : M Z :=
  h ← get_hw;
  if has cable_tech (Z.lor IXGBE_SFF_DA_PASSIVE_CABLE IXGBE_SFF_DA_ACTIVE_CABLE) then mret IXGBE_SUCCESS
  else if (comp_codes_10g =? 0) && negb (sfp_1g (sfp_type (phy h))) then
    mod_phy (upd_phy_type ixgbe_phy_sfp_unsupported) ;; mret IXGBE_ERR_SFP_NOT_SUPPORTED
  else if bool_decide (mac_type (mac h) = ixgbe_mac_82598EB) then mret IXGBE_SUCCESS
  else sfp_enforce sfp_1g ixgbe_phy_sfp_intel.

Definition sfp_vendor (identifier cable_tech : Z) (k : M Z) : M Z :=
  h ← get_hw;
  if negb (bool_decide (phy_type (phy h) = ixgbe_phy_nl)) then
    mod_phy (upd_phy_id identifier) ;;
    sfp_read IXGBE_SFF_VENDOR_OUI_BYTE0 sfp_err_read (fun b0 =>
    sfp_read IXGBE_SFF_VENDOR_OUI_BYTE1 sfp_err_read (fun b1 =>
    sfp_read IXGBE_SFF_VENDOR_OUI_BYTE2 sfp_err_read (fun b2 =>
    mod_phy (fun p => upd_phy_type (sfp_vendor_type (vendor_oui b0 b1 b2) cable_tech (phy_type p)) p) ;;
    k)))
  else k.

(** the type of the module; an active cable has one more byte read, unchecked *)
Definition sfp_classify (cable_tech comp_codes_10g comp_codes_1g : Z) : M unit :=
  h ← get_hw;
  if bool_decide (mac_type (mac h) = ixgbe_mac_82598EB) then
    mod_phy (upd_sfp_type (sfp_type_82598 cable_tech comp_codes_10g))
  else
    cable_spec ← (if negb (has cable_tech IXGBE_SFF_DA_PASSIVE_CABLE) && has cable_tech IXGBE_SFF_DA_ACTIVE_CABLE
                  then r ← read_i2c_eeprom IXGBE_SFF_CABLE_SPEC_COMP 0; mret (snd r)
                  else mret 0);
    h ← get_hw;
    mod_phy (upd_sfp_type (sfp_type_82599 (bus_lan_id h) cable_tech cable_spec comp_codes_10g comp_codes_1g)).

Definition ixgbe_identify_sfp_module_generic : M Z :=
  h ← get_hw;
  let stored_sfp_type := sfp_type (phy h) in
  media ← get_media_type;
  if negb (bool_decide (media = ixgbe_media_type_fiber)) then sfp_absent
  else
    set_lan_id ;;
    sfp_read IXGBE_SFF_IDENTIFIER sfp_err_read (fun identifier =>
    if negb (identifier =? IXGBE_SFF_IDENTIFIER_SFP) then
      mod_phy (upd_phy_type ixgbe_phy_sfp_unsupported) ;; mret IXGBE_ERR_SFP_NOT_SUPPORTED
    else
      sfp_read IXGBE_SFF_1GBE_COMP_CODES sfp_err_read (fun comp_codes_1g =>
      sfp_read IXGBE_SFF_10GBE_COMP_CODES sfp_err_read (fun comp_codes_10g =>
      sfp_read IXGBE_SFF_CABLE_TECHNOLOGY sfp_err_read (fun cable_tech =>
      sfp_classify cable_tech comp_codes_10g comp_codes_1g ;;
      sfp_record stored_sfp_type comp_codes_1g comp_codes_10g ;;
      sfp_vendor identifier cable_tech (sfp_policy cable_tech comp_codes_10g))))).

(** ** QSFP *)
Definition qsfp_err_read : M Z :=
  mod_phy (upd_sfp_type ixgbe_sfp_type_not_present) ;;
  mod_phy (upd_phy_id 0) ;;
  mod_phy (upd_phy_type ixgbe_phy_unknown) ;;
  mret IXGBE_ERR_SFP_NOT_PRESENT.

Definition qsfp_core (t0 t1 : ixgbe_sfp_type) : M unit :=
  h ← get_hw; mod_phy (upd_sfp_type (if bus_lan_id h =? 0 then t0 else t1)).

(** active cables that pre-date SFF-8436 v3.6 *)
Definition qsfp_old_active : M bool :=
  r ← read_i2c_eeprom IXGBE_SFF_QSFP_CONNECTOR 0;
  let connector := snd r in
  r ← read_i2c_eeprom IXGBE_SFF_QSFP_CABLE_LENGTH 0;
  let cable_length := snd r in
  r ← read_i2c_eeprom IXGBE_SFF_QSFP_DEVICE_TECH 0;
  let device_tech := snd r in
  mret ((connector =? IXGBE_SFF_QSFP_CONNECTOR_NOT_SEPARABLE) && (0 <? cable_length)
        && (Z.shiftr device_tech 4 =? IXGBE_SFF_QSFP_TRANSMITER_850NM_VCSEL)).

(** the type of the module; [false] is the exit for an unsupported one *)
Definition qsfp_classify (comp_codes_10g : Z) : M bool :=
  if has comp_codes_10g IXGBE_SFF_QSFP_DA_PASSIVE_CABLE then
    mod_phy (upd_phy_type ixgbe_phy_qsfp_passive_unknown) ;;
    qsfp_core ixgbe_sfp_type_da_cu_core0 ixgbe_sfp_type_da_cu_core1 ;; mret true
  else if has comp_codes_10g (Z.lor IXGBE_SFF_10GBASESR_CAPABLE IXGBE_SFF_10GBASELR_CAPABLE) then
    qsfp_core ixgbe_sfp_type_srlr_core0 ixgbe_sfp_type_srlr_core1 ;; mret true
  else
    active_cable ← (if has comp_codes_10g IXGBE_SFF_QSFP_DA_ACTIVE_CABLE then mret true else qsfp_old_active);
    if active_cable : bool then
      mod_phy (upd_phy_type ixgbe_phy_qsfp_active_unknown) ;;
      qsfp_core ixgbe_sfp_type_da_act_lmt_core0 ixgbe_sfp_type_da_act_lmt_core1 ;; mret true
    else mod_phy (upd_phy_type ixgbe_phy_sfp_unsupported) ;; mret false.

(** the vendor of an optical module, and the policy; otherwise [status] is the zero
    of the last read *)
Definition qsfp_vendor (comp_codes_10g : Z) : M Z :=
  if has comp_codes_10g (Z.lor IXGBE_SFF_10GBASESR_CAPABLE IXGBE_SFF_10GBASELR_CAPABLE) then
    sfp_read IXGBE_SFF_QSFP_VENDOR_OUI_BYTE0 qsfp_err_read (fun b0 =>
    sfp_read IXGBE_SFF_QSFP_VENDOR_OUI_BYTE1 qsfp_err_read (fun b1 =>
    sfp_read IXGBE_SFF_QSFP_VENDOR_OUI_BYTE2 qsfp_err_read (fun b2 =>
    mod_phy (upd_phy_type (if vendor_oui b0 b1 b2 =? IXGBE_SFF_VENDOR_OUI_INTEL
                           then ixgbe_phy_qsfp_intel else ixgbe_phy_qsfp_unknown)) ;;
    sfp_enforce (fun _ => false) ixgbe_phy_qsfp_intel)))
  else mret IXGBE_SUCCESS.

Definition ixgbe_identify_qsfp_module_generic : M Z :=
  h ← get_hw;
  let stored_sfp_type := sfp_type (phy h) in
  media ← get_media_type;
  if negb (bool_decide (media = ixgbe_media_type_fiber_qsfp)) then sfp_absent
  else
    set_lan_id ;;
    sfp_read IXGBE_SFF_IDENTIFIER qsfp_err_read (fun identifier =>
    if negb (identifier =? IXGBE_SFF_IDENTIFIER_QSFP_PLUS) then
      mod_phy (upd_phy_type ixgbe_phy_sfp_unsupported) ;; mret IXGBE_ERR_SFP_NOT_SUPPORTED
    else
      mod_phy (upd_phy_id identifier) ;;
      sfp_read IXGBE_SFF_QSFP_10GBE_COMP qsfp_err_read (fun comp_codes_10g =>
      sfp_read IXGBE_SFF_QSFP_1GBE_COMP qsfp_err_read (fun comp_codes_1g =>
      ok ← qsfp_classify comp_codes_10g;
      if negb ok then mret IXGBE_ERR_SFP_NOT_SUPPORTED
      else
        sfp_record stored_sfp_type comp_codes_1g comp_codes_10g ;;
        qsfp_vendor comp_codes_10g))).

Definition ixgbe_identify_module_generic : M Z :=
  media ← get_media_type;
  match media with
  | ixgbe_media_type_fiber => ixgbe_identify_sfp_module_generic
  | ixgbe_media_type_fiber_qsfp => ixgbe_identify_qsfp_module_generic
  | _ => sfp_absent
  end.

Definition ixgbe_get_supported_phy_sfp_layer_generic (identify_sfp : M Z) : M Z :=
  identify_sfp ;;
  h ← get_hw;
  if bool_decide (sfp_type (phy h) = ixgbe_sfp_type_not_present) then mret IXGBE_PHYSICAL_LAYER_UNKNOWN
  else
    match phy_type (phy h) with
    | ixgbe_phy_sfp_passive_tyco | ixgbe_phy_sfp_passive_unknown | ixgbe_phy_qsfp_passive_unknown =>
        mret IXGBE_PHYSICAL_LAYER_SFP_PLUS_CU
    | ixgbe_phy_sfp_ftl_active | ixgbe_phy_sfp_active_unknown | ixgbe_phy_qsfp_active_unknown =>
        mret IXGBE_PHYSICAL_LAYER_SFP_ACTIVE_DA
    | ixgbe_phy_sfp_avago | ixgbe_phy_sfp_ftl | ixgbe_phy_sfp_intel | ixgbe_phy_sfp_unknown =>
        r ← read_i2c_eeprom IXGBE_SFF_1GBE_COMP_CODES 0;
        let comp_codes_1g := snd r in
        r ← read_i2c_eeprom IXGBE_SFF_10GBE_COMP_CODES 0;
        let comp_codes_10g := snd r in
        mret (if has comp_codes_10g IXGBE_SFF_10GBASESR_CAPABLE then IXGBE_PHYSICAL_LAYER_10GBASE_SR
              else if has comp_codes_10g IXGBE_SFF_10GBASELR_CAPABLE then IXGBE_PHYSICAL_LAYER_10GBASE_LR
              else if has comp_codes_1g IXGBE_SFF_1GBASET_CAPABLE then IXGBE_PHYSICAL_LAYER_1000BASE_T
              else if has comp_codes_1g IXGBE_SFF_1GBASESX_CAPABLE then IXGBE_PHYSICAL_LAYER_1000BASE_SX
              else IXGBE_PHYSICAL_LAYER_UNKNOWN)
    | ixgbe_phy_qsfp_intel | ixgbe_phy_qsfp_unknown =>
        r ← read_i2c_eeprom IXGBE_SFF_QSFP_10GBE_COMP 0;
        let comp_codes_10g := snd r in
        mret (if has comp_codes_10g IXGBE_SFF_10GBASESR_CAPABLE then IXGBE_PHYSICAL_LAYER_10GBASE_SR
              else if has comp_codes_10g IXGBE_SFF_10GBASELR_CAPABLE then IXGBE_PHYSICAL_LAYER_10GBASE_LR
              else IXGBE_PHYSICAL_LAYER_UNKNOWN)
    | _ => mret IXGBE_PHYSICAL_LAYER_UNKNOWN
    end.
End Sfp.

(** ** The module's EEPROM over I2C *)
Section SfpI2c.
Context `{D : Mmio}.
Context (read_i2c_byte : Z -> Z -> Z -> M (Z * Z)) (write_i2c_byte : Z -> Z -> Z -> M Z).

Definition ixgbe_read_i2c_eeprom_generic (byte_offset eeprom_data : Z) : M (Z * Z) :=
  read_i2c_byte byte_offset IXGBE_I2C_EEPROM_DEV_ADDR eeprom_data.
Definition ixgbe_read_i2c_sff8472_generic (byte_offset sff8472_data : Z) : M (Z * Z) :=
  read_i2c_byte byte_offset IXGBE_I2C_EEPROM_DEV_ADDR2 sff8472_data.
Definition ixgbe_write_i2c_eeprom_generic (byte_offset eeprom_data : Z) : M Z :=
  write_i2c_byte byte_offset IXGBE_I2C_EEPROM_DEV_ADDR eeprom_data.
End SfpI2c.

(** ** The initialisation sequence in the adapter's EEPROM *)
Section InitSequence.
Context `{D : Mmio}.
Context (eeprom_read : Z -> M (Z * Z)).

(** the search for the module's id; [(status, list_offset, data_offset)] *)
Fixpoint find_sfp_id (fuel : nat) (id list_offset sfp_id : Z) : M (Z * Z * Z) :=
  match fuel with
  | O => crash FOutOfFuel
  | S fuel' =>
      if sfp_id =? IXGBE_PHY_INIT_END_NL then mret (IXGBE_ERR_SFP_NOT_SUPPORTED, list_offset, 0)
      else if sfp_id =? id then
        let list_offset := u16 (list_offset + 1) in
        r ← eeprom_read list_offset;
        let '(status, data_offset) := r in
        if negb (status =? 0) then mret (IXGBE_ERR_PHY, list_offset, 0)
        else if (data_offset =? 0) || (data_offset =? 0xFFFF)
        then mret (IXGBE_ERR_SFP_NOT_SUPPORTED, list_offset, data_offset)
        else mret (IXGBE_SUCCESS, list_offset, data_offset)
      else
        let list_offset := u16 (list_offset + 2) in
        r ← eeprom_read list_offset;
        let '(status, sfp_id) := r in
        if negb (status =? 0) then mret (IXGBE_ERR_PHY, list_offset, 0)
        else find_sfp_id fuel' id list_offset sfp_id
  end.

(** [fuel] bounds the entries of the list *)
Definition ixgbe_get_sfp_init_sequence_offsets (fuel : nat) : M (Z * Z * Z) :=
  h ← get_hw;
  let t := sfp_type (phy h) in
  if bool_decide (t = ixgbe_sfp_type_unknown) then mret (IXGBE_ERR_SFP_NOT_SUPPORTED, 0, 0)
  else if bool_decide (t = ixgbe_sfp_type_not_present) then mret (IXGBE_ERR_SFP_NOT_PRESENT, 0, 0)
  else if (device_id h =? IXGBE_DEV_ID_82598_SR_DUAL_PORT_EM) && bool_decide (t = ixgbe_sfp_type_da_cu)
  then mret (IXGBE_ERR_SFP_NOT_SUPPORTED, 0, 0)
  else
    let id := sfp_type_val (init_sfp_type t) in
    r ← eeprom_read IXGBE_PHY_INIT_OFFSET_NL;
    let '(status, list_offset) := r in
    if negb (status =? 0) then mret (IXGBE_ERR_SFP_NO_INIT_SEQ_PRESENT, 0, 0)
    else if (list_offset =? 0) || (list_offset =? 0xFFFF)
    then mret (IXGBE_ERR_SFP_NO_INIT_SEQ_PRESENT, list_offset, 0)
    else
      let list_offset := u16 (list_offset + 1) in
      r ← eeprom_read list_offset;
      let '(status, sfp_id) := r in
      if negb (status =? 0) then mret (IXGBE_ERR_PHY, list_offset, 0)
      else find_sfp_id fuel id list_offset sfp_id.

(** [hw->phy.ops.read_reg] and [write_reg] *)
Context (read_reg : Z -> Z -> Z -> M (Z * Z)) (write_reg : Z -> Z -> Z -> M Z).

(** the words of a data block go to consecutive PHY registers; [None] is the
    failure of an EEPROM read, otherwise the next [data_offset] *)
Definition nl_data (edata data_offset phy_offset : Z) : M (option Z) :=
  r ← for_break (Z.to_nat edata) 0 (data_offset, phy_offset) (fun _ acc =>
        let '(data_offset, phy_offset) := acc in
        r ← eeprom_read data_offset;
        let '(status, eword) := r in
        if negb (status =? 0) then mret (inr tt)
        else
          write_reg phy_offset IXGBE_TWINAX_DEV eword ;;
          mret (inl (u16 (data_offset + 1), u16 (phy_offset + 1))));
  mret (match r with inl acc => Some (fst acc) | inr _ => None end).

(** the interpreter of the sequence *)
Fixpoint nl_sequence (fuel : nat) (data_offset : Z) : M Z :=
  match fuel with
  | O => crash FOutOfFuel
  | S fuel' =>
      r ← eeprom_read data_offset;
      let '(status, eword) := r in
      if negb (status =? 0) then mret IXGBE_ERR_PHY
      else
        let control := Z.shiftr (Z.land eword IXGBE_CONTROL_MASK_NL) IXGBE_CONTROL_SHIFT_NL in
        let edata := Z.land eword IXGBE_DATA_MASK_NL in
        let data_offset := u16 (data_offset + 1) in
        if control =? IXGBE_DELAY_NL then msec_delay edata ;; nl_sequence fuel' data_offset
        else if control =? IXGBE_DATA_NL then
          r ← eeprom_read data_offset;
          let '(status, phy_offset) := r in
          if negb (status =? 0) then mret IXGBE_ERR_PHY
          else
            o ← nl_data edata (u16 (data_offset + 1)) phy_offset;
            match o with
            | Some data_offset => nl_sequence fuel' data_offset
            | None => mret IXGBE_ERR_PHY
            end
        else if control =? IXGBE_CONTROL_NL then
          if edata =? IXGBE_CONTROL_EOL_NL then mret status
          else if edata =? IXGBE_CONTROL_SOL_NL then nl_sequence fuel' data_offset
          else mret IXGBE_ERR_PHY
        else mret IXGBE_ERR_PHY
  end.

(** [fuel] bounds the list of ids and the records of the sequence *)
Definition ixgbe_reset_phy_nl (fuel : nat) : M Z :=
  blocked ← ixgbe_check_reset_blocked;
  if blocked : bool then mret IXGBE_SUCCESS
  else
    r ← read_reg IXGBE_MDIO_PHY_XS_CONTROL IXGBE_MDIO_PHY_XS_DEV_TYPE 0;
    let phy_data := snd r in
    write_reg IXGBE_MDIO_PHY_XS_CONTROL IXGBE_MDIO_PHY_XS_DEV_TYPE (Z.lor phy_data IXGBE_MDIO_PHY_XS_RESET) ;;
    r ← for_break 100 0 phy_data (fun _ phy_data =>
          r ← read_reg IXGBE_MDIO_PHY_XS_CONTROL IXGBE_MDIO_PHY_XS_DEV_TYPE phy_data;
          let phy_data := snd r in
          if Z.land phy_data IXGBE_MDIO_PHY_XS_RESET =? 0 then mret (inr phy_data)
          else msec_delay 10 ;; mret (inl phy_data));
    let phy_data := match r with inl d => d | inr d => d end in
    if negb (Z.land phy_data IXGBE_MDIO_PHY_XS_RESET =? 0) then mret IXGBE_ERR_PHY
    else
      r ← ixgbe_get_sfp_init_sequence_offsets fuel;
      let '(ret_val, _, data_offset) := r in
      if negb (ret_val =? IXGBE_SUCCESS) then mret ret_val
      else
        eeprom_read data_offset ;;
        nl_sequence fuel (u16 (data_offset + 1)).
End InitSequence.

(** ** The table of operations *)
Section Table.
Context `{D : Mmio}.

(** [struct ixgbe_phy_operations], the entries the generic code fills *)
Record ixgbe_phy_operations := mk_phy_ops {
  op_identify : M Z;
  op_identify_sfp : M Z;
  op_reset : M Z;
  op_read_reg : Z -> Z -> Z -> M (Z * Z);
  op_write_reg : Z -> Z -> Z -> M Z;
  op_read_reg_mdi : Z -> Z -> Z -> M (Z * Z);
  op_write_reg_mdi : Z -> Z -> Z -> M Z;
  op_setup_link : M Z;
  op_setup_link_speed : Z -> M Z;
  op_check_link : option (M (Z * Z * bool));
  op_get_firmware_version : Z -> M (Z * Z);
  op_read_i2c_byte : Z -> Z -> Z -> M (Z * Z);
  op_write_i2c_byte : Z -> Z -> Z -> M Z;
  op_read_i2c_sff8472 : Z -> Z -> M (Z * Z);
  op_read_i2c_eeprom : Z -> Z -> M (Z * Z);
  op_write_i2c_eeprom : Z -> Z -> M Z;
  op_i2c_bus_clear : M unit;
  op_read_i2c_byte_unlocked : Z -> Z -> Z -> M (Z * Z);
  op_write_i2c_byte_unlocked : Z -> Z -> Z -> M Z;
  op_check_overtemp : M Z;
}.

(** the operations of the MAC that the entries call, and [junk] as above *)
Context (acquire_swfw_sync : Z -> M Z) (release_swfw_sync : Z -> M unit).
Context (get_media_type : M ixgbe_media_type) (set_lan_id : M unit) (get_device_caps : Z -> M (Z * Z)).
Context (junk : Z).

(** the entries call each other through the table *)
Definition generic_phy_ops : ixgbe_phy_operations :=
  let read_reg := ixgbe_read_phy_reg_generic acquire_swfw_sync release_swfw_sync ixgbe_read_phy_reg_mdi in
  let write_reg := ixgbe_write_phy_reg_generic acquire_swfw_sync release_swfw_sync ixgbe_write_phy_reg_mdi in
  let setup_link := ixgbe_setup_phy_link_generic read_reg write_reg junk in
  let check_overtemp := ixgbe_tn_check_overtemp read_reg in
  let read_byte off addr (_ : Z) := ixgbe_read_i2c_byte_generic acquire_swfw_sync release_swfw_sync off addr in
  let write_byte := ixgbe_write_i2c_byte_generic acquire_swfw_sync release_swfw_sync in
  let read_eeprom := ixgbe_read_i2c_eeprom_generic read_byte in
  {| op_identify := ixgbe_identify_phy_generic read_reg;
     op_identify_sfp := ixgbe_identify_module_generic get_media_type set_lan_id read_eeprom get_device_caps;
     op_reset := ixgbe_reset_phy_generic read_reg write_reg check_overtemp;
     op_read_reg := read_reg;
     op_write_reg := write_reg;
     op_read_reg_mdi := ixgbe_read_phy_reg_mdi;
     op_write_reg_mdi := ixgbe_write_phy_reg_mdi;
     op_setup_link := setup_link;
     op_setup_link_speed := ixgbe_setup_phy_link_speed_generic setup_link;
     op_check_link := None;
     op_get_firmware_version := ixgbe_get_phy_firmware_version_generic read_reg;
     op_read_i2c_byte := read_byte;
     op_write_i2c_byte := write_byte;
     op_read_i2c_sff8472 := ixgbe_read_i2c_sff8472_generic read_byte;
     op_read_i2c_eeprom := read_eeprom;
     op_write_i2c_eeprom := ixgbe_write_i2c_eeprom_generic write_byte;
     op_i2c_bus_clear := ixgbe_i2c_bus_clear;
     op_read_i2c_byte_unlocked off addr _ :=
       ixgbe_read_i2c_byte_generic_unlocked acquire_swfw_sync release_swfw_sync off addr;
     op_write_i2c_byte_unlocked := ixgbe_write_i2c_byte_generic_unlocked acquire_swfw_sync release_swfw_sync;
     op_check_overtemp := check_overtemp |}.

Definition ixgbe_init_phy_ops_generic : M (Z * ixgbe_phy_operations) :=
  mod_phy (upd_sfp_type ixgbe_sfp_type_unknown) ;;
  mret (IXGBE_SUCCESS, generic_phy_ops).
End Table.
