(* ===== verification/Mdio.v ===== *)
(** * The PHY behind MDIO

    [PhyRegs] is what the PHY routines rely on in [hw->phy.ops.read_reg] and
    [write_reg]: a store of 16-bit registers, named by device type and register.
    The MDIO functions are shown to implement it on every adapter whose MSCA and
    MSRWD registers run clause 45 cycles as [MdioDevice] describes. *)
From S2P Require Import Prelude Regs Types Osdep Phy.

(** ** The interface *)

(** the same world with other software state *)
Definition set_hw `{D : Mmio} (w : world) (h : ixgbe_hw) : world := mk_world _ h (w_dev w) (w_log w).

(** the part of the software state that the access functions use *)
Definition access_state (h : ixgbe_hw) : bool * Z * Z * Z :=
  (hw_addr h, nw_mng_if_sel (phy h), phy_addr (phy h), phy_semaphore_mask (phy h)).

Class PhyRegs `{D : Mmio} := {
  pr_read : Z -> Z -> Z -> M (Z * Z);
  pr_write : Z -> Z -> Z -> M Z;
  pr_ok : world -> Prop;
  pr_reg : world -> Z -> Z -> Z;
  pr_plain : Z -> Z -> Prop;
  pr_hw w h : pr_ok w -> access_state h = access_state (w_hw w) ->
    pr_ok (set_hw w h) /\ forall t r, pr_reg (set_hw w h) t r = pr_reg w t r;
  pr_range w t r : pr_ok w -> in_range 16 (pr_reg w t r);
  pr_read_ok w t r old : pr_ok w -> in_range 5 t -> in_range 16 r ->
    wp (pr_read r t old) (fun x w' => x = (IXGBE_SUCCESS, pr_reg w t r) /\ pr_ok w' /\
      w_hw w' = w_hw w /\ forall t' r', pr_plain t' r' -> pr_reg w' t' r' = pr_reg w t' r') w;
  pr_write_ok w t r v : pr_ok w -> in_range 5 t -> in_range 16 r -> in_range 16 v ->
    wp (pr_write r t v) (fun st w' => st = IXGBE_SUCCESS /\ pr_ok w' /\ w_hw w' = w_hw w /\
      forall t' r', pr_plain t' r' ->
        pr_reg w' t' r' = if bool_decide (t' = t /\ r' = r) then v else pr_reg w t' r') w;
  pr_mmngc w : pr_ok w ->
    wp (IXGBE_READ_REG IXGBE_MMNGC) (fun _ w' => pr_ok w' /\ w_hw w' = w_hw w /\
      forall t' r', pr_plain t' r' -> pr_reg w' t' r' = pr_reg w t' r') w;
}.

(** ** Clause 45 management cycles *)

(** the address field of a command: register, device type and PHY address *)
Definition mdio_addr (p t r : Z) : Z := Z.lor (Z.lor r (Z.shiftl t 16)) (Z.shiftl p 21).

(** an address cycle latches the address, a read cycle fetches the latched
    register into MSRWD, a write cycle stores the low half of MSRWD; the command
    bit stays set for [md_left] more polls *)
Class MdioDevice (D : Mmio) := {
  md_reg : dev -> Z -> Z;
  md_latch : dev -> Z;
  md_wdata : dev -> Z;
  md_rdata : dev -> Z;
  md_left : dev -> Z;
  md_plain : Z -> Prop;
  md_reg_range d a : in_range 16 (md_reg d a);
  md_rdata_range d : in_range 16 (md_rdata d);
  md_wdata_range d : in_range 16 (md_wdata d);
  md_left_range d : 0 <= md_left d < IXGBE_MDIO_COMMAND_TIMEOUT;
  md_set d v : in_range 16 v ->
    let d' := dev_write d IXGBE_MSRWD v in
    md_wdata d' = v /\ forall a, md_reg d' a = md_reg d a;
  md_address d a : in_range 26 a ->
    let d' := dev_write d IXGBE_MSCA (Z.lor a (Z.lor IXGBE_MSCA_ADDR_CYCLE IXGBE_MSCA_MDI_COMMAND)) in
    md_latch d' = a /\ md_wdata d' = md_wdata d /\ forall b, md_reg d' b = md_reg d b;
  md_fetch d a : in_range 26 a ->
    let d' := dev_write d IXGBE_MSCA (Z.lor a (Z.lor IXGBE_MSCA_READ IXGBE_MSCA_MDI_COMMAND)) in
    md_rdata d' = md_reg d (md_latch d) /\ forall b, md_plain b -> md_reg d' b = md_reg d b;
  md_store d a : in_range 26 a ->
    let d' := dev_write d IXGBE_MSCA (Z.lor a (Z.lor IXGBE_MSCA_WRITE IXGBE_MSCA_MDI_COMMAND)) in
    forall b, md_plain b -> md_reg d' b = if decide (b = md_latch d) then md_wdata d else md_reg d b;
  md_poll d v d' : dev_read d IXGBE_MSCA = (v, d') ->
    in_range 31 v /\ md_latch d' = md_latch d /\ md_wdata d' = md_wdata d /\ md_rdata d' = md_rdata d /\
    (forall b, md_reg d' b = md_reg d b) /\
    if decide (md_left d = 0) then has v IXGBE_MSCA_MDI_COMMAND = false
    else has v IXGBE_MSCA_MDI_COMMAND = true /\ md_left d' < md_left d;
  md_data d : dev_read d IXGBE_MSRWD = (Z.lor (Z.shiftl (md_rdata d) 16) (md_wdata d), d);
  md_status d : exists v, dev_read d IXGBE_STATUS = (v, d) /\ in_range 31 v;
  md_mng d : exists v, dev_read d IXGBE_MMNGC = (v, d) /\ in_range 31 v;
  md_delay d us : md_latch (dev_delay d us) = md_latch d /\ md_wdata (dev_delay d us) = md_wdata d /\
    md_rdata (dev_delay d us) = md_rdata d /\ md_left (dev_delay d us) <= md_left d /\
    forall b, md_reg (dev_delay d us) b = md_reg d b;
}.

(** ** Register reads of a device that answers at once *)
Section Settled.
Context `{D : Mmio}.

Definition mapped (w : world) : Prop :=
  hw_addr (w_hw w) = true /\ has (nw_mng_if_sel (phy (w_hw w))) IXGBE_NW_MNG_IF_SEL_SGMII_ENABLE = false.

(** only the log differs *)
Definition settled (w w' : world) : Prop := w_hw w' = w_hw w /\ w_dev w' = w_dev w.
Lemma settled_trans w1 w2 w3 : settled w1 w2 -> settled w2 w3 -> settled w1 w3.
Proof using. intros [? ?] [? ?]. split; congruence. Qed.

Lemma readl_settled r v d w : dev_read d r = (v, d) -> in_range 32 v -> w_dev w = d ->
  wp (readl r) (fun x w' => x = v /\ settled w w') w.
Proof using.
  intros E Hv Hd. apply wp_readl. rewrite Hd. intros v' d'. rewrite E. intros [= <- <-].
  rewrite trunc_small by done. split; [done|]. by split.
Qed.

Lemma check_remove_settled r v s d w : hw_addr (w_hw w) = true -> w_dev w = d ->
  dev_read d r = (v, d) -> in_range 32 v -> dev_read d IXGBE_STATUS = (s, d) -> in_range 31 s ->
  wp (ixgbe_check_remove r) (fun x w' => x = v /\ settled w w') w.
Proof using.
  intros Ha Hd Er Hv Es Hs. unfold ixgbe_check_remove. wp_step. apply wp_get_hw. rewrite Ha.
  change (Z.to_nat IXGBE_FAILED_READ_RETRIES) with 5%nat. cbn [negb IXGBE_REMOVED].
  rewrite for_break_S. do 3 wp_step.
  assert (Hs' : in_range 32 s) by (unfold in_range in *; lia).
  assert (N : (s =? IXGBE_FAILED_READ_REG) = false).
  { apply Z.eqb_neq. unfold in_range, IXGBE_FAILED_READ_REG in *. lia. }
  eapply wp_mono; [by eapply readl_settled|]. intros x w1 [-> [H1 H2]]. rewrite N. cbn [negb].
  do 2 wp_step. rewrite N. eapply wp_mono; [eapply readl_settled; [done|done|congruence]|].
  intros x w2 [-> Hs2]. split; [done|]. by apply (settled_trans w w1 w2).
Qed.

Lemma validate_settled r v d w : hw_addr (w_hw w) = true -> w_dev w = d ->
  dev_read d r = (v, d) -> in_range 32 v ->
  wp (ixgbe_validate_register_read r) (fun x w' => x = v /\ settled w w') w.
Proof using.
  intros Ha Hd Er Hv. unfold ixgbe_validate_register_read. wp_step. apply wp_get_hw.
  rewrite Ha. cbn [IXGBE_REMOVED negb]. wp_step. eapply wp_mono.
  { apply wp_for_break with
      (Inv := fun k x w' => (k = 0 \/ x = v) /\ settled w w')
      (Q := fun x w' => match x with inl x => x | inr x => x end = v /\ settled w w').
    - split; [by left|]. by split.
    - intros k _ w1 _ [_ Hs1]. wp_step.
      eapply wp_mono; [eapply readl_settled; [done|done|destruct Hs1; congruence]|].
      intros x w2 [-> Hs2]. pose proof (settled_trans _ _ _ Hs1 Hs2).
      wp_step; wp_steps; (split; [|done]); [done|by right].
    - intros x w1 [[Hk|Hx] Hs1]; [by vm_compute in Hk|by subst x]. }
  intros b w1 [Hb ?]. apply wp_ret. split; [by destruct b|done].
Qed.

Lemma read_settled r v s w : mapped w -> dev_read (w_dev w) r = (v, w_dev w) -> in_range 32 v ->
  dev_read (w_dev w) IXGBE_STATUS = (s, w_dev w) -> in_range 31 s ->
  wp (IXGBE_READ_REG r) (fun x w' => x = v /\ settled w w') w.
Proof using.
  intros [Ha Hg] Er Hv Es Hs. unfold IXGBE_READ_REG, ixgbe_read_reg. wp_step. apply wp_get_hw.
  rewrite Ha, Hg. cbn [IXGBE_REMOVED negb]. unfold ixgbe_read_reg_writes_completed.
  wp_step. eapply wp_mono; [by eapply readl_settled|]. intros x w1 [-> [H1 H2]].
  wp_step. eapply wp_mono with (P := fun x w' => x = v /\ settled w w').
  { wp_step; [|apply wp_ret; by split].
    eapply wp_mono; [eapply (check_remove_settled _ v s (w_dev w)); try done; congruence|].
    intros x w2 [-> Hs2]. split; [done|]. by apply (settled_trans w w1). }
  intros x w2 [-> Hs2]. wp_step; [|by apply wp_ret].
  eapply wp_mono; [eapply (validate_settled _ v (w_dev w)); try done; destruct Hs2; congruence|].
  intros x w3 [-> Hs3]. split; [done|]. by apply (settled_trans w w2).
Qed.

(** a register whose value is never suspicious may change when read *)
Lemma read_below r (Q : Z -> world -> Prop) w : mapped w ->
  (let '(v, d) := dev_read (w_dev w) r in
   in_range 31 v /\ forall log, Q v (mk_world _ (w_hw w) d log)) ->
  wp (IXGBE_READ_REG r) Q w.
Proof using.
  intros [Ha Hg] H. unfold IXGBE_READ_REG, ixgbe_read_reg. wp_step. apply wp_get_hw.
  rewrite Ha, Hg. cbn [IXGBE_REMOVED negb]. unfold ixgbe_read_reg_writes_completed.
  wp_step. apply wp_readl. intros v d E. rewrite E in H. destruct H as (Hv & HQ).
  assert (Hr : in_range 32 v) by (unfold in_range in *; lia). rewrite trunc_small by done.
  assert (N : (v =? IXGBE_FAILED_READ_REG) = false /\ (v =? IXGBE_DEAD_READ_REG) = false).
  { split; apply Z.eqb_neq; unfold in_range, IXGBE_FAILED_READ_REG, IXGBE_DEAD_READ_REG in *; lia. }
  destruct N as [N1 N2]. rewrite N1. do 2 wp_step. rewrite N2. apply wp_ret, HQ.
Qed.
Lemma write_mapped r v (Q : unit -> world -> Prop) w : mapped w ->
  (forall log, Q tt (mk_world _ (w_hw w) (dev_write (w_dev w) r (u32 v)) log)) ->
  wp (IXGBE_WRITE_REG r v) Q w.
Proof using.
  intros [Ha _] HQ. unfold IXGBE_WRITE_REG. wp_step. apply wp_get_hw. rewrite Ha. apply wp_writel, HQ.
Qed.
End Settled.

(** ** The MDIO functions implement the interface *)
Lemma mdio_addr_range p t r : in_range 5 p -> in_range 5 t -> in_range 16 r -> in_range 26 (mdio_addr p t r).
Proof.
  intros Hp Ht Hr. unfold mdio_addr, in_range in *. rewrite !Z.shiftl_mul_pow2 by lia.
  repeat apply lor_range; unfold in_range; lia.
Qed.
Lemma mdio_addr_bit p t r i : in_range 5 p -> in_range 5 t -> in_range 16 r -> 0 <= i ->
  Z.testbit (mdio_addr p t r) i =
    if i <? 16 then Z.testbit r i else if i <? 21 then Z.testbit t (i - 16) else Z.testbit p (i - 21).
Proof.
  intros Hp Ht Hr Hi. unfold mdio_addr. rewrite !Z.lor_spec, !Z.shiftl_spec by lia.
  destruct (Z.ltb_spec i 16).
  - rewrite (Z.testbit_neg_r t), (Z.testbit_neg_r p) by lia. by rewrite !orb_false_r.
  - rewrite (testbit_range 16 r) by (done || lia). destruct (Z.ltb_spec i 21).
    + rewrite (Z.testbit_neg_r p) by lia. by rewrite orb_false_r.
    + by rewrite (testbit_range 5 t) by (done || lia).
Qed.
Lemma mdio_addr_inj p t r t' r' : in_range 5 p -> in_range 5 t -> in_range 5 t' -> in_range 16 r -> in_range 16 r' ->
  mdio_addr p t r = mdio_addr p t' r' -> t = t' /\ r = r'.
Proof.
  intros Hp Ht Ht' Hr Hr' E.
  assert (B : forall i, 0 <= i -> Z.testbit (mdio_addr p t r) i = Z.testbit (mdio_addr p t' r') i) by by rewrite E.
  split; apply Z.bits_inj'; intros i Hi.
  - destruct (Z.ltb_spec i 5); [|by rewrite !(testbit_range 5) by (done || lia)].
    specialize (B (i + 16) ltac:(lia)). rewrite !mdio_addr_bit in B by (done || lia).
    destruct (Z.ltb_spec (i + 16) 16); [lia|]. destruct (Z.ltb_spec (i + 16) 21); [|lia].
    by replace (i + 16 - 16) with i in B by lia.
  - destruct (Z.ltb_spec i 16); [|by rewrite !(testbit_range 16) by (done || lia)].
    specialize (B i Hi). rewrite !mdio_addr_bit in B by done. by destruct (Z.ltb_spec i 16); [|lia].
Qed.

Section Mdi.
Context `{D : Mmio} `{!MdioDevice D}.

Record mdio_ok (w : world) : Prop := {
  mo_mapped : mapped w;
  mo_addr : in_range 5 (phy_addr (phy (w_hw w)));
}.
(** the register the current PHY has at a device type and register number *)
Definition mdio_reg (w : world) (t r : Z) : Z := md_reg (w_dev w) (mdio_addr (phy_addr (phy (w_hw w))) t r).

Lemma mdio_ok_hw w w' : mdio_ok w -> w_hw w' = w_hw w -> mdio_ok w'.
Proof using. intros [[? ?] ?] E. split; [split|]; by rewrite E. Qed.

Lemma mdio_command_eq h op r t : in_range 5 (phy_addr (phy h)) -> in_range 5 t -> in_range 16 r -> in_range 32 op ->
  mdio_command h op r t = Z.lor (mdio_addr (phy_addr (phy h)) t r) (Z.lor op IXGBE_MSCA_MDI_COMMAND) /\
  u32 (mdio_command h op r t) = mdio_command h op r t.
Proof using.
  intros Hp Ht Hr Ho. unfold mdio_command. split; [|by rewrite trunc_small by by apply trunc_range].
  change IXGBE_MSCA_NP_ADDR_SHIFT with 0. change IXGBE_MSCA_DEV_TYPE_SHIFT with 16. change IXGBE_MSCA_PHY_ADDR_SHIFT with 21.
  assert (in_range 32 (Z.shiftl t 16) /\ in_range 32 (Z.shiftl (phy_addr (phy h)) 21) /\ in_range 32 r) as (R1 & R2 & R3).
  { unfold in_range in *. rewrite !Z.shiftl_mul_pow2 by lia. lia. }
  rewrite Z.shiftl_0_r, (trunc_small 32 r), (trunc_small 32 (Z.shiftl t 16)), (trunc_small 32 (Z.shiftl _ 21)) by done.
  rewrite trunc_small; [done|]. repeat apply lor_range; done.
Qed.

(** the cycle ends before the driver gives up *)
Lemma mdio_poll_done w : mdio_ok w ->
  wp mdio_poll (fun c w' => (Z.land c IXGBE_MSCA_MDI_COMMAND =? 0) = true /\ w_hw w' = w_hw w /\
    md_latch (w_dev w') = md_latch (w_dev w) /\ md_wdata (w_dev w') = md_wdata (w_dev w) /\
    md_rdata (w_dev w') = md_rdata (w_dev w) /\ forall b, md_reg (w_dev w') b = md_reg (w_dev w) b) w.
Proof using.
  intros Hok. unfold mdio_poll. wp_step.
  set (J := fun w' : world => w_hw w' = w_hw w /\ md_latch (w_dev w') = md_latch (w_dev w) /\
    md_wdata (w_dev w') = md_wdata (w_dev w) /\ md_rdata (w_dev w') = md_rdata (w_dev w) /\
    forall b, md_reg (w_dev w') b = md_reg (w_dev w) b).
  eapply wp_mono.
  { apply wp_for_break with
      (Inv := fun k _ w' => J w' /\ md_left (w_dev w') + k < IXGBE_MDIO_COMMAND_TIMEOUT)
      (Q := fun r w' => match r with inl _ => False
                        | inr c => (Z.land c IXGBE_MSCA_MDI_COMMAND =? 0) = true /\ J w' end).
    - split; [done|]. pose proof (md_left_range (w_dev w)). lia.
    - intros k _ w1 _ [(Hh & Hl & Hw & Hr & Hg) Hk]. wp_step. apply wp_udelay. wp_step.
      pose proof (md_delay (w_dev w1) 10) as (D1 & D2 & D3 & D4 & D5).
      apply read_below. { by apply (mo_mapped _ (mdio_ok_hw w _ Hok Hh)). }
      cbn [w_dev w_hw]. set (d := dev_delay (w_dev w1) 10) in *.
      destruct (dev_read d IXGBE_MSCA) as [v d'] eqn:E.
      destruct (md_poll _ _ _ E) as (P0 & P1 & P2 & P3 & P4 & P5). split; [done|]. intros log.
      assert (HJ : J (mk_world _ (w_hw w1) d' log)).
      { repeat split; cbn [w_hw w_dev]; [congruence..|]. intros b. by rewrite P4, D5. }
      destruct (decide (md_left d = 0)) as [E0|E0].
      + assert (Ec : (Z.land v IXGBE_MSCA_MDI_COMMAND =? 0) = true).
        { unfold has in P5. by destruct (_ =? 0). }
        rewrite Ec. by apply wp_ret.
      + destruct P5 as [P5 P6]. assert (Ec : (Z.land v IXGBE_MSCA_MDI_COMMAND =? 0) = false).
        { unfold has in P5. by destruct (_ =? 0). }
        rewrite Ec. apply wp_ret. split; [done|]. cbn [w_dev]. lia.
    - intros b w1 [_ Hk]. pose proof (md_left_range (w_dev w1)). change (0 + Z.of_nat _) with 100 in Hk.
      unfold IXGBE_MDIO_COMMAND_TIMEOUT in *. lia. }
  intros [c|c] w1 H; [done|]. destruct H. by apply wp_ret.
Qed.

(** one cycle: the command, then the poll *)
Lemma mdio_cycle op r t (Q : Z -> world -> Prop) w : mdio_ok w -> in_range 5 t -> in_range 16 r -> in_range 32 op ->
  (forall c w', (Z.land c IXGBE_MSCA_MDI_COMMAND =? 0) = true -> w_hw w' = w_hw w -> mdio_ok w' ->
     let d := dev_write (w_dev w) IXGBE_MSCA
                (Z.lor (mdio_addr (phy_addr (phy (w_hw w))) t r) (Z.lor op IXGBE_MSCA_MDI_COMMAND)) in
     md_latch (w_dev w') = md_latch d -> md_wdata (w_dev w') = md_wdata d -> md_rdata (w_dev w') = md_rdata d ->
     (forall b, md_reg (w_dev w') b = md_reg d b) -> Q c w') ->
  wp (IXGBE_WRITE_REG IXGBE_MSCA (mdio_command (w_hw w) op r t) ;; mdio_poll) Q w.
Proof using.
  intros Hok Ht Hr Ho HQ. wp_step. apply write_mapped; [apply Hok|]. intros log.
  destruct (mdio_command_eq (w_hw w) op r t (mo_addr _ Hok) Ht Hr Ho) as [E1 E2]. rewrite E2, E1.
  eapply wp_mono; [apply mdio_poll_done; by apply (mdio_ok_hw w)|]. intros c w' (Hc & Hh & H1 & H2 & H3 & H4).
  apply HQ; try done. by apply (mdio_ok_hw w).
Qed.

Lemma wp_assoc {A B} (m : M unit) (n : M A) (k : A -> M B) Q w :
  wp (x ← (m ;; n); k x) Q w -> wp (m ;; x ← n; k x) Q w.
Proof using. unfold wp, mbind, comp_bind. by destruct (m w). Qed.

Lemma msrwd_value x y : in_range 16 x -> in_range 16 y ->
  u16 (Z.shiftr (Z.lor (Z.shiftl x 16) y) IXGBE_MSRWD_READ_DATA_SHIFT) = x /\ in_range 32 (Z.lor (Z.shiftl x 16) y).
Proof using.
  intros Hx Hy. split.
  - change IXGBE_MSRWD_READ_DATA_SHIFT with 16. rewrite Z.shiftr_lor, Z.shiftr_shiftl_l by lia.
    rewrite (Z.shiftr_div_pow2 y) by lia. unfold in_range in *. rewrite (Z.div_small y) by lia.
    rewrite Z.shiftl_0_r, Z.lor_0_r. by apply trunc_small.
  - apply lor_range; [done| |unfold in_range in *; lia]. unfold in_range in *. rewrite Z.shiftl_mul_pow2; lia.
Qed.

Lemma read_mdi w t r old : mdio_ok w -> in_range 5 t -> in_range 16 r ->
  wp (ixgbe_read_phy_reg_mdi r t old) (fun x w' => x = (IXGBE_SUCCESS, mdio_reg w t r) /\ w_hw w' = w_hw w /\
    forall a, md_plain a -> md_reg (w_dev w') a = md_reg (w_dev w) a) w.
Proof using.
  intros Hok Ht Hr. pose proof (mdio_addr_range _ _ _ (mo_addr _ Hok) Ht Hr) as Ha.
  unfold ixgbe_read_phy_reg_mdi. wp_step. apply wp_get_hw. apply wp_assoc. wp_step.
  apply mdio_cycle; [done..|]. intros c w1 Hc Hh1 Hok1 d1 L1 _ _ G1. rewrite Hc. cbn [negb].
  destruct (md_address (w_dev w) _ Ha) as (A1 & _ & A3).
  wp_step. apply wp_get_hw. apply wp_assoc. wp_step.
  apply mdio_cycle; [done..|]. intros c2 w2 Hc2 Hh2 Hok2 d2 _ _ R2 G2. rewrite Hc2. cbn [negb]. wp_step.
  subst d1 d2. rewrite Hh1 in *. destruct (md_fetch (w_dev w1) _ Ha) as (F1 & F2).
  destruct (md_status (w_dev w2)) as (s & Es & Hs).
  destruct (msrwd_value (md_rdata (w_dev w2)) (md_wdata (w_dev w2))) as [V1 V2]; [apply md_rdata_range|apply md_wdata_range|].
  eapply wp_mono; [eapply read_settled; [apply Hok2|apply md_data|done|done|done]|]. intros x w3 [-> [H3 H4]]. apply wp_ret.
  rewrite V1. split; [|split; [congruence|]].
  - f_equal. unfold mdio_reg. by rewrite R2, F1, G1, L1, A1, A3.
  - intros b Hb. by rewrite H4, G2, F2, G1, A3 by done.
Qed.

Lemma write_mdi w t r v : mdio_ok w -> in_range 5 t -> in_range 16 r -> in_range 16 v ->
  wp (ixgbe_write_phy_reg_mdi r t v) (fun st w' => st = IXGBE_SUCCESS /\ w_hw w' = w_hw w /\
    forall a, md_plain a -> md_reg (w_dev w') a =
      if decide (a = mdio_addr (phy_addr (phy (w_hw w))) t r) then v else md_reg (w_dev w) a) w.
Proof using.
  intros Hok Ht Hr Hv. pose proof (mdio_addr_range _ _ _ (mo_addr _ Hok) Ht Hr) as Ha.
  unfold ixgbe_write_phy_reg_mdi. wp_step. apply write_mapped; [apply Hok|]. intros log.
  rewrite (trunc_small 32 v) by (unfold in_range in *; lia). destruct (md_set (w_dev w) v Hv) as [S1 S2].
  set (w0 := mk_world _ _ _ log). assert (Hok0 : mdio_ok w0) by by apply (mdio_ok_hw w).
  wp_step. apply wp_get_hw. apply wp_assoc. wp_step.
  apply mdio_cycle; [done..|]. intros c w1 Hc Hh1 Hok1 d1 L1 W1 _ G1. rewrite Hc. cbn [negb].
  destruct (md_address (w_dev w0) _ Ha) as (A1 & A2 & A3).
  wp_step. apply wp_get_hw. apply wp_assoc. wp_step.
  apply mdio_cycle; [done..|]. intros c2 w2 Hc2 Hh2 Hok2 d2 _ _ _ G2. rewrite Hc2. cbn [negb]. apply wp_ret.
  subst d1 d2. rewrite Hh1 in *. split; [done|]. split; [by rewrite Hh2|]. intros a Hp.
  rewrite G2. change (w_hw w0) with (w_hw w) in *. rewrite (md_store (w_dev w1) _ Ha a Hp), L1, W1, G1, A1, A2, A3. change (w_dev w0) with (dev_write (w_dev w) IXGBE_MSRWD v). by rewrite S1, S2.
Qed.
End Mdi.

(** ** With the lock of the PHY *)
Section Locked.
Context `{D : Mmio} `{!MdioDevice D}.
Context (acquire : Z -> M Z) (release : Z -> M unit).

(** the lock can be taken, and taking it or giving it back leaves the PHY alone *)
Record phy_lock_free : Prop := {
  pl_acquire m w : mdio_ok w -> wp (acquire m) (fun st w' => st = 0 /\ w_hw w' = w_hw w /\
    forall a, md_reg (w_dev w') a = md_reg (w_dev w) a) w;
  pl_release m w : mdio_ok w -> wp (release m) (fun _ w' => w_hw w' = w_hw w /\
    forall a, md_reg (w_dev w') a = md_reg (w_dev w) a) w;
}.
Context (free : phy_lock_free).

Definition mdio_read : Z -> Z -> Z -> M (Z * Z) := ixgbe_read_phy_reg_generic acquire release ixgbe_read_phy_reg_mdi.
Definition mdio_write : Z -> Z -> Z -> M Z := ixgbe_write_phy_reg_generic acquire release ixgbe_write_phy_reg_mdi.

Lemma mdio_read_ok w t r old : mdio_ok w -> in_range 5 t -> in_range 16 r ->
  wp (mdio_read r t old) (fun x w' => x = (IXGBE_SUCCESS, mdio_reg w t r) /\ w_hw w' = w_hw w /\
    forall a, md_plain a -> md_reg (w_dev w') a = md_reg (w_dev w) a) w.
Proof using free.
  intros Hok Ht Hr. unfold mdio_read, ixgbe_read_phy_reg_generic. wp_step. apply wp_get_hw. wp_step.
  eapply wp_mono; [by apply pl_acquire|]. intros st w1 (-> & H1 & G1). cbn [Z.eqb negb]. wp_step.
  pose proof (mdio_ok_hw _ _ Hok H1) as Hok1.
  eapply wp_mono; [by apply read_mdi|]. intros x w2 (-> & H2 & G2). wp_step.
  eapply wp_mono; [apply pl_release; [done|by apply (mdio_ok_hw w1)]|]. intros _ w3 (H3 & G3). apply wp_ret.
  split; [|split; [congruence|]].
  - unfold mdio_reg. by rewrite H1, G1.
  - intros a Hp. by rewrite G3, G2, G1 by done.
Qed.
Lemma mdio_write_ok w t r v : mdio_ok w -> in_range 5 t -> in_range 16 r -> in_range 16 v ->
  wp (mdio_write r t v) (fun st w' => st = IXGBE_SUCCESS /\ w_hw w' = w_hw w /\
    forall a, md_plain a -> md_reg (w_dev w') a =
      if decide (a = mdio_addr (phy_addr (phy (w_hw w))) t r) then v else md_reg (w_dev w) a) w.
Proof using free.
  intros Hok Ht Hr Hv. unfold mdio_write, ixgbe_write_phy_reg_generic. wp_step. apply wp_get_hw. wp_step.
  eapply wp_mono; [by apply pl_acquire|]. intros st w1 (-> & H1 & G1).
  change (0 =? IXGBE_SUCCESS) with true. cbv iota. wp_step.
  pose proof (mdio_ok_hw _ _ Hok H1) as Hok1.
  eapply wp_mono; [by apply write_mdi|]. intros x w2 (-> & H2 & G2). wp_step.
  eapply wp_mono; [apply pl_release; [done|by apply (mdio_ok_hw w1)]|]. intros _ w3 (H3 & G3). apply wp_ret.
  split; [done|]. split; [congruence|]. intros a Hp. by rewrite G3, G2, H1, G1 by done.
Qed.

Definition mdio_plain (t r : Z) : Prop :=
  in_range 5 t /\ in_range 16 r /\ forall p, in_range 5 p -> md_plain (mdio_addr p t r).

#[export] Instance mdio_phy_regs : PhyRegs.
Proof using free.
  refine {| pr_read := mdio_read; pr_write := mdio_write; pr_ok := mdio_ok; pr_reg := mdio_reg; pr_plain := mdio_plain |}.
  - intros w h [[? ?] ?] [= E1 E2 E3 E4]. split; [split; [split|]; cbn; congruence|].
    intros t r. unfold mdio_reg. cbn. by rewrite E3.
  - intros. apply md_reg_range.
  - intros w t r old Hok Ht Hr. eapply wp_mono; [by apply mdio_read_ok|]. intros x w' (-> & H & G).
    split; [done|]. split; [by apply (mdio_ok_hw w)|]. split; [done|]. intros t' r' (? & ? & Hp).
    unfold mdio_reg. rewrite H. apply G, Hp, Hok.
  - intros w t r v Hok Ht Hr Hv. eapply wp_mono; [by apply mdio_write_ok|]. intros x w' (-> & H & G).
    split; [done|]. split; [by apply (mdio_ok_hw w)|]. split; [done|]. intros t' r' (? & ? & Hp).
    pose proof (mo_addr _ Hok). unfold mdio_reg. rewrite H, G by auto.
    destruct (decide _) as [E|E].
    + apply mdio_addr_inj in E as [-> ->]; [|done..]. by rewrite bool_decide_eq_true_2.
    + rewrite bool_decide_eq_false_2; [done|]. by intros [-> ->].
  - intros w Hok. destruct (md_mng (w_dev w)) as (v & Ev & Hv), (md_status (w_dev w)) as (s & Es & Hs).
    eapply wp_mono; [eapply read_settled; [apply Hok|done|unfold in_range in *; lia|done|done]|].
    intros x w' [_ [H1 H2]]. split; [by apply (mdio_ok_hw w)|]. split; [done|]. intros t' r' _.
    unfold mdio_reg. by rewrite H1, H2.
Defined.
End Locked.
