(* ===== verification/PhyProps.v ===== *)
(** * Properties of the PHY routines

    The MDIO round trip, and the speeds a PHY advertises after link set-up,
    proved against [PhyRegs] and therefore for the MDIO functions. *)
From S2P Require Import Prelude Regs Types Osdep Phy Mdio.

Section RoundTrip.
Context `{D : Mmio} `{!MdioDevice D} (acquire : Z -> M Z) (release : Z -> M unit).

(** C15: MDIO round trip: on every adapter that runs clause 45 cycles, a value written
    to a register of the PHY with [ixgbe_write_phy_reg_generic] is what
    [ixgbe_read_phy_reg_generic] returns afterwards; both succeed, however long
    within the timeout the cycles take, and no other register of any PHY on the
    management bus that is plain storage changes. *)
Theorem phy_write_read w t r v old : let a := mdio_addr (phy_addr (phy (w_hw w))) t r in
  phy_lock_free acquire release -> mdio_ok w -> in_range 5 t -> in_range 16 r -> in_range 16 v -> md_plain a ->
  wp (st ← ixgbe_write_phy_reg_generic acquire release ixgbe_write_phy_reg_mdi r t v;
      x ← ixgbe_read_phy_reg_generic acquire release ixgbe_read_phy_reg_mdi r t old; mret (st, x)) (fun '(st, x) w' =>
    st = IXGBE_SUCCESS /\ x = (IXGBE_SUCCESS, v) /\ w_hw w' = w_hw w /\
    forall b, md_plain b -> b <> a -> md_reg (w_dev w') b = md_reg (w_dev w) b) w.
Proof.
  intros a Hl Hok Ht Hr Hv Hp. wp_step. eapply wp_mono; [by apply (mdio_write_ok acquire release)|]. intros st w1 (-> & H1 & G1).
  pose proof (mdio_ok_hw _ _ Hok H1) as Hok1.
  wp_step. eapply wp_mono; [by apply (mdio_read_ok acquire release)|]. intros x w2 (-> & H2 & G2). wp_step.
  unfold mdio_reg. rewrite H1. fold a. rewrite (G1 _ Hp), decide_True by done. split; [done|]. split; [done|]. split; [congruence|].
  intros b Hb Hne. by rewrite G2, G1, decide_False by done.
Qed.
End RoundTrip.

(** ** Speeds *)

(** the speeds a copper PHY supports, by its speed ability register *)
Definition copper_speeds (t : ixgbe_mac_type) (ability : Z) : Z :=
  let s := Z.lor (Z.lor (if has ability IXGBE_MDIO_PHY_SPEED_10G then IXGBE_LINK_SPEED_10GB_FULL else 0)
                        (if has ability IXGBE_MDIO_PHY_SPEED_1G then IXGBE_LINK_SPEED_1GB_FULL else 0)) in
  let m := if has ability IXGBE_MDIO_PHY_SPEED_100M then IXGBE_LINK_SPEED_100_FULL else 0 in
  match t with
  | ixgbe_mac_X550 | ixgbe_mac_E610 =>
      Z.lor (s m) (Z.lor IXGBE_LINK_SPEED_2_5GB_FULL IXGBE_LINK_SPEED_5GB_FULL)
  | ixgbe_mac_X550EM_x | ixgbe_mac_X550EM_a => s 0
  | _ => s m
  end.

(** bit [i] of an advertisement register whose bits [l] stand for speeds *)
Definition advertised (l : list (Z * Z)) (speed sup old i : Z) : bool :=
  match find (fun p => fst p =? i) l with
  | Some (_, s) => has speed s && has sup s
  | None => Z.testbit old i
  end.
Definition advert_10g : list (Z * Z) := [(12, IXGBE_LINK_SPEED_10GB_FULL)].
Definition advert_vendor (t : ixgbe_mac_type) : list (Z * Z) :=
  (15, IXGBE_LINK_SPEED_1GB_FULL) ::
  match t with
  | ixgbe_mac_X550 | ixgbe_mac_E610 => [(10, IXGBE_LINK_SPEED_2_5GB_FULL); (11, IXGBE_LINK_SPEED_5GB_FULL)]
  | _ => []
  end.
(** half duplex (bit 7) is never advertised *)
Definition advert_100m : list (Z * Z) := [(8, IXGBE_LINK_SPEED_100_FULL); (7, 0)].

(** what [ixgbe_setup_phy_link_speed_generic] keeps of the request *)
Definition adv_of (speed : Z) : Z :=
  let add a s := if has speed s then Z.lor a s else a in
  add (add (add (add (add (add 0 IXGBE_LINK_SPEED_10GB_FULL) IXGBE_LINK_SPEED_5GB_FULL) IXGBE_LINK_SPEED_2_5GB_FULL)
    IXGBE_LINK_SPEED_1GB_FULL) IXGBE_LINK_SPEED_100_FULL) IXGBE_LINK_SPEED_10_FULL.

Lemma adv_of_has speed s :
  In s [IXGBE_LINK_SPEED_10GB_FULL; IXGBE_LINK_SPEED_5GB_FULL; IXGBE_LINK_SPEED_2_5GB_FULL;
        IXGBE_LINK_SPEED_1GB_FULL; IXGBE_LINK_SPEED_100_FULL] ->
  has (adv_of speed) s = has speed s.
Proof.
  unfold adv_of. destruct (has speed IXGBE_LINK_SPEED_10GB_FULL) eqn:E1, (has speed IXGBE_LINK_SPEED_5GB_FULL) eqn:E2,
    (has speed IXGBE_LINK_SPEED_2_5GB_FULL) eqn:E3, (has speed IXGBE_LINK_SPEED_1GB_FULL) eqn:E4,
    (has speed IXGBE_LINK_SPEED_100_FULL) eqn:E5, (has speed IXGBE_LINK_SPEED_10_FULL) eqn:E6;
  intros H; repeat destruct H as [<- |H]; try done; symmetry; first [exact E1|exact E2|exact E3|exact E4|exact E5].
Qed.

Lemma testbit_advertise adv sup s k reg i : 0 <= k < 16 -> in_range 16 reg -> 0 <= i ->
  Z.testbit (advertise adv sup s (bit k) reg) i =
    if k =? i then has adv s && has sup s else Z.testbit reg i.
Proof.
  intros Hk Hr Hi. unfold advertise.
  assert (B : Z.testbit (Z.land reg (bnot 16 (bit k))) i = Z.testbit reg i && negb (k =? i)).
  { rewrite Z.land_spec. unfold bnot. rewrite testbit_trunc, Z.lnot_spec, testbit_bit by lia.
    destruct (Z.ltb_spec i 16); [by rewrite (Z.eqb_sym i)|]. by rewrite (testbit_range 16 reg). }
  destruct (has adv s && has sup s).
  - rewrite Z.lor_spec, B, testbit_bit, (Z.eqb_sym i) by lia. destruct (k =? i); by rewrite ?orb_true_r, ?orb_false_r, ?andb_true_r.
  - rewrite B. destruct (k =? i); by rewrite ?andb_false_r, ?andb_true_r.
Qed.
Lemma advertise_range adv sup s k reg : 0 <= k < 16 -> in_range 16 reg -> in_range 16 (advertise adv sup s (bit k) reg).
Proof.
  intros Hk Hr. unfold advertise. assert (in_range 16 (Z.land reg (bnot 16 (bit k)))) by (apply land_range; [done|apply Hr|by apply trunc_range]).
  destruct (_ && _); [|done]. apply lor_range; [done..|]. unfold in_range, bit. rewrite Z.shiftl_1_l. split; [lia|]. apply Z.pow_lt_mono_r; lia.
Qed.

(** the register as a fold of [advertise] *)
Definition advertise_all (adv sup : Z) (l : list (Z * Z)) (reg : Z) : Z :=
  foldr (fun p r => advertise adv sup (snd p) (bit (fst p)) r) reg l.
Lemma advertise_all_range adv sup l reg : Forall (fun p => 0 <= fst p < 16) l -> in_range 16 reg ->
  in_range 16 (advertise_all adv sup l reg).
Proof. induction 1; [done|]. intros. apply advertise_range; auto. Qed.
Lemma advertise_all_bit adv sup l reg i : Forall (fun p => 0 <= fst p < 16) l -> in_range 16 reg -> 0 <= i ->
  Z.testbit (advertise_all adv sup l reg) i = advertised l adv sup reg i.
Proof.
  unfold advertised. induction 1 as [|[k s] l Hk Hl IH]; intros Hr Hi; [done|]. cbn [advertise_all foldr fst snd find].
  rewrite testbit_advertise by (try done; by apply advertise_all_range). destruct (k =? i); [done|]. by apply IH.
Qed.

(** ** Link set-up against the interface *)
Section LinkSetup.
Context `{D : Mmio} `{!PhyRegs} (junk : Z).

(** the PHY is accessible and its plain registers hold [g] *)
Definition phy_at (g : Z -> Z -> Z) (w : world) : Prop :=
  pr_ok w /\ forall t r, pr_plain t r -> pr_reg w t r = g t r.
Definition put (t r v : Z) (g : Z -> Z -> Z) : Z -> Z -> Z :=
  fun t' r' => if bool_decide (t' = t /\ r' = r) then v else g t' r'.

Lemma wp_pr_read g t r old (Q : Z * Z -> world -> Prop) w : phy_at g w -> in_range 5 t -> in_range 16 r ->
  (forall x w', phy_at g w' -> w_hw w' = w_hw w -> in_range 16 x -> (pr_plain t r -> x = g t r) -> Q (IXGBE_SUCCESS, x) w') ->
  wp (pr_read r t old) Q w.
Proof using.
  intros [Hok Hg] Ht Hr HQ. eapply wp_mono; [by apply pr_read_ok|]. intros x w' (-> & Hok' & Hh & Hg').
  apply HQ; [|done|by apply pr_range|by auto]. split; [done|]. intros. by rewrite Hg', Hg.
Qed.
Lemma wp_pr_write g t r v (Q : Z -> world -> Prop) w : phy_at g w -> in_range 5 t -> in_range 16 r -> in_range 16 v ->
  (forall w', phy_at (put t r v g) w' -> w_hw w' = w_hw w -> Q IXGBE_SUCCESS w') ->
  wp (pr_write r t v) Q w.
Proof using.
  intros [Hok Hg] Ht Hr Hv HQ. eapply wp_mono; [by apply pr_write_ok|]. intros x w' (-> & Hok' & Hh & Hg').
  apply HQ; [|done]. split; [done|]. intros t' r' Hp. rewrite Hg' by done. unfold put. by rewrite Hg.
Qed.
Lemma phy_at_hw g w h : phy_at g w -> access_state h = access_state (w_hw w) -> phy_at g (set_hw w h).
Proof using. intros [Hok Hg] E. destruct (pr_hw w h Hok E) as [H1 H2]. split; [done|]. intros. by rewrite H2, Hg. Qed.

Lemma wp_run {A} (m n : M A) Q w w' : m w = n w' -> wp n Q w' -> wp m Q w.
Proof using. unfold wp. by intros ->. Qed.

(** what the requests of [ixgbe_setup_phy_link_speed_generic] add up to *)
Lemma request_speeds setup_link speed w :
  ixgbe_setup_phy_link_speed_generic setup_link speed w =
  (setup_link ;; mret IXGBE_SUCCESS)
    (set_hw w (upd_phy (upd_autoneg_advertised (adv_of speed) (phy (w_hw w))) (w_hw w))).
Proof using.
  unfold ixgbe_setup_phy_link_speed_generic, adv_of, mod_phy, upd_hw, modify, mbind, comp_bind, mret, comp_ret. cbv zeta.
  destruct (has speed IXGBE_LINK_SPEED_10GB_FULL), (has speed IXGBE_LINK_SPEED_5GB_FULL),
    (has speed IXGBE_LINK_SPEED_2_5GB_FULL), (has speed IXGBE_LINK_SPEED_1GB_FULL),
    (has speed IXGBE_LINK_SPEED_100_FULL), (has speed IXGBE_LINK_SPEED_10_FULL); reflexivity.
Qed.

(** the supported speeds, with the software state in which they are recorded *)
Definition known_speeds (h : ixgbe_hw) (g : Z -> Z -> Z) : Z :=
  if speeds_supported (phy h) =? 0
  then copper_speeds (mac_type (mac h)) (g IXGBE_MDIO_PMA_PMD_DEV_TYPE IXGBE_MDIO_PHY_SPEED_ABILITY)
  else speeds_supported (phy h).
Definition with_speeds (h : ixgbe_hw) (s : Z) : ixgbe_hw := upd_phy (upd_speeds_supported s (phy h)) h.

Lemma with_speeds_id w : set_hw w (with_speeds (w_hw w) (speeds_supported (phy (w_hw w)))) = w.
Proof using.
  destruct w as [h d l]. unfold set_hw, with_speeds. cbn [w_hw w_dev w_log]. f_equal.
  replace (upd_speeds_supported _ _) with (phy h) by (by destruct (phy h)). by destruct h.
Qed.
Lemma wp_with_speeds f (Q : unit -> world -> Prop) w h s : Q tt (set_hw w (with_speeds h (f s))) ->
  wp (mod_phy (fun p => upd_speeds_supported (f (speeds_supported p)) p)) Q (set_hw w (with_speeds h s)).
Proof using. done. Qed.
Lemma wp_add_speed (c : bool) b (Q : unit -> world -> Prop) w h s :
  Q tt (set_hw w (with_speeds h (if c then Z.lor s b else s))) ->
  wp (if c then mod_phy (fun p => upd_speeds_supported (Z.lor (speeds_supported p) b) p) else mret tt) Q
    (set_hw w (with_speeds h s)).
Proof using. by destruct c. Qed.

Lemma copper_speeds_eq t a :
  let c1 := has a IXGBE_MDIO_PHY_SPEED_10G in let c2 := has a IXGBE_MDIO_PHY_SPEED_1G in
  let c3 := has a IXGBE_MDIO_PHY_SPEED_100M in
  let s1 := if c1 then Z.lor 0 IXGBE_LINK_SPEED_10GB_FULL else 0 in
  let s2 := if c2 then Z.lor s1 IXGBE_LINK_SPEED_1GB_FULL else s1 in
  let s3 := if c3 then Z.lor s2 IXGBE_LINK_SPEED_100_FULL else s2 in
  copper_speeds t a =
    match t with
    | ixgbe_mac_X550 | ixgbe_mac_E610 => Z.lor (Z.lor s3 IXGBE_LINK_SPEED_2_5GB_FULL) IXGBE_LINK_SPEED_5GB_FULL
    | ixgbe_mac_X550EM_x | ixgbe_mac_X550EM_a => Z.land s3 (bnot 32 IXGBE_LINK_SPEED_100_FULL)
    | _ => s3
    end.
Proof using. cbv zeta. unfold copper_speeds. by destruct t, (has a _), (has a _), (has a _). Qed.

Lemma speeds_found g w (Q : Z -> world -> Prop) :
  phy_at g w -> pr_plain IXGBE_MDIO_PMA_PMD_DEV_TYPE IXGBE_MDIO_PHY_SPEED_ABILITY -> speeds_supported (phy (w_hw w)) = 0 ->
  (let s := copper_speeds (mac_type (mac (w_hw w))) (g IXGBE_MDIO_PMA_PMD_DEV_TYPE IXGBE_MDIO_PHY_SPEED_ABILITY) in
   forall w', phy_at g w' -> w_hw w' = with_speeds (w_hw w) s -> Q IXGBE_SUCCESS w') ->
  wp (ixgbe_get_copper_speeds_supported pr_read junk) Q w.
Proof using.
  intros Hg Hp E HQ. unfold ixgbe_get_copper_speeds_supported. wp_step. apply (wp_pr_read g); [done..|].
  intros x w1 Hg1 Hh1 _ Hx. rewrite (Hx Hp) in *. set (a := g _ _) in *.
  change (negb (IXGBE_SUCCESS =? 0)) with false. cbv iota zeta.
  rewrite copper_speeds_eq in HQ. rewrite <- (with_speeds_id w1), Hh1, E.
  do 3 (wp_step; apply wp_add_speed). wp_step. apply wp_get_hw. cbn [set_hw w_hw].
  change (mac_type (mac (with_speeds (w_hw w) _))) with (mac_type (mac (w_hw w))). wp_step.
  assert (F : forall s, phy_at g (set_hw w1 (with_speeds (w_hw w) s))).
  { intros s. apply phy_at_hw; [done|]. by rewrite Hh1. }
  destruct (mac_type (mac (w_hw w)));
    try (do 2 wp_step; apply HQ; [apply F|reflexivity]);
    try (wp_step; apply (wp_add_speed true); apply (wp_add_speed true); wp_step; apply HQ; [apply F|reflexivity]);
    apply (wp_with_speeds (fun s => Z.land s _)); wp_step; apply HQ; [apply F|reflexivity|apply F|reflexivity].
Qed.

Lemma link_capabilities g w (Q : Z * Z -> world -> Prop) :
  phy_at g w -> pr_plain IXGBE_MDIO_PMA_PMD_DEV_TYPE IXGBE_MDIO_PHY_SPEED_ABILITY ->
  (let s := known_speeds (w_hw w) g in
   forall w', phy_at g w' -> w_hw w' = with_speeds (w_hw w) s -> Q (IXGBE_SUCCESS, s) w') ->
  wp (ixgbe_get_copper_link_capabilities_generic pr_read junk) Q w.
Proof using.
  intros Hg Hp HQ. unfold ixgbe_get_copper_link_capabilities_generic, known_speeds in *. wp_step. apply wp_get_hw.
  wp_step. destruct (Z.eqb_spec (speeds_supported (phy (w_hw w))) 0) as [E|E].
  - apply (speeds_found g); [done..|]. intros s w1 Hg1 Hh1. wp_step. apply wp_get_hw. wp_step.
    rewrite Hh1. by apply HQ.
  - wp_step. wp_step. apply wp_get_hw. wp_step. apply HQ; [done|]. by rewrite <- (with_speeds_id w) at 1.
Qed.
(** restarting auto-negotiation changes no other register than its control register *)
Lemma restart_auto_neg g w (Q : unit -> world -> Prop) : phy_at g w ->
  (forall w' g', phy_at g' w' -> w_hw w' = w_hw w ->
     (forall t r, ~ (t = IXGBE_MDIO_AUTO_NEG_DEV_TYPE /\ r = IXGBE_MDIO_AUTO_NEG_CONTROL) -> g' t r = g t r) -> Q tt w') ->
  wp (ixgbe_restart_auto_neg pr_read pr_write junk) Q w.
Proof using.
  intros Hg HQ. unfold ixgbe_restart_auto_neg. wp_step.
  eapply wp_mono with (P := fun _ w' => phy_at g w' /\ w_hw w' = w_hw w).
  { unfold ixgbe_check_reset_blocked. wp_step. apply wp_get_hw. wp_step; [by wp_step|]. wp_step.
    eapply wp_mono; [apply pr_mmngc, Hg|]. intros v w1 (Hok & Hh & Hr). wp_step. split; [|done].
    split; [done|]. intros t r Hp. rewrite Hr by done. by apply Hg. }
  intros b w1 [Hg1 Hh1]. wp_step; [wp_step; by apply (HQ _ g)|]. wp_step.
  apply (wp_pr_read g); [done..|]. intros x w2 Hg2 Hh2 Hx _. cbn [snd]. wp_step.
  apply (wp_pr_write g); [done..|by apply lor_range|]. intros w3 Hg3 Hh3. wp_step.
  eapply HQ; [exact Hg3|congruence|]. intros t r Hne. unfold put. by rewrite bool_decide_eq_false_2.
Qed.

(** one register of the advertisement: read, change its speed bits, write *)
Lemma update_advert {A} g w r l adv sup old (Q : A -> world -> Prop) (k : Z * Z -> Z) (rest : Z * Z -> M A) :
  phy_at g w -> in_range 16 r -> pr_plain IXGBE_MDIO_AUTO_NEG_DEV_TYPE r -> Forall (fun p => 0 <= fst p < 16) l ->
  (forall x, k x = advertise_all adv sup l (snd x)) ->
  (forall x w', let t := IXGBE_MDIO_AUTO_NEG_DEV_TYPE in
     phy_at (put t r (advertise_all adv sup l (g t r)) g) w' -> w_hw w' = w_hw w -> wp (rest x) Q w') ->
  wp (x ← pr_read r IXGBE_MDIO_AUTO_NEG_DEV_TYPE old;
      pr_write r IXGBE_MDIO_AUTO_NEG_DEV_TYPE (k x) ;; rest x) Q w.
Proof using.
  intros Hg Hr Hp Hl Hk HQ. wp_step. apply (wp_pr_read g); [done..|]. intros x w1 Hg1 Hh1 Hx Ex. cbn [snd].
  rewrite Hk. wp_step. apply (wp_pr_write g); [done..|by apply advertise_all_range|]. intros w2 Hg2 Hh2.
  rewrite (Ex Hp) in *. apply HQ; [done|congruence].
Qed.

Lemma advert_vendor_range t : Forall (fun p => 0 <= fst p < 16) (advert_vendor t).
Proof using. destruct t; repeat constructor; cbn; lia. Qed.
Lemma advert_100m_eq adv sup reg :
  (let reg := Z.land reg (bnot 16 (Z.lor IXGBE_MII_100BASE_T_ADVERTISE IXGBE_MII_100BASE_T_ADVERTISE_HALF)) in
   if has adv IXGBE_LINK_SPEED_100_FULL && has sup IXGBE_LINK_SPEED_100_FULL
   then Z.lor reg IXGBE_MII_100BASE_T_ADVERTISE else reg) = advertise_all adv sup advert_100m reg.
Proof using.
  cbv zeta. unfold advertise_all, advert_100m. cbn [foldr fst snd]. unfold advertise at 1. unfold advertise.
  replace (has adv 0) with false by (unfold has; by rewrite Z.land_0_r). cbn [andb]. by rewrite <- Z.land_assoc.
Qed.

Lemma setup_phy_link g w :
  let h := w_hw w in let adv := autoneg_advertised (phy h) in let sup := known_speeds h g in
  let T := IXGBE_MDIO_AUTO_NEG_DEV_TYPE in
  phy_at g w -> pr_plain IXGBE_MDIO_PMA_PMD_DEV_TYPE IXGBE_MDIO_PHY_SPEED_ABILITY ->
  pr_plain T IXGBE_MII_10GBASE_T_AUTONEG_CTRL_REG -> pr_plain T IXGBE_MII_AUTONEG_VENDOR_PROVISION_1_REG ->
  pr_plain T IXGBE_MII_AUTONEG_ADVERTISE_REG ->
  wp (ixgbe_setup_phy_link_generic pr_read pr_write junk) (fun st w' =>
    st = IXGBE_SUCCESS /\ w_hw w' = with_speeds h sup /\
    let reg r l := pr_reg w' T r = advertise_all adv sup l (g T r) in
    reg IXGBE_MII_10GBASE_T_AUTONEG_CTRL_REG advert_10g /\
    reg IXGBE_MII_AUTONEG_VENDOR_PROVISION_1_REG (advert_vendor (mac_type (mac h))) /\
    reg IXGBE_MII_AUTONEG_ADVERTISE_REG advert_100m) w.
Proof using.
  intros h adv sup T Hg P0 P1 P2 P3. unfold ixgbe_setup_phy_link_generic. wp_step.
  apply (link_capabilities g); [done..|]. fold h. fold sup. cbv zeta. intros w1 Hg1 Hh1. cbn [snd]. wp_step. apply wp_get_hw.
  rewrite Hh1. change (autoneg_advertised _) with adv. change (mac_type (mac (with_speeds h sup))) with (mac_type (mac h)).
  eapply (update_advert _ _ _ advert_10g adv sup); [done..|by repeat constructor|done|]. cbv zeta beta. intros x2 w2 Hg2 Hh2.
  eapply (update_advert _ _ _ (advert_vendor (mac_type (mac h))) adv sup);
    [done..|apply advert_vendor_range|by destruct (mac_type (mac h))|]. cbv zeta beta. intros x3 w3 Hg3 Hh3.
  eapply (update_advert _ _ _ advert_100m adv sup); [done..|by repeat constructor|intros x; apply advert_100m_eq|].
  cbv zeta beta. intros x4 w4 Hg4 Hh4. wp_step. eapply restart_auto_neg; [exact Hg4|].
  intros w5 g5 Hg5 Hh5 E5. wp_step. split; [done|]. split; [congruence|].
  destruct Hg5 as [_ Hg5]. rewrite !Hg5, !E5 by (done || by intros [? ?]).
  unfold put. by repeat split.
Qed.
(** C13: Set-up of a copper link through a PHY whose advertisement and speed ability
    registers are plain storage: [ixgbe_setup_phy_link_speed_generic] succeeds, and
    for each of 10G, 1G and 100M full duplex - on X550 and E610 also 2.5G and 5G -
    the PHY advertises the speed exactly if it was requested and the PHY supports
    it, whatever was advertised before; 100M half duplex is not advertised.  Every
    other bit of the three advertisement registers keeps its value: on the other
    MACs an advertisement of 2.5G or 5G stays as it was, and a request for 10M has
    no effect.  The supported speeds are those already known, or else those the
    speed ability register shows. *)
Theorem advertised_speeds w speed :
  let h := w_hw w in let T := IXGBE_MDIO_AUTO_NEG_DEV_TYPE in
  pr_ok w -> pr_plain IXGBE_MDIO_PMA_PMD_DEV_TYPE IXGBE_MDIO_PHY_SPEED_ABILITY ->
  pr_plain T IXGBE_MII_10GBASE_T_AUTONEG_CTRL_REG -> pr_plain T IXGBE_MII_AUTONEG_VENDOR_PROVISION_1_REG ->
  pr_plain T IXGBE_MII_AUTONEG_ADVERTISE_REG ->
  wp (ixgbe_setup_phy_link_speed_generic (ixgbe_setup_phy_link_generic pr_read pr_write junk) speed) (fun st w' =>
    let sup := speeds_supported (phy (w_hw w')) in
    st = IXGBE_SUCCESS /\ sup = known_speeds h (pr_reg w) /\
    forall i, 0 <= i ->
      let bit_is r l := Z.testbit (pr_reg w' T r) i = advertised l speed sup (pr_reg w T r) i in
      bit_is IXGBE_MII_10GBASE_T_AUTONEG_CTRL_REG advert_10g /\
      bit_is IXGBE_MII_AUTONEG_VENDOR_PROVISION_1_REG (advert_vendor (mac_type (mac h))) /\
      bit_is IXGBE_MII_AUTONEG_ADVERTISE_REG advert_100m) w.
Proof using.
  intros h T. subst T. intros Hok P0 P1 P2 P3. set (T := IXGBE_MDIO_AUTO_NEG_DEV_TYPE) in *. eapply wp_run; [apply request_speeds|].
  set (w1 := set_hw w _). wp_step.
  assert (Hg : phy_at (pr_reg w) w1) by (apply phy_at_hw; [by split|reflexivity]).
  eapply wp_mono; [by apply setup_phy_link|]. intros st w2 (-> & Hh2 & R1 & R2 & R3). wp_step.
  assert (sup : speeds_supported (phy (w_hw w2)) = known_speeds h (pr_reg w)) by by rewrite Hh2.
  rewrite sup. split; [done|]. split; [done|]. intros i Hi. cbv zeta beta. fold T in R1, R2, R3. rewrite R1, R2, R3. cbv [w1 set_hw w_hw]. clear R1 R2 R3.
  assert (L : forall l r, Forall (fun p => 0 <= fst p < 16) l ->
    Forall (fun p => has (adv_of speed) (snd p) = has speed (snd p)) l ->
    Z.testbit (advertise_all (adv_of speed) (known_speeds h (pr_reg w)) l (pr_reg w T r)) i =
    advertised l speed (known_speeds h (pr_reg w)) (pr_reg w T r) i).
  { intros l r Hl Ha. rewrite advertise_all_bit by (try done; by apply pr_range).
    unfold advertised. destruct (find _ l) as [[k s]|] eqn:E; [|done].
    apply find_some in E as [E _]. rewrite Forall_forall in Ha. specialize (Ha _ E). cbn [snd] in Ha. by rewrite Ha. }
  assert (Z0 : forall x, has x 0 = false) by (intros; unfold has; by rewrite Z.land_0_r).
  split; [|split]; apply L; try apply advert_vendor_range; try (by repeat constructor);
    destruct (mac_type (mac h)); repeat constructor; cbn [snd]; rewrite ?Z0; try done; apply adv_of_has; cbn; tauto.
Qed.
End LinkSetup.

(** ** A concrete PHY behind MSCA *)
Record mdio_state := mk_mdio { ms_regs : Z -> Z; ms_latch : Z; ms_wdata : Z; ms_rdata : Z; ms_left : nat }.
Definition mdio_latency : nat := 3.
(** MSCA: the address cycle, the read cycle and the write cycle *)
Definition mdio_run (d : mdio_state) (v : Z) : mdio_state :=
  let a := v mod 2 ^ 26 in
  let op := Z.land v (Z.lor IXGBE_MSCA_READ IXGBE_MSCA_WRITE) in
  if op =? IXGBE_MSCA_ADDR_CYCLE then mk_mdio (ms_regs d) a (ms_wdata d) (ms_rdata d) mdio_latency
  else if op =? IXGBE_MSCA_READ then mk_mdio (ms_regs d) (ms_latch d) (ms_wdata d) (u16 (ms_regs d (ms_latch d))) mdio_latency
  else mk_mdio (fun b => if b =? ms_latch d then ms_wdata d else ms_regs d b) (ms_latch d) (ms_wdata d) (ms_rdata d) mdio_latency.
#[local] Instance mdio_mmio : Mmio := {|
  dev := mdio_state;
  dev_read d r :=
    if r =? IXGBE_MSCA then
      match Nat.min (ms_left d) 99 with
      | O => (0, d)
      | S n => (IXGBE_MSCA_MDI_COMMAND, mk_mdio (ms_regs d) (ms_latch d) (ms_wdata d) (ms_rdata d) n)
      end
    else if r =? IXGBE_MSRWD then (Z.lor (Z.shiftl (u16 (ms_rdata d)) 16) (u16 (ms_wdata d)), d)
    else (0, d);
  dev_write d r v :=
    if r =? IXGBE_MSCA then mdio_run d v
    else if r =? IXGBE_MSRWD then mk_mdio (ms_regs d) (ms_latch d) v (ms_rdata d) (ms_left d) else d;
  dev_delay d _ := d |}.

Lemma mdio_run_cycle d a op : in_range 26 a -> in_range 2 op ->
  mdio_run d (Z.lor a (Z.lor (Z.shiftl op 26) IXGBE_MSCA_MDI_COMMAND)) =
    if op =? 0 then mk_mdio (ms_regs d) a (ms_wdata d) (ms_rdata d) mdio_latency
    else if op =? 3 then mk_mdio (ms_regs d) (ms_latch d) (ms_wdata d) (u16 (ms_regs d (ms_latch d))) mdio_latency
    else mk_mdio (fun b => if b =? ms_latch d then ms_wdata d else ms_regs d b) (ms_latch d) (ms_wdata d) (ms_rdata d) mdio_latency.
Proof.
  intros Ha Ho. unfold mdio_run.
  assert (E1 : Z.lor a (Z.lor (Z.shiftl op 26) IXGBE_MSCA_MDI_COMMAND) mod 2 ^ 26 = a).
  { rewrite <- Z.land_ones by lia. apply Z.bits_inj'. intros i Hi.
    rewrite Z.land_spec, Z.testbit_ones_nonneg, !Z.lor_spec, Z.shiftl_spec by lia.
    change IXGBE_MSCA_MDI_COMMAND with (bit 30). rewrite testbit_bit by lia. destruct (Z.ltb_spec i 26).
    - rewrite (Z.testbit_neg_r op) by lia. destruct (Z.eqb_spec i 30); [lia|]. by rewrite !orb_false_r, andb_true_r.
    - by rewrite (testbit_range 26 a), andb_false_r. }
  assert (E2 : Z.land (Z.lor a (Z.lor (Z.shiftl op 26) IXGBE_MSCA_MDI_COMMAND)) (Z.lor IXGBE_MSCA_READ IXGBE_MSCA_WRITE)
               = Z.shiftl op 26).
  { change (Z.lor IXGBE_MSCA_READ IXGBE_MSCA_WRITE) with (Z.shiftl 3 26). rewrite !Z.land_lor_distr_l.
    rewrite <- Z.shiftl_land. change (Z.land IXGBE_MSCA_MDI_COMMAND _) with 0. rewrite Z.lor_0_r.
    replace (Z.land op 3) with op by (change 3 with (Z.ones 2); rewrite Z.land_ones by lia; symmetry; by apply Z.mod_small).
    replace (Z.land a (Z.shiftl 3 26)) with 0; [done|]. symmetry. apply Z.bits_inj'. intros i Hi.
    rewrite Z.land_spec, Z.shiftl_spec, Z.bits_0 by lia. destruct (Z.ltb_spec i 26).
    - by rewrite (Z.testbit_neg_r 3), andb_false_r by lia.
    - by rewrite (testbit_range 26 a). }
  rewrite E1, E2. assert (op = 0 \/ op = 1 \/ op = 2 \/ op = 3) as H by (unfold in_range in Ho; lia).
  by destruct H as [-> |[-> |[-> | ->]]].
Qed.

#[local] Instance mdio_device : MdioDevice mdio_mmio.
Proof.
  refine {| md_reg := fun (d : @dev mdio_mmio) a => u16 (ms_regs d a); md_latch := ms_latch; md_wdata := fun d : @dev mdio_mmio => u16 (ms_wdata d);
            md_rdata := fun d : @dev mdio_mmio => u16 (ms_rdata d);
            md_left := fun d : @dev mdio_mmio => Z.of_nat (Nat.min (ms_left d) 99); md_plain := fun _ => True |};
    try (intros; by apply trunc_range).
  - intros d. unfold IXGBE_MDIO_COMMAND_TIMEOUT. lia.
  - intros d v Hv. split; [by apply trunc_small|done].
  - intros d a Ha d'. change d' with (mdio_run d (Z.lor a (Z.lor (Z.shiftl 0 26) IXGBE_MSCA_MDI_COMMAND))).
    by rewrite mdio_run_cycle.
  - intros d a Ha d'. change d' with (mdio_run d (Z.lor a (Z.lor (Z.shiftl 3 26) IXGBE_MSCA_MDI_COMMAND))).
    rewrite mdio_run_cycle by done. split; [|done]. cbn. apply trunc_small. by apply trunc_range.
  - intros d a Ha d' b _. change d' with (mdio_run d (Z.lor a (Z.lor (Z.shiftl 1 26) IXGBE_MSCA_MDI_COMMAND))).
    rewrite mdio_run_cycle by done. cbn. destruct (Z.eqb_spec b (ms_latch d)); by destruct (decide _).
  - intros d v d' E. cbn -[Nat.min] in E. destruct (Nat.min (ms_left d) 99) as [|n] eqn:L; injection E as <- <-; (split; [done|]);
      do 4 (split; [done|]); cbn [ms_left]; (destruct (decide _); [|try lia]); [done|lia|]. split; [done|]. lia.
  - done.
  - intros d. by exists 0.
  - intros d. by exists 0.
  - done.
Defined.

(** a PHY at address 0 that can do 10G, 1G and 100M, behind a free lock *)
Definition phy_regs0 (b : Z) : Z := if b =? mdio_addr 0 IXGBE_MDIO_PMA_PMD_DEV_TYPE IXGBE_MDIO_PHY_SPEED_ABILITY then 0x31 else 0.
Definition mdio_world : world (H := mdio_mmio) := mk_world mdio_mmio hw0 (mk_mdio phy_regs0 0 0 0 0) [].
Definition mdio_take (m : Z) : M (D := mdio_mmio) Z := mret 0.
Definition mdio_give (m : Z) : M (D := mdio_mmio) unit := mret tt.
Lemma mdio_lock_free : phy_lock_free mdio_take mdio_give.
Proof. by split. Qed.
Lemma mdio_world_ok : mdio_ok mdio_world.
Proof. by split. Qed.

Lemma phy_write_read_witness :
  wp (st ← ixgbe_write_phy_reg_generic mdio_take mdio_give ixgbe_write_phy_reg_mdi 0x20 7 0x1000;
      x ← ixgbe_read_phy_reg_generic mdio_take mdio_give ixgbe_read_phy_reg_mdi 0x20 7 0; mret (st, x)) (fun '(st, x) w' =>
    st = IXGBE_SUCCESS /\ x = (IXGBE_SUCCESS, 0x1000) /\ w_hw w' = w_hw mdio_world /\
    forall b, md_plain b -> b <> mdio_addr 0 7 0x20 -> md_reg (w_dev w') b = md_reg (w_dev mdio_world) b) mdio_world.
Proof.
  apply (phy_write_read mdio_take mdio_give mdio_world 7 0x20 0x1000 0); [apply mdio_lock_free|apply mdio_world_ok|done..].
Defined.

(** 10G and 100M requested, 1G supported as well *)
Lemma advertised_speeds_witness :
  let P := mdio_phy_regs mdio_take mdio_give mdio_lock_free in let T := IXGBE_MDIO_AUTO_NEG_DEV_TYPE in
  let speed := Z.lor IXGBE_LINK_SPEED_10GB_FULL IXGBE_LINK_SPEED_100_FULL in
  wp (ixgbe_setup_phy_link_speed_generic (ixgbe_setup_phy_link_generic pr_read pr_write 0) speed) (fun st w' =>
    let sup := speeds_supported (phy (w_hw w')) in
    st = IXGBE_SUCCESS /\ sup = known_speeds hw0 (pr_reg mdio_world) /\
    forall i, 0 <= i ->
      let bit_is r l := Z.testbit (pr_reg w' T r) i = advertised l speed sup (pr_reg mdio_world T r) i in
      bit_is IXGBE_MII_10GBASE_T_AUTONEG_CTRL_REG advert_10g /\
      bit_is IXGBE_MII_AUTONEG_VENDOR_PROVISION_1_REG (advert_vendor (mac_type (mac hw0))) /\
      bit_is IXGBE_MII_AUTONEG_ADVERTISE_REG advert_100m) mdio_world.
Proof.
  intros P T speed. apply (advertised_speeds 0 mdio_world speed); [apply mdio_world_ok|by repeat split..].
Defined.

(** the registers after it, evaluated *)
Example advertised_speeds_runs :
  match ixgbe_setup_phy_link_speed_generic
          (ixgbe_setup_phy_link_generic (mdio_read mdio_take mdio_give) (mdio_write mdio_take mdio_give) 0)
          (Z.lor IXGBE_LINK_SPEED_10GB_FULL IXGBE_LINK_SPEED_100_FULL) mdio_world with
  | Done st w => (st, mdio_reg w 7 0x20, mdio_reg w 7 0xC400, mdio_reg w 7 0x10, speeds_supported (phy (w_hw w))) =
                 (0, 0x1000, 0, 0x100, 0xA8)
  | Fault _ => False
  end.
Proof. by vm_compute. Qed.
