(* ===== verification/SfpProps.v ===== *)
(** * Which modules the driver accepts, and how it initialises the PHY

    The identification of SFP modules is proved against [SfpModule], what it
    needs of [read_i2c_eeprom]; the bit-banged I2C of I2c.v with the module of
    I2cProps.v implements it.  The initialisation sequence is proved against
    [NvmOps], what it needs of the adapter's EEPROM. *)
From S2P Require Import Prelude Regs Types Osdep Phy Mdio.
From S2P Require Import Semaphore SemProps Eeprom NvmProps I2c I2cBus I2cProps.

(** ** The interface to the module *)

(** the part of the software state that I2C access uses *)
Definition i2c_state (h : ixgbe_hw) : bool * Z * Z * ixgbe_mvals_table :=
  (hw_addr h, nw_mng_if_sel (phy h), phy_semaphore_mask (phy h), mvals h).

(** a module with the bytes [sm_byte], of which those in [sm_good] can be read *)
Class SfpModule `{D : Mmio} := {
  sm_read : Z -> Z -> M (Z * Z);
  sm_ok : world -> Prop;
  sm_byte : Z -> Z;
  sm_good : Z -> bool;
  sm_byte_range off : in_range 8 (sm_byte off);
  sm_hw w h : sm_ok w -> i2c_state h = i2c_state (w_hw w) -> sm_ok (set_hw w h);
  sm_read_ok w off old : sm_ok w -> in_range 8 off ->
    wp (sm_read off old) (fun r w' =>
      (if sm_good off then r = (IXGBE_SUCCESS, sm_byte off) else fst r <> IXGBE_SUCCESS) /\
      sm_ok w' /\ w_hw w' = w_hw w) w;
}.

Section Policy.
Context `{D : Mmio} `{!SfpModule}.
Context (get_media_type : M ixgbe_media_type) (set_lan_id : M unit) (get_device_caps : Z -> M (Z * Z)).
Context (lan caps : Z).

(** the other operations: which port this is, and the capability word *)
Record sfp_ops : Prop := {
  so_media w : sm_ok w -> wp get_media_type (fun _ w' => sm_ok w' /\ w_hw w' = w_hw w) w;
  so_lan w : sm_ok w -> wp set_lan_id (fun _ w' => sm_ok w' /\ w_hw w' = upd_bus_lan_id lan (w_hw w)) w;
  so_caps w : sm_ok w -> wp (get_device_caps 0) (fun r w' => snd r = caps /\ sm_ok w' /\ w_hw w' = w_hw w) w;
}.
Context (ops : sfp_ops).

Abbreviation b1g := (sm_byte IXGBE_SFF_1GBE_COMP_CODES).
Abbreviation b10g := (sm_byte IXGBE_SFF_10GBE_COMP_CODES).
Abbreviation btech := (sm_byte IXGBE_SFF_CABLE_TECHNOLOGY).

(** *** The memory map of a module (SFF-8472), in bytes and bits

    Byte 0 is the identifier (3: SFP); byte 3 has the 10G Ethernet codes (bit 4
    SR, 5 LR), byte 6 the 1G ones (bit 0 SX, 1 LX, 3 T); byte 8 has the cable
    technology (bit 2 passive, 3 active), byte 60 of an active cable whether it is
    limiting (bit 2); bytes 37 to 39 are the vendor's OUI. *)
Definition m_bit (off i : Z) : bool := Z.testbit (sm_byte off) i.
Definition is_da : bool := m_bit 8 2 || m_bit 8 3.
Definition is_1g : bool := negb (m_bit 3 4 || m_bit 3 5) && (m_bit 6 3 || (m_bit 6 0 || m_bit 6 1)).
Definition made_by (a b c : Z) : Prop := sm_byte 37 = a /\ sm_byte 38 = b /\ sm_byte 39 = c.

(** the first row whose bit is set gives the type: on the 82598 the value of the
    enumerator, on the later MACs that of the enumerator for the first port, the
    one for the second port following it *)
Fixpoint first_row (rows : list (Z * Z * option Z)) : option Z :=
  match rows with
  | [] => None
  | (off, i, ty) :: rows' => if m_bit off i then ty else first_row rows'
  end.
Definition rows_82598 : list (Z * Z * option Z) := [(8, 2, Some 0); (3, 4, Some 1); (3, 5, Some 2)].
Definition rows_82599 (limiting : bool) : list (Z * Z * option Z) :=
  [(8, 2, Some 3); (8, 3, if limiting then Some 7 else None); (3, 4, Some 5); (3, 5, Some 5);
   (6, 3, Some 9); (6, 0, Some 11); (6, 1, Some 13)].
Definition unknown_val : Z := 0xFFFF.
(** the type [ty] is right for the module in port [lan]; the byte that tells
    whether an active cable is limiting may be unreadable, and then anything goes *)
Definition type_right (t : ixgbe_mac_type) (ty : ixgbe_sfp_type) : Prop :=
  if bool_decide (t = ixgbe_mac_82598EB) then sfp_type_val ty = default unknown_val (first_row rows_82598)
  else exists limiting, (sm_good 60 = true -> limiting = m_bit 60 2) /\
    sfp_type_val ty = match first_row (rows_82599 limiting) with
                      | Some v => v + (if lan =? 0 then 0 else 1)
                      | None => unknown_val
                      end.

(** the reasons to accept a module; [old] is the PHY type before *)
Definition acceptable (t : ixgbe_mac_type) (allow : bool) (old : ixgbe_phy_type) : Prop :=
  sm_byte 0 = 3 /\
  (is_da = true \/ t = ixgbe_mac_82598EB \/ is_1g = true \/
   has caps IXGBE_DEVICE_CAPS_ALLOW_ANY_SFP = true \/ allow = true \/
   made_by 0x00 0x1B 0x21 \/
   made_by 0x00 0x40 0x76 /\ old = ixgbe_phy_sfp_intel).

(** what the caller may conclude from the status *)
Definition sfp_outcome (h : ixgbe_hw) (st : Z) (h' : ixgbe_hw) : Prop :=
  (st = IXGBE_SUCCESS /\ acceptable (mac_type (mac h)) (allow_unsupported_sfp h) (phy_type (phy h)) /\
   type_right (mac_type (mac h)) (sfp_type (phy h'))) \/
  (st = IXGBE_ERR_SFP_NOT_PRESENT /\ sfp_type (phy h') = ixgbe_sfp_type_not_present) \/
  (st = IXGBE_ERR_SFP_NOT_SUPPORTED /\ phy_type (phy h') = ixgbe_phy_sfp_unsupported).

(** *** The driver's decoding agrees with the memory map *)
Definition module_oui : Z :=
  vendor_oui (sm_byte IXGBE_SFF_VENDOR_OUI_BYTE0) (sm_byte IXGBE_SFF_VENDOR_OUI_BYTE1) (sm_byte IXGBE_SFF_VENDOR_OUI_BYTE2).
Definition module_type (t : ixgbe_mac_type) (spec : Z) : ixgbe_sfp_type :=
  if bool_decide (t = ixgbe_mac_82598EB) then sfp_type_82598 btech b10g
  else sfp_type_82599 lan btech spec b10g b1g.

Lemma has_lor x m n : has x (Z.lor m n) = has x m || has x n.
Proof using.
  unfold has. rewrite Z.land_lor_distr_r. destruct (Z.eqb_spec (Z.land x m) 0) as [->|N]; [done|].
  destruct (Z.eqb_spec (Z.lor (Z.land x m) (Z.land x n)) 0) as [E|]; [|done]. apply Z.lor_eq_0_iff in E. tauto.
Qed.
(** masks of one bit *)
Lemma sff_bits x : has x IXGBE_SFF_DA_PASSIVE_CABLE = Z.testbit x 2 /\ has x IXGBE_SFF_DA_ACTIVE_CABLE = Z.testbit x 3 /\
  has x IXGBE_SFF_10GBASESR_CAPABLE = Z.testbit x 4 /\ has x IXGBE_SFF_10GBASELR_CAPABLE = Z.testbit x 5 /\
  has x IXGBE_SFF_1GBASET_CAPABLE = Z.testbit x 3 /\ has x IXGBE_SFF_1GBASESX_CAPABLE = Z.testbit x 0 /\
  has x IXGBE_SFF_1GBASELX_CAPABLE = Z.testbit x 1 /\ has x IXGBE_SFF_DA_SPEC_ACTIVE_LIMITING = Z.testbit x 2.
Proof using. split_and!; by rewrite <- has_bit. Qed.

Lemma da_bits : has btech (Z.lor IXGBE_SFF_DA_PASSIVE_CABLE IXGBE_SFF_DA_ACTIVE_CABLE) = is_da.
Proof using. rewrite has_lor. by destruct (sff_bits btech) as (-> & -> & _). Qed.

Lemma module_type_right t spec : (m_bit 8 2 = false -> m_bit 8 3 = true -> sm_good 60 = true -> spec = sm_byte 60) ->
  type_right t (module_type t spec).
Proof using.
  intros Hs. unfold type_right, module_type. destruct (bool_decide _).
  - unfold sfp_type_82598. destruct (sff_bits btech) as (-> & _). destruct (sff_bits b10g) as (_ & _ & -> & -> & _).
    unfold rows_82598. cbn [first_row]. unfold m_bit.
    change IXGBE_SFF_CABLE_TECHNOLOGY with 8. change IXGBE_SFF_10GBE_COMP_CODES with 3.
    destruct (Z.testbit (sm_byte 8) 2), (Z.testbit (sm_byte 3) 4), (Z.testbit (sm_byte 3) 5); reflexivity.
  - unfold sfp_type_82599. rewrite has_lor. destruct (sff_bits btech) as (-> & -> & _).
    destruct (sff_bits b10g) as (_ & _ & -> & -> & _). destruct (sff_bits b1g) as (_ & _ & _ & _ & -> & -> & -> & _).
    destruct (sff_bits spec) as (_ & _ & _ & _ & _ & _ & _ & ->).
    change IXGBE_SFF_CABLE_TECHNOLOGY with 8. change IXGBE_SFF_10GBE_COMP_CODES with 3. change IXGBE_SFF_1GBE_COMP_CODES with 6.
    unfold m_bit in *. exists (if Z.testbit (sm_byte 8) 2 || negb (Z.testbit (sm_byte 8) 3) then Z.testbit (sm_byte 60) 2 else Z.testbit spec 2).
    unfold rows_82599. cbn [first_row]. unfold m_bit. destruct (Z.testbit (sm_byte 8) 2) eqn:E2; cbn [orb negb].
    { split; [done|]. by destruct (lan =? 0). }
    destruct (Z.testbit (sm_byte 8) 3) eqn:E3; cbn [orb negb].
    { split; [intros Hg; by rewrite Hs|]. destruct (Z.testbit spec 2); [by destruct (lan =? 0)|done]. }
    split; [done|].
    destruct (Z.testbit (sm_byte 3) 4), (Z.testbit (sm_byte 3) 5), (Z.testbit (sm_byte 6) 3), (Z.testbit (sm_byte 6) 0),
      (Z.testbit (sm_byte 6) 1), (lan =? 0); reflexivity.
Qed.

(** the driver compares the OUI shifted by a byte *)
Lemma vendor_oui_bytes a b c a' b' c' : in_range 8 a -> in_range 8 b -> in_range 8 c ->
  in_range 8 a' -> in_range 8 b' -> in_range 8 c' ->
  vendor_oui a b c = vendor_oui a' b' c' -> a = a' /\ b = b' /\ c = c'.
Proof using.
  intros Ha Hb Hc Ha' Hb' Hc' E.
  assert (Hbit : forall i, 0 <= i < 8 -> Z.testbit a i = Z.testbit a' i /\ Z.testbit b i = Z.testbit b' i /\ Z.testbit c i = Z.testbit c' i).
  { intros i Hi.
    assert (Hx : forall x y z k, in_range 8 x -> in_range 8 y -> in_range 8 z -> 0 <= k < 32 ->
      Z.testbit (vendor_oui x y z) k = Z.testbit x (k - 24) || Z.testbit y (k - 16) || Z.testbit z (k - 8)).
    { intros x y z k _ _ _ Hk. unfold vendor_oui. rewrite testbit_trunc, !Z.lor_spec, !Z.shiftl_spec by lia.
      by destruct (Z.ltb_spec k 32); [|lia]. }
    assert (Hl : forall x k, in_range 8 x -> 8 <= k -> Z.testbit x k = false) by (intros; by apply (testbit_range 8)).
    pose proof (f_equal (fun v => Z.testbit v (24 + i)) E) as E1. pose proof (f_equal (fun v => Z.testbit v (16 + i)) E) as E2.
    pose proof (f_equal (fun v => Z.testbit v (8 + i)) E) as E3. cbv beta in E1, E2, E3.
    rewrite !Hx in E1, E2, E3 by (done || lia).
    rewrite (Hl b), (Hl b'), (Hl c), (Hl c'), !orb_false_r in E1 by (done || lia).
    rewrite (Z.testbit_neg_r a), (Z.testbit_neg_r a'), (Hl c), (Hl c'), !orb_false_r in E2 by (done || lia).
    rewrite (Z.testbit_neg_r a), (Z.testbit_neg_r a'), (Z.testbit_neg_r b), (Z.testbit_neg_r b') in E3 by (done || lia).
    cbn [orb] in E2, E3. replace (24 + i - 24) with i in E1 by lia. replace (16 + i - 16) with i in E2 by lia.
    by replace (8 + i - 8) with i in E3 by lia. }
  assert (Hinj : forall x y, in_range 8 x -> in_range 8 y -> (forall i, 0 <= i < 8 -> Z.testbit x i = Z.testbit y i) -> x = y).
  { intros x y Hx Hy Hxy. apply Z.bits_inj'. intros i Hi. destruct (Z.ltb_spec i 8); [by apply Hxy|].
    by rewrite !(testbit_range 8). }
  split_and!; apply Hinj; try done; intros i Hi; by destruct (Hbit i Hi) as (? & ? & ?).
Qed.
Lemma oui_intel_bytes : module_oui = IXGBE_SFF_VENDOR_OUI_INTEL -> made_by 0x00 0x1B 0x21.
Proof using.
  change IXGBE_SFF_VENDOR_OUI_INTEL with (vendor_oui 0x00 0x1B 0x21). apply vendor_oui_bytes; (apply sm_byte_range || done).
Qed.
Lemma oui_tyco_bytes : module_oui = IXGBE_SFF_VENDOR_OUI_TYCO -> made_by 0x00 0x40 0x76.
Proof using.
  change IXGBE_SFF_VENDOR_OUI_TYCO with (vendor_oui 0x00 0x40 0x76). apply vendor_oui_bytes; (apply sm_byte_range || done).
Qed.

(** the module is reachable and the software state is [h] with another [phy] *)
Definition at_hw (h : ixgbe_hw) (w : world) : Prop := sm_ok w /\ w_hw w = h.

Lemma wp_mod_phy f (Q : unit -> world -> Prop) h w : at_hw h w ->
  i2c_state (upd_phy (f (phy h)) h) = i2c_state h ->
  (forall w', at_hw (upd_phy (f (phy h)) h) w' -> Q tt w') -> wp (mod_phy f) Q w.
Proof using.
  intros [Hok <-] Hs HQ. unfold mod_phy. apply wp_upd_hw. apply HQ. split; [by apply (sm_hw w)|done].
Qed.
Lemma wp_get_at (Q : ixgbe_hw -> world -> Prop) h w : at_hw h w -> Q h w -> wp get_hw Q w.
Proof using. intros [_ <-]. apply wp_get_hw. Qed.

(** a checked read either gives the byte or goes to the error exit *)
Lemma wp_sfp_read off err k (Q : Z -> world -> Prop) h w : at_hw h w -> in_range 8 off ->
  (forall w', at_hw h w' -> wp err Q w') -> (forall w', at_hw h w' -> wp (k (sm_byte off)) Q w') ->
  wp (sfp_read sm_read off err k) Q w.
Proof using.
  intros [Hok <-] Ho He Hk. unfold sfp_read. wp_step. eapply wp_mono; [by apply sm_read_ok|].
  intros [st v] w' (Hr & Hok' & Hh). destruct (Z.eqb_spec st IXGBE_SUCCESS) as [->|Hne].
  - destruct (sm_good off); [|done]. injection Hr as ->. cbn [negb]. by apply Hk.
  - cbn [negb]. by apply He.
Qed.

Definition same_static (h h' : ixgbe_hw) : Prop := mac h' = mac h /\ allow_unsupported_sfp h' = allow_unsupported_sfp h.

Lemma sfp_err_read_outcome h0 h w : at_hw h w -> wp sfp_err_read (fun st w' => sfp_outcome h0 st (w_hw w')) w.
Proof using.
  intros Hw. unfold sfp_err_read. wp_step. eapply (wp_mod_phy (upd_sfp_type ixgbe_sfp_type_not_present)); [done|reflexivity|]. intros w1 H1. wp_step.
  eapply wp_get_at; [done|]. wp_step. wp_step.
  - wp_step. eapply (wp_mod_phy (upd_phy_id 0)); [done|reflexivity|]. intros w2 H2. eapply (wp_mod_phy (upd_phy_type _)); [done|reflexivity|]. intros w3 [_ H3].
    wp_step. right. left. by rewrite H3.
  - wp_step. wp_step. right. left. destruct H1 as [_ ->]. done.
Qed.
(** on the later MACs, what is not a cable has a 1G type exactly when it is for 1G only *)
Lemma module_type_1g t spec : is_da = false -> t <> ixgbe_mac_82598EB -> sfp_1g (module_type t spec) = is_1g.
Proof using.
  unfold is_da, module_type, is_1g. intros Hd Ht. apply orb_false_iff in Hd as [H1 H2]. unfold m_bit in *.
  rewrite bool_decide_eq_false_2 by done. unfold sfp_type_82599. rewrite has_lor.
  destruct (sff_bits btech) as (-> & -> & _). destruct (sff_bits b10g) as (_ & _ & -> & -> & _).
  destruct (sff_bits b1g) as (_ & _ & _ & _ & -> & -> & -> & _).
  change IXGBE_SFF_CABLE_TECHNOLOGY with 8. change IXGBE_SFF_10GBE_COMP_CODES with 3. change IXGBE_SFF_1GBE_COMP_CODES with 6.
  rewrite H1, H2. destruct (Z.testbit (sm_byte 3) 4), (Z.testbit (sm_byte 3) 5), (Z.testbit (sm_byte 6) 3), (Z.testbit (sm_byte 6) 0),
      (Z.testbit (sm_byte 6) 1), (lan =? 0); reflexivity.
Qed.
Lemma vendor_intel old : sfp_vendor_type module_oui btech old = ixgbe_phy_sfp_intel ->
  module_oui = IXGBE_SFF_VENDOR_OUI_INTEL \/ module_oui = IXGBE_SFF_VENDOR_OUI_TYCO /\ old = ixgbe_phy_sfp_intel.
Proof using.
  unfold sfp_vendor_type. destruct (Z.eqb_spec module_oui IXGBE_SFF_VENDOR_OUI_TYCO).
  { destruct (has btech _); [done|]. by right. }
  destruct (_ =? IXGBE_SFF_VENDOR_OUI_FTL); [by destruct (has btech _)|].
  destruct (_ =? IXGBE_SFF_VENDOR_OUI_AVAGO); [done|].
  destruct (Z.eqb_spec module_oui IXGBE_SFF_VENDOR_OUI_INTEL); [by left|].
  destruct (has btech _); [done|]. by destruct (has btech _).
Qed.

Definition intel_known (old : ixgbe_phy_type) (h : ixgbe_hw) : Prop := phy_type (phy h) = ixgbe_phy_sfp_intel ->
  module_oui = IXGBE_SFF_VENDOR_OUI_INTEL \/ module_oui = IXGBE_SFF_VENDOR_OUI_TYCO /\ old = ixgbe_phy_sfp_intel.

Lemma sfp_policy_outcome h0 h spec w : at_hw h w -> same_static h0 h ->
  sm_byte IXGBE_SFF_IDENTIFIER = IXGBE_SFF_IDENTIFIER_SFP ->
  sfp_type (phy h) = module_type (mac_type (mac h0)) spec -> type_right (mac_type (mac h0)) (sfp_type (phy h)) ->
  intel_known (phy_type (phy h0)) h ->
  wp (sfp_policy get_device_caps btech b10g) (fun st w' => sfp_outcome h0 st (w_hw w')) w.
Proof using ops.
  intros Hw [Hm Ha] Hid Ht Htr Hi. unfold sfp_policy. wp_step. eapply wp_get_at; [done|].
  assert (good : acceptable (mac_type (mac h0)) (allow_unsupported_sfp h0) (phy_type (phy h0)) ->
    sfp_outcome h0 IXGBE_SUCCESS h) by (intros; by left).
  assert (bad : forall w1, at_hw h w1 -> wp (mod_phy (upd_phy_type ixgbe_phy_sfp_unsupported) ;; mret IXGBE_ERR_SFP_NOT_SUPPORTED)
    (fun st w' => sfp_outcome h0 st (w_hw w')) w1).
  { intros w1 H1. wp_step. eapply (wp_mod_phy (upd_phy_type _)); [done|reflexivity|]. intros w2 [_ H2]. wp_step.
    right; right. by rewrite H2. }
  rewrite da_bits. destruct is_da eqn:Eda. { wp_step. rewrite (proj2 Hw). apply good. split; [done|]. by left. }
  wp_step. { by apply bad. }
  rewrite Hm. destruct (bool_decide_reflect (mac_type (mac h0) = ixgbe_mac_82598EB)) as [E|E].
  { wp_step. rewrite (proj2 Hw). apply good. split; [done|]. auto. }
  unfold sfp_enforce. wp_step. eapply wp_mono; [apply (so_caps ops), Hw|]. intros r w1 (-> & Hok1 & Hh1).
  rewrite (proj2 Hw) in Hh1. wp_step. eapply wp_get_at; [by split|].
  rewrite Ht, module_type_1g by done. assert (Hok : at_hw h w1) by by split.
  assert (ret : acceptable (mac_type (mac h0)) (allow_unsupported_sfp h0) (phy_type (phy h0)) ->
    wp (mret IXGBE_SUCCESS) (fun st w' => sfp_outcome h0 st (w_hw w')) w1).
  { intros. wp_step. rewrite Hh1. by apply good. }
  destruct (has caps IXGBE_DEVICE_CAPS_ALLOW_ANY_SFP) eqn:Ec; cbn [negb andb]. { apply ret. split; [done|]. tauto. }
  destruct is_1g eqn:E1; cbn [negb]. { apply ret. split; [done|]. tauto. }
  destruct (bool_decide_reflect (phy_type (phy h) = ixgbe_phy_sfp_intel)) as [Ei|Ei].
  { apply ret. split; [done|]. destruct (Hi Ei) as [Hv|[Hv Ho]];
      [apply oui_intel_bytes in Hv|apply oui_tyco_bytes in Hv]; tauto. }
  rewrite Ha. destruct (allow_unsupported_sfp h0) eqn:Eu; [|by apply bad].
  apply ret. split; [done|]. tauto.
Qed.

(** the error exit, for any reading *)
Local Ltac sfp_byte := eapply wp_sfp_read; [eassumption|done|intros; by eapply sfp_err_read_outcome|].

Lemma sfp_vendor_outcome h0 h spec w : at_hw h w -> same_static h0 h -> phy_type (phy h) = phy_type (phy h0) ->
  sm_byte IXGBE_SFF_IDENTIFIER = IXGBE_SFF_IDENTIFIER_SFP -> sfp_type (phy h) = module_type (mac_type (mac h0)) spec ->
  type_right (mac_type (mac h0)) (sfp_type (phy h)) ->
  wp (sfp_vendor sm_read (sm_byte IXGBE_SFF_IDENTIFIER) btech (sfp_policy get_device_caps btech b10g))
    (fun st w' => sfp_outcome h0 st (w_hw w')) w.
Proof using ops.
  intros Hw Hs Hp Hid Ht Htr. unfold sfp_vendor. wp_step. eapply wp_get_at; [done|].
  destruct (bool_decide_reflect (phy_type (phy h) = ixgbe_phy_nl)) as [E|E]; cbn [negb].
  - eapply sfp_policy_outcome; [done..|]. intros Ei. congruence.
  - wp_step. eapply (wp_mod_phy (upd_phy_id _)); [done|reflexivity|]. intros w1 H1.
    sfp_byte. intros w2 H2. sfp_byte. intros w3 H3. sfp_byte. intros w4 H4. wp_step.
    eapply (wp_mod_phy (fun p => upd_phy_type _ p)); [done|reflexivity|]. intros w5 H5.
    eapply sfp_policy_outcome; [exact H5|exact Hs|done|exact Ht|exact Htr|]. intros Ei. rewrite <- Hp. by apply vendor_intel.
Qed.
(** classification keeps everything but the type of the module *)
Lemma sfp_classify_type h (Q : unit -> world -> Prop) w : at_hw h w -> bus_lan_id h = lan ->
  (forall w' h' spec, at_hw h' w' -> same_static h h' -> phy_type (phy h') = phy_type (phy h) ->
     sfp_type (phy h') = module_type (mac_type (mac h)) spec -> type_right (mac_type (mac h)) (sfp_type (phy h')) -> Q tt w') ->
  wp (sfp_classify sm_read btech b10g b1g) Q w.
Proof using.
  intros Hw Hl HQ. unfold sfp_classify. wp_step. eapply wp_get_at; [done|].
  destruct (bool_decide _) eqn:E.
  - eapply (wp_mod_phy (upd_sfp_type _)); [done|reflexivity|]. intros w1 H1. pose proof E as E'.
    apply bool_decide_eq_true in E'. assert (Et : sfp_type_82598 btech b10g = module_type (mac_type (mac h)) (sm_byte 60))
      by (unfold module_type; by rewrite E).
    eapply (HQ _ _ (sm_byte 60) H1); [done|done|exact Et|]. cbn. rewrite Et. by apply module_type_right.
  - wp_step. eapply wp_mono with (P := fun spec w' => at_hw h w' /\
      (m_bit 8 2 = false -> m_bit 8 3 = true -> sm_good 60 = true -> spec = sm_byte 60)).
    + destruct (sff_bits btech) as (-> & -> & _). change (Z.testbit btech) with (m_bit 8).
      destruct (m_bit 8 2) eqn:E2, (m_bit 8 3) eqn:E3; cbn [negb andb].
      1, 2, 4: wp_step; split; [done|]; by intros.
      wp_step. destruct Hw as [Hok Hh]. eapply wp_mono; [by apply sm_read_ok|].
      intros r w1 (Hr & Hok1 & Hh1). wp_step. split; [split; [done|congruence]|]. intros _ _ Hg.
      change IXGBE_SFF_CABLE_SPEC_COMP with 60 in Hr. rewrite Hg in Hr. by rewrite Hr.
    + intros spec w1 [H1 Hsp]. wp_step. eapply wp_get_at; [done|].
      eapply (wp_mod_phy (upd_sfp_type _)); [done|reflexivity|]. intros w2 H2.
      assert (Et : sfp_type_82599 (bus_lan_id h) btech spec b10g b1g = module_type (mac_type (mac h)) spec)
        by (unfold module_type; by rewrite E, Hl).
      eapply (HQ _ _ spec H2); [done|done|exact Et|]. cbn. rewrite Et. by apply module_type_right.
Qed.
Lemma sfp_record_kept h stored a b (Q : unit -> world -> Prop) w : at_hw h w ->
  (forall w' h', at_hw h' w' -> same_static h h' -> phy_type (phy h') = phy_type (phy h) ->
     sfp_type (phy h') = sfp_type (phy h) -> Q tt w') ->
  wp (sfp_record stored a b) Q w.
Proof using.
  intros Hw HQ. unfold sfp_record. wp_step. eapply wp_get_at; [done|]. wp_step. wp_step.
  - eapply (wp_mod_phy (upd_sfp_setup_needed true)); [done|reflexivity|]. intros w1 H1.
    eapply (wp_mod_phy (upd_multispeed_fiber _)); [done|reflexivity|]. intros w2 H2. by eapply (HQ _ _ H2).
  - wp_step. eapply (wp_mod_phy (upd_multispeed_fiber _)); [done|reflexivity|]. intros w2 H2. by eapply (HQ _ _ H2).
Qed.

(** C12: The driver accepts an SFP module only for a reason: whatever the bytes of the
    module and whichever of them cannot be read, [ixgbe_identify_sfp_module_generic]
    returns success only for an SFP identifier and a direct-attach cable, an 82598, a
    module for 1G only, an adapter whose capability word allows any module, a driver
    told to allow unsupported modules, or the OUI 00:1B:21 of Intel - or 00:40:76 of
    Tyco if the module before it was one of Intel, since the PHY type is then left as
    it was.  The recorded type is then the one that the bits of the SFF-8472 memory
    map give for this MAC and this port (an active cable whose specification byte
    cannot be read gets either of two types).  Otherwise the status is NOT_PRESENT
    and the type says so, or NOT_SUPPORTED and the PHY type says so. *)
Theorem sfp_accepted_for_reason w : sm_ok w ->
  wp (ixgbe_identify_sfp_module_generic get_media_type set_lan_id sm_read get_device_caps)
    (fun st w' => sfp_outcome (w_hw w) st (w_hw w')) w.
Proof using ops.
  intros Hok. set (h0 := w_hw w). unfold ixgbe_identify_sfp_module_generic. wp_step. eapply wp_get_at; [by split|].
  wp_step. eapply wp_mono; [by apply (so_media ops)|]. intros media w1 (Hok1 & Hh1). fold h0 in Hh1. wp_step.
  { unfold sfp_absent. wp_step. eapply (wp_mod_phy (upd_sfp_type _)); [by split|reflexivity|]. intros w2 [_ H2]. wp_step.
    right; left. by rewrite H2. }
  wp_step. eapply wp_mono; [by apply (so_lan ops)|]. intros [] w2 H2. rewrite Hh1 in H2.
  change (at_hw (upd_bus_lan_id lan h0) w2) in H2. set (h2 := upd_bus_lan_id lan h0) in *.
  sfp_byte. intros w3 H3. destruct (Z.eqb_spec (sm_byte IXGBE_SFF_IDENTIFIER) IXGBE_SFF_IDENTIFIER_SFP) as [Ei|Ei]; cbn [negb].
  2: { wp_step. eapply (wp_mod_phy (upd_phy_type _)); [done|reflexivity|]. intros w4 [_ H4]. wp_step. right; right. by rewrite H4. }
  sfp_byte. intros w4 H4. sfp_byte. intros w5 H5. sfp_byte. intros w6 H6. wp_step.
  apply (sfp_classify_type h2); [done..|]. intros w7 h7 spec H7 [S7 S7'] P7 T7 R7. wp_step.
  apply (sfp_record_kept h7); [done|]. intros w8 h8 H8 [S8 S8'] P8 T8.
  apply (sfp_vendor_outcome h0 h8 spec); [done| |by rewrite P8, P7|done| |].
  - split; [by rewrite S8, S7|by rewrite S8', S7'].
  - by rewrite T8, T7.
  - by rewrite T8.
Qed.
End Policy.

(** ** The module behind the I2C pins *)
Section OverI2c.
Context `{D : Mmio} (h0 : ixgbe_hw) `{B : !I2cBus D sfp_module h0}.
Context (acquire : Z -> M Z) (release : Z -> M unit).
Context (bytes : list Z) (bytes_ok : Forall (in_range 8) bytes) (bytes_256 : length bytes = 256%nat).

(** the layout of I2CCTL depends on the MAC only *)
Lemma by_mvals_eq h h' a b c d e : mvals h = mvals h' -> by_mvals h a b c d e = by_mvals h' a b c d e.
Proof using. unfold by_mvals. by intros ->. Qed.
Lemma scl_mvals h h' v : mvals h = mvals h' -> scl h v = scl h' v.
Proof using. intros E. unfold scl, clk_mask, IXGBE_I2C_CLK_OUT_BY_MAC, IXGBE_I2C_CLK_OE_N_EN_BY_MAC. by rewrite !(by_mvals_eq h h'). Qed.
Lemma sda_mvals h h' v : mvals h = mvals h' -> sda h v = sda h' v.
Proof using. intros E. unfold sda, data_mask, IXGBE_I2C_DATA_OUT_BY_MAC, IXGBE_I2C_DATA_OE_N_EN_BY_MAC. by rewrite !(by_mvals_eq h h'). Qed.
Definition bus_for (h : ixgbe_hw) (E : mvals h = mvals h0) : I2cBus D sfp_module h.
Proof using B.
  refine {| pins := pins; on_bus := on_bus |}.
  - intros d v d'. unfold IXGBE_I2CCTL_BY_MAC, IXGBE_I2C_CLK_IN_BY_MAC, IXGBE_I2C_DATA_IN_BY_MAC.
    rewrite !(by_mvals_eq h h0), !(scl_mvals h h0), !(sda_mvals h h0) by done. apply i2c_read.
  - intros d v. unfold IXGBE_I2CCTL_BY_MAC. rewrite !(by_mvals_eq h h0), !(scl_mvals h h0), !(sda_mvals h h0) by done. apply i2c_write.
  - apply i2c_status.
  - apply i2c_delay.
Defined.

Lemma bus_mvals h h' (E : mvals h = mvals h0) (E' : mvals h' = mvals h0) s w :
  bus (B := bus_for h E) h true true s w -> bus (B := bus_for h' E') h' true true s (set_hw w h').
Proof using.
  intros [B1 B2 B3 B4]. split; [done| | |exact B4].
  - exact (eq_trans (scl_mvals h' h _ (eq_trans E' (eq_sym E))) B2).
  - exact (eq_trans (sda_mvals h' h _ (eq_trans E' (eq_sym E))) B3).
Qed.

(** the lock of the bus is free in every state of the software *)
Context (lock_ok : forall h (E : mvals h = mvals h0), hw_addr h = true ->
  has (nw_mng_if_sel (phy h)) IXGBE_NW_MNG_IF_SEL_SGMII_ENABLE = false ->
  i2c_ready (B := bus_for h E) h acquire release).

(** reachable: the bus is idle and the module, at address 0xA0, holds [bytes] *)
Record on_i2c (w : world) : Prop := {
  oi_mvals : mvals (w_hw w) = mvals h0;
  oi_addr : hw_addr (w_hw w) = true;
  oi_sgmii : has (nw_mng_if_sel (phy (w_hw w))) IXGBE_NW_MNG_IF_SEL_SGMII_ENABLE = false;
  oi_bus : exists p, bus (B := bus_for (w_hw w) oi_mvals) (w_hw w) true true (idle IXGBE_I2C_EEPROM_DEV_ADDR bytes p : slave) w;
}.

Definition i2c_eeprom (off old : Z) : M (Z * Z) :=
  ixgbe_read_i2c_eeprom_generic (fun off addr _ => ixgbe_read_i2c_byte_generic acquire release off addr) off old.

Lemma i2c_eeprom_reads w off old : on_i2c w -> in_range 8 off ->
  wp (i2c_eeprom off old) (fun r w' => r = (IXGBE_SUCCESS, nth (Z.to_nat off) bytes 0) /\ on_i2c w' /\ w_hw w' = w_hw w) w.
Proof using lock_ok bytes_ok bytes_256.
  intros [E Ha Hg [p Hb]] Ho. destruct (lock_ok _ E Ha Hg) as [R1 R2 R3 R4].
  unfold i2c_eeprom, ixgbe_read_i2c_eeprom_generic, ixgbe_read_i2c_byte_generic.
  assert (L : (Z.to_nat off < length bytes)%nat) by (unfold in_range in Ho; lia).
  destruct (lookup_lt_is_Some_2 _ _ L) as [y Hy]. rewrite (nth_lookup_Some _ _ _ _ Hy).
  eapply wp_mono; [by eapply (wp_read_byte (B := bus_for _ E) (w_hw w))|]. cbv beta.
  assert (Hn : exists n, read_attempts (w_hw w) off IXGBE_I2C_EEPROM_DEV_ADDR = S n).
  { unfold read_attempts. destruct (ixgbe_is_sfp_probe _ _ _); [by eexists|]. destruct (_ <=? _); by eexists. }
  destruct Hn as [n ->]. cbn [p_read_retry]. rewrite (module_read IXGBE_I2C_EEPROM_DEV_ADDR ltac:(done) ltac:(done) _ _ _ y) by done.
  intros r w' [Hb' ->]. pose proof (b_hw _ _ _ _ _ Hb') as Hh. split; [done|]. split; [|done].
  assert (E' : mvals (w_hw w') = mvals h0) by by rewrite Hh.
  unshelve eexists; [done|by rewrite Hh|by rewrite Hh|]. exists (next_ptr off).
  pose proof (bus_mvals _ _ E E' _ _ Hb') as H. by replace (set_hw w' (w_hw w')) with w' in H by by destruct w'.
Qed.

#[export] Instance i2c_module : SfpModule.
Proof using lock_ok bytes_ok bytes_256.
  refine {| sm_read := i2c_eeprom; sm_ok := on_i2c; sm_byte off := nth (Z.to_nat off) bytes 0; sm_good _ := true |}.
  - intros off. destruct (bytes !! Z.to_nat off) as [y|] eqn:Hy.
    + rewrite (nth_lookup_Some _ _ _ _ Hy). by eapply Forall_lookup_1 in bytes_ok.
    + rewrite nth_overflow; [done|]. by apply lookup_ge_None.
  - intros w h [E Ha Hg [p Hb]] [= E1 E2 E3 E4].
    assert (E' : mvals h = mvals h0) by congruence.
    unshelve eexists; [done|cbn; congruence|cbn; congruence|]. exists p. by apply (bus_mvals (w_hw w) _ E).
  - intros w off old Hok Ho. eapply wp_mono; [by apply i2c_eeprom_reads|]. intros r w' (-> & H). done.
Defined.
End OverI2c.



(** ** Concrete modules *)
(** an optical 10GBASE-SR module of the vendor with this OUI *)
Definition sr_module (oui : list Z) : list Z :=
  <[3%nat := 0x10]> (<[0%nat := 3]> (replicate 0x25 0)) ++ oui ++ replicate (256 - 0x25 - 3) 0.
Definition oui_intel : list Z := [0x00; 0x1B; 0x21].
Definition oui_tyco : list Z := [0x00; 0x40; 0x76].
(** the adapter, after a module that left the PHY type [t] *)
Definition hw_after (t : ixgbe_phy_type) : ixgbe_hw := upd_phy (upd_phy_type t (phy hw0)) hw0.
Definition sfp_world (oui : list Z) (t : ixgbe_phy_type) : world (H := pin_mmio hw0) :=
  mk_world (pin_mmio hw0) (hw_after t) (pins_high hw0, idle IXGBE_I2C_EEPROM_DEV_ADDR (sr_module oui) 0) [].
Section Concrete.
#[local] Instance pin0 : Mmio := pin_mmio hw0.
Definition media0 : M ixgbe_media_type := mret ixgbe_media_type_fiber.
Definition lan0 : M unit := upd_hw (upd_bus_lan_id 0).
Definition caps0 (old : Z) : M (Z * Z) := mret (0, 0).
(** through the table of operations *)
Definition identify : M Z :=
  r ← ixgbe_init_phy_ops_generic (D := pin0) lock_free lock_done media0 lan0 caps0 0;
  op_identify_sfp (snd r).
Definition identified (oui : list Z) (t : ixgbe_phy_type) : option (Z * ixgbe_sfp_type * ixgbe_phy_type) :=
  match identify (sfp_world oui t) with
  | Done st w => Some (st, sfp_type (phy (w_hw w)), phy_type (phy (w_hw w)))
  | Fault _ => None
  end.

(** the whole way, bit by bit over the I2C pins *)
Example identify_intel :
  identified oui_intel ixgbe_phy_unknown = Some (IXGBE_SUCCESS, ixgbe_sfp_type_srlr_core0, ixgbe_phy_sfp_intel).
Proof. by vm_compute. Qed.
(** the same module of Tyco is refused, unless a module of Intel was there before *)
Example identify_tyco :
  identified oui_tyco ixgbe_phy_unknown =
    Some (IXGBE_ERR_SFP_NOT_SUPPORTED, ixgbe_sfp_type_srlr_core0, ixgbe_phy_sfp_unsupported) /\
  identified oui_tyco ixgbe_phy_sfp_intel = Some (IXGBE_SUCCESS, ixgbe_sfp_type_srlr_core0, ixgbe_phy_sfp_intel).
Proof. by vm_compute. Qed.

Lemma pin_lock_ok h (E : mvals h = mvals hw0) : hw_addr h = true ->
  has (nw_mng_if_sel (phy h)) IXGBE_NW_MNG_IF_SEL_SGMII_ENABLE = false ->
  i2c_ready (D := pin0) (B := bus_for hw0 h E) h lock_free lock_done.
Proof. by split. Qed.
Lemma sr_module_ok oui : Forall (in_range 8) oui -> Forall (in_range 8) (sr_module oui).
Proof.
  intros H. unfold sr_module. apply Forall_app. split.
  - apply Forall_insert; [apply Forall_insert; [by apply Forall_replicate|done]|done].
  - apply Forall_app. split; [done|]. by apply Forall_replicate.
Qed.
Lemma sr_intel_ok : Forall (in_range 8) (sr_module oui_intel).
Proof. apply sr_module_ok. by repeat constructor. Qed.
Lemma sr_intel_256 : length (sr_module oui_intel) = 256%nat.
Proof. done. Qed.

Definition intel_module : SfpModule :=
  i2c_module hw0 (lock_free : Z -> M Z) lock_done (sr_module oui_intel) sr_intel_ok sr_intel_256 pin_lock_ok.
Lemma intel_ops : sfp_ops (H := intel_module) media0 lan0 caps0 0 0.
Proof.
  split; intros w H.
  - by apply wp_ret.
  - apply wp_upd_hw. split; [|done]. by apply (sm_hw (SfpModule := intel_module) w).
  - by apply wp_ret.
Qed.
Lemma intel_reachable : sm_ok (SfpModule := intel_module) (sfp_world oui_intel ixgbe_phy_unknown).
Proof. unshelve eexists; [done..|]. exists 0. by split. Qed.

Lemma sfp_accepted_for_reason_witness :
  wp (ixgbe_identify_sfp_module_generic media0 lan0 (sm_read (SfpModule := intel_module)) caps0)
    (fun st w' => sfp_outcome (H := intel_module) 0 0 (w_hw (sfp_world oui_intel ixgbe_phy_unknown)) st (w_hw w'))
    (sfp_world oui_intel ixgbe_phy_unknown).
Proof.
  exact (sfp_accepted_for_reason (H := intel_module) media0 lan0 caps0 0 0 intel_ops
           (sfp_world oui_intel ixgbe_phy_unknown) intel_reachable).
Defined.
End Concrete.

(** ** Finding the initialisation sequence *)
Section Search.
Context `{D : Mmio} `{!NvmOps} (w0 : world).
Abbreviation size0 := (nv_size w0).
Abbreviation word0 := (nv_word w0).

(** the ids before entry [k] are neither wanted nor the end of the list *)
Definition skipped (base id k : Z) : Prop := 0 <= k /\
  forall j, 0 <= j < k -> word0 (base + 2 * j) <> id /\ word0 (base + 2 * j) <> IXGBE_PHY_INIT_END_NL.

(** the answer a list of (id, offset) pairs at [base] gives *)
Definition search_result (base id : Z) (r : Z * Z * Z) : Prop :=
  let '(st, lo, data) := r in
  exists k, skipped base id k /\
    let e := base + 2 * k in
    if e <? size0 then
      if word0 e =? IXGBE_PHY_INIT_END_NL then st = IXGBE_ERR_SFP_NOT_SUPPORTED
      else word0 e = id /\ lo = e + 1 /\
           if lo <? size0 then
             data = word0 lo /\
             st = (if (data =? 0) || (data =? 0xFFFF) then IXGBE_ERR_SFP_NOT_SUPPORTED else IXGBE_SUCCESS)
           else st = IXGBE_ERR_PHY
    else st = IXGBE_ERR_PHY.

Lemma offset_small x : 0 <= x <= 65535 -> u16 x = x.
Proof using. intros. apply trunc_small. unfold in_range. lia. Qed.

Lemma find_sfp_id_result fuel id base k w : as_before w0 w -> size0 <= 65534 -> 0 <= base -> skipped base id k ->
  base + 2 * k < size0 -> 65536 - (base + 2 * k) < 2 * Z.of_nat fuel ->
  wp (find_sfp_id nv_read fuel id (base + 2 * k) (word0 (base + 2 * k)))
    (fun r w' => as_before w0 w' /\ search_result base id r) w.
Proof using.
  intros Hw Hs Hb. revert k w Hw. induction fuel as [|fuel IH]; intros k w Hw [Hk Hsk] Hlt Hf; [lia|].
  cbn [find_sfp_id]. set (e := base + 2 * k) in *.
  destruct (Z.eqb_spec (word0 e) IXGBE_PHY_INIT_END_NL) as [Ee|Ee].
  { wp_step. split; [done|]. exists k. split; [done|]. cbv zeta. fold e. rewrite (proj2 (Z.ltb_lt _ _) Hlt).
    by rewrite (proj2 (Z.eqb_eq _ _) Ee). }
  destruct (Z.eqb_spec (word0 e) id) as [Ei|Ei]; cbv zeta.
  - rewrite offset_small by lia. wp_step. eapply wp_mono; [apply (read_as_before w0); [done|lia]|].
    intros [st v] w1 [Hw1 Hr].
    assert (R : forall r, (let '(s, lo, data) := r in lo = e + 1 /\ if lo <? size0 then data = word0 lo /\
        s = (if (data =? 0) || (data =? 0xFFFF) then IXGBE_ERR_SFP_NOT_SUPPORTED else IXGBE_SUCCESS) else s = IXGBE_ERR_PHY) ->
      search_result base id r).
    { intros [[s lo] data] HR. exists k. split; [done|]. cbv zeta. fold e. rewrite (proj2 (Z.ltb_lt _ _) Hlt).
      by rewrite (proj2 (Z.eqb_neq _ _) Ee). }
    destruct (Z.ltb_spec (e + 1) size0) as [Hl|Hl].
    + injection Hr as -> ->. change (negb (IXGBE_SUCCESS =? 0)) with false. cbv iota.
      destruct (_ || _) eqn:Eo; wp_step; (split; [done|]); apply R; (split; [done|]);
        rewrite (proj2 (Z.ltb_lt _ _) Hl); by rewrite Eo.
    + cbn in Hr. subst st. change (negb (IXGBE_ERR_EEPROM =? 0)) with true. cbv iota. wp_step. split; [done|].
      apply R. split; [done|]. by rewrite (proj2 (Z.ltb_ge _ _) Hl).
  - rewrite offset_small by lia. wp_step. eapply wp_mono; [apply (read_as_before w0); [done|lia]|].
    intros [st v] w1 [Hw1 Hr].
    assert (Hk' : skipped base id (k + 1)).
    { split; [lia|]. intros j Hj. destruct (decide (j = k)) as [-> |]; [done|]. apply Hsk. lia. }
    replace (e + 2) with (base + 2 * (k + 1)) in * by (unfold e; lia).
    destruct (Z.ltb_spec (base + 2 * (k + 1)) size0) as [Hl|Hl].
    + injection Hr as -> ->. change (negb (IXGBE_SUCCESS =? 0)) with false. cbv iota. apply IH; [done..|]. unfold e in *. lia.
    + cbn in Hr. subst st. change (negb (IXGBE_ERR_EEPROM =? 0)) with true. cbv iota. wp_step. split; [done|].
      exists (k + 1). split; [done|]. cbv zeta. by rewrite (proj2 (Z.ltb_ge _ _) Hl).
Qed.
End Search.

(** the id that is looked up for a module whose type has this value: from 7 on the
    values are those of limiting active cables and of modules for 1G, alternating
    between the ports, and 5 and 6 those of the SR modules of the two ports *)
Definition wanted_id (v : Z) : Z := if (7 <=? v) && (v <=? 14) then 5 + (v + 1) mod 2 else v.
Lemma wanted_init t : sfp_type_val (init_sfp_type t) = wanted_id (sfp_type_val t).
Proof. by destruct t. Qed.

(** the answer of [ixgbe_get_sfp_init_sequence_offsets] by the words of the EEPROM *)
Definition offsets_result `{D : Mmio} `{!NvmOps} (w : world) (r : Z * Z * Z) : Prop :=
  let t := sfp_type (phy (w_hw w)) in
  let list := nv_word w IXGBE_PHY_INIT_OFFSET_NL in
  if bool_decide (t = ixgbe_sfp_type_not_present) then r.1.1 = IXGBE_ERR_SFP_NOT_PRESENT
  else if bool_decide (t = ixgbe_sfp_type_unknown) ||
          (device_id (w_hw w) =? IXGBE_DEV_ID_82598_SR_DUAL_PORT_EM) && bool_decide (t = ixgbe_sfp_type_da_cu)
  then r.1.1 = IXGBE_ERR_SFP_NOT_SUPPORTED
  else if (nv_size w <=? IXGBE_PHY_INIT_OFFSET_NL) || (list =? 0) || (list =? 0xFFFF)
  then r.1.1 = IXGBE_ERR_SFP_NO_INIT_SEQ_PRESENT
  else if nv_size w <=? list + 1 then r.1.1 = IXGBE_ERR_PHY
  else search_result w (list + 1) (wanted_id (sfp_type_val t)) r.

Section Offsets.
Context `{D : Mmio} `{!NvmOps}.

Lemma offsets_effect fuel w : nv_ok w -> nv_size w <= 65534 -> 32768 <= Z.of_nat fuel ->
  wp (ixgbe_get_sfp_init_sequence_offsets nv_read fuel) (fun r w' => as_before w w' /\ offsets_result w r) w.
Proof using.
  intros Hok Hs Hf. pose proof (nv_word_range w IXGBE_PHY_INIT_OFFSET_NL Hok) as Hr. unfold in_range in Hr.
  assert (Hw : as_before w w) by by split. unfold ixgbe_get_sfp_init_sequence_offsets, offsets_result. wp_step. apply wp_get_hw. cbv zeta.
  set (t := sfp_type (phy (w_hw w))). destruct (bool_decide_reflect (t = ixgbe_sfp_type_unknown)) as [->|Hu].
  { by wp_step. }
  destruct (bool_decide (t = ixgbe_sfp_type_not_present)); [by wp_step|]. cbn [orb].
  destruct (_ && _); [by wp_step|]. wp_step. eapply wp_mono; [apply (read_as_before w); [done|by vm_compute]|].
  intros [st lst] w1 [Hw1 Er]. destruct (Z.ltb_spec IXGBE_PHY_INIT_OFFSET_NL (nv_size w)) as [Hl|Hl].
  2: { cbn in Er. subst st. change (negb (IXGBE_ERR_EEPROM =? 0)) with true. cbv iota. wp_step. split; [done|].
       by rewrite (proj2 (Z.leb_le _ _) Hl). }
  injection Er as -> ->. change (negb (IXGBE_SUCCESS =? 0)) with false. cbv iota. rewrite (proj2 (Z.leb_gt _ _) Hl). cbn [orb].
  set (p := nv_word w IXGBE_PHY_INIT_OFFSET_NL) in *.
  destruct (Z.eqb_spec p 0); [by wp_step|]. destruct (Z.eqb_spec p 0xFFFF); [by wp_step|]. cbn [orb].
  rewrite offset_small by lia. wp_step. eapply wp_mono; [apply (read_as_before w); [done|lia]|]. intros [st id] w2 [Hw2 Er].
  destruct (Z.ltb_spec (p + 1) (nv_size w)) as [Hl2|Hl2].
  2: { cbn in Er. subst st. change (negb (IXGBE_ERR_EEPROM =? 0)) with true. cbv iota. wp_step. split; [done|].
       by rewrite (proj2 (Z.leb_le _ _) Hl2). }
  injection Er as -> ->. change (negb (IXGBE_SUCCESS =? 0)) with false. cbv iota. rewrite (proj2 (Z.leb_gt _ _) Hl2).
  rewrite <- wanted_init. replace (p + 1) with ((p + 1) + 2 * 0) at 1 2 by lia. apply find_sfp_id_result; [done|done|lia| |lia|lia].
  split; [lia|]. intros j Hj. lia.
Qed.

(** C17: Finding the initialisation sequence of a module ends, for every content of the
    EEPROM (of at most 65534 words; 32768 steps are enough), and finds the first entry
    of the list: the driver skips exactly the entries that are for other modules,
    treats limiting active cables and 1G modules as SR modules of the same core, stops
    at the end mark, and reports a list that leaves the EEPROM as an error. *)
Theorem init_sequence_search w : nv_ok w -> nv_size w <= 65534 ->
  wp (ixgbe_get_sfp_init_sequence_offsets nv_read 32768) (fun r w' => as_before w w' /\ offsets_result w r) w.
Proof using. intros. by apply offsets_effect. Qed.
End Offsets.

(** ** Running the initialisation sequence *)

(** the commands of a sequence and the words that stand for them *)
Inductive nl_cmd := NlDelay (ms : Z) | NlData (reg : Z) (l : list Z) | NlStart.
Definition encode_cmd (c : nl_cmd) : list Z :=
  match c with
  | NlDelay ms => [ms]
  | NlData reg l => 0x1000 + Z.of_nat (length l) :: reg :: l
  | NlStart => [0xF000]
  end.
Definition encode_nl (p : list nl_cmd) : list Z := concat (map encode_cmd p) ++ [0xFFFF].
Definition cmd_ok (c : nl_cmd) : Prop :=
  match c with
  | NlDelay ms => 0 <= ms < 4096
  | NlData reg l => in_range 16 reg /\ (length l < 4096)%nat
  | NlStart => True
  end.
(** the register writes they mean: consecutive registers of the twinax device *)
Definition data_writes (reg : Z) (l : list Z) : list (Z * Z * Z) :=
  imap (fun i v => (IXGBE_TWINAX_DEV, u16 (reg + Z.of_nat i), v)) l.
Definition cmd_writes (c : nl_cmd) : list (Z * Z * Z) :=
  match c with NlData reg l => data_writes reg l | _ => [] end.
Definition nl_writes (p : list nl_cmd) : list (Z * Z * Z) := concat (map cmd_writes p).

Lemma data_writes_snoc reg v l :
  data_writes reg (l ++ [v]) = data_writes reg l ++ [(IXGBE_TWINAX_DEV, u16 (reg + Z.of_nat (length l)), v)].
Proof. unfold data_writes. rewrite imap_app. cbn. by rewrite Nat.add_0_r. Qed.

(** what the interpreter needs of the PHY: writes reach it in order ([io_log]), and
    PHY and EEPROM do not disturb each other *)
Class InitOps `{D : Mmio} `{!NvmOps} := {
  io_read : Z -> Z -> Z -> M (Z * Z);
  io_write : Z -> Z -> Z -> M Z;
  io_log : world -> list (Z * Z * Z);
  io_write_ok w r t v : nv_ok w ->
    wp (io_write r t v) (fun _ w' => as_before w w' /\ io_log w' = io_log w ++ [(t, r, v)]) w;
  io_read_ok w r t old : nv_ok w -> wp (io_read r t old) (fun _ w' => as_before w w' /\ io_log w' = io_log w) w;
  io_mmngc w : nv_ok w -> wp (IXGBE_READ_REG IXGBE_MMNGC) (fun _ w' => as_before w w' /\ io_log w' = io_log w) w;
  io_read_log w o : nv_ok w -> wp (nv_read o) (fun _ w' => io_log w' = io_log w) w;
  io_delay w us : nv_ok w -> wp (udelay us) (fun _ w' => as_before w w' /\ io_log w' = io_log w) w;
}.

Section Interpreter.
Context `{D : Mmio} `{N : !NvmOps} `{I : !InitOps} (w0 : world).
Abbreviation size0 := (nv_size w0).
Abbreviation word0 := (nv_word w0).

(** the EEPROM is that of [w0] and the PHY has seen the writes [log] *)
Definition running (log : list (Z * Z * Z)) (w : world) : Prop := as_before w0 w /\ io_log w = log.

Lemma as_before_trans w w' : as_before w0 w -> as_before w w' -> as_before w0 w'.
Proof using. intros (A & B & C) (A' & B' & C'). split; [done|]. split; [congruence|]. intros a. by rewrite C'. Qed.

Lemma wp_word o log (Q : Z * Z -> world -> Prop) w : running log w -> 0 <= o < 65536 ->
  (forall w', running log w' -> o < size0 -> Q (IXGBE_SUCCESS, word0 o) w') ->
  (forall v w', running log w' -> size0 <= o -> Q (IXGBE_ERR_EEPROM, v) w') ->
  wp (nv_read o) Q w.
Proof using I.
  intros [Hw Hl] Ho H1 H2. eapply wp_mono; [apply wp_conj; [by apply (read_as_before w0)|apply io_read_log, Hw]|].
  intros r w' [[Hw' Hr] Hl']. assert (running log w') by (split; [done|congruence]).
  destruct (Z.ltb_spec o size0); [subst r; by apply H1|]. destruct r as [st v]. cbn in Hr. subst st. by apply H2.
Qed.
Lemma wp_phy_write r t v log (Q : Z -> world -> Prop) w : running log w ->
  (forall st w', running (log ++ [(t, r, v)]) w' -> Q st w') -> wp (io_write r t v) Q w.
Proof using I.
  intros [Hw Hl] HQ. eapply wp_mono; [apply io_write_ok, Hw|]. intros st w' [A B]. apply HQ. split; [by eapply as_before_trans|].
  by rewrite B, Hl.
Qed.
Lemma wp_wait us log (Q : unit -> world -> Prop) w : running log w ->
  (forall w', running log w' -> Q tt w') -> wp (udelay us) Q w.
Proof using I.
  intros [Hw Hl] HQ. eapply wp_mono; [apply io_delay, Hw|]. intros [] w' [A B]. apply HQ. split; [by eapply as_before_trans|congruence].
Qed.

Lemma not_failed : negb (IXGBE_SUCCESS =? 0) = false.
Proof using. done. Qed.
Lemma failed : negb (IXGBE_ERR_EEPROM =? 0) = true.
Proof using. done. Qed.

(** a block of [n] words at [o]: all are written when they are in the EEPROM *)
Lemma nl_data_effect n o reg log w : running log w -> 0 <= o <= 65535 -> 0 <= n -> size0 <= 65535 -> in_range 16 reg ->
  wp (nl_data nv_read io_write n o reg) (fun r w' =>
    if (n =? 0) || (o + n <=? size0)
    then r = Some (o + n) /\ running (log ++ data_writes reg (word0 <$> seqZ o n)) w'
    else r = None /\ exists log', running log' w') w.
Proof using I.
  intros Hw Ho Hn Hs Hreg. unfold nl_data. wp_step.
  set (J := fun k (w' : world) => running (log ++ data_writes reg (word0 <$> seqZ o k)) w').
  eapply wp_mono.
  { apply wp_for_break with
      (Inv := fun k (acc : Z * Z) w' => acc = (o + k, u16 (reg + k)) /\ (k = 0 \/ o + k <= size0) /\ J k w')
      (Q := fun r w' => match r with
                        | inl acc => fst acc = o + n /\ (n = 0 \/ o + n <= size0) /\ J n w'
                        | inr _ => n <> 0 /\ size0 < o + n /\ exists log', running log' w'
                        end).
    - split; [|split; [by left|]].
      + rewrite !Z.add_0_r. by rewrite trunc_small.
      + unfold J. change (seqZ o 0) with (@nil Z). cbn. by rewrite app_nil_r.
    - intros k acc w1 Hk (-> & Hk' & Hj). wp_step.
      eapply (wp_word (o + k)); [exact Hj|lia| |].
      + intros w2 Hw2 Hlt. rewrite not_failed. cbv iota. wp_step. apply (wp_phy_write _ _ _ _ _ _ Hw2). intros st w3 Hw3. wp_step.
        split; [|split; [right; lia|]].
        * rewrite offset_small by lia. rewrite trunc_add_l by done. f_equal; [lia|]. f_equal. lia.
        * unfold J. rewrite seqZ_snoc by lia. rewrite fmap_app. cbn [fmap list_fmap]. rewrite data_writes_snoc, app_assoc.
          rewrite length_fmap, length_seqZ, Z2Nat.id by lia. done.
      + intros v w2 Hw2 Hge. rewrite failed. cbv iota. wp_step. split; [lia|]. split; [lia|]. eauto.
    - intros acc w1 (-> & Hk & Hj). rewrite Z2Nat.id, Z.add_0_l in * by lia. done. }
  intros [acc|u] w1 HR; wp_step.
  - destruct HR as (-> & Hk & Hj). assert (E : (n =? 0) || (o + n <=? size0) = true).
    { destruct Hk as [-> |Hk]; [done|]. rewrite (proj2 (Z.leb_le _ _) Hk). apply orb_true_r. }
    by rewrite E.
  - destruct HR as (H1 & H2 & H3). by rewrite (proj2 (Z.eqb_neq _ _) H1), (proj2 (Z.leb_gt _ _) H2).
Qed.
(** the two fields of a command word *)
Lemma control_of e : in_range 16 e ->
  Z.shiftr (Z.land e IXGBE_CONTROL_MASK_NL) IXGBE_CONTROL_SHIFT_NL = e / 4096 /\ Z.land e IXGBE_DATA_MASK_NL = e mod 4096.
Proof using.
  intros He. unfold in_range in He. change IXGBE_CONTROL_SHIFT_NL with 12. change IXGBE_DATA_MASK_NL with (Z.ones 12).
  rewrite Z.shiftr_land, Z.land_ones by lia. split; [|done]. change (Z.shiftr IXGBE_CONTROL_MASK_NL 12) with (Z.ones 4).
  rewrite Z.land_ones, Z.shiftr_div_pow2 by lia. apply Z.mod_small. split; [apply Z.div_pos; lia|]. apply Z.div_lt_upper_bound; lia.
Qed.

Lemma nl_sequence_ends fuel o log w : running log w -> size0 <= 65535 -> 0 <= o <= 65535 -> 65535 - o < Z.of_nat fuel ->
  wp (nl_sequence nv_read io_write fuel o) (fun st w' =>
    (st = IXGBE_SUCCESS \/ st = IXGBE_ERR_PHY) /\ exists log', running log' w') w.
Proof using I.
  intros Hw Hs. revert o log w Hw. induction fuel as [|fuel IH]; intros o log w Hw Ho Hf; [lia|]. cbn [nl_sequence].
  wp_step. apply (wp_word o log); [done|lia| |].
  2: { intros v w1 Hw1 _. rewrite failed. cbv iota. wp_step. eauto. }
  intros w1 Hw1 Hlt. rewrite not_failed. cbv iota zeta.
  assert (He : in_range 16 (word0 o)) by (destruct Hw as [(Hok & _ & Hx) _]; rewrite <- Hx; by apply nv_word_range).
  destruct (control_of _ He) as [-> ->]. rewrite (offset_small (o + 1)) by lia.
  destruct (_ =? IXGBE_DELAY_NL). { wp_step. apply (wp_wait _ log); [done|]. intros w2 Hw2. apply (IH _ log); [done|lia|lia]. }
  destruct (_ =? IXGBE_DATA_NL).
  { wp_step. apply (wp_word (o + 1) log); [done|lia| |].
    2: { intros v w2 Hw2 _. rewrite failed. cbv iota. wp_step. eauto. }
    intros w2 Hw2 Hlt2. rewrite not_failed. cbv iota. rewrite (offset_small (o + 1 + 1)) by lia. wp_step.
    pose proof (Z.mod_pos_bound (word0 o) 4096 ltac:(lia)) as Hm.
    eapply wp_mono; [apply (nl_data_effect _ _ _ log); [done|lia|lia|done|]|].
    { destruct Hw as [(Hok & _ & Hx) _]. rewrite <- Hx. by apply nv_word_range. }
    intros r w3. destruct (Z.eqb_spec (word0 o mod 4096) 0) as [E0|E0]; cbn [orb].
    - intros [-> Hw3]. eapply IH; [exact Hw3|lia|lia].
    - destruct (Z.leb_spec (o + 1 + 1 + word0 o mod 4096) size0) as [E1|E1]; intros [-> Hw3].
      + eapply IH; [exact Hw3|lia|lia].
      + wp_step. eauto. }
  destruct (_ =? IXGBE_CONTROL_NL); [|wp_step; eauto].
  destruct (_ =? IXGBE_CONTROL_EOL_NL); [wp_step; eauto|].
  destruct (_ =? IXGBE_CONTROL_SOL_NL); [|wp_step; eauto]. apply (IH _ log); [done|lia|lia].
Qed.

(** the EEPROM holds the words [l] at [o] *)
Definition words_held (l : list Z) (o : Z) : Prop :=
  word0 <$> seqZ o (Z.of_nat (length l)) = l /\ o + Z.of_nat (length l) <= size0.
Lemma words_held_app l1 l2 o : words_held (l1 ++ l2) o -> words_held l1 o /\ words_held l2 (o + Z.of_nat (length l1)).
Proof using.
  unfold words_held. rewrite length_app, Nat2Z.inj_add, seqZ_app, fmap_app by lia. intros [E B].
  apply app_inj_1 in E as [E1 E2]; [|by rewrite length_fmap, length_seqZ, Nat2Z.id]. split; split; done || lia.
Qed.
Lemma words_held_cons x l o : words_held (x :: l) o -> word0 o = x /\ o < size0 /\ words_held l (o + 1).
Proof using.
  intros Hh. destruct (words_held_app [x] l o Hh) as [[E B] H2]. split; [by injection E|]. split; [cbn in B; lia|done].
Qed.

Lemma fields c x : 0 <= x < 4096 -> (c * 4096 + x) / 4096 = c /\ (c * 4096 + x) mod 4096 = x.
Proof using.
  intros Hx. split; zlia.
Qed.

(** C16: The initialisation sequence is executed as written: when the EEPROM holds the
    encoding of a list of commands, the interpreter of [ixgbe_reset_phy_nl] performs
    exactly the PHY register writes the commands mean, in their order, and succeeds. *)
Theorem nl_sequence_runs p fuel o log w : running log w -> size0 <= 65535 -> 0 <= o -> Forall cmd_ok p ->
  words_held (encode_nl p) o -> (length p < fuel)%nat ->
  wp (nl_sequence nv_read io_write fuel o) (fun st w' =>
    st = IXGBE_SUCCESS /\ running (log ++ nl_writes p) w') w.
Proof using I.
  intros Hw Hs. revert o log w fuel Hw. induction p as [|c p IH]; intros o log w fuel Hw Ho Hp Hh Hf.
  - destruct fuel as [|fuel]; [cbn in Hf; lia|]. cbn [nl_sequence]. apply words_held_cons in Hh as (E & Hlt & _). wp_step. apply (wp_word o log); [done|lia| |lia].
    intros w1 Hw1 _. rewrite E, not_failed. cbv iota zeta.
    match goal with |- wp ?m _ _ => change m with (mret IXGBE_SUCCESS : M Z) end. wp_step. split; [done|]. cbn. by rewrite app_nil_r.
  - destruct fuel as [|fuel]; [cbn in Hf; lia|]. cbn [nl_sequence]. inversion_clear Hp as [|? ? Hc Hp']. assert (Hf' : (length p < fuel)%nat) by (cbn in Hf; lia).
    unfold encode_nl in Hh. cbn [map concat] in Hh. rewrite <- app_assoc in Hh.
    destruct c as [ms|reg l|]; cbn [encode_cmd app] in Hh; apply words_held_cons in Hh as (E & Hlt & Hh);
      (wp_step; apply (wp_word o log); [done|lia| |lia]); intros w1 Hw1 _; rewrite E, not_failed; cbv iota zeta;
      rewrite (offset_small (o + 1)) by lia.
    + destruct (control_of ms) as [-> ->]; [unfold in_range; cbn in Hc; lia|].
      destruct (fields 0 ms Hc) as [F1 F2]. rewrite Z.mul_0_l, Z.add_0_l in F1, F2. rewrite F1, F2.
      change (0 =? IXGBE_DELAY_NL) with true. cbv iota. wp_step. apply (wp_wait _ log); [done|]. intros w2 Hw2.
      apply IH; [done|lia|done..].
    + destruct Hc as [Hr Hl]. destruct (control_of (0x1000 + Z.of_nat (length l))) as [-> ->]; [unfold in_range; lia|].
      destruct (fields 1 (Z.of_nat (length l))) as [F1 F2]; [lia|]. rewrite Z.mul_1_l in F1, F2.
      change 0x1000 with 4096. rewrite F1, F2. change (1 =? IXGBE_DELAY_NL) with false. change (1 =? IXGBE_DATA_NL) with true.
      cbv iota. apply words_held_cons in Hh as (E2 & Hlt2 & Hh). wp_step.
      apply (wp_word (o + 1) log); [done|lia| |lia]. intros w2 Hw2 _. rewrite E2, not_failed. cbv iota.
      rewrite (offset_small (o + 1 + 1)) by lia. apply words_held_app in Hh as [[Hd Hb] Hh]. wp_step.
      eapply wp_mono; [by apply (nl_data_effect _ _ _ log); [done|lia|lia|done|]|]. intros r w3.
      rewrite (proj2 (Z.leb_le _ _) Hb), orb_true_r, Hd. intros [-> Hw3].
      unfold nl_writes. cbn [map concat cmd_writes]. rewrite app_assoc. apply IH; [done|lia|done..].
    + match goal with |- wp ?m _ _ => change m with (nl_sequence nv_read io_write fuel (o + 1)) end.
      apply IH; [done|lia|done..].
Qed.
End Interpreter.

Section Reset.
Context `{D : Mmio} `{N : !NvmOps} `{I : !InitOps}.

Lemma offsets_range w st lo data : nv_ok w -> offsets_result w (st, lo, data) ->
  In st [IXGBE_SUCCESS; IXGBE_ERR_PHY; IXGBE_ERR_SFP_NOT_PRESENT; IXGBE_ERR_SFP_NOT_SUPPORTED; IXGBE_ERR_SFP_NO_INIT_SEQ_PRESENT] /\
  (st = IXGBE_SUCCESS -> 0 < data < 65535).
Proof using.
  intros Hok. unfold offsets_result. cbn [fst].
  assert (K : forall x, In x [IXGBE_ERR_PHY; IXGBE_ERR_SFP_NOT_PRESENT; IXGBE_ERR_SFP_NOT_SUPPORTED; IXGBE_ERR_SFP_NO_INIT_SEQ_PRESENT] -> st = x ->
    In st [IXGBE_SUCCESS; IXGBE_ERR_PHY; IXGBE_ERR_SFP_NOT_PRESENT; IXGBE_ERR_SFP_NOT_SUPPORTED; IXGBE_ERR_SFP_NO_INIT_SEQ_PRESENT] /\
    (st = IXGBE_SUCCESS -> 0 < data < 65535)).
  { intros x Hx ->. split; [by right|]. intros ->. by repeat destruct Hx as [Hx|Hx]. }
  repeat match goal with |- context [if ?b then _ else _] => destruct b; [apply K; cbn; tauto|] end.
  intros (k & _ & HR). cbv zeta in HR. destruct (_ <? nv_size w); [|apply (K _) in HR; cbn; tauto].
  destruct (_ =? IXGBE_PHY_INIT_END_NL); [apply (K _) in HR; cbn; tauto|]. destruct HR as (_ & -> & HR).
  destruct (_ <? nv_size w); [|apply (K _) in HR; cbn; tauto]. destruct HR as [-> HR].
  pose proof (nv_word_range w (nv_word w IXGBE_PHY_INIT_OFFSET_NL + 1 + 2 * k + 1) Hok) as Hr. unfold in_range in Hr.
  destruct (Z.eqb_spec (nv_word w (nv_word w IXGBE_PHY_INIT_OFFSET_NL + 1 + 2 * k + 1)) 0); cbn [orb] in HR; [apply (K _) in HR; cbn; tauto|].
  destruct (Z.eqb_spec (nv_word w (nv_word w IXGBE_PHY_INIT_OFFSET_NL + 1 + 2 * k + 1)) 0xFFFF); cbn [orb] in HR; [apply (K _) in HR; cbn; tauto|].
  split; [by left|lia].
Qed.

(** C18: [ixgbe_reset_phy_nl] ends, whatever the PHY answers and whatever the list of
    modules and the initialisation sequence in the EEPROM contain (of at most 65534
    words): 65536 steps of its two unbounded loops are enough.  The EEPROM is
    unchanged. *)
Theorem reset_phy_nl_ends w : nv_ok w -> nv_size w <= 65534 ->
  wp (ixgbe_reset_phy_nl nv_read io_read io_write (Z.to_nat 65536)) (fun st w' => as_before w w' /\
    In st [IXGBE_SUCCESS; IXGBE_ERR_PHY; IXGBE_ERR_SFP_NOT_PRESENT; IXGBE_ERR_SFP_NOT_SUPPORTED; IXGBE_ERR_SFP_NO_INIT_SEQ_PRESENT]) w.
Proof using I.
  intros Hok Hs. assert (K : forall w1 w2 w3, as_before w1 w2 -> as_before w2 w3 -> as_before w1 w3) by (intros; by eapply as_before_trans).
  assert (Hw : as_before w w) by by split. unfold ixgbe_reset_phy_nl. wp_step.
  eapply wp_mono with (P := fun _ w' => as_before w w').
  { unfold ixgbe_check_reset_blocked. wp_step. apply wp_get_hw. wp_step; [by wp_step|]. wp_step.
    eapply wp_mono; [by apply io_mmngc|]. intros v w1 [H1 _]. by wp_step. }
  intros blocked w1 H1. wp_step. { wp_step. split; [done|]. cbn. tauto. }
  wp_step. eapply wp_mono; [apply io_read_ok, H1|]. intros x w2 [H2 _]. apply (K w) in H2; [|done]. wp_step.
  eapply wp_mono; [apply io_write_ok, H2|]. intros st w3 [H3 _]. apply (K w) in H3; [|done]. wp_step.
  eapply wp_mono.
  { apply wp_for_break with (Inv := fun _ _ w' => as_before w w') (Q := fun _ w' => as_before w w'); [done| |done].
    intros k d w4 _ H4. wp_step. eapply wp_mono; [apply io_read_ok, H4|]. intros y w5 [H5 _]. apply (K w) in H5; [|done].
    wp_step; [by wp_step|]. wp_step. eapply wp_mono; [apply io_delay, H5|]. intros [] w6 [H6 _]. wp_step. by apply (K w w5). }
  intros r w4 H4. cbv zeta. wp_step. { wp_step. split; [done|]. cbn. tauto. }
  wp_step. destruct H4 as (Hok4 & Hs4 & Hx4). eapply wp_mono; [apply offsets_effect; [done|lia|by vm_compute]|].
  intros [[st' lo] data] w5 [H5 Hr]. destruct (offsets_range _ _ _ _ Hok4 Hr) as [Hst Hd].
  assert (H5' : as_before w w5) by by apply (K w w4).
  destruct (Z.eqb_spec st' IXGBE_SUCCESS) as [E|E]; cbn [negb]; [|by wp_step].
  specialize (Hd E). wp_step. eapply wp_mono; [apply (read_as_before w); [done|lia]|]. intros y w6 [H6 _].
  rewrite offset_small by lia.
  eapply wp_mono; [apply (nl_sequence_ends w _ _ (io_log w6)); [by split|lia|lia|rewrite Z2Nat.id; lia]|].
  intros st2 w7 [Hst2 (log' & H7 & _)]. split; [done|]. cbn. destruct Hst2 as [-> | ->]; tauto.
Qed.
End Reset.

(** ** A concrete EEPROM and PHY *)
(** the words of the EEPROM, and the register writes the PHY has seen *)
#[local] Instance store : Mmio := {|
  dev := list Z * list (Z * Z * Z); dev_read d _ := (0, d); dev_write d _ _ := d; dev_delay d _ := d |}.
Definition st_word (w : world) (o : Z) : Z := if o <? 0 then 0 else u16 (nth (Z.to_nat o) (w_dev w).1 0).
Definition st_read (o : Z) : M (Z * Z) := fun w =>
  Done (if o <? Z.of_nat (length (w_dev w).1) then (IXGBE_SUCCESS, st_word w o) else (IXGBE_ERR_EEPROM, 0)) w.
Definition st_write (o v : Z) : M Z := fun w =>
  Done IXGBE_SUCCESS (mk_world store (w_hw w) (<[Z.to_nat o := v]> (w_dev w).1, (w_dev w).2) (w_log w)).
Definition st_phy_read (r t old : Z) : M (Z * Z) := mret (IXGBE_SUCCESS, 0).
Definition st_phy_write (r t v : Z) : M Z := fun w =>
  Done IXGBE_SUCCESS (mk_world store (w_hw w) ((w_dev w).1, (w_dev w).2 ++ [(t, r, v)]) (w_log w)).
Definition st_ok (w : world) : Prop := mapped w /\ Z.of_nat (length (w_dev w).1) < 65536.

#[local] Instance store_nvm : NvmOps.
Proof.
  refine {| nv_read := st_read; nv_write := st_write; nv_ok := st_ok;
            nv_size w := Z.of_nat (length (w_dev w).1); nv_word := st_word |}.
  - by intros w [_ ?].
  - intros w o _. unfold st_word. destruct (_ <? _); [done|]. by apply trunc_range.
  - intros w o Hok Ho. unfold wp, st_read. rewrite (proj2 (Z.ltb_lt _ _)) by lia. done.
  - intros w o Hok Ho. unfold wp, st_read. rewrite (proj2 (Z.ltb_ge _ _)) by lia. done.
  - intros w o v [Hm Hs] Ho Hv. unfold wp, st_write. cbn. split; [done|]. unfold st_ok, st_word. cbn. rewrite length_insert.
    split; [done|]. split; [done|]. intros a. destruct (Z.ltb_spec a 0), (decide (a = o)) as [-> |Hne]; try lia; try done.
    + rewrite nth_lookup, list_lookup_insert_eq by lia. by apply trunc_small.
    + by rewrite !nth_lookup, list_lookup_insert_ne by lia.
Defined.

#[local] Instance store_init : InitOps.
Proof.
  assert (K : forall w : world, st_ok w -> forall d2 log, as_before w (mk_world store (w_hw w) ((w_dev w).1, d2) log)).
  { intros w Hok d2 log. split; [exact Hok|]. by split. }
  assert (K' : forall w w' : world, st_ok w -> settled w w' -> as_before w w' /\ (w_dev w').2 = (w_dev w).2).
  { intros w w' Hok [E1 E2]. replace w' with (mk_world store (w_hw w) ((w_dev w).1, (w_dev w).2) (w_log w')); [split; [by apply K|done]|].
    destruct w as [? [? ?] ?], w' as [? [? ?] ?]. cbn in *. by simplify_eq. }
  refine {| io_read := st_phy_read; io_write := st_phy_write; io_log w := (w_dev w).2 |}.
  - intros w r t v Hok. split; [by apply K|done].
  - intros w r t old Hok. apply wp_ret. by apply K'.
  - intros w Hok. eapply wp_mono; [eapply (read_settled _ 0 0); try done; apply Hok|]. intros x w' [_ Hs]. by apply K'.
  - done.
  - intros w us Hok. apply wp_udelay. by apply K'.
Defined.

(** the list of modules at word 4: an entry for DA cables, one for SR modules whose
    sequence is at word 10 (after its CRC), the end; the rest of the EEPROM *)
Definition nl_prog : list nl_cmd := [NlStart; NlDelay 5; NlData 0xC101 [0x1234; 0x5678]].
Definition nvm_image : list Z :=
  [0; 0; 0; 0; 0xABCD; 3; 20; 5; 10; 0xFFFF; 0xBEEF] ++ encode_nl nl_prog ++ replicate 25 0 ++ [4; 0; 0; 0; 0].
Definition hw_sr : ixgbe_hw :=
  upd_mac (upd_mac_type ixgbe_mac_82598EB (mac hw0)) (upd_phy (upd_sfp_type ixgbe_sfp_type_srlr_core0 (phy hw0)) hw0).
Definition nvm_world : world := mk_world store hw_sr (nvm_image, []) [].

Example reset_phy_nl_runs :
  match ixgbe_reset_phy_nl st_read st_phy_read st_phy_write 20 nvm_world with
  | Done st w => (st, (w_dev w).2) = (IXGBE_SUCCESS, [(4, 0, 0x8000); (1, 0xC101, 0x1234); (1, 0xC102, 0x5678)])
  | Fault _ => False
  end.
Proof. by vm_compute. Qed.

Lemma nvm_world_ok : nv_ok nvm_world.
Proof. by repeat split. Qed.
Lemma init_sequence_search_witness :
  wp (ixgbe_get_sfp_init_sequence_offsets nv_read 32768)
    (fun r w' => as_before nvm_world w' /\ offsets_result nvm_world r) nvm_world.
Proof. apply (init_sequence_search nvm_world); [exact nvm_world_ok|by vm_compute]. Defined.
Lemma nvm_running : running nvm_world [] nvm_world.
Proof. split; [|done]. split; [exact nvm_world_ok|]. by split. Qed.
Lemma nl_prog_ok : Forall cmd_ok nl_prog.
Proof.
  constructor; [done|]. constructor; [cbn; lia|]. constructor; [|done]. split; [done|]. cbn [length]. lia.
Qed.
Lemma nl_prog_held : words_held nvm_world (encode_nl nl_prog) 11.
Proof. by split; vm_compute. Qed.
Lemma nl_sequence_runs_witness :
  wp (nl_sequence nv_read io_write 4 11) (fun st w' =>
    st = IXGBE_SUCCESS /\ running nvm_world ([] ++ nl_writes nl_prog) w') nvm_world.
Proof.
  apply (nl_sequence_runs nvm_world nl_prog 4 11 [] nvm_world);
    [exact nvm_running|by vm_compute|done|exact nl_prog_ok|exact nl_prog_held|cbn; lia].
Defined.
Lemma reset_phy_nl_ends_witness :
  wp (ixgbe_reset_phy_nl nv_read io_read io_write (Z.to_nat 65536)) (fun st w' => as_before nvm_world w' /\
    In st [IXGBE_SUCCESS; IXGBE_ERR_PHY; IXGBE_ERR_SFP_NOT_PRESENT; IXGBE_ERR_SFP_NOT_SUPPORTED; IXGBE_ERR_SFP_NO_INIT_SEQ_PRESENT]) nvm_world.
Proof. apply (reset_phy_nl_ends nvm_world); [exact nvm_world_ok|by vm_compute]. Defined.
